(* ===== verification/_CoqProject ===== *)
-Q . S2P
Prelude.v
PyStr.v
PyJson.v
Codec.v
PyInt.v
Models.v
IsoTime.v
Storage.v
Paging.v
StoreSpec.v
PyUrl.v
Redirects.v
JwksUri.v
Migrations.v
Limits.v
TtlStores.v
Limiter.v
Resilience.v
Keys.v
Jwt.v
SocialBreaker.v
App.v
PyDumps.v
Conformance.v
Admin.v
EventBus.v
Tokens.v
Dpop.v
ClientAuth.v
Register.v
AdminClients.v
AdminRoutes.v
JwtBearer.v
TokenEndpoint.v
Jar.v
Authorize.v
DeviceFlow.v
Login.v
Logout.v
Social.v
ToyJwt.v
TokenLemmas.v
TokenOps.v
TokenProps.v
AuthProps.v
AuthorizeProps.v
DeviceProps.v
Pushed.v
LoginProps.v
Middleware.v
RegisterProps.v
GrantProps.v
ReplayProps.v
TokenErrors.v
Introspect.v
DpopProps.v
AdminProps.v
AdminEffects.v
UserInfo.v
Discovery.v
LogoutProps.v
SocialProps.v
EventsProps.v
ConformanceProps.v
ReportGate.v
Startup.v
StartupProps.v
Process.v
Pages.v
Metrics.v
Stack.v
MongoDoc.v
SqlText.v
Mongo.v
MongoProps.v
MongoOps.v
MongoRun.v
MongoToy.v
MongoHeal.v
Backend.v
