(* ===== verification/Prelude.v ===== *)
(** * A verification of python-oauth2-server

    The program ([src/src/oauth2_server/]) is an OAuth 2.0 / OpenID Connect
    authorization server: FastAPI routes over a SQL store, a few in-process
    stores of the application state, and libraries for JWTs, argon2 and HTTP.
    This development models the server from its start to its endpoints, as
    executable Rocq definitions, and proves what they guarantee.

    ** Layers and files

    Foundations:
    - Prelude: results, the state-and-exception monad, walking tactics,
      list lemmas shared by the tables.
    - PyStr, PyInt, PyJson, PyDumps, Codec, PyUrl, IsoTime: the Python the code
      uses - [str] methods on UTF-8 byte strings, [int(s)], [json.loads] with
      its recursion and digit limits (and an [object_pairs_hook] that refuses
      duplicates), [json.dumps] with the round trip of string lists, SHA-256,
      HMAC, base64, [urlsplit], [unquote_plus], [isoformat]. They compute;
      their examples are test vectors.
    - Models ([models.py], [errors.py]): the records, exceptions, responses.
    - Jwt ([security.py]) and the class [JwtLib] of the JWT and password
      libraries; App ([app.py], [config.py]): [AppState], the monad [M] of the
      handlers, and the class [Runtime] of the random sources.
    - ToyJwt: concrete instances of the classes and a small server state, on
      which the witnesses of conditional theorems run.

    Storage and state:
    - Storage ([storage/sql.py]): the tables as lists of rows, one definition
      per [SqlStorage] method; StoreSpec: the integrity constraints as an
      invariant [store_ok], every writing method as an [op], and the contracts
      the handlers rely on (one-time claims, family revocation, upsert).
      Paging ([storage/paging.py] and the [list_*] methods). Migrations
      ([storage/migrations.py]): the runner over an abstract engine.
    - MongoDoc, Mongo ([storage/mongo.py]): the second back end, as calls on a
      driver of documents; MongoProps (the driver's laws, documents that
      represent rows), MongoOps (one call, one operation),
      MongoRun (any history): its refinement of the tables of Storage. MongoToy:
      a driver that keeps the laws. MongoHeal: the healer of native dates, over
      documents with BSON values. SqlText: the column lists, and times as the
      text that SQLite compares.
    - Backend ([storage/base.py]): the protocol as a class with laws, and both
      back ends as its instances; what follows from the laws holds over either.
    - Limits ([services/limits.py], [rar.py], [resource.py]): input limits.
    - TtlStores: the in-process stores that forget, over one generic [sweep]:
      [Par] ([services/par.py]), [Replay] (the DPoP and assertion guards),
      [FixedWindow] ([services/ratelimit.py]), [DevicePoll]
      ([services/device_poll.py]). Limiter: the token bucket
      ([services/limiter.py]). Keys: the key set ([keys.py]). Resilience: the
      circuit breaker, the concurrency limiter and their middleware
      ([services/resilience.py], [middleware_ratelimit.py]).

    Services and endpoints (a handler's properties follow it in its file or are
    in a [..Props] companion):
    - Tokens ([services/tokens.py], [id_token.py], [claims_request.py],
      [auth.py]), Dpop ([services/dpop.py], [dpop_nonce.py]), ClientAuth
      ([services/clients.py], [client_assertion.py], [jwks_cache.py],
      [mtls.py]), JwtBearer ([services/jwt_bearer_grant.py]), Jar
      ([services/jar.py]), Redirects ([services/clients.py],
      [services/authorize_response.py]), JwksUri ([services/clients.py]).
    - TokenEndpoint ([routes/token.py]): the whole handler, one definition per
      grant. TokenLemmas, TokenOps: inversion of its runs, and the fact that
      all its storage effects are sequences of [op]s. TokenProps, AuthProps,
      GrantProps, ReplayProps, TokenErrors, DpopProps: the properties.
    - Authorize ([routes/authorize.py]), Pushed ([routes/par.py]), DeviceFlow
      with DeviceProps ([routes/device.py]), Introspect
      ([routes/introspect.py]), Register ([routes/register.py]), Login
      ([routes/login.py], [sessions.py]), Logout ([routes/logout.py]), Pages (the
      sign-in page and the script of the check_session page), UserInfo and
      Discovery ([routes/wellknown.py]).
    - Social ([services/social.py], [routes/social.py]) with SocialBreaker, the
      circuit breaker refined against a three-phase specification.
    - Admin, AdminClients, AdminRoutes ([routes/admin/]), with
      AdminProps (who gets in, what is recorded) and AdminEffects (what each
      mutation does to the rest of the server).
    - EventBus with EventsProps ([services/events_bus.py], [services/events.py],
      [routes/events.py]): plugins, filter, queued fan-out, ingest.
    - Middleware ([middleware.py], [middleware_ratelimit.py]): the denylist, the
      rate limit and the security headers around any handler. Metrics
      ([services/metrics.py], [MetricsMiddleware]): the families and the
      counting of requests. Stack: all layers together, requests arriving,
      waiting in their handlers and completing.
    - Conformance ([conformance.py]): the seed document, the production guard,
      the application of the seed. Startup ([config.py], [bootstrap.py],
      [storage/factory.py], [app.py], [routes/system.py]): from the environment
      to a serving application. Process ([__main__.py], [telemetry.py], the
      session key of [security.py]): the parent process and tracing. ReportGate
      ([scripts/check_conformance_report.py]): the gate of the conformance run.

    ** How code is represented

    A handler is a function [AppState -> result exn A * AppState]: a raised
    exception keeps the changes made before it. The clocks are fields of the
    state and stand still while a handler runs; where the code awaits the
    storage between reading a credential and claiming it, the handler is split
    into [.._check] and [.._commit], and the interleaving theorems let any other
    writes happen in between. Seconds of [time.time()] are microseconds of
    [a_wall], seconds of [time.monotonic()] nanoseconds of [a_mono]. A table is
    the list of its rows, an UPDATE a map over it, its row count the number of
    rows that matched. Strings are UTF-8 byte strings. Random values come from a
    supply indexed by the number of draws, with no assumption of freshness
    (seeding excepted, see below): a collision with a stored value makes the
    insert fail, as in the code. Sessions are values that a request carries and
    a response sets.

    ** Parameters

    Code outside [src/] is a parameter: PyJWT, cryptography and argon2 ([JwtLib],
    [public_numbers], the key generation [hs256_secret] and [rs256_pem]), the
    network ([Http], [ProviderHttp]), [secrets] and [uuid] ([Runtime],
    [token_urlsafe_64], [token_bytes]), the check of bracketed hosts in
    [urlsplit] ([cbn_]), [inet_aton], [fromisoformat], [py_casefold], SQLAlchemy's
    [make_url] and its engines ([Engine]), PyYAML and the file system
    ([yaml_load], [read_text], [repr]). Six groups of theorems assume documented
    laws: [Migrations.engine_laws] (a query changes nothing, the advisory lock is
    granted); in [ConformanceProps.seed_applied], that two draws of
    [uuid4().hex] differ; [MongoProps.mongo_laws] (MongoDB's collection methods
    and unique indexes, whose only error is the duplicate key);
    [Metrics.prometheus_laws] (prometheus_client's names and series);
    [TokenErrors.JwtErrors] (what PyJWT raises); [MongoHeal.bson_laws] (the search
    by type and the update of one document). The
    others state which call succeeded with which arguments.

    ** What the theorems show

    - Storage: every write preserves the constraints; marking a code used is an
      atomic claim that succeeds at most once; revoking a family revokes it all.
      The MongoDB back end refines the same tables: equal results, errors
      included, equal lookups and equal pages after every history of writes; its
      start-up healer is one pass over the documents. Over either back end a
      claim succeeds once and a revocation is final. SQLite's text comparison
      of times is right but within one second.
    - Token endpoint: a 200 response with a token exists only for a client that
      authenticated by its registered method, and for a credential that was good
      at that moment; codes are redeemed at most once under every interleaving;
      replays revoke the family; refusals leave the storage alone and have the
      shape of RFC 6749; the handler preserves the constraints. The refresh rotation is not a claim: two
      concurrent refreshes both succeed.
    - Authorization endpoint: what a code is issued for, that answers go to
      registered addresses only, and that an issued code can be redeemed. Login,
      social login, device verification: who ends up signed in, and when.
      Pushed requests, introspection, userinfo, logout and discovery: what is
      honoured and what is disclosed to whom.
    - Administration: nobody but an administrator gets in, every mutation leaves
      one audit record, disabling a user locks the user out everywhere.
    - DPoP: what an accepted proof establishes, no replay within 660 s, nonces
      valid for one to two lifetimes and only with the right HMAC.
    - Stores, limiters, breakers, event bus: each agrees with a specification
      over the history of its operations; sweeping is invisible; the breakers
      keep their invariants under every interleaving; the bus delivers each
      emitted envelope once, in order, to every plugin. The middleware stack
      refines the application serving admitted requests one after another, with
      exact metrics.
    - Start: a server that starts has a strong secret and a state that satisfies
      the invariants above; conformance mode is fail-closed and applies exactly
      its seed; migrations run once each, in order, and a second start changes
      nothing.
    - Input limits: the depth walk terminates and agrees with recursive depth;
      the RAR parser accepts exactly the documented inputs.

    ** Bounds and fuel

    [json_loads] recurses on the length of its input plus one, which suffices
    ([PyJson.json_loads_total]); [depth_walk] on the number of nodes of the
    value ([Limits.check_depth_equiv]). [json_limit] is the interpreter's
    recursion limit, a parameter; toy runs use 900.

    ** Not modelled

    The benchmark ([scripts/bench.py]) and the tests. The reading of the
    environment by pydantic and its lax coercions; the wiring of routers, CORS
    and the cookie codec; the set-up of database engines, tracing exporters and
    the HTTP client, which are calls of their libraries. Of [conformance.py] the
    YAML loader class (an override of PyYAML's constructor; [yaml_load] is its
    outcome) and [Seed.__repr__]. Back-channel notifications are posted one
    after another. Of the HTML pages, the sign-in page and the script of
    check_session are modelled as text. Unicode case folding beyond ASCII and
    NFKC normalisation of hosts are not modelled. *)

From stdpp Require Export base gmap strings list fin_maps.
From Stdlib Require Export ZArith Lia.
From Stdlib Require Export Ascii.

#[global] Set Default Goal Selector "!".
#[global] Open Scope Z_scope.

(** ** Results and the state-and-exception monad

    A Python function either returns a value or raises; a raised exception
    keeps the state changes made before it.  [result E A] is the outcome of a
    pure computation, [ST S E A] the one of a computation over a state [S]. *)
Inductive result (E A : Type) : Type :=
| Ok (a : A)
| Err (e : E).
Arguments Ok {E A} a.
Arguments Err {E A} e.

Definition rbind {E A B} (m : result E A) (k : A -> result E B) : result E B :=
  match m with Ok a => k a | Err e => Err e end.

Definition rmap {E A B} (f : A -> B) (m : result E A) : result E B :=
  match m with Ok a => Ok (f a) | Err e => Err e end.

(** [try: ... except E as e: h] *)
Definition rcatch {E A} (m : result E A) (h : E -> result E A) : result E A :=
  match m with Ok a => Ok a | Err e => h e end.

Definition is_ok {E A} (m : result E A) : bool :=
  match m with Ok _ => true | Err _ => false end.

Definition ST (S E A : Type) : Type := S -> result E A * S.

Definition sret {S E A} (a : A) : ST S E A := fun s => (Ok a, s).
Definition sraise {S E A} (e : E) : ST S E A := fun s => (Err e, s).
Definition sbind {S E A B} (m : ST S E A) (k : A -> ST S E B) : ST S E B :=
  fun s => match m s with
           | (Ok a, s1) => k a s1
           | (Err e, s1) => (Err e, s1)
           end.
Definition scatch {S E A} (m : ST S E A) (h : E -> ST S E A) : ST S E A :=
  fun s => match m s with
           | (Ok a, s1) => (Ok a, s1)
           | (Err e, s1) => h e s1
           end.
Definition slift {S E A} (m : result E A) : ST S E A := fun s => (m, s).
Definition sget {S E A} (f : S -> A) : ST S E A := fun s => (Ok (f s), s).
Definition smod {S E} (f : S -> S) : ST S E unit := fun s => (Ok tt, f s).

(** [for x in l: body], and a comprehension whose items can raise. *)
Fixpoint each_m {S E A} (body : A -> ST S E unit) (l : list A) : ST S E unit :=
  match l with [] => sret tt | x :: l => sbind (body x) (fun _ => each_m body l) end.
Fixpoint map_ok {E A B} (f : A -> result E B) (l : list A) : result E (list B) :=
  match l with [] => Ok [] | x :: l => rbind (f x) (fun y => rbind (map_ok f l) (fun ys => Ok (y :: ys))) end.

Declare Scope oauth_scope.
Delimit Scope oauth_scope with oauth.
Notation "'let?' x := m 'in' k" := (rbind m (fun x => k))
  (at level 200, x pattern, m at level 200, k at level 200) : oauth_scope.
Notation "'let!' x := m 'in' k" := (sbind m (fun x => k))
  (at level 200, x pattern, m at level 200, k at level 200) : oauth_scope.
Notation "m '!;' k" := (sbind m (fun _ => k))
  (at level 100, k at level 200, right associativity) : oauth_scope.
#[global] Open Scope oauth_scope.

(** A computation that never changes the state. *)
Definition reads {S E A} (m : ST S E A) : Prop := forall s, snd (m s) = s.

Lemma reads_ret {S E A} (a : A) : reads (S:=S) (E:=E) (sret a).
Proof. done. Qed.
Lemma reads_raise {S E A} (e : E) : reads (S:=S) (A:=A) (sraise e).
Proof. done. Qed.
Lemma reads_get {S E A} (f : S -> A) : reads (E:=E) (sget f).
Proof. done. Qed.
Lemma reads_lift {S E A} (m : result E A) : reads (S:=S) (slift m).
Proof. done. Qed.
Lemma reads_bind {S E A B} (m : ST S E A) (k : A -> ST S E B) :
  reads m -> (forall a, reads (k a)) -> reads (sbind m k).
Proof.
  intros Hm Hk s. unfold sbind. specialize (Hm s).
  destruct (m s) as [[a|e] s1]; simpl in *; subst; [apply Hk|done].
Qed.
Lemma reads_catch {S E A} (m : ST S E A) (h : E -> ST S E A) :
  reads m -> (forall e, reads (h e)) -> reads (scatch m h).
Proof.
  intros Hm Hk s. unfold scatch. specialize (Hm s).
  destruct (m s) as [[a|e] s1]; simpl in *; subst; [done|apply Hk].
Qed.

(** [keeps P m]: running [m] from a state in [P], normally or with an
    exception, ends in a state in [P]. *)
Definition keeps {S E A} (P : S -> Prop) (m : ST S E A) : Prop :=
  forall s, P s -> P (snd (m s)).

Lemma keeps_reads {S E A} (P : S -> Prop) (m : ST S E A) : reads m -> keeps P m.
Proof. intros H s Hs. by rewrite H. Qed.
Lemma keeps_mod {S E} (P : S -> Prop) (f : S -> S) :
  (forall s, P s -> P (f s)) -> keeps (E:=E) P (smod f).
Proof. intros H s Hs. by apply H. Qed.
Lemma keeps_bind {S E A B} (P : S -> Prop) (m : ST S E A) (k : A -> ST S E B) :
  keeps P m -> (forall a, keeps P (k a)) -> keeps P (sbind m k).
Proof.
  intros Hm Hk s Hs. unfold sbind. specialize (Hm s Hs).
  destruct (m s) as [[a|e] s1]; simpl in *; [by apply Hk|done].
Qed.
Lemma keeps_catch {S E A} (P : S -> Prop) (m : ST S E A) (h : E -> ST S E A) :
  keeps P m -> (forall e, keeps P (h e)) -> keeps P (scatch m h).
Proof.
  intros Hm Hk s Hs. unfold scatch. specialize (Hm s Hs).
  destruct (m s) as [[a|e] s1]; simpl in *; [done|by apply Hk].
Qed.

Create HintDb oauth.
#[export] Hint Resolve reads_ret reads_raise reads_get reads_lift reads_bind
  reads_catch keeps_reads keeps_bind keeps_catch : oauth.

(** Walks through the branches of a [reads]/[keeps] goal. *)
Ltac st_walk :=
  repeat first
    [ progress intros
    | match goal with
      | |- reads (if ?b then _ else _) => destruct b
      | |- reads (match ?x with _ => _ end) => destruct x
      | |- keeps _ (if ?b then _ else _) => destruct b
      | |- keeps _ (match ?x with _ => _ end) => destruct x
      end
    | solve [eauto with oauth]
    | apply reads_bind | apply reads_catch
    | apply keeps_bind | apply keeps_catch ].

(** ** Walking a run

    [run_walk H] takes a hypothesis [H : m s = (r, s')] about a handler and
    exposes its branches one guard at a time, closing those that contradict
    the outcome. *)
Ltac run_simpl H :=
  cbv beta iota zeta delta [sbind sret sraise slift sget smod scatch] in H.

Ltac run_step H :=
  match type of H with
  | (Ok _, _) = (Ok _, _) => injection H as H; subst
  | (Err _, _) = (Ok _, _) => discriminate H
  | (Ok _, _) = (Err _, _) => discriminate H
  | Ok _ = Ok _ => injection H as H; subst
  | Err _ = Ok _ => discriminate H
  | Ok _ = Err _ => discriminate H
  | sbind ?m ?k ?s = _ =>
      let a := fresh "a" in let e := fresh "e" in let s1 := fresh "s" in
      let E := fresh "E" in
      unfold sbind at 1 in H; destruct (m s) as [[a|e] s1] eqn:E; cbv beta iota in H
  | sret _ _ = _ => unfold sret in H
  | sraise _ _ = _ => unfold sraise in H
  | slift _ _ = _ => unfold slift in H
  | sget _ _ = _ => unfold sget in H
  | smod _ _ = _ => unfold smod in H
  | rbind ?m ?k = _ =>
      let E := fresh "E" in
      unfold rbind at 1 in H; destruct m eqn:E; cbv beta iota in H
  | (if ?b then _ else _) _ = _ => let E := fresh "E" in destruct b eqn:E
  | (if ?b then _ else _) = _ => let E := fresh "E" in destruct b eqn:E
  | (match ?x with _ => _ end) _ = _ => let E := fresh "E" in destruct x eqn:E
  | (match ?x with _ => _ end) = _ => let E := fresh "E" in destruct x eqn:E
  end; try discriminate.

(** ** Generic lemmas on options and lists *)

Definition from_option_b {A} (p : A -> bool) (o : option A) : bool :=
  match o with Some a => p a | None => false end.

Section lists.
Context {A : Type}.
Implicit Types (l : list A) (p q : A -> bool) (f : A -> A).

(** UPDATE ... SET f WHERE p *)
Definition update_where p f l : list A := map (fun x => if p x then f x else x) l.
(** the row count of such an UPDATE *)
Definition count_where p l : nat := length (List.filter p l).
(** DELETE ... WHERE p *)
Definition delete_where p l : list A := List.filter (fun x => negb (p x)) l.

Lemma find_In p l x : List.find p l = Some x -> In x l /\ p x = true.
Proof. apply List.find_some. Qed.

Lemma find_app_none p l l' :
  List.find p l = None -> List.find p (l ++ l') = List.find p l'.
Proof.
  induction l as [|a l IH]; simpl; [done|]. destruct (p a); [done|apply IH].
Qed.

Lemma find_app_some p l l' x :
  List.find p l = Some x -> List.find p (l ++ l') = Some x.
Proof.
  induction l as [|a l IH]; simpl; [done|]. destruct (p a); [done|apply IH].
Qed.

(** An update that changes neither [p] nor [q] membership commutes with
    lookup. *)
Lemma find_update_where p q f l :
  (forall x, q (f x) = q x) ->
  List.find q (update_where p f l)
  = match List.find q l with
    | Some x => Some (if p x then f x else x)
    | None => None
    end.
Proof.
  intros Hq. induction l as [|a l IH]; simpl; [done|].
  destruct (p a) eqn:Hp; rewrite ?Hq; destruct (q a); rewrite ?Hp; done.
Qed.

Lemma in_update_where p f l y :
  In y (update_where p f l) <->
  exists x, In x l /\ y = (if p x then f x else x).
Proof.
  unfold update_where. rewrite in_map_iff. split.
  - intros (x & <- & Hx). eauto.
  - intros (x & Hx & ->). eauto.
Qed.

Lemma count_where_zero p l :
  count_where p l = 0%nat <-> forall x, In x l -> p x = false.
Proof.
  unfold count_where. induction l as [|a l IH]; simpl.
  - split; [done|]. intros _. done.
  - destruct (p a) eqn:Hp; simpl.
    + split; [done|]. intros H. rewrite (H a) in Hp by auto. done.
    + rewrite IH. split; [|by intros H x Hx; apply H; auto].
      intros H x [->|Hx]; auto.
Qed.

Lemma existsb_false p l x : existsb p l = false -> In x l -> p x = false.
Proof.
  intros H Hx. destruct (p x) eqn:Hp; [|done].
  assert (existsb p l = true) by (apply existsb_exists; eauto). congruence.
Qed.

Lemma map_update_where {B} (g : A -> B) p f l :
  (forall x, g (f x) = g x) -> map g (update_where p f l) = map g l.
Proof.
  intros Hg. unfold update_where. rewrite map_map. apply map_ext.
  intros x. destruct (p x); auto.
Qed.
End lists.

(** ** Booleans *)
Lemma bool_decide_eqb (a b : string) : String.eqb a b = bool_decide (a = b).
Proof.
  destruct (String.eqb_spec a b) as [->|Hn]; symmetry;
    [by apply bool_decide_eq_true_2|by apply bool_decide_eq_false_2].
Qed.

(** Splits boolean hypotheses into their propositional content. *)
Ltac b2p :=
  repeat match goal with
  | H : andb _ _ = true |- _ => apply andb_prop in H; destruct H
  | H : orb _ _ = false |- _ => apply orb_false_elim in H; destruct H
  | H : negb _ = true |- _ => apply negb_true_iff in H
  | H : negb _ = false |- _ => apply negb_false_iff in H
  | H : (_ =? _)%string = true |- _ => apply String.eqb_eq in H
  | H : (_ =? _)%string = false |- _ => apply String.eqb_neq in H
  | H : (_ =? _) = true |- _ => apply Z.eqb_eq in H
  | H : (_ =? _) = false |- _ => apply Z.eqb_neq in H
  | H : (_ <=? _) = true |- _ => apply Z.leb_le in H
  | H : (_ <=? _) = false |- _ => apply Z.leb_gt in H
  | H : (_ <? _) = true |- _ => apply Z.ltb_lt in H
  | H : (_ <? _) = false |- _ => apply Z.ltb_ge in H
  | H : (_ =? _)%nat = true |- _ => apply Nat.eqb_eq in H
  | H : (_ =? _)%nat = false |- _ => apply Nat.eqb_neq in H
  | H : (_ <=? _)%nat = true |- _ => apply Nat.leb_le in H
  | H : (_ <=? _)%nat = false |- _ => apply Nat.leb_gt in H
  | H : (_ <? _)%nat = true |- _ => apply Nat.ltb_lt in H
  | H : (_ <? _)%nat = false |- _ => apply Nat.ltb_ge in H
  | H : bool_decide _ = true |- _ => apply bool_decide_eq_true_1 in H
  | H : bool_decide _ = false |- _ => apply bool_decide_eq_false_1 in H
  end.

(** Decides a goal that evaluates. *)
Ltac compute_done := vm_compute; reflexivity.

(** [lia] on goals with [/] and [mod] by constants. *)
Ltac dlia := zify; Z.to_euclidean_division_equations; lia.
