(* ===== verification/PyStr.v ===== *)
(** * Python strings

    A Python [str] is modelled as its UTF-8 encoding (a Rocq [string], one
    [ascii] per byte; a lone surrogate as its three bytes), so every [str] has
    exactly one model and comparing encoded bytes is comparing strings.
    [py_len] counts code points, [py_strip] and [py_split] use the complete
    set of characters for which [str.isspace] holds.  [py_lower] and
    [py_upper] change ASCII letters only: the code uses them to compare with
    ASCII constants and to fold header names, codes and e-mail addresses. *)
From S2P Require Import Prelude.
From stdpp Require Import pretty.
#[local] Open Scope Z_scope.

(** [len(s)]: bytes that are not UTF-8 continuation bytes. *)
Definition is_continuation (c : ascii) : bool :=
  let n := N_of_ascii c in ((128 <=? n) && (n <? 192))%N.

Fixpoint py_len (s : string) : Z :=
  match s with
  | EmptyString => 0
  | String c s' => (if is_continuation c then 0 else 1) + py_len s'
  end.

(** The number of bytes of the whitespace character at the head, 0 if the
    first character is not whitespace. *)
Definition ws_len (s : string) : nat :=
  match s with
  | EmptyString => 0
  | String a s1 =>
      let n := N_of_ascii a in
      if (((9 <=? n) && (n <=? 13)) || ((28 <=? n) && (n <=? 32)))%N then 1
      else match s1 with
      | EmptyString => 0
      | String b s2 =>
          let m := N_of_ascii b in
          if ((n =? 194) && ((m =? 133) || (m =? 160)))%N then 2
          else match s2 with
          | EmptyString => 0
          | String c _ =>
              let k := N_of_ascii c in
              if ((n =? 225) && (m =? 154) && (k =? 128))%N then 3
              else if ((n =? 226) && (m =? 128)
                       && (((128 <=? k) && (k <=? 138)) || (k =? 168) || (k =? 169)
                           || (k =? 175)))%N then 3
              else if ((n =? 226) && (m =? 129) && (k =? 159))%N then 3
              else if ((n =? 227) && (m =? 128) && (k =? 128))%N then 3
              else 0
          end
      end
  end%nat.

(** [s.lstrip()]; [k] bytes of a whitespace character are still to be skipped. *)
Fixpoint lstrip_from (k : nat) (s : string) : string :=
  match s with
  | EmptyString => EmptyString
  | String _ s' =>
      match k with
      | S k' => lstrip_from k' s'
      | O => match ws_len s with
             | O => s
             | S j => lstrip_from j s'
             end
      end
  end.
Definition py_lstrip (s : string) : string := lstrip_from 0 s.

Fixpoint py_rstrip (s : string) : string :=
  match s with
  | EmptyString => EmptyString
  | String c s' =>
      if String.eqb (py_lstrip s) EmptyString then EmptyString
      else String c (py_rstrip s')
  end.
Definition py_strip (s : string) : string := py_rstrip (py_lstrip s).

(** [s.split()]: maximal runs of non-whitespace characters. *)
Definition flush (cur : string) : list string :=
  if String.eqb cur EmptyString then [] else [cur].

Fixpoint split_from (cur : string) (k : nat) (s : string) : list string :=
  match s with
  | EmptyString => flush cur
  | String c s' =>
      match k with
      | S k' => split_from cur k' s'
      | O => match ws_len s with
             | O => split_from (cur +:+ String c EmptyString) 0 s'
             | S j => flush cur ++ split_from EmptyString j s'
             end
      end
  end.
Definition py_split (s : string) : list string := split_from EmptyString 0 s.

(** [s.split(c)] for a one-character separator. *)
Fixpoint split_on_from (sep : ascii) (cur s : string) : list string :=
  match s with
  | EmptyString => [cur]
  | String c s' =>
      if Ascii.eqb c sep then cur :: split_on_from sep EmptyString s'
      else split_on_from sep (cur +:+ String c EmptyString) s'
  end.
Definition py_split_on (sep : ascii) (s : string) : list string :=
  split_on_from sep EmptyString s.

(** [s.split(c, 1)] / [s.partition(c)]: the part before the first separator
    and, when there is one, the part after it. *)
Fixpoint py_partition (sep : ascii) (s : string) : string * option string :=
  match s with
  | EmptyString => (EmptyString, None)
  | String c s' =>
      if Ascii.eqb c sep then (EmptyString, Some s')
      else let '(a, b) := py_partition sep s' in (String c a, b)
  end.

Fixpoint py_contains_char (sep : ascii) (s : string) : bool :=
  match s with
  | EmptyString => false
  | String c s' => Ascii.eqb c sep || py_contains_char sep s'
  end.

Fixpoint py_count_char (sep : ascii) (s : string) : nat :=
  match s with
  | EmptyString => 0
  | String c s' => (if Ascii.eqb c sep then 1 else 0) + py_count_char sep s'
  end.

Fixpoint py_startswith (p s : string) : bool :=
  match p, s with
  | EmptyString, _ => true
  | String a p', String b s' => Ascii.eqb a b && py_startswith p' s'
  | String _ _, EmptyString => false
  end.

(** [needle in s] *)
Fixpoint py_contains (needle s : string) : bool :=
  py_startswith needle s ||
  match s with
  | EmptyString => false
  | String _ s' => py_contains needle s'
  end.

Fixpoint py_drop (n : nat) (s : string) : string :=
  match n, s with
  | O, _ => s
  | S _, EmptyString => EmptyString
  | S n', String _ s' => py_drop n' s'
  end.

Definition lower_char (c : ascii) : ascii :=
  let n := N_of_ascii c in
  if ((65 <=? n) && (n <=? 90))%N then ascii_of_N (n + 32) else c.
Definition upper_char (c : ascii) : ascii :=
  let n := N_of_ascii c in
  if ((97 <=? n) && (n <=? 122))%N then ascii_of_N (n - 32) else c.
Fixpoint map_string (f : ascii -> ascii) (s : string) : string :=
  match s with
  | EmptyString => EmptyString
  | String c s' => String (f c) (map_string f s')
  end.
Definition py_lower : string -> string := map_string lower_char.
Definition py_upper : string -> string := map_string upper_char.

(** [s.rstrip(c)] for one character. *)
Fixpoint rstrip_char (sep : ascii) (s : string) : string :=
  match s with
  | EmptyString => EmptyString
  | String c s' =>
      let r := rstrip_char sep s' in
      if String.eqb r EmptyString && Ascii.eqb c sep then EmptyString else String c r
  end.

(** [if s:] for a string, and for [str | None]. *)
(** [sep.join(l)] *)
Fixpoint join (sep : string) (l : list string) : string :=
  match l with
  | [] => EmptyString
  | [a] => a
  | a :: l => a +:+ sep +:+ join sep l
  end.

Definition truthy (s : string) : bool := negb (String.eqb s EmptyString).
Definition truthy_o (o : option string) : bool := from_option_b truthy o.
(** [o or default] *)
Definition or_else (o : option string) (d : string) : string :=
  match o with Some s => if truthy s then s else d | None => d end.

Definition mem_str (x : string) (l : list string) : bool := existsb (String.eqb x) l.

(** [f"{n}"] *)
Definition str_of_Z (n : Z) : string := pretty n.

Lemma mem_str_In x l : mem_str x l = true <-> In x l.
Proof.
  unfold mem_str. rewrite existsb_exists. split.
  - intros (y & Hy & He). by apply String.eqb_eq in He as ->.
  - intros H. exists x. split; [done|apply String.eqb_refl].
Qed.

Lemma truthy_false s : truthy s = false <-> s = EmptyString.
Proof.
  unfold truthy. rewrite negb_false_iff. apply String.eqb_eq.
Qed.
Lemma truthy_true s : truthy s = true <-> s <> EmptyString.
Proof.
  unfold truthy. rewrite negb_true_iff. apply String.eqb_neq.
Qed.
Lemma truthy_o_true o : truthy_o o = true <-> exists s, o = Some s /\ s <> EmptyString.
Proof.
  destruct o as [s|]; simpl.
  - rewrite truthy_true. split; [eauto|intros (? & [= ->] & ?); done].
  - split; [done|intros (? & ? & ?); done].
Qed.

Lemma py_len_nonneg s : 0 <= py_len s.
Proof. induction s as [|c s IH]; simpl; [lia|]. destruct (is_continuation c); lia. Qed.

(** The number of characters never exceeds the number of bytes. *)
Lemma py_len_le_bytes s : py_len s <= Z.of_nat (String.length s).
Proof. induction s as [|c s IH]; simpl; [lia|]. destruct (is_continuation c); lia. Qed.

Lemma py_startswith_app p s : py_startswith p (p +:+ s) = true.
Proof. induction p as [|c p IH]; simpl; [done|]. by rewrite Ascii.eqb_refl, IH. Qed.

Lemma py_startswith_spec p s :
  py_startswith p s = true <-> exists r, s = p +:+ r.
Proof.
  revert s. induction p as [|c p IH]; intros s; simpl.
  - split; [intros _; by exists s|done].
  - destruct s as [|b s]; [split; [done|intros [r Hr]; discriminate]|].
    rewrite andb_true_iff, Ascii.eqb_eq, IH. split.
    + intros [-> [r ->]]. by exists r.
    + intros [r [= -> ->]]. split; [done|by exists r].
Qed.

(** A token of [py_split] is never empty. *)
Lemma flush_nonempty cur x : In x (flush cur) -> x <> EmptyString.
Proof.
  unfold flush. destruct (String.eqb_spec cur EmptyString); simpl; [done|].
  intros [<-|[]]; done.
Qed.
Lemma split_from_nonempty s cur k x : In x (split_from cur k s) -> x <> EmptyString.
Proof.
  revert cur k. induction s as [|c s IH]; intros cur k; simpl.
  - apply flush_nonempty.
  - destruct k as [|k]; [|apply IH].
    destruct (ws_len (String c s)) as [|j] eqn:Hw; simpl in Hw; rewrite Hw; [apply IH|].
    rewrite in_app_iff. intros [H|H]; [by eapply flush_nonempty|by eapply IH].
Qed.
Lemma py_split_nonempty s x : In x (py_split s) -> x <> EmptyString.
Proof. apply split_from_nonempty. Qed.
