(* ===== verification/PyJson.v ===== *)
(** * JSON values and [json.loads]

    Values as Python's [json] module builds them: integers are unbounded,
    a non-integral number is kept as its decimal value [m * 10^e] (rounding
    to a double is not modelled), [NaN]/[Infinity] are accepted, objects are
    insertion-ordered dictionaries in which a repeated key keeps its first
    position and its last value.

    [json_loads limit s] is [json.loads(s)] of the standard library.  [limit]
    is the number of container levels the interpreter's scanner can still
    enter before it raises [RecursionError]; an integer literal of more than
    4300 digits raises a plain [ValueError] (CPython's
    [sys.int_info.default_max_str_digits]), which is not a
    [JSONDecodeError]. *)
From S2P Require Import Prelude PyStr.
From stdpp Require Import pretty.
#[local] Open Scope Z_scope.

Inductive nonfinite := NaN | PosInfinity | NegInfinity.

#[global] Unset Elimination Schemes.
Inductive json :=
| JNull
| JBool (b : bool)
| JInt (n : Z)
| JFloat (m e : Z)
| JNonFinite (k : nonfinite)
| JStr (s : string)
| JList (l : list json)
| JObj (m : list (string * json)).
#[global] Set Elimination Schemes.

Section json_ind.
Variable P : json -> Prop.
Hypothesis Hnull : P JNull.
Hypothesis Hbool : forall b, P (JBool b).
Hypothesis Hint : forall n, P (JInt n).
Hypothesis Hfloat : forall m e, P (JFloat m e).
Hypothesis Hnf : forall k, P (JNonFinite k).
Hypothesis Hstr : forall s, P (JStr s).
Hypothesis Hlist : forall l, Forall P l -> P (JList l).
Hypothesis Hobj : forall m, Forall (fun kv => P kv.2) m -> P (JObj m).

Fixpoint json_ind (j : json) : P j :=
  match j with
  | JNull => Hnull
  | JBool b => Hbool b
  | JInt n => Hint n
  | JFloat m e => Hfloat m e
  | JNonFinite k => Hnf k
  | JStr s => Hstr s
  | JList l =>
      Hlist l ((fix go l := match l as l0 return Forall P l0 with
                            | [] => Forall_nil_2 P
                            | x :: l' => Forall_cons_2 P x l' (json_ind x) (go l')
                            end) l)
  | JObj m =>
      Hobj m ((fix go l := match l as l0 return Forall (fun kv => P kv.2) l0 with
                           | [] => Forall_nil_2 _
                           | x :: l' => Forall_cons_2 (fun kv => P kv.2) x l' (json_ind x.2) (go l')
                           end) m)
  end.
End json_ind.

(** ** Dictionaries *)
Definition pydict := list (string * json).

Fixpoint obj_get (k : string) (m : pydict) : option json :=
  match m with
  | [] => None
  | (k', v) :: m' => if String.eqb k k' then Some v else obj_get k m'
  end.

(** [d[k] = v] *)
Fixpoint obj_set (k : string) (v : json) (m : pydict) : pydict :=
  match m with
  | [] => [(k, v)]
  | (k', v') :: m' => if String.eqb k k' then (k', v) :: m' else (k', v') :: obj_set k v m'
  end.

Definition obj_has (k : string) (m : pydict) : bool :=
  match obj_get k m with Some _ => true | None => false end.

Lemma obj_get_set_same k v m : obj_get k (obj_set k v m) = Some v.
Proof.
  induction m as [|[k' v'] m IH]; simpl; [by rewrite String.eqb_refl|].
  destruct (String.eqb_spec k k') as [->|Hn]; simpl.
  - by rewrite String.eqb_refl.
  - destruct (String.eqb_spec k k'); [done|apply IH].
Qed.
Lemma obj_get_set_other k k' v m : k <> k' -> obj_get k (obj_set k' v m) = obj_get k m.
Proof.
  intros Hn. induction m as [|[k1 v1] m IH]; simpl.
  - destruct (String.eqb_spec k k'); done.
  - destruct (String.eqb_spec k' k1) as [->|Hn1]; simpl.
    + destruct (String.eqb_spec k k1); done.
    + destruct (String.eqb_spec k k1); [done|apply IH].
Qed.

(** [isinstance(v, str)] and friends, as projections. *)
Definition as_str (j : json) : option string := match j with JStr s => Some s | _ => None end.
Definition as_obj (j : json) : option pydict := match j with JObj m => Some m | _ => None end.
Definition as_list (j : json) : option (list json) := match j with JList l => Some l | _ => None end.
Definition get_str (k : string) (m : pydict) : option string :=
  match obj_get k m with Some (JStr s) => Some s | _ => None end.
Definition get_obj (k : string) (m : pydict) : option pydict :=
  match obj_get k m with Some (JObj o) => Some o | _ => None end.

(** [bool(v)] *)
Definition json_truthy (j : json) : bool :=
  match j with
  | JNull => false
  | JBool b => b
  | JInt n => negb (n =? 0)
  | JFloat m _ => negb (m =? 0)
  | JNonFinite _ => true
  | JStr s => truthy s
  | JList l => match l with [] => false | _ => true end
  | JObj m => match m with [] => false | _ => true end
  end.

Definition all_strings (l : list json) : option (list string) :=
  List.fold_right (fun j acc => match as_str j, acc with
                                | Some s, Some r => Some (s :: r)
                                | _, _ => None
                                end) (Some []) l.

(** A structural equality test (Python's [==] identifies more numbers; the
    code compares strings and integers only). *)
Fixpoint json_eqb (a b : json) : bool :=
  match a, b with
  | JNull, JNull => true
  | JBool x, JBool y => Bool.eqb x y
  | JInt x, JInt y => x =? y
  | JFloat m e, JFloat m' e' => (m =? m') && (e =? e')
  | JNonFinite PosInfinity, JNonFinite PosInfinity => true
  | JNonFinite NegInfinity, JNonFinite NegInfinity => true
  | JStr x, JStr y => String.eqb x y
  | JList l, JList l' =>
      (fix go l l' := match l, l' with
                      | [], [] => true
                      | x :: r, y :: r' => json_eqb x y && go r r'
                      | _, _ => false
                      end) l l'
  | JObj m, JObj m' =>
      (fix go l l' := match l, l' with
                      | [], [] => true
                      | (k, x) :: r, (k', y) :: r' => String.eqb k k' && json_eqb x y && go r r'
                      | _, _ => false
                      end) m m'
  | _, _ => false
  end.

(** ** The scanner *)
Inductive jerr := JSONDecodeError | JRecursionError | JValueError | JDuplicateKey (key : string) | JOutOfFuel.

Definition is_json_ws (c : ascii) : bool :=
  let n := N_of_ascii c in ((n =? 32) || (n =? 9) || (n =? 10) || (n =? 13))%N.
Fixpoint skip_ws (s : string) : string :=
  match s with
  | String c s' => if is_json_ws c then skip_ws s' else s
  | EmptyString => EmptyString
  end.

Definition digit_of (c : ascii) : option Z :=
  let n := N_of_ascii c in
  if ((48 <=? n) && (n <=? 57))%N then Some (Z.of_N n - 48) else None.
Definition is_digit (c : ascii) : bool := match digit_of c with Some _ => true | None => false end.

(** The longest run of digits: its value on top of [acc], its length, the rest. *)
Fixpoint scan_digits (acc : Z) (len : Z) (s : string) : Z * Z * string :=
  match s with
  | String c s' =>
      match digit_of c with
      | Some d => scan_digits (acc * 10 + d) (len + 1) s'
      | None => (acc, len, s)
      end
  | EmptyString => (acc, len, EmptyString)
  end.

(** ([(\.\d+)?]) as digits value, number of digits, rest. *)
Definition scan_frac (s : string) : option (Z * Z * string) :=
  match s with
  | String "." s' =>
      let '(v, n, r) := scan_digits 0 0 s' in if 0 <? n then Some (v, n, r) else None
  | _ => None
  end.

Definition scan_exp (s : string) : option (Z * string) :=
  let digits sign s' :=
    let '(v, n, r) := scan_digits 0 0 s' in if 0 <? n then Some (sign * v, r) else None in
  match s with
  | String c s' =>
      if (Ascii.eqb c "e" || Ascii.eqb c "E")%char then
        match s' with
        | String "-" s2 => digits (-1) s2
        | String "+" s2 => digits 1 s2
        | _ => digits 1 s'
        end
      else None
  | EmptyString => None
  end.

Definition INT_MAX_STR_DIGITS : Z := 4300.

(** A number at the head of [s] ([neg]: the minus sign has been read). *)
Definition scan_number (neg : bool) (s : string) : result jerr (json * string) :=
  let sign := if neg then -1 else 1 in
  match s with
  | String c s' =>
      match digit_of c with
      | None => Err JSONDecodeError
      | Some d =>
          let '(ip, n, r) := if d =? 0 then (0, 1, s') else scan_digits d 1 s' in
          match scan_frac r, scan_exp (match scan_frac r with Some (_, _, r') => r' | None => r end) with
          | None, None =>
              if INT_MAX_STR_DIGITS <? n then Err JValueError else Ok (JInt (sign * ip), r)
          | Some (fv, fn, r'), None => Ok (JFloat (sign * (ip * 10 ^ fn + fv)) (- fn), r')
          | None, Some (ev, r'') => Ok (JFloat (sign * ip) ev, r'')
          | Some (fv, fn, _), Some (ev, r'') =>
              Ok (JFloat (sign * (ip * 10 ^ fn + fv)) (ev - fn), r'')
          end
      end
  | EmptyString => Err JSONDecodeError
  end.

Definition hex_of (c : ascii) : option N :=
  let n := N_of_ascii c in
  if ((48 <=? n) && (n <=? 57))%N then Some (n - 48)%N
  else if ((97 <=? n) && (n <=? 102))%N then Some (n - 87)%N
  else if ((65 <=? n) && (n <=? 70))%N then Some (n - 55)%N
  else None.

Definition hex4 (s : string) : option (N * string) :=
  match s with
  | String a (String b (String c (String d r))) =>
      match hex_of a, hex_of b, hex_of c, hex_of d with
      | Some x, Some y, Some z, Some w => Some ((x * 4096 + y * 256 + z * 16 + w)%N, r)
      | _, _, _, _ => None
      end
  | _ => None
  end.

(** The UTF-8 bytes of a code point (surrogates included). *)
Definition utf8_encode (n : N) : string :=
  let b k := ascii_of_N k in
  (if n <? 128 then String (b n) EmptyString
  else if n <? 2048 then
    String (b (192 + n / 64)) (String (b (128 + n mod 64)) EmptyString)
  else if n <? 65536 then
    String (b (224 + n / 4096)) (String (b (128 + (n / 64) mod 64))
      (String (b (128 + n mod 64)) EmptyString))
  else
    String (b (240 + n / 262144)) (String (b (128 + (n / 4096) mod 64))
      (String (b (128 + (n / 64) mod 64)) (String (b (128 + n mod 64)) EmptyString))))%N.

Definition dquote : ascii := ascii_of_N 34.

(** An escape sequence, after the backslash: the decoded text and the rest. *)
Definition scan_escape (s : string) : option (string * string) :=
  match s with
  | String "u" r =>
      match hex4 r with
      | None => None
      | Some (hi, r1) =>
          if ((55296 <=? hi) && (hi <=? 56319))%N then
            match r1 with
            | String "\" (String "u" r2) =>
                match hex4 r2 with
                | Some (lo, r3) =>
                    if ((56320 <=? lo) && (lo <=? 57343))%N then
                      Some (utf8_encode (65536 + (hi - 55296) * 1024 + (lo - 56320))%N, r3)
                    else Some (utf8_encode hi, r1)
                | None => Some (utf8_encode hi, r1)
                end
            | _ => Some (utf8_encode hi, r1)
            end
          else Some (utf8_encode hi, r1)
      end
  | String c r =>
      let one n := Some (String (ascii_of_N n) EmptyString, r) in
      if Ascii.eqb c dquote then one 34%N
      else if Ascii.eqb c "\" then one 92%N
      else if Ascii.eqb c "/" then one 47%N
      else if Ascii.eqb c "b" then one 8%N
      else if Ascii.eqb c "f" then one 12%N
      else if Ascii.eqb c "n" then one 10%N
      else if Ascii.eqb c "r" then one 13%N
      else if Ascii.eqb c "t" then one 9%N
      else None
  | EmptyString => None
  end.

(** The rest of a string literal, after the opening quote.  The scanner
    recurses on the text after an escape, so it is driven by [n >= length s]. *)
Fixpoint scan_string (n : nat) (acc s : string) : result jerr (string * string) :=
  match n with
  | O => Err JOutOfFuel
  | S n' =>
      match s with
      | EmptyString => Err JSONDecodeError
      | String c r =>
          if Ascii.eqb c dquote then Ok (acc, r)
          else if Ascii.eqb c "\" then
            match scan_escape r with
            | Some (t, r') => scan_string n' (acc +:+ t) r'
            | None => Err JSONDecodeError
            end
          else if (N_of_ascii c <? 32)%N then Err JSONDecodeError
          else scan_string n' (acc +:+ String c EmptyString) r
      end
  end.

(** [scan_once] with [d] container levels left, and the bodies of arrays and
    objects after their opening bracket and white space.  With [strict] an
    [object_pairs_hook] refuses an object with a key twice, when it ends;
    [dup] is the first such key. *)
Section scanner.
Variable strict : bool.
Definition close_object (m : pydict) (dup : option string) (r : string) : result jerr (json * string) :=
  match dup with Some k => if strict then Err (JDuplicateKey k) else Ok (JObj m, r) | None => Ok (JObj m, r) end.
Definition note_dup (k : string) (m : pydict) (dup : option string) : option string :=
  match dup with Some _ => dup | None => if obj_has k m then Some k else None end.
Fixpoint scan_value (n d : nat) (s : string) : result jerr (json * string) :=
  match n with
  | O => Err JOutOfFuel
  | S n' =>
      match s with
      | EmptyString => Err JSONDecodeError
      | String c r =>
          if Ascii.eqb c dquote then
            let? (t, r') := scan_string (S (String.length r)) EmptyString r in Ok (JStr t, r')
          else if Ascii.eqb c "{" then
            match d with
            | O => Err JRecursionError
            | S d' =>
                match skip_ws r with
                | String "}" r' => Ok (JObj [], r')
                | r' => scan_members n' d' [] None r'
                end
            end
          else if Ascii.eqb c "[" then
            match d with
            | O => Err JRecursionError
            | S d' =>
                match skip_ws r with
                | String "]" r' => Ok (JList [], r')
                | r' => scan_elements n' d' [] r'
                end
            end
          else if py_startswith "null" s then Ok (JNull, py_drop 4 s)
          else if py_startswith "true" s then Ok (JBool true, py_drop 4 s)
          else if py_startswith "false" s then Ok (JBool false, py_drop 5 s)
          else if py_startswith "NaN" s then Ok (JNonFinite NaN, py_drop 3 s)
          else if py_startswith "Infinity" s then Ok (JNonFinite PosInfinity, py_drop 8 s)
          else if py_startswith "-Infinity" s then Ok (JNonFinite NegInfinity, py_drop 9 s)
          else if Ascii.eqb c "-" then scan_number true r
          else scan_number false s
      end
  end
with scan_elements (n d : nat) (acc : list json) (s : string) : result jerr (json * string) :=
  match n with
  | O => Err JOutOfFuel
  | S n' =>
      let? (v, r) := scan_value n' d s in
      match skip_ws r with
      | String "]" r' => Ok (JList (rev (v :: acc)), r')
      | String "," r' => scan_elements n' d (v :: acc) (skip_ws r')
      | _ => Err JSONDecodeError
      end
  end
with scan_members (n d : nat) (acc : pydict) (dup : option string) (s : string) : result jerr (json * string) :=
  match n with
  | O => Err JOutOfFuel
  | S n' =>
      match s with
      | String c r =>
          if negb (Ascii.eqb c dquote) then Err JSONDecodeError else
          let? (k, r1) := scan_string (S (String.length r)) EmptyString r in
          match skip_ws r1 with
          | String ":" r2 =>
              let? (v, r3) := scan_value n' d (skip_ws r2) in
              let acc' := obj_set k v acc in
              let dup' := note_dup k acc dup in
              match skip_ws r3 with
              | String "}" r4 => close_object acc' dup' r4
              | String "," r4 => scan_members n' d acc' dup' (skip_ws r4)
              | _ => Err JSONDecodeError
              end
          | _ => Err JSONDecodeError
          end
      | EmptyString => Err JSONDecodeError
      end
  end.

Definition utf8_bom : string := utf8_encode 65279.

Definition loads_with (limit : nat) (s : string) : result jerr json :=
  if py_startswith utf8_bom s then Err JSONDecodeError else
  let s0 := skip_ws s in
  let? (v, r) := scan_value (S (2 * String.length s0)) limit s0 in
  if String.eqb (skip_ws r) EmptyString then Ok v else Err JSONDecodeError.

End scanner.
(** [json.loads(s)], and [json.loads(s, object_pairs_hook=hook)] with a hook
    that refuses duplicate keys. *)
Definition json_loads : nat -> string -> result jerr json := loads_with false.
Definition json_loads_strict : nat -> string -> result jerr json := loads_with true.

(** ** The scanner never runs out of fuel

    [consumes L res]: the outcome is not the artificial out-of-fuel error, and
    on success strictly fewer than [L] bytes are left. *)
Definition consumes {A} (L : nat) (res : result jerr (A * string)) : Prop :=
  match res with
  | Ok (_, r) => (String.length r < L)%nat
  | Err JOutOfFuel => False
  | Err _ => True
  end.

Lemma consumes_mono {A} L L' (res : result jerr (A * string)) :
  (L <= L')%nat -> consumes L res -> consumes L' res.
Proof. destruct res as [[a r]|[]]; simpl; lia || done. Qed.

Lemma skip_ws_length s : (String.length (skip_ws s) <= String.length s)%nat.
Proof. induction s as [|c s IH]; simpl; [lia|]. destruct (is_json_ws c); simpl; lia. Qed.

Lemma py_drop_length n s : (String.length (py_drop n s) <= String.length s)%nat.
Proof. revert s. induction n as [|n IH]; intros [|c s]; simpl; try lia. specialize (IH s). lia. Qed.

Lemma py_drop_length_lt n c s :
  (String.length (py_drop (S n) (String c s)) < String.length (String c s))%nat.
Proof. simpl. pose proof (py_drop_length n s). lia. Qed.

Lemma scan_digits_length s acc len :
  (String.length (scan_digits acc len s).2 <= String.length s)%nat.
Proof.
  revert acc len. induction s as [|c s IH]; intros acc len; simpl; [lia|].
  destruct (digit_of c); simpl; [|lia]. specialize (IH (acc * 10 + z) (len + 1)). lia.
Qed.

Lemma scan_frac_length s v n r :
  scan_frac s = Some (v, n, r) -> (String.length r <= String.length s)%nat.
Proof.
  destruct s as [|c s]; simpl; [done|].
  pose proof (scan_digits_length s 0 0) as H.
  destruct (scan_digits 0 0 s) as [[v0 n0] r0]; simpl in H.
  destruct c as [[] [] [] [] [] [] [] []]; try done.
  destruct (0 <? n0); [|done]. intros [= <- <- <-]. lia.
Qed.

Lemma scan_exp_length s v r :
  scan_exp s = Some (v, r) -> (String.length r <= String.length s)%nat.
Proof.
  assert (Hd : forall sign s' v r,
    (let '(v, n, r) := scan_digits 0 0 s' in if 0 <? n then Some (sign * v, r) else None)
    = Some (v, r) -> (String.length r <= String.length s')%nat).
  { intros sign s' v' r'. pose proof (scan_digits_length s' 0 0) as H.
    destruct (scan_digits 0 0 s') as [[v0 n0] r0]; simpl in H.
    destruct (0 <? n0); [|done]. intros [= _ <-]. lia. }
  destruct s as [|c s]; cbn [scan_exp]; [done|].
  destruct (_ || _); [|done]. simpl.
  destruct s as [|c' s]; [done|].
  destruct c' as [[] [] [] [] [] [] [] []]; intros H; apply Hd in H; simpl in *; lia.
Qed.

Lemma scan_number_consumes neg s : consumes (String.length s) (scan_number neg s).
Proof.
  destruct s as [|c s]; [done|]. unfold scan_number. destruct (digit_of c) as [d|]; [|done].
  assert (H : (String.length (if (d =? 0)%Z then (0, 1, s)%Z else scan_digits d 1 s).2 <= String.length s)%nat)
    by (destruct (d =? 0); [done|apply scan_digits_length]).
  destruct (if d =? 0 then _ else _) as [[ip n] r]; simpl in H.
  destruct (scan_frac r) as [[[fv fn] r']|] eqn:Hf.
  - apply scan_frac_length in Hf.
    destruct (scan_exp r') as [[ev r'']|] eqn:He; simpl; [apply scan_exp_length in He|]; lia.
  - destruct (scan_exp r) as [[ev r'']|] eqn:He; simpl; [apply scan_exp_length in He; lia|].
    destruct (_ <? n); simpl; [done|lia].
Qed.

Lemma hex4_length s v r : hex4 s = Some (v, r) -> (String.length r < String.length s)%nat.
Proof.
  unfold hex4. destruct s as [|a [|b [|c [|d s]]]]; try done.
  destruct (hex_of a), (hex_of b), (hex_of c), (hex_of d); try done.
  intros [= _ <-]. simpl. lia.
Qed.

Lemma scan_escape_length s t r :
  scan_escape s = Some (t, r) -> (String.length r < String.length s)%nat.
Proof.
  destruct s as [|c s]; [done|]. unfold scan_escape.
  destruct (Ascii.ascii_dec c "u") as [->|Hc].
  - destruct (hex4 s) as [[hi r1]|] eqn:H1; [|done]. apply hex4_length in H1.
    repeat match goal with
    | |- context [if ?b then _ else _] => destruct b
    | |- context [match ?x with EmptyString => _ | String _ _ => _ end] => destruct x
    | |- context [match ?x with Ascii _ _ _ _ _ _ _ _ => _ end] => destruct x
    | |- context [hex4 ?x] =>
        let H := fresh in destruct (hex4 x) as [[? ?]|] eqn:H; [apply hex4_length in H|]
    end; intros [= <- <-]; simpl in *; lia.
  - destruct c as [[] [] [] [] [] [] [] []]; simpl; intros H; simplify_eq; simpl; lia || done.
Qed.

Lemma scan_string_consumes n acc s :
  (String.length s < n)%nat -> consumes (String.length s) (scan_string n acc s).
Proof.
  revert acc s. induction n as [|n IH]; intros acc s Hn; [lia|]. simpl.
  destruct s as [|c s]; [done|]. simpl in Hn.
  destruct (Ascii.eqb c dquote); [simpl; lia|].
  destruct (Ascii.eqb c "\").
  { destruct (scan_escape s) as [[t r]|] eqn:He; [|done]. apply scan_escape_length in He.
    eapply consumes_mono; [|apply IH]; simpl; lia. }
  destruct (_ <? 32)%N; [done|]. eapply consumes_mono; [|apply IH]; simpl; lia.
Qed.

(** [literal n]: the constants of the scanner drop at least one byte. *)
Lemma consumes_drop {A} (a : A) n c s :
  consumes (String.length (String c s)) (Ok (a, py_drop (S n) (String c s))).
Proof. simpl. pose proof (py_drop_length n s). lia. Qed.

Lemma scan_consumes strict n :
  (forall d s, (2 * String.length s < n)%nat ->
     consumes (String.length s) (scan_value strict n d s)) /\
  (forall d acc s, (2 * String.length s + 1 < n)%nat ->
     consumes (String.length s) (scan_elements strict n d acc s)) /\
  (forall d acc dup s, (2 * String.length s + 1 < n)%nat ->
     consumes (String.length s) (scan_members strict n d acc dup s)).
Proof.
  induction n as [|n (IHv & IHe & IHm)]; [repeat split; intros; lia|].
  split; [|split].
  - intros d [|c s] Hn; [done|]. cbn [scan_value]. cbn [String.length] in Hn.
    pose proof (skip_ws_length s) as Hws.
    destruct (Ascii.eqb c dquote).
    { pose proof (scan_string_consumes (S (String.length s)) EmptyString s ltac:(lia)) as H.
      unfold rbind. destruct (scan_string _ _ s) as [[t r]|[]]; simpl in *; try done; lia. }
    destruct (Ascii.eqb c "{").
    { destruct d as [|d]; [done|].
      assert (H : consumes (S (String.length s)) (scan_members strict n d [] None (skip_ws s)))
        by (eapply consumes_mono; [|apply IHm]; lia).
      destruct (skip_ws s) as [|b r]; [exact H|]. simpl in Hws.
      destruct b as [[] [] [] [] [] [] [] []]; first [exact H|simpl; lia]. }
    destruct (Ascii.eqb c "[").
    { destruct d as [|d]; [done|].
      assert (H : consumes (S (String.length s)) (scan_elements strict n d [] (skip_ws s)))
        by (eapply consumes_mono; [|apply IHe]; lia).
      destruct (skip_ws s) as [|b r]; [exact H|]. simpl in Hws.
      destruct b as [[] [] [] [] [] [] [] []]; first [exact H|simpl; lia]. }
    repeat match goal with
    | |- consumes _ (if py_startswith _ _ then Ok _ else _) =>
        destruct (py_startswith _ _); [apply consumes_drop|]
    end.
    destruct (Ascii.eqb c "-"); [|apply (scan_number_consumes false (String c s))].
    eapply consumes_mono; [|apply (scan_number_consumes true s)]. simpl. lia.
  - intros d acc s Hn. cbn [scan_elements]. specialize (IHv d s ltac:(lia)). unfold rbind.
    destruct (scan_value strict n d s) as [[v r]|[]]; simpl in IHv; try done.
    pose proof (skip_ws_length r) as Hws.
    destruct (skip_ws r) as [|b r']; [done|]. simpl in Hws.
    destruct b as [[] [] [] [] [] [] [] []]; try done; [simpl; lia|].
    pose proof (skip_ws_length r').
    eapply consumes_mono; [|apply IHe]; lia.
  - intros d acc dup [|c s] Hn; [done|]. cbn [scan_members]. cbn [String.length] in Hn.
    destruct (negb _); [done|].
    pose proof (scan_string_consumes (S (String.length s)) EmptyString s ltac:(lia)) as Hs.
    unfold rbind at 1. destruct (scan_string _ _ s) as [[k r1]|[]]; simpl in Hs; try done.
    pose proof (skip_ws_length r1) as Hw1.
    destruct (skip_ws r1) as [|b r2]; [done|]. simpl in Hw1.
    destruct b as [[] [] [] [] [] [] [] []]; try done.
    pose proof (skip_ws_length r2) as Hw2.
    specialize (IHv d (skip_ws r2) ltac:(lia)). unfold rbind.
    destruct (scan_value strict n d (skip_ws r2)) as [[v r3]|[]]; simpl in IHv; try done.
    pose proof (skip_ws_length r3) as Hw3.
    destruct (skip_ws r3) as [|b r4]; [done|]. simpl in Hw3.
    destruct b as [[] [] [] [] [] [] [] []]; try done;
      [unfold close_object; destruct (note_dup k acc dup), strict; simpl; lia|].
    pose proof (skip_ws_length r4).
    eapply consumes_mono; [|apply IHm]; simpl; lia.
Qed.

(** [json_loads] always has an outcome of Python's: the fuel is enough. *)
Lemma loads_total strict limit s : loads_with strict limit s <> Err JOutOfFuel.
Proof.
  unfold loads_with. destruct (py_startswith _ _); [done|]. cbv zeta.
  pose proof (proj1 (scan_consumes strict (S (2 * String.length (skip_ws s)))) limit (skip_ws s)
                ltac:(lia)) as H. unfold rbind.
  destruct (scan_value _ _ _) as [[v r]|[]]; simpl in H; try done.
  destruct (String.eqb _ _); done.
Qed.
Lemma json_loads_total limit s : json_loads limit s <> Err JOutOfFuel.
Proof. apply loads_total. Qed.
