(* ===== verification/Codec.v ===== *)
(** * SHA-256, HMAC and base64 of the Python standard library

    [hashlib.sha256], [hmac.new(k, m, "sha256")], [base64.urlsafe_b64encode]
    and [binascii.a2b_base64] (lenient and strict), as the server uses them
    for PKCE challenges, token hashes, thumbprints, DPoP nonces and Basic
    credentials.  Byte strings are Rocq strings. *)
From S2P Require Import Prelude PyStr.
#[local] Open Scope N_scope.

Definition byte_of (n : N) : ascii := ascii_of_N n.
Fixpoint bytes_of (s : string) : list N :=
  match s with EmptyString => [] | String c s' => N_of_ascii c :: bytes_of s' end.
Fixpoint string_of (l : list N) : string :=
  match l with [] => EmptyString | n :: l' => String (byte_of n) (string_of l') end.

(** ** SHA-256 (FIPS 180-4) on 32-bit words *)
Module Sha256.
Definition w32 (n : N) : N := N.land n 4294967295.
Definition add32 (a b : N) : N := w32 (a + b).
Definition rotr (k n : N) : N := N.lor (N.shiftr n k) (w32 (N.shiftl n (32 - k))).

Definition K : list N :=
  [1116352408; 1899447441; 3049323471; 3921009573; 961987163; 1508970993; 2453635748; 2870763221;
   3624381080; 310598401; 607225278; 1426881987; 1925078388; 2162078206; 2614888103; 3248222580;
   3835390401; 4022224774; 264347078; 604807628; 770255983; 1249150122; 1555081692; 1996064986;
   2554220882; 2821834349; 2952996808; 3210313671; 3336571891; 3584528711; 113926993; 338241895;
   666307205; 773529912; 1294757372; 1396182291; 1695183700; 1986661051; 2177026350; 2456956037;
   2730485921; 2820302411; 3259730800; 3345764771; 3516065817; 3600352804; 4094571909; 275423344;
   430227734; 506948616; 659060556; 883997877; 958139571; 1322822218; 1537002063; 1747873779;
   1955562222; 2024104815; 2227730452; 2361852424; 2428436474; 2756734187; 3204031479; 3329325298].

Definition H0 : list N :=
  [1779033703; 3144134277; 1013904242; 2773480762; 1359893119; 2600822924; 528734635; 1541459225].

Definition ch (x y z : N) : N := N.lxor (N.land x y) (N.land (N.lxor x 4294967295) z).
Definition maj (x y z : N) : N := N.lxor (N.land x y) (N.lxor (N.land x z) (N.land y z)).
Definition bsig0 x := N.lxor (rotr 2 x) (N.lxor (rotr 13 x) (rotr 22 x)).
Definition bsig1 x := N.lxor (rotr 6 x) (N.lxor (rotr 11 x) (rotr 25 x)).
Definition ssig0 x := N.lxor (rotr 7 x) (N.lxor (rotr 18 x) (N.shiftr x 3)).
Definition ssig1 x := N.lxor (rotr 17 x) (N.lxor (rotr 19 x) (N.shiftr x 10)).

(** The message schedule, kept as the last 16 words, most recent first. *)
Fixpoint schedule (n : nat) (recent : list N) : list N :=
  match n with
  | O => []
  | S n' =>
      let w := add32 (add32 (ssig1 (nth 1 recent 0)) (nth 6 recent 0))
                     (add32 (ssig0 (nth 14 recent 0)) (nth 15 recent 0)) in
      w :: schedule n' (w :: firstn 15 recent)
  end.

Definition round (st : list N) (kw : N * N) : list N :=
  match st with
  | [a; b; c; d; e; f; g; h] =>
      let t1 := add32 (add32 h (bsig1 e)) (add32 (ch e f g) (add32 kw.1 kw.2)) in
      let t2 := add32 (bsig0 a) (maj a b c) in
      [add32 t1 t2; a; b; c; add32 d t1; e; f; g]
  | _ => st
  end.

Definition compress (h : list N) (block : list N) : list N :=
  let w := block ++ schedule 48 (rev block) in
  zip_with add32 h (fold_left round (zip K w) h).

Fixpoint words (l : list N) : list N :=
  match l with
  | a :: b :: c :: d :: l' => (a * 16777216 + b * 65536 + c * 256 + d) :: words l'
  | _ => []
  end.

Fixpoint blocks (n : nat) (h : list N) (l : list N) : list N :=
  match n with
  | O => h
  | S n' => blocks n' (compress h (firstn 16 l)) (skipn 16 l)
  end.

Definition be_bytes (k : nat) (n : N) : list N :=
  map (fun i => N.shiftr n (8 * N.of_nat i) mod 256) (rev (seq 0 k)).

Definition pad (m : list N) : list N :=
  let len := N.of_nat (length m) in
  let zeros := N.to_nat ((119 - len mod 64) mod 64) in
  m ++ [128] ++ replicate zeros 0 ++ be_bytes 8 (8 * len).

Definition digest (m : list N) : list N :=
  let p := words (pad m) in
  concat (map (be_bytes 4) (blocks (length p / 16) H0 p)).
End Sha256.

Definition sha256 (s : string) : string := string_of (Sha256.digest (bytes_of s)).

(** [hmac.new(key, msg, "sha256").digest()] (RFC 2104, 64-byte blocks). *)
Definition hmac_sha256 (key msg : string) : string :=
  let k0 := bytes_of key in
  let k1 := if (64 <? length k0)%nat then Sha256.digest k0 else k0 in
  let k := k1 ++ replicate (64 - length k1) 0 in
  let inner := Sha256.digest (map (N.lxor 54) k ++ bytes_of msg) in
  string_of (Sha256.digest (map (N.lxor 92) k ++ inner)).

(** ** Base64 *)
Definition b64_std : string :=
  "ABCDEFGHIJKLMNOPQRSTUVWXYZabcdefghijklmnopqrstuvwxyz0123456789+/".
Definition b64_url : string :=
  "ABCDEFGHIJKLMNOPQRSTUVWXYZabcdefghijklmnopqrstuvwxyz0123456789-_".

Fixpoint char_at (n : nat) (s : string) : ascii :=
  match s, n with
  | EmptyString, _ => zero
  | String c _, O => c
  | String _ s', S n' => char_at n' s'
  end.

(** A 6-bit value as a digit of the URL-safe alphabet, and back.  The decoder
    takes both alphabets, as [urlsafe_b64decode] translates [-_] to [+/] and
    leaves [+/] alone. *)
Definition b64_digit (n : N) : ascii := char_at (N.to_nat n) b64_url.

Definition b64_value (c : ascii) : option N :=
  let n := N_of_ascii c in
  if (65 <=? n) && (n <=? 90) then Some (n - 65)
  else if (97 <=? n) && (n <=? 122) then Some (n - 71)
  else if (48 <=? n) && (n <=? 57) then Some (n + 4)
  else if n =? 43 then Some 62
  else if n =? 47 then Some 63
  else None.

(** [str.translate] of [-_] to [+/]. *)
Definition url_to_std (c : ascii) : ascii :=
  let n := N_of_ascii c in
  if n =? 45 then ascii_of_N 43 else if n =? 95 then ascii_of_N 47 else c.

(** [base64.urlsafe_b64encode(b).rstrip(b"=")] *)
Fixpoint b64url_nopad (l : list N) : string :=
  match l with
  | [] => EmptyString
  | [a] => String (b64_digit (a / 4)) (String (b64_digit (a mod 4 * 16)) EmptyString)
  | [a; b] =>
      String (b64_digit (a / 4)) (String (b64_digit (a mod 4 * 16 + b / 16))
        (String (b64_digit (b mod 16 * 4)) EmptyString))
  | a :: b :: c :: l' =>
      String (b64_digit (a / 4)) (String (b64_digit (a mod 4 * 16 + b / 16))
        (String (b64_digit (b mod 16 * 4 + c / 64)) (String (b64_digit (c mod 64))
          (b64url_nopad l'))))
  end.

Definition urlsafe_b64encode_nopad (s : string) : string := b64url_nopad (bytes_of s).

(** [binascii.a2b_base64]: position in the current group of four, bits left
    over, padding characters seen, whether padding has started; output in
    reverse. *)
Fixpoint a2b (strict : bool) (qp left pads : N) (started : bool) (out : list N) (s : string)
  : option (list N) :=
  match s with
  | EmptyString => if qp =? 0 then Some (rev out) else None
  | String c s' =>
      if Ascii.eqb c "=" then
        if 2 <=? qp then
          if 4 <=? qp + (pads + 1) then
            if strict && negb (String.eqb s' EmptyString) then None else Some (rev out)
          else a2b strict qp left (pads + 1) true out s'
        else a2b strict qp left pads true out s'
      else match b64_value c with
      | None => if strict then None else a2b strict qp left pads started out s'
      | Some v =>
          if strict && started then None
          else if qp =? 0 then a2b strict 1 v 0 started out s'
          else if qp =? 1 then a2b strict 2 (v mod 16) 0 started ((left * 4 + v / 16) :: out) s'
          else if qp =? 2 then a2b strict 3 (v mod 4) 0 started ((left * 16 + v / 4) :: out) s'
          else a2b strict 0 0 0 started ((left * 64 + v) :: out) s'
      end
  end.

Definition a2b_base64 (strict : bool) (s : string) : option string :=
  if strict && py_startswith "=" s then None
  else option_map string_of (a2b strict 0 0 0 false [] s).

Definition is_ascii_str (s : string) : bool :=
  forallb (fun n => n <? 128) (bytes_of s).

(** [base64.b64decode(s)] and [base64.urlsafe_b64decode(s)] of a [str]: [None]
    is a raised [ValueError]/[binascii.Error]. *)
Definition b64decode (s : string) : option string :=
  if is_ascii_str s then a2b_base64 false s else None.
Definition urlsafe_b64decode (s : string) : option string :=
  if is_ascii_str s then a2b_base64 false (map_string url_to_std s) else None.

(** ["=" * (-len(s) % 4)] *)
Definition b64_padding (s : string) : string :=
  string_of (replicate (N.to_nat ((4 - N.of_nat (String.length s) mod 4) mod 4)) 61).

(** ** Round trips *)
Definition is_byte (n : N) : Prop := n < 256.

Lemma bytes_of_byte s : Forall is_byte (bytes_of s).
Proof.
  induction s as [|c s IH]; simpl; constructor; [|done].
  unfold is_byte. destruct c as [[] [] [] [] [] [] [] []]; vm_compute; done.
Qed.
Lemma string_of_bytes_of s : string_of (bytes_of s) = s.
Proof. induction s as [|c s IH]; simpl; [done|]. unfold byte_of. by rewrite ascii_N_embedding, IH. Qed.
Lemma bytes_of_string_of l : Forall is_byte l -> bytes_of (string_of l) = l.
Proof.
  induction 1 as [|n l Hn _ IH]; simpl; [done|].
  unfold byte_of. by rewrite N_ascii_embedding, IH by done.
Qed.
Lemma length_bytes_of s : length (bytes_of s) = String.length s.
Proof. induction s as [|c s IH]; simpl; [done|by rewrite IH]. Qed.

Lemma length_be_bytes k n : length (Sha256.be_bytes k n) = k.
Proof. unfold Sha256.be_bytes. by rewrite length_map, length_rev, length_seq. Qed.
Lemma be_bytes_byte k n : Forall is_byte (Sha256.be_bytes k n).
Proof.
  unfold Sha256.be_bytes. apply Forall_forall. intros x Hx.
  apply list_elem_of_In, in_map_iff in Hx as (i & <- & _). unfold is_byte. apply N.mod_lt. done.
Qed.

(** What the decoder sees of an encoder's digit. *)
Definition std_digit (n : N) : ascii := url_to_std (b64_digit n).

Lemma std_digit_ok n : n < 64 ->
  b64_value (std_digit n) = Some n /\ Ascii.eqb (std_digit n) "=" = false.
Proof.
  intros Hn.
  assert (H : forallb (fun k => match b64_value (std_digit (N.of_nat k)) with
                                | Some v => v =? N.of_nat k | None => false end
                                && negb (Ascii.eqb (std_digit (N.of_nat k)) "="))
                      (seq 0 64) = true) by (vm_compute; done).
  rewrite forallb_forall in H.
  specialize (H (N.to_nat n)). rewrite N2Nat.id in H.
  assert (Hin : In (N.to_nat n) (seq 0 64)) by (apply in_seq; lia).
  specialize (H Hin). apply andb_prop in H as [H1 H2]. apply negb_true_iff in H2.
  split; [|done]. destruct (b64_value (std_digit n)) as [v|]; [|done].
  apply N.eqb_eq in H1 as ->. done.
Qed.

Lemma b64_digit_ascii n : n < 64 -> N_of_ascii (b64_digit n) < 128.
Proof.
  intros Hn.
  assert (H : forallb (fun k => N_of_ascii (b64_digit (N.of_nat k)) <? 128) (seq 0 64) = true)
    by (vm_compute; done).
  rewrite forallb_forall in H. specialize (H (N.to_nat n)). rewrite N2Nat.id in H.
  apply N.ltb_lt, H, in_seq. lia.
Qed.

(** Decoding one digit from each position of a group. *)
Lemma a2b_digit strict qp left pads out n s : n < 64 ->
  a2b strict qp left pads false out (String (std_digit n) s)
  = if qp =? 0 then a2b strict 1 n 0 false out s
    else if qp =? 1 then a2b strict 2 (n mod 16) 0 false ((left * 4 + n / 16) :: out) s
    else if qp =? 2 then a2b strict 3 (n mod 4) 0 false ((left * 16 + n / 4) :: out) s
    else a2b strict 0 0 0 false ((left * 64 + n) :: out) s.
Proof.
  intros Hn. destruct (std_digit_ok n Hn) as [Hv He]. cbn [a2b]. rewrite He, Hv.
  by destruct strict.
Qed.

Fixpoint pad_for (l : list N) : string :=
  match l with
  | [_] => "=="
  | [_; _] => "="
  | _ :: _ :: _ :: l' => pad_for l'
  | [] => EmptyString
  end.

Lemma list_ind3 {A} (P : list A -> Prop) :
  P [] -> (forall a, P [a]) -> (forall a b, P [a; b]) ->
  (forall a b c l, P l -> P (a :: b :: c :: l)) -> forall l, P l.
Proof.
  intros H0 H1 H2 H3.
  fix IH 1. intros [|a [|b [|c l]]]; [done|apply H1|apply H2|apply H3, IH].
Qed.

Lemma map_string_app f a b : map_string f (a +:+ b) = map_string f a +:+ map_string f b.
Proof. induction a as [|c a IH]; simpl; [done|by rewrite IH]. Qed.

Lemma append_String c s t : String c s +:+ t = String c (s +:+ t).
Proof. done. Qed.
Lemma append_nil s : EmptyString +:+ s = s.
Proof. done. Qed.
Lemma string_app_assoc (a b c : string) : (a +:+ b) +:+ c = a +:+ (b +:+ c).
Proof. induction a as [|x a IH]; rewrite ?append_String; [done|]. by rewrite IH. Qed.
Lemma string_app_nil_r (a : string) : a +:+ EmptyString = a.
Proof. induction a as [|x a IH]; rewrite ?append_String; [done|]. by rewrite IH. Qed.

Lemma a2b_encode strict l out :
  Forall is_byte l ->
  a2b strict 0 0 0 false out (map_string url_to_std (b64url_nopad l) +:+ pad_for l)
  = Some (rev out ++ l).
Proof.
  revert out. induction l as [|a|a b|a b c l IH] using list_ind3; intros out Hl.
  - simpl. by rewrite app_nil_r.
  - apply Forall_inv in Hl. unfold is_byte in Hl.
    cbn [b64url_nopad map_string pad_for]. rewrite !append_String, ?append_nil.
    fold (std_digit (a / 4)) (std_digit (a mod 4 * 16)).
    rewrite !a2b_digit by dlia. cbn. destruct strict; simpl; repeat f_equal; dlia.
  - inversion Hl as [|? ? Ha Hl1]; subst. apply Forall_inv in Hl1 as Hb. unfold is_byte in *.
    cbn [b64url_nopad map_string pad_for]. rewrite !append_String, ?append_nil.
    fold (std_digit (a / 4)) (std_digit (a mod 4 * 16 + b / 16)) (std_digit (b mod 16 * 4)).
    rewrite !a2b_digit by dlia. cbn [N.eqb Pos.eqb].
    destruct strict; simpl; rewrite <- app_assoc; simpl; repeat f_equal; dlia.
  - inversion Hl as [|? ? Ha Hl1]; subst. inversion Hl1 as [|? ? Hb Hl2]; subst.
    inversion Hl2 as [|? ? Hc Hl3]; subst. unfold is_byte in *.
    cbn [b64url_nopad map_string pad_for]. rewrite !append_String, ?append_nil.
    fold (std_digit (a / 4)) (std_digit (a mod 4 * 16 + b / 16))
         (std_digit (b mod 16 * 4 + c / 64)) (std_digit (c mod 64)).
    rewrite !a2b_digit by dlia. cbn [N.eqb Pos.eqb].
    rewrite IH by done. cbn [rev]. rewrite <- !app_assoc. simpl. repeat f_equal; dlia.
Qed.

Lemma b64_padding_spec l : b64_padding (b64url_nopad l) = pad_for l.
Proof.
  induction l as [|a|a b|a b c l IH] using list_ind3; [done|done|done|].
  cbn [pad_for]. rewrite <- IH. unfold b64_padding. cbn [b64url_nopad String.length].
  do 3 f_equal. rewrite !Nat2N.inj_succ.
  set (n := N.of_nat (String.length (b64url_nopad l))). dlia.
Qed.

Lemma is_ascii_app a b : is_ascii_str (a +:+ b) = is_ascii_str a && is_ascii_str b.
Proof.
  unfold is_ascii_str. induction a as [|c a IH]; simpl; [done|]. by rewrite IH, andb_assoc.
Qed.

Lemma is_ascii_encode l : Forall is_byte l -> is_ascii_str (b64url_nopad l) = true.
Proof.
  assert (Hd : forall n, n < 64 -> (N_of_ascii (b64_digit n) <? 128) = true)
    by (intros; by apply N.ltb_lt, b64_digit_ascii).
  unfold is_ascii_str.
  induction l as [|a|a b|a b c l IH] using list_ind3; intros Hl; [done| | |];
    repeat match goal with H : Forall is_byte (_ :: _) |- _ => inversion_clear H end;
    unfold is_byte in *; cbn [b64url_nopad bytes_of forallb];
    rewrite ?Hd by dlia; rewrite ?IH; done.
Qed.

Lemma is_ascii_pad l : is_ascii_str (pad_for l) = true.
Proof. induction l using list_ind3; done. Qed.
Lemma url_to_std_pad l : map_string url_to_std (pad_for l) = pad_for l.
Proof. induction l using list_ind3; done. Qed.

(** [urlsafe_b64decode(e + "=" * (-len(e) % 4)) = b] for
    [e = urlsafe_b64encode(b).rstrip(b"=")]. *)
Lemma urlsafe_b64_roundtrip s :
  let e := urlsafe_b64encode_nopad s in
  urlsafe_b64decode (e +:+ b64_padding e) = Some s.
Proof.
  cbv zeta. unfold urlsafe_b64encode_nopad, urlsafe_b64decode.
  rewrite b64_padding_spec, is_ascii_app, is_ascii_encode, is_ascii_pad by apply bytes_of_byte.
  cbn [andb]. unfold a2b_base64. cbn [andb].
  rewrite map_string_app, url_to_std_pad, a2b_encode by apply bytes_of_byte.
  simpl. by rewrite string_of_bytes_of.
Qed.

Lemma urlsafe_b64encode_inj s t :
  urlsafe_b64encode_nopad s = urlsafe_b64encode_nopad t -> s = t.
Proof.
  intros H. pose proof (urlsafe_b64_roundtrip s) as Hs.
  pose proof (urlsafe_b64_roundtrip t) as Ht. simpl in *. rewrite H in Hs. congruence.
Qed.

(** Big-endian integers: [struct.pack(">Q", n)] and [struct.unpack]. *)
Definition from_be (l : list N) : N := fold_left (fun acc b => acc * 256 + b) l 0.

Lemma be_bytes_succ k n : Sha256.be_bytes (S k) n = Sha256.be_bytes k (n / 256) ++ [n mod 256].
Proof.
  unfold Sha256.be_bytes. cbn [seq]. rewrite <- seq_shift. cbn [rev]. rewrite map_app.
  f_equal.
  rewrite <- map_rev, map_map. apply map_ext. intros i.
  rewrite !N.shiftr_div_pow2, Nat2N.inj_succ.
  replace (8 * N.succ (N.of_nat i)) with (8 + 8 * N.of_nat i) by lia.
  by rewrite N.pow_add_r, <- N.Div0.div_div.
Qed.

Lemma from_be_bytes k n : n < 256 ^ N.of_nat k -> from_be (Sha256.be_bytes k n) = n.
Proof.
  revert n. induction k as [|k IH]; intros n Hn.
  - simpl in *. unfold from_be. simpl. lia.
  - rewrite be_bytes_succ. unfold from_be in *. rewrite fold_left_app. simpl.
    rewrite IH; [dlia|]. rewrite Nat2N.inj_succ, N.pow_succ_r' in Hn.
    apply N.Div0.div_lt_upper_bound. done.
Qed.
