(* ===== verification/PyInt.v ===== *)
(** * [int(s)] of a string

    Decimal numerals as CPython reads them: surrounding whitespace, one sign,
    the decimal digits of every script (Unicode 15.0, one run of ten code
    points per entry of [digit_runs]), single underscores between digits, and
    at most [INT_MAX_STR_DIGITS] digits. *)
From S2P Require Import Prelude PyStr PyJson Codec.
#[local] Open Scope N_scope.

(** The code point at the head of a string and the number of its bytes. *)
Definition head_point (s : string) : N * nat :=
  match bytes_of s with
  | [] => (0, 0%nat)
  | a :: r =>
      let low k := nth k r 128 - 128 in
      if a <? 192 then (a, 1%nat)
      else if a <? 224 then ((a - 192) * 64 + low 0%nat, 2%nat)
      else if a <? 240 then (((a - 224) * 64 + low 0%nat) * 64 + low 1%nat, 3%nat)
      else ((((a - 240) * 64 + low 0%nat) * 64 + low 1%nat) * 64 + low 2%nat, 4%nat)
  end.

Definition digit_runs : list N :=
  [48; 1632; 1776; 1984; 2406; 2534; 2662; 2790; 2918; 3046; 3174; 3302; 3430; 3558; 3664; 3792; 3872;
   4160; 4240; 6112; 6160; 6470; 6608; 6784; 6800; 6992; 7088; 7232; 7248; 42528; 43216; 43264; 43472;
   43504; 43600; 44016; 65296; 66720; 68912; 69734; 69872; 69942; 70096; 70384; 70736; 70864; 71248;
   71360; 71472; 71904; 72016; 72784; 73040; 73120; 73552; 92768; 92864; 93008; 120782; 120792; 120802;
   120812; 120822; 123200; 123632; 124144; 125264; 130032].
Definition decimal_value (n : N) : option Z :=
  match List.find (fun z => (z <=? n) && (n <? z + 10)) digit_runs with
  | Some z => Some (Z.of_N (n - z))
  | None => None
  end.

Inductive int_token := Digit (d : Z) | Space | Underscore | Minus | Plus | Other.
Definition int_token_of (s : string) (n : N) : int_token :=
  match decimal_value n with
  | Some d => Digit d
  | None =>
      if n =? 95 then Underscore else if n =? 45 then Minus else if n =? 43 then Plus
      else if negb ((28 <=? n) && (n <=? 31)) && negb (ws_len s =? 0)%nat then Space else Other
  end.
Fixpoint int_tokens (k : nat) (s : string) : list int_token :=
  match s with
  | EmptyString => []
  | String _ s' =>
      match k with
      | S k => int_tokens k s'
      | O => let '(n, len) := head_point s in int_token_of s n :: int_tokens (len - 1) s'
      end
  end.
Fixpoint skip_spaces (l : list int_token) : list int_token :=
  match l with Space :: l => skip_spaces l | l => l end.

#[local] Open Scope Z_scope.
(** The value and the number of digits of a run of digits. *)
Fixpoint int_digits (prev_digit : bool) (acc n : Z) (l : list int_token) : option (Z * Z) :=
  match l with
  | [] => if prev_digit then Some (acc, n) else None
  | Digit d :: l => int_digits true (acc * 10 + d) (n + 1) l
  | Underscore :: l => if prev_digit then int_digits false acc n l else None
  | _ => None
  end.

(** [None] is a raised [ValueError]. *)
Definition py_int (s : string) : option Z :=
  let l := rev (skip_spaces (rev (skip_spaces (int_tokens 0 s)))) in
  let '(neg, l) := match l with Minus :: l => (true, l) | Plus :: l => (false, l) | l => (false, l) end in
  match int_digits false 0 0 l with
  | Some (v, n) => if INT_MAX_STR_DIGITS <? n then None else Some (if neg then - v else v)
  | None => None
  end.

Example py_int_examples :
  map py_int ["3600"; " +1_0 "; "-7"; ""; "1__0"; "_1"; "1_"; "- 5"; "12a"; "٥_٥6"; " 5"]
  = [Some 3600; Some 10; Some (-7); None; None; None; None; None; None; Some 556; Some 5].
Proof. reflexivity. Qed.
