(* ===== verification/Models.v ===== *)
(** * Errors and domain models ([errors.py], [models.py])

    The exceptions and responses of the server and its pydantic models, one
    record per model with the model's fields in order.  A [datetime] is an
    integer number of microseconds since the epoch.  Columns that hold JSON
    text stay strings, parsed by the methods that parse them in the code. *)
From S2P Require Import Prelude PyStr PyJson.
#[local] Open Scope Z_scope.

Definition SECOND : Z := 1000000.
(** [int(dt.timestamp())] *)
Definition unix_secs (dt : Z) : Z := dt / SECOND.
(** [dt + timedelta(seconds=n)] *)
Definition plus_secs (dt n : Z) : Z := dt + n * SECOND.

(** ** Exceptions *)
Inductive pyexc :=
| ValueError | JSONDecode | RecursionError | OverflowError | TypeError | KeyError
| AttributeError | IntegrityError | StorageError | PyJWTError | JwtDecodeError | ValidationError.
#[export] Instance pyexc_eq_dec : EqDecision pyexc.
Proof. solve_decision. Defined.

Inductive exn :=
| OAuthError (error : string) (description : option string) (status : Z)
| DpopError (error description : string)
| RarError (description : string)
| LimitError (description : string)
| DpopNonceError (kind description : string)
| JtiGuardFull
| PyErr (kind : pyexc) (msg : string).

(** [except json.JSONDecodeError], [except ValueError] (its superclass). *)
Definition is_decode_error (e : exn) : bool :=
  match e with PyErr k _ => bool_decide (k = JSONDecode) | _ => false end.
Definition is_value_error (e : exn) : bool :=
  match e with PyErr k _ => bool_decide (k = JSONDecode) || bool_decide (k = ValueError) | _ => false end.
Definition is_jwt_error (e : exn) : bool :=
  match e with
  | PyErr k _ => bool_decide (k = PyJWTError) || bool_decide (k = JwtDecodeError)
  | _ => false
  end.
(** [except jwt.exceptions.DecodeError], a subclass of the former. *)
Definition is_jwt_decode_error (e : exn) : bool :=
  match e with PyErr k _ => bool_decide (k = JwtDecodeError) | _ => false end.

(** [json.loads] as it raises. *)
Definition py_json_loads (limit : nat) (s : string) : result exn json :=
  match json_loads limit s with
  | Ok v => Ok v
  | Err JSONDecodeError => Err (PyErr JSONDecode EmptyString)
  | Err JRecursionError => Err (PyErr RecursionError EmptyString)
  | Err JValueError => Err (PyErr ValueError EmptyString)
  | Err (JDuplicateKey _) => Err (PyErr ValueError EmptyString)
  | Err JOutOfFuel => Err (PyErr OverflowError EmptyString)
  end.

(** ** Responses *)
Record response := mkResponse {
  r_status : Z;
  r_body : json;
  r_headers : list (string * string)
}.

Definition header (k : string) (r : response) : option string :=
  snd <$> List.find (fun kv => String.eqb k kv.1) (r_headers r).

Definition add_header (k v : string) (r : response) : response :=
  mkResponse (r_status r) (r_body r) (r_headers r ++ [(k, v)]).

(** [errors.oauth_error] *)
Definition oauth_error (error : string) (description : option string) (status : Z) : response :=
  let status := if String.eqb error "invalid_client" then 401 else status in
  let body := ("error", JStr error) ::
    match description with Some d => [("error_description", JStr d)] | None => [] end in
  let headers := ("Cache-Control", "no-store") ::
    (if String.eqb error "invalid_client" then [("WWW-Authenticate", "Basic")] else []) in
  mkResponse status (JObj body) headers.

(** [oauth_error(error, description)] with the default status. *)
Definition oauth_error400 (error description : string) : response :=
  oauth_error error (Some description) 400.

Definition error_of (r : response) : option string :=
  match r_body r with JObj m => get_str "error" m | _ => None end.

(** ** Models *)
Record Client := mkClient {
  c_id : string;
  c_client_id : string;
  c_client_secret : string;
  c_redirect_uris : string;
  c_grant_types : string;
  c_scope : string;
  c_name : string;
  c_created_at : Z;
  c_updated_at : Z;
  c_token_endpoint_auth_method : string;
  c_registration_access_token : string;
  c_response_types : string;
  c_contacts : string;
  c_logo_uri : string;
  c_client_uri : string;
  c_policy_uri : string;
  c_tos_uri : string;
  c_jwks : string;
  c_jwks_uri : string;
  c_backchannel_logout_uri : string;
  c_backchannel_logout_session_required : bool;
  c_frontchannel_logout_uri : string;
  c_frontchannel_logout_session_required : bool;
  c_post_logout_redirect_uris : string;
  c_enabled : bool;
  c_require_state : bool;
  c_tls_client_certificate_subject_dn : string;
  c_dpop_nonce_required : bool
}.

Definition is_public (c : Client) : bool :=
  String.eqb (c_token_endpoint_auth_method c) "none".

(** [json.loads(col) if col else []] *)
Definition json_column (limit : nat) (col : string) : result exn json :=
  if truthy col then py_json_loads limit col else Ok (JList []).
Definition redirect_uri_list (limit : nat) (c : Client) := json_column limit (c_redirect_uris c).
Definition grant_type_list (limit : nat) (c : Client) := json_column limit (c_grant_types c).

Definition get_post_logout_redirect_uris (limit : nat) (c : Client) : result exn json :=
  if negb (truthy (c_post_logout_redirect_uris c)) then Ok (JList []) else
  rcatch (py_json_loads limit (c_post_logout_redirect_uris c))
    (fun e => if is_decode_error e then Ok (JList []) else Err e).

(** [x in v] for a decoded value: membership in a list, a key of an object,
    a substring of a string, a [TypeError] otherwise. *)
Definition py_in (x : string) (v : json) : result exn bool :=
  match v with
  | JList l => Ok (existsb (fun j => json_eqb j (JStr x)) l)
  | JObj m => Ok (obj_has x m)
  | JStr s => Ok (py_contains x s)
  | _ => Err (PyErr TypeError EmptyString)
  end.

(** [grant in client.grant_type_list()] *)
Definition allows_grant (limit : nat) (c : Client) (grant : string) : result exn bool :=
  let? v := grant_type_list limit c in py_in grant v.

Record User := mkUser {
  u_id : string;
  u_username : string;
  u_password_hash : string;
  u_email : string;
  u_enabled : bool;
  u_role : string;
  u_created_at : Z;
  u_updated_at : Z
}.
Definition is_admin (u : User) : bool := String.eqb (u_role u) "admin".

Record Token := mkToken {
  t_id : string;
  t_access_token : string;
  t_refresh_token : option string;
  t_token_type : string;
  t_expires_in : Z;
  t_scope : string;
  t_client_id : string;
  t_user_id : option string;
  t_created_at : Z;
  t_expires_at : Z;
  t_revoked : bool;
  t_token_family : option string
}.

Record AuthorizationCode := mkCode {
  ac_id : string;
  ac_code : string;
  ac_client_id : string;
  ac_user_id : string;
  ac_redirect_uri : string;
  ac_scope : string;
  ac_created_at : Z;
  ac_expires_at : Z;
  ac_used : bool;
  ac_code_challenge : option string;
  ac_code_challenge_method : option string;
  ac_nonce : option string;
  ac_resource : option string;
  ac_authorization_details : option string;
  ac_claims_request : option string;
  ac_token_family : option string;
  ac_dpop_jkt : option string
}.

Record DeviceAuthorization := mkDevice {
  d_id : string;
  d_device_code : string;
  d_user_code : string;
  d_client_id : string;
  d_scope : string;
  d_created_at : Z;
  d_expires_at : Z;
  d_interval_seconds : Z;
  d_approved : bool;
  d_denied : bool;
  d_used : bool;
  d_user_id : option string
}.

Record TrustedIssuer := mkIssuer {
  ti_id : string;
  ti_issuer : string;
  ti_jwks_uri : string;
  ti_allowed_audiences : string;
  ti_subject_mapping : string;
  ti_jit_provision : bool;
  ti_allowed_client_ids : string;
  ti_enabled : bool;
  ti_created_at : Z;
  ti_updated_at : Z
}.

Record DenylistEntry := mkDeny {
  dl_id : string;
  dl_kind : string;
  dl_value : string;
  dl_reason : string;
  dl_created_by : string;
  dl_created_at : Z;
  dl_expires_at : option Z
}.
(** [DenylistEntry.is_active()] at time [now]. *)
Definition deny_is_active (now : Z) (e : DenylistEntry) : bool :=
  match dl_expires_at e with None => true | Some t => now <? t end.

Record AuditLogEntry := mkAudit {
  al_id : string;
  al_actor_id : string;
  al_actor_email : string;
  al_action : string;
  al_target_kind : string;
  al_target_id : string;
  al_ip : string;
  al_user_agent : string;
  al_metadata : string;
  al_created_at : Z
}.

(** [TrustedIssuer._list]: the string entries of a JSON list column, nothing
    for malformed text. *)
Definition ti_list (limit : nat) (raw : string) : result exn (list string) :=
  match py_json_loads limit (if truthy raw then raw else "[]") with
  | Ok (JList l) => Ok (omap as_str l)
  | Ok _ => Ok []
  | Err e => if is_value_error e then Ok [] else Err e
  end.
Definition allowed_audiences_list (limit : nat) (ti : TrustedIssuer) :=
  ti_list limit (ti_allowed_audiences ti).

(** [TrustedIssuer.allows_client]: an empty list allows every client, a
    malformed one none. *)
Definition allows_client (limit : nat) (ti : TrustedIssuer) (client_id : string) : result exn bool :=
  let raw := ti_allowed_client_ids ti in
  match py_json_loads limit (if truthy raw then raw else "[]") with
  | Ok (JList l) =>
      match all_strings l with
      | Some allowed => Ok (match allowed with [] => true | _ => mem_str client_id allowed end)
      | None => Ok false
      end
  | Ok _ => Ok false
  | Err e => if is_value_error e then Ok false else Err e
  end.

(** ** Access-token claims *)
Record Claims := mkClaims {
  cm_sub : string;
  cm_iss : string;
  cm_aud : list string;
  cm_exp : Z;
  cm_iat : Z;
  cm_scope : string;
  cm_jti : string;
  cm_client_id : option string;
  cm_cnf : option pydict;
  cm_authorization_details : option (list pydict);
  cm_act : option pydict
}.

(** [audience or ([resource] if resource else [client_id])] *)
Definition claims_audience (client_id : string) (resource : option string)
    (audience : option (list string)) : list string :=
  match audience with
  | Some ((_ :: _) as l) => l
  | _ => if truthy_o resource then [default EmptyString resource] else [client_id]
  end.

(** [Claims.new] at wall-clock time [now] with the random [jti]. *)
Definition claims_new (now : Z) (jti subject client_id scope : string) (duration_seconds : Z)
    (issuer : string) (cnf : option pydict) (authorization_details : option (list pydict))
    (act : option pydict) (resource : option string) (audience : option (list string)) : Claims :=
  let iat := unix_secs now in
  {| cm_sub := subject;
     cm_iss := issuer;
     cm_aud := claims_audience client_id resource audience;
     cm_exp := iat + duration_seconds;
     cm_iat := iat;
     cm_scope := scope;
     cm_jti := jti;
     cm_client_id := Some client_id;
     cm_cnf := cnf;
     cm_authorization_details := authorization_details;
     cm_act := act |}.

(** A field of [model_dump(exclude_none=True)]. *)
Definition opt_field {A} (k : string) (f : A -> json) (o : option A) : pydict :=
  match o with Some a => [(k, f a)] | None => [] end.
Definition jstrs (l : list string) : json := JList (map JStr l).
Definition jobjs (l : list pydict) : json := JList (map JObj l).

(** [Claims.to_payload]: a single audience is a bare string. *)
Definition to_payload (c : Claims) : pydict :=
  [("sub", JStr (cm_sub c)); ("iss", JStr (cm_iss c));
   ("aud", match cm_aud c with [a] => JStr a | l => jstrs l end);
   ("exp", JInt (cm_exp c)); ("iat", JInt (cm_iat c));
   ("scope", JStr (cm_scope c)); ("jti", JStr (cm_jti c))]
  ++ opt_field "client_id" JStr (cm_client_id c)
  ++ opt_field "cnf" JObj (cm_cnf c)
  ++ opt_field "authorization_details" jobjs (cm_authorization_details c)
  ++ opt_field "act" JObj (cm_act c).

(** [Claims] built from a decoded payload whose members have the declared types;
    [None] is a raised [ValidationError] (pydantic's lax coercions are not
    modelled). *)
Definition opt_member {A} (k : string) (conv : json -> option A) (m : pydict) : option (option A) :=
  match obj_get k m with
  | None | Some JNull => Some None
  | Some v => match conv v with Some a => Some (Some a) | None => None end
  end.
Definition as_int (j : json) : option Z := match j with JInt n => Some n | _ => None end.
Definition all_objs (l : list json) : option (list pydict) :=
  List.fold_right (fun j acc => match as_obj j, acc with
                                | Some s, Some r => Some (s :: r)
                                | _, _ => None
                                end) (Some []) l.
Definition as_strs (j : json) : option (list string) :=
  match j with JList l => all_strings l | _ => None end.
Definition as_objs (j : json) : option (list pydict) :=
  match j with JList l => all_objs l | _ => None end.

Definition claims_of_payload (m : pydict) : option Claims :=
  sub ← get_str "sub" m; iss ← get_str "iss" m;
  aud ← obj_get "aud" m ≫= as_strs;
  exp ← obj_get "exp" m ≫= as_int; iat ← obj_get "iat" m ≫= as_int;
  scope ← get_str "scope" m; jti ← get_str "jti" m;
  client_id ← opt_member "client_id" as_str m;
  cnf ← opt_member "cnf" as_obj m;
  ad ← opt_member "authorization_details" as_objs m;
  act ← opt_member "act" as_obj m;
  Some (mkClaims sub iss aud exp iat scope jti client_id cnf ad act).

Lemma all_strings_map l : all_strings (map JStr l) = Some l.
Proof. unfold all_strings. induction l as [|s l IH]; simpl; [done|by rewrite IH]. Qed.
Lemma all_objs_map l : all_objs (map JObj l) = Some l.
Proof. unfold all_objs. induction l as [|s l IH]; simpl; [done|by rewrite IH]. Qed.

(** ** ID-token claims *)
Record IdTokenClaims := mkIdClaims {
  ic_iss : string;
  ic_sub : string;
  ic_aud : string;
  ic_exp : Z;
  ic_iat : Z;
  ic_nonce : option string;
  ic_at_hash : option string;
  ic_c_hash : option string;
  ic_email : option string;
  ic_preferred_username : option string;
  ic_acr : option string;
  ic_amr : option (list string);
  ic_auth_time : option Z
}.

Definition id_token_dump (c : IdTokenClaims) : pydict :=
  [("iss", JStr (ic_iss c)); ("sub", JStr (ic_sub c)); ("aud", JStr (ic_aud c));
   ("exp", JInt (ic_exp c)); ("iat", JInt (ic_iat c))]
  ++ opt_field "nonce" JStr (ic_nonce c)
  ++ opt_field "at_hash" JStr (ic_at_hash c)
  ++ opt_field "c_hash" JStr (ic_c_hash c)
  ++ opt_field "email" JStr (ic_email c)
  ++ opt_field "preferred_username" JStr (ic_preferred_username c)
  ++ opt_field "acr" JStr (ic_acr c)
  ++ opt_field "amr" jstrs (ic_amr c)
  ++ opt_field "auth_time" JInt (ic_auth_time c).

(** ** Token and introspection responses *)
Record TokenResponse := mkTokenResponse {
  tr_access_token : string;
  tr_refresh_token : option string;
  tr_token_type : string;
  tr_expires_in : Z;
  tr_scope : option string;
  tr_id_token : option string;
  tr_authorization_details : option (list pydict)
}.

Definition token_response_dump (t : TokenResponse) : pydict :=
  [("access_token", JStr (tr_access_token t))]
  ++ opt_field "refresh_token" JStr (tr_refresh_token t)
  ++ [("token_type", JStr (tr_token_type t)); ("expires_in", JInt (tr_expires_in t))]
  ++ opt_field "scope" JStr (tr_scope t)
  ++ opt_field "id_token" JStr (tr_id_token t)
  ++ opt_field "authorization_details" jobjs (tr_authorization_details t).

Definition with_id_token (idt : string) (t : TokenResponse) : TokenResponse :=
  {| tr_access_token := tr_access_token t; tr_refresh_token := tr_refresh_token t;
     tr_token_type := tr_token_type t; tr_expires_in := tr_expires_in t;
     tr_scope := tr_scope t; tr_id_token := Some idt;
     tr_authorization_details := tr_authorization_details t |}.

Record IntrospectionResponse := mkIntrospection {
  ir_active : bool;
  ir_scope : option string;
  ir_client_id : option string;
  ir_username : option string;
  ir_token_type : option string;
  ir_exp : option Z;
  ir_iat : option Z;
  ir_nbf : option Z;
  ir_sub : option string;
  ir_aud : option json;
  ir_jti : option string;
  ir_iss : option string;
  ir_cnf : option pydict;
  ir_authorization_details : option json
}.

Definition introspection_dump (r : IntrospectionResponse) : pydict :=
  [("active", JBool (ir_active r))]
  ++ opt_field "scope" JStr (ir_scope r)
  ++ opt_field "client_id" JStr (ir_client_id r)
  ++ opt_field "username" JStr (ir_username r)
  ++ opt_field "token_type" JStr (ir_token_type r)
  ++ opt_field "exp" JInt (ir_exp r)
  ++ opt_field "iat" JInt (ir_iat r)
  ++ opt_field "nbf" JInt (ir_nbf r)
  ++ opt_field "sub" JStr (ir_sub r)
  ++ opt_field "aud" (fun j => j) (ir_aud r)
  ++ opt_field "jti" JStr (ir_jti r)
  ++ opt_field "iss" JStr (ir_iss r)
  ++ opt_field "cnf" JObj (ir_cnf r)
  ++ opt_field "authorization_details" (fun j => j) (ir_authorization_details r).

(** [IntrospectionResponse(active=False)] *)
Definition inactive_introspection : IntrospectionResponse :=
  mkIntrospection false None None None None None None None None None None None None None.
