(* ===== verification/IsoTime.v ===== *)
(** * [datetime.isoformat()] of UTC times *)
From S2P Require Import Prelude PyStr PyJson Codec Models.
#[local] Open Scope Z_scope.

(** Year, month and day of a day count from 1970-01-01 in the proleptic
    Gregorian calendar, by eras of 400 years that begin on 1 March. *)
Definition civil_from_days (days : Z) : Z * Z * Z :=
  let z := days + 719468 in
  let era := z / 146097 in
  let doe := z mod 146097 in
  let yoe := (doe - doe / 1460 + doe / 36524 - doe / 146096) / 365 in
  let doy := doe - (365 * yoe + yoe / 4 - yoe / 100) in
  let mp := (5 * doy + 2) / 153 in
  let d := doy - (153 * mp + 2) / 5 + 1 in
  let m := if mp <? 10 then mp + 3 else mp - 9 in
  (yoe + era * 400 + (if m <=? 2 then 1 else 0), m, d).

(** [f"{n:0{width}}"] *)
Definition zfill (width : nat) (n : Z) : string :=
  let s := str_of_Z n in string_of (replicate (width - String.length s) 48%N) +:+ s.

(** [dt.isoformat()] of a naive [dt], in microseconds after the epoch. *)
Definition isoformat_naive (dt : Z) : string :=
  let secs := dt / SECOND in
  let us := dt mod SECOND in
  let '(y, m, d) := civil_from_days (secs / 86400) in
  let t := secs mod 86400 in
  zfill 4 y +:+ "-" +:+ zfill 2 m +:+ "-" +:+ zfill 2 d +:+ "T"
  +:+ zfill 2 (t / 3600) +:+ ":" +:+ zfill 2 (t / 60 mod 60) +:+ ":" +:+ zfill 2 (t mod 60)
  +:+ (if us =? 0 then EmptyString else "." +:+ zfill 6 us).

(** The offset from UTC, in microseconds. *)
Definition iso_offset (offset : Z) : string :=
  let o := Z.abs offset in
  let secs := o / SECOND in
  (if offset <? 0 then "-" else "+") +:+ zfill 2 (secs / 3600) +:+ ":" +:+ zfill 2 (secs / 60 mod 60)
  +:+ (if (o mod (60 * SECOND)) =? 0 then EmptyString else ":" +:+ zfill 2 (secs mod 60)
       +:+ (if o mod SECOND =? 0 then EmptyString else "." +:+ zfill 6 (o mod SECOND))).
(** [dt.isoformat()] of a UTC time. *)
Definition isoformat (dt : Z) : string := isoformat_naive dt +:+ iso_offset 0.

Example isoformat_examples :
  map isoformat [0; 951782399999999; 951782400000000; 1735689600123456; 4102444799000000; -1]
  = ["1970-01-01T00:00:00+00:00"; "2000-02-28T23:59:59.999999+00:00"; "2000-02-29T00:00:00+00:00";
     "2025-01-01T00:00:00.123456+00:00"; "2099-12-31T23:59:59+00:00"; "1969-12-31T23:59:59.999999+00:00"].
Proof. vm_compute. reflexivity. Qed.
