(* ===== verification/Storage.v ===== *)
(** * The SQL storage backend ([storage/sql.py], [storage/paging.py])

    A table is the list of its rows in insertion order.  Each method of
    [SqlStorage] runs one statement (two in one transaction for
    [delete_user]); its model is the effect of that statement on the table:
    SELECT ... first() is [List.find], UPDATE ... WHERE is [update_where] with
    [count_where] as its row count, INSERT fails with an [IntegrityError] when
    a UNIQUE or PRIMARY KEY column of the migrations repeats.  Foreign keys
    are not enforced (SQLite's default). *)
From S2P Require Import Prelude PyStr PyJson Models.
#[local] Open Scope Z_scope.

Record Store := mkStore {
  clients : list Client;
  users : list User;
  tokens : list Token;
  authorization_codes : list AuthorizationCode;
  device_authorizations : list DeviceAuthorization;
  trusted_issuers : list TrustedIssuer;
  denylist : list DenylistEntry;
  audit_log : list AuditLogEntry
}.

Definition empty_store : Store := mkStore [] [] [] [] [] [] [] [].

Definition on_clients (f : list Client -> list Client) (st : Store) : Store :=
  mkStore (f (clients st)) (users st) (tokens st) (authorization_codes st)
    (device_authorizations st) (trusted_issuers st) (denylist st) (audit_log st).
Definition on_users (f : list User -> list User) (st : Store) : Store :=
  mkStore (clients st) (f (users st)) (tokens st) (authorization_codes st)
    (device_authorizations st) (trusted_issuers st) (denylist st) (audit_log st).
Definition on_tokens (f : list Token -> list Token) (st : Store) : Store :=
  mkStore (clients st) (users st) (f (tokens st)) (authorization_codes st)
    (device_authorizations st) (trusted_issuers st) (denylist st) (audit_log st).
Definition on_codes (f : list AuthorizationCode -> list AuthorizationCode) (st : Store) : Store :=
  mkStore (clients st) (users st) (tokens st) (f (authorization_codes st))
    (device_authorizations st) (trusted_issuers st) (denylist st) (audit_log st).
Definition on_devices (f : list DeviceAuthorization -> list DeviceAuthorization) (st : Store) : Store :=
  mkStore (clients st) (users st) (tokens st) (authorization_codes st)
    (f (device_authorizations st)) (trusted_issuers st) (denylist st) (audit_log st).
Definition on_issuers (f : list TrustedIssuer -> list TrustedIssuer) (st : Store) : Store :=
  mkStore (clients st) (users st) (tokens st) (authorization_codes st)
    (device_authorizations st) (f (trusted_issuers st)) (denylist st) (audit_log st).
Definition on_denylist (f : list DenylistEntry -> list DenylistEntry) (st : Store) : Store :=
  mkStore (clients st) (users st) (tokens st) (authorization_codes st)
    (device_authorizations st) (trusted_issuers st) (f (denylist st)) (audit_log st).
Definition on_audit (f : list AuditLogEntry -> list AuditLogEntry) (st : Store) : Store :=
  mkStore (clients st) (users st) (tokens st) (authorization_codes st)
    (device_authorizations st) (trusted_issuers st) (denylist st) (f (audit_log st)).

Definition oeqb (o : option string) (s : string) : bool := from_option_b (String.eqb s) o.

(** ** Clients *)
Definition save_client (c : Client) (st : Store) : result exn Store :=
  if existsb (fun r => String.eqb (c_id r) (c_id c) || String.eqb (c_client_id r) (c_client_id c))
       (clients st)
  then Err (PyErr IntegrityError "clients")
  else Ok (on_clients (fun l => l ++ [c]) st).

Definition get_client (client_id : string) (st : Store) : option Client :=
  List.find (fun r => String.eqb (c_client_id r) client_id) (clients st).

(** The columns [update_client] copies ([_CLIENT_UPDATE_COLS]: every column
    but [id], [client_id], [created_at] and [require_state]). *)
Definition client_update_cols (new old : Client) : Client :=
  {| c_id := c_id old; c_client_id := c_client_id old;
     c_client_secret := c_client_secret new; c_redirect_uris := c_redirect_uris new;
     c_grant_types := c_grant_types new; c_scope := c_scope new; c_name := c_name new;
     c_created_at := c_created_at old; c_updated_at := c_updated_at new;
     c_token_endpoint_auth_method := c_token_endpoint_auth_method new;
     c_registration_access_token := c_registration_access_token new;
     c_response_types := c_response_types new; c_contacts := c_contacts new;
     c_logo_uri := c_logo_uri new; c_client_uri := c_client_uri new;
     c_policy_uri := c_policy_uri new; c_tos_uri := c_tos_uri new;
     c_jwks := c_jwks new; c_jwks_uri := c_jwks_uri new;
     c_backchannel_logout_uri := c_backchannel_logout_uri new;
     c_backchannel_logout_session_required := c_backchannel_logout_session_required new;
     c_frontchannel_logout_uri := c_frontchannel_logout_uri new;
     c_frontchannel_logout_session_required := c_frontchannel_logout_session_required new;
     c_post_logout_redirect_uris := c_post_logout_redirect_uris new;
     c_enabled := c_enabled new; c_require_state := c_require_state old;
     c_tls_client_certificate_subject_dn := c_tls_client_certificate_subject_dn new;
     c_dpop_nonce_required := c_dpop_nonce_required new |}.

Definition update_client (c : Client) (st : Store) : Store :=
  on_clients (update_where (fun r => String.eqb (c_client_id r) (c_client_id c))
    (client_update_cols c)) st.

Definition delete_client (client_id : string) (st : Store) : Store :=
  on_clients (delete_where (fun r => String.eqb (c_client_id r) client_id)) st.

Definition set_client_enabled (client_id : string) (enabled : bool) (st : Store) : Store :=
  on_clients (update_where (fun r => String.eqb (c_client_id r) client_id)
    (fun r => {| c_id := c_id r; c_client_id := c_client_id r;
       c_client_secret := c_client_secret r; c_redirect_uris := c_redirect_uris r;
       c_grant_types := c_grant_types r; c_scope := c_scope r; c_name := c_name r;
       c_created_at := c_created_at r; c_updated_at := c_updated_at r;
       c_token_endpoint_auth_method := c_token_endpoint_auth_method r;
       c_registration_access_token := c_registration_access_token r;
       c_response_types := c_response_types r; c_contacts := c_contacts r;
       c_logo_uri := c_logo_uri r; c_client_uri := c_client_uri r;
       c_policy_uri := c_policy_uri r; c_tos_uri := c_tos_uri r;
       c_jwks := c_jwks r; c_jwks_uri := c_jwks_uri r;
       c_backchannel_logout_uri := c_backchannel_logout_uri r;
       c_backchannel_logout_session_required := c_backchannel_logout_session_required r;
       c_frontchannel_logout_uri := c_frontchannel_logout_uri r;
       c_frontchannel_logout_session_required := c_frontchannel_logout_session_required r;
       c_post_logout_redirect_uris := c_post_logout_redirect_uris r;
       c_enabled := enabled; c_require_state := c_require_state r;
       c_tls_client_certificate_subject_dn := c_tls_client_certificate_subject_dn r;
       c_dpop_nonce_required := c_dpop_nonce_required r |})) st.

Definition set_client_secret (client_id secret : string) (st : Store) : Store :=
  on_clients (update_where (fun r => String.eqb (c_client_id r) client_id)
    (fun r => {| c_id := c_id r; c_client_id := c_client_id r;
       c_client_secret := secret; c_redirect_uris := c_redirect_uris r;
       c_grant_types := c_grant_types r; c_scope := c_scope r; c_name := c_name r;
       c_created_at := c_created_at r; c_updated_at := c_updated_at r;
       c_token_endpoint_auth_method := c_token_endpoint_auth_method r;
       c_registration_access_token := c_registration_access_token r;
       c_response_types := c_response_types r; c_contacts := c_contacts r;
       c_logo_uri := c_logo_uri r; c_client_uri := c_client_uri r;
       c_policy_uri := c_policy_uri r; c_tos_uri := c_tos_uri r;
       c_jwks := c_jwks r; c_jwks_uri := c_jwks_uri r;
       c_backchannel_logout_uri := c_backchannel_logout_uri r;
       c_backchannel_logout_session_required := c_backchannel_logout_session_required r;
       c_frontchannel_logout_uri := c_frontchannel_logout_uri r;
       c_frontchannel_logout_session_required := c_frontchannel_logout_session_required r;
       c_post_logout_redirect_uris := c_post_logout_redirect_uris r;
       c_enabled := c_enabled r; c_require_state := c_require_state r;
       c_tls_client_certificate_subject_dn := c_tls_client_certificate_subject_dn r;
       c_dpop_nonce_required := c_dpop_nonce_required r |})) st.

(** ** Users *)
Definition save_user (u : User) (st : Store) : result exn Store :=
  if existsb (fun r => String.eqb (u_id r) (u_id u) || String.eqb (u_username r) (u_username u))
       (users st)
  then Err (PyErr IntegrityError "users")
  else Ok (on_users (fun l => l ++ [u]) st).

Definition get_user_by_username (username : string) (st : Store) : option User :=
  List.find (fun r => String.eqb (u_username r) username) (users st).
Definition get_user_by_id (user_id : string) (st : Store) : option User :=
  List.find (fun r => String.eqb (u_id r) user_id) (users st).

(** SQL [lower(trim(email))] removes spaces and folds ASCII letters. *)
Fixpoint sql_ltrim (s : string) : string :=
  match s with String " " s' => sql_ltrim s' | _ => s end.
Definition sql_trim (s : string) : string := rstrip_char " " (sql_ltrim s).
Definition get_users_by_email (email : string) (st : Store) : list User :=
  let folded := py_lower (py_strip email) in
  List.filter (fun r => String.eqb (py_lower (sql_trim (u_email r))) folded) (users st).

Definition set_user (f : User -> User) (user_id : string) (st : Store) : Store :=
  on_users (update_where (fun r => String.eqb (u_id r) user_id) f) st.

Definition update_user (u : User) (st : Store) : result exn Store :=
  if existsb (fun r => String.eqb (u_id r) (u_id u)) (users st)
     && existsb (fun r => negb (String.eqb (u_id r) (u_id u))
                          && String.eqb (u_username r) (u_username u)) (users st)
  then Err (PyErr IntegrityError "users")
  else Ok (set_user (fun r => mkUser (u_id r) (u_username u) (u_password_hash u) (u_email u)
    (u_enabled u) (u_role u) (u_created_at r) (u_updated_at u)) (u_id u) st).
Definition set_user_enabled (user_id : string) (enabled : bool) (st : Store) : Store :=
  set_user (fun r => mkUser (u_id r) (u_username r) (u_password_hash r) (u_email r)
    enabled (u_role r) (u_created_at r) (u_updated_at r)) user_id st.
Definition set_user_role (user_id role : string) (st : Store) : Store :=
  set_user (fun r => mkUser (u_id r) (u_username r) (u_password_hash r) (u_email r)
    (u_enabled r) role (u_created_at r) (u_updated_at r)) user_id st.
Definition set_user_password_hash (user_id hash : string) (st : Store) : Store :=
  set_user (fun r => mkUser (u_id r) (u_username r) hash (u_email r)
    (u_enabled r) (u_role r) (u_created_at r) (u_updated_at r)) user_id st.

(** ** Tokens *)
Definition revoked_token (r : Token) : Token :=
  mkToken (t_id r) (t_access_token r) (t_refresh_token r) (t_token_type r) (t_expires_in r)
    (t_scope r) (t_client_id r) (t_user_id r) (t_created_at r) (t_expires_at r) true
    (t_token_family r).
Definition unlinked_token (r : Token) : Token :=
  mkToken (t_id r) (t_access_token r) (t_refresh_token r) (t_token_type r) (t_expires_in r)
    (t_scope r) (t_client_id r) None (t_created_at r) (t_expires_at r) true
    (t_token_family r).

Definition save_token (t : Token) (st : Store) : result exn Store :=
  if existsb (fun r => String.eqb (t_id r) (t_id t)
                       || String.eqb (t_access_token r) (t_access_token t)) (tokens st)
  then Err (PyErr IntegrityError "tokens")
  else Ok (on_tokens (fun l => l ++ [t]) st).

Definition get_token_by_access_token (v : string) (st : Store) : option Token :=
  List.find (fun r => String.eqb (t_access_token r) v) (tokens st).
Definition get_token_by_refresh_token (v : string) (st : Store) : option Token :=
  List.find (fun r => oeqb (t_refresh_token r) v) (tokens st).
Definition get_token_by_id (v : string) (st : Store) : option Token :=
  List.find (fun r => String.eqb (t_id r) v) (tokens st).

Definition revoke_token (v : string) (st : Store) : Store :=
  on_tokens (update_where
    (fun r => String.eqb (t_access_token r) v || oeqb (t_refresh_token r) v) revoked_token) st.

Definition in_family (f : string) (r : Token) : bool := oeqb (t_token_family r) f.
Definition revoke_token_family (f : string) (st : Store) : Store * nat :=
  (on_tokens (update_where (in_family f) revoked_token) st, count_where (in_family f) (tokens st)).

Definition revoke_tokens_by_user_id (uid : string) (st : Store) : Store * nat :=
  let p r := oeqb (t_user_id r) uid && negb (t_revoked r) in
  (on_tokens (update_where p revoked_token) st, count_where p (tokens st)).
Definition revoke_tokens_by_client_id (cid : string) (st : Store) : Store * nat :=
  let p r := String.eqb (t_client_id r) cid && negb (t_revoked r) in
  (on_tokens (update_where p revoked_token) st, count_where p (tokens st)).

(** Unlinks and revokes the user's tokens, then deletes the row. *)
Definition delete_user (user_id : string) (st : Store) : Store :=
  on_users (delete_where (fun r => String.eqb (u_id r) user_id))
    (on_tokens (update_where (fun r => oeqb (t_user_id r) user_id) unlinked_token) st).

(** ** Authorization codes *)
Definition used_code (r : AuthorizationCode) : AuthorizationCode :=
  mkCode (ac_id r) (ac_code r) (ac_client_id r) (ac_user_id r) (ac_redirect_uri r)
    (ac_scope r) (ac_created_at r) (ac_expires_at r) true (ac_code_challenge r)
    (ac_code_challenge_method r) (ac_nonce r) (ac_resource r) (ac_authorization_details r)
    (ac_claims_request r) (ac_token_family r) (ac_dpop_jkt r).

Definition save_authorization_code (c : AuthorizationCode) (st : Store) : result exn Store :=
  if existsb (fun r => String.eqb (ac_id r) (ac_id c) || String.eqb (ac_code r) (ac_code c))
       (authorization_codes st)
  then Err (PyErr IntegrityError "authorization_codes")
  else Ok (on_codes (fun l => l ++ [c]) st).

Definition get_authorization_code (code : string) (st : Store) : option AuthorizationCode :=
  List.find (fun r => String.eqb (ac_code r) code) (authorization_codes st).
Definition get_authorization_code_by_token_family (f : string) (st : Store) : option AuthorizationCode :=
  List.find (fun r => oeqb (ac_token_family r) f) (authorization_codes st).

(** UPDATE ... SET used WHERE code = :c AND used = false, with its row count. *)
Definition mark_authorization_code_used (code : string) (st : Store) : Store * nat :=
  let p r := String.eqb (ac_code r) code && negb (ac_used r) in
  (on_codes (update_where p used_code) st, count_where p (authorization_codes st)).

(** ** Device authorizations *)
Definition save_device_authorization (d : DeviceAuthorization) (st : Store) : result exn Store :=
  if existsb (fun r => String.eqb (d_id r) (d_id d)
                       || String.eqb (d_device_code r) (d_device_code d)
                       || String.eqb (d_user_code r) (d_user_code d)) (device_authorizations st)
  then Err (PyErr IntegrityError "device_authorizations")
  else Ok (on_devices (fun l => l ++ [d]) st).

Definition get_device_authorization_by_device_code (v : string) (st : Store) :=
  List.find (fun r => String.eqb (d_device_code r) v) (device_authorizations st).
Definition get_device_authorization_by_user_code (v : string) (st : Store) :=
  List.find (fun r => String.eqb (d_user_code r) v) (device_authorizations st).

Definition set_device_flags (approved denied used : bool) (user_id : option string)
    (expires_at : Z) (r : DeviceAuthorization) : DeviceAuthorization :=
  mkDevice (d_id r) (d_device_code r) (d_user_code r) (d_client_id r) (d_scope r)
    (d_created_at r) expires_at (d_interval_seconds r) approved denied used user_id.

Definition approve_device_authorization (user_code user_id : string) (st : Store) : Store :=
  on_devices (update_where (fun r => String.eqb (d_user_code r) user_code)
    (fun r => set_device_flags true false (d_used r) (Some user_id) (d_expires_at r) r)) st.
Definition deny_device_authorization (user_code : string) (st : Store) : Store :=
  on_devices (update_where (fun r => String.eqb (d_user_code r) user_code)
    (fun r => set_device_flags false true (d_used r) (d_user_id r) (d_expires_at r) r)) st.
Definition mark_device_authorization_used (device_code : string) (st : Store) : Store * nat :=
  let p r := String.eqb (d_device_code r) device_code && negb (d_used r) in
  (on_devices (update_where p (fun r =>
     set_device_flags (d_approved r) (d_denied r) true (d_user_id r) (d_expires_at r) r)) st,
   count_where p (device_authorizations st)).
Definition expire_device_authorization (now : Z) (device_code : string) (st : Store) : Store :=
  on_devices (update_where (fun r => String.eqb (d_device_code r) device_code)
    (fun r => set_device_flags (d_approved r) (d_denied r) (d_used r) (d_user_id r)
                (now - SECOND) r)) st.

(** ** Trusted issuers, denylist, audit log *)
Definition save_trusted_issuer (i : TrustedIssuer) (st : Store) : result exn Store :=
  if existsb (fun r => String.eqb (ti_issuer r) (ti_issuer i)) (trusted_issuers st) then
    Ok (on_issuers (update_where (fun r => String.eqb (ti_issuer r) (ti_issuer i))
      (fun r => mkIssuer (ti_id r) (ti_issuer r) (ti_jwks_uri i) (ti_allowed_audiences i)
        (ti_subject_mapping i) (ti_jit_provision i) (ti_allowed_client_ids i) (ti_enabled i)
        (ti_created_at r) (ti_updated_at i))) st)
  else if existsb (fun r => String.eqb (ti_id r) (ti_id i)) (trusted_issuers st)
  then Err (PyErr IntegrityError "trusted_issuers")
  else Ok (on_issuers (fun l => l ++ [i]) st).

Definition get_trusted_issuer (issuer : string) (st : Store) : option TrustedIssuer :=
  List.find (fun r => String.eqb (ti_issuer r) issuer) (trusted_issuers st).

Definition deny_key (kind value : string) (r : DenylistEntry) : bool :=
  String.eqb (dl_kind r) kind && String.eqb (dl_value r) value.

(** INSERT ... ON CONFLICT(kind, value) DO UPDATE: the row's [id] survives. *)
Definition add_denylist_entry (e : DenylistEntry) (st : Store) : result exn Store :=
  if existsb (deny_key (dl_kind e) (dl_value e)) (denylist st) then
    Ok (on_denylist (update_where (deny_key (dl_kind e) (dl_value e))
      (fun r => mkDeny (dl_id r) (dl_kind r) (dl_value r) (dl_reason e) (dl_created_by e)
        (dl_created_at r) (dl_expires_at e))) st)
  else if existsb (fun r => String.eqb (dl_id r) (dl_id e)) (denylist st)
  then Err (PyErr IntegrityError "denylist")
  else Ok (on_denylist (fun l => l ++ [e]) st).

Definition remove_denylist_entry (entry_id : string) (st : Store) : Store :=
  on_denylist (delete_where (fun r => String.eqb (dl_id r) entry_id)) st.

(** Expired rows stay in the table and are invisible to lookups. *)
Definition find_denylist_entry (now : Z) (kind value : string) (st : Store) : option DenylistEntry :=
  match List.find (deny_key kind value) (denylist st) with
  | None => None
  | Some e => if deny_is_active now e then Some e else None
  end.

Definition write_audit_log (e : AuditLogEntry) (st : Store) : result exn Store :=
  if existsb (fun r => String.eqb (al_id r) (al_id e)) (audit_log st)
  then Err (PyErr IntegrityError "audit_log")
  else Ok (on_audit (fun l => l ++ [e]) st).
