(* ===== verification/Paging.v ===== *)
(** * Pages of the admin lists ([storage/paging.py], the [list_*] methods of [storage/sql.py])

    A [SELECT ... WHERE ... ORDER BY col dir LIMIT l OFFSET o] filters the table,
    sorts it by one column and takes a slice.  Text compares by bytes (SQLite's
    BINARY collation), NULL comes before everything, and rows that compare equal
    keep the order of the table. *)
From Stdlib Require Import Sorting.Permutation.
From S2P Require Import Prelude PyStr PyJson Codec Models IsoTime Storage.
#[local] Open Scope Z_scope.

Definition DEFAULT_LIMIT : Z := 25.
Definition MAX_LIMIT : Z := 200.
Record ListQuery := mkListQuery {
  lq_limit : option Z; lq_offset : Z; lq_sort_by : option string; lq_sort_dir : string;
  lq_search : option string; lq_status : option string
}.
(** [ListQuery(...)] with its [__post_init__] *)
Definition list_query (limit : option Z) (offset : Z) (sort_by : option string) (sort_dir : string)
    (search status : option string) : ListQuery :=
  mkListQuery limit (Z.max offset 0) sort_by sort_dir search status.
Definition effective_limit (q : ListQuery) : Z :=
  let limit := default DEFAULT_LIMIT (lq_limit q) in
  Z.min (if limit <? 0 then DEFAULT_LIMIT else limit) MAX_LIMIT.
Definition page_envelope (items : list json) (total limit offset : Z) : pydict :=
  [("items", JList items); ("total", JInt total); ("limit", JInt limit); ("offset", JInt offset)].

Definition whitelist_col (requested : option string) (allowed : list string) : string :=
  match requested with
  | Some r => if mem_str r allowed then r else List.last allowed EmptyString
  | None => List.last allowed EmptyString
  end.
(** [SqlStorage._order]: ascending or not. *)
Definition ascending (sort_dir : string) : bool := String.eqb sort_dir "asc".

(** ** LIKE *)
Definition backslash : ascii := "\".
Fixpoint replace_char (c : ascii) (by_ : string) (s : string) : string :=
  match s with
  | EmptyString => EmptyString
  | String d s => (if Ascii.eqb d c then by_ else String d EmptyString) +:+ replace_char c by_ s
  end.
Definition escape_like (value : string) : string :=
  replace_char "_" "\_" (replace_char "%" "\%" (replace_char backslash "\\" value)).

Fixpoint skip_continuation (s : string) : string :=
  match s with
  | String c s' => if is_continuation c then skip_continuation s' else s
  | EmptyString => EmptyString
  end.
(** [s LIKE pattern ESCAPE '\'] *)
Fixpoint sql_like (pattern : string) : string -> bool :=
  match pattern with
  | EmptyString => fun s => String.eqb s EmptyString
  | String c p =>
      if Ascii.eqb c backslash then
        match p with
        | EmptyString => fun _ => false
        | String d p => fun s => match s with String e s => Ascii.eqb d e && sql_like p s | EmptyString => false end
        end
      else if Ascii.eqb c "%" then
        fix any s := sql_like p s || match s with String _ s => any s | EmptyString => false end
      else if Ascii.eqb c "_" then
        fun s => match s with String _ s => sql_like p (skip_continuation s) | EmptyString => false end
      else fun s => match s with String e s => Ascii.eqb c e && sql_like p s | EmptyString => false end
  end.
Definition search_pattern (q : ListQuery) : string :=
  "%" +:+ escape_like (py_lower (or_else (lq_search q) EmptyString)) +:+ "%".
Definition column_like (q : ListQuery) (column : string) : bool := sql_like (search_pattern q) (py_lower column).

(** ** ORDER BY *)
Inductive sql_key := KNull | KInt (n : Z) | KText (s : string).
Definition key_leb (a b : sql_key) : bool :=
  match a, b with
  | KNull, _ => true
  | _, KNull => false
  | KInt x, KInt y => x <=? y
  | KInt _, KText _ => true
  | KText _, KInt _ => false
  | KText x, KText y => String.leb x y
  end.
Section order.
Context {A : Type} (key : A -> sql_key).
(** [x] stays before the rows it compares equal with. *)
Fixpoint insert_row (asc : bool) (x : A) (l : list A) : list A :=
  match l with
  | [] => [x]
  | y :: r => if (if asc then key_leb (key x) (key y) else key_leb (key y) (key x)) then x :: l
              else y :: insert_row asc x r
  end.
Definition order_by (asc : bool) (l : list A) : list A := fold_right (insert_row asc) [] l.

(** The rows of a page and the total number of rows. *)
Definition select_page (where_ : A -> bool) (asc : bool) (q : ListQuery) (table : list A) : list A * Z :=
  let rows := List.filter where_ table in
  (firstn (Z.to_nat (effective_limit q)) (skipn (Z.to_nat (lq_offset q)) (order_by asc rows)),
   Z.of_nat (length rows)).
End order.

(** ** The list methods *)
Definition CLIENT_SORT_COLS : list string := ["name"; "client_id"; "created_at"].
Definition USER_SORT_COLS : list string := ["username"; "email"; "role"; "created_at"].
Definition TOKEN_SORT_COLS : list string := ["client_id"; "user_id"; "scope"; "expires_at"; "created_at"].
Definition DEVICE_AUTH_SORT_COLS : list string := ["created_at"].
Definition DENYLIST_SORT_COLS : list string := ["kind"; "value"; "created_at"].
Definition AUDIT_LOG_SORT_COLS : list string := ["actor_id"; "action"; "target_kind"; "created_at"].

Definition client_col (col : string) (c : Client) : sql_key :=
  if String.eqb col "name" then KText (c_name c) else if String.eqb col "client_id" then KText (c_client_id c)
  else KInt (c_created_at c).
Definition user_col (col : string) (u : User) : sql_key :=
  if String.eqb col "username" then KText (u_username u) else if String.eqb col "email" then KText (u_email u)
  else if String.eqb col "role" then KText (u_role u) else KInt (u_created_at u).
Definition token_col (col : string) (t : Token) : sql_key :=
  if String.eqb col "client_id" then KText (t_client_id t)
  else if String.eqb col "user_id" then match t_user_id t with Some u => KText u | None => KNull end
  else if String.eqb col "scope" then KText (t_scope t)
  else if String.eqb col "expires_at" then KInt (t_expires_at t) else KInt (t_created_at t).
Definition deny_col (col : string) (e : DenylistEntry) : sql_key :=
  if String.eqb col "kind" then KText (dl_kind e) else if String.eqb col "value" then KText (dl_value e)
  else KInt (dl_created_at e).
Definition audit_col (col : string) (e : AuditLogEntry) : sql_key :=
  if String.eqb col "actor_id" then KText (al_actor_id e) else if String.eqb col "action" then KText (al_action e)
  else if String.eqb col "target_kind" then KText (al_target_kind e) else KInt (al_created_at e).

Definition list_clients_page (q : ListQuery) (st : Store) : list Client * Z :=
  select_page (client_col (whitelist_col (lq_sort_by q) CLIENT_SORT_COLS))
    (fun c => column_like q (c_name c) || column_like q (c_client_id c)) (ascending (lq_sort_dir q)) q (clients st).
Definition list_users_page (q : ListQuery) (st : Store) : list User * Z :=
  select_page (user_col (whitelist_col (lq_sort_by q) USER_SORT_COLS))
    (fun u => column_like q (u_username u) || column_like q (u_email u)) (ascending (lq_sort_dir q)) q (users st).
Definition token_status (now : Z) (status : option string) (t : Token) : bool :=
  match status with
  | Some s =>
      if String.eqb s "active" then negb (t_revoked t) && (now <? t_expires_at t)
      else if String.eqb s "revoked" then t_revoked t
      else if String.eqb s "expired" then negb (t_revoked t) && (t_expires_at t <=? now)
      else true
  | None => true
  end.
Definition list_tokens_page (now : Z) (q : ListQuery) (st : Store) : list Token * Z :=
  select_page (token_col (whitelist_col (lq_sort_by q) TOKEN_SORT_COLS))
    (fun t => (column_like q (t_client_id t) || column_like q (default EmptyString (t_user_id t)))
              && token_status now (lq_status q) t)
    (ascending (lq_sort_dir q)) q (tokens st).
Definition list_device_authorizations_page (q : ListQuery) (st : Store) : list DeviceAuthorization * Z :=
  select_page (fun d => KInt (d_created_at d)) (fun _ => true) (ascending (lq_sort_dir q)) q (device_authorizations st).
Definition list_denylist (q : ListQuery) (st : Store) : list DenylistEntry * Z :=
  select_page (deny_col (whitelist_col (lq_sort_by q) DENYLIST_SORT_COLS)) (fun _ => true)
    (ascending (lq_sort_dir q)) q (denylist st).
Definition list_audit_log (q : ListQuery) (st : Store) : list AuditLogEntry * Z :=
  select_page (audit_col (whitelist_col (lq_sort_by q) AUDIT_LOG_SORT_COLS)) (fun _ => true)
    (ascending (lq_sort_dir q)) q (audit_log st).

(** The unpaged lists of the dashboard, newest first. *)
Definition list_all_clients (st : Store) : list Client := order_by (fun c => KInt (c_created_at c)) false (clients st).
Definition list_all_users (st : Store) : list User := order_by (fun u => KInt (u_created_at u)) false (users st).
Definition list_all_tokens (st : Store) : list Token :=
  firstn 200 (order_by (fun t => KInt (t_created_at t)) false (tokens st)).
Definition list_all_device_authorizations (st : Store) : list DeviceAuthorization :=
  firstn 500 (order_by (fun d => KInt (d_created_at d)) false (device_authorizations st)).

(** ** Properties *)
Definition like_escape (c : ascii) : string :=
  if Ascii.eqb c backslash then "\\" else if Ascii.eqb c "%" then "\%" else if Ascii.eqb c "_" then "\_"
  else String c EmptyString.
Lemma replace_char_app c b s t : replace_char c b (s +:+ t) = replace_char c b s +:+ replace_char c b t.
Proof.
  induction s as [|d s IH]; [done|]. rewrite append_String. cbn [replace_char]. by rewrite IH, string_app_assoc.
Qed.
Lemma escape_like_cons c s : escape_like (String c s) = like_escape c +:+ escape_like s.
Proof.
  unfold escape_like, like_escape. cbn [replace_char]. rewrite !replace_char_app. f_equal.
  destruct (Ascii.eqb_spec c backslash) as [->|]; [done|]. cbn [replace_char].
  destruct (Ascii.eqb_spec c "%") as [->|]; [done|]. rewrite string_app_nil_r. cbn [replace_char].
  rewrite string_app_nil_r. done.
Qed.
Lemma like_literal c p s : sql_like (like_escape c +:+ p) s
  = match s with String e s => Ascii.eqb c e && sql_like p s | EmptyString => false end.
Proof.
  unfold like_escape. destruct (Ascii.eqb_spec c backslash) as [->|Hb]; [by destruct s|].
  destruct (Ascii.eqb_spec c "%") as [->|Hp]; [by destruct s|].
  destruct (Ascii.eqb_spec c "_") as [->|Hu]; [by destruct s|]. rewrite append_String. cbn [sql_like].
  apply Ascii.eqb_neq in Hb as ->, Hp as ->, Hu as ->. done.
Qed.
Lemma like_any s : sql_like "%" s = true.
Proof. by induction s as [|c s IH]; cbn in *; [|rewrite IH]. Qed.
Lemma like_prefix q s : sql_like (escape_like q +:+ "%") s = py_startswith q s.
Proof.
  revert s. induction q as [|c q IH]; intros s; [by rewrite like_any|].
  rewrite escape_like_cons, string_app_assoc, like_literal. destruct s as [|e s]; [done|]. by rewrite IH.
Qed.
(** Whatever the text contains, the pattern matches it and nothing else. *)
Lemma escape_like_literal q s : sql_like ("%" +:+ escape_like q +:+ "%") s = py_contains q s.
Proof.
  change ("%" +:+ ?p) with (String "%" p). cbn [sql_like]. change (Ascii.eqb "%" backslash) with false.
  change (Ascii.eqb "%" "%") with true. cbn beta iota.
  induction s as [|e s IH]; rewrite like_prefix; [done|]. cbn [py_contains]. by rewrite IH.
Qed.

Lemma insert_row_perm {A} (key : A -> sql_key) asc x l : Permutation (insert_row key asc x l) (x :: l).
Proof.
  induction l as [|y l IH]; [done|]. cbn [insert_row]. destruct (if asc then _ else _); [done|].
  rewrite IH. apply perm_swap.
Qed.
Lemma order_by_perm {A} (key : A -> sql_key) asc l : Permutation (order_by key asc l) l.
Proof. induction l as [|x l IH]; [done|]. cbn. by rewrite insert_row_perm, IH. Qed.

(** [q] moved to its [k]-th page *)
Definition at_page (q : ListQuery) (k : nat) : ListQuery :=
  list_query (lq_limit q) (Z.of_nat k * effective_limit q) (lq_sort_by q) (lq_sort_dir q) (lq_search q) (lq_status q).
Lemma pages_prefix {A} (l : list A) L n k :
  concat (map (fun i => firstn L (skipn (i * L) l)) (seq k n)) = firstn (n * L) (skipn (k * L) l).
Proof.
  revert k. induction n as [|n IH]; intros k; [done|]. cbn [seq map concat]. rewrite IH.
  replace (S k * L)%nat with (L + k * L)%nat by lia. rewrite <- List.skipn_skipn. cbn [Nat.mul].
  rewrite <- (take_drop L (firstn (L + n * L) _)), firstn_firstn, Nat.min_l, skipn_firstn_comm by lia.
  do 2 f_equal. lia.
Qed.
Lemma select_pages {A} (key : A -> sql_key) where_ asc q table n :
  (length table <= n * Z.to_nat (effective_limit q))%nat -> 0 <= effective_limit q ->
  Permutation (concat (map (fun k => (select_page key where_ asc (at_page q k) table).1) (seq 0 n)))
    (List.filter where_ table).
Proof.
  intros Hn Hl. transitivity (order_by key asc (List.filter where_ table)); [|apply order_by_perm].
  unfold select_page. cbn [fst]. set (rows := order_by key asc _).
  rewrite (List.map_ext _ (fun i => firstn (Z.to_nat (effective_limit q)) (skipn (i * Z.to_nat (effective_limit q)) rows))).
  - rewrite pages_prefix, firstn_all2; [done|]. rewrite length_skipn. unfold rows. rewrite (Permutation_length (order_by_perm _ _ _)).
    pose proof (filter_length_le where_ table). lia.
  - intros k. unfold at_page. cbn [lq_offset list_query]. do 2 f_equal. lia.
Qed.

Definition mentions (q : ListQuery) (column : string) : bool :=
  py_contains (py_lower (or_else (lq_search q) EmptyString)) (py_lower column).
Lemma column_mentions q column : column_like q column = mentions q column.
Proof. apply escape_like_literal. Qed.
