(* ===== verification/StoreSpec.v ===== *)
(** * What the storage backend promises

    The integrity constraints of the migrations as an invariant [store_ok] of
    [Store], every writing method of [SqlStorage] as an operation [op], and
    the contracts the rest of the server relies on: unique rows, one-time
    claims of codes, family-wide revocation, upserts that keep a row's id. *)
From S2P Require Import Prelude PyStr PyJson Models Storage.
#[local] Open Scope Z_scope.

(** PRIMARY KEY and UNIQUE constraints of the migrations. *)
Record store_ok (st : Store) : Prop := {
  ok_client_ids : NoDup (map c_id (clients st));
  ok_clients : NoDup (map c_client_id (clients st));
  ok_user_ids : NoDup (map u_id (users st));
  ok_users : NoDup (map u_username (users st));
  ok_token_ids : NoDup (map t_id (tokens st));
  ok_tokens : NoDup (map t_access_token (tokens st));
  ok_code_ids : NoDup (map ac_id (authorization_codes st));
  ok_codes : NoDup (map ac_code (authorization_codes st));
  ok_device_ids : NoDup (map d_id (device_authorizations st));
  ok_devices : NoDup (map d_device_code (device_authorizations st));
  ok_user_codes : NoDup (map d_user_code (device_authorizations st));
  ok_issuer_ids : NoDup (map ti_id (trusted_issuers st));
  ok_issuers : NoDup (map ti_issuer (trusted_issuers st));
  ok_deny_ids : NoDup (map dl_id (denylist st));
  ok_denied : NoDup (map (fun r => (dl_kind r, dl_value r)) (denylist st));
  ok_audit : NoDup (map al_id (audit_log st))
}.

(** ** The writing methods *)
Inductive op :=
| SaveClient (c : Client) | UpdateClient (c : Client) | DeleteClient (client_id : string)
| SetClientEnabled (client_id : string) (enabled : bool)
| SetClientSecret (client_id secret : string)
| SaveUser (u : User) | UpdateUser (u : User) | DeleteUser (user_id : string)
| SetUserEnabled (user_id : string) (enabled : bool)
| SetUserRole (user_id role : string) | SetUserPasswordHash (user_id hash : string)
| SaveToken (t : Token) | RevokeToken (v : string) | RevokeTokenFamily (f : string)
| RevokeTokensByUserId (uid : string) | RevokeTokensByClientId (cid : string)
| SaveCode (c : AuthorizationCode) | MarkCodeUsed (code : string)
| SaveDevice (d : DeviceAuthorization) | ApproveDevice (user_code user_id : string)
| DenyDevice (user_code : string) | MarkDeviceUsed (device_code : string)
| ExpireDevice (now : Z) (device_code : string)
| SaveTrustedIssuer (i : TrustedIssuer)
| AddDenylistEntry (e : DenylistEntry) | RemoveDenylistEntry (entry_id : string)
| WriteAuditLog (e : AuditLogEntry).

Definition apply_op (o : op) (st : Store) : result exn Store :=
  match o with
  | SaveClient c => save_client c st
  | UpdateClient c => Ok (update_client c st)
  | DeleteClient i => Ok (delete_client i st)
  | SetClientEnabled i b => Ok (set_client_enabled i b st)
  | SetClientSecret i s => Ok (set_client_secret i s st)
  | SaveUser u => save_user u st
  | UpdateUser u => update_user u st
  | DeleteUser i => Ok (delete_user i st)
  | SetUserEnabled i b => Ok (set_user_enabled i b st)
  | SetUserRole i r => Ok (set_user_role i r st)
  | SetUserPasswordHash i h => Ok (set_user_password_hash i h st)
  | SaveToken t => save_token t st
  | RevokeToken v => Ok (revoke_token v st)
  | RevokeTokenFamily f => Ok (revoke_token_family f st).1
  | RevokeTokensByUserId i => Ok (revoke_tokens_by_user_id i st).1
  | RevokeTokensByClientId i => Ok (revoke_tokens_by_client_id i st).1
  | SaveCode c => save_authorization_code c st
  | MarkCodeUsed c => Ok (mark_authorization_code_used c st).1
  | SaveDevice d => save_device_authorization d st
  | ApproveDevice c u => Ok (approve_device_authorization c u st)
  | DenyDevice c => Ok (deny_device_authorization c st)
  | MarkDeviceUsed c => Ok (mark_device_authorization_used c st).1
  | ExpireDevice now c => Ok (expire_device_authorization now c st)
  | SaveTrustedIssuer i => save_trusted_issuer i st
  | AddDenylistEntry e => add_denylist_entry e st
  | RemoveDenylistEntry i => Ok (remove_denylist_entry i st)
  | WriteAuditLog e => write_audit_log e st
  end.

(** A statement that raises leaves the table as it was. *)
Fixpoint apply_ops (os : list op) (st : Store) : Store :=
  match os with
  | [] => st
  | o :: os => apply_ops os (match apply_op o st with Ok st' => st' | Err _ => st end)
  end.

(** ** Lemmas on keyed tables *)
Section keyed.
Context {R K : Type} (key : R -> K).

Lemma nodup_update p (f : R -> R) l :
  (forall r, key (f r) = key r) -> NoDup (map key l) -> NoDup (map key (update_where p f l)).
Proof. intros Hk H. by rewrite map_update_where. Qed.

Lemma nodup_delete p (l : list R) : NoDup (map key l) -> NoDup (map key (delete_where p l)).
Proof.
  unfold delete_where. induction l as [|r l IH]; simpl; [done|].
  rewrite NoDup_cons. intros [Hr Hl]. destruct (p r); simpl; [by apply IH|].
  apply NoDup_cons. split; [|by apply IH]. contradict Hr.
  apply list_elem_of_In in Hr. apply list_elem_of_In. apply in_map_iff in Hr as (x & Hx & Hin).
  apply List.filter_In in Hin as [Hin _]. apply in_map_iff. eauto.
Qed.

Lemma nodup_insert p (l : list R) r :
  existsb p l = false -> (forall x, key x = key r -> p x = true) ->
  NoDup (map key l) -> NoDup (map key (l ++ [r])).
Proof.
  intros Hp Hk H. rewrite map_app. apply NoDup_app. split; [done|]. split; [|apply NoDup_singleton].
  intros k Hin Hk'. apply list_elem_of_In in Hk' as [<-|[]].
  apply list_elem_of_In, in_map_iff in Hin as (x & Hx & Hin).
  assert (existsb p l = true); [|congruence].
  apply existsb_exists. eauto.
Qed.

(** A row with a unique key is the one [find] returns. *)
Lemma find_unique q (l : list R) r :
  NoDup (map key l) -> In r l -> (forall x, q x = true <-> key x = key r) ->
  List.find q l = Some r.
Proof.
  intros Hnd Hin Hq. induction l as [|x l IH]; [done|]. simpl in *.
  apply NoDup_cons in Hnd as [Hx Hnd]. destruct Hin as [->|Hin].
  - assert (q r = true) as -> by by apply Hq. done.
  - destruct (q x) eqn:Hqx; [|auto]. apply Hq in Hqx. contradict Hx.
    rewrite Hqx. by apply list_elem_of_In, in_map.
Qed.

(** At most one row satisfies a predicate that determines the key. *)
Lemma count_unique p k (l : list R) :
  NoDup (map key l) -> (forall x, p x = true -> key x = k) -> (count_where p l <= 1)%nat.
Proof.
  intros Hnd Hp. unfold count_where. induction l as [|x l IH]; simpl; [lia|].
  apply NoDup_cons in Hnd as [Hx Hnd]. destruct (p x) eqn:Hpx; [|auto].
  simpl. enough (List.filter p l = []) as -> by done.
  apply Hp in Hpx. destruct (List.filter p l) as [|y l'] eqn:Hf; [done|]. exfalso.
  assert (In y (List.filter p l)) as Hy by (rewrite Hf; by left).
  apply List.filter_In in Hy as [Hy Hpy]. apply Hp in Hpy. apply Hx.
  rewrite Hpx, <- Hpy. by apply list_elem_of_In, in_map.
Qed.
End keyed.

(** Changing one UNIQUE column of the row with a given id to a value that no
    other row has. *)
Lemma nodup_update_user (u : User) g l :
  NoDup (map u_id l) -> NoDup (map u_username l) ->
  (forall r, u_username (g r) = u_username u) ->
  existsb (fun r => negb (String.eqb (u_id r) (u_id u))
                    && String.eqb (u_username r) (u_username u)) l = false ->
  NoDup (map u_username (update_where (fun r => String.eqb (u_id r) (u_id u)) g l)).
Proof.
  intros Hid Hn Hg. induction l as [|r l IH]; simpl; [done|].
  rewrite orb_false_iff. intros [Hr Hl]. simpl in Hid, Hn.
  apply NoDup_cons in Hid as [Hid1 Hid2]. apply NoDup_cons in Hn as [Hn1 Hn2].
  apply NoDup_cons. split; [|by apply IH].
  intros Hin. apply list_elem_of_In, in_map_iff in Hin as (y & Hy & Hin).
  apply in_update_where in Hin as (x & Hx & ->).
  pose proof (existsb_false _ _ _ Hl Hx) as Hz. cbv beta in Hz.
  destruct (String.eqb_spec (u_id r) (u_id u)) as [Hru|Hru];
    destruct (String.eqb_spec (u_id x) (u_id u)) as [Hxu|Hxu]; simpl in *; rewrite ?Hg in Hy.
  - apply Hid1. rewrite Hru, <- Hxu. by apply list_elem_of_In, in_map.
  - by rewrite Hy, String.eqb_refl in Hz.
  - by rewrite <- Hy, String.eqb_refl in Hr.
  - apply Hn1. rewrite <- Hy. by apply list_elem_of_In, in_map.
Qed.

Lemma update_absent {A} p (f : A -> A) l : existsb p l = false -> update_where p f l = l.
Proof.
  induction l as [|a l IH]; simpl; [done|]. rewrite orb_false_iff. intros [-> Hl].
  f_equal. by apply IH.
Qed.

(** A one-time claim: UPDATE ... SET used WHERE key = k AND NOT used. *)
Section claim.
Context {R : Type} (key : R -> string) (used : R -> bool) (mark : R -> R).
Context (key_mark : forall r, key (mark r) = key r) (used_mark : forall r, used (mark r) = true)
  (mark_used : forall r, used r = true -> mark r = r).
Definition claimable k (r : R) : bool := String.eqb (key r) k && negb (used r).
Definition with_key k (r : R) : bool := String.eqb (key r) k.

Lemma claim_count_le k l : NoDup (map key l) -> (count_where (claimable k) l <= 1)%nat.
Proof.
  intros H. apply (count_unique key _ k); [done|]. unfold claimable. intros x Hx. by b2p.
Qed.

Lemma claim_count_one k l : NoDup (map key l) ->
  count_where (claimable k) l = 1%nat <->
  exists r, List.find (with_key k) l = Some r /\ used r = false.
Proof.
  intros H. pose proof (claim_count_le k l H) as Hle. split.
  - intros Hc. destruct (List.filter (claimable k) l) as [|r l'] eqn:Hf;
      unfold count_where in Hc; rewrite Hf in Hc; [done|].
    assert (In r (List.filter (claimable k) l)) as Hr by (rewrite Hf; by left).
    apply List.filter_In in Hr as [Hr Hp]. unfold claimable in Hp. b2p. exists r.
    split; [|done]. apply (find_unique key); [done|done|]. intros x. unfold with_key.
    rewrite String.eqb_eq. naive_solver.
  - intros (r & Hr & Hu). apply find_In in Hr as [Hr Hk]. unfold with_key in Hk.
    destruct (count_where (claimable k) l) as [|[|c]] eqn:Hc; [|done|lia].
    apply count_where_zero with (x := r) in Hc; [|done].
    unfold claimable in Hc. by rewrite Hk, Hu in Hc.
Qed.

Lemma claim_find k l :
  List.find (with_key k) (update_where (claimable k) mark l)
  = mark <$> List.find (with_key k) l.
Proof.
  rewrite find_update_where by (intros; unfold with_key; by rewrite key_mark).
  destruct (List.find (with_key k) l) as [r|] eqn:Hr; [simpl|done].
  apply find_In in Hr as [_ Hr]. unfold with_key in Hr. unfold claimable. rewrite Hr. simpl.
  destruct (used r) eqn:Hu; simpl; [by rewrite mark_used|done].
Qed.

Lemma claim_twice k l : count_where (claimable k) (update_where (claimable k) mark l) = 0%nat.
Proof.
  apply count_where_zero. intros x Hx. apply in_update_where in Hx as (y & _ & ->).
  destruct (claimable k y) eqn:Hy; [|done].
  unfold claimable. rewrite used_mark. by rewrite andb_false_r.
Qed.
End claim.

#[export] Hint Resolve nodup_update nodup_delete : oauth.

Lemma existsb_or_false {A} (p q : A -> bool) l :
  existsb (fun x => p x || q x) l = false -> existsb p l = false /\ existsb q l = false.
Proof.
  induction l as [|a l IH]; simpl; [done|]. rewrite !orb_false_iff. naive_solver.
Qed.

(** Replacing one table preserves the constraints of the others. *)
Section tables.
Context (st : Store) (Hok : store_ok st).

Lemma ok_on_clients f :
  NoDup (map c_id (f (clients st))) -> NoDup (map c_client_id (f (clients st))) ->
  store_ok (on_clients f st).
Proof. destruct Hok. by constructor. Qed.
Lemma ok_on_users f :
  NoDup (map u_id (f (users st))) -> NoDup (map u_username (f (users st))) ->
  store_ok (on_users f st).
Proof. destruct Hok. by constructor. Qed.
Lemma ok_on_tokens f :
  NoDup (map t_id (f (tokens st))) -> NoDup (map t_access_token (f (tokens st))) ->
  store_ok (on_tokens f st).
Proof. destruct Hok. by constructor. Qed.
Lemma ok_on_codes f :
  NoDup (map ac_id (f (authorization_codes st))) ->
  NoDup (map ac_code (f (authorization_codes st))) -> store_ok (on_codes f st).
Proof. destruct Hok. by constructor. Qed.
Lemma ok_on_devices f :
  NoDup (map d_id (f (device_authorizations st))) ->
  NoDup (map d_device_code (f (device_authorizations st))) ->
  NoDup (map d_user_code (f (device_authorizations st))) -> store_ok (on_devices f st).
Proof. destruct Hok. by constructor. Qed.
Lemma ok_on_issuers f :
  NoDup (map ti_id (f (trusted_issuers st))) ->
  NoDup (map ti_issuer (f (trusted_issuers st))) -> store_ok (on_issuers f st).
Proof. destruct Hok. by constructor. Qed.
Lemma ok_on_denylist f :
  NoDup (map dl_id (f (denylist st))) ->
  NoDup (map (fun r => (dl_kind r, dl_value r)) (f (denylist st))) ->
  store_ok (on_denylist f st).
Proof. destruct Hok. by constructor. Qed.
Lemma ok_on_audit f : NoDup (map al_id (f (audit_log st))) -> store_ok (on_audit f st).
Proof. destruct Hok. by constructor. Qed.
End tables.
Ltac table_ok :=
  match goal with
  | |- store_ok (on_clients _ _) => apply ok_on_clients
  | |- store_ok (on_users _ _) => apply ok_on_users
  | |- store_ok (on_tokens _ _) => apply ok_on_tokens
  | |- store_ok (on_codes _ _) => apply ok_on_codes
  | |- store_ok (on_devices _ _) => apply ok_on_devices
  | |- store_ok (on_issuers _ _) => apply ok_on_issuers
  | |- store_ok (on_denylist _ _) => apply ok_on_denylist
  | |- store_ok (on_audit _ _) => apply ok_on_audit
  end; cbn [users on_tokens]; cbv beta.
#[export] Hint Resolve ok_client_ids ok_clients ok_user_ids ok_users ok_token_ids ok_tokens
  ok_code_ids ok_codes ok_device_ids ok_devices ok_user_codes ok_issuer_ids ok_issuers
  ok_deny_ids ok_denied ok_audit : oauth.

Lemma find_snoc {A} (q : A -> bool) l x :
  List.find q (l ++ [x])
  = match List.find q l with Some y => Some y | None => if q x then Some x else None end.
Proof. destruct (List.find q l) eqn:H; [by apply find_app_some|by rewrite find_app_none]. Qed.

(** A test [p] that holds of every row with the key of [r]: the part of an
    existence guard that protects one UNIQUE column. *)
Lemma eqb_key {R} (key : R -> string) (r x : R) : key x = key r -> String.eqb (key x) (key r) = true.
Proof. intros ->. apply String.eqb_refl. Qed.
Lemma deny_key_same (r x : DenylistEntry) :
  (dl_kind x, dl_value x) = (dl_kind r, dl_value r) -> deny_key (dl_kind r) (dl_value r) x = true.
Proof. intros [= H1 H2]. unfold deny_key. by rewrite H1, H2, !String.eqb_refl. Qed.

(** Splits an insertion's guard and closes each column with its part. *)
Ltac insert_ok :=
  repeat match goal with
  | H : existsb (fun x => _ || _) _ = false |- _ => apply existsb_or_false in H; destruct H
  end;
  match goal with
  | |- NoDup (map ?key (?l ++ [?r])) =>
      match goal with
      | H : existsb ?p l = false |- _ =>
          apply (nodup_insert key p); [exact H | intros ? ?; first [by apply (eqb_key key)|by apply deny_key_same] | eauto with oauth]
      end
  end.

Ltac unfold_ops :=
  unfold update_client, delete_client, set_client_enabled, set_client_secret, update_user,
    delete_user, set_user_enabled, set_user_role, set_user_password_hash, set_user,
    revoke_token, revoke_token_family, revoke_tokens_by_user_id, revoke_tokens_by_client_id,
    mark_authorization_code_used, approve_device_authorization, deny_device_authorization,
    mark_device_authorization_used, expire_device_authorization, remove_denylist_entry,
    save_client, save_user, save_token, save_authorization_code, save_device_authorization,
    save_trusted_issuer, add_denylist_entry, write_audit_log in *; cbn [fst snd] in *.

Lemma apply_op_ok (o : op) (st st' : Store) :
  store_ok st -> apply_op o st = Ok st' -> store_ok st'.
Proof.
  intros Hok H. destruct o; cbn [apply_op] in H; unfold_ops; repeat run_step H;
    repeat table_ok; try solve [eauto with oauth | insert_ok].
  apply andb_false_iff in E as [E|E].
  - rewrite update_absent by done. eauto with oauth.
  - apply nodup_update_user; eauto with oauth.
Qed.

(** C10: the UNIQUE and PRIMARY KEY constraints hold after every writing method
    that succeeds, for every table at once. *)
Theorem storage_preserves_constraints (o : op) (st st' : Store) :
  store_ok st -> apply_op o st = Ok st' -> store_ok st'.
Proof. apply apply_op_ok. Qed.

Lemma apply_ops_ok os st : store_ok st -> store_ok (apply_ops os st).
Proof.
  revert st. induction os as [|o os IH]; simpl; intros st Hok; [done|]. apply IH.
  destruct (apply_op o st) as [st'|e] eqn:Ho; [by eapply apply_op_ok|done].
Qed.
Lemma apply_ops_app os os' st : apply_ops (os ++ os') st = apply_ops os' (apply_ops os st).
Proof. revert st. induction os as [|o os IH]; simpl; intros st; [done|apply IH]. Qed.

(** ** Spent codes stay spent *)
Definition code_spent (code : string) (st : Store) : Prop :=
  exists r, get_authorization_code code st = Some r /\ ac_used r = true.
Definition device_spent (code : string) (st : Store) : Prop :=
  exists r, get_device_authorization_by_device_code code st = Some r /\ d_used r = true.

Lemma code_spent_on_codes code st f p :
  (forall r, ac_code (f r) = ac_code r) -> (forall r, ac_used r = true -> ac_used (f r) = true) ->
  code_spent code st -> code_spent code (on_codes (update_where p f) st).
Proof.
  intros Hk Hu (r & Hr & Hused). unfold code_spent, get_authorization_code. cbn.
  rewrite find_update_where by (intros; by rewrite Hk).
  unfold get_authorization_code in Hr. rewrite Hr. eexists. split; [done|]. destruct (p r); auto.
Qed.
Lemma device_spent_on_devices code st f p :
  (forall r, d_device_code (f r) = d_device_code r) -> (forall r, d_used r = true -> d_used (f r) = true) ->
  device_spent code st -> device_spent code (on_devices (update_where p f) st).
Proof.
  intros Hk Hu (r & Hr & Hused). unfold device_spent, get_device_authorization_by_device_code. cbn.
  rewrite find_update_where by (intros; by rewrite Hk).
  unfold get_device_authorization_by_device_code in Hr. rewrite Hr. eexists. split; [done|]. destruct (p r); auto.
Qed.

Lemma apply_op_code_spent o code st st' :
  code_spent code st -> apply_op o st = Ok st' -> code_spent code st'.
Proof.
  intros Hs H. destruct o; cbn [apply_op] in H; unfold_ops; repeat run_step H; try done;
    try (by apply code_spent_on_codes).
  destruct Hs as (r & Hr & Hu). exists r. split; [|done]. unfold get_authorization_code in *. cbn.
  by apply find_app_some.
Qed.
Lemma apply_op_device_spent o code st st' :
  device_spent code st -> apply_op o st = Ok st' -> device_spent code st'.
Proof.
  intros Hs H. destruct o; cbn [apply_op] in H; unfold_ops; repeat run_step H; try done;
    try (by apply device_spent_on_devices).
  destruct Hs as (r & Hr & Hu). exists r. split; [|done].
  unfold get_device_authorization_by_device_code in *. cbn. by apply find_app_some.
Qed.
Lemma apply_ops_code_spent os code st : code_spent code st -> code_spent code (apply_ops os st).
Proof.
  revert st. induction os as [|o os IH]; simpl; intros st Hs; [done|]. apply IH.
  destruct (apply_op o st) eqn:Ho; [by eapply apply_op_code_spent|done].
Qed.
Lemma apply_ops_device_spent os code st : device_spent code st -> device_spent code (apply_ops os st).
Proof.
  revert st. induction os as [|o os IH]; simpl; intros st Hs; [done|]. apply IH.
  destruct (apply_op o st) eqn:Ho; [by eapply apply_op_device_spent|done].
Qed.

Definition sample_token (id at_ : string) (fam : option string) (revoked : bool) : Token :=
  mkToken id at_ (Some "rt") "Bearer" 3600 "read" "c1" (Some "u1") 0 (3600 * SECOND) revoked fam.
Definition sample_code (used : bool) : AuthorizationCode :=
  mkCode "i" "code" "c1" "u1" "https://a/cb" "read" 0 (600 * SECOND) used None None None None
    None None (Some "fam") None.
Definition sample_store : Store :=
  on_codes (fun _ => [sample_code false])
    (on_tokens (fun _ => [sample_token "1" "at1" (Some "fam") false;
                          sample_token "2" "at2" None false]) empty_store).
Lemma sample_store_ok : store_ok sample_store.
Proof. constructor; vm_compute; repeat (constructor; [set_solver|]); constructor. Qed.

Lemma storage_preserves_constraints_witness :
  exists st', apply_op (SaveToken (sample_token "3" "at3" None false)) sample_store = Ok st'
              /\ store_ok st'.
Proof.
  eexists. split; [reflexivity|].
  apply (storage_preserves_constraints (SaveToken (sample_token "3" "at3" None false)) sample_store);
    [exact sample_store_ok|reflexivity].
Defined.

Lemma code_claim_spends code st st' n :
  mark_authorization_code_used code st = (st', n) -> n <> 0%nat -> code_spent code st'.
Proof.
  intros [= <- <-] Hn. unfold code_spent, get_authorization_code. cbn [authorization_codes on_codes].
  pose proof (claim_find ac_code ac_used used_code
    ltac:(done) ltac:(by intros [] ?; simpl in *; subst) code (authorization_codes st)) as Hc.
  unfold with_key at 1, claimable in Hc. rewrite Hc. clear Hc.
  destruct (List.find (with_key ac_code code) (authorization_codes st)) as [r|] eqn:Hf; [by eexists|].
  exfalso. apply Hn. apply count_where_zero. intros x Hx.
  pose proof (List.find_none _ _ Hf x Hx) as Hk. unfold with_key in Hk. by rewrite Hk.
Qed.
Lemma code_claim_spent code st st' n :
  store_ok st -> mark_authorization_code_used code st = (st', n) -> code_spent code st -> n = 0%nat.
Proof.
  intros Hok Hm (r & Hr & Hu). injection Hm as <- <-.
  destruct (claim_count_one ac_code ac_used code _ (ok_codes _ Hok)) as [H1 _].
  pose proof (claim_count_le ac_code ac_used code _ (ok_codes _ Hok)) as Hle.
  unfold claimable in *. destruct (count_where _ _) as [|[|]]; [done| |lia].
  destruct (H1 eq_refl) as (r' & Hr' & Hu'). unfold get_authorization_code in Hr.
  unfold with_key in Hr'. congruence.
Qed.
Lemma device_claim_spends code st st' n :
  mark_device_authorization_used code st = (st', n) -> n <> 0%nat -> device_spent code st'.
Proof.
  intros [= <- <-] Hn. unfold device_spent, get_device_authorization_by_device_code.
  cbn [device_authorizations on_devices].
  pose proof (claim_find d_device_code d_used (fun r =>
      set_device_flags (d_approved r) (d_denied r) true (d_user_id r) (d_expires_at r) r)
    ltac:(done) ltac:(by intros [] ?; simpl in *; subst) code (device_authorizations st)) as Hc.
  unfold with_key at 1, claimable in Hc. rewrite Hc. clear Hc.
  destruct (List.find (with_key d_device_code code) (device_authorizations st)) as [r|] eqn:Hf; [by eexists|].
  exfalso. apply Hn. apply count_where_zero. intros x Hx.
  pose proof (List.find_none _ _ Hf x Hx) as Hk. unfold with_key in Hk. by rewrite Hk.
Qed.
Lemma device_claim_spent code st st' n :
  store_ok st -> mark_device_authorization_used code st = (st', n) -> device_spent code st -> n = 0%nat.
Proof.
  intros Hok Hm (r & Hr & Hu). injection Hm as <- <-.
  destruct (claim_count_one d_device_code d_used code _ (ok_devices _ Hok)) as [H1 _].
  pose proof (claim_count_le d_device_code d_used code _ (ok_devices _ Hok)) as Hle.
  unfold claimable in *. destruct (count_where _ _) as [|[|]]; [done| |lia].
  destruct (H1 eq_refl) as (r' & Hr' & Hu').
  unfold get_device_authorization_by_device_code in Hr. unfold with_key in Hr'. congruence.
Qed.

(** ** One-time claims *)

(** [mark_authorization_code_used] is an atomic claim: it reports 1 exactly
    when the code exists and is unused, at most 1 ever, marks it used, and
    a second claim of the same code reports 0. *)
Theorem authorization_code_claim (st st' : Store) (code : string) (n : nat) :
  store_ok st -> mark_authorization_code_used code st = (st', n) ->
  (n <= 1)%nat
  /\ (n = 1%nat <-> exists r, get_authorization_code code st = Some r /\ ac_used r = false)
  /\ get_authorization_code code st' = used_code <$> get_authorization_code code st
  /\ (mark_authorization_code_used code st').2 = 0%nat
  /\ tokens st' = tokens st.
Proof.
  intros Hok [= <- <-].
  pose proof (claim_count_le ac_code ac_used code _ (ok_codes _ Hok)).
  pose proof (claim_count_one ac_code ac_used code _ (ok_codes _ Hok)).
  repeat split; try done; try by intuition.
  - apply (claim_find ac_code ac_used used_code); [done|]. intros [] ?; simpl in *. by subst.
  - by apply (claim_twice ac_code ac_used used_code).
Qed.

Lemma authorization_code_claim_witness :
  snd (mark_authorization_code_used "code" sample_store) = 1%nat
  /\ get_authorization_code "code" (mark_authorization_code_used "code" sample_store).1
     = Some (sample_code true).
Proof.
  destruct (authorization_code_claim sample_store _ "code" _ sample_store_ok eq_refl)
    as (_ & [_ H] & Hg & _).
  split; [|exact Hg]. apply H. exists (sample_code false). split; reflexivity.
Defined.

(** revoking a family reports how many tokens it has, revokes every one of
    them, issued or rotated, and changes no other token. *)
Theorem family_revocation (st st' : Store) (f : string) (n : nat) :
  revoke_token_family f st = (st', n) ->
  n = count_where (in_family f) (tokens st)
  /\ (forall t, In t (tokens st') -> t_token_family t = Some f -> t_revoked t = true)
  /\ (forall t, t_token_family t <> Some f -> In t (tokens st') <-> In t (tokens st))
  /\ map t_id (tokens st') = map t_id (tokens st)
  /\ authorization_codes st' = authorization_codes st.
Proof.
  intros [= <- <-]. cbn [tokens on_tokens authorization_codes].
  assert (forall t, in_family f t = true <-> t_token_family t = Some f) as Hf.
  { intros t. unfold in_family, oeqb, from_option_b. destruct (t_token_family t); [|done].
    rewrite String.eqb_eq. naive_solver. }
  repeat split; try done.
  - intros t Ht Hfam. apply in_update_where in Ht as (x & _ & ->).
    destruct (in_family f x) eqn:Hx; [done|]. apply Hf in Hfam. congruence.
  - intros Ht. apply in_update_where in Ht as (x & Hx & ->).
    destruct (in_family f x) eqn:Hfx; [|done]. apply Hf in Hfx. done.
  - intros Ht. apply in_update_where. exists t. split; [done|].
    destruct (in_family f t) eqn:Hft; [|done]. apply Hf in Hft. done.
  - by apply map_update_where.
Qed.

Lemma family_revocation_witness :
  map t_revoked (tokens (revoke_token_family "fam" sample_store).1) = [true; false].
Proof.
  destruct (family_revocation sample_store _ "fam" _ eq_refl) as (_ & H & _ & _ & _).
  pose proof (H (revoked_token (sample_token "1" "at1" (Some "fam") false))
    (or_introl eq_refl) eq_refl) as _.
  reflexivity.
Defined.

(** deleting a user leaves no token linked to them: each of their tokens
    stays, revoked and with its [user_id] cleared, and nobody else's changes. *)
Theorem delete_user_unlinks_tokens (st : Store) (user_id : string) :
  get_user_by_id user_id (delete_user user_id st) = None
  /\ tokens (delete_user user_id st)
     = map (fun t => if oeqb (t_user_id t) user_id then unlinked_token t else t) (tokens st)
  /\ (forall t, In t (tokens (delete_user user_id st)) -> t_user_id t <> Some user_id).
Proof.
  split; [|split]; [|done|].
  - unfold get_user_by_id, delete_user, delete_where. cbn [users on_users on_tokens].
    induction (users st) as [|u l IH]; [done|]. simpl.
    destruct (String.eqb (u_id u) user_id) eqn:Hu; simpl; [done|by rewrite Hu].
  - intros t Ht. apply in_update_where in Ht as (x & _ & ->).
    destruct (oeqb (t_user_id x) user_id) eqn:Hx; simpl; [done|].
    intros H. unfold oeqb in Hx. rewrite H in Hx. simpl in Hx. by rewrite String.eqb_refl in Hx.
Qed.

Lemma existsb_find {A} (p : A -> bool) l : existsb p l = true -> exists x, List.find p l = Some x.
Proof.
  induction l as [|a l IH]; simpl; [done|]. destruct (p a); simpl; [eauto|apply IH].
Qed.
Lemma existsb_find_none {A} (p : A -> bool) l : existsb p l = false -> List.find p l = None.
Proof. induction l as [|a l IH]; simpl; [done|]. destruct (p a); simpl; [done|apply IH]. Qed.

Lemma deny_key_other k v (r : DenylistEntry) :
  (k, v) <> (dl_kind r, dl_value r) -> deny_key k v r = false.
Proof.
  intros H. unfold deny_key. destruct (String.eqb_spec (dl_kind r) k) as [<-|]; simpl; [|done].
  destruct (String.eqb_spec (dl_value r) v) as [<-|]; done.
Qed.

Lemma denylist_added e st st' : add_denylist_entry e st = Ok st' ->
  exists r, List.find (deny_key (dl_kind e) (dl_value e)) (denylist st') = Some r
    /\ dl_expires_at r = dl_expires_at e
    /\ (forall old, List.find (deny_key (dl_kind e) (dl_value e)) (denylist st) = Some old ->
          dl_id r = dl_id old).
Proof.
  intros H. unfold add_denylist_entry in H. repeat run_step H; cbn [denylist on_denylist].
  - apply existsb_find in E as [x Hx]. rewrite find_update_where, Hx by done.
    eexists. split; [done|]. pose proof (find_In _ _ _ Hx) as [_ ->]. split; [done|].
    by intros ? [= <-].
  - apply existsb_find_none in E. exists e. rewrite find_app_none, E by done. simpl.
    by rewrite deny_key_same.
Qed.

Lemma denylist_others e st st' k v : add_denylist_entry e st = Ok st' ->
  (k, v) <> (dl_kind e, dl_value e) ->
  List.find (deny_key k v) (denylist st') = List.find (deny_key k v) (denylist st).
Proof.
  intros H Hkv. unfold add_denylist_entry in H. repeat run_step H; cbn [denylist on_denylist].
  - rewrite find_update_where by done. destruct (List.find (deny_key k v) _) as [r|] eqn:Hr; [|done].
    pose proof (find_In _ _ _ Hr) as [_ Hr']. destruct (deny_key (dl_kind e) (dl_value e) r) eqn:Hd; [|done].
    unfold deny_key in *. b2p. exfalso. apply Hkv. by f_equal; congruence.
  - rewrite find_snoc, deny_key_other by done. by destruct (List.find _ _).
Qed.

(** adding a denylist entry makes its subject denied for exactly as long as
    the new expiry says, replaces an earlier entry of the same subject under
    the earlier row's id, and affects no other subject. *)
Theorem denylist_upsert (e : DenylistEntry) (st st' : Store) (now : Z) :
  add_denylist_entry e st = Ok st' ->
  (is_Some (find_denylist_entry now (dl_kind e) (dl_value e) st') <-> deny_is_active now e = true)
  /\ (forall old, List.find (deny_key (dl_kind e) (dl_value e)) (denylist st) = Some old ->
        dl_id <$> List.find (deny_key (dl_kind e) (dl_value e)) (denylist st') = Some (dl_id old))
  /\ (forall kind value, (kind, value) <> (dl_kind e, dl_value e) ->
        find_denylist_entry now kind value st' = find_denylist_entry now kind value st).
Proof.
  intros H. destruct (denylist_added _ _ _ H) as (r & Hr & Hexp & Hid).
  unfold find_denylist_entry. split; [|split].
  - rewrite Hr. unfold deny_is_active. rewrite Hexp. destruct (dl_expires_at e) as [t|]; [|done].
    destruct (now <? t); [done|]. split; [by intros []|done].
  - intros old Hold. rewrite Hr. simpl. f_equal. auto.
  - intros kind value Hkv. by rewrite (denylist_others _ _ _ _ _ H Hkv).
Qed.

Lemma denylist_upsert_witness :
  exists st', add_denylist_entry (mkDeny "2" "ip" "10.0.0.1" "again" "admin" 5 (Some 100))
    (on_denylist (fun _ => [mkDeny "1" "ip" "10.0.0.1" "old" "admin" 0 (Some 3)]) empty_store) = Ok st'
  /\ dl_id <$> List.find (deny_key "ip" "10.0.0.1") (denylist st') = Some "1"
  /\ is_Some (find_denylist_entry 50 "ip" "10.0.0.1" st').
Proof.
  eexists. split; [reflexivity|].
  destruct (denylist_upsert (mkDeny "2" "ip" "10.0.0.1" "again" "admin" 5 (Some 100))
    (on_denylist (fun _ => [mkDeny "1" "ip" "10.0.0.1" "old" "admin" 0 (Some 3)]) empty_store)
    _ 50 eq_refl) as (Ha & Hid & _).
  split; [exact (Hid _ eq_refl)|apply Ha; reflexivity].
Defined.
