(* ===== verification/PyUrl.v ===== *)
(** * urllib.parse

    [urlsplit] with the checks of its network location, the host and port of a
    split URL, and [unquote_plus].  Which bracketed hosts are IP literals
    (module [ipaddress]) is a parameter, [check_bracketed_netloc]. *)
From S2P Require Import Prelude PyStr PyJson Codec Models.
#[local] Open Scope Z_scope.

Record SplitResult := mkSplit {
  s_scheme : string;
  s_netloc : string;
  s_path : string;
  s_query : string;
  s_fragment : string
}.

(** [url.lstrip(_WHATWG_C0_CONTROL_OR_SPACE)] *)
Fixpoint lstrip_c0 (s : string) : string :=
  match s with
  | String c s' => if (N_of_ascii c <=? 32)%N then lstrip_c0 s' else s
  | EmptyString => EmptyString
  end.

Fixpoint filter_string (p : ascii -> bool) (s : string) : string :=
  match s with
  | EmptyString => EmptyString
  | String c s' => if p c then String c (filter_string p s') else filter_string p s'
  end.

(** Tab, carriage return and line feed are dropped. *)
Definition unsafe_url_byte (c : ascii) : bool :=
  let n := N_of_ascii c in ((n =? 9) || (n =? 10) || (n =? 13))%N.

Definition is_alpha (c : ascii) : bool :=
  let n := N_of_ascii c in (((65 <=? n) && (n <=? 90)) || ((97 <=? n) && (n <=? 122)))%N.
Definition is_ascii_digit (c : ascii) : bool :=
  let n := N_of_ascii c in ((48 <=? n) && (n <=? 57))%N.
Definition scheme_char (c : ascii) : bool :=
  is_alpha c || is_ascii_digit c
  || Ascii.eqb c "+" || Ascii.eqb c "-" || Ascii.eqb c ".".

Fixpoint all_chars (p : ascii -> bool) (s : string) : bool :=
  match s with EmptyString => true | String c s' => p c && all_chars p s' end.

(** The scheme before the first colon, when it is one. *)
Definition split_scheme (url : string) : string * string :=
  match py_partition ":" url with
  | (String c pre, Some rest) =>
      if is_alpha c && all_chars scheme_char (String c pre)
      then (py_lower (String c pre), rest) else (EmptyString, url)
  | _ => (EmptyString, url)
  end.

(** [_splitnetloc]: up to the first of "/", "?" and "#". *)
Fixpoint splitnetloc (s : string) : string * string :=
  match s with
  | EmptyString => (EmptyString, EmptyString)
  | String c s' =>
      if Ascii.eqb c "/" || Ascii.eqb c "?" || Ascii.eqb c "#" then (EmptyString, s)
      else let '(a, b) := splitnetloc s' in (String c a, b)
  end.

(** The characters whose NFKC form contains one of / ? # @ : (the test of
    [_checknetloc] on a non-ASCII network location). *)
Definition nfkc_unsafe : list string :=
  map utf8_encode
    [8263; 8264; 8265; 8448; 8449; 8453; 8454; 10868; 65043; 65046; 65109; 65110; 65119;
     65131; 65283; 65295; 65306; 65311; 65312]%N.
Definition checknetloc (netloc : string) : bool :=
  is_ascii_str netloc || negb (existsb (fun c => py_contains c netloc) nfkc_unsafe).

Section urlsplit.
Context (check_bracketed_netloc : string -> bool).

Definition brackets_ok (netloc : string) : bool :=
  match py_contains_char "[" netloc, py_contains_char "]" netloc with
  | false, false => true
  | true, true => check_bracketed_netloc netloc
  | _, _ => false
  end.

Definition urlsplit (url : string) : result exn SplitResult :=
  let url := filter_string (fun c => negb (unsafe_url_byte c)) (lstrip_c0 url) in
  let '(scheme, url) := split_scheme url in
  let '(netloc, url) :=
    if py_startswith "//" url then splitnetloc (py_drop 2 url) else (EmptyString, url) in
  if negb (brackets_ok netloc) then Err (PyErr ValueError "Invalid IPv6 URL") else
  let '(url, fragment) := py_partition "#" url in
  let '(url, query) := py_partition "?" url in
  if negb (checknetloc netloc)
  then Err (PyErr ValueError "netloc contains invalid characters under NFKC normalization") else
  Ok (mkSplit scheme netloc url (default EmptyString query) (default EmptyString fragment)).
End urlsplit.

(** [s.rpartition(c)[2]]: what follows the last separator. *)
Fixpoint after_last (sep : ascii) (s : string) : string :=
  match s with
  | EmptyString => EmptyString
  | String c s' =>
      if py_contains_char sep s' then after_last sep s'
      else if Ascii.eqb c sep then s' else s
  end.

(** [_hostinfo]: host and port of a network location. *)
Definition hostinfo (netloc : string) : string * option string :=
  let hi := after_last "@" netloc in
  let '(host, port) :=
    match py_partition "[" hi with
    | (_, Some bracketed) =>
        let '(host, after) := py_partition "]" bracketed in
        (host, default EmptyString (snd (py_partition ":" (default EmptyString after))))
    | (_, None) => let '(host, port) := py_partition ":" hi in (host, default EmptyString port)
    end in
  (host, if truthy port then Some port else None).

Definition hostname (u : SplitResult) : option string :=
  let h := fst (hostinfo (s_netloc u)) in
  if negb (truthy h) then None else
  match py_partition "%" h with
  | (a, None) => Some (py_lower a)
  | (a, Some zone) => Some (py_lower a +:+ "%" +:+ zone)
  end.

(** [.port]; an integer of more than 4300 digits is a [ValueError] too. *)
Definition port (u : SplitResult) : result exn (option Z) :=
  match snd (hostinfo (s_netloc u)) with
  | None => Ok None
  | Some p =>
      if all_chars is_ascii_digit p then
        let n := fst (fst (scan_digits 0 0 p)) in
        if n <=? 65535 then Ok (Some n) else Err (PyErr ValueError "Port out of range 0-65535")
      else Err (PyErr ValueError "Port could not be cast to integer value")
  end.

(** ** [unquote_plus] *)

(** A maximal prefix of a UTF-8 sequence: [Some n] a whole character of [n]
    bytes, [None] an ill-formed one, with the number of bytes to replace. *)
Definition cont (lo hi : N) (l : list N) : bool :=
  match l with b :: _ => ((lo <=? b) && (b <=? hi))%N | [] => false end.
Definition utf8_step (l : list N) : bool * nat :=
  match l with
  | [] => (false, 0%nat)
  | b :: r =>
      if (b <? 128)%N then (true, 1%nat)
      else if ((194 <=? b) && (b <=? 223))%N then
        if cont 128 191 r then (true, 2%nat) else (false, 1%nat)
      else if ((224 <=? b) && (b <=? 239))%N then
        let lo := if (b =? 224)%N then 160%N else 128%N in
        let hi := if (b =? 237)%N then 159%N else 191%N in
        if cont lo hi r then
          if cont 128 191 (tail r) then (true, 3%nat) else (false, 2%nat)
        else (false, 1%nat)
      else if ((240 <=? b) && (b <=? 244))%N then
        let lo := if (b =? 240)%N then 144%N else 128%N in
        let hi := if (b =? 244)%N then 143%N else 191%N in
        if cont lo hi r then
          if cont 128 191 (tail r) then
            if cont 128 191 (tail (tail r)) then (true, 4%nat) else (false, 3%nat)
          else (false, 2%nat)
        else (false, 1%nat)
      else (false, 1%nat)
  end.

(** [bytes.decode("utf-8")] succeeds. *)
Fixpoint utf8_valid_from (k : nat) (l : list N) : bool :=
  match l with
  | [] => true
  | _ :: r =>
      match k with
      | S k' => utf8_valid_from k' r
      | O => let '(ok, n) := utf8_step l in ok && utf8_valid_from (n - 1) r
      end
  end.
Definition utf8_valid (s : string) : bool := utf8_valid_from 0 (bytes_of s).

(** [bytes.decode("utf-8", "replace")]; [k] bytes of the current character are
    still to be copied ([keep]) or dropped. *)
Fixpoint decode_replace (keep : bool) (k : nat) (l : list N) : list N :=
  match l with
  | [] => []
  | b :: r =>
      match k with
      | S k' => if keep then b :: decode_replace keep k' r else decode_replace keep k' r
      | O =>
          let '(ok, n) := utf8_step l in
          if ok then b :: decode_replace true (n - 1) r
          else [239; 191; 189]%N ++ decode_replace false (n - 1) r
      end
  end.

(** Percent-decoding of one run of ASCII characters. *)
Fixpoint unquote_to_bytes (s : string) : list N :=
  match s with
  | EmptyString => []
  | String c s1 =>
      match s1 with
      | String a (String b s3) =>
          match Ascii.eqb c "%", hex_of a, hex_of b with
          | true, Some x, Some y => (x * 16 + y)%N :: unquote_to_bytes s3
          | _, _, _ => N_of_ascii c :: unquote_to_bytes s1
          end
      | _ => N_of_ascii c :: unquote_to_bytes s1
      end
  end.

(** Decodes each maximal run of ASCII characters, keeps the others. *)
Fixpoint unquote_runs (run s : string) : string :=
  let flush_run := string_of (decode_replace true 0 (unquote_to_bytes run)) in
  match s with
  | EmptyString => flush_run
  | String c s' =>
      if (N_of_ascii c <? 128)%N then unquote_runs (run +:+ String c EmptyString) s'
      else flush_run +:+ String c (unquote_runs EmptyString s')
  end.

Definition unquote (s : string) : string := unquote_runs EmptyString s.
Definition unquote_plus (s : string) : string :=
  unquote (map_string (fun c => if Ascii.eqb c "+" then " "%char else c) s).

Lemma urlsplit_plain_example :
  urlsplit (fun _ => true) "HTTPS://u@Host:8443/p/q?x=1#f"
  = Ok (mkSplit "https" "u@Host:8443" "/p/q" "x=1" "f").
Proof. reflexivity. Qed.
Lemma unquote_plus_example : unquote_plus "a%2Bb+c%zz" = "a+b c%zz".
Proof. reflexivity. Qed.
