(* ===== verification/Redirects.v ===== *)
(** * Redirect URIs and the authorization response
    ([services/clients.py], [services/authorize_response.py])

    [urllib.parse]'s query encoding and decoding, the registration and matching
    of redirect URIs, and the delivery of a response through the redirect
    channel in each [response_mode]. *)
From S2P Require Import Prelude PyStr PyJson Codec Models PyUrl.
#[local] Open Scope Z_scope.

(** ** urllib.parse.quote, urlencode, parse_qsl *)
Definition quote_safe (n : N) : bool :=
  let c := ascii_of_N n in
  is_alpha c || is_ascii_digit c || Ascii.eqb c "_" || Ascii.eqb c "." || Ascii.eqb c "-" || Ascii.eqb c "~".
Definition upper_hex (n : N) : ascii := if (n <? 10)%N then ascii_of_N (48 + n) else ascii_of_N (55 + n).
Definition percent (n : N) : string :=
  String "%" (String (upper_hex (n / 16)) (String (upper_hex (n mod 16)) EmptyString)).
(** One byte; [plus] writes a space as a plus sign. *)
Definition quote_byte (plus : bool) (n : N) : string :=
  if quote_safe n then String (ascii_of_N n) EmptyString
  else if plus && (n =? 32)%N then "+" else percent n.
Definition quote_bytes (plus : bool) (l : list N) : string :=
  fold_right (fun n s => quote_byte plus n +:+ s) EmptyString l.

(** [quote(s, safe="")] and [quote_plus(s)]: a lone surrogate cannot be encoded. *)
Definition quote_via (plus : bool) (s : string) : result exn string :=
  if utf8_valid s then Ok (quote_bytes plus (bytes_of s))
  else Err (PyErr ValueError "surrogates not allowed").

Fixpoint urlencode_fields (plus : bool) (params : list (string * string)) : result exn (list string) :=
  match params with
  | [] => Ok []
  | (k, v) :: params =>
      let? k := quote_via plus k in
      let? v := quote_via plus v in
      let? rest := urlencode_fields plus params in
      Ok ((k +:+ "=" +:+ v) :: rest)
  end.
Definition urlencode (plus : bool) (params : list (string * string)) : result exn string :=
  rmap (join "&") (urlencode_fields plus params).

(** [parse_qsl(qs, keep_blank_values=True)] *)
Definition parse_field (field : string) : option (string * string) :=
  if truthy field then
    let '(k, v) := py_partition "=" field in
    Some (unquote_plus k, unquote_plus (default EmptyString v))
  else None.
Definition parse_qsl (qs : string) : list (string * string) := omap parse_field (py_split_on "&" qs).

(** ** Decoding what was encoded *)
Lemma hex_upper_hex n : (n < 16)%N -> hex_of (upper_hex n) = Some n.
Proof.
  intros Hn. assert (In n (map N.of_nat (seq 0 16))) as Hin.
  { apply in_map_iff. exists (N.to_nat n). rewrite N2Nat.id. split; [done|]. apply in_seq. lia. }
  cbn in Hin. repeat destruct Hin as [<-|Hin]; done.
Qed.
Definition all_bytes : list N := map N.of_nat (seq 0 256).
Lemma byte_in n : is_byte n -> In n all_bytes.
Proof.
  intros Hn. apply in_map_iff. exists (N.to_nat n). rewrite N2Nat.id. split; [done|]. apply in_seq.
  unfold is_byte in Hn. lia.
Qed.
(** A statement about every byte, decided by evaluation. *)
Lemma by_bytes (p : N -> bool) : forallb p all_bytes = true -> forall n, is_byte n -> p n = true.
Proof. intros H n Hn. rewrite forallb_forall in H. by apply H, byte_in. Qed.

Definition from_plus (c : ascii) : ascii := if Ascii.eqb c "+" then " "%char else c.

Fixpoint ascii_str (s : string) : bool :=
  match s with EmptyString => true | String c s => (N_of_ascii c <? 128)%N && ascii_str s end.
Lemma ascii_str_app a b : ascii_str (a +:+ b) = ascii_str a && ascii_str b.
Proof. induction a as [|c a IH]; [done|]. rewrite append_String. cbn [ascii_str]. by rewrite IH, andb_assoc. Qed.
Lemma quote_byte_ascii plus n : is_byte n -> ascii_str (map_string from_plus (quote_byte plus n)) = true.
Proof. revert n. destruct plus; apply by_bytes; vm_compute; reflexivity. Qed.


Lemma unquote_ascii run s : ascii_str s = true ->
  unquote_runs run s = string_of (decode_replace true 0 (unquote_to_bytes (run +:+ s))).
Proof.
  revert run. induction s as [|c s IH]; intros run Hs; simpl in *; [by rewrite string_app_nil_r|].
  apply andb_prop in Hs as [Hc Hs]. rewrite Hc, IH by done. by rewrite string_app_assoc.
Qed.

(** Bytes that are not a percent sign are copied. *)
Lemma unquote_to_bytes_plain c s : Ascii.eqb c "%" = false ->
  unquote_to_bytes (String c s) = N_of_ascii c :: unquote_to_bytes s.
Proof. intros Hc. destruct s as [|a [|b s]]; simpl; try done. by rewrite Hc. Qed.
Lemma unquote_to_bytes_percent n s : is_byte n -> unquote_to_bytes (percent n +:+ s) = n :: unquote_to_bytes s.
Proof.
  intros Hn. unfold percent, is_byte in *. rewrite !append_String, append_nil. cbn [unquote_to_bytes].
  rewrite !hex_upper_hex by dlia. change (Ascii.eqb "%" "%") with true. cbv iota. f_equal. dlia.
Qed.

Lemma quote_byte_back plus n s : is_byte n ->
  unquote_to_bytes (map_string from_plus (quote_byte plus n) +:+ s) = n :: unquote_to_bytes s.
Proof.
  intros Hn. unfold quote_byte. destruct (quote_safe n) eqn:Hq.
  - assert (from_plus (ascii_of_N n) = ascii_of_N n /\ Ascii.eqb (ascii_of_N n) "%" = false
            /\ N_of_ascii (ascii_of_N n) = n) as (Hp & Hc & Hv).
    { assert (forallb (fun n => negb (quote_safe n) ||
          (Ascii.eqb (from_plus (ascii_of_N n)) (ascii_of_N n)
           && negb (Ascii.eqb (ascii_of_N n) "%") && (N_of_ascii (ascii_of_N n) =? n)%N)) all_bytes = true) as Hall
        by (vm_compute; reflexivity).
      pose proof (by_bytes _ Hall n Hn) as Hb. cbv beta in Hb. rewrite Hq in Hb. simpl in Hb.
      apply andb_prop in Hb as [Hb Hx]. apply andb_prop in Hb as [Ha Hb]. apply Ascii.eqb_eq in Ha.
      apply negb_true_iff in Hb. apply N.eqb_eq in Hx. done. }
    cbn [map_string]. rewrite append_String, append_nil. rewrite Hp, unquote_to_bytes_plain by done. by rewrite Hv.
  - destruct (plus && (n =? 32)%N) eqn:Hs.
    + apply andb_prop in Hs as [_ Hs]. apply N.eqb_eq in Hs. subst. cbn [map_string]. rewrite append_String, append_nil.
      change (from_plus "+") with " "%char. by rewrite unquote_to_bytes_plain.
    + assert (map_string from_plus (percent n) = percent n) as ->.
      { assert (forallb (fun n => String.eqb (map_string from_plus (percent n)) (percent n)) all_bytes = true)
          as Hall by (vm_compute; reflexivity).
        by apply String.eqb_eq, (by_bytes _ Hall n Hn). }
      by apply unquote_to_bytes_percent.
Qed.

Lemma quote_bytes_back plus l : Forall is_byte l ->
  ascii_str (map_string from_plus (quote_bytes plus l)) = true
  /\ unquote_to_bytes (map_string from_plus (quote_bytes plus l)) = l.
Proof.
  induction l as [|n l IH]; intros Hl; [done|]. inversion_clear Hl. destruct IH as [Ha Hb]; [done|].
  cbn [quote_bytes fold_right]. fold (quote_bytes plus l). rewrite map_string_app, ascii_str_app, Ha.
  rewrite quote_byte_ascii, quote_byte_back, Hb by done. done.
Qed.

Lemma decode_valid k l : utf8_valid_from k l = true -> decode_replace true k l = l.
Proof.
  revert k. induction l as [|b l IH]; intros k Hv; [done|]. cbn [utf8_valid_from decode_replace] in *.
  destruct k as [|k]; [|by rewrite IH].
  destruct (utf8_step (b :: l)) as [ok n]. destruct ok; [|done]. simpl in Hv. by rewrite IH.
Qed.

Lemma quote_back plus s q : quote_via plus s = Ok q -> unquote_plus q = s.
Proof.
  unfold quote_via. destruct (utf8_valid s) eqn:Hv; [|done]. intros [= <-].
  destruct (quote_bytes_back plus (bytes_of s) (bytes_of_byte s)) as [Ha Hb].
  unfold unquote_plus, unquote. fold from_plus.
  change (map_string (fun c => if Ascii.eqb c "+" then " "%char else c)) with (map_string from_plus).
  rewrite unquote_ascii by done. rewrite append_nil, Hb, decode_valid by done.
  apply string_of_bytes_of.
Qed.

(** Encoded fields hold neither separator. *)
Lemma contains_app sep a b : py_contains_char sep (a +:+ b) = py_contains_char sep a || py_contains_char sep b.
Proof.
  induction a as [|c a IH]; [done|]. rewrite append_String. cbn [py_contains_char]. by rewrite IH, orb_assoc.
Qed.
Definition no_separator (s : string) : bool :=
  negb (py_contains_char "&" s) && negb (py_contains_char "=" s) && negb (py_contains_char "#" s).
Lemma no_separator_app a b : no_separator (a +:+ b) = no_separator a && no_separator b.
Proof.
  unfold no_separator. rewrite !contains_app.
  by destruct (py_contains_char "&" a), (py_contains_char "=" a), (py_contains_char "#" a),
    (py_contains_char "&" b), (py_contains_char "=" b), (py_contains_char "#" b).
Qed.
Lemma quote_byte_sep plus n : is_byte n -> no_separator (quote_byte plus n) = true.
Proof. revert n. destruct plus; apply by_bytes; vm_compute; reflexivity. Qed.
Lemma quote_sep plus s q : quote_via plus s = Ok q -> no_separator q = true.
Proof.
  unfold quote_via. destruct (utf8_valid s); [|done]. intros [= <-].
  pose proof (bytes_of_byte s) as Hb. induction Hb as [|n l Hn Hl IH]; [done|].
  change (quote_bytes plus (n :: l)) with (quote_byte plus n +:+ quote_bytes plus l).
  by rewrite no_separator_app, quote_byte_sep, IH.
Qed.

Lemma partition_app sep a b : py_contains_char sep a = false ->
  py_partition sep (a +:+ String sep b) = (a, Some b).
Proof.
  induction a as [|c a IH]; rewrite ?append_String, ?append_nil; cbn [py_partition py_contains_char].
  - intros _. by rewrite Ascii.eqb_refl.
  - destruct (Ascii.eqb c sep); [done|]. intros Ha. by rewrite IH.
Qed.
Lemma split_on_last sep cur a : py_contains_char sep a = false -> split_on_from sep cur a = [cur +:+ a].
Proof.
  revert cur. induction a as [|c a IH]; intros cur; cbn [split_on_from py_contains_char].
  - intros _. by rewrite string_app_nil_r.
  - destruct (Ascii.eqb c sep); [done|]. intros Ha. rewrite IH, string_app_assoc by done. done.
Qed.
Lemma split_on_cons sep cur a b : py_contains_char sep a = false ->
  split_on_from sep cur (a +:+ String sep b) = (cur +:+ a) :: split_on_from sep EmptyString b.
Proof.
  revert cur. induction a as [|c a IH]; intros cur; rewrite ?append_String, ?append_nil;
    cbn [split_on_from py_contains_char].
  - intros _. by rewrite Ascii.eqb_refl, string_app_nil_r.
  - destruct (Ascii.eqb c sep); [done|]. intros Ha. rewrite IH, string_app_assoc by done. done.
Qed.
Lemma split_on_join sep l : l <> [] -> Forall (fun a => py_contains_char sep a = false) l ->
  py_split_on sep (join (String sep EmptyString) l) = l.
Proof.
  intros Hne Hl. unfold py_split_on. induction Hl as [|a l Ha Hl IH]; [done|].
  destruct l as [|b l].
  - cbn [join]. rewrite split_on_last by done. done.
  - change (join (String sep EmptyString) (a :: b :: l))
      with (a +:+ (String sep EmptyString +:+ join (String sep EmptyString) (b :: l))).
    rewrite append_String, append_nil, split_on_cons, append_nil by done. by rewrite IH.
Qed.

Lemma urlencode_fields_ok plus params fields : urlencode_fields plus params = Ok fields ->
  Forall (fun a => py_contains_char "&" a = false) fields
  /\ Forall (fun a => py_contains_char "#" a = false) fields
  /\ omap parse_field fields = params /\ length fields = length params.
Proof.
  revert fields. induction params as [|[k v] params IH]; cbn [urlencode_fields]; intros fields Hf.
  { by injection Hf as <-. }
  unfold rbind in Hf. destruct (quote_via plus k) as [qk|] eqn:Hk; [|done].
  destruct (quote_via plus v) as [qv|] eqn:Hv; [|done].
  destruct (urlencode_fields plus params) as [rest|]; [|done]. injection Hf as <-.
  destruct (IH rest eq_refl) as (Ha & Hh & Hp & Hl).
  pose proof (quote_sep _ _ _ Hk) as Hks. pose proof (quote_sep _ _ _ Hv) as Hvs.
  assert (Hfield : forall sep, py_contains_char sep qk = false -> py_contains_char sep qv = false ->
    Ascii.eqb "=" sep = false -> py_contains_char sep (qk +:+ "=" +:+ qv) = false).
  { intros sep H1 H2 H3. rewrite !contains_app, H1, H2. cbn [py_contains_char]. by rewrite H3. }
  unfold no_separator in *. b2p.
  split_and! ; try (constructor; [by apply Hfield|done]); [|by cbn [length]; rewrite Hl].
  cbn [omap list_omap]. unfold parse_field at 1.
  assert (truthy (qk +:+ "=" +:+ qv) = true) as -> by (by destruct qk).
  rewrite append_String, append_nil, partition_app by done. cbn [default from_option id].
  rewrite (quote_back _ _ _ Hk), (quote_back _ _ _ Hv). by rewrite <- Hp.
Qed.

Lemma urlencode_back plus params q : urlencode plus params = Ok q -> parse_qsl q = params.
Proof.
  unfold urlencode, rmap. destruct (urlencode_fields plus params) as [fields|] eqn:Hf; [|done].
  intros [= <-]. destruct (urlencode_fields_ok _ _ _ Hf) as (Ha & _ & Hp & Hl).
  destruct fields as [|f fields].
  - by destruct params.
  - unfold parse_qsl. by rewrite (split_on_join "&").
Qed.
Lemma urlencode_no_hash plus params q : urlencode plus params = Ok q -> py_contains_char "#" q = false.
Proof.
  unfold urlencode, rmap. destruct (urlencode_fields plus params) as [fields|] eqn:Hf; [|done].
  intros [= <-]. destruct (urlencode_fields_ok _ _ _ Hf) as (_ & Hh & _ & _). clear Hf.
  induction Hh as [|a l Ha Hl IH]; [done|]. destruct l as [|b l]; [done|].
  change (join "&" (a :: b :: l)) with (a +:+ ("&" +:+ join "&" (b :: l))).
  rewrite !contains_app, Ha, IH. done.
Qed.

(** ** Redirect URIs *)
Section uris.
Context (cbn_ : string -> bool).

(** [str.endswith("#")] *)
Fixpoint ends_with_char (c : ascii) (s : string) : bool :=
  match s with
  | EmptyString => false
  | String d EmptyString => Ascii.eqb d c
  | String _ s => ends_with_char c s
  end.

(** [urlparse] cuts the parameters off the last segment of the path. *)
Definition uses_params : list string :=
  [EmptyString; "ftp"; "hdl"; "prospero"; "http"; "imap"; "https"; "shttp"; "rtsp"; "rtspu"; "sip";
   "sips"; "mms"; "sftp"; "tel"].
Fixpoint splitparams (path : string) : string :=
  match path with
  | EmptyString => EmptyString
  | String c rest =>
      if py_contains_char "/" path then String c (splitparams rest)
      else fst (py_partition ";" path)
  end.
Definition urlparse_path (u : SplitResult) : string :=
  if mem_str (s_scheme u) uses_params && py_contains_char ";" (s_path u) then splitparams (s_path u)
  else s_path u.

Definition is_valid_redirect_uri (uri : string) : result exn bool :=
  let? parsed := urlsplit cbn_ uri in
  let has_fragment := truthy (s_fragment parsed) || ends_with_char "#" uri in
  Ok (mem_str (s_scheme parsed) ["http"; "https"] && truthy (s_netloc parsed) && negb has_fragment).

Definition loopback_ip_literals : list string := ["127.0.0.1"; "::1"].
Definition oseqb (a b : option string) : bool := bool_decide (a = b).
Definition redirect_uri_matches (registered requested : string) : result exn bool :=
  if String.eqb requested registered then Ok true else
  let? reg := urlsplit cbn_ registered in
  let? req := urlsplit cbn_ requested in
  if negb (String.eqb (s_scheme reg) "http") || negb (String.eqb (s_scheme reg) (s_scheme req))
  then Ok false else
  if negb (from_option_b (fun h => mem_str h loopback_ip_literals) (hostname reg))
     || negb (oseqb (hostname reg) (hostname req))
  then Ok false else
  let? p := port reg in
  match p with
  | Some _ => Ok false
  | None => Ok (String.eqb (urlparse_path reg) (urlparse_path req))
  end.

(** ** authorize_response.py *)
Inductive authz_response :=
| RedirectTo (location : string)       (* 302 *)
| FormPost (body : string)             (* 200, text/html *)
| ErrorPage (status : Z) (error description : string)
| LoginRedirect (return_to : string) (return_to_ts : Z).  (* 302 to /auth/login; both are saved in the session *)

Definition valid_response_modes : list string := ["query"; "form_post"; "fragment"].
Definition resolve_response_mode (requested : option string) (hybrid : bool) : result exn string :=
  match requested with
  | None => Ok (if hybrid then "fragment" else "query")
  | Some m =>
      if negb (mem_str m valid_response_modes)
      then Err (OAuthError "invalid_request"
                  (Some "Unsupported response_mode; supported values: query, form_post, fragment") 400)
      else if hybrid && String.eqb m "query"
      then Err (OAuthError "invalid_request"
                  (Some "response_mode=query is not allowed for response_type=code id_token") 400)
      else Ok m
  end.

Definition uses_netloc : list string :=
  [EmptyString; "ftp"; "http"; "gopher"; "nntp"; "telnet"; "imap"; "wais"; "file"; "mms"; "https";
   "shttp"; "snews"; "prospero"; "rtsp"; "rtsps"; "rtspu"; "rsync"; "svn"; "svn+ssh"; "sftp"; "nfs";
   "git"; "git+ssh"; "ws"; "wss"; "itms-services"].
(** [urlunsplit] *)
Definition urlunsplit (u : SplitResult) : string :=
  let path := s_path u in
  let url :=
    if truthy (s_netloc u) then
      "//" +:+ s_netloc u
      +:+ (if truthy path && negb (py_startswith "/" path) then String "/" path else path)
    else if py_startswith "//" path then "//" +:+ path
    else if truthy (s_scheme u) && mem_str (s_scheme u) uses_netloc
            && (negb (truthy path) || py_startswith "/" path) then "//" +:+ path
    else path in
  let url := if truthy (s_scheme u) then s_scheme u +:+ ":" +:+ url else url in
  let url := if truthy (s_query u) then url +:+ "?" +:+ s_query u else url in
  if truthy (s_fragment u) then url +:+ "#" +:+ s_fragment u else url.

Definition query_location (u : SplitResult) (params : list (string * string)) : result exn string :=
  let? q := urlencode true (parse_qsl (s_query u) ++ params) in
  Ok (urlunsplit (mkSplit (s_scheme u) (s_netloc u) (s_path u) q EmptyString)).

Definition escape_char (c : ascii) : string :=
  if Ascii.eqb c "&" then "&amp;"
  else if Ascii.eqb c dquote then "&quot;"
  else if Ascii.eqb c "<" then "&lt;"
  else if Ascii.eqb c ">" then "&gt;"
  else if Ascii.eqb c "'" then "&#x27;"
  else String c EmptyString.
Fixpoint html_escape_attr (s : string) : string :=
  match s with EmptyString => EmptyString | String c s => escape_char c +:+ html_escape_attr s end.

Definition quoted (s : string) : string := String dquote (s +:+ String dquote EmptyString).
Definition newline : string := String (ascii_of_nat 10) EmptyString.
Definition form_input (param : string * string) : string :=
  "<input type=" +:+ quoted "hidden" +:+ " name=" +:+ quoted (html_escape_attr (fst param))
  +:+ " value=" +:+ quoted (html_escape_attr (snd param)) +:+ "/>".
Definition form_post_body (redirect_uri : string) (params : list (string * string)) : string :=
  "<!DOCTYPE html>" +:+ newline
  +:+ "<html><body onload=" +:+ quoted "document.forms[0].submit()" +:+ ">" +:+ newline
  +:+ "<form method=" +:+ quoted "post" +:+ " action=" +:+ quoted (html_escape_attr redirect_uri)
  +:+ ">" +:+ newline
  +:+ join newline (map form_input params) +:+ newline
  +:+ "</form></body></html>".

Definition deliver (mode redirect_uri : string) (params : list (string * string))
  : result exn authz_response :=
  let? u := urlsplit cbn_ redirect_uri in
  if truthy (s_fragment u)
  then Err (OAuthError "invalid_request" (Some "redirect_uri must not contain a fragment") 400) else
  if String.eqb mode "form_post" then
    let body := form_post_body redirect_uri params in
    if utf8_valid body then Ok (FormPost body) else Err (PyErr ValueError "surrogates not allowed")
  else if String.eqb mode "fragment" then
    let? q := urlencode false params in Ok (RedirectTo (redirect_uri +:+ "#" +:+ q))
  else let? location := query_location u params in Ok (RedirectTo location).

(** [_present] *)
Definition present (pairs : list (string * option string)) : list (string * string) :=
  omap (fun kv => option_map (pair (fst kv)) (snd kv)) pairs.

Definition success_response (mode redirect_uri code : string) (state : option string) (iss : string)
    (id_token : option string) : result exn authz_response :=
  deliver mode redirect_uri
    (present (if String.eqb mode "query"
              then [("code", Some code); ("state", state); ("iss", Some iss); ("id_token", id_token)]
              else [("code", Some code); ("iss", Some iss); ("state", state); ("id_token", id_token)])).

Definition error_response (mode redirect_uri error : string) (description : option string)
    (state : option string) (iss : string) : result exn authz_response :=
  deliver mode redirect_uri
    (present ([("error", Some error); ("error_description", description)]
              ++ if String.eqb mode "query" then [("state", state); ("iss", Some iss)]
                 else [("iss", Some iss); ("state", state)])).
End uris.

(** ** The response reaches the redirect URI *)
Lemma all_chars_app p a b : all_chars p (a +:+ b) = all_chars p a && all_chars p b.
Proof. induction a as [|c a IH]; [done|]. rewrite append_String. cbn [all_chars]. by rewrite IH, andb_assoc. Qed.
Lemma all_chars_drop p n s : all_chars p s = true -> all_chars p (py_drop n s) = true.
Proof.
  revert n. induction s as [|c s IH]; intros [|n]; cbn [py_drop all_chars]; try done. intros Hs. b2p. by apply IH.
Qed.
Lemma filter_string_all p s : all_chars p (filter_string p s) = true.
Proof. induction s as [|c s IH]; [done|]. cbn [filter_string]. destruct (p c) eqn:Hc; [|done]. cbn [all_chars]. by rewrite Hc. Qed.
Lemma filter_string_id p s : all_chars p s = true -> filter_string p s = s.
Proof.
  induction s as [|c s IH]; [done|]. cbn [filter_string all_chars]. intros Hs. b2p. by rewrite H, IH.
Qed.
Lemma partition_parts sep s a o : py_partition sep s = (a, o) ->
  py_contains_char sep a = false
  /\ s = a +:+ match o with Some b => String sep b | None => EmptyString end
  /\ (o = None -> py_contains_char sep s = false).
Proof.
  revert a o. induction s as [|c s IH]; intros a o; cbn [py_partition].
  - by intros [= <- <-].
  - destruct (Ascii.eqb c sep) eqn:Hc.
    + intros [= <- <-]. apply Ascii.eqb_eq in Hc as ->. done.
    + destruct (py_partition sep s) as [a' o'] eqn:Hp. intros [= <- <-].
      destruct (IH _ _ eq_refl) as (Ha & Hs & Hn). rewrite append_String. cbn [py_contains_char]. rewrite Hc.
      split; [done|]. split; [by rewrite <- Hs|done].
Qed.
Lemma partition_none sep s : py_contains_char sep s = false -> py_partition sep s = (s, None).
Proof.
  induction s as [|c s IH]; [done|]. cbn [py_partition py_contains_char].
  destruct (Ascii.eqb c sep); [done|]. intros Hs. by rewrite IH.
Qed.

Definition netloc_end (c : ascii) : bool := Ascii.eqb c "/" || Ascii.eqb c "?" || Ascii.eqb c "#".
Definition at_end (s : string) : bool :=
  match s with EmptyString => true | String c _ => netloc_end c end.
Lemma splitnetloc_parts s a b : splitnetloc s = (a, b) ->
  all_chars (fun c => negb (netloc_end c)) a = true /\ s = a +:+ b /\ at_end b = true.
Proof.
  revert a b. induction s as [|c s IH]; intros a b; cbn [splitnetloc]; [by intros [= <- <-]|].
  fold (netloc_end c). destruct (netloc_end c) eqn:Hc.
  - intros [= <- <-]. cbn [at_end]. by rewrite Hc.
  - destruct (splitnetloc s) as [a' b'] eqn:Hs. intros [= <- <-]. destruct (IH _ _ eq_refl) as (Ha & -> & Hb).
    cbn [all_chars]. by rewrite Hc.
Qed.
Lemma splitnetloc_app a b : all_chars (fun c => negb (netloc_end c)) a = true -> at_end b = true ->
  splitnetloc (a +:+ b) = (a, b).
Proof.
  intros Ha Hb. induction a as [|c a IH].
  - rewrite append_nil. destruct b as [|c b]; [done|]. cbn [splitnetloc]. cbn [at_end] in Hb.
    fold (netloc_end c). by rewrite Hb.
  - rewrite append_String. cbn [splitnetloc all_chars] in *. b2p. fold (netloc_end c). rewrite H, IH by done. done.
Qed.

Lemma lower_scheme c : scheme_char c = true ->
  scheme_char (lower_char c) = true /\ lower_char (lower_char c) = lower_char c
  /\ Ascii.eqb (lower_char c) ":" = false /\ negb (unsafe_url_byte (lower_char c)) = true
  /\ Ascii.eqb (lower_char c) "#" = false /\ Ascii.eqb (lower_char c) "?" = false
  /\ (is_alpha c = true -> is_alpha (lower_char c) = true).
Proof. by destruct c as [[] [] [] [] [] [] [] []]. Qed.
Lemma lower_all s : all_chars scheme_char s = true ->
  all_chars scheme_char (py_lower s) = true /\ py_lower (py_lower s) = py_lower s
  /\ py_contains_char ":" (py_lower s) = false
  /\ all_chars (fun c => negb (unsafe_url_byte c)) (py_lower s) = true.
Proof.
  unfold py_lower. induction s as [|c s IH]; [done|]. cbn [all_chars map_string py_contains_char]. intros Hs. b2p.
  destruct (IH H0) as (-> & -> & -> & ->). destruct (lower_scheme c H) as (-> & -> & -> & -> & _). done.
Qed.

Section delivery.
Context (cbn_ : string -> bool).

(** What a split with a scheme and a network location looks like. *)
Record plain_split (u : SplitResult) : Prop := {
  pl_scheme : exists c pre, s_scheme u = py_lower (String c pre) /\ is_alpha c = true
    /\ all_chars scheme_char (String c pre) = true;
  pl_netloc : all_chars (fun c => negb (netloc_end c)) (s_netloc u) = true;
  pl_path : s_path u = EmptyString \/ py_startswith "/" (s_path u) = true;
  pl_path_sep : py_contains_char "#" (s_path u) = false /\ py_contains_char "?" (s_path u) = false;
  pl_safe : all_chars (fun c => negb (unsafe_url_byte c)) (s_netloc u +:+ s_path u) = true;
  pl_brackets : brackets_ok cbn_ (s_netloc u) = true;
  pl_nfkc : checknetloc (s_netloc u) = true
}.

Lemma at_end_prefix sep s a o : py_partition sep s = (a, o) -> at_end s = true -> at_end a = true.
Proof.
  intros Hp Hs. destruct (partition_parts _ _ _ _ Hp) as (_ & Hs' & _). rewrite Hs' in Hs. by destruct a.
Qed.
Lemma path_slash path : at_end path = true -> py_contains_char "#" path = false ->
  py_contains_char "?" path = false -> path = EmptyString \/ py_startswith "/" path = true.
Proof.
  destruct path as [|c path]; [by left|]. cbn [at_end py_contains_char]. unfold netloc_end. intros Ha Hh Hq.
  right. apply orb_false_elim in Hh as [Hh _]. apply orb_false_elim in Hq as [Hq _].
  rewrite Hh, Hq, !orb_false_r in Ha. apply Ascii.eqb_eq in Ha as ->. done.
Qed.
Lemma contains_prefix sep a b : py_contains_char sep (a +:+ b) = false -> py_contains_char sep a = false.
Proof. rewrite contains_app. intros Hab. by b2p. Qed.

Lemma urlsplit_plain uri u : urlsplit cbn_ uri = Ok u -> s_scheme u <> EmptyString ->
  s_netloc u <> EmptyString -> plain_split u.
Proof.
  unfold urlsplit. set (url := filter_string _ _).
  assert (all_chars (fun c => negb (unsafe_url_byte c)) url = true) as Hsafe by apply filter_string_all.
  clearbody url. destruct (split_scheme url) as [sch rest] eqn:Hsch.
  destruct (py_startswith "//" rest) eqn:Hss; [|by intros ? ? Hn; repeat case_match; simplify_eq].
  destruct (splitnetloc (py_drop 2 rest)) as [nl tl] eqn:Hnl.
  destruct (brackets_ok cbn_ nl) eqn:Hbr; [|done]. cbn [negb].
  destruct (py_partition "#" tl) as [t1 frag] eqn:Hf. destruct (py_partition "?" t1) as [path query] eqn:Hq.
  destruct (checknetloc nl) eqn:Hck; [|done]. intros [= <-]. cbn [s_scheme s_netloc s_path]. intros Hs Hn.
  assert (exists c pre, sch = py_lower (String c pre) /\ is_alpha c = true
    /\ all_chars scheme_char (String c pre) = true /\ url = String c pre +:+ String ":" rest) as
    (c & pre & Hsch' & Hc & Hpre & Hurl).
  { unfold split_scheme in Hsch. destruct (py_partition ":" url) as [[|c pre] [r|]] eqn:Hp; try by simplify_eq.
    destruct (is_alpha c && all_chars scheme_char (String c pre)) eqn:Hcs; [|by simplify_eq].
    injection Hsch as <- <-. b2p. apply partition_parts in Hp as (_ & -> & _). by exists c, pre. }
  destruct (splitnetloc_parts _ _ _ Hnl) as (Hnl1 & Hdrop & Hend).
  destruct (partition_parts _ _ _ _ Hf) as (Hh & Htl & _). destruct (partition_parts _ _ _ _ Hq) as (Hqm & Ht1 & _).
  assert (py_contains_char "#" path = false) as Hph by (rewrite Ht1 in Hh; by apply contains_prefix in Hh).
  assert (at_end path = true) as Hpe by (eapply at_end_prefix, at_end_prefix; eassumption).
  constructor; cbn [s_scheme s_netloc s_path]; try done.
  - by exists c, pre.
  - by apply path_slash.
  - rewrite Hurl, all_chars_app in Hsafe. b2p. cbn [all_chars] in H0. b2p.
    apply (all_chars_drop _ 2) in H1. rewrite Hdrop, Htl, Ht1, !all_chars_app in H1. b2p.
    by rewrite all_chars_app, H1, H2.
Qed.
Lemma startswith_app_pre p a b : py_startswith p a = true -> py_startswith p (a +:+ b) = true.
Proof. rewrite !py_startswith_spec. intros [r ->]. exists (r +:+ b). apply string_app_assoc. Qed.

Lemma urlsplit_urlunsplit u q : plain_split u -> s_netloc u <> EmptyString ->
  py_contains_char "#" q = false -> all_chars (fun c => negb (unsafe_url_byte c)) q = true ->
  urlsplit cbn_ (urlunsplit (mkSplit (s_scheme u) (s_netloc u) (s_path u) q EmptyString))
  = Ok (mkSplit (s_scheme u) (s_netloc u) (s_path u) q EmptyString).
Proof.
  intros [(c & pre & Hs & Hc & Hpre) Hnl Hpath [Hph Hpq] Hsafe Hbr Hck] Hne Hq Hqs.
  set (tail := s_path u +:+ (if truthy q then "?" +:+ q else EmptyString)).
  assert (urlunsplit (mkSplit (s_scheme u) (s_netloc u) (s_path u) q EmptyString)
          = s_scheme u +:+ String ":" ("//" +:+ (s_netloc u +:+ tail))) as ->.
  { unfold urlunsplit, tail. cbn [s_scheme s_netloc s_path s_query s_fragment].
    apply truthy_true in Hne. rewrite Hne. assert (truthy (s_scheme u) = true) as -> by (by rewrite Hs).
    assert ((if truthy (s_path u) && negb (py_startswith "/" (s_path u)) then String "/" (s_path u) else s_path u)
            = s_path u) as -> by (destruct Hpath as [->| ->]; [done|by rewrite andb_false_r]).
    cbn [truthy String.eqb negb]. destruct (truthy q); rewrite ?string_app_assoc, ?string_app_nil_r; reflexivity. }
  destruct (lower_all _ Hpre) as (Hl1 & Hl2 & Hl3 & Hl4). rewrite <- Hs in *.
  assert (all_chars (fun c => negb (unsafe_url_byte c)) tail = true) as Htail.
  { rewrite all_chars_app in Hsafe. b2p. unfold tail. rewrite all_chars_app, H0. by destruct (truthy q). }
  assert (s_scheme u = String (lower_char c) (py_lower pre)) as Hs' by (by rewrite Hs).
  assert (is_alpha (lower_char c) = true) as Hlc.
  { cbn [all_chars] in Hpre. b2p. destruct (lower_scheme c H) as (_ & _ & _ & _ & _ & _ & Ha). by apply Ha. }
  unfold urlsplit. set (L := s_scheme u +:+ _).
  assert (filter_string (fun c => negb (unsafe_url_byte c)) (lstrip_c0 L) = L) as ->.
  { assert (lstrip_c0 L = L) as ->.
    { unfold L. rewrite Hs', append_String. cbn [lstrip_c0].
      assert ((N_of_ascii (lower_char c) <=? 32)%N = false) as ->; [|done].
      clear -Hlc. by destruct (lower_char c) as [[] [] [] [] [] [] [] []]. }
    apply filter_string_id. unfold L. rewrite all_chars_app, Hl4. cbn [all_chars].
    rewrite !all_chars_app. rewrite all_chars_app in Hsafe. b2p. by rewrite H, Htail. }
  assert (split_scheme L = (s_scheme u, "//" +:+ (s_netloc u +:+ tail))) as ->.
  { unfold split_scheme, L. rewrite partition_app by done. rewrite Hs' at 1.
    rewrite Hs' in Hl1. rewrite Hlc, Hl1. cbn [andb]. rewrite <- Hs', Hl2. done. }
  change (py_startswith "//" ("//" +:+ (s_netloc u +:+ tail))) with true. cbv iota.
  change (py_drop 2 ("//" +:+ (s_netloc u +:+ tail))) with (s_netloc u +:+ tail).
  assert (at_end tail = true) as Hend.
  { unfold tail. destruct Hpath as [-> |Hp]; [by destruct (truthy q)|].
    apply py_startswith_spec in Hp as [r ->]. done. }
  rewrite splitnetloc_app by done. rewrite Hbr. cbn [negb].
  assert (py_contains_char "#" tail = false) as Hth.
  { unfold tail. rewrite contains_app, Hph. by destruct (truthy q). }
  rewrite (partition_none _ _ Hth), Hck. cbn [negb default from_option id].
  unfold tail. destruct (truthy q) eqn:Htq.
  - change ("?" +:+ q) with (String "?" q). by rewrite partition_app.
  - rewrite string_app_nil_r, partition_none by done. apply truthy_false in Htq as ->. done.
Qed.

(** ** What a delivered response carries *)
Lemma quote_byte_safe plus n : is_byte n -> all_chars (fun c => negb (unsafe_url_byte c)) (quote_byte plus n) = true.
Proof. revert n. destruct plus; apply by_bytes; vm_compute; reflexivity. Qed.
Lemma quote_safe_chars plus s q : quote_via plus s = Ok q -> all_chars (fun c => negb (unsafe_url_byte c)) q = true.
Proof.
  unfold quote_via. destruct (utf8_valid s); [|done]. intros [= <-].
  pose proof (bytes_of_byte s) as Hb. induction Hb as [|n l Hn Hl IH]; [done|].
  change (quote_bytes plus (n :: l)) with (quote_byte plus n +:+ quote_bytes plus l).
  by rewrite all_chars_app, quote_byte_safe, IH.
Qed.
Lemma urlencode_safe plus params q : urlencode plus params = Ok q ->
  all_chars (fun c => negb (unsafe_url_byte c)) q = true.
Proof.
  unfold urlencode, rmap. destruct (urlencode_fields plus params) as [fields|] eqn:Hf; [|done].
  intros [= <-]. revert fields Hf. induction params as [|[k v] params IH]; cbn [urlencode_fields]; intros fields Hf.
  { by injection Hf as <-. }
  unfold rbind in Hf. destruct (quote_via plus k) as [qk|] eqn:Hk; [|done].
  destruct (quote_via plus v) as [qv|] eqn:Hv; [|done].
  destruct (urlencode_fields plus params) as [rest|]; [|done]. injection Hf as <-.
  specialize (IH rest eq_refl). apply quote_safe_chars in Hk, Hv.
  destruct rest as [|f rest]; [by cbn [join]; rewrite !all_chars_app, Hk, Hv|].
  change (join "&" ((qk +:+ "=" +:+ qv) :: f :: rest))
    with ((qk +:+ "=" +:+ qv) +:+ ("&" +:+ join "&" (f :: rest))).
  by rewrite !all_chars_app, Hk, Hv, IH.
Qed.

Lemma filter_string_app p a b : filter_string p (a +:+ b) = filter_string p a +:+ filter_string p b.
Proof.
  induction a as [|c a IH]; [done|]. rewrite append_String. cbn [filter_string].
  destruct (p c); rewrite ?append_String; by rewrite IH.
Qed.
Lemma lstrip_c0_app a b : lstrip_c0 a <> EmptyString -> lstrip_c0 (a +:+ b) = lstrip_c0 a +:+ b.
Proof.
  induction a as [|c a IH]; [done|]. rewrite append_String. cbn [lstrip_c0].
  destruct (_ <=? _)%N; [apply IH|]. by rewrite append_String.
Qed.
Lemma partition_app_some sep a b x y : py_partition sep a = (x, Some y) ->
  py_partition sep (a +:+ b) = (x, Some (y +:+ b)).
Proof.
  revert x. induction a as [|c a IH]; intros x; [done|]. rewrite append_String. cbn [py_partition].
  destruct (Ascii.eqb c sep); [by intros [= <- <-]|].
  destruct (py_partition sep a) as [x' o]. intros [= <- ->]. by rewrite (IH x').
Qed.
Lemma contains_filter sep p s : py_contains_char sep s = false -> py_contains_char sep (filter_string p s) = false.
Proof.
  induction s as [|c s IH]; [done|]. cbn [py_contains_char filter_string]. intros Hs. b2p.
  destruct (p c); [|auto]. cbn [py_contains_char]. rewrite H. auto.
Qed.
Lemma contains_lstrip sep s : py_contains_char sep s = false -> py_contains_char sep (lstrip_c0 s) = false.
Proof.
  induction s as [|c s IH]; [done|]. intros Hs. cbn [lstrip_c0]. destruct (_ <=? _)%N; [|done].
  cbn [py_contains_char] in Hs. b2p. auto.
Qed.

Lemma urlsplit_with_fragment uri u q : urlsplit cbn_ uri = Ok u -> s_scheme u <> EmptyString ->
  s_netloc u <> EmptyString -> py_contains_char "#" uri = false ->
  all_chars (fun c => negb (unsafe_url_byte c)) q = true ->
  urlsplit cbn_ (uri +:+ "#" +:+ q)
  = Ok (mkSplit (s_scheme u) (s_netloc u) (s_path u) (s_query u) q).
Proof.
  intros Hu Hs Hn Hh Hq. unfold urlsplit in *. set (url := filter_string _ (lstrip_c0 uri)) in Hu.
  assert (url <> EmptyString) as Hne by (intros He; rewrite He in Hu; simpl in Hu; by simplify_eq).
  assert (filter_string (fun c => negb (unsafe_url_byte c)) (lstrip_c0 (uri +:+ "#" +:+ q))
          = url +:+ String "#" q) as ->.
  { rewrite lstrip_c0_app, filter_string_app by (intros He; unfold url in Hne; by rewrite He in Hne).
    rewrite (filter_string_id _ ("#" +:+ q)); [done|]. by rewrite append_String. }
  assert (py_contains_char "#" url = false) as Hhu by by apply contains_filter, contains_lstrip.
  clearbody url. destruct (split_scheme url) as [sch rest] eqn:Hsch.
  destruct (py_startswith "//" rest) eqn:Hss; [|repeat case_match; simplify_eq/=; done].
  apply py_startswith_spec in Hss as [r Hr]. rewrite append_String, append_String, append_nil in Hr. subst rest.
  change (py_drop 2 (String "/" (String "/" r))) with r in Hu.
  destruct (splitnetloc r) as [nl tl] eqn:Hnl. destruct (brackets_ok cbn_ nl) eqn:Hbr; [|done]. cbn [negb] in Hu.
  destruct (splitnetloc_parts _ _ _ Hnl) as (Hnl1 & Hnl2 & Hend).
  unfold split_scheme in Hsch. destruct (py_partition ":" url) as [[|c pre] [rest|]] eqn:Hp;
    try (by injection Hsch as <- _; repeat case_match; simplify_eq/=).
  destruct (is_alpha c && _) eqn:Hcs; [|by injection Hsch as <- _; repeat case_match; simplify_eq/=].
  injection Hsch as <- ->.
  pose proof (partition_parts _ _ _ _ Hp) as (_ & Hurl & _).
  assert (py_contains_char "#" tl = false) as Htl.
  { rewrite Hurl, contains_app in Hhu. apply orb_false_elim in Hhu as [_ Hhu].
    change (py_contains_char "#" r = false) in Hhu. rewrite Hnl2, contains_app in Hhu. by b2p. }
  rewrite (partition_none _ _ Htl) in Hu. destruct (py_partition "?" tl) as [path query] eqn:Hq2.
  destruct (checknetloc nl) eqn:Hck; [|done]. cbn [negb] in *. injection Hu as <-.
  cbn [s_scheme s_netloc s_path s_query] in *.
  unfold split_scheme. rewrite (partition_app_some _ _ _ _ _ Hp), Hcs. cbv beta iota.
  rewrite !append_String. change (py_startswith "//" (String "/" (String "/" (r +:+ String "#" q)))) with true.
  cbv iota. change (py_drop 2 (String "/" (String "/" (r +:+ String "#" q)))) with (r +:+ String "#" q).
  rewrite Hnl2, string_app_assoc, splitnetloc_app by (try done; by destruct tl).
  rewrite Hbr, partition_app, Hq2, Hck by done. done.
Qed.

Lemma is_valid_redirect_uri_parts uri : is_valid_redirect_uri cbn_ uri = Ok true ->
  exists u, urlsplit cbn_ uri = Ok u /\ s_scheme u <> EmptyString /\ s_netloc u <> EmptyString
    /\ s_fragment u = EmptyString.
Proof.
  unfold is_valid_redirect_uri, rbind. destruct (urlsplit cbn_ uri) as [u|]; [|done]. intros [= Hv]. b2p.
  exists u. split; [done|]. split; [by intros He; rewrite He in *|].
  split; [by apply truthy_true|by apply truthy_false].
Qed.

End delivery.


(** ** Escaping *)
Lemma escape_char_prefix c d a b : escape_char c +:+ a = escape_char d +:+ b -> c = d /\ a = b.
Proof.
  assert (forall x, escape_char x = String x EmptyString /\ x <> "&"%char
    \/ In (x, escape_char x) [("&"%char, "&amp;"); (dquote, "&quot;"); ("<"%char, "&lt;"); (">"%char, "&gt;");
                              ("'"%char, "&#x27;")]) as Hx.
  { intros x. unfold escape_char.
    destruct (Ascii.eqb_spec x "&") as [->|]; [by right; left|].
    destruct (Ascii.eqb_spec x dquote) as [->|]; [by right; right; left|].
    destruct (Ascii.eqb_spec x "<") as [->|]; [by right; do 2 right; left|].
    destruct (Ascii.eqb_spec x ">") as [->|]; [by right; do 3 right; left|].
    destruct (Ascii.eqb_spec x "'") as [->|]; [by right; do 4 right; left|]. by left. }
  destruct (Hx c) as [[-> Hc]|Hc]; destruct (Hx d) as [[-> Hd]|Hd].
  - rewrite !append_String, !append_nil. by intros [= -> ->].
  - rewrite append_String. simpl in Hd. repeat destruct Hd as [Hd|Hd]; try done; injection Hd as <- <-;
      rewrite append_String; by intros [= ? _].
  - rewrite append_String. simpl in Hc. repeat destruct Hc as [Hc|Hc]; try done; injection Hc as <- <-;
      rewrite append_String; by intros [= ? _].
  - simpl in Hc, Hd. repeat destruct Hc as [Hc|Hc]; try done; injection Hc as <- <-;
      repeat destruct Hd as [Hd|Hd]; try done; injection Hd as <- <-; rewrite !append_String, ?append_nil;
      intros Heq; by simplify_eq.
Qed.
Lemma html_escape_attr_inj a b : html_escape_attr a = html_escape_attr b -> a = b.
Proof.
  revert b. induction a as [|c a IH]; intros [|d b]; cbn [html_escape_attr]; try done.
  - intros He. exfalso. by destruct d as [[] [] [] [] [] [] [] []].
  - intros He. exfalso. by destruct c as [[] [] [] [] [] [] [] []].
  - intros He. apply escape_char_prefix in He as [-> He]. f_equal. by apply IH.
Qed.
(** A character that ends an attribute value or a tag. *)
Definition markup_char (c : ascii) : bool :=
  Ascii.eqb c dquote || Ascii.eqb c "<" || Ascii.eqb c ">" || Ascii.eqb c "'".
Lemma html_escape_attr_plain s : all_chars (fun c => negb (markup_char c)) (html_escape_attr s) = true.
Proof.
  induction s as [|c s IH]; [done|]. cbn [html_escape_attr]. rewrite all_chars_app, IH.
  by destruct c as [[] [] [] [] [] [] [] []].
Qed.

Lemma until_quote a a' x y : py_contains_char dquote a = false -> py_contains_char dquote a' = false ->
  a +:+ String dquote x = a' +:+ String dquote y -> a = a' /\ x = y.
Proof.
  intros Ha Ha' He. apply (f_equal (py_partition dquote)) in He. rewrite !partition_app in He by done.
  by injection He as -> ->.
Qed.
Lemma escaped_no_quote s : py_contains_char dquote (html_escape_attr s) = false.
Proof.
  pose proof (html_escape_attr_plain s) as Hp. induction (html_escape_attr s) as [|c l IH]; [done|].
  cbn [all_chars py_contains_char] in *. b2p. unfold markup_char in H. b2p. by rewrite H, IH.
Qed.
Lemma cons_quote a x : String dquote a +:+ x = String dquote (a +:+ x).
Proof. done. Qed.

(** The auto-submitted form carries every parameter faithfully and nothing else:
    no escaped name, value or URI holds a quote or an angle bracket, so none
    can leave its attribute, and distinct parameters are written differently. *)
Theorem form_input_faithful (param param' : string * string) :
  all_chars (fun c => negb (markup_char c)) (html_escape_attr (fst param)) = true
  /\ all_chars (fun c => negb (markup_char c)) (html_escape_attr (snd param)) = true
  /\ (form_input param = form_input param' <-> param = param').
Proof.
  split; [apply html_escape_attr_plain|]. split; [apply html_escape_attr_plain|].
  split; [|by intros ->]. destruct param as [k v], param' as [k' v']. unfold form_input, quoted. cbn [fst snd].
  rewrite !cons_quote, !string_app_assoc, !cons_quote, !append_nil. intros He.
  apply until_quote in He as [_ He]; [|done|done].
  apply until_quote in He as [_ He]; [|done|done]. apply until_quote in He as [_ He]; [|done|done].
  apply until_quote in He as [Hk He]; [|apply escaped_no_quote..].
  apply until_quote in He as [_ He]; [|done|done]. apply until_quote in He as [Hv _]; [|apply escaped_no_quote..].
  by rewrite (html_escape_attr_inj _ _ Hk), (html_escape_attr_inj _ _ Hv).
Qed.
