(* ===== verification/JwksUri.v ===== *)
(** * Which [jwks_uri] the server may dereference
    ([services/clients.is_valid_jwks_uri])

    Literal addresses are parsed as [ipaddress.ip_address] does. [inet_aton] is
    the C library's, a parameter. *)
From S2P Require Import Prelude PyStr PyJson Codec Models PyUrl PyInt Redirects.
#[local] Open Scope Z_scope.

(** [s.isdigit()]: the decimal digits and the digits that are no decimals. *)
Definition other_digit_runs : list (N * N) :=
  [(178, 179); (185, 185); (4969, 4977); (6618, 6618); (8304, 8304); (8308, 8313); (8320, 8329); (9312, 9320);
   (9332, 9340); (9352, 9360); (9450, 9450); (9461, 9469); (9471, 9471); (10102, 10110); (10112, 10120);
   (10122, 10130); (68160, 68163); (69216, 69224); (69714, 69722); (127232, 127242)]%N.
Definition is_digit_point (n : N) : bool :=
  bool_decide (is_Some (decimal_value n))
  || existsb (fun ab => ((fst ab <=? n) && (n <=? snd ab))%N) other_digit_runs.
Fixpoint points (k : nat) (s : string) : list N :=
  match s with
  | EmptyString => []
  | String _ s' =>
      match k with
      | S k => points k s'
      | O => let '(n, len) := head_point s in n :: points (len - 1) s'
      end
  end.
Definition py_isdigit (s : string) : bool := truthy s && forallb is_digit_point (points 0 s).

(** ** [ipaddress.ip_address] *)
Inductive ip_address := IPv4 (a : Z) | IPv6 (a : Z).

Definition parse_octet (s : string) : option Z :=
  if negb (truthy s) || negb (all_chars is_ascii_digit s) then None
  else if (3 <? String.length s)%nat then None
  else if negb (String.eqb s "0") && py_startswith "0" s then None
  else let n := fst (fst (scan_digits 0 0 s)) in if 255 <? n then None else Some n.
Definition parse_ipv4 (s : string) : option Z :=
  match py_split_on "." s with
  | [a; b; c; d] =>
      a ← parse_octet a; b ← parse_octet b; c ← parse_octet c; d ← parse_octet d;
      Some (((a * 256 + b) * 256 + c) * 256 + d)
  | _ => None
  end.

(** [int(s, 16)] of at most four hexadecimal digits. *)
Fixpoint hex_value (acc : N) (s : string) : option N :=
  match s with
  | EmptyString => Some acc
  | String c s => d ← hex_of c; hex_value (acc * 16 + d)%N s
  end.
Definition parse_hextet (s : string) : option Z :=
  if negb (truthy s) || (4 <? String.length s)%nat then None else option_map Z.of_N (hex_value 0 s).
(** The parts; a dotted tail counts as two. *)
Inductive part := Hextet (s : string) | Word (n : Z).
Definition part_empty (p : part) : bool := match p with Hextet s => negb (truthy s) | Word _ => false end.
Definition part_value (p : part) : option Z := match p with Hextet s => parse_hextet s | Word n => Some n end.
Fixpoint part_values (acc : Z) (l : list part) : option Z :=
  match l with [] => Some acc | p :: l => n ← part_value p; part_values (acc * 65536 + n) l end.

Definition ipv6_parts (s : string) : option (list part) :=
  let parts := py_split_on ":" s in
  if (length parts <? 3)%nat then None else
  let last := List.last parts EmptyString in
  if py_contains_char "." last then
    v4 ← parse_ipv4 last;
    Some (map Hextet (List.removelast parts) ++ [Word (v4 / 65536); Word (v4 mod 65536)])
  else Some (map Hextet parts).

(** The positions, between the first and the last part, of empty parts. *)
Fixpoint empty_inner (i : nat) (l : list part) : list nat :=
  match l with
  | [] | [_] => []
  | p :: l => (if part_empty p then [i] else []) ++ empty_inner (S i) l
  end.
Definition parse_ipv6_parts (parts : list part) : option Z :=
  if (9 <? length parts)%nat then None else
  match empty_inner 1 (tail parts) with
  | [] =>
      if negb (length parts =? 8)%nat || existsb part_empty parts then None else part_values 0 parts
  | [skip] =>
      let lo := (length parts - skip - 1)%nat in
      let first_empty := from_option_b part_empty (head parts) in
      let last_empty := from_option_b part_empty (last parts) in
      if first_empty && negb (skip =? 1)%nat then None
      else if last_empty && negb (lo =? 1)%nat then None
      else
        let hi := if first_empty then 0%nat else skip in
        let lo := if last_empty then 0%nat else lo in
        if (7 <? hi + lo)%nat then None else
        h ← part_values 0 (firstn hi parts);
        part_values (h * 65536 ^ Z.of_nat (8 - (hi + lo))) (skipn (length parts - lo) parts)
  | _ => None
  end.
Definition parse_ipv6 (s : string) : option Z :=
  if py_contains_char "/" s then None else
  let '(addr, scope) := py_partition "%" s in
  let scope_ok := match scope with
                  | None => true
                  | Some z => truthy z && negb (py_contains_char "%" z)
                  end in
  if negb scope_ok || negb (truthy addr) then None else parts ← ipv6_parts addr; parse_ipv6_parts parts.
Definition parse_ip (s : string) : option ip_address :=
  match parse_ipv4 s with
  | Some a => Some (IPv4 a)
  | None => option_map IPv6 (parse_ipv6 s)
  end.

Example parse_ip_examples :
  map parse_ip ["127.0.0.1"; "127.1"; "0177.0.0.1"; "256.1.1.1"; "::1"; "::"; "fe80::1"; "fe80::1%eth0"; "::ffff:127.0.0.1";
                "1:2:3:4:5:6:7:8"; "1:2:3:4:5:6:7::"; "1::2::3"; ":1:2:3:4:5:6:7"; "1:2:3:4:5:6:7"; "::1%"; "12345::"; "host"]
  = [Some (IPv4 2130706433); None; None; None; Some (IPv6 1); Some (IPv6 0);
     Some (IPv6 (65152 * 2 ^ 112 + 1)); Some (IPv6 (65152 * 2 ^ 112 + 1)); Some (IPv6 (65535 * 2 ^ 32 + 2130706433));
     Some (IPv6 5192455318486707404433266433261576); Some (IPv6 5192455318486707404433266433261568); None; None; None; None; None; None].
Proof. vm_compute. reflexivity. Qed.

(** [address.ipv4_mapped or address], and the blocked ranges. *)
Definition unmapped (a : ip_address) : ip_address :=
  match a with
  | IPv6 n => if n / 2 ^ 32 =? 65535 then IPv4 (n mod 2 ^ 32) else a
  | IPv4 _ => a
  end.
Definition is_loopback (a : ip_address) : bool :=
  match a with IPv4 n => n / 2 ^ 24 =? 127 | IPv6 n => n =? 1 end.
Definition is_link_local (a : ip_address) : bool :=
  match a with IPv4 n => n / 2 ^ 16 =? 169 * 256 + 254 | IPv6 n => n / 2 ^ 118 =? 1018 end.
Definition is_unspecified (a : ip_address) : bool := match a with IPv4 n | IPv6 n => n =? 0 end.

Definition py_endswith (suffix s : string) : bool :=
  (String.length suffix <=? String.length s)%nat
  && String.eqb (py_drop (String.length s - String.length suffix) s) suffix.
Definition remove_char (c : ascii) (s : string) : string := filter_string (fun d => negb (Ascii.eqb d c)) s.

Section jwks_uri.
(** [int.from_bytes(socket.inet_aton(host), "big")]; [None] is an [OSError]. *)
Context (cbn_ : string -> bool) (inet_aton : string -> option Z).

Definition loose_ipv4 (host : string) : option ip_address := option_map IPv4 (inet_aton host).

Definition host_allowed (host : string) : bool :=
  if String.eqb host "localhost" || py_endswith ".localhost" host then false
  else if py_isdigit (remove_char "." host) then false
  else match match parse_ip host with Some a => Some a | None => loose_ipv4 host end with
       | None => true
       | Some a => let a := unmapped a in negb (is_loopback a || is_link_local a || is_unspecified a)
       end.

Definition is_valid_jwks_uri (uri : string) : result exn bool :=
  let? parsed := urlsplit cbn_ uri in
  if negb (String.eqb (s_scheme parsed) "https") || negb (truthy (s_netloc parsed)) then Ok false
  else if truthy (s_fragment parsed) || ends_with_char "#" uri then Ok false
  else match hostname parsed with
       | None => Ok false
       | Some host => Ok (truthy host && host_allowed host)
       end.
End jwks_uri.
