(* ===== verification/Migrations.v ===== *)
(** * The migration runner ([storage/migrations.py])

    The database other than [py_schema_version] is a value of the engine's
    type [DB]; a statement's effect on it, and what a rollback leaves, are
    the engine's.  The version table is modelled, with its primary key. *)
From Stdlib Require Import Sorting.Sorted.
From S2P Require Import Prelude PyStr PyJson Codec PyInt Models.
#[local] Open Scope Z_scope.

Record MigrationFile := mkFile { f_name : string; f_text : string }.

Definition SQLITE_REWRITES : list (string * string) :=
  [("TIMESTAMPTZ", "TEXT"); ("BYTEA", "BLOB"); ("NOW()", "CURRENT_TIMESTAMP"); ("ADD COLUMN IF NOT EXISTS", "ADD COLUMN")].
Definition lines_of (l : list string) : string := join (String (ascii_of_N 10) EmptyString) l.
Definition V6_SQLITE_OVERRIDE : list string :=
  [lines_of [EmptyString;
     "    CREATE TABLE tokens_new (";
     "        id TEXT PRIMARY KEY,";
     "        access_token TEXT NOT NULL UNIQUE,";
     "        refresh_token TEXT,";
     "        token_type TEXT NOT NULL,";
     "        expires_in INTEGER NOT NULL,";
     "        scope TEXT NOT NULL,";
     "        client_id TEXT NOT NULL,";
     "        user_id TEXT,";
     "        created_at TEXT NOT NULL,";
     "        expires_at TEXT NOT NULL,";
     "        revoked BOOLEAN NOT NULL DEFAULT FALSE,";
     "        FOREIGN KEY (client_id) REFERENCES clients(client_id),";
     "        FOREIGN KEY (user_id) REFERENCES users(id)";
     "    )";
     "    "];
   "INSERT INTO tokens_new SELECT * FROM tokens";
   "DROP TABLE tokens";
   "ALTER TABLE tokens_new RENAME TO tokens";
   "CREATE INDEX idx_tokens_access_token ON tokens(access_token)";
   "CREATE INDEX idx_tokens_refresh_token ON tokens(refresh_token)";
   "CREATE INDEX idx_tokens_client_id ON tokens(client_id)";
   "CREATE INDEX idx_tokens_user_id ON tokens(user_id)"].
Definition SQLITE_VERSION_OVERRIDES (v : Z) : option (list string) :=
  if v =? 6 then Some V6_SQLITE_OVERRIDE else None.

(** [^V(\d+)__] at the start of a file name, and [int] of the digits. *)
Fixpoint version_digits (some : bool) (acc : Z) (l : list int_token) : option Z :=
  match l with
  | Digit d :: l => version_digits true (acc * 10 + d) l
  | Underscore :: Underscore :: _ => if some then Some acc else None
  | _ => None
  end.
Definition version_of (path : MigrationFile) : result exn Z :=
  match f_name path with
  | String "V" rest =>
      match version_digits false 0 (int_tokens 0 rest) with
      | Some v => Ok v
      | None => Err (PyErr ValueError ("unversioned migration file: " +:+ f_name path))
      end
  | name => Err (PyErr ValueError ("unversioned migration file: " +:+ name))
  end.
(** [sorted] is stable. *)
Fixpoint insert_file (x : Z * MigrationFile) (l : list (Z * MigrationFile)) : list (Z * MigrationFile) :=
  match l with [] => [x] | y :: r => if fst x <=? fst y then x :: l else y :: insert_file x r end.
Definition sort_files (files : list MigrationFile) : result exn (list (Z * MigrationFile)) :=
  let? keyed := map_ok (fun f => let? v := version_of f in Ok (v, f)) files in
  Ok (fold_right insert_file [] keyed).

(** [s.replace(old, new)] with a non-empty [old]. *)
Fixpoint replace_from (old new : string) (k : nat) (s : string) : string :=
  match s with
  | EmptyString => EmptyString
  | String c s' =>
      match k with
      | S k => replace_from old new k s'
      | O => if py_startswith old s then new +:+ replace_from old new (String.length old - 1) s' else String c (replace_from old new 0 s')
      end
  end.
Definition str_replace (old new s : string) : string := replace_from old new 0 s.
Definition split_statements (sql : string) : list string :=
  List.filter truthy (map py_strip (py_split_on ";" sql)).
Definition statements (sqlite : bool) (v : Z) (f : MigrationFile) : list string :=
  match (if sqlite then SQLITE_VERSION_OVERRIDES v else None) with
  | Some stmts => stmts
  | None =>
      let sql := if sqlite then fold_left (fun sql '(old, new) => str_replace old new sql) SQLITE_REWRITES (f_text f) else f_text f in
      split_statements sql
  end.

(** A database engine: its dialect, the effect of one statement, whether an
    error makes the transaction refuse everything until it ends, and what is
    left of the changes when it is rolled back. *)
Class Engine := {
  DB : Type;
  dialect_name : string;
  exec : string -> DB -> result exn DB;
  aborts_on_error : bool;
  rollback : DB * option (list Z) -> DB * option (list Z) -> DB * option (list Z)
}.

Section runner.
Context `{Engine}.
(** The connection inside [engine.begin()]. *)
Record Conn := mkConn { c_db : DB; c_versions : option (list Z); c_aborted : bool }.
Notation SQL := (ST Conn exn).
Definition in_transaction {A} (m : SQL A) : SQL A := fun c =>
  if c_aborted c then (Err (PyErr StorageError "current transaction is aborted"), c)
  else match m c with
       | (Ok a, c') => (Ok a, c')
       | (Err e, c') => (Err e, mkConn (c_db c') (c_versions c') aborts_on_error)
       end.
Definition stmt (sql : string) : SQL unit := in_transaction (fun c =>
  match exec sql (c_db c) with
  | Ok db => (Ok tt, mkConn db (c_versions c) (c_aborted c))
  | Err e => (Err e, c)
  end).
Definition create_version_table : SQL unit := in_transaction (fun c =>
  (Ok tt, mkConn (c_db c) (Some (default [] (c_versions c))) (c_aborted c))).
Definition select_versions : SQL (list Z) := in_transaction (fun c =>
  match c_versions c with Some l => (Ok l, c) | None => (Err (PyErr StorageError "no such table"), c) end).
Definition insert_version (v : Z) : SQL unit := in_transaction (fun c =>
  match c_versions c with
  | None => (Err (PyErr StorageError "no such table"), c)
  | Some l => if existsb (Z.eqb v) l then (Err (PyErr IntegrityError "py_schema_version"), c)
              else (Ok tt, mkConn (c_db c) (Some (l ++ [v])) (c_aborted c))
  end).
Definition PROBE : string := "SELECT 1 FROM clients LIMIT 1".
Definition LOCK : string := "SELECT pg_advisory_xact_lock(:key)".

Definition apply_migration (applied : list Z) (vf : Z * MigrationFile) : SQL unit :=
  let '(v, f) := vf in
  if existsb (Z.eqb v) applied then sret tt else
  each_m stmt (statements (String.eqb dialect_name "sqlite") v f) !;
  insert_version v.
Definition migrate (files : list (Z * MigrationFile)) : SQL unit :=
  (if String.eqb dialect_name "postgresql" then stmt LOCK else sret tt) !;
  create_version_table !;
  let! applied := select_versions in
  let! backfilled :=
    match applied with
    | [] => scatch (stmt PROBE !; each_m (fun vf => insert_version (fst vf)) files !; sret true) (fun _ => sret false)
    | _ => sret false
    end in
  if backfilled : bool then sret tt else each_m (apply_migration applied) files.
(** [async with engine.begin()]: commit, or roll back and raise. *)
Definition run_migrations (files : list MigrationFile) (db : DB * option (list Z))
  : result exn unit * (DB * option (list Z)) :=
  match sort_files files with
  | Err e => (Err e, db)
  | Ok files =>
      match migrate files (mkConn (fst db) (snd db) false) with
      | (Ok _, c) => (Ok tt, (c_db c, c_versions c))
      | (Err e, c) => (Err e, rollback db (c_db c, c_versions c))
      end
  end.

(** ** What a run does *)
Notation db_state := (DB * option (list Z))%type.
Definition has (v : Z) (l : list Z) : bool := existsb (Z.eqb v) l.
Lemma has_In v l : has v l = true <-> In v l.
Proof. unfold has. rewrite existsb_exists. split; [intros (x & Hx & ->%Z.eqb_eq); done|]. intros Hv. exists v. split; [done|apply Z.eqb_refl]. Qed.
(** A list of statements, run one after the other. *)
Fixpoint exec_all (stmts : list string) (db : DB) : result exn DB :=
  match stmts with [] => Ok db | q :: stmts => let? db := exec q db in exec_all stmts db end.
Lemma exec_all_app l l' db : exec_all (l ++ l') db = let? db := exec_all l db in exec_all l' db.
Proof. revert db. induction l as [|q l IH]; intros db; [done|]. cbn. destruct (exec q db); [apply IH|done]. Qed.
Definition pending (applied : list Z) (files : list (Z * MigrationFile)) : list (Z * MigrationFile) :=
  List.filter (fun vf => negb (has (fst vf) applied)) files.
Definition is_sqlite : bool := String.eqb dialect_name "sqlite".
Definition script (files : list (Z * MigrationFile)) : list string :=
  List.concat (map (fun vf => statements is_sqlite (fst vf) (snd vf)) files).

Lemma stmt_ok q db vs u c : stmt q (mkConn db vs false) = (Ok u, c) -> exists db', exec q db = Ok db' /\ c = mkConn db' vs false.
Proof. unfold stmt, in_transaction. cbn. destruct (exec q db) as [db'|]; [|done]. intros [= _ <-]. by exists db'. Qed.
Lemma stmts_ok l : forall db vs u c, each_m stmt l (mkConn db vs false) = (Ok u, c) ->
  exists db', exec_all l db = Ok db' /\ c = mkConn db' vs false.
Proof.
  induction l as [|q l IH]; intros db vs u c; cbn [each_m exec_all]; [intros [= _ <-]; by exists db|].
  unfold sbind. destruct (stmt q _) as [[|] c1] eqn:Hq; [|done]. apply stmt_ok in Hq as (db1 & -> & ->). apply IH.
Qed.
Lemma insert_ok v db l u c : insert_version v (mkConn db (Some l) false) = (Ok u, c) ->
  ~ In v l /\ c = mkConn db (Some (l ++ [v])) false.
Proof.
  unfold insert_version, in_transaction. cbn. destruct (existsb (Z.eqb v) l) eqn:Hv; [done|]. intros [= _ <-].
  split; [|done]. intros Hin. apply has_In in Hin. unfold has in Hin. by rewrite Hin in Hv.
Qed.
(** Versions recorded one after the other: new ones, in order. *)
Lemma NoDup_snoc {A} (l : list A) x : List.NoDup l -> ~ In x l -> List.NoDup (l ++ [x]).
Proof. intros Hl Hx. eapply Permutation.Permutation_NoDup; [apply Permutation.Permutation_cons_append|]. by constructor. Qed.
Lemma inserts_ok (files : list (Z * MigrationFile)) : forall db l u c,
  each_m (fun vf => insert_version (fst vf)) files (mkConn db (Some l) false) = (Ok u, c) ->
  List.NoDup l -> c = mkConn db (Some (l ++ map fst files)) false /\ List.NoDup (l ++ map fst files).
Proof.
  induction files as [|[v f] files IH]; intros db l u c; cbn [each_m map fst].
  { intros [= _ <-] Hl. by rewrite app_nil_r. }
  unfold sbind. destruct (insert_version v _) as [[|] c1] eqn:Hv; [|done]. apply insert_ok in Hv as [Hn ->]. intros Hr Hl.
  apply IH in Hr as [-> Hnd]; [|by apply NoDup_snoc]. rewrite <- app_assoc in *. done.
Qed.
Lemma migrations_ok applied (files : list (Z * MigrationFile)) : forall db l u c,
  each_m (apply_migration applied) files (mkConn db (Some l) false) = (Ok u, c) -> List.NoDup l ->
  exists db', exec_all (script (pending applied files)) db = Ok db'
    /\ c = mkConn db' (Some (l ++ map fst (pending applied files))) false
    /\ List.NoDup (l ++ map fst (pending applied files)).
Proof.
  induction files as [|[v f] files IH]; intros db l u c; cbn [each_m].
  { intros [= _ <-] Hl. exists db. cbn. by rewrite app_nil_r. }
  unfold sbind at 1. unfold apply_migration at 1, pending. cbn [List.filter fst].
  fold (has v applied). destruct (has v applied); cbn [negb]; [apply IH|].
  unfold sbind at 1. destruct (each_m stmt _ _) as [[|] c1] eqn:Hs; [|done]. apply stmts_ok in Hs as (db1 & Hs & ->).
  destruct (insert_version v _) as [[|] c1] eqn:Hv; [|done]. apply insert_ok in Hv as [Hn ->]. intros Hr Hl.
  apply IH in Hr as (db2 & Hx & -> & Hnd); [|by apply NoDup_snoc]. exists db2. unfold script. cbn [map List.concat fst snd].
  rewrite exec_all_app. unfold is_sqlite at 1. rewrite Hs. cbn [rbind]. rewrite <- app_assoc in *. done.
Qed.

(** A connection that refuses, or already knows the version: the migration fails. *)
Lemma stmt_frame q c r c' : stmt q c = (r, c') -> c_versions c' = c_versions c /\ (c_aborted c = true -> is_ok r = false /\ c' = c).
Proof. unfold stmt, in_transaction. destruct (c_aborted c); [by intros [= <- <-]|]. by destruct (exec q (c_db c)); intros [= <- <-]. Qed.
Lemma stmts_frame l : forall c r c', each_m stmt l c = (r, c') -> c_versions c' = c_versions c /\ (c_aborted c = true -> c' = c).
Proof.
  induction l as [|q l IH]; intros c r c'; cbn [each_m]; [by intros [= _ <-]|]. unfold sbind.
  destruct (stmt q c) as [[[]|e] c1] eqn:Hq; apply stmt_frame in Hq as [Hv Ha].
  - intros Hr. apply IH in Hr as [-> Ha']. split; [done|]. intros Hab. by destruct (Ha Hab).
  - intros [= _ <-]. split; [done|]. by intros [_ Hc]%Ha.
Qed.
Lemma insert_refused v c l : c_versions c = Some l -> c_aborted c = true \/ In v l -> is_ok (fst (insert_version v c)) = false.
Proof.
  intros Hl [Ha|Hv]; unfold insert_version, in_transaction; [by rewrite Ha|]. destruct (c_aborted c); [done|]. rewrite Hl.
  apply has_In in Hv. unfold has in Hv. by rewrite Hv.
Qed.
Lemma apply_refused v f c l : c_versions c = Some l -> c_aborted c = true \/ In v l -> is_ok (fst (apply_migration [] (v, f) c)) = false.
Proof.
  intros Hl Hc. unfold apply_migration. cbn [existsb]. unfold sbind. destruct (each_m stmt _ c) as [[[]|e] c1] eqn:Hs; [|done].
  apply stmts_frame in Hs as [Hv Ha]. apply (insert_refused v c1 l); [by rewrite Hv|]. destruct Hc as [Hc|Hc]; [left; by rewrite Ha|by right].
Qed.
Lemma inserts_grow (files : list (Z * MigrationFile)) : forall c l r c', c_versions c = Some l ->
  each_m (fun vf => insert_version (fst vf)) files c = (r, c') -> exists l', c_versions c' = Some l' /\ incl l l'.
Proof.
  induction files as [|[v f] files IH]; intros c l r c' Hl; cbn [each_m]; [intros [= _ <-]; eauto using incl_refl|].
  unfold sbind, insert_version at 1, in_transaction. cbn [fst]. rewrite Hl.
  destruct (c_aborted c); [intros [= _ <-]; eauto using incl_refl|]. destruct (existsb _ l); [intros [= _ <-]; eauto using incl_refl|].
  intros Hr. eapply IH in Hr as (l' & Hl' & Hi); [|done]. exists l'. split; [done|]. intros x Hx. apply Hi, in_or_app. by left.
Qed.
(** A backfill that fails half way leaves a version that the run then meets. *)
Lemma failed_backfill db files e c : each_m (fun vf => insert_version (fst vf)) files (mkConn db (Some []) false) = (Err e, c) ->
  is_ok (fst (each_m (apply_migration []) files c)) = false.
Proof.
  destruct files as [|[v f] files]; [done|]. cbn [each_m]. unfold sbind at 1. unfold insert_version at 1, in_transaction at 1.
  cbn [c_aborted c_versions existsb fst app c_db].
  intros Hr. eapply inserts_grow in Hr as (l & Hl & Hi); [|done]. unfold sbind.
  pose proof (apply_refused v f c l Hl (or_intror (Hi v (or_introl eq_refl)))) as Ha. by destruct (apply_migration [] (v, f) c) as [[]].
Qed.
Lemma aborted_run files c l : c_versions c = Some l -> c_aborted c = true ->
  files = [] \/ is_ok (fst (each_m (apply_migration []) files c)) = false.
Proof.
  intros Hl Ha. destruct files as [|[v f] files]; [by left|right]. cbn [each_m]. unfold sbind.
  pose proof (apply_refused v f c l Hl (or_introl Ha)) as Hr. by destruct (apply_migration [] (v, f) c) as [[]].
Qed.

(** What the engine documents: a query changes nothing, and the advisory lock
    is granted. *)
Record engine_laws : Prop := {
  el_select : forall db db', exec PROBE db = Ok db' -> db' = db;
  el_lock : forall db, exec LOCK db = Ok db
}.

Lemma backfill_ok db files : forall b c, engine_laws ->
  scatch (stmt PROBE !; each_m (fun vf => insert_version (fst vf)) files !; sret true) (fun _ => sret false) (mkConn db (Some []) false)
  = (Ok b, c) ->
  (b = true /\ exec PROBE db = Ok db /\ c = mkConn db (Some (map fst files)) false /\ List.NoDup (map fst files))
  \/ (b = false /\ is_ok (exec PROBE db) = false /\ c = mkConn db (Some []) aborts_on_error)
  \/ (b = false /\ is_ok (fst (each_m (apply_migration []) files c)) = false).
Proof.
  intros b c Hlaws. unfold scatch, sbind. destruct (stmt PROBE _) as [[u|e] c1] eqn:Hp.
  - apply stmt_ok in Hp as (db1 & Hp & ->). pose proof (el_select Hlaws _ _ Hp) as ->.
    destruct (each_m _ files _) as [[u'|e] c1] eqn:Hi.
    + intros [= <- <-]. left. apply inserts_ok in Hi as [-> Hn]; [done|constructor].
    + intros [= <- <-]. right. right. split; [done|]. by eapply failed_backfill.
  - intros [= <- <-]. right. left. unfold stmt, in_transaction in Hp. cbn in Hp. destruct (exec PROBE db); [done|]. by injection Hp as _ <-.
Qed.

Lemma lock_ok db vt : engine_laws ->
  (if String.eqb dialect_name "postgresql" then stmt LOCK else sret tt) (mkConn db vt false) = (Ok tt, mkConn db vt false).
Proof. intros Hlaws. destruct (String.eqb _ _); [|done]. unfold stmt, in_transaction. cbn [c_aborted c_db]. by rewrite (el_lock Hlaws). Qed.
Definition backfill (applied : list Z) (files : list (Z * MigrationFile)) : ST Conn exn bool :=
  match applied with
  | [] => scatch (stmt PROBE !; each_m (fun vf => insert_version (fst vf)) files !; sret true) (fun _ => sret false)
  | _ => sret false
  end.
Lemma migrate_opened files db vt : engine_laws ->
  migrate files (mkConn db vt false)
  = sbind (backfill (default [] vt) files) (fun backfilled => if backfilled then sret tt else each_m (apply_migration (default [] vt)) files)
      (mkConn db (Some (default [] vt)) false).
Proof. intros Hlaws. unfold migrate. unfold sbind at 1. by rewrite lock_ok. Qed.
(** Every successful run records every version and has run the pending
    files' statements, or recorded them all over an existing schema. *)
Lemma migrate_ok files db vt u c : engine_laws -> List.NoDup (default [] vt) ->
  migrate files (mkConn db vt false) = (Ok u, c) ->
  let applied := default [] vt in
  c_versions c = Some (applied ++ map fst (pending applied files)) /\ List.NoDup (applied ++ map fst (pending applied files))
  /\ ((applied = [] /\ exec PROBE db = Ok db /\ c_db c = db) \/ exec_all (script (pending applied files)) db = Ok (c_db c)).
Proof.
  intros Hlaws Hn Hr. rewrite migrate_opened in Hr by done.
  set (applied := default [] vt) in *. unfold sbind at 1, backfill in Hr. destruct applied as [|v0 applied'] eqn:Happ.
  - destruct (scatch _ _ _) as [[b|e] c1] eqn:Hb; [|done].
    assert (pending [] files = files) as Hpf
      by (unfold pending; cbn; clear; induction files as [|vf files IH]; cbn; congruence).
    apply backfill_ok in Hb as [(-> & Hp & -> & Hnd)|[(-> & Hp & ->)|(-> & Hf)]]; [| | |done].
    + injection Hr as _ <-. cbv zeta. rewrite Hpf. cbn. split_and! ; [done|done|by left].
    + destruct aborts_on_error.
      * destruct (aborted_run files (mkConn db (Some []) true) [] eq_refl eq_refl) as [->|Hf].
        -- injection Hr as _ <-. cbn. split_and! ; [done|constructor|by right].
        -- by rewrite Hr in Hf.
      * apply migrations_ok in Hr as (db' & Hx & -> & Hnd); [|done]. split_and! ; [done|done|by right].
    + by rewrite Hr in Hf.
  - cbn [sret] in Hr. apply migrations_ok in Hr as (db' & Hx & -> & Hnd); [|done]. split_and! ; [done|done|by right].
Qed.

(** *** Order, and a second run *)
Definition by_version (x y : Z * MigrationFile) : Prop := fst x <= fst y.
Lemma insert_file_perm x l : Permutation.Permutation (insert_file x l) (x :: l).
Proof.
  induction l as [|y l IH]; [done|]. cbn. destruct (fst x <=? fst y); [done|].
  rewrite IH. by apply Permutation.perm_swap.
Qed.
Lemma insert_file_sorted x l : Sorted by_version l -> Sorted by_version (insert_file x l).
Proof.
  induction l as [|y l IH]; intros Hl; cbn; [by repeat constructor|]. destruct (fst x <=? fst y) eqn:Hxy.
  - constructor; [done|]. constructor. by apply Z.leb_le.
  - inversion Hl as [|? ? Hs Hh]; subst. constructor; [by apply IH|]. apply Z.leb_gt in Hxy.
    destruct l as [|z l]; cbn; [constructor; unfold by_version; lia|]. destruct (fst x <=? fst z); constructor; unfold by_version; [lia|].
    by inversion Hh.
Qed.
Lemma keyed_files files keyed : map_ok (fun f => let? v := version_of f in Ok (v, f)) files = Ok keyed -> map snd keyed = files.
Proof.
  revert keyed. induction files as [|f files IH]; intros keyed; cbn [map_ok]; [by intros [= <-]|].
  destruct (version_of f) as [v|]; [|done]. cbn [rbind]. destruct (map_ok _ files) as [ks|]; [|done]. cbn [rbind].
  intros [= <-]. cbn. by rewrite IH.
Qed.
Lemma sort_files_ok files sorted : sort_files files = Ok sorted ->
  Sorted by_version sorted /\ Permutation.Permutation (map snd sorted) files.
Proof.
  unfold sort_files. destruct (map_ok _ files) as [keyed|] eqn:Hk; [|done]. cbn [rbind]. intros [= <-]. apply keyed_files in Hk as <-.
  induction keyed as [|x keyed [IHs IHp]]; [by split; [constructor|]|]. cbn. split; [by apply insert_file_sorted|].
  rewrite insert_file_perm. cbn. by constructor.
Qed.
Lemma all_known applied (files : list (Z * MigrationFile)) c :
  (forall v, In v (map fst files) -> In v applied) -> each_m (apply_migration applied) files c = (Ok tt, c).
Proof.
  induction files as [|[v f] files IH]; intros Hk; [done|]. cbn [each_m]. unfold sbind, apply_migration at 1. fold (has v applied).
  rewrite (proj2 (has_In v applied)) by (apply Hk; by left). cbn. apply IH. intros w Hw. apply Hk. by right.
Qed.
Lemma migrate_again files db vs : engine_laws -> (forall v, In v (map fst files) -> In v vs) ->
  migrate files (mkConn db (Some vs) false) = (Ok tt, mkConn db (Some vs) false)
  \/ vs = [] /\ exists ab, migrate files (mkConn db (Some vs) false) = (Ok tt, mkConn db (Some vs) ab).
Proof.
  intros Hlaws Hk. rewrite migrate_opened by done. cbn [default]. unfold backfill. destruct vs as [|v vs].
  - right. split; [done|]. assert (files = []) as -> by (destruct files as [|[w f] files]; [done|exfalso; by apply (Hk w); left]).
    cbv [default id]. unfold sbind, scatch. cbv beta iota. destruct (stmt PROBE (mkConn db (Some []) false)) as [[u|e] c] eqn:Hp.
    + apply stmt_ok in Hp as (db1 & Hp & ->). rewrite (el_select Hlaws _ _ Hp). by exists false.
    + unfold stmt, in_transaction in Hp. cbn in Hp. destruct (exec PROBE db); [done|]. injection Hp as _ <-. by exists aborts_on_error.
  - left. unfold sbind, sret at 1. by apply all_known.
Qed.

(** C12: a successful start of the server leaves every migration recorded
    exactly once, having run the statements of those not yet recorded in
    version order (or, over a schema that is there already, none), and a
    second start changes nothing. *)
Theorem migrations_sound files db vt db' vt' : engine_laws -> List.NoDup (default [] vt) ->
  run_migrations files (db, vt) = (Ok tt, (db', vt')) ->
  exists sorted vs, sort_files files = Ok sorted /\ Sorted by_version sorted /\ Permutation.Permutation (map snd sorted) files
    /\ vt' = Some vs /\ List.NoDup vs
    /\ (forall v, In v vs <-> In v (default [] vt) \/ In v (map fst sorted))
    /\ ((default [] vt = [] /\ exec PROBE db = Ok db /\ db' = db) \/ exec_all (script (pending (default [] vt) sorted)) db = Ok db')
    /\ run_migrations files (db', vt') = (Ok tt, (db', vt')).
Proof.
  intros Hlaws Hn Hr. unfold run_migrations in Hr |- *. destruct (sort_files files) as [sorted|] eqn:Hs; [|done].
  cbn [fst snd] in Hr. destruct (migrate sorted _) as [[u|e] c] eqn:Hm; [|done]. injection Hr as Hdb Hvt.
  apply migrate_ok in Hm as (Hv & Hnd & Heff); [|done|done]. rewrite Hdb in Heff. rewrite Hvt in Hv.
  pose proof (sort_files_ok _ _ Hs) as [Hsorted Hperm]. exists sorted, (default [] vt ++ map fst (pending (default [] vt) sorted)).
  assert (forall v, In v (default [] vt ++ map fst (pending (default [] vt) sorted)) <-> In v (default [] vt) \/ In v (map fst sorted)) as Hin.
  { intros v. rewrite in_app_iff. unfold pending. rewrite !in_map_iff. setoid_rewrite filter_In. split.
    - intros [Hv'|((w & f) & <- & Hf & _)]; [by left|right; eauto].
    - intros [Hv'|((w & f) & <- & Hf)]; [by left|]. cbn. destruct (has w (default [] vt)) eqn:Hw; [left; by apply has_In|].
      right. exists (w, f). cbn [fst]. by rewrite Hw. }
  split_and! ; try done. rewrite Hv. cbn [fst snd].
  destruct (migrate_again sorted db' _ Hlaws (fun v Hv' => proj2 (Hin v) (or_intror Hv'))) as [->|[_ [ab ->]]]; done.
Qed.

(** on PostgreSQL the probe for an existing schema is fatal: over an
    empty database it fails, the transaction refuses everything after it, and
    no migration is ever applied. *)
Theorem fresh_postgres_never_migrates files db vt e f : engine_laws ->
  aborts_on_error = true -> (forall before after, rollback before after = before) ->
  default [] vt = [] -> exec PROBE db = Err e -> In f files ->
  exists e', run_migrations files (db, vt) = (Err e', (db, vt)).
Proof.
  intros Hlaws Hab Hroll Hvt Hp Hf. unfold run_migrations. destruct (sort_files files) as [sorted|e'] eqn:Hs; [|by exists e'].
  apply sort_files_ok in Hs as [_ Hperm]. cbn [fst snd]. destruct (migrate sorted _) as [[u|e'] c] eqn:Hm; [|exists e'; by rewrite Hroll].
  exfalso. rewrite migrate_opened, Hvt in Hm by done. unfold sbind at 1, backfill in Hm. destruct (scatch _ _ _) as [[b|e1] c1] eqn:Hb; [|done].
  apply backfill_ok in Hb as [(_ & Hp' & _)|[(-> & _ & ->)|(-> & Hr)]]; [by rewrite Hp in Hp'| |by rewrite Hm in Hr|done].
  rewrite Hab in Hm. destruct (aborted_run sorted (mkConn db (Some []) true) [] eq_refl eq_refl) as [->|Hr]; [|by rewrite Hm in Hr].
  apply Permutation.Permutation_nil in Hperm. by subst.
Qed.
End runner.

(** ** Concrete inputs *)
Definition newline : string := String (ascii_of_N 10) EmptyString.
(** A database that is the list of the statements it has run; [clients]
    exists once it has been created. *)
Definition toy_exec (sql : string) (db : list string) : result exn (list string) :=
  if String.eqb sql PROBE then (if existsb (py_startswith "CREATE TABLE clients") db then Ok db else Err (PyErr StorageError sql))
  else if String.eqb sql LOCK then Ok db else Ok (db ++ [sql]).
Definition toy_engine (name : string) (aborts : bool) : Engine := {|
  DB := list string; dialect_name := name; exec := toy_exec; aborts_on_error := aborts; rollback before after := before
|}.
Lemma toy_laws name aborts : @engine_laws (toy_engine name aborts).
Proof.
  split; cbn.
  - intros db db'. unfold toy_exec. cbn [String.eqb]. destruct (String.eqb PROBE PROBE) eqn:He; [|by vm_compute in He].
    destruct (existsb _ db); [by intros [= <-]|done].
  - done.
Qed.
Definition toy_files : list MigrationFile :=
  [mkFile "V10__b.sql" ("ALTER TABLE t ADD COLUMN IF NOT EXISTS x TIMESTAMPTZ;" +:+ newline);
   mkFile "V1__a.sql" "CREATE TABLE clients (id TEXT); CREATE TABLE t (y BYTEA);"].
Definition toy_schema : list string :=
  ["CREATE TABLE clients (id TEXT)"; "CREATE TABLE t (y BLOB)"; "ALTER TABLE t ADD COLUMN x TEXT"].
Lemma migrations_sound_witness :
  @run_migrations (toy_engine "sqlite" false) toy_files ([], None) = (Ok tt, (toy_schema, Some [1; 10]))
  /\ @run_migrations (toy_engine "sqlite" false) toy_files (toy_schema, Some [1; 10]) = (Ok tt, (toy_schema, Some [1; 10])).
Proof.
  assert (@run_migrations (toy_engine "sqlite" false) toy_files ([], None) = (Ok tt, (toy_schema, Some [1; 10]))) as Hr
    by (vm_compute; reflexivity).
  split; [exact Hr|].
  destruct (@migrations_sound (toy_engine "sqlite" false) toy_files [] None toy_schema (Some [1; 10]) (toy_laws _ _) ltac:(constructor) Hr)
    as (sorted & vs & _ & _ & _ & _ & _ & _ & _ & Hagain). exact Hagain.
Defined.
Lemma fresh_postgres_never_migrates_witness :
  exists e', @run_migrations (toy_engine "postgresql" true) toy_files ([], None) = (Err e', ([], None)).
Proof.
  apply (@fresh_postgres_never_migrates (toy_engine "postgresql" true) toy_files [] None (PyErr StorageError PROBE)
    (mkFile "V1__a.sql" "CREATE TABLE clients (id TEXT); CREATE TABLE t (y BYTEA);") (toy_laws _ _)); try reflexivity.
  right. by left.
Defined.
(** V6 is one PL/pgSQL block; cut at its semicolons it is no longer one. *)
Example dollar_block_cut :
  statements false 6 (mkFile "V6__make_tokens_user_id_nullable.sql"
    ("DO $$" +:+ newline +:+ "BEGIN" +:+ newline +:+ "ALTER TABLE tokens ALTER COLUMN user_id DROP NOT NULL;" +:+ newline +:+ "END $$;"))
  = ["DO $$" +:+ newline +:+ "BEGIN" +:+ newline +:+ "ALTER TABLE tokens ALTER COLUMN user_id DROP NOT NULL"; "END $$"].
Proof. vm_compute. reflexivity. Qed.
