(* ===== verification/Limits.v ===== *)
(** * Request-parameter limits, [authorization_details] and [resource]
    ([services/limits.py], [services/rar.py], [services/resource.py])

    [check_depth] walks an explicit stack as the code does; its fuel is the
    number of nodes of the value, which always suffices. *)
From S2P Require Import Prelude PyStr PyJson Codec Models PyUrl.
#[local] Open Scope Z_scope.

(** ** limits.py *)
Definition check_len (raw name : string) (max_len : Z) (unit_ : string) : result exn string :=
  if max_len <? py_len raw
  then Err (LimitError ("`" +:+ name +:+ "` exceeds the maximum length of "
                        +:+ str_of_Z max_len +:+ " " +:+ unit_))
  else Ok raw.

Definition depth_error (name : string) (max_depth : Z) : exn :=
  LimitError ("`" +:+ name +:+ "` exceeds the maximum nesting depth of " +:+ str_of_Z max_depth).

Definition children (node : json) : option (list json) :=
  match node with
  | JObj m => Some (map snd m)
  | JList l => Some l
  | _ => None
  end.

(** The [while stack] loop; the head of [stack] is the end of the list the
    code pops from. *)
Fixpoint depth_walk (fuel : nat) (stack : list (json * Z)) (name : string) (max_depth : Z)
  : result exn unit :=
  match stack, fuel with
  | [], _ => Ok tt
  | _ :: _, O => Err (PyErr OverflowError "fuel")
  | (node, depth) :: rest, S fuel =>
      match children node with
      | None => depth_walk fuel rest name max_depth
      | Some cs =>
          if max_depth <? depth then Err (depth_error name max_depth)
          else depth_walk fuel (map (fun c => (c, depth + 1)) (rev cs) ++ rest) name max_depth
      end
  end.

Fixpoint json_nodes (j : json) : nat :=
  match j with
  | JList l => S (fold_right (fun x n => json_nodes x + n)%nat O l)
  | JObj m => S (fold_right (fun kv n => json_nodes (snd kv) + n)%nat O m)
  | _ => 1%nat
  end.

Definition check_depth (value : json) (name : string) (max_depth : Z) : result exn unit :=
  depth_walk (json_nodes value) [(value, 1)] name max_depth.

Definition check_json_param (limit : nat) (raw name : string) (max_len max_depth : Z)
  : result exn json :=
  let? _ := check_len raw name max_len "characters" in
  let? value := rcatch (py_json_loads limit raw) (fun e =>
    match e with
    | PyErr RecursionError _ => Err (depth_error name max_depth)
    | e => Err e
    end) in
  let? _ := check_depth value name max_depth in
  Ok value.

(** ** rar.py *)
Definition rar_max_len : Z := 16384.
Definition rar_max_depth : Z := 10.

(** The [for entry in parsed] loop. *)
Fixpoint check_rar_types (allowed : list string) (l : list pydict) : result exn unit :=
  match l with
  | [] => Ok tt
  | entry :: l =>
      match obj_get "type" entry with
      | Some (JStr t) =>
          if negb (truthy t) then Err (RarError "authorization_details entry is missing a type")
          else if negb (mem_str t allowed)
          then Err (RarError ("authorization_details type '" +:+ t +:+ "' is not supported"))
          else check_rar_types allowed l
      | _ => Err (RarError "authorization_details entry is missing a type")
      end
  end.

(** A [TypeError] cannot arise: [raw] is a string. *)
Definition validate_authorization_details (limit : nat) (raw : string) (allowed : list string)
  : result exn (list pydict) :=
  let? parsed := rcatch
    (check_json_param limit raw "authorization_details" rar_max_len rar_max_depth)
    (fun e => match e with
              | LimitError d => Err (RarError d)
              | PyErr JSONDecode _ => Err (RarError "authorization_details is not valid JSON")
              | e => Err e
              end) in
  match parsed with
  | JList ((_ :: _) as l) =>
      match all_objs l with
      | Some entries => let? _ := check_rar_types allowed entries in Ok entries
      | None => Err (RarError "authorization_details must be a JSON array of objects")
      end
  | _ => Err (RarError "authorization_details must be a JSON array of objects")
  end.

(** ** resource.py *)
Definition max_resource_len : Z := 2048.
Definition invalid_target_description : string :=
  "resource must be an absolute URI without a fragment".

Section resource.
Context (check_bracketed_netloc : string -> bool).

Definition validate_resource (value : option string) : result exn (option string) :=
  match value with
  | None => Ok None
  | Some v =>
      let? _ := rcatch (check_len v "resource" max_resource_len "characters")
        (fun e => match e with
                  | LimitError d => Err (OAuthError "invalid_target" (Some d) 400)
                  | e => Err e
                  end) in
      let? split := urlsplit check_bracketed_netloc v in
      let names_something :=
        truthy (s_netloc split) || truthy (s_path split) || truthy (s_query split) in
      if negb (truthy (s_scheme split)) || negb names_something || truthy (s_fragment split)
      then Err (OAuthError "invalid_target" (Some invalid_target_description) 400)
      else Ok (Some v)
  end.
End resource.

(** ** The recursive depth that [check_depth] bounds *)
Fixpoint json_depth (j : json) : Z :=
  match j with
  | JList l => 1 + fold_right (fun x d => Z.max (json_depth x) d) 0 l
  | JObj m => 1 + fold_right (fun kv d => Z.max (json_depth (snd kv)) d) 0 m
  | _ => 0
  end.

Definition stack_nodes (st : list (json * Z)) : nat :=
  fold_right (fun nd n => json_nodes (fst nd) + n)%nat O st.
Definition fits (max_depth : Z) (nd : json * Z) : Prop :=
  json_depth (fst nd) = 0 \/ json_depth (fst nd) + snd nd - 1 <= max_depth.

Lemma json_nodes_pos j : (1 <= json_nodes j)%nat.
Proof. destruct j; simpl; lia. Qed.
Lemma fold_max_nonneg {A} (f : A -> Z) l : 0 <= fold_right (fun x d => Z.max (f x) d) 0 l.
Proof. induction l; simpl; lia. Qed.
Lemma json_depth_nonneg j : 0 <= json_depth j.
Proof.
  destruct j; simpl; try lia;
    [pose proof (fold_max_nonneg json_depth l)
    |pose proof (fold_max_nonneg (fun kv => json_depth (snd kv)) m)]; lia.
Qed.

Lemma children_depth j cs : children j = Some cs ->
  json_depth j = 1 + fold_right (fun x d => Z.max (json_depth x) d) 0 cs
  /\ json_nodes j = S (fold_right (fun x n => json_nodes x + n)%nat O cs).
Proof.
  destruct j; simpl; intros [= <-]; [done|].
  split; f_equal; induction m as [|kv m IH]; simpl; congruence.
Qed.

Lemma fold_max_le cs d b :
  fold_right (fun x d => Z.max (json_depth x) d) 0 cs + d <= b <->
  d <= b /\ Forall (fun c => json_depth c + d <= b) cs.
Proof.
  induction cs as [|c cs IH]; simpl; [split; [split; [lia|done]|intros [? _]; lia]|].
  rewrite Forall_cons.
  assert (forall x y, Z.max x y + d <= b <-> x + d <= b /\ y + d <= b) as -> by lia.
  rewrite IH. intuition.
Qed.

Lemma stack_nodes_app a b : stack_nodes (a ++ b) = (stack_nodes a + stack_nodes b)%nat.
Proof. induction a as [|x a IH]; simpl; [done|]. unfold stack_nodes in *. lia. Qed.

Lemma stack_nodes_children cs d :
  stack_nodes (map (fun c => (c, d)) (rev cs)) = fold_right (fun x n => json_nodes x + n)%nat O cs.
Proof.
  induction cs as [|c cs IH]; simpl; [done|].
  rewrite map_app, stack_nodes_app, IH. simpl. lia.
Qed.

(** With fuel for its nodes the walk accepts exactly the stacks that fit, and
    it rejects the others with the depth message. *)
Lemma depth_walk_spec fuel st name b : 0 <= b ->
  (stack_nodes st <= fuel)%nat -> Forall (fun nd => 1 <= snd nd <= b + 1) st ->
  (Forall (fits b) st /\ depth_walk fuel st name b = Ok tt)
  \/ (~ Forall (fits b) st /\ depth_walk fuel st name b = Err (depth_error name b)).
Proof.
  intros Hb. revert st. induction fuel as [|fuel IH]; intros [|[j d] st] Hf Hd; simpl in *;
    try (left; by split); pose proof (json_nodes_pos j); [lia|].
  apply Forall_cons in Hd as [Hd1 Hd].
  destruct (children j) as [cs|] eqn:Hc.
  - destruct (children_depth _ _ Hc) as [Hdepth Hnodes].
    pose proof (fold_max_le cs d b) as Hfit.
    assert (fits b (j, d) <->
            d <= b /\ Forall (fun c => json_depth c + d <= b) cs) as Hj.
    { unfold fits; simpl. rewrite <- Hfit, Hdepth.
      pose proof (fold_max_nonneg json_depth cs).
      lia. }
    destruct (b <? d) eqn:Hlt; b2p.
    + right. split; [|done]. rewrite Forall_cons, Hj. simpl in *. lia.
    + destruct (IH (map (fun c => (c, d + 1)) (rev cs) ++ st)) as [[H1 H2]|[H1 H2]].
      * rewrite stack_nodes_app, stack_nodes_children. unfold stack_nodes in *. lia.
      * apply Forall_app. split; [|done]. apply Forall_forall. intros nd Hin.
        apply list_elem_of_In, in_map_iff in Hin as (c & <- & _). simpl in *. lia.
      * left. split; [|done]. apply Forall_app in H1 as [H1 H1'].
        apply Forall_cons. split; [|done]. apply Hj. split; [done|].
        apply Forall_forall. intros c Hin. apply list_elem_of_In in Hin.
        rewrite Forall_forall in H1. assert (fits b (c, d + 1)) as Hfc;
          [|unfold fits in Hfc; simpl in Hfc; lia].
        apply H1, list_elem_of_In, in_map_iff. exists c. split; [done|]. by apply in_rev in Hin.
      * right. split; [|done]. intros Hall. apply H1. apply Forall_cons in Hall as [Ha Hb'].
        apply Hj in Ha as [_ Ha]. apply Forall_app. split; [|done].
        apply Forall_forall. intros nd Hin. apply list_elem_of_In, in_map_iff in Hin as (c & <- & Hin).
        apply in_rev in Hin. rewrite Forall_forall in Ha.
        specialize (Ha c ltac:(by apply list_elem_of_In)). right. simpl. lia.
  - destruct (IH st ltac:(unfold stack_nodes in *; lia) Hd) as [[H1 H2]|[H1 H2]]; rewrite H2.
    + left. split; [|done]. apply Forall_cons. split; [|done]. left. by destruct j.
    + right. split; [|done]. by rewrite Forall_cons; intros [_ ?].
Qed.

Lemma check_depth_spec (value : json) (name : string) (max_depth : Z) :
  0 <= max_depth ->
  check_depth value name max_depth
  = if json_depth value <=? max_depth then Ok tt else Err (depth_error name max_depth).
Proof.
  intros Hb. unfold check_depth.
  destruct (depth_walk_spec (json_nodes value) [(value, 1)] name max_depth Hb
    ltac:(simpl; lia) ltac:(by repeat constructor; simpl; lia)) as [[H1 ->]|[H1 ->]].
  - apply Forall_cons in H1 as [H1 _]. pose proof (json_depth_nonneg value).
    assert (json_depth value <=? max_depth = true) as -> by (unfold fits in H1; simpl in H1; lia). done.
  - destruct (json_depth value <=? max_depth) eqn:He; [|done]. exfalso. apply H1. b2p.
    apply Forall_cons. split; [right; simpl; lia|constructor].
Qed.

(** C40: the explicit-stack walk of [check_depth] terminates and accepts a value
    exactly when its recursively defined nesting depth is within the bound;
    otherwise it raises the depth error. *)
Theorem check_depth_equiv (value : json) (name : string) (max_depth : Z) :
  0 <= max_depth ->
  check_depth value name max_depth
  = if json_depth value <=? max_depth then Ok tt else Err (depth_error name max_depth).
Proof. apply check_depth_spec. Qed.

Lemma check_depth_equiv_witness :
  check_depth (JObj [("a", JList [JInt 1; JObj []])]) "claims" 2 = Err (depth_error "claims" 2)
  /\ check_depth (JObj [("a", JList [JInt 1; JNull])]) "claims" 2 = Ok tt.
Proof.
  split.
  - apply (check_depth_equiv (JObj [("a", JList [JInt 1; JObj []])]) "claims" 2). lia.
  - apply (check_depth_equiv (JObj [("a", JList [JInt 1; JNull])]) "claims" 2). lia.
Defined.

Lemma py_json_loads_ok limit s v : py_json_loads limit s = Ok v <-> json_loads limit s = Ok v.
Proof. unfold py_json_loads. destruct (json_loads limit s) as [|[]]; naive_solver. Qed.

(** What an accepted JSON parameter satisfies. *)
Lemma check_json_param_ok limit raw name max_len max_depth v : 0 <= max_depth ->
  check_json_param limit raw name max_len max_depth = Ok v <->
  py_len raw <= max_len /\ json_loads limit raw = Ok v /\ json_depth v <= max_depth.
Proof.
  intros Hd. unfold check_json_param, check_len. rewrite <- py_json_loads_ok.
  destruct (max_len <? py_len raw) eqn:Hl; b2p; simpl; [split; [done|lia]|].
  destruct (py_json_loads limit raw) as [w|e] eqn:Hw; simpl.
  - rewrite check_depth_spec by done. destruct (json_depth w <=? max_depth) eqn:Hw'; b2p; simpl.
    + naive_solver.
    + split; [done|]. intros (_ & [= ->] & ?). lia.
  - split; [by destruct e as [| | | | | |[]]|]. intros (_ & H & _). discriminate.
Qed.

Lemma all_objs_inv l m : all_objs l = Some m -> l = map JObj m.
Proof.
  unfold all_objs. revert m. induction l as [|j l IH]; simpl; [by intros m [= <-]|].
  intros m H. destruct (as_obj j) as [o|] eqn:Ho; [|done].
  destruct (fold_right _ _ l) as [r|] eqn:Hr; [|done]. injection H as <-.
  simpl. rewrite <- (IH r) by done. by destruct j; simplify_eq/=.
Qed.

Lemma check_rar_types_ok allowed l :
  check_rar_types allowed l = Ok tt <->
  Forall (fun e => exists t, obj_get "type" e = Some (JStr t) /\ t <> EmptyString
                             /\ In t allowed) l.
Proof.
  induction l as [|e l IH]; simpl; [done|]. rewrite Forall_cons, <- IH.
  destruct (obj_get "type" e) as [[]|]; try (split; [done|by intros [(? & ? & _) _]]).
  destruct (truthy s) eqn:Ht; simpl.
  - apply truthy_true in Ht. pose proof (mem_str_In s allowed) as Hm.
    destruct (mem_str s allowed); simpl; split; try done.
    + intros ->. split; [|done]. exists s. intuition.
    + by intros [_ ?].
    + intros [(t & [= <-] & _ & Hin) _]. by apply Hm in Hin.
  - apply truthy_false in Ht as ->. split; [done|]. by intros [(t & [= <-] & ? & _) _].
Qed.

(** [validate_authorization_details] accepts exactly the non-empty arrays of
    objects, within the length and depth bounds, whose every [type] is an
    allowed non-empty string, and returns the parsed entries unchanged. *)
Theorem validate_authorization_details_spec (limit : nat) (raw : string) (allowed : list string)
    (entries : list pydict) :
  validate_authorization_details limit raw allowed = Ok entries <->
  json_loads limit raw = Ok (jobjs entries) /\ entries <> []
  /\ py_len raw <= rar_max_len /\ json_depth (jobjs entries) <= rar_max_depth
  /\ Forall (fun e => exists t, obj_get "type" e = Some (JStr t) /\ t <> EmptyString
                                /\ In t allowed) entries.
Proof.
  unfold validate_authorization_details.
  pose proof (check_json_param_ok limit raw "authorization_details" rar_max_len rar_max_depth) as Hp.
  split.
  - intros H. destruct (check_json_param limit raw _ _ _) as [v|e] eqn:Hc; simpl in H.
    + destruct (proj1 (Hp v ltac:(done)) eq_refl) as (Hl & Hv & Hd). destruct v; try done. destruct l as [|j l]; [done|].
      destruct (all_objs (j :: l)) as [m|] eqn:Hm; [|done]. apply all_objs_inv in Hm.
      destruct (check_rar_types allowed m) as [[]|] eqn:Ht; simplify_eq/=.
      apply check_rar_types_ok in Ht. rewrite Hm in *. destruct entries; naive_solver.
    + by destruct e as [| | | | | |[]].
  - intros (Hv & Hne & Hl & Hd & Ht). apply check_rar_types_ok in Ht.
    assert (check_json_param limit raw "authorization_details" rar_max_len rar_max_depth
            = Ok (jobjs entries)) as -> by by apply Hp.
    cbn [rcatch rbind]. pose proof (all_objs_map entries) as Ha.
    destruct entries as [|e es]; [done|]. unfold jobjs. cbn [map]. cbn [map] in Ha.
    by rewrite Ha, Ht.
Qed.

(** [n] ones between brackets, e.g. [[1111]] for 4. *)
Definition long_int_details (n : nat) : string :=
  "[" +:+ string_of (List.repeat 49%N n) +:+ "]".

(** beyond those errors the request can fail with an unhandled [ValueError]:
    a number of more than 4300 digits, well within the length limit, at any
    recursion limit. *)
Theorem rar_long_integer_unhandled (limit : nat) (allowed : list string) :
  validate_authorization_details (S limit) (long_int_details 4301) allowed
  = Err (PyErr ValueError EmptyString)
  /\ py_len (long_int_details 4301) <= rar_max_len.
Proof. split; [compute_done|vm_compute; discriminate]. Qed.
