(* ===== verification/TtlStores.v ===== *)
(** * In-memory stores with expiry
    ([services/par.py], [services/ratelimit.py], [services/device_poll.py],
    [DpopReplayStore] of [services/dpop.py], [JtiReplayGuard] of
    [services/client_assertion.py])

    Each store is a dict keyed by a string that is swept of expired entries
    before every operation.  [time.monotonic()] is an integer number of
    nanoseconds, an argument [now] of every operation; a state reached by a
    history of operations at non-decreasing times is described by that history
    alone, which is how the stores' contracts are stated. *)
From S2P Require Import Prelude PyStr Models.
#[local] Open Scope Z_scope.

Definition NS : Z := 1000000000.
(** [math.ceil] of a number of nanoseconds, in seconds. *)
Definition ceil_secs (ns : Z) : Z := - ((- ns) / NS).

Lemma ceil_secs_spec ns : ns <= ceil_secs ns * NS < ns + NS.
Proof. unfold ceil_secs, NS. dlia. Qed.

(** ** Sweeping *)
Section sweep.
Context {V : Type} (live : Z -> V -> bool).

(** [for k in expired: del d[k]] *)
Definition sweep (now : Z) (m : gmap string V) : gmap string V :=
  filter (fun kv : string * V => live now kv.2 = true) m.

(** What a lookup finds once expired entries are ignored. *)
Definition live_at (now : Z) (o : option V) : option V :=
  v ← o; if live now v then Some v else None.

Lemma sweep_lookup now m k : sweep now m !! k = live_at now (m !! k).
Proof.
  unfold sweep. rewrite map_lookup_filter. unfold live_at.
  destruct (m !! k) as [v|]; simpl; [|done].
  destruct (live now v) eqn:Hl; case_guard; simpl in *; congruence.
Qed.

Context (live_mono : forall t t' v, t <= t' -> live t' v = true -> live t v = true).

(** Sweeping early is invisible to a later observer. *)
Lemma live_at_twice t t' o : t <= t' -> live_at t' (live_at t o) = live_at t' o.
Proof.
  intros Ht. destruct o as [v|]; simpl; [|done].
  destruct (live t v) eqn:Hl; simpl; [done|].
  destruct (live t' v) eqn:Hl'; [|done]. by rewrite (live_mono t t' v) in Hl.
Qed.

Lemma sweep_size now m : (size (sweep now m) <= size m)%nat.
Proof. apply map_size_filter. Qed.
End sweep.

(** ** par.py *)
Module Par.
Definition PAR_TTL_SECS : Z := 60.

Record ParEntry := mkPar {
  p_client_id : string;
  p_params : gmap string string;
  p_created_at : Z
}.
Notation ParStore := (gmap string ParEntry).

Definition par_live (now : Z) (e : ParEntry) : bool :=
  negb (PAR_TTL_SECS * NS <=? now - p_created_at e).
Definition par_sweep_expired (now : Z) (st : ParStore) : ParStore := sweep par_live now st.

Definition request_uri_of (uuid : string) : string := "urn:ietf:params:oauth:request-uri:" +:+ uuid.

Definition store (now : Z) (uuid client_id : string) (params : gmap string string) (st : ParStore)
  : string * ParStore :=
  let st := par_sweep_expired now st in
  let request_uri := request_uri_of uuid in
  (request_uri, <[request_uri := mkPar client_id params now]> st).

Definition take (now : Z) (request_uri : string) (st : ParStore) : option ParEntry * ParStore :=
  let st := par_sweep_expired now st in
  (st !! request_uri, delete request_uri st).

(** Histories, newest event first. *)
Inductive event :=
| Stored (now : Z) (uuid client_id : string) (params : gmap string string)
| Taken (now : Z) (request_uri : string).
Definition event_time (ev : event) : Z :=
  match ev with Stored t _ _ _ => t | Taken t _ => t end.

Fixpoint after (h : list event) : ParStore :=
  match h with
  | [] => ∅
  | Stored t u c p :: h => snd (store t u c p (after h))
  | Taken t r :: h => snd (take t r (after h))
  end.

(** The times of a history never decrease and do not pass [now]. *)
Fixpoint ordered (now : Z) (h : list event) : Prop :=
  match h with [] => True | ev :: h => event_time ev <= now /\ ordered (event_time ev) h end.

(** The last event about [uri] decides. *)
Fixpoint pending (now : Z) (uri : string) (h : list event) : option ParEntry :=
  match h with
  | [] => None
  | Stored t u c p :: h =>
      if String.eqb uri (request_uri_of u)
      then (if now - t <? PAR_TTL_SECS * NS then Some (mkPar c p t) else None)
      else pending now uri h
  | Taken _ r :: h => if String.eqb uri r then None else pending now uri h
  end.

Lemma par_live_mono t t' e : t <= t' -> par_live t' e = true -> par_live t e = true.
Proof. unfold par_live. intros ? ?. b2p. apply negb_true_iff, Z.leb_gt. lia. Qed.

Lemma after_pending now uri h : ordered now h ->
  live_at par_live now (after h !! uri) = pending now uri h.
Proof.
  revert now. induction h as [|[t u c p|t r] h IH]; intros now; cbn [ordered event_time];
    [done| |]; intros [Ht Ho]; cbn [after pending]; unfold store, take; cbv zeta; cbn [snd].
  - destruct (String.eqb_spec uri (request_uri_of u)) as [->|Hn].
    + rewrite lookup_insert_eq. cbn. unfold par_live. cbn.
      destruct (Z.leb_spec (PAR_TTL_SECS * NS) (now - t)), (Z.ltb_spec (now - t) (PAR_TTL_SECS * NS));
        (done || lia).
    + rewrite lookup_insert_ne by done. unfold par_sweep_expired.
      rewrite sweep_lookup, (live_at_twice _ par_live_mono) by done.
      apply IH. destruct h; [done|]. destruct Ho. split; [lia|done].
  - destruct (String.eqb_spec uri r) as [->|Hn].
    + by rewrite lookup_delete_eq.
    + rewrite lookup_delete_ne by done. unfold par_sweep_expired.
      rewrite sweep_lookup, (live_at_twice _ par_live_mono) by done.
      apply IH. destruct h; [done|]. destruct Ho. split; [lia|done].
Qed.

(** a pushed authorization request is returned by exactly the first [take]
    of its [request_uri], and only within 60 seconds of the push: whatever the
    history of pushes and takes at non-decreasing times, a [take] returns the
    entry of the last event about that URI if it is a push less than 60 s old,
    and nothing otherwise. *)
Theorem par_single_use (now : Z) (uri : string) (h : list event) :
  ordered now h -> fst (take now uri (after h)) = pending now uri h.
Proof.
  intros H. cbn. unfold par_sweep_expired. rewrite sweep_lookup. by apply after_pending.
Qed.

Lemma par_single_use_witness :
  fst (take (30 * NS) (request_uri_of "u") (after [Stored 0 "u" "c" ∅])) = Some (mkPar "c" ∅ 0)
  /\ fst (take (30 * NS) (request_uri_of "u")
          (after [Taken (20 * NS) (request_uri_of "u"); Stored 0 "u" "c" ∅])) = None
  /\ fst (take (60 * NS) (request_uri_of "u") (after [Stored 0 "u" "c" ∅])) = None.
Proof.
  split; [|split].
  - apply (par_single_use (30 * NS) (request_uri_of "u") [Stored 0 "u" "c" ∅]).
    cbn. unfold NS. repeat split; lia.
  - apply (par_single_use (30 * NS) (request_uri_of "u")
      [Taken (20 * NS) (request_uri_of "u"); Stored 0 "u" "c" ∅]).
    cbn. unfold NS. repeat split; lia.
  - apply (par_single_use (60 * NS) (request_uri_of "u") [Stored 0 "u" "c" ∅]).
    cbn. unfold NS. repeat split; lia.
Defined.
End Par.

(** ** Replay guards *)
Module Replay.
Definition replay_live (now expiry : Z) : bool := negb (expiry <=? now).

Lemma replay_live_mono t t' e : t <= t' -> replay_live t' e = true -> replay_live t e = true.
Proof. unfold replay_live. intros ? ?. b2p. apply negb_true_iff, Z.leb_gt. lia. Qed.

(** dpop.py: proofs are remembered for the iat window and a minute. *)
Definition REPLAY_TTL_SECS : Z := 660.
Notation DpopReplayStore := (gmap string Z).

Definition check_and_insert (now : Z) (jti : string) (st : DpopReplayStore)
  : result exn unit * DpopReplayStore :=
  let st := sweep replay_live now st in
  match st !! jti with
  | Some _ => (Err (DpopError "invalid_dpop_proof" "DPoP proof jti has already been used (replay)"), st)
  | None => (Ok tt, <[jti := now + REPLAY_TTL_SECS * NS]> st)
  end.

(** client_assertion.py *)
Definition MAX_JTI_TTL_SECS : Z := 300.
Definition DEFAULT_MAX_ENTRIES : nat := 100000.
Record JtiReplayGuard := mkGuard { g_entries : gmap string Z; g_max_entries : nat }.
Definition new_guard (max_entries : nat) : JtiReplayGuard := mkGuard ∅ (Nat.max 1 max_entries).

Definition NUL : ascii := ascii_of_nat 0.
Definition jti_key (client_id jti : string) : string := client_id +:+ String NUL jti.

(** [ttl] is in nanoseconds. *)
Definition observe (now : Z) (client_id jti : string) (ttl : Z) (g : JtiReplayGuard)
  : result exn bool * JtiReplayGuard :=
  let ttl := Z.min (Z.max ttl 0) (MAX_JTI_TTL_SECS * NS) in
  let m := sweep replay_live now (g_entries g) in
  let g1 := mkGuard m (g_max_entries g) in
  let key := jti_key client_id jti in
  match m !! key with
  | Some _ => (Ok false, g1)
  | None =>
      if (g_max_entries g <=? size m)%nat then (Err JtiGuardFull, g1)
      else (Ok true, mkGuard (<[key := now + ttl]> m) (g_max_entries g))
  end.

(** Both record a key until an expiry; [recorded] is the effect of a history
    of attempts [(time, key, ttl)], newest first, under an admission test that
    may refuse a fresh key. *)
Section history.
Context (admit_fresh : gmap string Z -> bool).
Definition attempt (now : Z) (key : string) (ttl : Z) (m : gmap string Z) : gmap string Z :=
  let m := sweep replay_live now m in
  match m !! key with
  | Some _ => m
  | None => if admit_fresh m then <[key := now + ttl]> m else m
  end.
Definition accepted (now : Z) (key : string) (m : gmap string Z) : bool :=
  let m := sweep replay_live now m in
  match m !! key with Some _ => false | None => admit_fresh m end.
Fixpoint recorded (h : list (Z * string * Z)) : gmap string Z :=
  match h with [] => ∅ | (t, k, ttl) :: h => attempt t k ttl (recorded h) end.
Fixpoint ordered (now : Z) (h : list (Z * string * Z)) : Prop :=
  match h with [] => True | (t, _, _) :: h => t <= now /\ ordered t h end.

Lemma ordered_weaken now now' h : now <= now' -> ordered now h -> ordered now' h.
Proof. destruct h as [|[[t k] ttl] h]; simpl; [done|]. intros ? []. split; [lia|done]. Qed.

(** An accepted key stays recorded until its time to live has passed,
    whatever is attempted in between. *)
Lemma accepted_recorded now h1 t key ttl h2 :
  ordered now (h1 ++ (t, key, ttl) :: h2) -> now < t + ttl ->
  accepted t key (recorded h2) = true ->
  exists e, recorded (h1 ++ (t, key, ttl) :: h2) !! key = Some e /\ now < e.
Proof.
  intros Ho Hn Ha. revert now Hn Ho. induction h1 as [|[[t1 k1] ttl1] h1 IH]; intros now Hn Ho; simpl in *.
  - exists (t + ttl). split; [|done]. unfold attempt. unfold accepted in Ha.
    destruct (sweep replay_live t (recorded h2) !! key) eqn:Hs; [done|].
    rewrite Ha. by rewrite lookup_insert_eq.
  - destruct Ho as [Ht Ho]. destruct (IH now Hn (ordered_weaken _ _ _ Ht Ho)) as (e & He & Hne).
    exists e. split; [|done].
    assert (sweep replay_live t1 (recorded (h1 ++ (t, key, ttl) :: h2)) !! key = Some e) as Hs.
    { rewrite sweep_lookup, He. simpl. unfold replay_live.
      destruct (Z.leb_spec e t1); [lia|done]. }
    unfold attempt. destruct (decide (k1 = key)) as [->|Hk]; [by rewrite Hs|].
    destruct (sweep replay_live t1 _ !! k1); [done|]. destruct (admit_fresh _); [|done].
    by rewrite lookup_insert_ne.
Qed.

Lemma no_second_acceptance now h1 t key ttl h2 :
  ordered now (h1 ++ (t, key, ttl) :: h2) -> now < t + ttl ->
  accepted t key (recorded h2) = true ->
  accepted now key (recorded (h1 ++ (t, key, ttl) :: h2)) = false.
Proof.
  intros Ho Hn Ha. destruct (accepted_recorded _ _ _ _ _ _ Ho Hn Ha) as (e & He & Hne).
  unfold accepted. rewrite sweep_lookup, He. simpl. unfold replay_live.
  by destruct (Z.leb_spec e now); [lia|].
Qed.
End history.

(** The DPoP store after a history of [(time, jti)], newest first. *)
Fixpoint dpop_after (h : list (Z * string)) : DpopReplayStore :=
  match h with [] => ∅ | (t, jti) :: h => snd (check_and_insert t jti (dpop_after h)) end.
Definition dpop_accepts (now : Z) (jti : string) (st : DpopReplayStore) : bool :=
  is_ok (fst (check_and_insert now jti st)).

Definition with_ttl (ttl : Z) (h : list (Z * string)) : list (Z * string * Z) :=
  map (fun tk => (tk.1, tk.2, ttl)) h.
Lemma dpop_recorded h :
  dpop_after h = recorded (fun _ => true) (with_ttl (REPLAY_TTL_SECS * NS) h).
Proof.
  induction h as [|[t k] h IH]; [done|]. simpl. rewrite IH. unfold attempt, check_and_insert.
  by destruct (sweep replay_live t _ !! k).
Qed.
Lemma dpop_accepts_accepted now jti st :
  dpop_accepts now jti st = accepted (fun _ => true) now jti st.
Proof.
  unfold dpop_accepts, check_and_insert, accepted. by destruct (sweep replay_live now st !! jti).
Qed.

Fixpoint times_ordered (now : Z) (h : list (Z * string)) : Prop :=
  match h with [] => True | (t, _) :: h => t <= now /\ times_ordered t h end.
Lemma times_ordered_ttl ttl now h : times_ordered now h -> ordered now (with_ttl ttl h).
Proof.
  revert now. induction h as [|[t k] h IH]; simpl; [done|]. intros now []. split; auto.
Qed.

(** no DPoP proof identifier is accepted twice within 660 seconds, however
    many other proofs are checked in between. *)
Theorem dpop_no_replay (now t : Z) (jti : string) (h1 h2 : list (Z * string)) :
  times_ordered now (h1 ++ (t, jti) :: h2) -> now < t + REPLAY_TTL_SECS * NS ->
  dpop_accepts t jti (dpop_after h2) = true ->
  dpop_accepts now jti (dpop_after (h1 ++ (t, jti) :: h2)) = false.
Proof.
  intros Ho Hn Ha. rewrite dpop_accepts_accepted, dpop_recorded in *.
  unfold with_ttl. rewrite map_app. cbn [map fst snd].
  apply no_second_acceptance; [|done|done].
  apply (times_ordered_ttl (REPLAY_TTL_SECS * NS)) in Ho. unfold with_ttl in Ho.
  by rewrite map_app in Ho.
Qed.

Lemma dpop_no_replay_witness :
  dpop_accepts (659 * NS) "j" (dpop_after [(600 * NS, "k"); (0, "j")]) = false
  /\ dpop_accepts (660 * NS) "j" (dpop_after [(600 * NS, "k"); (0, "j")]) = true.
Proof.
  split; [|reflexivity].
  apply (dpop_no_replay (659 * NS) 0 "j" [(600 * NS, "k")] []);
    [cbn; unfold NS; lia|reflexivity|reflexivity].
Defined.

(** The assertion guard after a history of [(time, client, jti, ttl)]. *)
Definition guard_attempt := (Z * (string * string) * Z)%type.
Fixpoint guard_after (max_entries : nat) (h : list guard_attempt) : JtiReplayGuard :=
  match h with
  | [] => new_guard max_entries
  | (t, (c, j), ttl) :: h => snd (observe t c j ttl (guard_after max_entries h))
  end.
Definition guard_accepts (now : Z) (client_id jti : string) (ttl : Z) (g : JtiReplayGuard) : bool :=
  match fst (observe now client_id jti ttl g) with Ok b => b | Err _ => false end.

Definition clamp_ttl (ttl : Z) : Z := Z.min (Z.max ttl 0) (MAX_JTI_TTL_SECS * NS).
Definition guard_history (h : list guard_attempt) : list (Z * string * Z) :=
  map (fun '(t, (c, j), ttl) => (t, jti_key c j, clamp_ttl ttl)) h.
Definition has_room (n : nat) (m : gmap string Z) : bool := negb (n <=? size m)%nat.

Lemma guard_recorded n h :
  guard_after n h = mkGuard (recorded (has_room (Nat.max 1 n)) (guard_history h)) (Nat.max 1 n).
Proof.
  induction h as [|[[t [c j]] ttl] h IH]; [done|]. simpl. rewrite IH. unfold observe, attempt. simpl.
  destruct (sweep replay_live t _ !! jti_key c j); [done|].
  unfold has_room. by destruct (_ <=? _)%nat.
Qed.
Lemma guard_accepts_accepted now c j ttl g :
  guard_accepts now c j ttl g = accepted (has_room (g_max_entries g)) now (jti_key c j) (g_entries g).
Proof.
  unfold guard_accepts, observe, accepted.
  destruct (sweep replay_live now _ !! jti_key c j); [done|].
  unfold has_room. by destruct (_ <=? _)%nat.
Qed.

(** a client assertion's [(client_id, jti)] is accepted at most once while
    its time to live, clamped to 300 seconds, has not passed, and the guard
    never holds more than its capacity: a fresh assertion that finds it full
    is refused, no live entry is evicted. *)
Theorem jti_guard_no_replay (max_entries : nat) (now t ttl ttl' : Z) (client_id jti : string)
    (h1 h2 : list guard_attempt) :
  ordered now (guard_history (h1 ++ (t, (client_id, jti), ttl) :: h2)) ->
  now < t + clamp_ttl ttl ->
  guard_accepts t client_id jti ttl (guard_after max_entries h2) = true ->
  guard_accepts now client_id jti ttl'
    (guard_after max_entries (h1 ++ (t, (client_id, jti), ttl) :: h2)) = false
  /\ (size (g_entries (guard_after max_entries (h1 ++ (t, (client_id, jti), ttl) :: h2)))
      <= Nat.max 1 max_entries)%nat.
Proof.
  intros Ho Hn Ha. rewrite guard_accepts_accepted, guard_recorded in *. cbn [g_entries g_max_entries] in *.
  split.
  - unfold guard_history in *. rewrite map_app in *. cbn [map] in *.
    by apply no_second_acceptance.
  - clear Ho Hn Ha. generalize (guard_history (h1 ++ (t, (client_id, jti), ttl) :: h2)) as h.
    induction h as [|[[t1 k1] ttl1] h IH]; simpl; [rewrite map_size_empty; lia|].
    unfold attempt. pose proof (sweep_size replay_live t1 (recorded (has_room (1 `max` max_entries)) h)).
    destruct (sweep _ t1 _ !! k1) eqn:Hk; [lia|].
    unfold has_room at 1. destruct (_ <=? size _)%nat eqn:Hs; b2p; simpl; [lia|].
    rewrite map_size_insert_None by done. lia.
Qed.

Lemma jti_guard_no_replay_witness :
  guard_accepts (299 * NS) "c" "j" (600 * NS) (guard_after 2 [(0, ("c", "j"), 600 * NS)]) = false
  /\ guard_accepts (300 * NS) "c" "j" (600 * NS) (guard_after 2 [(0, ("c", "j"), 600 * NS)]) = true.
Proof.
  split; [|reflexivity].
  apply (jti_guard_no_replay 2 (299 * NS) 0 (600 * NS) (600 * NS) "c" "j" [] []);
    [cbn; unfold NS; lia|reflexivity|reflexivity].
Defined.
End Replay.

(** ** ratelimit.py *)
Module FixedWindow.
Record Window := mkWindow { w_start : Z; w_count : Z }.
Record FixedWindowLimiter := mkLimiter {
  max_attempts : Z;
  window_secs : Z;
  windows : gmap string Window
}.

Definition window_live (window_secs now : Z) (w : Window) : bool :=
  negb (window_secs * NS <=? now - w_start w).
Definition sweep_expired (now : Z) (l : FixedWindowLimiter) : gmap string Window :=
  sweep (window_live (window_secs l)) now (windows l).

Definition check (now : Z) (key : string) (l : FixedWindowLimiter)
  : option Z * FixedWindowLimiter :=
  let m := sweep_expired now l in
  let '(window, m) :=
    match m !! key with
    | Some w =>
        if window_secs l * NS <=? now - w_start w
        then let w := mkWindow now 0 in (w, <[key := w]> m) else (w, m)
    | None => let w := mkWindow now 0 in (w, <[key := w]> m)
    end in
  if max_attempts l <=? w_count window then
    let remaining := window_secs l * NS - (now - w_start window) in
    (Some (Z.max 1 (ceil_secs remaining)), mkLimiter (max_attempts l) (window_secs l) m)
  else
    (None, mkLimiter (max_attempts l) (window_secs l)
             (<[key := mkWindow (w_start window) (w_count window + 1)]> m)).

Definition reset (key : string) (l : FixedWindowLimiter) : FixedWindowLimiter :=
  mkLimiter (max_attempts l) (window_secs l) (delete key (windows l)).

(** A history of checks and resets, newest first. *)
Inductive event := Checked (now : Z) (key : string) | Reset (now : Z) (key : string).
Definition event_time (ev : event) : Z := match ev with Checked t _ => t | Reset t _ => t end.
Definition step (ev : event) (l : FixedWindowLimiter) : FixedWindowLimiter :=
  match ev with Checked t k => snd (check t k l) | Reset _ k => reset k l end.
Fixpoint after (h : list event) (l : FixedWindowLimiter) : FixedWindowLimiter :=
  match h with [] => l | ev :: h => step ev (after h l) end.
Fixpoint ordered (now : Z) (h : list event) : Prop :=
  match h with [] => True | ev :: h => event_time ev <= now /\ ordered (event_time ev) h end.

(** The number of checks of [key]; [None] once it has been reset. *)
Fixpoint attempts (key : string) (h : list event) : option Z :=
  match h with
  | [] => Some 0
  | Checked _ k :: h =>
      n ← attempts key h; Some (if String.eqb k key then n + 1 else n)
  | Reset _ k :: h => if String.eqb k key then None else attempts key h
  end.

Lemma window_live_mono W t t' w : t <= t' -> window_live W t' w = true -> window_live W t w = true.
Proof. unfold window_live. intros ? ?. b2p. apply negb_true_iff, Z.leb_gt. lia. Qed.

Lemma window_after_config h l :
  max_attempts (after h l) = max_attempts l /\ window_secs (after h l) = window_secs l.
Proof.
  induction h as [|[t k|t k] h [IH1 IH2]]; simpl; [done| |done].
  unfold check. destruct (sweep_expired t _ !! k); [destruct (_ <=? t - _)|];
    (destruct (_ <=? w_count _); simpl; split; assumption).
Qed.

Lemma attempts_nonneg key h n : attempts key h = Some n -> 0 <= n.
Proof.
  revert n. induction h as [|[t k|t k] h IH]; simpl; intros n.
  - intros [= <-]. lia.
  - destruct (attempts key h) as [m|]; [|done]. simpl. specialize (IH m eq_refl).
    intros [= <-]. destruct (String.eqb k key); lia.
  - destruct (String.eqb k key); [done|apply IH].
Qed.

(** The window a key is in after [n] checks since its window opened. *)
Definition in_window (l : FixedWindowLimiter) (t0 now n : Z) (o : option Window) : Prop :=
  if n =? 0 then o = None
  else exists s, o = Some (mkWindow s (Z.min n (max_attempts l))) /\ t0 <= s <= now.

Section limit.
Context (l : FixedWindowLimiter) (key : string) (t0 : Z).
Context (Hmax : 0 <= max_attempts l).
Context (Hfresh : live_at (window_live (window_secs l)) t0 (windows l !! key) = None).

Lemma check_in_window lim t n o :
  max_attempts lim = max_attempts l -> window_secs lim = window_secs l ->
  t < t0 + window_secs l * NS -> t0 <= t -> 0 <= n ->
  o = live_at (window_live (window_secs l)) t (windows lim !! key) -> in_window l t0 t n o ->
  fst (check t key lim) = None <-> n < max_attempts l.
Proof.
  intros Hm Hw Ht Ht0 Hn -> Hin. unfold check, sweep_expired. rewrite sweep_lookup, Hm, Hw.
  unfold in_window in Hin. destruct (Z.eqb_spec n 0) as [->|Hne].
  - rewrite Hin. simpl. destruct (Z.leb_spec (max_attempts l) 0); simpl; split; (done || lia).
  - destruct Hin as (s & -> & Hs). simpl.
    destruct (Z.leb_spec (window_secs l * NS) (t - s)); [lia|]. simpl.
    destruct (Z.leb_spec (max_attempts l) (Z.min n (max_attempts l))); simpl; split; (done || lia).
Qed.

Lemma check_window_after lim t n :
  max_attempts lim = max_attempts l -> window_secs lim = window_secs l ->
  t < t0 + window_secs l * NS -> t0 <= t -> 0 <= n ->
  in_window l t0 t n (live_at (window_live (window_secs l)) t (windows lim !! key)) ->
  in_window l t0 t (n + 1) (windows (snd (check t key lim)) !! key).
Proof.
  intros Hm Hw Ht Ht0 Hn Hin. unfold check, sweep_expired. rewrite sweep_lookup, Hm, Hw.
  unfold in_window in *. destruct (Z.eqb_spec (n + 1) 0); [lia|].
  destruct (Z.eqb_spec n 0) as [->|Hne].
  - rewrite Hin. simpl. destruct (Z.leb_spec (max_attempts l) 0); simpl;
      rewrite lookup_insert_eq; eexists; (split; [do 2 f_equal; lia|lia]).
  - destruct Hin as (s & Heq & Hs). rewrite Heq. simpl.
    destruct (Z.leb_spec (window_secs l * NS) (t - s)); [lia|]. simpl.
    destruct (Z.leb_spec (max_attempts l) (Z.min n (max_attempts l))); simpl.
    + rewrite sweep_lookup, Heq. exists s. split; [do 2 f_equal; lia|lia].
    + rewrite lookup_insert_eq. exists s. split; [do 2 f_equal; lia|lia].
Qed.

Lemma in_window_later t now n o : t <= now -> now < t0 + window_secs l * NS -> 0 <= n ->
  in_window l t0 t n o -> in_window l t0 now n (live_at (window_live (window_secs l)) now o).
Proof.
  intros Ht Hn H0. unfold in_window. destruct (Z.eqb_spec n 0); [by intros ->|].
  intros (s & -> & Hs). exists s. split; [|lia]. simpl. unfold window_live. simpl.
  destruct (Z.leb_spec (window_secs l * NS) (now - s)); [lia|done].
Qed.

Lemma check_other t k lim : k <> key ->
  windows (snd (check t k lim)) !! key
  = live_at (window_live (window_secs lim)) t (windows lim !! key).
Proof.
  intros Hk. unfold check, sweep_expired. rewrite sweep_lookup.
  destruct (live_at _ t (windows lim !! k)) as [w|]; [destruct (_ <=? t - _)|];
    destruct (_ <=? w_count _); simpl; rewrite ?lookup_insert_ne by done; apply sweep_lookup.
Qed.

Lemma after_in_window seg now n : ordered now seg -> Forall (fun ev => t0 <= event_time ev) seg ->
  t0 <= now -> now < t0 + window_secs l * NS -> attempts key seg = Some n ->
  in_window l t0 now n (live_at (window_live (window_secs l)) now (windows (after seg l) !! key)).
Proof.
  revert now n. induction seg as [|ev seg IH]; intros now n Ho Hall Hn0 Hn Ha.
  - injection Ha as <-. unfold in_window. simpl.
    by rewrite <- (live_at_twice _ (window_live_mono _) t0 now), Hfresh.
  - apply Forall_cons in Hall as [Ht Hall]. destruct Ho as [Hle Ho].
    destruct (window_after_config seg l) as [Hm Hw].
    destruct ev as [t k|t k]; cbn [attempts event_time after step] in *.
    + destruct (attempts key seg) as [m|] eqn:Hm'; [|done]. injection Ha as <-.
      pose proof (attempts_nonneg _ _ _ Hm') as Hm0.
      specialize (IH t m Ho Hall Ht ltac:(lia) eq_refl).
      destruct (String.eqb_spec k key) as [->|Hk].
      * apply in_window_later with t; [done|done|lia|].
        apply check_window_after; (done || lia).
      * rewrite check_other, Hw by done. by apply in_window_later with t.
    + destruct (String.eqb_spec k key) as [->|Hk]; [done|].
      pose proof (attempts_nonneg _ _ _ Ha) as Hm0.
      specialize (IH t n Ho Hall Ht ltac:(lia) Ha).
      unfold reset. simpl. rewrite lookup_delete_ne by done.
      rewrite <- (live_at_twice _ (window_live_mono _) t now) by done.
      by apply in_window_later with t.
Qed.
End limit.

(** from the moment a key has no open window, exactly its first
    [max_attempts] checks in the next [window_secs] are allowed, whatever other
    keys do; only a reset of that key reopens it earlier. *)
Theorem fixed_window_limit (l : FixedWindowLimiter) (key : string) (t0 now n : Z) (seg : list event) :
  0 <= max_attempts l ->
  live_at (window_live (window_secs l)) t0 (windows l !! key) = None ->
  ordered now seg -> Forall (fun ev => t0 <= event_time ev) seg ->
  t0 <= now < t0 + window_secs l * NS -> attempts key seg = Some n ->
  fst (check now key (after seg l)) = None <-> n < max_attempts l.
Proof.
  intros Hmax Hfresh Ho Hall [Hn0 Hn] Ha. destruct (window_after_config seg l) as [Hm Hw].
  pose proof (attempts_nonneg _ _ _ Ha).
  eapply check_in_window; [done..|].
  by apply after_in_window.
Qed.

Lemma fixed_window_limit_witness :
  fst (check (800 * NS) "ip" (after [Checked (2 * NS) "ip"; Checked (1 * NS) "x"; Checked 0 "ip"]
        (mkLimiter 2 900 ∅))) <> None.
Proof.
  intros H. eapply fixed_window_limit with (t0 := 0) (n := 2) in H; try reflexivity;
    cbn in *; unfold NS in *; try lia.
  repeat constructor; cbn; lia.
Defined.
End FixedWindow.

(** ** device_poll.py *)
Module DevicePoll.
Definition ENTRY_TTL_SECS : Z := 24 * 60 * 60.
Definition SLOW_DOWN_STEP_SECS : Z := 5.
Record PollState := mkPoll { last_poll : Z; interval : Z; expiry : Z }.
Notation DevicePollTracker := (gmap string PollState).

Definition poll_live (now : Z) (s : PollState) : bool := negb (expiry s <=? now).

Definition observe (now : Z) (device_code : string) (base_interval : Z) (m : DevicePollTracker)
  : option Z * DevicePollTracker :=
  let m := sweep poll_live now m in
  match m !! device_code with
  | None => (None, <[device_code := mkPoll now base_interval (now + ENTRY_TTL_SECS * NS)]> m)
  | Some st =>
      if now - last_poll st <? interval st * NS then
        let i := interval st + SLOW_DOWN_STEP_SECS in
        (Some i, <[device_code := mkPoll now i (now + ENTRY_TTL_SECS * NS)]> m)
      else (None, <[device_code := mkPoll now (interval st) (now + ENTRY_TTL_SECS * NS)]> m)
  end.

Definition forget (device_code : string) (m : DevicePollTracker) : DevicePollTracker :=
  delete device_code m.

(** Polls [(time, code)], newest first, with the code's base interval. *)
Fixpoint after (base : Z) (h : list (Z * string)) : DevicePollTracker :=
  match h with [] => ∅ | (t, c) :: h => snd (observe t c base (after base h)) end.
Fixpoint ordered (now : Z) (h : list (Z * string)) : Prop :=
  match h with [] => True | (t, _) :: h => t <= now /\ ordered t h end.

(** The last poll of [code] and the interval it must keep, as RFC 8628 defines
    them: five seconds more for every poll that came too soon. *)
Fixpoint required (base : Z) (code : string) (h : list (Z * string)) : option (Z * Z) :=
  match h with
  | [] => None
  | (t, c) :: h =>
      if String.eqb c code then
        match required base code h with
        | Some (last, i) =>
            if ENTRY_TTL_SECS * NS <=? t - last then Some (t, base)
            else if t - last <? i * NS then Some (t, i + SLOW_DOWN_STEP_SECS) else Some (t, i)
        | None => Some (t, base)
        end
      else required base code h
  end.

Definition poll_of (o : option (Z * Z)) : option PollState :=
  '(last, i) ← o; Some (mkPoll last i (last + ENTRY_TTL_SECS * NS)).

Lemma poll_live_mono t t' s : t <= t' -> poll_live t' s = true -> poll_live t s = true.
Proof. unfold poll_live. intros ? ?. b2p. apply negb_true_iff, Z.leb_gt. lia. Qed.

Lemma poll_live_spec t last i :
  poll_live t (mkPoll last i (last + ENTRY_TTL_SECS * NS)) = negb (ENTRY_TTL_SECS * NS <=? t - last).
Proof.
  unfold poll_live. simpl. f_equal.
  destruct (Z.leb_spec (last + ENTRY_TTL_SECS * NS) t), (Z.leb_spec (ENTRY_TTL_SECS * NS) (t - last)); lia.
Qed.

Lemma after_required base code h now : ordered now h ->
  live_at poll_live now (after base h !! code) = live_at poll_live now (poll_of (required base code h)).
Proof.
  revert now. induction h as [|[t c] h IH]; intros now; [done|]. intros [Ht Ho].
  specialize (IH t Ho). cbn [after required]. unfold observe. rewrite sweep_lookup.
  destruct (String.eqb_spec c code) as [->|Hc].
  - rewrite IH. destruct (required base code h) as [[last i]|]; simpl.
    + rewrite poll_live_spec. destruct (ENTRY_TTL_SECS * NS <=? t - last); simpl;
        [by rewrite lookup_insert_eq|].
      destruct (t - last <? i * NS); simpl; by rewrite lookup_insert_eq.
    + by rewrite lookup_insert_eq.
  - assert (forall (o : option PollState) (m : gmap string PollState), m !! code = live_at poll_live t o ->
      live_at poll_live now (m !! code) = live_at poll_live now o) as Htw.
    { intros o m ->. by apply (live_at_twice _ poll_live_mono). }
    rewrite <- (live_at_twice _ poll_live_mono t now (poll_of _)), <- IH by done.
    destruct (live_at poll_live t (after base h !! c)) as [st|];
      [destruct (_ <? _)|]; simpl; rewrite lookup_insert_ne, sweep_lookup by done; done.
Qed.

(** a poll of a device code is answered [slow_down] exactly when it comes
    sooner after the previous poll than the required interval, which starts at
    the base interval and grows by five seconds per early poll, independently
    of other device codes. *)
Theorem device_poll_slow_down (base now : Z) (code : string) (h : list (Z * string)) :
  ordered now h ->
  fst (observe now code base (after base h))
  = match required base code h with
    | Some (last, i) =>
        if (now - last <? ENTRY_TTL_SECS * NS) && (now - last <? i * NS)
        then Some (i + SLOW_DOWN_STEP_SECS) else None
    | None => None
    end.
Proof.
  intros Ho. unfold observe. rewrite sweep_lookup, after_required by done.
  destruct (required base code h) as [[last i]|]; simpl; [|done].
  rewrite poll_live_spec, Z.ltb_antisym.
  destruct (ENTRY_TTL_SECS * NS <=? now - last); simpl; [done|].
  by destruct (now - last <? i * NS).
Qed.

Lemma device_poll_slow_down_witness :
  fst (observe (8 * NS) "d" 5 (after 5 [(7 * NS, "e"); (2 * NS, "d"); (0, "d")])) = Some 15
  /\ fst (observe (12 * NS) "d" 5 (after 5 [(7 * NS, "e"); (2 * NS, "d"); (0, "d")])) = None.
Proof.
  split.
  - apply (device_poll_slow_down 5 (8 * NS) "d" [(7 * NS, "e"); (2 * NS, "d"); (0, "d")]).
    cbn. unfold NS. repeat split; lia.
  - apply (device_poll_slow_down 5 (12 * NS) "d" [(7 * NS, "e"); (2 * NS, "d"); (0, "d")]).
    cbn. unfold NS. repeat split; lia.
Defined.
End DevicePoll.
