(* ===== verification/Limiter.v ===== *)
(** * The token-bucket rate limiter ([services/limiter.py])

    Tokens are a float in the code; here they are exact, counted in units of
    [1 / (window_secs * 10^9)] of a token, so that a nanosecond refills
    [max_tokens] units.  [time.monotonic()] is in nanoseconds, [time.time()] in
    microseconds. *)
From S2P Require Import Prelude PyStr Models TtlStores.
#[local] Open Scope Z_scope.

Record RateLimitResult := mkResult {
  rl_allowed : bool;
  rl_remaining : Z;
  rl_limit : Z;
  rl_reset_at : Z;
  rl_retry_after : option Z
}.
Record Bucket := mkBucket { b_tokens : Z; b_last_seen : Z }.
Record TokenBucketLimiter := mkTokenBucket {
  max_tokens : Z;
  window_secs : Z;
  buckets : gmap string Bucket
}.

Definition new_limiter (max_requests window_secs : Z) : TokenBucketLimiter :=
  mkTokenBucket (Z.max 1 max_requests) (Z.max 1 window_secs) ∅.

(** One token, and a full bucket, in units. *)
Definition token_unit (l : TokenBucketLimiter) : Z := window_secs l * NS.
Definition capacity (l : TokenBucketLimiter) : Z := max_tokens l * token_unit l.

Definition SWEEP_IDLE_WINDOW_MULTIPLE : Z := 2.
Definition bucket_live (l : TokenBucketLimiter) (now : Z) (b : Bucket) : bool :=
  negb (window_secs l * SWEEP_IDLE_WINDOW_MULTIPLE * NS <=? now - b_last_seen b).
Definition sweep_expired (now : Z) (l : TokenBucketLimiter) : gmap string Bucket :=
  sweep (bucket_live l) now (buckets l).

Definition with_buckets (l : TokenBucketLimiter) (m : gmap string Bucket) : TokenBucketLimiter :=
  mkTokenBucket (max_tokens l) (window_secs l) m.

(** The bucket of a key after the refill. *)
Definition refilled (l : TokenBucketLimiter) (now : Z) (b : option Bucket) : Z :=
  match b with
  | None => capacity l
  | Some b =>
      let elapsed := now - b_last_seen b in
      if 0 <? elapsed then Z.min (capacity l) (b_tokens b + elapsed * max_tokens l) else b_tokens b
  end.

Definition ceil_div (a b : Z) : Z := - ((- a) / b).

(** The decision on a bucket holding [tokens] units. *)
Definition decide_bucket (l : TokenBucketLimiter) (tokens reset_at : Z) : RateLimitResult * Z :=
  if token_unit l <=? tokens then
    let tokens := tokens - token_unit l in
    (mkResult true (tokens / token_unit l) (max_tokens l) reset_at None, tokens)
  else
    let retry_after := Z.max 1 (ceil_div (token_unit l - tokens) (max_tokens l * NS)) in
    (mkResult false 0 (max_tokens l) reset_at (Some retry_after), tokens).

Definition check (now wall : Z) (key : string) (l : TokenBucketLimiter)
  : RateLimitResult * TokenBucketLimiter :=
  let m := sweep_expired now l in
  let tokens := refilled l now (m !! key) in
  let reset_at := unix_secs wall + window_secs l in
  let '(res, tokens) := decide_bucket l tokens reset_at in
  (res, with_buckets l (<[key := mkBucket tokens now]> m)).

(** ** Contract *)
Definition limiter_ok (l : TokenBucketLimiter) (now : Z) : Prop :=
  1 <= max_tokens l /\ 1 <= window_secs l
  /\ forall k b, buckets l !! k = Some b -> 0 <= b_tokens b <= capacity l /\ b_last_seen b <= now.

(** The same limiter without the sweep. *)
Definition check_unswept (now wall : Z) (key : string) (l : TokenBucketLimiter)
  : RateLimitResult * TokenBucketLimiter :=
  let tokens := refilled l now (buckets l !! key) in
  let '(res, tokens) := decide_bucket l tokens (unix_secs wall + window_secs l) in
  (res, with_buckets l (<[key := mkBucket tokens now]> (buckets l))).

(** Histories of checks [(monotonic, wall, key)], newest first. *)
Definition request := (Z * Z * string)%type.
Fixpoint after (step : Z -> Z -> string -> TokenBucketLimiter -> RateLimitResult * TokenBucketLimiter)
    (h : list request) (l : TokenBucketLimiter) : TokenBucketLimiter :=
  match h with [] => l | (t, w, k) :: h => snd (step t w k (after step h l)) end.
Fixpoint ordered (now : Z) (h : list request) : Prop :=
  match h with [] => True | (t, _, _) :: h => t <= now /\ ordered t h end.

Lemma decide_config l l' t r :
  max_tokens l' = max_tokens l -> window_secs l' = window_secs l -> decide_bucket l' t r = decide_bucket l t r.
Proof. unfold decide_bucket, token_unit. by intros -> ->. Qed.
Lemma refilled_config l l' now b :
  max_tokens l' = max_tokens l -> window_secs l' = window_secs l -> refilled l' now b = refilled l now b.
Proof. unfold refilled, capacity, token_unit. by intros -> ->. Qed.

Lemma limiter_after_config step h l :
  (forall t w k l, max_tokens (snd (step t w k l)) = max_tokens l
                   /\ window_secs (snd (step t w k l)) = window_secs l) ->
  max_tokens (after step h l) = max_tokens l /\ window_secs (after step h l) = window_secs l.
Proof.
  intros Hs. induction h as [|[[t w] k] h [IH1 IH2]]; simpl; [done|].
  destruct (Hs t w k (after step h l)) as [-> ->]. done.
Qed.
Lemma check_config t w k l :
  max_tokens (snd (check t w k l)) = max_tokens l /\ window_secs (snd (check t w k l)) = window_secs l.
Proof. unfold check. by destruct (decide_bucket _ _ _). Qed.
Lemma check_unswept_config t w k l :
  max_tokens (snd (check_unswept t w k l)) = max_tokens l
  /\ window_secs (snd (check_unswept t w k l)) = window_secs l.
Proof. unfold check_unswept. by destruct (decide_bucket _ _ _). Qed.

(** What the next check of [key] finds, refilled. *)
Definition level (l : TokenBucketLimiter) (now : Z) (key : string) : Z := refilled l now (buckets l !! key).

Section contract.
Context (l : TokenBucketLimiter) (Hm : 1 <= max_tokens l) (Hw : 1 <= window_secs l).

Lemma unit_pos : 0 < token_unit l.
Proof. unfold token_unit, NS. lia. Qed.
Lemma capacity_ge : token_unit l <= capacity l.
Proof. unfold capacity. pose proof unit_pos. nia. Qed.

(** A bucket idle for two windows is full again. *)
Lemma idle_full now b : 0 <= b_tokens b -> bucket_live l now b = false -> refilled l now (Some b) = capacity l.
Proof.
  intros Hb Hl. unfold bucket_live in Hl. b2p. unfold refilled.
  unfold SWEEP_IDLE_WINDOW_MULTIPLE in Hl. pose proof unit_pos as Hu. unfold token_unit, NS in *.
  destruct (Z.ltb_spec 0 (now - b_last_seen b)); [|lia].
  apply Z.min_l. unfold capacity, token_unit, NS. nia.
Qed.

Lemma refilled_range now o :
  (forall b, o = Some b -> 0 <= b_tokens b <= capacity l) -> 0 <= refilled l now o <= capacity l.
Proof.
  intros Ho. pose proof capacity_ge. pose proof unit_pos. destruct o as [b|]; simpl; [|lia].
  specialize (Ho b eq_refl). destruct (Z.ltb_spec 0 (now - b_last_seen b)); [|lia]. nia.
Qed.

Lemma decide_range t r : 0 <= t <= capacity l ->
  0 <= snd (decide_bucket l t r) <= t
  /\ (rl_allowed (fst (decide_bucket l t r)) = true <-> token_unit l <= t)
  /\ snd (decide_bucket l t r)
     = t - (if rl_allowed (fst (decide_bucket l t r)) then token_unit l else 0).
Proof.
  intros Ht. pose proof unit_pos. unfold decide_bucket.
  destruct (Z.leb_spec (token_unit l) t); simpl; repeat split; intros; (done || lia).
Qed.
End contract.

Lemma live_mono l t t' b : t <= t' -> bucket_live l t' b = true -> bucket_live l t b = true.
Proof. unfold bucket_live. intros ? ?. b2p. apply negb_true_iff, Z.leb_gt. lia. Qed.

(** Dropping a dead bucket does not change what a later check finds. *)
Lemma refilled_swept l t t' o : 1 <= max_tokens l -> 1 <= window_secs l -> t <= t' ->
  (forall b, o = Some b -> 0 <= b_tokens b) ->
  refilled l t' (live_at (bucket_live l) t o) = refilled l t' o.
Proof.
  intros Hm Hw Ht Hb. destruct o as [b|]; simpl; [|done].
  destruct (bucket_live l t b) eqn:Hl; simpl; [done|].
  symmetry. apply idle_full; [done|done|by apply Hb|].
  destruct (bucket_live l t' b) eqn:Hl'; [|done]. by rewrite (live_mono l t t' b) in Hl.
Qed.

(** The bucket a check leaves for its key. *)
Definition left_bucket (l : TokenBucketLimiter) (t w : Z) (k : string) : Bucket :=
  mkBucket (snd (decide_bucket l (level l t k) (unix_secs w + window_secs l))) t.

Lemma check_unswept_spec t w k l :
  fst (check_unswept t w k l) = fst (decide_bucket l (level l t k) (unix_secs w + window_secs l))
  /\ buckets (snd (check_unswept t w k l)) = <[k := left_bucket l t w k]> (buckets l).
Proof.
  unfold check_unswept, left_bucket, level.
  by destruct (decide_bucket l (refilled l t (buckets l !! k)) (unix_secs w + window_secs l)).
Qed.

Lemma check_spec t w k l now : limiter_ok l now ->
  fst (check t w k l) = fst (decide_bucket l (level l t k) (unix_secs w + window_secs l))
  /\ buckets (snd (check t w k l)) = <[k := left_bucket l t w k]> (sweep_expired t l).
Proof.
  intros (Hm & Hw & Hb). unfold check, left_bucket, level.
  assert (refilled l t (sweep_expired t l !! k) = refilled l t (buckets l !! k)) as ->.
  { unfold sweep_expired. rewrite sweep_lookup. apply refilled_swept; [done|done|lia|].
    intros b Hk. by apply Hb in Hk as [[? _] _]. }
  by destruct (decide_bucket l (refilled l t (buckets l !! k)) (unix_secs w + window_secs l)).
Qed.

Lemma level_range l now t k : limiter_ok l now -> 0 <= level l t k <= capacity l.
Proof.
  intros (Hm & Hw & Hb). apply refilled_range; [done|done|]. intros b Hk. by apply Hb in Hk as [? _].
Qed.

Lemma left_bucket_range l now t w k : limiter_ok l now ->
  0 <= b_tokens (left_bucket l t w k) <= capacity l.
Proof.
  intros Hl. pose proof (level_range l now t k Hl). destruct Hl as (Hm & Hw & _).
  unfold left_bucket. simpl.
  destruct (decide_range l Hw (level l t k) (unix_secs w + window_secs l)) as [? _]; lia.
Qed.

Lemma check_ok t w k l now : limiter_ok l now -> now <= t -> limiter_ok (snd (check t w k l)) t.
Proof.
  intros Hl Ht. destruct (check_spec t w k l now Hl) as [_ Hbs]. destruct (check_config t w k l) as [Hm' Hw'].
  pose proof (left_bucket_range l now t w k Hl) as Hr.
  destruct Hl as (Hm & Hw & Hb). unfold limiter_ok. rewrite Hbs, Hm', Hw'.
  assert (capacity (snd (check t w k l)) = capacity l) as -> by (unfold capacity, token_unit; by rewrite Hm', Hw').
  split; [done|]. split; [done|]. intros k' b Hk'. destruct (decide (k = k')) as [->|Hn].
  - rewrite lookup_insert_eq in Hk'. injection Hk' as <-. split; [done|simpl; lia].
  - rewrite lookup_insert_ne in Hk' by done. unfold sweep_expired in Hk'. rewrite sweep_lookup in Hk'.
    destruct (buckets l !! k') as [b'|] eqn:Hk; [|done]. simpl in Hk'.
    destruct (bucket_live l t b'); [|done]. injection Hk' as <-. specialize (Hb _ _ Hk). lia.
Qed.

Lemma after_ok h l t0 now : limiter_ok l t0 -> ordered now h ->
  Forall (fun r => t0 <= fst (fst r)) h -> t0 <= now -> limiter_ok (after check h l) now.
Proof.
  revert now. induction h as [|[[t w] k] h IH]; simpl; intros now Hl Ho Hall Hn.
  - destruct Hl as (Hm & Hw & Hb). repeat split; try done; specialize (Hb _ _ H); lia.
  - destruct Ho as [Ht Ho]. apply Forall_cons in Hall as [Ht0 Hall]. simpl in Ht0.
    pose proof (check_ok t w k _ _ (IH t Hl Ho Hall Ht0) ltac:(lia)) as (Hm & Hw & Hb).
    repeat split; try done; specialize (Hb _ _ H); lia.
Qed.

(** Levels after a check, swept or not. *)
Lemma level_after_check t w k l now t' k' : limiter_ok l now -> now <= t -> t <= t' ->
  level (snd (check t w k l)) t' k'
  = if String.eqb k k' then refilled l t' (Some (left_bucket l t w k)) else level l t' k'.
Proof.
  intros Hl Ht Ht'. destruct (check_spec t w k l now Hl) as [_ Hbs].
  destruct (check_config t w k l) as [Hm' Hw'].
  unfold level. rewrite (refilled_config l _ t') by done. rewrite Hbs.
  destruct (String.eqb_spec k k') as [->|Hn]; [by rewrite lookup_insert_eq|].
  rewrite lookup_insert_ne by done. unfold sweep_expired. rewrite sweep_lookup.
  destruct Hl as (Hm & Hw & Hb). apply refilled_swept; try done.
  intros b Hk. by apply Hb in Hk as [[? _] _].
Qed.

Lemma level_after_unswept t w k l t' k' :
  level (snd (check_unswept t w k l)) t' k'
  = if String.eqb k k' then refilled l t' (Some (left_bucket l t w k)) else level l t' k'.
Proof.
  destruct (check_unswept_spec t w k l) as [_ Hbs].
  destruct (check_unswept_config t w k l) as [Hm' Hw'].
  unfold level. rewrite (refilled_config l _ t') by done. rewrite Hbs.
  destruct (String.eqb_spec k k') as [->|Hn]; [by rewrite lookup_insert_eq|by rewrite lookup_insert_ne].
Qed.

(** Two limiters that no later check tells apart. *)
Definition same_levels (l1 l2 : TokenBucketLimiter) (now : Z) : Prop :=
  max_tokens l1 = max_tokens l2 /\ window_secs l1 = window_secs l2
  /\ forall t k, now <= t -> level l1 t k = level l2 t k.

Lemma same_levels_after h l t0 now : limiter_ok l t0 -> ordered now h ->
  Forall (fun r => t0 <= fst (fst r)) h -> t0 <= now ->
  same_levels (after check h l) (after check_unswept h l) now.
Proof.
  revert now. induction h as [|[[t w] k] h IH]; simpl; intros now Hl Ho Hall Hn; [done|].
  destruct Ho as [Ht Ho]. apply Forall_cons in Hall as [Ht0 Hall]. simpl in Ht0.
  destruct (IH t Hl Ho Hall Ht0) as (Hm & Hw & Hlev).
  pose proof (after_ok h l t0 t Hl Ho Hall Ht0) as Hok.
  destruct (check_config t w k (after check h l)) as [Hm1 Hw1].
  destruct (check_unswept_config t w k (after check_unswept h l)) as [Hm2 Hw2].
  split; [congruence|]. split; [congruence|]. intros t' k' Ht'.
  rewrite (level_after_check t w k _ t t' k' Hok) by lia. rewrite level_after_unswept.
  destruct (String.eqb k k'); [|apply Hlev; lia].
  unfold left_bucket. rewrite Hlev, Hw by lia.
  rewrite (decide_config (after check_unswept h l) (after check h l)) by done.
  by apply refilled_config.
Qed.

(** evicting idle buckets is invisible: whatever the history of checks,
    the limiter answers as one that never evicts anything. *)
Theorem limiter_sweep_invisible (l : TokenBucketLimiter) (t0 now wall : Z) (key : string)
    (h : list request) :
  limiter_ok l t0 -> ordered now h -> Forall (fun r => t0 <= fst (fst r)) h -> t0 <= now ->
  fst (check now wall key (after check h l)) = fst (check_unswept now wall key (after check_unswept h l)).
Proof.
  intros Hl Ho Hall Hn. destruct (same_levels_after h l t0 now Hl Ho Hall Hn) as (Hm & Hw & Hlev).
  destruct (check_spec now wall key _ now (after_ok h l t0 now Hl Ho Hall Hn)) as [-> _].
  destruct (check_unswept_spec now wall key (after check_unswept h l)) as [-> _].
  rewrite Hlev, Hw by lia. by rewrite (decide_config (after check_unswept h l)).
Qed.

Definition sample_limiter : TokenBucketLimiter := new_limiter 2 60.
Lemma sample_limiter_ok : limiter_ok sample_limiter 0.
Proof. split; [done|]. split; [done|]. intros k b H. done. Qed.

Lemma limiter_sweep_invisible_witness :
  fst (check (200 * NS) 0 "a" (after check [(1 * NS, 0, "b"); (0, 0, "a")] sample_limiter))
  = fst (check_unswept (200 * NS) 0 "a" (after check_unswept [(1 * NS, 0, "b"); (0, 0, "a")] sample_limiter)).
Proof.
  apply (limiter_sweep_invisible sample_limiter 0); [exact sample_limiter_ok| | |];
    cbn; unfold NS; try lia. repeat constructor; simpl; lia.
Defined.

(** The checks of [key] that a history allowed. *)
Fixpoint granted (key : string) (h : list request) (l : TokenBucketLimiter) : Z :=
  match h with
  | [] => 0
  | (t, w, k) :: h =>
      granted key h l
      + (if String.eqb k key && rl_allowed (fst (check t w k (after check h l))) then 1 else 0)
  end.

Lemma refilled_later l t t' o : 1 <= max_tokens l -> t <= t' ->
  (forall b, o = Some b -> b_last_seen b <= t) ->
  refilled l t' o <= refilled l t o + (t' - t) * max_tokens l.
Proof.
  intros Hm Ht Hb. destruct o as [b|]; simpl; [|nia]. specialize (Hb b eq_refl).
  destruct (Z.ltb_spec 0 (t' - b_last_seen b)), (Z.ltb_spec 0 (t - b_last_seen b)); nia.
Qed.

Lemma granted_level key h l t0 now : limiter_ok l t0 -> ordered now h ->
  Forall (fun r => t0 <= fst (fst r)) h -> t0 <= now ->
  granted key h l * token_unit l + level (after check h l) now key
  <= level l t0 key + (now - t0) * max_tokens l.
Proof.
  revert now. induction h as [|[[t w] k] h IH]; intros now Hl Ho Hall Hn.
  - cbn [granted after]. destruct Hl as (Hm & Hw & Hb).
    pose proof (refilled_later l t0 now (buckets l !! key) Hm Hn) as H. unfold level.
    assert (forall b, buckets l !! key = Some b -> b_last_seen b <= t0) as Hs
      by (intros b Hk; by apply Hb in Hk as [_ ?]). specialize (H Hs). lia.
  - destruct Ho as [Ht Ho]. apply Forall_cons in Hall as [Ht0 Hall]. cbn [fst] in Ht0.
    specialize (IH t Hl Ho Hall Ht0). pose proof (after_ok h l t0 t Hl Ho Hall Ht0) as Hok.
    destruct (limiter_after_config check h l check_config) as [Hm' Hw'].
    assert (1 <= max_tokens l) as Hm by apply Hl. assert (1 <= window_secs l) as Hw by apply Hl.
    cbn [granted after]. rewrite (level_after_check t w k _ t now key Hok) by lia.
    set (L := after check h l) in *.
    assert (token_unit L = token_unit l) as Hu by (unfold token_unit; by rewrite Hw').
    destruct (String.eqb_spec k key) as [->|Hk]; cbn [andb].
    + destruct (check_spec t w key L t Hok) as [-> _].
      pose proof (level_range L t t key Hok) as Hr.
      destruct (decide_range L ltac:(lia) (level L t key) (unix_secs w + window_secs L) Hr)
        as (_ & _ & Heq).
      pose proof (refilled_later L t now (Some (left_bucket L t w key)) ltac:(lia) Ht) as Hlat.
      assert (forall b, Some (left_bucket L t w key) = Some b -> b_last_seen b <= t) as Hs
        by (intros b [= <-]; simpl; lia). specialize (Hlat Hs).
      assert (refilled L t (Some (left_bucket L t w key)) = b_tokens (left_bucket L t w key)) as Href.
      { simpl. rewrite Z.sub_diag. done. }
      rewrite Href in Hlat. unfold left_bucket in Hlat at 2. cbn [b_tokens] in Hlat.
      rewrite Heq, Hu, Hm' in Hlat.
      destruct (rl_allowed _); lia.
    + pose proof (refilled_later L t now (buckets L !! key) ltac:(lia) Ht) as Hlat.
      assert (forall b, buckets L !! key = Some b -> b_last_seen b <= t) as Hs.
      { intros b Hb. destruct Hok as (_ & _ & Hok). by apply Hok in Hb as [_ ?]. }
      specialize (Hlat Hs). rewrite Hm' in Hlat. fold (level L now key) in Hlat. fold (level L t key) in Hlat.
      lia.
Qed.

Lemma granted_bound l t0 now key h :
  limiter_ok l t0 -> ordered now h -> Forall (fun r => t0 <= fst (fst r)) h -> t0 <= now ->
  granted key h l * (window_secs l * NS) <= max_tokens l * (window_secs l * NS + (now - t0)).
Proof.
  intros Hl Ho Hall Hn. pose proof (granted_level key h l t0 now Hl Ho Hall Hn) as Hg.
  pose proof (level_range l t0 t0 key Hl) as H1.
  pose proof (level_range _ now now key (after_ok h l t0 now Hl Ho Hall Hn)) as H2.
  unfold capacity, token_unit in *. lia.
Qed.

(** in any period the limiter allows a key at most its capacity plus what
    the period refills: [max_tokens * (1 + elapsed / window)] checks, counting
    time in nanoseconds. *)
Theorem limiter_rate_bound (l : TokenBucketLimiter) (t0 now : Z) (key : string) (h : list request) :
  limiter_ok l t0 -> ordered now h -> Forall (fun r => t0 <= fst (fst r)) h -> t0 <= now ->
  granted key h l * (window_secs l * NS) <= max_tokens l * (window_secs l * NS + (now - t0)).
Proof. apply granted_bound. Qed.

Lemma limiter_rate_bound_witness :
  granted "a" [(3 * NS, 0, "a"); (2 * NS, 0, "a"); (1 * NS, 0, "a"); (0, 0, "a")] sample_limiter = 2
  /\ granted "a" [(3 * NS, 0, "a"); (2 * NS, 0, "a"); (1 * NS, 0, "a"); (0, 0, "a")] sample_limiter
     * (60 * NS) <= 2 * (60 * NS + (3 * NS - 0)).
Proof.
  split; [reflexivity|].
  apply (limiter_rate_bound sample_limiter 0 (3 * NS) "a"); [exact sample_limiter_ok| | |];
    cbn; unfold NS; try lia. repeat constructor; simpl; lia.
Defined.
