(* ===== verification/Resilience.v ===== *)
(** * Circuit breaker and back-pressure
    ([services/resilience.py], [middleware_ratelimit.ResilienceMiddleware])

    The methods suspend nowhere: [asyncio.Lock] is never contended, since no
    holder awaits, so each is one step.  A request runs in two steps,
    [enter] before the handler and [finish] after it, and other requests may
    run in between; [step] is the relation of the interleavings.
    [time.monotonic()] is in nanoseconds and constant within a step. *)
From S2P Require Import Prelude PyStr Models.
From S2P Require Import TtlStores.
#[local] Open Scope Z_scope.

Inductive CircuitState := CLOSED | OPEN | HALF_OPEN.
#[export] Instance circuit_state_eq : EqDecision CircuitState.
Proof. solve_decision. Defined.

Record CircuitBreaker := mkBreaker {
  failure_threshold : Z;
  success_threshold : Z;
  open_secs : Z;
  half_open_max_probes : Z;
  b_state : CircuitState;
  consecutive_failures : Z;
  consecutive_successes : Z;
  opened_at : option Z;
  probes_in_use : Z;
  total_trips : Z
}.

Definition new_breaker (failures successes secs probes : Z) : CircuitBreaker :=
  mkBreaker (Z.max 1 failures) (Z.max 1 successes) (Z.max 1 secs) (Z.max 1 probes) CLOSED 0 0 None 0 0.

(** The knobs of [b] with a new dynamic state. *)
Definition become (b : CircuitBreaker) (st : CircuitState) (fails succs : Z) (at_ : option Z)
    (probes trips : Z) : CircuitBreaker :=
  mkBreaker (failure_threshold b) (success_threshold b) (open_secs b) (half_open_max_probes b)
    st fails succs at_ probes trips.

(** [state()] *)
Definition elapsed (now : Z) (b : CircuitBreaker) : bool :=
  match opened_at b with Some t => open_secs b * NS <=? now - t | None => false end.
Definition poll (now : Z) (b : CircuitBreaker) : CircuitBreaker :=
  if bool_decide (b_state b = OPEN) && elapsed now b
  then become b HALF_OPEN (consecutive_failures b) 0 (opened_at b) 0 (total_trips b)
  else b.
Definition state (now : Z) (b : CircuitBreaker) : CircuitState * CircuitBreaker :=
  let b := poll now b in (b_state b, b).

Definition open_ (now : Z) (b : CircuitBreaker) : CircuitBreaker :=
  become b OPEN 0 0 (Some now) 0 (total_trips b + 1).
Definition close_ (b : CircuitBreaker) : CircuitBreaker := become b CLOSED 0 0 None 0 (total_trips b).

Definition with_probes (b : CircuitBreaker) (n : Z) : CircuitBreaker :=
  become b (b_state b) (consecutive_failures b) (consecutive_successes b) (opened_at b) n (total_trips b).

Definition allow_request (now : Z) (b : CircuitBreaker) : bool * CircuitBreaker :=
  let '(st, b) := state now b in
  match st with
  | CLOSED => (true, b)
  | OPEN => (false, b)
  | HALF_OPEN =>
      if half_open_max_probes b <=? probes_in_use b then (false, b)
      else (true, with_probes b (probes_in_use b + 1))
  end.

Definition record_success (now : Z) (b : CircuitBreaker) : CircuitBreaker :=
  let '(st, b) := state now b in
  match st with
  | HALF_OPEN =>
      let b := become b HALF_OPEN (consecutive_failures b) (consecutive_successes b + 1) (opened_at b)
                 (Z.max 0 (probes_in_use b - 1)) (total_trips b) in
      if success_threshold b <=? consecutive_successes b then close_ b else b
  | CLOSED => become b CLOSED 0 (consecutive_successes b) (opened_at b) (probes_in_use b) (total_trips b)
  | OPEN => b
  end.

Definition record_failure (now : Z) (b : CircuitBreaker) : CircuitBreaker :=
  let '(st, b) := state now b in
  match st with
  | HALF_OPEN => open_ now (with_probes b (Z.max 0 (probes_in_use b - 1)))
  | CLOSED =>
      let b := become b CLOSED (consecutive_failures b + 1) (consecutive_successes b) (opened_at b)
                 (probes_in_use b) (total_trips b) in
      if failure_threshold b <=? consecutive_failures b then open_ now b else b
  | OPEN => b
  end.

(** ** ConcurrencyLimiter *)
Record ConcurrencyLimiter := mkConcurrency {
  max_concurrent : Z;
  in_flight : Z;
  rejected_total : Z
}.
Definition new_concurrency (max : Z) : ConcurrencyLimiter := mkConcurrency (Z.max 1 max) 0 0.
Definition try_acquire (c : ConcurrencyLimiter) : bool * ConcurrencyLimiter :=
  if max_concurrent c <=? in_flight c
  then (false, mkConcurrency (max_concurrent c) (in_flight c) (rejected_total c + 1))
  else (true, mkConcurrency (max_concurrent c) (in_flight c + 1) (rejected_total c)).
Definition release (c : ConcurrencyLimiter) : ConcurrencyLimiter :=
  if 0 <? in_flight c then mkConcurrency (max_concurrent c) (in_flight c - 1) (rejected_total c) else c.
Definition available_permits (c : ConcurrencyLimiter) : Z := max_concurrent c - in_flight c.

(** ** ResilienceMiddleware *)
Record Middleware := mkMiddleware {
  m_circuit : CircuitBreaker;
  m_concurrency : ConcurrencyLimiter;
  m_last_trips : Z;
  m_trips_metric : Z     (* the counter [circuit_breaker_trips_total] *)
}.

Definition exempt_prefixes : list string := ["/health"; "/ready"; "/metrics"].
Definition is_exempt (path : string) : bool := existsb (fun p => py_startswith p path) exempt_prefixes.

Definition with_circuit (m : Middleware) (b : CircuitBreaker) : Middleware :=
  mkMiddleware b (m_concurrency m) (m_last_trips m) (m_trips_metric m).
Definition with_concurrency (m : Middleware) (c : ConcurrencyLimiter) : Middleware :=
  mkMiddleware (m_circuit m) c (m_last_trips m) (m_trips_metric m).

Definition record_circuit_metrics (now : Z) (m : Middleware) : Middleware :=
  let b := poll now (m_circuit m) in
  let trips := total_trips b in
  if m_last_trips m <? trips
  then mkMiddleware b (m_concurrency m) trips (m_trips_metric m + (trips - m_last_trips m))
  else with_circuit m b.

Inductive admission := CircuitOpen | AtCapacity | Entered (is_probe : bool).

(** Up to [await self.app]. *)
Definition enter (now : Z) (m : Middleware) : admission * Middleware :=
  let '(st, b) := state now (m_circuit m) in
  let m := with_circuit m b in
  if bool_decide (st = OPEN) then (CircuitOpen, record_circuit_metrics now m) else
  let '(ok, c) := try_acquire (m_concurrency m) in
  let m := with_concurrency m c in
  if negb ok then (AtCapacity, m) else
  let '(st, b) := state now (m_circuit m) in
  let m := with_circuit m b in
  if bool_decide (st = HALF_OPEN) then
    let '(allowed, b) := allow_request now (m_circuit m) in
    let m := with_circuit m b in
    if negb allowed
    then (CircuitOpen, record_circuit_metrics now (with_concurrency m (release (m_concurrency m))))
    else (Entered true, m)
  else (Entered false, m).

(** How the handler ends: with the status of its response (500 when it sent
    none), with an [Exception], or with an exception that is none, such as
    the cancellation of the task. *)
Inductive ending := Returned (status : Z) | Crashed | Cancelled.

Definition counted (now : Z) (is_probe : bool) (m : Middleware) (record : Z -> CircuitBreaker -> CircuitBreaker)
  : Middleware :=
  let '(st, b) := state now (m_circuit m) in
  let m := with_circuit m b in
  if bool_decide (st = CLOSED) || is_probe then with_circuit m (record now (m_circuit m)) else m.
Definition released (m : Middleware) : Middleware := with_concurrency m (release (m_concurrency m)).

(** After [await self.app]. *)
Definition finish (now : Z) (is_probe : bool) (e : ending) (m : Middleware) : Middleware :=
  match e with
  | Returned status =>
      record_circuit_metrics now
        (counted now is_probe (released m) (if 500 <=? status then record_failure else record_success))
  | Crashed => released (record_circuit_metrics now (counted now is_probe m record_failure))
  | Cancelled => released m
  end.

(** ** Interleavings *)
(** The middleware and the probe flags of the requests in their handlers. *)
Definition config : Type := Middleware * list bool.
Inductive step (now : Z) : config -> config -> Prop :=
| step_rejected m running m' a :
    enter now m = (a, m') -> (forall p, a <> Entered p) -> step now (m, running) (m', running)
| step_admitted m running m' p :
    enter now m = (Entered p, m') -> step now (m, running) (m', p :: running)
| step_finished m before after p e :
    e <> Cancelled -> step now (m, before ++ p :: after) (finish now p e m, before ++ after).

Inductive reachable (m0 : Middleware) : Z -> config -> Prop :=
| reach_start t : reachable m0 t (m0, [])
| reach_step t now c c' : reachable m0 t c -> t <= now -> step now c c' -> reachable m0 now c'.

Definition start (failures successes secs probes max : Z) : Middleware :=
  mkMiddleware (new_breaker failures successes secs probes) (new_concurrency max) 0 0.

(** ** The invariant *)
Record breaker_ok (b : CircuitBreaker) : Prop := {
  bo_knobs : 1 <= failure_threshold b /\ 1 <= success_threshold b /\ 1 <= open_secs b /\ 1 <= half_open_max_probes b;
  bo_probes : 0 <= probes_in_use b <= half_open_max_probes b;
  bo_closed : b_state b = CLOSED -> 0 <= consecutive_failures b < failure_threshold b
                /\ probes_in_use b = 0 /\ opened_at b = None;
  bo_open : b_state b = OPEN -> probes_in_use b = 0 /\ is_Some (opened_at b);
  bo_half : b_state b = HALF_OPEN -> 0 <= consecutive_successes b < success_threshold b
}.

(** Proves [breaker_ok] of a breaker whose fields are known. *)
Ltac breaker_fields :=
  repeat match goal with H : ?x = ?x -> _ |- _ => specialize (H eq_refl) end; destruct_and?;
  constructor; cbn; intros; split_and?; try done; try lia; eauto.

Section breaker.
Context (now : Z) (b : CircuitBreaker) (Hok : breaker_ok b).

Lemma new_breaker_ok f s o p : breaker_ok (new_breaker f s o p).
Proof. breaker_fields. Qed.
Lemma poll_ok : breaker_ok (poll now b).
Proof.
  destruct Hok as [Hk Hp Hc Ho Hh]. unfold poll. destruct (_ && _); [|done]. breaker_fields.
Qed.
Lemma open_ok : breaker_ok (open_ now b).
Proof. destruct Hok. breaker_fields. Qed.
Lemma close_ok : breaker_ok (close_ b).
Proof. destruct Hok. breaker_fields. Qed.
End breaker.

Lemma allow_ok now b : breaker_ok b -> breaker_ok (snd (allow_request now b)).
Proof.
  intros Hok. unfold allow_request, state. cbv zeta. pose proof (poll_ok now b Hok) as Hp.
  destruct (poll now b) as [ft st os hp s cf cs oa pu tt] eqn:Hb. cbn [b_state] in *.
  destruct Hp as [Hk Hp Hc Ho Hh]. cbn in *.
  destruct s; cbn; [by breaker_fields..|]. unfold half_open_max_probes, probes_in_use.
  destruct (Z.leb_spec hp pu); breaker_fields.
Qed.
Lemma success_ok now b : breaker_ok b -> breaker_ok (record_success now b).
Proof.
  intros Hok. unfold record_success, state. cbv zeta. pose proof (poll_ok now b Hok) as Hp.
  destruct (poll now b) as [ft st os hp s cf cs oa pu tt] eqn:Hb. destruct Hp as [Hk Hp Hc Ho Hh]. cbn in *.
  destruct s; cbn.
  - breaker_fields.
  - breaker_fields.
  - specialize (Hh eq_refl). destruct (Z.leb_spec st (cs + 1)); breaker_fields.
Qed.
Lemma failure_ok now b : breaker_ok b -> breaker_ok (record_failure now b).
Proof.
  intros Hok. unfold record_failure, state. cbv zeta. pose proof (poll_ok now b Hok) as Hp.
  destruct (poll now b) as [ft st os hp s cf cs oa pu tt] eqn:Hb. destruct Hp as [Hk Hp Hc Ho Hh]. cbn in *.
  destruct s; cbn.
  - destruct (Hc eq_refl) as (Hf & Hpu & Ha). destruct (Z.leb_spec ft (cf + 1)); breaker_fields.
  - breaker_fields.
  - breaker_fields.
Qed.

(** No call adds a probe but an admission in the half-open state. *)
Lemma poll_probes now b : 0 <= probes_in_use b -> 0 <= probes_in_use (poll now b) <= probes_in_use b.
Proof. intros Hp. unfold poll. destruct (_ && _); simpl; lia. Qed.
Lemma success_probes now b : breaker_ok b ->
  0 <= probes_in_use (record_success now b) <= Z.max 0 (probes_in_use b - 1).
Proof.
  intros Hok. unfold record_success, state. cbv zeta. pose proof (poll_ok now b Hok) as Hp.
  pose proof (poll_probes now b (proj1 (bo_probes _ Hok))) as Hb'.
  destruct (poll now b) as [ft st os hp s cf cs oa pu tt] eqn:Hb. destruct Hp as [Hk Hp Hc Ho Hh]. cbn in *.
  destruct s; cbn; [destruct (Hc eq_refl) as (? & -> & ?); lia|destruct (Ho eq_refl) as [-> ?]; lia|].
  destruct (_ <=? _); cbn; lia.
Qed.
Lemma failure_probes now b : breaker_ok b ->
  0 <= probes_in_use (record_failure now b) <= Z.max 0 (probes_in_use b - 1).
Proof.
  intros Hok. unfold record_failure, state. cbv zeta. pose proof (poll_ok now b Hok) as Hp.
  pose proof (poll_probes now b (proj1 (bo_probes _ Hok))) as Hb'.
  destruct (poll now b) as [ft st os hp s cf cs oa pu tt] eqn:Hb. destruct Hp as [Hk Hp Hc Ho Hh]. cbn in *.
  destruct s; cbn; [|destruct (Ho eq_refl) as [-> ?]; lia|lia].
  destruct (Hc eq_refl) as (? & -> & ?). destruct (_ <=? _); cbn; lia.
Qed.

(** ** The middleware *)
Definition probe_count (running : list bool) : Z := Z.of_nat (length (List.filter (fun p => p) running)).

Record mw_ok (c : config) : Prop := {
  mo_breaker : breaker_ok (m_circuit c.1);
  mo_probes : probes_in_use (m_circuit c.1) <= probe_count c.2;
  mo_in_flight : in_flight (m_concurrency c.1) = Z.of_nat (length c.2);
  mo_max : in_flight (m_concurrency c.1) <= max_concurrent (m_concurrency c.1)
            /\ 1 <= max_concurrent (m_concurrency c.1);
  mo_trips : m_trips_metric c.1 = m_last_trips c.1 /\ m_last_trips c.1 <= total_trips (m_circuit c.1)
}.

Lemma probe_count_nonneg r : 0 <= probe_count r.
Proof. unfold probe_count. lia. Qed.
Lemma probe_count_cons p r : probe_count (p :: r) = (if p then 1 else 0) + probe_count r.
Proof. unfold probe_count. destruct p; simpl; lia. Qed.
Lemma probe_count_mid a p b : probe_count (a ++ p :: b) = (if p then 1 else 0) + probe_count (a ++ b).
Proof. unfold probe_count. rewrite !List.filter_app, !length_app. destruct p; simpl; lia. Qed.

Lemma poll_trips now b : total_trips (poll now b) = total_trips b.
Proof. unfold poll. by destruct (_ && _). Qed.
Lemma allow_trips now b : total_trips (snd (allow_request now b)) = total_trips b.
Proof.
  unfold allow_request, state. cbv zeta. rewrite <- (poll_trips now b).
  destruct (b_state (poll now b)); [done|done|]. by destruct (_ <=? _).
Qed.
Lemma success_trips now b : total_trips b <= total_trips (record_success now b).
Proof.
  unfold record_success, state. cbv zeta. rewrite <- (poll_trips now b).
  destruct (b_state (poll now b)); cbn; try lia. destruct (_ <=? _); cbn; lia.
Qed.
Lemma failure_trips now b : total_trips b <= total_trips (record_failure now b).
Proof.
  unfold record_failure, state. cbv zeta. rewrite <- (poll_trips now b).
  destruct (b_state (poll now b)); cbn; try lia. destruct (_ <=? _); cbn; lia.
Qed.

Lemma allow_probes now b : breaker_ok b ->
  probes_in_use (snd (allow_request now b)) <= probes_in_use b + (if fst (allow_request now b) then 1 else 0).
Proof.
  intros Hok. pose proof (poll_probes now b (proj1 (bo_probes _ Hok))).
  unfold allow_request, state. cbv zeta.
  destruct (b_state (poll now b)); cbn; [lia|lia|]. destruct (_ <=? _); cbn; lia.
Qed.

(** Reading the state, and the metrics, keep the invariant. *)
Lemma poll_mw_ok now m r : mw_ok (m, r) -> mw_ok (with_circuit m (poll now (m_circuit m)), r).
Proof.
  intros [Hb Hp Hi Hm Ht]. cbn in *. constructor; cbn; try done.
  - by apply poll_ok.
  - pose proof (poll_probes now _ (proj1 (bo_probes _ Hb))). lia.
  - by rewrite poll_trips.
Qed.
Lemma metrics_ok now m r : mw_ok (m, r) -> mw_ok (record_circuit_metrics now m, r).
Proof.
  intros Hok. pose proof (poll_mw_ok now _ _ Hok) as Hp. unfold record_circuit_metrics. cbv zeta.
  destruct (Z.ltb_spec (m_last_trips m) (total_trips (poll now (m_circuit m)))); [|done].
  destruct Hp as [? ? ? ? Ht], Hok as [_ _ _ _ Ht']. constructor; cbn in *; try done. lia.
Qed.
Lemma counted_ok now p m r rec : (forall b, breaker_ok b -> breaker_ok (rec now b)) ->
  (forall b, breaker_ok b -> 0 <= probes_in_use (rec now b) <= Z.max 0 (probes_in_use b - 1)) ->
  (forall b, total_trips b <= total_trips (rec now b)) ->
  breaker_ok (m_circuit m) -> probes_in_use (m_circuit m) <= (if p : bool then 1 else 0) + probe_count r ->
  breaker_ok (m_circuit (counted now p m rec)) /\ probes_in_use (m_circuit (counted now p m rec)) <= probe_count r
  /\ total_trips (m_circuit m) <= total_trips (m_circuit (counted now p m rec))
  /\ m_concurrency (counted now p m rec) = m_concurrency m
  /\ m_last_trips (counted now p m rec) = m_last_trips m /\ m_trips_metric (counted now p m rec) = m_trips_metric m.
Proof.
  intros H1 H2 H3 Hb Hp. pose proof (probe_count_nonneg r).
  pose proof (poll_ok now _ Hb) as Hpb. pose proof (poll_probes now _ (proj1 (bo_probes _ Hb))) as Hpp.
  unfold counted, state. cbv zeta. destruct (bool_decide_reflect (b_state (poll now (m_circuit m)) = CLOSED)) as [Hc|Hc].
  - cbn. split_and! ; auto; [|by rewrite <- (poll_trips now (m_circuit m))].
    specialize (H2 _ Hpb). destruct p; lia.
  - destruct p; cbn.
    + split_and! ; auto; [|by rewrite <- (poll_trips now (m_circuit m))]. specialize (H2 _ Hpb). lia.
    + split_and! ; auto; [lia|by rewrite poll_trips].
Qed.

Lemma enter_ok now m r a m' : mw_ok (m, r) -> enter now m = (a, m') ->
  mw_ok (m', match a with Entered p => p :: r | _ => r end).
Proof.
  intros Hok Ha. apply (poll_mw_ok now) in Hok. unfold enter, state in Ha. cbv zeta in Ha.
  set (m1 := with_circuit m _) in *.
  destruct (bool_decide _); [injection Ha as <- <-; by apply metrics_ok|].
  destruct Hok as [Hb Hp Hi [Hmax Hone] Ht]. cbn [fst snd] in *.
  clearbody m1.
  unfold try_acquire in Ha. destruct (Z.leb_spec (max_concurrent (m_concurrency m1)) (in_flight (m_concurrency m1))).
  { cbn [negb] in Ha. injection Ha as <- <-. by constructor. }
  cbn [negb m_circuit with_concurrency] in Ha.
  pose proof (poll_ok now _ Hb) as Hpb. pose proof (poll_probes now _ (proj1 (bo_probes _ Hb))) as Hpp.
  destruct (bool_decide_reflect (b_state (poll now (m_circuit m1)) = HALF_OPEN)) as [Hh|Hh].
  - cbn [m_circuit with_circuit] in Ha.
    pose proof (allow_ok now _ Hpb) as Hab. pose proof (allow_trips now (poll now (m_circuit m1))) as Hat.
    pose proof (allow_probes now _ Hpb) as Hapr. rewrite poll_trips in Hat.
    destruct (allow_request now (poll now (m_circuit m1))) as [allowed b] eqn:Hal. cbn [fst snd] in *.
    destruct allowed; cbn [negb] in Ha; cbv iota in Hapr; injection Ha as <- <-.
    + constructor; cbn [fst snd m_circuit m_concurrency with_circuit with_concurrency m_last_trips m_trips_metric
        in_flight max_concurrent]; rewrite ?Hat, ?probe_count_cons; cbv iota; try done; cbn [length]; lia.
    + apply metrics_ok. constructor; cbn [fst snd m_circuit m_concurrency with_circuit with_concurrency
        m_last_trips m_trips_metric]; rewrite ?Hat; try done; [lia|..];
        unfold release; cbn [in_flight max_concurrent]; destruct (Z.ltb_spec 0 (in_flight (m_concurrency m1) + 1));
        cbn [in_flight max_concurrent]; lia.
  - injection Ha as <- <-.
    constructor; cbn [fst snd m_circuit m_concurrency with_circuit with_concurrency m_last_trips m_trips_metric
      in_flight max_concurrent]; rewrite ?poll_trips, ?probe_count_cons; cbv iota; try done; cbn [length]; lia.
Qed.

Lemma release_in_flight c n : in_flight c = Z.of_nat (S n) ->
  in_flight (release c) = Z.of_nat n /\ max_concurrent (release c) = max_concurrent c.
Proof. intros Hn. unfold release. destruct (Z.ltb_spec 0 (in_flight c)); cbn; lia. Qed.

Lemma finish_ok now m before after p e : e <> Cancelled -> mw_ok (m, before ++ p :: after) ->
  mw_ok (finish now p e m, before ++ after).
Proof.
  intros He [Hb Hp Hi [Hmax Hone] Ht]. cbn [fst snd] in *. rewrite probe_count_mid in Hp.
  rewrite length_app in Hi. cbn [length] in Hi. rewrite Nat.add_succ_r, <- length_app in Hi.
  destruct (release_in_flight _ _ Hi) as [Hif Hmx].
  assert (forall rec, (forall b, breaker_ok b -> breaker_ok (rec now b)) ->
    (forall b, breaker_ok b -> 0 <= probes_in_use (rec now b) <= Z.max 0 (probes_in_use b - 1)) ->
    (forall b, total_trips b <= total_trips (rec now b)) ->
    mw_ok (record_circuit_metrics now (counted now p (released m) rec), before ++ after)) as Hgo.
  { intros rec H1 H2 H3.
    destruct (counted_ok now p (released m) (before ++ after) rec H1 H2 H3 Hb Hp) as (? & ? & ? & Hcc & Hcl & Hct).
    apply metrics_ok. constructor; cbn [fst snd]; rewrite ?Hcc, ?Hcl, ?Hct; try done; cbn in *; lia. }
  destruct e as [status| |]; [| |done]; unfold finish.
  - destruct (500 <=? status); apply Hgo; eauto using failure_ok, failure_probes, failure_trips,
      success_ok, success_probes, success_trips.
  - assert (released (record_circuit_metrics now (counted now p m record_failure))
            = record_circuit_metrics now (counted now p (released m) record_failure)) as ->.
    { unfold released, record_circuit_metrics, counted, with_concurrency, with_circuit. cbn.
      destruct (_ || _); cbn; by destruct (_ <? _). }
    apply Hgo; eauto using failure_ok, failure_probes, failure_trips.
Qed.

Lemma reachable_ok f s o p max t c : reachable (start f s o p max) t c -> mw_ok c.
Proof.
  induction 1 as [t|t now c c' _ IH _ Hs].
  - constructor; cbn; try done; try lia. apply new_breaker_ok.
  - destruct Hs as [m r m' a Ha Hna|m r m' p' Ha|m before after p' e He].
    + pose proof (enter_ok _ _ _ _ _ IH Ha) as Hok. destruct a; [done|done|]. by destruct (Hna is_probe).
    + exact (enter_ok _ _ _ _ _ IH Ha).
    + by apply finish_ok.
Qed.


(** ** Recovery *)
(** One request, alone: admitted at [t], answered with [status] at [t']. *)
Definition round (o : option Middleware) (r : Z * Z * Z) : option Middleware :=
  let '(t, t', status) := r in
  match o with
  | Some m => match enter t m with
              | (Entered p, m) => Some (finish t' p (Returned status) m)
              | _ => None
              end
  | None => None
  end.

Lemma poll_half now b : b_state b = HALF_OPEN -> poll now b = b.
Proof. intros Hh. unfold poll. by rewrite Hh. Qed.
Lemma record_metrics_circuit now m : m_circuit (record_circuit_metrics now m) = poll now (m_circuit m).
Proof. unfold record_circuit_metrics. cbv zeta. by destruct (_ <? _). Qed.

(** A probe of an idle half-open breaker is admitted; its success counts. *)
Lemma round_half t t' status m : mw_ok (m, []) -> b_state (poll t (m_circuit m)) = HALF_OPEN -> status < 500 ->
  let b := poll t (m_circuit m) in
  exists m', round (Some m) (t, t', status) = Some m' /\ mw_ok (m', [])
  /\ success_threshold (m_circuit m') = success_threshold b
  /\ if success_threshold b <=? consecutive_successes b + 1
     then b_state (m_circuit m') = CLOSED /\ consecutive_failures (m_circuit m') = 0
     else b_state (m_circuit m') = HALF_OPEN /\ consecutive_successes (m_circuit m') = consecutive_successes b + 1.
Proof.
  intros Hok Hh Hst b. pose proof (poll_mw_ok t _ _ Hok) as [Hb Hp Hi [Hm1 Hm2] _]. cbn in Hb, Hp, Hi, Hm1, Hm2. fold b in Hb, Hp.
  assert (enter t m = (Entered true, with_circuit (with_concurrency (with_circuit m b) (snd (try_acquire (m_concurrency m))))
            (with_probes b (probes_in_use b + 1)))) as Ha.
  { unfold enter, state. cbv zeta. fold b. cbn [m_circuit with_circuit m_concurrency]. unfold b in *.
    rewrite Hh. cbn [bool_decide]. rewrite bool_decide_eq_false_2 by done.
    unfold try_acquire. destruct (Z.leb_spec (max_concurrent (m_concurrency m)) (in_flight (m_concurrency m))); [cbn in *; lia|].
    cbn [negb snd m_circuit with_concurrency with_circuit m_concurrency].
    rewrite poll_half, Hh by done. rewrite bool_decide_eq_true_2 by done.
    unfold allow_request, state. cbv zeta. rewrite poll_half, Hh by done.
    destruct (Z.leb_spec (half_open_max_probes (poll t (m_circuit m))) (probes_in_use (poll t (m_circuit m)))); [|done].
    destruct (bo_knobs _ Hb) as (_ & _ & _ & ?). change (probe_count []) with 0 in Hp. lia. }
  pose proof (enter_ok _ _ _ _ _ Hok Ha) as Hok1. cbv iota in Hok1.
  eexists. split; [unfold round; rewrite Ha; reflexivity|].
  split; [by apply (finish_ok t' _ [] [] true (Returned status))|].
  unfold finish. rewrite record_metrics_circuit. destruct (Z.leb_spec 500 status); [lia|].
  unfold counted, state. cbv zeta. cbn [m_circuit released with_concurrency with_circuit].
  rewrite orb_true_r. cbn [m_circuit with_circuit].
  assert (b_state (with_probes b (probes_in_use b + 1)) = HALF_OPEN) as Hh' by done.
  unfold record_success, state. cbv zeta. rewrite !(poll_half t' (with_probes _ _)), Hh' by done.
  cbn [become with_probes success_threshold consecutive_successes].
  destruct (success_threshold b <=? consecutive_successes b + 1); done.
Qed.

(** Further successful probes of an idle half-open breaker close it. *)
Lemma rounds_close rounds m : mw_ok (m, []) -> b_state (m_circuit m) = HALF_OPEN ->
  Forall (fun r : Z * Z * Z => r.2 < 500) rounds ->
  consecutive_successes (m_circuit m) + Z.of_nat (length rounds) = success_threshold (m_circuit m) ->
  exists m', fold_left round rounds (Some m) = Some m' /\ b_state (m_circuit m') = CLOSED.
Proof.
  revert m. induction rounds as [|[[t t'] status] rounds IH]; intros m Hok Hh Hall Hlen.
  { destruct Hok as [Hb _ _ _ _]. pose proof (bo_half _ Hb Hh). cbn in *. lia. }
  inversion_clear Hall as [|? ? Hst Hall']. cbn [length] in Hlen. cbn [snd] in Hst.
  assert (b_state (poll t (m_circuit m)) = HALF_OPEN) as Hph by by rewrite poll_half.
  destruct (round_half t t' status m Hok Hph Hst) as (m' & Hr & Hok' & Hth & Hcase).
  rewrite poll_half in Hth, Hcase by done. cbn [fold_left]. rewrite Hr.
  destruct rounds as [|r rounds].
  - exists m'. split; [done|]. destruct (Z.leb_spec (success_threshold (m_circuit m)) (consecutive_successes (m_circuit m) + 1));
      [by destruct Hcase|cbn in Hlen; lia].
  - destruct (Z.leb_spec (success_threshold (m_circuit m)) (consecutive_successes (m_circuit m) + 1));
      [cbn in Hlen; lia|]. destruct Hcase as [Hs Hc]. apply IH; try done. rewrite Hc, Hth. lia.
Qed.

(** An open breaker recovers: once [open_secs] have passed and no handler is
    running, the next [success_threshold] requests, one after the other, are
    all admitted as probes and close it when none of them fails, whatever
    happened before (no task being cancelled). *)
Theorem breaker_recovers f s o p max now m t0 rounds :
  reachable (start f s o p max) now (m, []) -> b_state (m_circuit m) = OPEN ->
  opened_at (m_circuit m) = Some t0 ->
  Forall (fun r : Z * Z * Z => t0 + open_secs (m_circuit m) * NS <= r.1.1 /\ r.2 < 500) rounds ->
  Z.of_nat (length rounds) = success_threshold (m_circuit m) ->
  exists m', fold_left round rounds (Some m) = Some m' /\ b_state (m_circuit m') = CLOSED.
Proof.
  intros Hr Ho Hat Hall Hlen.
  pose proof (reachable_ok _ _ _ _ _ _ _ Hr) as Hok.
  destruct rounds as [|[[t t'] status] rounds].
  { pose proof (bo_knobs _ (mo_breaker _ Hok)). cbn in *. lia. }
  inversion_clear Hall as [|? ? [Ht Hst] Hall']. cbn [fst snd length] in *.
  assert (poll t (m_circuit m) = become (m_circuit m) HALF_OPEN (consecutive_failures (m_circuit m)) 0
            (opened_at (m_circuit m)) 0 (total_trips (m_circuit m))) as Hpoll.
  { unfold poll, elapsed. rewrite Ho, Hat, bool_decide_eq_true_2 by done.
    destruct (Z.leb_spec (open_secs (m_circuit m) * NS) (t - t0)); [done|lia]. }
  assert (b_state (poll t (m_circuit m)) = HALF_OPEN) as Hph by by rewrite Hpoll.
  destruct (round_half t t' status m Hok Hph Hst) as (m' & Hrd & Hok' & Hth & Hcase).
  rewrite Hpoll in Hth, Hcase. cbn [become success_threshold consecutive_successes] in Hth, Hcase.
  cbn [fold_left]. rewrite Hrd. destruct (Z.leb_spec (success_threshold (m_circuit m)) (0 + 1)).
  - destruct rounds; [|cbn in Hlen; lia]. exists m'. by destruct Hcase.
  - destruct Hcase as [Hs Hc]. apply rounds_close; try done.
    + eapply Forall_impl; [exact Hall'|]. cbn. tauto.
    + rewrite Hc, Hth. lia.
Qed.

(** ** When the breaker trips *)
Definition feed (b : CircuitBreaker) (o : Z * bool) : CircuitBreaker :=
  if snd o then record_success (fst o) b else record_failure (fst o) b.
(** [n] consecutive failures somewhere in the outcomes. *)
Definition failure_run (n : nat) (l : list bool) : Prop := exists a b, l = a ++ repeat false n ++ b.

Lemma failure_run_success n k l : (k < n)%nat ->
  failure_run n (repeat false k ++ true :: l) <-> failure_run n l.
Proof.
  intros Hk. split.
  - revert Hk. induction k as [|k IH]; intros Hk (a & b & Hab).
    + destruct a as [|x a]; [by destruct n; [lia|]|]. injection Hab as _ Hab. by exists a, b.
    + destruct a as [|x a].
      * exfalso. assert (nth (S k) (repeat false (S k) ++ true :: l) false = true) as Hn.
        { rewrite app_nth2 by (rewrite repeat_length; lia). by rewrite repeat_length, Nat.sub_diag. }
        rewrite Hab in Hn. cbn [app] in Hn. rewrite app_nth1 in Hn by (rewrite repeat_length; lia).
        by rewrite nth_repeat in Hn.
      * injection Hab as _ Hab. apply IH; [lia|]. by exists a, b.
  - intros (a & b & ->). exists (repeat false k ++ true :: a), b. by rewrite <- app_assoc.
Qed.
Lemma feed_trips o b : total_trips b <= total_trips (feed b o).
Proof. unfold feed. destruct (snd o); [apply success_trips|apply failure_trips]. Qed.
Lemma feeds_trips os b : total_trips b <= total_trips (fold_left feed os b).
Proof.
  revert b. induction os as [|o os IH]; intros b; [done|]. cbn [fold_left].
  pose proof (feed_trips o b). pose proof (IH (feed b o)). lia.
Qed.
Lemma poll_closed now b : b_state b = CLOSED -> poll now b = b.
Proof. intros Hc. unfold poll. by rewrite Hc. Qed.

Lemma repeat_shift {A} (x : A) k l : repeat x k ++ x :: l = repeat x (S k) ++ l.
Proof. induction k as [|k IH]; [done|]. cbn [repeat app] in *. by rewrite IH. Qed.
Lemma feeds_closed os b n k : b_state b = CLOSED -> failure_threshold b = Z.of_nat n ->
  consecutive_failures b = Z.of_nat k -> (k < n)%nat ->
  total_trips (fold_left feed os b) = total_trips b <-> ~ failure_run n (repeat false k ++ map snd os).
Proof.
  revert b k. induction os as [|[t ok] os IH]; intros b k Hc Hth Hf Hk; cbn [fold_left map snd].
  - split; [|done]. intros _ (x & y & Hxy). apply (f_equal (@length bool)) in Hxy.
    rewrite !length_app, !repeat_length in Hxy. cbn in Hxy. lia.
  - unfold feed at 2. cbn [fst snd]. destruct ok.
    + unfold record_success, state. cbv zeta. rewrite poll_closed, Hc by done.
      rewrite failure_run_success by done. match goal with |- total_trips (fold_left feed os ?b') = _ <-> _ =>
        apply (IH b' 0%nat); cbn; (done || lia) end.
    + unfold record_failure, state. cbv zeta. rewrite poll_closed, Hc by done.
      cbn [become failure_threshold consecutive_failures].
      assert (repeat false k ++ false :: map snd os = repeat false (S k) ++ map snd os) as Hrep.
      { apply repeat_shift. }
      destruct (Z.leb_spec (failure_threshold b) (consecutive_failures b + 1)).
      * split.
        -- intros Ht. match type of Ht with total_trips (fold_left feed os ?b') = _ =>
             pose proof (feeds_trips os b') as Hm end. cbn in Hm. lia.
        -- intros Hn. destruct Hn. exists [], (map snd os). cbn [app]. rewrite Hrep. by replace n with (S k) by lia.
      * rewrite Hrep. match goal with |- total_trips (fold_left feed os ?b') = _ <-> _ =>
          apply (IH b' (S k)); cbn; (done || lia) end.
Qed.

(** A breaker stays closed exactly as long as no [failure_threshold] failures are
    recorded in a row: a success in between forgives the earlier ones,
    whatever the times. *)
Theorem breaker_trips_iff f s o p outcomes :
  total_trips (fold_left feed outcomes (new_breaker f s o p)) = 0
  <-> ~ failure_run (Z.to_nat (Z.max 1 f)) (map snd outcomes).
Proof.
  apply (feeds_closed outcomes (new_breaker f s o p) (Z.to_nat (Z.max 1 f)) 0 eq_refl); cbn; lia.
Qed.

(** ** Cancellation and stale probes *)
(** A breaker of one probe that opened at time 0 for one second. *)
Definition half_open_start : Middleware := start 1 2 1 1 10.
Definition opened : Middleware := finish 0 false (Returned 500) (snd (enter 0 half_open_start)).
(** Its probe, admitted and cancelled. *)
Definition probing : Middleware := snd (enter NS opened).
Definition abandoned : Middleware := finish NS true Cancelled probing.

Lemma enter_full now m : b_state (m_circuit m) = HALF_OPEN ->
  half_open_max_probes (m_circuit m) <= probes_in_use (m_circuit m) ->
  in_flight (m_concurrency m) = 0 -> 0 < max_concurrent (m_concurrency m) ->
  exists m', enter now m = (CircuitOpen, m') /\ m_circuit m' = m_circuit m
  /\ in_flight (m_concurrency m') = 0 /\ max_concurrent (m_concurrency m') = max_concurrent (m_concurrency m).
Proof.
  intros Hh Hp Hi Hm. unfold enter, state. cbv zeta. rewrite poll_half, Hh by done.
  rewrite bool_decide_eq_false_2 by done. unfold try_acquire. cbn [m_concurrency with_circuit]. rewrite Hi.
  destruct (Z.leb_spec (max_concurrent (m_concurrency m)) 0); [lia|].
  cbn [negb m_circuit with_concurrency with_circuit]. rewrite poll_half, Hh by done.
  rewrite bool_decide_eq_true_2 by done. unfold allow_request, state. cbv zeta. rewrite poll_half, Hh by done.
  apply Z.leb_le in Hp. rewrite Hp. cbn [negb]. eexists. split; [reflexivity|].
  unfold record_circuit_metrics. cbn. rewrite poll_half by done. by destruct (_ <? _).
Qed.

(** A probe whose task is cancelled leaks its slot: the finally block releases
    the concurrency permit but nothing records an outcome, so a half-open
    breaker whose only probe was cancelled answers 503 to every later request,
    however many come and however long it waits. *)
Theorem cancelled_probe_stuck (times : list Z) : let m := fold_left (fun m t => snd (enter t m)) times abandoned in
  b_state (m_circuit m) = HALF_OPEN /\ forall now, fst (enter now m) = CircuitOpen.
Proof.
  intros m.
  assert (m_circuit m = m_circuit abandoned /\ in_flight (m_concurrency m) = 0
          /\ max_concurrent (m_concurrency m) = 10) as (Hc & Hi & Hm).
  { unfold m. clear m. induction times as [|t times IH] using rev_ind; [done|].
    rewrite fold_left_app. cbn [fold_left]. destruct IH as (Hc & Hi & Hm).
    destruct (enter_full t (fold_left (fun m t => snd (enter t m)) times abandoned)) as (m' & -> & Hc' & Hi' & Hm');
      rewrite ?Hc, ?Hi, ?Hm; try done. cbn [snd]. by rewrite Hc', Hm', Hc, Hm. }
  split; [by rewrite Hc|]. intros now.
  destruct (enter_full now m) as (m' & -> & _); rewrite ?Hc, ?Hi, ?Hm; done.
Qed.

(** A probe that outlives its half-open period frees a slot of the next one, so
    more probes run at once than [half_open_max_probes] allows. *)
Definition admitted (now : Z) (c : config) : config :=
  match enter now c.1 with (Entered p, m) => (m, p :: c.2) | (_, m) => (m, c.2) end.
Definition ended (now : Z) (n : nat) (status : Z) (c : config) : config :=
  (finish now (nth n c.2 false) (Returned status) c.1, take n c.2 ++ drop (S n) c.2).
Definition stale_run : config :=
  let c0 := ended 0 0 500 (admitted 0 (start 1 3 1 2 10, [])) in          (* trips *)
  let c1 := admitted NS (admitted NS c0) in                               (* probes A, then B *)
  let c2 := ended NS 0 500 c1 in                                          (* B fails *)
  let c3 := admitted (2 * NS) (admitted (2 * NS) c2) in                   (* probes C, D *)
  admitted (2 * NS) (ended (2 * NS) 2 200 c3).                            (* A ends; probe E *)

Lemma reach_admitted m0 t now c : reachable m0 t c -> t <= now -> reachable m0 now (admitted now c).
Proof.
  intros Hr Ht. eapply reach_step; [done|done|]. destruct c as [m r]. unfold admitted. cbn [fst snd].
  destruct (enter now m) as [[| |p] m'] eqn:Ha.
  - by eapply step_rejected.
  - by eapply step_rejected.
  - by eapply step_admitted.
Qed.
Lemma reach_ended m0 t now n status c : reachable m0 t c -> t <= now -> (n < length c.2)%nat ->
  reachable m0 now (ended now n status c).
Proof.
  intros Hr Ht Hn. eapply reach_step; [done|done|]. destruct c as [m r]. unfold ended. cbn [fst snd] in *.
  assert (r = take n r ++ nth n r false :: drop (S n) r) as Hsplit.
  { symmetry. apply take_drop_middle. destruct (lookup_lt_is_Some_2 r n Hn) as [x Hx].
    by rewrite Hx, (nth_lookup_Some _ _ _ _ Hx). }
  rewrite Hsplit at 1. by apply step_finished.
Qed.
Lemma stale_probes_exceed :
  reachable (start 1 3 1 2 10) (2 * NS) stale_run
  /\ b_state (m_circuit stale_run.1) = HALF_OPEN /\ half_open_max_probes (m_circuit stale_run.1) = 2
  /\ probe_count stale_run.2 = 3.
Proof.
  split; [|by vm_compute].
  unfold stale_run. eapply (reach_admitted _ (2 * NS)); [|lia].
  eapply (reach_ended _ (2 * NS)); [|lia|vm_compute; lia].
  eapply (reach_admitted _ (2 * NS)); [|lia]. eapply (reach_admitted _ NS); [|unfold NS; lia].
  eapply (reach_ended _ NS); [|lia|vm_compute; lia].
  eapply (reach_admitted _ NS); [|lia]. eapply (reach_admitted _ 0); [|unfold NS; lia].
  eapply (reach_ended _ 0); [|lia|vm_compute; lia].
  eapply (reach_admitted _ 0); [|lia]. apply reach_start.
Qed.

Lemma breaker_recovers_witness :
  let m := opened in
  let rounds := [(NS, NS, 200); (2 * NS, 3 * NS, 302)] in
  b_state (m_circuit m) = OPEN
  /\ exists m', fold_left round rounds (Some m) = Some m' /\ b_state (m_circuit m') = CLOSED.
Proof.
  intros m rounds. split; [reflexivity|].
  assert (reachable half_open_start 0 (m, [])) as Hr.
  { assert (ended 0 0 500 (admitted 0 (half_open_start, [])) = (m, [])) as <- by (vm_compute; reflexivity).
    apply (reach_ended _ 0); [|lia|vm_compute; lia]. apply (reach_admitted _ 0); [|lia]. apply reach_start. }
  apply (breaker_recovers 1 2 1 1 10 0 m 0 rounds Hr); [reflexivity|reflexivity| |reflexivity].
  repeat constructor; vm_compute; done.
Defined.
