(* ===== verification/Keys.v ===== *)
(** * Signing keys ([keys.py])

    [KeySet] is the list of its keys in insertion order.  RSA key generation
    and PEM parsing are the cryptography library's; the material of a key is
    an opaque byte string here. *)
From S2P Require Import Prelude PyStr PyJson Codec Models.
#[local] Open Scope Z_scope.

Record SigningKey := mkKey {
  k_kid : string;
  k_algorithm : string;
  k_material : string;
  k_is_current : bool;
  k_created_at : Z;
  k_expires_at : option Z
}.

Definition is_active (now : Z) (k : SigningKey) : bool :=
  match k_expires_at k with None => true | Some t => now <? t end.

(** [KeySet._keys] *)
Notation KeySet := (list SigningKey).

Definition add (k : SigningKey) (ks : KeySet) : KeySet := ks ++ [k].

Definition current_for_alg (now : Z) (alg : string) (ks : KeySet) : option SigningKey :=
  List.find (fun k => String.eqb (k_algorithm k) alg && k_is_current k && is_active now k) ks.

Definition find (now : Z) (kid : string) (ks : KeySet) : option SigningKey :=
  List.find (fun k => String.eqb (k_kid k) kid && is_active now k) ks.

Definition active_keys (now : Z) (ks : KeySet) : list SigningKey := List.filter (is_active now) ks.

Definition active_keys_for_alg (now : Z) (alg : string) (ks : KeySet) : list SigningKey :=
  List.filter (fun k => String.eqb (k_algorithm k) alg && is_active now k) ks.

Definition retire (expires_at : Z) (k : SigningKey) : SigningKey :=
  mkKey (k_kid k) (k_algorithm k) (k_material k) false (k_created_at k) (Some expires_at).

Definition rotate (now : Z) (new_key : SigningKey) (grace_secs : Z) (ks : KeySet) : KeySet :=
  add new_key
    (update_where (fun k => String.eqb (k_algorithm k) (k_algorithm new_key) && k_is_current k)
       (retire (plus_secs now grace_secs)) ks).

Definition prune_expired (now : Z) (ks : KeySet) : list string * KeySet :=
  let pruned := map k_kid (List.filter (fun k => negb (is_active now k)) ks) in
  (pruned, match pruned with [] => ks | _ => List.filter (is_active now) ks end).

(** [generate_signing_key], given the fresh key material. *)
Definition generate_signing_key (now : Z) (algorithm kid hs256_material rs256_pem : string)
  : result exn SigningKey :=
  if String.eqb algorithm "HS256" then Ok (mkKey kid algorithm hs256_material true now None)
  else if String.eqb algorithm "RS256" then Ok (mkKey kid algorithm rs256_pem true now None)
  else Err (PyErr ValueError ("Unknown algorithm: " +:+ algorithm)).

(** [_uint_to_b64url]: big-endian without leading zero bytes, at least one. *)
Definition uint_to_b64url (value : N) : string :=
  let length_ := N.max ((N.size value + 7) / 8) 1 in
  b64url_nopad (Sha256.be_bytes (N.to_nat length_) value).

(** [None] and the empty string both mean that no PEM is configured. *)
Definition seed_keyset (now : Z) (jwt_secret : string) (pem id_token_kid : option string) : KeySet :=
  let keyset := add (mkKey "hs256-initial" "HS256" jwt_secret true now None) [] in
  if truthy_o pem
  then add (mkKey (or_else id_token_kid "rs256-initial") "RS256" (default EmptyString pem) true now None)
         keyset
  else keyset.

(** ** Rotation *)

(** A current key has no expiry: seeding, generation and rotation keep it so. *)
Definition current_unexpiring (ks : KeySet) : Prop :=
  Forall (fun k => k_is_current k = true -> k_expires_at k = None) ks.

Lemma seed_unexpiring now secret pem kid : current_unexpiring (seed_keyset now secret pem kid).
Proof. unfold seed_keyset. destruct (truthy_o pem); repeat constructor. Qed.

Lemma rotate_unexpiring now new grace ks :
  k_expires_at new = None -> current_unexpiring ks -> current_unexpiring (rotate now new grace ks).
Proof.
  intros Hnew Hks. unfold current_unexpiring, rotate, add in *. apply Forall_app. split; [|by repeat constructor].
  apply Forall_forall. intros k Hk. apply list_elem_of_In, in_update_where in Hk as (x & Hx & ->).
  destruct (_ && _); [done|]. rewrite Forall_forall in Hks. by apply Hks, list_elem_of_In.
Qed.

Lemma filter_filter_idem {A} (p q : A -> bool) l :
  (forall x, q x = true -> p x = true) -> List.filter q (List.filter p l) = List.filter q l.
Proof.
  intros H. induction l as [|x l IH]; simpl; [done|].
  destruct (p x) eqn:Hp; simpl; destruct (q x) eqn:Hq; rewrite ?IH; try done.
  by rewrite H in Hp.
Qed.
Lemma find_filter {A} (p q : A -> bool) l :
  (forall x, q x = true -> p x = true) -> List.find q (List.filter p l) = List.find q l.
Proof.
  intros H. induction l as [|x l IH]; simpl; [done|].
  destruct (p x) eqn:Hp; simpl; destruct (q x) eqn:Hq; try done. by rewrite H in Hp.
Qed.

Lemma filter_update_none {A} (p q : A -> bool) f l :
  (forall x, p x = true -> q (f x) = false) -> (forall x, p x = false -> q x = false) ->
  List.filter q (update_where p f l) = [].
Proof.
  intros H1 H2. induction l as [|x l IH]; simpl; [done|].
  destruct (p x) eqn:Hp; [by rewrite H1|by rewrite H2].
Qed.

Lemma find_update_other {A} (p q : A -> bool) f l :
  (forall x, p x = true -> q x = false /\ q (f x) = false) ->
  List.find q (update_where p f l) = List.find q l.
Proof.
  intros H. induction l as [|x l IH]; simpl; [done|].
  destruct (p x) eqn:Hp; [|by destruct (q x)]. destruct (H x Hp) as [-> ->]. done.
Qed.

(** after a rotation the new key is the only current key of its algorithm
    and the one used for signing at any later time, and the signing keys of
    the other algorithms are what they were. *)
Theorem rotate_single_current (now now' : Z) (new : SigningKey) (grace_secs : Z) (ks : KeySet) :
  k_is_current new = true -> k_expires_at new = None ->
  List.filter (fun k => String.eqb (k_algorithm k) (k_algorithm new) && k_is_current k)
    (rotate now new grace_secs ks) = [new]
  /\ current_for_alg now' (k_algorithm new) (rotate now new grace_secs ks) = Some new
  /\ (forall alg, alg <> k_algorithm new ->
        current_for_alg now' alg (rotate now new grace_secs ks) = current_for_alg now' alg ks).
Proof.
  intros Hc He. unfold rotate, add.
  set (p := fun k => String.eqb (k_algorithm k) (k_algorithm new) && k_is_current k).
  assert (List.filter p (update_where p (retire (plus_secs now grace_secs)) ks) = []) as Hnil.
  { apply filter_update_none; [|done]. intros x _. unfold p. simpl. apply andb_false_r. }
  split; [|split].
  - rewrite List.filter_app, Hnil. unfold p. simpl. by rewrite String.eqb_refl, Hc.
  - unfold current_for_alg. rewrite find_app_none.
    + simpl. unfold is_active. by rewrite String.eqb_refl, Hc, He.
    + rewrite <- (find_filter p) by (intros x Hx; by apply andb_prop in Hx as [Hx _]).
      by rewrite Hnil.
  - intros alg Halg. unfold current_for_alg.
    assert (String.eqb (k_algorithm new) alg = false) as Hna by (apply String.eqb_neq; congruence).
    transitivity (List.find (fun k => String.eqb (k_algorithm k) alg && k_is_current k && is_active now' k)
      (update_where p (retire (plus_secs now grace_secs)) ks)).
    + destruct (List.find _ (update_where _ _ _)) eqn:Hf; [by apply find_app_some|].
      rewrite find_app_none by done. simpl. by rewrite Hna.
    + apply find_update_other. intros x Hx. unfold p in Hx. b2p. simpl.
      assert (String.eqb (k_algorithm x) alg = false) as -> by (apply String.eqb_neq; congruence).
      done.
Qed.

Definition sample_hs : SigningKey := mkKey "a" "HS256" "s1" true 0 None.
Definition sample_hs2 : SigningKey := mkKey "b" "HS256" "s2" true 10 None.
Definition sample_rs : SigningKey := mkKey "r" "RS256" "pem" true 0 None.

Lemma rotate_single_current_witness :
  current_for_alg (50 * SECOND) "HS256" (rotate 0 sample_hs2 3600 [sample_hs; sample_rs]) = Some sample_hs2
  /\ current_for_alg 5 "RS256" (rotate 0 sample_hs2 3600 [sample_hs; sample_rs]) = Some sample_rs.
Proof.
  split.
  - apply (rotate_single_current 0 (50 * SECOND) sample_hs2 3600 [sample_hs; sample_rs]); reflexivity.
  - destruct (rotate_single_current 0 5 sample_hs2 3600 [sample_hs; sample_rs] eq_refl eq_refl)
      as (_ & _ & H). rewrite H by discriminate. reflexivity.
Defined.

(** a rotated-out key keeps verifying, in place, until the grace period
    ends and never after it; the new key verifies from the start. *)
Theorem rotate_grace (now now' : Z) (new : SigningKey) (grace_secs : Z) (ks : KeySet) :
  current_unexpiring ks -> k_expires_at new = None ->
  map k_material (active_keys_for_alg now' (k_algorithm new) (rotate now new grace_secs ks))
  = map k_material
      (List.filter (fun k => negb (k_is_current k) || (now' <? plus_secs now grace_secs))
         (active_keys_for_alg now' (k_algorithm new) ks)) ++ [k_material new].
Proof.
  unfold current_unexpiring. intros Hks He. unfold rotate, add, active_keys_for_alg. rewrite List.filter_app, map_app. f_equal.
  - induction Hks as [|k ks Hk _ IH]; simpl; [done|].
    destruct (String.eqb (k_algorithm k) (k_algorithm new)) eqn:Ha; simpl; rewrite ?Ha; simpl; [|done].
    destruct (k_is_current k) eqn:Hc; simpl; rewrite ?Ha; simpl.
    + assert (is_active now' k = true) as -> by (unfold is_active; by rewrite Hk).
      simpl. rewrite Hc. simpl.
      change (is_active now' (retire (plus_secs now grace_secs) k)) with (now' <? plus_secs now grace_secs).
      destruct (now' <? plus_secs now grace_secs); simpl; by rewrite IH.
    + destruct (is_active now' k); simpl; rewrite ?Hc; simpl; by rewrite IH.
  - simpl. unfold is_active. by rewrite String.eqb_refl, He.
Qed.

Lemma rotate_grace_witness :
  map k_material (active_keys_for_alg (99 * SECOND) "HS256" (rotate 0 sample_hs2 100 [sample_hs; sample_rs]))
  = ["s1"; "s2"]
  /\ map k_material (active_keys_for_alg (100 * SECOND) "HS256" (rotate 0 sample_hs2 100 [sample_hs; sample_rs]))
  = ["s2"].
Proof.
  split; [pose proof (rotate_grace 0 (99 * SECOND) sample_hs2 100 [sample_hs; sample_rs]) as H
         |pose proof (rotate_grace 0 (100 * SECOND) sample_hs2 100 [sample_hs; sample_rs]) as H];
    (etransitivity; [apply H; [repeat constructor|reflexivity]|reflexivity]).
Defined.

(** physically pruning expired keys is invisible: every later lookup, by
    kid, for signing or for verification, gives what it would have given. *)
Theorem prune_invisible (now now' : Z) (kid alg : string) (ks : KeySet) :
  now <= now' ->
  find now' kid (snd (prune_expired now ks)) = find now' kid ks
  /\ current_for_alg now' alg (snd (prune_expired now ks)) = current_for_alg now' alg ks
  /\ active_keys_for_alg now' alg (snd (prune_expired now ks)) = active_keys_for_alg now' alg ks.
Proof.
  intros Hn.
  assert (forall k, is_active now' k = true -> is_active now k = true) as Hmono.
  { intros k. unfold is_active. destruct (k_expires_at k); [|done]. intros. b2p. apply Z.ltb_lt. lia. }
  unfold prune_expired. simpl. destruct (map _ _); [done|].
  repeat split; [apply find_filter|apply find_filter|apply filter_filter_idem];
    intros x Hx; apply andb_prop in Hx as [_ Hx]; by apply Hmono.
Qed.

Lemma prune_invisible_witness :
  find (200 * SECOND) "b" (snd (prune_expired (150 * SECOND) (rotate 0 sample_hs2 100 [sample_hs])))
  = Some sample_hs2.
Proof.
  destruct (prune_invisible (150 * SECOND) (200 * SECOND) "b" "HS256"
    (rotate 0 sample_hs2 100 [sample_hs])) as (H & _ & _); [unfold SECOND; lia|].
  rewrite H. reflexivity.
Defined.
