(* ===== verification/Jwt.v ===== *)
(** * JWTs and password hashes ([security.py])

    PyJWT, the RSA/EC key parsing of [cryptography] and argon2 are parameters,
    gathered in the class [JwtLib]; every definition that uses them takes an
    instance.  What a proof relies on is a hypothesis of the theorem, or the
    law class [JwtErrors] of TokenErrors.v; [toy_jwt] of ToyJwt.v is a concrete
    instance. *)
From S2P Require Import Prelude PyStr PyJson Codec Models Keys.
From Stdlib Require Import QArith Qround.
#[local] Open Scope Z_scope.

(** The options a call of [jwt.decode] passes. *)
Record decode_options := mkOptions {
  opt_algorithms : list string;
  opt_audience : list string;       (* empty: [verify_aud] is off *)
  opt_issuer : option string;
  opt_require : list string;
  opt_verify_exp : bool;
  opt_verify_iat : bool
}.

(** A verification key: shared secret bytes, or the key object that [from_jwk]
    builds, public or (when the JWK holds private material) private. *)
Inductive jwt_key (K : Type) := SecretKey (s : string) | PublicKey (k : K) | PrivateKey (k : K).
Arguments SecretKey {K} s.
Arguments PublicKey {K} k.
Arguments PrivateKey {K} k.

Class JwtLib := {
  pub_key : Type;
  (** [jwt.encode(payload, key, algorithm, headers)] *)
  jwt_encode : pydict -> string -> string -> pydict -> result exn string;
  (** [jwt.decode(token, options={"verify_signature": False})] *)
  jwt_decode_unverified : string -> result exn pydict;
  (** [jwt.get_unverified_header(token)] *)
  jwt_unverified_header : string -> result exn pydict;
  (** [jwt.decode(token, key, ...)] at a wall-clock time *)
  jwt_decode : Z -> string -> jwt_key pub_key -> decode_options -> result exn pydict;
  (** [load_pem_private_key(pem).public_key()] *)
  rsa_public_key : string -> result exn pub_key;
  (** [RSAAlgorithm.from_jwk], [RSAPSSAlgorithm.from_jwk], [ECAlgorithm.from_jwk] *)
  rsa_from_jwk : pydict -> result exn (jwt_key pub_key);
  ec_from_jwk : pydict -> result exn (jwt_key pub_key);
  (** argon2: [hash] with a salt from the random supply, and [verify]
      ([Ok false] is a [VerifyMismatchError]) *)
  argon2_hash : nat -> string -> string;
  argon2_verify : string -> string -> result exn bool
}.

(** ** security.py *)
Section security.
Context `{JwtLib}.

Definition access_token_typ : string := "at+JWT".

Definition decode_unverified_claims (token : string) : result exn pydict :=
  rcatch (jwt_decode_unverified token) (fun e => if is_jwt_error e then Ok [] else Err e).

Definition half_hash (value : string) : string :=
  b64url_nopad (firstn 16 (bytes_of (sha256 value))).

Definition encode_access_token (claims : Claims) (secret : string) (key : option SigningKey)
  : result exn string :=
  match key with
  | Some key => jwt_encode (to_payload claims) (k_material key) (k_algorithm key)
                  [("typ", JStr access_token_typ); ("kid", JStr (k_kid key))]
  | None => jwt_encode (to_payload claims) secret "HS256" [("typ", JStr access_token_typ)]
  end.

(** The configuration fields [encode_id_token] reads are its arguments. *)
Definition encode_id_token (now : Z) (claims : IdTokenClaims) (secret : string)
    (id_token_alg pem id_token_kid : option string) (keyset : option KeySet) : result exn string :=
  if match id_token_alg with Some a => String.eqb a "RS256" | None => false end then
    match keyset ≫= current_for_alg now "RS256" with
    | Some k => jwt_encode (id_token_dump claims) (k_material k) "RS256" [("kid", JStr (k_kid k))]
    | None =>
        if negb (truthy_o pem)
        then Err (PyErr ValueError "RS256 configured but private key is missing")
        else jwt_encode (id_token_dump claims) (default EmptyString pem) "RS256"
               (if truthy_o id_token_kid then [("kid", JStr (default EmptyString id_token_kid))] else [])
    end
  else jwt_encode (id_token_dump claims) secret "HS256" [].

Definition introspection_jwt_typ : string := "token-introspection+jwt".

Definition encode_introspection_jwt (now : Z) (payload : pydict) (keyset : option KeySet)
    (client : Client) : result exn string :=
  match keyset ≫= current_for_alg now "RS256" with
  | Some k => jwt_encode payload (k_material k) "RS256"
                [("typ", JStr introspection_jwt_typ); ("kid", JStr (k_kid k))]
  | None =>
      if negb (is_public client) && truthy (c_client_secret client)
      then jwt_encode payload (c_client_secret client) "HS256" [("typ", JStr introspection_jwt_typ)]
      else Err (OAuthError "invalid_request"
        (Some "JWT introspection responses require an RS256 signing key or a client secret") 400)
  end.

(** [algorithms=[alg], issuer=issuer, options={"verify_aud": False}] *)
Definition access_token_options (alg issuer : string) : decode_options :=
  mkOptions [alg] [] (Some issuer) [] true true.

(** Tries every active HS256 key; a [PyJWTError] moves on to the next. *)
Fixpoint decode_with_keys (now : Z) (token issuer : string) (ks : list SigningKey)
  : result exn (option pydict) :=
  match ks with
  | [] => Ok None
  | k :: ks =>
      match jwt_decode now token (SecretKey (k_material k)) (access_token_options "HS256" issuer) with
      | Ok p => Ok (Some p)
      | Err e => if is_jwt_error e then decode_with_keys now token issuer ks else Err e
      end
  end.

Definition decode_with_any_active_hs256_key (now : Z) (token issuer : string)
    (keyset : option KeySet) : result exn (option pydict) :=
  match keyset with
  | None => Ok None
  | Some ks => decode_with_keys now token issuer (active_keys_for_alg now "HS256" ks)
  end.

Definition decode_access_token (now : Z) (token secret issuer : string) (keyset : option KeySet)
  : result exn Claims :=
  let? header := jwt_unverified_header token in
  if negb (match obj_get "typ" header with Some (JStr t) => String.eqb t access_token_typ | _ => false end)
  then Err (PyErr PyJWTError "unexpected token typ") else
  let signing_key :=
    match keyset, get_str "kid" header with
    | Some ks, Some kid => if truthy kid then Keys.find now kid ks else None
    | _, _ => None
    end in
  let? payload :=
    match signing_key with
    | Some k =>
        let? verify_key := if String.eqb (k_algorithm k) "RS256"
                           then rmap PublicKey (rsa_public_key (k_material k))
                           else Ok (SecretKey (k_material k)) in
        jwt_decode now token verify_key (access_token_options (k_algorithm k) issuer)
    | None =>
        let? found := decode_with_any_active_hs256_key now token issuer keyset in
        match found with
        | Some p => Ok p
        | None => jwt_decode now token (SecretKey secret) (access_token_options "HS256" issuer)
        end
    end in
  let payload := match obj_get "aud" payload with
                 | Some (JStr a) => obj_set "aud" (jstrs [a]) payload
                 | _ => payload
                 end in
  match claims_of_payload payload with
  | Some c => Ok c
  | None => Err (PyErr ValidationError "Claims")
  end.

Definition verify_password (password phc_hash : string) : result exn bool :=
  argon2_verify phc_hash password.

(** The unverified subject of a client assertion
    ([client_assertion.unverified_assertion_subject]). *)
Definition unverified_assertion_subject (assertion : string) : result exn (option string) :=
  if negb (truthy assertion) then Ok None else
  match jwt_decode_unverified assertion with
  | Ok claims =>
      match get_str "sub" claims with
      | Some s => Ok (if truthy s then Some s else None)
      | None => Ok None
      end
  | Err e => if is_jwt_error e then Ok None else Err e
  end.
End security.

(** ** Numbers out of JSON *)
Inductive pyfloat := FFinite (q : Q) | FNaN | FPosInf | FNegInf.

Definition ten_pow (e : Z) : Q := if 0 <=? e then inject_Z (10 ^ e) else (1 # Z.to_pos (10 ^ (- e)))%Q.

(** The integers whose [float()] raises an [OverflowError]. *)
Definition float_overflows (n : Z) : bool := 2 ^ 1024 - 2 ^ 970 <=? Z.abs n.

(** [float(v)] of an [int], [bool] or [float] (decimal fractions are kept
    exact); [None] for any other type. *)
Definition to_float (j : json) : option (result exn pyfloat) :=
  match j with
  | JInt n => Some (if float_overflows n then Err (PyErr OverflowError "int too large to convert to float")
                    else Ok (FFinite (inject_Z n)))
  | JBool b => Some (Ok (FFinite (if b then 1%Q else 0%Q)))
  | JFloat m e =>
      Some (Ok (if (m =? 0) then FFinite 0%Q
                else if 400 <? e then (if 0 <? m then FPosInf else FNegInf)
                else FFinite (inject_Z m * ten_pow e)%Q))
  | JNonFinite NaN => Some (Ok FNaN)
  | JNonFinite PosInfinity => Some (Ok FPosInf)
  | JNonFinite NegInfinity => Some (Ok FNegInf)
  | _ => None
  end.

(** [time.time()] *)
Definition time_q (now : Z) : Q := (now # 1000000)%Q.

Definition qle (a b : Q) : bool := Qle_bool a b.

(** [-skew <= time.time() - iat <= skew] *)
Definition within_skew (now skew : Z) (iat : pyfloat) : bool :=
  match iat with
  | FFinite q => qle (inject_Z (- skew)) (time_q now - q)%Q && qle (time_q now - q)%Q (inject_Z skew)
  | _ => false
  end.

(** [max(exp - time.time(), 0.0)] in nanoseconds, rounded down.  An infinite
    [exp] gives more than any bound it is compared with; PyJWT has rejected a
    NaN before it gets here. *)
Definition remaining_ns (now : Z) (exp : pyfloat) : Z :=
  match exp with
  | FFinite q => Z.max 0 (Qfloor ((q - time_q now) * inject_Z 1000000000)%Q)
  | FPosInf | FNaN => 2 ^ 64 * 1000000000
  | FNegInf => 0
  end.
