(* ===== verification/SocialBreaker.v ===== *)
(** * The circuit breaker of social login ([services/social.py])

    [asyncio.Lock] is never contended, since no holder awaits, so each method
    is one step.  [time.monotonic()] is in nanoseconds. *)
From S2P Require Import Prelude PyStr Models TtlStores.
#[local] Open Scope Z_scope.

Record SocialCircuitBreaker := mkSocialBreaker {
  sb_open : bool;
  sb_failures : Z;
  sb_opened_at : option Z;
  sb_probe_in_flight : bool
}.
Definition FAILURE_THRESHOLD : Z := 5.
Definition COOLDOWN_SECS : Z := 30.
Definition new_social_breaker : SocialCircuitBreaker := mkSocialBreaker false 0 None false.

Definition cooldown_elapsed (now : Z) (b : SocialCircuitBreaker) : bool :=
  match sb_opened_at b with Some t => COOLDOWN_SECS * NS <=? now - t | None => false end.
Definition sb_allow (now : Z) (b : SocialCircuitBreaker) : bool * SocialCircuitBreaker :=
  if negb (sb_open b) then (true, b) else
  if negb (cooldown_elapsed now b) then (false, b) else
  if sb_probe_in_flight b then (false, b) else
  (true, mkSocialBreaker (sb_open b) (sb_failures b) (sb_opened_at b) true).
Definition sb_record_success (b : SocialCircuitBreaker) : SocialCircuitBreaker := mkSocialBreaker false 0 None false.
Definition sb_record_failure (now : Z) (b : SocialCircuitBreaker) : SocialCircuitBreaker :=
  if sb_open b then mkSocialBreaker true (sb_failures b) (Some now) false else
  let failures := sb_failures b + 1 in
  if FAILURE_THRESHOLD <=? failures then mkSocialBreaker true 0 (Some now) (sb_probe_in_flight b)
  else mkSocialBreaker false failures (sb_opened_at b) (sb_probe_in_flight b).

(** ** What the class promises: three states *)
Inductive phase :=
| Closed (failures : Z)
| Open (since : Z)
| HalfOpen (since : Z).        (* one probe is out *)
Definition spec_allow (now : Z) (p : phase) : bool * phase :=
  match p with
  | Closed n => (true, Closed n)
  | Open t => if COOLDOWN_SECS * NS <=? now - t then (true, HalfOpen t) else (false, Open t)
  | HalfOpen t => (false, HalfOpen t)
  end.
Definition spec_failure (now : Z) (p : phase) : phase :=
  match p with
  | Closed n => if n + 1 <? FAILURE_THRESHOLD then Closed (n + 1) else Open now
  | Open _ | HalfOpen _ => Open now
  end.

(** A call at a time of the clock, and the answers of a run. *)
Inductive sb_call := SbAllow | SbSuccess | SbFailure.
Definition sb_step (now : Z) (c : sb_call) (b : SocialCircuitBreaker) : list bool * SocialCircuitBreaker :=
  match c with
  | SbAllow => let '(r, b) := sb_allow now b in ([r], b)
  | SbSuccess => ([], sb_record_success b)
  | SbFailure => ([], sb_record_failure now b)
  end.
Definition spec_step (now : Z) (c : sb_call) (p : phase) : list bool * phase :=
  match c with
  | SbAllow => let '(r, p) := spec_allow now p in ([r], p)
  | SbSuccess => ([], Closed 0)
  | SbFailure => ([], spec_failure now p)
  end.
Fixpoint run_calls {S} (step : Z -> sb_call -> S -> list bool * S) (calls : list (Z * sb_call)) (s : S)
  : list bool * S :=
  match calls with
  | [] => ([], s)
  | (now, c) :: calls =>
      let '(r, s) := step now c s in let '(rs, s) := run_calls step calls s in (r ++ rs, s)
  end.

(** A breaker in a phase of the contract. *)
Definition in_phase (b : SocialCircuitBreaker) (p : phase) : Prop :=
  match p with
  | Closed n => b = mkSocialBreaker false n None false /\ 0 <= n < FAILURE_THRESHOLD
  | Open t => b = mkSocialBreaker true 0 (Some t) false
  | HalfOpen t => b = mkSocialBreaker true 0 (Some t) true
  end.
Lemma step_refines now c b p : in_phase b p ->
  fst (sb_step now c b) = fst (spec_step now c p) /\ in_phase (snd (sb_step now c b)) (snd (spec_step now c p)).
Proof.
  intros Hp. destruct c.
  - cbn [sb_step spec_step]. unfold sb_allow, cooldown_elapsed. destruct p as [n|t|t]; cbn [in_phase] in Hp.
    + destruct Hp as [-> Hn]. by cbn [sb_open negb spec_allow fst snd in_phase].
    + subst b. cbn -[Z.leb Z.mul]. destruct (Z.leb_spec (COOLDOWN_SECS * NS) (now - t)); by cbn.
    + subst b. cbn -[Z.leb Z.mul]. by destruct (_ <=? _).
  - by split.
  - cbn [sb_step spec_step fst snd]. split; [done|]. unfold sb_record_failure, FAILURE_THRESHOLD.
    destruct p as [n|t|t]; cbn [in_phase] in Hp; [|by subst b|by subst b].
    destruct Hp as [-> Hn]. cbn -[Z.leb Z.ltb Z.add]. unfold FAILURE_THRESHOLD in *.
    destruct (Z.leb_spec 5 (n + 1)), (Z.ltb_spec (n + 1) 5); try lia; [done|]. split; [done|unfold FAILURE_THRESHOLD; lia].
Qed.


(** A probe that is never recorded locks everyone out for good. *)
Lemma leaked_probe times t : let '(rs, p) := run_calls spec_step (map (fun now => (now, SbAllow)) times) (HalfOpen t) in
  Forall (eq false) rs /\ p = HalfOpen t.
Proof.
  induction times as [|now times IH]; [done|]. cbn. destruct (run_calls _ _ _) as [rs p].
  destruct IH as [Hf ->]. split; [by constructor|done].
Qed.
Example breaker_opens_and_recovers :
  fst (run_calls sb_step ([(0, SbFailure); (0, SbFailure); (0, SbFailure); (0, SbFailure); (0, SbAllow); (0, SbFailure); (0, SbAllow);
    (30 * NS, SbAllow); (30 * NS, SbAllow); (31 * NS, SbSuccess); (31 * NS, SbAllow)]) new_social_breaker)
  = [true; false; true; false; true].
Proof. reflexivity. Qed.
