(* ===== verification/App.v ===== *)
(** * Application state and effects ([app.py], [config.py])

    The state that requests share ([app.state]), the configuration they read,
    and the monad the handlers are written in.  [datetime.now], [time.time]
    and [time.monotonic] read the clocks of the state; a handler runs between
    two ticks of them.  [secrets] and [uuid] draw from a supply indexed by the
    number of draws made, so a collision is possible unless a proof assumes
    otherwise, exactly as in the code. *)
From S2P Require Import Prelude PyStr PyJson Codec Models Storage TtlStores Keys Jwt.
From S2P Require Limiter.
From S2P Require Import SocialBreaker.
#[local] Open Scope Z_scope.

(** The fields of [Config] the modelled code reads. *)
Record Config := mkConfig {
  jwt_secret : string;
  issuer : string;
  access_tokens_opaque : bool;
  dynamic_registration_enabled : bool;
  access_token_ttl_secs : Z;
  refresh_token_ttl_secs : Z;
  authorization_code_ttl_secs : Z;
  id_token_private_key_pem : option string;
  id_token_kid : option string;
  id_token_alg : option string;
  rar_types_supported : list string;
  acr_values_supported : list string;
  trust_proxy_headers : bool;
  dpop_nonce_lifetime_secs : Z;
  admin_client_ids : list string;
  admin_emails : list string;
  key_rotation_grace_hours : Z;
  mtls_endpoint_base_url : option string
}.

(** [Config._default_id_token_alg]: RS256 when a PEM is configured, and
    [default_acr], the first supported value. *)
Definition default_id_token_alg (c : Config) : option string :=
  match id_token_alg c with
  | Some a => Some a
  | None => Some (if truthy_o (id_token_private_key_pem c) then "RS256" else "HS256")
  end.
Definition default_acr (c : Config) : option string := head (acr_values_supported c).
(** [_clamp_dpop_nonce_lifetime] *)
Definition clamp_dpop_nonce_lifetime (v : Z) : Z := Z.max 1 v.

(** Random values ([secrets.token_urlsafe(32)], [uuid.uuid4().hex],
    [str(uuid.uuid4())], the index [secrets.choice] draws below a bound), the
    interpreter's recursion limit and [str(v)] of a
    decoded JSON value that is not a string. *)
Class Runtime := {
  token_urlsafe : nat -> string;
  uuid4_hex : nat -> string;
  uuid4_str : nat -> string;
  randbelow : nat -> Z -> Z;
  json_limit : nat;
  py_repr : json -> string
}.

(** [str(v)] and [str(v or ...)] of a decoded JSON value. *)
Definition py_str `{Runtime} (j : json) : string :=
  match j with JStr s => s | _ => py_repr j end.
Definition py_str_or_empty `{Runtime} (o : option json) : string :=
  match o with Some j => if json_truthy j then py_str j else EmptyString | None => EmptyString end.
(** [str(exc)] *)
Definition exn_str (e : exn) : string :=
  match e with
  | OAuthError _ d _ => default EmptyString d
  | DpopError _ d | RarError d | LimitError d | DpopNonceError _ d => d
  | JtiGuardFull => "jti replay guard is at capacity"
  | PyErr _ m => m
  end.

(** An event handed to the bus. *)
Record Event := mkEvent {
  e_type : string;
  e_user_id : option string;
  e_client_id : option string;
  e_severity : string;
  e_metadata : list (string * string)
}.

Record AppState := mkState {
  a_store : Store;
  a_wall : Z;                 (* microseconds *)
  a_mono : Z;                 (* nanoseconds *)
  a_draws : nat;
  a_keyset : KeySet;
  a_invalid_client_limiter : option Limiter.TokenBucketLimiter;
  a_dpop_replay : gmap string Z;
  a_jti_guard : Replay.JtiReplayGuard;
  a_device_poll : gmap string DevicePoll.PollState;
  a_par_store : gmap string Par.ParEntry;
  a_jwks_cache : gmap string (pydict * Z);
  a_dpop_nonce_secret : string;
  a_events : list Event;      (* newest first; published best-effort *)
  a_failed_authentications : Z;
  a_tokens_issued : Z;
  a_codes_issued : Z;
  a_tokens_revoked : Z;
  a_login_limiter : FixedWindow.FixedWindowLimiter;
  a_rate_limiter : Limiter.TokenBucketLimiter;
  a_recent : list json;       (* [RecentEventsStore], newest first *)
  a_social_breakers : gmap string SocialCircuitBreaker
}.

Definition with_store (s : AppState) (st : Store) : AppState :=
  mkState st (a_wall s) (a_mono s) (a_draws s) (a_keyset s) (a_invalid_client_limiter s)
    (a_dpop_replay s) (a_jti_guard s) (a_device_poll s) (a_par_store s) (a_jwks_cache s)
    (a_dpop_nonce_secret s) (a_events s) (a_failed_authentications s) (a_tokens_issued s)
    (a_codes_issued s) (a_tokens_revoked s) (a_login_limiter s) (a_rate_limiter s) (a_recent s) (a_social_breakers s).
Definition with_draws (s : AppState) (n : nat) : AppState :=
  mkState (a_store s) (a_wall s) (a_mono s) n (a_keyset s) (a_invalid_client_limiter s)
    (a_dpop_replay s) (a_jti_guard s) (a_device_poll s) (a_par_store s) (a_jwks_cache s)
    (a_dpop_nonce_secret s) (a_events s) (a_failed_authentications s) (a_tokens_issued s)
    (a_codes_issued s) (a_tokens_revoked s) (a_login_limiter s) (a_rate_limiter s) (a_recent s) (a_social_breakers s).
Definition with_limiter (s : AppState) (l : option Limiter.TokenBucketLimiter) : AppState :=
  mkState (a_store s) (a_wall s) (a_mono s) (a_draws s) (a_keyset s) l
    (a_dpop_replay s) (a_jti_guard s) (a_device_poll s) (a_par_store s) (a_jwks_cache s)
    (a_dpop_nonce_secret s) (a_events s) (a_failed_authentications s) (a_tokens_issued s)
    (a_codes_issued s) (a_tokens_revoked s) (a_login_limiter s) (a_rate_limiter s) (a_recent s) (a_social_breakers s).
Definition with_dpop_replay (s : AppState) (m : gmap string Z) : AppState :=
  mkState (a_store s) (a_wall s) (a_mono s) (a_draws s) (a_keyset s) (a_invalid_client_limiter s)
    m (a_jti_guard s) (a_device_poll s) (a_par_store s) (a_jwks_cache s)
    (a_dpop_nonce_secret s) (a_events s) (a_failed_authentications s) (a_tokens_issued s)
    (a_codes_issued s) (a_tokens_revoked s) (a_login_limiter s) (a_rate_limiter s) (a_recent s) (a_social_breakers s).
Definition with_guard (s : AppState) (g : Replay.JtiReplayGuard) : AppState :=
  mkState (a_store s) (a_wall s) (a_mono s) (a_draws s) (a_keyset s) (a_invalid_client_limiter s)
    (a_dpop_replay s) g (a_device_poll s) (a_par_store s) (a_jwks_cache s)
    (a_dpop_nonce_secret s) (a_events s) (a_failed_authentications s) (a_tokens_issued s)
    (a_codes_issued s) (a_tokens_revoked s) (a_login_limiter s) (a_rate_limiter s) (a_recent s) (a_social_breakers s).
Definition with_device_poll (s : AppState) (m : gmap string DevicePoll.PollState) : AppState :=
  mkState (a_store s) (a_wall s) (a_mono s) (a_draws s) (a_keyset s) (a_invalid_client_limiter s)
    (a_dpop_replay s) (a_jti_guard s) m (a_par_store s) (a_jwks_cache s)
    (a_dpop_nonce_secret s) (a_events s) (a_failed_authentications s) (a_tokens_issued s)
    (a_codes_issued s) (a_tokens_revoked s) (a_login_limiter s) (a_rate_limiter s) (a_recent s) (a_social_breakers s).
Definition with_par_store (s : AppState) (m : gmap string Par.ParEntry) : AppState :=
  mkState (a_store s) (a_wall s) (a_mono s) (a_draws s) (a_keyset s) (a_invalid_client_limiter s)
    (a_dpop_replay s) (a_jti_guard s) (a_device_poll s) m (a_jwks_cache s)
    (a_dpop_nonce_secret s) (a_events s) (a_failed_authentications s) (a_tokens_issued s)
    (a_codes_issued s) (a_tokens_revoked s) (a_login_limiter s) (a_rate_limiter s) (a_recent s) (a_social_breakers s).
Definition with_jwks_cache (s : AppState) (m : gmap string (pydict * Z)) : AppState :=
  mkState (a_store s) (a_wall s) (a_mono s) (a_draws s) (a_keyset s) (a_invalid_client_limiter s)
    (a_dpop_replay s) (a_jti_guard s) (a_device_poll s) (a_par_store s) m
    (a_dpop_nonce_secret s) (a_events s) (a_failed_authentications s) (a_tokens_issued s)
    (a_codes_issued s) (a_tokens_revoked s) (a_login_limiter s) (a_rate_limiter s) (a_recent s) (a_social_breakers s).
Definition with_events (s : AppState) (l : list Event) : AppState :=
  mkState (a_store s) (a_wall s) (a_mono s) (a_draws s) (a_keyset s) (a_invalid_client_limiter s)
    (a_dpop_replay s) (a_jti_guard s) (a_device_poll s) (a_par_store s) (a_jwks_cache s)
    (a_dpop_nonce_secret s) l (a_failed_authentications s) (a_tokens_issued s)
    (a_codes_issued s) (a_tokens_revoked s) (a_login_limiter s) (a_rate_limiter s) (a_recent s) (a_social_breakers s).
Definition with_counters (s : AppState) (failed issued codes revoked : Z) : AppState :=
  mkState (a_store s) (a_wall s) (a_mono s) (a_draws s) (a_keyset s) (a_invalid_client_limiter s)
    (a_dpop_replay s) (a_jti_guard s) (a_device_poll s) (a_par_store s) (a_jwks_cache s)
    (a_dpop_nonce_secret s) (a_events s) failed issued codes revoked (a_login_limiter s) (a_rate_limiter s) (a_recent s) (a_social_breakers s).
Definition with_login_limiter (s : AppState) (l : FixedWindow.FixedWindowLimiter) : AppState :=
  mkState (a_store s) (a_wall s) (a_mono s) (a_draws s) (a_keyset s) (a_invalid_client_limiter s)
    (a_dpop_replay s) (a_jti_guard s) (a_device_poll s) (a_par_store s) (a_jwks_cache s)
    (a_dpop_nonce_secret s) (a_events s) (a_failed_authentications s) (a_tokens_issued s)
    (a_codes_issued s) (a_tokens_revoked s) l (a_rate_limiter s) (a_recent s) (a_social_breakers s).
Definition with_rate_limiter (s : AppState) (l : Limiter.TokenBucketLimiter) : AppState :=
  mkState (a_store s) (a_wall s) (a_mono s) (a_draws s) (a_keyset s) (a_invalid_client_limiter s)
    (a_dpop_replay s) (a_jti_guard s) (a_device_poll s) (a_par_store s) (a_jwks_cache s)
    (a_dpop_nonce_secret s) (a_events s) (a_failed_authentications s) (a_tokens_issued s)
    (a_codes_issued s) (a_tokens_revoked s) (a_login_limiter s) l (a_recent s) (a_social_breakers s).
Definition with_recent (s : AppState) (l : list json) : AppState :=
  mkState (a_store s) (a_wall s) (a_mono s) (a_draws s) (a_keyset s) (a_invalid_client_limiter s)
    (a_dpop_replay s) (a_jti_guard s) (a_device_poll s) (a_par_store s) (a_jwks_cache s)
    (a_dpop_nonce_secret s) (a_events s) (a_failed_authentications s) (a_tokens_issued s)
    (a_codes_issued s) (a_tokens_revoked s) (a_login_limiter s) (a_rate_limiter s) l (a_social_breakers s).
Definition with_social_breakers (s : AppState) (m : gmap string SocialCircuitBreaker) : AppState :=
  mkState (a_store s) (a_wall s) (a_mono s) (a_draws s) (a_keyset s) (a_invalid_client_limiter s)
    (a_dpop_replay s) (a_jti_guard s) (a_device_poll s) (a_par_store s) (a_jwks_cache s)
    (a_dpop_nonce_secret s) (a_events s) (a_failed_authentications s) (a_tokens_issued s)
    (a_codes_issued s) (a_tokens_revoked s) (a_login_limiter s) (a_rate_limiter s) (a_recent s) m.
Definition with_keyset (s : AppState) (ks : KeySet) : AppState :=
  mkState (a_store s) (a_wall s) (a_mono s) (a_draws s) ks (a_invalid_client_limiter s)
    (a_dpop_replay s) (a_jti_guard s) (a_device_poll s) (a_par_store s) (a_jwks_cache s)
    (a_dpop_nonce_secret s) (a_events s) (a_failed_authentications s) (a_tokens_issued s)
    (a_codes_issued s) (a_tokens_revoked s) (a_login_limiter s) (a_rate_limiter s) (a_recent s) (a_social_breakers s).

Notation M := (ST AppState exn).

(** A query, an update and a counted update of the storage, and one that may
    violate a constraint. *)
Definition query {A} (f : Store -> A) : M A := sget (fun s => f (a_store s)).
Definition update (f : Store -> Store) : M unit := smod (fun s => with_store s (f (a_store s))).
Definition update_count (f : Store -> Store * nat) : M nat :=
  fun s => let '(st, n) := f (a_store s) in (Ok n, with_store s st).
Definition insert (f : Store -> result exn Store) : M unit :=
  fun s => match f (a_store s) with Ok st => (Ok tt, with_store s st) | Err e => (Err e, s) end.

Definition draw {A} (f : nat -> A) : M A :=
  fun s => (Ok (f (a_draws s)), with_draws s (S (a_draws s))).

Definition emit_event (type : string) (user_id client_id : option string) (severity : string)
    (metadata : list (string * string)) : M unit :=
  smod (fun s => with_events s (mkEvent type user_id client_id severity metadata :: a_events s)).

Definition count_failed_authentication : M unit :=
  smod (fun s => with_counters s (a_failed_authentications s + 1) (a_tokens_issued s) (a_codes_issued s) (a_tokens_revoked s)).
Definition count_token_issued : M unit :=
  smod (fun s => with_counters s (a_failed_authentications s) (a_tokens_issued s + 1) (a_codes_issued s) (a_tokens_revoked s)).
Definition count_code_issued : M unit :=
  smod (fun s => with_counters s (a_failed_authentications s) (a_tokens_issued s) (a_codes_issued s + 1) (a_tokens_revoked s)).
Definition count_token_revoked : M unit :=
  smod (fun s => with_counters s (a_failed_authentications s) (a_tokens_issued s) (a_codes_issued s) (a_tokens_revoked s + 1)).

(** The parts of a request the handlers read: its form (the last value of a
    repeated field), its headers by lower-case name, and the raw [DPoP]
    header, which is [None] when absent and [Some None] when not UTF-8. *)
Record Request := mkRequest {
  rq_form : gmap string string;
  rq_headers : gmap string string;
  rq_dpop : option (option string)
}.
Definition form_get (k : string) (rq : Request) : option string := rq_form rq !! k.
Definition header_get (k : string) (rq : Request) : option string := rq_headers rq !! k.

(** ** Effects that leave the storage alone *)

(** [quiet m]: whatever [m] does, it does not change the stored rows. *)
Notation quiet m := (forall s, a_store (snd (m s)) = a_store s).

Lemma quiet_reads {A} (m : M A) : reads m -> quiet m.
Proof. intros H s. by rewrite H. Qed.
Lemma quiet_bind {A B} (m : M A) (k : A -> M B) : quiet m -> (forall a, quiet (k a)) -> quiet (sbind m k).
Proof.
  intros Hm Hk s. unfold sbind. specialize (Hm s). destruct (m s) as [[a|e] s1]; simpl in *; [|done].
  by rewrite Hk.
Qed.
Lemma quiet_catch {A} (m : M A) (h : exn -> M A) : quiet m -> (forall e, quiet (h e)) -> quiet (scatch m h).
Proof.
  intros Hm Hk s. unfold scatch. specialize (Hm s). destruct (m s) as [[a|e] s1]; simpl in *; [done|].
  by rewrite Hk.
Qed.
Lemma quiet_emit t u c sv md : quiet (emit_event t u c sv md).
Proof. done. Qed.
Lemma quiet_failed : quiet count_failed_authentication.
Proof. done. Qed.
Lemma quiet_issued : quiet count_token_issued.
Proof. done. Qed.
Lemma quiet_draw {A} (f : nat -> A) : quiet (draw f).
Proof. done. Qed.
Lemma reads_query {A} (f : Store -> A) : reads (query f).
Proof. done. Qed.
#[export] Hint Resolve reads_query quiet_reads quiet_bind quiet_catch quiet_emit quiet_failed
  quiet_issued quiet_draw : oauth.

(** Walks through the branches of a [quiet] goal. *)
Ltac quiet_walk :=
  repeat first
    [ progress intros
    | match goal with
      | |- a_store (snd ((if ?b then _ else _) _)) = _ => destruct b
      | |- a_store (snd ((match ?x with _ => _ end) _)) = _ => destruct x
      end
    | done
    | apply quiet_bind | apply quiet_catch
    | solve [eauto with oauth] ].

(** ** Runs that return *)
(** One bind of a run that returns. *)
Lemma bind_ok {S E A B} (m : ST S E A) (k : A -> ST S E B) s r s' : sbind m k s = (Ok r, s') ->
  exists a s1, m s = (Ok a, s1) /\ k a s1 = (Ok r, s').
Proof. unfold sbind. destruct (m s) as [[a|e] s1]; [|done]. eauto. Qed.

(** [returns P m]: a result of [m] is in [P]. *)
Definition returns {A} (P : A -> Prop) (m : M A) : Prop := forall s a s', m s = (Ok a, s') -> P a.
Lemma returns_ret {A} (P : A -> Prop) a : P a -> returns P (sret a).
Proof. by intros Ha s b s' [= <- _]. Qed.
Lemma returns_bind {A B} (Q : A -> Prop) (P : B -> Prop) (m : M A) (k : A -> M B) :
  returns Q m -> (forall a, Q a -> returns P (k a)) -> returns P (sbind m k).
Proof. intros Hm Hk s b s' Hr. apply bind_ok in Hr as (a & s1 & Ha & Hr). eapply Hk; eauto. Qed.
