(* ===== verification/PyDumps.v ===== *)
(** * [json.dumps] of decoded JSON values

    Strings are escaped to ASCII; floats print as their [repr], a parameter. *)
From S2P Require Import Prelude PyStr PyJson Codec Models App.
#[local] Open Scope Z_scope.

(** ** json.dumps(v, sort_keys=True, separators=(",", ":")) *)

Definition hex_digit (n : N) : ascii := char_at (N.to_nat n) "0123456789abcdef".
(** [bytes.hex()] *)
Definition hex_byte (n : N) : string := String (hex_digit (N.shiftr n 4)) (String (hex_digit (N.land n 15)) EmptyString).
Definition hex_text (s : string) : string := fold_right (fun n acc => hex_byte n +:+ acc) EmptyString (bytes_of s).
Definition u_escape (n : N) : string :=
  "\u" +:+ string_of (map (fun k => N_of_ascii (hex_digit (N.land (N.shiftr n k) 15))) [12; 8; 4; 0]%N).

(** A character of at least 128 as one escape or a surrogate pair. *)
Definition escape_code_point (n : N) : string :=
  if (n <? 65536)%N then u_escape n
  else let m := (n - 65536)%N in
       u_escape (55296 + N.shiftr m 10)%N +:+ u_escape (56320 + N.land m 1023)%N.

(** [acc] is the code point read so far, [k] continuation bytes are missing. *)
Fixpoint escape_from (acc : N) (k : nat) (s : string) : string :=
  match s with
  | EmptyString => EmptyString
  | String c s' =>
      let b := N_of_ascii c in
      match k with
      | S k' =>
          let acc := (acc * 64 + N.land b 63)%N in
          match k' with
          | O => escape_code_point acc +:+ escape_from 0 0 s'
          | _ => escape_from acc k' s'
          end
      | O =>
          if (b <? 128)%N then
            (if (b =? 34)%N then String "\" (String dquote EmptyString)
             else if (b =? 92)%N then "\\"
             else if (b =? 8)%N then "\b" else if (b =? 9)%N then "\t"
             else if (b =? 10)%N then "\n" else if (b =? 12)%N then "\f"
             else if (b =? 13)%N then "\r"
             else if ((b <? 32) || (b =? 127))%N then u_escape b
             else String c EmptyString) +:+ escape_from 0 0 s'
          else if (b <? 224)%N then escape_from (N.land b 31) 1 s'
          else if (b <? 240)%N then escape_from (N.land b 15) 2 s'
          else escape_from (N.land b 7) 3 s'
      end
  end.
Definition dump_str (s : string) : string :=
  String dquote (escape_from 0 0 s +:+ String dquote EmptyString).

Fixpoint insert_member (k v : string) (l : list (string * string)) : list (string * string) :=
  match l with
  | [] => [(k, v)]
  | (k', v') :: r => if String.leb k k' then (k, v) :: l else (k', v') :: insert_member k v r
  end.


Section dumps.
Context `{Runtime}.
Fixpoint json_dumps (j : json) : string :=
  match j with
  | JNull => "null"
  | JBool b => if b then "true" else "false"
  | JInt n => str_of_Z n
  | JFloat _ _ => py_repr j
  | JNonFinite NaN => "NaN"
  | JNonFinite PosInfinity => "Infinity"
  | JNonFinite NegInfinity => "-Infinity"
  | JStr s => dump_str s
  | JList l => "[" +:+ join "," (map json_dumps l) +:+ "]"
  | JObj m =>
      let members := fold_right (fun kv acc => insert_member (fst kv) (json_dumps (snd kv)) acc) [] m in
      "{" +:+ join "," (map (fun kv => dump_str (fst kv) +:+ ":" +:+ snd kv) members) +:+ "}"
  end.

(** ** json.dumps(v) *)
Fixpoint py_dumps (j : json) : string :=
  match j with
  | JNull => "null"
  | JBool b => if b then "true" else "false"
  | JInt n => str_of_Z n
  | JFloat _ _ => py_repr j
  | JNonFinite NaN => "NaN"
  | JNonFinite PosInfinity => "Infinity"
  | JNonFinite NegInfinity => "-Infinity"
  | JStr s => dump_str s
  | JList l => "[" +:+ join ", " (map py_dumps l) +:+ "]"
  | JObj m => "{" +:+ join ", " (map (fun kv => dump_str (fst kv) +:+ ": " +:+ py_dumps (snd kv)) m) +:+ "}"
  end.
End dumps.

(** ** Round trip of strings

    [text cps]: the string of the code points [cps]; no surrogates. *)
Definition scalar (n : N) : Prop := (n < 55296 \/ 57344 <= n < 1114112)%N.
Definition text (cps : list N) : string := fold_right (fun n s => utf8_encode n +:+ s) EmptyString cps.

Definition below (k : nat) : list N := map N.of_nat (seq 0 k).
Lemma In_below (k : nat) n : (n < N.of_nat k)%N -> In n (below k).
Proof. intros Hn. apply in_map_iff. exists (N.to_nat n). split; [lia|]. apply in_seq. lia. Qed.
Lemma by_cases (k : nat) (p : N -> bool) n : forallb p (below k) = true -> (n < N.of_nat k)%N -> p n = true.
Proof. intros Hp Hn. rewrite forallb_forall in Hp. by apply Hp, In_below. Qed.
(** The same for many cases, counted in binary. *)
Definition all_below (k : N) (p : N -> bool) : bool :=
  snd (N.iter k (fun '(i, b) => (N.succ i, b && p i)) (0%N, true)).
Lemma all_below_spec k p n : all_below k p = true -> (n < k)%N -> p n = true.
Proof.
  unfold all_below. intros Hk Hn.
  assert (fst (N.iter k (fun '(i, b) => (N.succ i, b && p i)) (0%N, true)) = k
    /\ (snd (N.iter k (fun '(i, b) => (N.succ i, b && p i)) (0%N, true)) = true -> forall n, (n < k)%N -> p n = true))
    as [_ Hall]; [|by apply Hall].
  clear. induction k as [|k [IH1 IH2]] using N.peano_ind; [split; [done|]; lia|].
  rewrite N.iter_succ. destruct (N.iter k _ _) as [i b]. cbn [fst snd] in *. subst i. split; [done|].
  intros Hb n Hn. apply andb_true_iff in Hb as [Hb Hp].
  destruct (N.eq_dec n k) as [->|]; [done|]. apply IH2; [done|lia].
Qed.

Lemma byte_of n : (n < 256)%N -> N_of_ascii (ascii_of_N n) = n.
Proof. apply N_ascii_embedding. Qed.
Lemma low_bits (base mask k : N) n : (mask + 1 = N.of_nat (N.to_nat k))%N ->
  forallb (fun x => N.eqb (N.land (base + x) mask) x) (below (N.to_nat k)) = true ->
  (n < k)%N -> N.land (base + n) mask = n.
Proof. intros _ Hc Hn. apply N.eqb_eq. apply (by_cases _ _ n Hc). lia. Qed.
Lemma low6 n : (n < 64)%N -> N.land (128 + n) 63 = n.
Proof. by apply low_bits. Qed.
Lemma low5 n : (n < 32)%N -> N.land (192 + n) 31 = n.
Proof. by apply low_bits. Qed.
Lemma low4 n : (n < 16)%N -> N.land (224 + n) 15 = n.
Proof. by apply low_bits. Qed.
Lemma low3 n : (n < 8)%N -> N.land (240 + n) 7 = n.
Proof. by apply low_bits. Qed.

(** What one code point is escaped to. *)
Definition escaped (n : N) : string :=
  if (n <? 128)%N then escape_from 0 0 (String (ascii_of_N n) EmptyString) else escape_code_point n.

Ltac Nlia := zify; Z.to_euclidean_division_equations; lia.

Lemma escape_ascii c s : (N_of_ascii c < 128)%N ->
  escape_from 0 0 (String c s) = escaped (N_of_ascii c) +:+ escape_from 0 0 s.
Proof.
  intros Hc. unfold escaped. apply N.ltb_lt in Hc as Hb. rewrite Hb.
  rewrite ascii_N_embedding. cbn [escape_from]. rewrite Hb, string_app_nil_r. done.
Qed.
(** Bytes of longer encodings. *)
Lemma escape_lead2 b s : (192 <= b < 224)%N -> escape_from 0 0 (String (ascii_of_N b) s) = escape_from (N.land b 31) 1 s.
Proof.
  intros Hb. cbn [escape_from]. rewrite byte_of by lia.
  destruct (N.ltb_spec b 128), (N.ltb_spec b 224); try lia. done.
Qed.
Lemma escape_lead3 b s : (224 <= b < 240)%N -> escape_from 0 0 (String (ascii_of_N b) s) = escape_from (N.land b 15) 2 s.
Proof.
  intros Hb. cbn [escape_from]. rewrite byte_of by lia.
  destruct (N.ltb_spec b 128), (N.ltb_spec b 224), (N.ltb_spec b 240); try lia. done.
Qed.
Lemma escape_lead4 b s : (240 <= b < 248)%N -> escape_from 0 0 (String (ascii_of_N b) s) = escape_from (N.land b 7) 3 s.
Proof.
  intros Hb. cbn [escape_from]. rewrite byte_of by lia.
  destruct (N.ltb_spec b 128), (N.ltb_spec b 224), (N.ltb_spec b 240); try lia. done.
Qed.
Lemma escape_next acc k x s : (x < 64)%N ->
  escape_from acc (S (S k)) (String (ascii_of_N (128 + x)) s) = escape_from (acc * 64 + x) (S k) s.
Proof. intros Hx. cbn [escape_from]. by rewrite byte_of, low6 by lia. Qed.
Lemma escape_last acc x s : (x < 64)%N ->
  escape_from acc 1 (String (ascii_of_N (128 + x)) s) = escape_code_point (acc * 64 + x) +:+ escape_from 0 0 s.
Proof. intros Hx. cbn [escape_from]. by rewrite byte_of, low6 by lia. Qed.

Lemma escape_text n s : (n < 1114112)%N -> escape_from 0 0 (utf8_encode n +:+ s) = escaped n +:+ escape_from 0 0 s.
Proof.
  intros Hn. unfold utf8_encode. destruct (N.ltb_spec n 128) as [H1|H1].
  { change (String ?c EmptyString +:+ s) with (String c s). rewrite escape_ascii by (rewrite byte_of; lia).
    by rewrite byte_of by lia. }
  assert (escaped n = escape_code_point n) as -> by (unfold escaped; by apply N.ltb_ge in H1 as ->).
  destruct (N.ltb_spec n 2048) as [H2|H2]; [|destruct (N.ltb_spec n 65536) as [H3|H3]];
    rewrite !append_String, append_nil.
  - rewrite escape_lead2, escape_last, low5 by Nlia. do 2 f_equal. Nlia.
  - rewrite escape_lead3, escape_next, escape_last, low4 by Nlia. do 2 f_equal. Nlia.
  - rewrite escape_lead4, !escape_next, escape_last, low3 by Nlia. do 2 f_equal. Nlia.
Qed.

(** ** What the scanner reads back *)
Lemma hex4_app a n r : hex4 a = Some (n, EmptyString) -> hex4 (a +:+ r) = Some (n, r).
Proof.
  destruct a as [|x [|b [|c [|d a]]]]; try done. rewrite !append_String. cbn [hex4].
  destruct (hex_of x), (hex_of b), (hex_of c), (hex_of d); try done. intros [= -> ->]. done.
Qed.
Definition u_digits (n : N) : string := py_drop 2 (u_escape n).
Lemma u_escape_digits n : u_escape n = String "\" (String "u" (u_digits n)).
Proof. done. Qed.
Lemma hex4_digits n r : (n < 65536)%N -> hex4 (u_digits n +:+ r) = Some (n, r).
Proof.
  intros Hn. apply hex4_app.
  assert (match hex4 (u_digits n) with Some (m, EmptyString) => N.eqb m n | _ => false end = true) as Hc.
  { apply (all_below_spec 65536 (fun n => match hex4 (u_digits n) with
      | Some (m, EmptyString) => N.eqb m n | _ => false end)); [vm_compute; reflexivity|done]. }
  destruct (hex4 _) as [[m [|]]|]; try done. by apply N.eqb_eq in Hc as ->.
Qed.

(** One escaped code point, read back. *)
Lemma scan_ascii fuel acc r : Forall (fun n => scan_string (S fuel) acc (escaped n +:+ r)
  = scan_string fuel (acc +:+ utf8_encode n) r) (below 128).
Proof. repeat (constructor; [reflexivity|]). constructor. Qed.

Lemma scan_unicode fuel acc s t r : scan_escape s = Some (t, r) ->
  scan_string (S fuel) acc (String "\" s) = scan_string fuel (acc +:+ t) r.
Proof. intros Hs. cbn [scan_string]. by rewrite Hs. Qed.

Lemma scan_escaped fuel acc n r : scalar n ->
  scan_string (S fuel) acc (escaped n +:+ r) = scan_string fuel (acc +:+ utf8_encode n) r.
Proof.
  intros Hn. unfold scalar in Hn. destruct (N.ltb_spec n 128) as [H1|H1].
  { pose proof (scan_ascii fuel acc r) as Ha. rewrite Forall_forall in Ha. by apply Ha, list_elem_of_In, In_below. }
  unfold escaped, escape_code_point. apply N.ltb_ge in H1 as ->.
  destruct (N.ltb_spec n 65536) as [H3|H3].
  - rewrite u_escape_digits, append_String. apply scan_unicode. rewrite append_String. cbn [scan_escape].
    rewrite hex4_digits by done.
    destruct (N.leb_spec 55296 n), (N.leb_spec n 56319); cbn [andb]; (done || lia).
  - set (m := (n - 65536)%N). assert (N.land m 1023 = m mod 1024)%N as Hlo by apply (N.land_ones m 10).
    assert (N.shiftr m 10 = m / 1024)%N as Hhi by (by rewrite N.shiftr_div_pow2).
    rewrite Hlo, Hhi, string_app_assoc, !u_escape_digits, append_String. apply scan_unicode.
    rewrite append_String. cbn [scan_escape]. rewrite hex4_digits by Nlia.
    destruct (N.leb_spec 55296 (55296 + m / 1024)), (N.leb_spec (55296 + m / 1024) 56319); cbn [andb]; try Nlia.
    rewrite append_String. rewrite append_String, hex4_digits by Nlia.
    destruct (N.leb_spec 56320 (56320 + m mod 1024)), (N.leb_spec (56320 + m mod 1024) 57343); cbn [andb]; try Nlia.
    do 3 f_equal. Nlia.
Qed.

Lemma scan_text cps fuel acc r : Forall scalar cps -> (length cps < fuel)%nat ->
  scan_string fuel acc (escape_from 0 0 (text cps) +:+ String dquote r) = Ok (acc +:+ text cps, r).
Proof.
  revert fuel acc. induction cps as [|n cps IH]; intros fuel acc Hc Hf; (destruct fuel as [|fuel]; [cbn in Hf; lia|]).
  - cbn. by rewrite string_app_nil_r.
  - apply Forall_cons in Hc as [Hn Hc]. cbn [text fold_right]. fold (text cps).
    rewrite escape_text by (unfold scalar in Hn; lia). rewrite string_app_assoc, scan_escaped by done.
    rewrite IH by (done || (cbn in Hf; lia)). by rewrite string_app_assoc.
Qed.

Definition is_text (s : string) : Prop := exists cps, Forall scalar cps /\ s = text cps.

Lemma escaped_nonempty n : (1 <= String.length (escaped n))%nat.
Proof.
  unfold escaped, escape_code_point. destruct (N.ltb_spec n 128) as [Hn|].
  - pose proof (by_cases 128 (fun n => (1 <=? String.length (escape_from 0 0 (String (ascii_of_N n) EmptyString)))%nat) n
                  eq_refl Hn) as Hl. by apply Nat.leb_le in Hl.
  - destruct (n <? 65536)%N; rewrite u_escape_digits, ?append_String; cbn [String.length]; lia.
Qed.
Lemma string_length_app a b : String.length (a +:+ b) = (String.length a + String.length b)%nat.
Proof. induction a as [|c a IH]; [done|]. rewrite append_String. cbn [String.length]. by rewrite IH. Qed.
Lemma text_length cps : Forall scalar cps -> (length cps <= String.length (escape_from 0 0 (text cps)))%nat.
Proof.
  induction 1 as [|n cps Hn Hc IH]; [done|]. cbn [text fold_right length]. fold (text cps).
  rewrite escape_text by (unfold scalar in Hn; lia). rewrite string_length_app. pose proof (escaped_nonempty n). lia.
Qed.

Section roundtrip.
Context `{Runtime}.

Lemma scan_dumped n d s r : is_text s -> scan_value false (S n) d (dump_str s +:+ r) = Ok (JStr s, r).
Proof.
  intros (cps & Hc & ->). unfold dump_str. rewrite append_String. cbn [scan_value].
  change (Ascii.eqb dquote dquote) with true. cbn [rbind]. rewrite string_app_assoc.
  change (String dquote EmptyString +:+ r) with (String dquote r). rewrite scan_text; [done|done|].
  rewrite string_length_app. pose proof (text_length cps Hc). lia.
Qed.

Lemma scan_one n d acc s r : is_text s ->
  scan_elements false (S (S n)) d acc (dump_str s +:+ r)
  = match skip_ws r with
    | String "]" r' => Ok (JList (rev (JStr s :: acc)), r')
    | String "," r' => scan_elements false (S n) d (JStr s :: acc) (skip_ws r')
    | _ => Err JSONDecodeError
    end.
Proof. intros Hs. remember (S n) as m eqn:Hm. cbn [scan_elements]. subst m. by rewrite scan_dumped. Qed.
Lemma skip_dumped s r : skip_ws (dump_str s +:+ r) = dump_str s +:+ r.
Proof. done. Qed.

Lemma scan_dumped_list l n d acc : Forall is_text l -> l <> [] -> (length l < n)%nat ->
  scan_elements false n d acc (join ", " (map dump_str l) +:+ "]") = Ok (JList (rev acc ++ map JStr l), EmptyString).
Proof.
  revert n acc. induction l as [|s l IH]; [done|]. intros n acc Hl _ Hn. apply Forall_cons in Hl as [Hs Hl].
  destruct n as [|[|n]]; [cbn in Hn; lia..|]. destruct l as [|s' l].
  - cbn [join map]. rewrite scan_one by done. done.
  - change (join ", " (map dump_str (s :: s' :: l)))
      with (dump_str s +:+ (", " +:+ join ", " (map dump_str (s' :: l)))).
    rewrite string_app_assoc, scan_one, string_app_assoc by done.
    change (skip_ws (", " +:+ ?x)) with (String "," (String " " x)). cbn beta iota.
    assert (skip_ws (String " " (join ", " (map dump_str (s' :: l)) +:+ "]"))
            = join ", " (map dump_str (s' :: l)) +:+ "]") as -> by (by destruct l).
    rewrite IH by (done || (cbn in *; lia)). cbn [rev map]. by rewrite <- List.app_assoc.
Qed.

Lemma scan_opened m d l : l <> [] ->
  scan_value false (S m) (S d) (String "[" (join ", " (map dump_str l) +:+ "]"))
  = scan_elements false m d [] (join ", " (map dump_str l) +:+ "]").
Proof. destruct l as [|s [|s' l]]; done. Qed.
Lemma joined_length l : (length l <= String.length (join ", " (map dump_str l) +:+ "]"))%nat.
Proof.
  induction l as [|s l IH]; [cbn; lia|]. destruct l as [|s' l].
  - cbn [join map length]. rewrite string_length_app. cbn [String.length]. lia.
  - change (join ", " (map dump_str (s :: s' :: l)))
      with (dump_str s +:+ (", " +:+ join ", " (map dump_str (s' :: l)))).
    rewrite !string_app_assoc, !string_length_app. rewrite string_length_app in IH. cbn [length String.length] in *. lia.
Qed.

(** [json.loads(json.dumps(l)) == l] for lists of strings. *)
Lemma loads_dumps_strings limit l : Forall is_text l -> (0 < limit)%nat ->
  json_loads limit (py_dumps (JList (map JStr l))) = Ok (JList (map JStr l)).
Proof.
  intros Hl Hlim. destruct limit as [|d]; [lia|]. cbn [py_dumps]. rewrite map_map. cbn [py_dumps].
  change (map (fun s => dump_str s) l) with (map dump_str l).
  destruct l as [|s l]; [done|]. unfold json_loads, loads_with.
  change (py_startswith utf8_bom ("[" +:+ ?x)) with false. cbn beta iota.
  change (skip_ws ("[" +:+ ?x)) with (String "[" x).
  rewrite (scan_opened _ _ (s :: l)) by done. cbn [rbind]. rewrite scan_dumped_list; [done|done|done|].
  pose proof (joined_length (s :: l)). cbn [String.length]. lia.
Qed.
End roundtrip.
