(* ===== verification/Conformance.v ===== *)
(** * Conformance mode ([conformance.py])

    The seed document, its validation, the production guard and the
    application of the seed.  The file system, PyYAML with the strict loader,
    SQLAlchemy's [make_url], the [repr] of a string and the fresh key material
    are parameters.  A document is a decoded JSON value with string keys; YAML
    values of other kinds have no counterpart here. *)
From S2P Require Import Prelude PyStr PyJson Codec Models Storage PyUrl TtlStores Keys Jwt App PyDumps Redirects.
#[local] Open Scope Z_scope.

Definition MODE_ENV : string := "OAUTH2_CONFORMANCE_MODE".
Definition SEED_ENV : string := "OAUTH2_CONFORMANCE_SEED".
Definition PROFILE_ENV_VARS : list string :=
  ["OAUTH2_ENV"; "OAUTH2_ENVIRONMENT"; "OAUTH2_PROFILE"; "APP_ENV"; "ENVIRONMENT"; "RUST_ENV"; "NODE_ENV"; "FLASK_ENV";
   "RAILS_ENV"; "DEPLOY_ENV"; "ASPNETCORE_ENVIRONMENT"].
Definition NON_PRODUCTION_ENV_NAMES : list string :=
  ["test"; "testing"; "conformance"; "dev"; "development"; "local"; "ci"].
Definition DEFAULT_CLIENT_SCOPE : string := "openid read".
Definition DEFAULT_GRANT_TYPES : list string := ["authorization_code"].
Definition GRANT_TYPES : list string :=
  ["authorization_code"; "refresh_token"; "client_credentials"; "urn:ietf:params:oauth:grant-type:device_code"].
Definition AUTH_METHODS : list string := ["none"; "client_secret_basic"; "client_secret_post"].
Definition SUPPORTED_SEED_ALGS : list string := ["HS256"; "RS256"].

(** A [ConformanceError], or another exception that also aborts the start. *)
Inductive seed_error := ConformanceError (message : string) | AssertionError | Raised (e : exn).
(** [Path.read_text] and [yaml.load] with [_StrictYamlLoader], which raises a
    [ConformanceError] of its own. *)
Inductive read_outcome := Text (s : string) | OSFailure (message : string) | Undecodable.
Inductive yaml_outcome := Loaded (doc : json) | YAMLError (message : string) | Refused (message : string).
Notation seeded A := (result seed_error A).
Definition raised {A} (r : result exn A) : seeded A := match r with Ok a => Ok a | Err e => Err (Raised e) end.
(** [if refused: raise ConformanceError(message)] *)
Definition refuse (refused : bool) (message : string) : seeded unit :=
  if refused then Err (ConformanceError message) else Ok tt.
(** [for x in l: body] *)
Fixpoint each {A} (body : A -> seeded unit) (l : list A) : seeded unit :=
  match l with [] => Ok tt | x :: l => let? _ := body x in each body l end.

(** ** The seed model *)
Record SeedSigningKey := mkSeedKey { sk_kid : string; sk_alg : string; sk_use : string }.
Record SeedClient := mkSeedClient {
  sc_client_id : string;
  sc_redirect_uris : list string;
  sc_name : option string;
  sc_client_secret : option string;
  sc_token_endpoint_auth_method : option string;
  sc_public : option bool;
  sc_scopes : option (list string);
  sc_grant_types : option (list string)
}.
Definition seed_is_public (c : SeedClient) : bool :=
  bool_decide (sc_public c = Some true) || bool_decide (sc_token_endpoint_auth_method c = Some "none").
Record SeedUser := mkSeedUser {
  su_username : string;
  su_password : string;
  su_email : option string;
  su_scopes : option (list string);
  su_auto_approve_clients : option (list string)
}.
Record Seed := mkSeed {
  s_issuer : string;
  s_signing_keys : list SeedSigningKey;
  s_clients : list SeedClient;
  s_users : list SeedUser
}.

Section conformance.
Context `{JwtLib} `{Runtime}.
Context (cbn_ : string -> bool) (repr : string -> string) (yaml_load : string -> yaml_outcome)
  (read_text : string -> read_outcome) (make_url : string -> option (string * option string))
  (hs256_secret rs256_pem : nat -> string).

(** ** Parsing *)
Definition type_name (v : json) : string :=
  match v with
  | JNull => "NoneType" | JBool _ => "bool" | JInt _ => "int" | JFloat _ _ | JNonFinite _ => "float"
  | JStr _ => "str" | JList _ => "list" | JObj _ => "dict"
  end.
Definition mapping (v : json) (where_ : string) : seeded pydict :=
  match v with
  | JObj m => Ok m
  | v => Err (ConformanceError (where_ +:+ ": expected a mapping, got " +:+ type_name v))
  end.
(** [sorted] of strings, by code points. *)
Fixpoint insert_sorted (x : string) (l : list string) : list string :=
  match l with [] => [x] | y :: r => if String.leb x y then x :: l else y :: insert_sorted x r end.
Definition py_sorted (l : list string) : list string := fold_right insert_sorted [] l.
Definition check_keys (m : pydict) (allowed required : list string) (where_ : string) : seeded unit :=
  let unknown := py_sorted (List.filter (fun k => negb (mem_str k allowed)) (map fst m)) in
  let? _ := refuse (bool_decide (unknown <> [])) (where_ +:+ ": unknown field(s) " +:+ join ", " unknown) in
  each (fun key => refuse (negb (obj_has key m)) (where_ +:+ ": missing required key " +:+ repr key)) (py_sorted required).
(** A value of [None] and a missing one are the same to [dict.get]. *)
Definition get_value (k : string) (m : pydict) : option json :=
  match obj_get k m with Some JNull => None | o => o end.
Definition seed_string (m : pydict) (key where_ : string) : seeded (option string) :=
  match get_value key m with
  | None => Ok None
  | Some (JStr s) => Ok (Some s)
  | Some _ => Err (ConformanceError (where_ +:+ ": " +:+ key +:+ " must be a string"))
  end.
Definition seed_string_list (m : pydict) (key where_ : string) : seeded (option (list string)) :=
  let error := Err (ConformanceError (where_ +:+ ": " +:+ key +:+ " must be a list of strings")) in
  match get_value key m with
  | None => Ok None
  | Some (JList l) => match all_strings l with Some l => Ok (Some l) | None => error end
  | Some _ => error
  end.
Definition list_of_mappings (m : pydict) (key : string) : seeded (list pydict) :=
  match obj_get key m with
  | Some (JList l) => map_ok (fun v => mapping v (key +:+ "[]")) l
  | _ => Err (ConformanceError ("seed: " +:+ key +:+ " must be a list"))
  end.

Definition build_signing_key (m : pydict) : seeded SeedSigningKey :=
  let where_ := "signingKeys[]" in
  let? _ := check_keys m ["kid"; "alg"; "use"] ["kid"; "alg"] where_ in
  let? kid := seed_string m "kid" where_ in
  let? alg := seed_string m "alg" where_ in
  let? use := seed_string m "use" where_ in
  Ok (mkSeedKey (or_else kid EmptyString) (or_else alg EmptyString) (or_else use "sig")).
Definition build_client (m : pydict) : seeded SeedClient :=
  let where_ := "clients[]" in
  let? _ := check_keys m ["client_id"; "name"; "client_secret"; "token_endpoint_auth_method"; "public"; "redirect_uris";
                          "scopes"; "grant_types"] ["client_id"; "redirect_uris"] where_ in
  let? public := match get_value "public" m with
                 | None => Ok None
                 | Some (JBool b) => Ok (Some b)
                 | Some _ => Err (ConformanceError (where_ +:+ ": public must be a boolean"))
                 end in
  let? client_id := seed_string m "client_id" where_ in
  let? redirect_uris := seed_string_list m "redirect_uris" where_ in
  let? name := seed_string m "name" where_ in
  let? client_secret := seed_string m "client_secret" where_ in
  let? method := seed_string m "token_endpoint_auth_method" where_ in
  let? scopes := seed_string_list m "scopes" where_ in
  let? grant_types := seed_string_list m "grant_types" where_ in
  Ok (mkSeedClient (or_else client_id EmptyString) (default [] redirect_uris) name client_secret method public scopes grant_types).
Definition build_user (m : pydict) : seeded SeedUser :=
  let where_ := "users[]" in
  let? _ := check_keys m ["username"; "password"; "email"; "scopes"; "auto_approve_clients"] ["username"; "password"] where_ in
  let? username := seed_string m "username" where_ in
  let? password := seed_string m "password" where_ in
  let? email := seed_string m "email" where_ in
  let? scopes := seed_string_list m "scopes" where_ in
  let? approved := seed_string_list m "auto_approve_clients" where_ in
  Ok (mkSeedUser (or_else username EmptyString) (or_else password EmptyString) email scopes approved).
(** [assert issuer is not None] *)
Definition build_seed (m : pydict) : seeded Seed :=
  let? _ := check_keys m ["issuer"; "signingKeys"; "clients"; "users"] ["issuer"; "clients"; "users"] "seed" in
  let? issuer := seed_string m "issuer" "seed" in
  match issuer with
  | None => Err AssertionError
  | Some issuer =>
      let? keys := match get_value "signingKeys" m with None => Ok [] | Some _ => list_of_mappings m "signingKeys" end in
      let? signing_keys := map_ok build_signing_key keys in
      let? clients := list_of_mappings m "clients" in
      let? clients := map_ok build_client clients in
      let? users := list_of_mappings m "users" in
      let? users := map_ok build_user users in
      Ok (mkSeed issuer signing_keys clients users)
  end.

(** ** Validation *)
Definition nonempty (what value : string) : seeded unit := refuse (negb (truthy value)) (what +:+ " must not be empty").
Definition is_ascii_digits (s : string) : bool := truthy s && all_chars is_ascii_digit s.
Definition well_formed_alg (alg : string) : bool :=
  (py_len alg =? 5) && existsb (fun p => py_startswith p alg) ["RS"; "ES"; "PS"; "HS"] && is_ascii_digits (py_drop 2 alg).
Definition validate_signing_key (key : SeedSigningKey) : seeded unit :=
  let name := "signing key " +:+ repr (sk_kid key) in
  let? _ := refuse (negb (String.eqb (sk_use key) "sig")) (name +:+ ": use must be " +:+ String dquote ("sig" +:+ String dquote EmptyString)) in
  let? _ := refuse (negb (well_formed_alg (sk_alg key))) (name +:+ ": alg " +:+ repr (sk_alg key) +:+ " is not RS/ES/PS/HS + 3 digits") in
  refuse (negb (mem_str (sk_alg key) SUPPORTED_SEED_ALGS))
    (name +:+ ": alg " +:+ sk_alg key +:+ " is not supported by this server (" +:+ join ", " SUPPORTED_SEED_ALGS +:+ ")").
Definition validate_redirect_uri (cid uri : string) : seeded unit :=
  let? split := raised (urlsplit cbn_ uri) in
  let http := mem_str (s_scheme split) ["http"; "https"] in
  let private_use := py_contains_char "." (s_scheme split) && negb http && truthy (s_path split) in
  let web := http && truthy (s_netloc split) in
  let? _ := refuse (negb (web || private_use)) ("client " +:+ repr cid +:+ ": redirect_uri " +:+ repr uri +:+ " is invalid") in
  refuse (truthy (s_fragment split)) ("client " +:+ repr cid +:+ ": redirect_uri " +:+ repr uri +:+ " has a fragment").
(** [not scope or any(ch.isspace() for ch in scope)], negated. *)
Definition is_scope (scope : string) : bool := bool_decide (py_split scope = [scope]).
Definition validate_client (client : SeedClient) : seeded unit :=
  let cid := sc_client_id client in
  let name := "client " +:+ repr cid in
  let method := sc_token_endpoint_auth_method client in
  let secret := sc_client_secret client in
  let? _ := refuse (bool_decide (sc_name client = Some EmptyString)) (name +:+ ": name must not be empty") in
  let? _ := refuse (from_option_b (fun m => negb (mem_str m AUTH_METHODS)) method)
              (name +:+ ": token_endpoint_auth_method " +:+ repr (default EmptyString method) +:+ " is not supported") in
  let? _ := refuse (bool_decide (secret = Some EmptyString)) (name +:+ ": client_secret must not be empty") in
  let? _ :=
    if seed_is_public client then
      let? _ := refuse (bool_decide (is_Some secret)) (name +:+ ": a public client must not carry a secret") in
      refuse (from_option_b (fun m => negb (String.eqb m "none")) method) (name +:+ ": a public client must use method none")
    else refuse (bool_decide (secret = None)) (name +:+ ": a confidential client needs client_secret (or set public: true)") in
  let? _ := refuse (bool_decide (sc_redirect_uris client = [])) (name +:+ ": redirect_uris must not be empty") in
  let? _ := each (validate_redirect_uri cid) (sc_redirect_uris client) in
  let? _ := each (fun scope => refuse (negb (is_scope scope)) (name +:+ ": invalid scope " +:+ repr scope)) (default [] (sc_scopes client)) in
  each (fun grant => refuse (negb (mem_str grant GRANT_TYPES)) (name +:+ ": unsupported grant type " +:+ repr grant))
    (default [] (sc_grant_types client)).
(** The loops that remember the names they have seen. *)
Fixpoint validate_keys (kids : list string) (keys : list SeedSigningKey) : seeded unit :=
  match keys with
  | [] => Ok tt
  | key :: keys =>
      let? _ := nonempty "signingKeys[].kid" (sk_kid key) in
      let? _ := refuse (mem_str (sk_kid key) kids) ("duplicate signing key kid " +:+ repr (sk_kid key)) in
      let? _ := validate_signing_key key in
      validate_keys (sk_kid key :: kids) keys
  end.
Fixpoint validate_clients (ids : list string) (clients : list SeedClient) : seeded unit :=
  match clients with
  | [] => Ok tt
  | client :: clients =>
      let? _ := nonempty "clients[].client_id" (sc_client_id client) in
      let? _ := refuse (mem_str (sc_client_id client) ids) ("duplicate client_id " +:+ repr (sc_client_id client)) in
      let? _ := validate_client client in
      validate_clients (sc_client_id client :: ids) clients
  end.
Definition validate_user (client_ids : list string) (user : SeedUser) : seeded unit :=
  let name := "user " +:+ repr (su_username user) in
  let? _ := refuse (from_option_b (fun e => py_len e <? 3) (su_email user)) (name +:+ ": email is too short") in
  each (fun approved => refuse (negb (mem_str approved client_ids))
          (name +:+ ": auto_approve_clients names unknown client " +:+ repr approved))
    (default [] (su_auto_approve_clients user)).
Fixpoint validate_users (client_ids usernames : list string) (users : list SeedUser) : seeded unit :=
  match users with
  | [] => Ok tt
  | user :: users =>
      let? _ := nonempty "users[].username" (su_username user) in
      let? _ := nonempty ("user " +:+ repr (su_username user) +:+ " password") (su_password user) in
      let? _ := refuse (mem_str (su_username user) usernames) ("duplicate username " +:+ repr (su_username user)) in
      let? _ := validate_user client_ids user in
      validate_users client_ids (su_username user :: usernames) users
  end.
Definition validate_seed (seed : Seed) : seeded unit :=
  let? split := raised (urlsplit cbn_ (s_issuer seed)) in
  let? _ := refuse (negb (mem_str (s_scheme split) ["http"; "https"])) ("issuer " +:+ repr (s_issuer seed) +:+ " must be an http(s) URL") in
  let? _ := refuse (negb (truthy (s_netloc split))) ("issuer " +:+ repr (s_issuer seed) +:+ " must have a host") in
  let? _ := refuse (ends_with_char "/" (s_issuer seed)) "issuer must not end with '/'" in
  let? _ := refuse (bool_decide (s_clients seed = [])) "clients must contain at least one client" in
  let? _ := refuse (bool_decide (s_users seed = [])) "users must contain at least one user" in
  let? _ := validate_keys [] (s_signing_keys seed) in
  let? _ := validate_clients [] (s_clients seed) in
  validate_users (map sc_client_id (s_clients seed)) [] (s_users seed).

(** ** Loading *)
Definition load_document (text : string) : seeded json :=
  let? _ := refuse (negb (truthy (py_strip text))) "seed file is empty" in
  match json_loads_strict json_limit text with
  | Ok doc => Ok doc
  | Err (JDuplicateKey k) => Err (ConformanceError ("duplicate key " +:+ repr k))
  | Err JRecursionError => Err (Raised (PyErr RecursionError EmptyString))
  | Err JValueError => Err (Raised (PyErr ValueError EmptyString))
  | Err _ =>
      match yaml_load text with
      | YAMLError m => Err (ConformanceError ("seed is neither valid JSON nor YAML: " +:+ m))
      | Refused m => Err (ConformanceError m)
      | Loaded JNull => Err (ConformanceError "seed file is empty")
      | Loaded doc => Ok doc
      end
  end.
(** [Seed.parse] and [Seed.load] *)
Definition parse_seed (text : string) : seeded Seed :=
  let? raw := load_document text in
  match raw with
  | JObj m => let? seed := build_seed m in let? _ := validate_seed seed in Ok seed
  | _ => Err (ConformanceError "seed is not a mapping")
  end.
Definition load_seed (path : string) : seeded Seed :=
  match read_text path with
  | OSFailure m => Err (ConformanceError ("cannot read seed file " +:+ path +:+ ": " +:+ m))
  | Undecodable => Err (Raised (PyErr ValueError "UnicodeDecodeError"))
  | Text text =>
      match parse_seed text with
      | Ok seed => Ok seed
      | Err (ConformanceError m) => Err (ConformanceError (path +:+ ": " +:+ m))
      | Err e => Err e
      end
  end.

(** ** The switch and the production guard *)
Notation environ := (gmap string string).
(** [str(Path(s))] of a POSIX path: no empty and no [.] components. *)
Definition py_path (s : string) : string :=
  let root := if py_startswith "//" s && negb (py_startswith "///" s) then "//" else if py_startswith "/" s then "/" else EmptyString in
  let parts := List.filter (fun p => negb (mem_str p [EmptyString; "."])) (py_split_on "/" s) in
  or_else (Some (root +:+ join "/" parts)) ".".
Definition mode_from_env (env : environ) : seeded (option string) :=
  let mode := py_lower (py_strip (default EmptyString (env !! MODE_ENV))) in
  if mem_str mode [EmptyString; "0"; "false"] then Ok None else
  if negb (mem_str mode ["1"; "true"])
  then Err (ConformanceError (MODE_ENV +:+ "=" +:+ repr mode +:+ " is not a recognized value; use 1 to enable or unset it")) else
  let path := py_strip (default EmptyString (env !! SEED_ENV)) in
  if truthy path then Ok (Some (py_path path))
  else Err (ConformanceError (MODE_ENV +:+ "=1 requires " +:+ SEED_ENV +:+ " to point at a seed file")).
Definition is_in_memory_sqlite (database_url : string) : bool :=
  match make_url database_url with
  | None => false
  | Some (backend, database) =>
      String.eqb backend "sqlite" && match database with None => true | Some d => mem_str d [EmptyString; ":memory:"] end
  end.
Definition profile_allowed (value : string) : bool :=
  let name := py_lower (py_strip value) in negb (truthy name) || mem_str name NON_PRODUCTION_ENV_NAMES.
Definition check_not_production (env : environ) (database_url : string) (pem : option string) : seeded unit :=
  let? _ := each (fun var =>
      refuse (from_option_b (fun v => negb (profile_allowed v)) (env !! var))
        ("conformance mode refused: " +:+ var +:+ "=" +:+ repr (default EmptyString (env !! var))
         +:+ " is not a known non-production environment (allowed: " +:+ join ", " NON_PRODUCTION_ENV_NAMES +:+ ")"))
    PROFILE_ENV_VARS in
  let? _ := refuse (negb (is_in_memory_sqlite database_url))
    "conformance mode refused: it requires an in-memory database (OAUTH2_DATABASE_URL=sqlite+aiosqlite://) so seeded test credentials are never persisted to a shared or production store" in
  refuse (truthy_o pem)
    "conformance mode refused: a real signing key is configured; the mode generates its own throwaway keys under the seeded kid".
Definition seed_from_env (env : environ) (database_url : string) (pem : option string) : seeded (option Seed) :=
  let? path := mode_from_env env in
  match path with
  | None => Ok None
  | Some path =>
      let? _ := check_not_production env database_url pem in
      let? seed := load_seed path in Ok (Some seed)
  end.

(** ** Applying the seed *)
Record Applied := mkApplied { ap_clients : nat; ap_users : nat; ap_signing_keys : list SigningKey }.
Definition readiness (a : Applied) : pydict :=
  [("seed_applied", JBool true); ("clients", JInt (Z.of_nat (ap_clients a))); ("users", JInt (Z.of_nat (ap_users a)));
   ("signing_key_ids", jstrs (map k_kid (ap_signing_keys a)))].

Notation SM := (ST AppState seed_error).
Definition run_m {A} (m : M A) : SM A := fun s => let '(r, s) := m s in (raised r, s).
Definition or_nonempty (o : option (list string)) (d : list string) : list string :=
  match o with Some (x :: l) => x :: l | _ => d end.
Definition seed_client_row (now : Z) (id : string) (c : SeedClient) : Client := {|
  c_id := id; c_client_id := sc_client_id c; c_client_secret := or_else (sc_client_secret c) EmptyString;
  c_redirect_uris := py_dumps (jstrs (sc_redirect_uris c));
  c_grant_types := py_dumps (jstrs (or_nonempty (sc_grant_types c) DEFAULT_GRANT_TYPES));
  c_scope := match sc_scopes c with Some (x :: l) => join " " (x :: l) | _ => DEFAULT_CLIENT_SCOPE end;
  c_name := or_else (sc_name c) (sc_client_id c); c_created_at := now; c_updated_at := now;
  c_token_endpoint_auth_method :=
    if seed_is_public c then "none" else or_else (sc_token_endpoint_auth_method c) "client_secret_basic";
  c_registration_access_token := EmptyString; c_response_types := py_dumps (jstrs ["code"]); c_contacts := EmptyString;
  c_logo_uri := EmptyString; c_client_uri := EmptyString; c_policy_uri := EmptyString; c_tos_uri := EmptyString;
  c_jwks := EmptyString; c_jwks_uri := EmptyString; c_backchannel_logout_uri := EmptyString;
  c_backchannel_logout_session_required := false; c_frontchannel_logout_uri := EmptyString;
  c_frontchannel_logout_session_required := false; c_post_logout_redirect_uris := EmptyString;
  c_enabled := true; c_require_state := false; c_tls_client_certificate_subject_dn := EmptyString;
  c_dpop_nonce_required := false
|}.
Definition apply_client (now : Z) (c : SeedClient) : SM unit :=
  let! existing := run_m (query (get_client (sc_client_id c))) in
  match existing with
  | Some _ => sraise (ConformanceError ("seeding client " +:+ repr (sc_client_id c) +:+ " failed: already exists"))
  | None =>
      let! id := run_m (draw uuid4_hex) in
      run_m (insert (save_client (seed_client_row now id c)))
  end.
Definition apply_user (u : SeedUser) : SM unit :=
  let! existing := run_m (query (get_user_by_username (su_username u))) in
  match existing with
  | Some _ => sraise (ConformanceError ("seeding user " +:+ repr (su_username u) +:+ " failed: already exists"))
  | None =>
      let! id := run_m (draw uuid4_hex) in
      let! password_hash := run_m (draw (fun n => argon2_hash n (su_password u))) in
      let! now := run_m (sget a_wall) in
      run_m (insert (save_user (mkUser id (su_username u) password_hash
        (or_else (su_email u) (su_username u +:+ "@conformance.invalid")) true "user" now now)))
  end.
Fixpoint generate_keys (now : Z) (specs : list SeedSigningKey) : SM (list SigningKey) :=
  match specs with
  | [] => sret []
  | spec :: specs =>
      let! generated := run_m (draw (fun n => generate_signing_key now (sk_alg spec) (sk_kid spec) (hs256_secret n) (rs256_pem n))) in
      let! key := run_m (slift generated) in
      let! keys := generate_keys now specs in sret (key :: keys)
  end.
Definition apply_seed (seed : Seed) : SM Applied :=
  let! now := run_m (sget a_wall) in
  let! signing_keys := generate_keys now (s_signing_keys seed) in
  each_m (apply_client now) (s_clients seed) !;
  each_m apply_user (s_users seed) !;
  each_m (fun key => run_m (smod (fun s => with_keyset s (rotate (a_wall s) key 0 (a_keyset s))))) signing_keys !;
  sret (mkApplied (length (s_clients seed)) (length (s_users seed)) signing_keys).
End conformance.
