(* ===== verification/Admin.v ===== *)
(** * The admin API: guard, bodies, audit trail
    ([routes/admin/guard.py], [routes/admin/_util.py], [services/audit.py],
    [services/events.py]) *)
From S2P Require Import Prelude PyStr PyJson Codec Models IsoTime Storage TtlStores Keys Jwt App PyDumps.
#[local] Open Scope Z_scope.

Record AdminActor := mkActor { actor_id : string; actor_email : string }.

(** What the admin routes read of a request: its headers and peer, the session
    cookie, and the outcome of [request.json()]. *)
Record AdminSession := mkAdminSession {
  as_user_id : option string;
  as_role : option string;
  as_email : option string
}.
Record AdminRequest := mkAdmin {
  ad_authorization : option string;
  ad_user_agent : option string;
  ad_client_host : option string;
  ad_session : AdminSession;
  ad_json : result exn json
}.

(** An answer: JSON, or the redirect to the login page. *)
Inductive admin_response := AdminJson (r : response) | AdminLogin.
Definition admin_json (status : Z) (body : pydict) : response := mkResponse status (JObj body) [].
Definition admin_error (status : Z) (error description : string) : response :=
  admin_json status [("error", JStr error); ("error_description", JStr description)].
Definition bad_request (description : string) : response := admin_error 400 "invalid_request" description.
Definition not_found (what : string) : response := admin_json 404 [("error", JStr (what +:+ " not found"))].

(** ** guard.py *)
Definition client_id_in_allowlist (client_id : string) (allowlist : list string) : bool :=
  let trimmed := py_strip client_id in
  if negb (truthy trimmed) then false
  else mem_str trimmed (List.filter truthy (map py_strip allowlist)).

Definition invalid_token_error : admin_response :=
  AdminJson (admin_error 401 "invalid_token" "Bearer token is invalid or expired").
Definition insufficient_scope_error : admin_response :=
  AdminJson (admin_error 403 "insufficient_scope" "Token requires 'admin' scope").
Definition login_required_error : admin_response := AdminLogin.
Definition insufficient_permissions_error : admin_response :=
  AdminJson (admin_error 403 "insufficient_permissions" "Admin access required").

(** [auth_header[:7].lower() == "bearer "]; the seven characters are ASCII when
    their lower case is. *)
Definition bearer_value (authorization : option string) : option string :=
  let h := default EmptyString authorization in
  if py_startswith "bearer " (py_lower h) then Some (py_strip (py_drop 7 h)) else None.

Section admin.
Context `{JwtLib} `{Runtime}.
Context (config : Config).

(** [inl]: the error the guard raises. *)
Definition authenticate_bearer (token_value : string) : M (admin_response + AdminActor) :=
  let! found := query (get_token_by_access_token token_value) in
  let! now := sget a_wall in
  match found with
  | None => sret (inl invalid_token_error)
  | Some token =>
      if t_revoked token || (t_expires_at token <=? now) then sret (inl invalid_token_error) else
      if negb (mem_str "admin" (py_split (t_scope token)))
         || negb (client_id_in_allowlist (t_client_id token) (admin_client_ids config))
      then sret (inl insufficient_scope_error)
      else sret (inr (mkActor EmptyString EmptyString))
  end.
Definition authenticate_session (session : AdminSession) : admin_response + AdminActor :=
  if negb (truthy_o (as_user_id session)) then inl login_required_error else
  let role := default EmptyString (as_role session) in
  let email := default EmptyString (as_email session) in
  if String.eqb role "admin" || mem_str (py_lower email) (admin_emails config)
  then inr (mkActor (default EmptyString (as_user_id session)) email)
  else inl insufficient_permissions_error.
Definition require_admin (rq : AdminRequest) : M (admin_response + AdminActor) :=
  match bearer_value (ad_authorization rq) with
  | Some token_value => authenticate_bearer token_value
  | None => sret (authenticate_session (ad_session rq))
  end.

(** A route of [admin_router]: the handler runs for an admin only. *)
Definition admin_route (handler : AdminRequest -> AdminActor -> M response) (rq : AdminRequest) : M admin_response :=
  let! guarded := require_admin rq in
  match guarded with
  | inl refused => sret refused
  | inr actor => let! r := handler rq actor in sret (AdminJson r)
  end.

(** ** _util.py *)
Definition json_body (rq : AdminRequest) : M pydict :=
  match ad_json rq with
  | Ok (JObj m) => sret m
  | Ok _ => sret []
  | Err e => if is_value_error e then sret [] else sraise e
  end.
(** [str(body.get(k) or "")] *)
Definition body_str (k : string) (body : pydict) : string := py_str_or_empty (obj_get k body).

(** ** audit.py and events.py *)
Definition build_audit (rq : AdminRequest) (actor : AdminActor) (action target_kind target_id : string)
    (metadata : pydict) : M AuditLogEntry :=
  let! id := draw uuid4_hex in
  let! now := sget a_wall in
  sret (mkAudit id (actor_id actor) (actor_email actor) action target_kind target_id
          (default EmptyString (ad_client_host rq)) (default EmptyString (ad_user_agent rq))
          (py_dumps (JObj metadata)) now).

Definition RECENT_CAPACITY : nat := 500.
(** [RecentEventsStore.push] and [.list] *)
Definition push_recent (event : json) : M unit :=
  smod (fun s => with_recent s (firstn RECENT_CAPACITY (event :: a_recent s))).
Definition list_recent (limit offset : nat) (l : list json) : list json * nat :=
  (firstn limit (skipn offset l), length l).

(** [json.loads(entry.metadata)] is the dict the metadata was dumped from. *)
Definition audit_event (now : Z) (e : AuditLogEntry) (metadata : pydict) : json :=
  JObj [("event_type", JStr (al_action e)); ("source", JStr "admin"); ("idempotency_key", JStr (al_id e));
        ("received_at", JStr (isoformat now)); ("actor_id", JStr (al_actor_id e));
        ("actor_email", JStr (al_actor_email e)); ("target_kind", JStr (al_target_kind e));
        ("target_id", JStr (al_target_id e)); ("metadata", JObj metadata)].
(** [record_audit]: a failure of the write is logged, not raised. *)
Definition record_audit (e : AuditLogEntry) (metadata : pydict) : M unit :=
  scatch (insert (write_audit_log e)) (fun _ => sret tt) !;
  let! now := sget a_wall in
  push_recent (audit_event now e metadata).

(** Every mutation ends with one audit record. *)
Definition audited (rq : AdminRequest) (actor : AdminActor) (action target_kind target_id : string)
    (metadata : pydict) : M unit :=
  let! e := build_audit rq actor action target_kind target_id metadata in
  record_audit e metadata.
End admin.

(** ** Strictly typed bodies ([_parse_body])

    A field of the body model: its name, and what is wrong with a value that is
    not null. [None]: the body is accepted. Several nulls are reported in an
    unspecified order by the code, in the order of the model here. *)
Definition body_field := (string * (string -> json -> option string))%type.
Definition strict_str (k : string) (v : json) : option string :=
  match v with JStr _ => None | _ => Some (k +:+ ": Input should be a valid string") end.
Definition strict_bool (k : string) (v : json) : option string :=
  match v with JBool _ => None | _ => Some (k +:+ ": Input should be a valid boolean") end.
Definition any_dict (k : string) (v : json) : option string :=
  match v with JObj _ => None | _ => Some (k +:+ ": Input should be a valid dictionary") end.
Fixpoint strict_items (k : string) (i : nat) (l : list json) : option string :=
  match l with
  | [] => None
  | JStr _ :: l => strict_items k (S i) l
  | _ :: _ => Some (k +:+ "." +:+ str_of_Z (Z.of_nat i) +:+ ": Input should be a valid string")
  end.
Definition strict_list (k : string) (v : json) : option string :=
  match v with JList l => strict_items k 0 l | _ => Some (k +:+ ": Input should be a valid list") end.

Definition type_error (body : pydict) (f : body_field) : option string :=
  match obj_get (fst f) body with
  | None | Some JNull => None
  | Some v => snd f (fst f) v
  end.
Definition null_error (body : pydict) (f : body_field) : option string :=
  match obj_get (fst f) body with Some JNull => Some (fst f +:+ " must not be null") | _ => None end.
Definition parse_body (model : list body_field) (body : pydict) : option response :=
  match omap (type_error body) model ++ omap (null_error body) model with
  | d :: _ => Some (bad_request d)
  | [] => None
  end.

(** ** Admin: users and tokens ([routes/admin/users.py], [routes/admin/tokens.py]) *)

Definition valid_roles : list string := ["admin"; "user"].
(** [role in _VALID_ROLES]: an unhashable value is a [TypeError]. *)
Definition is_valid_role (role : option json) : result exn bool :=
  match role with
  | Some (JStr s) => Ok (mem_str s valid_roles)
  | Some (JList _) => Err (PyErr TypeError "unhashable type: 'list'")
  | Some (JObj _) => Err (PyErr TypeError "unhashable type: 'dict'")
  | _ => Ok false
  end.

Definition user_update_body : list body_field :=
  [("email", strict_str); ("role", strict_str); ("enabled", strict_bool)].

Definition user_info (u : User) : pydict :=
  [("id", JStr (u_id u)); ("username", JStr (u_username u)); ("email", JStr (u_email u)); ("role", JStr (u_role u));
   ("enabled", JBool (u_enabled u)); ("created_at", JStr (isoformat (u_created_at u)))].
Definition user_response (u : User) : pydict := user_info u ++ [("updated_at", JStr (isoformat (u_updated_at u)))].
Definition user_not_found : response := not_found "user".

Section users.
Context `{JwtLib} `{Runtime}.

(** [_best_effort_revoke_by_user] *)
Definition revoke_by_user (user_id : string) : M unit :=
  let! _ := update_count (revoke_tokens_by_user_id user_id) in sret tt.

Definition create_user (rq : AdminRequest) (actor : AdminActor) : M response :=
  let! body := json_body rq in
  let username := py_strip (body_str "username" body) in
  let email := py_strip (body_str "email" body) in
  let password := body_str "password" body in
  if negb (truthy username) || negb (truthy email) || negb (truthy password)
  then sret (bad_request "username, email, password are required") else
  let! existing := query (get_user_by_username username) in
  match existing with
  | Some _ => sret (admin_error 409 "already_exists" "username already registered")
  | None =>
      let! valid := slift (is_valid_role (obj_get "role" body)) in
      let role := if valid then body_str "role" body else "user" in
      let enabled := match obj_get "enabled" body with Some v => json_truthy v | None => true end in
      let! password_hash := draw (fun n => argon2_hash n password) in
      let! now := sget a_wall in
      let! id := draw uuid4_hex in
      let user := mkUser id username password_hash email enabled role now now in
      insert (save_user user) !;
      audited rq actor "user.create" "user" id [("username", JStr username)] !;
      sret (admin_json 201 (user_response user))
  end.

Definition get_user (user_id : string) : M response :=
  let! found := query (get_user_by_id user_id) in
  sret match found with Some u => admin_json 200 (user_info u) | None => user_not_found end.

(** The fields a body updates, and their names in order. *)
Definition user_updates (now : Z) (body : pydict) (u : User) : User :=
  mkUser (u_id u) (u_username u) (u_password_hash u)
    (default (u_email u) (get_str "email" body))
    (match obj_get "enabled" body with Some (JBool b) => b | _ => u_enabled u end)
    (match get_str "role" body with Some r => if mem_str r valid_roles then r else u_role u | None => u_role u end)
    (u_created_at u) now.
Definition user_updated_fields (body : pydict) : list string :=
  (if obj_has "email" body then ["email"] else []) ++ (if obj_has "enabled" body then ["enabled"] else [])
  ++ (if from_option_b (fun r => mem_str r valid_roles) (get_str "role" body) then ["role"] else []).

Definition update_user_route (user_id : string) (rq : AdminRequest) (actor : AdminActor) : M response :=
  let! found := query (get_user_by_id user_id) in
  match found with
  | None => sret user_not_found
  | Some user =>
      let! body := json_body rq in
      match parse_body user_update_body body with
      | Some error => sret error
      | None =>
          let! now := sget a_wall in
          let updated := user_updates now body user in
          insert (update_user updated) !;
          (match obj_get "enabled" body with Some (JBool false) => revoke_by_user user_id | _ => sret tt end) !;
          audited rq actor "user.update" "user" (u_id user) [("fields", jstrs (user_updated_fields body))] !;
          sret (admin_json 200 (user_response updated))
      end
  end.

Definition delete_user_route (user_id : string) (rq : AdminRequest) (actor : AdminActor) : M response :=
  let! found := query (get_user_by_id user_id) in
  match found with
  | None => sret user_not_found
  | Some user =>
      update (delete_user user_id) !;
      revoke_by_user user_id !;
      audited rq actor "user.delete" "user" user_id [("username", JStr (u_username user))] !;
      sret (admin_json 200 [("message", JStr "User deleted")])
  end.

Definition set_user_enabled_route (user_id : string) (rq : AdminRequest) (actor : AdminActor) : M response :=
  let! body := json_body rq in
  match obj_get "enabled" body with
  | Some (JBool enabled) =>
      update (set_user_enabled user_id enabled) !;
      (if enabled then sret tt else revoke_by_user user_id) !;
      audited rq actor (if enabled then "user.enable" else "user.disable") "user" user_id [("enabled", JBool enabled)] !;
      sret (admin_json 200 [("enabled", JBool enabled)])
  | _ => sret (bad_request "enabled must be a boolean")
  end.

Definition set_user_role_route (user_id : string) (rq : AdminRequest) (actor : AdminActor) : M response :=
  let! body := json_body rq in
  let! valid := slift (is_valid_role (obj_get "role" body)) in
  if negb valid then sret (bad_request "role must be 'admin' or 'user'") else
  let role := body_str "role" body in
  update (set_user_role user_id role) !;
  audited rq actor "user.set_role" "user" user_id [("role", JStr role)] !;
  sret (admin_json 200 [("role", JStr role)]).

Definition reset_user_password (user_id : string) (rq : AdminRequest) (actor : AdminActor) : M response :=
  let! body := json_body rq in
  let password := body_str "password" body in
  if py_len password <? 8 then sret (admin_error 400 "weak_password" "password must be at least 8 characters") else
  let! password_hash := draw (fun n => argon2_hash n password) in
  update (set_user_password_hash user_id password_hash) !;
  revoke_by_user user_id !;
  audited rq actor "user.reset_password" "user" user_id [] !;
  sret (admin_json 200 [("message", JStr "Password reset")]).

(** ** Tokens *)
Definition token_info (now : Z) (t : Token) : pydict :=
  [("id", JStr (t_id t)); ("client_id", JStr (t_client_id t)); ("user_id", JStr (or_else (t_user_id t) EmptyString));
   ("scope", JStr (t_scope t)); ("expires_at", JStr (isoformat (t_expires_at t)));
   ("created_at", JStr (isoformat (t_created_at t))); ("revoked", JBool (t_revoked t));
   ("expired", JBool (negb (t_revoked t) && (t_expires_at t <=? now)))].

Definition get_token (token_id : string) : M response :=
  let! found := query (get_token_by_id token_id) in
  let! now := sget a_wall in
  sret match found with Some t => admin_json 200 (token_info now t) | None => not_found "token" end.

Definition revoke_token_by_id (token_id : string) (rq : AdminRequest) (actor : AdminActor) : M response :=
  let! found := query (get_token_by_id token_id) in
  match found with
  | Some token =>
      update (revoke_token (t_access_token token)) !;
      count_token_revoked !;
      audited rq actor "token.revoke" "token" (t_id token) []
  | None => sret tt
  end !;
  sret (admin_json 200 [("message", JStr "Token revoked")]).

Definition revoke_tokens_by (kind key action : string) (revoke : string -> Store -> Store * nat)
    (rq : AdminRequest) (actor : AdminActor) : M response :=
  let! body := json_body rq in
  let subject := body_str key body in
  let! count := update_count (revoke subject) in
  audited rq actor action kind subject [("revoked", JInt (Z.of_nat count))] !;
  sret (admin_json 200 [("revoked", JInt (Z.of_nat count))]).
Definition revoke_tokens_by_user : AdminRequest -> AdminActor -> M response :=
  revoke_tokens_by "user" "user_id" "token.bulk_revoke_by_user" revoke_tokens_by_user_id.
Definition revoke_tokens_by_client : AdminRequest -> AdminActor -> M response :=
  revoke_tokens_by "client" "client_id" "token.bulk_revoke_by_client" revoke_tokens_by_client_id.
End users.
