(* ===== verification/EventBus.v ===== *)
(** * The event bus and its ingest endpoint
    ([services/events_bus.py], [services/events.py], [routes/events.py])

    [asyncio.create_task] queues a fan-out; no plugin suspends, so a task runs
    in one piece, and tasks run in the order they were created.  A publication
    and the runs of the queued tasks interleave freely ([bus_step]).  The HTTP
    handlers run between two ticks of the clocks. *)
From S2P Require Import Prelude PyStr PyJson Codec Models IsoTime TtlStores Jwt App PyDumps Admin.
#[local] Open Scope Z_scope.

(** ** Models *)
Record AuthEvent := mkAuthEvent {
  ae_id : string;
  ae_event_type : string;
  ae_timestamp : string;
  ae_severity : string;
  ae_user_id : option string;
  ae_client_id : option string;
  ae_metadata : list (string * string);
  ae_error : option string
}.
Record EventEnvelope := mkEnvelope {
  ev_event : AuthEvent;
  ev_idempotency_key : option string;
  ev_traceparent : option string;
  ev_tracestate : option string;
  ev_correlation_id : string;
  ev_producer : string;
  ev_produced_at : string;
  ev_attributes : list (string * string)
}.
Definition effective_idempotency_key (e : EventEnvelope) : string :=
  let key := py_strip (default EmptyString (ev_idempotency_key e)) in
  if truthy key then key else ae_id (ev_event e).

(** [model_dump(mode="json")] *)
Definition jopt (o : option string) : json := match o with Some s => JStr s | None => JNull end.
Definition jdict (l : list (string * string)) : json := JObj (map (fun kv => (fst kv, JStr (snd kv))) l).
Definition event_dump (e : AuthEvent) : json :=
  JObj [("id", JStr (ae_id e)); ("event_type", JStr (ae_event_type e)); ("timestamp", JStr (ae_timestamp e));
        ("severity", JStr (ae_severity e)); ("user_id", jopt (ae_user_id e)); ("client_id", jopt (ae_client_id e));
        ("metadata", jdict (ae_metadata e)); ("error", jopt (ae_error e))].
Definition unless_none (k : string) (o : option string) : pydict :=
  match o with Some s => [(k, JStr s)] | None => [] end.
Definition envelope_dump (e : EventEnvelope) : json :=
  JObj ([("event", event_dump (ev_event e))]
        ++ unless_none "idempotency_key" (ev_idempotency_key e) ++ unless_none "traceparent" (ev_traceparent e)
        ++ unless_none "tracestate" (ev_tracestate e)
        ++ [("correlation_id", JStr (ev_correlation_id e)); ("producer", JStr (ev_producer e));
            ("produced_at", JStr (ev_produced_at e))]
        ++ match ev_attributes e with [] => [] | l => [("attributes", jdict l)] end).

(** *** Validation
    [None] is an input the field does not accept; a missing field takes its
    default, computed by a factory where the model names one. *)
Inductive field (A : Type) := Missing | Present (a : A).
Arguments Missing {A}.
Arguments Present {A} a.
Definition or_default {A} (d : A) (f : field A) : A := match f with Missing => d | Present a => a end.
Definition str_field (k : string) (m : pydict) : option (field string) :=
  match obj_get k m with None => Some Missing | Some (JStr s) => Some (Present s) | Some _ => None end.
Definition nullable_str_field (k : string) (m : pydict) : option (option string) :=
  match obj_get k m with
  | None | Some JNull => Some None
  | Some (JStr s) => Some (Some s)
  | Some _ => None
  end.
Fixpoint str_values (m : pydict) : option (list (string * string)) :=
  match m with
  | [] => Some []
  | (k, JStr s) :: m => l ← str_values m; Some ((k, s) :: l)
  | _ => None
  end.
Definition dict_field (k : string) (m : pydict) : option (list (string * string)) :=
  match obj_get k m with None => Some [] | Some (JObj d) => str_values d | Some _ => None end.

Section models.
Context `{Runtime}.
(** The factories. *)
Definition factory_id (f : field string) : M string :=
  match f with Present s => sret s | Missing => draw uuid4_hex end.
Definition factory_now (f : field string) : M string :=
  match f with Present s => sret s | Missing => let! now := sget a_wall in sret (isoformat now) end.

Definition event_of_json (v : json) : M (option AuthEvent) :=
  match v with
  | JObj m =>
      match (id ← str_field "id" m; ty ← str_field "event_type" m; ts ← str_field "timestamp" m;
             sev ← str_field "severity" m; u ← nullable_str_field "user_id" m; c ← nullable_str_field "client_id" m;
             md ← dict_field "metadata" m; er ← nullable_str_field "error" m;
             Some (id, ty, ts, sev, u, c, md, er)) with
      | Some (id, Present ty, ts, sev, u, c, md, er) =>
          let! id := factory_id id in
          let! ts := factory_now ts in
          sret (Some (mkAuthEvent id ty ts (py_lower (or_default "info" sev)) u c md er))
      | _ => sret None
      end
  | _ => sret None
  end.
(** [EventEnvelope.model_validate] *)
Definition envelope_of_json (v : json) : M (option EventEnvelope) :=
  match v with
  | JObj m =>
      match obj_get "event" m,
            (key ← nullable_str_field "idempotency_key" m; tp ← nullable_str_field "traceparent" m;
             ts ← nullable_str_field "tracestate" m; cid ← str_field "correlation_id" m;
             prod ← str_field "producer" m; at_ ← str_field "produced_at" m; attrs ← dict_field "attributes" m;
             Some (key, tp, ts, cid, prod, at_, attrs)) with
      | Some ev, Some (key, tp, ts, cid, prod, at_, attrs) =>
          let! ev := event_of_json ev in
          match ev with
          | None => sret None
          | Some ev =>
              let! cid := factory_id cid in
              let! at_ := factory_now at_ in
              sret (Some (mkEnvelope ev key tp ts cid (or_default "oauth2_server" prod) at_ attrs))
          end
      | _, _ => sret None
      end
  | _ => sret None
  end.
End models.

(** ** The filter *)
Inductive filter_mode := AllowAll | Include | Exclude.
Record EventFilter := mkFilter { f_mode : filter_mode; f_types : list string }.
Definition allow_all : EventFilter := mkFilter AllowAll [].
Definition should_emit (f : EventFilter) (event_type : string) : bool :=
  match f_mode f with
  | Include => mem_str event_type (f_types f)
  | Exclude => negb (mem_str event_type (f_types f))
  | AllowAll => true
  end.

(** ** Plugins and the bus
    The state the plugins share with the server: [sk_recent] is
    [app.state.events]. *)
Record Sinks := mkSinks {
  sk_memory : list AuthEvent;     (* oldest first *)
  sk_console : list string;       (* oldest first *)
  sk_recent : list json           (* newest first *)
}.
Definition MAX_EVENTS : nat := 1000.
(** [EventPlugin]: what the bus asks of a plugin. *)
Record EventPlugin := mkPlugin {
  pl_name : string;
  pl_emit : EventEnvelope -> ST Sinks exn unit;
  pl_health_check : ST Sinks exn bool
}.
(** [deque(maxlen=n)].append *)
Definition push_right {A} (n : nat) (l : list A) (a : A) : list A :=
  let l := l ++ [a] in skipn (length l - n) l.

Section plugins.
Context `{Runtime}.
Definition InMemoryEventLogger : EventPlugin :=
  mkPlugin "in_memory"
    (fun e => smod (fun s => mkSinks (push_right MAX_EVENTS (sk_memory s) (ev_event e)) (sk_console s) (sk_recent s)))
    (sret true).
Definition ConsoleEventLogger : EventPlugin :=
  mkPlugin "console"
    (fun e => smod (fun s => mkSinks (sk_memory s) (sk_console s ++ ["Event: " +:+ py_dumps (envelope_dump e)]) (sk_recent s)))
    (sret true).
Definition push_event (event : json) (l : list json) : list json := firstn RECENT_CAPACITY (event :: l).
Definition RecentEventsPlugin : EventPlugin :=
  mkPlugin "recent_events"
    (fun e => smod (fun s => mkSinks (sk_memory s) (sk_console s) (push_event (envelope_dump e) (sk_recent s))))
    (sret true).

Record EventBus := mkBus { b_plugins : list EventPlugin; b_filter : EventFilter }.
Definition build_event_bus (events_backend events_filter_mode : string) (events_types : list string) : EventBus :=
  let backend := py_lower (py_strip (if truthy events_backend then events_backend else "in_memory")) in
  let plugins :=
    if String.eqb backend "console" then [ConsoleEventLogger]
    else if String.eqb backend "both" then [InMemoryEventLogger; ConsoleEventLogger]
    else [InMemoryEventLogger] in
  let mode := py_lower (py_strip (if truthy events_filter_mode then events_filter_mode else "allow_all")) in
  mkBus (plugins ++ [RecentEventsPlugin])
    (if String.eqb mode "include" then mkFilter Include events_types
     else if String.eqb mode "exclude" then mkFilter Exclude events_types
     else allow_all).
End plugins.

(** [_fan_out]: an exception of a plugin is logged. *)
Fixpoint fan_out (plugins : list EventPlugin) (e : EventEnvelope) : ST Sinks exn unit :=
  match plugins with
  | [] => sret tt
  | p :: plugins => scatch (pl_emit p e) (fun _ => sret tt) !; fan_out plugins e
  end.
Fixpoint bus_health (plugins : list EventPlugin) : ST Sinks exn (list (string * bool)) :=
  match plugins with
  | [] => sret []
  | p :: plugins =>
      let! healthy := scatch (pl_health_check p) (fun _ => sret false) in
      let! rest := bus_health plugins in sret ((pl_name p, healthy) :: rest)
  end.
Definition get_plugin (name : string) (b : EventBus) : option EventPlugin :=
  List.find (fun p => String.eqb (pl_name p) name) (b_plugins b).

(** The queued tasks and the sinks. *)
Record BusState := mkBusState { bs_tasks : list EventEnvelope; bs_sinks : Sinks }.
Definition publish_best_effort (b : EventBus) (e : EventEnvelope) (s : BusState) : BusState :=
  if should_emit (b_filter b) (ae_event_type (ev_event e)) then mkBusState (bs_tasks s ++ [e]) (bs_sinks s) else s.
Inductive bus_step (b : EventBus) : BusState -> BusState -> list EventEnvelope -> Prop :=
| step_publish s e : bus_step b s (publish_best_effort b e s) [e]
| step_task s e tasks : bs_tasks s = e :: tasks ->
    bus_step b s (mkBusState tasks (snd (fan_out (b_plugins b) e (bs_sinks s)))) [].
(** A run and the envelopes published in it. *)
Inductive bus_run (b : EventBus) : BusState -> BusState -> list EventEnvelope -> Prop :=
| run_nil s : bus_run b s s []
| run_step s1 s2 s3 l1 l2 : bus_run b s1 s2 l1 -> bus_step b s2 s3 l2 -> bus_run b s1 s3 (l1 ++ l2).

(** ** Ingest idempotency *)
Definition IDEMPOTENCY_TTL : Z := 300.
Definition IDEMPOTENCY_MAX_ENTRIES : nat := 100000.
Definition seen_live (now t : Z) : bool := now - t <? IDEMPOTENCY_TTL * NS.
Definition is_duplicate_and_record (now : Z) (key : string) (m : gmap string Z) : bool * gmap string Z :=
  let m := sweep seen_live now m in
  let m := if (IDEMPOTENCY_MAX_ENTRIES <=? size m)%nat then ∅ else m in
  match m !! key with Some _ => (true, m) | None => (false, <[key := now]> m) end.

(** ** POST /events/ingest and GET /events/health *)
Record EventsConfig := mkEventsConfig {
  events_public_ingest : bool;
  events_ingest_bearer_token : option string
}.
Record IngestRequest := mkIngest {
  ig_authorization : option string;
  ig_idempotency_key : option string;
  ig_json : result exn json
}.
Record IngestState := mkIngestState {
  in_app : AppState;
  in_tasks : list EventEnvelope;
  in_seen : gmap string Z
}.

Definition extract_bearer (header : option string) : option string :=
  match bearer_value header with Some t => if truthy t then Some t else None | None => None end.
(** [s.encode("latin-1")] of a string of characters below 256. *)
Fixpoint latin1_bytes (s : string) : string :=
  match s with
  | String c (String d s' as r) =>
      let n := N_of_ascii c in
      if (n =? 194)%N then String d (latin1_bytes s')
      else if (n =? 195)%N then String (ascii_of_N (N_of_ascii d + 64)) (latin1_bytes s')
      else String c (latin1_bytes r)
  | _ => s
  end.
Definition bearer_matches (presented expected : string) : bool := String.eqb (latin1_bytes presented) expected.
Definition ingest_error (status : Z) (error : string) : response := mkResponse status (JObj [("error", JStr error)]) [].
Definition ingest_unauthorized : response :=
  mkResponse 401 (JObj [("error", JStr "invalid_token"); ("error_description", JStr "Missing or invalid bearer token")])
    [("WWW-Authenticate", "Bearer")].
Definition ingest_status (status key event_id : string) : response :=
  mkResponse 202 (JObj [("status", JStr status); ("idempotency_key", JStr key); ("event_id", JStr event_id)]) [].

(** The authentication of an ingest request: [Some] is the refusal. *)
Definition ingest_refusal (config : EventsConfig) (rq : IngestRequest) : option response :=
  if events_public_ingest config then None else
  if negb (truthy_o (events_ingest_bearer_token config)) then Some (ingest_error 503 "event_ingest_auth_not_configured") else
  match extract_bearer (ig_authorization rq) with
  | Some presented =>
      if bearer_matches presented (default EmptyString (events_ingest_bearer_token config)) then None else Some ingest_unauthorized
  | None => Some ingest_unauthorized
  end.

Section ingest.
Context `{Runtime}.
Context (config : EventsConfig) (bus : option EventBus).

Definition on_app {A} (m : M A) : ST IngestState exn A :=
  fun s => let '(r, a) := m (in_app s) in (r, mkIngestState a (in_tasks s) (in_seen s)).
Definition idempotency_key (rq : IngestRequest) (e : EventEnvelope) : string :=
  let header_key := py_strip (default EmptyString (ig_idempotency_key rq)) in
  if truthy header_key then header_key else effective_idempotency_key e.
Definition check_duplicate (key : string) : ST IngestState exn bool :=
  fun s => let '(dup, seen) := is_duplicate_and_record (a_mono (in_app s)) key (in_seen s) in
           (Ok dup, mkIngestState (in_app s) (in_tasks s) seen).
Definition publish (b : EventBus) (e : EventEnvelope) : ST IngestState exn unit :=
  smod (fun s => if should_emit (b_filter b) (ae_event_type (ev_event e))
                 then mkIngestState (in_app s) (in_tasks s ++ [e]) (in_seen s) else s).

Definition accept_envelope (b : EventBus) (rq : IngestRequest) (e : EventEnvelope) : ST IngestState exn response :=
  let key := idempotency_key rq e in
  let! duplicate := check_duplicate key in
  if duplicate then sret (ingest_status "duplicate" key (ae_id (ev_event e))) else
  on_app (push_recent (envelope_dump e)) !;
  publish b e !;
  sret (ingest_status "accepted" key (ae_id (ev_event e))).

Definition ingest (rq : IngestRequest) : ST IngestState exn response :=
  match ingest_refusal config rq with
  | Some r => sret r
  | None =>
      match bus with
      | None => sret (ingest_error 503 "eventing_disabled")
      | Some b =>
          match ig_json rq with
          | Err e => if is_value_error e then sret (ingest_error 400 "invalid_request") else sraise e
          | Ok body =>
              let! envelope := on_app (envelope_of_json body) in
              match envelope with
              | None => sret (ingest_error 400 "invalid_request")
              | Some e => accept_envelope b rq e
              end
          end
      end
  end.

Definition events_health : ST Sinks exn response :=
  match bus with
  | None => sret (mkResponse 200 (JObj [("enabled", JBool false); ("plugins", JList [])]) [])
  | Some b =>
      let! plugins := bus_health (b_plugins b) in
      sret (mkResponse 200 (JObj [("enabled", JBool true);
        ("plugins", JList (map (fun p => JObj [("name", JStr (fst p)); ("healthy", JBool (snd p))]) plugins))]) [])
  end.
End ingest.
