(* ===== verification/Tokens.v ===== *)
(** * Minting tokens and codes
    ([services/tokens.py], [services/id_token.py], [services/claims_request.py],
    [services/auth.py]) *)
From S2P Require Import Prelude PyStr PyJson Codec Models Storage TtlStores Keys Jwt App.
#[local] Open Scope Z_scope.

(** ** auth.py *)
Definition is_safe_redirect (url : option string) : bool :=
  match url with
  | None => false
  | Some url =>
      if negb (truthy url) then false else
      let url := py_strip url in
      if negb (py_startswith "/" url) then false
      else if py_startswith "//" url then false
      else negb (py_contains_char "\" url)
  end.

Definition scope_is_subset (requested allowed : string) : bool :=
  forallb (fun x => mem_str x (py_split allowed)) (py_split requested).

(** [x in set(scope.split())] *)
Definition in_scope (x scope : string) : bool := mem_str x (py_split scope).

(** ** claims_request.py *)
Record ClaimsSelection := mkSelection {
  sel_requested : list string;
  sel_constraints : list (string * list json);
  sel_essential : list string
}.
Definition no_selection : ClaimsSelection := mkSelection [] [] [].

(** [value == x] for a string or an integer value: a number equals an integer
    whatever its JSON type. *)
Definition py_eq_value (value x : json) : bool :=
  match value, x with
  | JStr s, JStr t => String.eqb s t
  | JInt n, JInt m => n =? m
  | JInt n, JBool b => n =? (if b then 1 else 0)
  | JInt n, JFloat m e => if 0 <=? e then n =? m * 10 ^ e else n * 10 ^ (- e) =? m
  | _, _ => false
  end.

(** [ClaimsSelection.allows]; the debug log of an essential claim is dropped. *)
Definition allows (sel : ClaimsSelection) (name : string) (value : json) : bool :=
  match List.find (fun kv => String.eqb (fst kv) name) (sel_constraints sel) with
  | None => true
  | Some (_, allowed) => existsb (py_eq_value value) allowed
  end.

Definition supported_id_token : list (string * option string) :=
  [("acr", None); ("auth_time", None); ("email", Some "email"); ("preferred_username", Some "profile")].
Definition supported_userinfo : list (string * option string) :=
  [("email", Some "email"); ("preferred_username", Some "profile")].

(** The body of the [for name, required_scope in supported.items()] loop. *)
Definition select_one (members : pydict) (scope : string) (sel : ClaimsSelection)
    (entry : string * option string) : ClaimsSelection :=
  let '(name, required_scope) := entry in
  match obj_get name members with
  | None => sel
  | Some spec =>
      if match required_scope with Some r => negb (in_scope r scope) | None => false end then sel else
      let requested := sel_requested sel ++ [name] in
      match spec with
      | JObj spec =>
          mkSelection requested
            (match obj_get "value" spec, obj_get "values" spec with
             | Some v, _ => sel_constraints sel ++ [(name, [v])]
             | None, Some (JList l) => sel_constraints sel ++ [(name, l)]
             | None, _ => sel_constraints sel
             end)
            (match obj_get "essential" spec with
             | Some (JBool true) => sel_essential sel ++ [name]
             | _ => sel_essential sel
             end)
      | _ => mkSelection requested (sel_constraints sel) (sel_essential sel)
      end
  end.

Definition select (limit : nat) (claims_request : option string) (scope member : string)
    (supported : list (string * option string)) : ClaimsSelection :=
  if negb (truthy_o claims_request) then no_selection else
  match json_loads limit (default EmptyString claims_request) with
  | Ok (JObj document) =>
      match get_obj member document with
      | Some members => fold_left (select_one members scope) supported no_selection
      | None => no_selection
      end
  | _ => no_selection
  end.

Definition select_id_token_claims (limit : nat) (claims_request : option string) (scope : string) :=
  select limit claims_request scope "id_token" supported_id_token.
Definition select_userinfo_claims (limit : nat) (claims_request : option string) (scope : string) :=
  select limit claims_request scope "userinfo" supported_userinfo.

Section tokens.
Context `{JwtLib} `{Runtime}.
Context (config : Config).

(** ** id_token.py *)

(** [value is not None and not allows(name, value)] drops the claim. *)
Definition keep_claim {A} (sel : option ClaimsSelection) (name : string) (f : A -> json) (v : option A)
  : option A :=
  match v, sel with
  | Some a, Some sel => if allows sel name (f a) then Some a else None
  | _, _ => v
  end.

(** The claims [mint_id_token] signs. *)
Definition id_token_claims (now : Z) (client : Client) (user_id : string) (user : option User)
    (scope : string) (nonce access_token code acr : option string) (amr : option (list string))
    (auth_time : option Z) (sel : option ClaimsSelection) : IdTokenClaims :=
  let iat := unix_secs now in
  let email := match user with
               | Some u => if in_scope "email" scope then Some (u_email u) else None
               | None => None
               end in
  let username := match user with
                  | Some u => if in_scope "profile" scope then Some (u_username u) else None
                  | None => None
                  end in
  {| ic_iss := issuer config; ic_sub := user_id; ic_aud := c_client_id client;
     ic_exp := iat + access_token_ttl_secs config; ic_iat := iat; ic_nonce := nonce;
     ic_at_hash := option_map half_hash access_token;
     ic_c_hash := option_map half_hash code;
     ic_email := keep_claim sel "email" JStr email;
     ic_preferred_username := keep_claim sel "preferred_username" JStr username;
     ic_acr := keep_claim sel "acr" JStr acr; ic_amr := amr;
     ic_auth_time := keep_claim sel "auth_time" JInt auth_time |}.

Definition mint_id_token (now : Z) (keyset : option KeySet) (client : Client) (user_id : string)
    (user : option User) (scope : string) (nonce access_token code acr : option string)
    (amr : option (list string)) (auth_time : option Z) (sel : option ClaimsSelection)
  : result exn string :=
  encode_id_token now
    (id_token_claims now client user_id user scope nonce access_token code acr amr auth_time sel)
    (jwt_secret config) (default_id_token_alg config) (id_token_private_key_pem config)
    (id_token_kid config) keyset.

(** ** tokens.py *)

(** The optional arguments of [TokenService.issue]. *)
Record IssueArgs := mkIssue {
  is_with_refresh : bool;
  is_token_family : option string;
  is_cnf : option pydict;
  is_authorization_details : option (list pydict);
  is_act : option pydict;
  is_resource : option string;
  is_audience : option (list string)
}.

Definition bound {A} (o : option A) : option A := if access_tokens_opaque config then None else o.

(** [user_id or client.client_id] *)
Definition subject_of (client : Client) (user_id : option string) : string :=
  or_else user_id (c_client_id client).

Definition issued_claims (now : Z) (jti : string) (client : Client) (user_id : option string)
    (scope : string) (a : IssueArgs) : Claims :=
  claims_new now jti (subject_of client user_id) (c_client_id client) scope
    (access_token_ttl_secs config) (issuer config) (bound (is_cnf a))
    (bound (is_authorization_details a)) (bound (is_act a)) (is_resource a) (is_audience a).

(** The current RS256 key, else the current HS256 key. *)
Definition signing_key_of (now : Z) (ks : KeySet) : option SigningKey :=
  match current_for_alg now "RS256" ks with
  | Some k => Some k
  | None => current_for_alg now "HS256" ks
  end.

Definition make_access_token (client : Client) (user_id : option string) (scope : string)
    (a : IssueArgs) : M string :=
  if access_tokens_opaque config then draw token_urlsafe else
  let! now := sget a_wall in
  let! jti := draw uuid4_hex in
  let! ks := sget a_keyset in
  slift (encode_access_token (issued_claims now jti client user_id scope a) (jwt_secret config)
           (signing_key_of now ks)).

(** [bound_cnf and bound_cnf.get("jkt")] *)
Definition is_dpop_bound (cnf : option pydict) : bool :=
  match cnf with
  | Some m => match obj_get "jkt" m with Some j => json_truthy j | None => false end
  | None => false
  end.

Definition issue (client : Client) (user_id : option string) (scope : string) (a : IssueArgs)
  : M TokenResponse :=
  let! access_token := make_access_token client user_id scope a in
  let! refresh_token := if is_with_refresh a then let! r := draw token_urlsafe in sret (Some r)
                        else sret None in
  let! now := sget a_wall in
  let! id := draw uuid4_hex in
  let token := {| t_id := id; t_access_token := access_token; t_refresh_token := refresh_token;
                  t_token_type := "Bearer"; t_expires_in := access_token_ttl_secs config;
                  t_scope := scope; t_client_id := c_client_id client; t_user_id := user_id;
                  t_created_at := now; t_expires_at := plus_secs now (access_token_ttl_secs config);
                  t_revoked := false; t_token_family := is_token_family a |} in
  insert (save_token token) !;
  sret {| tr_access_token := access_token; tr_refresh_token := refresh_token;
          tr_token_type := if is_dpop_bound (bound (is_cnf a)) then "DPoP" else "Bearer";
          tr_expires_in := access_token_ttl_secs config; tr_scope := Some scope;
          tr_id_token := None;
          tr_authorization_details := bound (is_authorization_details a) |}.

(** ** AuthorizeService.issue_code *)
Definition issue_code (client : Client) (user_id redirect_uri scope : string)
    (code_challenge code_challenge_method nonce authorization_details resource claims_request
     dpop_jkt : option string) : M AuthorizationCode :=
  let! now := sget a_wall in
  let! id := draw uuid4_hex in
  let! code := draw token_urlsafe in
  let! family := draw uuid4_hex in
  let auth_code := {| ac_id := id; ac_code := code; ac_client_id := c_client_id client;
    ac_user_id := user_id; ac_redirect_uri := redirect_uri; ac_scope := scope; ac_created_at := now;
    ac_expires_at := plus_secs now (authorization_code_ttl_secs config); ac_used := false;
    ac_code_challenge := code_challenge; ac_code_challenge_method := code_challenge_method;
    ac_nonce := nonce; ac_resource := resource; ac_authorization_details := authorization_details;
    ac_claims_request := claims_request; ac_token_family := Some family; ac_dpop_jkt := dpop_jkt |} in
  insert (save_authorization_code auth_code) !;
  sret auth_code.
End tokens.

(** ** Lemmas *)
Lemma scope_is_subset_spec requested allowed :
  scope_is_subset requested allowed = true <->
  forall x, In x (py_split requested) -> In x (py_split allowed).
Proof.
  unfold scope_is_subset. rewrite forallb_forall. by setoid_rewrite mem_str_In.
Qed.
Lemma scope_is_subset_refl s : scope_is_subset s s = true.
Proof. by apply scope_is_subset_spec. Qed.
Lemma scope_is_subset_trans a b c :
  scope_is_subset a b = true -> scope_is_subset b c = true -> scope_is_subset a c = true.
Proof. rewrite !scope_is_subset_spec. auto. Qed.

(** What a successful [issue] did: drew its random values, saved exactly the
    row it describes and returned it. *)
Record issued `{Runtime} (config : Config) (client : Client) (user_id : option string) (scope : string)
    (a : IssueArgs) (t : TokenResponse) (s s' : AppState) : Prop := {
  iss_row : exists row, tokens (a_store s') = tokens (a_store s) ++ [row]
    /\ t_access_token row = tr_access_token t /\ t_refresh_token row = tr_refresh_token t
    /\ t_scope row = scope /\ t_client_id row = c_client_id client /\ t_user_id row = user_id
    /\ t_revoked row = false /\ t_token_family row = is_token_family a
    /\ t_created_at row = a_wall s
    /\ t_expires_at row = plus_secs (a_wall s) (access_token_ttl_secs config);
  iss_store : exists rows, a_store s' = on_tokens (fun _ => rows) (a_store s);
  iss_refresh : tr_refresh_token t = None <-> is_with_refresh a = false;
  iss_scope : tr_scope t = Some scope;
  iss_wall : a_wall s' = a_wall s;
  iss_idt : tr_id_token t = None
}.

Lemma save_token_ok t st st' : save_token t st = Ok st' ->
  st' = on_tokens (fun _ => tokens st ++ [t]) st.
Proof. unfold save_token. destruct (existsb _ _); [done|]. by intros [= <-]. Qed.

Lemma make_access_token_frame `{JwtLib} `{Runtime} config client user_id scope a s r s' :
  make_access_token config client user_id scope a s = (r, s') ->
  a_store s' = a_store s /\ a_wall s' = a_wall s.
Proof.
  unfold make_access_token. destruct (access_tokens_opaque config); intros Hm.
  - unfold draw in Hm. by injection Hm as <- <-.
  - run_simpl Hm. unfold draw in Hm. by injection Hm as <- <-.
Qed.

Lemma issue_ok `{JwtLib} `{Runtime} config client user_id scope a s t s' :
  issue config client user_id scope a s = (Ok t, s') -> issued config client user_id scope a t s s'.
Proof.
  intros Hi. unfold issue in Hi. unfold sbind at 1 in Hi.
  destruct (make_access_token config client user_id scope a s) as [[at_|e] s1] eqn:Hm; [|done].
  apply make_access_token_frame in Hm as [Hst Hw].
  destruct (is_with_refresh a) eqn:Hr; run_simpl Hi; unfold draw, insert in Hi; cbn [a_store with_draws a_wall a_draws] in Hi;
    (destruct (save_token _ (a_store s1)) as [st|e] eqn:Hs; [|done]); injection Hi as <- <-;
    apply save_token_ok in Hs; subst st; rewrite Hst, Hw;
    (constructor; cbn [a_store with_store tokens on_tokens tr_refresh_token tr_scope tr_id_token a_wall with_draws];
     [eexists; repeat split | eexists; reflexivity | rewrite Hr; split; intros ?; (done || discriminate)
     | done | done | done]).
Qed.

(** An [issue] that raises leaves the storage unchanged. *)
Lemma issue_err `{JwtLib} `{Runtime} config client user_id scope a s e s' :
  issue config client user_id scope a s = (Err e, s') -> a_store s' = a_store s.
Proof.
  intros Hi. unfold issue in Hi. unfold sbind at 1 in Hi.
  destruct (make_access_token config client user_id scope a s) as [[at_|e'] s1] eqn:Hm;
    apply make_access_token_frame in Hm as [Hst Hw]; [|by injection Hi as <- <-].
  destruct (is_with_refresh a) eqn:Hr; run_simpl Hi; unfold draw, insert in Hi; cbn [a_store with_draws a_wall a_draws] in Hi;
    (destruct (save_token _ (a_store s1)) as [st|e'] eqn:Hs; [done|]); by injection Hi as <- <-.
Qed.
