(* ===== verification/Dpop.v ===== *)
(** * DPoP proofs and nonces ([services/dpop.py], [services/dpop_nonce.py])

    The replay store itself is [Replay] of file TtlStores. *)
From S2P Require Import Prelude PyStr PyJson Codec Models Storage PyUrl TtlStores Keys Jwt App PyDumps.
From Stdlib Require Import QArith.
#[local] Open Scope Z_scope.

(** ** dpop.py *)
Definition DPOP_IAT_SKEW_SECS : Z := 300.
Definition allowed_algs : list string :=
  ["RS256"; "RS384"; "RS512"; "PS256"; "PS384"; "PS512"; "ES256"; "ES384"].

Record DpopValidated := mkValidated {
  v_jkt : string;
  v_nonce : option string;
  v_ath : option string
}.

Definition dpop_err (description : string) : exn := DpopError "invalid_dpop_proof" description.

Definition read_dpop_header (rq : Request) : result exn (option string) :=
  match rq_dpop rq with
  | None => Ok None
  | Some (Some v) => Ok (Some v)
  | Some None => Err (DpopError "invalid_request" "DPoP header is not valid UTF-8")
  end.

Section dpop.
Context `{JwtLib} `{Runtime}.
Context (check_bracketed_netloc : string -> bool).

Definition strip_query (url : string) : result exn string :=
  let? parts := urlsplit check_bracketed_netloc url in
  Ok (s_scheme parts +:+ "://" +:+ s_netloc parts +:+ rstrip_char "/" (s_path parts)).

(** The members a thumbprint is computed over; [None] when one is missing or
    the key type is not supported. *)
Definition thumbprint_members (jwk : pydict) : option pydict :=
  match get_str "kty" jwk with
  | Some kty =>
      if String.eqb kty "EC" then
        crv ← obj_get "crv" jwk; x ← obj_get "x" jwk; y ← obj_get "y" jwk;
        Some [("crv", crv); ("kty", JStr "EC"); ("x", x); ("y", y)]
      else if String.eqb kty "RSA" then
        e ← obj_get "e" jwk; n ← obj_get "n" jwk;
        Some [("e", e); ("kty", JStr "RSA"); ("n", n)]
      else if String.eqb kty "OKP" then
        crv ← obj_get "crv" jwk; x ← obj_get "x" jwk;
        Some [("crv", crv); ("kty", JStr "OKP"); ("x", x)]
      else None
  | None => None
  end.

Definition jwk_thumbprint (jwk : pydict) : result exn string :=
  match thumbprint_members jwk with
  | Some subset => Ok (urlsafe_b64encode_nopad (sha256 (json_dumps (JObj subset))))
  | None => Err (dpop_err "Unsupported JWK key type")
  end.

Definition access_token_hash (access_token : string) : string :=
  urlsafe_b64encode_nopad (sha256 access_token).

Definition build_verification_key (alg : string) (jwk : pydict) : result exn (jwt_key pub_key) :=
  if py_startswith "RS" alg || py_startswith "PS" alg then rsa_from_jwk jwk else ec_from_jwk jwk.

Definition dpop_options (alg : string) : decode_options :=
  mkOptions [alg] [] None ["htm"; "htu"; "iat"; "jti"] false false.

(** [alg not in _ALLOWED_ALGS]: an unhashable [alg] raises a [TypeError]. *)
Definition check_alg (alg : option json) : result exn string :=
  let unsupported := Err (dpop_err
    "DPoP proof uses unsupported algorithm (only RS256/RS384/RS512/PS256/PS384/PS512/ES256/ES384 allowed)") in
  match alg with
  | Some (JStr a) => if mem_str a allowed_algs then Ok a else unsupported
  | Some (JList _) | Some (JObj _) => Err (PyErr TypeError "unhashable type")
  | _ => unsupported
  end.

(** The checks of [validate_dpop_proof] up to the replay store: what it
    returns and the [jti] it records. *)
Definition check_proof (now : Z) (proof method url : string) (access_token : option string)
  : result exn (DpopValidated * string) :=
  let? header := rcatch (jwt_unverified_header proof) (fun e =>
    if is_jwt_decode_error e then Err (dpop_err "DPoP proof header is malformed") else Err e) in
  let typ := py_str_or_empty (obj_get "typ" header) in
  if negb (String.eqb (py_lower typ) "dpop+jwt")
  then Err (dpop_err ("DPoP proof typ must be " +:+ String dquote "dpop+jwt" +:+ String dquote EmptyString)) else
  match obj_get "jwk" header with
  | Some (JObj ((_ :: _) as jwk)) =>
      let? jkt := jwk_thumbprint jwk in
      let? alg := check_alg (obj_get "alg" header) in
      let? claims := rcatch
        (let? verify_key := build_verification_key alg jwk in
         jwt_decode now proof verify_key (dpop_options alg))
        (fun e => Err (dpop_err ("DPoP proof signature invalid: " +:+ exn_str e))) in
      let htm := py_str_or_empty (obj_get "htm" claims) in
      if negb (String.eqb (py_lower htm) (py_lower method))
      then Err (dpop_err "DPoP proof htm does not match request method") else
      let? htu := strip_query (py_str_or_empty (obj_get "htu" claims)) in
      let? expected_htu := strip_query url in
      if negb (String.eqb htu expected_htu)
      then Err (dpop_err "DPoP proof htu does not match request URI") else
      let ath := get_str "ath" claims in
      if match access_token with
         | Some t => negb (from_option_b (String.eqb (access_token_hash t)) ath)
         | None => false
         end
      then Err (dpop_err "DPoP proof ath does not match the presented access token") else
      match obj_get "iat" claims with
      | None => Err (PyErr KeyError "iat")
      | Some iat_claim =>
          match to_float iat_claim with
          | None => Err (dpop_err "DPoP proof iat must be a number")
          | Some iat =>
              let? iat := iat in
              if negb (within_skew now DPOP_IAT_SKEW_SECS iat)
              then Err (dpop_err "DPoP proof iat is outside the acceptance window") else
              match obj_get "nonce" claims with
              | None | Some JNull | Some (JStr _) =>
                  match obj_get "jti" claims with
                  | None => Err (PyErr KeyError "jti")
                  | Some jti => Ok (mkValidated jkt (get_str "nonce" claims) ath, py_str jti)
                  end
              | Some _ => Err (dpop_err "DPoP proof nonce must be a string")
              end
          end
      end
  | _ => Err (dpop_err "DPoP proof missing 'jwk' header claim")
  end.

Definition validate_dpop_proof (proof method url : string) (access_token : option string)
  : M DpopValidated :=
  let! now := sget a_wall in
  let! checked := slift (check_proof now proof method url access_token) in
  let '(validated, jti) := checked in
  (fun s => let '(r, m) := Replay.check_and_insert (a_mono s) jti (a_dpop_replay s) in
            (r, with_dpop_replay s m)) !;
  sret validated.
End dpop.

(** ** dpop_nonce.py *)
Definition BUCKET_LEN : nat := 8.
Definition TAG_LEN : nat := 16.
Definition NONCE_RAW_LEN : nat := 24.

Record DpopNonceIssuer := mkIssuer { n_secret : string; n_lifetime_secs : Z }.
Definition new_issuer (secret : string) (lifetime_secs : Z) : DpopNonceIssuer :=
  mkIssuer secret (Z.max 1 lifetime_secs).

Definition current_bucket (now : Z) (i : DpopNonceIssuer) : Z := unix_secs now / n_lifetime_secs i.

Definition tag_for_bucket (i : DpopNonceIssuer) (bucket_bytes : list N) : list N :=
  firstn TAG_LEN (bytes_of (hmac_sha256 (n_secret i) (string_of bucket_bytes))).

Definition encode_bucket (i : DpopNonceIssuer) (bucket_id : Z) : string :=
  let bucket_bytes := Sha256.be_bytes BUCKET_LEN (Z.to_N bucket_id) in
  b64url_nopad (bucket_bytes ++ tag_for_bucket i bucket_bytes).

Definition issue_nonce (now : Z) (i : DpopNonceIssuer) : string := encode_bucket i (current_bucket now i).

Definition verify_nonce (now : Z) (i : DpopNonceIssuer) (nonce : string) : result exn unit :=
  match urlsafe_b64decode (nonce +:+ b64_padding nonce) with
  | None => Err (DpopNonceError "invalid" "DPoP nonce is not valid base64url")
  | Some raw =>
      let raw := bytes_of raw in
      if negb (length raw =? NONCE_RAW_LEN)%nat
      then Err (DpopNonceError "invalid" "DPoP nonce has incorrect length") else
      let bucket_bytes := firstn BUCKET_LEN raw in
      let tag := skipn BUCKET_LEN raw in
      if negb (bool_decide (tag = tag_for_bucket i bucket_bytes))
      then Err (DpopNonceError "invalid" "DPoP nonce signature mismatch") else
      let bucket_id := Z.of_N (from_be bucket_bytes) in
      let current := current_bucket now i in
      if (bucket_id =? current) || (bucket_id =? current - 1) then Ok tt
      else Err (DpopNonceError "stale" "DPoP nonce is expired or not yet valid")
  end.

Definition use_dpop_nonce_response (now : Z) (i : DpopNonceIssuer) (description : string) : response :=
  mkResponse 400 (JObj [("error", JStr "use_dpop_nonce"); ("error_description", JStr description)])
    [("DPoP-Nonce", issue_nonce now i)].

Definition enforce_dpop_nonce (now : Z) (validated : DpopValidated) (i : DpopNonceIssuer)
  : result exn (option response) :=
  match v_nonce validated with
  | None => Ok (Some (use_dpop_nonce_response now i "DPoP proof must include a server-issued nonce"))
  | Some nonce =>
      match verify_nonce now i nonce with
      | Ok _ => Ok None
      | Err (DpopNonceError kind d) =>
          if String.eqb kind "stale"
          then Ok (Some (use_dpop_nonce_response now i "DPoP nonce is expired; retry with a fresh nonce"))
          else Err (dpop_err d)
      | Err e => Err e
      end
  end.
