(* ===== verification/ClientAuth.v ===== *)
(** * Client authentication
    ([services/clients.py], [services/client_assertion.py],
    [services/jwks_cache.py], [services/mtls.py],
    [middleware.check_subject_denylisted])

    The answers of the network are a parameter: [http_get url] at a time is a
    response or a transport error. *)
From S2P Require Import Prelude PyStr PyJson Codec Models Storage PyUrl TtlStores Keys Jwt App Tokens.
#[local] Open Scope Z_scope.

Definition invalid_client (description : string) : exn :=
  OAuthError "invalid_client" (Some description) 400.

(** ** mtls.py *)
Definition thumbprint_header (rq : Request) : option string :=
  match header_get "x-client-cert-thumbprint" rq with
  | None => None
  | Some v => let v := py_strip v in if truthy v then Some v else None
  end.
Definition subject_dn_header (rq : Request) : option string :=
  match header_get "x-ssl-client-s-dn" rq with
  | None => None
  | Some v => if truthy v then Some v else None
  end.
Definition mtls_headers (rq : Request) (config : Config) : option string * option string :=
  if negb (trust_proxy_headers config) then (None, None)
  else (thumbprint_header rq, subject_dn_header rq).

(** ** The denylist ([middleware.check_subject_denylisted]); an unreachable
    storage reads as "not denylisted". *)
Definition check_subject_denylisted (now : Z) (kind value : string) (st : Store) : option string :=
  if negb (truthy value) then None else
  match find_denylist_entry now kind value st with
  | None => None
  | Some e => Some (dl_reason e)
  end.

(** ** jwks_cache.py *)
Record HttpResponse := mkHttp { h_status : Z; h_cache_control : option string; h_text : string }.
(** [None] is a raised [httpx.HTTPError]. *)
Class Http := { http_get : Z -> string -> option HttpResponse }.

Definition DEFAULT_TTL_SECS : Z := 300.
Definition MIN_TTL_SECS : Z := 30.
Definition MAX_TTL_SECS : Z := 86400.
Definition max_age_prefix : string := "max-age=".

(** Digits outside ASCII are not modelled. *)
Definition parse_cache_control_max_age (cache_control : option string) : result exn Z :=
  let clamp secs := Z.min (Z.max secs MIN_TTL_SECS) MAX_TTL_SECS in
  if negb (truthy_o cache_control) then Ok (clamp DEFAULT_TTL_SECS) else
  match List.find (py_startswith max_age_prefix)
          (map py_strip (py_split_on "," (default EmptyString cache_control))) with
  | None => Ok (clamp DEFAULT_TTL_SECS)
  | Some d =>
      let value := py_drop 8 d in
      if truthy value && all_chars is_ascii_digit value then
        if INT_MAX_STR_DIGITS <? py_len value then Err (PyErr ValueError "int too long")
        else Ok (clamp (fst (fst (scan_digits 0 0 value))))
      else Ok (clamp DEFAULT_TTL_SECS)
  end.

Section clients.
Context `{JwtLib} `{Runtime} `{Http}.
Context (config : Config).

(** [_fetch_from_url] *)
Definition fetch_from_url (mono : Z) (url : string) : result exn (pydict * Z) :=
  match http_get mono url with
  | None => Err (invalid_client "Failed to fetch jwks_uri")
  | Some resp =>
      if negb ((200 <=? h_status resp) && (h_status resp <=? 299))
      then Err (invalid_client "Failed to fetch jwks_uri") else
      let? ttl := parse_cache_control_max_age (h_cache_control resp) in
      let? document := rcatch (py_json_loads json_limit (h_text resp)) (fun e =>
        if is_value_error e then Err (invalid_client "jwks_uri returned an invalid JWKS document")
        else Err e) in
      match document with
      | JObj m =>
          match obj_get "keys" m with
          | Some (JList _) => Ok (m, ttl)
          | _ => Err (invalid_client "jwks_uri returned an invalid JWKS document")
          end
      | _ => Err (invalid_client "jwks_uri returned an invalid JWKS document")
      end
  end.

(** [JwksCache.fetch] *)
Definition jwks_fetch (url : string) : M pydict :=
  let! mono := sget a_mono in
  let! entry := sget (fun s => a_jwks_cache s !! url) in
  let refetch :=
    let! fetched := slift (fetch_from_url mono url) in
    let '(document, ttl) := fetched in
    smod (fun s => with_jwks_cache s (<[url := (document, mono + ttl * NS)]> (a_jwks_cache s))) !;
    sret document in
  match entry with
  | Some (document, expiry) => if mono <? expiry then sret document else refetch
  | None => refetch
  end.

(** The cache is always present ([ClientService.from_app]). *)
Definition resolve_client_jwks (client : Client) (methods : list string) : M (option json) :=
  if negb (mem_str (c_token_endpoint_auth_method client) methods) then sret None else
  let inline := py_strip (c_jwks client) in
  if truthy inline then
    slift (rcatch (rmap Some (py_json_loads json_limit inline)) (fun e =>
      if is_value_error e then Err (invalid_client "Client inline JWKS is not valid JSON") else Err e))
  else
    let uri := py_strip (c_jwks_uri client) in
    if truthy uri then let! doc := jwks_fetch uri in sret (Some (JObj doc))
    else sraise (invalid_client ("Client must register jwks or jwks_uri for "
                                 +:+ c_token_endpoint_auth_method client)).

(** ** client_assertion.py *)
Definition jwt_bearer_assertion_type : string :=
  "urn:ietf:params:oauth:client-assertion-type:jwt-bearer".

Definition alg_for_method (method : string) : option string :=
  if String.eqb method "client_secret_jwt" then Some "HS256"
  else if String.eqb method "private_key_jwt" then Some "RS256" else None.

(** [k.get(name) == v] *)
Definition member_eqb (name : string) (v : json) (k : pydict) : bool :=
  match obj_get name k with Some j => json_eqb j v | None => json_eqb JNull v end.

Definition find_jwk (p : pydict -> bool) (keys : list json) : option pydict :=
  List.find p (omap as_obj keys).

Definition rsa_key_from_jwks (jwks : option json) (kid : option json) (error context : string)
  : result exn (jwt_key pub_key) :=
  let err d := OAuthError error (Some d) 400 in
  match jwks with
  | None | Some JNull => Err (err "Client must register jwks or jwks_uri for private_key_jwt")
  | Some jwks =>
      match as_obj jwks ≫= obj_get "keys" with
      | Some (JList keys) =>
          let? match_ :=
            match kid with
            | Some (JNull) | None =>
                match find_jwk (member_eqb "kty" (JStr "RSA")) keys with
                | Some k => Ok k
                | None => Err (err ("No RSA key found in client JWKS" +:+ context))
                end
            | Some kid =>
                match find_jwk (member_eqb "kid" kid) keys with
                | Some k => Ok k
                | None => Err (err ("No matching kid in client JWKS" +:+ context))
                end
            end in
          match rsa_from_jwk match_ with
          | Err _ => Err (err "Failed to construct RSA key from client JWKS")
          | Ok (PublicKey k) => Ok (PublicKey k)
          | Ok _ => Err (err "Client JWKS key is not an RSA public key")
          end
      | _ => Err (err "Client JWKS missing 'keys' array")
      end
  end.

(** [_enforce_jti_replay] *)
Definition enforce_jti_replay (client_id : string) (claims : pydict) : M unit :=
  match get_str "jti" claims with
  | None => sraise (invalid_client "client_assertion missing required jti claim (RFC 7523 §3)")
  | Some jti =>
      if negb (truthy jti)
      then sraise (invalid_client "client_assertion missing required jti claim (RFC 7523 §3)") else
      match obj_get "exp" claims with
      | None | Some (JBool _) => sraise (invalid_client "client_assertion missing exp claim")
      | Some exp =>
          match to_float exp with
          | None => sraise (invalid_client "client_assertion missing exp claim")
          | Some exp =>
              let! exp := slift exp in
              let! now := sget a_wall in
              let! mono := sget a_mono in
              let! guard := sget a_jti_guard in
              let '(r, guard) := Replay.observe mono client_id jti (remaining_ns now exp) guard in
              smod (fun s => with_guard s guard) !;
              match r with
              | Ok true => sret tt
              | Ok false => sraise (invalid_client "client_assertion jti has already been used")
              | Err JtiGuardFull => sraise (invalid_client "client_assertion replay guard unavailable")
              | Err e => sraise e
              end
          end
      end
  end.

Definition assertion_options (alg audience : string) : decode_options :=
  mkOptions [alg] [audience] None ["exp"; "sub"; "iss"; "aud"] true true.

Definition validate_client_assertion (client : Client) (assertion token_endpoint_url : string)
    (jwks : option json) : M unit :=
  let method := c_token_endpoint_auth_method client in
  match alg_for_method method with
  | None => sraise (invalid_client "Client is not configured for JWT authentication")
  | Some expected_alg =>
      let! header := slift (rcatch (jwt_unverified_header assertion) (fun e =>
        if is_jwt_error e then Err (invalid_client "Malformed client_assertion JWT") else Err e)) in
      if negb (member_eqb "alg" (JStr expected_alg) header)
      then sraise (invalid_client (method +:+ " requires " +:+ expected_alg +:+ " algorithm")) else
      let! key := slift (if String.eqb method "client_secret_jwt" then Ok (SecretKey (c_client_secret client))
                         else rsa_key_from_jwks jwks (obj_get "kid" header) "invalid_client" EmptyString) in
      let! now := sget a_wall in
      let! claims := slift (rcatch (jwt_decode now assertion key (assertion_options expected_alg token_endpoint_url))
        (fun e => if is_jwt_error e
                  then Err (invalid_client (method +:+ " validation failed: " +:+ exn_str e)) else Err e)) in
      if negb (member_eqb "iss" (JStr (c_client_id client)) claims)
         || negb (member_eqb "sub" (JStr (c_client_id client)) claims)
      then sraise (invalid_client "JWT iss/sub must equal client_id") else
      enforce_jti_replay (c_client_id client) claims
  end.

(** ** clients.py *)
Definition unknown_or_disabled_client_message : string := "unknown or disabled client".

Definition is_basic (authorization : string) : bool := py_startswith "basic " (py_lower authorization).

(** [_parse_basic_auth]: a non-ASCII credential is a plain [ValueError] of
    [b64decode], outside the two exceptions the code catches. *)
Definition parse_basic_auth (authorization_header : option string)
  : result exn (option (string * string)) :=
  let malformed := Err (invalid_client "malformed Basic auth header") in
  match authorization_header with
  | None => Ok None
  | Some h =>
      if negb (truthy h) || negb (is_basic h) then Ok None else
      let encoded := py_strip (py_drop 6 h) in
      if negb (is_ascii_str encoded)
      then Err (PyErr ValueError "string argument should contain only ASCII characters") else
      match b64decode encoded with
      | None => malformed
      | Some decoded =>
          if negb (utf8_valid decoded) then malformed else
          match py_partition ":" decoded with
          | (_, None) => malformed
          | (raw_client_id, Some raw_client_secret) =>
              Ok (Some (unquote_plus raw_client_id, unquote_plus raw_client_secret))
          end
      end
  end.

Definition emit_client_validated (client_id : string) (success : bool) : M unit :=
  emit_event "client_validated" None (Some client_id) "info"
    [("success", if success then "true" else "false")].

Definition authenticate_jwt (client : Client) (rq : Request) : M unit :=
  let assertion_type := form_get "client_assertion_type" rq in
  if negb (truthy_o assertion_type) then sraise (invalid_client "Missing client_assertion_type") else
  if negb (from_option_b (String.eqb jwt_bearer_assertion_type) assertion_type)
  then sraise (invalid_client "Unsupported client_assertion_type") else
  let assertion := form_get "client_assertion" rq in
  if negb (truthy_o assertion) then sraise (invalid_client "Missing client_assertion") else
  let! jwks := resolve_client_jwks client ["private_key_jwt"] in
  validate_client_assertion client (default EmptyString assertion)
    (rstrip_char "/" (issuer config) +:+ "/oauth/token") jwks.

(** [(jwks or {}).get("keys") or []], as far as it can be iterated. *)
Definition jwks_keys (jwks : option json) : result exn (list json) :=
  match jwks with
  | Some (JObj m) =>
      match obj_get "keys" m with
      | Some (JList l) => Ok l
      | Some (JObj _) | Some (JStr _) => Ok []
      | Some v => if json_truthy v then Err (PyErr TypeError "not iterable") else Ok []
      | None => Ok []
      end
  | Some v => if json_truthy v then Err (PyErr AttributeError "get") else Ok []
  | None => Ok []
  end.

Definition authenticate_self_signed_tls (client : Client) (thumbprint : option string) : M unit :=
  match thumbprint with
  | None => sraise (invalid_client "self_signed_tls_client_auth requires a TLS client certificate (X-Client-Cert-Thumbprint header missing)")
  | Some thumbprint =>
      let no_match := invalid_client "self_signed_tls_client_auth: certificate does not match a registered JWK" in
      if negb (truthy (py_strip (c_jwks client))) && negb (truthy (py_strip (c_jwks_uri client)))
      then sraise no_match else
      let! jwks := resolve_client_jwks client ["self_signed_tls_client_auth"] in
      let! keys := slift (jwks_keys jwks) in
      if existsb (fun k => match as_obj k ≫= get_str "x5t#S256" with
                           | Some registered => String.eqb registered thumbprint
                           | None => false
                           end) keys
      then sret tt else sraise no_match
  end.

Definition authenticate_tls_client_auth (client : Client) (thumbprint subject_dn : option string)
  : result exn unit :=
  match thumbprint with
  | None => Err (invalid_client "tls_client_auth requires a TLS client certificate (X-Client-Cert-Thumbprint header missing)")
  | Some _ =>
      let configured_dn := c_tls_client_certificate_subject_dn client in
      if negb (truthy configured_dn) then Ok tt else
      match subject_dn with
      | None => Err (invalid_client "tls_client_auth requires X-SSL-Client-S-DN header when Subject DN is configured")
      | Some dn => if String.eqb dn configured_dn then Ok tt
                   else Err (invalid_client "tls_client_auth: client certificate Subject DN does not match")
      end
  end.

(** The client_id and secret a request presents. *)
Definition presented_credentials (rq : Request) : result exn (option string * option string) :=
  let? basic := parse_basic_auth (header_get "authorization" rq) in
  let form_client_id := form_get "client_id" rq in
  let form_client_secret := form_get "client_secret" rq in
  let? ids :=
    match basic with
    | Some (client_id, client_secret) =>
        if truthy_o form_client_id && negb (from_option_b (String.eqb client_id) form_client_id)
        then Err (OAuthError "invalid_request" (Some "client_id mismatch") 400)
        else if truthy_o form_client_secret && negb (from_option_b (String.eqb client_secret) form_client_secret)
        then Err (invalid_client "client_secret mismatch")
        else Ok (Some client_id, Some client_secret)
    | None => Ok (form_client_id, form_client_secret)
    end in
  let '(client_id, client_secret) := ids in
  let? client_id :=
    if negb (truthy_o client_id)
    then unverified_assertion_subject (or_else (form_get "client_assertion" rq) EmptyString)
    else Ok client_id in
  Ok (client_id, client_secret).

(** The method-specific check of a client that was found, is enabled and is
    not denylisted. *)
Definition check_credentials (client : Client) (client_secret : option string)
    (rq : Request) (mtls : option string * option string) : M Client :=
  if is_public client then
    if truthy_o client_secret then
      emit_client_validated (c_client_id client) false !;
      sraise (invalid_client "public client must not present a secret")
    else emit_client_validated (c_client_id client) true !; sret client
  else
  let method := c_token_endpoint_auth_method client in
  if String.eqb method "client_secret_jwt" || String.eqb method "private_key_jwt" then
    authenticate_jwt client rq !; sret client
  else
  let '(thumbprint, subject_dn) := mtls in
  if String.eqb method "tls_client_auth" then
    slift (authenticate_tls_client_auth client thumbprint subject_dn) !; sret client
  else if String.eqb method "self_signed_tls_client_auth" then
    authenticate_self_signed_tls client thumbprint !; sret client
  else
  if negb (truthy_o client_secret)
     || negb (from_option_b (fun s => String.eqb s (c_client_secret client)) client_secret) then
    emit_client_validated (c_client_id client) false !;
    sraise (invalid_client "invalid client secret")
  else emit_client_validated (c_client_id client) true !; sret client.

(** [ClientService.authenticate] *)
Definition authenticate (rq : Request) (mtls : option string * option string) : M Client :=
  let! creds := slift (presented_credentials rq) in
  let '(client_id, client_secret) := creds in
  if negb (truthy_o client_id) then sraise (invalid_client "missing client_id") else
  let client_id := default EmptyString client_id in
  let! found := query (get_client client_id) in
  match found with
  | None => sraise (invalid_client unknown_or_disabled_client_message)
  | Some client =>
      if negb (c_enabled client) then sraise (invalid_client unknown_or_disabled_client_message) else
      let! now := sget a_wall in
      let! denylisted := query (check_subject_denylisted now "client_id" (c_client_id client)) in
      match denylisted with
      | Some _ => sraise (invalid_client unknown_or_disabled_client_message)
      | None => check_credentials client client_secret rq mtls
      end
  end.

(** ** Client authentication never touches the stored rows *)
Lemma quiet_jwks_fetch url : quiet (jwks_fetch url).
Proof. unfold jwks_fetch. quiet_walk. Qed.
Lemma quiet_resolve client methods : quiet (resolve_client_jwks client methods).
Proof. unfold resolve_client_jwks. pose proof quiet_jwks_fetch. quiet_walk. Qed.
Lemma quiet_enforce client_id claims : quiet (enforce_jti_replay client_id claims).
Proof. unfold enforce_jti_replay. quiet_walk. Qed.
Lemma quiet_assertion client assertion url jwks : quiet (validate_client_assertion client assertion url jwks).
Proof. unfold validate_client_assertion. pose proof quiet_enforce. quiet_walk. Qed.
Lemma quiet_check_credentials client secret rq mtls : quiet (check_credentials client secret rq mtls).
Proof.
  unfold check_credentials, authenticate_jwt, authenticate_self_signed_tls, emit_client_validated.
  pose proof quiet_assertion. pose proof quiet_resolve. quiet_walk.
Qed.
Lemma quiet_authenticate rq mtls : quiet (authenticate rq mtls).
Proof. unfold authenticate. pose proof quiet_check_credentials. quiet_walk. Qed.
End clients.
#[export] Hint Resolve quiet_authenticate quiet_jwks_fetch : oauth.
