(* ===== verification/Register.v ===== *)
(** * Dynamic client registration ([routes/register.py], RFC 7591) *)
From S2P Require Import Prelude PyStr PyJson Codec Models Storage PyUrl TtlStores Keys Jwt App PyDumps.
From S2P Require Import ClientAuth Redirects JwksUri.
#[local] Open Scope Z_scope.

(** ** The request model ([models.ClientRegistration]) *)
Record ClientRegistration := mkRegistration {
  rg_redirect_uris : list string;
  rg_client_name : string;
  rg_grant_types : list string;
  rg_response_types : list string;
  rg_scope : string;
  rg_token_endpoint_auth_method : string;
  rg_contacts : list string;
  rg_jwks : option pydict;
  rg_jwks_uri : option string;
  rg_tls_client_certificate_subject_dn : option string;
  rg_backchannel_logout_uri : option string;
  rg_backchannel_logout_session_required : bool;
  rg_frontchannel_logout_uri : option string;
  rg_frontchannel_logout_session_required : bool;
  rg_post_logout_redirect_uris : list string
}.

(** Pydantic's reading of a field: [None] is a validation error. *)
Definition field {A} (read : json -> option A) (d : option A) (k : string) (m : pydict) : option A :=
  match obj_get k m with Some v => read v | None => d end.
Definition read_strings (v : json) : option (list string) := l ← as_list v; all_strings l.
Definition read_optional {A} (read : json -> option A) (v : json) : option (option A) :=
  match v with JNull => Some None | v => option_map Some (read v) end.
Definition bool_words : list (string * bool) :=
  [("0", false); ("off", false); ("f", false); ("false", false); ("n", false); ("no", false);
   ("1", true); ("on", true); ("t", true); ("true", true); ("y", true); ("yes", true)].
Definition float_is (m e n : Z) : bool := if 0 <=? e then m * 10 ^ e =? n else m =? n * 10 ^ (- e).
Definition read_bool (v : json) : option bool :=
  match v with
  | JBool b => Some b
  | JInt 0 => Some false
  | JInt 1 => Some true
  | JFloat m e => if float_is m e 0 then Some false else if float_is m e 1 then Some true else None
  | JStr s => option_map snd (List.find (fun kv => String.eqb (fst kv) (py_lower s)) bool_words)
  | _ => None
  end.

Definition registration_of (body : json) : option ClientRegistration :=
  m ← as_obj body;
  redirect_uris ← field read_strings None "redirect_uris" m;
  client_name ← field as_str (Some EmptyString) "client_name" m;
  grant_types ← field read_strings (Some ["authorization_code"]) "grant_types" m;
  response_types ← field read_strings (Some ["code"]) "response_types" m;
  scope ← field as_str (Some EmptyString) "scope" m;
  method ← field as_str (Some "client_secret_basic") "token_endpoint_auth_method" m;
  contacts ← field read_strings (Some []) "contacts" m;
  logo_uri ← field (read_optional as_str) (Some None) "logo_uri" m;
  client_uri ← field (read_optional as_str) (Some None) "client_uri" m;
  policy_uri ← field (read_optional as_str) (Some None) "policy_uri" m;
  tos_uri ← field (read_optional as_str) (Some None) "tos_uri" m;
  jwks ← field (read_optional as_obj) (Some None) "jwks" m;
  jwks_uri ← field (read_optional as_str) (Some None) "jwks_uri" m;
  dn ← field (read_optional as_str) (Some None) "tls_client_certificate_subject_dn" m;
  bc ← field (read_optional as_str) (Some None) "backchannel_logout_uri" m;
  bcs ← field read_bool (Some false) "backchannel_logout_session_required" m;
  fc ← field (read_optional as_str) (Some None) "frontchannel_logout_uri" m;
  fcs ← field read_bool (Some false) "frontchannel_logout_session_required" m;
  plr ← field read_strings (Some []) "post_logout_redirect_uris" m;
  Some (mkRegistration redirect_uris client_name grant_types response_types scope method contacts jwks jwks_uri
          dn bc bcs fc fcs plr).

Definition valid_auth_methods : list string :=
  ["client_secret_basic"; "client_secret_jwt"; "client_secret_post"; "none"; "private_key_jwt";
   "self_signed_tls_client_auth"; "tls_client_auth"].
(** [f"... must be one of {sorted(VALID_AUTH_METHODS)}"] *)
Definition auth_method_error : string :=
  "token_endpoint_auth_method must be one of ['" +:+ join "', '" valid_auth_methods +:+ "']".
Definition JWKS_URI_ERROR : string := "jwks_uri must be an absolute https URL".
Definition SELF_SIGNED_REQUIRES_JWKS_ERROR : string := "self_signed_tls_client_auth requires jwks or jwks_uri".

Definition no_store_json (status : Z) (body : pydict) : response :=
  mkResponse status (JObj body) [("Cache-Control", "no-store")].
Definition registration_error (description : string) : response :=
  no_store_json 400 [("error", JStr "invalid_client_metadata"); ("error_description", JStr description)].
Definition registration_disabled : response :=
  no_store_json 403 [("error", JStr "access_denied");
                     ("error_description", JStr "dynamic client registration is disabled")].

Definition opt_member {A} (k : string) (f : A -> json) (o : option A) : pydict :=
  match o with Some a => [(k, f a)] | None => [] end.

Section register.
Context `{JwtLib} `{Runtime} `{Http}.
Context (cbn_ : string -> bool) (inet_aton : string -> option Z) (config : Config).

(** [all(_is_valid_redirect_uri(u) for u in l)] *)
Fixpoint all_valid_uris (l : list string) : result exn bool :=
  match l with
  | [] => Ok true
  | u :: l => let? ok := is_valid_redirect_uri cbn_ u in if ok then all_valid_uris l else Ok false
  end.
Definition valid_or_absent (uri : option string) : result exn bool :=
  if truthy_o uri then is_valid_redirect_uri cbn_ (default EmptyString uri) else Ok true.

Definition has_keys (reg : ClientRegistration) : bool :=
  bool_decide (is_Some (rg_jwks reg)) || truthy_o (rg_jwks_uri reg).
Definition rg_public (reg : ClientRegistration) : bool := String.eqb (rg_token_endpoint_auth_method reg) "none".

(** The checks in their order; [Some] is the description of the refusal. *)
Definition check_registration (reg : ClientRegistration) : result exn (option string) :=
  let method := rg_token_endpoint_auth_method reg in
  let? uris := all_valid_uris (rg_redirect_uris reg) in
  if bool_decide (rg_redirect_uris reg = []) || negb uris
  then Ok (Some "redirect_uris must be a non-empty list of absolute URLs") else
  let? ok := valid_or_absent (rg_backchannel_logout_uri reg) in
  if negb ok then Ok (Some "backchannel_logout_uri must be an absolute http(s) URL without fragment") else
  let? ok := valid_or_absent (rg_frontchannel_logout_uri reg) in
  if negb ok then Ok (Some "frontchannel_logout_uri must be an absolute http(s) URL without fragment") else
  let? ok := all_valid_uris (rg_post_logout_redirect_uris reg) in
  if negb ok then Ok (Some "post_logout_redirect_uris must be a list of absolute http(s) URLs without fragment") else
  if negb (mem_str method valid_auth_methods) then Ok (Some auth_method_error)
  else if String.eqb method "private_key_jwt" && negb (has_keys reg)
  then Ok (Some "private_key_jwt requires jwks or jwks_uri")
  else if String.eqb method "self_signed_tls_client_auth" && negb (has_keys reg)
  then Ok (Some SELF_SIGNED_REQUIRES_JWKS_ERROR)
  else if bool_decide (is_Some (rg_jwks reg)) && truthy_o (rg_jwks_uri reg)
  then Ok (Some "jwks and jwks_uri are mutually exclusive")
  else
  let dn := default EmptyString (rg_tls_client_certificate_subject_dn reg) in
  if truthy dn && negb (truthy (py_strip dn)) then Ok (Some "tls_client_certificate_subject_dn must not be blank") else
  let? ok := if truthy_o (rg_jwks_uri reg)
             then is_valid_jwks_uri cbn_ inet_aton (default EmptyString (rg_jwks_uri reg)) else Ok true in
  if negb ok then Ok (Some JWKS_URI_ERROR)
  else if rg_public reg && mem_str "client_credentials" (rg_grant_types reg)
  then Ok (Some ("public clients (token_endpoint_auth_method=none) cannot use the " +:+ "client_credentials grant"))
  else Ok None.

Definition dumps_strings (l : list string) : string := py_dumps (JList (map JStr l)).
Definition registered_client (reg : ClientRegistration) (now : Z) (id client_id client_secret access_token : string)
  : Client := {|
  c_id := id; c_client_id := client_id; c_client_secret := client_secret;
  c_redirect_uris := dumps_strings (rg_redirect_uris reg);
  c_grant_types := dumps_strings (rg_grant_types reg);
  c_scope := rg_scope reg; c_name := rg_client_name reg; c_created_at := now; c_updated_at := now;
  c_token_endpoint_auth_method := rg_token_endpoint_auth_method reg;
  c_registration_access_token := access_token;
  c_response_types := dumps_strings (rg_response_types reg);
  c_contacts := dumps_strings (rg_contacts reg);
  c_logo_uri := EmptyString; c_client_uri := EmptyString; c_policy_uri := EmptyString; c_tos_uri := EmptyString;
  c_jwks := match rg_jwks reg with Some ((_ :: _) as m) => py_dumps (JObj m) | _ => EmptyString end;
  c_jwks_uri := or_else (rg_jwks_uri reg) EmptyString;
  c_backchannel_logout_uri := or_else (rg_backchannel_logout_uri reg) EmptyString;
  c_backchannel_logout_session_required := rg_backchannel_logout_session_required reg;
  c_frontchannel_logout_uri := or_else (rg_frontchannel_logout_uri reg) EmptyString;
  c_frontchannel_logout_session_required := rg_frontchannel_logout_session_required reg;
  c_post_logout_redirect_uris := dumps_strings (rg_post_logout_redirect_uris reg);
  c_enabled := true; c_require_state := false;
  c_tls_client_certificate_subject_dn := or_else (rg_tls_client_certificate_subject_dn reg) EmptyString;
  c_dpop_nonce_required := false
|}.

(** [ClientRegistrationResponse(...).model_dump(exclude_none=True)] *)
Definition registration_response (reg : ClientRegistration) (c : Client) : response :=
  no_store_json 201
    ([("client_id", JStr (c_client_id c))]
     ++ (if rg_public reg then [] else [("client_secret", JStr (c_client_secret c))])
     ++ [("client_id_issued_at", JInt (unix_secs (c_created_at c)))]
     ++ (if rg_public reg then [] else [("client_secret_expires_at", JInt 0)])
     ++ [("registration_access_token", JStr (c_registration_access_token c));
         ("registration_client_uri", JStr (issuer config +:+ "/connect/register/" +:+ c_client_id c));
         ("redirect_uris", jstrs (rg_redirect_uris reg)); ("grant_types", jstrs (rg_grant_types reg));
         ("response_types", jstrs (rg_response_types reg));
         ("token_endpoint_auth_method", JStr (rg_token_endpoint_auth_method reg));
         ("client_name", JStr (rg_client_name reg)); ("scope", JStr (rg_scope reg))]
     ++ opt_member "jwks" JObj (rg_jwks reg) ++ opt_member "jwks_uri" JStr (rg_jwks_uri reg)
     ++ opt_member "tls_client_certificate_subject_dn" JStr (rg_tls_client_certificate_subject_dn reg)
     ++ opt_member "backchannel_logout_uri" JStr (rg_backchannel_logout_uri reg)
     ++ [("backchannel_logout_session_required", JBool (rg_backchannel_logout_session_required reg))]
     ++ opt_member "frontchannel_logout_uri" JStr (rg_frontchannel_logout_uri reg)
     ++ [("frontchannel_logout_session_required", JBool (rg_frontchannel_logout_session_required reg));
         ("post_logout_redirect_uris", jstrs (rg_post_logout_redirect_uris reg))]).

Definition register_valid (reg : ClientRegistration) : M response :=
  let! now := sget a_wall in
  let! client_id := draw token_urlsafe in
  let! client_secret := if rg_public reg then sret EmptyString else draw token_urlsafe in
  let! access_token := draw token_urlsafe in
  let! id := draw uuid4_hex in
  let client := registered_client reg now id client_id client_secret access_token in
  insert (save_client client) !;
  emit_event "client_registered" None (Some client_id) "info"
    [("client_name", rg_client_name reg); ("scope", rg_scope reg)] !;
  sret (registration_response reg client).

(** [body] is the outcome of [request.json()]. *)
Definition register_client (body : result exn json) : M response :=
  if negb (dynamic_registration_enabled config) then sret registration_disabled else
  match body with
  | Err e => if is_value_error e then sret (registration_error "invalid registration request") else sraise e
  | Ok body =>
      match registration_of body with
      | None => sret (registration_error "invalid registration request")
      | Some reg =>
          let! refused := slift (check_registration reg) in
          match refused with
          | Some description => sret (registration_error description)
          | None => register_valid reg
          end
      end
  end.
End register.
