(* ===== verification/AdminClients.v ===== *)
(** * Admin: clients ([routes/admin/clients.py]) *)
From S2P Require Import Prelude PyStr PyJson Codec Models IsoTime Storage Paging PyUrl TtlStores Keys Jwt App PyDumps.
From S2P Require Import ClientAuth Redirects JwksUri Register Admin.
#[local] Open Scope Z_scope.

(** [ClientUpdateBody] *)
Definition client_update_body : list body_field :=
  [("name", strict_str); ("redirect_uris", strict_list); ("grant_types", strict_list); ("scope", strict_str);
   ("token_endpoint_auth_method", strict_str); ("enabled", strict_bool); ("jwks", any_dict); ("jwks_uri", strict_str);
   ("tls_client_certificate_subject_dn", strict_str); ("backchannel_logout_uri", strict_str);
   ("frontchannel_logout_uri", strict_str); ("post_logout_redirect_uris", strict_list)].

Definition client_not_found : response := not_found "client".
Definition BLANK_SUBJECT_DN_ERROR : string := "tls_client_certificate_subject_dn must not be blank".
Definition default_grant_types : json := JList [JStr "authorization_code"; JStr "refresh_token"].

Definition blank_dn (dn : string) : bool := truthy dn && negb (truthy (py_strip dn)).

Section validation.
Context `{Runtime}.
Context (cbn_ : string -> bool) (inet_aton : string -> option Z).

(** A submitted list of URIs; [None]: not provided. *)
Definition validate_uri_list (name : string) (uris : option json) : result exn (option response) :=
  match uris with
  | None => Ok None
  | Some v =>
      match l ← as_list v; all_strings l with
      | None => Ok (Some (bad_request (name +:+ " must be a list of strings")))
      | Some l =>
          let? ok := all_valid_uris cbn_ l in
          Ok (if ok then None else Some (bad_request (name +:+ " must be absolute http(s) URLs without fragments")))
      end
  end.
Definition validate_uri (name : string) (uri : option string) : result exn (option response) :=
  let? ok := valid_or_absent cbn_ uri in
  Ok (if ok then None else Some (bad_request (name +:+ " must be an absolute http(s) URL without a fragment"))).

(** The first refusal of a sequence of checks. *)
Definition first_refusal (check next : result exn (option response)) : result exn (option response) :=
  let? refused := check in match refused with Some r => Ok (Some r) | None => next end.

Definition validate_redirect_uris (redirect_uris : option json) (backchannel frontchannel : option string)
    (post_logout : option json) : result exn (option response) :=
  first_refusal (validate_uri_list "redirect_uris" redirect_uris)
    (first_refusal (validate_uri "backchannel_logout_uri" backchannel)
      (first_refusal (validate_uri "frontchannel_logout_uri" frontchannel)
        (validate_uri_list "post_logout_redirect_uris" post_logout))).

Definition validate_key_material (auth_method jwks_json jwks_uri : string) : result exn (option response) :=
  if negb (mem_str auth_method valid_auth_methods) then Ok (Some (bad_request auth_method_error)) else
  if truthy jwks_json && truthy jwks_uri then Ok (Some (bad_request "jwks and jwks_uri are mutually exclusive")) else
  let? uri_ok := if truthy jwks_uri then is_valid_jwks_uri cbn_ inet_aton jwks_uri else Ok true in
  if negb uri_ok then Ok (Some (bad_request JWKS_URI_ERROR)) else
  let keyless := negb (truthy jwks_json) && negb (truthy jwks_uri) in
  if String.eqb auth_method "private_key_jwt" && keyless
  then Ok (Some (bad_request "private_key_jwt requires jwks or jwks_uri")) else
  if String.eqb auth_method "self_signed_tls_client_auth" && keyless
  then Ok (Some (bad_request SELF_SIGNED_REQUIRES_JWKS_ERROR))
  else Ok None.
End validation.

(** [body.get(k) or d] where a string is required; [None]: another type. *)
Definition str_or (k d : string) (body : pydict) : option string :=
  match obj_get k body with
  | Some v => if json_truthy v then as_str v else Some d
  | None => Some d
  end.

Definition client_info (c : Client) : pydict :=
  [("id", JStr (c_id c)); ("client_id", JStr (c_client_id c)); ("name", JStr (c_name c)); ("scope", JStr (c_scope c));
   ("grant_types", JStr (c_grant_types c)); ("token_endpoint_auth_method", JStr (c_token_endpoint_auth_method c));
   ("redirect_uris", JStr (c_redirect_uris c)); ("jwks_uri", JStr (c_jwks_uri c));
   ("created_at", JStr (isoformat (c_created_at c)))].
Definition client_detail (c : Client) : pydict :=
  [("id", JStr (c_id c)); ("client_id", JStr (c_client_id c)); ("name", JStr (c_name c)); ("scope", JStr (c_scope c));
   ("grant_types", JStr (c_grant_types c)); ("redirect_uris", JStr (c_redirect_uris c));
   ("token_endpoint_auth_method", JStr (c_token_endpoint_auth_method c)); ("response_types", JStr (c_response_types c));
   ("contacts", JStr (c_contacts c)); ("logo_uri", JStr (c_logo_uri c)); ("client_uri", JStr (c_client_uri c));
   ("policy_uri", JStr (c_policy_uri c)); ("tos_uri", JStr (c_tos_uri c)); ("jwks", JStr (c_jwks c));
   ("jwks_uri", JStr (c_jwks_uri c));
   ("tls_client_certificate_subject_dn", JStr (c_tls_client_certificate_subject_dn c));
   ("created_at", JStr (isoformat (c_created_at c))); ("updated_at", JStr (isoformat (c_updated_at c)))].

(** The row of [POST /clients]. *)
Record NewClient := mkNewClient {
  nc_name : string; nc_auth_method : string; nc_jwks : option pydict; nc_jwks_uri : string; nc_dn : string;
  nc_redirect_uris : json; nc_grant_types : json; nc_scope : json;
  nc_backchannel : string; nc_frontchannel : string; nc_post_logout : option json
}.

Section clients.
Context `{JwtLib} `{Runtime}.
Context (cbn_ : string -> bool) (inet_aton : string -> option Z).

Definition dumped_jwks (jwks : option pydict) : string :=
  match jwks with Some ((_ :: _) as m) => py_dumps (JObj m) | _ => EmptyString end.
Definition dumped_list (l : option json) : string :=
  match l with Some v => if json_truthy v then py_dumps v else EmptyString | None => EmptyString end.

(** [Client(...)]: [client_id] and [scope] must be strings. *)
Definition new_client (n : NewClient) (now : Z) (id : string) (client_id : json) (secret : string) : result exn Client :=
  match client_id, nc_scope n with
  | JStr client_id, JStr scope =>
      Ok {| c_id := id; c_client_id := client_id; c_client_secret := secret;
            c_redirect_uris := py_dumps (nc_redirect_uris n); c_grant_types := py_dumps (nc_grant_types n);
            c_scope := scope; c_name := nc_name n; c_created_at := now; c_updated_at := now;
            c_token_endpoint_auth_method := nc_auth_method n; c_registration_access_token := EmptyString;
            c_response_types := py_dumps (JList [JStr "code"]); c_contacts := EmptyString;
            c_logo_uri := EmptyString; c_client_uri := EmptyString; c_policy_uri := EmptyString; c_tos_uri := EmptyString;
            c_jwks := dumped_jwks (nc_jwks n); c_jwks_uri := nc_jwks_uri n;
            c_backchannel_logout_uri := nc_backchannel n; c_backchannel_logout_session_required := false;
            c_frontchannel_logout_uri := nc_frontchannel n; c_frontchannel_logout_session_required := false;
            c_post_logout_redirect_uris := dumped_list (nc_post_logout n);
            c_enabled := true; c_require_state := false; c_tls_client_certificate_subject_dn := nc_dn n;
            c_dpop_nonce_required := false |}
  | _, _ => Err (PyErr ValidationError "Client")
  end.

(** The checks of the submitted body, once its [client_id] is free. *)
Definition new_client_checks (name : string) (body : pydict) : result exn (response + NewClient) :=
  match str_or "token_endpoint_auth_method" "client_secret_basic" body with
  | None => Ok (inl (bad_request "token_endpoint_auth_method must be a string"))
  | Some auth_method =>
  match (match obj_get "jwks" body with None | Some JNull => Some None | Some v => option_map Some (as_obj v) end) with
  | None => Ok (inl (bad_request "jwks must be a JSON object"))
  | Some jwks =>
  match str_or "jwks_uri" EmptyString body with
  | None => Ok (inl (bad_request "jwks_uri must be a string"))
  | Some jwks_uri =>
  match str_or "tls_client_certificate_subject_dn" EmptyString body with
  | None => Ok (inl (bad_request "tls_client_certificate_subject_dn must be a string"))
  | Some dn =>
  if blank_dn dn then Ok (inl (bad_request BLANK_SUBJECT_DN_ERROR)) else
  let? refused := validate_key_material cbn_ inet_aton auth_method (dumped_jwks jwks) jwks_uri in
  match refused with
  | Some r => Ok (inl r)
  | None =>
      let redirect_uris := default (JList []) (obj_get "redirect_uris" body) in
      let grant_types := default default_grant_types (obj_get "grant_types" body) in
      let scope := match obj_get "scope" body with Some v => if json_truthy v then v else JStr EmptyString
                   | None => JStr EmptyString end in
      let post_logout := match obj_get "post_logout_redirect_uris" body with Some JNull => None | o => o end in
      match str_or "backchannel_logout_uri" EmptyString body, str_or "frontchannel_logout_uri" EmptyString body with
      | Some backchannel, Some frontchannel =>
          let? refused := validate_redirect_uris cbn_
                            (match redirect_uris with JNull => None | v => Some v end)
                            (Some backchannel) (Some frontchannel) post_logout in
          match refused with
          | Some r => Ok (inl r)
          | None => Ok (inr (mkNewClient name auth_method jwks jwks_uri dn redirect_uris grant_types scope
                               backchannel frontchannel post_logout))
          end
      | _, _ => Ok (inl (bad_request "logout URIs must be strings"))
      end
  end end end end end.

Definition client_created (n : NewClient) (c : Client) : response :=
  admin_json 201
    [("id", JStr (c_id c)); ("client_id", JStr (c_client_id c));
     ("client_secret", if is_public c then JNull else JStr (c_client_secret c));
     ("name", JStr (c_name c)); ("redirect_uris", nc_redirect_uris n); ("grant_types", nc_grant_types n);
     ("scope", JStr (c_scope c)); ("token_endpoint_auth_method", JStr (c_token_endpoint_auth_method c));
     ("jwks", match nc_jwks n with Some m => JObj m | None => JNull end); ("jwks_uri", JStr (c_jwks_uri c));
     ("tls_client_certificate_subject_dn", JStr (c_tls_client_certificate_subject_dn c)); ("enabled", JBool true);
     ("created_at", JStr (isoformat (c_created_at c)))].

Definition create_client (rq : AdminRequest) (actor : AdminActor) : M response :=
  let! body := json_body rq in
  let name := py_strip (body_str "name" body) in
  if negb (truthy name) then sret (bad_request "name is required") else
  let requested := match obj_get "client_id" body with Some v => if json_truthy v then Some v else None | None => None end in
  let! taken := match requested with
                | Some v => query (fun st => bool_decide (is_Some (get_client (py_str v) st)))
                | None => sret false
                end in
  if taken then sret (admin_error 409 "already_exists" "client_id already registered") else
  let! client_id := match requested with
                    | Some v => sret v
                    | None => draw (fun n => JStr ("client-" +:+ String.substring 0 12 (uuid4_hex n)))
                    end in
  let! checked := slift (new_client_checks name body) in
  match checked with
  | inl refused => sret refused
  | inr n =>
      let given := body_str "client_secret" body in
      let! secret := if String.eqb (nc_auth_method n) "none" then sret EmptyString
                     else if truthy given then sret given else draw uuid4_hex in
      let! now := sget a_wall in
      let! id := draw uuid4_hex in
      let! client := slift (new_client n now id client_id secret) in
      insert (save_client client) !;
      audited rq actor "client.create" "client" id [("client_id", client_id); ("name", JStr name)] !;
      sret (client_created n client)
  end.

(** ** The routes on one client, addressed by its internal id *)
Definition resolve_client (client_uuid : string) (st : Store) : option Client :=
  List.find (fun c => String.eqb (c_id c) client_uuid) (list_all_clients st).

Definition best_effort_revoke_by_client (client_id : string) : M unit :=
  let! _ := update_count (revoke_tokens_by_client_id client_id) in sret tt.

Definition get_client_route (client_uuid : string) : M response :=
  let! found := query (resolve_client client_uuid) in
  sret match found with Some c => admin_json 200 (client_detail c) | None => client_not_found end.

Definition delete_client_route (client_uuid : string) (rq : AdminRequest) (actor : AdminActor) : M response :=
  let! found := query (resolve_client client_uuid) in
  match found with
  | None => sret client_not_found
  | Some c =>
      update (delete_client (c_client_id c)) !;
      audited rq actor "client.delete" "client" (c_id c) [("client_id", JStr (c_client_id c))] !;
      sret (admin_json 200 [("message", JStr "Client deleted")])
  end.

Definition set_client_enabled_route (client_uuid : string) (rq : AdminRequest) (actor : AdminActor) : M response :=
  let! found := query (resolve_client client_uuid) in
  match found with
  | None => sret client_not_found
  | Some c =>
      let! body := json_body rq in
      match obj_get "enabled" body with
      | Some (JBool enabled) =>
          update (set_client_enabled (c_client_id c) enabled) !;
          (if enabled then sret tt else best_effort_revoke_by_client (c_client_id c)) !;
          audited rq actor (if enabled then "client.enable" else "client.disable") "client" (c_id c)
            [("enabled", JBool enabled)] !;
          sret (admin_json 200 [("enabled", JBool enabled)])
      | _ => sret (bad_request "enabled must be a boolean")
      end
  end.

Definition regenerate_client_secret (client_uuid : string) (rq : AdminRequest) (actor : AdminActor) : M response :=
  let! found := query (resolve_client client_uuid) in
  match found with
  | None => sret client_not_found
  | Some c =>
      if is_public c then sret (bad_request "public clients have no secret") else
      let! new_secret := draw uuid4_hex in
      update (set_client_secret (c_client_id c) new_secret) !;
      audited rq actor "client.regenerate_secret" "client" (c_id c) [] !;
      sret (admin_json 200 [("client_id", JStr (c_client_id c)); ("client_secret", JStr new_secret)])
  end.

(** ** PUT /clients/{id} *)
Definition merged_str (k : string) (body : pydict) (old : string) : string := default old (get_str k body).
Definition merged_dump (k : string) (body : pydict) (old : string) : string :=
  match obj_get k body with Some v => py_dumps v | None => old end.
Definition merged_jwks (body : pydict) (old : string) : string :=
  match obj_get "jwks" body with Some v => dumped_jwks (as_obj v) | None => old end.
Definition merged_list (k : string) (body : pydict) (old : string) : string :=
  match obj_get k body with Some v => dumped_list (Some v) | None => old end.

(** [client.model_copy(update={**updates, "updated_at": now})] *)
Definition merged_client (now : Z) (body : pydict) (c : Client) : Client := {|
  c_id := c_id c; c_client_id := c_client_id c; c_client_secret := c_client_secret c;
  c_redirect_uris := merged_dump "redirect_uris" body (c_redirect_uris c);
  c_grant_types := merged_dump "grant_types" body (c_grant_types c);
  c_scope := merged_str "scope" body (c_scope c); c_name := merged_str "name" body (c_name c);
  c_created_at := c_created_at c; c_updated_at := now;
  c_token_endpoint_auth_method := merged_str "token_endpoint_auth_method" body (c_token_endpoint_auth_method c);
  c_registration_access_token := c_registration_access_token c; c_response_types := c_response_types c;
  c_contacts := c_contacts c; c_logo_uri := c_logo_uri c; c_client_uri := c_client_uri c;
  c_policy_uri := c_policy_uri c; c_tos_uri := c_tos_uri c;
  c_jwks := merged_jwks body (c_jwks c); c_jwks_uri := merged_str "jwks_uri" body (c_jwks_uri c);
  c_backchannel_logout_uri := merged_str "backchannel_logout_uri" body (c_backchannel_logout_uri c);
  c_backchannel_logout_session_required := c_backchannel_logout_session_required c;
  c_frontchannel_logout_uri := merged_str "frontchannel_logout_uri" body (c_frontchannel_logout_uri c);
  c_frontchannel_logout_session_required := c_frontchannel_logout_session_required c;
  c_post_logout_redirect_uris := merged_list "post_logout_redirect_uris" body (c_post_logout_redirect_uris c);
  c_enabled := match obj_get "enabled" body with Some (JBool b) => b | _ => c_enabled c end;
  c_require_state := c_require_state c;
  c_tls_client_certificate_subject_dn :=
    merged_str "tls_client_certificate_subject_dn" body (c_tls_client_certificate_subject_dn c);
  c_dpop_nonce_required := c_dpop_nonce_required c
|}.

(** [sorted(updates)] *)
Definition client_updated_fields (body : pydict) : list string :=
  List.filter (fun k => obj_has k body)
    ["backchannel_logout_uri"; "enabled"; "frontchannel_logout_uri"; "grant_types"; "jwks"; "jwks_uri"; "name";
     "post_logout_redirect_uris"; "redirect_uris"; "scope"; "tls_client_certificate_subject_dn";
     "token_endpoint_auth_method"].

(** The refusal of an accepted body. *)
Definition client_update_refusal (body : pydict) (c : Client) : result exn (option response) :=
  if blank_dn (default EmptyString (get_str "tls_client_certificate_subject_dn" body))
  then Ok (Some (bad_request BLANK_SUBJECT_DN_ERROR)) else
  first_refusal
    (validate_redirect_uris cbn_ (obj_get "redirect_uris" body) (get_str "backchannel_logout_uri" body)
       (get_str "frontchannel_logout_uri" body) (obj_get "post_logout_redirect_uris" body))
    (let merged := merged_client 0 body c in
     validate_key_material cbn_ inet_aton (c_token_endpoint_auth_method merged) (c_jwks merged) (c_jwks_uri merged)).

Definition update_client_route (client_uuid : string) (rq : AdminRequest) (actor : AdminActor) : M response :=
  let! found := query (resolve_client client_uuid) in
  match found with
  | None => sret client_not_found
  | Some c =>
      let! body := json_body rq in
      match parse_body client_update_body body with
      | Some error => sret error
      | None =>
          let! refused := slift (client_update_refusal body c) in
          match refused with
          | Some r => sret r
          | None =>
              let! now := sget a_wall in
              let updated := merged_client now body c in
              update (update_client updated) !;
              (match obj_get "enabled" body with
               | Some (JBool false) => best_effort_revoke_by_client (c_client_id c)
               | _ => sret tt
               end) !;
              audited rq actor "client.update" "client" (c_id c)
                [("fields", jstrs (client_updated_fields body))] !;
              sret (admin_json 200 [("id", JStr (c_id updated)); ("client_id", JStr (c_client_id updated));
                                    ("name", JStr (c_name updated)); ("enabled", JBool (c_enabled updated));
                                    ("updated_at", JStr (isoformat now))])
          end
      end
  end.
End clients.
