(* ===== verification/AdminRoutes.v ===== *)
(** * Admin: denylist, keys, devices, audit log, events, dashboard, and the router
    ([routes/admin/denylist.py], [keys.py], [devices.py], [audit.py], [events.py], [dashboard.py], [__init__.py]) *)
From S2P Require Import Prelude PyStr PyJson Codec PyInt Models IsoTime Storage Paging PyUrl TtlStores Keys Jwt App PyDumps.
From S2P Require Import ClientAuth Admin AdminClients.
#[local] Open Scope Z_scope.

Definition message (text : string) : response := admin_json 200 [("message", JStr text)].
Definition o_json (o : option string) : json := match o with Some s => JStr s | None => JNull end.

(** ** denylist.py *)
Definition valid_kinds : list string := ["ip"; "user_id"; "username"; "email"; "client_id"].
(** [expires_at]: the time as it is to be printed. *)
Definition denylist_response (now : Z) (expires_at : option string) (e : DenylistEntry) : pydict :=
  [("id", JStr (dl_id e)); ("kind", JStr (dl_kind e)); ("value", JStr (dl_value e)); ("reason", JStr (dl_reason e));
   ("created_by", JStr (dl_created_by e)); ("created_at", JStr (isoformat (dl_created_at e)));
   ("expires_at", o_json expires_at); ("active", JBool (deny_is_active now e))].

(** ** keys.py *)
Definition valid_algorithms : list string := ["HS256"; "RS256"].
Definition MAX_GRACE_PERIOD_HOURS : Z := 1000000.
Definition key_warning : string :=
  "Key rotation is in-memory only. Rotated keys will be lost on restart. " +:+ "DB persistence is not yet implemented.".
(** [int(v)] of a decoded value; [None]: a [TypeError] or [ValueError]. *)
Definition json_int (v : json) : result exn (option Z) :=
  match v with
  | JInt n => Ok (Some n)
  | JBool b => Ok (Some (if b then 1 else 0))
  | JFloat m e =>
      if m =? 0 then Ok (Some 0)
      else if e <? 0 then Ok (Some (Z.quot m (10 ^ (- e))))
      else if (400 <? e) || float_overflows (m * 10 ^ e)
           then Err (PyErr OverflowError "cannot convert float infinity to integer")
      else Ok (Some (m * 10 ^ e))
  | JNonFinite NaN => Ok None
  | JNonFinite _ => Err (PyErr OverflowError "cannot convert float infinity to integer")
  | JStr s => Ok (py_int s)
  | JNull | JList _ | JObj _ => Ok None
  end.
Definition key_info (k : SigningKey) : json :=
  JObj [("kid", JStr (k_kid k)); ("algorithm", JStr (k_algorithm k)); ("is_current", JBool (k_is_current k));
        ("created_at", JStr (isoformat (k_created_at k))); ("expires_at", o_json (isoformat <$> k_expires_at k))].

(** ** devices.py, audit.py *)
Definition device_info (now : Z) (d : DeviceAuthorization) : pydict :=
  [("id", JStr (d_id d)); ("device_code", JStr (d_device_code d)); ("user_code", JStr (d_user_code d));
   ("client_id", JStr (d_client_id d)); ("scope", JStr (d_scope d)); ("created_at", JStr (isoformat (d_created_at d)));
   ("expires_at", JStr (isoformat (d_expires_at d))); ("approved", JBool (d_approved d)); ("denied", JBool (d_denied d));
   ("used", JBool (d_used d)); ("expired", JBool (d_expires_at d <=? now)); ("user_id", o_json (d_user_id d))].
Definition audit_response (e : AuditLogEntry) : pydict :=
  [("id", JStr (al_id e)); ("actor_id", JStr (al_actor_id e)); ("actor_email", JStr (al_actor_email e));
   ("action", JStr (al_action e)); ("target_kind", JStr (al_target_kind e)); ("target_id", JStr (al_target_id e));
   ("ip", JStr (al_ip e)); ("user_agent", JStr (al_user_agent e)); ("metadata", JStr (al_metadata e));
   ("created_at", JStr (isoformat (al_created_at e)))].

(** ** dashboard.py *)
Definition count {A} (p : A -> bool) (l : list A) : json := JInt (Z.of_nat (length (List.filter p l))).
Definition dashboard_counts (now : Z) (st : Store) : pydict :=
  let clients := list_all_clients st in
  let users := list_all_users st in
  let tokens := list_all_tokens st in
  let devices := list_all_device_authorizations st in
  let live t := negb (t_revoked t) in
  [("total_clients", count (fun _ => true) clients); ("public_clients", count is_public clients);
   ("confidential_clients", count (fun c => negb (is_public c)) clients);
   ("total_users", count (fun _ => true) users); ("enabled_users", count u_enabled users);
   ("total_tokens", count (fun _ => true) tokens);
   ("active_tokens", count (fun t => live t && (now <? t_expires_at t)) tokens);
   ("revoked_tokens", count t_revoked tokens);
   ("expired_tokens", count (fun t => live t && (t_expires_at t <=? now)) tokens);
   ("pending_device_codes", count (fun d => negb (d_approved d) && negb (d_denied d) && (now <? d_expires_at d)) devices)].
Definition capabilities : pydict :=
  map (fun k => (k, JBool true))
    ["events"; "device_flow"; "key_rotation"; "user_crud"; "client_crud"; "denylist"; "audit_log"; "bulk_revoke"].

(** The page parameters of a list request. *)
Record PageParams := mkPage {
  pg_limit : option Z; pg_offset : Z; pg_sort_by : option string; pg_sort_dir : string;
  pg_search : option string; pg_status : option string
}.
Definition page_query (p : PageParams) : ListQuery :=
  list_query (pg_limit p) (pg_offset p) (pg_sort_by p) (pg_sort_dir p) (pg_search p) (pg_status p).
Definition page_response (q : ListQuery) (page : list json * Z) : response :=
  admin_json 200 (page_envelope (fst page) (snd page) (effective_limit q) (lq_offset q)).
Definition listed {A} (info : A -> pydict) (page : list A * Z) : list json * Z :=
  (map (fun x => JObj (info x)) (fst page), snd page).

Section routes.
Context `{JwtLib} `{Runtime}.
(** [datetime.fromisoformat]: local time and offset from UTC, both in
    microseconds; fresh HS256 secrets and RSA keys in PEM. *)
Context (fromisoformat : string -> option (Z * option Z)) (hs256_secret rs256_pem : nat -> string).
Context (cbn_ : string -> bool) (inet_aton : string -> option Z) (config : Config).

(** The time and its text; [None]: not a valid time. *)
Definition parse_expires_at (raw : option json) : option (option (Z * string)) :=
  match raw with
  | Some (JStr s) =>
      if truthy (py_strip s)
      then option_map (fun '(local, offset) =>
             let offset := default 0 offset in
             Some (local - offset, isoformat_naive local +:+ iso_offset offset))
             (fromisoformat (py_strip s))
      else Some None
  | _ => Some None
  end.

Definition add_denylist (rq : AdminRequest) (actor : AdminActor) : M response :=
  let! body := json_body rq in
  let kind := py_lower (py_strip (body_str "kind" body)) in
  if negb (mem_str kind valid_kinds)
  then sret (bad_request "kind must be one of: ip, user_id, username, email, client_id") else
  let value := py_strip (body_str "value" body) in
  if negb (truthy value) then sret (bad_request "value is required") else
  match parse_expires_at (obj_get "expires_at" body) with
  | None => sret (bad_request "expires_at must be a valid RFC3339 datetime")
  | Some expires_at =>
      let reason := body_str "reason" body in
      let! id := draw uuid4_hex in
      let! now := sget a_wall in
      let entry := mkDeny id kind value reason (default EmptyString (as_email (ad_session rq))) now (fst <$> expires_at) in
      insert (add_denylist_entry entry) !;
      audited rq actor "denylist.add" "denylist" id
        [("kind", JStr kind); ("value", JStr value); ("reason", JStr reason)] !;
      sret (admin_json 201 (denylist_response now (snd <$> expires_at) entry))
  end.

Definition remove_denylist (entry_id : string) (rq : AdminRequest) (actor : AdminActor) : M response :=
  update (remove_denylist_entry entry_id) !;
  audited rq actor "denylist.remove" "denylist" entry_id [] !;
  sret (message "Denylist entry removed").

(** ** keys.py: rotation *)
Definition rotation_algorithm (body : pydict) : string :=
  match obj_get "algorithm" body with
  | Some v => if json_truthy v then py_upper (py_strip (py_str v)) else "RS256"
  | None => "RS256"
  end.
Definition rotation_grace (body : pydict) : result exn (option Z) :=
  match obj_get "grace_period_hours" body with
  | None | Some JNull => Ok (Some (key_rotation_grace_hours config))
  | Some v => json_int v
  end.

Definition rotate_key (rq : AdminRequest) (actor : AdminActor) : M response :=
  let! body := json_body rq in
  let algorithm := rotation_algorithm body in
  if negb (mem_str algorithm valid_algorithms)
  then sret (bad_request ("Unknown algorithm: " +:+ from_option py_str EmptyString (obj_get "algorithm" body))) else
  let! grace := slift (rotation_grace body) in
  match grace with
  | None => sret (bad_request "grace_period_hours must be an integer")
  | Some hours =>
      if hours <? 0 then sret (bad_request "grace_period_hours must be non-negative") else
      if MAX_GRACE_PERIOD_HOURS <? hours then sret (bad_request "grace_period_hours is too large") else
      let! now := sget a_wall in
      let kid := py_lower algorithm +:+ "-" +:+ str_of_Z (unix_secs now) in
      let! generated := draw (fun n => generate_signing_key now algorithm kid (hs256_secret n) (rs256_pem n)) in
      let! new_key := slift generated in
      smod (fun s => with_keyset s (snd (prune_expired now (rotate now new_key (hours * 3600) (a_keyset s))))) !;
      audited rq actor "key.rotate" "key" kid [("kid", JStr kid); ("algorithm", JStr algorithm)] !;
      sret (admin_json 200 [("kid", JStr kid); ("algorithm", JStr algorithm);
                            ("created_at", JStr (isoformat (k_created_at new_key)));
                            ("grace_period_hours", JInt hours); ("warning", JStr key_warning)])
  end.
Definition list_keys : M response :=
  let! now := sget a_wall in
  let! ks := sget a_keyset in
  sret (admin_json 200 [("keys", JList (map key_info (active_keys now ks)))]).

Definition expire_device (device_code : string) (rq : AdminRequest) (actor : AdminActor) : M response :=
  let! now := sget a_wall in
  update (expire_device_authorization now device_code) !;
  audited rq actor "device.expire" "device" device_code [] !;
  sret (message "Device code expired").

Definition dashboard : M response :=
  let! now := sget a_wall in
  let! counts := query (dashboard_counts now) in
  sret (admin_json 200 counts).
Definition recent_events (q : ListQuery) : M response :=
  let! recent := sget a_recent in
  let '(items, total) := list_recent (Z.to_nat (effective_limit q)) (Z.to_nat (lq_offset q)) recent in
  sret (page_response q (items, Z.of_nat total)).

(** ** The router: every endpoint of [/admin/api] *)
Inductive admin_call :=
| CreateClient | GetClient (id : string) | UpdateClient (id : string) | DeleteClient (id : string)
| EnableClient (id : string) | RegenerateSecret (id : string)
| CreateUser | GetUser (id : string) | UpdateUser (id : string) | DeleteUser (id : string)
| EnableUser (id : string) | SetRole (id : string) | ResetPassword (id : string)
| GetToken (id : string) | RevokeToken (id : string) | RevokeByUser | RevokeByClient
| AddDenylist | RemoveDenylist (id : string) | RotateKey | ListKeys | ExpireDevice (code : string)
| ListClients (p : PageParams) | ListUsers (p : PageParams) | ListTokens (p : PageParams)
| ListDevices (p : PageParams) | ListDenylist (p : PageParams) | ListAudit (p : PageParams)
| RecentEvents (p : PageParams) | Dashboard | Capabilities.

Definition list_of {A} (info : Z -> A -> pydict) (select : Z -> ListQuery -> Store -> list A * Z) (p : PageParams) : M response :=
  let! now := sget a_wall in
  let! page := query (select now (page_query p)) in
  sret (page_response (page_query p) (listed (info now) page)).

Definition list_clients : PageParams -> M response := list_of (fun _ => client_info) (fun _ => list_clients_page).
Definition list_users : PageParams -> M response := list_of (fun _ => user_info) (fun _ => list_users_page).
Definition list_tokens : PageParams -> M response := list_of token_info list_tokens_page.
Definition list_devices : PageParams -> M response := list_of device_info (fun _ => list_device_authorizations_page).
Definition list_denylist : PageParams -> M response :=
  list_of (fun now e => denylist_response now (isoformat <$> dl_expires_at e) e) (fun _ => Paging.list_denylist).
Definition list_audit : PageParams -> M response := list_of (fun _ => audit_response) (fun _ => list_audit_log).

Definition handler (call : admin_call) (rq : AdminRequest) (actor : AdminActor) : M response :=
  match call with
  | CreateClient => create_client cbn_ inet_aton rq actor
  | GetClient id => get_client_route id
  | UpdateClient id => update_client_route cbn_ inet_aton id rq actor
  | DeleteClient id => delete_client_route id rq actor
  | EnableClient id => set_client_enabled_route id rq actor
  | RegenerateSecret id => regenerate_client_secret id rq actor
  | CreateUser => create_user rq actor
  | GetUser id => get_user id
  | UpdateUser id => update_user_route id rq actor
  | DeleteUser id => delete_user_route id rq actor
  | EnableUser id => set_user_enabled_route id rq actor
  | SetRole id => set_user_role_route id rq actor
  | ResetPassword id => reset_user_password id rq actor
  | GetToken id => get_token id
  | RevokeToken id => revoke_token_by_id id rq actor
  | RevokeByUser => revoke_tokens_by_user rq actor
  | RevokeByClient => revoke_tokens_by_client rq actor
  | AddDenylist => add_denylist rq actor
  | RemoveDenylist id => remove_denylist id rq actor
  | RotateKey => rotate_key rq actor
  | ListKeys => list_keys
  | ExpireDevice code => expire_device code rq actor
  | ListClients p => list_clients p
  | ListUsers p => list_users p
  | ListTokens p => list_tokens p
  | ListDevices p => list_devices p
  | ListDenylist p => list_denylist p
  | ListAudit p => list_audit p
  | RecentEvents p => recent_events (page_query p)
  | Dashboard => dashboard
  | Capabilities => sret (admin_json 200 capabilities)
  end.
Definition admin_api (call : admin_call) : AdminRequest -> M admin_response := admin_route config (handler call).
End routes.
