(* ===== verification/JwtBearer.v ===== *)
(** * The RFC 7523 jwt-bearer grant ([services/jwt_bearer_grant.py]) *)
From S2P Require Import Prelude PyStr PyJson Codec Models Storage PyUrl TtlStores Keys Jwt App.
From S2P Require Import Tokens ClientAuth.
From Stdlib Require Import QArith.
#[local] Open Scope Z_scope.

Definition jwt_bearer_grant : string := "urn:ietf:params:oauth:grant-type:jwt-bearer".
Definition bearer_algs : list string := ["RS256"; "ES256"; "PS256"].
Definition id_jag_typ : string := "oauth-id-jag+jwt".
Definition IAT_SKEW_SECS : Z := 60.

Definition grant_error (description : string) : exn :=
  OAuthError "invalid_grant" (Some description) 400.

Definition is_id_jag_typ (typ : option json) : bool :=
  match typ with
  | Some (JStr typ) =>
      let t := py_lower (py_strip typ) in
      let t := if py_startswith "application/" t then py_drop 12 t else t in
      String.eqb t id_jag_typ
  | _ => false
  end.

Definition may_verify (jwk : pydict) : bool :=
  let use := obj_get "use" jwk in
  if match use with None | Some JNull => false | Some j => negb (json_eqb j (JStr "sig")) end then false
  else match obj_get "key_ops" jwk with
       | None | Some JNull => true
       | Some (JList ops) => existsb (fun j => json_eqb j (JStr "verify")) ops
       | Some _ => false
       end.

Definition alg_compatible (alg : string) (jwk : pydict) : bool :=
  match obj_get "alg" jwk with
  | None | Some JNull => true
  | Some declared => json_eqb declared (JStr alg)
  end.

Section jwt_bearer.
Context `{JwtLib} `{Runtime} `{Http}.

(** A [PyJWTError] becomes [invalid_grant] with the given description. *)
Definition jwt_or (description : exn -> string) {A} (r : result exn A) : result exn A :=
  rcatch r (fun e => if is_jwt_error e then Err (grant_error (description e)) else Err e).

Definition unverified_header_and_iss (assertion : string) : result exn (pydict * string) :=
  if negb (py_count_char "." assertion =? 2)%nat
  then Err (grant_error "assertion is not a well-formed JWS Compact Serialization") else
  let? header := jwt_or (fun _ => "Malformed assertion JWT header") (jwt_unverified_header assertion) in
  let? claims := jwt_or (fun _ => "assertion payload is not valid") (jwt_decode_unverified assertion) in
  match get_str "iss" claims with
  | Some iss => if truthy iss then Ok (header, iss)
                else Err (grant_error "assertion is missing the iss claim")
  | None => Err (grant_error "assertion is missing the iss claim")
  end.

(** The first key that satisfies every constraint. *)
Definition usable_key (alg : string) (kid : option json) (k : pydict) : bool :=
  let wanted_kty := if String.eqb alg "ES256" then "EC" else "RSA" in
  match kid with None | Some JNull => true | Some kid => member_eqb "kid" kid k end
  && member_eqb "kty" (JStr wanted_kty) k && may_verify k && alg_compatible alg k.

Definition select_key (jwks : pydict) (alg : string) (kid : option json) : result exn (jwt_key pub_key) :=
  match obj_get "keys" jwks with
  | Some (JList keys) =>
      match find_jwk (usable_key alg kid) keys with
      | None => Err (grant_error "no usable key for the assertion in the trusted issuer's JWKS")
      | Some k =>
          match (if String.eqb alg "ES256" then ec_from_jwk k else rsa_from_jwk k) with
          | Err _ => Err (grant_error "issuer JWKS key is malformed")
          | Ok (PublicKey k) => Ok (PublicKey k)
          | Ok _ => Err (grant_error "issuer JWKS key is not a public key")
          end
      end
  | _ => Err (grant_error "trusted issuer JWKS has no 'keys' array")
  end.

(** [jwt.decode] accepts any of several audiences: the options carry them all. *)
Definition bearer_options (alg iss : string) (audiences : list string) : decode_options :=
  mkOptions [alg] audiences (Some iss) ["iss"; "sub"; "aud"; "exp"; "iat"; "jti"] true false.

Definition verify_assertion (assertion : string) (trusted : TrustedIssuer) (header : pydict)
    (our_issuer token_endpoint_url : string) : M pydict :=
  match get_str "alg" header with
  | Some alg =>
      if negb (mem_str alg bearer_algs)
      then sraise (grant_error "assertion uses an unsupported signature algorithm") else
      let! jwks := scatch (jwks_fetch (py_strip (ti_jwks_uri trusted))) (fun e =>
        match e with
        | OAuthError _ d _ =>
            sraise (grant_error ("could not fetch the trusted issuer's JWKS: " +:+ default "None" d))
        | e => sraise e
        end) in
      let! key := slift (select_key jwks alg (obj_get "kid" header)) in
      let! allowed := slift (allowed_audiences_list json_limit trusted) in
      let! now := sget a_wall in
      slift (jwt_or (fun e => "assertion validation failed: " +:+ exn_str e)
        (jwt_decode now assertion key
           (bearer_options alg (ti_issuer trusted) (our_issuer :: token_endpoint_url :: allowed))))
  | None => sraise (grant_error "assertion uses an unsupported signature algorithm")
  end.

(** A finite number, never an unhandled [OverflowError]. *)
Definition numeric_date (claims : pydict) (name : string) : result exn Q :=
  match obj_get name claims with
  | None | Some (JBool _) => Err (grant_error ("assertion " +:+ name +:+ " claim is not a number"))
  | Some v =>
      match to_float v with
      | None => Err (grant_error ("assertion " +:+ name +:+ " claim is not a number"))
      | Some (Err _) => Err (grant_error ("assertion " +:+ name +:+ " claim is out of range"))
      | Some (Ok (FFinite q)) => Ok q
      | Some (Ok _) => Err (grant_error ("assertion " +:+ name +:+ " claim is not a finite number"))
      end
  end.

(** [max(exp - time.time(), 0.0) > MAX_JTI_TTL_SECS] *)
Definition lifetime_exceeds (now : Z) (exp : Q) : bool :=
  negb (qle (exp - time_q now)%Q (inject_Z Replay.MAX_JTI_TTL_SECS)).

Definition enforce_replay (iss : string) (claims : pydict) : M unit :=
  let missing := grant_error "assertion missing required jti claim (RFC 7523 §3)" in
  match get_str "jti" claims with
  | None => sraise missing
  | Some jti =>
      if negb (truthy jti) then sraise missing else
      let! exp := slift (numeric_date claims "exp") in
      let! now := sget a_wall in
      if lifetime_exceeds now exp
      then sraise (grant_error "assertion lifetime exceeds the maximum of 300 seconds") else
      let! mono := sget a_mono in
      let! guard := sget a_jti_guard in
      let '(r, guard) := Replay.observe mono ("jwt-bearer:" +:+ iss) jti
                           (remaining_ns now (FFinite exp)) guard in
      smod (fun s => with_guard s guard) !;
      match r with
      | Ok true => sret tt
      | Ok false => sraise (grant_error "assertion jti has already been used")
      | Err JtiGuardFull => sraise (grant_error "assertion replay guard unavailable")
      | Err e => sraise e
      end
  end.

Definition reject_if_denylisted (username email : string) : M unit :=
  let! now := sget a_wall in
  let! by_name := query (check_subject_denylisted now "username" username) in
  match by_name with
  | Some _ => sraise (grant_error "subject is blocked")
  | None =>
      let! by_email := query (check_subject_denylisted now "email" email) in
      match by_email with
      | Some _ => sraise (grant_error "subject is blocked")
      | None => sret tt
      end
  end.

(** [claims.get("email_verified") is True] *)
Definition email_verified (claims : pydict) : bool :=
  match obj_get "email_verified" claims with Some (JBool true) => true | _ => false end.

(** [casefold] folds ASCII letters only here. *)
Definition matches_email (email : string) (u : User) : bool :=
  String.eqb (py_lower (py_strip (u_email u))) (py_lower email).

(** Inserts the just-in-time account; when the insert fails, another request may
    have created the row first. *)
Definition jit_provision (trusted : TrustedIssuer) (sub email : string) (claims : pydict) : M string :=
  let email := if email_verified claims then email else EmptyString in
  reject_if_denylisted sub email !;
  let! now := sget a_wall in
  let! secret := draw token_urlsafe in
  let! hash := draw (fun n => argon2_hash n secret) in
  let user := mkUser sub sub hash email true "user" now now in
  scatch (insert (save_user user) !; sret (u_id user)) (fun _ =>
    let! raced := query (get_user_by_id sub) in
    match raced with
    | Some raced =>
        if u_enabled raced then reject_if_denylisted (u_username raced) (u_email raced) !; sret (u_id raced)
        else sraise (grant_error "subject user is disabled")
    | None => sraise (grant_error "could not provision a local user for the assertion subject")
    end).

Definition resolve_subject (trusted : TrustedIssuer) (claims : pydict) : M string :=
  match get_str "sub" claims with
  | None => sraise (grant_error "assertion sub claim is not a string")
  | Some sub =>
      if negb (truthy sub) then sraise (grant_error "assertion sub claim is not a string") else
      let email := match get_str "email" claims with Some e => py_strip e | None => EmptyString end in
      let is_email_mapping := String.eqb (ti_subject_mapping trusted) "email" in
      let! existing :=
        if is_email_mapping then
          if negb (truthy email)
          then sraise (grant_error "trusted issuer maps subjects by email but the assertion has no email claim")
          else if negb (email_verified claims)
          then sraise (grant_error "assertion email is not verified (email_verified must be true)") else
          let! candidates := query (get_users_by_email email) in
          match List.filter (matches_email email) candidates with
          | [] => sret None
          | [u] => sret (Some u)
          | _ => sraise (grant_error "assertion email matches more than one local account")
          end
        else query (get_user_by_id sub) in
      match existing with
      | Some u =>
          if negb (u_enabled u) then sraise (grant_error "subject user is disabled") else
          reject_if_denylisted (u_username u) (u_email u) !; sret (u_id u)
      | None =>
          if is_email_mapping then sraise (grant_error "unknown subject") else
          if negb (ti_jit_provision trusted)
          then sraise (grant_error "assertion subject has no local user and the issuer does not allow provisioning")
          else jit_provision trusted sub email claims
      end
  end.

Definition redeem_jwt_bearer_assertion (assertion : string) (client : Client)
    (our_issuer token_endpoint_url : string) : M string :=
  let! parsed := slift (unverified_header_and_iss assertion) in
  let '(header, iss) := parsed in
  let! trusted := query (get_trusted_issuer iss) in
  match trusted with
  | None => sraise (grant_error "assertion iss is not a trusted issuer")
  | Some trusted =>
      if negb (ti_enabled trusted) then sraise (grant_error "assertion iss is not a trusted issuer") else
      let! allowed := slift (allows_client json_limit trusted (c_client_id client)) in
      if negb allowed then sraise (grant_error "client is not allowed to use this trusted issuer") else
      if is_id_jag_typ (obj_get "typ" header)
      then sraise (grant_error "ID-JAG assertions are not accepted by this authorization server") else
      let! claims := verify_assertion assertion trusted header our_issuer token_endpoint_url in
      let! iat := slift (numeric_date claims "iat") in
      let! now := sget a_wall in
      if negb (qle iat (time_q now + inject_Z IAT_SKEW_SECS)%Q)
      then sraise (grant_error "assertion iat is in the future") else
      enforce_replay iss claims !;
      resolve_subject trusted claims
  end.
End jwt_bearer.
