(* ===== verification/TokenEndpoint.v ===== *)
(** * POST /oauth/token ([routes/token.py])

    [token] is the whole handler; each grant branch is a definition of its own.
    The branches that redeem a stored value (authorization code, refresh token,
    device code) are split where the code awaits the storage between reading
    the value and claiming it: [.._check] reads, [.._commit] claims and issues,
    and another request may run in between.  A [Done] verdict is an early
    [return]. *)
From S2P Require Import Prelude PyStr PyJson Codec Models Storage PyUrl Limits TtlStores Keys Jwt.
From S2P Require Import App Tokens Dpop ClientAuth JwtBearer.
From S2P Require Limiter.
#[local] Open Scope Z_scope.

Definition MIN_VERIFIER_LEN : Z := 43.
Definition MAX_VERIFIER_LEN : Z := 128.
Definition token_exchange_grant : string := "urn:ietf:params:oauth:grant-type:token-exchange".
Definition access_token_type_urn : string := "urn:ietf:params:oauth:token-type:access_token".
Definition device_code_grant : string := "urn:ietf:params:oauth:grant-type:device_code".
Definition known_grant_types : list string :=
  ["authorization_code"; "client_credentials"; "refresh_token"; device_code_grant;
   token_exchange_grant; jwt_bearer_grant].

Inductive verdict (A : Type) := Done (r : response) | Go (a : A).
Arguments Done {A} r.
Arguments Go {A} a.

(** [try: x = m except ...: return h]: the handler covers [m] only. *)
Definition try_ {A B} (m : M A) (h : exn -> option (M B)) (k : A -> M B) : M B :=
  fun s => match m s with
           | (Ok a, s1) => k a s1
           | (Err e, s1) => match h e with Some r => r s1 | None => (Err e, s1) end
           end.

Definition on_oauth (e : exn) : option response :=
  match e with OAuthError er d st => Some (oauth_error er d st) | _ => None end.
Definition on_rar (e : exn) : option response :=
  match e with RarError d => Some (oauth_error400 "invalid_authorization_details" d) | _ => None end.
Definition on_limit (e : exn) : option response :=
  match e with LimitError d => Some (oauth_error400 "invalid_request" d) | _ => None end.
Definition on_dpop (e : exn) : option response :=
  match e with DpopError er d => Some (oauth_error400 er d) | _ => None end.
Definition on_value (e : exn) : option response :=
  if is_value_error e then Some (oauth_error "server_error" (Some (exn_str e)) 500) else None.
(** The response as the result of a handler, or as an early return. *)
Definition reply (h : exn -> option response) (e : exn) : option (M response) := option_map sret (h e).
Definition refuse {A} (h : exn -> option response) (e : exn) : option (M (verdict A)) :=
  option_map (fun r => sret (Done r)) (h e).

(** ** PKCE *)
Definition pkce_challenge (verifier : string) : string := urlsafe_b64encode_nopad (sha256 verifier).
Definition pkce_matches (computed_challenge stored_challenge : string) : bool :=
  String.eqb computed_challenge stored_challenge.

Section token.
Context `{JwtLib} `{Runtime} `{Http}.
Context (check_bracketed_netloc : string -> bool) (config : Config).

(** ** Failed client authentication *)
Definition extract_client_id_for_penalty (rq : Request) : result exn (option string) :=
  let from_form :=
    match form_get "client_id" rq with
    | Some c => if truthy c then Ok (Some c) else
        match form_get "client_assertion" rq with
        | Some a => unverified_assertion_subject a
        | None => Ok None
        end
    | None =>
        match form_get "client_assertion" rq with
        | Some a => unverified_assertion_subject a
        | None => Ok None
        end
    end in
  match header_get "authorization" rq with
  | Some h =>
      if truthy h && is_basic h then
        let encoded := py_strip (py_drop 6 h) in
        if negb (is_ascii_str encoded)
        then Err (PyErr ValueError "string argument should contain only ASCII characters") else
        match b64decode encoded with
        | Some decoded =>
            if utf8_valid decoded then
              match py_partition ":" decoded with
              | (raw_client_id, Some _) =>
                  let c := unquote_plus raw_client_id in
                  Ok (if truthy c then Some c else None)
              | (_, None) => from_form
              end
            else from_form
        | None => from_form
        end
      else from_form
  | None => from_form
  end.

Definition too_many_requests (retry_after : Z) : response :=
  mkResponse 429
    (JObj [("error", JStr "too_many_requests");
           ("error_description", JStr ("Too many failed authentication attempts. Retry after "
                                       +:+ str_of_Z retry_after +:+ "s."));
           ("error_uri", JNull)])
    [("Cache-Control", "no-store")].

Definition invalid_client_response (client_id : option string) (description : string) : M response :=
  let plain := oauth_error400 "invalid_client" description in
  let! limiter := sget a_invalid_client_limiter in
  match limiter with
  | Some l =>
      if truthy_o client_id then
        let! mono := sget a_mono in
        let! wall := sget a_wall in
        let '(res, l) := Limiter.check mono wall (default EmptyString client_id) l in
        smod (fun s => with_limiter s (Some l)) !;
        sret (if negb (Limiter.rl_allowed res)
              then too_many_requests (default 0 (Limiter.rl_retry_after res)) else plain)
      else sret plain
  | None => sret plain
  end.

(** ** Helpers of the grants *)
Definition salvage_old_cnf (access_token : string) : result exn (option pydict) :=
  let? claims := decode_unverified_claims access_token in
  Ok (get_obj "cnf" claims).

Definition salvage_old_aud (access_token : string) : result exn (option (list string)) :=
  let? claims := decode_unverified_claims access_token in
  match obj_get "aud" claims with
  | Some (JStr aud) => Ok (Some [aud])
  | Some (JList ((_ :: _) as l)) => Ok (all_strings l)
  | _ => Ok None
  end.

Definition with_dpop_nonce (client : Client) (dpop : option DpopValidated) (r : response) : M response :=
  if c_dpop_nonce_required client && match dpop with Some _ => true | None => false end then
    let! now := sget a_wall in
    let! secret := sget a_dpop_nonce_secret in
    sret (add_header "DPoP-Nonce"
            (issue_nonce now (new_issuer secret (dpop_nonce_lifetime_secs config))) r)
  else sret r.

Definition success_response (t : TokenResponse) : response :=
  mkResponse 200 (JObj (token_response_dump t)) [("Cache-Control", "no-store")].

(** The [has_refresh_token] metadata of a [token_created] event. *)
Definition token_created (user_id client_id : option string) (scope : string) (has_refresh : bool) : M unit :=
  emit_event "token_created" user_id client_id "info"
    [("scope", scope); ("has_refresh_token", if has_refresh then "true" else "false")].

(** The end of the grants that may carry an id_token. *)
Definition with_optional_id_token (client : Client) (dpop : option DpopValidated)
    (user_id : option string) (scope : string) (nonce code : option string)
    (sel : option ClaimsSelection) (t : TokenResponse) : M response :=
  if in_scope "openid" scope && truthy_o user_id then
    let uid := default EmptyString user_id in
    let! user := query (get_user_by_id uid) in
    let! now := sget a_wall in
    let! ks := sget a_keyset in
    try_ (slift (mint_id_token config now (Some ks) client uid user scope nonce
                   (Some (tr_access_token t)) code None None None sel))
      (reply on_value)
      (fun idt => with_dpop_nonce client dpop (success_response (with_id_token idt t)))
  else with_dpop_nonce client dpop (success_response t).

Definition unauthorized_client : response :=
  oauth_error400 "unauthorized_client" "client is not authorized for this grant type".

(** A requested scope within [allowed], or [allowed] itself; [None] exceeds it. *)
Definition narrow_scope (requested : option string) (allowed : string) : option string :=
  if truthy_o requested then
    if scope_is_subset (default EmptyString requested) allowed then requested else None
  else Some allowed.

Definition requested_resource (rq : Request) : result exn (option string) :=
  validate_resource check_bracketed_netloc (form_get "resource" rq).

(** The optional [authorization_details] of a request or of a stored code. *)
Definition parse_details (raw : option string) : result exn (option (list pydict)) :=
  match raw with
  | None => Ok None
  | Some raw => rmap Some (validate_authorization_details json_limit raw (rar_types_supported config))
  end.

Definition plain_args (with_refresh : bool) (family : option string) (cnf : option pydict)
    (details : option (list pydict)) (resource : option string) : IssueArgs :=
  mkIssue with_refresh family cnf details None resource None.

(** ** client_credentials *)
Definition client_credentials (rq : Request) (client : Client) (dpop : option DpopValidated)
    (cnf : option pydict) : M response :=
  if is_public client then
    invalid_client_response (Some (c_client_id client))
      "Public clients cannot use the client_credentials grant" else
  let! allowed := slift (allows_grant json_limit client "client_credentials") in
  if negb allowed then sret unauthorized_client else
  match narrow_scope (form_get "scope" rq) (c_scope client) with
  | None => sret (oauth_error400 "invalid_scope" "requested scope exceeds client scope")
  | Some scope =>
      try_ (slift (parse_details (form_get "authorization_details" rq))) (reply on_rar) (fun details =>
      try_ (slift (requested_resource rq)) (reply on_oauth) (fun resource =>
      let! t := issue config client None scope (plain_args false None cnf details resource) in
      count_token_issued !;
      token_created None (Some (c_client_id client)) scope false !;
      with_dpop_nonce client dpop (success_response t)))
  end.

(** ** authorization_code *)

(** RFC 7636: the verifier of the request against the challenge of the code. *)
Definition check_pkce (rq : Request) (code : AuthorizationCode) : option response :=
  if truthy_o (ac_code_challenge code) then
    let verifier := form_get "code_verifier" rq in
    if negb (truthy_o verifier) then Some (oauth_error400 "invalid_grant" "code_verifier is missing") else
    let verifier := default EmptyString verifier in
    if negb ((MIN_VERIFIER_LEN <=? py_len verifier) && (py_len verifier <=? MAX_VERIFIER_LEN))
    then Some (oauth_error400 "invalid_request" "code_verifier must be between 43 and 128 characters")
    else if negb (pkce_matches (pkce_challenge verifier) (default EmptyString (ac_code_challenge code)))
    then Some (oauth_error400 "invalid_grant" "code_verifier does not match code_challenge")
    else None
  else Some (oauth_error400 "invalid_grant" "PKCE is required").

(** Replay of a used code: the whole token family is revoked. *)
Definition revoke_code_family (code : AuthorizationCode) : M unit :=
  if truthy_o (ac_token_family code)
  then let! _ := update_count (revoke_token_family (default EmptyString (ac_token_family code))) in sret tt
  else sret tt.

Definition code_used : response :=
  oauth_error400 "invalid_grant" "authorization code has already been used".

Definition authorization_code_check (rq : Request) (client : Client)
  : M (verdict (AuthorizationCode * option (list pydict))) :=
  let! allowed := slift (allows_grant json_limit client "authorization_code") in
  if negb allowed then sret (Done unauthorized_client) else
  let! found := if truthy_o (form_get "code" rq)
                then query (get_authorization_code (default EmptyString (form_get "code" rq)))
                else sret None in
  match found with
  | None => sret (Done (oauth_error400 "invalid_grant" "authorization code not found"))
  | Some code =>
      if negb (String.eqb (ac_client_id code) (c_client_id client))
      then sret (Done (oauth_error400 "invalid_grant" "authorization code was not issued to this client")) else
      let! now := sget a_wall in
      if ac_expires_at code <? now then
        emit_event "authorization_code_expired" (Some (ac_user_id code)) (Some (ac_client_id code)) "warning" [] !;
        sret (Done (oauth_error400 "invalid_grant" "authorization code has expired")) else
      if ac_used code then
        revoke_code_family code !;
        sret (Done code_used) else
      if negb (from_option_b (String.eqb (ac_redirect_uri code)) (form_get "redirect_uri" rq))
      then sret (Done (oauth_error400 "invalid_grant" "redirect_uri does not match the authorization request")) else
      match check_pkce rq code with
      | Some r => sret (Done r)
      | None =>
          let form_details := form_get "authorization_details" rq in
          if match ac_authorization_details code, form_details with
             | Some stored, Some form => negb (String.eqb form stored)
             | _, _ => false
             end
          then sret (Done (oauth_error400 "invalid_authorization_details"
                             "authorization_details must not be altered at redemption")) else
          let raw := match ac_authorization_details code with Some d => Some d | None => form_details end in
          try_ (slift (parse_details raw)) (refuse on_rar) (fun details => sret (Go (code, details)))
      end
  end.

(** The code is bound to a DPoP key that the request did not prove. *)
Definition jkt_mismatch (code : AuthorizationCode) (dpop : option DpopValidated) : bool :=
  match ac_dpop_jkt code with
  | None => false
  | Some expected => negb (from_option_b (fun v => String.eqb (v_jkt v) expected) dpop)
  end.

Definition authorization_code_commit (client : Client) (dpop : option DpopValidated)
    (cnf : option pydict) (code : AuthorizationCode) (details : option (list pydict)) : M response :=
  let! claimed := update_count (mark_authorization_code_used (ac_code code)) in
  if (claimed =? 0)%nat then revoke_code_family code !; sret code_used else
  if jkt_mismatch code dpop
  then sret (oauth_error400 "invalid_grant" "authorization code is bound to a different DPoP key") else
  emit_event "authorization_code_validated" (Some (ac_user_id code)) (Some (ac_client_id code)) "info" [] !;
  let! t := issue config client (Some (ac_user_id code)) (ac_scope code)
              (plain_args true (ac_token_family code) cnf details (ac_resource code)) in
  count_token_issued !;
  token_created (Some (ac_user_id code)) (Some (c_client_id client)) (ac_scope code) true !;
  if in_scope "openid" (ac_scope code) then
    let! user := query (get_user_by_id (ac_user_id code)) in
    let! now := sget a_wall in
    let! ks := sget a_keyset in
    try_ (slift (mint_id_token config now (Some ks) client (ac_user_id code) user (ac_scope code)
                   (ac_nonce code) (Some (tr_access_token t)) (Some (ac_code code)) None None None
                   (Some (select_id_token_claims json_limit (ac_claims_request code) (ac_scope code)))))
      (reply on_value)
      (fun idt => with_dpop_nonce client dpop (success_response (with_id_token idt t)))
  else with_dpop_nonce client dpop (success_response t).

Definition authorization_code (rq : Request) (client : Client) (dpop : option DpopValidated)
    (cnf : option pydict) : M response :=
  let! v := authorization_code_check rq client in
  match v with
  | Done r => sret r
  | Go (code, details) => authorization_code_commit client dpop cnf code details
  end.

(** ** refresh_token *)

(** What the checks hand to the rotation. *)
Record RefreshPlan := mkPlan {
  rp_old : Token;
  rp_scope : string;
  rp_resource : option string;
  rp_audience : option (list string);
  rp_cnf : option pydict
}.

(** The audience to carry forward; [None] refuses a resource outside it. *)
Definition carried_audience (old : option (list string)) (resource : option string)
  : option (option (list string)) :=
  match old with
  | None => Some None
  | Some aud =>
      match resource with
      | Some r => if mem_str r aud then Some None else None
      | None => Some (Some aud)
      end
  end.

(** A public client must prove the key its token is bound to. *)
Definition refresh_needs_proof (client : Client) (cnf : option pydict) (dpop : option DpopValidated) : bool :=
  match cnf ≫= get_str "jkt" with
  | Some jkt =>
      truthy jkt && is_public client && negb (from_option_b (fun v => String.eqb (v_jkt v) jkt) dpop)
  | None => false
  end.

Definition refresh_check (rq : Request) (client : Client) (dpop : option DpopValidated)
  : M (verdict RefreshPlan) :=
  let! allowed := slift (allows_grant json_limit client "refresh_token") in
  if negb allowed then sret (Done unauthorized_client) else
  let! found := if truthy_o (form_get "refresh_token" rq)
                then query (get_token_by_refresh_token (default EmptyString (form_get "refresh_token" rq)))
                else sret None in
  match found with
  | None =>
      count_failed_authentication !;
      sret (Done (oauth_error400 "invalid_grant" "refresh token not found"))
  | Some old =>
      if negb (String.eqb (t_client_id old) (c_client_id client))
      then sret (Done (oauth_error400 "invalid_grant" "refresh token does not belong to this client")) else
      if t_revoked old then
        (if truthy_o (t_token_family old)
         then let! _ := update_count (revoke_token_family (default EmptyString (t_token_family old))) in sret tt
         else sret tt) !;
        sret (Done (oauth_error400 "invalid_grant" "refresh token has been revoked")) else
      let! now := sget a_wall in
      if plus_secs (t_created_at old) (refresh_token_ttl_secs config) <=? now
      then sret (Done (oauth_error400 "invalid_grant" "refresh token has expired")) else
      match narrow_scope (form_get "scope" rq) (t_scope old) with
      | None => sret (Done (oauth_error400 "invalid_scope" "requested scope exceeds the original grant"))
      | Some scope =>
          try_ (slift (requested_resource rq)) (refuse on_oauth) (fun resource =>
          let! old_audience := slift (salvage_old_aud (t_access_token old)) in
          match carried_audience old_audience resource with
          | None => sret (Done (oauth_error400 "invalid_target"
                                  "resource is not among the audiences originally granted"))
          | Some audience =>
              let! cnf := slift (salvage_old_cnf (t_access_token old)) in
              if refresh_needs_proof client cnf dpop
              then sret (Done (oauth_error400 "invalid_grant"
                     "refresh token is bound to a DPoP key; present a proof with the same key"))
              else sret (Go (mkPlan old scope resource audience cnf))
          end)
      end
  end.

Definition refresh_commit (client : Client) (dpop : option DpopValidated) (p : RefreshPlan) : M response :=
  let old := rp_old p in
  let! family := if truthy_o (t_token_family old) then sret (default EmptyString (t_token_family old))
                 else draw uuid4_hex in
  update (revoke_token (t_access_token old)) !;
  let! t := issue config client (t_user_id old) (rp_scope p)
              (mkIssue true (Some family) (rp_cnf p) None None (rp_resource p) (rp_audience p)) in
  count_token_issued !;
  token_created (t_user_id old) (Some (c_client_id client)) (rp_scope p) true !;
  with_optional_id_token client dpop (t_user_id old) (rp_scope p) None None None t.

Definition refresh_token (rq : Request) (client : Client) (dpop : option DpopValidated) : M response :=
  let! v := refresh_check rq client dpop in
  match v with
  | Done r => sret r
  | Go p => refresh_commit client dpop p
  end.

(** ** device_code *)
Definition slow_down (new_interval : Z) : response :=
  mkResponse 400
    (JObj [("error", JStr "slow_down");
           ("error_description", JStr "polling too frequently; increase interval");
           ("interval", JInt new_interval)])
    [("Cache-Control", "no-store")].

Definition observe_poll (device : DeviceAuthorization) : M (option Z) :=
  fun s => let '(r, m) := DevicePoll.observe (a_mono s) (d_device_code device) (d_interval_seconds device)
                            (a_device_poll s) in
           (Ok r, with_device_poll s m).

Definition device_used : response :=
  oauth_error400 "invalid_grant" "device_code has already been redeemed".

Definition device_check (rq : Request) (client : Client)
  : M (verdict (DeviceAuthorization * option string)) :=
  let! allowed := slift (allows_grant json_limit client device_code_grant) in
  if negb allowed then sret (Done unauthorized_client) else
  if negb (truthy_o (form_get "device_code" rq))
  then sret (Done (oauth_error400 "invalid_request" "device_code is required")) else
  let! found := query (get_device_authorization_by_device_code
                         (default EmptyString (form_get "device_code" rq))) in
  match found with
  | None => sret (Done (oauth_error400 "invalid_grant" "device_code not found for this client"))
  | Some device =>
      if negb (String.eqb (d_client_id device) (c_client_id client))
      then sret (Done (oauth_error400 "invalid_grant" "device_code not found for this client")) else
      let! new_interval := observe_poll device in
      match new_interval with
      | Some i => sret (Done (slow_down i))
      | None =>
          let! now := sget a_wall in
          if d_expires_at device <=? now
          then sret (Done (oauth_error400 "expired_token" "device_code has expired"))
          else if d_denied device
          then sret (Done (oauth_error400 "access_denied" "user denied the device authorization request"))
          else if d_used device then sret (Done device_used)
          else if negb (d_approved device)
          then sret (Done (oauth_error400 "authorization_pending" "authorization request is still pending"))
          else try_ (slift (requested_resource rq)) (refuse on_oauth)
                 (fun resource => sret (Go (device, resource)))
      end
  end.

Definition device_commit (client : Client) (dpop : option DpopValidated) (device : DeviceAuthorization)
    (resource : option string) : M response :=
  let! claimed := update_count (mark_device_authorization_used (d_device_code device)) in
  if (claimed =? 0)%nat then sret device_used else
  smod (fun s => with_device_poll s (DevicePoll.forget (d_device_code device) (a_device_poll s))) !;
  let! family := draw uuid4_hex in
  let! t := issue config client (d_user_id device) (d_scope device)
              (plain_args true (Some family) None None resource) in
  count_token_issued !;
  token_created (d_user_id device) (Some (c_client_id client)) (d_scope device) true !;
  with_optional_id_token client dpop (d_user_id device) (d_scope device) None None None t.

Definition device_code (rq : Request) (client : Client) (dpop : option DpopValidated) : M response :=
  let! v := device_check rq client in
  match v with
  | Done r => sret r
  | Go (device, resource) => device_commit client dpop device resource
  end.

(** ** token-exchange *)
Definition unsupported_type (param : string) : response :=
  oauth_error400 "invalid_request"
    ("unsupported " +:+ param +:+ ": only '" +:+ access_token_type_urn +:+ "' is supported").

(** The delegation chain: this client, on top of the subject token's chain
    unless that chain already starts with it. *)
Definition delegation_act (client : Client) (subject_claims : pydict) : pydict :=
  ("sub", JStr (c_client_id client)) ::
  match get_obj "act" subject_claims with
  | Some prior => if member_eqb "sub" (JStr (c_client_id client)) prior then []
                  else [("act", JObj prior)]
  | None => []
  end.

Definition token_exchange (rq : Request) (client : Client) (dpop : option DpopValidated)
    (cnf : option pydict) : M response :=
  let! allowed := slift (allows_grant json_limit client token_exchange_grant) in
  if negb allowed then sret unauthorized_client else
  if is_public client then
    invalid_client_response (Some (c_client_id client)) "Public clients cannot use token-exchange" else
  if negb (truthy_o (form_get "subject_token" rq))
  then sret (oauth_error400 "invalid_request" "Missing subject_token") else
  let subject_token := default EmptyString (form_get "subject_token" rq) in
  if negb (from_option_b (String.eqb access_token_type_urn) (form_get "subject_token_type" rq))
  then sret (unsupported_type "subject_token_type") else
  if match form_get "requested_token_type" rq with
     | Some ty => negb (String.eqb ty access_token_type_urn)
     | None => false
     end
  then sret (unsupported_type "requested_token_type") else
  let! found := query (get_token_by_access_token subject_token) in
  match found with
  | None => sret (oauth_error400 "invalid_grant" "subject_token not found or expired")
  | Some subject =>
      let! now := sget a_wall in
      if t_revoked subject || (t_expires_at subject <=? now)
      then sret (oauth_error400 "invalid_grant" "subject_token is expired or revoked") else
      match narrow_scope (form_get "scope" rq) (t_scope subject) with
      | None => sret (oauth_error400 "invalid_scope" "requested scope exceeds client permissions")
      | Some scope =>
          let! subject_claims := slift (decode_unverified_claims subject_token) in
          let act := delegation_act client subject_claims in
          try_ (slift (check_depth (JObj act) "act" 10)) (reply on_limit) (fun _ =>
          try_ (slift (requested_resource rq)) (reply on_oauth) (fun resource =>
          let! t := issue config client (t_user_id subject) scope
                      (mkIssue false None cnf None (Some act) resource None) in
          count_token_issued !;
          token_created (t_user_id subject) (Some (c_client_id client)) scope false !;
          let body :=
            [("access_token", JStr (tr_access_token t)); ("issued_token_type", JStr access_token_type_urn);
             ("token_type", JStr (tr_token_type t)); ("expires_in", JInt (tr_expires_in t));
             ("scope", match tr_scope t with Some sc => JStr sc | None => JNull end)]
            ++ match form_get "actor_token" rq with Some _ => [("act", JObj act)] | None => [] end in
          with_dpop_nonce client dpop (mkResponse 200 (JObj body) [("Cache-Control", "no-store")])))
      end
  end.

(** ** jwt-bearer *)
Definition token_url : string := rstrip_char "/" (issuer config) +:+ "/oauth/token".

Definition jwt_bearer (rq : Request) (client : Client) (dpop : option DpopValidated)
    (cnf : option pydict) : M response :=
  let! allowed := slift (allows_grant json_limit client jwt_bearer_grant) in
  if negb allowed then sret unauthorized_client else
  if is_public client then
    invalid_client_response (Some (c_client_id client)) "Public clients cannot use the jwt-bearer grant" else
  if negb (truthy_o (form_get "assertion" rq))
  then sret (oauth_error400 "invalid_request" "assertion is required") else
  try_ (redeem_jwt_bearer_assertion (default EmptyString (form_get "assertion" rq)) client
          (rstrip_char "/" (issuer config)) token_url)
    (reply on_oauth) (fun user_id =>
  match narrow_scope (form_get "scope" rq) (c_scope client) with
  | None => sret (oauth_error400 "invalid_scope" "requested scope exceeds client scope")
  | Some scope =>
      try_ (slift (requested_resource rq)) (reply on_oauth) (fun resource =>
      let! t := issue config client (Some user_id) scope (plain_args false None cnf None resource) in
      count_token_issued !;
      token_created (Some user_id) (Some (c_client_id client)) scope false !;
      with_dpop_nonce client dpop (success_response t))
  end).

(** ** The shared pre-grant block *)
Definition check_dpop (rq : Request) (client : Client) : M (verdict (option DpopValidated)) :=
  try_ (slift (read_dpop_header rq)) (refuse on_dpop) (fun dpop_header =>
  match dpop_header with
  | None => sret (Go None)
  | Some proof =>
      try_ (validate_dpop_proof check_bracketed_netloc proof "POST" token_url None) (refuse on_dpop)
        (fun validated =>
      if c_dpop_nonce_required client then
        let! now := sget a_wall in
        let! secret := sget a_dpop_nonce_secret in
        try_ (slift (enforce_dpop_nonce now validated (new_issuer secret (dpop_nonce_lifetime_secs config))))
          (refuse on_dpop) (fun challenge =>
        match challenge with
        | Some r => sret (Done r)
        | None => sret (Go (Some validated))
        end)
      else sret (Go (Some validated)))
  end).

(** The confirmation claim: the proof's key, else the client certificate. *)
Definition confirmation (rq : Request) (dpop : option DpopValidated) : option pydict :=
  match dpop with
  | Some v => Some [("jkt", JStr (v_jkt v))]
  | None =>
      match fst (mtls_headers rq config) with
      | Some thumbprint => Some [("x5t#S256", JStr thumbprint)]
      | None => None
      end
  end.

Definition dispatch (grant_type : string) (rq : Request) (client : Client) (dpop : option DpopValidated)
  : M response :=
  let cnf := confirmation rq dpop in
  if String.eqb grant_type "client_credentials" then client_credentials rq client dpop cnf
  else if String.eqb grant_type "authorization_code" then authorization_code rq client dpop cnf
  else if String.eqb grant_type "refresh_token" then refresh_token rq client dpop
  else if String.eqb grant_type device_code_grant then device_code rq client dpop
  else if String.eqb grant_type token_exchange_grant then token_exchange rq client dpop cnf
  else if String.eqb grant_type jwt_bearer_grant then jwt_bearer rq client dpop cnf
  else sret (oauth_error400 "server_error" "unreachable").

(** A failed client authentication. *)
Definition auth_failed (rq : Request) (e : exn) : option (M response) :=
  match e with
  | OAuthError error description status =>
      Some (count_failed_authentication !;
            if String.eqb error "invalid_client" then
              let! client_id := slift (extract_client_id_for_penalty rq) in
              invalid_client_response client_id (default EmptyString description)
            else sret (oauth_error error description status))
  | _ => None
  end.

(** [token(request)] *)
Definition token (rq : Request) : M response :=
  let grant_type := form_get "grant_type" rq in
  if negb (truthy_o grant_type)
  then sret (oauth_error400 "invalid_request" "grant_type is required") else
  let grant_type := default EmptyString grant_type in
  if negb (mem_str grant_type known_grant_types)
  then sret (oauth_error400 "unsupported_grant_type"
               ("grant_type '" +:+ grant_type +:+ "' is not supported")) else
  try_ (authenticate config rq (mtls_headers rq config)) (auth_failed rq) (fun client =>
  let! v := check_dpop rq client in
  match v with
  | Done r => sret r
  | Go dpop => dispatch grant_type rq client dpop
  end).
End token.
