(* ===== verification/Jar.v ===== *)
(** * Request objects ([services/jar.py], RFC 9101) *)
From S2P Require Import Prelude PyStr PyJson Codec Models PyUrl Limits TtlStores Keys Jwt App Tokens ClientAuth.
#[local] Open Scope Z_scope.

(** ** [json.loads] of bytes: the encoding is detected, surrogates pass *)
Inductive encoding := Utf8 | Utf8Sig | Utf16 (big : bool) (bom : bool) | Utf32 (big : bool) (bom : bool).

Definition detect_encoding (l : list N) : encoding :=
  match l with
  | 0%N :: 0%N :: 254%N :: 255%N :: _ => Utf32 true true
  | 255%N :: 254%N :: 0%N :: 0%N :: _ => Utf32 false true
  | 254%N :: 255%N :: _ => Utf16 true true
  | 255%N :: 254%N :: _ => Utf16 false true
  | 239%N :: 187%N :: 191%N :: _ => Utf8Sig
  | 0%N :: b :: _ :: _ :: _ => if (b =? 0)%N then Utf32 true false else Utf16 true false
  | _ :: 0%N :: c :: d :: _ => if ((c =? 0) && (d =? 0))%N then Utf32 false false else Utf16 false false
  | [0%N; _] => Utf16 true false
  | [_; 0%N] => Utf16 false false
  | _ => Utf8
  end.

(** UTF-8 in which a surrogate may be encoded by itself. *)
Fixpoint utf8_surrogatepass (k : nat) (l : list N) : bool :=
  match l with
  | [] => true
  | b :: r =>
      match k with
      | S k' => utf8_surrogatepass k' r
      | O => if (b =? 237)%N && cont 160 191 r && cont 128 191 (tail r) then utf8_surrogatepass 2 r
             else let '(ok, n) := utf8_step l in ok && utf8_surrogatepass (n - 1) r
      end
  end.

Definition unit16 (big : bool) (a b : N) : N := if big then (a * 256 + b)%N else (b * 256 + a)%N.
Fixpoint units16 (big : bool) (l : list N) : option (list N) :=
  match l with
  | [] => Some []
  | a :: b :: l => option_map (cons (unit16 big a b)) (units16 big l)
  | [_] => None
  end.
Definition is_high (u : N) : bool := ((55296 <=? u) && (u <=? 56319))%N.
Definition is_low (u : N) : bool := ((56320 <=? u) && (u <=? 57343))%N.
Fixpoint join_surrogates (l : list N) : list N :=
  match l with
  | [] => []
  | u :: l' =>
      match l' with
      | v :: l'' =>
          if is_high u && is_low v then (65536 + (u - 55296) * 1024 + (v - 56320))%N :: join_surrogates l''
          else u :: join_surrogates l'
      | [] => [u]
      end
  end.
Fixpoint units32 (big : bool) (l : list N) : option (list N) :=
  match l with
  | [] => Some []
  | a :: b :: c :: d :: l =>
      let n := if big then (((a * 256 + b) * 256 + c) * 256 + d)%N else (((d * 256 + c) * 256 + b) * 256 + a)%N in
      if (n <=? 1114111)%N then option_map (cons n) (units32 big l) else None
  | _ => None
  end.
Definition of_code_points (l : list N) : string := fold_right (fun n s => utf8_encode n +:+ s) EmptyString l.

(** [b.decode(detect_encoding(b), "surrogatepass")]; [None] raises a
    [UnicodeDecodeError]. *)
Definition decode_detected (s : string) : option string :=
  let l := bytes_of s in
  match detect_encoding l with
  | Utf8 => if utf8_surrogatepass 0 l then Some s else None
  | Utf8Sig => if utf8_surrogatepass 0 l then Some (py_drop 3 s) else None
  | Utf16 big bom => option_map (fun u => of_code_points (join_surrogates u))
                       (units16 big (if bom then skipn 2 l else l))
  | Utf32 big bom => option_map of_code_points (units32 big (if bom then skipn 4 l else l))
  end.
Definition json_loads_bytes (limit : nat) (s : string) : result exn json :=
  match decode_detected s with
  | Some t => py_json_loads limit t
  | None => Err (PyErr ValueError "UnicodeDecodeError")
  end.

(** ** jar.py *)
Definition MAX_UNSIGNED_JAR_DEPTH : Z := 10.
Definition jar_overlay_keys : list string :=
  ["redirect_uri"; "response_type"; "response_mode"; "scope"; "code_challenge"; "code_challenge_method";
   "nonce"; "resource"; "state"; "authorization_details"; "claims"; "acr_values"; "dpop_jkt"].
Definition jar_alg_for_method (method : string) : option string :=
  if mem_str method ["client_secret_basic"; "client_secret_post"; "client_secret_jwt"] then Some "HS256"
  else if String.eqb method "private_key_jwt" then Some "RS256" else None.

Definition jar_invalid (description : string) : exn := OAuthError "invalid_request" (Some description) 400.
Definition jar_object_invalid (description : string) : exn :=
  OAuthError "invalid_request_object" (Some description) 400.

(** [s.split(".", 2)] with three parts. *)
Definition split_jwt (s : string) : option (string * string * string) :=
  match py_partition "." s with
  | (h, Some rest) =>
      match py_partition "." rest with
      | (p, Some sig) => Some (h, p, sig)
      | (_, None) => None
      end
  | (_, None) => None
  end.

Definition jar_b64url_decode (segment what : string) : result exn string :=
  let padded := map_string url_to_std segment +:+ b64_padding segment in
  match (if is_ascii_str padded then a2b_base64 true padded else None) with
  | Some raw => Ok raw
  | None => Err (jar_invalid ("JAR JWT " +:+ what +:+ " is not valid base64url"))
  end.

(** [except (ValueError, RecursionError)] *)
Definition jar_json (limit : nat) (raw description : string) : result exn json :=
  rcatch (json_loads_bytes limit raw) (fun e =>
    if is_value_error e then Err (jar_invalid description) else
    match e with
    | PyErr RecursionError _ => Err (jar_invalid description)
    | e => Err e
    end).

Section jar.
Context `{JwtLib} `{Runtime} `{Http}.

Definition decode_unsigned_jar (parts : string * string * string) : result exn pydict :=
  let '(h, p, sig) := parts in
  let? header_bytes := jar_b64url_decode h "header" in
  let? header := jar_json json_limit header_bytes "JAR JWT header is not valid JSON" in
  if negb (match header with JObj m => match obj_get "alg" m with Some a => json_eqb a (JStr "none") | None => false end
           | _ => false end)
  then Err (jar_invalid "JAR from public client must use alg=none; signed JARs require a confidential client authentication method") else
  if truthy sig then Err (jar_invalid "JAR with alg=none must have an empty signature") else
  let? payload_bytes := jar_b64url_decode p "payload" in
  let payload_error := "JAR JWT payload is not valid JSON" in
  let? payload := jar_json json_limit payload_bytes payload_error in
  match payload with
  | JObj m =>
      let? _ := rcatch (check_depth payload "request" MAX_UNSIGNED_JAR_DEPTH) (fun e =>
        match e with LimitError _ => Err (jar_invalid payload_error) | e => Err e end) in
      Ok m
  | _ => Err (jar_invalid payload_error)
  end.

Definition jar_options (alg audience : string) : decode_options :=
  mkOptions [alg] [audience] None ["exp"; "iss"] true true.

Definition decode_signed_jar (client : Client) (request_jwt method expected_alg authorize_url : string)
  : M pydict :=
  let! key :=
    if String.eqb expected_alg "HS256" then
      if truthy (c_client_secret client) then sret (SecretKey (c_client_secret client))
      else sraise (jar_invalid ("Client has no client_secret registered for " +:+ method +:+ " JAR"))
    else
      let! jwks := resolve_client_jwks client ["private_key_jwt"] in
      let! header := slift (rcatch (jwt_unverified_header request_jwt) (fun e =>
        if is_jwt_error e then Err (jar_invalid "JAR JWT header is malformed") else Err e)) in
      slift (rsa_key_from_jwks jwks (obj_get "kid" header) "invalid_request" " for JAR") in
  let! now := sget a_wall in
  let! claims := slift (rcatch (jwt_decode now request_jwt key (jar_options expected_alg authorize_url))
    (fun e => if is_jwt_error e
              then Err (jar_object_invalid ("JAR " +:+ expected_alg +:+ " verification failed: " +:+ exn_str e))
              else Err e)) in
  if negb (member_eqb "iss" (JStr (c_client_id client)) claims)
  then sraise (jar_object_invalid "JAR 'iss' claim must equal client_id")
  else sret claims.

(** The string members among the overlay keys. *)
Definition overlay (claims : pydict) : list (string * string) :=
  omap (fun k => option_map (pair k) (get_str k claims)) jar_overlay_keys.

Definition process_jar (client : Client) (request_jwt authorize_url : string) : M (list (string * string)) :=
  match split_jwt request_jwt with
  | None => sraise (jar_invalid "JAR request is not a valid JWT (expected header.payload.signature)")
  | Some parts =>
      let method := c_token_endpoint_auth_method client in
      let! claims :=
        if String.eqb method "none" then slift (decode_unsigned_jar parts) else
        match jar_alg_for_method method with
        | Some alg => decode_signed_jar client request_jwt method alg authorize_url
        | None => sraise (jar_invalid ("Unsupported token_endpoint_auth_method '" +:+ method +:+ "' for JAR signing"))
        end in
      match obj_get "client_id" claims with
      | None | Some JNull => sret (overlay claims)
      | Some j => if json_eqb j (JStr (c_client_id client)) then sret (overlay claims)
                  else sraise (jar_object_invalid "JAR client_id does not match")
      end
  end.
End jar.
