(* ===== verification/Authorize.v ===== *)
(** * GET /oauth/authorize ([routes/authorize.py])

    [authorize] is the whole handler, in the order of the code: what precedes
    the trust in [redirect_uri] ([resolve_request]), the parameters whose
    errors go through the redirect channel ([check_params]), the session
    ([check_session]), and the code ([grant_code]). *)
From S2P Require Import Prelude PyStr PyJson Codec Models Storage PyUrl Limits TtlStores Keys Jwt App.
From S2P Require Import Tokens ClientAuth TokenEndpoint PyInt Redirects Jar.
#[local] Open Scope Z_scope.

(** The session cookie, and a request: its query items in order and its raw
    path and query. *)
Record Session := mkSession {
  se_user_id : option string;
  se_auth_time : option Z;
  se_acr : option string;
  se_amr : option (list string)
}.
Record AuthorizeRequest := mkAuthorize {
  aq_items : list (string * string);
  aq_path : string;
  aq_query : string;
  aq_session : Session
}.

Definition hybrid_response_type : string := "code id_token".
Definition supported_response_types : list string := ["code"; hybrid_response_type].
Definition MIN_CODE_CHALLENGE_LEN : Z := 43.
Definition MAX_CODE_CHALLENGE_LEN : Z := 128.
Definition par_merge_keys : list string :=
  ["redirect_uri"; "scope"; "code_challenge"; "code_challenge_method"; "nonce"; "resource"; "state";
   "authorization_details"; "claims"; "acr_values"; "dpop_jkt"].

(** [_DPOP_JKT_RE.fullmatch] *)
Definition jkt_char (c : ascii) : bool :=
  is_alpha c || is_ascii_digit c || Ascii.eqb c "_" || Ascii.eqb c "-".
Definition is_dpop_jkt (s : string) : bool := (String.length s =? 43)%nat && all_chars jkt_char s.

Definition strip_reauth_field (field : string * string) : list (string * string) :=
  let '(key, value) := field in
  if String.eqb key "max_age" then []
  else if String.eqb key "prompt" then
    let remaining := join " " (List.filter (fun p => negb (String.eqb p "login")) (py_split value)) in
    if truthy remaining then [(key, remaining)] else []
  else [(key, value)].
Definition strip_reauth_params (query : string) : result exn string :=
  urlencode true (flat_map strip_reauth_field (parse_qsl query)).

(** A repeated key. *)
Fixpoint has_duplicate (seen : list string) (items : list (string * string)) : bool :=
  match items with
  | [] => false
  | (k, _) :: items => mem_str k seen || has_duplicate (k :: seen) items
  end.

(** The code points of a string, each as a string. *)
Fixpoint chars_from (cur s : string) : list string :=
  match s with
  | EmptyString => flush cur
  | String c s => if is_continuation c then chars_from (cur +:+ String c EmptyString) s
                  else flush cur ++ chars_from (String c EmptyString) s
  end.
Definition iterate (v : json) : result exn (list json) :=
  match v with
  | JList l => Ok l
  | JObj m => Ok (map (fun kv => JStr (fst kv)) m)
  | JStr s => Ok (map JStr (chars_from EmptyString s))
  | _ => Err (PyErr TypeError "object is not iterable")
  end.

Section authorize.
Context `{JwtLib} `{Runtime} `{Http}.
Context (cbn_ : string -> bool) (config : Config).

(** [any(redirect_uri_matches(registered, requested) for ...)]: [urlparse] of a
    falsy value that is not a string is an empty result, of another one an
    [AttributeError]. *)
Fixpoint any_registered (requested : string) (registered : list json) : result exn bool :=
  match registered with
  | [] => Ok false
  | r :: registered =>
      let? found :=
        match r with
        | JStr r => redirect_uri_matches cbn_ r requested
        | r => if json_truthy r then Err (PyErr AttributeError "decode") else Ok false
        end in
      if found then Ok true else any_registered requested registered
  end.
Definition is_registered_uri (client : Client) (requested : string) : result exn bool :=
  let? v := redirect_uri_list json_limit client in
  let? l := iterate v in
  any_registered requested l.

Definition oauth_error_page (e : exn) : option authz_response :=
  match e with
  | OAuthError er d st => Some (ErrorPage st er (default EmptyString d))
  | _ => None
  end.

(** ** Before the redirect URI is trusted *)
Inductive averdict (A : Type) := ADone (r : authz_response) | AGo (a : A).
#[global] Arguments ADone {A} r.
#[global] Arguments AGo {A} a.

Record Resolved := mkResolved {
  rs_client : Client;
  rs_merged : gmap string string;
  rs_has_jar : bool;
  rs_redirect_uri : string;
  rs_state : option string;
  rs_response_type : option string;
  rs_mode : string
}.
Definition rs_hybrid (r : Resolved) : bool :=
  from_option_b (String.eqb hybrid_response_type) (rs_response_type r).

Definition query_map (rq : AuthorizeRequest) : gmap string string := list_to_map (aq_items rq).

(** The parameters of the pushed request over those of the query. *)
Definition merge_par (params : gmap string string) (pushed : gmap string string) : gmap string string :=
  fold_right (fun k m => match pushed !! k with Some v => <[k := v]> m | None => m end) params par_merge_keys.
Definition merge_jar (params : gmap string string) (claims : list (string * string)) : gmap string string :=
  fold_left (fun m kv => <[fst kv := snd kv]> m) claims params.

Definition take_par (request_uri : string) : M (option Par.ParEntry) :=
  fun s => let '(entry, st) := Par.take (a_mono s) request_uri (a_par_store s) in (Ok entry, with_par_store s st).

Definition resolve_par (rq : AuthorizeRequest) : M (averdict (gmap string string)) :=
  let params := query_map rq in
  match params !! "request_uri" with
  | None => sret (AGo params)
  | Some request_uri =>
      let! entry := take_par request_uri in
      match entry with
      | None => sret (ADone (ErrorPage 400 "invalid_request" "Unknown or expired request_uri"))
      | Some e =>
          if negb (from_option_b (String.eqb (Par.p_client_id e)) (params !! "client_id"))
          then sret (ADone (ErrorPage 401 "invalid_client" "request_uri client_id mismatch"))
          else sret (AGo (merge_par params (Par.p_params e)))
      end
  end.

Definition resolve_client (rq : AuthorizeRequest) : M (averdict Client) :=
  let params := query_map rq in
  match params !! "client_id" with
  | None => sret (ADone (ErrorPage 400 "invalid_request" "client_id is required"))
  | Some client_id =>
      let! now := sget a_wall in
      let! client := if truthy client_id then query (get_client client_id) else sret None in
      let! denied := if truthy client_id then query (check_subject_denylisted now "client_id" client_id)
                     else sret None in
      match client, denied with
      | Some client, None =>
          if negb (c_enabled client)
          then sret (ADone (ErrorPage 401 "invalid_client" "unknown or disabled client_id"))
          else if c_require_state client && negb (bool_decide (is_Some (params !! "state")))
          then sret (ADone (ErrorPage 400 "invalid_request"
                              "state parameter is required for this client (RFC 9700 §4.7)"))
          else sret (AGo client)
      | _, _ => sret (ADone (ErrorPage 401 "invalid_client" "unknown or disabled client_id"))
      end
  end.

(** The merged parameters under the request object, and its response_mode. *)
Definition resolve_jar (rq : AuthorizeRequest) (client : Client) (merged : gmap string string)
  : M (averdict (gmap string string * option string)) :=
  match query_map rq !! "request" with
  | None => sret (AGo (merged, None))
  | Some request_jwt =>
      try_ (process_jar client request_jwt (rstrip_char "/" (issuer config) +:+ "/oauth/authorize"))
        (fun e => option_map (fun r => sret (ADone r)) (oauth_error_page e)) (fun claims =>
      let merged := merge_jar merged claims in
      if negb (from_option_b (fun t => mem_str t supported_response_types) (merged !! "response_type"))
      then sret (ADone (ErrorPage 400 "invalid_request"
                          "Unsupported response_type in JAR; supported values: code, code id_token"))
      else sret (AGo (merged, merge_jar ∅ claims !! "response_mode")))
  end.

Definition resolve_request (rq : AuthorizeRequest) : M (averdict Resolved) :=
  if has_duplicate [] (aq_items rq)
  then sret (ADone (ErrorPage 400 "invalid_request" "duplicate query parameter")) else
  let! par := resolve_par rq in
  match par with ADone r => sret (ADone r) | AGo merged =>
  let! found := resolve_client rq in
  match found with ADone r => sret (ADone r) | AGo client =>
  let! jar := resolve_jar rq client merged in
  match jar with ADone r => sret (ADone r) | AGo (merged, jar_mode) =>
  let redirect_uri := merged !! "redirect_uri" in
  let! registered := if truthy_o redirect_uri
                     then slift (is_registered_uri client (default EmptyString redirect_uri))
                     else sret false in
  if negb registered
  then sret (ADone (ErrorPage 400 "invalid_request" "redirect_uri is not registered for this client")) else
  let has_jar := bool_decide (is_Some (query_map rq !! "request")) in
  let response_type := if has_jar then merged !! "response_type" else query_map rq !! "response_type" in
  let mode := if truthy_o jar_mode then jar_mode else query_map rq !! "response_mode" in
  try_ (slift (resolve_response_mode mode (from_option_b (String.eqb hybrid_response_type) response_type)))
    (fun e => option_map (fun r => sret (ADone r)) (oauth_error_page e))
    (fun mode => sret (AGo (mkResolved client merged has_jar (default EmptyString redirect_uri)
                              (merged !! "state") response_type mode)))
  end end end.

(** ** Errors through the redirect channel ([_deliver_error]) *)
Definition deliver_error (r : Resolved) (error : string) (description : option string) : M authz_response :=
  slift (rcatch (error_response cbn_ (rs_mode r) (rs_redirect_uri r) error description (rs_state r) (issuer config))
    (fun e => match oauth_error_page e with Some p => Ok p | None => Err e end)).
Definition invalid {A} (r : Resolved) (error description : string) : M (averdict A) :=
  let! p := deliver_error r error (Some description) in sret (ADone p).
(** An exception that [pick] knows, delivered. *)
Definition deliver_exn {A} (r : Resolved) (pick : exn -> option (string * option string)) (e : exn)
  : option (M (averdict A)) :=
  option_map (fun p => let! p := deliver_error r (fst p) (snd p) in sret (ADone p)) (pick e).
Definition rar_exn (e : exn) : option (string * option string) :=
  match e with RarError d => Some ("invalid_authorization_details", Some d) | _ => None end.
Definition oauth_exn (e : exn) : option (string * option string) :=
  match e with OAuthError er d _ => Some (er, d) | _ => None end.
Definition limit_exn (e : exn) : option (string * option string) :=
  match e with LimitError d => Some ("invalid_request", Some d) | _ => None end.

(** ** The parameters *)
Record Params := mkParams {
  pa_nonce : option string;
  pa_scope : string;
  pa_challenge : string;
  pa_method : option string;
  pa_details : option string;
  pa_resource : option string;
  pa_claims : option string;
  pa_jkt : option string
}.

(** [claims]: a malformed value is no object; the other errors leave. *)
Definition claims_object (raw : string) : result exn bool :=
  rmap (fun v => match v with JObj _ => true | _ => false end)
    (rcatch (check_json_param json_limit raw "claims" 8192 10) (fun e =>
      match e with PyErr JSONDecode _ => Ok JNull | e => Err e end)).

Definition check_claims (r : Resolved) (claims : option string) : M (averdict unit) :=
  match claims with
  | None => sret (AGo tt)
  | Some raw =>
      try_ (slift (claims_object raw)) (deliver_exn r limit_exn) (fun ok =>
        if ok then sret (AGo tt) else invalid r "invalid_request" "claims must be a JSON object")
  end.
Definition check_details (r : Resolved) (details : option string) : M (averdict unit) :=
  match details with
  | None => sret (AGo tt)
  | Some raw =>
      try_ (slift (validate_authorization_details json_limit raw (rar_types_supported config)))
        (deliver_exn r rar_exn) (fun _ => sret (AGo tt))
  end.

Definition challenge_length_ok (c : string) : bool :=
  (MIN_CODE_CHALLENGE_LEN <=? py_len c) && (py_len c <=? MAX_CODE_CHALLENGE_LEN).

Definition check_params (r : Resolved) : M (averdict Params) :=
  let merged := rs_merged r in
  let! granted := slift (allows_grant json_limit (rs_client r) "authorization_code") in
  if negb granted
  then invalid r "unauthorized_client" "client is not authorized for this grant type" else
  if negb (rs_has_jar r)
     && negb (from_option_b (fun t => mem_str t supported_response_types) (rs_response_type r))
  then invalid r "unsupported_response_type" "only the 'code' and 'code id_token' response_types are supported" else
  let nonce := merged !! "nonce" in
  if rs_hybrid r && negb (truthy_o nonce)
  then invalid r "invalid_request" "nonce is required for response_type=code id_token" else
  let scope := or_else (merged !! "scope") "read" in
  if negb (scope_is_subset scope (c_scope (rs_client r)))
  then invalid r "invalid_scope" "requested scope exceeds the client's allowed scope" else
  let challenge := default EmptyString (merged !! "code_challenge") in
  let method := merged !! "code_challenge_method" in
  if negb (truthy challenge)
  then invalid r "invalid_request" "a PKCE code_challenge is required (RFC 9700 §2.1.1)" else
  if negb (from_option_b (String.eqb "S256") method)
  then invalid r "invalid_request" "only the S256 code_challenge_method is supported" else
  if negb (challenge_length_ok challenge)
  then invalid r "invalid_request" "code_challenge must be between 43 and 128 characters" else
  let! details := check_details r (merged !! "authorization_details") in
  match details with ADone p => sret (ADone p) | AGo _ =>
  try_ (slift (validate_resource cbn_ (merged !! "resource"))) (deliver_exn r oauth_exn) (fun resource =>
  let! claims := check_claims r (merged !! "claims") in
  match claims with ADone p => sret (ADone p) | AGo _ =>
  let jkt := merged !! "dpop_jkt" in
  if match jkt with Some j => negb (is_dpop_jkt j) | None => false end
  then invalid r "invalid_request" "dpop_jkt must be a base64url-encoded SHA-256 JWK thumbprint"
  else sret (AGo (mkParams nonce scope challenge method (merged !! "authorization_details") resource
                    (merged !! "claims") jkt))
  end)
  end.

(** ** The session *)
(** [max_age]: the session is older, or its age is unknown. *)
Definition auth_expired (now : Z) (max_age : option string) (auth_time : option Z) : bool :=
  match from_option py_int None max_age with
  | Some secs => match auth_time with
                 | Some t => secs * SECOND <=? now - t * SECOND
                 | None => true
                 end
  | None => false
  end.
Definition prompt_values (rq : AuthorizeRequest) : list string := py_split (or_else (query_map rq !! "prompt") EmptyString).
Definition force_login (prompt : list string) : bool := mem_str "login" prompt || mem_str "select_account" prompt.

Definition return_to (rq : AuthorizeRequest) : result exn string :=
  if truthy (aq_query rq) then rmap (fun q => aq_path rq +:+ "?" +:+ q) (strip_reauth_params (aq_query rq))
  else Ok (aq_path rq).

(** The user the request is for. *)
Definition check_session (rq : AuthorizeRequest) (r : Resolved) : M (averdict string) :=
  let prompt := prompt_values rq in
  if mem_str "none" prompt && (1 <? length prompt)%nat
  then invalid r "invalid_request" "prompt=none cannot be combined with other values" else
  let! now := sget a_wall in
  let session := aq_session rq in
  let login := force_login prompt || auth_expired now (query_map rq !! "max_age") (se_auth_time session) in
  match se_user_id session, login with
  | Some user_id, false =>
      let acr_values := rs_merged r !! "acr_values" in
      if match acr_values with
         | Some v => negb (from_option_b (fun a => mem_str a (py_split v)) (se_acr session))
         | None => false
         end
      then invalid r "insufficient_user_authentication"
             "Authentication Context Class does not satisfy acr_values"
      else sret (AGo user_id)
  | _, _ =>
      if mem_str "none" prompt
      then invalid r "login_required" "User is not authenticated and prompt=none was requested"
      else let! original := slift (return_to rq) in
           sret (ADone (LoginRedirect original (unix_secs now)))
  end.

(** ** The code *)
Definition hybrid_id_token (rq : AuthorizeRequest) (client : Client) (code : AuthorizationCode)
  : M string :=
  let session := aq_session rq in
  let! user := query (get_user_by_id (ac_user_id code)) in
  let! now := sget a_wall in
  let! ks := sget a_keyset in
  slift (mint_id_token config now (Some ks) client (ac_user_id code) user (ac_scope code) (ac_nonce code) None
           (Some (ac_code code)) (se_acr session) (se_amr session) (se_auth_time session) None).

Definition authorized (r : Resolved) (code : AuthorizationCode) (id_token : option string) : M authz_response :=
  slift (rcatch (success_response cbn_ (rs_mode r) (rs_redirect_uri r) (ac_code code) (rs_state r)
                   (issuer config) id_token)
    (fun e => match oauth_error_page e with Some p => Ok p | None => Err e end)).

Definition grant_code (rq : AuthorizeRequest) (r : Resolved) (p : Params) (user_id : string) : M authz_response :=
  let! code := issue_code config (rs_client r) user_id (rs_redirect_uri r) (pa_scope p) (Some (pa_challenge p))
                 (pa_method p) (pa_nonce p) (pa_details p) (pa_resource p) (pa_claims p) (pa_jkt p) in
  count_code_issued !;
  emit_event "authorization_code_created" (Some user_id) (Some (c_client_id (rs_client r))) "info"
    [("scope", pa_scope p); ("redirect_uri", rs_redirect_uri r)] !;
  if rs_hybrid r && in_scope "openid" (ac_scope code) then
    try_ (hybrid_id_token rq (rs_client r) code)
      (fun e => if is_value_error e then Some (sret (ErrorPage 500 "server_error" (exn_str e))) else None)
      (fun t => authorized r code (Some t))
  else authorized r code None.

Definition authorize (rq : AuthorizeRequest) : M authz_response :=
  let! resolved := resolve_request rq in
  match resolved with ADone p => sret p | AGo r =>
  let! params := check_params r in
  match params with ADone p => sret p | AGo p =>
  let! session := check_session rq r in
  match session with ADone p => sret p | AGo user_id =>
  grant_code rq r p user_id
  end end end.
End authorize.
