(* ===== verification/DeviceFlow.v ===== *)
(** * The device authorization endpoints ([routes/device.py], RFC 8628) *)
From S2P Require Import Prelude PyStr PyJson Codec Models Storage PyUrl TtlStores Keys Jwt App.
From S2P Require Import Tokens ClientAuth TokenEndpoint Redirects Authorize.
#[local] Open Scope Z_scope.

Definition USER_CODE_ALPHABET : string := "BCDFGHJKLMNPQRSTVWXZ".
Definition EXPIRES_IN : Z := 600.
Definition INTERVAL : Z := 5.

(** [s.upper()]: the letters that are not ASCII but whose upper case holds
    ASCII letters are listed; other letters that are not ASCII stay as they
    are, since no user code holds one in either case. *)
Definition special_upper : list (string * string) :=
  [("ı", "I"); ("ſ", "S"); ("ß", "SS"); ("ŉ", "ʼN"); ("ǰ", "J̌"); ("ẖ", "H̱"); ("ẗ", "T̈"); ("ẘ", "W̊");
   ("ẙ", "Y̊"); ("ẚ", "Aʾ"); ("ﬀ", "FF"); ("ﬁ", "FI"); ("ﬂ", "FL"); ("ﬃ", "FFI"); ("ﬄ", "FFL");
   ("ﬅ", "ST"); ("ﬆ", "ST")].
Definition upper_point (c : string) : string :=
  match List.find (fun kv => String.eqb (fst kv) c) special_upper with
  | Some (_, u) => u
  | None => py_upper c
  end.
Definition str_upper (s : string) : string :=
  fold_right (fun c s => upper_point c +:+ s) EmptyString (chars_from EmptyString s).

(** [value[:4]] and [value[4:]] in code points. *)
Definition chars (s : string) : list string := chars_from EmptyString s.
Definition concat_chars (l : list string) : string := fold_right (fun c s => c +:+ s) EmptyString l.
Definition normalize_user_code (raw : string) : string :=
  let value := str_upper (py_strip raw) in
  if negb (py_contains_char "-" value) && (py_len value =? 8)
  then concat_chars (firstn 4 (chars value)) +:+ "-" +:+ concat_chars (skipn 4 (chars value))
  else value.

Section device.
Context `{JwtLib} `{Runtime} `{Http}.
Context (config : Config).

(** [secrets.choice(_USER_CODE_ALPHABET)], four of them, and a user code. *)
Definition random_char (n : nat) : ascii :=
  char_at (Z.to_nat (randbelow n (py_len USER_CODE_ALPHABET))) USER_CODE_ALPHABET.
Fixpoint random_chars (k : nat) : M string :=
  match k with
  | O => sret EmptyString
  | S k => let! c := draw random_char in let! s := random_chars k in sret (String c s)
  end.
Definition random_part : M string := random_chars 4.
Definition generate_user_code : M string :=
  let! a := random_part in let! b := random_part in sret (a +:+ "-" +:+ b).

(** ** POST /oauth/device_authorization *)
Definition verification_uri : string := rstrip_char "/" (issuer config) +:+ "/oauth/device/verify".
Definition device_response (d : DeviceAuthorization) : response :=
  mkResponse 200
    (JObj [("device_code", JStr (d_device_code d)); ("user_code", JStr (d_user_code d));
           ("verification_uri", JStr verification_uri);
           ("verification_uri_complete", JStr (verification_uri +:+ "?user_code=" +:+ d_user_code d));
           ("expires_in", JInt EXPIRES_IN); ("interval", JInt INTERVAL)])
    [("Cache-Control", "no-store")].

(** The scope asked for, or the client's; [None] exceeds it. *)
Definition device_scope (rq : Request) (client : Client) : option string :=
  let requested := or_else (form_get "scope" rq) EmptyString in
  if truthy requested then if scope_is_subset requested (c_scope client) then Some requested else None
  else Some (c_scope client).

Definition device_authorization_for (rq : Request) (client : Client) : M response :=
  let! allowed := slift (allows_grant json_limit client device_code_grant) in
  if negb allowed then sret unauthorized_client else
  match device_scope rq client with
  | None => sret (oauth_error400 "invalid_scope" "requested scope exceeds client scope")
  | Some scope =>
      let! now := sget a_wall in
      let! id := draw uuid4_hex in
      let! device_code := draw token_urlsafe in
      let! user_code := generate_user_code in
      let device := mkDevice id device_code user_code (c_client_id client) scope now
                      (plus_secs now EXPIRES_IN) INTERVAL false false false None in
      insert (save_device_authorization device) !;
      sret (device_response device)
  end.
Definition device_authorization (rq : Request) : M response :=
  try_ (authenticate config rq (mtls_headers rq config)) (reply on_oauth) (device_authorization_for rq).

(** ** /oauth/device/verify *)
(** The page, or the redirect to the login with what it saves. *)
Inductive verify_page := VerifyForm (html : string) | VerifyLogin (return_to : string) (return_to_ts : Z).

Definition device_verify_form (user_code : string) : string :=
  join newline
    ["<!doctype html>"; "<html lang=" +:+ quoted "en" +:+ ">";
     "<head><meta charset=" +:+ quoted "utf-8" +:+ "><title>Authorize Device</title></head>";
     "<body>"; "<h1>Authorize Device</h1>";
     "<form method=" +:+ quoted "post" +:+ " action=" +:+ quoted "/oauth/device/verify" +:+ ">";
     "  <label for=" +:+ quoted "user_code" +:+ ">Code</label>";
     "  <input type=" +:+ quoted "text" +:+ " id=" +:+ quoted "user_code" +:+ " name=" +:+ quoted "user_code"
       +:+ " value=" +:+ quoted (html_escape_attr user_code) +:+ " autocomplete=" +:+ quoted "off" +:+ " required>";
     "  <button type=" +:+ quoted "submit" +:+ " name=" +:+ quoted "action" +:+ " value=" +:+ quoted "approve"
       +:+ ">Approve</button>";
     "  <button type=" +:+ quoted "submit" +:+ " name=" +:+ quoted "action" +:+ " value=" +:+ quoted "deny"
       +:+ ">Deny</button>";
     "</form>"; "</body>"; "</html>"; EmptyString].

Definition device_verify_page (session : Session) (user_code : option string) : M verify_page :=
  match se_user_id session with
  | Some _ => sret (VerifyForm (device_verify_form (default EmptyString user_code)))
  | None =>
      let! now := sget a_wall in
      let target := "/oauth/device/verify" in
      let! target := if truthy_o user_code
                     then slift (rmap (fun q => target +:+ "?user_code=" +:+ q)
                                   (quote_via false (default EmptyString user_code)))
                     else sret target in
      sret (VerifyLogin target (unix_secs now))
  end.

Definition json_error (status : Z) (error : string) : response :=
  mkResponse status (JObj [("error", JStr error)]) [].
Definition json_status (status : string) : response := mkResponse 200 (JObj [("status", JStr status)]) [].

(** A device authorization no one has decided on yet. *)
Definition undecided (now : Z) (d : DeviceAuthorization) : bool :=
  negb (d_used d) && negb (d_approved d) && negb (d_denied d) && negb (d_expires_at d <=? now).

Definition device_verify (session : Session) (raw_user_code action : option string) : M response :=
  match se_user_id session with
  | None => sret (json_error 401 "login_required")
  | Some user_id =>
      if negb (truthy_o raw_user_code) then sret (json_error 400 "invalid_user_code") else
      let user_code := normalize_user_code (default EmptyString raw_user_code) in
      let! found := query (get_device_authorization_by_user_code user_code) in
      let! now := sget a_wall in
      match found with
      | None => sret (json_error 400 "invalid_user_code")
      | Some device =>
          if negb (undecided now device) then sret (json_error 400 "invalid_user_code") else
          if from_option_b (String.eqb "approve") action then
            update (approve_device_authorization user_code user_id) !; sret (json_status "approved")
          else if from_option_b (String.eqb "deny") action then
            update (deny_device_authorization user_code) !; sret (json_status "denied")
          else sret (json_error 400 "invalid_request")
      end
  end.
End device.
