(* ===== verification/Login.v ===== *)
(** * Sign-in ([routes/login.py], [sessions.py]) *)
From S2P Require Import Prelude PyStr PyJson Codec Models Storage PyUrl TtlStores Keys Jwt App.
From S2P Require Import Tokens ClientAuth Redirects Authorize.
#[local] Open Scope Z_scope.

Definition RETURN_TO_MAX_AGE_SECS : Z := 600.

(** What the pages before the login left in the session: a string and an
    integer, both written by the server only. *)
Record PendingSession := mkPending {
  pe_return_to : option string;
  pe_return_to_ts : option Z
}.
(** The session [set_login] writes. *)
Record LoginSession := mkLoginSession {
  ls_user_id : string;
  ls_auth_time : Z;
  ls_role : string;
  ls_email : string;
  ls_username : string;
  ls_acr : option string;
  ls_amr : option (list string)
}.
Definition set_login (now : Z) (user : User) (acr : option string) (amr : option (list string)) : LoginSession :=
  mkLoginSession (u_id user) (unix_secs now) (u_role user) (u_email user) (u_username user) acr amr.
(** The session as the handlers that read it see it
    ([current_user_id], [current_acr], [current_amr]). *)
Definition session_of (ls : LoginSession) : Session :=
  mkSession (Some (ls_user_id ls)) (Some (ls_auth_time ls)) (ls_acr ls) (ls_amr ls).

(** A 303 redirect; [lr_session] is the new session, [None] leaves it. *)
Record LoginReply := mkLoginReply {
  lr_target : string;
  lr_retry_after : option Z;
  lr_session : option LoginSession
}.
Record LoginRequest := mkLogin {
  lq_client_host : option string;
  lq_username : string;
  lq_password : string;
  lq_session : PendingSession
}.

Definition ip_key (rq : LoginRequest) : string := "login:ip:" +:+ default "unknown" (lq_client_host rq).
Definition user_key (rq : LoginRequest) : string := "login:user:" +:+ lq_username rq.

Definition login_throttled (retry_after : Z) : LoginReply :=
  mkLoginReply "/auth/login?error=too_many_attempts" (Some retry_after) None.
Definition login_failed : LoginReply := mkLoginReply "/auth/login?error=invalid_credentials" None None.

Definition check_login (key : string) : M (option Z) :=
  fun s => let '(o, l) := FixedWindow.check (a_mono s) key (a_login_limiter s) in
           (Ok o, with_login_limiter s l).
Definition reset_login (key : string) : M unit :=
  smod (fun s => with_login_limiter s (FixedWindow.reset key (a_login_limiter s))).

(** [time.time() - return_to_ts <= RETURN_TO_MAX_AGE_SECS] and [is_safe_redirect]. *)
Definition login_target (now : Z) (pending : PendingSession) : string :=
  let fresh := from_option_b (fun ts => now - ts * SECOND <=? RETURN_TO_MAX_AGE_SECS * SECOND)
                 (pe_return_to_ts pending) in
  if fresh && is_safe_redirect (pe_return_to pending)
  then default EmptyString (pe_return_to pending) else "/".

Section login.
Context `{JwtLib} `{Runtime} `{Http}.
Context (config : Config).

Definition login_denied (now : Z) (username : string) (user : User) (st : Store) : bool :=
  match check_subject_denylisted now "username" username st with
  | Some _ => true
  | None => bool_decide (is_Some (check_subject_denylisted now "email" (u_email user) st))
  end.
(** The condition of the rejection, in the order it is evaluated. *)
Definition may_sign_in (password : string) (user : User) (denied : bool) : result exn bool :=
  if negb (u_enabled user) then Ok false else
  let? verified := verify_password password (u_password_hash user) in
  Ok (verified && negb denied).

Definition sign_in (rq : LoginRequest) (user : User) : M LoginReply :=
  reset_login (user_key rq) !;
  let! now := sget a_wall in
  sret (mkLoginReply (login_target now (lq_session rq)) None
          (Some (set_login now user (default_acr config) (Some ["pwd"])))).

(** Once the limiter lets the attempt through. *)
Definition examine (rq : LoginRequest) : M LoginReply :=
  let! found := query (get_user_by_username (lq_username rq)) in
  match found with
  | None => count_failed_authentication !; sret login_failed
  | Some user =>
      let! now := sget a_wall in
      let! denied := query (login_denied now (lq_username rq) user) in
      let! ok := slift (may_sign_in (lq_password rq) user denied) in
      if ok then sign_in rq user else count_failed_authentication !; sret login_failed
  end.

Definition throttle (rq : LoginRequest) : M (option Z) :=
  let! retry_after := check_login (ip_key rq) in
  match retry_after with None => check_login (user_key rq) | Some r => sret (Some r) end.

Definition login (rq : LoginRequest) : M LoginReply :=
  let! retry_after := throttle rq in
  match retry_after with
  | Some r => count_failed_authentication !; sret (login_throttled r)
  | None => examine rq
  end.
End login.

(** ** The page *)
(** [s.replace(old, new)] for a non-empty [old]; [k] bytes are still to be
    skipped. *)
Fixpoint replace_from (old new : string) (k : nat) (s : string) : string :=
  match s with
  | EmptyString => EmptyString
  | String c r =>
      match k with
      | S k => replace_from old new k r
      | O => if py_startswith old s then new +:+ replace_from old new (String.length old - 1) r
             else String c (replace_from old new O r)
      end
  end.
Definition py_replace (old new s : string) : string := replace_from old new 0 s.

Definition server_error_placeholder : string := "<!--SERVER_ERROR-->".
Definition error_messages : list (string * string) :=
  [("invalid_credentials", "Invalid username or password. Please try again.");
   ("login_required", "Please log in to continue.");
   ("too_many_attempts", "Too many login attempts. Please wait a few minutes and try again.")].
Definition generic_error_message : string := "An error occurred. Please try again.".
Definition error_message (error : string) : string :=
  match List.find (fun kv => String.eqb (fst kv) error) error_messages with
  | Some (_, m) => m
  | None => generic_error_message
  end.
(** [_render_login_page] over the packaged template. *)
Definition render_login_page (template : string) (error : option string) : string :=
  match error with
  | None => py_replace server_error_placeholder EmptyString template
  | Some error =>
      let banner := "<div class=" +:+ quoted "error" +:+ ">" +:+ html_escape_attr (error_message error) +:+ "</div>" in
      py_replace server_error_placeholder banner template
  end.
