(* ===== verification/Logout.v ===== *)
(** * RP-initiated logout ([routes/logout.py])

    The hint is verified against the server's own keys ([decode_hint]), the
    subject's tokens are revoked, the session is dropped, every subscribed
    client is notified, and the browser is sent on.  The HTTP client that
    delivers a back-channel notification swallows its failures, so a POST is
    the pair of its address and its body, in the order the tasks are started. *)
From S2P Require Import Prelude PyStr PyJson Codec Models Storage Paging PyUrl TtlStores Keys Jwt App PyDumps.
From S2P Require Import Tokens ClientAuth Redirects Authorize Login.
#[local] Open Scope Z_scope.

Definition BACKCHANNEL_LOGOUT_TTL_SECS : Z := 120.
Definition BACKCHANNEL_EVENT : string := "http://schemas.openid.net/event/backchannel-logout".

Inductive logout_answer :=
| LogoutError (description : string)   (* 400 *)
| LogoutPage (html : string)           (* 200 *)
| LogoutRedirect (url : string)        (* 302 *)
| LoggedOut.                           (* 200 *)

Record LogoutRequest := mkLogout {
  lo_query : gmap string string;
  lo_session_id : option string
}.
(** [lp_answer] is an exception when the handler fails after the session was
    dropped and the clients were notified. *)
Record LogoutReply := mkLogoutReply {
  lp_session_cleared : bool;
  lp_posts : list (string * string);
  lp_answer : result exn logout_answer
}.
Definition rejected (description : string) : LogoutReply := mkLogoutReply false [] (Ok (LogoutError description)).

(** ** Addresses and pages *)
Definition append_state (uri : string) (state : option string) : result exn string :=
  match state with
  | None => Ok uri
  | Some state =>
      let? q := quote_via false state in
      Ok (uri +:+ (if py_contains_char "?" uri then "&" else "?") +:+ "state=" +:+ q)
  end.

(** [json.dumps(url)] with the two characters of a closing tag escaped. *)
Definition script_data (url : string) : string := py_replace "/" "\/" (py_replace "<" "\u003c" (dump_str url)).
Definition redirect_script (url : string) : string :=
  "<script>setTimeout(function(){ window.location.href = " +:+ script_data url +:+ "; }, 2000);</script>".

Definition logout_iframe (src : string) : string :=
  "<iframe src=" +:+ quoted (html_escape_attr src) +:+ " style=" +:+ quoted "display:none"
  +:+ " sandbox=" +:+ quoted "allow-scripts allow-same-origin" +:+ "></iframe>".
Definition logout_frame (issuer : string) (sid : option string) (client : Client) : result exn string :=
  let? iss := quote_via false issuer in
  let src := c_frontchannel_logout_uri client +:+ "?iss=" +:+ iss in
  let? src :=
    match sid with
    | Some sid =>
        if c_frontchannel_logout_session_required client && truthy sid
        then let? q := quote_via false sid in Ok (src +:+ "&sid=" +:+ q) else Ok src
    | None => Ok src
    end in
  Ok (logout_iframe src).
Fixpoint logout_frames (issuer : string) (sid : option string) (clients : list Client) : result exn (list string) :=
  match clients with
  | [] => Ok []
  | c :: clients =>
      let? f := logout_frame issuer sid c in
      let? fs := logout_frames issuer sid clients in Ok (f :: fs)
  end.
Definition render_frontchannel_page (clients : list Client) (issuer : string) (sid redirect_url : option string)
  : result exn string :=
  let? iframes := logout_frames issuer sid clients in
  let script := if truthy_o redirect_url then redirect_script (default EmptyString redirect_url) else EmptyString in
  Ok ("<!doctype html><html><body><p>Logging out...</p>" +:+ join EmptyString iframes +:+ script +:+ "</body></html>").

Definition extract_audiences (claims : pydict) : list string :=
  match obj_get "aud" claims with
  | Some (JStr s) => [s]
  | Some (JList l) => omap (fun a => match a with JStr s => Some s | _ => None end) l
  | _ => []
  end.

Section logout.
Context `{JwtLib} `{Runtime}.
Context (cbn_ : string -> bool) (config : Config).

(** ** The hint *)
Definition rs256_hint_verify_materials (now : Z) (ks : KeySet) (kid : option json) : list string :=
  let found := match kid with Some (JStr k) => if truthy k then find now k ks else None | _ => None end in
  let every := map k_material (active_keys_for_alg now "RS256" ks) in
  let materials :=
    match found with
    | Some k => if String.eqb (k_algorithm k) "RS256" then [k_material k] else every
    | None => every
    end in
  match materials, id_token_private_key_pem config with
  | [], Some pem => if truthy pem then [pem] else []
  | _, _ => materials
  end.

Definition hint_options (alg : string) : decode_options := mkOptions [alg] [] (Some (issuer config)) [] true true.
(** [None] is [_InvalidHint]. *)
Fixpoint verify_hint_with (now : Z) (hint : string) (materials : list string) : result exn (option pydict) :=
  match materials with
  | [] => Ok None
  | m :: materials =>
      match rsa_public_key m with
      | Err e => if is_value_error e then verify_hint_with now hint materials else Err e
      | Ok key =>
          match jwt_decode now hint (PublicKey key) (hint_options "RS256") with
          | Ok claims => Ok (Some claims)
          | Err e => if is_jwt_error e then verify_hint_with now hint materials else Err e
          end
      end
  end.
Definition jwt_or_invalid (r : result exn pydict) : result exn (option pydict) :=
  match r with Ok v => Ok (Some v) | Err e => if is_jwt_error e then Ok None else Err e end.
Definition decode_hint (now : Z) (ks : KeySet) (hint : string) : result exn (option pydict) :=
  let? header := jwt_or_invalid (jwt_unverified_header hint) in
  match header with
  | None => Ok None
  | Some header =>
      if member_eqb "alg" (JStr "HS256") header
      then jwt_or_invalid (jwt_decode now hint (SecretKey (jwt_secret config)) (hint_options "HS256")) else
      if negb (member_eqb "alg" (JStr "RS256") header) then Ok None else
      verify_hint_with now hint (rs256_hint_verify_materials now ks (obj_get "kid" header))
  end.

(** What the hint proves: nothing, a subject, or an error. *)
Definition known_audience (audiences : list string) (st : Store) : bool :=
  existsb (fun a => bool_decide (is_Some (get_client a st))) audiences.
Definition hint_subject (claims : pydict) : option string :=
  match obj_get "sub" claims with Some (JStr s) => if truthy s then Some s else None | _ => None end.
Definition check_hint (hint : string) : M (option string + LogoutReply) :=
  let! now := sget a_wall in
  let! ks := sget a_keyset in
  let! claims := slift (decode_hint now ks hint) in
  match claims with
  | None => sret (inr (rejected "invalid id_token_hint"))
  | Some claims =>
      let audiences := extract_audiences claims in
      let! known := query (known_audience audiences) in
      if bool_decide (audiences <> []) && negb known
      then sret (inr (rejected "id_token_hint aud does not match a registered client")) else
      match hint_subject claims with
      | None => sret (inl None)
      | Some sub => let! _ := update_count (revoke_tokens_by_user_id sub) in sret (inl (Some sub))
      end
  end.

(** ** Back-channel notification *)
Definition logout_claims (now : Z) (jti : string) (client : Client) (sub sid : option string) : pydict :=
  let iat := unix_secs now in
  [("iss", JStr (issuer config)); ("aud", JStr (c_client_id client)); ("iat", JInt iat);
   ("exp", JInt (iat + BACKCHANNEL_LOGOUT_TTL_SECS)); ("jti", JStr jti);
   ("events", JObj [(BACKCHANNEL_EVENT, JObj [])])]
  ++ match sub with Some s => [("sub", JStr s)] | None => [] end
  ++ match sid with Some s => [("sid", JStr s)] | None => [] end.
(** A token that cannot be encoded is a failed task, which [gather] collects. *)
Definition dispatch_backchannel_logout (client : Client) (sub sid : option string) : M (list (string * string)) :=
  let! now := sget a_wall in
  let! jti := draw uuid4_hex in
  sret match jwt_encode (logout_claims now jti client sub sid) (jwt_secret config) "HS256" [("typ", JStr "logout+JWT")] with
       | Ok token => [(c_backchannel_logout_uri client, "logout_token=" +:+ token)]
       | Err _ => []
       end.
Definition token_sid (sid : option string) (client : Client) : option string :=
  if c_backchannel_logout_session_required client && truthy_o sid then sid else None.
Definition notified (sub sid : option string) (client : Client) : bool :=
  truthy (c_backchannel_logout_uri client)
  && (bool_decide (is_Some sub) || bool_decide (is_Some (token_sid sid client))).
Fixpoint notify (sub sid : option string) (clients : list Client) : M (list (string * string)) :=
  match clients with
  | [] => sret []
  | c :: clients =>
      if notified sub sid c then
        let! sent := dispatch_backchannel_logout c sub (token_sid sid c) in
        let! rest := notify sub sid clients in sret (sent ++ rest)
      else notify sub sid clients
  end.

(** ** Where the browser goes *)
Fixpoint registered_by (uri : string) (clients : list Client) : result exn bool :=
  match clients with
  | [] => Ok false
  | c :: clients =>
      let? allowed := get_post_logout_redirect_uris json_limit c in
      let? listed := py_in uri allowed in
      if listed then Ok true else
      let? plain := redirect_uri_list json_limit c in
      let? listed := py_in uri plain in
      if listed then Ok true else registered_by uri clients
  end.
(** [Some] is the description of an error. *)
Definition validate_post_logout_redirect_uri (uri : string) (clients : list Client) : result exn (option string) :=
  let? parsed := urlsplit cbn_ uri in
  if negb (truthy (s_scheme parsed)) || negb (truthy (s_netloc parsed))
  then Ok (Some "Invalid post_logout_redirect_uri") else
  if negb (mem_str (s_scheme parsed) ["http"; "https"])
  then Ok (Some "post_logout_redirect_uri must use http or https") else
  if truthy (s_fragment parsed)
  then Ok (Some "post_logout_redirect_uri must not contain a fragment") else
  let? known := registered_by uri clients in
  Ok (if known then None else Some "Unregistered post_logout_redirect_uri").

Definition finish_logout (redirect_url sid : option string) (clients : list Client) : result exn logout_answer :=
  match List.filter (fun c => truthy (c_frontchannel_logout_uri c)) clients with
  | [] => Ok (if truthy_o redirect_url then LogoutRedirect (default EmptyString redirect_url) else LoggedOut)
  | frontchannel_clients =>
      let? page := render_frontchannel_page frontchannel_clients (issuer config) sid redirect_url in
      if utf8_valid page then Ok (LogoutPage page) else Err (PyErr ValueError "surrogates not allowed")
  end.
Definition answer_logout (query : gmap string string) (sid : option string) (clients : list Client)
  : result exn logout_answer :=
  match query !! "post_logout_redirect_uri" with
  | Some uri =>
      if truthy uri then
        let? error := validate_post_logout_redirect_uri uri clients in
        match error with
        | Some description => Ok (LogoutError description)
        | None => let? url := append_state uri (query !! "state") in finish_logout (Some url) sid clients
        end
      else finish_logout None sid clients
  | None => finish_logout None sid clients
  end.

Definition session_sid (rq : LogoutRequest) : option string :=
  match lo_query rq !! "sid" with
  | Some sid => if truthy sid then Some sid else lo_session_id rq
  | None => lo_session_id rq
  end.
(** Once the hint, if any, has been examined. *)
Definition end_session (rq : LogoutRequest) (sub : option string) : M LogoutReply :=
  let sid := session_sid rq in
  let! clients := query list_all_clients in
  let! posts := notify sub sid clients in
  sret (mkLogoutReply true posts (answer_logout (lo_query rq) sid clients)).
Definition logout (rq : LogoutRequest) : M LogoutReply :=
  match lo_query rq !! "id_token_hint" with
  | Some hint =>
      if truthy hint then
        let! checked := check_hint hint in
        match checked with inr r => sret r | inl sub => end_session rq sub end
      else end_session rq None
  | None => end_session rq None
  end.
End logout.
