(* ===== verification/Social.v ===== *)
(** * Social login ([routes/social.py], [services/social.py])

    The providers' HTTP answers, [secrets.token_urlsafe(64)] and Unicode case
    folding ([str.casefold]) are parameters.  A request of the HTTP client
    either raises [httpx.HTTPError], raises something else, or returns. *)
From S2P Require Import Prelude PyStr PyJson Codec Models Storage PyUrl TtlStores Keys Jwt SocialBreaker App.
From S2P Require Import Tokens ClientAuth Redirects Authorize Login.
#[local] Open Scope Z_scope.

(** The fields of [Config] that only social login reads. *)
Record SocialConfig := mkSocialConfig {
  google_client_id : option string; google_client_secret : option string; google_redirect_uri : option string;
  microsoft_client_id : option string; microsoft_client_secret : option string; microsoft_redirect_uri : option string;
  microsoft_tenant_id : string;
  github_client_id : option string; github_client_secret : option string; github_redirect_uri : option string;
  azure_client_id : option string; azure_client_secret : option string; azure_redirect_uri : option string;
  azure_tenant_id : string;
  social_link_by_verified_email : bool
}.
Record ProviderRuntimeConfig := mkRuntimeConfig {
  rc_provider : string;
  rc_client_id : string;
  rc_client_secret : string;
  rc_redirect_uri : string;
  rc_authorize_url : string;
  rc_token_url : string;
  rc_userinfo_url : string;
  rc_scope : string;
  rc_pkce : bool
}.
Record SocialUserInfo := mkSocialUserInfo {
  su_provider : string;
  su_provider_user_id : string;
  su_email : json;
  su_name : option json;
  su_picture : option json;
  su_email_verified : bool
}.
Definition DISPLAY_NAMES : list (string * string) :=
  [("google", "Google"); ("microsoft", "Microsoft"); ("github", "GitHub"); ("azure", "Azure"); ("okta", "Okta"); ("auth0", "Auth0")].
Definition display_name (provider : string) : string :=
  match List.find (fun kv => String.eqb (fst kv) provider) DISPLAY_NAMES with Some (_, n) => n | None => provider end.
Definition OAUTH_PROVIDERS : list string := ["google"; "microsoft"; "github"; "azure"].
Definition STUB_PROVIDERS : list string := ["okta"; "auth0"].
Definition ALL_PROVIDERS : list string := OAUTH_PROVIDERS ++ STUB_PROVIDERS.
Definition GITHUB_USER_AGENT : string := "python_oauth2_server".
Definition GITHUB_EMAILS_URL : string := "https://api.github.com/user/emails".

Inductive http_outcome :=
| HttpError (text : string)
| HttpRaised (e : exn)
| HttpReply (status : Z) (text : string).
Class ProviderHttp := {
  provider_post : string -> list (string * string) -> list (string * string) -> http_outcome;   (* url, form, headers *)
  provider_get : string -> list (string * string) -> http_outcome                               (* url, headers *)
}.

(** A computation that may fail with a [ProviderError]. *)
Notation provided A := (result exn (string + A)).
Definition pbind {A B} (m : provided A) (k : A -> provided B) : provided B :=
  let? r := m in match r with inl message => Ok (inl message) | inr a => k a end.
Notation "'let*' x := m 'in' k" := (pbind m (fun x => k)) (at level 200, x pattern, m at level 200, k at level 200) : oauth_scope.
Definition provider_error {A} (message : string) : provided A := Ok (inl message).

Section providers.
Context (config : Config) (social : SocialConfig).

Definition redirect_uri_for (provider : string) (configured : option string) : string :=
  if truthy_o configured then default EmptyString configured else issuer config +:+ "/auth/callback/" +:+ provider.
Definition both (client_id client_secret : option string) : bool := truthy_o client_id && truthy_o client_secret.
Definition tenant_or_common (tenant : string) : string := if truthy tenant then tenant else "common".
Definition ms_url (tenant path : string) : string := "https://login.microsoftonline.com/" +:+ tenant +:+ "/oauth2/v2.0/" +:+ path.
Definition ms_config (provider tenant : string) (client_id client_secret redirect : option string) : ProviderRuntimeConfig :=
  let tenant := tenant_or_common tenant in
  mkRuntimeConfig provider (default EmptyString client_id) (default EmptyString client_secret) (redirect_uri_for provider redirect)
    (ms_url tenant "authorize") (ms_url tenant "token") "https://graph.microsoft.com/v1.0/me" "openid email profile" false.
Definition resolve_provider_config (provider : string) : option ProviderRuntimeConfig :=
  if String.eqb provider "google" then
    if both (google_client_id social) (google_client_secret social) then
      Some (mkRuntimeConfig "google" (default EmptyString (google_client_id social)) (default EmptyString (google_client_secret social))
        (redirect_uri_for "google" (google_redirect_uri social)) "https://accounts.google.com/o/oauth2/v2/auth"
        "https://oauth2.googleapis.com/token" "https://www.googleapis.com/oauth2/v2/userinfo" "openid email profile" true)
    else None
  else if String.eqb provider "microsoft" then
    if both (microsoft_client_id social) (microsoft_client_secret social)
    then Some (ms_config "microsoft" (microsoft_tenant_id social) (microsoft_client_id social) (microsoft_client_secret social)
                 (microsoft_redirect_uri social))
    else None
  else if String.eqb provider "github" then
    if both (github_client_id social) (github_client_secret social) then
      Some (mkRuntimeConfig "github" (default EmptyString (github_client_id social)) (default EmptyString (github_client_secret social))
        (redirect_uri_for "github" (github_redirect_uri social)) "https://github.com/login/oauth/authorize"
        "https://github.com/login/oauth/access_token" "https://api.github.com/user" "user:email" false)
    else None
  else if String.eqb provider "azure" then
    if both (azure_client_id social) (azure_client_secret social)
    then Some (ms_config "azure" (azure_tenant_id social) (azure_client_id social) (azure_client_secret social) (azure_redirect_uri social))
    else if both (microsoft_client_id social) (microsoft_client_secret social)
    then Some (ms_config "azure" (azure_tenant_id social) (microsoft_client_id social) (microsoft_client_secret social)
                 (microsoft_redirect_uri social))
    else None
  else None.
End providers.

Definition build_authorize_url (rc : ProviderRuntimeConfig) (state : string) (code_challenge : option string) : result exn string :=
  let? q := urlencode true
    ([("response_type", "code"); ("client_id", rc_client_id rc); ("redirect_uri", rc_redirect_uri rc);
      ("scope", rc_scope rc); ("state", state)]
     ++ match code_challenge with
        | Some c => [("code_challenge", c); ("code_challenge_method", "S256")]
        | None => []
        end) in
  Ok (rc_authorize_url rc +:+ "?" +:+ q).

Section exchange.
Context `{Runtime} `{ProviderHttp}.

(** [response.json()] of a reply whose status is 200. *)
Definition reply_json (what what_endpoint : string) (r : http_outcome) : provided json :=
  match r with
  | HttpError text => provider_error (what +:+ " request failed: " +:+ text)
  | HttpRaised e => Err e
  | HttpReply status text =>
      if negb (status =? 200) then provider_error (what_endpoint +:+ " endpoint returned " +:+ str_of_Z status +:+ ": " +:+ text) else
      match py_json_loads json_limit text with
      | Ok v => Ok (inr v)
      | Err e => if is_value_error e then provider_error (what_endpoint +:+ " endpoint returned malformed JSON") else Err e
      end
  end.
(** [v.get(k) if isinstance(v, dict) else None], and [not x] of it. *)
Definition member (k : string) (v : json) : option json := match v with JObj m => obj_get k m | _ => None end.
Definition present_value (o : option json) : option json :=
  match o with Some v => if json_truthy v then Some v else None | None => None end.

Definition exchange_code (rc : ProviderRuntimeConfig) (code : string) (pkce_verifier : option string) : provided json :=
  let data :=
    [("grant_type", "authorization_code"); ("code", code); ("redirect_uri", rc_redirect_uri rc);
     ("client_id", rc_client_id rc); ("client_secret", rc_client_secret rc)]
    ++ match pkce_verifier with Some v => [("code_verifier", v)] | None => [] end in
  let* payload := reply_json "token exchange" "token" (provider_post (rc_token_url rc) data [("Accept", "application/json")]) in
  match present_value (member "access_token" payload) with
  | Some access_token => Ok (inr access_token)
  | None => provider_error "token endpoint response missing access_token"
  end.

Definition get_json (url : string) (headers : list (string * string)) : provided json :=
  reply_json "userinfo" "userinfo" (provider_get url headers).
Definition bearer (access_token : json) : string * string := ("Authorization", "Bearer " +:+ py_str access_token).

Definition fetch_google_userinfo (rc : ProviderRuntimeConfig) (access_token : json) : provided SocialUserInfo :=
  let* data := get_json (rc_userinfo_url rc) [bearer access_token] in
  match present_value (member "id" data), present_value (member "email" data) with
  | Some user_id, Some email =>
      match member "verified_email" data with
      | Some (JBool true) =>
          Ok (inr (mkSocialUserInfo "google" (py_str user_id) email (member "name" data) (member "picture" data) true))
      | _ => provider_error "Google email not verified"
      end
  | _, _ => provider_error "Google userinfo response missing id or email"
  end.
Definition fetch_microsoft_userinfo (rc : ProviderRuntimeConfig) (access_token : json) : provided SocialUserInfo :=
  let* data := get_json (rc_userinfo_url rc) [bearer access_token] in
  match present_value (member "id" data), present_value (member "userPrincipalName" data) with
  | Some user_id, Some email =>
      Ok (inr (mkSocialUserInfo (rc_provider rc) (py_str user_id) email (member "displayName" data) None false))
  | _, _ => provider_error (display_name (rc_provider rc) +:+ " userinfo response missing id or userPrincipalName")
  end.
(** [next((e.get("email") for e in emails if ...), None)] *)
Definition primary_verified (e : json) : bool :=
  bool_decide (is_Some (present_value (member "primary" e))) && bool_decide (is_Some (present_value (member "verified" e))).
Definition primary_email (emails : json) : option json :=
  match emails with
  | JList l => match List.find primary_verified l with Some e => present_value (member "email" e) | None => None end
  | _ => None
  end.
Definition fetch_github_userinfo (rc : ProviderRuntimeConfig) (access_token : json) : provided SocialUserInfo :=
  let headers := [bearer access_token; ("User-Agent", GITHUB_USER_AGENT)] in
  let* data := get_json (rc_userinfo_url rc) headers in
  match member "id" data with
  | None | Some JNull => provider_error "GitHub userinfo response missing id"
  | Some user_id =>
      let* emails := get_json GITHUB_EMAILS_URL headers in
      match primary_email emails with
      | None => provider_error "No email found"
      | Some email =>
          Ok (inr (mkSocialUserInfo "github" (py_str user_id) email (member "name" data) (member "avatar_url" data) true))
      end
  end.
Definition fetch_userinfo (rc : ProviderRuntimeConfig) (access_token : json) : provided SocialUserInfo :=
  if String.eqb (rc_provider rc) "google" then fetch_google_userinfo rc access_token
  else if mem_str (rc_provider rc) ["microsoft"; "azure"] then fetch_microsoft_userinfo rc access_token
  else if String.eqb (rc_provider rc) "github" then fetch_github_userinfo rc access_token
  else provider_error ("no userinfo mapping for provider '" +:+ rc_provider rc +:+ "'").
End exchange.

(** ** The handlers *)
(** What the session holds between the two requests. *)
Record SocialSession := mkSocialSession {
  ss_csrf_token : option string;
  ss_provider : option string;
  ss_pkce_verifier : option string;
  ss_return_to : option string
}.
Inductive social_answer :=
| SocialNotFound                                            (* 404 *)
| SocialPlain (text : string)                               (* 503 *)
| SocialError (error description : string) (status : Z)
| SocialRedirect (url : string).                            (* 302 *)
Record CallbackRequest := mkCallback {
  cr_provider : string;
  cr_query : gmap string string;
  cr_session : SocialSession
}.
(** [cb_login] is the session of a user who signed in. *)
Record CallbackReply := mkCallbackReply {
  cb_answer : social_answer;
  cb_login : option LoginSession
}.
Definition refused (error description : string) (status : Z) : CallbackReply :=
  mkCallbackReply (SocialError error description status) None.
Definition state_matches (presented expected : string) : bool := String.eqb presented expected.

Section social.
Context `{JwtLib} `{Runtime} `{ProviderHttp}.
Context (token_urlsafe_64 : nat -> string) (py_casefold : string -> string).
Context (config : Config) (social : SocialConfig).

Definition not_configured (provider : string) : social_answer :=
  SocialError "provider_not_configured" (display_name provider +:+ " login not configured") 400.
Definition s256 (verifier : string) : string := urlsafe_b64encode_nopad (sha256 verifier).

(** GET /auth/login/{provider}: the answer and the new session. *)
Definition social_login (provider : string) (session : SocialSession) : M (social_answer * SocialSession) :=
  if negb (mem_str provider ALL_PROVIDERS) then sret (SocialNotFound, session) else
  if mem_str provider STUB_PROVIDERS
  then sret (SocialPlain (display_name provider +:+ " login not yet implemented"), session) else
  match resolve_provider_config config social provider with
  | None => sret (not_configured provider, session)
  | Some rc =>
      let! state := draw token_urlsafe in
      let! verifier := (if rc_pkce rc then let! v := draw token_urlsafe_64 in sret (Some v) else sret None) in
      let! url := slift (build_authorize_url rc state (option_map s256 verifier)) in
      sret (SocialRedirect url, mkSocialSession (Some state) (Some provider) verifier (ss_return_to session))
  end.

Definition fold_email (email : string) : string := py_casefold (py_strip email).
(** The linking conditions on the only candidate. *)
Definition linkable (folded : string) (candidate : User) : bool :=
  let lowered := py_lower (py_strip (u_email candidate)) in
  negb (String.eqb (u_role candidate) "admin" || mem_str folded (admin_emails config)
        || mem_str lowered (admin_emails config) || negb (u_enabled candidate)).
Definition link_by_verified_email (userinfo : SocialUserInfo) (st : Store) : result exn (option User) :=
  if negb (social_link_by_verified_email social) || negb (su_email_verified userinfo) then Ok None else
  match su_email userinfo with
  | JStr email =>
      let folded := fold_email email in
      if negb (truthy folded) then Ok None else
      match List.filter (fun u => String.eqb (fold_email (u_email u)) folded) (get_users_by_email folded st) with
      | [candidate] => Ok (if linkable folded candidate then Some candidate else None)
      | _ => Ok None
      end
  | _ => Err (PyErr AttributeError "strip")
  end.
Definition provision (username : string) (userinfo : SocialUserInfo) : M User :=
  let! password := draw uuid4_hex in
  let! password_hash := draw (fun n => argon2_hash n password) in
  let! id := draw uuid4_hex in
  let! now := sget a_wall in
  match su_email userinfo with
  | JStr email =>
      let user := mkUser id username password_hash email true "user" now now in
      insert (save_user user) !; sret user
  | _ => sraise (PyErr ValidationError "email")
  end.
Definition social_username (provider : string) (userinfo : SocialUserInfo) : string :=
  provider +:+ ":" +:+ su_provider_user_id userinfo.
Definition social_user (provider : string) (userinfo : SocialUserInfo) : M User :=
  let username := social_username provider userinfo in
  let! known := query (get_user_by_username username) in
  match known with
  | Some user => sret user
  | None =>
      let! linked := query (link_by_verified_email userinfo) in
      let! linked := slift linked in
      match linked with Some user => sret user | None => provision username userinfo end
  end.

Definition breaker_step {A} (provider : string) (f : Z -> SocialCircuitBreaker -> A * SocialCircuitBreaker) : M A :=
  fun s => match a_social_breakers s !! provider with
           | None => (Err (PyErr KeyError provider), s)
           | Some b => let '(a, b) := f (a_mono s) b in (Ok a, with_social_breakers s (<[provider := b]> (a_social_breakers s)))
           end.

(** The checks before any provider is contacted. *)
Definition callback_checks (rq : CallbackRequest) : CallbackReply + (ProviderRuntimeConfig * string * option string) :=
  let session := cr_session rq in
  let provider := cr_provider rq in
  if negb (truthy_o (cr_query rq !! "state")) then inl (refused "access_denied" "CSRF state parameter is required" 403) else
  if negb (from_option_b (state_matches (default EmptyString (cr_query rq !! "state"))) (ss_csrf_token session))
  then inl (refused "access_denied" "CSRF token mismatch" 403) else
  if negb (from_option_b (String.eqb provider) (ss_provider session))
  then inl (refused "invalid_request" "Provider mismatch" 400) else
  if negb (mem_str provider OAUTH_PROVIDERS) then inl (refused "invalid_request" "Unsupported provider" 400) else
  match resolve_provider_config config social provider with
  | None => inl (mkCallbackReply (not_configured provider) None)
  | Some rc =>
      if negb (truthy_o (cr_query rq !! "code")) then inl (refused "invalid_request" "Authorization code is required" 400) else
      if rc_pkce rc && negb (truthy_o (ss_pkce_verifier session))
      then inl (refused "session_error" "PKCE verifier missing from session" 400) else
      inr (rc, default EmptyString (cr_query rq !! "code"), if rc_pkce rc then ss_pkce_verifier session else None)
  end.
(** Once the provider has told who the user is. *)
Definition complete_sign_in (rq : CallbackRequest) (userinfo : SocialUserInfo) : M CallbackReply :=
  let! user := social_user (cr_provider rq) userinfo in
  let! now := sget a_wall in
  let return_to := ss_return_to (cr_session rq) in
  sret (mkCallbackReply
    (SocialRedirect (if is_safe_redirect return_to then default EmptyString return_to else "/profile"))
    (Some (set_login now user (default_acr config) (Some ["fed"])))).
Definition identify (rq : CallbackRequest) (rc : ProviderRuntimeConfig) (access_token : json) : M CallbackReply :=
  let provider := cr_provider rq in
  let! allowed := breaker_step provider sb_allow in
  if negb allowed
  then sret (refused "provider_unavailable" (display_name provider +:+ " circuit breaker open") 400) else
  let! fetched := slift (fetch_userinfo rc access_token) in
  match fetched with
  | inl message =>
      breaker_step provider (fun now b => (tt, sb_record_failure now b)) !;
      sret (refused "provider_error" message 400)
  | inr userinfo =>
      breaker_step provider (fun _ b => (tt, sb_record_success b)) !;
      complete_sign_in rq userinfo
  end.
(** GET /auth/callback/{provider} *)
Definition social_callback (rq : CallbackRequest) : M CallbackReply :=
  match callback_checks rq with
  | inl reply => sret reply
  | inr (rc, code, pkce_verifier) =>
      let! exchanged := slift (exchange_code rc code pkce_verifier) in
      match exchanged with
      | inl message => sret (refused "token_exchange_failed" message 400)
      | inr access_token => identify rq rc access_token
      end
  end.
End social.
