(* ===== verification/ToyJwt.v ===== *)
(** * A concrete environment

    Instances of the library parameters on which the witnesses of conditional
    theorems are evaluated: HS256 JWTs computed with the SHA-256 of file Codec
    (the "public key" algorithms sign with the public key text, so they are
    symmetric here), counters for random values, a network that answers with
    one fixed JWKS. *)
From S2P Require Import SocialBreaker Prelude PyStr PyJson Codec Models Storage StoreSpec TtlStores Keys Jwt App PyDumps Dpop ClientAuth.
From S2P Require Limiter.
#[local] Open Scope Z_scope.

#[export] Instance toy_runtime : Runtime := {|
  token_urlsafe n := "tok" +:+ str_of_Z (Z.of_nat n);
  uuid4_hex n := "hex" +:+ str_of_Z (Z.of_nat n);
  uuid4_str n := "uuid" +:+ str_of_Z (Z.of_nat n);
  randbelow n bound := Z.of_nat n mod bound;
  json_limit := 900%nat;
  py_repr j := "<object>"
|}.

Definition toy_sign (key msg : string) : string := urlsafe_b64encode_nopad (hmac_sha256 key msg).
Definition toy_part (m : pydict) : string := urlsafe_b64encode_nopad (json_dumps (JObj m)).

Definition toy_encode (payload : pydict) (key alg : string) (headers : pydict) : result exn string :=
  let msg := toy_part (("alg", JStr alg) :: headers) +:+ "." +:+ toy_part payload in
  Ok (msg +:+ "." +:+ toy_sign key msg).

Definition decode_error : exn := PyErr JwtDecodeError "Not enough segments".
Definition toy_json (part : string) : result exn pydict :=
  match urlsafe_b64decode (part +:+ b64_padding part) with
  | Some raw => match json_loads 900 raw with Ok (JObj m) => Ok m | _ => Err decode_error end
  | None => Err decode_error
  end.
Definition toy_split (token : string) : option (string * string * string) :=
  match py_split_on "." token with [h; p; s] => Some (h, p, s) | _ => None end.

Definition toy_header (token : string) : result exn pydict :=
  match toy_split token with Some (h, _, _) => toy_json h | None => Err decode_error end.
Definition toy_unverified (token : string) : result exn pydict :=
  match toy_split token with Some (_, p, _) => toy_json p | None => Err decode_error end.

Definition key_text (k : jwt_key string) : string :=
  match k with SecretKey s => s | PublicKey s => s | PrivateKey s => s end.
Definition audience_ok (expected : list string) (claims : pydict) : bool :=
  match expected with
  | [] => true
  | _ => match obj_get "aud" claims with
         | Some (JStr a) => mem_str a expected
         | Some (JList l) => existsb (fun j => match j with JStr a => mem_str a expected | _ => false end) l
         | _ => false
         end
  end.

Definition toy_decode (now : Z) (token : string) (key : jwt_key string) (o : decode_options)
  : result exn pydict :=
  let invalid m := Err (PyErr PyJWTError m) in
  match toy_split token with
  | None => Err decode_error
  | Some (h, p, s) =>
      let? header := toy_json h in
      let? claims := toy_json p in
      if negb (match get_str "alg" header with Some a => mem_str a (opt_algorithms o) | None => false end)
      then invalid "The specified alg value is not allowed" else
      if negb (String.eqb s (toy_sign (key_text key) (h +:+ "." +:+ p)))
      then invalid "Signature verification failed" else
      if negb (forallb (fun c => obj_has c claims) (opt_require o)) then invalid "Token is missing a claim" else
      if opt_verify_exp o && match obj_get "exp" claims with Some (JInt e) => e <=? unix_secs now | _ => false end
      then invalid "Signature has expired" else
      if match opt_issuer o with Some i => negb (member_eqb "iss" (JStr i) claims) | None => false end
      then invalid "Invalid issuer" else
      if negb (audience_ok (opt_audience o) claims) then invalid "Audience doesn't match" else
      Ok claims
  end.

Definition toy_from_jwk (m : pydict) : result exn (jwt_key string) :=
  match get_str "n" m, get_str "x" m with
  | Some n, _ => Ok (if obj_has "d" m then PrivateKey n else PublicKey n)
  | None, Some x => Ok (PublicKey x)
  | None, None => Err (PyErr PyJWTError "Not a key")
  end.

#[export] Instance toy_jwt : JwtLib := {|
  pub_key := string;
  jwt_encode := toy_encode;
  jwt_decode_unverified := toy_unverified;
  jwt_unverified_header := toy_header;
  jwt_decode := toy_decode;
  rsa_public_key s := Ok s;
  rsa_from_jwk := toy_from_jwk;
  ec_from_jwk := toy_from_jwk;
  argon2_hash _ p := "argon2:" +:+ p;
  argon2_verify h p := Ok (String.eqb h ("argon2:" +:+ p))
|}.

Definition toy_jwks : json :=
  JObj [("keys", JList [JObj [("kty", JStr "RSA"); ("kid", JStr "k1"); ("n", JStr "pub"); ("e", JStr "AQAB")]])].
#[export] Instance toy_http : Http := {|
  http_get _ _ := Some (mkHttp 200 (Some "max-age=60") (json_dumps toy_jwks))
|}.

Definition toy_brackets (netloc : string) : bool := true.

(** ** A configured server with one confidential and one public client *)
Definition toy_config (opaque : bool) : Config := {|
  jwt_secret := "0123456789abcdef0123456789abcdef";
  issuer := "https://as.example";
  access_tokens_opaque := opaque;
  dynamic_registration_enabled := true;
  access_token_ttl_secs := 3600; refresh_token_ttl_secs := 86400; authorization_code_ttl_secs := 600;
  id_token_private_key_pem := None; id_token_kid := None; id_token_alg := None;
  rar_types_supported := ["openid"]; acr_values_supported := ["urn:mace:incommon:iap:bronze"];
  trust_proxy_headers := false; dpop_nonce_lifetime_secs := 300;
  admin_client_ids := [" web "]; admin_emails := ["root@example"]; key_rotation_grace_hours := 24;
  mtls_endpoint_base_url := None
|}.

Definition json_of_strings (l : list string) : string := json_dumps (jstrs l).
Definition toy_client (client_id method secret : string) : Client := {|
  c_id := client_id; c_client_id := client_id; c_client_secret := secret;
  c_redirect_uris := json_of_strings ["https://app.example/cb"];
  c_grant_types := json_of_strings
    ["authorization_code"; "refresh_token"; "client_credentials";
     "urn:ietf:params:oauth:grant-type:device_code";
     "urn:ietf:params:oauth:grant-type:token-exchange";
     "urn:ietf:params:oauth:grant-type:jwt-bearer"];
  c_scope := "read write"; c_name := client_id; c_created_at := 0; c_updated_at := 0;
  c_token_endpoint_auth_method := method; c_registration_access_token := EmptyString;
  c_response_types := EmptyString; c_contacts := EmptyString; c_logo_uri := EmptyString;
  c_client_uri := EmptyString; c_policy_uri := EmptyString; c_tos_uri := EmptyString;
  c_jwks := EmptyString; c_jwks_uri := EmptyString; c_backchannel_logout_uri := EmptyString;
  c_backchannel_logout_session_required := false; c_frontchannel_logout_uri := EmptyString;
  c_frontchannel_logout_session_required := false; c_post_logout_redirect_uris := EmptyString;
  c_enabled := true; c_require_state := false;
  c_tls_client_certificate_subject_dn := EmptyString; c_dpop_nonce_required := false
|}.

Lemma toy_jwt_example :
  exists t, toy_encode [("sub", JStr "a"); ("exp", JInt 10)] "k" "HS256" [("typ", JStr "JWT")] = Ok t
  /\ toy_decode 0 t (SecretKey "k") (mkOptions ["HS256"] [] None ["sub"] true true)
     = Ok [("exp", JInt 10); ("sub", JStr "a")]
  /\ is_ok (toy_decode 0 t (SecretKey "x") (mkOptions ["HS256"] [] None ["sub"] true true)) = false
  /\ is_ok (toy_decode (10 * SECOND) t (SecretKey "k") (mkOptions ["HS256"] [] None ["sub"] true true)) = false.
Proof. eexists. split; [reflexivity|]. split; [compute_done|]. split; compute_done. Qed.

(** ** A running server

    Two clients, a user, one authorization code, one token with a refresh
    token, one approved device authorization. *)
Definition toy_verifier : string := "dBjftJeZ4CVP-mB92K27uhbUJU1p1r_wW1gFWFOEjXk".
Definition toy_challenge : string := "E9Melhoa2OwvFrEMTJguCHaoeK1t8URWbuGJSstw-cM".
Definition toy_code (used : bool) : AuthorizationCode :=
  mkCode "c-1" "code-1" "spa" "u-1" "https://app.example/cb" "read" 0 (600 * SECOND) used
    (Some toy_challenge) (Some "S256") None None None None (Some "fam-1") None.
Definition toy_token (revoked : bool) : Token :=
  mkToken "t-1" "e30.e30.at1" (Some "rt-1") "Bearer" 3600 "read write" "web" (Some "u-1") 0 (3600 * SECOND)
    revoked (Some "fam-1").
Definition toy_device : DeviceAuthorization :=
  mkDevice "d-1" "dev-1" "ABCD-EFGH" "web" "read" 0 (600 * SECOND) 5 true false false (Some "u-1").
Definition toy_user : User := mkUser "u-1" "ann" "argon2:pw" "ann@example" true "user" 0 0.
Definition toy_issuer : TrustedIssuer :=
  Models.mkIssuer "i-1" "https://idp.example" "https://idp.example/jwks" "[]" "sub" false "[]" true 0 0.
Definition toy_assertion : string :=
  match toy_encode [("iss", JStr "https://idp.example"); ("sub", JStr "u-1");
                    ("aud", JStr "https://as.example/oauth/token"); ("exp", JInt 160); ("iat", JInt 100);
                    ("jti", JStr "j-1")] "pub" "RS256" [("kid", JStr "k1")] with
  | Ok t => t
  | Err _ => EmptyString
  end.
Definition toy_store (used revoked : bool) : Store :=
  mkStore [toy_client "web" "client_secret_post" "s3cret"; toy_client "spa" "none" EmptyString]
    [toy_user] [toy_token revoked] [toy_code used] [toy_device] [toy_issuer] [] [].
Definition toy_state (used revoked : bool) : AppState := {|
  a_store := toy_store used revoked; a_wall := 100 * SECOND; a_mono := 0; a_draws := 0;
  a_keyset := seed_keyset 0 "0123456789abcdef0123456789abcdef" None None;
  a_invalid_client_limiter := Some (Limiter.new_limiter 1 60);
  a_dpop_replay := ∅; a_jti_guard := Replay.new_guard 10; a_device_poll := ∅; a_par_store := ∅;
  a_jwks_cache := ∅; a_dpop_nonce_secret := "nonce-secret"; a_events := [];
  a_failed_authentications := 0; a_tokens_issued := 0; a_codes_issued := 0; a_tokens_revoked := 0;
  a_login_limiter := FixedWindow.mkLimiter 5 300 ∅; a_rate_limiter := Limiter.new_limiter 100 60;
  a_recent := []; a_social_breakers := list_to_map [("google", new_social_breaker)]
|}.
Definition form_request (fields : list (string * string)) : Request :=
  mkRequest (list_to_map fields) ∅ None.

Definition code_request : Request := form_request
  [("grant_type", "authorization_code"); ("client_id", "spa"); ("code", "code-1");
   ("redirect_uri", "https://app.example/cb"); ("code_verifier", toy_verifier)].
Definition refresh_request : Request := form_request
  [("grant_type", "refresh_token"); ("client_id", "web"); ("client_secret", "s3cret");
   ("refresh_token", "rt-1"); ("scope", "read")].
Definition device_request : Request := form_request
  [("grant_type", "urn:ietf:params:oauth:grant-type:device_code"); ("client_id", "web");
   ("client_secret", "s3cret"); ("device_code", "dev-1")].
Definition exchange_request : Request := form_request
  [("grant_type", "urn:ietf:params:oauth:grant-type:token-exchange"); ("client_id", "web");
   ("client_secret", "s3cret"); ("subject_token", "e30.e30.at1");
   ("subject_token_type", "urn:ietf:params:oauth:token-type:access_token"); ("scope", "read")].
Definition credentials_request : Request := form_request
  [("grant_type", "client_credentials"); ("client_id", "web"); ("client_secret", "s3cret");
   ("scope", "write")].
Definition bearer_request : Request := form_request
  [("grant_type", "urn:ietf:params:oauth:grant-type:jwt-bearer"); ("client_id", "web");
   ("client_secret", "s3cret"); ("assertion", toy_assertion); ("scope", "read")].
Definition bad_secret_request : Request := form_request
  [("grant_type", "client_credentials"); ("client_id", "web"); ("client_secret", "wrong")].

Lemma toy_store_ok used revoked : store_ok (toy_store used revoked).
Proof. constructor; vm_compute; repeat (constructor; [set_solver|]); constructor. Qed.
