(* ===== verification/TokenLemmas.v ===== *)
(** * Runs of the token endpoint

    Inversion of the grant branches of [token]: what a [Go] verdict of a check
    and a success response of a commit say about the states they ran between.
    The properties themselves are in TokenProps.v. *)
From S2P Require Import Prelude PyStr PyJson Codec Models Storage StoreSpec PyUrl Limits TtlStores.
From S2P Require Import Keys Jwt App Tokens Dpop ClientAuth JwtBearer TokenEndpoint.
#[local] Open Scope Z_scope.

(** Exposes one more step of a run. *)
Ltac tok_step H :=
  match type of H with
  | (Ok ?a, ?s) = (Ok ?b, ?s') =>
      let H1 := fresh "Ha" in let H2 := fresh "Hs" in
      pose proof (f_equal fst H) as H1; pose proof (f_equal snd H) as H2;
      cbn [fst snd] in H1, H2; injection H1 as H1; clear H
  | (Err _, _) = (Ok _, _) => discriminate H
  | (Ok _, _) = (Err _, _) => discriminate H
  | sbind ?m ?k ?s = _ =>
      let a := fresh "a" in let e := fresh "e" in let s1 := fresh "s" in let E := fresh "E" in
      unfold sbind at 1 in H; destruct (m s) as [[a|e] s1] eqn:E; cbv beta iota in H
  | try_ ?m ?h ?k ?s = _ =>
      let a := fresh "a" in let e := fresh "e" in let s1 := fresh "s" in let E := fresh "E" in
      unfold try_ at 1 in H; destruct (m s) as [[a|e] s1] eqn:E; cbv beta iota in H
  | sret _ _ = _ => unfold sret in H
  | sraise _ _ = _ => unfold sraise in H
  | slift _ _ = _ => unfold slift in H
  | sget _ _ = _ => unfold sget in H
  | smod _ _ = _ => unfold smod in H
  | query _ _ = _ => unfold query, sget in H
  | update _ _ = _ => unfold update, smod in H
  | (if ?b then _ else _) _ = _ => let E := fresh "E" in destruct b eqn:E
  | (match ?x with _ => _ end) _ = _ => let E := fresh "E" in destruct x eqn:E
  | (match ?x with _ => _ end) = _ => let E := fresh "E" in destruct x eqn:E
  end; try discriminate.

(** Solves the equations that the reading steps leave. *)
Ltac tok_clean :=
  repeat match goal with
  | E : slift _ _ = (_, _) |- _ => unfold slift in E; injection E as E ?; subst
  | E : sget _ _ = (_, _) |- _ => unfold sget in E; injection E as ? ?; subst
  | E : query _ _ = (_, _) |- _ => unfold query, sget in E; injection E as ? ?; subst
  | E : sret _ _ = (_, _) |- _ => unfold sret in E; inversion E; clear E; subst
  | E : count_failed_authentication _ = (_, _) |- _ =>
      unfold count_failed_authentication, smod in E; injection E as ? ?; subst
  | E : emit_event _ _ _ _ _ _ = (_, _) |- _ => unfold emit_event, smod in E; injection E as ? ?; subst
  | E : (if ?b then _ else _) ?s = (_, _) |- _ => let E' := fresh "E" in destruct b eqn:E'
  | E : @eq (option _) (Some _) None |- _ => discriminate E
  | E : @eq (option _) None (Some _) |- _ => discriminate E
  | E : @eq (result _ _) (Ok _) (Err _) |- _ => discriminate E
  | E : @eq (result _ _) (Ok _) (Ok _) |- _ => injection E as E; subst
  | E : Done _ = Go _ |- _ => discriminate E
  | E : Go _ = Done _ |- _ => discriminate E
  | E : Go _ = Go _ |- _ => injection E as E; subst
  end.
(** A handler's answer is the response it maps the exception to. *)
Ltac handler_step H :=
  match goal with
  | E : refuse ?h ?e = Some ?r |- _ =>
      match type of H with r _ = _ =>
        let E' := fresh "Eh" in
        unfold refuse in E; destruct (h e) eqn:E'; [|discriminate E]; injection E as E; subst r end
  | E : reply ?h ?e = Some ?r |- _ =>
      match type of H with r _ = _ =>
        let E' := fresh "E" in
        unfold reply in E; destruct (h e) eqn:E'; [|discriminate E]; injection E as E; subst r end
  end.
Ltac tok_walk H := repeat first [tok_step H | handler_step H]; tok_clean.

Definition succeeded (res : result exn response) : bool :=
  match res with Ok r => r_status r =? 200 | Err _ => false end.

Lemma oauth_error_status e d : (r_status (oauth_error400 e d) =? 200) = false.
Proof. unfold oauth_error400, oauth_error. simpl. by destruct (String.eqb e "invalid_client"). Qed.

Section lemmas.
Context `{JwtLib} `{Runtime} `{Http}.
Context (cbn_ : string -> bool) (config : Config).

(** The tails of the grants do not touch the storage. *)
Lemma quiet_with_nonce client dpop r : quiet (with_dpop_nonce config client dpop r).
Proof. unfold with_dpop_nonce. quiet_walk. Qed.
Lemma with_nonce_ok client dpop r s : exists h s', with_dpop_nonce config client dpop r s = (Ok h, s')
  /\ r_status h = r_status r /\ r_body h = r_body r.
Proof.
  unfold with_dpop_nonce. destruct (c_dpop_nonce_required client && _); eexists _, _; done.
Qed.
Lemma reads_try {A B} (m : M A) h (k : A -> M B) :
  reads m -> (forall e r, h e = Some r -> reads r) -> (forall a, reads (k a)) -> reads (try_ m h k).
Proof.
  intros Hm Hh Hk s. unfold try_. specialize (Hm s). destruct (m s) as [[a|e] s1]; simpl in *; subst.
  - apply Hk.
  - destruct (h e) as [r|] eqn:Hr; simpl; [by apply (Hh e)|done].
Qed.
Lemma returns_try {A B} (P : B -> Prop) (m : M A) h (k : A -> M B) :
  (forall e r, h e = Some r -> returns P r) -> (forall a, returns P (k a)) -> returns P (try_ m h k).
Proof.
  intros Hh Hk s b s'. unfold try_. destruct (m s) as [[a|e] s1]; [apply Hk|].
  destruct (h e) as [r|] eqn:Hr; [|done]. by apply (Hh e).
Qed.
Lemma quiet_try {A B} (m : M A) h (k : A -> M B) :
  quiet m -> (forall e r, h e = Some r -> quiet r) -> (forall a, quiet (k a)) -> quiet (try_ m h k).
Proof.
  intros Hm Hh Hk s. unfold try_. specialize (Hm s). destruct (m s) as [[a|e] s1]; simpl in *.
  - by rewrite Hk.
  - destruct (h e) as [r|] eqn:Hr; simpl; [|done]. by rewrite (Hh e r).
Qed.
Lemma quiet_reply h e (r : M response) : reply h e = Some r -> quiet r.
Proof. unfold reply. destruct (h e); [|done]. by intros [= <-]. Qed.
Lemma quiet_refuse {A} h e (r : M (verdict A)) : refuse h e = Some r -> quiet r.
Proof. unfold refuse. destruct (h e); [|done]. by intros [= <-]. Qed.
Lemma quiet_created u c sc b : quiet (token_created u c sc b).
Proof. done. Qed.
Lemma quiet_id_token client dpop uid scope nonce code sel t :
  quiet (with_optional_id_token config client dpop uid scope nonce code sel t).
Proof.
  unfold with_optional_id_token. pose proof quiet_with_nonce.
  destruct (in_scope "openid" scope && truthy_o uid); [|done].
  quiet_walk. apply quiet_try; [done|apply quiet_reply|done].
Qed.
Lemma quiet_invalid_client cid d : quiet (invalid_client_response cid d).
Proof. unfold invalid_client_response. quiet_walk. Qed.

Lemma invalid_client_status cid d s : succeeded (fst (invalid_client_response cid d s)) = false.
Proof.
  unfold invalid_client_response, sbind, sget, sret, smod. destruct (a_invalid_client_limiter s) as [l|]; [|done].
  destruct (truthy_o cid); [|done]. destruct (Limiter.check _ _ _ l) as [res l'].
  by destruct (negb (Limiter.rl_allowed res)).
Qed.

Lemma not_success_invalid_client cid d s r s' :
  invalid_client_response cid d s = (Ok r, s') -> r_status r = 200 -> False.
Proof.
  intros Hr Hst. pose proof (invalid_client_status cid d s) as Hf. rewrite Hr in Hf. simpl in Hf.
  by rewrite Hst in Hf.
Qed.

(** ** Scopes, resources *)
Lemma narrow_scope_spec requested allowed scope : narrow_scope requested allowed = Some scope ->
  scope_is_subset scope allowed = true.
Proof.
  unfold narrow_scope. destruct (truthy_o requested) eqn:Ht.
  - destruct (scope_is_subset _ allowed) eqn:Hs; [|done]. intros ->. done.
  - intros [= <-]. apply scope_is_subset_refl.
Qed.

Lemma resource_error_status rq e r :
  requested_resource cbn_ rq = Err e -> on_oauth e = Some r -> r_status r = 400.
Proof.
  unfold requested_resource, validate_resource, rcatch, check_len.
  destruct (form_get "resource" rq) as [v|]; [|done].
  destruct (max_resource_len <? py_len v); simpl; [by intros [= <-] [= <-]|].
  unfold urlsplit. destruct (split_scheme _) as [sc url].
  destruct (if py_startswith "//" url then _ else _) as [nl url'].
  destruct (negb (brackets_ok cbn_ nl)); [by intros [= <-]|].
  destruct (py_partition "#" url') as [u1 fr]. destruct (py_partition "?" u1) as [u2 q].
  destruct (negb (checknetloc nl)); [by intros [= <-]|]. simpl.
  destruct (_ || _); [|done]. by intros [= <-] [= <-].
Qed.
Lemma limit_status e r : on_limit e = Some r -> r_status r = 400.
Proof. destruct e; try done. by intros [= <-]. Qed.
Lemma rar_status e r : on_rar e = Some r -> r_status r = 400.
Proof. destruct e; try done. by intros [= <-]. Qed.
Lemma value_status e r : on_value e = Some r -> r_status r = 500.
Proof. unfold on_value. destruct (is_value_error e); [|done]. by intros [= <-]. Qed.

(** ** Authorization codes *)
Definition pkce_verified (rq : Request) (code : AuthorizationCode) : Prop :=
  exists verifier challenge, form_get "code_verifier" rq = Some verifier
    /\ ac_code_challenge code = Some challenge /\ challenge <> EmptyString
    /\ MIN_VERIFIER_LEN <= py_len verifier <= MAX_VERIFIER_LEN
    /\ pkce_challenge verifier = challenge.

Lemma check_pkce_none rq code : check_pkce rq code = None -> pkce_verified rq code.
Proof.
  unfold check_pkce. destruct (truthy_o (ac_code_challenge code)) eqn:Hc; [|done].
  destruct (truthy_o (form_get "code_verifier" rq)) eqn:Hv; simpl; [|done].
  apply truthy_o_true in Hc as (ch & Hc & Hne). apply truthy_o_true in Hv as (v & Hv & _).
  rewrite Hc, Hv. simpl. destruct (_ && _) eqn:Hl; simpl; [|done].
  destruct (pkce_matches _ _) eqn:Hm; simpl; [|done]. intros _. unfold pkce_matches in Hm. b2p.
  exists v, ch. repeat split; auto.
Qed.

(** What the checks of the authorization_code grant establish. *)
Record code_redeemable (rq : Request) (client : Client) (s : AppState) (code : AuthorizationCode) : Prop := {
  cr_presented : exists v, form_get "code" rq = Some v /\ get_authorization_code v (a_store s) = Some code;
  cr_grant : allows_grant json_limit client "authorization_code" = Ok true;
  cr_client : ac_client_id code = c_client_id client;
  cr_fresh : a_wall s <= ac_expires_at code;
  cr_unused : ac_used code = false;
  cr_redirect : form_get "redirect_uri" rq = Some (ac_redirect_uri code);
  cr_pkce : pkce_verified rq code
}.

Lemma authorization_code_check_go rq client s s1 code details :
  authorization_code_check config rq client s = (Ok (Go (code, details)), s1) ->
  code_redeemable rq client s code /\ s1 = s
  /\ parse_details config
       match ac_authorization_details code with Some d => Some d | None => form_get "authorization_details" rq end
     = Ok details
  /\ (forall stored form, ac_authorization_details code = Some stored ->
        form_get "authorization_details" rq = Some form -> form = stored).
Proof.
  intros Hr. unfold authorization_code_check in Hr.
  tok_walk Hr. b2p. subst. split; [|split; [done|split; [done|]]].
  - constructor; try done.
    + apply truthy_o_true in E2 as (v & Hv & _). exists v. split; [done|]. by rewrite Hv in *.
    + destruct (form_get "redirect_uri" rq) as [u|]; [|done]. simpl in *. by b2p; subst.
    + by apply check_pkce_none.
  - intros stored form Hst Hf. rewrite Hst, Hf in *. by b2p.
Qed.

(** A used code of the client's own, presented before it expires. *)
Lemma authorization_code_check_used rq client s code v :
  form_get "code" rq = Some v -> v <> EmptyString ->
  get_authorization_code v (a_store s) = Some code ->
  allows_grant json_limit client "authorization_code" = Ok true ->
  ac_client_id code = c_client_id client -> a_wall s <= ac_expires_at code -> ac_used code = true ->
  authorization_code_check config rq client s
  = (Ok (Done code_used),
     if truthy_o (ac_token_family code)
     then with_store s (revoke_token_family (default EmptyString (ac_token_family code)) (a_store s)).1
     else s).
Proof.
  intros Hv Hne Hget Hg Hc Ht Hu. unfold authorization_code_check, sbind, slift.
  rewrite Hg. simpl. rewrite Hv. simpl. apply truthy_true in Hne. rewrite Hne.
  unfold query, sget. simpl. rewrite Hget, Hc, String.eqb_refl. simpl.
  destruct (Z.ltb_spec (ac_expires_at code) (a_wall s)); [lia|]. rewrite Hu.
  unfold revoke_code_family. by destruct (truthy_o (ac_token_family code)).
Qed.

Lemma check_jkt code dpop : jkt_mismatch code dpop = false ->
  forall jkt, ac_dpop_jkt code = Some jkt -> exists v, dpop = Some v /\ v_jkt v = jkt.
Proof.
  unfold jkt_mismatch. intros Hm jkt Hj. rewrite Hj in Hm. b2p. destruct dpop as [v|]; [|done].
  exists v. split; [done|]. simpl in Hm. by b2p.
Qed.

(** A success of the second half: the code was claimed and one token issued. *)
Record code_redeemed (client : Client) (dpop : option DpopValidated) (cnf : option pydict)
    (code : AuthorizationCode) (details : option (list pydict)) (s s' : AppState) : Prop := {
  rd_claimed : snd (mark_authorization_code_used (ac_code code) (a_store s)) <> 0%nat;
  rd_jkt : jkt_mismatch code dpop = false;
  rd_issued : exists t s1 s2,
    a_store s1 = fst (mark_authorization_code_used (ac_code code) (a_store s))
    /\ a_wall s1 = a_wall s
    /\ issued config client (Some (ac_user_id code)) (ac_scope code)
         (plain_args true (ac_token_family code) cnf details (ac_resource code)) t s1 s2
    /\ a_store s' = a_store s2
}.

Lemma store_after {A} (m : M A) s r s' : quiet m -> m s = (r, s') -> a_store s' = a_store s.
Proof. intros Hq Hm. specialize (Hq s). by rewrite Hm in Hq. Qed.

Lemma quiet_id_token_tail client dpop (t : TokenResponse) (r : result exn string) :
  quiet (try_ (slift r) (reply on_value)
    (fun idt => with_dpop_nonce config client dpop (success_response (with_id_token idt t)))).
Proof.
  pose proof (quiet_with_nonce client dpop). apply quiet_try; [done|apply quiet_reply|auto].
Qed.

Lemma authorization_code_commit_ok client dpop cnf code details s r s' :
  authorization_code_commit config client dpop cnf code details s = (Ok r, s') ->
  r_status r = 200 -> code_redeemed client dpop cnf code details s s'.
Proof.
  intros Hr Hst. unfold authorization_code_commit in Hr. tok_step Hr.
  unfold update_count in E.
  destruct (mark_authorization_code_used (ac_code code) (a_store s)) as [st n] eqn:Hm.
  injection E as <- <-. destruct (n =? 0)%nat eqn:Hn.
  { tok_step Hr. tok_clean. repeat tok_step Hr. subst. done. }
  destruct (jkt_mismatch code dpop) eqn:Hj; [tok_walk Hr; by subst|].
  tok_step Hr. unfold emit_event, smod in E. injection E as <- <-.
  unfold sbind at 1 in Hr. destruct (issue _ _ _ _ _ _) as [[t|e] s2] eqn:Hi in Hr; [|done].
  apply issue_ok in Hi. constructor; [by rewrite Hm; b2p|done|]. rewrite Hm.
  eexists t, _, s2. split; [|split; [|split; [exact Hi|]]]; [done|done|].
  eapply store_after; [|exact Hr].
  pose proof (quiet_with_nonce client dpop). pose proof quiet_created.
  pose proof (quiet_id_token_tail client dpop t). quiet_walk.
Qed.

(** ** Refresh *)
Record refreshable (rq : Request) (client : Client) (dpop : option DpopValidated) (s : AppState)
    (p : RefreshPlan) : Prop := {
  rf_presented : exists v, form_get "refresh_token" rq = Some v
    /\ get_token_by_refresh_token v (a_store s) = Some (rp_old p);
  rf_grant : allows_grant json_limit client "refresh_token" = Ok true;
  rf_client : t_client_id (rp_old p) = c_client_id client;
  rf_live : t_revoked (rp_old p) = false;
  rf_fresh : a_wall s < plus_secs (t_created_at (rp_old p)) (refresh_token_ttl_secs config);
  rf_scope : scope_is_subset (rp_scope p) (t_scope (rp_old p)) = true;
  rf_cnf : salvage_old_cnf (t_access_token (rp_old p)) = Ok (rp_cnf p);
  rf_audience : exists aud, salvage_old_aud (t_access_token (rp_old p)) = Ok aud
    /\ carried_audience aud (rp_resource p) = Some (rp_audience p);
  rf_proof : refresh_needs_proof client (rp_cnf p) dpop = false
}.

Lemma refresh_check_go rq client dpop s s1 p :
  refresh_check cbn_ config rq client dpop s = (Ok (Go p), s1) ->
  refreshable rq client dpop s p /\ s1 = s.
Proof.
  intros Hr. unfold refresh_check in Hr. tok_walk Hr. b2p. subst. split; [|done].
  constructor; cbn [rp_old rp_scope rp_resource rp_audience rp_cnf]; try done; eauto.
  - match goal with Ht : truthy_o _ = true |- _ => apply truthy_o_true in Ht as (v & Hv & _) end.
    exists v. split; [done|]. by rewrite Hv in *.
  - by eapply narrow_scope_spec.
Qed.

(** A revoked token of the client's own. *)
Lemma refresh_check_revoked rq client dpop s old v :
  form_get "refresh_token" rq = Some v -> v <> EmptyString ->
  get_token_by_refresh_token v (a_store s) = Some old ->
  allows_grant json_limit client "refresh_token" = Ok true ->
  t_client_id old = c_client_id client -> t_revoked old = true ->
  refresh_check cbn_ config rq client dpop s
  = (Ok (Done (oauth_error400 "invalid_grant" "refresh token has been revoked")),
     if truthy_o (t_token_family old)
     then with_store s (revoke_token_family (default EmptyString (t_token_family old)) (a_store s)).1
     else s).
Proof.
  intros Hv Hne Hget Hg Hc Hu. unfold refresh_check, sbind, slift.
  rewrite Hg. simpl. rewrite Hv. simpl. apply truthy_true in Hne. rewrite Hne.
  unfold query, sget. simpl. rewrite Hget, Hc, String.eqb_refl, Hu. simpl.
  by destruct (truthy_o (t_token_family old)).
Qed.

Record refreshed (client : Client) (p : RefreshPlan) (s s' : AppState) : Prop := {
  rr_issued : exists family t s1 s2,
    a_store s1 = revoke_token (t_access_token (rp_old p)) (a_store s)
    /\ a_wall s1 = a_wall s
    /\ (forall f, t_token_family (rp_old p) = Some f -> f <> EmptyString -> family = f)
    /\ issued config client (t_user_id (rp_old p)) (rp_scope p)
         (mkIssue true (Some family) (rp_cnf p) None None (rp_resource p) (rp_audience p)) t s1 s2
    /\ a_store s' = a_store s2
}.

Lemma refresh_commit_ok client dpop p s r s' :
  refresh_commit config client dpop p s = (Ok r, s') -> refreshed client p s s'.
Proof.
  intros Hr. unfold refresh_commit in Hr.
  unfold sbind at 1 in Hr.
  set (fam := if truthy_o (t_token_family (rp_old p)) then _ else _) in Hr.
  assert (exists f s0, fam s = (Ok f, s0) /\ a_store s0 = a_store s /\ a_wall s0 = a_wall s
    /\ (forall g, t_token_family (rp_old p) = Some g -> g <> EmptyString -> f = g)) as (f & s0 & Hf & Hst & Hw & Hfam).
  { unfold fam. destruct (truthy_o (t_token_family (rp_old p))) eqn:Ht.
    - eexists _, s. split; [done|]. split; [done|]. split; [done|]. by intros g -> _.
    - unfold draw. eexists _, _. split; [done|]. split; [done|]. split; [done|].
      intros g Hg Hne. rewrite Hg in Ht. by apply truthy_false in Ht. }
  rewrite Hf in Hr. unfold sbind at 1 in Hr. unfold update, smod in Hr.
  unfold sbind at 1 in Hr. destruct (issue _ _ _ _ _ _) as [[t|e] s2] eqn:Hi in Hr; [|done].
  apply issue_ok in Hi. constructor.
  eexists f, t, _, s2. split; [|split; [|split; [exact Hfam|split; [exact Hi|]]]].
  - cbn. by rewrite Hst.
  - done.
  - eapply store_after; [|exact Hr]. pose proof quiet_created.
    pose proof (quiet_id_token client dpop (t_user_id (rp_old p)) (rp_scope p) None None None t). quiet_walk.
Qed.

(** A refusal touches the storage only to punish the reuse of a revoked token. *)
Lemma refresh_check_done rq client dpop s res s1 :
  refresh_check cbn_ config rq client dpop s = (res, s1) ->
  a_store s1 = a_store s
  \/ exists v old, form_get "refresh_token" rq = Some v
       /\ get_token_by_refresh_token v (a_store s) = Some old /\ t_revoked old = true.
Proof.
  intros Hr. unfold refresh_check in Hr. repeat first [tok_step Hr | handler_step Hr]; tok_clean.
  all: try (right; match goal with Ht : truthy_o (form_get "refresh_token" _) = true |- _ =>
         apply truthy_o_true in Ht as (v & Hv & _); rewrite Hv in *;
         eexists v, _; split; [done|]; split; eassumption end).
  all: left; try (injection Hr as <- <-); try subst; try done.
Qed.

(** ** Device codes *)
Record device_redeemable (rq : Request) (client : Client) (s : AppState) (d : DeviceAuthorization) : Prop := {
  dr_presented : exists v, form_get "device_code" rq = Some v
    /\ get_device_authorization_by_device_code v (a_store s) = Some d;
  dr_grant : allows_grant json_limit client device_code_grant = Ok true;
  dr_client : d_client_id d = c_client_id client;
  dr_fresh : a_wall s < d_expires_at d;
  dr_approved : d_approved d = true;
  dr_not_denied : d_denied d = false;
  dr_unused : d_used d = false;
  dr_not_too_fast : fst (DevicePoll.observe (a_mono s) (d_device_code d) (d_interval_seconds d)
                           (a_device_poll s)) = None
}.

Lemma device_check_go rq client s s1 d resource :
  device_check cbn_ rq client s = (Ok (Go (d, resource)), s1) ->
  device_redeemable rq client s d /\ a_store s1 = a_store s /\ a_wall s1 = a_wall s.
Proof.
  intros Hr. unfold device_check in Hr. tok_walk Hr.
  match goal with Ho : observe_poll _ _ = _ |- _ => unfold observe_poll in Ho end.
  destruct (DevicePoll.observe _ _ _ _) as [o m] eqn:Hob.
  match goal with Ho : (Ok _, _) = _ |- _ => injection Ho as ? ?; subst end.
  b2p. subst. cbn [a_wall with_device_poll] in *. split; [|done].
  constructor; try done; [|by rewrite Hob].
  match goal with Ht : truthy_o _ = true |- _ => apply truthy_o_true in Ht as (v & Hv & _) end.
  exists v. split; [done|]. by rewrite Hv in *.
Qed.

Record device_redeemed (client : Client) (d : DeviceAuthorization) (resource : option string)
    (s s' : AppState) : Prop := {
  dd_claimed : snd (mark_device_authorization_used (d_device_code d) (a_store s)) <> 0%nat;
  dd_issued : exists family t s1 s2,
    a_store s1 = fst (mark_device_authorization_used (d_device_code d) (a_store s))
    /\ a_wall s1 = a_wall s
    /\ issued config client (d_user_id d) (d_scope d)
         (plain_args true (Some family) None None resource) t s1 s2
    /\ a_store s' = a_store s2
}.

Lemma device_commit_ok client dpop d resource s r s' :
  device_commit config client dpop d resource s = (Ok r, s') ->
  r_status r = 200 -> device_redeemed client d resource s s'.
Proof.
  intros Hr Hst. unfold device_commit in Hr. tok_step Hr.
  unfold update_count in E.
  destruct (mark_device_authorization_used (d_device_code d) (a_store s)) as [st n] eqn:Hm.
  injection E as <- <-. destruct (n =? 0)%nat eqn:Hn; [tok_walk Hr; by subst|].
  unfold sbind at 1 in Hr. unfold smod in Hr. unfold sbind at 1 in Hr. unfold draw in Hr.
  unfold sbind at 1 in Hr. destruct (issue _ _ _ _ _ _) as [[t|e] s2] eqn:Hi in Hr; [|done].
  apply issue_ok in Hi. constructor; [by rewrite Hm; b2p|]. rewrite Hm.
  eexists _, t, _, s2. split; [|split; [|split; [exact Hi|]]]; [done|done|].
  eapply store_after; [|exact Hr]. pose proof quiet_created.
  pose proof (quiet_id_token client dpop (d_user_id d) (d_scope d) None None None t). quiet_walk.
Qed.

(** ** Token exchange *)
Record exchanged (rq : Request) (client : Client) (cnf : option pydict) (s s' : AppState)
    (body : pydict) : Prop := {
  ex_grant : allows_grant json_limit client token_exchange_grant = Ok true;
  ex_confidential : is_public client = false;
  ex_issued : exists v subject claims scope resource t s2,
    form_get "subject_token" rq = Some v
    /\ get_token_by_access_token v (a_store s) = Some subject
    /\ t_revoked subject = false /\ a_wall s < t_expires_at subject
    /\ scope_is_subset scope (t_scope subject) = true
    /\ decode_unverified_claims v = Ok claims
    /\ json_depth (JObj (delegation_act client claims)) <= 10
    /\ issued config client (t_user_id subject) scope
         (mkIssue false None cnf None (Some (delegation_act client claims)) resource None) t s s2
    /\ a_store s' = a_store s2
    /\ obj_get "access_token" body = Some (JStr (tr_access_token t))
    /\ obj_get "refresh_token" body = None
}.

Lemma token_exchange_ok rq client dpop cnf s r s' :
  token_exchange cbn_ config rq client dpop cnf s = (Ok r, s') -> r_status r = 200 ->
  exists body, r_body r = JObj body /\ exchanged rq client cnf s s' body.
Proof.
  intros Hr Hst. unfold token_exchange in Hr.
  repeat first [tok_step Hr | handler_step Hr]; tok_clean.
  all: try (subst; discriminate Hst).
  all: try (exfalso; eapply not_success_invalid_client; eassumption).
  all: try (match goal with Eh : on_oauth _ = Some _ |- _ => eapply resource_error_status in Eh; [|eassumption] end; congruence).
  all: try (match goal with Eh : on_limit _ = Some _ |- _ => apply limit_status in Eh end; congruence).
  b2p. subst. destruct a3.
  match goal with Ht : truthy_o _ = true |- _ => apply truthy_o_true in Ht as (v & Hv & _) end.
  rewrite Hv in *. cbn [default] in *.
  destruct (with_nonce_ok client dpop (mkResponse 200 (JObj
    ([("access_token", JStr (tr_access_token a5)); ("issued_token_type", JStr access_token_type_urn);
      ("token_type", JStr (tr_token_type a5)); ("expires_in", JInt (tr_expires_in a5));
      ("scope", match tr_scope a5 with Some sc => JStr sc | None => JNull end)]
     ++ match form_get "actor_token" rq with
        | Some _ => [("act", JObj (delegation_act client a2))] | None => [] end))
     [("Cache-Control", "no-store")]) s9) as (h & s10 & Hh & _ & Hb).
  rewrite Hr in Hh. injection Hh as <- <-. eexists. split; [exact Hb|].
  constructor; [done|done|].
  exists v, t, a2, s3, a4, a5, s7. split_and! ; try done.
  - by eapply narrow_scope_spec.
  - rewrite check_depth_spec in * by done.
    destruct (json_depth _ <=? 10) eqn:Hd; [by b2p|done].
  - by apply issue_ok.
  - rewrite (store_after _ _ _ _ (quiet_with_nonce client dpop _) Hr).
    rewrite (store_after _ _ _ _ (quiet_created _ _ _ _) E15). by rewrite (store_after _ _ _ _ quiet_issued E14).
  - by destruct (form_get "actor_token" rq).
Qed.
End lemmas.
