(* ===== verification/TokenOps.v ===== *)
(** * Every storage effect of the token endpoint is a sequence of storage
    operations, so what holds of every operation holds of the handler. *)
From S2P Require Import Prelude PyStr PyJson Codec Models Storage StoreSpec PyUrl Limits TtlStores.
From S2P Require Import Keys Jwt App Tokens Dpop ClientAuth JwtBearer TokenEndpoint TokenLemmas.
#[local] Open Scope Z_scope.

Notation via_ops m := (forall s, exists os, a_store (snd (m s)) = apply_ops os (a_store s)).

Lemma via_quiet {A} (m : M A) : quiet m -> via_ops m.
Proof. intros H s. exists []. apply H. Qed.
Lemma via_bind {A B} (m : M A) (k : A -> M B) : via_ops m -> (forall a, via_ops (k a)) -> via_ops (sbind m k).
Proof.
  intros Hm Hk s. unfold sbind. destruct (Hm s) as [os Hos]. destruct (m s) as [[a|e] s1]; simpl in *.
  - destruct (Hk a s1) as [os' Hos']. exists (os ++ os'). by rewrite apply_ops_app, Hos', Hos.
  - eauto.
Qed.
Lemma via_catch {A} (m : M A) (h : exn -> M A) : via_ops m -> (forall e, via_ops (h e)) -> via_ops (scatch m h).
Proof.
  intros Hm Hk s. unfold scatch. destruct (Hm s) as [os Hos]. destruct (m s) as [[a|e] s1]; simpl in *.
  - eauto.
  - destruct (Hk e s1) as [os' Hos']. exists (os ++ os'). by rewrite apply_ops_app, Hos', Hos.
Qed.
Lemma via_try {A B} (m : M A) h (k : A -> M B) :
  via_ops m -> (forall e r, h e = Some r -> via_ops r) -> (forall a, via_ops (k a)) -> via_ops (try_ m h k).
Proof.
  intros Hm Hh Hk s. unfold try_. destruct (Hm s) as [os Hos]. destruct (m s) as [[a|e] s1]; simpl in *.
  - destruct (Hk a s1) as [os' Hos']. exists (os ++ os'). by rewrite apply_ops_app, Hos', Hos.
  - destruct (h e) as [r|] eqn:Hr; [|by exists os].
    destruct (Hh e r Hr s1) as [os' Hos']. exists (os ++ os'). by rewrite apply_ops_app, Hos', Hos.
Qed.
Lemma via_update o f : (forall st, apply_op o st = Ok (f st)) -> via_ops (update f).
Proof. intros H s. exists [o]. simpl. by rewrite H. Qed.
Lemma via_update_count o f : (forall st, apply_op o st = Ok (f st).1) -> via_ops (update_count f).
Proof.
  intros H s. exists [o]. unfold update_count. specialize (H (a_store s)). simpl. rewrite H.
  by destruct (f (a_store s)).
Qed.
Lemma via_insert o f : (forall st, apply_op o st = f st) -> via_ops (insert f).
Proof.
  intros H s. exists [o]. unfold insert. specialize (H (a_store s)). simpl. rewrite H.
  by destruct (f (a_store s)).
Qed.

Section ops.
Context `{JwtLib} `{Runtime} `{Http}.
Context (cbn_ : string -> bool) (config : Config).

Lemma via_revoke_family f : via_ops (update_count (revoke_token_family f)).
Proof. by apply (via_update_count (RevokeTokenFamily f)). Qed.
Lemma via_mark_code c : via_ops (update_count (mark_authorization_code_used c)).
Proof. by apply (via_update_count (MarkCodeUsed c)). Qed.
Lemma via_mark_device c : via_ops (update_count (mark_device_authorization_used c)).
Proof. by apply (via_update_count (MarkDeviceUsed c)). Qed.
Lemma via_revoke v : via_ops (update (revoke_token v)).
Proof. by apply (via_update (RevokeToken v)). Qed.
Lemma via_save_user u : via_ops (insert (save_user u)).
Proof. by apply (via_insert (SaveUser u)). Qed.

Lemma via_issue client uid scope a : via_ops (issue config client uid scope a).
Proof.
  intros s. destruct (issue config client uid scope a s) as [[t|e] s'] eqn:Hi.
  - destruct (issue_ok _ _ _ _ _ _ _ _ Hi) as [(row & Hrow & _) _ _ _ _ _].
    unfold issue in Hi. unfold sbind at 1 in Hi.
    destruct (make_access_token config client uid scope a s) as [[at_|e] s1] eqn:Hm; [|done].
    apply make_access_token_frame in Hm as [Hst Hw].
    destruct (is_with_refresh a) eqn:Hr; run_simpl Hi; unfold draw, insert in Hi;
      cbn [a_store with_draws a_wall a_draws] in Hi;
      match type of Hi with context [save_token ?tok ?st] => exists [SaveToken tok] end;
      rewrite Hst in Hi; simpl; (destruct (save_token _ (a_store s)) as [st|e]; [|done]);
      by injection Hi as <- <-.
  - exists []. by apply issue_err in Hi.
Qed.

Lemma via_reply h e (r : M response) : reply h e = Some r -> via_ops r.
Proof. intros Hr. apply via_quiet. by eapply quiet_reply. Qed.
Lemma via_refuse {A} h e (r : M (verdict A)) : refuse h e = Some r -> via_ops r.
Proof. intros Hr. apply via_quiet. by eapply quiet_refuse. Qed.

(** Walks through the branches of a [via_ops] goal. *)
Ltac via_walk :=
  repeat first
    [ progress intros
    | match goal with
      | |- exists os, a_store (snd ((if ?b then _ else _) _)) = _ => destruct b
      | |- exists os, a_store (snd ((match ?x with _ => _ end) _)) = _ => destruct x
      end
    | solve [eauto]
    | apply via_bind | apply via_catch
    | eapply via_try
    | solve [eapply via_quiet; eauto with oauth] ].
Hint Resolve via_revoke_family via_mark_code via_mark_device via_revoke via_save_user via_issue
  via_reply via_refuse : core.

Lemma via_code_family code : via_ops (revoke_code_family code).
Proof. unfold revoke_code_family. via_walk. Qed.
Lemma via_code_commit client dpop cnf code details :
  via_ops (authorization_code_commit config client dpop cnf code details).
Proof.
  unfold authorization_code_commit. pose proof via_code_family.
  pose proof (fun c d r => via_quiet _ (quiet_with_nonce config c d r)).
  pose proof (fun u c sc b => via_quiet _ (quiet_created u c sc b)). via_walk.
Qed.
Lemma via_device_commit client dpop d resource : via_ops (device_commit config client dpop d resource).
Proof.
  unfold device_commit.
  pose proof (fun u c sc b => via_quiet _ (quiet_created u c sc b)).
  pose proof (fun c d u sc n co se t => via_quiet _ (quiet_id_token config c d u sc n co se t)).
  via_walk.
Qed.

(** The quiet parts, as facts for [via_walk]. *)
Lemma via_nonce client dpop r : via_ops (with_dpop_nonce config client dpop r).
Proof. apply via_quiet, quiet_with_nonce. Qed.
Lemma via_created u c sc b : via_ops (token_created u c sc b).
Proof. by apply via_quiet. Qed.
Lemma via_id_token client dpop uid scope nonce code sel t :
  via_ops (with_optional_id_token config client dpop uid scope nonce code sel t).
Proof. apply via_quiet, quiet_id_token. Qed.
Lemma via_invalid_client cid d : via_ops (invalid_client_response cid d).
Proof. apply via_quiet, quiet_invalid_client. Qed.
Lemma via_observe d : via_ops (observe_poll d).
Proof. apply via_quiet. intros s. unfold observe_poll. by destruct (DevicePoll.observe _ _ _ _). Qed.
Lemma via_authenticate rq mtls : via_ops (authenticate config rq mtls).
Proof. apply via_quiet, quiet_authenticate. Qed.
Lemma via_jwks url : via_ops (jwks_fetch url).
Proof. apply via_quiet, quiet_jwks_fetch. Qed.
Hint Resolve via_code_family via_code_commit via_device_commit via_nonce via_created via_id_token
  via_invalid_client via_observe via_authenticate via_jwks : core.

Lemma via_code rq client dpop cnf : via_ops (authorization_code config rq client dpop cnf).
Proof. unfold authorization_code, authorization_code_check. via_walk. Qed.
Lemma via_refresh rq client dpop : via_ops (refresh_token cbn_ config rq client dpop).
Proof. unfold refresh_token, refresh_check, refresh_commit. via_walk. Qed.
Lemma via_device rq client dpop : via_ops (device_code cbn_ config rq client dpop).
Proof. unfold device_code, device_check. via_walk. Qed.
Lemma via_exchange rq client dpop cnf : via_ops (token_exchange cbn_ config rq client dpop cnf).
Proof. unfold token_exchange. via_walk. Qed.
Lemma via_credentials rq client dpop cnf : via_ops (client_credentials cbn_ config rq client dpop cnf).
Proof. unfold client_credentials. via_walk. Qed.
Lemma via_redeem assertion client iss url : via_ops (redeem_jwt_bearer_assertion assertion client iss url).
Proof.
  unfold redeem_jwt_bearer_assertion, verify_assertion, enforce_replay, resolve_subject, jit_provision,
    reject_if_denylisted. via_walk.
Qed.
Hint Resolve via_code via_refresh via_device via_exchange via_credentials via_redeem : core.
Lemma via_bearer rq client dpop cnf : via_ops (jwt_bearer cbn_ config rq client dpop cnf).
Proof. unfold jwt_bearer. via_walk. Qed.
Lemma via_dpop_proof proof method url tok : via_ops (validate_dpop_proof cbn_ proof method url tok).
Proof.
  apply via_quiet. unfold validate_dpop_proof. quiet_walk.
  by destruct (Replay.check_and_insert _ _ _).
Qed.
Hint Resolve via_bearer via_dpop_proof : core.
Lemma via_check_dpop rq client : via_ops (check_dpop cbn_ config rq client).
Proof. unfold check_dpop. via_walk. Qed.
Lemma via_auth_failed rq e r : auth_failed rq e = Some r -> via_ops r.
Proof.
  unfold auth_failed. destruct e; try done. intros [= <-]. via_walk.
Qed.
Hint Resolve via_check_dpop via_auth_failed : core.
Lemma via_token rq : via_ops (token cbn_ config rq).
Proof. unfold token, dispatch. via_walk. Qed.
End ops.
