(* ===== verification/AuthProps.v ===== *)
(** * What client authentication guarantees

    [authenticated] is the contract the grants rely on; [authenticate] is
    shown to establish it, for every registered authentication method. *)
From S2P Require Import Prelude PyStr PyJson Codec Models Storage PyUrl TtlStores Keys Jwt App.
From S2P Require Import Tokens Dpop ClientAuth TokenEndpoint TokenLemmas ToyJwt.
From S2P Require Limiter.
#[local] Open Scope Z_scope.

(** ** Handlers run between two ticks of the wall clock *)
(** The clocks, and the polls of device codes. *)
Definition ticks (s : AppState) : Z * Z * gmap string DevicePoll.PollState :=
  (a_wall s, a_mono s, a_device_poll s).
Notation timeless m := (forall s, ticks (snd (m s)) = ticks s).
Lemma timeless_reads {A} (m : M A) : reads m -> timeless m.
Proof. intros H s. by rewrite H. Qed.
Lemma timeless_bind {A B} (m : M A) (k : A -> M B) : timeless m -> (forall a, timeless (k a)) -> timeless (sbind m k).
Proof.
  intros Hm Hk s. unfold sbind. specialize (Hm s). destruct (m s) as [[a|e] s1]; simpl in *; [|done].
  by rewrite Hk.
Qed.
Lemma timeless_catch {A} (m : M A) (h : exn -> M A) : timeless m -> (forall e, timeless (h e)) -> timeless (scatch m h).
Proof.
  intros Hm Hk s. unfold scatch. specialize (Hm s). destruct (m s) as [[a|e] s1]; simpl in *; [done|].
  by rewrite Hk.
Qed.
Lemma timeless_try {A B} (m : M A) h (k : A -> M B) :
  timeless m -> (forall e r, h e = Some r -> timeless r) -> (forall a, timeless (k a)) -> timeless (try_ m h k).
Proof.
  intros Hm Hh Hk s. unfold try_. specialize (Hm s). destruct (m s) as [[a|e] s1]; simpl in *.
  - by rewrite Hk.
  - destruct (h e) as [r|] eqn:Hr; simpl; [|done]. by rewrite (Hh e r).
Qed.
Lemma timeless_refuse {A} h e (r : M (verdict A)) : refuse h e = Some r -> timeless r.
Proof. unfold refuse. destruct (h e); [|done]. by intros [= <-]. Qed.
#[local] Hint Resolve timeless_reads timeless_refuse : oauth.

(** Walks through the branches of a [timeless] goal. *)
Ltac timeless_walk :=
  repeat first
    [ progress intros
    | match goal with
      | |- ticks (snd ((if ?b then _ else _) _)) = _ => destruct b
      | |- ticks (snd ((match ?x with _ => _ end) _)) = _ => destruct x
      end
    | done
    | apply timeless_bind | apply timeless_catch | apply timeless_try
    | solve [eauto with oauth] ].

Section timeless.
Context `{JwtLib} `{Runtime} `{Http}.
Context (cbn_ : string -> bool) (config : Config).

Lemma timeless_jwks_fetch url : timeless (jwks_fetch url).
Proof. unfold jwks_fetch. timeless_walk. Qed.
Lemma timeless_resolve client methods : timeless (resolve_client_jwks client methods).
Proof. unfold resolve_client_jwks. pose proof timeless_jwks_fetch. timeless_walk. Qed.
Lemma timeless_enforce client_id claims : timeless (enforce_jti_replay client_id claims).
Proof. unfold enforce_jti_replay. timeless_walk. Qed.
Lemma timeless_assertion client assertion url jwks : timeless (validate_client_assertion client assertion url jwks).
Proof. unfold validate_client_assertion. pose proof timeless_enforce. timeless_walk. Qed.
Lemma timeless_authenticate rq mtls : timeless (authenticate config rq mtls).
Proof.
  unfold authenticate, check_credentials, authenticate_jwt, authenticate_self_signed_tls, emit_client_validated.
  pose proof timeless_assertion. pose proof timeless_resolve. timeless_walk.
Qed.
Lemma timeless_dpop_proof proof method url tok : timeless (validate_dpop_proof cbn_ proof method url tok).
Proof. unfold validate_dpop_proof. timeless_walk. by destruct (Replay.check_and_insert _ _ _). Qed.
Lemma timeless_check_dpop rq client : timeless (check_dpop cbn_ config rq client).
Proof. unfold check_dpop. pose proof timeless_dpop_proof. timeless_walk. Qed.
Lemma quiet_dpop_proof proof method url tok : quiet (validate_dpop_proof cbn_ proof method url tok).
Proof. unfold validate_dpop_proof. quiet_walk. by destruct (Replay.check_and_insert _ _ _). Qed.
Lemma quiet_check_dpop rq client : quiet (check_dpop cbn_ config rq client).
Proof.
  unfold check_dpop. pose proof quiet_dpop_proof.
  apply quiet_try; [done|apply quiet_refuse|]. intros [proof|]; [|done].
  apply quiet_try; [auto|apply quiet_refuse|]. intros v. destruct (c_dpop_nonce_required client); [|done].
  quiet_walk. apply quiet_try; [done|apply quiet_refuse|]. quiet_walk.
Qed.
End timeless.

(** ** The contract of [authenticate] *)
Section contract.
Context `{JwtLib} `{Runtime} `{Http}.
Context (config : Config).

(** A signed assertion of the client's, for this server, not seen before. *)
Record assertion_shown (rq : Request) (client : Client) (key : jwt_key pub_key) (alg : string)
    (s : AppState) : Prop := {
  as_type : form_get "client_assertion_type" rq = Some jwt_bearer_assertion_type;
  as_verified : exists assertion header claims jti t,
    form_get "client_assertion" rq = Some assertion
    /\ jwt_unverified_header assertion = Ok header /\ member_eqb "alg" (JStr alg) header = true
    /\ jwt_decode (a_wall s) assertion key
         (assertion_options alg (rstrip_char "/" (issuer config) +:+ "/oauth/token")) = Ok claims
    /\ member_eqb "iss" (JStr (c_client_id client)) claims = true
    /\ member_eqb "sub" (JStr (c_client_id client)) claims = true
    /\ get_str "jti" claims = Some jti /\ jti <> EmptyString
    /\ fst (Replay.observe (a_mono s) (c_client_id client) jti t (a_jti_guard s)) = Ok true
}.

(** The proof of identity each registered method asks for. *)
Inductive identity_shown (rq : Request) (mtls : option string * option string) (client : Client)
    (s : AppState) : string -> Prop :=
| shown_public : identity_shown rq mtls client s "none"
| shown_secret_jwt :
    assertion_shown rq client (SecretKey (c_client_secret client)) "HS256" s ->
    identity_shown rq mtls client s "client_secret_jwt"
| shown_private_key_jwt key jwks kid s1 :
    resolve_client_jwks client ["private_key_jwt"] s = (Ok jwks, s1) ->
    rsa_key_from_jwks jwks kid "invalid_client" EmptyString = Ok (PublicKey key) ->
    assertion_shown rq client (PublicKey key) "RS256" s ->
    identity_shown rq mtls client s "private_key_jwt"
| shown_tls thumbprint :
    fst mtls = Some thumbprint ->
    (c_tls_client_certificate_subject_dn client <> EmptyString ->
     snd mtls = Some (c_tls_client_certificate_subject_dn client)) ->
    identity_shown rq mtls client s "tls_client_auth"
| shown_self_signed thumbprint jwks keys k s1 :
    fst mtls = Some thumbprint ->
    resolve_client_jwks client ["self_signed_tls_client_auth"] s = (Ok jwks, s1) ->
    jwks_keys jwks = Ok keys -> In (JObj k) keys -> get_str "x5t#S256" k = Some thumbprint ->
    identity_shown rq mtls client s "self_signed_tls_client_auth"
| shown_secret method :
    method ∉ ["none"; "client_secret_jwt"; "private_key_jwt"; "tls_client_auth";
              "self_signed_tls_client_auth"] ->
    c_client_secret client <> EmptyString ->
    (exists cid, presented_credentials rq = Ok (cid, Some (c_client_secret client))) ->
    identity_shown rq mtls client s method.

Record authenticated (rq : Request) (mtls : option string * option string) (s : AppState)
    (client : Client) : Prop := {
  au_named : exists cid secret, presented_credentials rq = Ok (Some cid, secret)
    /\ get_client cid (a_store s) = Some client;
  au_enabled : c_enabled client = true;
  au_allowed : check_subject_denylisted (a_wall s) "client_id" (c_client_id client) (a_store s) = None;
  au_method : identity_shown rq mtls client s (c_token_endpoint_auth_method client)
}.

Lemma jwks_fetch_frame url : forall s, a_jti_guard (snd (jwks_fetch url s)) = a_jti_guard s
  /\ a_mono (snd (jwks_fetch url s)) = a_mono s /\ a_wall (snd (jwks_fetch url s)) = a_wall s.
Proof.
  intros s. unfold jwks_fetch, sbind, sget, slift, smod, sret.
  destruct (a_jwks_cache s !! url) as [[d x]|].
  - destruct (a_mono s <? x); [done|]. by destruct (fetch_from_url (a_mono s) url) as [[? ?]|].
  - by destruct (fetch_from_url (a_mono s) url) as [[? ?]|].
Qed.
Lemma resolve_frame client methods s r s' : resolve_client_jwks client methods s = (r, s') ->
  a_jti_guard s' = a_jti_guard s /\ a_mono s' = a_mono s /\ a_wall s' = a_wall s.
Proof.
  unfold resolve_client_jwks. intros Hr.
  repeat tok_step Hr; try (injection Hr as <- <-); subst; try done.
  all: match goal with E : jwks_fetch ?u _ = _ |- _ =>
         pose proof (jwks_fetch_frame u s) as Hf; rewrite E in Hf; exact Hf end.
Qed.

Lemma enforce_ok client_id claims s u s' : enforce_jti_replay client_id claims s = (Ok u, s') ->
  exists jti t, get_str "jti" claims = Some jti /\ jti <> EmptyString
    /\ fst (Replay.observe (a_mono s) client_id jti t (a_jti_guard s)) = Ok true.
Proof.
  intros Hr. unfold enforce_jti_replay in Hr. tok_walk Hr.
  all: match goal with Ho : Replay.observe _ _ ?j ?t _ = _ |- _ =>
         exists j, t; b2p; apply truthy_true in E0; by rewrite Ho end.
Qed.

Lemma rsa_key_public jwks kid err ctx key :
  rsa_key_from_jwks jwks kid err ctx = Ok key -> exists k, key = PublicKey k.
Proof. unfold rsa_key_from_jwks, rbind. intros Hr. repeat run_step Hr. all: eauto. Qed.

Lemma assertion_ok client rq assertion jwks s u s' :
  validate_client_assertion client assertion (rstrip_char "/" (issuer config) +:+ "/oauth/token") jwks s
  = (Ok u, s') ->
  form_get "client_assertion" rq = Some assertion ->
  form_get "client_assertion_type" rq = Some jwt_bearer_assertion_type ->
  (c_token_endpoint_auth_method client = "client_secret_jwt"
   /\ assertion_shown rq client (SecretKey (c_client_secret client)) "HS256" s)
  \/ (c_token_endpoint_auth_method client = "private_key_jwt"
      /\ exists key kid, rsa_key_from_jwks jwks kid "invalid_client" EmptyString = Ok (PublicKey key)
           /\ assertion_shown rq client (PublicKey key) "RS256" s).
Proof.
  intros Hr Ha Ht. unfold validate_client_assertion in Hr. tok_walk Hr. b2p.
  match goal with Hd : rcatch (jwt_decode _ _ _ _) _ = Ok ?c |- _ =>
    unfold rcatch in Hd; destruct (jwt_decode _ _ _ _) as [c'|e] eqn:Hdec in Hd;
    [injection Hd as ->|by destruct (is_jwt_error e)] end.
  unfold rcatch in E0. destruct (jwt_unverified_header assertion) as [h|e] eqn:Hh;
    [injection E0 as ->|by destruct (is_jwt_error e)].
  destruct (enforce_ok _ _ _ _ _ Hr) as (jti & t & Hj & Hne & Ho).
  unfold alg_for_method in E.
  destruct (String.eqb_spec (c_token_endpoint_auth_method client) "client_secret_jwt") as [Hm|Hm].
  - left. injection E as <-. injection E2 as <-. split; [done|]. constructor; [done|].
    exists assertion, a, a2, jti, t. split_and! ; try done.
  - right. destruct (String.eqb_spec (c_token_endpoint_auth_method client) "private_key_jwt"); [|done].
    injection E as <-. split; [done|].
    destruct (rsa_key_public _ _ _ _ _ E2) as [k ->]. exists k, (obj_get "kid" a). split; [done|].
    constructor; [done|]. exists assertion, a, a2, jti, t. split_and! ; try done.
Qed.

Lemma assertion_shown_frame rq client key alg s s1 :
  a_jti_guard s1 = a_jti_guard s /\ a_mono s1 = a_mono s /\ a_wall s1 = a_wall s ->
  assertion_shown rq client key alg s1 -> assertion_shown rq client key alg s.
Proof.
  intros (Hg & Hm & Hw) [Ht (a & h & c & j & t & Ha)]. constructor; [done|].
  rewrite Hg, Hm, Hw in Ha. by exists a, h, c, j, t.
Qed.

Lemma jwt_ok client rq mtls s u s' : authenticate_jwt config client rq s = (Ok u, s') ->
  identity_shown rq mtls client s (c_token_endpoint_auth_method client).
Proof.
  intros Hr. unfold authenticate_jwt in Hr. repeat tok_step Hr. b2p.
  destruct (form_get "client_assertion_type" rq) as [ty|] eqn:Hty; [|done]. cbn [from_option_b] in *. b2p. subst ty.
  apply truthy_o_true in E1 as (v & Hv & _). rewrite Hv in Hr. cbn in Hr.
  match goal with E : resolve_client_jwks _ _ _ = (Ok ?j, ?s1) |- _ =>
    pose proof (resolve_frame _ _ _ _ _ E) as Hf end.
  destruct (assertion_ok _ rq _ _ _ _ _ Hr Hv Hty) as [[Hm Ha]|[Hm (k & kid & Hk & Ha)]]; rewrite Hm.
  - apply shown_secret_jwt. by eapply assertion_shown_frame.
  - eapply shown_private_key_jwt; [eassumption..|]. by eapply assertion_shown_frame.
Qed.

Lemma tls_ok client rq thumbprint dn s u :
  authenticate_tls_client_auth client thumbprint dn = Ok u ->
  identity_shown rq (thumbprint, dn) client s "tls_client_auth".
Proof.
  intros Hr. unfold authenticate_tls_client_auth in Hr. destruct thumbprint as [t|]; [|done].
  eapply (shown_tls _ _ _ _ t); [done|]. intros Hne. apply truthy_true in Hne. rewrite Hne in Hr.
  simpl in *. destruct dn as [d|]; [|done]. destruct (String.eqb_spec d (c_tls_client_certificate_subject_dn client)); [by subst|done].
Qed.

Lemma self_signed_ok client rq thumbprint dn s u s' :
  authenticate_self_signed_tls client thumbprint s = (Ok u, s') ->
  identity_shown rq (thumbprint, dn) client s "self_signed_tls_client_auth".
Proof.
  intros Hr. unfold authenticate_self_signed_tls in Hr. tok_walk Hr. subst.
  match goal with Hx : existsb _ ?l = true |- _ => apply existsb_exists in Hx; destruct Hx as (j & Hj & Hk) end.
  destruct (as_obj j) as [m|] eqn:Hm; [|done]. destruct j; try done. injection Hm as ->.
  cbn [mbind option_bind] in Hk. destruct (get_str "x5t#S256" m) as [r|] eqn:Hm; [|done]. b2p. subst.
  by eapply shown_self_signed.
Qed.

Lemma check_credentials_ok client secret rq mtls cid s c s' :
  presented_credentials rq = Ok (cid, secret) ->
  check_credentials config client secret rq mtls s = (Ok c, s') ->
  c = client /\ identity_shown rq mtls client s (c_token_endpoint_auth_method client).
Proof.
  intros Hp Hr. unfold check_credentials, is_public in Hr.
  destruct (String.eqb_spec (c_token_endpoint_auth_method client) "none") as [Hm|Hm].
  { tok_walk Hr. subst. split; [done|]. rewrite Hm. by constructor. }
  destruct (String.eqb (c_token_endpoint_auth_method client) "client_secret_jwt"
            || String.eqb (c_token_endpoint_auth_method client) "private_key_jwt") eqn:Hj.
  { repeat tok_step Hr. subst. split; [done|]. by eapply jwt_ok. }
  destruct mtls as [thumbprint dn]. b2p.
  destruct (String.eqb_spec (c_token_endpoint_auth_method client) "tls_client_auth") as [Ht|Ht].
  { repeat tok_step Hr. tok_clean. subst. split; [done|]. rewrite Ht. by eapply tls_ok. }
  destruct (String.eqb_spec (c_token_endpoint_auth_method client) "self_signed_tls_client_auth") as [Hs|Hs].
  { repeat tok_step Hr. subst. split; [done|]. rewrite Hs. by eapply self_signed_ok. }
  tok_walk Hr. subst. b2p.
  match goal with Ht : truthy_o secret = true |- _ => apply truthy_o_true in Ht as (v & -> & Hv) end.
  cbn [from_option_b] in *. b2p. subst. split; [done|]. apply shown_secret; [set_solver|done|eauto].
Qed.

Lemma authenticate_ok rq mtls s client s' :
  authenticate config rq mtls s = (Ok client, s') -> authenticated rq mtls s client.
Proof.
  intros Hr. unfold authenticate in Hr. tok_walk Hr. b2p.
  match goal with Ht : truthy_o _ = true |- _ => apply truthy_o_true in Ht as (cid & -> & _) end.
  apply check_credentials_ok with (cid := Some cid) in Hr as [-> Hshown]; [|done].
  constructor; try done. by exists cid, o0.
Qed.

(** C3: whoever the token endpoint takes for a client proved it: the request
    names a registered client that is enabled and not denylisted, and carries
    the proof its registered authentication method asks for - never the proof
    of a weaker method. *)
Theorem authenticate_sound (rq : Request) (s s' : AppState) (client : Client) :
  authenticate config rq (mtls_headers rq config) s = (Ok client, s') ->
  authenticated rq (mtls_headers rq config) s client
  /\ a_store s' = a_store s.
Proof.
  intros Hr. split; [by eapply authenticate_ok|].
  by apply (store_after _ _ _ _ (quiet_authenticate config rq (mtls_headers rq config)) Hr).
Qed.

(** an unknown, a disabled and a denylisted client are refused alike, with
    no effect at all, whatever else the request presents. *)
Theorem unknown_client_uniform (rq : Request) (mtls : option string * option string) (s : AppState)
    (cid : string) (secret : option string) :
  presented_credentials rq = Ok (Some cid, secret) -> cid <> EmptyString ->
  (forall c, get_client cid (a_store s) = Some c ->
     c_enabled c = false
     \/ check_subject_denylisted (a_wall s) "client_id" (c_client_id c) (a_store s) <> None) ->
  authenticate config rq mtls s = (Err (invalid_client unknown_or_disabled_client_message), s).
Proof.
  intros Hp Hne Hbad. unfold authenticate. unfold sbind at 1. unfold slift. rewrite Hp.
  change (truthy_o (Some cid)) with (truthy cid). apply truthy_true in Hne. rewrite Hne. cbn [negb]. unfold sbind, query, sget, sraise.
  cbn [default from_option id]. destruct (get_client cid (a_store s)) as [c|]; [|done].
  destruct (Hbad c eq_refl) as [->|Hd]; [done|]. destruct (c_enabled c); [|done]. cbn [negb].
  by destruct (check_subject_denylisted _ _ _ _).
Qed.
End contract.

(** ** The penalty for failed authentication *)
Section penalty.
Context `{JwtLib} `{Runtime} `{Http}.
Context (cbn_ : string -> bool) (config : Config).

(** a failed client authentication is counted, charged to the client it
    names, and answered 401, or 429 with the waiting time once that client's
    bucket is empty; no grant runs and nothing is stored. *)
Theorem failed_authentication_charged (rq : Request) (s s1 : AppState) (g d cid : string)
    (l : Limiter.TokenBucketLimiter) :
  form_get "grant_type" rq = Some g -> mem_str g known_grant_types = true ->
  authenticate config rq (mtls_headers rq config) s = (Err (invalid_client d), s1) ->
  extract_client_id_for_penalty rq = Ok (Some cid) -> cid <> EmptyString ->
  a_invalid_client_limiter s1 = Some l ->
  let '(verdict, l') := Limiter.check (a_mono s1) (a_wall s1) cid l in
  exists s',
    token cbn_ config rq s
    = (Ok (if Limiter.rl_allowed verdict then oauth_error400 "invalid_client" d
           else too_many_requests (default 0 (Limiter.rl_retry_after verdict))), s')
    /\ a_store s' = a_store s /\ a_invalid_client_limiter s' = Some l'
    /\ a_failed_authentications s' = a_failed_authentications s1 + 1
    /\ a_tokens_issued s' = a_tokens_issued s1.
Proof.
  intros Hg Hk Ha Hx Hne Hl.
  destruct (Limiter.check (a_mono s1) (a_wall s1) cid l) as [v l'] eqn:Hc.
  assert (truthy g = true) as Hgt by (apply truthy_true; intros ->; done).
  pose proof (store_after _ _ _ _ (quiet_authenticate config rq (mtls_headers rq config)) Ha) as Hst.
  unfold token. rewrite Hg. change (truthy_o (Some g)) with (truthy g). rewrite Hgt. cbn [negb default from_option id]. rewrite Hk. cbn [negb].
  unfold try_. rewrite Ha. cbn [auth_failed invalid_client].
  change (String.eqb "invalid_client" "invalid_client") with true.
  unfold invalid_client_response, count_failed_authentication, sbind, slift, sget, smod, sret.
  rewrite Hx. cbn [a_invalid_client_limiter with_counters]. rewrite Hl. change (truthy_o (Some cid)) with (truthy cid).
  apply truthy_true in Hne. rewrite Hne. cbn [a_mono a_wall with_counters default from_option id].
  rewrite Hc. eexists. split; [by destruct (Limiter.rl_allowed v)|]. by rewrite <- Hst.
Qed.
End penalty.

(** ** Witnesses *)
Lemma authenticate_sound_witness :
  exists s', authenticate (toy_config true) refresh_request
               (mtls_headers refresh_request (toy_config true)) (toy_state false false)
             = (Ok (toy_client "web" "client_secret_post" "s3cret"), s')
  /\ authenticated (toy_config true) refresh_request (mtls_headers refresh_request (toy_config true)) (toy_state false false)
       (toy_client "web" "client_secret_post" "s3cret").
Proof.
  eexists. split; [vm_compute; reflexivity|].
  apply (authenticate_sound (toy_config true) refresh_request (toy_state false false)
    (snd (authenticate (toy_config true) refresh_request
            (mtls_headers refresh_request (toy_config true)) (toy_state false false)))).
  vm_compute. reflexivity.
Defined.

Lemma unknown_client_uniform_witness :
  authenticate (toy_config true) (form_request [("client_id", "ghost")]) (None, None) (toy_state false false)
  = (Err (invalid_client unknown_or_disabled_client_message), toy_state false false).
Proof.
  apply (unknown_client_uniform (toy_config true) (form_request [("client_id", "ghost")]) (None, None)
    (toy_state false false) "ghost" None); [vm_compute; reflexivity|done|].
  vm_compute. discriminate.
Defined.

Lemma failed_authentication_charged_witness :
  exists s', token toy_brackets (toy_config true) bad_secret_request (toy_state false false)
             = (Ok (oauth_error400 "invalid_client" "invalid client secret"), s')
             /\ a_failed_authentications s' = 1.
Proof.
  pose proof (failed_authentication_charged toy_brackets (toy_config true) bad_secret_request
    (toy_state false false)
    (snd (authenticate (toy_config true) bad_secret_request
            (mtls_headers bad_secret_request (toy_config true)) (toy_state false false)))
    "client_credentials" "invalid client secret" "web" (Limiter.new_limiter 1 60)
    ltac:(vm_compute; reflexivity) ltac:(vm_compute; reflexivity) ltac:(vm_compute; reflexivity)
    ltac:(vm_compute; reflexivity) ltac:(discriminate) ltac:(vm_compute; reflexivity)) as Hw.
  vm_compute in Hw. destruct Hw as (s' & Ht & _ & _ & Hf & _). exists s'. split; [|exact Hf].
  vm_compute. exact Ht.
Defined.
