(* ===== verification/AuthorizeProps.v ===== *)
(** * What the authorization endpoint guarantees

    [trusted] is what the handler knows before anything is sent to the
    redirect URI; [code_justified] what it knows of a code it stored. *)
From S2P Require Import Prelude PyStr PyJson Codec Models Storage PyUrl Limits TtlStores Keys Jwt App.
From S2P Require Import Tokens ClientAuth TokenEndpoint PyInt Redirects Jar Authorize.
From S2P Require Import TokenLemmas AuthProps ToyJwt.
#[local] Open Scope Z_scope.

(** One bind whose early return a run passes. *)
Lemma bind_go {A B} (m : M (averdict A)) (k : A -> M (averdict B)) s b s' :
  sbind m (fun v => match v with ADone r => sret (ADone r) | AGo a => k a end) s = (Ok (AGo b), s') ->
  exists a s1, m s = (Ok (AGo a), s1) /\ k a s1 = (Ok (AGo b), s').
Proof. unfold sbind. destruct (m s) as [[[r|a]|e] s1]; [by unfold sret| |done]. eauto. Qed.

Ltac go_step H :=
  let E := fresh "E" in
  apply bind_go in H as (? & ? & E & H).

Section authorize.
Context `{JwtLib} `{Runtime} `{Http}.
Context (cbn_ : string -> bool) (config : Config).

Notation deliver_error := (deliver_error cbn_ config).
Notation resolve_request := (resolve_request cbn_ config).
Notation check_params := (check_params cbn_ config).
Notation check_session := (check_session cbn_ config).

(** ** Nothing is stored before the code *)
Lemma quiet_jar client jwt url : quiet (process_jar client jwt url).
Proof. unfold process_jar, decode_signed_jar. pose proof quiet_resolve. quiet_walk. Qed.
Lemma timeless_jar client jwt url : timeless (process_jar client jwt url).
Proof. unfold process_jar, decode_signed_jar. pose proof timeless_resolve. timeless_walk. Qed.
Lemma reads_deliver_exn {A} r pick e m : deliver_exn (A:=A) cbn_ config r pick e = Some m -> reads m.
Proof.
  unfold deliver_exn. destruct (pick e); [|done]. intros [= <-]. apply reads_bind; [apply reads_lift|].
  intros; apply reads_ret.
Qed.
Lemma reads_invalid {A} r error d : reads (invalid (A:=A) cbn_ config r error d).
Proof. apply reads_bind; [apply reads_lift|]. intros; apply reads_ret. Qed.

(** Walks through the branches of a [reads] goal. *)
Ltac reads_walk :=
  repeat first
    [ progress intros
    | match goal with
      | |- reads (if ?b then _ else _) => destruct b
      | |- reads (match ?x with _ => _ end) => destruct x
      end
    | apply reads_invalid | apply reads_lift | apply reads_ret | apply reads_get | apply reads_query
    | apply reads_bind | apply reads_try
    | solve [eauto using reads_deliver_exn] ].

Lemma reads_params r : reads (check_params r).
Proof. unfold Authorize.check_params, check_details, check_claims. reads_walk. Qed.
Lemma reads_session rq r : reads (check_session rq r).
Proof. unfold Authorize.check_session. reads_walk. Qed.

(** An exception answered with an error page. *)
Lemma reads_page {A} e (m : M (averdict A)) :
  option_map (fun r => sret (ADone r)) (oauth_error_page e) = Some m -> reads m.
Proof. destruct (oauth_error_page e); [|done]. by intros [= <-]. Qed.
Lemma quiet_resolve_par rq : quiet (resolve_par rq).
Proof. unfold resolve_par. quiet_walk. Qed.
Lemma quiet_resolve_client rq : quiet (resolve_client rq).
Proof. unfold resolve_client. quiet_walk. Qed.
Lemma quiet_resolve_jar rq client merged : quiet (resolve_jar config rq client merged).
Proof.
  unfold resolve_jar. destruct (query_map rq !! "request"); [|done].
  apply quiet_try; [apply quiet_jar|intros; by eapply quiet_reads, reads_page|]. quiet_walk.
Qed.
Lemma quiet_resolve_request rq : quiet (resolve_request rq).
Proof.
  unfold Authorize.resolve_request. pose proof quiet_resolve_par. pose proof quiet_resolve_client.
  pose proof quiet_resolve_jar.
  quiet_walk. apply quiet_try; [done|intros; by eapply quiet_reads, reads_page|done].
Qed.
Lemma timeless_resolve_par rq : timeless (resolve_par rq).
Proof. unfold resolve_par. timeless_walk. Qed.
Lemma timeless_resolve_jar rq client merged : timeless (resolve_jar config rq client merged).
Proof.
  unfold resolve_jar. destruct (query_map rq !! "request"); [|done].
  apply timeless_try; [apply timeless_jar|intros; by eapply timeless_reads, reads_page|]. timeless_walk.
Qed.
Lemma reads_resolve_client rq : reads (resolve_client rq).
Proof. unfold resolve_client. reads_walk. Qed.
Lemma timeless_resolve_request rq : timeless (resolve_request rq).
Proof.
  unfold Authorize.resolve_request. pose proof timeless_resolve_par. pose proof timeless_resolve_jar.
  pose proof (fun rq => timeless_reads _ (reads_resolve_client rq)).
  timeless_walk. by eapply timeless_reads, reads_page.
Qed.

(** ** The redirect URI is trusted *)
Record trusted (rq : AuthorizeRequest) (s : AppState) (r : Resolved) : Prop := {
  ts_single : has_duplicate [] (aq_items rq) = false;
  ts_client : exists client_id, query_map rq !! "client_id" = Some client_id
    /\ get_client client_id (a_store s) = Some (rs_client r)
    /\ check_subject_denylisted (a_wall s) "client_id" client_id (a_store s) = None;
  ts_enabled : c_enabled (rs_client r) = true;
  ts_state : c_require_state (rs_client r) = true -> is_Some (query_map rq !! "state");
  ts_uri : is_registered_uri cbn_ (rs_client r) (rs_redirect_uri r) = Ok true;
  ts_mode : exists requested, resolve_response_mode requested (rs_hybrid r) = Ok (rs_mode r);
  ts_jar_type : rs_has_jar r = true ->
    from_option_b (fun t => mem_str t supported_response_types) (rs_response_type r) = true;
  ts_pushed : forall u, query_map rq !! "request_uri" = Some u -> exists e,
    fst (Par.take (a_mono s) u (a_par_store s)) = Some e
    /\ query_map rq !! "client_id" = Some (Par.p_client_id e)
}.

Lemma resolve_par_go rq s merged s1 : resolve_par rq s = (Ok (AGo merged), s1) ->
  forall u, query_map rq !! "request_uri" = Some u -> exists e,
    fst (Par.take (a_mono s) u (a_par_store s)) = Some e
    /\ query_map rq !! "client_id" = Some (Par.p_client_id e).
Proof.
  unfold resolve_par, take_par. intros Hr u Hu. rewrite Hu in Hr. unfold sbind in Hr.
  destruct (Par.take _ u _) as [[e|] st]; [|done]. exists e. split; [done|].
  destruct (query_map rq !! "client_id") as [c|]; cbn [from_option_b] in Hr; [|done].
  destruct (String.eqb_spec (Par.p_client_id e) c) as [->|]; done.
Qed.
Lemma resolve_client_go rq s client s1 : resolve_client rq s = (Ok (AGo client), s1) ->
  (exists client_id, query_map rq !! "client_id" = Some client_id
    /\ get_client client_id (a_store s) = Some client
    /\ check_subject_denylisted (a_wall s) "client_id" client_id (a_store s) = None)
  /\ c_enabled client = true
  /\ (c_require_state client = true -> is_Some (query_map rq !! "state")).
Proof.
  unfold resolve_client. intros Hr. repeat tok_step Hr; tok_clean; simplify_eq; b2p;
    (split; [by eexists|split; [done|]]).
  intros Hrs. rewrite Hrs in *. b2p. by destruct (query_map rq !! "state").
Qed.

Lemma resolve_jar_go rq client merged s m jm s1 :
  resolve_jar config rq client merged s = (Ok (AGo (m, jm)), s1) -> is_Some (query_map rq !! "request") ->
  from_option_b (fun t => mem_str t supported_response_types) (m !! "response_type") = true.
Proof.
  unfold resolve_jar. intros Hr [j Hj]. rewrite Hj in Hr. unfold try_ in Hr.
  destruct (process_jar _ _ _ s) as [[claims|e] s2]; [|by destruct (oauth_error_page e)].
  destruct (from_option_b _ (merge_jar _ _ !! "response_type")) eqn:Ht; cbn [negb] in Hr; [|done].
  by injection Hr as <- <- <-.
Qed.

Lemma resolve_request_go rq s r s1 : resolve_request rq s = (Ok (AGo r), s1) -> trusted rq s r.
Proof.
  unfold Authorize.resolve_request. intros Hr.
  destruct (has_duplicate [] (aq_items rq)) eqn:Hd; [by simplify_eq|].
  go_step Hr. go_step Hr. apply bind_go in Hr as ([merged jar_mode] & s4 & E2 & Hr).
  apply bind_ok in Hr as (registered & s5 & Hreg & Hr).
  destruct registered; cbn [negb] in Hr; [|by simplify_eq].
  destruct (truthy_o (merged !! "redirect_uri")); [|done].
  unfold slift in Hreg. injection Hreg as Hreg <-.
  set (mode := if truthy_o jar_mode then _ else _) in Hr.
  unfold try_, slift in Hr. destruct (resolve_response_mode mode _) as [m|e] eqn:Hm; cbn [fst] in Hr.
  2:{ destruct (oauth_error_page e); by simplify_eq. }
  unfold sret in Hr. simplify_eq.
  destruct (resolve_client_go _ _ _ _ E0) as ((cid & Hc1 & Hc2 & Hc3) & Hen & Hst).
  pose proof (quiet_resolve_par rq s) as Hq. rewrite E in Hq.
  pose proof (timeless_resolve_par rq s) as Ht. rewrite E in Ht. injection Ht as Hw _ _.
  cbn [snd] in Hq, Hw.
  constructor; cbn [rs_client rs_redirect_uri rs_mode rs_response_type]; try done.
  - exists cid. by rewrite <- Hq, <- Hw.
  - by exists mode.
  - cbn [rs_has_jar]. intros Hj. rewrite Hj. apply bool_decide_eq_true in Hj. by eapply resolve_jar_go.
  - by eapply resolve_par_go.
Qed.

(** ** The parameters and the session *)
Record checked (r : Resolved) (p : Params) : Prop := {
  pc_grant : allows_grant json_limit (rs_client r) "authorization_code" = Ok true;
  pc_type : rs_has_jar r = false ->
    from_option_b (fun t => mem_str t supported_response_types) (rs_response_type r) = true;
  pc_nonce : pa_nonce p = rs_merged r !! "nonce" /\ (rs_hybrid r = true -> truthy_o (pa_nonce p) = true);
  pc_scope : scope_is_subset (pa_scope p) (c_scope (rs_client r)) = true;
  pc_pkce : pa_method p = Some "S256" /\ challenge_length_ok (pa_challenge p) = true
    /\ rs_merged r !! "code_challenge" = Some (pa_challenge p);
  pc_details : pa_details p = rs_merged r !! "authorization_details"
    /\ forall raw, pa_details p = Some raw ->
        is_ok (validate_authorization_details json_limit raw (rar_types_supported config)) = true;
  pc_resource : validate_resource cbn_ (rs_merged r !! "resource") = Ok (pa_resource p);
  pc_claims : forall raw, pa_claims p = Some raw -> claims_object raw = Ok true;
  pc_jkt : pa_jkt p = rs_merged r !! "dpop_jkt" /\ forall j, pa_jkt p = Some j -> is_dpop_jkt j = true
}.

Lemma invalid_not_go {A} r error d s (a : A) s1 : invalid cbn_ config r error d s <> (Ok (AGo a), s1).
Proof. unfold invalid, sbind. by destruct (deliver_error r error (Some d) s) as [[p|e] s2]. Qed.
Lemma deliver_exn_not_go {A} r pick e m s (a : A) s1 : deliver_exn cbn_ config r pick e = Some m ->
  m s <> (Ok (AGo a), s1).
Proof.
  unfold deliver_exn. destruct (pick e) as [[er d]|]; [|done]. intros [= <-]. unfold sbind.
  by destruct (deliver_error _ _ _ s) as [[p|e'] s2].
Qed.

(** One guard that refuses through the redirect channel. *)
Ltac pass_guard H E :=
  match type of H with
  | (if ?b then _ else _) _ = _ => destruct b eqn:E; [by apply invalid_not_go in H|]
  end.

Lemma check_details_go r details s s1 : check_details cbn_ config r details s = (Ok (AGo tt), s1) ->
  forall raw, details = Some raw ->
  is_ok (validate_authorization_details json_limit raw (rar_types_supported config)) = true.
Proof.
  unfold check_details. intros Hr raw ->. unfold try_, slift in Hr.
  destruct (validate_authorization_details _ raw _) as [l|e]; [done|].
  destruct (deliver_exn _ _ _ _ e) eqn:He; [|done]. by eapply deliver_exn_not_go in Hr.
Qed.
Lemma check_claims_go r claims s s1 : check_claims cbn_ config r claims s = (Ok (AGo tt), s1) ->
  forall raw, claims = Some raw -> claims_object raw = Ok true.
Proof.
  unfold check_claims. intros Hr raw ->. unfold try_, slift in Hr.
  destruct (claims_object raw) as [[]|e]; [done|by apply invalid_not_go in Hr|].
  destruct (deliver_exn _ _ _ _ e) eqn:He; [|done]. by eapply deliver_exn_not_go in Hr.
Qed.

Lemma check_params_go r s p s1 : check_params r s = (Ok (AGo p), s1) -> checked r p.
Proof.
  unfold Authorize.check_params. intros Hr.
  apply bind_ok in Hr as (granted & s2 & Hg & Hr). unfold slift in Hg. injection Hg as Hg <-.
  pass_guard Hr E1. pass_guard Hr E2. pass_guard Hr E3. pass_guard Hr E4. pass_guard Hr E5. pass_guard Hr E6. pass_guard Hr E7.
  apply bind_go in Hr as ([] & s3 & Hdet & Hr).
  unfold try_, slift in Hr. destruct (validate_resource _ _) as [resource|e] eqn:Hres.
  2:{ destruct (deliver_exn _ _ _ _ e) eqn:He; [|done]. by eapply deliver_exn_not_go in Hr. }
  apply bind_go in Hr as ([] & s4 & Hcl & Hr). pass_guard Hr E8.
  unfold sret in Hr. injection Hr as <- <-. b2p. subst.
  constructor; cbn [pa_nonce pa_scope pa_method pa_challenge pa_details pa_resource pa_claims pa_jkt]; try done.
  - intros Hj. rewrite Hj in E2. simpl in E2. by b2p.
  - split; [done|]. intros Hh. rewrite Hh in E3. simpl in E3. by b2p.
  - destruct (rs_merged r !! "code_challenge_method") as [m|]; [|done]. cbn [from_option_b] in E6.
    apply String.eqb_eq in E6 as <-. split; [done|]. split; [done|].
    by destruct (rs_merged r !! "code_challenge").
  - split; [done|]. by eapply check_details_go.
  - by eapply check_claims_go.
  - split; [done|]. intros j Hj. rewrite Hj in E8. by b2p.
Qed.

Record signed_in (rq : AuthorizeRequest) (r : Resolved) (s : AppState) (user_id : string) : Prop := {
  si_user : se_user_id (aq_session rq) = Some user_id;
  si_recent : auth_expired (a_wall s) (query_map rq !! "max_age") (se_auth_time (aq_session rq)) = false;
  si_prompt : force_login (prompt_values rq) = false;
  si_acr : forall v, rs_merged r !! "acr_values" = Some v ->
    exists a, se_acr (aq_session rq) = Some a /\ In a (py_split v)
}.
Lemma check_session_go rq r s uid s1 : check_session rq r s = (Ok (AGo uid), s1) -> signed_in rq r s uid.
Proof.
  unfold Authorize.check_session. intros Hr. pass_guard Hr E1. unfold sbind at 1 in Hr. cbn [sget] in Hr.
  destruct (se_user_id _) as [u|] eqn:Hu.
  - destruct (_ || _) eqn:Hl.
    + pass_guard Hr E2. unfold sbind in Hr. by destruct (slift _ s) as [[?|?] ?].
    + pass_guard Hr E2. unfold sret in Hr. injection Hr as -> <-. b2p. constructor; try done.
      intros v Hv. rewrite Hv in E2. b2p. destruct (se_acr _) as [a|]; [|done]. cbn [from_option_b] in E2.
      exists a. split; [done|]. by apply mem_str_In.
  - pass_guard Hr E2. unfold sbind in Hr. by destruct (slift _ s) as [[?|?] ?].
Qed.

(** ** The code *)
Lemma issue_code_ok client uid uri scope ch m n d res cl jkt s code s' :
  issue_code config client uid uri scope ch m n d res cl jkt s = (Ok code, s') ->
  a_store s' = on_codes (fun l => l ++ [code]) (a_store s) /\ a_wall s' = a_wall s
  /\ (forall c, In c (authorization_codes (a_store s)) -> ac_code c <> ac_code code)
  /\ code = mkCode (uuid4_hex (a_draws s)) (token_urlsafe (S (a_draws s))) (c_client_id client) uid uri scope
       (a_wall s) (plus_secs (a_wall s) (authorization_code_ttl_secs config)) false ch m n res d cl
       (Some (uuid4_hex (S (S (a_draws s))))) jkt.
Proof.
  intros Hi. unfold issue_code in Hi. run_simpl Hi. unfold draw, insert, save_authorization_code in Hi.
  cbn [a_store with_draws a_wall a_draws] in Hi. destruct (existsb _ _) eqn:Hx; [done|].
  injection Hi as <- <-. split; [done|]. split; [done|]. split; [|done].
  intros c Hc Heq. eapply existsb_false in Hx; [|done]. b2p. done.
Qed.

(** A code the handler stored, and what the response says of it. *)
Record code_justified (rq : AuthorizeRequest) (s : AppState) (r : Resolved) (p : Params)
    (code : AuthorizationCode) : Prop := {
  cj_trusted : trusted rq s r;
  cj_checked : checked r p;
  cj_signed_in : signed_in rq r s (ac_user_id code);
  cj_bound : ac_client_id code = c_client_id (rs_client r)
    /\ ac_redirect_uri code = rs_redirect_uri r /\ ac_scope code = pa_scope p
    /\ ac_code_challenge code = Some (pa_challenge p) /\ ac_code_challenge_method code = pa_method p
    /\ ac_nonce code = pa_nonce p /\ ac_resource code = pa_resource p
    /\ ac_authorization_details code = pa_details p /\ ac_dpop_jkt code = pa_jkt p;
  cj_fresh : ac_used code = false
    /\ ac_expires_at code = plus_secs (a_wall s) (authorization_code_ttl_secs config)
    /\ (forall c, In c (authorization_codes (a_store s)) -> ac_code c <> ac_code code)
}.
Definition reports (r : Resolved) (code : AuthorizationCode) (resp : authz_response) : Prop :=
  (exists status error description, resp = ErrorPage status error description)
  \/ exists id_token, success_response cbn_ (rs_mode r) (rs_redirect_uri r) (ac_code code) (rs_state r)
                         (issuer config) id_token = Ok resp
       /\ (id_token <> None -> rs_hybrid r = true /\ in_scope "openid" (ac_scope code) = true).

Lemma authorized_reports r code idt s resp s' :
  authorized cbn_ config r code idt s = (Ok resp, s') ->
  (idt <> None -> rs_hybrid r = true /\ in_scope "openid" (ac_scope code) = true) ->
  reports r code resp /\ s' = s.
Proof.
  unfold authorized, slift, rcatch. intros Hr Hidt.
  destruct (success_response _ _ _ _ _ _ _) as [x|e] eqn:Hs.
  - injection Hr as <- <-. split; [|done]. right. by exists idt.
  - destruct e; simplify_eq/=. split; [|done]. left. by do 3 eexists.
Qed.

Lemma grant_code_ok rq r p uid s resp s' : grant_code cbn_ config rq r p uid s = (Ok resp, s') ->
  exists code, ac_user_id code = uid /\ reports r code resp
    /\ a_store s' = on_codes (fun l => l ++ [code]) (a_store s)
    /\ (forall c, In c (authorization_codes (a_store s)) -> ac_code c <> ac_code code)
    /\ exists id v f, code = mkCode id v (c_client_id (rs_client r)) uid (rs_redirect_uri r) (pa_scope p)
         (a_wall s) (plus_secs (a_wall s) (authorization_code_ttl_secs config)) false (Some (pa_challenge p))
         (pa_method p) (pa_nonce p) (pa_resource p) (pa_details p) (pa_claims p) f (pa_jkt p).
Proof.
  unfold grant_code. intros Hr.
  apply bind_ok in Hr as (code & s1 & Hi & Hr). apply issue_code_ok in Hi as (Hst & Hw & Hnew & Hcode).
  unfold sbind at 1, count_code_issued, smod in Hr. cbv beta iota in Hr.
  unfold sbind at 1, emit_event, smod in Hr. cbv beta iota in Hr.
  assert (reports r code resp /\ a_store s' = a_store s1) as [Hrep Hs'].
  { destruct (_ && _) eqn:Hh.
    - unfold try_ in Hr.
      set (s2 := with_events _ _) in Hr.
      assert (reads (hybrid_id_token config rq (rs_client r) code)) as Hrd
        by (unfold hybrid_id_token; reads_walk).
      specialize (Hrd s2). destruct (hybrid_id_token _ _ _ _ s2) as [[t|e] s3]; cbn [snd] in Hrd; subst s3.
      + apply authorized_reports in Hr as [Hr ->]; [done|]. intros _. by b2p.
      + destruct (is_value_error e); [|done]. unfold sret in Hr. injection Hr as <- <-.
        split; [|done]. left. by do 3 eexists.
    - by apply authorized_reports in Hr as [Hr ->]. }
  exists code. split; [by rewrite Hcode|]. split; [done|]. split; [by rewrite Hs'|]. split; [done|].
  do 3 eexists. exact Hcode.
Qed.

(** ** Where a response goes *)
(** A page of the server's own, or the redirect channel of [r]. *)
Definition contained (r : Resolved) (resp : authz_response) : Prop :=
  match resp with
  | ErrorPage _ _ _ | LoginRedirect _ _ => True
  | _ => exists params, deliver cbn_ (rs_mode r) (rs_redirect_uri r) params = Ok resp
  end.
Definition contained_v {A} (r : Resolved) (v : averdict A) : Prop :=
  match v with ADone p => contained r p | AGo _ => True end.
Definition is_page (resp : authz_response) : Prop :=
  match resp with ErrorPage _ _ _ => True | _ => False end.
Definition page_v {A} (v : averdict A) : Prop := match v with ADone p => is_page p | AGo _ => True end.

Lemma reports_contained r code resp : reports r code resp -> contained r resp.
Proof.
  intros [(st & er & d & ->)|(idt & Hs & _)]; [done|]. unfold success_response in Hs.
  destruct resp; try done; by eexists.
Qed.
Lemma contained_error r error d : returns (contained r) (deliver_error r error d).
Proof.
  intros s resp s1. unfold Authorize.deliver_error, slift, rcatch.
  destruct (error_response _ _ _ _ _ _ _) as [x|e] eqn:He; intros Hr.
  - injection Hr as <- <-. unfold error_response in He. destruct x; try done; by eexists.
  - destruct e; simplify_eq/=. done.
Qed.
Lemma contained_invalid {A} r error d : returns (contained_v r) (invalid (A:=A) cbn_ config r error d).
Proof. eapply returns_bind; [apply contained_error|]. intros p Hp. by apply returns_ret. Qed.
Lemma contained_exn {A} r pick e m : deliver_exn (A:=A) cbn_ config r pick e = Some m ->
  returns (contained_v r) m.
Proof.
  unfold deliver_exn. destruct (pick e); [|done]. intros [= <-].
  eapply returns_bind; [apply contained_error|]. intros q Hq. by apply returns_ret.
Qed.

(** Walks through the branches of a [returns] goal about verdicts. *)
Ltac returns_walk :=
  repeat first
    [ progress intros
    | match goal with
      | |- returns _ (if ?b then _ else _) => destruct b
      | |- returns _ (match ?x with _ => _ end) => destruct x
      end
    | apply contained_invalid
    | by apply returns_ret
    | solve [eauto using contained_exn]
    | apply returns_try
    | match goal with
      | |- returns _ (sbind (check_details _ _ ?r _) _) => apply (returns_bind (contained_v r))
      | |- returns _ (sbind (check_claims _ _ ?r _) _) => apply (returns_bind (contained_v r))
      | |- returns _ (sbind _ _) => apply (returns_bind (fun _ => True)); [done|]
      end ].
Lemma contained_details r d : returns (contained_v r) (check_details cbn_ config r d).
Proof. unfold check_details. returns_walk. Qed.
Lemma contained_claims r c : returns (contained_v r) (check_claims cbn_ config r c).
Proof. unfold check_claims. returns_walk. Qed.
Lemma contained_params r : returns (contained_v r) (check_params r).
Proof.
  unfold Authorize.check_params. pose proof contained_details. pose proof contained_claims. returns_walk.
Qed.
Lemma contained_session rq r : returns (contained_v r) (check_session rq r).
Proof. unfold Authorize.check_session. returns_walk. Qed.

Lemma page_exn {A} e (m : M (averdict A)) :
  option_map (fun r => sret (ADone r)) (oauth_error_page e) = Some m -> returns page_v m.
Proof. destruct e; try done. intros [= <-]. by apply returns_ret. Qed.
Ltac page_walk :=
  repeat first
    [ progress intros
    | match goal with
      | |- returns _ (if ?b then _ else _) => destruct b
      | |- returns _ (match ?x with _ => _ end) => destruct x
      end
    | by apply returns_ret
    | solve [eauto using page_exn]
    | apply returns_try
    | match goal with
      | |- returns _ (sbind (resolve_par _) _) => apply (returns_bind page_v)
      | |- returns _ (sbind (resolve_client _) _) => apply (returns_bind page_v)
      | |- returns _ (sbind (resolve_jar _ _ _ _) _) => apply (returns_bind page_v)
      | |- returns _ (sbind _ _) => apply (returns_bind (fun _ => True)); [done|]
      end ].
Lemma page_par rq : returns page_v (resolve_par rq).
Proof. unfold resolve_par. page_walk. Qed.
Lemma page_client rq : returns page_v (resolve_client rq).
Proof. unfold resolve_client. page_walk. Qed.
Lemma page_jar rq client merged : returns page_v (resolve_jar config rq client merged).
Proof. unfold resolve_jar. page_walk. Qed.
Lemma page_request rq : returns page_v (resolve_request rq).
Proof.
  unfold Authorize.resolve_request. pose proof page_par. pose proof page_client. pose proof page_jar.
  page_walk.
Qed.

(** The stages of a run that returns. *)
Lemma authorize_stages rq s resp s' : authorize cbn_ config rq s = (Ok resp, s') ->
  (is_page resp /\ a_store s' = a_store s)
  \/ exists r, trusted rq s r /\ contained r resp
      /\ (a_store s' = a_store s \/ exists p uid s1, checked r p /\ signed_in rq r s uid
            /\ a_store s1 = a_store s /\ a_wall s1 = a_wall s
            /\ grant_code cbn_ config rq r p uid s1 = (Ok resp, s')).
Proof.
  unfold authorize. intros Hr. apply bind_ok in Hr as (v & s1 & Hres & Hr).
  pose proof (quiet_resolve_request rq s) as Hst. pose proof (timeless_resolve_request rq s) as Hw.
  rewrite Hres in Hst, Hw. cbn [snd] in Hst, Hw. injection Hw as Hw _ _.
  destruct v as [page|r].
  { apply page_request in Hres. unfold sret in Hr. injection Hr as <- <-. by left. }
  right. exists r. pose proof Hres as Htr. apply resolve_request_go in Htr. split; [done|].
  apply bind_ok in Hr as (v & s2 & Hp & Hr).
  pose proof (reads_params r s1) as Hst2. rewrite Hp in Hst2. cbn [snd] in Hst2. subst s2.
  destruct v as [page|p].
  { apply contained_params in Hp. unfold sret in Hr. injection Hr as <- <-. split; [done|]. by left. }
  apply bind_ok in Hr as (v & s2 & Hs & Hr).
  pose proof (reads_session rq r s1) as Hst3. rewrite Hs in Hst3. cbn [snd] in Hst3. subst s2.
  destruct v as [page|uid].
  { apply contained_session in Hs. unfold sret in Hr. injection Hr as <- <-. split; [done|]. by left. }
  split.
  { destruct (grant_code_ok _ _ _ _ _ _ _ Hr) as (code & _ & Hrep & _). by eapply reports_contained. }
  right. exists p, uid, s1. split; [by eapply check_params_go|]. split; [|done].
  apply check_session_go in Hs. destruct Hs. constructor; try done. by rewrite <- Hw.
Qed.

Lemma stored_code rq s resp s' : authorize cbn_ config rq s = (Ok resp, s') ->
  a_store s' = a_store s
  \/ exists r p code, code_justified rq s r p code /\ reports r code resp
      /\ a_store s' = on_codes (fun l => l ++ [code]) (a_store s).
Proof.
  intros Hr. destruct (authorize_stages _ _ _ _ Hr)
    as [[_ Hs]|(r & Htr & _ & [Hs|(p & uid & s1 & Hp & Hsi & Hst & Hw & Hg)])]; [by left|by left|right].
  destruct (grant_code_ok _ _ _ _ _ _ _ Hg) as (code & Hu & Hrep & Hs' & Hnew & i & v & f & Hcode).
  rewrite Hst in *. exists r, p, code. split; [|done].
  rewrite Hcode in *. cbn [ac_user_id] in *. constructor; try done. cbn. by rewrite Hw.
Qed.


(** C8: Whatever the request, what the endpoint sends through a redirect or an
    auto-submitted form goes to a redirect URI registered by the enabled
    client the request names; before that URI is trusted every answer is a
    page of the server's own. *)
Theorem authorize_redirects_trusted rq s resp s' : authorize cbn_ config rq s = (Ok resp, s') ->
  is_page resp \/ exists r, trusted rq s r /\ contained r resp.
Proof.
  intros Hr. destruct (authorize_stages _ _ _ _ Hr) as [[? _]|(r & ? & ? & _)]; eauto.
Qed.

Lemma check_pkce_verified trq code challenge verifier : ac_code_challenge code = Some challenge ->
  challenge <> EmptyString -> form_get "code_verifier" trq = Some verifier ->
  MIN_VERIFIER_LEN <= py_len verifier <= MAX_VERIFIER_LEN -> pkce_challenge verifier = challenge ->
  check_pkce trq code = None.
Proof.
  intros Hc Hne Hv [Hl Hu] Hm. unfold check_pkce. rewrite Hc, Hv. cbn [default from_option id].
  change (truthy_o (Some challenge)) with (truthy challenge).
  change (truthy_o (Some verifier)) with (truthy verifier).
  assert (truthy challenge = true) as -> by by apply truthy_true.
  assert (truthy verifier = true) as -> by (apply truthy_true; intros ->; cbn in Hl; unfold MIN_VERIFIER_LEN in Hl; lia).
  apply Z.leb_le in Hl, Hu. rewrite Hl, Hu. unfold pkce_matches. by rewrite Hm, String.eqb_refl.
Qed.
Lemma challenge_not_empty c : challenge_length_ok c = true -> c <> EmptyString.
Proof. intros Hl ->. done. Qed.
Lemma stored_details r p : checked r p -> exists d, parse_details config (pa_details p) = Ok d.
Proof.
  intros [_ _ _ _ _ [_ Hd] _ _ _]. unfold parse_details. destruct (pa_details p) as [raw|]; [|by eexists].
  specialize (Hd raw eq_refl). destruct (validate_authorization_details _ _ _) as [l|]; [|done].
  by exists (Some l).
Qed.

(** The checks of the token endpoint let through the client of [code] when
    nothing else ran since [s'] and the code still lives. *)
Definition redeemable_by_holder (r : Resolved) (p : Params) (code : AuthorizationCode) (s' : AppState) : Prop :=
  forall trq verifier s2, a_store s2 = a_store s' -> a_wall s2 <= ac_expires_at code ->
  ac_code code <> EmptyString ->
  form_get "code" trq = Some (ac_code code) ->
  form_get "redirect_uri" trq = Some (rs_redirect_uri r) ->
  form_get "code_verifier" trq = Some verifier ->
  MIN_VERIFIER_LEN <= py_len verifier <= MAX_VERIFIER_LEN ->
  pkce_challenge verifier = pa_challenge p ->
  form_get "authorization_details" trq = None ->
  exists details, authorization_code_check config trq (rs_client r) s2 = (Ok (Go (code, details)), s2).

(** C9: The code the authorization endpoint stored can be redeemed: while it lives
    and nothing else ran in between, the checks of the token endpoint let
    through the client it was issued to when the form repeats the redirect URI
    and carries a verifier of the stored S256 challenge. *)
Theorem issued_code_redeemable rq s resp s' : authorize cbn_ config rq s = (Ok resp, s') ->
  a_store s' <> a_store s -> exists r p code, code_justified rq s r p code /\ reports r code resp
  /\ redeemable_by_holder r p code s'.
Proof.
  intros Hr Hne. destruct (stored_code _ _ _ _ Hr) as [|(r & p & code & Hcj & Hrep & Hs')]; [done|].
  exists r, p, code. split; [done|]. split; [done|]. destruct Hcj as [_ Hp _ Hb Hf].
  destruct Hb as (Hbc & Hbu & _ & Hch & _ & _ & _ & Hbd & _). destruct Hf as (Hun & _ & Hnew).
  intros trq verifier s2 Hs2 Hexp Hv Hfc Hfr Hfv Hvl Hpk Hfd.
  destruct (stored_details r p Hp) as [details Hd]. exists details.
  unfold authorization_code_check, sbind, slift. rewrite (pc_grant _ _ Hp). cbn [negb]. rewrite Hfc.
  change (truthy_o (Some (ac_code code))) with (truthy (ac_code code)).
  assert (truthy (ac_code code) = true) as -> by by apply truthy_true.
  unfold query, sget. rewrite Hs2, Hs'. cbn [default from_option id].
  assert (get_authorization_code (ac_code code) (on_codes (fun l => l ++ [code]) (a_store s)) = Some code) as ->.
  { unfold get_authorization_code. cbn [authorization_codes on_codes].
    rewrite find_app_none; [cbn [List.find]; by rewrite String.eqb_refl|].
    destruct (List.find _ _) as [c|] eqn:Hf; [|done]. apply find_In in Hf as [Hin Hc].
    apply String.eqb_eq in Hc. by destruct (Hnew c Hin). }
  rewrite Hbc, String.eqb_refl. cbn [negb]. apply Z.ltb_ge in Hexp. rewrite Hexp, Hun, Hfr, Hfd.
  rewrite (check_pkce_verified trq code (pa_challenge p) verifier); try done;
    [|by apply challenge_not_empty, (pc_pkce _ _ Hp)].
  rewrite Hbu, Hbd. cbn [from_option_b]. rewrite !String.eqb_refl. cbn [negb]. unfold try_.
  destruct (pa_details p); rewrite Hd; done.
Qed.
End authorize.

(** ** The toy server *)
Definition toy_authorize_request (session : Session) : AuthorizeRequest := {|
  aq_items := [("client_id", "spa"); ("response_type", "code"); ("redirect_uri", "https://app.example/cb");
               ("scope", "read"); ("code_challenge", toy_challenge); ("code_challenge_method", "S256");
               ("state", "xyz")];
  aq_path := "/oauth/authorize"; aq_query := "client_id=spa&prompt=login&state=xyz"; aq_session := session
|}.
Definition toy_session : Session := mkSession (Some "u-1") (Some 90) None (Some ["pwd"]).
Definition toy_authorize (session : Session) : result exn authz_response * AppState :=
  authorize toy_brackets (toy_config true) (toy_authorize_request session) (toy_state false false).

Example toy_authorize_redirect : fst (toy_authorize toy_session)
  = Ok (RedirectTo "https://app.example/cb?code=tok1&state=xyz&iss=https%3A%2F%2Fas.example").
Proof. compute_done. Qed.
Example toy_authorize_login : fst (toy_authorize (mkSession None None None None))
  = Ok (LoginRedirect "/oauth/authorize?client_id=spa&state=xyz" 100).
Proof. compute_done. Qed.

Definition toy_location : authz_response :=
  RedirectTo "https://app.example/cb?code=tok1&state=xyz&iss=https%3A%2F%2Fas.example".
Lemma authorize_redirects_trusted_witness :
  is_page toy_location
  \/ exists r, trusted toy_brackets (toy_authorize_request toy_session) (toy_state false false) r
      /\ contained toy_brackets r toy_location.
Proof.
  apply (authorize_redirects_trusted toy_brackets (toy_config true) (toy_authorize_request toy_session)
           (toy_state false false) toy_location (snd (toy_authorize toy_session))).
  vm_compute. reflexivity.
Defined.
Lemma issued_code_redeemable_witness : exists r p code,
  code_justified toy_brackets (toy_config true) (toy_authorize_request toy_session) (toy_state false false) r p code
  /\ reports toy_brackets (toy_config true) r code toy_location
  /\ redeemable_by_holder (toy_config true) r p code (snd (toy_authorize toy_session)).
Proof.
  apply (issued_code_redeemable toy_brackets (toy_config true) (toy_authorize_request toy_session)
           (toy_state false false) toy_location (snd (toy_authorize toy_session))).
  - vm_compute. reflexivity.
  - intros Heq. apply (f_equal (fun st => length (authorization_codes st))) in Heq.
    vm_compute in Heq. discriminate.
Defined.
