(* ===== verification/DeviceProps.v ===== *)
(** * The device flow from end to end *)
From S2P Require Import Prelude PyStr PyJson Codec Models Storage StoreSpec PyUrl TtlStores Keys Jwt App.
From S2P Require Import Tokens Dpop ClientAuth TokenEndpoint Redirects Authorize DeviceFlow.
From S2P Require Import TokenLemmas AuthProps ToyJwt.
#[local] Open Scope Z_scope.

Section device.
Context `{JwtLib} `{Runtime} `{Http}.
Context (cbn_ : string -> bool) (config : Config).

Lemma quiet_random_chars k : quiet (random_chars k).
Proof. induction k as [|k IH]; [done|]. cbn [random_chars]. quiet_walk. Qed.
Lemma timeless_random_chars k : timeless (random_chars k).
Proof. induction k as [|k IH]; [done|]. cbn [random_chars]. timeless_walk. Qed.
Lemma quiet_user_code : quiet generate_user_code.
Proof. unfold generate_user_code, random_part. pose proof quiet_random_chars. quiet_walk. Qed.

(** ** The request for a code *)
Record requested (client : Client) (s s1 : AppState) (d : DeviceAuthorization) : Prop := {
  rqd_grant : allows_grant json_limit client device_code_grant = Ok true;
  rqd_client : d_client_id d = c_client_id client;
  rqd_scope : scope_is_subset (d_scope d) (c_scope client) = true;
  rqd_fresh : d_expires_at d = plus_secs (a_wall s) EXPIRES_IN;
  rqd_undecided : d_used d = false /\ d_approved d = false /\ d_denied d = false /\ d_user_id d = None;
  rqd_interval : d_interval_seconds d = INTERVAL;
  rqd_stored : a_store s1 = on_devices (fun l => l ++ [d]) (a_store s);
  rqd_new : forall x, In x (device_authorizations (a_store s)) ->
    d_device_code x <> d_device_code d /\ d_user_code x <> d_user_code d
}.

Lemma save_device_ok d s u s1 : insert (save_device_authorization d) s = (Ok u, s1) ->
  a_store s1 = on_devices (fun l => l ++ [d]) (a_store s)
  /\ forall x, In x (device_authorizations (a_store s)) ->
      d_device_code x <> d_device_code d /\ d_user_code x <> d_user_code d.
Proof.
  unfold insert, save_device_authorization. destruct (existsb _ _) eqn:Hx; [done|]. intros [= _ <-].
  split; [done|]. intros x Hin. eapply existsb_false in Hx; [|done]. by b2p.
Qed.
Lemma device_scope_ok rq client scope : device_scope rq client = Some scope ->
  scope_is_subset scope (c_scope client) = true.
Proof.
  unfold device_scope. destruct (truthy _); [|intros [= <-]; apply scope_is_subset_refl].
  destruct (scope_is_subset _ _) eqn:Hss; [|done]. by intros [= <-].
Qed.
Lemma device_authorization_ok rq client s r s1 : device_authorization_for config rq client s = (Ok r, s1) ->
  a_store s1 = a_store s \/ exists d, r = device_response config d /\ requested client s s1 d.
Proof.
  unfold device_authorization_for. intros Hr.
  apply bind_ok in Hr as (allowed & s2 & Hg & Hr). unfold slift in Hg. injection Hg as Hg <-.
  destruct allowed; cbn [negb] in Hr; [|left; by injection Hr as _ <-].
  destruct (device_scope rq client) as [scope|] eqn:Hsc; [|left; by injection Hr as _ <-].
  apply device_scope_ok in Hsc.
  apply bind_ok in Hr as (now & s3 & Hn & Hr). unfold sget in Hn. injection Hn as <- <-.
  apply bind_ok in Hr as (id & s4 & Hid & Hr).
  assert (a_store s4 = a_store s) as Hs4 by (unfold draw in Hid; by injection Hid as _ <-). clear Hid.
  apply bind_ok in Hr as (device_code & s5 & Hdc & Hr).
  assert (a_store s5 = a_store s) as Hs5 by (unfold draw in Hdc; by injection Hdc as _ <-). clear Hdc.
  apply bind_ok in Hr as (code & s6 & Hc & Hr).
  pose proof (store_after _ _ _ _ quiet_user_code Hc) as Hs6. rewrite Hs5 in Hs6. clear Hc.
  apply bind_ok in Hr as (u & s7 & Hi & Hr). unfold sret in Hr. injection Hr as <- <-.
  right. eexists. split; [reflexivity|]. apply save_device_ok in Hi as [Hi1 Hi2]. rewrite Hs6 in Hi1, Hi2.
  by constructor.
Qed.

(** ** The user's decision *)
Definition approved_by (uid : string) (d : DeviceAuthorization) : DeviceAuthorization :=
  set_device_flags true false (d_used d) (Some uid) (d_expires_at d) d.

Lemma device_verify_approves session uid raw d s : se_user_id session = Some uid -> raw <> EmptyString ->
  get_device_authorization_by_user_code (normalize_user_code raw) (a_store s) = Some d ->
  undecided (a_wall s) d = true ->
  device_verify session (Some raw) (Some "approve") s
  = (Ok (json_status "approved"),
     with_store s (approve_device_authorization (normalize_user_code raw) uid (a_store s))).
Proof.
  intros Hu Hne Hget Hun. unfold device_verify. rewrite Hu. change (truthy_o (Some raw)) with (truthy raw).
  apply truthy_true in Hne. rewrite Hne. cbn [negb default from_option id].
  unfold sbind, query, sget. by rewrite Hget, Hun.
Qed.

(** The endpoint decides for the signed-in user only, and only once. *)
Inductive verified (session : Session) (raw action : option string) (s : AppState) : response -> Store -> Prop :=
| verify_refused r : r_status r <> 200 -> verified session raw action s r (a_store s)
| verify_decided uid code d approve :
    se_user_id session = Some uid -> raw = Some code ->
    get_device_authorization_by_user_code (normalize_user_code code) (a_store s) = Some d ->
    undecided (a_wall s) d = true ->
    action = Some (if approve : bool then "approve" else "deny") ->
    verified session raw action s (json_status (if approve then "approved" else "denied"))
      (if approve then approve_device_authorization (normalize_user_code code) uid (a_store s)
       else deny_device_authorization (normalize_user_code code) (a_store s)).

(** C16: The verification endpoint decides a device authorization only for a
    signed-in user, only while it is pending and unexpired, only as the user
    asked, and in the user's name; every other request is refused and changes
    no row, so a decision is final. *)
Theorem device_verify_sound session raw action s r s' : device_verify session raw action s = (Ok r, s') ->
  verified session raw action s r (a_store s').
Proof.
  unfold device_verify. intros Hr.
  destruct (se_user_id session) as [uid|] eqn:Hu; [|injection Hr as <- <-; by apply verify_refused].
  destruct raw as [code|]; [|injection Hr as <- <-; by apply verify_refused].
  destruct (truthy_o (Some code)); cbn [negb default from_option id] in Hr;
    [|injection Hr as <- <-; by apply verify_refused].
  unfold sbind at 1 in Hr. cbn [query sget] in Hr. unfold sbind at 1 in Hr. cbn [sget] in Hr.
  destruct (get_device_authorization_by_user_code _ _) as [d|] eqn:Hd;
    [|injection Hr as <- <-; by apply verify_refused].
  destruct (undecided (a_wall s) d) eqn:Hun; cbn [negb] in Hr; [|injection Hr as <- <-; by apply verify_refused].
  destruct action as [a|]; cbn [from_option_b] in Hr; [|injection Hr as <- <-; by apply verify_refused].
  destruct (String.eqb_spec "approve" a) as [<-|_].
  { run_simpl Hr. unfold update in Hr. injection Hr as <- <-.
    by apply (verify_decided session (Some code) (Some "approve") s uid code d true). }
  destruct (String.eqb_spec "deny" a) as [<-|_]; [|injection Hr as <- <-; by apply verify_refused].
  run_simpl Hr. unfold update in Hr. injection Hr as <- <-.
  by apply (verify_decided session (Some code) (Some "deny") s uid code d false).
Qed.

Lemma find_device_code d l : (forall x, In x l -> d_device_code x <> d_device_code d) ->
  List.find (fun r => String.eqb (d_device_code r) (d_device_code d)) (l ++ [d]) = Some d.
Proof.
  intros Hn. rewrite find_app_none; [cbn [List.find]; by rewrite String.eqb_refl|].
  destruct (List.find _ l) as [x|] eqn:Hf; [|done]. apply find_In in Hf as [Hin Hx]. apply String.eqb_eq in Hx.
  by destruct (Hn x Hin).
Qed.
Lemma find_user_code d l : (forall x, In x l -> d_user_code x <> d_user_code d) ->
  List.find (fun r => String.eqb (d_user_code r) (d_user_code d)) (l ++ [d]) = Some d.
Proof.
  intros Hn. rewrite find_app_none; [cbn [List.find]; by rewrite String.eqb_refl|].
  destruct (List.find _ l) as [x|] eqn:Hf; [|done]. apply find_In in Hf as [Hin Hx]. apply String.eqb_eq in Hx.
  by destruct (Hn x Hin).
Qed.

Lemma approved_device d st uid code : d_user_code d = code ->
  (forall x, In x (device_authorizations st) -> d_device_code x <> d_device_code d) ->
  get_device_authorization_by_device_code (d_device_code (approved_by uid d))
    (approve_device_authorization code uid (on_devices (fun l => l ++ [d]) st)) = Some (approved_by uid d).
Proof.
  intros <- Hn. unfold get_device_authorization_by_device_code, approve_device_authorization.
  change (device_authorizations (on_devices ?f (on_devices ?g ?s))) with (f (g (device_authorizations s))).
  rewrite find_update_where by done. change (d_device_code (approved_by uid d)) with (d_device_code d).
  rewrite find_device_code by done. by rewrite String.eqb_refl.
Qed.

(** An approved device passes the checks of the token endpoint. *)
Lemma device_check_passes trq client d s : allows_grant json_limit client device_code_grant = Ok true ->
  form_get "device_code" trq = Some (d_device_code d) -> d_device_code d <> EmptyString ->
  form_get "resource" trq = None ->
  get_device_authorization_by_device_code (d_device_code d) (a_store s) = Some d ->
  d_client_id d = c_client_id client -> a_wall s < d_expires_at d ->
  d_denied d = false -> d_used d = false -> d_approved d = true ->
  fst (DevicePoll.observe (a_mono s) (d_device_code d) (d_interval_seconds d) (a_device_poll s)) = None ->
  exists s5, device_check cbn_ trq client s = (Ok (Go (d, None)), s5).
Proof.
  intros Hg Hf Hne Hres Hget Hc Hexp Hden Hun Happ Hpoll. unfold device_check, sbind, slift.
  rewrite Hg. cbn [negb]. rewrite Hf. change (truthy_o (Some (d_device_code d))) with (truthy (d_device_code d)).
  apply truthy_true in Hne. rewrite Hne. cbn [negb default from_option id]. unfold query, sget.
  rewrite Hget, Hc, String.eqb_refl. cbn [negb]. unfold observe_poll.
  destruct (DevicePoll.observe _ _ _ _) as [o m]. cbn [fst] in Hpoll. subst o.
  cbn [a_wall with_device_poll]. apply Z.leb_gt in Hexp. rewrite Hexp, Hden, Hun, Happ. cbn [negb].
  unfold requested_resource, try_, slift. rewrite Hres. cbn. by eexists.
Qed.

(** What the user and the device do next. *)
Definition completes (client : Client) (d : DeviceAuthorization) (s1 : AppState) : Prop :=
  forall session uid typed s2, se_user_id session = Some uid -> typed <> EmptyString ->
  normalize_user_code typed = d_user_code d -> a_store s2 = a_store s1 -> a_wall s2 < d_expires_at d ->
  exists s3, device_verify session (Some typed) (Some "approve") s2 = (Ok (json_status "approved"), s3)
  /\ forall trq s4, a_store s4 = a_store s3 -> a_wall s4 < d_expires_at d ->
     form_get "device_code" trq = Some (d_device_code d) -> d_device_code d <> EmptyString ->
     form_get "resource" trq = None ->
     fst (DevicePoll.observe (a_mono s4) (d_device_code d) INTERVAL (a_device_poll s4)) = None ->
     exists s5, device_check cbn_ trq client s4 = (Ok (Go (approved_by uid d, None)), s5).

(** The device flow completes: a device authorization that the endpoint issued
    to an authenticated client can be approved by any signed-in user who types
    its code before it expires, and from then on the token endpoint lets that
    client through, for that user and the scope asked for, when it polls in
    time and nothing else ran in between. *)
Theorem device_flow_completes rq s r s1 : device_authorization config rq s = (Ok r, s1) ->
  a_store s1 <> a_store s ->
  exists client d, authenticated config rq (mtls_headers rq config) s client
  /\ r = device_response config d /\ d_client_id d = c_client_id client
  /\ scope_is_subset (d_scope d) (c_scope client) = true /\ d_expires_at d = plus_secs (a_wall s) EXPIRES_IN
  /\ completes client d s1.
Proof.
  intros Hr Hne. unfold device_authorization, try_ in Hr.
  destruct (authenticate config rq (mtls_headers rq config) s) as [[client|e] s0] eqn:Ha;
    pose proof (store_after _ _ _ _ (quiet_authenticate config rq (mtls_headers rq config)) Ha) as Hs0.
  2:{ exfalso. apply Hne. destruct (reply on_oauth e) as [m|] eqn:He; [|by injection Hr].
      rewrite <- Hs0. by rewrite <- (quiet_reply _ _ _ He s0), Hr. }
  pose proof (timeless_authenticate config rq (mtls_headers rq config) s) as Hw. rewrite Ha in Hw.
  cbn [snd] in Hw. injection Hw as Hw _ _.
  destruct (device_authorization_ok _ _ _ _ _ Hr) as [Hs1|(d & Hresp & [Hg Hc Hsc Hf Hun Hint Hst Hnew])];
    [by rewrite Hs1, Hs0 in Hne|].
  exists client, d. split; [by eapply authenticate_ok|]. split; [done|]. split; [done|]. split; [done|].
  split; [by rewrite <- Hw|]. destruct Hun as (Hu1 & Hu2 & Hu3 & _).
  intros session uid typed s2 Hu Htyped Hnorm Hs2 Hexp.
  eexists. split.
  - apply (device_verify_approves session uid typed d); [done|done| |].
    + rewrite Hnorm, Hs2, Hst. apply find_user_code. intros x Hx. by apply Hnew.
    + unfold undecided. rewrite Hu1, Hu2, Hu3. cbn. by apply negb_true_iff, Z.leb_gt.
  - intros trq s4 Hs4 Hexp4 Hform Hdne Hres Hpoll.
    eapply (device_check_passes trq client (approved_by uid d)); try done; [|by rewrite <- Hint in Hpoll].
    rewrite Hs4, Hs2, Hst. apply approved_device; [done|]. intros x Hx. by apply Hnew.
Qed.
End device.

(** ** The toy server *)
Definition device_start_request : Request := form_request
  [("client_id", "web"); ("client_secret", "s3cret"); ("scope", "read")].
Definition toy_device_start : result exn response * AppState :=
  device_authorization (toy_config true) device_start_request (toy_state false false).
Definition toy_device_response : response :=
  match fst toy_device_start with Ok r => r | Err _ => mkResponse 0 JNull [] end.
Definition toy_device_session : Session := mkSession (Some "u-1") (Some 90) None (Some ["pwd"]).
(** The code as issued is typed in lower case, without its dash. *)
Definition typed_code : string := "dfghjklm".

Example device_issued : get_str "user_code" (match r_body toy_device_response with JObj m => m | _ => [] end)
  = Some (normalize_user_code typed_code).
Proof. compute_done. Qed.

Lemma device_verify_sound_witness :
  verified toy_device_session (Some typed_code) (Some "approve") (snd toy_device_start) (json_status "approved")
    (a_store (snd (device_verify toy_device_session (Some typed_code) (Some "approve") (snd toy_device_start)))).
Proof. apply device_verify_sound. vm_compute. reflexivity. Defined.
Lemma device_flow_completes_witness : exists client d,
  authenticated (toy_config true) device_start_request (mtls_headers device_start_request (toy_config true))
    (toy_state false false) client
  /\ toy_device_response = device_response (toy_config true) d /\ d_client_id d = c_client_id client
  /\ scope_is_subset (d_scope d) (c_scope client) = true
  /\ d_expires_at d = plus_secs (a_wall (toy_state false false)) EXPIRES_IN
  /\ completes toy_brackets client d (snd toy_device_start).
Proof.
  apply (device_flow_completes toy_brackets (toy_config true) device_start_request (toy_state false false)).
  - vm_compute. reflexivity.
  - intros Heq. apply (f_equal (fun st => length (device_authorizations st))) in Heq.
    vm_compute in Heq. discriminate.
Defined.
