(* ===== verification/Pushed.v ===== *)
(** * Pushed authorization requests ([routes/par.py], RFC 9126) *)
From S2P Require Import Prelude PyStr PyJson Codec Models Storage StoreSpec PyUrl Redirects TtlStores Keys Jwt App Tokens ClientAuth TokenEndpoint Authorize ToyJwt TokenLemmas AuthProps.
#[local] Open Scope Z_scope.

(** A request with its raw body. *)
Record ParRequest := mkParRequest {
  pq_body : string;
  pq_headers : gmap string string
}.

Definition stripped_keys : list string := ["client_secret"; "client_assertion"; "client_assertion_type"].
Definition par_error (status : Z) (error description : string) : response :=
  mkResponse status (JObj [("error", JStr error); ("error_description", JStr description)])
    [("Cache-Control", "no-store")].

(** [{k: v for k, v in params.items() if k not in _STRIPPED_KEYS}] *)
Definition stored_params (params : gmap string string) : gmap string string :=
  filter (fun kv : string * string => mem_str kv.1 stripped_keys = false) params.

(** The parameters of the body; [None]: one is repeated. *)
Definition par_params (body : string) : option (gmap string string) :=
  let items := parse_qsl body in
  if has_duplicate [] items then None else Some (list_to_map items).

Section par.
Context `{JwtLib} `{Runtime} `{Http}.
Context (config : Config).

(** The request as client authentication sees it. *)
Definition par_request (pq : ParRequest) (params : gmap string string) : Request :=
  mkRequest params (pq_headers pq) None.

Definition push (client_id : string) (params : gmap string string) : M string :=
  let! uuid := draw uuid4_str in
  fun s => let '(request_uri, st) := Par.store (a_mono s) uuid client_id params (a_par_store s) in
           (Ok request_uri, with_par_store s st).

Definition par_created (request_uri : string) : response :=
  mkResponse 201 (JObj [("request_uri", JStr request_uri); ("expires_in", JInt 60)])
    [("Cache-Control", "no-store")].

Definition par (pq : ParRequest) : M response :=
  if negb (utf8_valid (pq_body pq))
  then sret (par_error 400 "invalid_request" "Invalid PAR request body encoding") else
  match par_params (pq_body pq) with
  | None => sret (par_error 400 "invalid_request" "Duplicate parameter in PAR request")
  | Some params =>
      if negb (truthy_o (params !! "client_id"))
      then sret (par_error 400 "invalid_request" "Missing client_id in PAR request") else
      if negb (truthy_o (params !! "response_type"))
      then sret (par_error 400 "invalid_request" "Missing response_type in PAR request") else
      let rq := par_request pq params in
      try_ (authenticate config rq (mtls_headers rq config)) (reply on_oauth) (fun _ =>
      let! request_uri := push (default EmptyString (params !! "client_id")) (stored_params params) in
      sret (par_created request_uri))
  end.
End par.

(** ** A pushed authorization request comes back, once, to the client that pushed it *)

(** ** Maps *)
Lemma merge_keys_lookup (keys : list string) (params pushed : gmap string string) k :
  fold_right (fun k m => match pushed !! k with Some v => <[k := v]> m | None => m end) params keys !! k
  = if mem_str k keys then match pushed !! k with Some v => Some v | None => params !! k end else params !! k.
Proof.
  induction keys as [|a keys IH]; [done|]. cbn [fold_right mem_str existsb]. fold (mem_str k keys).
  destruct (String.eqb_spec k a) as [->|Hn]; cbn [orb].
  - destruct (pushed !! a) as [v|]; [by rewrite lookup_insert_eq|]. rewrite IH. by destruct (mem_str a keys).
  - destruct (pushed !! a); [rewrite lookup_insert_ne by done|]; apply IH.
Qed.
Lemma merge_par_lookup params pushed k : merge_par params pushed !! k
  = if mem_str k par_merge_keys then match pushed !! k with Some v => Some v | None => params !! k end
    else params !! k.
Proof. apply merge_keys_lookup. Qed.

Lemma stored_params_lookup params k :
  stored_params params !! k = if mem_str k stripped_keys then None else params !! k.
Proof.
  unfold stored_params. rewrite map_lookup_filter. destruct (params !! k) as [v|]; [|by destruct (mem_str _ _)].
  change ((k, v).1) with k. destruct (mem_str k stripped_keys) eqn:Hk.
  all: unfold fst; rewrite Hk; done.
Qed.

(** ** The store *)
Lemma take_stored now now' uuid cid params st : now <= now' ->
  let '(uri, st) := Par.store now uuid cid params st in
  fst (Par.take now' uri st)
  = if now' - now <? Par.PAR_TTL_SECS * NS then Some (Par.mkPar cid params now) else None.
Proof.
  intros Ht. cbn. unfold Par.par_sweep_expired. rewrite sweep_lookup, lookup_insert_eq. cbn.
  unfold Par.par_live. cbn. destruct (Z.leb_spec (Par.PAR_TTL_SECS * NS) (now' - now)),
    (Z.ltb_spec (now' - now) (Par.PAR_TTL_SECS * NS)); (done || lia).
Qed.
Lemma take_twice now now' uri st : fst (Par.take now' uri (snd (Par.take now uri st))) = None.
Proof. cbn. unfold Par.par_sweep_expired. by rewrite sweep_lookup, lookup_delete_eq. Qed.

Lemma merged_not_stripped k : mem_str k par_merge_keys = true -> mem_str k stripped_keys = false.
Proof.
  intros Hk. apply mem_str_In in Hk. apply negb_true_iff. revert k Hk. by apply forallb_forall.
Qed.

Section pushed.
Context `{JwtLib} `{Runtime} `{Http}.
Context (config : Config).

(** The identity that authenticates is the [client_id] of the form. *)
Lemma presented_form_id rq cid secret c : presented_credentials rq = Ok (Some cid, secret) ->
  form_get "client_id" rq = Some c -> c <> EmptyString -> cid = c.
Proof.
  unfold presented_credentials. intros Hp Hc Hne. rewrite Hc in Hp. apply truthy_true in Hne.
  cbn [truthy_o from_option_b] in Hp. rewrite Hne in Hp. cbn [andb] in Hp.
  destruct (parse_basic_auth _) as [[[i p]|]|]; cbn [rbind] in Hp; [| |done].
  - destruct (String.eqb_spec i c) as [->|]; cbn [negb] in Hp; [|done].
    destruct (truthy_o _ && _) in Hp; [done|]. cbn [rbind truthy_o from_option_b] in Hp. rewrite Hne in Hp.
    cbn [negb rbind] in Hp. by injection Hp.
  - cbn [truthy_o from_option_b] in Hp. rewrite Hne in Hp. cbn in Hp. by injection Hp.
Qed.

Definition resolves_to (m : gmap string string) (rq : AuthorizeRequest) (s : AppState) : Prop :=
  fst (resolve_par rq s) = Ok (AGo m).
Definition refused_par (rq : AuthorizeRequest) (s : AppState) : Prop :=
  exists page, fst (resolve_par rq s) = Ok (ADone page).

(** What a pushed request is worth at the authorization endpoint from then on. *)
Definition honoured (uri cid : string) (params : gmap string string) (s s1 : AppState) : Prop :=
  forall rq s2, query_map rq !! "request_uri" = Some uri -> a_par_store s2 = a_par_store s1 ->
  a_mono s <= a_mono s2 ->
  (if (a_mono s2 - a_mono s <? Par.PAR_TTL_SECS * NS)
      && from_option_b (String.eqb cid) (query_map rq !! "client_id")
   then resolves_to (merge_par (query_map rq) (stored_params params)) rq s2
   else refused_par rq s2)
  /\ forall rq' s3, query_map rq' !! "request_uri" = Some uri ->
     a_par_store s3 = a_par_store (snd (resolve_par rq s2)) -> refused_par rq' s3.

Lemma push_honoured cid params s uri s1 s0 : push cid (stored_params params) s0 = (Ok uri, s1) ->
  a_mono s0 = a_mono s -> honoured uri cid params s s1.
Proof.
  unfold push, draw, sbind. intros Hp Hm. cbn beta iota in Hp. cbn [a_mono with_draws a_par_store] in Hp.
  rewrite Hm in Hp. destruct (Par.store _ _ _ _ _) as [u st] eqn:Hst. injection Hp as <- <-.
  intros rq s2 Hu Hs2 Hmono. cbn [a_par_store with_par_store] in Hs2.
  pose proof (take_stored (a_mono s) (a_mono s2) (uuid4_str (a_draws s0)) cid (stored_params params)
                (a_par_store s0) Hmono) as Ht. rewrite Hst, <- Hs2 in Ht.
  pose proof (fun now' => take_twice (a_mono s2) now' u (a_par_store s2)) as Htw.
  unfold resolves_to, refused_par, resolve_par, take_par. rewrite Hu.
  destruct (Par.take (a_mono s2) u (a_par_store s2)) as [o st2] eqn:Htk. cbn [fst snd] in Ht, Htw. subst o.
  split.
  - unfold sbind. rewrite Htk. destruct (_ <? _); cbn [andb]; [|by eexists]. cbn [Par.p_client_id Par.p_params].
    destruct (from_option_b _ _); cbn [negb]; [done|by eexists].
  - intros rq' s3 Hu' Hs3. rewrite Hu'.
    assert (a_par_store s3 = st2) as Hs3'.
    { rewrite Hs3. unfold sbind. rewrite Htk. destruct (_ <? _); [|done]. cbn [Par.p_client_id].
      by destruct (from_option_b _ _). }
    unfold sbind. specialize (Htw (a_mono s3)). rewrite <- Hs3' in Htw.
    destruct (Par.take (a_mono s3) u (a_par_store s3)) as [o st3]. cbn [fst] in Htw. subst o. by eexists.
Qed.

(** The PAR endpoint stores a request only for a client that authenticated, under
    the client_id it authenticated with and without its credentials, and
    answers with a request_uri that the authorization endpoint honours: within
    60 seconds, for that client_id, the pushed parameters replace those of the
    query, once; for every other client_id, after 60 seconds, or a second
    time, it is refused. *)
Theorem pushed_request_honoured pq s r s1 : par config pq s = (Ok r, s1) -> error_of r = None ->
  exists params client uri,
    par_params (pq_body pq) = Some params
    /\ authenticated config (par_request pq params) (mtls_headers (par_request pq params) config) s client
    /\ r = par_created uri
    /\ (forall k, In k stripped_keys -> stored_params params !! k = None)
    /\ (forall k v q, In k par_merge_keys -> params !! k = Some v ->
          merge_par q (stored_params params) !! k = Some v)
    /\ honoured uri (c_client_id client) params s s1.
Proof.
  unfold par. destruct (utf8_valid _); cbn [negb]; [|by intros [= <- _]].
  destruct (par_params (pq_body pq)) as [params|]; [|by intros [= <- _]].
  destruct (truthy_o (params !! "client_id")) eqn:Hid; cbn [negb]; [|by intros [= <- _]].
  destruct (truthy_o (params !! "response_type")); cbn [negb]; [|by intros [= <- _]].
  set (rq := par_request pq params). unfold try_. intros Hr Hst.
  destruct (authenticate config rq (mtls_headers rq config) s) as [[client|e] s0] eqn:Ha.
  2:{ destruct e; try done. cbn [reply on_oauth option_map] in Hr. by injection Hr as <- _. }
  pose proof (timeless_authenticate config rq (mtls_headers rq config) s) as Hw. rewrite Ha in Hw.
  cbn [snd] in Hw. injection Hw as _ Hmono _.
  apply authenticate_ok in Ha. apply truthy_o_true in Hid as (c & Hc & Hne). rewrite Hc in Hr.
  apply bind_ok in Hr as (uri & s2 & Hp & Hr). injection Hr as <- <-.
  exists params, client, uri. split; [done|]. split; [done|]. split; [done|].
  split; [|split].
  - intros k Hk. rewrite stored_params_lookup. apply mem_str_In in Hk. by rewrite Hk.
  - intros k v q Hk Hv. rewrite merge_par_lookup, stored_params_lookup. apply mem_str_In in Hk. rewrite Hk.
    by rewrite merged_not_stripped, Hv.
  - destruct (au_named _ _ _ _ _ Ha) as (cid & secret & Hpres & Hget).
    apply (presented_form_id rq cid secret c Hpres) in Hc as ->; [|done].
    apply find_In in Hget as [_ Hget]. apply String.eqb_eq in Hget as ->. by eapply push_honoured.
Qed.
End pushed.

(** ** The toy server *)
Definition toy_push : ParRequest :=
  mkParRequest "client_id=web&client_secret=s3cret&response_type=code&scope=read&state=a%20b" ∅.
Definition toy_pushed : result exn response * AppState := par (toy_config true) toy_push (toy_state false false).
Example toy_push_created : fst toy_pushed = Ok (par_created (Par.request_uri_of "uuid0")).
Proof. compute_done. Qed.
Lemma pushed_request_honoured_witness :
  exists params client uri,
    par_params (pq_body toy_push) = Some params
    /\ authenticated (toy_config true) (par_request toy_push params)
         (mtls_headers (par_request toy_push params) (toy_config true)) (toy_state false false) client
    /\ par_created (Par.request_uri_of "uuid0") = par_created uri
    /\ (forall k, In k stripped_keys -> stored_params params !! k = None)
    /\ (forall k v q, In k par_merge_keys -> params !! k = Some v ->
          merge_par q (stored_params params) !! k = Some v)
    /\ honoured uri (c_client_id client) params (toy_state false false) (snd toy_pushed).
Proof.
  apply (pushed_request_honoured (toy_config true) toy_push (toy_state false false)); [|done].
  vm_compute. reflexivity.
Defined.
