(* ===== verification/LoginProps.v ===== *)
(** * Sign-in is sound, says nothing about accounts, and is bounded *)
From S2P Require Import Prelude PyStr PyJson Codec Models Storage StoreSpec PyUrl TtlStores Keys Jwt App.
From S2P Require Import Tokens ClientAuth Redirects Authorize Login ToyJwt.
#[local] Open Scope Z_scope.

(** ** The limiter and the steps of a login *)
Section login.
Context `{JwtLib} `{Runtime} `{Http}.
Context (config : Config).

(** Two keys of different kinds, or of different users, are different. *)
Lemma ip_not_user rq rq' : ip_key rq <> user_key rq'.
Proof. unfold ip_key, user_key. by cbn. Qed.
Lemma user_key_inj rq rq' : user_key rq = user_key rq' -> lq_username rq = lq_username rq'.
Proof. unfold user_key. intros Heq. cbn in Heq. by injection Heq. Qed.

Definition throttle_at (now : Z) (rq : LoginRequest) (l : FixedWindow.FixedWindowLimiter)
  : option Z * FixedWindow.FixedWindowLimiter :=
  let '(o, l) := FixedWindow.check now (ip_key rq) l in
  match o with None => FixedWindow.check now (user_key rq) l | Some r => (Some r, l) end.
Lemma throttle_run rq s : throttle rq s
  = (Ok (fst (throttle_at (a_mono s) rq (a_login_limiter s))),
     with_login_limiter s (snd (throttle_at (a_mono s) rq (a_login_limiter s)))).
Proof.
  unfold throttle, throttle_at, check_login, sbind.
  destruct (FixedWindow.check (a_mono s) (ip_key rq) (a_login_limiter s)) as [[r|] l]; [done|].
  cbn [a_mono a_login_limiter with_login_limiter]. by destruct (FixedWindow.check _ _ l) as [o l2].
Qed.

(** What a login can come to after the throttle let it through. *)
Inductive examined (rq : LoginRequest) (s : AppState) : result exn LoginReply -> AppState -> Prop :=
| examined_raised e : examined rq s (Err e) s
| examined_failed :
    examined rq s (Ok login_failed)
      (with_counters s (a_failed_authentications s + 1) (a_tokens_issued s) (a_codes_issued s) (a_tokens_revoked s))
| examined_signed_in user :
    get_user_by_username (lq_username rq) (a_store s) = Some user -> u_enabled user = true ->
    verify_password (lq_password rq) (u_password_hash user) = Ok true ->
    check_subject_denylisted (a_wall s) "username" (lq_username rq) (a_store s) = None ->
    check_subject_denylisted (a_wall s) "email" (u_email user) (a_store s) = None ->
    examined rq s
      (Ok (mkLoginReply (login_target (a_wall s) (lq_session rq)) None
             (Some (set_login (a_wall s) user (default_acr config) (Some ["pwd"])))))
      (with_login_limiter s (FixedWindow.reset (user_key rq) (a_login_limiter s))).

Lemma examine_cases rq s : examined rq s (fst (examine config rq s)) (snd (examine config rq s)).
Proof.
  unfold examine, sbind, query, sget.
  destruct (get_user_by_username _ _) as [user|] eqn:Hu; [|apply examined_failed].
  unfold slift, may_sign_in. destruct (u_enabled user) eqn:He; [|apply examined_failed].
  cbn [negb]. destruct (verify_password _ _) as [v|e] eqn:Hv; [|apply examined_raised]. cbn [rbind].
  destruct (v && _) eqn:Hok; [|apply examined_failed].
  apply andb_true_iff in Hok as [-> Hd]. apply negb_true_iff in Hd. unfold login_denied in Hd.
  destruct (check_subject_denylisted (a_wall s) "username" _ _) eqn:Hd1; [done|].
  apply bool_decide_eq_false, eq_None_not_Some in Hd.
  by apply (examined_signed_in rq s user).
Qed.

(** A login is the throttle and then the examination. *)
Lemma login_run_cases rq s : let '(o, l) := throttle_at (a_mono s) rq (a_login_limiter s) in
  let s1 := with_login_limiter s l in
  match o with
  | Some r => login config rq s
      = (Ok (login_throttled r),
         with_counters s1 (a_failed_authentications s + 1) (a_tokens_issued s) (a_codes_issued s) (a_tokens_revoked s))
  | None => login config rq s = examine config rq s1
  end.
Proof.
  destruct (throttle_at _ _ _) as [o l] eqn:Ht. cbn zeta.
  unfold login, sbind. rewrite throttle_run, Ht. cbn [fst snd]. by destruct o.
Qed.

(** ** Who gets signed in *)
Record login_justified (rq : LoginRequest) (s : AppState) (user : User) (ls : LoginSession) : Prop := {
  lj_user : get_user_by_username (lq_username rq) (a_store s) = Some user;
  lj_enabled : u_enabled user = true;
  lj_password : verify_password (lq_password rq) (u_password_hash user) = Ok true;
  lj_allowed : check_subject_denylisted (a_wall s) "username" (lq_username rq) (a_store s) = None
    /\ check_subject_denylisted (a_wall s) "email" (u_email user) (a_store s) = None;
  lj_within : fst (throttle_at (a_mono s) rq (a_login_limiter s)) = None;
  lj_session : ls = set_login (a_wall s) user (default_acr config) (Some ["pwd"])
}.
(** The page after the login: the root, or the path a recent request saved,
    which stays on this host. *)
Definition on_this_host (now : Z) (pending : PendingSession) (target : string) : Prop :=
  target = "/"
  \/ exists ts, pe_return_to pending = Some target /\ pe_return_to_ts pending = Some ts
      /\ now - ts * SECOND <= RETURN_TO_MAX_AGE_SECS * SECOND
      /\ py_startswith "/" (py_strip target) = true /\ py_startswith "//" (py_strip target) = false
      /\ py_contains_char "\" (py_strip target) = false.

Lemma login_target_safe now pending : on_this_host now pending (login_target now pending).
Proof.
  unfold login_target. destruct (_ && _) eqn:Hok; [right|by left].
  apply andb_true_iff in Hok as [Hts Hsafe]. destruct (pe_return_to_ts pending) as [ts|]; [|done].
  apply Z.leb_le in Hts. destruct (pe_return_to pending) as [t|]; [|done]. exists ts.
  cbn [is_safe_redirect] in Hsafe. destruct (truthy t); [|done]. cbn [negb] in Hsafe.
  destruct (py_startswith "/" _) eqn:H1'; [|done]. cbn [negb] in Hsafe.
  destruct (py_startswith "//" _) eqn:H2'; [done|]. by apply negb_true_iff in Hsafe.
Qed.

(** C18: A login changes no stored row; it signs a user in only as that user, when the
    account exists, is enabled and on no denylist, the password verifies and
    neither the address nor the name is throttled, with a session that holds
    nothing else; it then goes to the root or to the path a request saved at
    most ten minutes before, never to another host. Otherwise it keeps the
    session and answers one of two fixed redirects. *)
Theorem login_sound rq s r s' : login config rq s = (Ok r, s') ->
  a_store s' = a_store s
  /\ match lr_session r with
     | Some ls => exists user, login_justified rq s user ls /\ on_this_host (a_wall s) (lq_session rq) (lr_target r)
     | None => r = login_failed \/ exists retry, r = login_throttled retry
     end.
Proof.
  intros Hr. pose proof (login_run_cases rq s) as Hc.
  destruct (throttle_at (a_mono s) rq (a_login_limiter s)) as [o l] eqn:Ht. cbn zeta in Hc.
  destruct o as [retry|]; rewrite Hc in Hr.
  { injection Hr as <- <-. split; [done|]. right. by exists retry. }
  pose proof (examine_cases rq (with_login_limiter s l)) as He. rewrite Hr in He. cbn [fst snd] in He.
  inversion He as [|Hf Hs|user Hu Hen Hv Hd1 Hd2 Hf Hs].
  - split; [done|by left].
  - split; [done|]. exists user. split; [|apply login_target_safe].
    constructor; try done. by rewrite Ht.
Qed.

(** A refused login says nothing about the account: with the same address and
    user name, two refused attempts get the same answer and leave the same
    limiter and counters whatever the stored users and denylists are, whether
    the account exists, is disabled or denylisted or the password is wrong. *)
Theorem login_no_oracle rq rq' s st st' r r' s1 s1' :
  lq_client_host rq = lq_client_host rq' -> lq_username rq = lq_username rq' ->
  login config rq (with_store s st) = (Ok r, s1) -> login config rq' (with_store s st') = (Ok r', s1') ->
  lr_session r = None -> lr_session r' = None ->
  r = r' /\ with_store s1 st' = s1'.
Proof.
  intros Hh Hn Hr Hr' Hno Hno'.
  assert (throttle_at (a_mono s) rq' (a_login_limiter s) = throttle_at (a_mono s) rq (a_login_limiter s)) as Hth
    by (unfold throttle_at, ip_key, user_key; by rewrite Hh, Hn).
  pose proof (login_run_cases rq (with_store s st)) as Hc.
  pose proof (login_run_cases rq' (with_store s st')) as Hc'.
  change (a_mono (with_store s st)) with (a_mono s) in Hc.
  change (a_mono (with_store s st')) with (a_mono s) in Hc'.
  change (a_login_limiter (with_store s st)) with (a_login_limiter s) in Hc.
  change (a_login_limiter (with_store s st')) with (a_login_limiter s) in Hc'. rewrite Hth in Hc'. clear Hth.
  destruct (throttle_at _ _ _) as [o l]. cbn zeta in Hc, Hc'.
  destruct o as [retry|]; rewrite Hc in Hr; rewrite Hc' in Hr'.
  { injection Hr as <- <-. by injection Hr' as <- <-. }
  pose proof (examine_cases rq (with_login_limiter (with_store s st) l)) as He. rewrite Hr in He.
  pose proof (examine_cases rq' (with_login_limiter (with_store s st') l)) as He'. rewrite Hr' in He'.
  cbn [fst snd] in He, He'.
  inversion He as [|Hf Hs|user ? ? ? ? ? Hf Hs]; subst; [|done].
  inversion He' as [|Hf' Hs'|user' ? ? ? ? ? Hf' Hs']; subst; [|done]. done.
Qed.

(** ** Guessing is bounded *)
(** Attempts one after another, newest first, with the time of each; anything
    may happen in between, except to the limiter, which only logins touch. *)
Record attempt := mkAttempt { at_time : Z; at_request : LoginRequest; at_result : result exn LoginReply }.
Inductive login_run (s : AppState) : list attempt -> AppState -> Prop :=
| run_none : login_run s [] s
| run_login tr s1 s2 rq res s3 :
    login_run s tr s1 -> a_login_limiter s2 = a_login_limiter s1 -> a_mono s1 <= a_mono s2 ->
    login config rq s2 = (res, s3) -> login_run s (mkAttempt (a_mono s2) rq res :: tr) s3.

(** The password of [username] was tried, and did not sign in. *)
Definition examined_for (username : string) (a : attempt) : bool :=
  String.eqb (lq_username (at_request a)) username
  && match at_result a with Ok r => negb (bool_decide (is_Some (lr_retry_after r))) | Err _ => true end.
Definition signs_in (a : attempt) : bool :=
  match at_result a with Ok r => bool_decide (is_Some (lr_session r)) | Err _ => false end.
Definition no_success_for (username : string) (a : attempt) : Prop :=
  lq_username (at_request a) = username -> signs_in a = false.

(** The limiter and the answer of one login. *)
Lemma login_limiter rq s res s' : login config rq s = (res, s') ->
  a_mono s' = a_mono s /\
  let '(o, l) := throttle_at (a_mono s) rq (a_login_limiter s) in
  match o with
  | Some r => res = Ok (login_throttled r) /\ a_login_limiter s' = l
  | None => (a_login_limiter s' = l \/ signs_in (mkAttempt (a_mono s) rq res) = true
               /\ a_login_limiter s' = FixedWindow.reset (user_key rq) l)
      /\ match res with Ok r => lr_retry_after r = None | Err _ => True end
  end.
Proof.
  intros Hr. pose proof (login_run_cases rq s) as Hc.
  destruct (throttle_at _ _ _) as [o l]. cbn zeta in Hc.
  destruct o as [r|]; rewrite Hc in Hr; [by injection Hr as <- <-|].
  pose proof (examine_cases rq (with_login_limiter s l)) as He. rewrite Hr in He. cbn [fst snd] in He.
  inversion He; subst; (split; [done|]); (split; [|done]); [by left|by left|right].
  split; [|done]. by apply bool_decide_eq_true.
Qed.

Section bound.
Context (username : string) (s0 : AppState).
Let l0 := a_login_limiter s0.
Let key := "login:user:" +:+ username.
Let W := FixedWindow.window_secs l0.
Context (Hmax : 0 <= FixedWindow.max_attempts l0).
Context (Hfresh : live_at (FixedWindow.window_live W) (a_mono s0) (FixedWindow.windows l0 !! key) = None).

(** A limiter with [n] checks of the key since the start. *)
Record counted (now n : Z) (lim : FixedWindow.FixedWindowLimiter) : Prop := {
  cn_max : FixedWindow.max_attempts lim = FixedWindow.max_attempts l0;
  cn_secs : FixedWindow.window_secs lim = W;
  cn_time : a_mono s0 <= now < a_mono s0 + W * NS;
  cn_pos : 0 <= n;
  cn_window : FixedWindow.in_window l0 (a_mono s0) now n
    (live_at (FixedWindow.window_live W) now (FixedWindow.windows lim !! key))
}.
Lemma counted_config now k n lim : counted now n lim ->
  FixedWindow.max_attempts (snd (FixedWindow.check now k lim)) = FixedWindow.max_attempts l0
  /\ FixedWindow.window_secs (snd (FixedWindow.check now k lim)) = W.
Proof.
  intros [Hm Hw _ _ _]. destruct (FixedWindow.window_after_config [FixedWindow.Checked now k] lim) as [Ha Hb].
  by rewrite <- Hm, <- Hw.
Qed.
Lemma counted_later now now' n lim : counted now n lim -> now <= now' < a_mono s0 + W * NS -> counted now' n lim.
Proof.
  intros [Hm Hw Ht Hp Hin] Hle. constructor; [done|done|lia|done|].
  rewrite <- (live_at_twice _ (FixedWindow.window_live_mono _) now now') by lia.
  apply FixedWindow.in_window_later with now; (done || lia).
Qed.
Lemma counted_check now n lim : counted now n lim ->
  counted now (n + 1) (snd (FixedWindow.check now key lim))
  /\ (fst (FixedWindow.check now key lim) = None <-> n < FixedWindow.max_attempts l0).
Proof.
  intros Hc. destruct (counted_config now key n lim Hc) as [Hm' Hw']. destruct Hc as [Hm Hw Ht Hp Hin].
  split.
  - constructor; [done|done|done|lia|]. apply FixedWindow.in_window_later with now; [lia|fold W; lia|lia|].
    apply FixedWindow.check_window_after; fold W; try done; by destruct Ht.
  - destruct Ht. eapply FixedWindow.check_in_window; fold W; done.
Qed.
Lemma counted_other now k n lim : k <> key -> counted now n lim -> counted now n (snd (FixedWindow.check now k lim)).
Proof.
  intros Hk Hc. destruct (counted_config now k n lim Hc) as [Hm' Hw']. destruct Hc as [Hm Hw Ht Hp Hin].
  constructor; try done. rewrite FixedWindow.check_other, Hw by done.
  by rewrite (live_at_twice _ (FixedWindow.window_live_mono _)).
Qed.
Lemma counted_reset now k n lim : k <> key -> counted now n lim -> counted now n (FixedWindow.reset k lim).
Proof. intros Hk [Hm Hw Ht Hp Hin]. constructor; try done. cbn. by rewrite lookup_delete_ne. Qed.

(** One throttle: it counts the attempts of the user it lets through. *)
Lemma counted_throttle now rq n lim : counted now n lim ->
  let '(o, l) := throttle_at now rq lim in
  exists n', counted now n' l /\ n <= n'
  /\ (lq_username rq = username -> o = None -> n' = n + 1 /\ n < FixedWindow.max_attempts l0).
Proof.
  intros Hc. unfold throttle_at. apply (counted_other now (ip_key rq)) in Hc; [|by unfold ip_key].
  destruct (FixedWindow.check now (ip_key rq) lim) as [[r|] l1]; cbn [snd] in Hc; [by exists n; split_and!|].
  destruct (String.eqb_spec (lq_username rq) username) as [Hu|Hu].
  - destruct (counted_check now n l1 Hc) as [Hc' Hn]. unfold user_key. rewrite Hu. fold key.
    destruct (FixedWindow.check now key l1) as [o l2]. exists (n + 1). cbn [fst snd] in *.
    split; [done|]. split; [lia|]. intros _ Ho. by apply Hn in Ho.
  - apply (counted_other now (user_key rq)) in Hc.
    + destruct (FixedWindow.check now (user_key rq) l1) as [o l2]. by exists n; split_and!.
    + unfold user_key, key. intros Heq. cbn in Heq. by injection Heq.
Qed.

Lemma run_counted tr s : login_run s0 tr s -> Forall (no_success_for username) tr ->
  a_mono s < a_mono s0 + W * NS ->
  a_mono s0 <= a_mono s
  /\ exists n, counted (a_mono s) n (a_login_limiter s)
      /\ Z.of_nat (length (List.filter (examined_for username) tr)) <= Z.min n (FixedWindow.max_attempts l0).
Proof.
  induction 1 as [|tr s1 s2 rq res s3 Hrun IH Hl Hle Hr]; intros Hall Ht.
  { split; [lia|]. exists 0. split; [|cbn; lia]. by constructor. }
  apply Forall_cons in Hall as [Hno Hall]. destruct (login_limiter rq s2 res s3 Hr) as [Hm3 Hlim].
  rewrite Hm3 in *. destruct IH as [Hge (n & Hc & Hcount)]; [done|lia|].
  split; [lia|]. apply (counted_later _ (a_mono s2)) in Hc; [|lia]. rewrite <- Hl in Hc.
  pose proof (counted_throttle (a_mono s2) rq n _ Hc) as Hth.
  destruct (throttle_at _ _ _) as [o l]. destruct Hth as (n' & Hc' & Hnn & Hu).
  exists n'. cbn [List.filter]. destruct o as [retry|].
  { destruct Hlim as [-> ->]. split; [done|]. unfold examined_for at 1. cbn. rewrite andb_false_r. lia. }
  destruct Hlim as [Hlim Hretry]. split.
  - destruct Hlim as [-> |[Hs ->]]; [done|]. apply counted_reset; [|done].
    intros Heq. assert (lq_username rq = username) as Hn by (unfold user_key, key in Heq; cbn in Heq; by injection Heq).
    by rewrite (Hno Hn) in Hs.
  - destruct (examined_for username _) eqn:Hex; [|lia]. unfold examined_for in Hex. cbn [at_request] in Hex.
    apply andb_true_iff in Hex as [Hn _]. apply String.eqb_eq in Hn. destruct (Hu Hn eq_refl) as [-> ?].
    cbn [length]. lia.
Qed.
End bound.

End login.

(** ** The toy server *)
Definition toy_login (password : string) : LoginRequest :=
  mkLogin (Some "192.0.2.1") "ann" password (mkPending (Some "/oauth/authorize?client_id=spa") (Some 90)).
Definition toy_login_ok : LoginReply := mkLoginReply "/oauth/authorize?client_id=spa" None
  (Some (mkLoginSession "u-1" 100 "user" "ann@example" "ann" (Some "urn:mace:incommon:iap:bronze") (Some ["pwd"]))).

Lemma login_sound_witness : let s := toy_state false false in
  a_store (snd (login (toy_config true) (toy_login "pw") s)) = a_store s
  /\ exists user, login_justified (toy_config true) (toy_login "pw") s user
        (set_login (a_wall s) toy_user (default_acr (toy_config true)) (Some ["pwd"]))
      /\ on_this_host (a_wall s) (lq_session (toy_login "pw")) "/oauth/authorize?client_id=spa".
Proof.
  apply (login_sound (toy_config true) (toy_login "pw") (toy_state false false) toy_login_ok). vm_compute. reflexivity.
Defined.
Lemma login_no_oracle_witness : let s := toy_state false false in
  let run st p := login (toy_config true) (toy_login p) (with_store s st) in
  login_failed = login_failed
  /\ with_store (snd (run (a_store s) "guess")) empty_store = snd (run empty_store "pw").
Proof.
  apply (login_no_oracle (toy_config true) (toy_login "guess") (toy_login "pw") (toy_state false false)
           (a_store (toy_state false false)) empty_store); (vm_compute; reflexivity).
Defined.
Definition toy_guess (p : string) (s : AppState) : result exn LoginReply * AppState :=
  login (toy_config true) (toy_login p) s.
Definition toy_guesses : list attempt :=
  [mkAttempt 0 (toy_login "b") (Ok login_failed); mkAttempt 0 (toy_login "a") (Ok login_failed)].
