(* ===== verification/Middleware.v ===== *)
(** * The middleware around every route
    ([middleware.py], [middleware_ratelimit.RateLimitMiddleware], and the order
    in which [app.create_app] stacks them)

    A layer takes the application inside it, a computation that answers, and
    is one itself. Sessions and CORS, which only read and add cookies and
    headers, are left out of the stack; the resilience layer, outside of these,
    is in Resilience. The tables of the model answer every lookup, so the
    fail-open branches for an unreachable storage do not occur. *)
From S2P Require Import Prelude PyStr PyJson Models Storage StoreSpec TtlStores Resilience Keys Jwt App ToyJwt.
From S2P Require Limiter.
#[local] Open Scope Z_scope.

(** The part of the scope the layers read. *)
Record Scope := mkScope {
  sc_path : string;
  sc_client_host : option string;
  sc_forwarded_for : option string
}.
Notation App := (M response).

Definition security_headers : list (string * string) :=
  [("Cache-Control", "no-store"); ("Pragma", "no-cache"); ("X-Frame-Options", "DENY");
   ("Referrer-Policy", "no-referrer"); ("X-Content-Type-Options", "nosniff")].
Definition is_oauth_or_admin_api (path : string) : bool :=
  py_startswith "/oauth" path || py_startswith "/admin/api" path.
Definition security_headers_for (sc : Scope) : list (string * string) :=
  if is_oauth_or_admin_api (sc_path sc) then security_headers else [].

(** [headers[k] = v]: names compare without case, the first holder is replaced
    and the others are dropped. *)
Definition same_header (k : string) (kv : string * string) : bool := String.eqb (py_lower (fst kv)) (py_lower k).
Fixpoint set_header (k v : string) (l : list (string * string)) : list (string * string) :=
  match l with
  | [] => [(py_lower k, v)]
  | kv :: l => if same_header k kv then (py_lower k, v) :: List.filter (fun kv => negb (same_header k kv)) l
               else kv :: set_header k v l
  end.
Definition update_headers (new l : list (string * string)) : list (string * string) :=
  fold_left (fun l kv => set_header (fst kv) (snd kv) l) new l.
Definition map_headers (f : list (string * string) -> list (string * string)) (r : response) : response :=
  mkResponse (r_status r) (r_body r) (f (r_headers r)).

(** ** The innermost layer of [create_app] *)
Definition add_security_headers (sc : Scope) (app : App) : App :=
  let! r := app in sret (map_headers (update_headers (security_headers_for sc)) r).

(** ** DenylistGuard *)
Definition access_denied (sc : Scope) : response :=
  mkResponse 403 (JObj [("error", JStr "access_denied"); ("error_description", JStr "request source is denylisted")])
    (security_headers_for sc).
Definition denylist_guard (sc : Scope) (app : App) : App :=
  match sc_client_host sc with
  | None => app
  | Some host =>
      let! now := sget a_wall in
      let! entry := query (find_denylist_entry now "ip" host) in
      match entry with Some _ => sret (access_denied sc) | None => app end
  end.

(** ** RateLimitMiddleware *)
Definition ip_prefix (key : string) : string :=
  let two (sep : ascii) (glue : string) :=
    match py_split_on sep key with a :: b :: _ => a +:+ glue +:+ b | _ => key end in
  if py_contains_char "." key then two "."%char "."
  else if py_contains_char ":" key then two ":"%char ":"
  else key.

Definition rate_limit_key (trust_proxy_headers : bool) (sc : Scope) : string :=
  let peer := default "unknown" (sc_client_host sc) in
  if trust_proxy_headers then
    match sc_forwarded_for sc with
    | Some forwarded_for =>
        let first := py_strip (default EmptyString (head (py_split_on "," forwarded_for))) in
        if truthy first then first else peer
    | None => peer
    end
  else peer.

Definition rate_limit_description : string := "Rate limit exceeded. Try again later.".
Definition rate_limit_rejected (sc : Scope) (res : Limiter.RateLimitResult) : response :=
  let retry_after := default 1 (Limiter.rl_retry_after res) in
  mkResponse 429
    (JObj [("error", JStr "too_many_requests"); ("error_description", JStr rate_limit_description);
           ("retry_after", JInt retry_after)])
    ([("Retry-After", str_of_Z retry_after); ("X-RateLimit-Limit", str_of_Z (Limiter.rl_limit res));
      ("X-RateLimit-Remaining", "0"); ("X-RateLimit-Reset", str_of_Z (Limiter.rl_reset_at res))]
     ++ security_headers_for sc).
Definition rate_limit_headers (res : Limiter.RateLimitResult) : list (string * string) :=
  [("x-ratelimit-limit", str_of_Z (Limiter.rl_limit res));
   ("x-ratelimit-remaining", str_of_Z (Limiter.rl_remaining res));
   ("x-ratelimit-reset", str_of_Z (Limiter.rl_reset_at res))].

Definition check_rate (key : string) : M Limiter.RateLimitResult :=
  fun s => let '(res, l) := Limiter.check (a_mono s) (a_wall s) key (a_rate_limiter s) in
           (Ok res, with_rate_limiter s l).
Definition rate_limit (config : Config) (sc : Scope) (app : App) : App :=
  if is_exempt (sc_path sc) then app else
  let! res := check_rate (rate_limit_key (trust_proxy_headers config) sc) in
  if negb (Limiter.rl_allowed res) then sret (rate_limit_rejected sc res)
  else let! r := app in sret (map_headers (fun l => l ++ rate_limit_headers res) r).

(** ** The stack *)
Definition serve (config : Config) (rate_limit_enabled : bool) (sc : Scope) (app : App) : App :=
  let app := add_security_headers sc app in
  denylist_guard sc (if rate_limit_enabled then rate_limit config sc app else app).

(** [_status_class] of the metrics layer. *)
Definition status_class (status : Z) : string :=
  if (200 <=? status) && (status <? 300) then "2xx"
  else if (300 <=? status) && (status <? 400) then "3xx"
  else if (400 <=? status) && (status <? 500) then "4xx"
  else if (500 <=? status) && (status <? 600) then "5xx"
  else "other".

(** ** What the middleware stack guarantees *)

Section stack.
Context (config : Config) (rate_limit_enabled : bool).
Notation serve := (serve config rate_limit_enabled).
Notation key_of := (rate_limit_key (trust_proxy_headers config)).

(** ** Which requests reach the routes *)
Definition denied (sc : Scope) (s : AppState) : bool :=
  match sc_client_host sc with
  | Some host => bool_decide (is_Some (find_denylist_entry (a_wall s) "ip" host (a_store s)))
  | None => false
  end.
Definition limited (sc : Scope) : bool := rate_limit_enabled && negb (is_exempt (sc_path sc)).
Definition rate_result (sc : Scope) (s : AppState) : Limiter.RateLimitResult * Limiter.TokenBucketLimiter :=
  Limiter.check (a_mono s) (a_wall s) (key_of sc) (a_rate_limiter s).

(** The four ways through the stack. *)
Definition decorated (f : list (string * string) -> list (string * string)) (run : result exn response * AppState)
  : result exn response * AppState :=
  match run with (Ok r, s) => (Ok (map_headers f r), s) | (Err e, s) => (Err e, s) end.
Lemma map_headers_id r : map_headers (fun l => l) r = r.
Proof. by destruct r. Qed.

Lemma serve_cases sc app s :
  serve sc app s =
  if denied sc s then (Ok (access_denied sc), s)
  else if limited sc then
    let '(res, l) := rate_result sc s in
    let s1 := with_rate_limiter s l in
    if Limiter.rl_allowed res
    then decorated (fun h => update_headers (security_headers_for sc) h ++ rate_limit_headers res) (app s1)
    else (Ok (rate_limit_rejected sc res), s1)
  else decorated (update_headers (security_headers_for sc)) (app s).
Proof.
  unfold Middleware.serve, denylist_guard, denied, limited.
  assert (forall s, (if rate_limit_enabled then rate_limit config sc (add_security_headers sc app)
                     else add_security_headers sc app) s
    = if rate_limit_enabled && negb (is_exempt (sc_path sc)) then
        let '(res, l) := rate_result sc s in
        let s1 := with_rate_limiter s l in
        if Limiter.rl_allowed res
        then decorated (fun h => update_headers (security_headers_for sc) h ++ rate_limit_headers res) (app s1)
        else (Ok (rate_limit_rejected sc res), s1)
      else decorated (update_headers (security_headers_for sc)) (app s)) as Hin.
  { clear s. intros s. unfold rate_limit, add_security_headers, check_rate, rate_result, decorated.
    destruct rate_limit_enabled, (is_exempt _); cbn [andb negb]; unfold sbind;
      try (by destruct (app s) as [[r|e] s1]).
    destruct (Limiter.check _ _ _ _) as [res l]. destruct (Limiter.rl_allowed res); cbn [negb]; [|done].
    by destruct (app _) as [[r|e] s1]. }
  destruct (sc_client_host sc) as [host|]; [|apply Hin].
  unfold sbind, query, sget. destruct (find_denylist_entry _ _ _ _); [done|]. apply Hin.
Qed.

(** A request from a denylisted address is answered 403 before anything else: no
    handler runs, no row, counter or clock changes, and no rate-limit quota
    is spent, whatever application is behind. *)
Theorem denylisted_request_inert sc app s host e : sc_client_host sc = Some host ->
  find_denylist_entry (a_wall s) "ip" host (a_store s) = Some e ->
  serve sc app s = (Ok (access_denied sc), s).
Proof. intros Hh He. rewrite serve_cases. unfold denied. by rewrite Hh, He. Qed.

(** ** Quotas *)
(** Requests one after another, newest first: who asked, when, and whether the
    application was reached. Behind the stack anything may happen that leaves
    the rate limiter alone, and the clock never goes back. *)
Record visit := mkVisit { vi_time : Z; vi_scope : Scope; vi_reached : bool }.
Definition reaches (sc : Scope) (s : AppState) : bool :=
  negb (denied sc s) && (negb (limited sc) || Limiter.rl_allowed (fst (rate_result sc s))).
Definition leaves_limiter (app : App) : Prop := forall s, a_rate_limiter (snd (app s)) = a_rate_limiter s.

(** A request that does not reach the application is answered without it. *)
Lemma unreached sc app app' s : reaches sc s = false -> serve sc app s = serve sc app' s.
Proof.
  unfold reaches. rewrite !serve_cases. destruct (denied sc s); [done|]. cbn [negb andb].
  destruct (limited sc); [|done]. cbn [negb orb]. destruct (rate_result sc s) as [res l]. cbn [fst]. by intros ->.
Qed.

Inductive served (s : AppState) : list visit -> AppState -> Prop :=
| served_none : served s [] s
| served_one tr s1 s2 sc app res s3 :
    served s tr s1 -> a_rate_limiter s2 = a_rate_limiter s1 -> a_mono s1 <= a_mono s2 ->
    leaves_limiter app -> serve sc app s2 = (res, s3) -> a_mono s2 <= a_mono s3 ->
    served s (mkVisit (a_mono s2) sc (reaches sc s2) :: tr) s3.

(** The requests of a key that reached a rate-limited route. *)
Definition used_quota (key : string) (v : visit) : bool :=
  String.eqb (key_of (vi_scope v)) key && limited (vi_scope v) && vi_reached v.

Lemma serve_limiter sc app s res s' : leaves_limiter app -> serve sc app s = (res, s') ->
  a_rate_limiter s' = if negb (denied sc s) && limited sc then snd (rate_result sc s) else a_rate_limiter s.
Proof.
  intros Hl. rewrite serve_cases. destruct (denied sc s); cbn [negb andb]; [by intros [= _ <-]|].
  assert (forall f s1, a_rate_limiter (snd (decorated f (app s1))) = a_rate_limiter s1) as Hd.
  { intros f s1. rewrite <- (Hl s1). by destruct (app s1) as [[?|?] ?]. }
  destruct (limited sc).
  - destruct (rate_result sc s) as [r l]. cbn zeta. cbn [snd]. destruct (Limiter.rl_allowed r).
    + intros Hr. specialize (Hd (fun h => update_headers (security_headers_for sc) h ++ rate_limit_headers r)
                               (with_rate_limiter s l)). by rewrite Hr in Hd.
    + by intros [= _ <-].
  - intros Hr. specialize (Hd (update_headers (security_headers_for sc)) s). by rewrite Hr in Hd.
Qed.

(** A run is a history of the limiter. *)
Lemma served_history key s0 tr s : served s0 tr s ->
  a_mono s0 <= a_mono s /\
  exists h, a_rate_limiter s = Limiter.after Limiter.check h (a_rate_limiter s0)
  /\ Limiter.ordered (a_mono s) h /\ Forall (fun r => a_mono s0 <= fst (fst r)) h
  /\ Limiter.granted key h (a_rate_limiter s0) = Z.of_nat (length (List.filter (used_quota key) tr)).
Proof.
  induction 1 as [|tr s1 s2 sc app res s3 Hrun (Hge & h & Hh & Ho & Hall & Hg) Hl Hle Happ Hr Hle3].
  { split; [lia|]. exists []. by split_and!. }
  split; [lia|]. pose proof (serve_limiter sc app s2 res s3 Happ Hr) as Hlim.
  assert (Limiter.ordered (a_mono s3) h) as Ho3 by (destruct h as [|[[t w] k] h]; [done|destruct Ho; split; [lia|done]]).
  cbn [List.filter]. unfold used_quota at 1, reaches. cbn [vi_scope vi_reached].
  destruct (denied sc s2); cbn [negb andb] in *.
  { exists h. rewrite Hlim, Hl, andb_false_r. by split_and!. }
  destruct (limited sc); cbn [negb orb] in *.
  2:{ exists h. rewrite Hlim, Hl, andb_false_r. by split_and!. }
  exists ((a_mono s2, a_wall s2, key_of sc) :: h). cbn [Limiter.after Limiter.granted Limiter.ordered].
  unfold rate_result in *. rewrite Hl, Hh in *. split; [done|].
  split; [split; [done|]|].
  { destruct h as [|[[t w] k] h]; [done|]. destruct Ho. split; [lia|done]. }
  split; [constructor; [cbn; lia|done]|]. rewrite Hg, andb_true_r.
  destruct (_ && _); cbn [length]; lia.
Qed.

(** The stack bounds every client: in any run of requests, of any kind, from any
    addresses and with any handlers behind, the rate-limited requests of one
    key that reach the application are at most the burst and what the elapsed
    time refills; the others are answered without it. *)
Theorem stack_rate_bound key s tr s' : Limiter.limiter_ok (a_rate_limiter s) (a_mono s) -> served s tr s' ->
  let l := a_rate_limiter s in
  Z.of_nat (length (List.filter (used_quota key) tr)) * (Limiter.window_secs l * NS)
  <= Limiter.max_tokens l * (Limiter.window_secs l * NS + (a_mono s' - a_mono s)).
Proof.
  intros Hok Hrun l. destruct (served_history key s tr s' Hrun) as (Hge & h & _ & Ho & Hall & <-).
  by apply Limiter.granted_bound.
Qed.
End stack.

(** ** Headers *)
Lemma lower_twice s : py_lower (py_lower s) = py_lower s.
Proof.
  unfold py_lower. induction s as [|c s IH]; [done|]. cbn. rewrite IH. f_equal.
  by destruct c as [[] [] [] [] [] [] [] []].
Qed.

(** [k] is answered with [v] and nothing else. *)
Record set_to (k v : string) (h : list (string * string)) : Prop := {
  set_present : exists k', In (k', v) h /\ py_lower k' = py_lower k;
  set_only : forall kv, In kv h -> py_lower (fst kv) = py_lower k -> snd kv = v
}.

Lemma set_header_In k v l kv : In kv (set_header k v l) ->
  kv = (py_lower k, v) \/ (In kv l /\ py_lower (fst kv) <> py_lower k).
Proof.
  induction l as [|a l IH]; cbn [set_header]; [by intros [<-|[]]; left|].
  unfold same_header. destruct (String.eqb_spec (py_lower (fst a)) (py_lower k)) as [Ha|Ha].
  - intros [<-|Hin]; [by left|right]. apply filter_In in Hin as [Hin Hk].
    apply negb_true_iff, String.eqb_neq in Hk. split; [by right|done].
  - intros [<-|Hin]; [right; split; [by left|done]|]. destruct (IH Hin) as [->|[? ?]]; [by left|].
    right. split; [by right|done].
Qed.
Lemma set_header_has k v l : In (py_lower k, v) (set_header k v l).
Proof. induction l as [|a l IH]; cbn; [by left|]. destruct (same_header k a); [by left|by right]. Qed.
Lemma set_header_keeps k v l kv : In kv l -> py_lower (fst kv) <> py_lower k -> In kv (set_header k v l).
Proof.
  intros Hin Hk. induction l as [|a l IH]; [done|]. cbn [set_header]. unfold same_header.
  destruct (String.eqb_spec (py_lower (fst a)) (py_lower k)) as [Ha|Ha].
  - destruct Hin as [-> |Hin]; [done|]. right. apply filter_In. split; [done|]. by apply negb_true_iff, String.eqb_neq.
  - destruct Hin as [-> |Hin]; [by left|right; by apply IH].
Qed.

Lemma set_header_sets k v l : set_to k v (set_header k v l).
Proof.
  constructor.
  - exists (py_lower k). split; [apply set_header_has|apply lower_twice].
  - intros kv Hin Hk. by destruct (set_header_In _ _ _ _ Hin) as [->|[_ ?]].
Qed.
Lemma set_header_other k v k' v' l : py_lower k' <> py_lower k -> set_to k' v' l -> set_to k' v' (set_header k v l).
Proof.
  intros Hne [(k1 & Hin & Hk1) Ho]. constructor.
  - exists k1. split; [|done]. apply set_header_keeps; [done|]. cbn. by rewrite Hk1.
  - intros kv Hkv Hk. destruct (set_header_In _ _ _ _ Hkv) as [->|[Hl _]]; [|by apply Ho].
    cbn in Hk. rewrite lower_twice in Hk. by rewrite Hk in Hne.
Qed.
Lemma update_headers_sets new k v : List.NoDup (map (fun kv => py_lower (fst kv)) new) -> In (k, v) new ->
  forall l, set_to k v (update_headers new l).
Proof.
  assert (forall new l, set_to k v l -> ~ In (py_lower k) (map (fun kv => py_lower (fst kv)) new) ->
    set_to k v (update_headers new l)) as Hkeep.
  { clear. induction new as [|a new IH]; intros l Hl Hn; [done|]. cbn in Hn. apply IH; [|tauto].
    apply set_header_other; [|done]. intros Heq. apply Hn. by left. }
  induction new as [|a new IH]; intros Hnd Hin l; [done|]. apply NoDup_cons_iff in Hnd as [Ha Hnd].
  destruct Hin as [-> |Hin]; [|by apply IH]. cbn. apply Hkeep; [apply set_header_sets|done].
Qed.
Lemma set_to_app k v l l' : set_to k v l -> Forall (fun kv => py_lower (fst kv) <> py_lower k) l' -> set_to k v (l ++ l').
Proof.
  intros [(k1 & Hin & Hk1) Ho] Hl'. rewrite List.Forall_forall in Hl'. constructor.
  - exists k1. split; [apply in_app_iff; by left|done].
  - intros kv Hkv Hk. apply in_app_iff in Hkv as [Hkv|Hkv]; [by apply Ho|]. by destruct (Hl' kv Hkv).
Qed.
Lemma set_to_app_r k v l l' : set_to k v l -> Forall (fun kv => py_lower (fst kv) <> py_lower k) l' -> set_to k v (l' ++ l).
Proof.
  intros Hl Hl'. destruct (set_to_app k v l l' Hl Hl') as [(k1 & Hin & Hk1) Ho]. constructor.
  - exists k1. split; [|done]. apply in_app_iff. apply in_app_iff in Hin. tauto.
  - intros kv Hkv. apply Ho. apply in_app_iff. apply in_app_iff in Hkv. tauto.
Qed.
Lemma security_headers_nodup : List.NoDup (map (fun kv => py_lower (fst kv)) security_headers).
Proof. repeat constructor; cbn; intuition discriminate. Qed.
Lemma security_headers_set k v : In (k, v) security_headers -> set_to k v security_headers.
Proof.
  intros Hin. constructor; [by exists k|]. intros [k' v'] Hin' Hk. cbn in Hin, Hin', Hk |- *.
  repeat (destruct Hin as [[= <- <-]|Hin]; [repeat (destruct Hin' as [[= <- <-]|Hin']; [done|])|]); done.
Qed.

(** Every answer on the OAuth and admin API paths carries each security header
    with its fixed value, and with no other, whether it comes from a route
    (that set headers of its own or not), from the denylist or from the rate
    limiter: no token response is ever cacheable. *)
Theorem security_headers_everywhere config enabled sc app s r s' k v :
  serve config enabled sc app s = (Ok r, s') -> is_oauth_or_admin_api (sc_path sc) = true ->
  In (k, v) security_headers -> set_to k v (r_headers r).
Proof.
  intros Hr Hp Hin. rewrite serve_cases in Hr.
  assert (security_headers_for sc = security_headers) as Hfor by (unfold security_headers_for; by rewrite Hp).
  pose proof (update_headers_sets security_headers k v security_headers_nodup Hin) as Hupd.
  destruct (denied sc s); [injection Hr as <- _; cbn; rewrite Hfor; by apply security_headers_set|].
  destruct (limited _ _).
  - destruct (rate_result _ _ _) as [res l]. cbn zeta in Hr. destruct (Limiter.rl_allowed res).
    + destruct (app _) as [[r'|e] s1]; [|done]. injection Hr as <- _. cbn. rewrite Hfor.
      apply set_to_app; [done|]. cbn in Hin.
      repeat (destruct Hin as [[= <- <-]|Hin]; [by repeat constructor|]). done.
    + injection Hr as <- _. cbn [r_headers rate_limit_rejected]. rewrite Hfor.
      apply set_to_app_r; [by apply security_headers_set|]. cbn in Hin. repeat (destruct Hin as [[= <- <-]|Hin]; [by repeat constructor|]). done.
  - destruct (app s) as [[r'|e] s1]; [|done]. injection Hr as <- _. cbn. by rewrite Hfor.
Qed.

(** ** The toy server *)
Definition toy_scope (path : string) : Scope := mkScope path (Some "192.0.2.1") (Some "203.0.113.9").
Definition toy_app : App := sret (mkResponse 200 (JObj []) [("cache-control", "public")]).
Definition toy_denying : AppState :=
  with_store (toy_state false false)
    (on_denylist (fun _ => [mkDeny "n-1" "ip" "192.0.2.1" "abuse" EmptyString 0 None]) (toy_store false false)).
Definition toy_limited : AppState := with_rate_limiter (toy_state false false) (Limiter.new_limiter 1 60).
Definition toy_serve (s : AppState) : result exn response * AppState :=
  serve (toy_config true) true (toy_scope "/oauth/token") toy_app s.

Lemma denylisted_request_inert_witness :
  toy_serve toy_denying = (Ok (access_denied (toy_scope "/oauth/token")), toy_denying).
Proof.
  eapply (denylisted_request_inert (toy_config true) true (toy_scope "/oauth/token") toy_app toy_denying "192.0.2.1").
  - reflexivity.
  - vm_compute. reflexivity.
Defined.
Lemma stack_rate_bound_witness :
  Z.of_nat (length (List.filter (used_quota (toy_config true) true "192.0.2.1")
    [mkVisit 0 (toy_scope "/oauth/token") false; mkVisit 0 (toy_scope "/oauth/token") true])) * (60 * NS)
  <= 1 * (60 * NS + (0 - 0)).
Proof.
  apply (stack_rate_bound (toy_config true) true "192.0.2.1" toy_limited
           [mkVisit 0 (toy_scope "/oauth/token") false; mkVisit 0 (toy_scope "/oauth/token") true]
           (snd (toy_serve (snd (toy_serve toy_limited))))).
  - split_and! ; [done|done|]. intros k b. cbn. by rewrite lookup_empty.
  - apply (served_one (toy_config true) true _ _ (snd (toy_serve toy_limited)) (snd (toy_serve toy_limited))
             (toy_scope "/oauth/token") toy_app (fst (toy_serve (snd (toy_serve toy_limited)))));
      [|done|done|done|vm_compute; reflexivity|done].
    apply (served_one (toy_config true) true _ _ toy_limited toy_limited (toy_scope "/oauth/token") toy_app
             (fst (toy_serve toy_limited))); [apply served_none|done|done|done|vm_compute; reflexivity|done].
Defined.
Lemma security_headers_everywhere_witness : forall r, fst (toy_serve toy_limited) = Ok r ->
  set_to "Cache-Control" "no-store" (r_headers r).
Proof.
  intros r Hr.
  apply (security_headers_everywhere (toy_config true) true (toy_scope "/oauth/token") toy_app toy_limited r
           (snd (toy_serve toy_limited))).
  - rewrite <- Hr. fold (toy_serve toy_limited). apply surjective_pairing.
  - reflexivity.
  - by left.
Defined.
