(* ===== verification/RegisterProps.v ===== *)
(** * A registered client is well formed and can use the server *)
From S2P Require Import Prelude PyStr PyJson Codec Models Storage StoreSpec PyUrl TtlStores Keys Jwt App PyDumps.
From S2P Require Import Tokens ClientAuth TokenEndpoint Redirects Authorize JwksUri Register TokenLemmas ToyJwt.
#[local] Open Scope Z_scope.

(** ** Which [jwks_uri] is dereferenced *)
(** The blocked ranges of RFC 1122, 3927 and 4291, as intervals. *)
Definition blocked_v4 (a : Z) : Prop :=
  a = 0 \/ 127 * 2 ^ 24 <= a < 128 * 2 ^ 24 \/ (169 * 256 + 254) * 2 ^ 16 <= a < (169 * 256 + 255) * 2 ^ 16.
Definition blocked_v6 (a : Z) : Prop :=
  a = 0 \/ a = 1 \/ 1018 * 2 ^ 118 <= a < 1019 * 2 ^ 118
  \/ exists v4, a = 65535 * 2 ^ 32 + v4 /\ 0 <= v4 < 2 ^ 32 /\ blocked_v4 v4.
Definition blocked (a : ip_address) : Prop := match a with IPv4 a => blocked_v4 a | IPv6 a => blocked_v6 a end.

Lemma div_eqb a k n : 0 < k -> (a / k =? n) = true <-> n * k <= a < (n + 1) * k.
Proof.
  intros Hk. rewrite Z.eqb_eq. split.
  - intros <-. pose proof (Z.mul_div_le a k Hk). pose proof (Z.mul_succ_div_gt a k Hk). lia.
  - intros [H1 H2]. symmetry. apply (Z.div_unique a k n (a - n * k)); lia.
Qed.
Lemma unmapped_blocked a : blocked a ->
  (let b := unmapped a in is_loopback b || is_link_local b || is_unspecified b) = true.
Proof.
  assert (forall v, blocked_v4 v -> is_loopback (IPv4 v) || is_link_local (IPv4 v) || is_unspecified (IPv4 v) = true) as H4.
  { intros v Hv. unfold is_loopback, is_link_local, is_unspecified. destruct Hv as [-> |[Hv|Hv]]; [done| |].
    - assert ((v / 2 ^ 24 =? 127) = true) as -> by (apply div_eqb; lia). done.
    - assert ((v / 2 ^ 16 =? 169 * 256 + 254) = true) as -> by (apply div_eqb; lia). by rewrite orb_true_r. }
  destruct a as [v|v]; [apply H4|]. cbn [unmapped blocked].
  intros [-> |[-> |[Hv|(v4 & -> & Hr & Hv)]]]; [done|done| |].
  - assert ((v / 2 ^ 32 =? 65535) = false) as ->.
    { destruct (v / 2 ^ 32 =? 65535) eqn:He; [|done]. apply div_eqb in He; lia. }
    cbn [is_link_local]. assert ((v / 2 ^ 118 =? 1018) = true) as -> by (apply div_eqb; lia). by rewrite orb_true_r.
  - assert (((65535 * 2 ^ 32 + v4) / 2 ^ 32 =? 65535) = true) as -> by (apply div_eqb; lia).
    assert ((65535 * 2 ^ 32 + v4) mod 2 ^ 32 = v4) as -> by (symmetry; apply (Z.mod_unique _ _ 65535); lia).
    by apply H4.
Qed.

(** A [jwks_uri] the server accepts, and will fetch itself, is an absolute https
    URL without a fragment whose host is neither [localhost] nor under it, nor
    all digits and dots, nor a loopback, link-local or unspecified address in
    any spelling that [ipaddress] or the C library reads, IPv4-mapped ones
    included. *)
Theorem jwks_uri_guarded cbn_ inet_aton uri : is_valid_jwks_uri cbn_ inet_aton uri = Ok true ->
  exists u host, urlsplit cbn_ uri = Ok u /\ s_scheme u = "https" /\ s_netloc u <> EmptyString
  /\ s_fragment u = EmptyString /\ hostname u = Some host
  /\ host <> "localhost" /\ py_endswith ".localhost" host = false /\ py_isdigit (remove_char "." host) = false
  /\ (forall a, parse_ip host = Some a -> ~ blocked a)
  /\ (forall a, parse_ip host = None -> inet_aton host = Some a -> ~ blocked (IPv4 a)).
Proof.
  unfold is_valid_jwks_uri. destruct (urlsplit cbn_ uri) as [u|]; [|done]. cbn [rbind].
  destruct (String.eqb_spec (s_scheme u) "https"); [|done]. destruct (truthy (s_netloc u)) eqn:Hn; [|done].
  cbn [negb orb]. destruct (truthy (s_fragment u)) eqn:Hf; [done|]. cbn [orb].
  destruct (ends_with_char _ _); [done|]. destruct (hostname u) as [host|] eqn:Hh; [|done].
  destruct (truthy host); [|done]. cbn [andb]. unfold host_allowed. intros [= Ha].
  destruct (String.eqb_spec host "localhost"); [done|]. cbn [orb] in Ha.
  destruct (py_endswith _ _) eqn:He; [done|]. destruct (py_isdigit _) eqn:Hd; [done|].
  exists u, host. apply truthy_true in Hn. apply truthy_false in Hf. split_and! ; try done.
  - intros a Hp Hb. rewrite Hp in Ha. apply unmapped_blocked in Hb. cbn zeta in Hb. by rewrite Hb in Ha.
  - intros a Hp Hi Hb. rewrite Hp in Ha. unfold loose_ipv4 in Ha. rewrite Hi in Ha.
    apply unmapped_blocked in Hb. cbn zeta in Hb. cbn [option_map] in Ha. by rewrite Hb in Ha.
Qed.
Lemma jwks_uri_guarded_witness : exists u host, urlsplit (fun _ => true) "https://[2001:db8::1]/keys" = Ok u
  /\ s_scheme u = "https" /\ s_netloc u <> EmptyString /\ s_fragment u = EmptyString /\ hostname u = Some host
  /\ host <> "localhost" /\ py_endswith ".localhost" host = false /\ py_isdigit (remove_char "." host) = false
  /\ (forall a, parse_ip host = Some a -> ~ blocked a)
  /\ (forall a, parse_ip host = None -> (fun _ => None) host = Some a -> ~ blocked (IPv4 a)).
Proof. apply (jwks_uri_guarded (fun _ => true) (fun _ => None)). vm_compute. reflexivity. Defined.

(** The root-anchored name of this host passes. *)
Lemma localhost_dot_accepted inet_aton : inet_aton "localhost." = None ->
  is_valid_jwks_uri (fun _ => true) inet_aton "https://localhost./keys" = Ok true.
Proof.
  intros Hi. unfold is_valid_jwks_uri.
  assert (urlsplit (fun _ => true) "https://localhost./keys"
    = Ok (mkSplit "https" "localhost." "/keys" EmptyString EmptyString)) as -> by (vm_compute; reflexivity).
  change (Ok (truthy "localhost." && host_allowed inet_aton "localhost.") = Ok true :> result exn bool).
  unfold host_allowed, loose_ipv4. assert (parse_ip "localhost." = None) as -> by (vm_compute; reflexivity).
  by rewrite Hi.
Qed.

(** ** What registration stores *)
Section register.
Context `{JwtLib} `{Runtime} `{Http}.
Context (cbn_ : string -> bool) (inet_aton : string -> option Z) (config : Config).

Definition valid_uri (u : string) : Prop := is_valid_redirect_uri cbn_ u = Ok true.
Definition valid_uri_o (o : option string) : Prop := forall u, o = Some u -> u <> EmptyString -> valid_uri u.
(** The client metadata rules, for a registration. *)
Record acceptable (reg : ClientRegistration) : Prop := {
  ac_uris : rg_redirect_uris reg <> [] /\ Forall valid_uri (rg_redirect_uris reg);
  ac_logout : valid_uri_o (rg_backchannel_logout_uri reg) /\ valid_uri_o (rg_frontchannel_logout_uri reg)
    /\ Forall valid_uri (rg_post_logout_redirect_uris reg);
  ac_method : In (rg_token_endpoint_auth_method reg) valid_auth_methods;
  ac_keys : In (rg_token_endpoint_auth_method reg) ["private_key_jwt"; "self_signed_tls_client_auth"] ->
    has_keys reg = true;
  ac_one_source : rg_jwks reg = None \/ truthy_o (rg_jwks_uri reg) = false;
  ac_jwks_uri : truthy_o (rg_jwks_uri reg) = true ->
    is_valid_jwks_uri cbn_ inet_aton (default EmptyString (rg_jwks_uri reg)) = Ok true;
  ac_dn : forall dn, rg_tls_client_certificate_subject_dn reg = Some dn -> py_strip dn = EmptyString -> dn = EmptyString;
  ac_public : rg_public reg = true -> ~ In "client_credentials" (rg_grant_types reg)
}.

Lemma all_valid_uris_ok l : all_valid_uris cbn_ l = Ok true -> Forall valid_uri l.
Proof.
  induction l as [|u l IH]; [done|]. cbn [all_valid_uris].
  destruct (is_valid_redirect_uri cbn_ u) as [[]|] eqn:Hu; cbn [rbind]; try done. intros Hl. constructor; auto.
Qed.
Lemma valid_or_absent_ok o : valid_or_absent cbn_ o = Ok true -> valid_uri_o o.
Proof.
  unfold valid_or_absent. intros Ho u -> Hne. apply truthy_true in Hne. cbn [truthy_o from_option_b] in Ho.
  by rewrite Hne in Ho.
Qed.

Lemma check_registration_ok reg : check_registration cbn_ inet_aton reg = Ok None -> acceptable reg.
Proof.
  unfold check_registration. cbn zeta.
  destruct (all_valid_uris _ (rg_redirect_uris reg)) as [[]|] eqn:H1'; cbn [rbind negb orb]; try done;
    [|by destruct (bool_decide _)].
  case_bool_decide as Hne; [done|]. cbn [orb].
  destruct (valid_or_absent _ (rg_backchannel_logout_uri reg)) as [[]|] eqn:H2'; cbn [rbind negb]; try done.
  destruct (valid_or_absent _ (rg_frontchannel_logout_uri reg)) as [[]|] eqn:H3'; cbn [rbind negb]; try done.
  destruct (all_valid_uris _ (rg_post_logout_redirect_uris reg)) as [[]|] eqn:H4'; cbn [rbind negb]; try done.
  destruct (mem_str _ valid_auth_methods) eqn:Hm; cbn [negb]; [|done].
  destruct (String.eqb _ "private_key_jwt" && _) eqn:Hp; [done|].
  destruct (String.eqb _ "self_signed_tls_client_auth" && _) eqn:Hs; [done|].
  destruct (bool_decide (is_Some (rg_jwks reg)) && _) eqn:Hj; [done|].
  destruct (truthy (default EmptyString _) && _) eqn:Hdn; [done|].
  destruct (if truthy_o (rg_jwks_uri reg) then _ else _) as [[]|] eqn:Hu; cbn [rbind negb]; try done.
  destruct (rg_public reg && _) eqn:Hpub; [done|]. intros _. constructor.
  - split; [done|by apply all_valid_uris_ok].
  - split; [by apply valid_or_absent_ok|]. split; [by apply valid_or_absent_ok|by apply all_valid_uris_ok].
  - by apply mem_str_In.
  - intros Hin. destruct (has_keys reg); [done|]. rewrite andb_true_r in Hp, Hs.
    destruct Hin as [Hin|[Hin|[]]]; rewrite <- Hin in *; done.
  - destruct (rg_jwks reg); [right|by left]. cbn in Hj. done.
  - intros Ht. by rewrite Ht in Hu.
  - intros dn Hd Hst. rewrite Hd in Hdn. cbn [default from_option id] in Hdn. rewrite Hst, andb_true_r in Hdn.
    by apply truthy_false in Hdn.
  - intros Hp' Hin. rewrite Hp' in Hpub. apply mem_str_In in Hin. by rewrite Hin in Hpub.
Qed.

(** A successful registration. *)
Record registered (body : result exn json) (s : AppState) (reg : ClientRegistration) (c : Client) (s' : AppState) : Prop := {
  rd_enabled : dynamic_registration_enabled config = true;
  rd_body : exists b, body = Ok b /\ registration_of b = Some reg;
  rd_acceptable : acceptable reg;
  rd_client : exists client_id secret access_token id,
    c = registered_client reg (a_wall s) id client_id secret access_token
    /\ (rg_public reg = true -> secret = EmptyString);
  rd_new : forall x, In x (clients (a_store s)) -> c_id x <> c_id c /\ c_client_id x <> c_client_id c;
  rd_stored : a_store s' = on_clients (fun l => l ++ [c]) (a_store s)
}.

Lemma save_client_ok c s u s1 : insert (save_client c) s = (Ok u, s1) ->
  a_store s1 = on_clients (fun l => l ++ [c]) (a_store s)
  /\ forall x, In x (clients (a_store s)) -> c_id x <> c_id c /\ c_client_id x <> c_client_id c.
Proof.
  unfold insert, save_client. destruct (existsb _ _) eqn:Hx; [done|]. intros [= _ <-].
  split; [done|]. intros x Hin. eapply existsb_false in Hx; [|done]. by b2p.
Qed.
Lemma draw_ok {A} (f : nat -> A) s a s1 : draw f s = (Ok a, s1) -> a_store s1 = a_store s.
Proof. unfold draw. by intros [= _ <-]. Qed.

Lemma register_valid_ok reg s r s' : register_valid config reg s = (Ok r, s') ->
  exists client_id secret access_token id,
    let c := registered_client reg (a_wall s) id client_id secret access_token in
    r = registration_response config reg c /\ (rg_public reg = true -> secret = EmptyString)
    /\ (forall x, In x (clients (a_store s)) -> c_id x <> c_id c /\ c_client_id x <> c_client_id c)
    /\ a_store s' = on_clients (fun l => l ++ [c]) (a_store s).
Proof.
  unfold register_valid. intros Hr. apply bind_ok in Hr as (now & s1 & Hn & Hr). injection Hn as <- <-.
  apply bind_ok in Hr as (client_id & s1 & Hd & Hr). apply draw_ok in Hd.
  apply bind_ok in Hr as (secret & s2 & Hs & Hr).
  assert (a_store s2 = a_store s1 /\ (rg_public reg = true -> secret = EmptyString)) as [Hs2 Hpub].
  { destruct (rg_public reg); [by injection Hs as <- <-|]. by apply draw_ok in Hs. }
  apply bind_ok in Hr as (access_token & s3 & Ha & Hr). apply draw_ok in Ha.
  apply bind_ok in Hr as (id & s4 & Hid & Hr). apply draw_ok in Hid.
  apply bind_ok in Hr as (u & s5 & Hi & Hr). apply save_client_ok in Hi as [Hst Hnew].
  apply bind_ok in Hr as (u' & s6 & He & Hr). injection He as _ <-. injection Hr as <- <-.
  rewrite Hid, Ha, Hs2, Hd in Hst, Hnew. exists client_id, secret, access_token, id. by split_and!.
Qed.

Lemma registration_sound_cases body s r s' : register_client cbn_ inet_aton config body s = (Ok r, s') ->
  a_store s' = a_store s \/ exists reg c, registered body s reg c s' /\ r = registration_response config reg c.
Proof.
  unfold register_client. destruct (dynamic_registration_enabled config) eqn:Hen; cbn [negb]; [|intros [= _ <-]; by left].
  destruct body as [b|e]; [|destruct (is_value_error e); [intros [= _ <-]; by left|done]].
  destruct (registration_of b) as [reg|] eqn:Hreg; [|intros [= _ <-]; by left].
  intros Hr. apply bind_ok in Hr as (refused & s1 & Hc & Hr). injection Hc as Hc <-.
  destruct refused as [d|]; [injection Hr as _ <-; by left|right].
  apply check_registration_ok in Hc. apply register_valid_ok in Hr as (cid & sec & tok & id & -> & Hpub & Hnew & Hst).
  eexists reg, _. split; [|done]. constructor; try done; [by exists b|by exists cid, sec, tok, id].
Qed.
(** Registration stores at most one new client, with fresh ids, and only one that
    satisfies every client metadata rule: valid redirect and logout URIs, a
    supported authentication method with the key material it needs and one
    source of keys, a guarded [jwks_uri], no blank subject, and neither a
    secret nor the client_credentials grant for a public client; the answer
    reports exactly what was stored. Every other request changes no row. *)
Theorem registration_sound body s r s' : register_client cbn_ inet_aton config body s = (Ok r, s') ->
  a_store s' = a_store s \/ exists reg c, registered body s reg c s' /\ r = registration_response config reg c.
Proof. apply registration_sound_cases. Qed.

(** ** What a registered client can do *)
Definition well_ported (u : string) : Prop := forall v, urlsplit cbn_ u = Ok v -> exists p, port v = Ok p.

Lemma matches_defined a b : valid_uri a -> valid_uri b -> well_ported a -> exists v, redirect_uri_matches cbn_ a b = Ok v.
Proof.
  unfold valid_uri, is_valid_redirect_uri, well_ported, redirect_uri_matches. intros Ha Hb Hp.
  destruct (String.eqb b a); [by eexists|].
  destruct (urlsplit cbn_ a) as [u|]; [|done]. destruct (urlsplit cbn_ b) as [v|]; [|done]. cbn [rbind].
  destruct (_ || _); [by eexists|]. destruct (_ || _); [by eexists|].
  destruct (Hp u eq_refl) as [[p|] ->]; by eexists.
Qed.
Lemma registered_matches u l : In u l -> Forall valid_uri l -> Forall well_ported l ->
  any_registered cbn_ u (map JStr l) = Ok true.
Proof.
  intros Hin Hv Hp. assert (valid_uri u) as Hu by (rewrite List.Forall_forall in Hv; auto).
  induction l as [|a l IH]; [done|]. apply Forall_cons in Hv as [Ha Hv]. apply Forall_cons in Hp as [Hpa Hp].
  cbn [map any_registered]. destruct (matches_defined a u Ha Hu Hpa) as [v Hm]. rewrite Hm. cbn [rbind].
  destruct v; [done|]. destruct Hin as [-> |Hin]; [|by apply IH].
  unfold redirect_uri_matches in Hm. by rewrite String.eqb_refl in Hm.
Qed.
Lemma column_read_back l : Forall is_text l -> (0 < json_limit)%nat ->
  json_column json_limit (dumps_strings l) = Ok (JList (map JStr l)).
Proof.
  intros Hl Hlim. unfold json_column, dumps_strings, py_json_loads.
  rewrite loads_dumps_strings by done. by destruct l.
Qed.
Lemma py_in_strings g l : In g l -> py_in g (JList (map JStr l)) = Ok true.
Proof.
  intros Hin. cbn [py_in]. f_equal. apply existsb_exists. exists (JStr g). split; [by apply in_map|].
  cbn. apply String.eqb_refl.
Qed.

(** The credentials the answer hands out. *)
Definition own_request (c : Client) : Request :=
  mkRequest (list_to_map (("client_id", c_client_id c) ::
    (if is_public c then [] else [("client_secret", c_client_secret c)]))) ∅ None.
Lemma own_request_authenticates c mtls s :
  get_client (c_client_id c) (a_store s) = Some c -> c_enabled c = true -> c_client_id c <> EmptyString ->
  (is_public c = false -> c_client_secret c <> EmptyString) ->
  In (c_token_endpoint_auth_method c) ["none"; "client_secret_post"; "client_secret_basic"] ->
  check_subject_denylisted (a_wall s) "client_id" (c_client_id c) (a_store s) = None ->
  fst (authenticate config (own_request c) mtls s) = Ok c.
Proof.
  intros Hget Hen Hid Hsec Hm Hden. unfold authenticate.
  assert (presented_credentials (own_request c)
    = Ok (Some (c_client_id c), if is_public c then None else Some (c_client_secret c))) as ->.
  { apply truthy_true in Hid. unfold presented_credentials, own_request, header_get, form_get. cbn [rq_headers rq_form].
    rewrite lookup_empty. cbn [parse_basic_auth rbind]. destruct (is_public c).
    all: change (list_to_map (?a :: ?l)) with (<[fst a := snd a]> (list_to_map l) : gmap string string); cbn [fst snd].
    all: rewrite ?lookup_insert_eq; rewrite lookup_insert_ne by done; cbn [truthy_o from_option_b]; rewrite Hid; cbn [negb rbind].
    - done.
    - by do 2 f_equal. }
  apply truthy_true in Hid. unfold sbind, slift, query, sget. cbn [truthy_o from_option_b]. rewrite Hid.
  cbn [negb default from_option id]. rewrite Hget, Hen. cbn [negb]. rewrite Hden. unfold check_credentials.
  destruct (is_public c) eqn:Hp; [done|]. specialize (Hsec eq_refl). apply truthy_true in Hsec.
  unfold is_public in Hp. cbn [truthy_o from_option_b]. rewrite Hsec, String.eqb_refl.
  destruct Hm as [Hm|[Hm|[Hm|[]]]]; rewrite <- Hm in *; try done; by destruct mtls.
Qed.

(** What the registered client can then do: every URI and grant it registered
    is accepted, and it authenticates with what the answer gave it. *)
Definition usable (reg : ClientRegistration) (c : Client) (s' : AppState) : Prop :=
  (forall u, In u (rg_redirect_uris reg) -> is_registered_uri cbn_ c u = Ok true)
  /\ (forall g, In g (rg_grant_types reg) -> allows_grant json_limit c g = Ok true)
  /\ (In (rg_token_endpoint_auth_method reg) ["none"; "client_secret_post"; "client_secret_basic"] ->
      c_client_id c <> EmptyString -> (rg_public reg = false -> c_client_secret c <> EmptyString) ->
      forall mtls s2, a_store s2 = a_store s' ->
        check_subject_denylisted (a_wall s2) "client_id" (c_client_id c) (a_store s2) = None ->
        fst (authenticate config (own_request c) mtls s2) = Ok c).

(** A client that registers can use the server as it registered: the URIs and
    grants stored as JSON text read back to what was sent, the authorization
    endpoint accepts each registered redirect URI, the token endpoint each
    registered grant, and the credentials of the answer authenticate it, until
    it is denylisted. Strings are well-formed Unicode, ports in range. *)
Theorem registered_client_works body s r s' : register_client cbn_ inet_aton config body s = (Ok r, s') ->
  a_store s' <> a_store s -> (0 < json_limit)%nat ->
  exists reg c, r = registration_response config reg c
  /\ (Forall is_text (rg_redirect_uris reg) -> Forall is_text (rg_grant_types reg) ->
      Forall well_ported (rg_redirect_uris reg) -> usable reg c s').
Proof.
  intros Hr Hne Hlim. destruct (registration_sound_cases body s r s' Hr) as [Heq|(reg & c & Hreg & ->)]; [done|].
  exists reg, c. split; [done|]. intros Hu Hg Hp.
  destruct Hreg as [_ _ Hacc (cid & sec & tok & id & Hc & Hpub) Hnew Hst].
  split; [|split].
  - intros u Hin. unfold is_registered_uri, redirect_uri_list. rewrite Hc at 1. cbn [c_redirect_uris registered_client].
    rewrite column_read_back by done. cbn [rbind iterate]. apply registered_matches; [done|apply Hacc|done].
  - intros g Hin. unfold allows_grant, grant_type_list. rewrite Hc at 1. cbn [c_grant_types registered_client].
    rewrite column_read_back by done. cbn [rbind]. by apply py_in_strings.
  - intros Hm Hid Hsec mtls s2 Hs2 Hden.
    assert (is_public c = rg_public reg /\ c_token_endpoint_auth_method c = rg_token_endpoint_auth_method reg
      /\ c_enabled c = true) as (Hpc & Hmc & Hen) by (by rewrite Hc).
    apply own_request_authenticates; try done; [| |by rewrite Hmc].
    + rewrite Hs2, Hst. unfold get_client. cbn [clients on_clients].
      rewrite find_app_none; [cbn; by rewrite String.eqb_refl|].
      destruct (List.find _ (clients (a_store s))) as [x|] eqn:Hf; [|done].
      apply find_In in Hf as [Hin Hx]. apply String.eqb_eq in Hx. by destruct (Hnew x Hin).
    + by rewrite Hpc.
Qed.
End register.

(** ** The toy server *)
Definition toy_registration : json := JObj
  [("redirect_uris", jstrs ["https://rp.example/cb"; "http://127.0.0.1/native"]); ("client_name", JStr "rp");
   ("grant_types", jstrs ["authorization_code"; "refresh_token"]); ("scope", JStr "read");
   ("token_endpoint_auth_method", JStr "client_secret_post")].
Definition toy_aton (host : string) : option Z := None.
Definition toy_register (body : json) : result exn response * AppState :=
  register_client toy_brackets toy_aton (toy_config true) (Ok body) (toy_state false false).
Definition toy_answer (body : json) : response :=
  match fst (toy_register body) with Ok r => r | Err _ => registration_disabled end.

Lemma registration_sound_witness : let s := toy_state false false in
  a_store (snd (toy_register toy_registration)) = a_store s
  \/ exists reg c, registered toy_brackets toy_aton (toy_config true) (Ok toy_registration) s reg c
       (snd (toy_register toy_registration))
     /\ toy_answer toy_registration = registration_response (toy_config true) reg c.
Proof.
  apply (registration_sound toy_brackets toy_aton (toy_config true) (Ok toy_registration) (toy_state false false)).
  vm_compute. reflexivity.
Defined.
Lemma registered_client_works_witness : exists reg c,
  toy_answer toy_registration = registration_response (toy_config true) reg c
  /\ (Forall is_text (rg_redirect_uris reg) -> Forall is_text (rg_grant_types reg) ->
      Forall (well_ported toy_brackets) (rg_redirect_uris reg) ->
      usable toy_brackets (toy_config true) reg c (snd (toy_register toy_registration))).
Proof.
  apply (registered_client_works toy_brackets toy_aton (toy_config true) (Ok toy_registration) (toy_state false false)).
  - vm_compute. reflexivity.
  - intros Heq. apply (f_equal (fun st => length (clients st))) in Heq. vm_compute in Heq. discriminate.
  - vm_compute. lia.
Defined.

(** A registration with an empty key set passes the rule that asks for keys,
    and is stored without any. *)
Definition empty_jwks_registration : json := JObj
  [("redirect_uris", jstrs ["https://rp.example/cb"]); ("token_endpoint_auth_method", JStr "private_key_jwt");
   ("jwks", JObj [])].
Lemma empty_jwks_registers :
  r_status (toy_answer empty_jwks_registration) = 201
  /\ option_map (fun c => (c_jwks c, c_jwks_uri c))
       (last (clients (a_store (snd (toy_register empty_jwks_registration))))) = Some (EmptyString, EmptyString).
Proof. split; vm_compute; reflexivity. Qed.
