(* ===== verification/ReplayProps.v ===== *)
(** * Replays, refusals and races at the token endpoint *)
From S2P Require Import Prelude PyStr PyJson Codec Models Storage StoreSpec PyUrl Limits TtlStores.
From S2P Require Import Keys Jwt App Tokens Dpop ClientAuth JwtBearer TokenEndpoint TokenLemmas.
From S2P Require Import TokenOps ToyJwt.
#[local] Open Scope Z_scope.

Section replays.
Context `{JwtLib} `{Runtime} `{Http}.
Context (cbn_ : string -> bool) (config : Config).

Definition family_dead (f : string) (st : Store) : Prop :=
  forall t, In t (tokens st) -> t_token_family t = Some f -> t_revoked t = true.
Lemma revoke_family_dead f st : family_dead f (fst (revoke_token_family f st)).
Proof.
  intros t Ht Hf. cbn [fst revoke_token_family tokens on_tokens] in Ht.
  apply in_update_where in Ht as (x & _ & ->). destruct (in_family f x) eqn:Hx; [done|].
  unfold in_family, oeqb in Hx. rewrite Hf in Hx. cbn in Hx. by rewrite String.eqb_refl in Hx.
Qed.

(** C6: presenting a used authorization code again before it expires is refused
    and revokes every token of the code's family, whatever else the request
    carries. *)
Theorem used_code_revokes_family (rq : Request) (client : Client) (dpop : option DpopValidated)
    (cnf : option pydict) (s : AppState) (code : AuthorizationCode) (v f : string) :
  form_get "code" rq = Some v -> v <> EmptyString ->
  get_authorization_code v (a_store s) = Some code ->
  allows_grant json_limit client "authorization_code" = Ok true ->
  ac_client_id code = c_client_id client -> a_wall s <= ac_expires_at code ->
  ac_used code = true -> ac_token_family code = Some f -> f <> EmptyString ->
  exists s', authorization_code config rq client dpop cnf s = (Ok code_used, s')
    /\ family_dead f (a_store s') /\ a_tokens_issued s' = a_tokens_issued s.
Proof.
  intros Hv Hne Hget Hg Hc Ht Hu Hf Hfne. unfold authorization_code, sbind.
  rewrite (authorization_code_check_used _ _ _ _ _ _ Hv Hne Hget Hg Hc Ht Hu), Hf.
  change (truthy_o (Some f)) with (truthy f). apply truthy_true in Hfne. rewrite Hfne.
  eexists. split; [done|]. split; [|done]. apply revoke_family_dead.
Qed.

(** C5: presenting a revoked refresh token is refused and revokes every token
    of its family. *)
Theorem refresh_reuse_revokes_family (rq : Request) (client : Client) (dpop : option DpopValidated)
    (s : AppState) (old : Token) (v f : string) :
  form_get "refresh_token" rq = Some v -> v <> EmptyString ->
  get_token_by_refresh_token v (a_store s) = Some old ->
  allows_grant json_limit client "refresh_token" = Ok true ->
  t_client_id old = c_client_id client -> t_revoked old = true ->
  t_token_family old = Some f -> f <> EmptyString ->
  exists s', refresh_token cbn_ config rq client dpop s
             = (Ok (oauth_error400 "invalid_grant" "refresh token has been revoked"), s')
    /\ family_dead f (a_store s') /\ a_tokens_issued s' = a_tokens_issued s.
Proof.
  intros Hv Hne Hget Hg Hc Hu Hf Hfne. unfold refresh_token, sbind.
  rewrite (refresh_check_revoked cbn_ config _ _ dpop _ _ _ Hv Hne Hget Hg Hc Hu), Hf.
  change (truthy_o (Some f)) with (truthy f). apply truthy_true in Hfne. rewrite Hfne.
  eexists. split; [done|]. split; [|done]. apply revoke_family_dead.
Qed.

(** A rotation answers 200, or 500 when the id_token cannot be signed. *)
Lemma id_token_tail_status client dpop uid scope n c sel t s r s' :
  with_optional_id_token config client dpop uid scope n c sel t s = (Ok r, s') ->
  r_status r = 200 \/ r_status r = 500.
Proof.
  intros Hr. unfold with_optional_id_token in Hr.
  repeat first [tok_step Hr | handler_step Hr]; tok_clean.
  all: try (match goal with Ev : on_value _ = Some _ |- _ => apply value_status in Ev; subst; auto end).
  all: match goal with E : with_dpop_nonce config ?c ?d ?x ?st = (Ok _, _) |- _ =>
         destruct (with_nonce_ok config c d x st) as (h & s1 & Hh & Hst & _); rewrite Hh in E;
         injection E as <- <-; rewrite Hst; auto end.
Qed.

(** a refresh that is refused with 400 changes nothing in the storage,
    unless it presented a revoked token: a client whose request was malformed
    keeps its refresh token. *)
Theorem refresh_refusal_keeps_tokens (rq : Request) (client : Client) (dpop : option DpopValidated)
    (s s' : AppState) (r : response) :
  refresh_token cbn_ config rq client dpop s = (Ok r, s') -> r_status r = 400 ->
  a_store s' = a_store s
  \/ exists v old, form_get "refresh_token" rq = Some v
       /\ get_token_by_refresh_token v (a_store s) = Some old /\ t_revoked old = true.
Proof.
  intros Hr Hst. unfold refresh_token, sbind in Hr.
  destruct (refresh_check cbn_ config rq client dpop s) as [[[d|p]|e] s1] eqn:Hc; [| |done].
  - injection Hr as <- <-. by apply refresh_check_done in Hc.
  - exfalso. unfold refresh_commit in Hr. repeat tok_step Hr.
    apply id_token_tail_status in Hr. lia.
Qed.


(** a request without a grant_type, or with an unknown one, is answered
    before the client is authenticated and without any effect. *)
Theorem unknown_grant_no_effect (rq : Request) (s : AppState) :
  (forall g, form_get "grant_type" rq = Some g -> ~ In g known_grant_types) ->
  exists e d, token cbn_ config rq s = (Ok (oauth_error400 e d), s)
    /\ (e = "invalid_request" \/ e = "unsupported_grant_type").
Proof.
  intros Hn. unfold token. destruct (form_get "grant_type" rq) as [g|]; [|eexists _, _; split; [done|by left]].
  destruct (truthy_o (Some g)); cbn [negb]; [|eexists _, _; split; [done|by left]].
  cbn [default from_option id]. destruct (mem_str g known_grant_types) eqn:Hm.
  - apply mem_str_In in Hm. by destruct (Hn g eq_refl).
  - eexists _, _. split; [done|by right].
Qed.
End replays.

(** ** A race between two rotations *)

(** Both requests read the refresh token before either revokes it. *)
Definition race_plan : RefreshPlan :=
  mkPlan (toy_token false) "read" None None None.
Definition race_client : Client := toy_client "web" "client_secret_post" "s3cret".
Definition race_first : result exn response * AppState :=
  refresh_commit (toy_config true) race_client None race_plan (toy_state false false).
Definition race_second : result exn response * AppState :=
  refresh_commit (toy_config true) race_client None race_plan (snd race_first).

(** the rotation is not a claim: of two concurrent requests that both read
    a live refresh token, both get new live tokens. *)
Theorem refresh_race_both_succeed :
  refresh_check toy_brackets (toy_config true) refresh_request race_client None (toy_state false false)
  = (Ok (Go race_plan), toy_state false false)
  /\ succeeded (fst race_first) = true /\ succeeded (fst race_second) = true
  /\ map t_revoked (tokens (a_store (snd race_second))) = [true; false; false].
Proof. split; [vm_compute; reflexivity|]. split; [vm_compute; reflexivity|]. split; vm_compute; reflexivity. Qed.

(** ** Witnesses *)
Lemma used_code_revokes_family_witness :
  exists s', authorization_code (toy_config true) code_request (toy_client "spa" "none" EmptyString) None None
               (toy_state true false) = (Ok code_used, s')
    /\ map t_revoked (tokens (a_store s')) = [true].
Proof.
  destruct (used_code_revokes_family (toy_config true) code_request (toy_client "spa" "none" EmptyString)
    None None (toy_state true false) (toy_code true) "code-1" "fam-1" ltac:(vm_compute; reflexivity)
    ltac:(done) ltac:(vm_compute; reflexivity) ltac:(vm_compute; reflexivity) ltac:(vm_compute; reflexivity)
    ltac:(vm_compute; discriminate) ltac:(reflexivity) ltac:(reflexivity) ltac:(done)) as (s' & Hr & _).
  exists s'. split; [exact Hr|]. vm_compute in Hr. injection Hr as <-. vm_compute. reflexivity.
Defined.

Lemma refresh_reuse_revokes_family_witness :
  exists s', refresh_token toy_brackets (toy_config true) refresh_request race_client None (toy_state false true)
             = (Ok (oauth_error400 "invalid_grant" "refresh token has been revoked"), s').
Proof.
  destruct (refresh_reuse_revokes_family toy_brackets (toy_config true) refresh_request race_client None
    (toy_state false true) (toy_token true) "rt-1" "fam-1" ltac:(vm_compute; reflexivity)
    ltac:(done) ltac:(vm_compute; reflexivity) ltac:(vm_compute; reflexivity) ltac:(vm_compute; reflexivity)
    ltac:(reflexivity) ltac:(reflexivity) ltac:(done)) as (s' & Hr & _).
  by exists s'.
Defined.

Definition wide_request : Request := form_request
  [("refresh_token", "rt-1"); ("scope", "read admin")].
Definition wide_run : result exn response * AppState :=
  refresh_token toy_brackets (toy_config true) wide_request race_client None (toy_state false false).
Lemma refresh_refusal_keeps_tokens_witness :
  succeeded (fst wide_run) = false
  /\ (a_store (snd wide_run) = a_store (toy_state false false) \/ exists old : Token, t_revoked old = true).
Proof.
  split; [vm_compute; reflexivity|].
  assert (refresh_token toy_brackets (toy_config true) wide_request race_client None (toy_state false false)
          = (Ok (oauth_error400 "invalid_scope" "requested scope exceeds the original grant"), snd wide_run)) as Hr
    by (vm_compute; reflexivity).
  destruct (refresh_refusal_keeps_tokens _ _ _ _ _ _ _ _ Hr eq_refl) as [Hs|(v & old & _ & _ & Ho)];
    [by left|right; by exists old].
Defined.


Lemma unknown_grant_no_effect_witness :
  exists e d, token toy_brackets (toy_config true) (form_request [("grant_type", "password")])
                (toy_state false false) = (Ok (oauth_error400 e d), toy_state false false)
    /\ (e = "invalid_request" \/ e = "unsupported_grant_type").
Proof.
  apply unknown_grant_no_effect. intros g Hg. vm_compute in Hg. injection Hg as <-.
  intros Hin. apply mem_str_In in Hin. discriminate.
Defined.
