(* ===== verification/TokenErrors.v ===== *)
(** * How the token endpoint answers

    Every run of [token] that returns answers in one of three ways: a grant
    (200, with exactly one token row more), a refusal in the form of RFC 6749,
    section 5.2 (no token row more), or the [server_error] of an ID token that
    could not be signed, after the row was stored.  The handler is walked with
    three judgements: [raises] (which exceptions a computation raises),
    [keeps_rows] (it stores no token) and [answers] (what it answers). *)
From S2P Require Import Prelude PyStr PyJson Codec Models Storage StoreSpec PyUrl Limits TtlStores.
From S2P Require Import Keys Jwt App Tokens Dpop ClientAuth JwtBearer TokenEndpoint TokenLemmas ToyJwt.
#[local] Open Scope Z_scope.

(** What PyJWT raises is no exception of this program. *)
Definition foreign (e : exn) : Prop := exists kind msg, e = PyErr kind msg.
Class JwtErrors `{JwtLib} : Prop := {
  unverified_foreign : forall token e, jwt_decode_unverified token = Err e -> foreign e;
  header_foreign : forall token e, jwt_unverified_header token = Err e -> foreign e;
  decode_foreign : forall now token key options e, jwt_decode now token key options = Err e -> foreign e
}.

(** ** The answers *)
Definition refusal_status (error : string) : Z :=
  if String.eqb error "invalid_client" then 401
  else if String.eqb error "too_many_requests" then 429 else 400.
Record refusal (r : response) : Prop := {
  refusal_error : exists error, error_of r = Some error /\ error <> EmptyString /\ error <> "server_error"
    /\ r_status r = refusal_status error
    /\ (In ("Cache-Control", "no-store") (r_headers r)
        \/ error = "use_dpop_nonce" /\ exists nonce, In ("DPoP-Nonce", nonce) (r_headers r))
}.
Definition granted (access_token : string) (r : response) : Prop :=
  r_status r = 200 /\ In ("Cache-Control", "no-store") (r_headers r)
  /\ exists body, r_body r = JObj body /\ obj_get "access_token" body = Some (JStr access_token).
Definition unsigned (r : response) : Prop :=
  r_status r = 500 /\ error_of r = Some "server_error" /\ In ("Cache-Control", "no-store") (r_headers r).

(** The access tokens of the stored rows. *)
Definition stored_tokens (st : Store) : list string := map t_access_token (tokens st).
Inductive answer (before : Store) (r : response) (after : Store) : Prop :=
| Granted (access_token : string) :
    granted access_token r -> stored_tokens after = stored_tokens before ++ [access_token] -> answer before r after
| Refused : refusal r -> stored_tokens after = stored_tokens before -> answer before r after
| Unsigned (access_token : string) :
    unsigned r -> stored_tokens after = stored_tokens before ++ [access_token] -> answer before r after.

(** ** Which exceptions are raised *)
Definition refusable (e : exn) : Prop :=
  match e with
  | OAuthError error _ status =>
      status = 400 /\ error <> EmptyString /\ error <> "server_error" /\ error <> "too_many_requests"
  | DpopError error _ => error = "invalid_dpop_proof" \/ error = "invalid_request"
  | _ => True
  end.
Definition err_in {A} (r : result exn A) : Prop := forall e, r = Err e -> refusable e.
Definition raises {A} (m : M A) : Prop := forall s e s', m s = (Err e, s') -> refusable e.

Lemma foreign_refusable e : foreign e -> refusable e.
Proof. by intros (k & m & ->). Qed.
Lemma err_in_ok {A} (a : A) : err_in (Ok a).
Proof. by intros e. Qed.
Lemma err_in_err {A} e : refusable e -> err_in (A:=A) (Err e).
Proof. by intros Hr e' [= <-]. Qed.
Lemma err_in_bind {A B} (r : result exn A) (k : A -> result exn B) : err_in r -> (forall a, err_in (k a)) -> err_in (rbind r k).
Proof. intros Hr Hk e. destruct r; cbn; [apply Hk|]. intros [= <-]. by apply Hr. Qed.
Lemma err_in_map {A B} (f : A -> B) (r : result exn A) : err_in r -> err_in (rmap f r).
Proof. intros Hr e. destruct r; cbn; [done|]. intros [= <-]. by apply Hr. Qed.
Lemma err_in_catch {A} (r : result exn A) h : err_in r -> (forall e, refusable e -> err_in (h e)) -> err_in (rcatch r h).
Proof. intros Hr Hh e. destruct r; cbn; [done|]. apply Hh. by apply Hr. Qed.
Lemma err_in_catch_any {A} (r : result exn A) h : (forall e, err_in (h e)) -> err_in (rcatch r h).
Proof. intros Hh e. destruct r; cbn; [done|]. apply Hh. Qed.
Lemma raises_ret {A} (a : A) : raises (sret a).
Proof. by intros s e s'. Qed.
Lemma raises_raise {A} e : refusable e -> raises (A:=A) (sraise e).
Proof. by intros Hr s e' s' [= <- _]. Qed.
Lemma raises_bind {A B} (m : M A) (k : A -> M B) : raises m -> (forall a, raises (k a)) -> raises (sbind m k).
Proof.
  intros Hm Hk s e s'. unfold sbind. specialize (Hm s). destruct (m s) as [[a|e0] s1]; [apply Hk|].
  intros [= <- _]. by eapply Hm.
Qed.
Lemma raises_catch {A} (m : M A) h : (forall e, raises (h e)) -> raises (scatch m h).
Proof. intros Hh s e s'. unfold scatch. destruct (m s) as [[a|e0] s1]; [done|]. apply Hh. Qed.
Lemma raises_catch_of {A} (m : M A) h : raises m -> (forall e, refusable e -> raises (h e)) -> raises (scatch m h).
Proof. intros Hm Hh s e s'. unfold scatch. specialize (Hm s). destruct (m s) as [[a|e0] s1]; [done|]. apply Hh. by eapply Hm. Qed.
Lemma raises_lift {A} (r : result exn A) : err_in r -> raises (slift r).
Proof. intros Hr s e s' [= He _]. by apply Hr. Qed.
Lemma raises_never {A} (m : M A) : (forall s, is_ok (fst (m s)) = true) -> raises m.
Proof. intros Hm s e s' Hr. specialize (Hm s). by rewrite Hr in Hm. Qed.
Create HintDb raising.
Create HintDb answering.
Hint Resolve err_in_ok raises_ret : raising.
Hint Extern 1 (refusable _) => (by cbn; try (split_and! ; done); auto) : raising.
Hint Extern 1 (raises (sget _)) => (by apply raises_never) : raising.
Hint Extern 1 (raises (query _)) => (by apply raises_never) : raising.
Hint Extern 1 (raises (smod _)) => (by apply raises_never) : raising.
Hint Extern 1 (raises (draw _)) => (by apply raises_never) : raising.
Hint Extern 1 (raises (emit_event _ _ _ _ _)) => (by apply raises_never) : raising.

(** Walks through the branches of a [raises] or an [err_in] goal. *)
Ltac err_walk :=
  repeat first
    [ progress intros
    | solve [eauto 3 with raising]
    | match goal with
      | |- err_in (if ?b then _ else _) => destruct b
      | |- err_in (match ?x with _ => _ end) => destruct x eqn:?
      | |- raises (if ?b then _ else _) => destruct b
      | |- raises (match ?x with _ => _ end) => destruct x eqn:?
      | E : ?r = Err ?e |- refusable ?e => let Hr := fresh in cut (err_in r); [intros Hr; exact (Hr _ E)|]
      | |- err_in (Err _) => apply err_in_err
      | |- raises (sraise _) => apply raises_raise
      | |- refusable (if ?b then _ else _) => destruct b
      | |- raises (slift _) => apply raises_lift
      | |- err_in (rbind _ _) => apply err_in_bind
      | |- err_in (rmap _ _) => apply err_in_map
      | |- err_in (rcatch _ _) => apply err_in_catch_any; solve [intros; apply err_in_err; cbn; auto]
      | |- err_in (rcatch _ _) => apply err_in_catch
      | |- raises (sbind _ _) => apply raises_bind
      end ].

Lemma err_in_loads limit s : err_in (py_json_loads limit s).
Proof. unfold py_json_loads. err_walk. Qed.
Hint Resolve err_in_loads : raising.

Section errors.
Context `{JwtLib} `{Runtime} `{Http} `{!JwtErrors}.
Context (cbn_ : string -> bool) (config : Config).

Lemma err_in_unverified token : err_in (jwt_decode_unverified token).
Proof. intros e He. by eapply foreign_refusable, unverified_foreign. Qed.
Lemma err_in_header token : err_in (jwt_unverified_header token).
Proof. intros e He. by eapply foreign_refusable, header_foreign. Qed.
Lemma err_in_decode now token key options : err_in (jwt_decode now token key options).
Proof. intros e He. by eapply foreign_refusable, decode_foreign. Qed.
Hint Resolve err_in_unverified err_in_header err_in_decode : raising.

(** ** Client authentication *)
Lemma err_in_credentials rq : err_in (presented_credentials rq).
Proof.
  unfold presented_credentials, parse_basic_auth, unverified_assertion_subject.
  err_walk.
Qed.
Lemma err_in_fetch mono url : err_in (fetch_from_url mono url).
Proof. unfold fetch_from_url, parse_cache_control_max_age. err_walk. Qed.
Hint Resolve err_in_fetch : raising.
Lemma raises_jwks url : raises (jwks_fetch url).
Proof. unfold jwks_fetch. err_walk. Qed.
Hint Resolve raises_jwks : raising.
Lemma raises_resolve client methods : raises (resolve_client_jwks client methods).
Proof. unfold resolve_client_jwks. err_walk. Qed.
Lemma err_in_float v r : to_float v = Some r -> err_in r.
Proof. unfold to_float. destruct v as [| | | |[]| | |]; try done; intros [= <-]; err_walk. Qed.
Lemma observe_errors now client_id jti ttl g e : fst (Replay.observe now client_id jti ttl g) = Err e -> refusable e.
Proof.
  unfold Replay.observe. destruct (_ !! _); [done|]. destruct (_ <=? _)%nat; [|done]. by intros [= <-].
Qed.
Lemma raises_jti client_id claims : raises (enforce_jti_replay client_id claims).
Proof.
  unfold enforce_jti_replay. err_walk.
  all: try (by eapply err_in_float).
  all: match goal with E : Replay.observe ?a ?b ?c ?d ?g = (Err ?e, _), He : ?r = Err ?e |- err_in ?r =>
         rewrite He; apply err_in_err, (observe_errors a b c d g); by rewrite E end.
Qed.
Lemma err_in_rsa_key jwks kid context : err_in (rsa_key_from_jwks jwks kid "invalid_client" context).
Proof. unfold rsa_key_from_jwks. err_walk. Qed.
Hint Resolve err_in_credentials raises_resolve raises_jti err_in_rsa_key : raising.
Lemma raises_assertion client assertion url jwks : raises (validate_client_assertion client assertion url jwks).
Proof. unfold validate_client_assertion. err_walk. Qed.
Hint Resolve raises_assertion : raising.
Lemma raises_check client secret rq mtls : raises (check_credentials config client secret rq mtls).
Proof.
  unfold check_credentials, authenticate_jwt, authenticate_self_signed_tls, authenticate_tls_client_auth,
    jwks_keys, emit_client_validated. err_walk.
Qed.
Hint Resolve raises_check : raising.
Lemma raises_authenticate rq mtls : raises (authenticate config rq mtls).
Proof. unfold authenticate. err_walk. Qed.

(** ** Resources, proofs, assertions *)
Lemma err_in_resource rq : err_in (requested_resource cbn_ rq).
Proof.
  unfold requested_resource, validate_resource, check_len, urlsplit. err_walk.
Qed.
Lemma err_in_dpop_header rq : err_in (read_dpop_header rq).
Proof. unfold read_dpop_header. err_walk. Qed.
Lemma err_in_nonce now v i : err_in (enforce_dpop_nonce now v i).
Proof.
  assert (Hv : forall nonce, err_in (verify_nonce now i nonce)) by (intros nonce; unfold verify_nonce; err_walk).
  unfold enforce_dpop_nonce. err_walk.
Qed.
Lemma err_in_proof now proof method url tok : err_in (check_proof cbn_ now proof method url tok).
Proof.
  unfold check_proof, jwk_thumbprint, check_alg, strip_query, urlsplit. err_walk.
  by eapply err_in_float.
Qed.
Lemma raises_proof proof method url tok : raises (validate_dpop_proof cbn_ proof method url tok).
Proof.
  assert (forall jti, raises (fun s => let '(r, m) := Replay.check_and_insert (a_mono s) jti (a_dpop_replay s) in
                                       (r, with_dpop_replay s m))).
  { intros jti s e s'. unfold Replay.check_and_insert. destruct (_ !! _); intros [= <- _]; by left. }
  pose proof err_in_proof. unfold validate_dpop_proof. err_walk.
Qed.
Lemma err_in_client limit ti client_id : err_in (allows_client limit ti client_id).
Proof. unfold allows_client. err_walk. Qed.
Lemma raises_verify assertion ti header iss url : raises (verify_assertion assertion ti header iss url).
Proof.
  unfold verify_assertion, select_key, allowed_audiences_list, ti_list, jwt_or. err_walk.
  apply raises_catch_of; err_walk.
Qed.
Lemma raises_replay iss claims : raises (enforce_replay iss claims).
Proof.
  unfold enforce_replay, numeric_date. err_walk.
  all: match goal with E : Replay.observe ?a ?b ?c ?d ?g = (Err ?e, _), He : ?r = Err ?e |- err_in ?r =>
         rewrite He; apply err_in_err, (observe_errors a b c d g); by rewrite E end.
Qed.
Lemma raises_denylisted username email : raises (reject_if_denylisted username email).
Proof. unfold reject_if_denylisted. err_walk. Qed.
Hint Resolve raises_verify raises_replay raises_denylisted err_in_client : raising.
Lemma raises_provision ti sub email claims : raises (jit_provision ti sub email claims).
Proof. unfold jit_provision. err_walk. apply raises_catch. err_walk. Qed.
Hint Resolve raises_provision : raising.
Lemma raises_subject ti claims : raises (resolve_subject ti claims).
Proof. unfold resolve_subject. err_walk. Qed.
Hint Resolve raises_subject : raising.
Lemma raises_redeem assertion client iss url : raises (redeem_jwt_bearer_assertion assertion client iss url).
Proof. unfold redeem_jwt_bearer_assertion, unverified_header_and_iss, numeric_date, jwt_or. err_walk. Qed.

(** ** Refusals *)
Lemma refusal_error400 error d : error <> EmptyString -> error <> "server_error" -> error <> "too_many_requests" ->
  refusal (oauth_error error d 400).
Proof.
  intros He Hs Ht. constructor. exists error. unfold oauth_error, refusal_status. cbn [r_status r_headers error_of r_body].
  split_and! ; [done..| |left; by left]. destruct (String.eqb error "invalid_client"); [done|].
  by destruct (String.eqb_spec error "too_many_requests").
Qed.
Lemma refusal_on_oauth e r : refusable e -> on_oauth e = Some r -> refusal r.
Proof. destruct e; try done. intros (-> & ? & ? & ?) [= <-]. by apply refusal_error400. Qed.
Lemma refusal_on_dpop e r : refusable e -> on_dpop e = Some r -> refusal r.
Proof. destruct e; try done. intros [->| ->] [= <-]; by apply refusal_error400. Qed.
Lemma refusal_on_rar e r : refusable e -> on_rar e = Some r -> refusal r.
Proof. destruct e; try done. intros _ [= <-]. by apply refusal_error400. Qed.
Lemma refusal_on_limit e r : refusable e -> on_limit e = Some r -> refusal r.
Proof. destruct e; try done. intros _ [= <-]. by apply refusal_error400. Qed.
Hint Resolve refusal_on_oauth refusal_on_dpop refusal_on_rar refusal_on_limit : answering.
Hint Extern 1 (refusal (oauth_error400 _ _)) => (by apply refusal_error400) : answering.
Lemma refusal_slow_down i : refusal (slow_down i).
Proof. constructor. exists "slow_down". split_and! ; [done..|left; by left]. Qed.
Lemma refusal_too_many n : refusal (too_many_requests n).
Proof. constructor. exists "too_many_requests". split_and! ; [done..|left; by left]. Qed.
Lemma refusal_nonce now i d : refusal (use_dpop_nonce_response now i d).
Proof. constructor. exists "use_dpop_nonce". split_and! ; [done..|right; split; [done|]]. eexists. by left. Qed.
Hint Resolve refusal_slow_down refusal_too_many refusal_nonce : answering.
Lemma refusal_pkce rq code r : check_pkce rq code = Some r -> refusal r.
Proof.
  unfold check_pkce. intros Hr.
  repeat match type of Hr with (if ?b then _ else _) = _ => destruct b end; try done; injection Hr as <-; by apply refusal_error400.
Qed.
Lemma refusal_unsupported p : refusal (unsupported_type p).
Proof. by apply refusal_error400. Qed.
Lemma refusal_constants : refusal unauthorized_client /\ refusal code_used /\ refusal device_used.
Proof. split_and! ; by apply refusal_error400. Qed.
Hint Extern 1 (refusal _) => apply refusal_constants : answering.
Hint Resolve refusal_pkce refusal_unsupported : answering.

(** ** Computations that store no token *)
Definition keeps_rows {A} (m : M A) : Prop := forall s, stored_tokens (a_store (snd (m s))) = stored_tokens (a_store s).
Lemma rows_quiet {A} (m : M A) : quiet m -> keeps_rows m.
Proof. intros Hm s. by rewrite Hm. Qed.
Lemma rows_bind {A B} (m : M A) (k : A -> M B) : keeps_rows m -> (forall a, keeps_rows (k a)) -> keeps_rows (sbind m k).
Proof.
  intros Hm Hk s. unfold sbind. specialize (Hm s). destruct (m s) as [[a|e] s1]; cbn in *; [|done]. by rewrite Hk.
Qed.
Lemma rows_catch {A} (m : M A) h : keeps_rows m -> (forall e, keeps_rows (h e)) -> keeps_rows (scatch m h).
Proof.
  intros Hm Hh s. unfold scatch. specialize (Hm s). destruct (m s) as [[a|e] s1]; cbn in *; [done|]. by rewrite Hh.
Qed.
Lemma rows_try {A B} (m : M A) h (k : A -> M B) : keeps_rows m -> (forall e r, h e = Some r -> keeps_rows r) ->
  (forall a, keeps_rows (k a)) -> keeps_rows (try_ m h k).
Proof.
  intros Hm Hh Hk s. unfold try_. specialize (Hm s). destruct (m s) as [[a|e] s1]; cbn in *; [by rewrite Hk|].
  destruct (h e) eqn:He; cbn; [|done]. by rewrite (Hh _ _ He).
Qed.
Lemma stored_on_tokens f st : stored_tokens (on_tokens f st) = map t_access_token (f (tokens st)).
Proof. done. Qed.
Lemma rows_update f : (forall st, stored_tokens (f st) = stored_tokens st) -> keeps_rows (update f).
Proof. intros Hf s. apply Hf. Qed.
Lemma rows_update_count f : (forall st, stored_tokens (fst (f st)) = stored_tokens st) -> keeps_rows (update_count f).
Proof. intros Hf s. unfold update_count. specialize (Hf (a_store s)). by destruct (f (a_store s)). Qed.
Lemma rows_revoke v : keeps_rows (update (revoke_token v)).
Proof. apply rows_update. intros st. unfold revoke_token. rewrite stored_on_tokens. by apply map_update_where. Qed.
Lemma rows_family f : keeps_rows (update_count (revoke_token_family f)).
Proof.
  apply rows_update_count. intros st. cbn [fst revoke_token_family]. rewrite stored_on_tokens. by apply map_update_where.
Qed.
Lemma rows_mark_code c : keeps_rows (update_count (mark_authorization_code_used c)).
Proof. by apply rows_update_count. Qed.
Lemma rows_mark_device c : keeps_rows (update_count (mark_device_authorization_used c)).
Proof. by apply rows_update_count. Qed.
Lemma rows_save_user u : keeps_rows (insert (save_user u)).
Proof. intros s. unfold insert, save_user. by destruct (existsb _ _). Qed.
Create HintDb keeping.
Hint Resolve rows_revoke rows_family rows_mark_code rows_mark_device rows_save_user : keeping.
Hint Extern 2 (keeps_rows _) => (apply rows_quiet; solve [eauto 2 with oauth]) : keeping.
Ltac rows_walk :=
  repeat first
    [ solve [eauto 2 with keeping]
    | match goal with
      | |- forall _, _ => intro
      | |- keeps_rows (if ?b then _ else _) => destruct b
      | |- keeps_rows (match ?x with _ => _ end) => destruct x
      | |- keeps_rows (sbind _ _) => apply rows_bind
      | |- keeps_rows (scatch _ _) => apply rows_catch
      | |- keeps_rows (try_ _ _ _) => apply rows_try
      end ].
Lemma rows_reply h e (r : M response) : reply h e = Some r -> keeps_rows r.
Proof. intros Hr. by eapply rows_quiet, quiet_reply. Qed.
Lemma rows_refuse {A} h e (r : M (verdict A)) : refuse h e = Some r -> keeps_rows r.
Proof. intros Hr. by eapply rows_quiet, quiet_refuse. Qed.
Hint Resolve rows_reply rows_refuse : keeping.
Lemma rows_code_family code : keeps_rows (revoke_code_family code).
Proof. unfold revoke_code_family. rows_walk. Qed.
Lemma rows_observe d : keeps_rows (observe_poll d).
Proof. intros s. unfold observe_poll. by destruct (DevicePoll.observe _ _ _ _). Qed.
Lemma rows_created u c sc b : keeps_rows (token_created u c sc b).
Proof. by apply rows_quiet. Qed.
Lemma rows_guard f : keeps_rows (smod (fun s => with_guard s (f s))).
Proof. done. Qed.
Lemma rows_poll f : keeps_rows (smod (fun s => with_device_poll s (f s))).
Proof. done. Qed.
Hint Resolve rows_code_family rows_observe rows_created rows_guard rows_poll : keeping.
Lemma rows_redeem assertion client iss url : keeps_rows (redeem_jwt_bearer_assertion assertion client iss url).
Proof.
  unfold redeem_jwt_bearer_assertion, verify_assertion, enforce_replay, resolve_subject, jit_provision,
    reject_if_denylisted. rows_walk.
Qed.
Lemma rows_proof proof method url tok : keeps_rows (validate_dpop_proof cbn_ proof method url tok).
Proof.
  apply rows_quiet. unfold validate_dpop_proof. quiet_walk. by destruct (Replay.check_and_insert _ _ _).
Qed.
Hint Resolve rows_redeem rows_proof : keeping.

(** ** Checks: an early answer is a refusal *)
Definition refusing {A} (v : verdict A) : Prop := match v with Done r => refusal r | Go _ => True end.
Lemma returns_try_of {A B} (P : B -> Prop) (m : M A) h (k : A -> M B) : raises m ->
  (forall e r, refusable e -> h e = Some r -> returns P r) -> (forall a, returns P (k a)) -> returns P (try_ m h k).
Proof.
  intros Hm Hh Hk s b s'. unfold try_. specialize (Hm s). destruct (m s) as [[a|e] s1]; [apply Hk|].
  destruct (h e) as [r|] eqn:Hr; [|done]. eapply Hh; [by eapply Hm|done].
Qed.
Lemma returns_try_lift {A B} (P : B -> Prop) (x : result exn A) h (k : A -> M B) : err_in x ->
  (forall e r, refusable e -> h e = Some r -> returns P r) -> (forall a, x = Ok a -> returns P (k a)) -> returns P (try_ (slift x) h k).
Proof.
  intros Hm Hh Hk s b s'. unfold try_, slift. destruct x as [a|e]; [by apply Hk|].
  destruct (h e) as [r|] eqn:Hr; [|done]. eapply Hh; [by apply Hm|done].
Qed.
Lemma refusal_challenge now v i r : enforce_dpop_nonce now v i = Ok (Some r) -> refusal r.
Proof.
  unfold enforce_dpop_nonce. intros Hr.
  repeat match type of Hr with (match ?x with _ => _ end) = _ => destruct x end; try done; injection Hr as <-; apply refusal_nonce.
Qed.
Lemma returns_any {A B} (P : B -> Prop) (m : M A) (k : A -> M B) : (forall a, returns P (k a)) -> returns P (sbind m k).
Proof. intros Hk. by apply (returns_bind (fun _ => True)). Qed.
Lemma returns_refuse {A} h e (r : M (verdict A)) : (forall x, h e = Some x -> refusal x) -> refuse h e = Some r -> returns refusing r.
Proof. unfold refuse. destruct (h e); [|done]. intros Hx [= <-]. apply returns_ret. by apply Hx. Qed.
Ltac check_walk :=
  repeat first
    [ progress cbv beta zeta
    | match goal with
      | |- forall _, _ => intro
      | |- returns _ (if ?b then _ else _) => destruct b
      | |- returns _ (match ?x with _ => _ end) => destruct x eqn:?
      | |- returns _ (sret (Go _)) => by apply returns_ret
      | |- returns _ (sret (Done _)) => apply returns_ret; cbn [refusing]; try solve [eauto 2 with answering]
      | |- returns _ (sbind _ _) => apply returns_any
      | |- returns _ (try_ (slift _) _ _) => apply returns_try_lift
      | |- returns _ (try_ _ _ _) => apply returns_try_of
      | E : refuse _ _ = Some ?r |- returns _ ?r => eapply returns_refuse, E
      | |- refusal _ => solve [eauto 3 with answering]
      | |- err_in _ => solve [eauto 2 with raising]
      | |- raises _ => solve [eauto 2 with raising]
      end ].
Lemma err_in_depth v name depth : err_in (check_depth v name depth).
Proof.
  assert (forall fuel stack, err_in (depth_walk fuel stack name depth)); [|unfold check_depth; auto].
  induction fuel as [|fuel IH]; intros [|[node d] stack]; cbn [depth_walk]; err_walk.
Qed.
Lemma err_in_types allowed l : err_in (check_rar_types allowed l).
Proof. induction l as [|entry l IH]; cbn [check_rar_types]; err_walk. Qed.
Hint Resolve err_in_depth err_in_types : raising.
Lemma err_in_details raw : err_in (parse_details config raw).
Proof.
  unfold parse_details, validate_authorization_details, check_json_param, check_len. err_walk.
Qed.
Hint Resolve err_in_details err_in_resource err_in_dpop_header err_in_nonce raises_redeem raises_proof raises_authenticate : raising.

(** ** The checks of the grants *)
Lemma refuse_code rq client : returns refusing (authorization_code_check config rq client).
Proof. unfold authorization_code_check. check_walk. Qed.
Lemma refuse_refresh rq client dpop : returns refusing (refresh_check cbn_ config rq client dpop).
Proof. unfold refresh_check. check_walk. Qed.
Lemma refuse_device rq client : returns refusing (device_check cbn_ rq client).
Proof. unfold device_check. check_walk. Qed.
Lemma refuse_dpop rq client : returns refusing (check_dpop cbn_ config rq client).
Proof. unfold check_dpop. check_walk. subst. by eapply refusal_challenge. Qed.

(** ** Answers *)
Definition answers (m : M response) : Prop := forall s r s', m s = (Ok r, s') -> answer (a_store s) r (a_store s').
(** What follows the storing of the row of [access_token]. *)
Definition completes (access_token : string) (m : M response) : Prop := forall s r s', m s = (Ok r, s') ->
  stored_tokens (a_store s') = stored_tokens (a_store s) /\ (granted access_token r \/ unsigned r).

Lemma answer_after before mid r after : stored_tokens mid = stored_tokens before -> answer mid r after -> answer before r after.
Proof. intros Hm [v Hg Ha|Hr Ha|v Hu Ha]; rewrite Hm in Ha; [by apply (Granted _ _ _ v)|by apply Refused|by apply (Unsigned _ _ _ v)]. Qed.
Lemma answers_refuse r : refusal r -> answers (sret r).
Proof. intros Hr s x s' [= <- <-]. by apply Refused. Qed.
Lemma answers_bind_post {A} (Q : A -> Prop) (m : M A) k : keeps_rows m -> returns Q m -> (forall a, Q a -> answers (k a)) -> answers (sbind m k).
Proof.
  intros Hm Hq Hk s r s' Hr. apply bind_ok in Hr as (a & s1 & Ha & Hr).
  specialize (Hm s). rewrite Ha in Hm. eapply answer_after; [exact Hm|]. eapply Hk; [by eapply Hq|exact Hr].
Qed.
Lemma answers_bind {A} (m : M A) k : keeps_rows m -> (forall a, answers (k a)) -> answers (sbind m k).
Proof. intros Hm Hk. by apply (answers_bind_post (fun _ => True)). Qed.
Lemma answers_try {A} (m : M A) h k : keeps_rows m -> raises m -> (forall e r, refusable e -> h e = Some r -> answers r) ->
  (forall a, answers (k a)) -> answers (try_ m h k).
Proof.
  intros Hm He Hh Hk s r s'. unfold try_. specialize (Hm s). specialize (He s). destruct (m s) as [[a|e] s1]; cbn in Hm.
  - intros Hr. eapply answer_after; [exact Hm|]. by eapply Hk.
  - destruct (h e) as [x|] eqn:Hx; [|done]. intros Hr. eapply answer_after; [exact Hm|].
    eapply Hh; [by eapply He|exact Hx|exact Hr].
Qed.
Lemma answers_reply h e r : (forall x, h e = Some x -> refusal x) -> reply h e = Some r -> answers r.
Proof. unfold reply. destruct (h e); [|done]. intros Hx [= <-]. apply answers_refuse. by apply Hx. Qed.
Lemma answers_issue client uid scope a k : (forall t, completes (tr_access_token t) (k t)) ->
  answers (sbind (issue config client uid scope a) k).
Proof.
  intros Hk s r s' Hr. apply bind_ok in Hr as (t & s1 & Ht & Hr).
  apply issue_ok in Ht as [(row & Hrow & Hv & _) _ _ _ _ _]. apply Hk in Hr as [Hs Hr].
  assert (stored_tokens (a_store s') = stored_tokens (a_store s) ++ [tr_access_token t]) as Ha.
  { rewrite Hs. unfold stored_tokens. rewrite Hrow, map_app. cbn. by rewrite Hv. }
  destruct Hr; [by eapply Granted|by eapply Unsigned].
Qed.
Lemma completes_bind {A} v (m : M A) k : keeps_rows m -> (forall a, completes v (k a)) -> completes v (sbind m k).
Proof.
  intros Hm Hk s r s' Hr. apply bind_ok in Hr as (a & s1 & Ha & Hr). specialize (Hm s). rewrite Ha in Hm. cbn in Hm.
  apply Hk in Hr as [Hs Hr]. split; [congruence|done].
Qed.
Lemma completes_sign {A} v (m : M A) k : keeps_rows m -> (forall a, completes v (k a)) -> completes v (try_ m (reply on_value) k).
Proof.
  intros Hm Hk s r s'. unfold try_. specialize (Hm s). destruct (m s) as [[a|e] s1]; cbn in Hm.
  - intros Hr. apply Hk in Hr as [Hs Hr]. split; [congruence|done].
  - unfold reply, on_value. destruct (is_value_error e); [|done]. cbn. intros [= <- <-]. split; [done|right]. split_and! ; [done..|by left].
Qed.
Lemma completes_nonce client dpop r v : granted v r -> completes v (with_dpop_nonce config client dpop r).
Proof.
  intros (Hs & Hh & Hb) s x s' Hr. split.
  - pose proof (quiet_with_nonce config client dpop r s) as Hq. rewrite Hr in Hq. cbn in Hq. by rewrite Hq.
  - left. unfold with_dpop_nonce in Hr. destruct (c_dpop_nonce_required client && _); run_simpl Hr; injection Hr as <- <-; [|done].
    split_and! ; [done|cbn; apply in_app_iff; by left|done].
Qed.
Lemma granted_success t v : tr_access_token t = v -> granted v (success_response t).
Proof. intros <-. split_and! ; [done|by left|]. eexists. split; [done|]. done. Qed.
Lemma rows_lift {A} (r : result exn A) : keeps_rows (slift r).
Proof. by apply rows_quiet. Qed.
Lemma completes_id_token client dpop uid scope nonce code sel t :
  completes (tr_access_token t) (with_optional_id_token config client dpop uid scope nonce code sel t).
Proof.
  unfold with_optional_id_token. destruct (_ && _); [|by apply completes_nonce, granted_success].
  repeat (apply completes_bind; [rows_walk|intros ?]). apply completes_sign; [apply rows_lift|]. intros idt. by apply completes_nonce, granted_success.
Qed.
Lemma answers_invalid_client cid d : answers (invalid_client_response cid d).
Proof.
  unfold invalid_client_response. apply answers_bind; [rows_walk|]. intros [l|]; [|by apply answers_refuse, refusal_error400].
  destruct (truthy_o cid); [|by apply answers_refuse, refusal_error400].
  do 2 (apply answers_bind; [rows_walk|intros ?]). destruct (Limiter.check _ _ _ _) as [res l'].
  apply answers_bind; [by intros s|]. intros _. apply answers_refuse. destruct (negb _); [apply refusal_too_many|by apply refusal_error400].
Qed.

(** Walks through the branches of an [answers] goal. *)
Hint Resolve rows_lift completes_id_token : keeping.
Ltac answer_walk :=
  repeat first
    [ progress cbv beta zeta
    | match goal with
      | |- forall _, _ => intro
      | |- answers (if ?b then _ else _) => destruct b
      | |- answers (match ?x with _ => _ end) => destruct x eqn:?
      | |- answers (sret _) => apply answers_refuse
      | |- refusal _ => solve [eauto 3 with answering]
      | |- answers (invalid_client_response _ _) => apply answers_invalid_client
      | |- answers (sbind (issue _ _ _ _ _) _) => apply answers_issue
      | |- answers (sbind _ _) => apply answers_bind; [solve [rows_walk]|]
      | |- answers (try_ (slift _) _ _) => apply answers_try; [apply rows_lift|apply raises_lift|..]
      | |- answers (try_ _ _ _) => apply answers_try; [solve [rows_walk]|..]
      | E : reply _ _ = Some ?r |- answers ?r => eapply answers_reply, E
      | |- err_in _ => solve [eauto 2 with raising]
      | |- raises _ => solve [eauto 2 with raising]
      | |- completes _ (if ?b then _ else _) => destruct b
      | |- completes _ (sbind _ _) => apply completes_bind; [solve [rows_walk]|]
      | |- completes _ (try_ _ (reply on_value) _) => apply completes_sign; [solve [rows_walk]|]
      | |- completes _ (with_dpop_nonce _ _ _ _) => apply completes_nonce
      | |- completes _ (with_optional_id_token _ _ _ _ _ _ _ _ _) => apply completes_id_token
      | |- granted _ (success_response _) => by apply granted_success
      | |- granted _ (mkResponse 200 _ _) => split_and! ; [done|by left|by eexists]
      end ].

Lemma answers_credentials rq client dpop cnf : answers (client_credentials cbn_ config rq client dpop cnf).
Proof. unfold client_credentials. answer_walk. Qed.
Lemma answers_verdict {A} (m : M (verdict A)) (k : A -> M response) : keeps_rows m -> returns refusing m ->
  (forall a, answers (k a)) -> answers (sbind m (fun v => match v with Done r => sret r | Go a => k a end)).
Proof. intros Hm Hr Hk. apply (answers_bind_post refusing); [done..|]. intros [r|a] Ha; [by apply answers_refuse|apply Hk]. Qed.
Lemma answers_code_commit client dpop cnf code details : answers (authorization_code_commit config client dpop cnf code details).
Proof. unfold authorization_code_commit. answer_walk. Qed.
Lemma answers_code rq client dpop cnf : answers (authorization_code config rq client dpop cnf).
Proof.
  unfold authorization_code. apply (answers_verdict _ (fun p => let '(code, details) := p in _)); [|apply refuse_code|].
  - unfold authorization_code_check. rows_walk.
  - intros [code details]. apply answers_code_commit.
Qed.
Lemma answers_refresh rq client dpop : answers (refresh_token cbn_ config rq client dpop).
Proof.
  unfold refresh_token. apply answers_verdict; [|apply refuse_refresh|].
  - unfold refresh_check. rows_walk.
  - intros p. unfold refresh_commit. answer_walk.
Qed.
Lemma answers_device rq client dpop : answers (device_code cbn_ config rq client dpop).
Proof.
  unfold device_code. apply (answers_verdict _ (fun p => let '(device, resource) := p in _)); [|apply refuse_device|].
  - unfold device_check. rows_walk.
  - intros [device resource]. unfold device_commit. answer_walk.
Qed.
Lemma answers_exchange rq client dpop cnf : answers (token_exchange cbn_ config rq client dpop cnf).
Proof. unfold token_exchange. answer_walk. Qed.
Lemma answers_bearer rq client dpop cnf : answers (jwt_bearer cbn_ config rq client dpop cnf).
Proof. unfold jwt_bearer. answer_walk. Qed.
Lemma answers_dispatch grant rq client dpop : In grant known_grant_types -> answers (dispatch cbn_ config grant rq client dpop).
Proof.
  intros Hg. unfold dispatch.
  repeat match goal with |- answers (if ?b then _ else _) => destruct b eqn:? end;
    eauto using answers_credentials, answers_code, answers_refresh, answers_device, answers_exchange, answers_bearer.
  exfalso. unfold known_grant_types in Hg. cbn [In] in Hg.
  repeat match goal with E : String.eqb _ _ = false |- _ => apply String.eqb_neq in E end. naive_solver.
Qed.
Lemma answers_auth_failed rq e r : refusable e -> auth_failed rq e = Some r -> answers r.
Proof.
  intros He. unfold auth_failed. destruct e as [error d status| | | | | |]; try done. intros [= <-].
  destruct He as (-> & ? & ? & ?). apply answers_bind; [rows_walk|intros _].
  destruct (String.eqb error "invalid_client"); [|by apply answers_refuse, refusal_error400].
  apply answers_bind; [rows_walk|intros cid]. apply answers_invalid_client.
Qed.

(** C31: every answer of the token endpoint is either a grant - 200 with
    no-store and an access_token, and exactly that token stored more - or a
    refusal in the form of RFC 6749 - an error code with the status that goes
    with it (401 for invalid_client, 429 for a throttled client, else 400),
    not to be cached, and no token stored - or, when the ID token cannot be
    signed, the server_error answer after the token was stored. *)
Theorem token_answers (rq : Request) (s s' : AppState) (r : response) :
  token cbn_ config rq s = (Ok r, s') -> answer (a_store s) r (a_store s').
Proof.
  revert s r s'. change (answers (token cbn_ config rq)). unfold token.
  destruct (negb (truthy_o _)); [by apply answers_refuse, refusal_error400|].
  destruct (mem_str _ known_grant_types) eqn:Hm; cbn [negb]; [|by apply answers_refuse, refusal_error400].
  apply mem_str_In in Hm. apply answers_try; [rows_walk|apply raises_authenticate|apply answers_auth_failed|].
  intros client. apply answers_verdict; [|apply refuse_dpop|intros dpop; by apply answers_dispatch].
  unfold check_dpop. rows_walk.
Qed.
End errors.

(** ** The toy library raises nothing of the program's *)
#[export] Instance toy_errors : JwtErrors.
Proof.
  assert (Hj : forall part e, toy_json part = Err e -> foreign e).
  { intros part e. unfold toy_json.
    repeat match goal with |- (match ?x with _ => _ end) = _ -> _ => destruct x end; intros [= <-]; by eexists _, _. }
  constructor.
  - intros token e. cbn. unfold toy_unverified. destruct (toy_split token) as [[[h p] sg]|]; [apply Hj|]. intros [= <-]. by eexists _, _.
  - intros token e. cbn. unfold toy_header. destruct (toy_split token) as [[[h p] sg]|]; [apply Hj|]. intros [= <-]. by eexists _, _.
  - intros now token key o e. cbn. unfold toy_decode.
    destruct (toy_split token) as [[[h p] sg]|]; [|intros [= <-]; by eexists _, _].
    destruct (toy_json h) as [header|] eqn:Eh; cbn [rbind]; [|intros [= <-]; by eapply Hj].
    destruct (toy_json p) as [claims|] eqn:Ep; cbn [rbind]; [|intros [= <-]; by eapply Hj].
    repeat match goal with |- (if ?b then _ else _) = _ -> _ => destruct b end; try done; intros [= <-]; by eexists _, _.
Qed.

Definition answered (rq : Request) : result exn response * AppState :=
  token toy_brackets (toy_config true) rq (toy_state false false).
Definition status_and_rows (rq : Request) : option (Z * option string) * nat :=
  (match fst (answered rq) with Ok r => Some (r_status r, error_of r) | Err _ => None end,
   length (stored_tokens (a_store (snd (answered rq))))).
Example answers_seen :
  map status_and_rows [code_request; credentials_request; bad_secret_request; form_request []]
  = [(Some (200, None), 2%nat); (Some (200, None), 2%nat);
     (Some (401, Some "invalid_client"), 1%nat); (Some (400, Some "invalid_request"), 1%nat)].
Proof. by vm_compute. Qed.
Lemma token_answers_witness : exists r, fst (answered code_request) = Ok r
  /\ answer (a_store (toy_state false false)) r (a_store (snd (answered code_request))).
Proof.
  assert (is_ok (fst (answered code_request)) = true) as Hok by (vm_compute; reflexivity).
  unfold answered in *.
  destruct (token toy_brackets (toy_config true) code_request (toy_state false false)) as [[r|e] s'] eqn:Hr; [|discriminate Hok].
  exists r. split; [reflexivity|]. exact (token_answers toy_brackets (toy_config true) code_request (toy_state false false) s' r Hr).
Defined.
