(* ===== verification/Introspect.v ===== *)
(** * POST /oauth/introspect and /oauth/revoke ([routes/introspect.py]) *)
From S2P Require Import Prelude PyStr PyJson Codec Models Storage StoreSpec PyUrl TtlStores Keys Jwt App Tokens Dpop ClientAuth TokenEndpoint ToyJwt TokenLemmas TokenOps AuthProps ReplayProps.
#[local] Open Scope Z_scope.

(** The row a token value names, by its access or its refresh column, and
    whether it was the refresh column. *)
Definition lookup_token (token_value : string) (st : Store) : option (Token * bool) :=
  match get_token_by_access_token token_value st with
  | Some row => Some (row, false)
  | None => option_map (fun row => (row, true)) (get_token_by_refresh_token token_value st)
  end.

(** What an endpoint answers: JSON, or a signed introspection result. *)
Inductive introspection_reply := ReplyJson (r : response) | ReplyJwt (signed : string).

(** [IntrospectionResponse(active=False)] *)
Definition inactive : IntrospectionResponse :=
  mkIntrospection false None None None None None None None None None None None None None.

Section introspect.
Context `{JwtLib} `{Runtime} `{Http}.
Context (cbn_ : string -> bool) (config : Config).

Definition expiry_deadline (row : Token) (matched_via_refresh : bool) : Z :=
  if matched_via_refresh then plus_secs (t_created_at row) (refresh_token_ttl_secs config)
  else t_expires_at row.
Definition token_active (now : Z) (found : option (Token * bool)) : bool :=
  match found with
  | Some (row, via) => negb (t_revoked row) && (now <? expiry_deadline row via)
  | None => false
  end.

(** ** Rendering (RFC 9701) *)
Definition introspection_jwt_media_type : string := "application/" +:+ introspection_jwt_typ.
Definition wants_jwt (rq : Request) : bool :=
  py_contains introspection_jwt_media_type (default EmptyString (header_get "accept" rq)).
Definition introspection_payload (now : Z) (client : Client) (body : pydict) : pydict :=
  [("iss", JStr (issuer config)); ("aud", JStr (c_client_id client)); ("iat", JInt (unix_secs now));
   ("token_introspection", JObj body)].
Definition introspection_response (rq : Request) (body : pydict) (client : Client) : M introspection_reply :=
  if wants_jwt rq then
    let! now := sget a_wall in
    let! ks := sget a_keyset in
    try_ (slift (encode_introspection_jwt now (introspection_payload now client body) (Some ks) client))
      (fun e => option_map (fun r => sret (ReplyJson r)) (on_oauth e))
      (fun signed => sret (ReplyJwt signed))
  else sret (ReplyJson (mkResponse 200 (JObj body) [("Cache-Control", "no-store")])).

(** ** The bindings of an active token; [None] answers as inactive *)
Definition claim_dict (k : string) (claims : pydict) : option pydict := get_obj k claims.

(** A [DPoP] proof for this endpoint of the key [jkt] names. *)
Definition proof_shown (rq : Request) (jkt : json) : M (verdict bool) :=
  try_ (slift (read_dpop_header rq)) (refuse on_dpop) (fun header =>
  match header with
  | None => sret (Go false)
  | Some proof =>
      try_ (validate_dpop_proof cbn_ proof "POST" (rstrip_char "/" (issuer config) +:+ "/oauth/introspect") None)
        (fun e => match e with DpopError _ _ => Some (sret (Go false)) | _ => None end)
        (fun validated => sret (Go (json_eqb jkt (JStr (v_jkt validated)))))
  end).
Definition certificate_shown (rq : Request) (thumb : string) : result exn bool :=
  match fst (mtls_headers rq config) with
  | None => Ok false
  | Some presented =>
      if utf8_valid thumb then Ok (String.eqb presented thumb)
      else Err (PyErr ValueError "surrogates not allowed")
  end.

(** The confirmation to echo. *)
Definition check_binding (rq : Request) (cnf : option pydict) : M (verdict (option (option pydict))) :=
  let jkt := match cnf ≫= obj_get "jkt" with Some j => if json_truthy j then Some j else None | None => None end in
  let! proven := match jkt with
                 | Some jkt => proof_shown rq jkt
                 | None => sret (Go true)
                 end in
  match proven with
  | Done r => sret (Done r)
  | Go false => sret (Go None)
  | Go true =>
      let echo := match jkt with Some _ => cnf | None => None end in
      match cnf ≫= get_str "x5t#S256" with
      | Some thumb =>
          if truthy thumb then
            let! ok := slift (certificate_shown rq thumb) in
            sret (Go (if ok then Some cnf else None))
          else sret (Go (Some echo))
      | None => sret (Go (Some echo))
      end
  end.

(** [authorization_details: list[dict] | None] *)
Definition echoed_details (claims : pydict) : result exn (option json) :=
  match obj_get "authorization_details" claims with
  | None | Some JNull => Ok None
  | Some (JList l) => match all_objs l with
                      | Some _ => Ok (Some (JList l))
                      | None => Err (PyErr ValidationError "authorization_details")
                      end
  | Some _ => Err (PyErr ValidationError "authorization_details")
  end.

(** The [jti] and [aud] of the verified claims, else those of the row. *)
Definition token_identity (now : Z) (token_value : string) (row : Token) (ks : KeySet)
  : result exn (string * json) :=
  match decode_access_token now token_value (jwt_secret config) (issuer config) (Some ks) with
  | Ok claims => Ok (cm_jti claims, match cm_aud claims with [a] => JStr a | l => jstrs l end)
  | Err e => if is_jwt_error e then Ok (t_id row, JStr (t_client_id row)) else Err e
  end.

Definition active_response (token_value : string) (row : Token) (deadline : Z) (cnf : option pydict)
    (claims : pydict) : M IntrospectionResponse :=
  let! user := match t_user_id row with
               | Some uid => if truthy uid then query (get_user_by_id uid) else sret None
               | None => sret None
               end in
  let! now := sget a_wall in
  let! ks := sget a_keyset in
  let! identity := slift (token_identity now token_value row ks) in
  emit_event "token_validated" (t_user_id row) (Some (t_client_id row)) "info" [] !;
  let! details := slift (echoed_details claims) in
  let iat := unix_secs (t_created_at row) in
  sret (mkIntrospection true (Some (t_scope row)) (Some (t_client_id row)) (option_map u_username user)
          (Some "Bearer") (Some (unix_secs deadline)) (Some iat) (Some iat)
          (Some (or_else (t_user_id row) (t_client_id row))) (Some (snd identity)) (Some (fst identity))
          (Some (issuer config)) cnf details).

(** The result for an authenticated client. *)
Definition introspect_token (rq : Request) (client : Client) : M (verdict IntrospectionResponse) :=
  let! now := sget a_wall in
  let token_value := default EmptyString (form_get "token" rq) in
  let! found := if truthy token_value then query (lookup_token token_value) else sret None in
  let active := token_active now found in
  match found with
  | None => sret (Go inactive)
  | Some (row, via) =>
      (if active then sret tt
       else emit_event "token_expired" (t_user_id row) (Some (t_client_id row)) "warning" []) !;
      if negb active || negb (String.eqb (t_client_id row) (c_client_id client)) then sret (Go inactive) else
      let! claims := slift (decode_unverified_claims token_value) in
      let! bound := check_binding rq (claim_dict "cnf" claims) in
      match bound with
      | Done r => sret (Done r)
      | Go None => sret (Go inactive)
      | Go (Some cnf) =>
          let! body := active_response token_value row (expiry_deadline row via) cnf claims in
          sret (Go body)
      end
  end.

Definition introspect (rq : Request) : M introspection_reply :=
  try_ (authenticate config rq (mtls_headers rq config))
    (fun e => option_map (fun r => sret (ReplyJson r)) (on_oauth e)) (fun client =>
  let! v := introspect_token rq client in
  match v with
  | Done r => sret (ReplyJson r)
  | Go body => introspection_response rq (introspection_dump body) client
  end).

(** ** /oauth/revoke *)
Definition revoked_response : response := mkResponse 200 (JObj []) [("Cache-Control", "no-store")].
Definition revoke_row (token_value : string) (row : Token) : M unit :=
  (if truthy_o (t_token_family row)
   then let! _ := update_count (revoke_token_family (default EmptyString (t_token_family row))) in sret tt
   else update (revoke_token token_value)) !;
  count_token_revoked !;
  emit_event "token_revoked" (t_user_id row) (Some (t_client_id row)) "info" [].
Definition revoke (rq : Request) : M response :=
  try_ (authenticate config rq (mtls_headers rq config)) (reply on_oauth) (fun client =>
  let token_value := default EmptyString (form_get "token" rq) in
  let! found := if truthy token_value then query (lookup_token token_value) else sret None in
  match found with
  | Some (row, _) =>
      if String.eqb (t_client_id row) (c_client_id client)
      then revoke_row token_value row !; sret revoked_response
      else sret revoked_response
  | None => sret revoked_response
  end).
End introspect.

(** ** What introspection and revocation guarantee *)

Section introspection.
Context `{JwtLib} `{Runtime} `{Http}.
Context (cbn_ : string -> bool) (config : Config).

(** ** Introspection reads *)
Lemma quiet_proof_shown rq jkt : quiet (proof_shown cbn_ config rq jkt).
Proof.
  unfold proof_shown. apply quiet_try; [done|intros; by eapply quiet_refuse|]. intros [proof|]; [|done].
  apply quiet_try; [apply quiet_dpop_proof| |done]. intros e r. destruct e; try done. by intros [= <-].
Qed.
Lemma timeless_proof_shown rq jkt : timeless (proof_shown cbn_ config rq jkt).
Proof.
  unfold proof_shown. apply timeless_try; [done|intros; by eapply timeless_refuse|]. intros [proof|]; [|done].
  apply timeless_try; [apply timeless_dpop_proof| |done]. intros e r. destruct e; try done. by intros [= <-].
Qed.
Lemma quiet_introspect_token rq client : quiet (introspect_token cbn_ config rq client).
Proof.
  unfold introspect_token, check_binding, active_response. pose proof quiet_proof_shown. quiet_walk.
Qed.
Lemma quiet_introspection_response rq body client : quiet (introspection_response config rq body client).
Proof.
  unfold introspection_response. destruct (wants_jwt rq); [|done]. quiet_walk.
  apply quiet_try; [done| |done]. intros e r. destruct (on_oauth e); [|done]. by intros [= <-].
Qed.

(** ** What an active answer says *)
(** The proof and the certificate a bound token asks for were shown. *)
Record bindings_shown (rq : Request) (s : AppState) (claims : pydict) : Prop := {
  bs_jkt : forall jkt, claim_dict "cnf" claims ≫= obj_get "jkt" = Some jkt -> json_truthy jkt = true ->
    exists proof v s0 s1, read_dpop_header rq = Ok (Some proof) /\ a_wall s0 = a_wall s
    /\ validate_dpop_proof cbn_ proof "POST" (rstrip_char "/" (issuer config) +:+ "/oauth/introspect") None s0
       = (Ok v, s1)
    /\ jkt = JStr (v_jkt v);
  bs_thumb : forall t, claim_dict "cnf" claims ≫= get_str "x5t#S256" = Some t -> t <> EmptyString ->
    fst (mtls_headers rq config) = Some t
}.
Record active_answer (rq : Request) (client : Client) (s : AppState) (r : IntrospectionResponse) : Prop := {
  aa_active : ir_active r = true;
  aa_row : exists v row via, form_get "token" rq = Some v /\ lookup_token v (a_store s) = Some (row, via)
    /\ t_revoked row = false /\ a_wall s < expiry_deadline config row via
    /\ t_client_id row = c_client_id client
    /\ ir_scope r = Some (t_scope row) /\ ir_client_id r = Some (c_client_id client)
    /\ ir_sub r = Some (or_else (t_user_id row) (t_client_id row))
    /\ ir_exp r = Some (unix_secs (expiry_deadline config row via))
    /\ exists claims, decode_unverified_claims v = Ok claims /\ bindings_shown rq s claims
}.

Lemma json_eqb_JStr j v : json_eqb j (JStr v) = true -> j = JStr v.
Proof. destruct j; cbn; try done; intros Hb; [by destruct k|by apply String.eqb_eq in Hb as ->]. Qed.
Lemma proof_shown_go rq jkt s s1 : proof_shown cbn_ config rq jkt s = (Ok (Go true), s1) ->
  exists proof v s2, read_dpop_header rq = Ok (Some proof)
  /\ validate_dpop_proof cbn_ proof "POST" (rstrip_char "/" (issuer config) +:+ "/oauth/introspect") None s
     = (Ok v, s2) /\ jkt = JStr (v_jkt v).
Proof.
  unfold proof_shown, try_, slift. intros Hr. destruct (read_dpop_header rq) as [[proof|]|e]; [|done|].
  - destruct (validate_dpop_proof _ _ _ _ _ s) as [[v|e] s2] eqn:Hv.
    + unfold sret in Hr. injection Hr as Hj <-. exists proof, v, s2. by apply json_eqb_JStr in Hj.
    + by destruct e.
  - unfold refuse in Hr. destruct (on_dpop e); [|done]. cbn in Hr. by injection Hr as ? _.
Qed.
Lemma check_binding_go rq claims s cnf s1 :
  check_binding cbn_ config rq (claim_dict "cnf" claims) s = (Ok (Go (Some cnf)), s1) -> bindings_shown rq s claims.
Proof.
  unfold check_binding. set (jkt := match _ with Some _ => _ | None => None end). intros Hr.
  apply bind_ok in Hr as ([r|[|]] & s2 & Hp & Hr); [done| |done]. constructor.
  - intros j Hj Ht. unfold jkt in Hp. rewrite Hj, Ht in Hp. cbv iota in Hp.
    apply proof_shown_go in Hp as (proof & v & s3 & Hh & Hv & ->). by exists proof, v, s, s3.
  - intros t Ht Hne. rewrite Ht in Hr. apply truthy_true in Hne. rewrite Hne in Hr.
    apply bind_ok in Hr as (ok & s3 & Hc & Hr). unfold slift in Hc. injection Hc as Hc <-.
    destruct ok; [|done]. unfold certificate_shown in Hc. destruct (fst _) as [p|]; [|done].
    destruct (utf8_valid t); [|done]. injection Hc as Hc. by apply String.eqb_eq in Hc as ->.
Qed.

Lemma introspect_token_go rq client s r s1 : introspect_token cbn_ config rq client s = (Ok (Go r), s1) ->
  r = inactive \/ active_answer rq client s r.
Proof.
  unfold introspect_token. intros Hr. unfold sbind at 1 in Hr. cbn [sget] in Hr.
  apply bind_ok in Hr as (found & s2 & Hf & Hr).
  assert (s2 = s /\ found = if truthy (default EmptyString (form_get "token" rq))
           then lookup_token (default EmptyString (form_get "token" rq)) (a_store s) else None) as [-> Hfound].
  { destruct (truthy _); unfold query, sget, sret in Hf; by injection Hf as <- <-. }
  destruct found as [[row via]|]; [|left; by injection Hr as <- _]. clear Hf.
  apply bind_ok in Hr as ([] & s3 & He & Hr).
  destruct (negb (token_active config (a_wall s) _)) eqn:Ha; [left; by injection Hr as <- _|].
  apply negb_false_iff in Ha. rewrite Ha in He. injection He as <-.
  destruct (String.eqb_spec (t_client_id row) (c_client_id client)) as [Hc|Hc]; cbn [negb orb] in Hr;
    [|left; by injection Hr as <- _].
  apply bind_ok in Hr as (claims & s4 & Hcl & Hr). unfold slift in Hcl. injection Hcl as Hcl <-.
  apply bind_ok in Hr as (bound & s5 & Hb & Hr). destruct bound as [e|[cnf|]]; [done| |left; by injection Hr as <- _].
  apply check_binding_go in Hb. right.
  apply bind_ok in Hr as (body & s6 & Hbody & Hr). injection Hr as <- _.
  destruct (truthy (default EmptyString (form_get "token" rq))) eqn:Htv; [|done].
  destruct (form_get "token" rq) as [v|] eqn:Hv; [|done]. cbn [default from_option id] in *.
  unfold token_active in Ha. apply andb_prop in Ha as [Hrev Hexp]. apply negb_true_iff in Hrev. apply Z.ltb_lt in Hexp.
  unfold active_response in Hbody. apply bind_ok in Hbody as (user & s7 & _ & Hbody).
  unfold sbind at 1 in Hbody. cbn [sget] in Hbody. unfold sbind at 1 in Hbody. cbn [sget] in Hbody.
  apply bind_ok in Hbody as (ident & s8 & _ & Hbody). unfold sbind at 1 in Hbody. unfold emit_event, smod in Hbody.
  apply bind_ok in Hbody as (det & s9 & _ & Hbody). injection Hbody as <- _.
  constructor; [done|]. exists v, row, via. rewrite <- Hc. do 5 (split; [done|]). cbn. do 4 (split; [done|]). eauto.
Qed.

Definition rendered (rq : Request) (client : Client) (r : IntrospectionResponse) (reply : introspection_reply)
  : Prop :=
  if wants_jwt rq then exists signed now ks,
    encode_introspection_jwt now (introspection_payload config now client (introspection_dump r)) (Some ks) client
    = Ok signed /\ reply = ReplyJwt signed
  else reply = ReplyJson (mkResponse 200 (JObj (introspection_dump r)) [("Cache-Control", "no-store")]).

Lemma active_frame rq client s1 s r : a_store s1 = a_store s -> a_wall s1 = a_wall s ->
  active_answer rq client s1 r -> active_answer rq client s r.
Proof.
  intros Hs Hw [Ha (v & row & via & Hv & Hl & Hr & He & Hc & Ha1 & Ha2 & Ha3 & Ha4 & claims & Hd & [Hj Ht])].
  constructor; [done|]. exists v, row, via. rewrite <- Hs, <- Hw. do 9 (split; [done|]). exists claims. split; [done|].
  constructor; [|done]. intros j Hjk Htr. destruct (Hj j Hjk Htr) as (p & w & s0 & s2 & ? & Hw0 & ? & ?).
  exists p, w, s0, s2. by rewrite <- Hw.
Qed.

(** Refusals before the result are OAuth errors. *)
Definition is_error (r : response) : Prop := exists e d st, r = oauth_error e d st.
Definition error_v {A} (v : verdict A) : Prop := match v with Done r => is_error r | Go _ => True end.
Lemma error_refuse {A} e (m : M (verdict A)) : refuse on_dpop e = Some m -> returns error_v m.
Proof. destruct e; try done. intros [= <-]. apply returns_ret. by do 3 eexists. Qed.
Lemma error_proof_shown rq jkt : returns error_v (proof_shown cbn_ config rq jkt).
Proof.
  unfold proof_shown. apply returns_try; [eauto using error_refuse|]. intros [proof|]; [|by apply returns_ret].
  apply returns_try; [|intros; by apply returns_ret]. intros e r. destruct e; try done. intros [= <-].
  by apply returns_ret.
Qed.
Lemma error_binding rq cnf : returns error_v (check_binding cbn_ config rq cnf).
Proof.
  unfold check_binding. apply (returns_bind error_v).
  - case_match; [apply error_proof_shown|by apply returns_ret].
  - intros [r|[|]] Hr; [by apply returns_ret| |by apply returns_ret].
    case_match; [case_match|]; try by apply returns_ret.
    apply (returns_bind (fun _ => True)); [done|]. intros; by apply returns_ret.
Qed.
Lemma error_introspect rq client : returns error_v (introspect_token cbn_ config rq client).
Proof.
  unfold introspect_token. do 2 (apply (returns_bind (fun _ => True)); [done|]; intros ? _).
  case_match; [|by apply returns_ret]. case_match. apply (returns_bind (fun _ => True)); [done|]. intros ? _.
  case_match; [by apply returns_ret|]. apply (returns_bind (fun _ => True)); [done|]. intros ? _.
  apply (returns_bind error_v); [apply error_binding|]. intros [r|[cnf|]] Hr; [by apply returns_ret| |by apply returns_ret].
  apply (returns_bind (fun _ => True)); [done|]. intros; by apply returns_ret.
Qed.

(** C17: Introspection changes no stored row and answers an authenticated client
    only: either the one inactive answer, the same for every reason, or the
    data of a live, unexpired token issued to that very client, after the
    DPoP proof and the certificate a bound token asks for were shown; a JWT
    answer was signed for that client. *)
Theorem introspect_sound rq s reply s' : introspect cbn_ config rq s = (Ok reply, s') ->
  a_store s' = a_store s
  /\ ((exists e, is_error e /\ reply = ReplyJson e)
      \/ exists client r, authenticated config rq (mtls_headers rq config) s client
          /\ (r = inactive \/ active_answer rq client s r) /\ rendered rq client r reply).
Proof.
  intros Hr. unfold introspect, try_ in Hr.
  destruct (authenticate config rq (mtls_headers rq config) s) as [[client|e] s1] eqn:Ha.
  2:{ destruct (on_oauth e) as [x|] eqn:He; [|done]. cbn in Hr. injection Hr as <- <-.
      pose proof (store_after _ _ _ _ (quiet_authenticate config rq (mtls_headers rq config)) Ha).
      split; [done|]. left. exists x. split; [|done]. destruct e; try done. injection He as <-. by do 3 eexists. }
  pose proof (store_after _ _ _ _ (quiet_authenticate config rq (mtls_headers rq config)) Ha) as Hs1.
  pose proof (timeless_authenticate config rq (mtls_headers rq config) s) as Hw. rewrite Ha in Hw.
  injection Hw as Hw _ _. cbn [snd] in Hw.
  apply bind_ok in Hr as (v & s2 & Hv & Hr).
  pose proof (store_after _ _ _ _ (quiet_introspect_token rq client) Hv) as Hs2. destruct v as [e|r].
  { injection Hr as <- <-. split; [congruence|]. left. apply error_introspect in Hv. by exists e. }
  pose proof (store_after _ _ _ _ (quiet_introspection_response rq (introspection_dump r) client) Hr) as Hs3.
  split; [congruence|].
  apply authenticate_ok in Ha. apply introspect_token_go in Hv.
  unfold introspection_response in Hr. destruct (wants_jwt rq) eqn:Hj.
  - unfold sbind at 1 in Hr. cbn [sget] in Hr. unfold sbind at 1 in Hr. cbn [sget] in Hr. unfold try_, slift in Hr.
    destruct (encode_introspection_jwt _ _ _ _) as [signed|e] eqn:He.
    + injection Hr as <- _. right. exists client, r. split; [done|].
      split; [destruct Hv; [by left|right; by eapply active_frame]|]. unfold rendered. rewrite Hj. by do 3 eexists.
    + left. destruct e; try done. injection Hr as <- _. eexists. split; [by do 3 eexists|done].
  - injection Hr as <- _. right. exists client, r. split; [done|].
    split; [destruct Hv; [by left|right; by eapply active_frame]|]. unfold rendered. by rewrite Hj.
Qed.

(** ** Revocation *)
Lemma lookup_updated p f v st row via :
  (forall t, t_access_token (f t) = t_access_token t) -> (forall t, t_refresh_token (f t) = t_refresh_token t) ->
  lookup_token v st = Some (row, via) ->
  lookup_token v (on_tokens (update_where p f) st) = Some (if p row then f row else row, via).
Proof.
  intros Ha Hr. unfold lookup_token, get_token_by_access_token, get_token_by_refresh_token.
  cbn [tokens on_tokens]. rewrite !find_update_where by (intros; by rewrite ?Ha, ?Hr).
  destruct (List.find _ (tokens st)); [by intros [= <- <-]|].
  destruct (List.find _ (tokens st)); [|done]. cbn. by intros [= <- <-].
Qed.
Lemma revoked_inactive config' now row via : t_revoked row = true -> token_active config' now (Some (row, via)) = false.
Proof. cbn. by intros ->. Qed.

Lemma lookup_named v st row via : lookup_token v st = Some (row, via) ->
  t_access_token row = v \/ t_refresh_token row = Some v.
Proof.
  unfold lookup_token, get_token_by_access_token, get_token_by_refresh_token.
  destruct (List.find _ (tokens st)) as [x|] eqn:Hx.
  - intros [= <- <-]. apply find_In in Hx as [_ Hx]. apply String.eqb_eq in Hx. by left.
  - destruct (List.find (fun r => oeqb (t_refresh_token r) v) (tokens st)) as [y|] eqn:Hy; [|done].
    cbn. intros [= <- <-]. apply find_In in Hy as [_ Hy]. right. unfold oeqb in Hy.
    destruct (t_refresh_token y) as [r|]; [|done]. by apply String.eqb_eq in Hy as ->.
Qed.

(** What the revocation of [row], presented as [v], does to the storage. *)
Lemma revoke_row_effect v row via s res s' : lookup_token v (a_store s) = Some (row, via) ->
  revoke_row v row s = (res, s') ->
  (exists row', lookup_token v (a_store s') = Some (row', via) /\ t_revoked row' = true)
  /\ (forall f, t_token_family row = Some f -> f <> EmptyString -> family_dead f (a_store s')).
Proof.
  intros Hl Hr. unfold revoke_row in Hr. destruct (truthy_o (t_token_family row)) eqn:Hf.
  - apply truthy_o_true in Hf as (f & Hf & Hne). rewrite Hf in Hr. run_simpl Hr.
    unfold update_count, count_token_revoked, emit_event in Hr. cbn [revoke_token_family default from_option id] in Hr.
    injection Hr as <- <-. cbn [a_store with_events with_counters with_store]. split.
    + eexists. split; [by apply lookup_updated|]. unfold in_family, oeqb. rewrite Hf. cbn. by rewrite String.eqb_refl.
    + intros g Hg _. rewrite Hf in Hg. injection Hg as <-. apply revoke_family_dead.
  - run_simpl Hr. unfold update, count_token_revoked, emit_event in Hr. injection Hr as <- <-.
    cbn [a_store with_events with_counters with_store]. split.
    + eexists. split; [by apply lookup_updated|].
      destruct (lookup_named _ _ _ _ Hl) as [Hv|Hv]; unfold oeqb; rewrite Hv; cbn; by rewrite String.eqb_refl, ?orb_true_r.
    + intros f Hf' Hne. rewrite Hf' in Hf. change (truthy f = false) in Hf. by apply truthy_false in Hf.
Qed.

(** Revocation works for the owner and only for the owner: after the response
    the presented token is inactive at every later time, and so is every token
    of its family; for another client's token or an unknown one the response
    is the same and the storage keeps its rows. *)
Theorem revocation_effective rq s r s' : revoke config rq s = (Ok r, s') ->
  (is_error r /\ a_store s' = a_store s)
  \/ exists client, r = revoked_response /\ authenticated config rq (mtls_headers rq config) s client
     /\ let v := default EmptyString (form_get "token" rq) in
        match (if truthy v then lookup_token v (a_store s) else None) with
        | Some (row, _) =>
            if String.eqb (t_client_id row) (c_client_id client)
            then (forall now, token_active config now (lookup_token v (a_store s')) = false)
                 /\ forall f, t_token_family row = Some f -> f <> EmptyString -> family_dead f (a_store s')
            else a_store s' = a_store s
        | None => a_store s' = a_store s
        end.
Proof.
  intros Hr. unfold revoke, try_ in Hr.
  destruct (authenticate config rq (mtls_headers rq config) s) as [[client|e] s1] eqn:Ha;
    pose proof (store_after _ _ _ _ (quiet_authenticate config rq (mtls_headers rq config)) Ha) as Hs1.
  2:{ destruct (reply on_oauth e) as [m|] eqn:He; [|done]. left. destruct e; try done. injection He as <-.
      injection Hr as <- <-. split; [by do 3 eexists|done]. }
  right. exists client. apply authenticate_ok in Ha.
  apply bind_ok in Hr as (found & s2 & Hf & Hr). rewrite <- Hs1. cbv zeta.
  set (v := default EmptyString (form_get "token" rq)) in *.
  assert (s2 = s1 /\ found = if truthy v then lookup_token v (a_store s1) else None) as [-> Hfound].
  { destruct (truthy v); unfold query, sget, sret in Hf; by injection Hf as <- <-. }
  rewrite <- Hfound. destruct found as [[row via]|]; [|by injection Hr as <- <-].
  destruct (String.eqb (t_client_id row) (c_client_id client)); [|by injection Hr as <- <-].
  apply bind_ok in Hr as ([] & s3 & Hrow & Hr). injection Hr as <- <-. split; [done|]. split; [done|].
  destruct (truthy v); [|done].
  destruct (revoke_row_effect _ _ _ _ _ _ (eq_sym Hfound) Hrow) as [(row' & Hl & Hrev) Hfam].
  split; [|done]. intros now. rewrite Hl. by apply revoked_inactive.
Qed.
End introspection.

(** ** The toy server *)
Definition token_request (value : string) : Request := form_request
  [("client_id", "web"); ("client_secret", "s3cret"); ("token", value)].
Definition toy_introspect (value : string) : result exn introspection_reply * AppState :=
  introspect toy_brackets (toy_config true) (token_request value) (toy_state false false).
Definition toy_reply (value : string) : introspection_reply :=
  match fst (toy_introspect value) with Ok r => r | Err _ => ReplyJwt EmptyString end.
Definition toy_revoke (value : string) : result exn response * AppState :=
  revoke (toy_config true) (token_request value) (toy_state false false).

Example toy_introspect_active : match toy_reply "rt-1" with
  | ReplyJson r => r_body r = JObj [("active", JBool true); ("scope", JStr "read write"); ("client_id", JStr "web");
      ("username", JStr "ann"); ("token_type", JStr "Bearer"); ("exp", JInt 86400); ("iat", JInt 0); ("nbf", JInt 0);
      ("sub", JStr "u-1"); ("aud", JStr "web"); ("jti", JStr "t-1"); ("iss", JStr "https://as.example")]
  | ReplyJwt _ => False
  end.
Proof. compute_done. Qed.
Lemma introspect_sound_witness : let rq := token_request "rt-1" in
  let s := toy_state false false in
  a_store (snd (toy_introspect "rt-1")) = a_store s
  /\ ((exists e, is_error e /\ toy_reply "rt-1" = ReplyJson e)
      \/ exists client r, authenticated (toy_config true) rq (mtls_headers rq (toy_config true)) s client
          /\ (r = inactive \/ active_answer toy_brackets (toy_config true) rq client s r)
          /\ rendered (toy_config true) rq client r (toy_reply "rt-1")).
Proof.
  intros rq s. apply (introspect_sound toy_brackets (toy_config true) rq s (toy_reply "rt-1")).
  vm_compute. reflexivity.
Defined.
Lemma revocation_effective_witness :
  let rq := token_request "rt-1" in
  let s := toy_state false false in let s' := snd (toy_revoke "rt-1") in
  map t_revoked (tokens (a_store s')) = [true]
  /\ ((is_error revoked_response /\ a_store s' = a_store s)
      \/ exists client, revoked_response = revoked_response
         /\ authenticated (toy_config true) rq (mtls_headers rq (toy_config true)) s client
         /\ match lookup_token "rt-1" (a_store s) with
            | Some (row, _) =>
                if String.eqb (t_client_id row) (c_client_id client)
                then (forall now, token_active (toy_config true) now (lookup_token "rt-1" (a_store s')) = false)
                     /\ forall f, t_token_family row = Some f -> f <> EmptyString -> family_dead f (a_store s')
                else a_store s' = a_store s
            | None => a_store s' = a_store s
            end).
Proof.
  intros rq s s'. split; [vm_compute; reflexivity|].
  apply (revocation_effective (toy_config true) rq s revoked_response s'). vm_compute. reflexivity.
Defined.
