(* ===== verification/DpopProps.v ===== *)
(** * What a DPoP proof and a server nonce establish ([dpop.py],
    [dpop_nonce.py]) *)
From S2P Require Import Prelude PyStr PyJson Codec Models Storage PyUrl TtlStores Keys Jwt App Tokens Dpop ToyJwt.
#[local] Open Scope Z_scope.

(** ** Digests have a fixed length *)
Lemma length_round st kw : length (Sha256.round st kw) = length st.
Proof. unfold Sha256.round. by repeat case_match. Qed.
Lemma length_compress h b : length h = 8%nat -> length (Sha256.compress h b) = 8%nat.
Proof.
  intros Hh. unfold Sha256.compress. rewrite length_zip_with, Hh.
  assert (forall l st, length (fold_left Sha256.round l st) = length st) as ->.
  { induction l as [|kw l IH]; intros st; simpl; [done|]. by rewrite IH, length_round. }
  by rewrite Hh.
Qed.
Lemma length_blocks n h l : length h = 8%nat -> length (Sha256.blocks n h l) = 8%nat.
Proof. revert h l. induction n as [|n IH]; intros h l Hh; simpl; [done|]. by apply IH, length_compress. Qed.
Lemma digest_form m : length (Sha256.digest m) = 32%nat /\ Forall is_byte (Sha256.digest m).
Proof.
  unfold Sha256.digest. set (w := Sha256.blocks _ _ _).
  assert (length w = 8%nat) as Hw by (by apply length_blocks). clearbody w.
  split.
  - destruct w as [|? [|? [|? [|? [|? [|? [|? [|? [|]]]]]]]]]; try done.
  - clear Hw. induction w as [|x w IH]; cbn [map concat]; [constructor|]. apply Forall_app. split; [apply be_bytes_byte|done].
Qed.
Lemma hmac_form k m : bytes_of (hmac_sha256 k m) = Sha256.digest
    (let k0 := bytes_of k in
     let k1 := if (64 <? length k0)%nat then Sha256.digest k0 else k0 in
     let k' := k1 ++ replicate (64 - length k1) 0%N in
     map (N.lxor 92) k' ++ Sha256.digest (map (N.lxor 54) k' ++ bytes_of m)).
Proof. unfold hmac_sha256. apply bytes_of_string_of, digest_form. Qed.
Lemma length_tag i b : length (tag_for_bucket i b) = TAG_LEN.
Proof.
  unfold tag_for_bucket. rewrite hmac_form, firstn_length_le; [done|].
  rewrite (proj1 (digest_form _)). unfold TAG_LEN. lia.
Qed.
Lemma tag_bytes i b : Forall is_byte (tag_for_bucket i b).
Proof. unfold tag_for_bucket. rewrite hmac_form. apply Forall_take, digest_form. Qed.

(** ** Server nonces *)
Lemma decode_encoded i bucket : 
  urlsafe_b64decode (encode_bucket i bucket +:+ b64_padding (encode_bucket i bucket))
  = Some (string_of (Sha256.be_bytes BUCKET_LEN (Z.to_N bucket)
                     ++ tag_for_bucket i (Sha256.be_bytes BUCKET_LEN (Z.to_N bucket)))).
Proof.
  unfold encode_bucket. set (b := Sha256.be_bytes _ _). set (raw := b ++ _).
  assert (Forall is_byte raw) as Hraw by (apply Forall_app; split; [apply be_bytes_byte|apply tag_bytes]).
  pose proof (urlsafe_b64_roundtrip (string_of raw)) as Hr. cbv zeta in Hr.
  unfold urlsafe_b64encode_nopad in Hr. by rewrite bytes_of_string_of in Hr.
Qed.

Lemma verify_encoded i bucket now : 0 <= bucket < 2 ^ 64 ->
  verify_nonce now i (encode_bucket i bucket)
  = if (bucket =? current_bucket now i) || (bucket =? current_bucket now i - 1) then Ok tt
    else Err (DpopNonceError "stale" "DPoP nonce is expired or not yet valid").
Proof.
  intros Hb. unfold verify_nonce. rewrite decode_encoded. set (b := Sha256.be_bytes _ _).
  assert (length b = BUCKET_LEN) as Hlen by apply length_be_bytes.
  rewrite bytes_of_string_of by (apply Forall_app; split; [apply be_bytes_byte|apply tag_bytes]).
  rewrite length_app, length_tag, Hlen. cbn [Nat.eqb BUCKET_LEN TAG_LEN NONCE_RAW_LEN Nat.add negb].
  rewrite take_app_length', drop_app_length' by done. rewrite bool_decide_true by done. cbn [negb].
  unfold b. rewrite from_be_bytes by (unfold BUCKET_LEN; lia). by rewrite Z2N.id by lia.
Qed.

(** a nonce of the server is accepted for at least its lifetime and never
    at or after twice its lifetime, when it becomes stale, which is not the same
    error as a forgery. *)
Theorem dpop_nonce_roundtrip (i : DpopNonceIssuer) (t t' : Z) :
  0 < n_lifetime_secs i -> 0 <= unix_secs t < 2 ^ 64 -> unix_secs t <= unix_secs t' ->
  (unix_secs t' - unix_secs t <= n_lifetime_secs i -> verify_nonce t' i (issue_nonce t i) = Ok tt)
  /\ (2 * n_lifetime_secs i <= unix_secs t' - unix_secs t -> exists d,
        verify_nonce t' i (issue_nonce t i) = Err (DpopNonceError "stale" d)).
Proof.
  intros Hl Ht Htt. unfold issue_nonce.
  assert (0 <= current_bucket t i < 2 ^ 64) as Hb.
  { unfold current_bucket. split; [apply Z.div_pos; lia|]. apply Z.div_lt_upper_bound; nia. }
  rewrite verify_encoded by done. unfold current_bucket in *.
  set (L := n_lifetime_secs i) in *. set (a := unix_secs t) in *. set (b := unix_secs t') in *.
  pose proof (Z.div_mod a L) as Ha. pose proof (Z.mod_pos_bound a L Hl) as Ha'.
  pose proof (Z.div_mod b L) as Hbb. pose proof (Z.mod_pos_bound b L Hl) as Hb'.
  split; intros Hd.
  - assert (a / L = b / L \/ a / L = b / L - 1) as [-> | ->] by nia; [by rewrite Z.eqb_refl|].
    by rewrite Z.eqb_refl, orb_true_r.
  - eexists. destruct (Z.eqb_spec (a / L) (b / L)); [nia|]. by destruct (Z.eqb_spec (a / L) (b / L - 1)); [nia|].
Qed.

(** an accepted nonce carries the HMAC of the bucket it names, and that
    bucket is the current one or the one before. *)
Theorem dpop_nonce_unforgeable (i : DpopNonceIssuer) (now : Z) (nonce : string) :
  verify_nonce now i nonce = Ok tt ->
  exists raw, urlsafe_b64decode (nonce +:+ b64_padding nonce) = Some raw
    /\ skipn BUCKET_LEN (bytes_of raw) = tag_for_bucket i (firstn BUCKET_LEN (bytes_of raw))
    /\ current_bucket now i - 1 <= Z.of_N (from_be (firstn BUCKET_LEN (bytes_of raw))) <= current_bucket now i.
Proof.
  unfold verify_nonce. intros Hv. repeat run_step Hv. b2p. exists s. split; [done|]. split; [done|].
  apply orb_prop in E2 as [E2|E2]; b2p; lia.
Qed.

(** ** Proofs *)
Section proofs.
Context `{JwtLib} `{Runtime}.
Context (cbn_ : string -> bool).

(** What a proof shows about the key [v_jkt v] for one request at time [now]. *)
Record proof_shown (now : Z) (proof method url : string) (access_token : option string)
    (v : DpopValidated) (jti : string) : Prop := {
  ps_signed : exists header jwk alg key claims,
    jwt_unverified_header proof = Ok header
    /\ py_lower (py_str_or_empty (obj_get "typ" header)) = "dpop+jwt"
    /\ obj_get "jwk" header = Some (JObj jwk) /\ jwk_thumbprint jwk = Ok (v_jkt v)
    /\ obj_get "alg" header = Some (JStr alg) /\ In alg allowed_algs
    /\ build_verification_key alg jwk = Ok key
    /\ jwt_decode now proof key (dpop_options alg) = Ok claims
    /\ py_lower (py_str_or_empty (obj_get "htm" claims)) = py_lower method
    /\ (exists u, strip_query cbn_ (py_str_or_empty (obj_get "htu" claims)) = Ok u
                  /\ strip_query cbn_ url = Ok u)
    /\ (exists iat x, obj_get "iat" claims = Some iat /\ to_float iat = Some (Ok x)
                      /\ within_skew now DPOP_IAT_SKEW_SECS x = true)
    /\ (exists j, obj_get "jti" claims = Some j /\ jti = py_str j)
    /\ v_ath v = get_str "ath" claims;
  ps_bound : forall t, access_token = Some t -> v_ath v = Some (access_token_hash t)
}.

Lemma check_alg_ok o a : check_alg o = Ok a -> o = Some (JStr a) /\ In a allowed_algs.
Proof.
  unfold check_alg. destruct o as [[]|]; try done. destruct (mem_str s allowed_algs) eqn:Hm; [|done].
  intros [= ->]. split; [done|]. by apply mem_str_In.
Qed.

Lemma check_proof_ok now proof method url tok v jti :
  check_proof cbn_ now proof method url tok = Ok (v, jti) -> proof_shown now proof method url tok v jti.
Proof.
  intros Hr. unfold check_proof in Hr. repeat run_step Hr.
  all: b2p.
  all: match goal with Eh : rcatch (jwt_unverified_header _) _ = Ok ?h |- _ =>
         unfold rcatch in Eh; destruct (jwt_unverified_header proof) as [h'|e] eqn:Hh;
         [injection Eh as ->|by destruct (is_jwt_decode_error e)] end.
  all: match goal with Ed : rcatch (rbind (build_verification_key ?al ?jw) _) _ = Ok _ |- _ =>
         unfold rcatch, rbind in Ed; destruct (build_verification_key al jw) as [key|] eqn:Hkey; [|discriminate Ed];
         destruct (jwt_decode now proof key (dpop_options al)) as [claims|] eqn:Hdec; [|discriminate Ed];
         injection Ed as -> end.
  all: match goal with Ea : check_alg _ = Ok _ |- _ => apply check_alg_ok in Ea as [Halg Hin] end.
  all: constructor; cbn [v_ath v_jkt].
  all: try (intros t ->; destruct (get_str "ath" a2) as [x|]; [|discriminate]; cbn [from_option_b] in *; b2p;
            congruence).
  all: subst; do 5 eexists; split_and! ; eauto 6.
Qed.

(** C32: a DPoP proof that is accepted was signed, with an asymmetric algorithm,
    by the key it embeds and is reported as, for this method and URL, within 300
    seconds of now and for the access token presented with it; its identifier
    was not in the replay store, and is remembered for 660 seconds. *)
Theorem dpop_proof_sound (proof method url : string) (access_token : option string) (s s' : AppState)
    (v : DpopValidated) :
  validate_dpop_proof cbn_ proof method url access_token s = (Ok v, s') ->
  exists jti, proof_shown (a_wall s) proof method url access_token v jti
    /\ Replay.dpop_accepts (a_mono s) jti (a_dpop_replay s) = true
    /\ a_dpop_replay s' !! jti = Some (a_mono s + Replay.REPLAY_TTL_SECS * NS)
    /\ a_store s' = a_store s.
Proof.
  intros Hr. unfold validate_dpop_proof, sbind, sget, slift in Hr.
  destruct (check_proof cbn_ (a_wall s) proof method url access_token) as [[v' jti]|e] eqn:Hc; [|done].
  unfold Replay.check_and_insert in Hr.
  destruct (sweep Replay.replay_live (a_mono s) (a_dpop_replay s) !! jti) as [x|] eqn:Hl; [done|].
  injection Hr as <- <-. exists jti. split; [by apply check_proof_ok|].
  split; [unfold Replay.dpop_accepts, Replay.check_and_insert; by rewrite Hl|].
  split; [|done]. cbn. apply lookup_insert_eq.
Qed.
End proofs.
Lemma dpop_nonce_roundtrip_witness :
  verify_nonce (350 * SECOND) (new_issuer "k" 300) (issue_nonce (100 * SECOND) (new_issuer "k" 300)) = Ok tt.
Proof.
  apply (dpop_nonce_roundtrip (new_issuer "k" 300) (100 * SECOND) (350 * SECOND));
    vm_compute; try split; discriminate || reflexivity.
Defined.

Lemma dpop_nonce_unforgeable_witness :
  exists raw, skipn BUCKET_LEN (bytes_of raw)
              = tag_for_bucket (new_issuer "k" 300) (firstn BUCKET_LEN (bytes_of raw)).
Proof.
  destruct (dpop_nonce_unforgeable (new_issuer "k" 300) (100 * SECOND)
    (issue_nonce (100 * SECOND) (new_issuer "k" 300)) ltac:(vm_compute; reflexivity)) as (raw & _ & Hr & _).
  by exists raw.
Defined.

Definition toy_proof : string :=
  match toy_encode [("jti", JStr "p-1"); ("htm", JStr "POST"); ("htu", JStr "https://as.example/oauth/token");
                    ("iat", JInt 100)] "pub" "RS256"
          [("typ", JStr "dpop+jwt"); ("jwk", JObj [("kty", JStr "RSA"); ("n", JStr "pub"); ("e", JStr "AQAB")])] with
  | Ok t => t
  | Err _ => EmptyString
  end.
Definition toy_validation : result exn DpopValidated * AppState :=
  validate_dpop_proof toy_brackets toy_proof "POST" "https://as.example/oauth/token" None (toy_state false false).
Lemma dpop_proof_sound_witness :
  exists v jti, fst toy_validation = Ok v
    /\ a_dpop_replay (snd toy_validation) !! jti = Some (660 * NS).
Proof.
  assert (exists v, toy_validation = (Ok v, snd toy_validation)) as [v Hv] by (eexists; vm_compute; reflexivity).
  destruct (dpop_proof_sound toy_brackets toy_proof "POST" "https://as.example/oauth/token" None
    (toy_state false false) (snd toy_validation) v Hv) as (jti & _ & _ & Hj & _).
  exists v, jti. split; [by rewrite Hv|exact Hj].
Defined.
