(* ===== verification/AdminProps.v ===== *)
(** * The admin API as a whole: who may call it, what it leaves behind *)
From Stdlib Require Import Sorting.Permutation.
From S2P Require Import Prelude PyStr PyJson Codec Models IsoTime Storage StoreSpec Paging PyUrl TtlStores Keys Jwt App PyDumps.
From S2P Require Import ClientAuth Admin AdminClients AdminRoutes TokenLemmas TokenOps ToyJwt.
#[local] Open Scope Z_scope.

(** ** The guard *)
Section guard.
Context `{JwtLib} `{Runtime}.
Context (fromisoformat : string -> option (Z * option Z)) (hs256_secret rs256_pem : nat -> string).
Context (cbn_ : string -> bool) (inet_aton : string -> option Z) (config : Config).
Notation admin_api := (admin_api fromisoformat hs256_secret rs256_pem cbn_ inet_aton config).
Notation handler := (handler fromisoformat hs256_secret rs256_pem cbn_ inet_aton config).

(** Who the request proves to be: with a bearer token only the token counts. *)
Inductive admin_identity (rq : AdminRequest) (s : AppState) : AdminActor -> Prop :=
| BearerAdmin v token :
    bearer_value (ad_authorization rq) = Some v -> get_token_by_access_token v (a_store s) = Some token ->
    t_revoked token = false -> a_wall s < t_expires_at token -> In "admin" (py_split (t_scope token)) ->
    client_id_in_allowlist (t_client_id token) (admin_client_ids config) = true ->
    admin_identity rq s (mkActor EmptyString EmptyString)
| SessionAdmin uid :
    bearer_value (ad_authorization rq) = None -> as_user_id (ad_session rq) = Some uid -> uid <> EmptyString ->
    (as_role (ad_session rq) = Some "admin"
     \/ In (py_lower (default EmptyString (as_email (ad_session rq)))) (admin_emails config)) ->
    admin_identity rq s (mkActor uid (default EmptyString (as_email (ad_session rq)))).

Definition refusals : list admin_response :=
  [invalid_token_error; insufficient_scope_error; login_required_error; insufficient_permissions_error].

Lemma bearer_cases v s :
  match authenticate_bearer config v s with
  | (Ok (inr actor), s1) => s1 = s /\ exists token,
      get_token_by_access_token v (a_store s) = Some token /\ t_revoked token = false
      /\ a_wall s < t_expires_at token /\ In "admin" (py_split (t_scope token))
      /\ client_id_in_allowlist (t_client_id token) (admin_client_ids config) = true
      /\ actor = mkActor EmptyString EmptyString
  | (Ok (inl r), s1) => s1 = s /\ In r refusals /\ forall token,
      get_token_by_access_token v (a_store s) = Some token -> t_revoked token = false ->
      a_wall s < t_expires_at token -> In "admin" (py_split (t_scope token)) ->
      client_id_in_allowlist (t_client_id token) (admin_client_ids config) = true -> False
  | (Err _, _) => False
  end.
Proof.
  unfold authenticate_bearer, query, sget, sbind. cbn.
  destruct (get_token_by_access_token v (a_store s)) as [token|]; cbn; [|split_and! ; [done|by left|done]].
  destruct (t_revoked token) eqn:Hr; cbn; [split_and! ; [done|by left|intros ? [= <-] ?; congruence]|].
  destruct (Z.leb_spec (t_expires_at token) (a_wall s)); cbn;
    [split_and! ; [done|by left|intros ? [= <-] ????; lia]|].
  destruct (mem_str "admin" (py_split (t_scope token))) eqn:Ha;
    destruct (client_id_in_allowlist (t_client_id token) (admin_client_ids config)) eqn:Hc; cbn.
  - split; [done|]. exists token. split_and! ; try done. by apply mem_str_In.
  - split_and! ; [done|by right; left|intros ? [= <-] ????; congruence].
  - split_and! ; [done|by right; left|]. intros ? [= <-] _ _ Hin _. apply mem_str_In in Hin. congruence.
  - split_and! ; [done|by right; left|intros ? [= <-] ????; congruence].
Qed.

Lemma session_cases session :
  match authenticate_session config session with
  | inr actor => exists uid, as_user_id session = Some uid /\ uid <> EmptyString
      /\ (as_role session = Some "admin" \/ In (py_lower (default EmptyString (as_email session))) (admin_emails config))
      /\ actor = mkActor uid (default EmptyString (as_email session))
  | inl r => In r refusals /\ forall uid, as_user_id session = Some uid -> uid <> EmptyString ->
      (as_role session = Some "admin" \/ In (py_lower (default EmptyString (as_email session))) (admin_emails config)) -> False
  end.
Proof.
  unfold authenticate_session. destruct (as_user_id session) as [uid|]; cbn; [|split; [by do 2 right; left|done]].
  unfold truthy_o, truthy. cbn. destruct (String.eqb_spec uid EmptyString) as [->|Hu]; cbn.
  { split; [by do 2 right; left|]. by intros ? [= <-]. }
  destruct (String.eqb_spec (default EmptyString (as_role session)) "admin") as [Hr|Hr]; cbn.
  { exists uid. split_and! ; try done. left. destruct (as_role session); cbn in *; [by subst|done]. }
  destruct (mem_str _ (admin_emails config)) eqn:Hm.
  - exists uid. split_and! ; try done. right. by apply mem_str_In.
  - split; [by do 3 right; left|]. intros ? [= <-] _ [Hro|Hin]; [by rewrite Hro in Hr|].
    apply mem_str_In in Hin. congruence.
Qed.

Lemma guard_cases rq s :
  match require_admin config rq s with
  | (Ok (inr actor), s1) => s1 = s /\ admin_identity rq s actor
  | (Ok (inl r), s1) => s1 = s /\ In r refusals /\ forall actor, admin_identity rq s actor -> False
  | (Err _, _) => False
  end.
Proof.
  unfold require_admin. destruct (bearer_value (ad_authorization rq)) as [v|] eqn:Hb.
  - pose proof (bearer_cases v s) as Hc. destruct (authenticate_bearer config v s) as [[[r|actor]|e] s1]; [| |done].
    + destruct Hc as (-> & Hr & Hno). split_and! ; [done..|]. intros actor Hi. inversion Hi; simplify_eq. eauto.
    + destruct Hc as (-> & token & Hg & Hrev & Hexp & Hsc & Hcl & ->). split; [done|]. by eapply BearerAdmin.
  - pose proof (session_cases (ad_session rq)) as Hc. cbn.
    destruct (authenticate_session config (ad_session rq)) as [r|actor].
    + destruct Hc as [Hr Hno]. split_and! ; [done..|]. intros actor Hi. inversion Hi; simplify_eq. eauto.
    + destruct Hc as (uid & Hu & Hne & Ha & ->). split; [done|]. by eapply SessionAdmin.
Qed.

(** C25: a handler of the admin API runs exactly for a request that proves an
    admin identity - a live token with the admin scope of an allow-listed
    client, or, without a bearer token, the session of a user with the admin
    role or an admin e-mail address - and every other request is refused
    without effect. *)
Theorem admin_api_guarded (call : admin_call) (rq : AdminRequest) (s : AppState) :
  (exists actor, admin_identity rq s actor
     /\ admin_api call rq s = sbind (handler call rq actor) (fun r => sret (AdminJson r)) s)
  \/ ((forall actor, admin_identity rq s actor -> False)
      /\ exists refusal, In refusal refusals /\ admin_api call rq s = (Ok refusal, s)).
Proof.
  unfold AdminRoutes.admin_api, admin_route. pose proof (guard_cases rq s) as Hg.
  change (sbind (require_admin config rq) ?k s) with
    (match require_admin config rq s with (Ok a, s1) => k a s1 | (Err e, s1) => (Err e, s1) end).
  destruct (require_admin config rq s) as [[[r|actor]|e] s1]; [| |done].
  - destruct Hg as (-> & Hr & Hno). right. eauto.
  - destruct Hg as [-> Hi]. left. eauto.
Qed.
End guard.

(** ** The audit trail *)
Section trail.
Context `{JwtLib} `{Runtime}.
Context (fromisoformat : string -> option (Z * option Z)) (hs256_secret rs256_pem : nat -> string).
Context (cbn_ : string -> bool) (inet_aton : string -> option Z).
Notation handler := (handler fromisoformat hs256_secret rs256_pem cbn_ inet_aton).
Context (rq : AdminRequest) (actor : AdminActor).

(** Nothing an admin operation writes has changed. *)
Definition still (s s' : AppState) : Prop :=
  a_store s' = a_store s /\ a_keyset s' = a_keyset s /\ a_recent s' = a_recent s /\ a_wall s' = a_wall s.

(** One entry that names the actor and the origin of the request was pushed
    to the recent events and written to the audit log, unless its id is taken. *)
Definition recorded (s s' : AppState) : Prop := exists e metadata,
  a_recent s' = firstn RECENT_CAPACITY (audit_event (a_wall s) e metadata :: a_recent s)
  /\ (audit_log (a_store s') = audit_log (a_store s) ++ [e]
      \/ audit_log (a_store s') = audit_log (a_store s) /\ In (al_id e) (map al_id (audit_log (a_store s))))
  /\ al_actor_id e = actor_id actor /\ al_actor_email e = actor_email actor
  /\ al_ip e = default EmptyString (ad_client_host rq) /\ al_user_agent e = default EmptyString (ad_user_agent rq)
  /\ al_metadata e = py_dumps (JObj metadata) /\ al_created_at e = a_wall s.

Definition idle {A} (m : M A) : Prop := forall s, still s (snd (m s)).
Definition same_trail (s s' : AppState) : Prop :=
  audit_log (a_store s') = audit_log (a_store s) /\ a_recent s' = a_recent s /\ a_wall s' = a_wall s.
Definition works {A} (m : M A) : Prop := forall s, exists a, fst (m s) = Ok a /\ same_trail s (snd (m s)).
Definition records {A} (m : M A) : Prop := forall s0 s, same_trail s0 s ->
  exists a, fst (m s) = Ok a /\ recorded s0 (snd (m s)).
Definition accounted {A} (m : M A) : Prop := forall s,
  still s (snd (m s)) \/ exists a, fst (m s) = Ok a /\ recorded s (snd (m s)).

Lemma idle_accounted {A} (m : M A) : idle m -> accounted m.
Proof. intros Hm s. left. apply Hm. Qed.
Lemma records_accounted {A} (m : M A) : records m -> accounted m.
Proof. intros Hm s. right. by apply Hm. Qed.
Lemma accounted_bind {A B} (m : M A) (k : A -> M B) : idle m -> (forall a, accounted (k a)) -> accounted (sbind m k).
Proof.
  intros Hm Hk s. unfold sbind. specialize (Hm s). destruct (m s) as [[a|e] s1]; cbn in *; [|by left].
  destruct Hm as (H1 & H2 & H3 & H4). destruct (Hk a s1) as [(K1 & K2 & K3 & K4)|(b & Hb & e & md & Hr)].
  - left. unfold still. by rewrite K1, K2, K3, K4.
  - right. exists b. split; [done|]. exists e, md. by rewrite <- H1, <- H3, <- H4.
Qed.
Lemma accounted_insert {A} f (m : M A) :
  (forall st st', f st = Ok st' -> audit_log st' = audit_log st) -> records m -> accounted (insert f !; m).
Proof.
  intros Hf Hm s. unfold sbind, insert. destruct (f (a_store s)) as [st|e] eqn:He; [|by left].
  right. apply (Hm s). split_and! ; [|done..]. cbn. eauto.
Qed.
Lemma accounted_post {A B} (m : M A) (b : B) : accounted m -> accounted (m !; sret b).
Proof.
  intros Hm s. unfold sbind. specialize (Hm s). destruct (m s) as [[a|e] s1]; cbn in *; [|].
  - destruct Hm as [Hs|(a' & Ha & Hr)]; [by left|right; eauto].
  - destruct Hm as [Hs|(a' & Ha & Hr)]; [by left|done].
Qed.
Lemma records_pre {A B} (m : M A) (k : A -> M B) : works m -> (forall a, records (k a)) -> records (sbind m k).
Proof.
  intros Hm Hk s0 s Hs. unfold sbind. destruct (Hm s) as (a & Ha & H1 & H2 & H3). destruct (m s) as [r s1]. cbn in *.
  subst r. apply (Hk a). destruct Hs as (S1 & S2 & S3). unfold same_trail. by rewrite H1, H2, H3.
Qed.
Lemma records_post {A B} (m : M A) (b : B) : records m -> records (m !; sret b).
Proof.
  intros Hm s0 s Hs. unfold sbind. destruct (Hm s0 s Hs) as (a & Ha & Hr). destruct (m s) as [r s1]. cbn in *. subst r. eauto.
Qed.
Lemma records_audited action kind id md : records (audited rq actor action kind id md).
Proof.
  intros s0 s (H1 & H2 & H3). unfold audited, build_audit, record_audit, sbind, scatch, draw, sget, insert, write_audit_log,
    push_recent, smod. cbn.
  set (e := mkAudit _ _ _ _ _ _ _ _ _ _).
  destruct (existsb _ (audit_log (a_store s))) eqn:He; cbn; (exists tt; split; [done|]; exists e, md);
    (split_and! ; [by rewrite <- H2, <- H3|..]; try done).
  - right. split; [done|]. rewrite existsb_exists in He. destruct He as (x & Hx & Hi). apply String.eqb_eq in Hi.
    rewrite <- H1. change (In (uuid4_hex (a_draws s)) (map al_id (audit_log (a_store s)))). rewrite <- Hi. by apply in_map.
  - left. rewrite <- H1. done.
Qed.

Lemma idle_ret {A} (a : A) : idle (sret a).
Proof. done. Qed.
Lemma idle_lift {A} (r : result exn A) : idle (slift r).
Proof. by destruct r. Qed.
Lemma idle_get {A} (f : AppState -> A) : idle (sget f).
Proof. done. Qed.
Lemma idle_query {A} (f : Store -> A) : idle (query f).
Proof. done. Qed.
Lemma idle_draw {A} (f : nat -> A) : idle (draw f).
Proof. done. Qed.
Lemma idle_body : idle (json_body rq).
Proof. unfold json_body. intros s. destruct (ad_json rq) as [[]|e]; try done. by destruct (is_value_error e). Qed.
Lemma works_ret {A} (a : A) : works (sret a).
Proof. intros s. by exists a. Qed.
Lemma works_get {A} (f : AppState -> A) : works (sget f).
Proof. intros s. by exists (f s). Qed.
Lemma works_keyset f : works (smod (fun s => with_keyset s (f s))).
Proof. intros s. by exists tt. Qed.
Lemma works_update f : (forall st, audit_log (f st) = audit_log st) -> works (update f).
Proof. intros Hf s. exists tt. split; [done|]. split; [apply Hf|done]. Qed.
Lemma works_count f : (forall st, audit_log (f st).1 = audit_log st) -> works (update_count f).
Proof.
  intros Hf s. specialize (Hf (a_store s)). unfold update_count. destruct (f (a_store s)) as [st n]. exists n.
  split; [done|]. by split.
Qed.
Lemma works_bind {A B} (m : M A) (k : A -> M B) : works m -> (forall a, works (k a)) -> works (sbind m k).
Proof.
  intros Hm Hk s. unfold sbind. destruct (Hm s) as (a & Ha & H1 & H2 & H3). destruct (m s) as [r s1]. cbn in *. subst r.
  destruct (Hk a s1) as (b & Hb & K1 & K2 & K3). exists b. unfold same_trail. by rewrite K1, K2, K3.
Qed.
Lemma works_user_revocation uid : works (revoke_by_user uid).
Proof. apply works_bind; [by apply works_count|intros; apply works_ret]. Qed.
Lemma works_client_revocation cid : works (best_effort_revoke_by_client cid).
Proof. apply works_bind; [by apply works_count|intros; apply works_ret]. Qed.
Lemma works_revoked : works count_token_revoked.
Proof. intros s. by exists tt. Qed.
Hint Resolve works_revoked idle_ret idle_lift idle_get idle_query idle_draw idle_body works_ret works_get works_keyset
  works_user_revocation works_client_revocation records_audited : trail.

Lemma save_user_trail u st st' : save_user u st = Ok st' -> audit_log st' = audit_log st.
Proof. unfold save_user. destruct (existsb _ _); [done|]. by intros [= <-]. Qed.
Lemma update_user_trail u st st' : update_user u st = Ok st' -> audit_log st' = audit_log st.
Proof. unfold update_user. destruct (_ && _); [done|]. by intros [= <-]. Qed.
Lemma save_client_trail c st st' : save_client c st = Ok st' -> audit_log st' = audit_log st.
Proof. unfold save_client. destruct (existsb _ _); [done|]. by intros [= <-]. Qed.
Lemma add_denylist_trail e st st' : add_denylist_entry e st = Ok st' -> audit_log st' = audit_log st.
Proof.
  unfold add_denylist_entry. destruct (existsb _ _); [by intros [= <-]|]. destruct (existsb _ _); [done|]. by intros [= <-].
Qed.
Hint Resolve save_user_trail update_user_trail save_client_trail add_denylist_trail : trail.

Ltac trail_walk :=
  repeat first
    [ progress intros
    | match goal with
      | |- accounted (if ?b then _ else _) => destruct b
      | |- accounted (match ?x with _ => _ end) => destruct x
      | |- accounted (let '(_, _) := ?x in _) => destruct x
      | |- works (if ?b then _ else _) => destruct b
      | |- works (match ?x with _ => _ end) => destruct x
      | |- idle (if ?b then _ else _) => destruct b
      | |- idle (match ?x with _ => _ end) => destruct x
      end
    | solve [eauto with trail]
    | solve [apply idle_accounted; eauto with trail]
    | apply accounted_insert; [solve [eauto with trail]|]
    | apply works_update; done | apply works_count; done
    | match goal with
      | |- records (sbind ?m (fun _ => sret ?b)) => apply (records_post m b)
      | |- records (sbind ?m ?k) => apply (records_pre m k)
      end
    | apply accounted_bind; [solve [eauto with trail | trail_walk]|]
    | match goal with |- accounted (sbind ?m (fun _ => sret ?b)) => apply (accounted_post m b); progress trail_walk end
    | apply records_accounted ].

(** an operation of the admin API that changes anything - a stored row,
    the key set - returns, and leaves one record of the actor, the request's
    origin and the operation; an operation that fails changes nothing. *)
Theorem admin_mutation_recorded (config : Config) (call : admin_call) (s : AppState) :
  still s (snd (handler config call rq actor s))
  \/ (exists r, fst (handler config call rq actor s) = Ok r) /\ recorded s (snd (handler config call rq actor s)).
Proof.
  enough (accounted (handler config call rq actor)) as Ha.
  { destruct (Ha s) as [Hs|(r & Hr & Hrec)]; [by left|right; eauto]. }
  destruct call; cbn [AdminRoutes.handler];
    unfold create_client, get_client_route, update_client_route, delete_client_route, set_client_enabled_route,
      regenerate_client_secret, create_user, get_user, update_user_route, delete_user_route, set_user_enabled_route,
      set_user_role_route, reset_user_password, get_token, revoke_token_by_id, revoke_tokens_by_user,
      revoke_tokens_by_client, revoke_tokens_by, add_denylist, remove_denylist, rotate_key, list_keys, expire_device,
      list_clients, list_users, list_tokens, list_devices, list_denylist, list_audit, list_of, recent_events, dashboard; trail_walk.
Qed.
End trail.

(** ** The constraints of the tables *)
Section constraints.
Context `{JwtLib} `{Runtime}.
Context (fromisoformat : string -> option (Z * option Z)) (hs256_secret rs256_pem : nat -> string).
Context (cbn_ : string -> bool) (inet_aton : string -> option Z) (config : Config).

Definition lawful {A} (m : M A) : Prop := via_ops m.
Lemma lawful_quiet {A} (m : M A) : quiet m -> lawful m.
Proof. exact (via_quiet m). Qed.
Lemma lawful_bind {A B} (m : M A) (k : A -> M B) : lawful m -> (forall a, lawful (k a)) -> lawful (sbind m k).
Proof. exact (via_bind m k). Qed.
Lemma lawful_catch {A} (m : M A) h : lawful m -> (forall e, lawful (h e)) -> lawful (scatch m h).
Proof. exact (via_catch m h). Qed.
Lemma lawful_update o f : (forall st, apply_op o st = Ok (f st)) -> lawful (update f).
Proof. exact (via_update o f). Qed.
Lemma lawful_count o f : (forall st, apply_op o st = Ok (f st).1) -> lawful (update_count f).
Proof. exact (via_update_count o f). Qed.
Lemma lawful_insert o f : (forall st, apply_op o st = f st) -> lawful (insert f).
Proof. exact (via_insert o f). Qed.
Lemma quiet_body rq : quiet (json_body rq).
Proof. intros s. apply (idle_body rq s). Qed.
Lemma quiet_lift {A} (r : result exn A) : quiet (slift r).
Proof. intros s. by destruct r. Qed.
Lemma quiet_revoked : quiet count_token_revoked.
Proof. done. Qed.
Lemma quiet_keyset f : quiet (smod (fun s => with_keyset s (f s)) : M unit).
Proof. done. Qed.
Lemma lawful_audited rq actor action kind id md : lawful (audited rq actor action kind id md).
Proof.
  apply lawful_bind; [apply (lawful_quiet (build_audit rq actor action kind id md)); unfold build_audit; quiet_walk|]. intros e.
  apply lawful_bind; [apply lawful_catch; [by apply (lawful_insert (StoreSpec.WriteAuditLog e))|intros; by apply (lawful_quiet (sret _))]|].
  intros _. by apply (lawful_quiet (sbind _ _)).
Qed.
Lemma lawful_user_revocation uid : lawful (revoke_by_user uid).
Proof. apply lawful_bind; [by apply (lawful_count (StoreSpec.RevokeTokensByUserId uid))|]. intros. by apply (lawful_quiet (sret _)). Qed.
Lemma lawful_client_revocation cid : lawful (best_effort_revoke_by_client cid).
Proof. apply lawful_bind; [by apply (lawful_count (StoreSpec.RevokeTokensByClientId cid))|]. intros. by apply (lawful_quiet (sret _)). Qed.
Lemma lawful_save_client c : lawful (insert (save_client c)).
Proof. by apply (lawful_insert (StoreSpec.SaveClient c)). Qed.
Lemma lawful_update_client c : lawful (update (update_client c)).
Proof. by apply (lawful_update (StoreSpec.UpdateClient c)). Qed.
Lemma lawful_delete_client i : lawful (update (delete_client i)).
Proof. by apply (lawful_update (StoreSpec.DeleteClient i)). Qed.
Lemma lawful_enable_client i b : lawful (update (set_client_enabled i b)).
Proof. by apply (lawful_update (StoreSpec.SetClientEnabled i b)). Qed.
Lemma lawful_client_secret i x : lawful (update (set_client_secret i x)).
Proof. by apply (lawful_update (StoreSpec.SetClientSecret i x)). Qed.
Lemma lawful_save_user u : lawful (insert (save_user u)).
Proof. by apply (lawful_insert (StoreSpec.SaveUser u)). Qed.
Lemma lawful_update_user u : lawful (insert (update_user u)).
Proof. by apply (lawful_insert (StoreSpec.UpdateUser u)). Qed.
Lemma lawful_delete_user i : lawful (update (delete_user i)).
Proof. by apply (lawful_update (StoreSpec.DeleteUser i)). Qed.
Lemma lawful_enable_user i b : lawful (update (set_user_enabled i b)).
Proof. by apply (lawful_update (StoreSpec.SetUserEnabled i b)). Qed.
Lemma lawful_role i x : lawful (update (set_user_role i x)).
Proof. by apply (lawful_update (StoreSpec.SetUserRole i x)). Qed.
Lemma lawful_password i x : lawful (update (set_user_password_hash i x)).
Proof. by apply (lawful_update (StoreSpec.SetUserPasswordHash i x)). Qed.
Lemma lawful_revoke v : lawful (update (revoke_token v)).
Proof. by apply (lawful_update (StoreSpec.RevokeToken v)). Qed.
Lemma lawful_by_user i : lawful (update_count (revoke_tokens_by_user_id i)).
Proof. by apply (lawful_count (StoreSpec.RevokeTokensByUserId i)). Qed.
Lemma lawful_by_client i : lawful (update_count (revoke_tokens_by_client_id i)).
Proof. by apply (lawful_count (StoreSpec.RevokeTokensByClientId i)). Qed.
Lemma lawful_deny e : lawful (insert (add_denylist_entry e)).
Proof. by apply (lawful_insert (StoreSpec.AddDenylistEntry e)). Qed.
Lemma lawful_undeny i : lawful (update (remove_denylist_entry i)).
Proof. by apply (lawful_update (StoreSpec.RemoveDenylistEntry i)). Qed.
Lemma lawful_expire now c : lawful (update (expire_device_authorization now c)).
Proof. by apply (lawful_update (StoreSpec.ExpireDevice now c)). Qed.
Hint Resolve lawful_audited lawful_user_revocation lawful_client_revocation lawful_save_client lawful_update_client
  lawful_delete_client lawful_enable_client lawful_client_secret lawful_save_user lawful_update_user lawful_delete_user
  lawful_enable_user lawful_role lawful_password lawful_revoke lawful_by_user lawful_by_client lawful_deny
  lawful_undeny lawful_expire : laws.
Hint Resolve quiet_body quiet_lift quiet_revoked quiet_keyset : oauth.

Ltac law_walk :=
  repeat first
    [ progress intros
    | match goal with
      | |- lawful (if ?b then _ else _) => destruct b
      | |- lawful (match ?x with _ => _ end) => destruct x
      | |- lawful (let '(_, _) := ?x in _) => destruct x
      end
    | solve [eauto with laws]
    | match goal with
      | |- lawful (sbind _ _) => apply lawful_bind
      | |- lawful _ => apply lawful_quiet; solve [eauto with oauth | done | quiet_walk]
      end ].

(** every request to the admin API leaves the tables within their keys
    and unique columns. *)
Theorem admin_api_keeps_constraints (call : admin_call) (rq : AdminRequest) (s : AppState) :
  store_ok (a_store s) ->
  store_ok (a_store (snd (admin_api fromisoformat hs256_secret rs256_pem cbn_ inet_aton config call rq s))).
Proof.
  enough (lawful (admin_api fromisoformat hs256_secret rs256_pem cbn_ inet_aton config call rq)) as Hl.
  { intros Hs. destruct (Hl s) as [os ->]. by apply apply_ops_ok. }
  unfold admin_api, admin_route, require_admin, authenticate_bearer.
  destruct call; cbn [handler];
    unfold create_client, get_client_route, update_client_route, delete_client_route, set_client_enabled_route,
      regenerate_client_secret, create_user, get_user, update_user_route, delete_user_route, set_user_enabled_route,
      set_user_role_route, reset_user_password, get_token, revoke_token_by_id, revoke_tokens_by_user,
      revoke_tokens_by_client, revoke_tokens_by, add_denylist, remove_denylist, rotate_key, list_keys, expire_device,
      list_clients, list_users, list_tokens, list_devices, list_denylist, list_audit, list_of, recent_events, dashboard; law_walk.
Qed.
End constraints.

(** ** Paging *)
(** paging through the client list shows every client whose name or
    client id contains the search text, ignoring ASCII case and whatever
    wildcards the text holds, exactly once, in pages of at most 200 rows. *)
Theorem client_pages_complete (q : ListQuery) (st : Store) (n : nat) :
  0 < effective_limit q -> (length (clients st) <= n * Z.to_nat (effective_limit q))%nat ->
  Permutation (concat (map (fun k => (list_clients_page (at_page q k) st).1) (seq 0 n)))
    (List.filter (fun c => mentions q (c_name c) || mentions q (c_client_id c)) (clients st))
  /\ forall k, (length (list_clients_page (at_page q k) st).1 <= 200)%nat
               /\ (list_clients_page (at_page q k) st).2
                  = Z.of_nat (length (List.filter (fun c => mentions q (c_name c) || mentions q (c_client_id c)) (clients st))).
Proof.
  intros Hl Hn. assert (forall k, list_clients_page (at_page q k) st
    = select_page (client_col (whitelist_col (lq_sort_by q) CLIENT_SORT_COLS))
        (fun c => mentions q (c_name c) || mentions q (c_client_id c)) (ascending (lq_sort_dir q)) (at_page q k) (clients st)) as Heq.
  { intros k. unfold list_clients_page, select_page. cbn [lq_sort_by lq_sort_dir at_page list_query].
    by rewrite (List.filter_ext _ (fun c => mentions q (c_name c) || mentions q (c_client_id c)))
      by (intros c; by rewrite !column_mentions). }
  split.
  - rewrite (List.map_ext _ _ (fun k => f_equal fst (Heq k))). apply select_pages; [done|lia].
  - intros k. rewrite Heq. split; [|done]. cbn [select_page fst]. rewrite length_firstn. unfold effective_limit, MAX_LIMIT. lia.
Qed.

(** ** On the example server *)
Lemma client_pages_complete_witness :
  let q := list_query (Some 1) 0 None "desc" (Some "A%") None in
  length (list_clients_page (at_page q 0) (toy_store false false)).1 = 0%nat
  /\ Permutation (concat (map (fun k => (list_clients_page (at_page q k) (toy_store false false)).1) (seq 0 2))) [].
Proof.
  split; [vm_compute; reflexivity|].
  apply (client_pages_complete (list_query (Some 1) 0 None "desc" (Some "A%") None) (toy_store false false) 2);
    [reflexivity|vm_compute; lia].
Defined.
Lemma admin_api_keeps_constraints_witness :
  let rq := mkAdmin None None None (mkAdminSession (Some "u-9") (Some "admin") None) (Ok (JObj [])) in
  store_ok (a_store (snd (admin_api (fun _ => None) (fun _ => "k") (fun _ => "pem") toy_brackets (fun _ => None)
    (toy_config true) (DeleteUser "u-1") rq (toy_state false false)))).
Proof. apply admin_api_keeps_constraints. apply toy_store_ok. Defined.
