(* ===== verification/AdminEffects.v ===== *)
(** * What the admin operations achieve: lockout, client intake, key rotation *)
From Stdlib Require Import Sorting.Permutation.
From S2P Require Import Prelude PyStr PyJson Codec Models IsoTime Storage StoreSpec Paging PyUrl TtlStores Keys Jwt App PyDumps.
From S2P Require Import ClientAuth Redirects JwksUri Register Admin AdminClients AdminRoutes TokenLemmas AdminProps ToyJwt.
From S2P Require Authorize AuthorizeProps.
#[local] Open Scope Z_scope.

(** ** Revocation of the rows of an owner *)
(** What became of a token row. *)
Definition locked (owned : Token -> Prop) (t t' : Token) : Prop :=
  t_access_token t' = t_access_token t /\ t_refresh_token t' = t_refresh_token t
  /\ (owned t -> t_revoked t' = true) /\ (~ owned t -> t' = t).
Definition of_user (uid : string) (t : Token) : Prop := t_user_id t = Some uid.
Definition of_client (client_id : string) (t : Token) : Prop := t_client_id t = client_id.

Lemma oeqb_true o s : oeqb o s = true <-> o = Some s.
Proof. destruct o; cbn; [rewrite String.eqb_eq; naive_solver|done]. Qed.
Lemma locked_update owned p f l :
  (forall t, p t = true -> owned t) -> (forall t, owned t -> p t = false -> t_revoked t = true) ->
  (forall t, t_access_token (f t) = t_access_token t /\ t_refresh_token (f t) = t_refresh_token t /\ t_revoked (f t) = true) ->
  Forall2 (locked owned) l (update_where p f l).
Proof.
  intros Hp Hn Hf. unfold update_where. induction l as [|t l IH]; cbn; constructor; [|done].
  destruct (p t) eqn:Ht; split_and! ; try done.
  - apply Hf.
  - apply Hf.
  - intros _. apply Hf.
  - intros Hu. by apply Hp in Ht.
  - intros Hu. by apply Hn.
Qed.
Lemma locked_by_user uid st : Forall2 (locked (of_user uid)) (tokens st) (tokens (revoke_tokens_by_user_id uid st).1).
Proof.
  apply locked_update; [|intros t Hu; rewrite Hu; cbn; rewrite String.eqb_refl; cbn; by intros ->%negb_false_iff|done].
  intros t Ht. apply andb_prop in Ht as [Ht _]. by apply oeqb_true.
Qed.
Lemma locked_by_client cid st : Forall2 (locked (of_client cid)) (tokens st) (tokens (revoke_tokens_by_client_id cid st).1).
Proof.
  apply locked_update; [|intros t Hu; rewrite Hu, String.eqb_refl; cbn; by intros ->%negb_false_iff|done].
  intros t Ht. apply andb_prop in Ht as [Ht _]. by apply String.eqb_eq.
Qed.
Lemma locked_by_delete uid st :
  Forall2 (locked (of_user uid)) (tokens st) (tokens (revoke_tokens_by_user_id uid (delete_user uid st)).1).
Proof.
  cbn [tokens revoke_tokens_by_user_id fst on_tokens delete_user on_users].
  set (l := update_where (fun r => oeqb (t_user_id r) uid) unlinked_token (tokens st)).
  assert (update_where (fun r => oeqb (t_user_id r) uid && negb (t_revoked r)) revoked_token l = l) as Hid.
  { apply update_absent. apply not_true_is_false. rewrite existsb_exists. intros (t & Ht & Hu).
    apply andb_prop in Hu as [Hu _]. unfold l in Ht. apply in_update_where in Ht as (x & _ & ->).
    destruct (oeqb (t_user_id x) uid) eqn:Hx; [done|congruence]. }
  change (update_where _ revoked_token (tokens _)) with (update_where (fun r => oeqb (t_user_id r) uid && negb (t_revoked r)) revoked_token l).
  rewrite Hid. apply locked_update; [by intros t Ht; apply oeqb_true|intros t Hu; apply oeqb_true in Hu; congruence|done].
Qed.

(** A presented token value finds the row of its token still, now revoked. *)
Lemma locked_find owned (q : Token -> bool) l l' t :
  (forall t t', t_access_token t' = t_access_token t -> t_refresh_token t' = t_refresh_token t -> q t' = q t) ->
  Forall2 (locked owned) l l' -> List.find q l = Some t -> exists t', List.find q l' = Some t' /\ locked owned t t'.
Proof.
  intros Hq Hl. induction Hl as [|x x' l l' Hx Hl IH]; cbn; [done|]. destruct Hx as (H1 & H2 & H3 & H4).
  rewrite (Hq x x') by done. destruct (q x); [|done]. intros [= ->]. by exists x'.
Qed.

Section effects.
Context `{JwtLib} `{Runtime}.
Context (fromisoformat : string -> option (Z * option Z)) (hs256_secret rs256_pem : nat -> string).
Context (cbn_ : string -> bool) (inet_aton : string -> option Z) (config : Config).
Notation handler := (handler fromisoformat hs256_secret rs256_pem cbn_ inet_aton config).

(** Auditing touches the audit log and the recent events only. *)
Record audit_frame (s s' : AppState) : Prop := {
  af_clients : clients (a_store s') = clients (a_store s);
  af_users : users (a_store s') = users (a_store s);
  af_tokens : tokens (a_store s') = tokens (a_store s);
  af_keyset : a_keyset s' = a_keyset s;
  af_wall : a_wall s' = a_wall s
}.
Lemma audited_frame rq actor action kind id md s :
  exists s', audited rq actor action kind id md s = (Ok tt, s') /\ audit_frame s s'.
Proof.
  unfold audited, build_audit, record_audit, sbind, scatch, draw, sget, insert, write_audit_log, push_recent, smod. cbn.
  destruct (existsb _ (audit_log (a_store s))); cbn; (eexists; split; [done|]); done.
Qed.
Lemma audited_then {A} rq actor action kind id md (a : A) s r s' :
  (audited rq actor action kind id md !; sret a) s = (Ok r, s') -> r = a /\ audit_frame s s'.
Proof.
  destruct (audited_frame rq actor action kind id md s) as (s1 & H1 & Hf). unfold sbind. rewrite H1.
  by intros [= <- <-].
Qed.
(** [json_body] of a JSON object. *)
Lemma json_body_obj rq m s : ad_json rq = Ok (JObj m) -> json_body rq s = (Ok m, s).
Proof. unfold json_body. by intros ->. Qed.

(** ** Lockout *)
Definition disabling (rq : AdminRequest) : Prop :=
  exists m, ad_json rq = Ok (JObj m) /\ obj_get "enabled" m = Some (JBool false).
Definition locks_out (call : admin_call) (rq : AdminRequest) (uid : string) : Prop :=
  match call with
  | DeleteUser id | ResetPassword id => id = uid
  | EnableUser id | UpdateUser id => id = uid /\ disabling rq
  | RevokeByUser => exists m, ad_json rq = Ok (JObj m) /\ body_str "user_id" m = uid
  | _ => False
  end.

(** The end of a handler: its audit record and its answer. *)
Ltac audit_end H :=
  match type of H with context [audited ?rq ?actor ?a ?k ?i ?md ?s] =>
    let s1 := fresh "s" in let E := fresh "E" in
    destruct (audited_frame rq actor a k i md s) as (s1 & E & [? ? ? ? ?]); rewrite E in H; injection H as <- <-
  end.
Lemma enabled_after uid b st u : get_user_by_id uid (set_user_enabled uid b st) = Some u -> u_enabled u = b.
Proof.
  unfold get_user_by_id, set_user_enabled, set_user. cbn [users on_users]. rewrite find_update_where by done.
  destruct (List.find _ _) as [v|] eqn:Hf; [|done]. apply find_In in Hf as [_ Hf]. rewrite Hf. by intros [= <-].
Qed.
Lemma absent_after uid st : get_user_by_id uid (delete_user uid st) = None.
Proof.
  unfold get_user_by_id, delete_user. cbn. 
  induction (users st) as [|u l IH]; [done|]. cbn. destruct (String.eqb (u_id u) uid) eqn:Hu; cbn; [done|by rewrite Hu].
Qed.

(** The rows of [s'], the audit log aside, are those of [st]. *)
Definition left_with (st : Store) (s' : AppState) : Prop :=
  clients (a_store s') = clients st /\ users (a_store s') = users st /\ tokens (a_store s') = tokens st.
Lemma revoke_by_user_run uid s :
  revoke_by_user uid s = (Ok tt, with_store s (revoke_tokens_by_user_id uid (a_store s)).1).
Proof. done. Qed.
Lemma parse_body_refusal model m r : parse_body model m = Some r -> r_status r = 400.
Proof. unfold parse_body. destruct (_ ++ _); [done|]. by intros [= <-]. Qed.

Lemma update_user_ok uid rq actor m s r s' : ad_json rq = Ok (JObj m) ->
  update_user_route uid rq actor s = (Ok r, s') -> r_status r = 200 ->
  exists u st, get_user_by_id uid (a_store s) = Some u
    /\ update_user (user_updates (a_wall s) m u) (a_store s) = Ok st
    /\ left_with (match obj_get "enabled" m with
                  | Some (JBool false) => (revoke_tokens_by_user_id uid st).1 | _ => st end) s'.
Proof.
  intros Hb Hr Hs. unfold update_user_route, query in Hr. run_simpl Hr.
  destruct (get_user_by_id uid (a_store s)) as [u|] eqn:Hu; [|by simplify_eq].
  rewrite (json_body_obj _ _ _ Hb) in Hr. destruct (parse_body user_update_body m) eqn:Hp.
  { injection Hr as <- <-. apply parse_body_refusal in Hp. congruence. }
  unfold insert in Hr. destruct (update_user _ (a_store s)) as [st|e] eqn:Hst; [|done].
  exists u, st. split_and! ; [done..|].
  destruct (obj_get "enabled" m) as [[]|]; try (audit_end Hr; done).
  destruct b; [audit_end Hr; done|]. rewrite revoke_by_user_run in Hr. audit_end Hr. done.
Qed.
Lemma set_user_enabled_ok uid rq actor m s r s' : ad_json rq = Ok (JObj m) ->
  set_user_enabled_route uid rq actor s = (Ok r, s') -> r_status r = 200 ->
  exists b, obj_get "enabled" m = Some (JBool b)
    /\ left_with (let st := set_user_enabled uid b (a_store s) in
                  if b then st else (revoke_tokens_by_user_id uid st).1) s'.
Proof.
  intros Hb Hr Hs. unfold set_user_enabled_route in Hr. run_simpl Hr. rewrite (json_body_obj _ _ _ Hb) in Hr.
  destruct (obj_get "enabled" m) as [[]|]; try (injection Hr as <- <-; done).
  exists b. split; [done|]. unfold update in Hr. run_simpl Hr.
  destruct b; [|rewrite revoke_by_user_run in Hr]; audit_end Hr; done.
Qed.
Lemma delete_user_ok uid rq actor s r s' :
  delete_user_route uid rq actor s = (Ok r, s') -> r_status r = 200 ->
  left_with (revoke_tokens_by_user_id uid (delete_user uid (a_store s))).1 s'.
Proof.
  intros Hr Hs. unfold delete_user_route, query, update in Hr. run_simpl Hr.
  destruct (get_user_by_id uid (a_store s)) as [u|] eqn:Hu; [|by simplify_eq].
  rewrite revoke_by_user_run in Hr. audit_end Hr. done.
Qed.
Lemma reset_password_ok uid rq actor s r s' :
  reset_user_password uid rq actor s = (Ok r, s') -> r_status r = 200 ->
  exists n password, 8 <= py_len password
    /\ left_with (revoke_tokens_by_user_id uid (set_user_password_hash uid (argon2_hash n password) (a_store s))).1 s'.
Proof.
  intros Hr Hs. unfold reset_user_password in Hr. apply bind_ok in Hr as (m & s1 & Hm & Hr).
  pose proof (idle_body rq s) as (Hst & _ & _ & _). rewrite Hm in Hst. cbn in Hst.
  unfold draw, update in Hr. run_simpl Hr.
  destruct (Z.ltb_spec (py_len (body_str "password" m)) 8); [by simplify_eq|]. rewrite revoke_by_user_run in Hr. audit_end Hr.
  exists (a_draws s1), (body_str "password" m). split; [done|]. by rewrite <- Hst.
Qed.
Lemma revoke_user_ok uid rq actor m s r s' : ad_json rq = Ok (JObj m) -> body_str "user_id" m = uid ->
  revoke_tokens_by_user rq actor s = (Ok r, s') -> left_with (revoke_tokens_by_user_id uid (a_store s)).1 s'.
Proof.
  intros Hb <- Hr. unfold revoke_tokens_by_user, revoke_tokens_by, update_count in Hr. run_simpl Hr.
  rewrite (json_body_obj _ _ _ Hb) in Hr. cbn [revoke_tokens_by_user_id] in Hr. cbv beta iota zeta in Hr.
  audit_end Hr. done.
Qed.

(** C26: locking a user out - disabling or deleting the account, resetting its
    password, revoking its tokens - revokes every token of the user and no
    other: each access and refresh token value of theirs is found revoked
    afterwards, the rows of others are untouched, and a disabled or deleted
    account is not enabled. *)
Theorem user_lockout call uid rq actor s r s' :
  locks_out call rq uid -> handler call rq actor s = (Ok r, s') -> r_status r = 200 ->
  (forall v t, get_token_by_access_token v (a_store s) = Some t ->
     exists t', get_token_by_access_token v (a_store s') = Some t' /\ locked (of_user uid) t t')
  /\ (forall v t, get_token_by_refresh_token v (a_store s) = Some t ->
       exists t', get_token_by_refresh_token v (a_store s') = Some t' /\ locked (of_user uid) t t')
  /\ (match call with ResetPassword _ | RevokeByUser => True | _ =>
       forall u, get_user_by_id uid (a_store s') = Some u -> u_enabled u = false end).
Proof.
  intros Hl Hr Hs.
  enough (Forall2 (locked (of_user uid)) (tokens (a_store s)) (tokens (a_store s'))
    /\ match call with ResetPassword _ | RevokeByUser => True | _ =>
       forall u, get_user_by_id uid (a_store s') = Some u -> u_enabled u = false end) as [Ht Hu].
  { split_and! ; [| |done].
    - intros v t Hv. eapply locked_find; [|exact Ht|exact Hv]. by intros x x' -> _.
    - intros v t Hv. eapply locked_find; [|exact Ht|exact Hv]. by intros x x' _ ->. }
  destruct call; try done; cbn [AdminRoutes.handler locks_out] in *.
  - destruct Hl as [-> (m & Hb & He)].
    destruct (update_user_ok _ _ _ _ _ _ _ Hb Hr Hs) as (u & st & Hu & Hst & Hw). rewrite He in Hw.
    destruct Hw as (_ & Hus & Hto). unfold get_user_by_id. rewrite Hus, Hto.
    unfold update_user in Hst. destruct (_ && _); [done|]. injection Hst as <-.
    split; [exact (locked_by_user uid (set_user _ _ (a_store s)))|].
    apply find_In in Hu as [_ Hid]. apply String.eqb_eq in Hid.
    intros x. cbn [users revoke_tokens_by_user_id fst on_tokens set_user on_users].
    rewrite find_update_where by done. destruct (List.find _ _) as [y|] eqn:Hy; [|done]. apply find_In in Hy as [_ Hy].
    change (u_id (user_updates (a_wall s) m u)) with (u_id u). rewrite Hid, Hy. intros [= <-]. cbn.
    by rewrite He.
  - subst id. destruct (delete_user_ok _ _ _ _ _ _ Hr Hs) as (_ & Hus & Hto). unfold get_user_by_id.
    rewrite Hus, Hto. split; [apply locked_by_delete|]. intros u Hu.
    pose proof (absent_after uid (a_store s)) as Ha. unfold get_user_by_id in Ha. cbn in *. congruence.
  - destruct Hl as [-> (m & Hb & He)]. destruct (set_user_enabled_ok _ _ _ _ _ _ _ Hb Hr Hs) as (b & Hb' & Hw).
    rewrite He in Hb'. injection Hb' as <-. destruct Hw as (_ & Hus & Hto). unfold get_user_by_id. rewrite Hus, Hto.
    split; [exact (locked_by_user uid (set_user_enabled uid false (a_store s)))|]. intros u Hu. by apply (enabled_after uid false (a_store s)).
  - subst id. destruct (reset_password_ok _ _ _ _ _ _ Hr Hs) as (n & pw & _ & _ & _ & Hto). rewrite Hto.
    split; [exact (locked_by_user uid (set_user_password_hash uid _ (a_store s)))|done].
  - destruct Hl as (m & Hb & Hu). destruct (revoke_user_ok uid _ _ _ _ _ _ Hb Hu Hr) as (_ & _ & Hto). rewrite Hto.
    split; [apply locked_by_user|done].
Qed.

(** ** Client intake *)
Definition valid_uri (u : string) : Prop := is_valid_redirect_uri cbn_ u = Ok true.
(** The key rules of the client metadata. *)
Record keyed (c : Client) : Prop := {
  kd_method : In (c_token_endpoint_auth_method c) valid_auth_methods;
  kd_one_source : c_jwks c = EmptyString \/ c_jwks_uri c = EmptyString;
  kd_uri : c_jwks_uri c <> EmptyString -> is_valid_jwks_uri cbn_ inet_aton (c_jwks_uri c) = Ok true;
  kd_keys : In (c_token_endpoint_auth_method c) ["private_key_jwt"; "self_signed_tls_client_auth"] ->
    c_jwks c <> EmptyString \/ c_jwks_uri c <> EmptyString
}.
Definition uris_column (v : json) (column : string) : Prop :=
  exists l, v = JList (map JStr l) /\ Forall valid_uri l /\ column = py_dumps v.

Lemma keyed_ok c : validate_key_material cbn_ inet_aton (c_token_endpoint_auth_method c) (c_jwks c) (c_jwks_uri c) = Ok None ->
  keyed c.
Proof.
  unfold validate_key_material. destruct (mem_str _ valid_auth_methods) eqn:Hm; cbn [negb]; [|done].
  destruct (truthy (c_jwks c)) eqn:Hj, (truthy (c_jwks_uri c)) eqn:Hu; cbn [andb negb rbind]; try done.
  all: try (destruct (is_valid_jwks_uri _ _ _) as [[]|] eqn:Hv; cbn [rbind negb]; try done).
  all: destruct (String.eqb _ "private_key_jwt" && _) eqn:Hp; try done.
  all: destruct (String.eqb _ "self_signed_tls_client_auth" && _) eqn:Hs; try done; intros _.
  all: constructor; [by apply mem_str_In|..].
  all: first [apply truthy_false in Hj | apply truthy_true in Hj].
  all: first [apply truthy_false in Hu | apply truthy_true in Hu].
  all: try rewrite Hj in *; try rewrite Hu in *; try (by left); try (by right); try done.
  all: try (intros _; by left); try (intros _; by right).
  rewrite andb_true_r in Hp, Hs. intros [Hin|[Hin|[]]]; by rewrite <- Hin in *.
Qed.
Lemma all_strings_inv l l' : all_strings l = Some l' -> l = map JStr l'.
Proof.
  revert l'. induction l as [|v l IH]; cbn; intros l'; [by intros [= <-]|].
  destruct v; try done. cbn. destruct (fold_right _ _ l) eqn:Hl; [|done]. intros [= <-]. cbn. by rewrite <- IH.
Qed.
Lemma all_valid_Forall l : all_valid_uris cbn_ l = Ok true -> Forall valid_uri l.
Proof.
  induction l as [|u l IH]; [done|]. cbn [all_valid_uris].
  destruct (is_valid_redirect_uri cbn_ u) as [[]|] eqn:Hu; cbn [rbind]; try done. intros Hl. constructor; auto.
Qed.
Lemma first_refusal_none a b : first_refusal a b = Ok None -> a = Ok None /\ b = Ok None.
Proof. unfold first_refusal. by destruct a as [[]|]. Qed.
Lemma uri_list_ok name v : validate_uri_list cbn_ name (Some v) = Ok None -> uris_column v (py_dumps v).
Proof.
  cbn [validate_uri_list]. destruct (as_list v) as [l|] eqn:Hv; cbn; [|done]. destruct v; try done. injection Hv as ->.
  destruct (all_strings l) as [l'|] eqn:Hl; [|done]. apply all_strings_inv in Hl as ->.
  destruct (all_valid_uris cbn_ l') as [[]|] eqn:Ha; cbn [rbind]; try done. intros _. exists l'.
  split_and! ; [done|by apply all_valid_Forall|done].
Qed.
Lemma redirects_ok v b f p : validate_redirect_uris cbn_ (Some v) b f p = Ok None -> uris_column v (py_dumps v).
Proof. intros Hv. apply first_refusal_none in Hv as [Hv _]. by eapply uri_list_ok. Qed.

(** Where an accepted body leaves the client's row. *)
Record taken_in (body : pydict) (c : Client) : Prop := {
  tk_keyed : keyed c;
  tk_redirects : forall v, obj_get "redirect_uris" body = Some v -> v <> JNull -> uris_column v (c_redirect_uris c)
}.

Lemma new_client_ok name body n now id cid secret c :
  new_client_checks cbn_ inet_aton name body = Ok (inr n) -> new_client n now id cid secret = Ok c -> taken_in body c.
Proof.
  unfold new_client_checks. intros Hn Hc.
  destruct (str_or "token_endpoint_auth_method" _ body) as [am|]; [|done].
  destruct (match obj_get "jwks" body with None | Some JNull => _ | Some v => _ end) as [jwks|]; [|done].
  destruct (str_or "jwks_uri" _ body) as [uri|]; [|done].
  destruct (str_or "tls_client_certificate_subject_dn" _ body) as [dn|]; [|done].
  destruct (blank_dn dn); [done|].
  destruct (validate_key_material _ _ _ _ _) as [[]|] eqn:Hk; cbn [rbind] in Hn; try done.
  destruct (str_or "backchannel_logout_uri" _ body) as [bc|]; [|done].
  destruct (str_or "frontchannel_logout_uri" _ body) as [fc|]; [|done].
  destruct (validate_redirect_uris _ _ _ _ _) as [[]|] eqn:Hr; cbn [rbind] in Hn; try done.
  injection Hn as <-. unfold new_client in Hc. cbn in Hc. destruct cid; try done.
  destruct (match obj_get "scope" body with Some v => _ | None => _ end); try done. injection Hc as <-.
  constructor; [by apply keyed_ok|]. intros v Hv Hnn. rewrite Hv in Hr. cbn [c_redirect_uris]. rewrite Hv. cbn in Hr |- *.
  destruct v; try done; by eapply redirects_ok.
Qed.

(** Refusals of the checks are 400s. *)
Lemma first_refusal_400 a b r : (a = Ok (Some r) -> r_status r = 400) -> (b = Ok (Some r) -> r_status r = 400) ->
  first_refusal a b = Ok (Some r) -> r_status r = 400.
Proof. unfold first_refusal. by destruct a as [[]|]; cbn [rbind]; auto. Qed.
Lemma uri_list_400 name v r : validate_uri_list cbn_ name v = Ok (Some r) -> r_status r = 400.
Proof.
  unfold validate_uri_list. destruct v as [v|]; [|done]. destruct (as_list v ≫= _); cbn; [|by intros [= <-]].
  destruct (all_valid_uris _ _) as [[]|]; cbn; try done. by intros [= <-].
Qed.
Lemma uri_400 name u r : validate_uri cbn_ name u = Ok (Some r) -> r_status r = 400.
Proof. unfold validate_uri. destruct (valid_or_absent _ _) as [[]|]; cbn; try done. by intros [= <-]. Qed.
Lemma redirects_400 v b f p r : validate_redirect_uris cbn_ v b f p = Ok (Some r) -> r_status r = 400.
Proof.
  unfold validate_redirect_uris. repeat apply first_refusal_400; eauto using uri_list_400, uri_400.
Qed.
Lemma keys_400 am j u r : validate_key_material cbn_ inet_aton am j u = Ok (Some r) -> r_status r = 400.
Proof.
  unfold validate_key_material. intros Hk. repeat run_step Hk; by simplify_eq.
Qed.
Lemma new_client_400 name body r : new_client_checks cbn_ inet_aton name body = Ok (inl r) -> r_status r = 400.
Proof.
  unfold new_client_checks. intros Hn.
  repeat (match type of Hn with
    | match str_or ?a ?b ?c with _ => _ end = _ => destruct (str_or a b c)
    | match (match obj_get ?a ?b with _ => _ end) with _ => _ end = _ =>
        destruct (match obj_get a b with None | Some JNull => _ | Some v => _ end)
    | (if ?b then _ else _) = _ => destruct b
    | rbind (validate_key_material ?a ?b ?c ?d ?e) _ = _ =>
        destruct (validate_key_material a b c d e) as [[]|] eqn:Hk; cbn [rbind] in Hn
    | rbind (validate_redirect_uris ?a ?b ?c ?d ?e) _ = _ =>
        destruct (validate_redirect_uris a b c d e) as [[]|] eqn:Hd; cbn [rbind] in Hn
    end); try done; injection Hn as <-; eauto using keys_400, redirects_400.
Qed.

Lemma create_client_ok rq actor m s r s' : ad_json rq = Ok (JObj m) ->
  create_client cbn_ inet_aton rq actor s = (Ok r, s') -> r_status r = 201 ->
  exists c, taken_in m c /\ clients (a_store s') = clients (a_store s) ++ [c].
Proof.
  intros Hb Hr Hs. unfold create_client in Hr. unfold sbind at 1 in Hr. rewrite (json_body_obj _ _ _ Hb) in Hr.
  cbv beta iota zeta in Hr. destruct (truthy (py_strip (body_str "name" m))); [|by injection Hr as <- <-].
  cbn [negb] in Hr. set (requested := match obj_get "client_id" m with Some _ => _ | None => _ end) in Hr. clearbody requested.
  apply bind_ok in Hr as (taken & s1 & Ht & Hr).
  assert (s1 = s) as -> by (destruct requested; by injection Ht).
  destruct taken; [by injection Hr as <- <-|].
  apply bind_ok in Hr as (cid & s2 & Hc & Hr).
  assert (a_store s2 = a_store s) as H2 by (destruct requested; by injection Hc as <- <-).
  apply bind_ok in Hr as (checked & s3 & Hk & Hr). unfold slift in Hk. destruct (new_client_checks _ _ _ m) as [k|] eqn:Hn; [|done].
  injection Hk as -> <-. destruct checked as [refused|n].
  { injection Hr as -> <-. apply new_client_400 in Hn. congruence. }
  apply bind_ok in Hr as (secret & s4 & Hsec & Hr).
  assert (a_store s4 = a_store s) as H4 by (rewrite <- H2; destruct (String.eqb (nc_auth_method n) "none"), (truthy (body_str "client_secret" m)); by injection Hsec as <- <-).
  unfold sget, draw, insert in Hr. run_simpl Hr. destruct (new_client _ _ _ _ _) as [c|] eqn:Hnew; [|done].
  cbn [a_store with_draws] in Hr. rewrite H4 in Hr. destruct (save_client c (a_store s)) as [st|] eqn:Hsave; [|done].
  audit_end Hr. exists c. split; [by eapply new_client_ok|].
  unfold save_client in Hsave. destruct (existsb _ _); [done|]. by injection Hsave as <-.
Qed.

Lemma update_client_ok id rq actor m s r s' : ad_json rq = Ok (JObj m) ->
  update_client_route cbn_ inet_aton id rq actor s = (Ok r, s') -> r_status r = 200 ->
  exists c0 c, resolve_client id (a_store s) = Some c0 /\ taken_in m c /\ c = merged_client (a_wall s) m c0
    /\ left_with (match obj_get "enabled" m with
                  | Some (JBool false) => (revoke_tokens_by_client_id (c_client_id c0) (update_client c (a_store s))).1
                  | _ => update_client c (a_store s) end) s'.
Proof.
  intros Hb Hr Hs. unfold update_client_route, query in Hr. run_simpl Hr.
  destruct (resolve_client id (a_store s)) as [c0|] eqn:Hc0; [|by simplify_eq].
  rewrite (json_body_obj _ _ _ Hb) in Hr. destruct (parse_body client_update_body m) eqn:Hp.
  { injection Hr as <- <-. apply parse_body_refusal in Hp. congruence. }
  destruct (client_update_refusal _ _ m c0) as [[refused|]|] eqn:Href; [| |done].
  { injection Hr as <- <-. exfalso. unfold client_update_refusal in Href. destruct (blank_dn _); [by injection Href as <-|].
    apply first_refusal_400 in Href; [congruence|apply redirects_400|apply keys_400]. }
  exists c0, (merged_client (a_wall s) m c0). split_and! ; [done| |done|].
  - unfold client_update_refusal in Href. destruct (blank_dn _); [done|]. apply first_refusal_none in Href as [Hu Hk].
    constructor; [by apply keyed_ok|]. intros v Hv _. cbn [c_redirect_uris merged_client]. unfold merged_dump.
    rewrite Hv in *. by eapply redirects_ok.
  - unfold update in Hr. run_simpl Hr. destruct (obj_get "enabled" m) as [[]|]; try (audit_end Hr; done).
    destruct b; [audit_end Hr; done|]. unfold best_effort_revoke_by_client, update_count in Hr. run_simpl Hr.
    cbn [revoke_tokens_by_client_id] in Hr. cbv beta iota zeta in Hr. audit_end Hr. done.
Qed.

Lemma taken_in_cols m c old : taken_in m c -> taken_in m (client_update_cols c old).
Proof. by intros [[? ? ? ?] ?]; split. Qed.
Lemma resolved_In id st c : resolve_client id st = Some c -> In c (clients st) /\ c_id c = id.
Proof.
  unfold resolve_client. intros Hf. apply find_In in Hf as [Hin Hid]. apply String.eqb_eq in Hid. split; [|done].
  by eapply Permutation_in; [apply order_by_perm|].
Qed.

(** a client the admin API creates or updates is fit to use: a known
    authentication method with the keys it needs from one source, a JWKS URI
    only if it is acceptable, and redirect URIs, when the request gives any,
    that are all acceptable and stored as given. *)
Theorem client_intake_sound call rq actor m s r s' :
  ad_json rq = Ok (JObj m) -> handler call rq actor s = (Ok r, s') ->
  (call = CreateClient /\ r_status r = 201) \/ (exists id, call = UpdateClient id /\ r_status r = 200) ->
  exists c, In c (clients (a_store s')) /\ taken_in m c
    /\ match call with UpdateClient id => exists old, resolve_client id (a_store s) = Some old /\ c_client_id c = c_client_id old
                                                       /\ c_id c = id
       | _ => True end.
Proof.
  intros Hb Hr [[-> Hs]|(id & -> & Hs)]; cbn [AdminRoutes.handler] in Hr.
  - destruct (create_client_ok _ _ _ _ _ _ Hb Hr Hs) as (c & Ht & Hc). exists c. split_and! ; [|done|done].
    rewrite Hc. apply in_or_app. right. by left.
  - destruct (update_client_ok _ _ _ _ _ _ _ Hb Hr Hs) as (old & c & Ho & Ht & Hid & Hw).
    pose proof (resolved_In _ _ _ Ho) as [Hin Hoid]. exists (client_update_cols c old).
    split_and! ; [|by apply taken_in_cols|exists old; by rewrite Hid].
    assert (clients (a_store s') = clients (update_client c (a_store s))) as ->.
    { destruct Hw as [-> _]. destruct (obj_get "enabled" m) as [[]|]; try done. by destruct b. }
    unfold update_client. cbn [clients on_clients]. apply in_map_iff. exists old. rewrite Hid. cbn. by rewrite String.eqb_refl.
Qed.

Lemma set_client_enabled_ok id rq actor m s r s' : ad_json rq = Ok (JObj m) ->
  set_client_enabled_route id rq actor s = (Ok r, s') -> r_status r = 200 ->
  exists b c, obj_get "enabled" m = Some (JBool b) /\ resolve_client id (a_store s) = Some c
    /\ left_with (let st := set_client_enabled (c_client_id c) b (a_store s) in
                  if b then st else (revoke_tokens_by_client_id (c_client_id c) st).1) s'.
Proof.
  intros Hb Hr Hs. unfold set_client_enabled_route, query in Hr. run_simpl Hr.
  destruct (resolve_client id (a_store s)) as [c|] eqn:Hc; [|by simplify_eq]. rewrite (json_body_obj _ _ _ Hb) in Hr.
  destruct (obj_get "enabled" m) as [[]|]; try (injection Hr as <- <-; done).
  exists b, c. split_and! ; [done..|]. unfold update in Hr. run_simpl Hr.
  destruct b; [audit_end Hr; done|]. unfold best_effort_revoke_by_client, update_count in Hr. run_simpl Hr.
  cbn [revoke_tokens_by_client_id] in Hr. cbv beta iota zeta in Hr. audit_end Hr. done.
Qed.
Lemma client_enabled_after cid b st c : get_client cid (set_client_enabled cid b st) = Some c -> c_enabled c = b.
Proof.
  unfold get_client, set_client_enabled. cbn [clients on_clients]. rewrite find_update_where by done.
  destruct (List.find _ _) as [v|] eqn:Hf; [|done]. apply find_In in Hf as [_ Hf]. rewrite Hf. by intros [= <-].
Qed.
Lemma client_updated_after c st d : get_client (c_client_id c) (update_client c st) = Some d -> c_enabled d = c_enabled c.
Proof.
  unfold get_client, update_client. cbn [clients on_clients]. rewrite find_update_where by done.
  destruct (List.find _ _) as [v|] eqn:Hf; [|done]. apply find_In in Hf as [_ Hf]. rewrite Hf. by intros [= <-].
Qed.

(** disabling a client revokes every token issued to it and no other, and
    leaves it disabled, so that it can no longer authenticate. *)
Theorem client_lockout call id rq actor s r s' :
  (call = EnableClient id \/ call = UpdateClient id) -> disabling rq ->
  handler call rq actor s = (Ok r, s') -> r_status r = 200 ->
  exists c, resolve_client id (a_store s) = Some c
    /\ (forall v t, get_token_by_access_token v (a_store s) = Some t ->
         exists t', get_token_by_access_token v (a_store s') = Some t' /\ locked (of_client (c_client_id c)) t t')
    /\ (forall v t, get_token_by_refresh_token v (a_store s) = Some t ->
         exists t', get_token_by_refresh_token v (a_store s') = Some t' /\ locked (of_client (c_client_id c)) t t')
    /\ forall d, get_client (c_client_id c) (a_store s') = Some d -> c_enabled d = false.
Proof.
  intros Hcall (m & Hb & He) Hr Hs.
  enough (exists c, resolve_client id (a_store s) = Some c
    /\ Forall2 (locked (of_client (c_client_id c))) (tokens (a_store s)) (tokens (a_store s'))
    /\ forall d, get_client (c_client_id c) (a_store s') = Some d -> c_enabled d = false) as (c & Hc & Ht & Hd).
  { exists c. split_and! ; [done| | |done].
    - intros v t Hv. eapply locked_find; [|exact Ht|exact Hv]. by intros x x' -> _.
    - intros v t Hv. eapply locked_find; [|exact Ht|exact Hv]. by intros x x' _ ->. }
  destruct Hcall as [->| ->]; cbn [AdminRoutes.handler] in Hr.
  - destruct (set_client_enabled_ok _ _ _ _ _ _ _ Hb Hr Hs) as (b & c & Hb' & Hc & Hw).
    rewrite He in Hb'. injection Hb' as <-. destruct Hw as (Hcl & _ & Hto). exists c. split; [done|]. unfold get_client.
    rewrite Hcl, Hto. split; [exact (locked_by_client _ (set_client_enabled (c_client_id c) false (a_store s)))|].
    intros d Hd. by apply (client_enabled_after (c_client_id c) false (a_store s)).
  - destruct (update_client_ok _ _ _ _ _ _ _ Hb Hr Hs) as (old & c & Ho & _ & Hid & Hw).
    rewrite He in Hw. destruct Hw as (Hcl & _ & Hto). exists old. split; [done|]. unfold get_client. rewrite Hcl, Hto.
    split; [exact (locked_by_client _ (update_client c (a_store s)))|]. intros d Hd.
    assert (c_enabled d = c_enabled c) as ->; [|rewrite Hid; cbn; by rewrite He].
    subst c. by apply (client_updated_after (merged_client (a_wall s) m old) (a_store s)).
Qed.

(** ** Key rotation *)
Lemma prune_unexpiring now ks : current_unexpiring ks -> current_unexpiring (snd (prune_expired now ks)).
Proof.
  unfold current_unexpiring, prune_expired. intros Hk. cbn. destruct (map _ _); [done|].
  rewrite Forall_forall in *. intros k Hin. apply Hk. apply list_elem_of_In, filter_In in Hin as [Hin _]. by apply list_elem_of_In.
Qed.
Lemma rotate_key_ok rq actor s r s' :
  rotate_key hs256_secret rs256_pem config rq actor s = (Ok r, s') -> r_status r = 200 ->
  exists k hours, In (k_algorithm k) valid_algorithms /\ k_is_current k = true /\ k_expires_at k = None
    /\ 0 <= hours <= MAX_GRACE_PERIOD_HOURS
    /\ a_keyset s' = snd (prune_expired (a_wall s) (rotate (a_wall s) k (hours * 3600) (a_keyset s))).
Proof.
  intros Hr Hs. unfold rotate_key in Hr. apply bind_ok in Hr as (m & s1 & Hm & Hr).
  pose proof (idle_body rq s) as (_ & Hks & _ & Hwall). rewrite Hm in Hks, Hwall. cbn in Hks, Hwall. rewrite <- Hks, <- Hwall.
  destruct (mem_str (rotation_algorithm m) valid_algorithms) eqn:Halg; [|by injection Hr as <- <-]. cbn [negb] in Hr.
  apply mem_str_In in Halg. unfold draw in Hr. run_simpl Hr.
  destruct (rotation_grace _ m) as [[hours|]|]; [|by injection Hr as <- <-|done].
  destruct (Z.ltb_spec hours 0); [by injection Hr as <- <-|].
  destruct (Z.ltb_spec MAX_GRACE_PERIOD_HOURS hours); [by injection Hr as <- <-|].
  destruct (generate_signing_key _ _ _ _ _) as [k|] eqn:Hk; [|done].
  assert (k_algorithm k = rotation_algorithm m /\ k_is_current k = true /\ k_expires_at k = None) as (Ha & Hcur & Hexp).
  { unfold generate_signing_key in Hk. destruct (String.eqb _ "HS256"); [by injection Hk as <-|].
    destruct (String.eqb _ "RS256"); [by injection Hk as <-|done]. }
  audit_end Hr. exists k, hours. rewrite Ha. split_and! ; done.
Qed.

(** from a key rotation on, the new key signs for its algorithm, the keys
    of the other algorithms sign as before, and what was signed before keeps
    verifying: every key that verified still does, in the same order, except a
    retired key after its grace period. *)
Theorem key_rotation_sound rq actor s r s' :
  current_unexpiring (a_keyset s) ->
  handler RotateKey rq actor s = (Ok r, s') -> r_status r = 200 ->
  exists k hours, 0 <= hours <= MAX_GRACE_PERIOD_HOURS /\ current_unexpiring (a_keyset s')
    /\ forall now', a_wall s <= now' ->
       current_for_alg now' (k_algorithm k) (a_keyset s') = Some k
       /\ (forall alg, alg <> k_algorithm k ->
            current_for_alg now' alg (a_keyset s') = current_for_alg now' alg (a_keyset s))
       /\ map k_material (active_keys_for_alg now' (k_algorithm k) (a_keyset s'))
          = map k_material (List.filter
              (fun o => negb (k_is_current o) || (now' <? plus_secs (a_wall s) (hours * 3600)))
              (active_keys_for_alg now' (k_algorithm k) (a_keyset s))) ++ [k_material k].
Proof.
  intros Hu Hr Hs. cbn [AdminRoutes.handler] in Hr.
  destruct (rotate_key_ok _ _ _ _ _ Hr Hs) as (k & hours & _ & Hc & He & Hh & ->). exists k, hours.
  split; [done|]. split; [by apply prune_unexpiring, rotate_unexpiring|]. intros now' Hn.
  destruct (rotate_single_current (a_wall s) now' k (hours * 3600) (a_keyset s) Hc He) as (_ & H1 & H2).
  pose proof (prune_invisible (a_wall s) now') as Hp.
  split_and! .
  - rewrite <- H1. by apply (Hp (k_kid k)).
  - intros alg Halg. rewrite <- H2 by done. by apply (Hp (k_kid k)).
  - rewrite <- (rotate_grace (a_wall s) now' k (hours * 3600)) by done. f_equal. by apply (Hp (k_kid k)).
Qed.

(** ** Deleting a client *)
(** deleting a client leaves its tokens as they are: whoever was an
    administrator by a token of the deleted client still is. *)
Theorem deleted_client_tokens_live id rq actor s r s' :
  handler (DeleteClient id) rq actor s = (Ok r, s') -> r_status r = 200 ->
  tokens (a_store s') = tokens (a_store s)
  /\ (exists c, resolve_client id (a_store s) = Some c /\ get_client (c_client_id c) (a_store s') = None)
  /\ forall rq' a, admin_identity config rq' s a -> admin_identity config rq' s' a.
Proof.
  cbn [AdminRoutes.handler]. unfold delete_client_route, query, update. intros Hr Hs. run_simpl Hr.
  destruct (resolve_client id (a_store s)) as [c|] eqn:Hc; [|by simplify_eq]. audit_end Hr.
  assert (tokens (a_store s0) = tokens (a_store s)) as Ht by done.
  split_and! ; [done| |].
  - exists c. split; [done|]. unfold get_client. rewrite af_clients0. cbn.
    induction (clients (a_store s)) as [|x l IH]; [done|]. cbn.
    destruct (String.eqb (c_client_id x) (c_client_id c)) eqn:Hx; cbn; [done|by rewrite Hx].
  - intros rq' a Ha. destruct Ha; [eapply BearerAdmin|eapply SessionAdmin]; try done.
    + unfold get_token_by_access_token. by rewrite Ht.
    + by rewrite af_wall0.
Qed.
End effects.

(** ** On the example server *)
Definition toy_admin (authorization : option string) (body : pydict) : AdminRequest :=
  mkAdmin authorization (Some "curl") (Some "10.0.0.9") (mkAdminSession (Some "u-9") (Some "admin") (Some "root@example"))
    (Ok (JObj body)).
Definition toy_handler : admin_call -> AdminRequest -> AdminActor -> M response :=
  handler (fun _ => None) (fun n => "fresh" +:+ str_of_Z (Z.of_nat n)) (fun _ => "pem") toy_brackets (fun _ => None)
    (toy_config true).
Definition toy_root : AdminActor := mkActor "u-9" "root@example".
Definition toy_run (call : admin_call) (body : pydict) : result exn response * AppState :=
  toy_handler call (toy_admin None body) toy_root (toy_state false false).
Definition toy_after (call : admin_call) (body : pydict) : AppState := snd (toy_run call body).
Definition toy_answer (call : admin_call) (body : pydict) : response :=
  match fst (toy_run call body) with Ok r => r | Err _ => mkResponse 500 JNull [] end.
Definition disable : pydict := [("enabled", JBool false)].

Lemma user_lockout_witness : exists t, get_token_by_refresh_token "rt-1" (a_store (toy_after (EnableUser "u-1") disable)) = Some t
  /\ t_revoked t = true.
Proof.
  assert (get_token_by_refresh_token "rt-1" (a_store (toy_state false false)) = Some (toy_token false)) as Ht
    by (vm_compute; reflexivity).
  destruct (user_lockout (fun _ => None) (fun n => "fresh" +:+ str_of_Z (Z.of_nat n)) (fun _ => "pem") toy_brackets (fun _ => None)
    (toy_config true) (EnableUser "u-1") "u-1" (toy_admin None disable) toy_root (toy_state false false)
    (toy_answer (EnableUser "u-1") disable) (toy_after (EnableUser "u-1") disable)) as (_ & Hr & _).
  - split; [reflexivity|]. exists disable. split; reflexivity.
  - vm_compute. reflexivity.
  - vm_compute. reflexivity.
  - destruct (Hr "rt-1" _ Ht) as (t & Hf & _ & _ & Hl & _). exists t. split; [exact Hf|]. apply Hl. vm_compute. reflexivity.
Defined.
Lemma client_lockout_witness : exists t, get_token_by_refresh_token "rt-1" (a_store (toy_after (EnableClient "web") disable)) = Some t
  /\ t_revoked t = true.
Proof.
  assert (get_token_by_refresh_token "rt-1" (a_store (toy_state false false)) = Some (toy_token false)) as Ht
    by (vm_compute; reflexivity).
  destruct (client_lockout (fun _ => None) (fun n => "fresh" +:+ str_of_Z (Z.of_nat n)) (fun _ => "pem") toy_brackets (fun _ => None)
    (toy_config true) (EnableClient "web") "web" (toy_admin None disable) toy_root (toy_state false false)
    (toy_answer (EnableClient "web") disable) (toy_after (EnableClient "web") disable)) as (c & Hc & _ & Hr & _).
  - left. reflexivity.
  - exists disable. split; reflexivity.
  - vm_compute. reflexivity.
  - vm_compute. reflexivity.
  - destruct (Hr "rt-1" _ Ht) as (t & Hf & _ & _ & Hl & _). exists t. split; [exact Hf|]. apply Hl.
    vm_compute in Hc. injection Hc as <-. vm_compute. reflexivity.
Defined.

Definition new_app : pydict :=
  [("name", JStr "app"); ("redirect_uris", JList [JStr "https://app.example/cb"])].
Lemma client_intake_sound_witness : exists c, In c (clients (a_store (toy_after CreateClient new_app)))
  /\ taken_in toy_brackets (fun _ => None) new_app c.
Proof.
  destruct (client_intake_sound (fun _ => None) (fun n => "fresh" +:+ str_of_Z (Z.of_nat n)) (fun _ => "pem") toy_brackets (fun _ => None)
    (toy_config true) CreateClient (toy_admin None new_app) toy_root new_app (toy_state false false)
    (toy_answer CreateClient new_app) (toy_after CreateClient new_app)) as (c & Hc & Ht & _).
  - reflexivity.
  - vm_compute. reflexivity.
  - left. split; [reflexivity|vm_compute; reflexivity].
  - exists c. split; assumption.
Defined.

(** [POST] accepts a null list and stores the text "null", which decodes to
    no list: the client's authorization requests then fail. *)
Example null_redirect_uris_stored :
  map (fun c => redirect_uri_list 900 c)
    (List.filter (fun c => String.eqb (c_name c) "app")
      (clients (a_store (toy_after CreateClient [("name", JStr "app"); ("redirect_uris", JNull)])))) = [Ok JNull].
Proof. vm_compute. reflexivity. Qed.

Definition rotate_to_hs256 : pydict := [("algorithm", JStr "hs256"); ("grace_period_hours", JInt 2)].
Lemma key_rotation_sound_witness :
  option_map k_material (current_for_alg (500 * SECOND) "HS256" (a_keyset (toy_after RotateKey rotate_to_hs256))) = Some "fresh0".
Proof.
  assert (current_unexpiring (a_keyset (toy_state false false))) as Hu by apply seed_unexpiring.
  destruct (key_rotation_sound (fun _ => None) (fun n => "fresh" +:+ str_of_Z (Z.of_nat n)) (fun _ => "pem") toy_brackets (fun _ => None)
    (toy_config true) (toy_admin None rotate_to_hs256) toy_root (toy_state false false)
    (toy_answer RotateKey rotate_to_hs256) (toy_after RotateKey rotate_to_hs256) Hu) as (k & hours & _ & _ & Hk).
  - vm_compute. reflexivity.
  - vm_compute. reflexivity.
  - destruct (Hk (500 * SECOND)) as (_ & _ & Hm); [vm_compute; discriminate|]. clear Hm. vm_compute. reflexivity.
Defined.

(** Two rotations within one second make keys of the same id, and the id
    finds the retired one. *)
Example rotations_collide :
  let s := snd (toy_handler RotateKey (toy_admin None rotate_to_hs256) toy_root (toy_after RotateKey rotate_to_hs256)) in
  option_map k_kid (current_for_alg (a_wall s) "HS256" (a_keyset s)) = Some "hs256-100"
  /\ option_map k_material (current_for_alg (a_wall s) "HS256" (a_keyset s)) = Some "fresh2"
  /\ option_map k_material (find (a_wall s) "hs256-100" (a_keyset s)) = Some "fresh0".
Proof. vm_compute. repeat split. Qed.

Lemma deleted_client_tokens_live_witness :
  tokens (a_store (toy_after (DeleteClient "web") [])) = tokens (a_store (toy_state false false)).
Proof.
  apply (deleted_client_tokens_live (fun _ => None) (fun n => "fresh" +:+ str_of_Z (Z.of_nat n)) (fun _ => "pem") toy_brackets (fun _ => None)
    (toy_config true) "web" (toy_admin None []) toy_root (toy_state false false)
    (toy_answer (DeleteClient "web") []) (toy_after (DeleteClient "web") [])); vm_compute; reflexivity.
Defined.

(** A session outlives its user's account: a disabled user who is signed in
    still obtains authorization codes. *)
Example disabled_user_still_authorizes :
  get_user_by_id "u-1" (a_store (toy_after (EnableUser "u-1") disable))
    = Some (mkUser "u-1" "ann" "argon2:pw" "ann@example" false "user" 0 0)
  /\ exists uri, fst (Authorize.authorize toy_brackets (toy_config true)
                        (AuthorizeProps.toy_authorize_request AuthorizeProps.toy_session)
                        (toy_after (EnableUser "u-1") disable)) = Ok (RedirectTo uri).
Proof. vm_compute. split; [reflexivity|]. eexists. reflexivity. Qed.
