(* ===== verification/UserInfo.v ===== *)
(** * GET and POST /oauth/userinfo ([routes/wellknown.py]) *)
From S2P Require Import Prelude PyStr PyJson Codec Models Storage StoreSpec PyUrl TtlStores Keys Jwt App Tokens Dpop ClientAuth TokenEndpoint ToyJwt TokenLemmas TokenOps AuthProps.
#[local] Open Scope Z_scope.

Definition challenge (error description www_authenticate : string) : response :=
  mkResponse 401 (JObj [("error", JStr error); ("error_description", JStr description)])
    [("WWW-Authenticate", www_authenticate)].
Definition quoted_error (scheme error : string) : string :=
  scheme +:+ " error=" +:+ String dquote (error +:+ String dquote EmptyString).
Definition missing_token_response : response := challenge "invalid_token" "Missing access token" "Bearer".
Definition invalid_token_response (description : string) : response :=
  challenge "invalid_token" description (quoted_error "Bearer" "invalid_token").
Definition dpop_invalid_token_response (description : string) : response :=
  challenge "invalid_token" description (quoted_error "DPoP" "invalid_token").
Definition resource_nonce_challenge (as_challenge : response) : response :=
  mkResponse 401 (JObj [("error", JStr "use_dpop_nonce"); ("error_description", JStr "DPoP proof nonce required or stale")])
    [("WWW-Authenticate", quoted_error "DPoP" "use_dpop_nonce");
     ("DPoP-Nonce", default EmptyString (header "DPoP-Nonce" as_challenge))].

Definition userinfo_auth_schemes : list string := ["bearer"; "dpop"].
Definition auth_scheme (rq : Request) : string :=
  py_lower (fst (py_partition " " (default EmptyString (header_get "authorization" rq)))).
(** The token of the Authorization header. *)
Definition presented_token (rq : Request) : option string :=
  let candidate := py_strip (default EmptyString (snd (py_partition " " (default EmptyString (header_get "authorization" rq))))) in
  if mem_str (auth_scheme rq) userinfo_auth_schemes && truthy candidate then Some candidate else None.

(** [hmac.compare_digest(a.encode(), b.encode())] where [a] is well formed. *)
Definition compare_utf8 (a b : string) : result exn bool :=
  if utf8_valid b then Ok (String.eqb a b) else Err (PyErr ValueError "surrogates not allowed").

Section userinfo.
Context `{JwtLib} `{Runtime}.
Context (cbn_ : string -> bool) (config : Config).
Definition userinfo_url : string := rstrip_char "/" (issuer config) +:+ "/oauth/userinfo".

(** [inl]: the failure; [inr]: the proof that was shown. *)
Definition enforce_jkt (rq : Request) (method token_str jkt : string) : M (response + DpopValidated) :=
  if negb (String.eqb (auth_scheme rq) "dpop")
  then sret (inl (dpop_invalid_token_response "DPoP-bound access token must be presented with the DPoP scheme")) else
  match rq_dpop rq with
  | None | Some None => sret (inl (dpop_invalid_token_response "DPoP proof required for this access token"))
  | Some (Some proof) =>
      try_ (validate_dpop_proof cbn_ proof method userinfo_url (Some token_str))
        (fun e => match e with
                  | DpopError _ _ => Some (sret (inl (dpop_invalid_token_response "DPoP proof validation failed")))
                  | _ => None end)
        (fun validated =>
      let! same := slift (compare_utf8 (v_jkt validated) jkt) in
      if same then sret (inr validated)
      else sret (inl (dpop_invalid_token_response "DPoP proof key does not match the access token binding")))
  end.
Definition enforce_thumbprint (rq : Request) (thumb : string) : M (option response) :=
  let! ok := match fst (mtls_headers rq config) with
             | None => sret false
             | Some presented => slift (compare_utf8 presented thumb)
             end in
  sret (if ok then None
        else Some (invalid_token_response "Certificate-bound access token requires a matching client certificate")).
(** A string member of the confirmation that is not empty. *)
Definition confirmed (k : string) (cnf : pydict) : option string :=
  match get_str k cnf with Some v => if truthy v then Some v else None | None => None end.

Definition enforce_token_binding (rq : Request) (method token_str : string) : M (response + option DpopValidated) :=
  let! claims := slift (decode_unverified_claims token_str) in
  match get_obj "cnf" claims with
  | None => sret (inr None)
  | Some cnf =>
      let! proof := match confirmed "jkt" cnf with
                    | None => sret (inr None)
                    | Some jkt => let! r := enforce_jkt rq method token_str jkt in
                                  sret match r with inl f => inl f | inr v => inr (Some v) end
                    end in
      match proof with
      | inl failure => sret (inl failure)
      | inr validated =>
          match confirmed "x5t#S256" cnf with
          | None => sret (inr validated)
          | Some thumb => let! failure := enforce_thumbprint rq thumb in
                          sret match failure with Some f => inl f | None => inr validated end
          end
      end
  end.

(** The attempt to decode the token as a JWT: only errors that are neither
    JWT nor validation errors show. *)
Definition decode_attempt (token_str : string) : M unit :=
  let! now := sget a_wall in
  let! ks := sget a_keyset in
  match decode_access_token now token_str (jwt_secret config) (issuer config) (Some ks) with
  | Ok _ => sret tt
  | Err (PyErr ValidationError _) => sret tt
  | Err e => if is_jwt_error e then sret tt else sraise e
  end.

Definition row_live (now : Z) (row : Token) : bool := negb (t_revoked row) && negb (t_expires_at row <=? now).

(** The nonce policy of the token's client, once a proof was shown. [Done]:
    the answer; [Go]: whether to send a fresh nonce. *)
Definition nonce_policy (row : Token) (validated : option DpopValidated) : M (verdict bool) :=
  match validated with
  | None => sret (Go false)
  | Some v =>
      let! token_client := query (get_client (t_client_id row)) in
      if from_option_b c_dpop_nonce_required token_client then
        let! now := sget a_wall in
        let! secret := sget a_dpop_nonce_secret in
        match enforce_dpop_nonce now v (new_issuer secret (dpop_nonce_lifetime_secs config)) with
        | Err (DpopError _ _) => sret (Done (dpop_invalid_token_response "DPoP proof validation failed"))
        | Err e => sraise e
        | Ok (Some as_challenge) => sret (Done (resource_nonce_challenge as_challenge))
        | Ok None => sret (Go true)
        end
      else sret (Go false)
  end.

Definition row_selection (row : Token) : M ClaimsSelection :=
  if truthy_o (t_token_family row) then
    let! code := query (get_authorization_code_by_token_family (default EmptyString (t_token_family row))) in
    sret match code with
         | Some code => select_userinfo_claims json_limit (ac_claims_request code) (t_scope row)
         | None => no_selection
         end
  else sret no_selection.

Definition userinfo_claims (row : Token) (subject : string) (user : option User) (sel : ClaimsSelection) : pydict :=
  let scopes := py_split (t_scope row) in
  [("sub", JStr subject); ("iss", JStr (issuer config)); ("aud", JStr (t_client_id row))]
  ++ match user with
     | Some u =>
         (if mem_str "email" scopes && allows sel "email" (JStr (u_email u)) then [("email", JStr (u_email u))] else [])
         ++ (if mem_str "profile" scopes && allows sel "preferred_username" (JStr (u_username u))
             then [("preferred_username", JStr (u_username u))] else [])
     | None => []
     end.

Definition userinfo_row (rq : Request) (method token_str : string) (row : Token) : M response :=
  let! bound := enforce_token_binding rq method token_str in
  match bound with
  | inl failure => sret failure
  | inr validated =>
      match t_user_id row with
      | None => sret (invalid_token_response "Access token does not represent an authenticated user")
      | Some subject =>
          let! policy := nonce_policy row validated in
          match policy with
          | Done r => sret r
          | Go send_nonce =>
              let! sel := row_selection row in
              let! user := query (get_user_by_id subject) in
              let! now := sget a_wall in
              let! secret := sget a_dpop_nonce_secret in
              sret (mkResponse 200 (JObj (userinfo_claims row subject user sel))
                (if send_nonce then [("DPoP-Nonce", issue_nonce now (new_issuer secret (dpop_nonce_lifetime_secs config)))]
                 else []))
          end
      end
  end.

Definition userinfo (rq : Request) (method : string) : M response :=
  match presented_token rq with
  | None => sret missing_token_response
  | Some token_str =>
      decode_attempt token_str !;
      let! found := query (get_token_by_access_token token_str) in
      let! now := sget a_wall in
      match found with
      | Some row =>
          if row_live now row then userinfo_row rq method token_str row
          else sret (invalid_token_response "Invalid or expired access token")
      | None => sret (invalid_token_response "Invalid or expired access token")
      end
  end.
End userinfo.

(** ** What the userinfo endpoint guarantees *)

Section userinfo.
Context `{JwtLib} `{Runtime}.
Context (cbn_ : string -> bool) (config : Config).

Lemma quiet_enforce_jkt rq method tok jkt : quiet (enforce_jkt cbn_ config rq method tok jkt).
Proof.
  unfold enforce_jkt. destruct (negb _); [done|]. destruct (rq_dpop rq) as [[proof|]|]; [|done..].
  apply quiet_try; [apply quiet_dpop_proof| |].
  - intros e r. destruct e; try done. by intros [= <-].
  - intros v. apply quiet_bind; [by intros s; unfold slift; destruct (compare_utf8 _ _)|]. intros []; done.
Qed.
Lemma quiet_userinfo rq method : quiet (userinfo cbn_ config rq method).
Proof.
  unfold userinfo, decode_attempt, userinfo_row, enforce_token_binding, enforce_thumbprint, nonce_policy, row_selection.
  pose proof quiet_enforce_jkt. quiet_walk.
Qed.

(** The token shown again what it is bound to: the key by a proof that names
    the token, the certificate by its thumbprint. *)
Record binding_shown (rq : Request) (method v : string) (s : AppState) (cnf : pydict) : Prop := {
  bw_jkt : forall jkt, confirmed "jkt" cnf = Some jkt ->
    auth_scheme rq = "dpop" /\ exists proof validated s0 s1, rq_dpop rq = Some (Some proof) /\ a_wall s0 = a_wall s
      /\ validate_dpop_proof cbn_ proof method (userinfo_url config) (Some v) s0 = (Ok validated, s1)
      /\ v_jkt validated = jkt;
  bw_thumb : forall thumb, confirmed "x5t#S256" cnf = Some thumb -> fst (mtls_headers rq config) = Some thumb
}.

Lemma compare_utf8_true a b : compare_utf8 a b = Ok true -> a = b.
Proof. unfold compare_utf8. destruct (utf8_valid b); [|done]. intros [= Hab]. by apply String.eqb_eq. Qed.

Lemma enforce_jkt_ok rq method v jkt s p s1 : enforce_jkt cbn_ config rq method v jkt s = (Ok (inr p), s1) ->
  auth_scheme rq = "dpop" /\ exists proof s2, rq_dpop rq = Some (Some proof)
    /\ validate_dpop_proof cbn_ proof method (userinfo_url config) (Some v) s = (Ok p, s2) /\ v_jkt p = jkt.
Proof.
  unfold enforce_jkt. destruct (String.eqb_spec (auth_scheme rq) "dpop") as [Hs|]; cbn [negb]; [|done].
  destruct (rq_dpop rq) as [[proof|]|]; [|done..]. unfold try_. intros Hr.
  destruct (validate_dpop_proof _ _ _ _ _ s) as [[validated|e] s2] eqn:Hv.
  - apply bind_ok in Hr as (same & s3 & Hc & Hr). unfold slift in Hc. injection Hc as Hc <-.
    destruct same; [|done]. injection Hr as <- _. apply compare_utf8_true in Hc. split; [done|]. by exists proof, s2.
  - destruct e; try done.
Qed.

Lemma binding_ok rq method v s p s1 : enforce_token_binding cbn_ config rq method v s = (Ok (inr p), s1) ->
  exists claims, decode_unverified_claims v = Ok claims
    /\ forall cnf, get_obj "cnf" claims = Some cnf -> binding_shown rq method v s cnf.
Proof.
  unfold enforce_token_binding. intros Hr. apply bind_ok in Hr as (claims & s2 & Hc & Hr). unfold slift in Hc.
  injection Hc as Hc <-. exists claims. split; [done|]. intros cnf Hcnf. rewrite Hcnf in Hr.
  apply bind_ok in Hr as (proof & s3 & Hp & Hr). destruct proof as [f|validated]; [done|]. constructor.
  - intros jkt Hj. rewrite Hj in Hp. apply bind_ok in Hp as (q & s4 & Hq & Hp). destruct q as [f|q]; [done|].
    apply enforce_jkt_ok in Hq as (Hs & pr & s5 & Hd & Hv & He). split; [done|]. by exists pr, q, s, s5.
  - intros thumb Ht. rewrite Ht in Hr. apply bind_ok in Hr as (failure & s4 & Hf & Hr). destruct failure; [done|].
    unfold enforce_thumbprint in Hf. apply bind_ok in Hf as (ok & s5 & Hok & Hf). destruct ok; [|done].
    destruct (fst (mtls_headers rq config)) as [presented|]; [|done]. unfold slift in Hok. injection Hok as Hok _.
    apply compare_utf8_true in Hok. by subst.
Qed.

Lemma nonce_refusal_status row p s r s1 : nonce_policy config row p s = (Ok (Done r), s1) -> r_status r = 401.
Proof.
  unfold nonce_policy. destruct p as [v|]; [|done]. intros Hr. apply bind_ok in Hr as (c & s2 & _ & Hr).
  destruct (from_option_b _ c); [|done]. unfold sbind, sget in Hr.
  destruct (enforce_dpop_nonce _ _ _) as [[c'|]|e]; [by injection Hr as <- _|done|].
  destruct e; try done. by injection Hr as <- _.
Qed.

(** A successful answer. *)
Record answers_user (rq : Request) (method : string) (s : AppState) (r : response) : Prop := {
  au_row : exists v row subject sel, presented_token rq = Some v
    /\ get_token_by_access_token v (a_store s) = Some row /\ t_revoked row = false /\ a_wall s < t_expires_at row
    /\ t_user_id row = Some subject
    /\ r_body r = JObj (userinfo_claims config row subject (get_user_by_id subject (a_store s)) sel)
    /\ (forall claim, In claim (userinfo_claims config row subject (get_user_by_id subject (a_store s)) sel) ->
         (fst claim = "email" -> In "email" (py_split (t_scope row)))
         /\ (fst claim = "preferred_username" -> In "profile" (py_split (t_scope row))))
    /\ exists claims, decode_unverified_claims v = Ok claims
         /\ forall cnf, get_obj "cnf" claims = Some cnf -> binding_shown rq method v s cnf
}.

Lemma claims_in_scope row subject user sel claim : In claim (userinfo_claims config row subject user sel) ->
  (fst claim = "email" -> In "email" (py_split (t_scope row)))
  /\ (fst claim = "preferred_username" -> In "profile" (py_split (t_scope row))).
Proof.
  unfold userinfo_claims. intros Hin. apply in_app_or in Hin as [Hin|Hin].
  - destruct Hin as [<-|[<-|[<-|[]]]]; done.
  - destruct user as [u|]; [|done]. apply in_app_or in Hin as [Hin|Hin].
    + destruct (mem_str "email" _ && _) eqn:He; [|done]. destruct Hin as [<-|[]]. split; [|done]. intros _.
      apply andb_prop in He as [He _]. by apply mem_str_In.
    + destruct (mem_str "profile" _ && _) eqn:He; [|done]. destruct Hin as [<-|[]]. split; [done|]. intros _.
      apply andb_prop in He as [He _]. by apply mem_str_In.
Qed.

Lemma userinfo_row_ok rq method v row s r s' : userinfo_row cbn_ config rq method v row s = (Ok r, s') ->
  r_status r = 401 \/ r_status r = 200 /\ exists subject sel claims, t_user_id row = Some subject
    /\ r_body r = JObj (userinfo_claims config row subject (get_user_by_id subject (a_store s)) sel)
    /\ decode_unverified_claims v = Ok claims
    /\ forall cnf, get_obj "cnf" claims = Some cnf -> binding_shown rq method v s cnf.
Proof.
  unfold userinfo_row. intros Hr. apply bind_ok in Hr as (bound & s1 & Hb & Hr).
  destruct bound as [f|p].
  { injection Hr as <- _. left. unfold enforce_token_binding in Hb. apply bind_ok in Hb as (claims & s2 & _ & Hb).
    destruct (get_obj "cnf" claims) as [cnf|]; [|done]. apply bind_ok in Hb as (proof & s3 & Hp & Hb).
    destruct proof as [f'|q].
    - injection Hb as <- _. destruct (confirmed "jkt" cnf) as [jkt|]; [|done].
      apply bind_ok in Hp as (x & s4 & Hx & Hp). destruct x as [f''|]; [|done]. injection Hp as <- _.
      unfold enforce_jkt in Hx. destruct (negb _); [by injection Hx as <- _|].
      destruct (rq_dpop rq) as [[pr|]|]; [|by injection Hx as <- _..]. unfold try_ in Hx.
      destruct (validate_dpop_proof _ _ _ _ _ _) as [[v'|e] s5].
      + apply bind_ok in Hx as (same & s6 & _ & Hx). destruct same; [done|]. by injection Hx as <- _.
      + destruct e; try done. by injection Hx as <- _.
    - destruct (confirmed "x5t#S256" cnf) as [thumb|]; [|done]. apply bind_ok in Hb as (fl & s4 & Hf & Hb).
      destruct fl as [f'|]; [|done]. injection Hb as <- _. unfold enforce_thumbprint in Hf.
      apply bind_ok in Hf as (ok & s5 & _ & Hf). destruct ok; [done|]. by injection Hf as <- _. }
  assert (a_store s1 = a_store s) as Hst.
  { pose proof (quiet_enforce_jkt rq method v) as Hq. unfold enforce_token_binding in Hb.
    enough (quiet (enforce_token_binding cbn_ config rq method v)) as Hqq by (specialize (Hqq s); unfold enforce_token_binding in Hqq; by rewrite Hb in Hqq).
    unfold enforce_token_binding, enforce_thumbprint. pose proof quiet_enforce_jkt. quiet_walk. }
  destruct (t_user_id row) as [subject|] eqn:Hu; [|left; by injection Hr as <- _].
  apply bind_ok in Hr as (policy & s2 & Hn & Hr). destruct policy as [r'|send].
  { injection Hr as <- _. left. by eapply nonce_refusal_status. }
  assert (a_store s2 = a_store s) as Hst2.
  { rewrite <- Hst. enough (quiet (nonce_policy config row p)) as Hq by (specialize (Hq s1); by rewrite Hn in Hq).
    unfold nonce_policy. quiet_walk. }
  apply bind_ok in Hr as (sel & s3 & Hsel & Hr).
  assert (a_store s3 = a_store s) as Hst3.
  { rewrite <- Hst2. enough (quiet (row_selection row)) as Hq by (specialize (Hq s2); by rewrite Hsel in Hq).
    unfold row_selection. quiet_walk. }
  unfold query, sbind, sget in Hr. injection Hr as <- _. right. split; [done|].
  destruct (binding_ok _ _ _ _ _ _ Hb) as (claims & Hc & Hbs). exists subject, sel, claims. cbn. by rewrite Hst3.
Qed.

(** C22: userinfo answers only to a live, unrevoked access token of a user that
    is shown together with the key or certificate it is bound to, tells that
    user's data alone and e-mail and name only within the token's scope, and
    refuses every other request with a 401; it never changes a stored row. *)
Theorem userinfo_sound rq method s r s' : userinfo cbn_ config rq method s = (Ok r, s') ->
  a_store s' = a_store s /\ (r_status r = 401 \/ r_status r = 200 /\ answers_user rq method s r).
Proof.
  intros Hr. split; [by rewrite <- (quiet_userinfo rq method s), Hr|]. unfold userinfo in Hr.
  destruct (presented_token rq) as [v|] eqn:Hv; [|left; by injection Hr as <- _].
  apply bind_ok in Hr as ([] & s1 & Hd & Hr).
  assert (s1 = s) as ->.
  { unfold decode_attempt, sbind, sget in Hd. destruct (decode_access_token _ _ _ _ _) as [|e]; [by injection Hd|].
    destruct e; try (destruct kind); cbn in Hd; by injection Hd. }
  unfold query, sbind, sget in Hr. destruct (get_token_by_access_token v (a_store s)) as [row|] eqn:Hrow;
    [|left; by injection Hr as <- _].
  destruct (row_live (a_wall s) row) eqn:Hl; [|left; by injection Hr as <- _].
  apply userinfo_row_ok in Hr as [Hr|(Hs & subject & sel & claims & Hu & Hbody & Hc & Hb)]; [by left|]. right.
  split; [done|]. constructor. exists v, row, subject, sel.
  unfold row_live in Hl. apply andb_prop in Hl as [Hrev Hexp]. apply negb_true_iff in Hrev, Hexp. apply Z.leb_gt in Hexp.
  split_and! ; [done..| |by exists claims]. intros claim. apply claims_in_scope.
Qed.
End userinfo.

Definition toy_userinfo_request : Request :=
  mkRequest ∅ {[ "authorization" := "Bearer e30.e30.at1" ]} None.
Lemma userinfo_sound_witness : answers_user toy_brackets (toy_config true) toy_userinfo_request "GET" (toy_state false false)
  (mkResponse 200 (JObj [("sub", JStr "u-1"); ("iss", JStr "https://as.example"); ("aud", JStr "web")]) []).
Proof.
  destruct (userinfo_sound toy_brackets (toy_config true) toy_userinfo_request "GET" (toy_state false false)
    (mkResponse 200 (JObj [("sub", JStr "u-1"); ("iss", JStr "https://as.example"); ("aud", JStr "web")]) [])
    (snd (userinfo toy_brackets (toy_config true) toy_userinfo_request "GET" (toy_state false false)))) as (_ & [Hs|[_ Ha]]).
  - vm_compute. reflexivity.
  - discriminate Hs.
  - exact Ha.
Defined.
