(* ===== verification/Discovery.v ===== *)
(** * Discovery, JWKS and resource metadata ([routes/wellknown.py]) *)
From S2P Require Import Prelude PyStr PyJson Codec Models Storage PyUrl Redirects TtlStores Keys Jwt App Tokens Dpop ClientAuth Register JwtBearer TokenEndpoint Authorize UserInfo ToyJwt.
#[local] Open Scope Z_scope.

Definition confidential_auth_methods : list string :=
  ["client_secret_basic"; "client_secret_post"; "client_secret_jwt"; "private_key_jwt"; "tls_client_auth";
   "self_signed_tls_client_auth"].
Definition SCOPES_SUPPORTED : list string := ["openid"; "profile"; "email"; "read"; "write"; "admin"].
Definition dpop_signing_alg_values_supported : list string := ["ES256"; "RS256"].
Definition status_list_stub : pydict := [("bits", JInt 1); ("lst", JStr "eNrb2FgAAQABAAE")].
Definition grant_types_supported : list string :=
  ["authorization_code"; "client_credentials"; "refresh_token"; device_code_grant; token_exchange_grant; jwt_bearer_grant].
Definition claims_supported : list string :=
  ["sub"; "iss"; "aud"; "exp"; "iat"; "nonce"; "at_hash"; "email"; "preferred_username"; "c_hash"; "acr"; "amr"; "auth_time"].

Definition discovery_body (base : string) (id_token_alg : option string) (rar_types_supported : list string)
    (has_rs256_key : bool) (acr_values_supported : list string) : pydict :=
  let url path := JStr (base +:+ path) in
  let yes := JBool true in
  [("issuer", JStr base);
   ("authorization_endpoint", url "/oauth/authorize"); ("token_endpoint", url "/oauth/token");
   ("introspection_endpoint", url "/oauth/introspect"); ("revocation_endpoint", url "/oauth/revoke");
   ("token_introspection_endpoint", url "/oauth/introspect"); ("token_revocation_endpoint", url "/oauth/revoke");
   ("userinfo_endpoint", url "/oauth/userinfo"); ("jwks_uri", url "/.well-known/jwks.json");
   ("registration_endpoint", url "/connect/register"); ("service_documentation", url "/docs");
   ("device_authorization_endpoint", url "/oauth/device_authorization");
   ("pushed_authorization_request_endpoint", url "/oauth/par");
   ("require_pushed_authorization_requests", JBool false); ("request_uri_parameter_supported", yes);
   ("request_parameter_supported", yes); ("claims_parameter_supported", yes);
   ("end_session_endpoint", url "/oauth/logout"); ("check_session_iframe", url "/oauth/check_session");
   ("backchannel_logout_supported", yes); ("backchannel_logout_session_supported", yes);
   ("frontchannel_logout_supported", yes); ("frontchannel_logout_session_supported", yes);
   ("grant_types_supported", jstrs grant_types_supported);
   ("response_types_supported", jstrs ["code"; "code id_token"]);
   ("response_modes_supported", jstrs ["query"; "form_post"; "fragment"]);
   ("code_challenge_methods_supported", jstrs ["S256"]);
   ("token_endpoint_auth_methods_supported", jstrs (confidential_auth_methods ++ ["none"]));
   ("tls_client_certificate_bound_access_tokens", yes);
   ("introspection_endpoint_auth_methods_supported", jstrs confidential_auth_methods);
   ("revocation_endpoint_auth_methods_supported", jstrs confidential_auth_methods);
   ("authorization_response_iss_parameter_supported", yes);
   ("prompt_values_supported", jstrs ["none"; "login"; "consent"; "select_account"]);
   ("request_object_signing_alg_values_supported", jstrs ["RS256"; "HS256"; "none"]);
   ("acr_values_supported", jstrs acr_values_supported);
   ("scopes_supported", jstrs SCOPES_SUPPORTED); ("subject_types_supported", jstrs ["public"]);
   ("introspection_signing_alg_values_supported", jstrs (if has_rs256_key then ["RS256"; "HS256"] else ["HS256"]));
   ("id_token_signing_alg_values_supported",
      jstrs (if from_option_b (String.eqb "RS256") id_token_alg then ["RS256"] else ["HS256"]));
   ("claims_supported", jstrs claims_supported);
   ("dpop_signing_alg_values_supported", jstrs dpop_signing_alg_values_supported);
   ("authorization_details_types_supported", jstrs rar_types_supported);
   ("resource_indicators_supported", yes)].

Definition discovery_document (issuer : string) (id_token_alg : option string) (rar_types_supported : list string)
    (has_rs256_key : bool) (acr_values_supported : list string) (mtls_base : option string) : pydict :=
  let doc := discovery_body (rstrip_char "/" issuer) id_token_alg rar_types_supported has_rs256_key acr_values_supported in
  if truthy_o mtls_base then
    let m := rstrip_char "/" (default EmptyString mtls_base) in
    let alias name path := (name, JStr (m +:+ path)) in
    doc ++ [("mtls_endpoint_aliases",
      JObj [alias "token_endpoint" "/oauth/token"; alias "revocation_endpoint" "/oauth/revoke";
            alias "introspection_endpoint" "/oauth/introspect"; alias "userinfo_endpoint" "/oauth/userinfo";
            alias "device_authorization_endpoint" "/oauth/device_authorization";
            alias "pushed_authorization_request_endpoint" "/oauth/par"])]
  else doc.

Section discovery.
Context `{JwtLib} `{Runtime}.
(** [public_key.public_numbers()]: modulus and exponent. *)
Context (public_numbers : pub_key -> N * N) (config : Config).

Definition openid_configuration (now : Z) (ks : KeySet) : pydict :=
  discovery_document (issuer config) (default_id_token_alg config) (rar_types_supported config)
    (bool_decide (is_Some (current_for_alg now "RS256" ks))) (acr_values_supported config)
    (if trust_proxy_headers config then mtls_endpoint_base_url config else None).

(** [jwk_from_rs256_key] *)
Definition jwk_from_rs256_key (k : SigningKey) : result exn pydict :=
  let? key := rsa_public_key (k_material k) in
  let '(n, e) := public_numbers key in
  Ok [("kid", JStr (k_kid k)); ("kty", JStr "RSA"); ("use", JStr "sig"); ("alg", JStr "RS256");
      ("n", JStr (uint_to_b64url n)); ("e", JStr (uint_to_b64url e))].
Fixpoint all_jwks (keys : list SigningKey) : result exn (list pydict) :=
  match keys with
  | [] => Ok []
  | k :: keys => let? jwk := jwk_from_rs256_key k in let? jwks := all_jwks keys in Ok (jwk :: jwks)
  end.
Definition obj_del (k : string) (m : pydict) : pydict := List.filter (fun kv => negb (String.eqb (fst kv) k)) m.
(** The static PEM, published when the key set holds no RS256 key. *)
Definition fallback_jwk (now : Z) (pem : string) : result exn pydict :=
  let? jwk := jwk_from_rs256_key (mkKey (or_else (id_token_kid config) EmptyString) "RS256" pem true now None) in
  Ok (if truthy_o (id_token_kid config) then jwk else obj_del "kid" jwk).
Definition published_jwks (now : Z) (ks : KeySet) : result exn (list pydict) :=
  let? keys := all_jwks (List.filter (fun k => String.eqb (k_algorithm k) "RS256") (active_keys now ks)) in
  match keys, default_id_token_alg config, id_token_private_key_pem config with
  | [], Some alg, Some pem =>
      if String.eqb alg "RS256" && truthy pem then let? jwk := fallback_jwk now pem in Ok [jwk] else Ok []
  | _, _, _ => Ok keys
  end.
Definition cacheable (body : pydict) : response :=
  mkResponse 200 (JObj body) [("Cache-Control", "public, max-age=3600")].
Definition jwks : M response :=
  let! now := sget a_wall in
  let! ks := sget a_keyset in
  let! keys := slift (published_jwks now ks) in
  sret (cacheable [("keys", JList (map JObj keys))]).

Definition protected_resource_metadata : response :=
  let base := rstrip_char "/" (issuer config) in
  cacheable
    [("resource", JStr base); ("authorization_servers", jstrs [base]); ("bearer_methods_supported", jstrs ["header"]);
     ("dpop_signing_alg_values_supported", jstrs dpop_signing_alg_values_supported);
     ("token_introspection_endpoint", JStr (base +:+ "/oauth/introspect")); ("jwks_uri", JStr (base +:+ "/.well-known/jwks.json"));
     ("scopes_supported", jstrs SCOPES_SUPPORTED); ("tls_client_certificate_bound_access_tokens", JBool true)].
Definition token_status_list : response :=
  let base := rstrip_char "/" (issuer config) in
  mkResponse 200 (JObj [("status_list", JObj status_list_stub); ("issuer", JStr base);
                        ("status_list_uri", JStr (base +:+ "/.well-known/oauth-authorization-server/status"))]) [].
End discovery.

(** ** Discovery tells the truth about the endpoints, and JWKS about the keys *)

(** [l] and [l'] have the same members. *)
Definition same_members (l l' : list string) : Prop := forall x, In x l <-> In x l'.
Definition all_in (l l' : list string) : bool := forallb (fun x => mem_str x l') l.
Lemma same_members_dec l l' : all_in l l' && all_in l' l = true -> same_members l l'.
Proof.
  intros Hb. apply andb_prop in Hb as [H1 H2]. unfold all_in in *. rewrite forallb_forall in H1, H2.
  intros x. split; intros Hx; apply mem_str_In; auto.
Qed.
Lemma rstrip_same c s : rstrip_char c s = s <-> (forall t, s <> t +:+ String c EmptyString).
Proof.
  induction s as [|d s IH]; [split; [|done]; intros _ [|? ?]; done|]. cbn [rstrip_char]. split.
  - intros Hs [|e t] Ht; rewrite ?append_String in Ht.
    + injection Ht as -> ->. cbn in Hs. by rewrite Ascii.eqb_refl in Hs.
    + injection Ht as -> Ht. destruct (rstrip_char c s) eqn:Hr.
      * destruct (Ascii.eqb e c); [done|]. injection Hs as Hs. subst s. by destruct t.
      * injection Hs as Hs. by apply (proj1 IH Hs t).
  - intros Hn. assert (forall t, s <> t +:+ String c EmptyString) as Hs.
    { intros t ->. apply (Hn (String d t)). by rewrite append_String. }
    apply IH in Hs. rewrite Hs. destruct s; [|done]. destruct (Ascii.eqb_spec d c) as [->|]; [|done].
    by destruct (Hn EmptyString).
Qed.

Section honest.
Context `{JwtLib} `{Runtime}.
Context (public_numbers : pub_key -> N * N) (config : Config).

(** What the document says of a list-valued member. *)
Definition advertises (doc : pydict) (k : string) (l : list string) : Prop := obj_get k doc = Some (jstrs l).

Lemma body_get k base alg rar rs acr mtls :
  obj_get k (discovery_document base alg rar rs acr mtls) =
  match obj_get k (discovery_body (rstrip_char "/" base) alg rar rs acr) with
  | Some v => Some v
  | None => obj_get k (discovery_document base alg rar rs acr mtls)
  end.
Proof.
  destruct (obj_get k (discovery_body _ _ _ _ _)) eqn:Hk; [|done]. unfold discovery_document.
  destruct (truthy_o mtls); [|done]. revert Hk. generalize (discovery_body (rstrip_char "/" base) alg rar rs acr).
  intros m. unfold obj_get. induction m as [|[k' v'] m IH]; cbn; [done|]. destruct (String.eqb _ _); auto.
Qed.

(** the discovery document advertises exactly the grant types the token
    endpoint knows, the authentication methods a client may register, the
    response types and modes the authorization endpoint accepts, and DPoP
    algorithms the proof check allows; its issuer is the configured one
    exactly when that does not end with a slash. *)
Theorem discovery_honest now ks :
  let doc := openid_configuration config now ks in
  (exists l, advertises doc "grant_types_supported" l /\ same_members l known_grant_types)
  /\ (exists l, advertises doc "token_endpoint_auth_methods_supported" l /\ same_members l valid_auth_methods)
  /\ (exists l, advertises doc "response_types_supported" l /\ same_members l supported_response_types)
  /\ (exists l, advertises doc "response_modes_supported" l /\ same_members l valid_response_modes)
  /\ (exists l, advertises doc "dpop_signing_alg_values_supported" l /\ forall a, In a l -> In a allowed_algs)
  /\ advertises doc "acr_values_supported" (acr_values_supported config)
  /\ advertises doc "authorization_details_types_supported" (rar_types_supported config)
  /\ (obj_get "issuer" doc = Some (JStr (issuer config)) <-> forall t, issuer config <> t +:+ "/").
Proof.
  intros doc. assert (forall k v, obj_get k (discovery_body (rstrip_char "/" (issuer config)) (default_id_token_alg config)
    (rar_types_supported config) (bool_decide (is_Some (current_for_alg now "RS256" ks))) (acr_values_supported config)) = Some v ->
    obj_get k doc = Some v) as Hget.
  { intros k v Hk. unfold doc, openid_configuration. by rewrite body_get, Hk. }
  split_and! .
  - eexists. split; [by apply Hget|by apply same_members_dec].
  - eexists. split; [by apply Hget|by apply same_members_dec].
  - eexists. split; [by apply Hget|by apply same_members_dec].
  - eexists. split; [by apply Hget|by apply same_members_dec].
  - eexists. split; [by apply Hget|]. intros a Ha. apply mem_str_In. destruct Ha as [<-|[<-|[]]]; done.
  - by apply Hget.
  - by apply Hget.
  - rewrite (Hget "issuer" (JStr (rstrip_char "/" (issuer config))) eq_refl), <- (rstrip_same "/"%char). split; [by intros [= ->]|by intros ->].
Qed.

(** ** JWKS *)
(** The public half of a key, as published. *)
Definition published (k : SigningKey) (jwk : pydict) : Prop := exists key,
  rsa_public_key (k_material k) = Ok key
  /\ jwk = [("kid", JStr (k_kid k)); ("kty", JStr "RSA"); ("use", JStr "sig"); ("alg", JStr "RS256");
            ("n", JStr (uint_to_b64url (fst (public_numbers key)))); ("e", JStr (uint_to_b64url (snd (public_numbers key))))].
Lemma jwk_published k jwk : jwk_from_rs256_key public_numbers k = Ok jwk -> published k jwk.
Proof.
  unfold jwk_from_rs256_key. destruct (rsa_public_key (k_material k)) as [key|] eqn:Hk; [|done]. cbn [rbind].
  destruct (public_numbers key) as [n e] eqn:He. intros [= <-]. exists key. by rewrite He.
Qed.
Lemma all_jwks_published keys jwks : all_jwks public_numbers keys = Ok jwks -> Forall2 published keys jwks.
Proof.
  revert jwks. induction keys as [|k keys IH]; cbn; intros jwks; [by intros [= <-]|].
  destruct (jwk_from_rs256_key _ k) eqn:Hk; [|done]. cbn [rbind]. destruct (all_jwks _ keys); [|done]. cbn [rbind].
  intros [= <-]. constructor; [by apply jwk_published|auto].
Qed.

(** the JWKS endpoint publishes the public half of every active RS256 key,
    so of the key that signs, in key set order, and, when there is none, at
    most that of the configured PEM; no other material leaves the server. *)
Theorem jwks_publishes_keys now ks jwks : published_jwks public_numbers config now ks = Ok jwks ->
  let rs256 := List.filter (fun k => String.eqb (k_algorithm k) "RS256") (active_keys now ks) in
  (Forall2 published rs256 jwks
   \/ rs256 = [] /\ exists pem jwk, id_token_private_key_pem config = Some pem
        /\ published (mkKey (or_else (id_token_kid config) EmptyString) "RS256" pem true now None) jwk
        /\ jwks = [if truthy_o (id_token_kid config) then jwk else obj_del "kid" jwk])
  /\ (forall k, current_for_alg now "RS256" ks = Some k -> exists jwk, In jwk jwks /\ published k jwk).
Proof.
  unfold published_jwks. set (rs256 := List.filter _ (active_keys now ks)). intros Hp.
  destruct (all_jwks public_numbers rs256) as [keys|] eqn:Hk; [|done]. cbn [rbind] in Hp. apply all_jwks_published in Hk.
  assert (forall k, current_for_alg now "RS256" ks = Some k -> In k rs256) as Hin.
  { intros k Hc. unfold current_for_alg in Hc. apply find_In in Hc as [Hin Hb]. b2p. unfold rs256, active_keys.
    apply filter_In. split; [|by apply String.eqb_eq]. apply filter_In. by split. }
  assert (forall k keys', Forall2 published rs256 keys' -> In k rs256 -> exists jwk, In jwk keys' /\ published k jwk) as Hpub.
  { intros k keys' Hf Hi. apply list_elem_of_In in Hi. apply list_elem_of_lookup in Hi as [i Hi].
    destruct (Forall2_lookup_l _ _ _ _ _ Hf Hi) as (jwk & Hj & Hpk). exists jwk. split; [|done].
    apply list_elem_of_In. by eapply list_elem_of_lookup_2. }
  destruct keys as [|j keys].
  - inversion Hk as [Hnil|]; subst. rewrite <- Hnil in *. split; [|intros k Hc; by apply Hin in Hc].
    destruct (default_id_token_alg config) as [alg|]; [|injection Hp as <-; by left].
    destruct (id_token_private_key_pem config) as [pem|]; [|injection Hp as <-; by left].
    destruct (String.eqb alg "RS256" && truthy pem); [|injection Hp as <-; by left]. right. split; [done|].
    unfold fallback_jwk in Hp. destruct (jwk_from_rs256_key _ _) as [jwk|] eqn:Hj; [|done]. cbn [rbind] in Hp.
    apply jwk_published in Hj. injection Hp as <-. by exists pem, jwk.
  - assert (jwks = j :: keys) as ->.
    { destruct (default_id_token_alg config), (id_token_private_key_pem config); by injection Hp. }
    split; [by left|]. intros k Hc. by apply (Hpub k), Hin.
Qed.
End honest.

Definition toy_numbers (_ : @pub_key toy_jwt) : N * N := (65537%N, 3%N).
Lemma jwks_publishes_keys_witness : exists jwks,
  published_jwks toy_numbers (toy_config true) 7
    [mkKey "k1" "RS256" "pem" true 5 None; mkKey "k2" "HS256" "secret" true 5 None] = Ok jwks
  /\ exists jwk, In jwk jwks /\ published toy_numbers (mkKey "k1" "RS256" "pem" true 5 None) jwk.
Proof.
  eexists. split; [vm_compute; reflexivity|].
  refine (proj2 (jwks_publishes_keys toy_numbers (toy_config true) 7 
    [mkKey "k1" "RS256" "pem" true 5 None; mkKey "k2" "HS256" "secret" true 5 None] _ _) _ _); vm_compute; reflexivity.
Defined.
