(* ===== verification/LogoutProps.v ===== *)
(** * Logout revokes only what the hint proves, and leads only where a client says *)
From S2P Require Import Prelude PyStr PyJson Codec Models Storage Paging PyUrl TtlStores Keys Jwt App PyDumps.
From S2P Require Import Tokens ClientAuth Redirects Authorize Login ToyJwt AdminEffects Logout.
#[local] Open Scope Z_scope.

(** ** Escaping *)
(** Every occurrence of the first character of [old] starts one of [old]. *)
Lemma replace_char_gone c new s : py_contains_char c new = false ->
  py_contains_char c (py_replace (String c EmptyString) new s) = false.
Proof.
  intros Hn. unfold py_replace. induction s as [|d s IH]; [done|]. cbn [replace_from py_startswith].
  destruct (Ascii.eqb c d) eqn:Hc; cbn [andb String.length Nat.sub].
  - rewrite contains_app, Hn. exact IH.
  - cbn [py_contains_char]. rewrite Ascii.eqb_sym, Hc. exact IH.
Qed.
Lemma replace_keeps_out c d new s : py_contains_char c new = false -> py_contains_char c s = false ->
  py_contains_char c (py_replace (String d EmptyString) new s) = false.
Proof.
  intros Hn Hs. unfold py_replace. induction s as [|e s IH]; [done|]. cbn [replace_from py_startswith].
  cbn [py_contains_char] in Hs. apply orb_false_iff in Hs as [He Hs].
  destruct (Ascii.eqb d e); cbn [andb String.length Nat.sub].
  - rewrite contains_app, Hn. auto.
  - cbn [py_contains_char]. rewrite He. auto.
Qed.
Lemma script_data_inert url : py_contains_char "<" (script_data url) = false.
Proof. apply replace_keeps_out; [done|]. by apply replace_char_gone. Qed.

Section logout.
Context `{JwtLib} `{Runtime}.
Context (cbn_ : string -> bool) (config : Config).
Implicit Types (s : AppState).

(** ** The hint *)
(** [claims] were signed by this server: with its secret, or with an RS256 key
    of its key set that is still active, or - only when it has none - with the
    configured PEM. *)
Definition own_rs256 (now : Z) (ks : KeySet) (material : string) : Prop :=
  (exists k, In k ks /\ k_algorithm k = "RS256" /\ is_active now k = true /\ k_material k = material)
  \/ active_keys_for_alg now "RS256" ks = [] /\ id_token_private_key_pem config = Some material.
Definition genuine (now : Z) (ks : KeySet) (hint : string) (claims : pydict) : Prop :=
  jwt_decode now hint (SecretKey (jwt_secret config)) (hint_options config "HS256") = Ok claims
  \/ exists material key, own_rs256 now ks material /\ rsa_public_key material = Ok key
       /\ jwt_decode now hint (PublicKey key) (hint_options config "RS256") = Ok claims.

Lemma materials_own now ks kid m : In m (rs256_hint_verify_materials config now ks kid) -> own_rs256 now ks m.
Proof.
  unfold rs256_hint_verify_materials.
  assert (In m (map k_material (active_keys_for_alg now "RS256" ks)) -> own_rs256 now ks m) as Hev.
  { intros (k & <- & Hk)%in_map_iff. apply filter_In in Hk as [Hk Ha]. b2p. left. exists k.
    by split_and! . }
  assert (forall l, (In m l -> own_rs256 now ks m) -> (l = [] -> active_keys_for_alg now "RS256" ks = []) ->
    In m match l, id_token_private_key_pem config with [], Some pem => if truthy pem then [pem] else [] | _, _ => l end ->
    own_rs256 now ks m) as Hfall.
  { intros [|x l] Hl Hnil; [|by destruct (id_token_private_key_pem config)].
    destruct (id_token_private_key_pem config) as [pem|] eqn:Hp; [|done].
    destruct (truthy pem); [|done]. intros [<-|[]]. right. auto. }
  apply Hfall; destruct kid as [[]|]; try (by apply Hev); try (intros Hl; by apply map_eq_nil in Hl).
  - destruct (truthy s); [|done]. destruct (find now s ks) as [k|] eqn:Hk; [|done].
    destruct (String.eqb_spec (k_algorithm k) "RS256"); [|done]. intros [<-|[]].
    apply find_In in Hk as [Hin Hb]. b2p. left. exists k. by split_and! .
  - destruct (truthy s); [|by intros Hl%map_eq_nil]. destruct (find now s ks) as [k|]; [|by intros Hl%map_eq_nil].
    destruct (String.eqb _ _); [done|by intros Hl%map_eq_nil].
Qed.
Lemma verify_hint_genuine now ks hint ms claims : (forall m, In m ms -> own_rs256 now ks m) ->
  verify_hint_with config now hint ms = Ok (Some claims) -> genuine now ks hint claims.
Proof.
  induction ms as [|m ms IH]; intros Hown Hv; cbn [verify_hint_with] in Hv; [done|].
  specialize (IH (fun x Hx => Hown x (or_intror Hx))).
  destruct (rsa_public_key m) as [key|e] eqn:Hk; [|by destruct (is_value_error e); auto].
  destruct (jwt_decode now hint (PublicKey key) _) as [c|e] eqn:Hd; [|by destruct (is_jwt_error e); auto].
  injection Hv as ->. right. exists m, key. split_and! ; [apply Hown; by left|done..].
Qed.
Lemma jwt_or_invalid_some r c : jwt_or_invalid r = Ok (Some c) -> r = Ok c.
Proof. unfold jwt_or_invalid. destruct r as [v|e]; [by intros [= ->]|by destruct (is_jwt_error e)]. Qed.
Lemma decode_hint_genuine now ks hint claims :
  decode_hint config now ks hint = Ok (Some claims) -> genuine now ks hint claims.
Proof.
  unfold decode_hint. destruct (jwt_or_invalid _) as [[header|]|]; cbn [rbind]; try done.
  destruct (member_eqb "alg" (JStr "HS256") header); [intros Hd; left; by apply jwt_or_invalid_some|].
  destruct (negb _); [done|]. apply verify_hint_genuine. apply materials_own.
Qed.

(** ** The notifications *)
(** A notification of [c]: its own address, and a token addressed to it. *)
Definition notification (now : Z) (sub sid : option string) (c : Client) (post : string * string) : Prop :=
  notified sub sid c = true /\ fst post = c_backchannel_logout_uri c
  /\ exists jti token, snd post = "logout_token=" +:+ token
       /\ jwt_encode (logout_claims config now jti c sub (token_sid sid c)) (jwt_secret config) "HS256"
            [("typ", JStr "logout+JWT")] = Ok token.
Lemma notify_sound sub sid cs s posts s' : notify config sub sid cs s = (Ok posts, s') ->
  a_store s' = a_store s /\ a_wall s' = a_wall s
  /\ Forall (fun p => exists c, In c cs /\ notification (a_wall s) sub sid c p) posts.
Proof.
  revert s posts. induction cs as [|c cs IH]; intros s posts Hr; [by injection Hr as <- <-|].
  assert (forall s l, a_wall s = a_wall s ->
    Forall (fun p => exists x, In x cs /\ notification (a_wall s) sub sid x p) l ->
    Forall (fun p => exists x, In x (c :: cs) /\ notification (a_wall s) sub sid x p) l) as Hmono.
  { intros s1 l _ Hl. eapply Forall_impl; [exact Hl|]. intros p (x & Hx & Hp). exists x. split; [by right|done]. }
  cbn [notify] in Hr. destruct (notified sub sid c) eqn:Hn.
  - apply bind_ok in Hr as (sent & s1 & Hd & Hr). apply bind_ok in Hr as (rest & s2 & Hs & Hr).
    injection Hr as <- <-. unfold dispatch_backchannel_logout, draw in Hd. run_simpl Hd. injection Hd as Hd <-.
    apply IH in Hs as (Hst & Hw & Hf). split_and! ; [done|done|]. apply Forall_app. split; [|by apply Hmono].
    destruct (jwt_encode _ _ _ _) as [token|] eqn:Ht; subst sent; [|by constructor].
    constructor; [|by constructor]. exists c. split; [by left|]. split_and! ; [done|done|]. by eexists _, token.
  - apply IH in Hr as (Hst & Hw & Hf). split_and! ; [done|done|by apply Hmono].
Qed.
Lemma notified_identified sub sid c : notified sub sid c = true ->
  c_backchannel_logout_uri c <> EmptyString /\ (is_Some sub \/ is_Some (token_sid sid c)).
Proof.
  unfold notified. intros Hb. b2p. split.
  - intros He. by rewrite He in *.
  - destruct sub; [left; by eexists|]. destruct (token_sid sid c); [right; by eexists|done].
Qed.

(** ** The handler *)
(** The subject the request proves: that of a genuine hint addressed to a
    registered client or to none, nobody without a hint. *)
Definition proves (rq : LogoutRequest) s (sub : option string) : Prop :=
  match lo_query rq !! "id_token_hint" with
  | Some hint =>
      if truthy hint then exists claims, genuine (a_wall s) (a_keyset s) hint claims
        /\ (extract_audiences claims = [] \/ known_audience (extract_audiences claims) (a_store s) = true)
        /\ sub = hint_subject claims
      else sub = None
  | None => sub = None
  end.
Definition of_subject (sub : option string) (t : Token) : Prop := exists u, sub = Some u /\ of_user u t.

Lemma locked_nobody (P : Token -> Prop) l : (forall t, ~ P t) -> Forall2 (locked P) l l.
Proof. intros Hn. induction l; constructor; [|done]. split_and! ; [done|done|by intros ?%Hn|done]. Qed.
Lemma locked_ext (P Q : Token -> Prop) l l' : (forall t, P t <-> Q t) -> Forall2 (locked P) l l' -> Forall2 (locked Q) l l'.
Proof.
  intros HPQ Hl. eapply Forall2_impl; [exact Hl|]. intros t t' (H1 & H2 & H3 & H4).
  split_and! ; [done|done|rewrite <- HPQ; done|rewrite <- HPQ; done].
Qed.
Lemma check_hint_ok hint s r s' : check_hint config hint s = (Ok r, s') ->
  match r with
  | inr reply => s' = s /\ exists d, reply = rejected d
  | inl sub => (exists claims, genuine (a_wall s) (a_keyset s) hint claims
      /\ (extract_audiences claims = [] \/ known_audience (extract_audiences claims) (a_store s) = true)
      /\ sub = hint_subject claims)
      /\ Forall2 (locked (of_subject sub)) (tokens (a_store s)) (tokens (a_store s'))
      /\ clients (a_store s') = clients (a_store s) /\ a_wall s' = a_wall s
  end.
Proof.
  unfold check_hint, query. intros Hr. run_simpl Hr.
  destruct (decode_hint config (a_wall s) (a_keyset s) hint) as [[claims|]|] eqn:Hd; [| |done].
  2: { injection Hr as <- <-. by split; [|eexists]. }
  apply decode_hint_genuine in Hd.
  destruct (bool_decide (extract_audiences claims <> []) && negb (known_audience (extract_audiences claims) (a_store s))) eqn:Ha.
  { injection Hr as <- <-. by split; [|eexists]. }
  assert (extract_audiences claims = [] \/ known_audience (extract_audiences claims) (a_store s) = true) as Haud.
  { destruct (extract_audiences claims) as [|x l]; [by left|]. right. by apply negb_false_iff. }
  destruct (hint_subject claims) as [u|] eqn:Hu.
  - unfold update_count in Hr. cbn in Hr. injection Hr as <- <-. split_and! ; [eauto 6| |done|done].
    eapply locked_ext; [|exact (locked_by_user u (a_store s))]. intros t. unfold of_subject. naive_solver.
  - injection Hr as <- <-. split_and! ; [eauto 6| |done|done]. apply locked_nobody. by intros t (u & ? & _).
Qed.
Lemma end_session_ok rq sub s r s' : end_session cbn_ config rq sub s = (Ok r, s') ->
  a_store s' = a_store s /\ lp_session_cleared r = true
  /\ Forall (fun p => exists c, In c (clients (a_store s)) /\ notification (a_wall s) sub (session_sid rq) c p) (lp_posts r)
  /\ lp_answer r = answer_logout cbn_ config (lo_query rq) (session_sid rq) (list_all_clients (a_store s)).
Proof.
  unfold end_session. intros Hr. apply bind_ok in Hr as (cs & s1 & Hc & Hr). injection Hc as <- <-.
  apply bind_ok in Hr as (posts & s2 & Hn & Hr). injection Hr as <- <-. apply notify_sound in Hn as (Hst & _ & Hf).
  split_and! ; [done|done| |done]. eapply Forall_impl; [exact Hf|]. intros p (c & Hc & Hp). exists c. split; [|done].
  by eapply Permutation_in; [apply order_by_perm|].
Qed.
Lemma logout_ok rq s r s' : logout cbn_ config rq s = (Ok r, s') ->
  (s' = s /\ exists d, r = rejected d)
  \/ exists sub s1, proves rq s sub /\ Forall2 (locked (of_subject sub)) (tokens (a_store s)) (tokens (a_store s1))
       /\ clients (a_store s1) = clients (a_store s) /\ a_wall s1 = a_wall s /\ end_session cbn_ config rq sub s1 = (Ok r, s').
Proof.
  unfold logout, proves. assert (forall sub : option string, sub = None -> Forall2 (locked (of_subject sub)) (tokens (a_store s)) (tokens (a_store s))) as Hn.
  { intros ? ->. apply locked_nobody. by intros t (u & ? & _). }
  destruct (lo_query rq !! "id_token_hint") as [hint|]; [destruct (truthy hint)|]; intros Hr.
  - apply bind_ok in Hr as ([sub|reply] & s1 & Hc & Hr); apply check_hint_ok in Hc.
    + right. exists sub, s1. naive_solver.
    + injection Hr as <- <-. left. naive_solver.
  - right. exists None, s. eauto 6.
  - right. exists None, s. eauto 6.
Qed.


(** ** The answer *)
Definition registers (uri : string) (c : Client) : Prop := exists v,
  (get_post_logout_redirect_uris json_limit c = Ok v \/ redirect_uri_list json_limit c = Ok v) /\ py_in uri v = Ok true.
(** [url] is the requested address, of http or https, without a fragment and
    registered by a client, with the request's state. *)
Definition trusted (rq : LogoutRequest) (st : Store) (url : string) : Prop := exists uri u c,
  lo_query rq !! "post_logout_redirect_uri" = Some uri /\ In c (clients st) /\ registers uri c
  /\ urlsplit cbn_ uri = Ok u /\ In (s_scheme u) ["http"; "https"] /\ s_netloc u <> EmptyString
  /\ s_fragment u = EmptyString /\ append_state uri (lo_query rq !! "state") = Ok url.
Lemma registered_by_ok uri cs : registered_by uri cs = Ok true -> exists c, In c cs /\ registers uri c.
Proof.
  induction cs as [|c cs IH]; cbn [registered_by]; [done|]. intros Hr. unfold registers.
  destruct (get_post_logout_redirect_uris _ c) as [v|] eqn:Hv; cbn [rbind] in Hr; [|done].
  destruct (py_in uri v) as [[]|] eqn:Hi; cbn [rbind] in Hr; [exists c; split; [by left|eauto]| |done].
  destruct (redirect_uri_list _ c) as [w|] eqn:Hw; cbn [rbind] in Hr; [|done].
  destruct (py_in uri w) as [[]|] eqn:Hj; cbn [rbind] in Hr; [exists c; split; [by left|eauto]| |done].
  destruct (IH Hr) as (d & Hd & Hreg). exists d. split; [by right|done].
Qed.
Lemma validated uri cs : validate_post_logout_redirect_uri cbn_ uri cs = Ok None -> exists u c,
  In c cs /\ registers uri c /\ urlsplit cbn_ uri = Ok u /\ In (s_scheme u) ["http"; "https"]
  /\ s_netloc u <> EmptyString /\ s_fragment u = EmptyString.
Proof.
  unfold validate_post_logout_redirect_uri. destruct (urlsplit cbn_ uri) as [u|] eqn:Hu; cbn [rbind]; [|done].
  destruct (negb (truthy (s_scheme u)) || negb (truthy (s_netloc u))) eqn:Hn; [done|].
  destruct (mem_str (s_scheme u) _) eqn:Hs; cbn [negb]; [|done]. destruct (truthy (s_fragment u)) eqn:Hf; [done|].
  destruct (registered_by uri cs) as [[]|] eqn:Hr; cbn [rbind]; [|done|done]. intros _.
  apply registered_by_ok in Hr as (c & Hc & Hreg). exists u, c. split_and! ; try done.
  - by apply mem_str_In.
  - intros He. rewrite He in Hn. cbn in Hn. by rewrite orb_true_r in Hn.
  - by destruct (s_fragment u).
Qed.

(** The page shows one frame per subscribed client, at that client's address. *)
Definition framed (c : Client) (src : string) : Prop := exists rest, src = c_frontchannel_logout_uri c +:+ "?iss=" +:+ rest.
Lemma logout_frames_ok iss sid cs fs : logout_frames iss sid cs = Ok fs ->
  exists srcs, fs = map logout_iframe srcs /\ Forall2 framed cs srcs.
Proof.
  revert fs. induction cs as [|c cs IH]; cbn [logout_frames]; intros fs Hf; [injection Hf as <-; by exists []|].
  unfold logout_frame in Hf. destruct (quote_via false iss) as [q|]; cbn [rbind] in Hf; [|done].
  set (src := match sid with Some _ => _ | None => _ end) in Hf.
  destruct src as [x|] eqn:Hx; cbn [rbind] in Hf; [|done].
  destruct (logout_frames iss sid cs) as [fs'|]; cbn [rbind] in Hf; [|done]. injection Hf as <-.
  destruct (IH _ eq_refl) as (srcs & -> & Hs). exists (x :: srcs). split; [done|]. constructor; [|done]. subst src.
  destruct sid as [sid|]; [destruct (_ && _); [destruct (quote_via false sid) as [r|]; cbn [rbind] in Hx; [|done]|]|];
    injection Hx as <-; eexists; rewrite ?string_app_assoc; reflexivity.
Qed.
Definition inert_page (rq : LogoutRequest) (st : Store) (html : string) : Prop := exists subscribed srcs script,
  html = "<!doctype html><html><body><p>Logging out...</p>" +:+ join EmptyString (map logout_iframe srcs) +:+ script +:+ "</body></html>"
  /\ Forall2 framed subscribed srcs /\ (forall c, In c subscribed -> In c (clients st))
  /\ (forall src, all_chars (fun c => negb (markup_char c)) (html_escape_attr src) = true)
  /\ (script = EmptyString
      \/ exists url, trusted rq st url /\ script = redirect_script url /\ py_contains_char "<" (script_data url) = false).
Lemma finish_logout_ok rq st redirect_url sid cs answer : (forall c, In c cs -> In c (clients st)) ->
  (forall url, redirect_url = Some url -> trusted rq st url) ->
  finish_logout config redirect_url sid cs = Ok answer ->
  match answer with
  | LogoutRedirect url => trusted rq st url
  | LogoutPage html => inert_page rq st html
  | _ => True
  end.
Proof.
  intros Hcs Hurl. unfold finish_logout. destruct (List.filter _ cs) as [|c l] eqn:Hl.
  - intros [= <-]. destruct redirect_url as [url|]; [|done]. cbn. destruct (truthy url); auto.
  - rewrite <- Hl. set (sub := List.filter _ cs) in *. unfold render_frontchannel_page.
    destruct (logout_frames _ _ sub) as [fs|] eqn:Hf; cbn [rbind]; [|done].
    destruct (utf8_valid _); [|done]. intros [= <-]. apply logout_frames_ok in Hf as (srcs & -> & Hs).
    exists sub, srcs. eexists. split_and! ; [reflexivity|done| |apply html_escape_attr_plain|].
    + intros x Hx. apply Hcs. by apply filter_In in Hx as [Hx _].
    + destruct redirect_url as [url|]; [|by left]. cbn. destruct (truthy url); [|by left]. right. exists url.
      split_and! ; [auto|done|apply script_data_inert].
Qed.

End logout.

(** ** On the concrete server: "ann" signs out and returns to the client *)
Definition toy_hint : string :=
  match jwt_encode [("iss", JStr "https://as.example"); ("aud", JStr "web"); ("sub", JStr "u-1"); ("exp", JInt 4102444800)]
          (jwt_secret (toy_config true)) "HS256" [] with Ok t => t | Err _ => EmptyString end.
Definition toy_logout : LogoutRequest :=
  mkLogout (list_to_map [("id_token_hint", toy_hint); ("post_logout_redirect_uri", "https://app.example/cb"); ("state", "a b")]) None.


(** A client that stored [null] for its redirect addresses makes every logout
    to an address that no earlier client registered fail, with the session
    already gone. *)
Lemma null_uris_break_logout `{Runtime} uri c cs : c_redirect_uris c = "null" -> c_post_logout_redirect_uris c = EmptyString ->
  registered_by uri (c :: cs) = Err (PyErr TypeError EmptyString).
Proof.
  intros Hr Hp. cbn [registered_by]. unfold get_post_logout_redirect_uris, redirect_uri_list, json_column.
  rewrite Hr, Hp. cbn. by destruct json_limit.
Qed.
(** A front-channel address with a query gets a second question mark. *)
Lemma double_question_mark c : c_frontchannel_logout_uri c = "https://app.example/out?t=1" ->
  logout_frame "https://as.example" None c
  = Ok (logout_iframe "https://app.example/out?t=1?iss=https%3A%2F%2Fas.example").
Proof. intros Hc. unfold logout_frame. by rewrite Hc. Qed.
