(* ===== verification/SocialProps.v ===== *)
(** * Whom a social login signs in *)
From S2P Require Import Prelude PyStr PyJson Codec Models Storage StoreSpec PyUrl TtlStores Keys Jwt SocialBreaker App PyDumps.
From S2P Require Import Tokens ClientAuth Redirects Authorize Login ToyJwt Social.
#[local] Open Scope Z_scope.

Lemma pbind_ok {A B} (m : result exn (string + A)) (k : A -> result exn (string + B)) b :
  pbind m k = Ok (inr b) -> exists a, m = Ok (inr a) /\ k a = Ok (inr b).
Proof. unfold pbind. destruct m as [[e|a]|]; cbn; try done. eauto. Qed.

Section social.
Context `{JwtLib} `{Runtime} `{ProviderHttp}.
Context (token_urlsafe_64 : nat -> string) (py_casefold : string -> string).
Context (config : Config) (social : SocialConfig).
Notation callback := (social_callback py_casefold config social).
Implicit Types (s : AppState).

(** Only Google and GitHub vouch for an address. *)
Lemma verified_provider rc access_token userinfo : fetch_userinfo rc access_token = Ok (inr userinfo) ->
  su_email_verified userinfo = true -> In (rc_provider rc) ["google"; "github"].
Proof.
  unfold fetch_userinfo. destruct (String.eqb_spec (rc_provider rc) "google") as [->|]; [intros _ _; by left|].
  destruct (mem_str _ _).
  - intros Hf. apply pbind_ok in Hf as (data & _ & Hf).
    destruct (present_value _); [|done]. destruct (present_value _); [|done]. by injection Hf as <-.
  - destruct (String.eqb_spec (rc_provider rc) "github") as [->|]; [intros _ _; right; by left|done].
Qed.
Lemma resolved_provider provider rc : resolve_provider_config config social provider = Some rc -> rc_provider rc = provider.
Proof.
  unfold resolve_provider_config.
  destruct (String.eqb_spec provider "google") as [->|]; [by destruct (both _ _); [intros [= <-]|]|].
  destruct (String.eqb_spec provider "microsoft") as [->|]; [by destruct (both _ _); [intros [= <-]|]|].
  destruct (String.eqb_spec provider "github") as [->|]; [by destruct (both _ _); [intros [= <-]|]|].
  destruct (String.eqb_spec provider "azure") as [->|]; [|done].
  destruct (both _ _); [by intros [= <-]|]. by destruct (both _ _); [intros [= <-]|].
Qed.

(** ** The account *)
(** Who [userinfo] is in the tables [st], and the tables afterwards. *)
Inductive identity (provider : string) (userinfo : SocialUserInfo) (st : Store) : User -> Store -> Prop :=
| identity_known user :
    get_user_by_username (social_username provider userinfo) st = Some user -> identity provider userinfo st user st
| identity_linked user email :
    get_user_by_username (social_username provider userinfo) st = None ->
    social_link_by_verified_email social = true -> su_email_verified userinfo = true -> su_email userinfo = JStr email ->
    In user (users st) -> fold_email py_casefold (u_email user) = fold_email py_casefold email ->
    (forall other, In other (get_users_by_email (fold_email py_casefold email) st) ->
       fold_email py_casefold (u_email other) = fold_email py_casefold email -> other = user) ->
    u_role user <> "admin" -> u_enabled user = true ->
    ~ In (py_lower (py_strip (u_email user))) (admin_emails config) ->
    ~ In (fold_email py_casefold email) (admin_emails config) ->
    identity provider userinfo st user st
| identity_new user email st' :
    get_user_by_username (social_username provider userinfo) st = None -> su_email userinfo = JStr email ->
    u_username user = social_username provider userinfo -> u_email user = email -> u_role user = "user" ->
    u_enabled user = true -> save_user user st = Ok st' -> identity provider userinfo st user st'.

Lemma linked_ok userinfo st user : link_by_verified_email py_casefold config social userinfo st = Ok (Some user) ->
  exists email, social_link_by_verified_email social = true /\ su_email_verified userinfo = true /\ su_email userinfo = JStr email
  /\ In user (users st) /\ fold_email py_casefold (u_email user) = fold_email py_casefold email
  /\ (forall other, In other (get_users_by_email (fold_email py_casefold email) st) ->
       fold_email py_casefold (u_email other) = fold_email py_casefold email -> other = user)
  /\ linkable config (fold_email py_casefold email) user = true.
Proof.
  unfold link_by_verified_email. destruct (social_link_by_verified_email social); [|done].
  destruct (su_email_verified userinfo); [|done]. destruct (su_email userinfo) as [| | | | |email| |]; try done. cbn [negb orb].
  destruct (truthy _); [|done]. cbn [negb].
  destruct (List.filter _ _) as [|c [|? ?]] eqn:Hf; [done| |done].
  destruct (linkable _ _ c) eqn:Hl; [|done]. intros [= ->]. exists email.
  assert (forall x, In x (get_users_by_email (fold_email py_casefold email) st) /\
    fold_email py_casefold (u_email x) = fold_email py_casefold email <-> x = user) as Hin.
  { intros x. rewrite <- String.eqb_eq, <- (filter_In (fun u => String.eqb (fold_email py_casefold (u_email u)) _)), Hf. cbn. naive_solver. }
  destruct (proj2 (Hin user) eq_refl) as [Hu He].
  split_and! ; try done.
  - by apply filter_In in Hu as [Hu _].
  - intros x Hx Hfx. apply Hin. by split.
Qed.
Lemma linkable_ok folded user : linkable config folded user = true ->
  u_role user <> "admin" /\ u_enabled user = true /\ ~ In (py_lower (py_strip (u_email user))) (admin_emails config)
  /\ ~ In folded (admin_emails config).
Proof.
  unfold linkable. intros Hl. apply negb_true_iff in Hl. repeat apply orb_false_iff in Hl as [Hl ?].
  split_and! .
  - by apply String.eqb_neq.
  - by apply negb_false_iff.
  - rewrite <- mem_str_In. congruence.
  - rewrite <- mem_str_In. congruence.
Qed.
Lemma social_user_ok provider userinfo s user s' : social_user py_casefold config social provider userinfo s = (Ok user, s') ->
  identity provider userinfo (a_store s) user (a_store s') /\ a_wall s' = a_wall s.
Proof.
  unfold social_user, query. intros Hr. run_simpl Hr.
  destruct (get_user_by_username _ _) as [known|] eqn:Hk; [injection Hr as <- <-; by split; [apply identity_known|]|].
  destruct (link_by_verified_email _ _ _ _ _) as [[linked|]|] eqn:Hl; [| |done].
  - injection Hr as <- <-. split; [|done]. apply linked_ok in Hl as (email & ? & ? & ? & ? & ? & ? & Hl).
    apply linkable_ok in Hl as (? & ? & ? & ?). by eapply identity_linked.
  - unfold provision, draw, insert in Hr. run_simpl Hr. destruct (su_email userinfo) as [| | | | |email| |] eqn:He; try done.
    cbn [a_store with_draws] in Hr. destruct (save_user _ (a_store s)) as [st'|] eqn:Hs; [|done]. injection Hr as <- <-.
    split; [|done]. by eapply identity_new.
Qed.

(** ** The callback *)
(** The request comes from the session that started the login, at a
    configured provider. *)
Record callback_admitted (rq : CallbackRequest) (rc : ProviderRuntimeConfig) (code : string) (verifier : option string) : Prop := {
  ca_state : exists state, cr_query rq !! "state" = Some state /\ state <> EmptyString /\ ss_csrf_token (cr_session rq) = Some state;
  ca_provider : ss_provider (cr_session rq) = Some (cr_provider rq);
  ca_known : In (cr_provider rq) OAUTH_PROVIDERS;
  ca_config : resolve_provider_config config social (cr_provider rq) = Some rc;
  ca_code : cr_query rq !! "code" = Some code /\ code <> EmptyString;
  ca_verifier : verifier = if rc_pkce rc then ss_pkce_verifier (cr_session rq) else None;
  ca_pkce : rc_pkce rc = true -> exists v, verifier = Some v /\ v <> EmptyString
}.
Lemma checks_admitted rq rc code verifier :
  callback_checks config social rq = inr (rc, code, verifier) <-> callback_admitted rq rc code verifier.
Proof.
  unfold callback_checks. split.
  - destruct (truthy_o (cr_query rq !! "state")) eqn:Hs; [|done]. cbn [negb].
    destruct (from_option_b (state_matches _) (ss_csrf_token (cr_session rq))) eqn:Hc; [|done]. cbn [negb].
    destruct (from_option_b (String.eqb _) (ss_provider (cr_session rq))) eqn:Hp; [|done]. cbn [negb].
    destruct (mem_str (cr_provider rq) OAUTH_PROVIDERS) eqn:Hk; [|done]. cbn [negb].
    destruct (resolve_provider_config config social (cr_provider rq)) as [rc'|] eqn:Hr; [|done].
    destruct (truthy_o (cr_query rq !! "code")) eqn:Hcode; [|done]. cbn [negb].
    destruct (rc_pkce rc' && negb (truthy_o (ss_pkce_verifier (cr_session rq)))) eqn:Hv; [done|]. intros [= -> <- <-].
    apply truthy_o_true in Hs as (state & Hs & Hse), Hcode as (c & Hcode & Hce).
    destruct (ss_csrf_token (cr_session rq)) as [csrf|] eqn:Hcs; [|done]. destruct (ss_provider (cr_session rq)) as [p|] eqn:Hps; [|done].
    rewrite Hs in Hc. cbn in Hc, Hp. unfold state_matches in Hc. b2p. subst. constructor.
    + by exists csrf.
    + done.
    + by apply mem_str_In.
    + done.
    + by rewrite Hcode.
    + done.
    + intros Hpk. rewrite Hpk in Hv |- *. apply negb_false_iff, truthy_o_true in Hv as (v & Hv & Hve). by exists v.
  - intros [(state & Hs & Hse & Hcs) Hp Hk Hr [Hc Hce] Hv Hpk]. rewrite Hs, Hcs, Hp, Hr, Hc. apply mem_str_In in Hk. rewrite Hk.
    cbn [from_option_b]. unfold state_matches. cbn [default from_option]. rewrite !String.eqb_refl.
    rewrite (proj2 (truthy_o_true (Some state))) by eauto. rewrite (proj2 (truthy_o_true (Some code))) by eauto. cbn [negb].
    subst verifier. destruct (rc_pkce rc) eqn:Hrp; [|done]. destruct (Hpk eq_refl) as (v & Hv & Hve). rewrite Hv.
    by rewrite (proj2 (truthy_o_true (Some v))) by eauto.
Qed.
Lemma checks_refusal rq r : callback_checks config social rq = inl r ->
  exists e d st, r = refused e d st /\ (st = 400 \/ st = 403).
Proof.
  unfold callback_checks.
  destruct (negb (truthy_o (cr_query rq !! "state"))); [intros [= <-]; eauto 6|].
  destruct (negb (from_option_b (state_matches _) _)); [intros [= <-]; eauto 6|].
  destruct (negb (from_option_b (String.eqb _) _)); [intros [= <-]; eauto 6|].
  destruct (negb (mem_str _ _)); [intros [= <-]; eauto 6|].
  destruct (resolve_provider_config _ _ _); [|intros [= <-]; unfold refused; eauto 6].
  destruct (negb (truthy_o (cr_query rq !! "code"))); [intros [= <-]; eauto 6|].
  destruct (rc_pkce _ && _); [intros [= <-]; eauto 6|done].
Qed.
Lemma breaker_step_ok {A} provider (f : Z -> SocialCircuitBreaker -> A * SocialCircuitBreaker) s a s' :
  breaker_step provider f s = (Ok a, s') -> a_store s' = a_store s /\ a_wall s' = a_wall s.
Proof.
  unfold breaker_step. destruct (a_social_breakers s !! provider) as [b|]; [|done]. destruct (f (a_mono s) b) as [x b']. by intros [= _ <-].
Qed.


(** the callback never looks at whether the account it finds is enabled:
    an account that was provisioned by a social login and then disabled signs
    in again. *)
Theorem disabled_social_account_signs_in rq rc code verifier access_token userinfo user b s :
  callback_admitted rq rc code verifier ->
  exchange_code rc code verifier = Ok (inr access_token) -> fetch_userinfo rc access_token = Ok (inr userinfo) ->
  a_social_breakers s !! cr_provider rq = Some b -> fst (sb_allow (a_mono s) b) = true ->
  get_user_by_username (social_username (cr_provider rq) userinfo) (a_store s) = Some user -> u_enabled user = false ->
  exists reply s', callback rq s = (Ok reply, s')
    /\ cb_login reply = Some (set_login (a_wall s) user (default_acr config) (Some ["fed"])).
Proof.
  intros Hadm He Hf Hb Hallow Hu _. apply checks_admitted in Hadm.
  destruct (sb_allow (a_mono s) b) as [allowed b1] eqn:Hal. cbn [fst] in Hallow. subst allowed. eexists _, _.
  unfold social_callback. rewrite Hadm. unfold slift, sbind. rewrite He. unfold identify, sbind, breaker_step. rewrite Hb.
  rewrite Hal. unfold slift. rewrite Hf. cbn [a_social_breakers with_social_breakers negb].
  rewrite lookup_insert_eq. unfold complete_sign_in, social_user, query, sbind, sget, sret. cbn [a_store with_social_breakers a_wall].
  rewrite Hu. cbv beta iota. split; [reflexivity|]. reflexivity.
Qed.

(** What GET /auth/login/{provider} hands out is what the callback asks for. *)
Lemma social_login_ok provider ss s url ss' s1 :
  social_login token_urlsafe_64 config social provider ss s = (Ok (SocialRedirect url, ss'), s1) ->
  exists rc state, resolve_provider_config config social provider = Some rc /\ In provider OAUTH_PROVIDERS
    /\ state = token_urlsafe (a_draws s)
    /\ ss' = mkSocialSession (Some state) (Some provider) (ss_pkce_verifier ss') (ss_return_to ss)
    /\ build_authorize_url rc state (option_map s256 (ss_pkce_verifier ss')) = Ok url
    /\ ss_pkce_verifier ss' = if rc_pkce rc then Some (token_urlsafe_64 (S (a_draws s))) else None.
Proof.
  unfold social_login. destruct (mem_str provider ALL_PROVIDERS) eqn:Ha; [|done]. cbn [negb].
  destruct (mem_str provider STUB_PROVIDERS) eqn:Hs; [done|].
  destruct (resolve_provider_config _ _ _) as [rc|] eqn:Hr; [|done]. unfold draw. intros Hrun. run_simpl Hrun.
  assert (In provider OAUTH_PROVIDERS) as Hin.
  { apply mem_str_In in Ha. unfold ALL_PROVIDERS in Ha. apply in_app_iff in Ha as [Ha|Ha]; [done|]. apply mem_str_In in Ha. congruence. }
  destruct (rc_pkce rc) eqn:Hp; cbn [a_draws with_draws] in Hrun;
    (destruct (build_authorize_url _ _ _) eqn:Hb; [|done]); injection Hrun as -> <- <-; exists rc, (token_urlsafe (a_draws s));
    split_and! ; rewrite ?Hp; done.
Qed.

End social.

(** ** On the concrete server, with Google configured *)
#[local] Instance toy_provider : ProviderHttp := {|
  provider_post _ _ _ := HttpReply 200 (json_dumps (JObj [("access_token", JStr "at")]));
  provider_get _ _ := HttpReply 200 (json_dumps
    (JObj [("id", JStr "7"); ("email", JStr "Ann@example"); ("verified_email", JBool true)]))
|}.
Definition toy_social (linking : bool) : SocialConfig := {|
  google_client_id := Some "gid"; google_client_secret := Some "gsecret"; google_redirect_uri := None;
  microsoft_client_id := None; microsoft_client_secret := None; microsoft_redirect_uri := None; microsoft_tenant_id := "common";
  github_client_id := None; github_client_secret := None; github_redirect_uri := None;
  azure_client_id := None; azure_client_secret := None; azure_redirect_uri := None; azure_tenant_id := "common";
  social_link_by_verified_email := linking
|}.
Definition verifier64 (n : nat) : string := "verifier" +:+ str_of_Z (Z.of_nat n).
Definition toy_callback : CallbackRequest :=
  mkCallback "google" (list_to_map [("state", "csrf"); ("code", "gcode")])
    (mkSocialSession (Some "csrf") (Some "google") (Some "verifier") (Some "/oauth/authorize?x=1")).
(** The server with further users. *)
Definition with_users (s : AppState) (us : list User) : AppState := with_store s (on_users (fun l => l ++ us) (a_store s)).
Definition google_user (enabled : bool) : User := mkUser "u-7" "google:7" "argon2:x" "ann@example" enabled "user" 0 0.

(** "ann" has one local account: linked when linking is on, else provisioned. *)
Definition ann_signed_in : CallbackReply :=
  mkCallbackReply (SocialRedirect "/oauth/authorize?x=1")
    (Some (mkLoginSession "u-1" 100 "user" "ann@example" "ann" (Some "urn:mace:incommon:iap:bronze") (Some ["fed"]))).
Example provisioned_without_linking :
  match social_callback py_lower (toy_config true) (toy_social false) toy_callback (toy_state false false) with
  | (Ok r, s') => (option_map ls_username (cb_login r), map u_username (users (a_store s')))
  | _ => (None, [])
  end = (Some "google:7", ["ann"; "google:7"]).
Proof. vm_compute. reflexivity. Qed.

Lemma disabled_social_account_signs_in_witness : exists reply s',
  social_callback py_lower (toy_config true) (toy_social false) toy_callback (with_users (toy_state false false) [google_user false]) = (Ok reply, s')
  /\ cb_login reply = Some (set_login (100 * SECOND) (google_user false) (Some "urn:mace:incommon:iap:bronze") (Some ["fed"])).
Proof.
  eapply (disabled_social_account_signs_in py_lower (toy_config true) (toy_social false) toy_callback _ _ _ _ _ (google_user false) _
    (with_users (toy_state false false) [google_user false])).
  - refine (proj1 (checks_admitted _ _ _ _ _ _) _). vm_compute. reflexivity.
  - vm_compute. reflexivity.
  - vm_compute. reflexivity.
  - vm_compute. reflexivity.
  - vm_compute. reflexivity.
  - vm_compute. reflexivity.
  - reflexivity.
Defined.


(** Two accounts fold to the same address, but the database trims spaces only:
    the one with a tab is no candidate, and the other is linked. *)
Example ambiguous_address_links :
  let tabbed := mkUser "u-9" "eve" "argon2:x" (String (ascii_of_nat 9) "ann@example") true "user" 0 0 in
  let st := a_store (with_users (toy_state false false) [tabbed]) in
  let userinfo := mkSocialUserInfo "google" "7" (JStr "Ann@example") None None true in
  List.filter (fun u => String.eqb (fold_email py_lower (u_email u)) "ann@example") (users st) = [toy_user; tabbed]
  /\ link_by_verified_email py_lower (toy_config true) (toy_social true) userinfo st = Ok (Some toy_user).
Proof. vm_compute. by split. Qed.
