(* ===== verification/EventsProps.v ===== *)
(** * What the event bus delivers, and what ingest lets in *)
From S2P Require Import Prelude PyStr PyJson Codec Models IsoTime TtlStores Jwt App PyDumps Admin EventBus ToyJwt.
#[local] Open Scope Z_scope.

(** ** Fan-out *)
(** Every plugin gets the envelope, whatever the others do. *)
Definition deliver (plugins : list EventPlugin) (s : Sinks) (e : EventEnvelope) : Sinks :=
  fold_left (fun s p => snd (pl_emit p e s)) plugins s.
Lemma fan_out_delivers plugins e s : fan_out plugins e s = (Ok tt, deliver plugins s e).
Proof.
  revert s. induction plugins as [|p plugins IH]; intros s; [done|]. cbn [fan_out]. unfold sbind, scatch, deliver. cbn [fold_left].
  destruct (pl_emit p e s) as [[[]|x] s1]; cbn; by rewrite IH.
Qed.
Definition emitted (b : EventBus) (e : EventEnvelope) : bool := should_emit (b_filter b) (ae_event_type (ev_event e)).

(** The last [n] members of a list. *)
Definition lastn {A} (n : nat) (l : list A) : list A := skipn (length l - n) l.
Lemma lastn_push {A} n (l : list A) a : push_right n (lastn n l) a = lastn n (l ++ [a]).
Proof.
  unfold push_right, lastn. rewrite !length_app, length_skipn. cbn [length].
  destruct (Nat.le_gt_cases (length l) n) as [Hl|Hl].
  - replace (length l - n)%nat with 0%nat by lia. cbn [skipn]. f_equal. lia.
  - replace (length l - (length l - n) + 1 - n)%nat with 1%nat by lia.
    replace (length l + 1 - n)%nat with (1 + (length l - n))%nat by lia. rewrite <- skipn_skipn. f_equal.
    rewrite skipn_app. by replace (length l - n - length l)%nat with 0%nat by lia.
Qed.
Lemma firstn_push {A} n (l : list A) a : firstn n (a :: firstn n l) = firstn n (a :: l).
Proof. destruct n as [|n]; [done|]. cbn. f_equal. rewrite firstn_firstn. f_equal. lia. Qed.

Section bus.
Context `{Runtime}.

Lemma bus_run_tasks b s s' l : bus_run b s s' l -> exists done,
  bs_tasks s ++ List.filter (emitted b) l = done ++ bs_tasks s'
  /\ bs_sinks s' = fold_left (deliver (b_plugins b)) done (bs_sinks s).
Proof.
  induction 1 as [s|s1 s2 s3 l1 l2 Hr (dn & Ht & Hs) Hst]; [exists []; by rewrite app_nil_r|].
  rewrite List.filter_app. inversion Hst as [? e|? e tasks He]; subst.
  - exists dn. unfold publish_best_effort, emitted in *. cbn [List.filter]. destruct (should_emit _ _) eqn:Hm; cbn [bs_tasks bs_sinks].
    + rewrite !app_assoc, Ht. done.
    + by rewrite app_nil_r.
  - exists (dn ++ [e]). cbn [List.filter bs_tasks bs_sinks]. rewrite app_nil_r, Ht, He, <- app_assoc. split; [done|].
    rewrite fold_left_app, fan_out_delivers, Hs. done.
Qed.
Lemma bus_drains b s : exists s', bus_run b s s' [] /\ bs_tasks s' = [].
Proof.
  destruct s as [tasks sinks]. revert sinks. induction tasks as [|e tasks IH]; intros sinks; [eexists; split; [apply run_nil|done]|].
  set (s1 := mkBusState tasks (snd (fan_out (b_plugins b) e sinks))).
  destruct (IH (bs_sinks s1)) as (s' & Hr & Ht). exists s'. split; [|done].
  assert (bus_run b (mkBusState (e :: tasks) sinks) s1 []) as H1.
  { apply (run_step _ _ (mkBusState (e :: tasks) sinks) _ [] []); [apply run_nil|]. by apply step_task. }
  clear -H1 Hr. change (mkBusState tasks (bs_sinks s1)) with s1 in Hr. remember (@nil EventEnvelope) as l eqn:Hl in Hr.
  induction Hr as [s|s1' s2 s3 l1 l2 Hr IH Hst]; [done|]. apply app_eq_nil in Hl as [-> ->].
  apply (run_step _ _ s2 _ [] []); [by apply IH|done].
Qed.

(** The sinks of the built-in plugins after a sequence of deliveries. *)
Definition sinks_after (backend : list EventPlugin) (dn : list EventEnvelope) (s : Sinks) : Prop :=
  sk_recent s = firstn RECENT_CAPACITY (rev (map envelope_dump dn))
  /\ (In InMemoryEventLogger backend -> sk_memory s = lastn MAX_EVENTS (map ev_event dn))
  /\ (In ConsoleEventLogger backend -> sk_console s = map (fun e => "Event: " +:+ py_dumps (envelope_dump e)) dn).
Lemma built_sinks backend mode types dn :
  let b := build_event_bus backend mode types in
  sinks_after (b_plugins b) dn (fold_left (deliver (b_plugins b)) dn (mkSinks [] [] [])).
Proof.
  intros b. assert (exists l, b_plugins b = l ++ [RecentEventsPlugin] /\
    (l = [ConsoleEventLogger] \/ l = [InMemoryEventLogger; ConsoleEventLogger] \/ l = [InMemoryEventLogger])) as (l & -> & Hl).
  { unfold b, build_event_bus. cbn [b_plugins]. eexists. split; [reflexivity|]. destruct (String.eqb _ _); [by left|].
    destruct (String.eqb _ _); auto. }
  assert (InMemoryEventLogger <> ConsoleEventLogger) as Hmc by (intros Hf; apply (f_equal pl_name) in Hf; discriminate).
  assert (InMemoryEventLogger <> RecentEventsPlugin) as Hmr by (intros Hf; apply (f_equal pl_name) in Hf; discriminate).
  assert (ConsoleEventLogger <> RecentEventsPlugin) as Hcr by (intros Hf; apply (f_equal pl_name) in Hf; discriminate).
  assert (forall dn,
    let s := fold_left (deliver (l ++ [RecentEventsPlugin])) dn (mkSinks [] [] []) in
    sk_recent s = firstn RECENT_CAPACITY (rev (map envelope_dump dn))
    /\ (In InMemoryEventLogger l -> sk_memory s = lastn MAX_EVENTS (map ev_event dn))
    /\ (In ConsoleEventLogger l -> sk_console s = map (fun e => "Event: " +:+ py_dumps (envelope_dump e)) dn)) as Hall.
  { clear dn. intros dn. induction dn as [|e dn IH] using rev_ind; [done|]. cbn zeta in *. rewrite fold_left_app. cbn [fold_left].
    set (s := fold_left _ dn _) in *. destruct IH as (Hr & Hm & Hc).
    assert (sk_recent (deliver (l ++ [RecentEventsPlugin]) s e) = push_event (envelope_dump e) (sk_recent s)
      /\ (In InMemoryEventLogger l -> sk_memory (deliver (l ++ [RecentEventsPlugin]) s e) = push_right MAX_EVENTS (sk_memory s) (ev_event e))
      /\ (In ConsoleEventLogger l -> sk_console (deliver (l ++ [RecentEventsPlugin]) s e)
            = sk_console s ++ ["Event: " +:+ py_dumps (envelope_dump e)])) as (Hr2 & Hm2 & Hc2).
    { destruct Hl as [->|[->| ->]]; split_and! ; try done; intros [Hf|Hf]; try done; by destruct Hf as [Hf|[]]. }
    rewrite !map_app, rev_app_distr. cbn [map rev app]. split_and! .
    - rewrite Hr2, Hr. apply firstn_push.
    - intros Hi. rewrite Hm2, Hm by done. apply lastn_push.
    - intros Hi. by rewrite Hc2, Hc by done. }
  destruct (Hall dn) as (Hr & Hm & Hc). unfold sinks_after. split_and! ; [done| |];
    intros Hi; apply in_app_iff in Hi as [Hi|[Hi|[]]]; auto; by symmetry in Hi.
Qed.

(** C27: however publications and the queued fan-outs interleave, each envelope
    the filter lets through is delivered at most once and in order of
    publication, to every plugin; the in-memory log is the last thousand events
    delivered, the recent feed the last five hundred envelopes, newest first,
    and the queue can always be drained. *)
Theorem bus_delivers backend mode types s l :
  let b := build_event_bus backend mode types in
  bus_run b (mkBusState [] (mkSinks [] [] [])) s l ->
  (exists delivered, List.filter (emitted b) l = delivered ++ bs_tasks s
     /\ sinks_after (b_plugins b) delivered (bs_sinks s))
  /\ exists s', bus_run b s s' [] /\ bs_tasks s' = [].
Proof.
  intros b Hr. split; [|apply bus_drains]. apply bus_run_tasks in Hr as (dn & Ht & Hs). exists dn. split; [done|].
  rewrite Hs. apply built_sinks.
Qed.
End bus.

(** ** Deduplication *)
Lemma insert_size (m : gmap string Z) k v : (size (<[k := v]> m) <= S (size m))%nat.
Proof. rewrite map_size_insert. destruct (m !! k); cbn; lia. Qed.

(** The reference: the time of the last accepted call per key, for ever. *)
Definition spec_record (now : Z) (key : string) (f : gmap string Z) : bool * gmap string Z :=
  match f !! key with
  | Some t => if seen_live now t then (true, f) else (false, <[key := now]> f)
  | None => (false, <[key := now]> f)
  end.
Fixpoint run_records (record : Z -> string -> gmap string Z -> bool * gmap string Z) (calls : list (Z * string))
    (m : gmap string Z) : list bool :=
  match calls with
  | [] => []
  | (now, key) :: calls => let '(r, m) := record now key m in r :: run_records record calls m
  end.
Fixpoint ascending (t : Z) (calls : list (Z * string)) : Prop :=
  match calls with [] => True | (now, _) :: calls => t <= now /\ ascending now calls end.

(** [m] holds what the reference holds, as far as it is still alive. *)
Definition agrees (t : Z) (m f : gmap string Z) : Prop :=
  forall t' k, t <= t' -> live_at seen_live t' (m !! k) = live_at seen_live t' (f !! k).
Lemma seen_live_mono t t' v : t <= t' -> seen_live t' v = true -> seen_live t v = true.
Proof. unfold seen_live. intros Ht Hv. b2p. apply Z.ltb_lt. lia. Qed.
Lemma record_agrees now key t m f : agrees t m f -> t <= now -> (size m < IDEMPOTENCY_MAX_ENTRIES)%nat ->
  let '(r, m') := is_duplicate_and_record now key m in let '(r', f') := spec_record now key f in
  r = r' /\ agrees now m' f' /\ (size m' <= S (size m))%nat.
Proof.
  intros Ha Ht Hs. unfold is_duplicate_and_record. cbn zeta.
  pose proof (sweep_size seen_live now m) as Hsw. destruct (Nat.leb_spec IDEMPOTENCY_MAX_ENTRIES (size (sweep seen_live now m))); [lia|].
  assert (agrees now (sweep seen_live now m) f) as Ha'.
  { intros t' k Ht'. rewrite sweep_lookup, (live_at_twice seen_live seen_live_mono) by done. apply Ha. lia. }
  pose proof (Ha now key Ht) as Hk. rewrite sweep_lookup, Hk. unfold spec_record.
  assert (forall g, agrees now g f -> agrees now (<[key := now]> g) (<[key := now]> f)) as Hins.
  { intros g Hg t' k Ht'. destruct (decide (key = k)) as [->|]; [by rewrite !lookup_insert_eq|]. rewrite !lookup_insert_ne by done. by apply Hg. }
  unfold live_at. destruct (f !! key) as [tf|] eqn:Hf; cbn.
  - pose proof (insert_size (sweep seen_live now m) key now). destruct (seen_live now tf); cbn; split_and! ; auto; lia.
  - pose proof (insert_size (sweep seen_live now m) key now). split_and! ; auto; lia.
Qed.
Lemma records_agree calls t m f : agrees t m f -> ascending t calls ->
  (size m + length calls <= IDEMPOTENCY_MAX_ENTRIES)%nat ->
  run_records is_duplicate_and_record calls m = run_records spec_record calls f.
Proof.
  revert t m f. induction calls as [|[now key] calls IH]; intros t m f Ha Hasc Hs; [done|].
  destruct Hasc as [Ht Hasc]. cbn [run_records length] in *.
  pose proof (record_agrees now key t m f Ha Ht ltac:(lia)) as Hr.
  destruct (is_duplicate_and_record now key m) as [r m'], (spec_record now key f) as [r' f'].
  destruct Hr as (-> & Ha' & Hs'). f_equal. eapply IH; [exact Ha'|exact Hasc|lia].
Qed.

(** as long as fewer keys come in than the store can hold, the pruned store
    answers exactly like a table that remembers for ever when each key was last
    accepted: a key is a duplicate if and only if it was accepted less than
    five minutes ago. *)
Theorem idempotency_equiv calls : ascending 0 calls -> (length calls <= IDEMPOTENCY_MAX_ENTRIES)%nat ->
  run_records is_duplicate_and_record calls ∅ = run_records spec_record calls ∅.
Proof. intros Hasc Hl. apply (records_agree calls 0); [done|done|]. by rewrite map_size_empty. Qed.
Lemma idempotency_equiv_witness :
  run_records is_duplicate_and_record [(0, "a"); (1, "b"); (299 * NS, "a"); (300 * NS, "a"); (301 * NS, "a")] ∅
  = [false; false; true; false; true].
Proof.
  refine (eq_trans (idempotency_equiv [(0, "a"); (1, "b"); (299 * NS, "a"); (300 * NS, "a"); (301 * NS, "a")] _ _) _).
  - vm_compute. repeat split; discriminate.
  - apply Nat.leb_le. vm_compute. reflexivity.
  - vm_compute. reflexivity.
Defined.

(** ** Ingest *)
Section ingest.
Context `{Runtime}.
Context (config : EventsConfig).
Implicit Types (s : IngestState).

(** What an ingest request must show. *)
Definition ingest_authorized (rq : IngestRequest) : Prop :=
  events_public_ingest config = true
  \/ exists expected presented, events_ingest_bearer_token config = Some expected /\ expected <> EmptyString
       /\ extract_bearer (ig_authorization rq) = Some presented /\ latin1_bytes presented = expected.
Lemma refusal_none rq : ingest_refusal config rq = None -> ingest_authorized rq.
Proof.
  unfold ingest_refusal, ingest_authorized. destruct (events_public_ingest config); [by left|].
  destruct (truthy_o (events_ingest_bearer_token config)) eqn:Ht; [|done]. apply truthy_o_true in Ht as (x & Hx & Hne). cbn [negb].
  destruct (extract_bearer _) as [p|]; [|done]. rewrite Hx. cbn. destruct (bearer_matches p x) eqn:Hm; [|done].
  apply String.eqb_eq in Hm. intros _. right. exists x, p. by split_and! .
Qed.
Lemma refusal_status rq r : ingest_refusal config rq = Some r -> r_status r = 401 \/ r_status r = 503.
Proof.
  unfold ingest_refusal. destruct (events_public_ingest config); [done|]. destruct (negb _); [intros [= <-]; by right|].
  destruct (extract_bearer _); [destruct (bearer_matches _ _)|]; try done; intros [= <-]; by left.
Qed.
(** Only the random supply moves when an envelope is read. *)
Lemma envelope_frame v a e a' : envelope_of_json v a = (Ok e, a') -> a_recent a' = a_recent a /\ a_store a' = a_store a /\ a_mono a' = a_mono a.
Proof.
  assert (forall f a x a', factory_id f a = (Ok x, a') -> a_recent a' = a_recent a /\ a_store a' = a_store a /\ a_mono a' = a_mono a) as Hid.
  { intros [|y] b x b'; unfold factory_id; [by intros [= _ <-]|by intros [= _ <-]]. }
  assert (forall f a x a', factory_now f a = (Ok x, a') -> a_recent a' = a_recent a /\ a_store a' = a_store a /\ a_mono a' = a_mono a) as Hnow.
  { intros [|y] b x b'; unfold factory_now; [by intros [= _ <-]|by intros [= _ <-]]. }
  assert (forall v a x a', event_of_json v a = (Ok x, a') -> a_recent a' = a_recent a /\ a_store a' = a_store a /\ a_mono a' = a_mono a) as Hev.
  { intros w b x b'. unfold event_of_json. destruct w; try (by intros [= _ <-]). destruct (mbind _ _) as [[[[[[[[id []] ts] sev] u] c] md] er]|];
      try (by intros [= _ <-]). intros Hr. apply bind_ok in Hr as (i & b1 & H1 & Hr). apply bind_ok in Hr as (t & b2 & H2 & Hr).
    injection Hr as _ <-. apply Hnow in H2 as (-> & -> & ->). by apply Hid in H1 as (-> & -> & ->). }
  unfold envelope_of_json. destruct v; try (by intros [= _ <-]). destruct (obj_get "event" m) as [ev|]; [|by intros [= _ <-]].
  destruct (mbind _ _) as [[[[[[[key tp] ts] cid] prod] at_] attrs]|]; [|by intros [= _ <-]].
  intros Hr. apply bind_ok in Hr as (o & b1 & H1 & Hr). apply Hev in H1 as (<- & <- & <-).
  destruct o as [o|]; [|by injection Hr as _ <-].
  apply bind_ok in Hr as (i & b2 & H2 & Hr). apply bind_ok in Hr as (t & b3 & H3 & Hr). injection Hr as _ <-.
  apply Hnow in H3 as (-> & -> & ->). by apply Hid in H2 as (-> & -> & ->).
Qed.

(** An envelope that got through. *)
Lemma accept_ok b rq e s r s' : accept_envelope b rq e s = (Ok r, s') ->
  let dup := fst (is_duplicate_and_record (a_mono (in_app s)) (idempotency_key rq e) (in_seen s)) in
  r = ingest_status (if dup then "duplicate" else "accepted") (idempotency_key rq e) (ae_id (ev_event e))
  /\ in_tasks s' = in_tasks s ++ (if dup then [] else List.filter (emitted b) [e])
  /\ a_recent (in_app s') = (if dup then a_recent (in_app s) else push_event (envelope_dump e) (a_recent (in_app s)))
  /\ a_store (in_app s') = a_store (in_app s).
Proof.
  unfold accept_envelope, check_duplicate, publish, push_event, emitted. intros Hr. apply bind_ok in Hr as (dup & s1 & Hd & Hr).
  destruct (is_duplicate_and_record _ _ _) as [d seen]. injection Hd as -> <-. cbn [fst]. destruct dup.
  - injection Hr as <- <-. cbn. by rewrite app_nil_r.
  - run_simpl Hr. cbn [on_app push_recent in_app] in Hr. unfold on_app, push_recent in Hr. run_simpl Hr. cbn [List.filter].
    destruct (should_emit _ _); injection Hr as <- <-; cbn; rewrite ?app_nil_r; done.
Qed.

(** ingest takes an event only when ingestion is public or the request
    shows the configured bearer token, eventing is on and the body is a valid
    envelope; a key that was accepted within the last five minutes is answered
    as a duplicate and delivers nothing, another one is queued once if the
    filter emits it; a request that is refused leaves feed, queue and keys
    alone, and no request touches a stored row. *)
Theorem ingest_sound bus rq s r s' : ingest config bus rq s = (Ok r, s') ->
  a_store (in_app s') = a_store (in_app s)
  /\ match r_status r with
     | 202 => ingest_authorized rq /\ exists b body e a,
         bus = Some b /\ ig_json rq = Ok body /\ envelope_of_json body (in_app s) = (Ok (Some e), a)
         /\ let dup := fst (is_duplicate_and_record (a_mono (in_app s)) (idempotency_key rq e) (in_seen s)) in
            r = ingest_status (if dup then "duplicate" else "accepted") (idempotency_key rq e) (ae_id (ev_event e))
            /\ in_tasks s' = in_tasks s ++ (if dup then [] else List.filter (emitted b) [e])
            /\ a_recent (in_app s') = (if dup then a_recent (in_app s) else push_event (envelope_dump e) (a_recent (in_app s)))
     | _ => in_tasks s' = in_tasks s /\ a_recent (in_app s') = a_recent (in_app s) /\ in_seen s' = in_seen s
     end.
Proof.
  unfold ingest. destruct (ingest_refusal config rq) as [x|] eqn:Hf.
  { intros [= <- <-]. split; [done|]. by destruct (refusal_status _ _ Hf) as [-> | ->]. }
  apply refusal_none in Hf. destruct bus as [b|]; [|by intros [= <- <-]].
  destruct (ig_json rq) as [body|e] eqn:Hj; [|destruct (is_value_error e); [by intros [= <- <-]|done]].
  intros Hr. apply bind_ok in Hr as (o & s1 & He & Hr). unfold on_app in He.
  destruct (envelope_of_json body (in_app s)) as [[x|] a] eqn:Hev; [|done]. injection He as -> <-.
  destruct (envelope_frame _ _ _ _ Hev) as (Hrec & Hst & Hm).
  destruct o as [e|]; [|injection Hr as <- <-; by cbn; rewrite Hst].
  apply accept_ok in Hr as (Hr & Ht & Hrc & Hs). cbn [in_app in_seen in_tasks] in *. rewrite Hm, ?Hrec in *.
  split; [congruence|]. rewrite Hr. cbn [r_status ingest_status]. split; [done|]. exists b, body, e, a. by rewrite <- Hr.
Qed.

(** an accepted event that the filter emits shows up twice in the recent
    feed: the handler pushes it, and the bus, whatever its backend, pushes it
    again. *)
Theorem ingest_recorded_twice backend mode types rq s body e a r s' :
  let b := build_event_bus backend mode types in
  ingest config (Some b) rq s = (Ok r, s') -> ig_json rq = Ok body ->
  envelope_of_json body (in_app s) = (Ok (Some e), a) ->
  r = ingest_status "accepted" (idempotency_key rq e) (ae_id (ev_event e)) -> emitted b e = true -> in_tasks s = [] ->
  in_tasks s' = [e]
  /\ forall memory console,
       sk_recent (snd (fan_out (b_plugins b) e (mkSinks memory console (a_recent (in_app s')))))
       = firstn RECENT_CAPACITY (envelope_dump e :: envelope_dump e :: a_recent (in_app s)).
Proof.
  intros b Hr Hj He -> Hem Ht. unfold ingest in Hr. rewrite Hj in Hr.
  destruct (ingest_refusal config rq) as [x|] eqn:Hf.
  { injection Hr as Hx _. destruct (refusal_status _ _ Hf) as [Hs|Hs]; rewrite Hx in Hs; discriminate. }
  unfold sbind at 1, on_app in Hr. rewrite He in Hr. apply accept_ok in Hr as (Hr & Htk & Hrc & _).
  destruct (envelope_frame _ _ _ _ He) as (Hrec & _ & _). cbn [in_app in_tasks in_seen] in *.
  destruct (fst _) eqn:Hdup; [discriminate|]. rewrite Ht in Htk. cbn [app List.filter] in Htk. rewrite Hem in Htk.
  split; [done|]. intros memory console. rewrite fan_out_delivers, Hrc, Hrec. cbn [snd].
  assert (forall l, (l = [ConsoleEventLogger] \/ l = [InMemoryEventLogger; ConsoleEventLogger] \/ l = [InMemoryEventLogger]) ->
    forall rec, sk_recent (deliver (l ++ [RecentEventsPlugin]) (mkSinks memory console rec) e) = push_event (envelope_dump e) rec) as Hdel.
  { by intros l [->|[->| ->]]. }
  unfold b, build_event_bus. cbn [b_plugins]. rewrite Hdel; [apply firstn_push|].
  destruct (String.eqb _ _); [by left|]. destruct (String.eqb _ _); auto.
Qed.
End ingest.

(** ** On a concrete server *)
Definition toy_event : pydict :=
  [("event", JObj [("event_type", JStr "user_login"); ("severity", JStr "INFO"); ("metadata", JObj [("ip", JStr "10.0.0.1")])])].
Definition toy_ingest : IngestRequest := mkIngest (Some "Bearer s3cret") (Some " k-1 ") (Ok (JObj toy_event)).
Definition toy_events_config : EventsConfig := mkEventsConfig false (Some "s3cret").
Definition toy_ingest_state : IngestState := mkIngestState (toy_state false false) [] ∅.
Definition toy_bus : EventBus := build_event_bus " Both " "exclude" ["noise"].
Definition toy_accepted : response := ingest_status "accepted" "k-1" "hex0".

Definition toy_envelope : EventEnvelope :=
  mkEnvelope (mkAuthEvent "e" "user_login" "t" "info" None None [] None) None None None "c" "p" "t" [].
Lemma bus_delivers_witness : exists s,
  bus_run toy_bus (mkBusState [] (mkSinks [] [] [])) s [toy_envelope] /\ bs_tasks s = [toy_envelope]
  /\ exists s', bus_run toy_bus s s' [] /\ bs_tasks s' = [].
Proof.
  set (s0 := mkBusState [] (mkSinks [] [] [])).
  pose proof (run_step toy_bus s0 s0 _ [] [toy_envelope] (run_nil _ _) (step_publish toy_bus s0 toy_envelope)) as Hr.
  exists (publish_best_effort toy_bus toy_envelope s0). split; [exact Hr|]. split; [vm_compute; reflexivity|].
  exact (proj2 (bus_delivers " Both " "exclude" ["noise"] _ _ Hr)).
Defined.
Lemma ingest_sound_witness : exists s',
  ingest toy_events_config (Some toy_bus) toy_ingest toy_ingest_state = (Ok toy_accepted, s')
  /\ ingest_authorized toy_events_config toy_ingest.
Proof.
  eexists. split; [vm_compute; reflexivity|].
  refine (proj1 (proj2 (ingest_sound toy_events_config (Some toy_bus) toy_ingest toy_ingest_state toy_accepted _ _))). vm_compute. reflexivity.
Defined.
Lemma ingest_recorded_twice_witness : exists s' e,
  ingest toy_events_config (Some toy_bus) toy_ingest toy_ingest_state = (Ok toy_accepted, s') /\ in_tasks s' = [e].
Proof.
  eexists _, _. split; [vm_compute; reflexivity|].
  refine (proj1 (ingest_recorded_twice toy_events_config " Both " "exclude" ["noise"] toy_ingest toy_ingest_state (JObj toy_event) _ _ toy_accepted _ _ _ _ _ _ _)).
  - vm_compute. reflexivity.
  - reflexivity.
  - vm_compute. reflexivity.
  - vm_compute. reflexivity.
  - vm_compute. reflexivity.
  - reflexivity.
Defined.
