(* ===== verification/ConformanceProps.v ===== *)
(** * Conformance mode never runs in production, and the seed it applies is the one it read *)
From S2P Require Import Prelude PyStr PyJson Codec Models Storage PyUrl TtlStores Keys Jwt App PyDumps Redirects Conformance ToyJwt.
#[local] Open Scope Z_scope.

(** ** Checks *)
Lemma refuse_ok b m u : refuse b m = Ok u -> b = false.
Proof. by destruct b. Qed.
Lemma each_ok {A} (body : A -> result seed_error unit) l u : each body l = Ok u -> Forall (fun x => exists v, body x = Ok v) l.
Proof.
  induction l as [|x l IH]; cbn; [constructor|]. destruct (body x) as [v|] eqn:Hx; [|done]. intros Hr. constructor; [eauto|auto].
Qed.
Lemma each_refuse {A} (p : A -> bool) (m : A -> string) l u :
  each (fun x => refuse (p x) (m x)) l = Ok u -> Forall (fun x => p x = false) l.
Proof. intros He. eapply Forall_impl; [by apply each_ok in He|]. intros x [v Hv]. by apply refuse_ok in Hv. Qed.

(** One check of a chain that goes through. *)
Ltac passes H E :=
  match type of H with
  | rbind (refuse ?b ?m) _ = Ok _ =>
      destruct (refuse b m) eqn:E; [|discriminate H]; cbn [rbind] in H; apply refuse_ok in E
  | rbind ?r _ = Ok _ => destruct r as [?|] eqn:E; [|discriminate H]; cbn [rbind] in H
  end.

Section conformance.
Context `{JwtLib} `{Runtime}.
Context (cbn_ : string -> bool) (repr : string -> string) (yaml_load : string -> yaml_outcome)
  (read_text : string -> read_outcome) (make_url : string -> option (string * option string))
  (hs256_secret rs256_pem : nat -> string).

(** ** A valid seed *)
Record valid_client (c : SeedClient) : Prop := {
  vc_id : sc_client_id c <> EmptyString;
  vc_secret : if seed_is_public c then sc_client_secret c = None else exists s, sc_client_secret c = Some s /\ s <> EmptyString;
  vc_method : forall m, sc_token_endpoint_auth_method c = Some m ->
    if seed_is_public c then m = "none" else m = "client_secret_basic" \/ m = "client_secret_post";
  vc_uris : sc_redirect_uris c <> [];
  vc_uri : forall u, In u (sc_redirect_uris c) -> exists split, urlsplit cbn_ u = Ok split /\ s_fragment split = EmptyString
    /\ (In (s_scheme split) ["http"; "https"] /\ s_netloc split <> EmptyString \/ py_contains_char "." (s_scheme split) = true);
  vc_grants : forall g, In g (default [] (sc_grant_types c)) -> In g GRANT_TYPES;
  vc_scopes : forall x, In x (default [] (sc_scopes c)) -> py_split x = [x]
}.
Record valid_seed (seed : Seed) : Prop := {
  vs_issuer : exists split, urlsplit cbn_ (s_issuer seed) = Ok split /\ In (s_scheme split) ["http"; "https"]
    /\ s_netloc split <> EmptyString /\ ends_with_char "/" (s_issuer seed) = false;
  vs_some : s_clients seed <> [] /\ s_users seed <> [];
  vs_clients : Forall valid_client (s_clients seed);
  vs_client_ids : List.NoDup (map sc_client_id (s_clients seed));
  vs_users : Forall (fun u => su_username u <> EmptyString /\ su_password u <> EmptyString) (s_users seed);
  vs_usernames : List.NoDup (map su_username (s_users seed));
  vs_keys : Forall (fun k => In (sk_alg k) SUPPORTED_SEED_ALGS /\ sk_use k = "sig" /\ sk_kid k <> EmptyString) (s_signing_keys seed);
  vs_kids : List.NoDup (map sk_kid (s_signing_keys seed));
  vs_approved : forall u c, In u (s_users seed) -> In c (default [] (su_auto_approve_clients u)) -> In c (map sc_client_id (s_clients seed))
}.

Lemma truthy_ne s : negb (truthy s) = false -> s <> EmptyString.
Proof. by destruct s. Qed.
Lemma redirect_valid cid u v : validate_redirect_uri cbn_ repr cid u = Ok v -> exists split, urlsplit cbn_ u = Ok split /\ s_fragment split = EmptyString
    /\ (In (s_scheme split) ["http"; "https"] /\ s_netloc split <> EmptyString \/ py_contains_char "." (s_scheme split) = true).
Proof.
  unfold validate_redirect_uri. intros Hv. destruct (urlsplit cbn_ u) as [split|]; [|done]. cbn [raised rbind] in Hv.
  passes Hv E. apply refuse_ok in Hv. exists split. split_and! ; [done|by destruct (s_fragment split)|].
  apply negb_false_iff, orb_prop in E as [E|E].
  - left. apply andb_prop in E as [E1 E2]. split; [by apply mem_str_In|]. intros He. by rewrite He in E2.
  - right. by apply andb_prop in E as [[E _]%andb_prop _].
Qed.
Lemma client_valid c v : sc_client_id c <> EmptyString -> validate_client cbn_ repr c = Ok v -> valid_client c.
Proof.
  intros Hid. unfold validate_client. intros Hv. passes Hv E1. passes Hv E2. passes Hv E3.
  assert ((if seed_is_public c then sc_client_secret c = None else exists s, sc_client_secret c = Some s /\ s <> EmptyString)
    /\ forall m, sc_token_endpoint_auth_method c = Some m ->
      if seed_is_public c then m = "none" else m = "client_secret_basic" \/ m = "client_secret_post") as [Hs Hm].
  { destruct (seed_is_public c) eqn:Hp; passes Hv E4.
    - passes E4 E5. apply refuse_ok in E4. apply bool_decide_eq_false in E5. split; [by apply eq_None_not_Some|].
      intros m Hm. rewrite Hm in E4. cbn in E4. by apply negb_false_iff, String.eqb_eq in E4.
    - apply bool_decide_eq_false in E4, E3. split.
      + destruct (sc_client_secret c) as [s|]; [|done]. exists s. split; [done|]. by intros ->.
      + intros m Hm. rewrite Hm in E2. cbn [from_option_b] in E2. apply negb_false_iff, mem_str_In in E2.
        destruct E2 as [<-|[<-|[<-|[]]]]; [|by left|by right]. exfalso. unfold seed_is_public in Hp. rewrite Hm in Hp.
        by rewrite (bool_decide_eq_true_2 (Some "none" = Some "none")), orb_true_r in Hp. }
  passes Hv E4. passes Hv E5. passes Hv E6. passes Hv E7. apply each_refuse in E7, Hv.
  constructor; try done.
  - by apply bool_decide_eq_false in E5.
  - intros u Hu. apply each_ok in E6. rewrite Forall_forall in E6. destruct (E6 u) as [w Hw]; [by apply list_elem_of_In|]. by eapply redirect_valid.
  - intros g Hg. rewrite Forall_forall in Hv. apply mem_str_In, negb_false_iff, Hv. by apply list_elem_of_In.
  - intros x Hx. rewrite Forall_forall in E7. specialize (E7 x). apply list_elem_of_In in Hx. apply E7, negb_false_iff in Hx.
    by apply bool_decide_eq_true in Hx.
Qed.

(** The loops with a set of the names seen: what passes is distinct and new. *)
Definition fresh_ids (seen ids : list string) : Prop := List.NoDup ids /\ forall i, In i ids -> ~ In i seen.
Lemma fresh_cons seen i ids : mem_str i seen = false -> fresh_ids (i :: seen) ids -> fresh_ids seen (i :: ids).
Proof.
  intros Hi [Hn Hf]. split.
  - constructor; [|done]. intros Hin. apply (Hf i Hin). by left.
  - intros j [<-|Hj]; [|intros Hin; apply (Hf j Hj); by right]. intros Hin. apply mem_str_In in Hin. by rewrite Hin in Hi.
Qed.
Lemma nonempty_ok w v u : nonempty w v = Ok u -> v <> EmptyString.
Proof. intros Hn. by apply refuse_ok, truthy_ne in Hn. Qed.
Lemma keys_valid keys : forall kids v, validate_keys repr kids keys = Ok v ->
  Forall (fun k => In (sk_alg k) SUPPORTED_SEED_ALGS /\ sk_use k = "sig" /\ sk_kid k <> EmptyString) keys
  /\ fresh_ids kids (map sk_kid keys).
Proof.
  induction keys as [|k keys IH]; intros kids v Hv; [by split; [|split; [constructor|]]|]. cbn [validate_keys] in Hv.
  passes Hv E1. passes Hv E2. passes Hv E3. apply IH in Hv as [Hf Hi]. split; [|by apply fresh_cons].
  constructor; [|done]. unfold validate_signing_key in E3. passes E3 E4. passes E3 E5. apply refuse_ok, negb_false_iff, mem_str_In in E3.
  apply negb_false_iff, String.eqb_eq in E4. apply nonempty_ok in E1. done.
Qed.
Lemma clients_valid clients : forall ids v, validate_clients cbn_ repr ids clients = Ok v ->
  Forall valid_client clients /\ fresh_ids ids (map sc_client_id clients).
Proof.
  induction clients as [|c clients IH]; intros ids v Hv; [by split; [|split; [constructor|]]|]. cbn [validate_clients] in Hv.
  passes Hv E1. passes Hv E2. passes Hv E3. apply IH in Hv as [Hf Hi]. apply nonempty_ok in E1. apply client_valid in E3; [|done].
  split; [by constructor|by apply fresh_cons].
Qed.
Lemma users_valid client_ids users : forall names v, validate_users repr client_ids names users = Ok v ->
  Forall (fun u => (su_username u <> EmptyString /\ su_password u <> EmptyString)
    /\ forall c, In c (default [] (su_auto_approve_clients u)) -> In c client_ids) users
  /\ fresh_ids names (map su_username users).
Proof.
  induction users as [|u users IH]; intros names v Hv; [by split; [|split; [constructor|]]|]. cbn [validate_users] in Hv.
  passes Hv E1. passes Hv E2. passes Hv E3. passes Hv E4. apply IH in Hv as [Hf Hi]. apply nonempty_ok in E1, E2.
  split; [|by apply fresh_cons]. constructor; [|done]. split; [done|]. intros c Hc. unfold validate_user in E4. passes E4 E5.
  apply each_refuse in E4. rewrite Forall_forall in E4. specialize (E4 c). apply list_elem_of_In in Hc.
  by apply E4, negb_false_iff, mem_str_In in Hc.
Qed.
Lemma seed_valid seed v : validate_seed cbn_ repr seed = Ok v -> valid_seed seed.
Proof.
  unfold validate_seed. intros Hv. destruct (urlsplit cbn_ (s_issuer seed)) as [split|] eqn:Hs; [|done]. cbn [raised rbind] in Hv.
  passes Hv E1. passes Hv E2. passes Hv E3. passes Hv E4. passes Hv E5. passes Hv E6. passes Hv E7.
  apply keys_valid in E6 as [Hk [Hkn _]]. apply clients_valid in E7 as [Hc [Hcn _]]. apply users_valid in Hv as [Hu [Hun _]].
  apply bool_decide_eq_false in E4, E5. apply negb_false_iff, mem_str_In in E1. apply truthy_ne in E2.
  constructor; try done; [by exists split| |].
  - eapply Forall_impl; [exact Hu|]. by intros x [? _].
  - intros u c Hin. rewrite Forall_forall in Hu. apply list_elem_of_In in Hin. by apply (Hu u Hin).
Qed.
Lemma parsed_valid text seed : parse_seed cbn_ repr yaml_load text = Ok seed -> valid_seed seed.
Proof.
  unfold parse_seed. intros Hp. destruct (load_document repr yaml_load text) as [raw|]; [|done]. cbn [rbind] in Hp.
  destruct raw; try done. passes Hp E2. passes Hp E3. injection Hp as <-. by eapply seed_valid.
Qed.

Lemma py_lower_nil v : py_lower v = EmptyString -> v = EmptyString.
Proof. by destruct v. Qed.
Lemma profile_ok v : negb (profile_allowed v) = false ->
  py_strip v = EmptyString \/ In (py_lower (py_strip v)) NON_PRODUCTION_ENV_NAMES.
Proof.
  unfold profile_allowed. intros [Hn|Hm]%negb_false_iff%orb_prop; [left|right; by apply mem_str_In].
  apply py_lower_nil. apply negb_true_iff in Hn. by destruct (py_lower _).
Qed.
Lemma guard_ok env database_url pem u : check_not_production repr make_url env database_url pem = Ok u ->
  (forall var v, In var PROFILE_ENV_VARS -> env !! var = Some v ->
     py_strip v = EmptyString \/ In (py_lower (py_strip v)) NON_PRODUCTION_ENV_NAMES)
  /\ (exists d, make_url database_url = Some ("sqlite", d) /\ (d = None \/ d = Some EmptyString \/ d = Some ":memory:"))
  /\ (pem = None \/ pem = Some EmptyString).
Proof.
  unfold check_not_production. intros Hg. passes Hg E1. passes Hg E2. apply refuse_ok in Hg. split_and! .
  - intros var v Hv Hl. apply each_refuse in E1. rewrite Forall_forall in E1. apply list_elem_of_In in Hv. specialize (E1 var Hv).
    cbv beta in E1. rewrite Hl in E1. by apply profile_ok.
  - apply negb_false_iff in E2. unfold is_in_memory_sqlite in E2. destruct (make_url _) as [[b d]|]; [|done].
    apply andb_prop in E2 as [Hb%String.eqb_eq Hd]. subst b. exists d. split; [done|]. destruct d as [d|]; [right|by left].
    apply mem_str_In in Hd as [<-|[<-|[]]]; [by left|by right].
  - destruct pem as [[|]|]; try done; [by right|by left].
Qed.

Lemma conformance_off env database_url pem : seed_from_env cbn_ repr yaml_load read_text make_url env database_url pem = Ok None ->
  In (py_lower (py_strip (default EmptyString (env !! MODE_ENV)))) [EmptyString; "0"; "false"].
Proof.
  unfold seed_from_env. intros Hs. destruct (mode_from_env repr env) as [[path|]|] eqn:E1; cbn [rbind] in Hs; [passes Hs E2; by passes Hs E3| |done].
  clear Hs. unfold mode_from_env in E1.
  destruct (mem_str _ [EmptyString; "0"; "false"]) eqn:Hoff; [by apply mem_str_In|].
  destruct (negb _); [done|]. by destruct (truthy _).
Qed.
(** conformance mode is fail-closed: a start either has the mode off, or
    has a seed that satisfies every rule of the seed format, every profile
    variable that is set naming a known non-production environment, an
    in-memory SQLite database and no configured signing key. *)
Theorem conformance_guarded env database_url pem o :
  seed_from_env cbn_ repr yaml_load read_text make_url env database_url pem = Ok o ->
  let mode := py_lower (py_strip (default EmptyString (env !! MODE_ENV))) in
  match o with
  | None => In mode [EmptyString; "0"; "false"]
  | Some seed => In mode ["1"; "true"] /\ valid_seed seed
      /\ (forall var v, In var PROFILE_ENV_VARS -> env !! var = Some v ->
            py_strip v = EmptyString \/ In (py_lower (py_strip v)) NON_PRODUCTION_ENV_NAMES)
      /\ (exists d, make_url database_url = Some ("sqlite", d) /\ (d = None \/ d = Some EmptyString \/ d = Some ":memory:"))
      /\ (pem = None \/ pem = Some EmptyString)
  end.
Proof.
  unfold seed_from_env. intros Hs. passes Hs E1. unfold mode_from_env in E1.
  destruct (mem_str _ [EmptyString; "0"; "false"]) eqn:Hoff.
  { injection E1 as <-. injection Hs as <-. by apply mem_str_In. }
  destruct (mem_str _ ["1"; "true"]) eqn:Hon; [|done]. cbn [negb] in E1.
  destruct (truthy _); [|done]. injection E1 as <-. passes Hs E2. passes Hs E3. injection Hs as <-.
  apply guard_ok in E2 as (Hp & Hm & Hk). split_and! ; [by apply mem_str_In| |done..].
  unfold load_seed in E3. destruct (read_text _) as [text| |]; try done.
  destruct (parse_seed _ _ _ text) as [sd|[]] eqn:Hps; try done. injection E3 as <-. by apply parsed_valid in Hps.
Qed.

(** ** Applying *)
Notation named := (negb ∘ String.eqb).
(** The rows a seed stands for, with identifiers from the [n]-th draw on. *)
Fixpoint client_rows (now : Z) (n : nat) (cs : list SeedClient) : list Client :=
  match cs with [] => [] | c :: cs => seed_client_row now (uuid4_hex n) c :: client_rows now (S n) cs end.
Definition user_row (now : Z) (n : nat) (u : SeedUser) : User :=
  mkUser (uuid4_hex n) (su_username u) (argon2_hash (S n) (su_password u))
    (or_else (su_email u) (su_username u +:+ "@conformance.invalid")) true "user" now now.
Fixpoint user_rows (now : Z) (n : nat) (us : list SeedUser) : list User :=
  match us with [] => [] | u :: us => user_row now n u :: user_rows now (S (S n)) us end.
Fixpoint keys_of (now : Z) (n : nat) (ks : list SeedSigningKey) : list SigningKey :=
  match ks with
  | [] => []
  | k :: ks => mkKey (sk_kid k) (sk_alg k) (if String.eqb (sk_alg k) "HS256" then hs256_secret n else rs256_pem n) true now None
               :: keys_of now (S n) ks
  end.
Notation at_ s n st := (with_draws (with_store s st) n).
(** No stored identifier is one that is still to be drawn. *)
Definition undrawn (ids : list string) (n : nat) : Prop := forall m, (n <= m)%nat -> ~ In (uuid4_hex m) ids.
Hypothesis uuid_inj : forall m n, uuid4_hex m = uuid4_hex n -> m = n.

Lemma undrawn_app ids n : undrawn ids n -> undrawn (ids ++ [uuid4_hex n]) (S n).
Proof.
  intros Hu m Hm Hin. apply in_app_iff in Hin as [Hin|[Hin|[]]]; [apply (Hu m); [lia|done]|].
  apply uuid_inj in Hin. lia.
Qed.
Lemma undrawn_le ids m n : undrawn ids m -> (m <= n)%nat -> undrawn ids n.
Proof. intros Hu Hm k Hk. apply Hu. lia. Qed.
Lemma existsb_neq {A} (f g : A -> string) l x y :
  ~ In x (map f l) -> ~ In y (map g l) -> existsb (fun r => String.eqb (f r) x || String.eqb (g r) y) l = false.
Proof.
  intros Hx Hy. apply not_true_is_false. intros Hex. apply existsb_exists in Hex as (r & Hr & Hb).
  apply orb_prop in Hb as [Hb%String.eqb_eq|Hb%String.eqb_eq]; [apply Hx|apply Hy]; rewrite <- Hb; by apply in_map.
Qed.
Lemma find_neq {A} (f : A -> string) l x : ~ In x (map f l) -> List.find (fun r => String.eqb (f r) x) l = None.
Proof.
  intros Hx. destruct (List.find _ l) as [r|] eqn:Hf; [|done]. apply find_In in Hf as [Hr Hb%String.eqb_eq].
  exfalso. apply Hx. rewrite <- Hb. by apply in_map.
Qed.
Lemma keys_generated now specs : forall s, Forall (fun k => In (sk_alg k) SUPPORTED_SEED_ALGS) specs ->
  generate_keys hs256_secret rs256_pem now specs s
  = (Ok (keys_of now (a_draws s) specs), with_draws s (a_draws s + length specs)).
Proof.
  induction specs as [|k specs IH]; intros s Ha; [by destruct s; rewrite Nat.add_0_r|]. inversion Ha as [|? ? Hk Hr]; subst.
  cbn [generate_keys]. unfold sbind at 1. unfold run_m at 1, draw at 1. cbn [raised].
  unfold sbind at 1. unfold run_m at 1, slift, generate_signing_key.
  assert (In (sk_alg k) ["HS256"; "RS256"]) as [He|[He|[]]] by done; rewrite <- He; cbn [String.eqb Ascii.eqb Bool.eqb raised];
    unfold sbind; rewrite IH by done; cbn [keys_of]; rewrite <- He; cbn; by rewrite Nat.add_succ_r.
Qed.
Lemma on_clients_app l l' st : on_clients (fun c => c ++ l') (on_clients (fun c => c ++ l) st) = on_clients (fun c => c ++ l ++ l') st.
Proof. unfold on_clients. cbn. by rewrite <- app_assoc. Qed.
Lemma on_users_app l l' st : on_users (fun c => c ++ l') (on_users (fun c => c ++ l) st) = on_users (fun c => c ++ l ++ l') st.
Proof. unfold on_users. cbn. by rewrite <- app_assoc. Qed.
Lemma clients_applied now cs : forall s,
  undrawn (map c_id (clients (a_store s))) (a_draws s) -> List.NoDup (map sc_client_id cs) ->
  (forall c, In c cs -> ~ In (sc_client_id c) (map c_client_id (clients (a_store s)))) ->
  each_m (apply_client repr now) cs s
  = (Ok tt, at_ s (a_draws s + length cs) (on_clients (fun l => l ++ client_rows now (a_draws s) cs) (a_store s))).
Proof.
  induction cs as [|c cs IH]; intros s Hu Hn Hc.
  { cbn. rewrite Nat.add_0_r. unfold on_clients. rewrite app_nil_r. by destruct s as [[]]. }
  cbn [each_m]. inversion Hn as [|? ? Hnc Hncs]; subst. unfold sbind at 1. unfold apply_client, sbind at 1. cbn [run_m query sget].
  unfold run_m at 1, query, sget, get_client. rewrite find_neq by (apply Hc; by left). cbn [raised].
  unfold sbind at 1. unfold run_m at 1, draw. cbn [raised]. unfold run_m at 1, insert, save_client. cbn [a_store with_draws].
  rewrite existsb_neq; [|by apply Hu|apply Hc; by left]. cbn [raised].
  rewrite IH; cbn [a_store a_draws with_store with_draws on_clients clients client_rows length]; [| |done|].
  - rewrite on_clients_app. cbn [app]. by rewrite Nat.add_succ_r.
  - rewrite map_app. cbn [map]. by apply undrawn_app.
  - intros c' Hc'. rewrite map_app, in_app_iff. intros [Hin|[Hin|[]]]; [apply (Hc c'); [by right|done]|].
    apply Hnc. cbn in Hin. rewrite Hin. by apply in_map.
Qed.
Lemma users_applied us : forall s,
  undrawn (map u_id (users (a_store s))) (a_draws s) -> List.NoDup (map su_username us) ->
  (forall u, In u us -> ~ In (su_username u) (map u_username (users (a_store s)))) ->
  each_m (apply_user repr) us s
  = (Ok tt, at_ s (a_draws s + 2 * length us) (on_users (fun l => l ++ user_rows (a_wall s) (a_draws s) us) (a_store s))).
Proof.
  induction us as [|u us IH]; intros s Hu Hn Hc.
  { cbn. rewrite Nat.add_0_r. unfold on_users. rewrite app_nil_r. by destruct s as [[]]. }
  cbn [each_m]. inversion Hn as [|? ? Hnc Hncs]; subst. unfold sbind at 1. unfold apply_user, sbind at 1.
  unfold run_m at 1, query, sget, get_user_by_username. rewrite find_neq by (apply Hc; by left). cbn [raised].
  unfold sbind at 1. unfold run_m at 1, draw. cbn [raised]. unfold sbind at 1. unfold run_m at 1. cbn [raised].
  unfold sbind at 1. unfold run_m at 1. cbn [raised]. unfold run_m at 1, insert, save_user. cbn [a_store with_draws u_id u_username].
  rewrite existsb_neq; [|by apply Hu|apply Hc; by left]. cbn [raised].
  rewrite IH; cbn [a_store a_draws a_wall with_store with_draws on_users users user_rows length]; [| |done|].
  - rewrite on_users_app. cbn [app]. replace (a_draws s + 2 * S (length us))%nat with (S (S (a_draws s)) + 2 * length us)%nat by lia.
    by destruct s.
  - rewrite map_app. cbn [map u_id]. apply (undrawn_le _ (S (a_draws s))); [by apply undrawn_app|lia].
  - intros c' Hc'. rewrite map_app, in_app_iff. intros [Hin|[Hin|[]]]; [apply (Hc c'); [by right|done]|].
    apply Hnc. cbn in Hin. rewrite Hin. by apply in_map.
Qed.

(** The key the algorithm is left with: the last one seeded. *)
Definition last_key (alg : string) (keys : list SigningKey) : option SigningKey :=
  List.find (fun k => String.eqb (k_algorithm k) alg) (rev keys).
Lemma keys_of_current now specs : forall n k, In k (keys_of now n specs) -> k_is_current k = true /\ k_expires_at k = None.
Proof. induction specs as [|sp specs IH]; intros n k; [done|]. intros [<-|Hk]; [done|by eapply IH]. Qed.
Lemma keys_rotated keys : forall s, each_m (fun key => run_m (smod (fun s => with_keyset s (rotate (a_wall s) key 0 (a_keyset s))))) keys s
  = (Ok tt, with_keyset s (fold_left (fun ks k => rotate (a_wall s) k 0 ks) keys (a_keyset s))).
Proof.
  induction keys as [|k keys IH]; intros s; [by destruct s|]. cbn [each_m fold_left]. unfold sbind, run_m at 1, smod at 1. cbn [raised].
  by rewrite IH.
Qed.
Lemma rotated_current now now' alg keys ks : (forall k, In k keys -> k_is_current k = true /\ k_expires_at k = None) ->
  current_for_alg now' alg (fold_left (fun ks k => rotate now k 0 ks) keys ks)
  = match last_key alg keys with Some k => Some k | None => current_for_alg now' alg ks end.
Proof.
  unfold last_key. induction keys as [|k keys IH] using rev_ind; intros Hk; [done|].
  rewrite fold_left_app, rev_app_distr. cbn [fold_left rev app List.find].
  destruct (Hk k) as [Hc He]; [apply in_or_app; right; by left|].
  destruct (rotate_single_current now now' k 0 (fold_left (fun ks k => rotate now k 0 ks) keys ks) Hc He) as (_ & Hcur & Hoth).
  destruct (String.eqb_spec (k_algorithm k) alg) as [<-|Hne]; [done|]. rewrite Hoth by done. apply IH.
  intros k' Hk'. apply Hk, in_or_app. by left.
Qed.

(** a valid seed is applied completely and exactly: the tables gain the
    row of every seeded client and user, in order and with fresh identifiers,
    each password as a hash; every algorithm that has seeded keys is left with
    the last of them as its current key, at any later time, the others keep
    theirs; nothing else changes. *)
Theorem seed_applied seed s : valid_seed seed ->
  undrawn (map c_id (clients (a_store s))) (a_draws s) -> undrawn (map u_id (users (a_store s))) (a_draws s) ->
  (forall c, In c (s_clients seed) -> ~ In (sc_client_id c) (map c_client_id (clients (a_store s)))) ->
  (forall u, In u (s_users seed) -> ~ In (su_username u) (map u_username (users (a_store s)))) ->
  let n := (a_draws s + length (s_signing_keys seed))%nat in
  let m := (n + length (s_clients seed))%nat in
  let keys := keys_of (a_wall s) (a_draws s) (s_signing_keys seed) in
  exists ks,
    apply_seed repr hs256_secret rs256_pem seed s
    = (Ok (mkApplied (length (s_clients seed)) (length (s_users seed)) keys),
       with_keyset (at_ s (m + 2 * length (s_users seed))%nat
         (on_users (fun l => l ++ user_rows (a_wall s) m (s_users seed))
           (on_clients (fun l => l ++ client_rows (a_wall s) n (s_clients seed)) (a_store s)))) ks)
    /\ (forall now' alg, current_for_alg now' alg ks
         = match last_key alg keys with Some k => Some k | None => current_for_alg now' alg (a_keyset s) end).
Proof.
  intros Hv Hc Hu Hcn Hun n m keys. exists (fold_left (fun ks k => rotate (a_wall s) k 0 ks) keys (a_keyset s)). split.
  - unfold apply_seed, sbind at 1. unfold run_m at 1, sget at 1. cbn [raised]. unfold sbind at 1. rewrite keys_generated.
    2: { eapply Forall_impl; [apply (vs_keys _ Hv)|]. by intros k (? & _). }
    unfold sbind at 1. rewrite clients_applied; [| |apply (vs_client_ids _ Hv)|exact Hcn].
    2: { eapply undrawn_le; [exact Hc|cbn; lia]. }
    unfold sbind at 1. rewrite users_applied; [| |apply (vs_usernames _ Hv)|exact Hun].
    2: { eapply undrawn_le; [exact Hu|cbn; lia]. }
    unfold sbind at 1. rewrite keys_rotated. by destruct s.
  - intros now' alg. apply rotated_current. intros k Hk. by eapply keys_of_current.
Qed.
End conformance.

(** ** Concrete inputs *)
Definition toy_document : json := JObj
  [("issuer", JStr "http://localhost:8080");
   ("signingKeys", JList [JObj [("kid", JStr "old"); ("alg", JStr "HS256")]; JObj [("kid", JStr "new"); ("alg", JStr "HS256")]]);
   ("clients", JList [JObj [("client_id", JStr "conf"); ("public", JBool true); ("redirect_uris", jstrs ["https://app.example/cb"])]]);
   ("users", JList [JObj [("username", JStr "tester"); ("password", JStr "pw"); ("auto_approve_clients", jstrs ["conf"])]])].
Definition toy_load (text : string) : yaml_outcome := YAMLError text.
Definition toy_read (path : string) : read_outcome := Text (py_dumps toy_document).
Definition toy_make_url (url : string) : option (string * option string) := Some ("sqlite", None).
Definition toy_env (profile : string) : gmap string string :=
  {[ MODE_ENV := "1"; SEED_ENV := "/seed.json"; "APP_ENV" := profile ]}.
Definition toy_hs (n : nat) : string := "secret".
Definition toy_seed : Seed := mkSeed "http://localhost:8080" [mkSeedKey "old" "HS256" "sig"; mkSeedKey "new" "HS256" "sig"]
  [mkSeedClient "conf" ["https://app.example/cb"] None None None (Some true) None None]
  [mkSeedUser "tester" "pw" None None (Some ["conf"])].

Lemma conformance_guarded_witness :
  seed_from_env toy_brackets id toy_load toy_read toy_make_url (toy_env "CI ") "sqlite+aiosqlite://" None = Ok (Some toy_seed)
  /\ In (s_issuer toy_seed) ["http://localhost:8080"]
  /\ exists d, toy_make_url "sqlite+aiosqlite://" = Some ("sqlite", d) /\ (d = None \/ d = Some EmptyString \/ d = Some ":memory:").
Proof.
  assert (seed_from_env toy_brackets id toy_load toy_read toy_make_url (toy_env "CI ") "sqlite+aiosqlite://" None = Ok (Some toy_seed))
    as Hs by (vm_compute; reflexivity).
  pose proof (conformance_guarded _ _ _ _ _ _ _ _ _ Hs) as (_ & _ & _ & Hd & _).
  split; [exact Hs|]. split; [by left|exact Hd].
Defined.
Lemma toy_uuid_inj m n : uuid4_hex m = uuid4_hex n -> m = n.
Proof. intros He. apply (inj (String.append "hex")), (inj (pretty.pretty (A:=Z))) in He. by apply Nat2Z.inj. Qed.
Lemma toy_undrawn ids n : Forall (fun i => py_startswith "hex" i = false) ids -> undrawn ids n.
Proof. intros Hi m _ Hin. rewrite Forall_forall in Hi. apply list_elem_of_In in Hin. by apply Hi in Hin. Qed.
Lemma toy_seed_valid : valid_seed toy_brackets toy_seed.
Proof.
  apply (parsed_valid toy_brackets id toy_load (py_dumps toy_document)). vm_compute. reflexivity.
Qed.
Lemma seed_applied_witness : exists ks s',
  apply_seed id toy_hs toy_hs toy_seed (toy_state false false) = (Ok (mkApplied 1 1 (keys_of toy_hs toy_hs (100 * SECOND) 0 (s_signing_keys toy_seed))), s')
  /\ a_keyset s' = ks
  /\ option_map k_kid (current_for_alg (200 * SECOND) "HS256" ks) = Some "new".
Proof.
  destruct (seed_applied toy_brackets id toy_hs toy_hs toy_uuid_inj toy_seed (toy_state false false) toy_seed_valid
    ltac:(apply toy_undrawn; repeat constructor) ltac:(apply toy_undrawn; repeat constructor)
    ltac:(intros c [<-|[]] Hin; repeat destruct Hin as [Hin|Hin]; done)
    ltac:(intros u [<-|[]] Hin; repeat destruct Hin as [Hin|Hin]; done)) as (ks & Ha & Hk).
  exists ks. eexists. split; [exact Ha|]. split; [reflexivity|]. rewrite Hk. reflexivity.
Defined.

(** A production name in any profile variable refuses the start. *)
Example production_refused : exists m,
  seed_from_env toy_brackets id toy_load toy_read toy_make_url (toy_env "production") "sqlite+aiosqlite://" None = Err (ConformanceError m).
Proof. eexists. vm_compute. reflexivity. Qed.

(** Of two seeded keys of one algorithm the first is retired as it is applied,
    yet the readiness payload reports both. *)
Lemma seeded_key_not_published : exists a s',
  apply_seed id toy_hs toy_hs toy_seed (toy_state false false) = (Ok a, s')
  /\ obj_get "signing_key_ids" (readiness a) = Some (jstrs ["old"; "new"])
  /\ map k_kid (active_keys (a_wall s') (a_keyset s')) = ["new"].
Proof.
  eexists _, _. split; [vm_compute; reflexivity|]. split; vm_compute; reflexivity.
Qed.

(** [issuer: null] has the key but no value, and ends in the [assert]. *)
Example null_issuer_asserts : parse_seed toy_brackets id toy_load
  (py_dumps (JObj [("issuer", JNull); ("clients", JList []); ("users", JList [])])) = Err AssertionError.
Proof. vm_compute. reflexivity. Qed.
Example duplicate_key_refused :
  load_document id toy_load ("{" +:+ dump_str "a" +:+ ":1," +:+ dump_str "a" +:+ ":2}") = Err (ConformanceError "duplicate key a").
Proof. vm_compute. reflexivity. Qed.
