(* ===== verification/ReportGate.v ===== *)
(** * The gate over a contract-runner report
    ([scripts/check_conformance_report.py])

    The whole script: the validation of [conformance.yaml], the comparison of
    a report with it and the exit status.  A loaded document is a [json]
    value ([yaml.safe_load] of dates, sets, bytes or keys that are no strings
    is outside the range of the parameter); reading a file and loading YAML
    are parameters.  The problems carry the values their messages quote.  An
    exception that [main] does not catch ends the interpreter with status 1. *)
From S2P Require Import Prelude PyStr PyJson Codec PyInt JwksUri Models PyDumps Conformance ToyJwt.
#[local] Open Scope Z_scope.

(** ** Python values *)
(** A number as [m * 10^e]; [bool] is a subclass of [int]. *)
Definition number_of (v : json) : option (Z * Z) :=
  match v with
  | JBool b => Some (if b then 1 else 0, 0)
  | JInt n => Some (n, 0)
  | JFloat m e => Some (m, e)
  | _ => None
  end.
Definition scaled (a b : Z * Z) : Z := fst a * 10 ^ (snd a - Z.min (snd a) (snd b)).
Definition num_eqb (a b : Z * Z) : bool := scaled a b =? scaled b a.
Definition num_ltb (a b : Z * Z) : bool := scaled a b <? scaled b a.

(** [a == b]; the order of the keys of a dict does not count. *)
Fixpoint py_eqb (a b : json) : bool :=
  match a, b with
  | JNull, JNull => true
  | JNonFinite PosInfinity, JNonFinite PosInfinity => true
  | JNonFinite NegInfinity, JNonFinite NegInfinity => true
  | JStr x, JStr y => String.eqb x y
  | JList l, JList l' =>
      (fix go l l' := match l, l' with
                      | [], [] => true
                      | x :: r, y :: r' => py_eqb x y && go r r'
                      | _, _ => false
                      end) l l'
  | JObj m, JObj m' =>
      (length m =? length m')%nat
      && (fix go l := match l with
                      | [] => true
                      | (k, x) :: r => match obj_get k m' with Some y => py_eqb x y | None => false end && go r
                      end) m
  | _, _ => match number_of a, number_of b with Some x, Some y => num_eqb x y | _, _ => false end
  end.

(** The exceptions, and the reasons of a [GateError]. *)
Inductive gate_error :=
| NotAMapping | MissingKey (key : string) | BadContract | BadProfiles
| DeviationNotAMapping | BadRequirement (requirement : json) | BadReason (requirement : string)
| ReportNotAnObject.
Inductive gate_exn :=
| GateError (why : gate_error)
| OSError | UnicodeDecodeError
| YamlError | YamlRaised
| JsonRaised (e : jerr)
| AttributeError | TypeError | KeyError (key : string).
Notation gated A := (result gate_exn A).

(** [m.get(k)], [m.get(k) or []], [m[k]] *)
Definition dget (k : string) (m : pydict) : json := default JNull (obj_get k m).
Definition get_or_empty (k : string) (m : pydict) : json := if json_truthy (dget k m) then dget k m else JList [].
Definition subscript (k : string) (m : pydict) : gated json :=
  match obj_get k m with Some v => Ok v | None => Err (KeyError k) end.
Definition is_string (s : string) (v : json) : bool := py_eqb v (JStr s).

(** [iter(v)]: the elements, the characters or the keys. *)
Definition py_iter (v : json) : gated (list json) :=
  match v with
  | JList l => Ok l
  | JStr s => Ok (map (fun n => JStr (utf8_encode n)) (points 0 s))
  | JObj m => Ok (map (fun kv => JStr (fst kv)) m)
  | _ => Err TypeError
  end.
Definition hashable (v : json) : bool := match v with JList _ | JObj _ => false | _ => true end.
Definition py_mem (x : json) (l : list json) : bool := existsb (py_eqb x) l.
(** [set(l)], in the order of the first occurrences. *)
Fixpoint dedup (seen l : list json) : list json :=
  match l with [] => seen | x :: l => dedup (if py_mem x seen then seen else seen ++ [x]) l end.
Definition py_set (l : list json) : gated (list json) :=
  if forallb hashable l then Ok (dedup [] l) else Err TypeError.
(** [x in v] *)
Definition in_container (x v : json) : gated bool :=
  match v with
  | JList l => Ok (py_mem x l)
  | JStr s => match x with JStr n => Ok (py_contains n s) | _ => Err TypeError end
  | JObj m => if hashable x then Ok (py_mem x (map (fun kv => JStr (fst kv)) m)) else Err TypeError
  | _ => Err TypeError
  end.
(** [sorted] of hashable values: strings, or numbers, and a mixture raises. *)
Definition py_leb (a b : json) : bool :=
  match a, b with
  | JStr x, JStr y => String.leb x y
  | _, _ => match number_of a, number_of b with Some x, Some y => negb (num_ltb y x) | _, _ => true end
  end.
Fixpoint insert_value (x : json) (l : list json) : list json :=
  match l with [] => [x] | y :: r => if py_leb x y then x :: l else y :: insert_value x r end.
Definition same_kind (a b : json) : bool :=
  match a, b with
  | JStr _, JStr _ | JNull, JNull => true
  | (JBool _ | JInt _ | JFloat _ _ | JNonFinite _), (JBool _ | JInt _ | JFloat _ _ | JNonFinite _) => true
  | _, _ => false
  end.
Definition sorted_values (l : list json) : gated (list json) :=
  match l with
  | [] => Ok []
  | x :: r => if forallb (same_kind x) r then Ok (fold_right insert_value [] l) else Err TypeError
  end.

(** ** The patterns *)
Definition code_points : string -> list N := points 0.
Definition in_range (a b n : N) : bool := (a <=? n)%N && (n <=? b)%N.
Definition decimal (n : N) : bool := bool_decide (is_Some (decimal_value n)).
Definition upper (n : N) : bool := in_range 65 90 n.
Definition ascii_digit (n : N) : bool := in_range 48 57 n.
Definition word_char (n : N) : bool :=
  upper n || in_range 97 122 n || ascii_digit n || existsb (N.eqb n) [46; 95; 45]%N.
Definition hex_lower (n : N) : bool := ascii_digit n || in_range 97 102 n.
(** The longest prefix in a class, and the rest. *)
Fixpoint span (f : N -> bool) (l : list N) : list N * list N :=
  match l with
  | [] => ([], [])
  | x :: r => if f x then (let '(a, b) := span f r in (x :: a, b)) else ([], l)
  end.
(** [$] also matches before a final newline. *)
Definition at_end (l : list N) : bool := match l with [] => true | [10%N] => true | _ => false end.
Definition nonempty_run (f : N -> bool) (l : list N) : option (list N) :=
  let '(a, b) := span f l in match a with [] => None | _ => Some b end.
Definition dotted (l : list N) : option (list N) :=
  match l with 46%N :: r => nonempty_run decimal r | _ => None end.
(** [^(?:\d+\.\d+\.\d+|[0-9a-f]{40})$] *)
Definition matches_version (l : list N) : bool :=
  match nonempty_run decimal l with
  | Some r => match dotted r with
              | Some r => match dotted r with Some r => at_end r | None => false end
              | None => false
              end
  | None => false
  end.
Definition matches_sha (l : list N) : bool :=
  let '(a, b) := span hex_lower l in (length a =? 40)%nat && at_end b.
Definition SEMVER (s : string) : bool := matches_version (code_points s) || matches_sha (code_points s).
(** [^[A-Z][A-Z0-9]*(?:[0-9])?-[A-Za-z0-9._-]+$] *)
Definition REQUIREMENT_ID (s : string) : bool :=
  match code_points s with
  | c :: r =>
      upper c
      && match snd (span (fun n => upper n || ascii_digit n) r) with
         | 45%N :: t => match nonempty_run word_char t with Some e => at_end e | None => false end
         | _ => false
         end
  | [] => false
  end.

Example patterns :
  map SEMVER ["0.1.0"; "v1"; "10.20.30"; "1.2"; "1.2.3.4"; "985fef7aca4835a7ab4fb92c94e8f979f7308189";
              "985FEF7aca4835a7ab4fb92c94e8f979f7308189"; "985fef7aca4835a7ab4fb92c94e8f979f730818"]
  = [true; false; true; false; false; true; false; false]
  /\ map REQUIREMENT_ID ["RFC8252-7.3-loopback-ipv4-any-port"; "RFC1-1-x"; "bad id"; "X-1-y"; "9X-1"; "RFC1"; "OIDC-"]
     = [true; true; false; true; false; false; false].
Proof. by vm_compute. Qed.

(** ** [validate_manifest] *)
Fixpoint for_each {A} (body : A -> gated unit) (l : list A) : gated unit :=
  match l with [] => Ok tt | x :: l => let? _ := body x in for_each body l end.
Definition gate_unless (b : bool) (why : gate_error) : gated unit := if b then Ok tt else Err (GateError why).
Definition nonempty_string (v : json) : bool := match v with JStr s => truthy s | _ => false end.
Definition validate_deviation (v : json) : gated unit :=
  match v with
  | JObj d =>
      match dget "requirement" d with
      | JStr q =>
          let? _ := gate_unless (REQUIREMENT_ID q) (BadRequirement (JStr q)) in
          gate_unless (match dget "reason" d with JStr s => 10 <=? py_len s | _ => false end) (BadReason q)
      | q => Err (GateError (BadRequirement q))
      end
  | _ => Err (GateError DeviationNotAMapping)
  end.
Definition validate_manifest (manifest : json) : gated unit :=
  match manifest with
  | JObj m =>
      let? _ := for_each (fun key => gate_unless (obj_has key m) (MissingKey key)) ["implementation"; "contract"; "profiles"] in
      let? _ := gate_unless (match dget "contract" m with JStr c => SEMVER c | _ => false end) BadContract in
      let? _ := gate_unless (match dget "profiles" m with
                             | JList (p :: ps) => forallb nonempty_string (p :: ps)
                             | _ => false
                             end) BadProfiles in
      let? deviations := py_iter (get_or_empty "deviations" m) in
      for_each validate_deviation deviations
  | _ => Err (GateError NotAMapping)
  end.

(** ** [evaluate] *)
Inductive problem :=
| ContractMismatch (reported pinned : json)
| ImplementationMismatch (reported declared : json)
| ProfileNotClaimed (reported : json)
| Undeclared (id : json) (requirements : list json)
| StaleDeviation (requirement : json)
| NoStablePass.
Definition problem_if (b : bool) (p : problem) : list problem := if b then [p] else [].

Definition declared_of (v : json) : gated json :=
  match v with JObj d => subscript "requirement" d | _ => Err TypeError end.
Definition failed (r : pydict) : bool := is_string "fail" (dget "outcome" r).
Definition requirements_of (r : pydict) : gated (list json) :=
  let? l := py_iter (get_or_empty "requirements" r) in py_set l.
(** The requirements that fail, and the problems, of the results. *)
Fixpoint scan_results (declared : list json) (results : list json) : gated (list json * list problem) :=
  match results with
  | [] => Ok ([], [])
  | JObj r :: results =>
      let? requirements := requirements_of r in
      let? here :=
        (if failed r then
           if existsb (fun q => py_mem q declared) requirements then Ok (requirements, [])
           else let? shown := sorted_values requirements in Ok (requirements, [Undeclared (dget "id" r) shown])
         else Ok ([], [])) in
      let? later := scan_results declared results in
      Ok (fst here ++ fst later, snd here ++ snd later)
  | _ => Err AttributeError
  end.
Definition stable_pass (v : json) : bool :=
  match v with
  | JObj r => is_string "pass" (dget "outcome" r) && is_string "stable" (dget "status" r)
  | _ => false
  end.
Definition evaluate (manifest report : pydict) : gated (list problem) :=
  let? contract := subscript "contract" manifest in
  let? implementation := subscript "implementation" manifest in
  let? profiles := subscript "profiles" manifest in
  let? claimed := in_container (dget "profile" report) profiles in
  let? deviations := py_iter (get_or_empty "deviations" manifest) in
  let? names := map_ok declared_of deviations in
  let? declared := py_set names in
  let? results := py_iter (get_or_empty "results" report) in
  let? scanned := scan_results declared results in
  let? ordered := sorted_values declared in
  Ok (problem_if (negb (py_eqb (dget "contract" report) contract)) (ContractMismatch (dget "contract" report) contract)
      ++ problem_if (negb (py_eqb (dget "implementation" report) implementation))
           (ImplementationMismatch (dget "implementation" report) implementation)
      ++ problem_if (negb claimed) (ProfileNotClaimed (dget "profile" report))
      ++ snd scanned
      ++ map StaleDeviation (List.filter (fun q => negb (py_mem q (fst scanned))) ordered)
      ++ problem_if (negb (existsb stable_pass results)) NoStablePass).

(** ** [main] *)
Inductive safe_loaded := SafeDoc (doc : json) | SafeYamlError | SafeRaised.
Record Summary := mkSummary { passed : nat; failures : nat; deferred : nat; declared_deviations : nat; problems : list problem }.
Inductive report_end := Usage | Rejected (e : gate_exn) | Judged (s : Summary).

(** [except (OSError, yaml.YAMLError, json.JSONDecodeError, GateError)] *)
Definition handled (e : gate_exn) : bool :=
  match e with GateError _ | OSError | YamlError | JsonRaised JSONDecodeError => true | _ => false end.
Definition outcome_is (o : string) (v : json) : bool :=
  match v with JObj r => is_string o (dget "outcome" r) | _ => false end.
Definition py_length (v : json) : gated nat := rmap (length (A:=json)) (py_iter v).

Section gate.
Context (read_text : string -> read_outcome) (safe_load : string -> safe_loaded) (scanner_limit : nat).

Definition read_file (path : string) : gated string :=
  match read_text path with Text s => Ok s | OSFailure _ => Err OSError | Undecodable => Err UnicodeDecodeError end.
Definition load_inputs (manifest_path report_path : string) : gated (pydict * pydict) :=
  let? manifest_text := read_file manifest_path in
  let? manifest := match safe_load manifest_text with
                   | SafeDoc d => Ok d | SafeYamlError => Err YamlError | SafeRaised => Err YamlRaised
                   end in
  let? report_text := read_file report_path in
  let? report := match json_loads scanner_limit report_text with Ok v => Ok v | Err e => Err (JsonRaised e) end in
  let? _ := validate_manifest manifest in
  match manifest, report with
  | JObj m, JObj r => Ok (m, r)
  | _, _ => Err (GateError ReportNotAnObject)
  end.
Definition summarise (manifest report : pydict) : gated Summary :=
  let? found := evaluate manifest report in
  let? results := py_iter (get_or_empty "results" report) in
  let? deviations := py_length (get_or_empty "deviations" manifest) in
  Ok (mkSummary (count_where (outcome_is "pass") results) (count_where (outcome_is "fail") results)
        (count_where (outcome_is "deferred") results) deviations found).
Definition main (argv : list string) : gated report_end :=
  match argv with
  | [manifest_path; report_path] =>
      match load_inputs manifest_path report_path with
      | Ok (m, r) => rmap Judged (summarise m r)
      | Err e => if handled e then Ok (Rejected e) else Err e
      end
  | _ => Ok Usage
  end.
(** [sys.exit(main(...))] *)
Definition exit_status (o : gated report_end) : Z :=
  match o with
  | Ok Usage | Ok (Rejected _) => 2
  | Ok (Judged s) => match problems s with [] => 0 | _ => 1 end
  | Err _ => 1
  end.
End gate.

(** ** What a passing gate means *)
Definition good_deviation (d : pydict) : Prop :=
  exists q why, obj_get "requirement" d = Some (JStr q) /\ REQUIREMENT_ID q = true
    /\ obj_get "reason" d = Some (JStr why) /\ 10 <= py_len why.
Record well_formed (m : pydict) : Prop := {
  wf_implementation : exists v, obj_get "implementation" m = Some v;
  wf_contract : exists c, obj_get "contract" m = Some (JStr c) /\ SEMVER c = true;
  wf_profiles : exists ps, obj_get "profiles" m = Some (JList (map JStr ps)) /\ ps <> [] /\ Forall (fun p => p <> EmptyString) ps;
  wf_deviations : exists ds, get_or_empty "deviations" m = JList (map JObj ds) /\ Forall good_deviation ds
}.
Definition declares (m : pydict) (q : string) : Prop :=
  exists ds d, get_or_empty "deviations" m = JList ds /\ In (JObj d) ds /\ obj_get "requirement" d = Some (JStr q).
Definition requires (r : pydict) (q : string) : Prop := exists l, requirements_of r = Ok l /\ In (JStr q) l.
Record accepts (m report : pydict) : Prop := {
  same_contract : obj_get "contract" report = obj_get "contract" m;
  same_implementation : py_eqb (dget "implementation" report) (dget "implementation" m) = true;
  claimed_profile : exists p ps, obj_get "profile" report = Some (JStr p) /\ obj_get "profiles" m = Some (JList ps) /\ In (JStr p) ps;
  results_accepted : exists rs, get_or_empty "results" report = JList (map JObj rs)
    /\ (forall r, In r rs -> is_ok (requirements_of r) = true)
    /\ (forall r, In r rs -> obj_get "outcome" r = Some (JStr "fail") -> exists q, declares m q /\ requires r q)
    /\ (forall q, declares m q -> exists r, In r rs /\ obj_get "outcome" r = Some (JStr "fail") /\ requires r q)
    /\ (exists r, In r rs /\ obj_get "outcome" r = Some (JStr "pass") /\ obj_get "status" r = Some (JStr "stable"))
}.

(** ** Lemmas *)
Lemma for_each_ok {A} (body : A -> gated unit) l : for_each body l = Ok tt <-> Forall (fun x => body x = Ok tt) l.
Proof.
  induction l as [|x l IH]; cbn [for_each]; [by split|]. rewrite Forall_cons. destruct (body x) as [[]|e]; cbn [rbind].
  - rewrite IH. naive_solver.
  - split; [done|]. by intros [? _].
Qed.
Lemma gate_unless_ok b why : gate_unless b why = Ok tt <-> b = true.
Proof. by destruct b. Qed.
Lemma py_eqb_str v s : py_eqb v (JStr s) = true <-> v = JStr s.
Proof.
  split.
  - destruct v as [| | | |[]| | |]; cbn; try done. by intros ->%String.eqb_eq.
  - intros ->. apply String.eqb_refl.
Qed.
Lemma is_string_dget s k m : is_string s (dget k m) = true <-> obj_get k m = Some (JStr s).
Proof. unfold is_string, dget. rewrite py_eqb_str. destruct (obj_get k m); cbn; naive_solver. Qed.
Lemma py_mem_strings x names : py_mem x (map JStr names) = true <-> exists q, x = JStr q /\ In q names.
Proof.
  unfold py_mem. rewrite existsb_exists. split.
  - intros (y & (q & <- & Hq)%in_map_iff & ->%py_eqb_str). eauto.
  - intros (q & -> & Hq). exists (JStr q). split; [by apply in_map|by apply py_eqb_str].
Qed.
Lemma py_mem_str q l : py_mem (JStr q) l = true <-> In (JStr q) l.
Proof.
  unfold py_mem. rewrite existsb_exists. split.
  - intros (y & Hy & He). destruct y as [| | | |[]| | |]; cbn in He; try done. apply String.eqb_eq in He. by subst.
  - intros Hq. exists (JStr q). split; [done|by apply py_eqb_str].
Qed.
Lemma dedup_In q l seen : In (JStr q) (dedup seen l) <-> In (JStr q) seen \/ In (JStr q) l.
Proof.
  revert seen. induction l as [|x l IH]; intros seen; cbn [dedup]; [naive_solver|]. rewrite IH.
  destruct (py_mem x seen) eqn:E.
  - split; [naive_solver|]. intros [?|[->|?]]; [by left| |by right]. left. by apply py_mem_str.
  - rewrite in_app_iff. naive_solver.
Qed.
Lemma dedup_strings names seen : exists out, dedup (map JStr seen) (map JStr names) = map JStr out.
Proof.
  revert seen. induction names as [|x l IH]; intros seen; cbn [dedup map]; [by exists seen|].
  destruct (py_mem _ _); [apply IH|]. specialize (IH (seen ++ [x])). by rewrite map_app in IH.
Qed.
Lemma insert_value_In x y l : In y (insert_value x l) <-> y = x \/ In y l.
Proof. induction l as [|z l IH]; cbn [insert_value]; [naive_solver|]. destruct (py_leb x z); cbn [In] in *; naive_solver. Qed.
Lemma sorted_strings names : exists l, sorted_values (map JStr names) = Ok l /\ forall x, In x l <-> In x (map JStr names).
Proof.
  destruct names as [|x names]; [by exists []|]. cbn [map sorted_values].
  replace (forallb _ _) with true; [|symmetry; apply forallb_forall; by intros ? (? & <- & _)%in_map_iff].
  eexists. split; [done|]. intros y. change (JStr x :: map JStr names) with (map JStr (x :: names)).
  induction (map JStr (x :: names)) as [|z l IH]; cbn [fold_right]; [done|]. rewrite insert_value_In, IH. cbn [In]. naive_solver.
Qed.
Lemma points_nonempty s : truthy s = true -> exists n l, points 0 s = n :: l.
Proof. destruct s as [|a s]; [done|]. intros _. cbn [points]. destruct (head_point _) as [n len]. eauto. Qed.
(** [v or []], when every element must be an object, is a list of objects. *)
Lemma iter_objects k m l : py_iter (get_or_empty k m) = Ok l -> Forall (fun v => exists d, v = JObj d) l ->
  exists ds, get_or_empty k m = JList (map JObj ds) /\ l = map JObj ds.
Proof.
  unfold get_or_empty. intros Hi Hl.
  assert (exists ds, l = map JObj ds) as [ds Hds].
  { clear Hi. induction Hl as [|v l [d ->] Hl (ds & ->)]; [by exists []|]. by exists (d :: ds). }
  destruct (json_truthy (dget k m)) eqn:Ht.
  - destruct (dget k m) as [| | | | |s|l'|o]; cbn in Hi; try done.
    + destruct (points_nonempty s Ht) as (n & r & Hn). rewrite Hn in Hi. injection Hi as <-.
      destruct ds; discriminate.
    + injection Hi as ->. subst l. eauto.
    + destruct o as [|[k' v'] o]; [done|]. injection Hi as <-. destruct ds; discriminate.
  - cbn in Hi. injection Hi as <-. destruct ds; [|discriminate]. by exists [].
Qed.
Lemma validate_deviation_ok v : validate_deviation v = Ok tt <-> exists d, v = JObj d /\ good_deviation d.
Proof.
  unfold good_deviation. split.
  - destruct v as [| | | | | | |d]; try done. cbn. unfold dget. destruct (obj_get "requirement" d) as [[]|] eqn:Eq; cbn; try done.
    destruct (REQUIREMENT_ID s) eqn:Hq; cbn; [|done]. intros Hr%gate_unless_ok.
    destruct (obj_get "reason" d) as [[]|] eqn:Er; cbn in Hr; try done. apply Z.leb_le in Hr.
    exists d. split; [done|]. eexists _, _. by rewrite Er.
  - intros (d & -> & q & why & Hq & Hm & Hw & Hl). cbn. unfold dget. rewrite Hq, Hw. cbn. rewrite Hm. cbn.
    apply gate_unless_ok. by apply Z.leb_le.
Qed.
Lemma nonempty_strings l : forallb nonempty_string l = true <-> exists ps, l = map JStr ps /\ Forall (fun p => p <> EmptyString) ps.
Proof.
  split.
  - induction l as [|v l IH]; cbn [forallb]; [intros _; by exists []|]. intros [Hv Hl]%andb_prop.
    destruct (IH Hl) as (ps & -> & Hps). destruct v; try done. exists (s :: ps). split; [done|]. constructor; [by destruct s|done].
  - intros (ps & -> & Hps). induction Hps as [|p ps Hp Hps IH]; [done|]. cbn. rewrite IH, andb_true_r. by destruct p.
Qed.
Lemma has_get k m : obj_has k m = true <-> exists v, obj_get k m = Some v.
Proof. unfold obj_has. destruct (obj_get k m); naive_solver. Qed.
Lemma dget_some k m v : v <> JNull -> dget k m = v <-> obj_get k m = Some v.
Proof. intros Hn. unfold dget. destruct (obj_get k m); cbn; naive_solver. Qed.

Lemma validate_manifest_ok v : validate_manifest v = Ok tt <-> exists m, v = JObj m /\ well_formed m.
Proof.
  split.
  - destruct v as [| | | | | | |m]; try done. unfold validate_manifest. intros Hv. exists m. split; [done|].
    destruct (for_each _ ["implementation"; "contract"; "profiles"]) as [[]|] eqn:Hk; cbn [rbind] in Hv; [|done].
    rewrite for_each_ok, !Forall_cons in Hk. destruct Hk as (Hi & _ & _ & _). apply gate_unless_ok, has_get in Hi.
    destruct (gate_unless _ BadContract) as [[]|] eqn:Hc; cbn [rbind] in Hv; [|done]. apply gate_unless_ok in Hc.
    destruct (gate_unless _ BadProfiles) as [[]|] eqn:Hp; cbn [rbind] in Hv; [|done]. apply gate_unless_ok in Hp.
    destruct (py_iter _) as [l|] eqn:Hd; cbn [rbind] in Hv; [|done]. apply for_each_ok in Hv.
    destruct (iter_objects _ _ _ Hd) as (ds & He & ->).
    { eapply Forall_impl; [exact Hv|]. intros x (d & -> & _)%validate_deviation_ok. eauto. }
    constructor; [done| | |].
    + destruct (dget "contract" m) eqn:E; try done. exists s. split; [by apply dget_some|done].
    + destruct (dget "profiles" m) as [| | | | | |[|p l]|] eqn:E; try done. apply nonempty_strings in Hp as (ps & Hl & Hps).
      exists ps. split_and! ; [apply dget_some; [done|congruence]| |done]. by destruct ps.
    + exists ds. split; [done|]. rewrite Forall_map in Hv. eapply Forall_impl; [exact Hv|].
      intros x (d & [= ->] & Hg)%validate_deviation_ok. done.
  - intros (m & -> & [[vi Hi] (c & Hc & Hm) (ps & Hp & Hn & Hps) (ds & Hd & Hds)]). unfold validate_manifest.
    assert (obj_has "implementation" m = true /\ obj_has "contract" m = true /\ obj_has "profiles" m = true) as (H1 & H2 & H3)
      by (split_and! ; apply has_get; eauto).
    cbn [for_each]. rewrite H1, H2, H3. cbn [gate_unless rbind]. 
    apply dget_some in Hc; [|done]. apply dget_some in Hp; [|done]. rewrite Hc, Hp, Hd, Hm. cbn [gate_unless rbind].
    destruct ps as [|p ps]; [done|]. cbn [map].
    replace (forallb _ _) with true by (symmetry; apply nonempty_strings; by exists (p :: ps)). cbn [gate_unless rbind].
    cbn [py_iter rbind]. apply for_each_ok. rewrite Forall_map. eapply Forall_impl; [exact Hds|].
    intros d Hg. apply validate_deviation_ok. eauto.
Qed.

(** The requirement names of a well-formed manifest. *)
Lemma declared_names m : well_formed m -> exists ds names,
  get_or_empty "deviations" m = JList (map JObj ds) /\ map_ok declared_of (map JObj ds) = Ok (map JStr names)
  /\ forall q, In q names <-> declares m q.
Proof.
  intros [_ _ _ (ds & Hd & Hds)]. exists ds.
  assert (exists names, map_ok declared_of (map JObj ds) = Ok (map JStr names)
          /\ forall q, In q names <-> exists d, In d ds /\ obj_get "requirement" d = Some (JStr q)) as (names & Hm & Hn).
  { clear Hd. induction Hds as [|d ds (q & why & Hq & _) Hds (names & Hm & Hn)].
    - exists []. split; [done|]. cbn [In]. naive_solver.
    - exists (q :: names). cbn [map map_ok declared_of]. unfold subscript. rewrite Hq. cbn [rbind]. rewrite Hm. cbn [rbind]. split; [done|].
      intros q'. cbn [In]. rewrite Hn. split.
      + intros [<-|(d' & ? & ?)]; [exists d; auto|exists d'; auto].
      + intros (d' & [<-|Hin] & Hq'); [left; congruence|right; eauto]. }
  exists names. split_and! ; [done..|]. intros q. rewrite Hn. unfold declares. split.
  - intros (d & Hin & Hq). eexists _, d. split_and! ; [done|by apply in_map|done].
  - intros (l & d & Hl & Hin & Hq). rewrite Hd in Hl. injection Hl as <-. apply in_map_iff in Hin as (d' & [= ->] & Hin). eauto.
Qed.

(** The results of a report raise no problem exactly when they are objects
    and every failing one has a declared requirement. *)
Lemma scan_clean names l f : scan_results (map JStr names) l = Ok (f, []) -> exists rs, l = map JObj rs
  /\ (forall r, In r rs -> is_ok (requirements_of r) = true)
  /\ (forall q, In (JStr q) f <-> exists r, In r rs /\ failed r = true /\ requires r q)
  /\ (forall r, In r rs -> failed r = true -> exists q, In q names /\ requires r q).
Proof.
  revert f. induction l as [|v l IH]; intros f.
  { intros [= <-]. exists []. cbn [In map]. naive_solver. }
  cbn [scan_results]. destruct v as [| | | | | | |r]; try done.
  destruct (requirements_of r) as [qs|] eqn:Eq; cbn [rbind]; [|done]. intros Hs.
  assert (Hr : forall q, requires r q <-> In (JStr q) qs).
  { intros q. unfold requires. rewrite Eq. naive_solver. }
  destruct (if failed r then _ else _) as [[f1 p1]|] eqn:E1; cbn [rbind] in Hs; [|done].
  destruct (scan_results _ l) as [[f2 p2]|] eqn:E2; cbn [rbind fst snd] in Hs; [|done].
  injection Hs as <- [-> ->]%app_eq_nil. destruct (IH _ eq_refl) as (rs & -> & Hok & Hf & Hc).
  exists (r :: rs). assert (Hhere : (failed r = true -> f1 = qs /\ exists q, In q names /\ In (JStr q) qs) /\ (failed r = false -> f1 = [])).
  { destruct (failed r).
    - split; [|done]. intros _. destruct (existsb _ qs) eqn:Ex; [|by destruct (sorted_values qs)].
      injection E1 as <-. split; [done|]. apply existsb_exists in Ex as (x & Hx & (q & -> & Hq)%py_mem_strings). eauto.
    - injection E1 as <-. done. }
  destruct Hhere as [Ht Hfl]. split_and! ; [done| | |].
  - intros r' [<-|Hin]; [by rewrite Eq|auto].
  - intros q. rewrite in_app_iff, Hf. cbn [In]. split.
    + intros [Hin|(r' & ? & ? & ?)]; [|eauto 6]. exists r. rewrite Hr.
      destruct (failed r); [by destruct (Ht eq_refl) as [<- _]; auto|by rewrite Hfl in Hin].
    + intros (r' & [<-|Hin] & Hfr & Hq); [|eauto]. left. destruct (Ht Hfr) as [-> _]. by apply Hr.
  - intros r' [<-|Hin] Hfr; [|auto]. destruct (Ht Hfr) as [_ (q & Hn & Hq)]. exists q. by rewrite Hr.
Qed.
Lemma scan_covered names rs : (forall r, In r rs -> is_ok (requirements_of r) = true) ->
  (forall r, In r rs -> failed r = true -> exists q, In q names /\ requires r q) ->
  exists f, scan_results (map JStr names) (map JObj rs) = Ok (f, []).
Proof.
  induction rs as [|r rs IH]; intros Hok Hc; [by exists []|]. cbn [map scan_results].
  destruct IH as [f Hs]; [intros; apply Hok; by right|intros; apply Hc; [by right|done]|].
  pose proof (Hok r (or_introl eq_refl)) as Hr. destruct (requirements_of r) as [qs|] eqn:Eq; [|done]. cbn [rbind].
  destruct (failed r) eqn:Hf.
  - replace (existsb _ qs) with true; [cbn [rbind]; rewrite Hs; cbn; eauto|]. symmetry.
    destruct (Hc r (or_introl eq_refl) Hf) as (q & Hn & (l & Hl & Hin)). rewrite Eq in Hl. injection Hl as <-.
    apply existsb_exists. exists (JStr q). split; [done|]. apply py_mem_strings. eauto.
  - cbn [rbind]. rewrite Hs. cbn. eauto.
Qed.

Lemma problem_if_nil b p : problem_if b p = [] <-> b = false.
Proof. by destruct b. Qed.
(** What [evaluate] computes over a well-formed manifest. *)
Lemma evaluate_runs m report : well_formed m -> exists c ps names ordered,
  obj_get "contract" m = Some (JStr c) /\ obj_get "profiles" m = Some (JList ps)
  /\ (forall q, In q names <-> declares m q)
  /\ (forall x, In x ordered <-> exists q, x = JStr q /\ In q names)
  /\ evaluate m report =
     (let? results := py_iter (get_or_empty "results" report) in
      let? scanned := scan_results (map JStr names) results in
      Ok (problem_if (negb (py_eqb (dget "contract" report) (JStr c))) (ContractMismatch (dget "contract" report) (JStr c))
          ++ problem_if (negb (py_eqb (dget "implementation" report) (dget "implementation" m)))
               (ImplementationMismatch (dget "implementation" report) (dget "implementation" m))
          ++ problem_if (negb (py_mem (dget "profile" report) ps)) (ProfileNotClaimed (dget "profile" report))
          ++ snd scanned
          ++ map StaleDeviation (List.filter (fun q => negb (py_mem q (fst scanned))) ordered)
          ++ problem_if (negb (existsb stable_pass results)) NoStablePass)).
Proof.
  intros Hw. destruct (declared_names m Hw) as (ds & names0 & Hd & Hm & Hn0).
  destruct Hw as [[v Hi] (c & Hc & _) (ps & Hp & _) _].
  destruct (dedup_strings names0 []) as [names Hnames].
  assert (Hn : forall q, In q names <-> declares m q).
  { intros q. rewrite <- Hn0. pose proof (dedup_In q (map JStr names0) []) as Hq.
    change (map JStr []) with (@nil json) in Hnames. rewrite Hnames in Hq. cbn [In] in Hq.
    assert (forall l, In (JStr q) (map JStr l) <-> In q l) as Hj.
    { intros l. rewrite in_map_iff. split; [by intros (? & [= ->] & ?)|eauto]. }
    rewrite !Hj in Hq. naive_solver. }
  destruct (sorted_strings names) as (ordered & Hs & Ho).
  exists c, (map JStr ps), names, ordered. split_and! ; [done..| |].
  { intros x. rewrite Ho, in_map_iff. naive_solver. }
  unfold evaluate, subscript. rewrite Hc, Hi, Hp. cbn [rbind in_container]. rewrite Hd. cbn [py_iter rbind]. rewrite Hm. cbn [rbind].
  unfold py_set. change (map JStr []) with (@nil json) in Hnames. rewrite Hnames.
  replace (forallb hashable (map JStr names0)) with true
    by (symmetry; apply forallb_forall; by intros ? (? & <- & _)%in_map_iff).
  cbn [rbind]. destruct (py_iter _) as [results|]; cbn [rbind]; [|done].
  destruct (scan_results _ _) as [scanned|]; cbn [rbind]; [|done]. rewrite Hs. cbn [rbind].
  assert (dget "implementation" m = v) as <- by (unfold dget; by rewrite Hi). done.
Qed.
Lemma declared_profiles m ps : well_formed m -> obj_get "profiles" m = Some (JList ps) ->
  forall x, In x ps -> exists p, x = JStr p.
Proof. intros [_ _ (qs & Hq & _) _]. rewrite Hq. intros [= <-] x (p & <- & _)%in_map_iff. eauto. Qed.
Lemma stable_pass_In rs : existsb stable_pass (map JObj rs) = true <->
  exists r, In r rs /\ obj_get "outcome" r = Some (JStr "pass") /\ obj_get "status" r = Some (JStr "stable").
Proof.
  rewrite existsb_exists. split.
  - intros (v & (r & <- & Hin)%in_map_iff & [Ho Hs]%andb_prop). apply is_string_dget in Ho, Hs. eauto.
  - intros (r & Hin & Ho & Hs). exists (JObj r). split; [by apply in_map|]. apply andb_true_intro. by split; apply is_string_dget.
Qed.
Lemma scan_objects D l out : scan_results D l = Ok out -> Forall (fun v => exists d, v = JObj d) l.
Proof.
  revert out. induction l as [|v l IH]; intros out; [by constructor|]. cbn [scan_results]. destruct v; try done.
  destruct (requirements_of m); cbn [rbind]; [|done]. destruct (if failed m then _ else _); cbn [rbind]; [|done].
  destruct (scan_results D l) eqn:E; cbn [rbind]; [|done]. intros _. constructor; eauto.
Qed.

Lemma evaluate_clean m report : well_formed m -> evaluate m report = Ok [] <-> accepts m report.
Proof.
  intros Hw. destruct (evaluate_runs m report Hw) as (c & ps & names & ordered & Hc & Hp & Hn & Ho & ->). split.
  - destruct (py_iter _) as [results|] eqn:Hi; cbn [rbind]; [|done].
    destruct (scan_results _ _) as [[f p]|] eqn:Hs; cbn [rbind fst snd]; [|done]. intros [= He].
    apply app_eq_nil in He as [H1 He]. apply app_eq_nil in He as [H2 He]. apply app_eq_nil in He as [H3 He].
    apply app_eq_nil in He as [-> He]. apply app_eq_nil in He as [H5 H6].
    apply problem_if_nil, negb_false_iff in H1, H2, H3, H6.
    destruct (iter_objects _ _ _ Hi (scan_objects _ _ _ Hs)) as (rs & Hr & ->).
    destruct (scan_clean _ _ _ Hs) as (rs' & Heq & Hok & Hf & Hcov).
    apply list_fmap_eq_inj in Heq as <-; [|by intros ?? [= ->]].
    constructor.
    + apply is_string_dget in H1. by rewrite H1, Hc.
    + done.
    + unfold py_mem in H3. apply existsb_exists in H3 as (x & Hx & He).
      destruct (declared_profiles m ps Hw Hp x Hx) as [q ->]. apply is_string_dget in He. eauto.
    + exists rs. split_and! ; [done..| | |by apply stable_pass_In].
      * intros r Hin Hfail. destruct (Hcov r Hin) as (q & Hq & Hr'); [by apply is_string_dget|]. exists q. by rewrite <- Hn.
      * intros q Hq%Hn. destruct (py_mem (JStr q) f) eqn:Hm.
        { apply py_mem_str, Hf in Hm as (r & ? & ?%is_string_dget & ?). eauto. }
        assert (In (JStr q) (List.filter (fun q => negb (py_mem q f)) ordered)) as Hin.
        { apply filter_In. rewrite Hm. split; [|done]. apply Ho. eauto. }
        apply map_eq_nil in H5. by rewrite H5 in Hin.
  - intros [Hsc Hsi (p & ps' & Hrp & Hps & Hin) (rs & Hr & Hok & Hcov & Hst & Hpass)].
    rewrite Hr. cbn [py_iter rbind].
    destruct (scan_covered names rs Hok) as [f Hs].
    { intros r Hin' Hf%is_string_dget. destruct (Hcov r Hin' Hf) as (q & Hq & ?). exists q. by rewrite Hn. }
    rewrite Hs. cbn [rbind fst snd].
    destruct (scan_clean _ _ _ Hs) as (rs' & Heq & _ & Hf & _). apply list_fmap_eq_inj in Heq as <-; [|by intros ?? [= ->]].
    rewrite Hps in Hp. injection Hp as <-. apply stable_pass_In in Hpass. rewrite Hpass, Hsi.
    rewrite Hc in Hsc. apply is_string_dget in Hsc. unfold is_string in Hsc. rewrite Hsc.
    assert (dget "profile" report = JStr p) as -> by (unfold dget; by rewrite Hrp).
    apply py_mem_str in Hin. rewrite Hin. cbn [negb problem_if app].
    replace (List.filter _ _) with (@nil json); [done|]. symmetry.
    destruct (List.filter _ _) as [|x l] eqn:El; [done|]. exfalso.
    assert (In x (List.filter (fun q => negb (py_mem q f)) ordered)) as Hx by (rewrite El; by left).
    apply filter_In in Hx as [(q & -> & Hq)%Ho Hm]. apply negb_true_iff in Hm.
    apply Hn, Hst in Hq as (r & ? & ?%is_string_dget & ?).
    assert (py_mem (JStr q) f = true); [|congruence]. apply py_mem_str, Hf. eauto.
Qed.

(** ** The verdict *)
Section verdict.
Context (read_text : string -> read_outcome) (safe_load : string -> safe_loaded) (scanner_limit : nat).
Notation load := (load_inputs read_text safe_load scanner_limit).
Notation gate := (main read_text safe_load scanner_limit).

Lemma load_inputs_ok mp rp m r : load mp rp = Ok (m, r) <-> exists mt rt,
  read_text mp = Text mt /\ safe_load mt = SafeDoc (JObj m)
  /\ read_text rp = Text rt /\ json_loads scanner_limit rt = Ok (JObj r) /\ well_formed m.
Proof.
  unfold load_inputs, read_file. split.
  - destruct (read_text mp) as [mt| |]; cbn [rbind]; [|done..]. destruct (safe_load mt) as [d| |] eqn:Ey; cbn [rbind]; [|done..].
    destruct (read_text rp) as [rt| |]; cbn [rbind]; [|done..]. destruct (json_loads _ rt) as [v|] eqn:Ej; cbn [rbind]; [|done].
    destruct (validate_manifest d) as [[]|] eqn:Ev; cbn [rbind]; [|done]. apply validate_manifest_ok in Ev as (m' & -> & Hw).
    destruct v; try done. intros [= -> ->]. eauto 8.
  - intros (mt & rt & -> & Hy & -> & Hj & Hw). cbn [rbind]. rewrite Hy. cbn [rbind]. rewrite Hj. cbn [rbind].
    replace (validate_manifest (JObj m)) with (@Ok gate_exn unit tt); [done|]. symmetry. apply validate_manifest_ok. eauto.
Qed.
Lemma summarise_problems m r : well_formed m -> match summarise m r with
  | Ok s => evaluate m r = Ok (problems s)
  | Err e => evaluate m r = Err e
  end.
Proof.
  intros Hw. unfold summarise. destruct (evaluate m r) as [l|] eqn:E; cbn [rbind]; [|done].
  destruct (evaluate_runs m r Hw) as (c & ps & names & ordered & _ & _ & _ & _ & He). rewrite He in E.
  destruct (py_iter (get_or_empty "results" r)) as [results|]; cbn [rbind] in E |- *; [|done].
  destruct (declared_names m Hw) as (ds & names' & -> & _). done.
Qed.

Lemma judged_status m r : well_formed m ->
  (exit_status (rmap Judged (summarise m r)) = 0 <-> accepts m r)
  /\ (exit_status (rmap Judged (summarise m r)) = 0 \/ exit_status (rmap Judged (summarise m r)) = 1).
Proof.
  intros Hw. rewrite <- evaluate_clean by done. pose proof (summarise_problems m r Hw) as Hs.
  destruct (summarise m r) as [s|e]; cbn; rewrite Hs; [destruct (problems s); cbn|]; naive_solver.
Qed.

End verdict.

(** ** Runs *)
Definition toy_manifest : json := JObj
  [("implementation", JStr "python-oauth2-server"); ("contract", JStr "0.1.0"); ("profiles", JList [JStr "core"]);
   ("deviations", JList [JObj [("requirement", JStr "RFC8252-7.3-loopback-ipv4-any-port");
                               ("reason", JStr "port wildcard unsupported")]])].
Definition toy_result (id outcome : string) (requirements : json) : json :=
  JObj [("id", JStr id); ("outcome", JStr outcome); ("requirements", requirements); ("status", JStr "stable")].
Definition toy_report (results : json) : json := JObj
  [("contract", JStr "0.1.0"); ("implementation", JStr "python-oauth2-server"); ("profile", JStr "core"); ("results", results)].
Definition known_failure : json := toy_result "core.native.v4" "fail" (JList [JStr "RFC8252-7.3-loopback-ipv4-any-port"]).
Definition ok_result : json := toy_result "core.ok" "pass" (JList [JStr "RFC6749-4.1.2"]).
Definition toy_status (manifest report : json) : Z :=
  exit_status (main (fun p => if String.eqb p "report.json" then Text (py_dumps report)
                                              else if String.eqb p "conformance.yaml" then Text p else OSFailure p)
                 (fun _ => SafeDoc manifest) 900 ["conformance.yaml"; "report.json"]).

Example gate_runs :
  map (fun results => toy_status toy_manifest (toy_report (JList results)))
    [[ok_result; known_failure];
     [ok_result; known_failure; toy_result "core.new" "fail" (JList [JStr "X-1-y"])];
     [ok_result];
     [known_failure];
     [ok_result; known_failure; toy_result "core.multi" "fail" (JList [JStr "X-1-y"; JStr "RFC8252-7.3-loopback-ipv4-any-port"])];
     [ok_result; known_failure; toy_result "core.draft" "deferred" (JList [JStr "X-1-y"])];
     [JStr "core.ok"]]
  = [0; 1; 1; 1; 0; 0; 1]
  /\ toy_status JNull (toy_report (JList [])) = 2.
Proof. by vm_compute. Qed.

(** A report that cannot be decoded ends in status 1, not 2: neither
    [UnicodeDecodeError] nor the other [ValueError]s are caught. *)
Lemma undecodable_report_fails load limit read mp rp mt d : read mp = Text mt -> load mt = SafeDoc d -> read rp = Undecodable ->
  exit_status (main read load limit [mp; rp]) = 1.
Proof. intros Hm Hl Hr. unfold main, load_inputs, read_file. rewrite Hm. cbn [rbind]. rewrite Hl, Hr. done. Qed.
(** The manifest of no implementation in particular accepts the report of none. *)
Example null_implementation_passes :
  toy_status (JObj [("implementation", JNull); ("contract", JStr "0.1.0"); ("profiles", JList [JStr "core"])])
    (JObj [("contract", JStr "0.1.0"); ("profile", JStr "core"); ("results", JList [ok_result])]) = 0.
Proof. by vm_compute. Qed.
