(* ===== verification/Startup.v ===== *)
(** * From the environment to a serving application
    ([config.py] validators, [bootstrap.py], [storage/factory.py], [app.py],
    [routes/system.py])

    [build] resolves conformance mode, checks the configuration, picks the
    storage back end, assembles the application state and the middleware
    stack, and seeds the identities. What [storage.init] leaves in the tables
    is an argument; sessions and CORS appear in the stack by name only. *)
From S2P Require Import Prelude PyStr PyJson PyDumps Codec Models IsoTime Storage PyUrl Redirects Migrations TtlStores Keys Jwt App Dpop Resilience SocialBreaker Social EventBus Middleware Conformance.
From S2P Require Limiter.
#[local] Open Scope Z_scope.

(** ** Settings *)
Record Settings := mkSettings {
  st_config : Config;
  database_url : string;
  max_connections : Z;
  allowed_origins : list string;
  allow_insecure_defaults : bool;
  seed_username : string;
  seed_password : option string;
  seed_email : string;
  login_rate_limit_attempts : Z;
  login_rate_limit_window_secs : Z;
  dpop_nonce_secret : option string;
  rate_limit_enabled : bool;
  rate_limit_max_requests : Z;
  rate_limit_window_secs : Z;
  rate_limit_invalid_client_max_requests : Z;
  resilience_enabled : bool;
  resilience_max_concurrent : Z;
  resilience_cb_failure_threshold : Z;
  resilience_cb_success_threshold : Z;
  resilience_cb_open_secs : Z;
  resilience_cb_half_open_max_probes : Z;
  events_enabled : bool;
  events_backend : string;
  events_filter_mode : string;
  events_types : list string
}.

(** The [mode="before"] validators, on the value as it comes. *)
Section validators.
Context `{Runtime}.
Definition split_csv (v : json) : json :=
  match v with
  | JStr s => jstrs (List.filter truthy (map py_strip (py_split_on "," s)))
  | v => v
  end.
Definition split_events_types : json -> json := split_csv.
Definition split_rar_types : json -> json := split_csv.
Definition split_acr_values : json -> json := split_csv.
Definition split_admin_client_ids : json -> json := split_csv.
Definition split_admin_emails (v : json) : json :=
  let v := match v with JStr s => jstrs (py_split_on "," s) | v => v end in
  match v with
  | JList l => jstrs (map py_lower (List.filter truthy (map (fun email => py_strip (py_str email)) l)))
  | v => v
  end.
End validators.
Definition unescape_pem_newlines (v : json) : json :=
  match v with JStr s => JStr (str_replace "\n" (String (ascii_of_N 10) EmptyString) s) | v => v end.
Definition normalize_id_token_alg (v : json) : json := match v with JStr s => JStr (py_upper s) | v => v end.

Definition INSECURE_JWT_SECRETS : list string := ["secret"; "changeme"; "your-256-bit-secret"; "jwt_secret"].
Definition validate_for_production (c : Config) : result exn unit :=
  if (py_len (jwt_secret c) <? 32) || mem_str (jwt_secret c) INSECURE_JWT_SECRETS
  then Err (PyErr ValueError "jwt_secret is insecure: too short or a known default value") else Ok tt.
Definition with_issuer (c : Config) (iss : string) : Config :=
  mkConfig (jwt_secret c) iss (access_tokens_opaque c) (dynamic_registration_enabled c) (access_token_ttl_secs c)
    (refresh_token_ttl_secs c) (authorization_code_ttl_secs c) (id_token_private_key_pem c) (id_token_kid c) (id_token_alg c)
    (rar_types_supported c) (acr_values_supported c) (trust_proxy_headers c) (dpop_nonce_lifetime_secs c) (admin_client_ids c)
    (admin_emails c) (key_rotation_grace_hours c) (mtls_endpoint_base_url c).

(** ** The storage back end *)
Inductive Backend := MongoStorage (url : string) | SqlStorage (url : string) (pool_size : Z).
Definition MONGO_SCHEMES : list string := ["mongodb://"; "mongodb+srv://"].
Definition create_storage (motor_installed : bool) (c : Settings) : result exn Backend :=
  if existsb (fun p => py_startswith p (database_url c)) MONGO_SCHEMES
  then if motor_installed then Ok (MongoStorage (database_url c))
       else Err (PyErr StorageError "MongoDB backend requested but 'motor' is not installed (pip install oauth2-server[mongo])")
  else Ok (SqlStorage (database_url c) (max_connections c)).

(** ** [decode_dpop_nonce_secret] *)
Definition is_alnum (c : ascii) : bool :=
  let n := N_of_ascii c in
  ((48 <=? n) && (n <=? 57) || (65 <=? n) && (n <=? 90) || (97 <=? n) && (n <=? 122))%N.
Definition is_ascii_space (c : ascii) : bool := let n := N_of_ascii c in ((n =? 32) || (9 <=? n) && (n <=? 13))%N.
Definition is_b64url_char (c : ascii) : bool := is_alnum c || Ascii.eqb c "-" || Ascii.eqb c "_".
Definition is_b64_char (c : ascii) : bool := is_alnum c || Ascii.eqb c "+" || Ascii.eqb c "/".
Definition decode_b64url_nopad (raw : string) : option string :=
  if truthy raw && all_chars is_b64url_char raw then urlsafe_b64decode (raw +:+ b64_padding raw) else None.
(** [b64decode(..., validate=True)]: alphabet characters, then at most two
    padding characters up to a multiple of four. *)
Definition decode_b64_std (raw : string) : option string :=
  let padded := raw +:+ b64_padding raw in
  let body := rstrip_char "=" padded in
  if all_chars is_b64_char body && (String.length padded - String.length body <=? 2)%nat && (String.length padded mod 4 =? 0)%nat
  then b64decode padded else None.
Fixpoint fromhex (s : string) : option string :=
  match s with
  | EmptyString => Some EmptyString
  | String a s' =>
      if is_ascii_space a then fromhex s' else
      match s' with
      | String b s'' =>
          match hex_of a, hex_of b, fromhex s'' with
          | Some h, Some l, Some r => Some (String (ascii_of_N (16 * h + l)) r)
          | _, _, _ => None
          end
      | EmptyString => None
      end
  end.
Definition decode_hex64 (raw : string) : option string := if py_len raw =? 64 then fromhex raw else None.
Definition first_of_32 (l : list (option string)) : option string :=
  List.find (fun s => (String.length s =? 32)%nat) (omap id l).
(** [token_bytes n] is the [n]-th draw of [secrets.token_bytes(32)]. *)
Definition decode_dpop_nonce_secret (token_bytes : nat -> string) (raw : option string) (draws : nat) : string * nat :=
  match (if truthy_o raw
         then let raw := default EmptyString raw in
              first_of_32 [decode_b64url_nopad raw; decode_b64_std raw; decode_hex64 raw]
         else None) with
  | Some candidate => (candidate, draws)
  | None => (token_bytes draws, S draws)
  end.

(** ** The application *)
Inductive Layer := SecurityHeaders | CORS | SessionLayer | RateLimitLayer | DenylistGuard | ResilienceLayer | MetricsLayer.
#[export] Instance Layer_eq_dec : EqDecision Layer.
Proof. solve_decision. Defined.

Section application.
Context `{JwtLib} `{Runtime}.
Record Application := mkApplication {
  app_settings : Settings;
  app_backend : Backend;
  app_state : AppState;
  app_circuit_breaker : CircuitBreaker;
  app_concurrency_limiter : ConcurrencyLimiter;
  app_event_bus : option EventBus;
  app_event_idempotency : gmap string Z;
  app_layers : list Layer;            (* outermost first *)
  app_conformance : option pydict
}.
(** [app.add_middleware]: what is added last runs first. *)
Definition add_middleware (enabled : bool) (l : Layer) (layers : list Layer) : list Layer := if enabled then l :: layers else layers.
Definition middleware_stack (c : Settings) : list Layer :=
  add_middleware true MetricsLayer
    (add_middleware (resilience_enabled c) ResilienceLayer
      (add_middleware true DenylistGuard
        (add_middleware (rate_limit_enabled c) RateLimitLayer
          (add_middleware true SessionLayer
            (add_middleware (bool_decide (allowed_origins c <> [])) CORS
              (add_middleware true SecurityHeaders [])))))).
Definition MAX_REPLAY_ENTRIES : nat := Z.to_nat 100000.
Definition create_app (token_bytes : nat -> string) (c : Settings) (backend : Backend) (st : Store) (wall mono : Z) (draws : nat) : Application :=
  let config := st_config c in
  let '(secret, draws) := decode_dpop_nonce_secret token_bytes (dpop_nonce_secret c) draws in
  {| app_settings := c; app_backend := backend;
     app_state := {|
       a_store := st; a_wall := wall; a_mono := mono; a_draws := draws;
       a_keyset := seed_keyset wall (jwt_secret config) (id_token_private_key_pem config) (id_token_kid config);
       a_invalid_client_limiter :=
         if 0 <? rate_limit_invalid_client_max_requests c
         then Some (Limiter.new_limiter (rate_limit_invalid_client_max_requests c) (rate_limit_window_secs c)) else None;
       a_dpop_replay := ∅; a_jti_guard := Replay.new_guard MAX_REPLAY_ENTRIES; a_device_poll := ∅; a_par_store := ∅; a_jwks_cache := ∅;
       a_dpop_nonce_secret := secret; a_events := [];
       a_failed_authentications := 0; a_tokens_issued := 0; a_codes_issued := 0; a_tokens_revoked := 0;
       a_login_limiter := FixedWindow.mkLimiter (login_rate_limit_attempts c) (login_rate_limit_window_secs c) ∅;
       a_rate_limiter := Limiter.new_limiter (rate_limit_max_requests c) (rate_limit_window_secs c);
       a_recent := [];
       a_social_breakers := list_to_map (map (fun p => (p, new_social_breaker)) OAUTH_PROVIDERS)
     |};
     app_circuit_breaker := new_breaker (resilience_cb_failure_threshold c) (resilience_cb_success_threshold c)
       (resilience_cb_open_secs c) (resilience_cb_half_open_max_probes c);
     app_concurrency_limiter := new_concurrency (resilience_max_concurrent c);
     app_event_bus := if events_enabled c then Some (build_event_bus (events_backend c) (events_filter_mode c) (events_types c)) else None;
     app_event_idempotency := ∅;
     app_layers := middleware_stack c;
     app_conformance := None |}.

(** ** [seed_admin_user] *)
Definition MIN_SEED_PASSWORD_LEN : Z := 8.
Definition seed_admin_user (c : Settings) : M bool :=
  if negb (truthy_o (seed_password c)) then sret false else
  let password := default EmptyString (seed_password c) in
  if py_len password <? MIN_SEED_PASSWORD_LEN then sret false else
  let! existing := query (get_user_by_username (seed_username c)) in
  match existing with
  | Some _ => sret false
  | None =>
      let! password_hash := draw (fun n => argon2_hash n password) in
      let! id := draw uuid4_hex in
      let! now := sget a_wall in
      insert (save_user (mkUser id (seed_username c) password_hash (seed_email c) true "admin" now now)) !;
      sret true
  end.

(** ** [build] and its lifespan *)
Section build.
Context (cbn_ : string -> bool) (repr : string -> string) (yaml_load : string -> yaml_outcome)
  (read_text : string -> read_outcome) (make_url : string -> option (string * option string))
  (hs256_secret rs256_pem token_bytes : nat -> string) (motor_installed : bool) (storage_init : Backend -> result exn Store).
Definition with_seed (c : Settings) (seed : Seed) : Settings :=
  mkSettings (with_issuer (st_config c) (s_issuer seed)) (database_url c) (max_connections c) (allowed_origins c)
    (allow_insecure_defaults c || py_startswith "http://" (s_issuer seed)) (seed_username c) (seed_password c) (seed_email c)
    (login_rate_limit_attempts c) (login_rate_limit_window_secs c) (dpop_nonce_secret c) (rate_limit_enabled c)
    (rate_limit_max_requests c) (rate_limit_window_secs c) (rate_limit_invalid_client_max_requests c) (resilience_enabled c)
    (resilience_max_concurrent c) (resilience_cb_failure_threshold c) (resilience_cb_success_threshold c) (resilience_cb_open_secs c)
    (resilience_cb_half_open_max_probes c) (events_enabled c) (events_backend c) (events_filter_mode c) (events_types c).
Definition with_app_state (a : Application) (s : AppState) (conformance : option pydict) : Application :=
  mkApplication (app_settings a) (app_backend a) s (app_circuit_breaker a) (app_concurrency_limiter a) (app_event_bus a)
    (app_event_idempotency a) (app_layers a) conformance.
Definition lifespan (seed : option Seed) (c : Settings) (app : Application) : result seed_error Application :=
  match seed with
  | Some seed =>
      match apply_seed repr hs256_secret rs256_pem seed (app_state app) with
      | (Ok applied, s) => Ok (with_app_state app s (Some (readiness applied)))
      | (Err e, _) => Err e
      end
  | None =>
      match seed_admin_user c (app_state app) with
      | (Ok _, s) => Ok (with_app_state app s None)
      | (Err e, _) => Err (Raised e)
      end
  end.
Definition build (env : gmap string string) (c : Settings) (wall mono : Z) (draws : nat) : result seed_error Application :=
  let? seed := seed_from_env cbn_ repr yaml_load read_text make_url env (database_url c) (id_token_private_key_pem (st_config c)) in
  let c := match seed with Some s => with_seed c s | None => c end in
  let? _ := raised (validate_for_production (st_config c)) in
  let? backend := raised (create_storage motor_installed c) in
  let? st := raised (storage_init backend) in
  lifespan seed c (create_app token_bytes c backend st wall mono draws).
End build.

(** ** The system pages *)
Definition health (now : Z) : response :=
  mkResponse 200 (JObj [("status", JStr "healthy"); ("service", JStr "oauth2_server"); ("timestamp", JStr (isoformat now))]) [].
Definition ready (healthcheck : result exn unit) (app : Application) : response :=
  match healthcheck with
  | Err _ => mkResponse 503 (JObj [("status", JStr "unavailable"); ("checks", JObj [("database", JStr "error")])]) []
  | Ok _ =>
      mkResponse 200 (JObj ([("status", JStr "ready"); ("checks", JObj [("database", JStr "ok")])]
        ++ match app_conformance app with Some c => [("conformance", JObj c)] | None => [] end)) []
  end.
End application.

(** ** The rows of [migrations/sql/V5], with the column defaults of the later migrations *)
Definition DEFAULT_CLIENT_SECRET : string := "INSECURE_DEFAULT_SECRET_REGENERATE_FOR_PRODUCTION".
Definition default_client (now : Z) : Client := {|
  c_id := "default-client-id"; c_client_id := "default_client"; c_client_secret := DEFAULT_CLIENT_SECRET;
  c_redirect_uris := "[" +:+ dump_str "http://localhost:3000/callback" +:+ "]";
  c_grant_types := "[" +:+ join ", " (map dump_str ["authorization_code"; "client_credentials"; "refresh_token"]) +:+ "]";
  c_scope := "read write"; c_name := "Default Client"; c_created_at := now; c_updated_at := now;
  c_token_endpoint_auth_method := "client_secret_basic"; c_registration_access_token := EmptyString;
  c_response_types := "[" +:+ dump_str "code" +:+ "]"; c_contacts := EmptyString; c_logo_uri := EmptyString;
  c_client_uri := EmptyString; c_policy_uri := EmptyString; c_tos_uri := EmptyString; c_jwks := EmptyString; c_jwks_uri := EmptyString;
  c_backchannel_logout_uri := EmptyString; c_backchannel_logout_session_required := false; c_frontchannel_logout_uri := EmptyString;
  c_frontchannel_logout_session_required := false; c_post_logout_redirect_uris := EmptyString; c_enabled := true;
  c_require_state := false; c_tls_client_certificate_subject_dn := EmptyString; c_dpop_nonce_required := false
|}.
