(* ===== verification/StartupProps.v ===== *)
(** * What a started server is: a strong secret, well-formed state, and exactly the seeded identities over what migration left *)
From S2P Require Import Prelude PyStr PyJson Codec Models Storage StoreSpec PyUrl Redirects Migrations TtlStores Keys Jwt App Dpop Resilience SocialBreaker Social EventBus Middleware Conformance ClientAuth TokenEndpoint Startup ToyJwt ConformanceProps.
From S2P Require Limiter.
#[local] Open Scope Z_scope.

(** ** The stack [create_app] assembles is the one [Middleware.serve] composes *)
Section stack.
Context (sc : Scope).
Definition apply_layer (config : Config) (l : Layer) (app : App) : App :=
  match l with
  | SecurityHeaders => add_security_headers sc app
  | RateLimitLayer => rate_limit config sc app
  | DenylistGuard => denylist_guard sc app
  | _ => app
  end.
Lemma stack_served (c : Settings) (app : App) :
  fold_right (apply_layer (st_config c)) app (middleware_stack c) = serve (st_config c) (rate_limit_enabled c) sc app.
Proof.
  unfold middleware_stack, serve. by destruct (resilience_enabled c), (rate_limit_enabled c), (bool_decide (allowed_origins c <> [])).
Qed.
End stack.

Section startup.
Context `{JwtLib} `{Runtime} `{Http}.

(** ** Seeding adds rows and keeps the rest *)
Record grows (s s' : AppState) : Prop := {
  gr_ok : store_ok (a_store s) -> store_ok (a_store s');
  gr_client : forall cid c, get_client cid (a_store s) = Some c -> get_client cid (a_store s') = Some c;
  gr_user : forall n u, get_user_by_username n (a_store s) = Some u -> get_user_by_username n (a_store s') = Some u;
  gr_keys : current_unexpiring (a_keyset s) -> current_unexpiring (a_keyset s');
  gr_rest : a_rate_limiter s' = a_rate_limiter s /\ a_login_limiter s' = a_login_limiter s /\ a_mono s' = a_mono s
            /\ a_social_breakers s' = a_social_breakers s /\ a_invalid_client_limiter s' = a_invalid_client_limiter s
            /\ denylist (a_store s') = denylist (a_store s)
}.
Lemma grows_refl s : grows s s.
Proof. by constructor. Qed.
Lemma grows_trans s1 s2 s3 : grows s1 s2 -> grows s2 s3 -> grows s1 s3.
Proof.
  intros [A1 B1 C1 D1 (E1 & E2 & E3 & E4 & E5 & E6)] [A2 B2 C2 D2 (F1 & F2 & F3 & F4 & F5 & F6)].
  constructor; auto. split_and! ; congruence.
Qed.
Definition growing {E A} (m : ST AppState E A) : Prop := forall s r s', m s = (r, s') -> grows s s'.
Lemma growing_bind {E A B} (m : ST AppState E A) (k : A -> ST AppState E B) :
  growing m -> (forall a, growing (k a)) -> growing (sbind m k).
Proof.
  intros Hm Hk s r s' Hr. unfold sbind in Hr. destruct (m s) as [[a|e] s1] eqn:E1; apply Hm in E1.
  - eapply grows_trans; [done|by eapply Hk].
  - by injection Hr as _ <-.
Qed.
Lemma growing_reads {E A} (m : ST AppState E A) : reads m -> growing m.
Proof. intros Hm s r s' Hr. specialize (Hm s). rewrite Hr in Hm. cbn in Hm. subst. apply grows_refl. Qed.
Lemma growing_draw {A} (f : nat -> A) : growing (draw f).
Proof. intros s r s' [= _ <-]. by constructor. Qed.
Lemma growing_run {A} (m : M A) : growing m -> growing (run_m m).
Proof. intros Hm s r s' Hr. unfold run_m in Hr. destruct (m s) as [r1 s1] eqn:E. injection Hr as _ <-. by eapply Hm. Qed.
Lemma growing_each {E A} (body : A -> ST AppState E unit) l : (forall x, growing (body x)) -> growing (each_m body l).
Proof.
  intros Hb. induction l as [|x l IH]; cbn [each_m]; [by apply growing_reads|]. by apply growing_bind.
Qed.
Lemma growing_save_client c : growing (insert (save_client c)).
Proof.
  intros s r s' Hr. unfold insert in Hr. destruct (save_client c (a_store s)) as [st|e] eqn:Hs; injection Hr as _ <-; [|apply grows_refl].
  assert (st = on_clients (fun l => l ++ [c]) (a_store s)) as Hst by (unfold save_client in Hs; by destruct (existsb _ _); [|injection Hs as <-]).
  constructor; cbn; try done.
  - intros Hok. by apply (apply_op_ok (SaveClient c) (a_store s)).
  - intros cid c' Hc. rewrite Hst. unfold get_client, on_clients. cbn. by apply find_app_some.
  - intros n u Hu. by rewrite Hst.
  - by rewrite Hst.
Qed.
Lemma growing_save_user u : growing (insert (save_user u)).
Proof.
  intros s r s' Hr. unfold insert in Hr. destruct (save_user u (a_store s)) as [st|e] eqn:Hs; injection Hr as _ <-; [|apply grows_refl].
  assert (st = on_users (fun l => l ++ [u]) (a_store s)) as Hst by (unfold save_user in Hs; by destruct (existsb _ _); [|injection Hs as <-]).
  constructor; cbn; try done.
  - intros Hok. by apply (apply_op_ok (SaveUser u) (a_store s)).
  - intros cid c' Hc. by rewrite Hst.
  - intros n u' Hu. rewrite Hst. unfold get_user_by_username, on_users. cbn. by apply find_app_some.
  - by rewrite Hst.
Qed.
Lemma growing_bind_post {E A B} (P : A -> Prop) (m : ST AppState E A) (k : A -> ST AppState E B) :
  growing m -> (forall s a s', m s = (Ok a, s') -> P a) -> (forall a, P a -> growing (k a)) -> growing (sbind m k).
Proof.
  intros Hm HP Hk s r s' Hr. unfold sbind in Hr. destruct (m s) as [[a|e] s1] eqn:E1.
  - eapply grows_trans; [by eapply Hm|]. by eapply (Hk a); [eapply HP|].
  - injection Hr as _ <-. by eapply Hm.
Qed.
Lemma growing_rotate key : k_expires_at key = None ->
  growing (E:=seed_error) (run_m (smod (fun s => with_keyset s (rotate (a_wall s) key 0 (a_keyset s))))).
Proof. intros Hk s r s' [= _ <-]. constructor; cbn; try done. by apply rotate_unexpiring. Qed.

(** ** Every way to seed *)
Section seeding.
Context (cbn_ : string -> bool) (repr : string -> string) (yaml_load : string -> yaml_outcome)
  (read_text : string -> read_outcome) (make_url : string -> option (string * option string))
  (hs256_secret rs256_pem token_bytes : nat -> string) (motor_installed : bool) (storage_init : Backend -> result exn Store).

Lemma growing_generate now specs : growing (generate_keys hs256_secret rs256_pem now specs).
Proof.
  induction specs as [|sp specs IH]; cbn [generate_keys]; [by apply growing_reads|].
  apply growing_bind; [by apply growing_run, growing_draw|]. intros g. apply growing_bind; [by apply growing_run, growing_reads|].
  intros k. apply growing_bind; [done|]. intros ks. by apply growing_reads.
Qed.
Lemma generated_unexpiring now specs : forall s keys s', generate_keys hs256_secret rs256_pem now specs s = (Ok keys, s') ->
  forall k, In k keys -> k_expires_at k = None.
Proof.
  induction specs as [|sp specs IH]; intros s keys s' Hr; cbn [generate_keys] in Hr; [by injection Hr as <- <-|].
  apply bind_ok in Hr as (g & s1 & Hg & Hr). apply bind_ok in Hr as (k & s2 & Hk & Hr). apply bind_ok in Hr as (ks & s3 & Hks & Hr).
  injection Hr as <- <-. unfold run_m, slift in Hk. destruct g as [k0|e] eqn:Hg0; [|done]. injection Hk as -> <-.
  unfold run_m, draw in Hg. cbn in Hg. injection Hg as Hg _.
  intros k' [<-|Hin]; [|by eapply IH].
  unfold generate_signing_key in Hg. destruct (String.eqb _ "HS256"); [by injection Hg as <-|].
  destruct (String.eqb _ "RS256"); [by injection Hg as <-|done].
Qed.
Lemma growing_apply_seed seed : growing (apply_seed repr hs256_secret rs256_pem seed).
Proof.
  unfold apply_seed. apply growing_bind; [by apply growing_run, growing_reads|]. intros now.
  eapply (growing_bind_post (fun keys => forall k, In k keys -> k_expires_at k = None)); [apply growing_generate|apply generated_unexpiring|].
  intros keys Hkeys. apply growing_bind; [|intros _; apply growing_bind; [|intros _; apply growing_bind; [|intros _; by apply growing_reads]]].
  - apply growing_each. intros c. unfold apply_client. apply growing_bind; [by apply growing_run, growing_reads|]. intros [c'|]; [by apply growing_reads|].
    apply growing_bind; [by apply growing_run, growing_draw|]. intros id. apply growing_run, growing_save_client.
  - apply growing_each. intros u. unfold apply_user. apply growing_bind; [by apply growing_run, growing_reads|]. intros [u'|]; [by apply growing_reads|].
    do 2 (apply growing_bind; [by apply growing_run, growing_draw|]; intros ?).
    apply growing_bind; [by apply growing_run, growing_reads|]. intros t. apply growing_run, growing_save_user.
  - clear -Hkeys. induction keys as [|k keys IH]; cbn [each_m]; [by apply growing_reads|].
    apply growing_bind; [apply growing_rotate, Hkeys; by left|]. intros _. apply IH. intros k' Hk'. apply Hkeys. by right.
Qed.
Lemma growing_seed_admin c : growing (seed_admin_user c).
Proof.
  unfold seed_admin_user. destruct (negb _); [by apply growing_reads|]. destruct (_ <? _); [by apply growing_reads|].
  apply growing_bind; [by apply growing_reads|]. intros [u|]; [by apply growing_reads|].
  do 2 (apply growing_bind; [by apply growing_draw|]; intros ?). apply growing_bind; [by apply growing_reads|]. intros t.
  apply growing_bind; [by apply growing_save_user|]. intros _. by apply growing_reads.
Qed.

(** ** A started application *)
Record started (env : gmap string string) (c : Settings) (st : Store) (app : Application) : Prop := {
  up_secret : 32 <= py_len (jwt_secret (st_config (app_settings app))) /\ ~ In (jwt_secret (st_config (app_settings app))) INSECURE_JWT_SECRETS;
  up_backend : create_storage motor_installed (app_settings app) = Ok (app_backend app) /\ storage_init (app_backend app) = Ok st;
  up_mode : match app_conformance app with
    | None => app_settings app = c /\ In (py_lower (py_strip (default EmptyString (env !! MODE_ENV)))) [EmptyString; "0"; "false"]
    | Some payload => exists seed applied, seed_from_env cbn_ repr yaml_load read_text make_url env (database_url c)
          (id_token_private_key_pem (st_config c)) = Ok (Some seed)
        /\ app_settings app = with_seed c seed /\ issuer (st_config (app_settings app)) = s_issuer seed /\ payload = readiness applied
    end;
  up_tables : store_ok st -> store_ok (a_store (app_state app));
  up_keeps : forall cid r, get_client cid st = Some r -> get_client cid (a_store (app_state app)) = Some r;
  up_keys : current_unexpiring (a_keyset (app_state app));
  up_limiter : Limiter.limiter_ok (a_rate_limiter (app_state app)) (a_mono (app_state app));
  up_login : FixedWindow.windows (a_login_limiter (app_state app)) = ∅;
  up_breaker : breaker_ok (app_circuit_breaker app);
  up_social : forall p, In p OAUTH_PROVIDERS -> a_social_breakers (app_state app) !! p = Some new_social_breaker;
  up_denylist : denylist (a_store (app_state app)) = denylist st
}.

Lemma built_from env c wall mono draws app :
  build cbn_ repr yaml_load read_text make_url hs256_secret rs256_pem token_bytes motor_installed storage_init env c wall mono draws = Ok app ->
  exists seed backend st s' payload,
    let c' := match seed with Some s => with_seed c s | None => c end in
    let app0 := create_app token_bytes c' backend st wall mono draws in
    seed_from_env cbn_ repr yaml_load read_text make_url env (database_url c) (id_token_private_key_pem (st_config c)) = Ok seed
    /\ validate_for_production (st_config c') = Ok tt /\ create_storage motor_installed c' = Ok backend /\ storage_init backend = Ok st
    /\ grows (app_state app0) s' /\ app = with_app_state app0 s' payload
    /\ match seed with None => payload = None | Some _ => exists a, payload = Some (readiness a) end.
Proof.
  unfold build. intros Hb. destruct (seed_from_env _ _ _ _ _ _ _ _) as [seed|] eqn:Hs; [|done]. cbn [rbind] in Hb. cbv zeta in Hb.
  set (c' := match seed with Some s => with_seed c s | None => c end) in *.
  destruct (validate_for_production _) as [[]|] eqn:Hv; [|done]. cbn [raised rbind] in Hb.
  destruct (create_storage _ _) as [backend|] eqn:Hc; [|done]. cbn [raised rbind] in Hb.
  destruct (storage_init backend) as [st|] eqn:Hst; [|done]. cbn [raised rbind] in Hb. unfold lifespan in Hb.
  exists seed, backend, st. destruct seed as [seed|].
  - destruct (apply_seed _ _ _ _ _) as [[a|] s'] eqn:Ha; [|done]. injection Hb as <-. apply growing_apply_seed in Ha.
    exists s', (Some (readiness a)). cbn zeta. split_and! ; eauto.
  - destruct (seed_admin_user _ _) as [[b|] s'] eqn:Ha; [|done]. injection Hb as <-. apply growing_seed_admin in Ha.
    exists s', None. cbn zeta. split_and! ; eauto.
Qed.
Lemma secret_checked c u : validate_for_production c = Ok u -> 32 <= py_len (jwt_secret c) /\ ~ In (jwt_secret c) INSECURE_JWT_SECRETS.
Proof.
  unfold validate_for_production. destruct (_ || _) eqn:Hb; [done|]. intros _. apply orb_false_iff in Hb as [Hl Hm].
  split; [by apply Z.ltb_ge|]. intros Hin. apply mem_str_In in Hin. by rewrite Hin in Hm.
Qed.
Lemma fresh_limiter_ok n w mono : Limiter.limiter_ok (Limiter.new_limiter n w) mono.
Proof. split; [cbn; lia|]. split; [cbn; lia|]. cbn. intros k b Hk. by rewrite lookup_empty in Hk. Qed.
Lemma fresh_social p : In p OAUTH_PROVIDERS ->
  (list_to_map (map (fun p => (p, new_social_breaker)) OAUTH_PROVIDERS) : gmap string SocialCircuitBreaker) !! p = Some new_social_breaker.
Proof. intros [<-|[<-|[<-|[<-|[]]]]]; reflexivity. Qed.


(** the administrator is seeded only with an explicit password of at least
    eight characters and a free user name, as an enabled administrator with a
    hash of that password; otherwise nothing is written. *)
Theorem admin_seeded c s :
  match seed_admin_user c s with
  | (Ok true, s') => exists password, seed_password c = Some password /\ MIN_SEED_PASSWORD_LEN <= py_len password
      /\ get_user_by_username (seed_username c) (a_store s) = None
      /\ users (a_store s') = users (a_store s) ++ [mkUser (uuid4_hex (S (a_draws s))) (seed_username c)
           (argon2_hash (a_draws s) password) (seed_email c) true "admin" (a_wall s) (a_wall s)]
  | (Ok false, s') => s' = s /\ (truthy_o (seed_password c) = false
      \/ (exists password, seed_password c = Some password /\ py_len password < MIN_SEED_PASSWORD_LEN)
      \/ is_Some (get_user_by_username (seed_username c) (a_store s)))
  | (Err e, s') => a_store s' = a_store s /\ e = PyErr IntegrityError "users"
  end.
Proof.
  unfold seed_admin_user. destruct (seed_password c) as [password|] eqn:Hp; cbn [truthy_o from_option_b negb default id];
    [|split; [done|by left]].
  destruct (truthy password) eqn:Ht; cbn [negb]; [|split; [done|by left]].
  destruct (py_len password <? MIN_SEED_PASSWORD_LEN) eqn:Hl; [split; [done|right; left; exists password; split; [done|by apply Z.ltb_lt]]|].
  unfold sbind at 1, query, sget at 1. destruct (get_user_by_username _ _) as [u|] eqn:Hu; [split; [done|right; right; eauto]|].
  unfold sbind, draw, sget, insert, save_user. cbn [a_store a_draws a_wall with_draws u_id u_username].
  destruct (existsb _ _) eqn:He; [done|]. cbn. exists password. split_and! ; [done|by apply Z.ltb_ge|done|done].
Qed.
End seeding.

(** ** The well-known client *)
Lemma default_client_accepted config t rq mtls s :
  get_client "default_client" (a_store s) = Some (default_client t) ->
  check_subject_denylisted (a_wall s) "client_id" "default_client" (a_store s) = None ->
  presented_credentials rq = Ok (Some "default_client", Some DEFAULT_CLIENT_SECRET) ->
  fst (authenticate config rq mtls s) = Ok (default_client t).
Proof.
  intros Hc Hd Hp. unfold authenticate. rewrite Hp. unfold sbind at 1, slift. cbn [truthy_o from_option_b]. cbn [negb default].
  change (truthy "default_client") with true. cbn [negb id]. unfold sbind at 1, query at 1, sget at 1. rewrite Hc.
  cbn [c_enabled default_client negb]. unfold sbind at 1, sget at 1. unfold sbind at 1, query at 1, sget at 1.
  cbn [c_client_id default_client]. rewrite Hd. by destruct mtls.
Qed.

(** whatever the mode, a server started over the tables the migrations
    create accepts the client of V5 with its published secret: neither the
    secret check nor conformance mode removes it. *)
Theorem default_client_lives cbn_ repr yaml_load read_text make_url hs rs token_bytes motor storage_init env c wall mono draws app t rq mtls :
  build cbn_ repr yaml_load read_text make_url hs rs token_bytes motor storage_init env c wall mono draws = Ok app ->
  (forall b st, storage_init b = Ok st -> get_client "default_client" st = Some (default_client t) /\ denylist st = []) ->
  presented_credentials rq = Ok (Some "default_client", Some DEFAULT_CLIENT_SECRET) ->
  fst (authenticate (st_config (app_settings app)) rq mtls (app_state app)) = Ok (default_client t).
Proof.
  intros Hb Hinit Hp. apply built_from in Hb as (seed & backend & st & s' & payload & _ & _ & _ & Hst & Hg & -> & _).
  apply Hinit in Hst as [Hc Hd]. destruct Hg as [_ Gc _ _ (_ & _ & _ & _ & _ & G6)]. unfold create_app in *.
  destruct (decode_dpop_nonce_secret _ _ _) as [sec dr]. cbn [app_state a_store] in *. cbn [with_app_state app_state app_settings].
  apply default_client_accepted; [by apply Gc| |done]. unfold check_subject_denylisted, find_denylist_entry. by rewrite G6, Hd.
Qed.
End startup.

(** ** Concrete starts *)
Definition toy_settings : Settings :=
  mkSettings (toy_config true) "sqlite+aiosqlite://" 10 [] false "admin" (Some "correct horse") "admin@example.com" 10 900 None true 100 60 5
    true 1000 5 2 30 3 true "in_memory" "allow_all" [].
Definition toy_token_bytes (n : nat) : string := "random bytes of the process".
Definition toy_migrated : Store := on_clients (fun _ => [default_client 0]) (on_users (fun _ => []) (toy_store false false)).
Definition toy_build (env : gmap string string) : result seed_error Application :=
  build toy_brackets id toy_load toy_read toy_make_url toy_hs toy_hs toy_token_bytes false (fun _ => Ok toy_migrated) env toy_settings
    (100 * SECOND) 0 0.
Definition toy_app (env : gmap string string) : Application :=
  match toy_build env with Ok a => a | Err _ => create_app toy_token_bytes toy_settings (MongoStorage "none") toy_migrated 0 0 0 end.
Lemma toy_started env : is_ok (toy_build env) = true -> toy_build env = Ok (toy_app env).
Proof. unfold toy_app. by destruct (toy_build env). Qed.
Lemma toy_starts : toy_build ∅ = Ok (toy_app ∅) /\ toy_build (toy_env "ci") = Ok (toy_app (toy_env "ci")).
Proof. split; apply toy_started; vm_compute; reflexivity. Qed.
Definition default_client_request : Request :=
  form_request [("grant_type", "client_credentials"); ("client_id", "default_client"); ("client_secret", DEFAULT_CLIENT_SECRET)].
Lemma default_client_lives_witness :
  fst (authenticate (st_config (app_settings (toy_app (toy_env "ci")))) default_client_request (None, None) (app_state (toy_app (toy_env "ci"))))
  = Ok (default_client 0).
Proof.
  apply (default_client_lives toy_brackets id toy_load toy_read toy_make_url toy_hs toy_hs toy_token_bytes false (fun _ => Ok toy_migrated)
    (toy_env "ci") toy_settings (100 * SECOND) 0 0 (toy_app (toy_env "ci")) 0 default_client_request (None, None) (proj2 toy_starts)).
  - intros b st [= <-]. split; reflexivity.
  - vm_compute. reflexivity.
Defined.
(** The same request at the token endpoint: an access token. *)
Example default_client_gets_token :
  match token toy_brackets (toy_config true) default_client_request (app_state (toy_app (toy_env "ci"))) with
  | (Ok r, _) => r_status r
  | (Err _, _) => 0
  end = 200.
Proof. vm_compute. reflexivity. Qed.
