(* ===== verification/Process.v ===== *)
(** * The process around the application
    ([__main__.py], [telemetry.py], [security.derive_session_key])

    [main] is the parent process that checks the configuration before it
    spawns workers; each worker runs [Startup.build].  Tracing is the module's
    flag with the instrumentation it installed; OpenTelemetry itself is
    reduced to the calls made of it.  The cookie key is HKDF-SHA256 of the JWT
    secret, on the executable HMAC of Codec.v. *)
From S2P Require Import Prelude PyStr PyJson Codec PyInt Models Storage Jwt App PyDumps Conformance ConformanceProps Startup StartupProps ToyJwt.
#[local] Open Scope Z_scope.

(** ** The key of the session cookie *)
Definition SESSION_KEY_INFO : string := "oauth2-session-cookie".
(** [HKDF(SHA256, length=32, salt=b"", info)]: extract, and one round of
    expand, since 32 bytes are one block. *)
Definition hkdf_32 (ikm info : string) : string :=
  hmac_sha256 (hmac_sha256 EmptyString ikm) (info +:+ String (ascii_of_N 1) EmptyString).
Definition derive_session_key (jwt_secret : string) : string := hex_text (hkdf_32 jwt_secret SESSION_KEY_INFO).

(** RFC 5869, test case 3: the first block. *)
Example hkdf_vector :
  hex_text (hkdf_32 (string_of (repeat 11%N 22)) EmptyString)
  = "8da4e775a563c18f715f802a063c5a31b8a11f5c5ee1879ec3454e5f3c738d2d".
Proof. by vm_compute. Qed.

(** ** telemetry.py *)
Definition environment := gmap string string.
Definition getenv (k : string) (env : environment) : string := default EmptyString (env !! k).
Definition EXCLUDED_URLS : string := "health,ready,metrics".

Definition tracing_requested (env : environment) : bool :=
  (truthy (getenv "OTEL_EXPORTER_OTLP_TRACES_ENDPOINT" env) || truthy (getenv "OTEL_EXPORTER_OTLP_ENDPOINT" env))
  && negb (String.eqb (py_lower (getenv "OTEL_SDK_DISABLED" env)) "true").

(** A span that records, and its attributes. *)
Record Span := mkSpan { recording : bool; attributes : pydict }.
Definition set_attribute (k : string) (v : json) (span : Span) : Span :=
  mkSpan (recording span) (obj_set k v (attributes span)).
Definition has_query (v : string) : bool := py_contains_char "?" v.
Definition cut_query (k : string) (span : Span) : Span :=
  match get_str k (attributes span) with
  | Some v => if has_query v then set_attribute k (JStr (fst (py_partition "?" v))) span else span
  | None => span
  end.
Definition redact (k : string) (v : json) (span : Span) : Span :=
  if obj_has k (attributes span) then set_attribute k v span else span.
(** [path] is [scope.get("path")]. *)
Definition strip_query (path : option string) (span : Span) : Span :=
  if negb (recording span) then span else
  cut_query "url.full" (cut_query "http.url"
    (redact "http.target" (JStr (or_else path "/")) (redact "url.query" (JStr "[redacted]") span))).

(** The module global, and what was instrumented. *)
Record Tracing := mkTracing { configured : bool; service_name : option string; instrumented : list string }.
Definition untraced : Tracing := mkTracing false None [].
Definition setup_tracing (env : environment) (otel_installed : bool) (t : Tracing) : bool * Tracing :=
  if configured t then (true, t)
  else if negb (tracing_requested env) then (false, t)
  else if negb otel_installed then (false, t)
  else (true, mkTracing true (Some (default "oauth2-server" (env !! "OTEL_SERVICE_NAME"))) (instrumented t ++ ["httpx"; "pymongo"])).
(** [FastAPIInstrumentor.instrument_app]: the excluded URLs, and [strip_query]
    as the hook. *)
Record Instrumentation := mkInstrumentation { excluded_urls : string; server_request_hook : option string -> Span -> Span; exclude_spans : list string }.
Definition instrument_app (t : Tracing) : option Instrumentation :=
  if negb (configured t) then None else Some (mkInstrumentation EXCLUDED_URLS strip_query ["receive"; "send"]).

(** ** __main__.py *)
Record Server := mkServer { app_path : string; factory : bool; host : string; port : Z; loop : string; http : string; workers : Z }.

Section process.
Context `{JwtLib} `{Runtime}.
Context (cbn_ : string -> bool) (repr : string -> string) (yaml_load : string -> yaml_outcome)
  (read_text : string -> read_outcome) (make_url : string -> option (string * option string))
  (hs256_secret rs256_pem token_bytes : nat -> string) (motor_installed : bool) (storage_init : Backend -> result exn Store).
Notation seed_of := (seed_from_env cbn_ repr yaml_load read_text make_url).
Notation build := (build cbn_ repr yaml_load read_text make_url hs256_secret rs256_pem token_bytes motor_installed storage_init).

(** [int(os.environ.get("OAUTH2_WORKERS", os.cpu_count() or 1))] *)
Definition worker_count (env : environment) (cpu_count : option Z) : result exn Z :=
  match env !! "OAUTH2_WORKERS" with
  | Some s => match py_int s with Some n => Ok n | None => Err (PyErr ValueError "invalid literal for int()") end
  | None => Ok (match cpu_count with Some n => if n =? 0 then 1 else n | None => 1 end)
  end.
Definition main (env : environment) (c : Settings) (host : string) (port : Z) (cpu_count : option Z) : result seed_error Server :=
  let? _ := raised (validate_for_production (st_config c)) in
  let? seed := seed_of env (database_url c) (id_token_private_key_pem (st_config c)) in
  let? workers := match seed with Some _ => Ok 1 | None => raised (worker_count env cpu_count) end in
  Ok (mkServer "oauth2_server.app:build" true host port "uvloop" "httptools" workers).

(** The worker's [build] with tracing set up in between. *)
Definition build_traced (env : environment) (c : Settings) (otel_installed : bool) (wall mono : Z) (draws : nat) (t : Tracing)
  : result seed_error (Application * option Instrumentation) * Tracing :=
  match (let? seed := seed_of env (database_url c) (id_token_private_key_pem (st_config c)) in
         raised (validate_for_production (st_config (match seed with Some s => with_seed c s | None => c end)))) with
  | Err e => (Err e, t)
  | Ok _ =>
      let '(tracing, t) := setup_tracing env otel_installed t in
      (rmap (fun app => (app, if tracing then instrument_app t else None)) (build env c wall mono draws), t)
  end.
End process.

(** ** Spans carry no query *)
Lemma partition_left sep s : py_contains_char sep (fst (py_partition sep s)) = false.
Proof.
  induction s as [|c s IH]; [done|]. cbn [py_partition]. destruct (Ascii.eqb c sep) eqn:E; [done|].
  destruct (py_partition sep s) as [a b]. cbn [fst py_contains_char] in *. by rewrite E, IH.
Qed.
Lemma get_str_set k k' v m : get_str k (obj_set k' v m) = if String.eqb k k' then as_str v else get_str k m.
Proof.
  unfold get_str. destruct (String.eqb_spec k k') as [->|Hn]; [by rewrite obj_get_set_same; destruct v|by rewrite obj_get_set_other].
Qed.
Lemma cut_query_get k k' span : get_str k (attributes (cut_query k' span))
  = if String.eqb k k' then option_map (fun v => fst (py_partition "?" v)) (get_str k (attributes span)) else get_str k (attributes span).
Proof.
  unfold cut_query. destruct (String.eqb_spec k k') as [->|Hn].
  - destruct (get_str k' (attributes span)) as [v|] eqn:E; cbn; [|done].
    destruct (has_query v) eqn:Eq; cbn [attributes set_attribute]; [by rewrite get_str_set, String.eqb_refl|]. rewrite E. f_equal.
    clear E. unfold has_query in Eq. induction v as [|c v IH]; [done|]. cbn [py_contains_char py_partition] in *.
    destruct (Ascii.eqb c "?"); [done|]. destruct (py_partition "?" v). cbn in *. f_equal. by apply IH.
  - destruct (get_str k' (attributes span)) as [v|]; [|done]. destruct (has_query v); [|done]. cbn [attributes set_attribute].
    rewrite get_str_set. by destruct (String.eqb_spec k k').
Qed.
Lemma cut_query_other k k' span : k <> k' -> obj_get k (attributes (cut_query k' span)) = obj_get k (attributes span).
Proof.
  intros Hn. unfold cut_query. destruct (get_str k' _) as [v|]; [|done]. destruct (has_query v); [|done]. by apply obj_get_set_other.
Qed.
Lemma redact_get k v span : obj_get k (attributes (redact k v span)) = option_map (fun _ => v) (obj_get k (attributes span)).
Proof.
  unfold redact, obj_has. destruct (obj_get k (attributes span)) eqn:E; cbn [option_map]; [by apply obj_get_set_same|done].
Qed.
Lemma redact_other k k' v span : k <> k' -> obj_get k (attributes (redact k' v span)) = obj_get k (attributes span).
Proof. intros Hn. unfold redact. destruct (obj_has k' _); [by apply obj_get_set_other|done]. Qed.

(** what the request hook leaves of a recording span: the query is redacted,
    the target is the path, no URL string contains a question mark, and every
    other attribute is untouched. *)
Theorem strip_query_redacts (path : option string) (span : Span) : recording span = true ->
  let after := attributes (strip_query path span) in
  obj_get "url.query" after = option_map (fun _ => JStr "[redacted]") (obj_get "url.query" (attributes span))
  /\ obj_get "http.target" after = option_map (fun _ => JStr (or_else path "/")) (obj_get "http.target" (attributes span))
  /\ (forall k v, k = "http.url" \/ k = "url.full" -> get_str k after = Some v -> has_query v = false)
  /\ (forall k, ~ In k ["url.query"; "http.target"; "http.url"; "url.full"] -> obj_get k after = obj_get k (attributes span)).
Proof.
  intros Hr. unfold strip_query. rewrite Hr. cbn [negb]. cbv zeta. split_and! .
  - by rewrite !cut_query_other, redact_other, redact_get.
  - by rewrite !cut_query_other, redact_get, redact_other.
  - assert (forall x v, option_map (fun w => fst (py_partition "?" w)) x = Some v -> has_query v = false) as Hcut.
    { intros [w|] v; [|done]. intros [= <-]. apply partition_left. }
    intros k v [->| ->]; rewrite !cut_query_get; cbn [String.eqb Ascii.eqb Bool.eqb]; apply Hcut.
  - intros k Hk. cbn [In] in Hk. rewrite !cut_query_other, !redact_other; [done|..]; intros ->; tauto.
Qed.
Lemma strip_query_redacts_witness :
  recording (mkSpan true [("http.url", JStr "https://a/cb?code=SECRET"); ("url.query", JStr "code=SECRET")]) = true
  /\ attributes (strip_query (Some "/cb") (mkSpan true [("http.url", JStr "https://a/cb?code=SECRET"); ("url.query", JStr "code=SECRET")]))
     = [("http.url", JStr "https://a/cb"); ("url.query", JStr "[redacted]")]
  /\ obj_get "url.query" (attributes (strip_query (Some "/cb") (mkSpan true [("url.query", JStr "code=SECRET")]))) = Some (JStr "[redacted]").
Proof.
  split; [reflexivity|]. split; [vm_compute; reflexivity|].
  exact (proj1 (strip_query_redacts (Some "/cb") (mkSpan true [("url.query", JStr "code=SECRET")]) eq_refl)).
Defined.

(** ** Tracing is off unless it was asked for *)
Lemma setup_tracing_reports env inst t : fst (setup_tracing env inst t) = configured (snd (setup_tracing env inst t)).
Proof. unfold setup_tracing. destruct (configured t) eqn:E; [done|]. destruct (tracing_requested env); cbn; [|done]. by destruct inst. Qed.
Lemma setup_tracing_idempotent env inst t : setup_tracing env inst (snd (setup_tracing env inst t)) = setup_tracing env inst t.
Proof.
  unfold setup_tracing. by destruct (configured t) eqn:E, (tracing_requested env), inst; cbn; rewrite ?E.
Qed.
Lemma untraced_stays env inst : tracing_requested env = false \/ inst = false ->
  setup_tracing env inst untraced = (false, untraced) /\ instrument_app untraced = None.
Proof. unfold setup_tracing. intros [->| ->]; [done|]. by destruct (tracing_requested env). Qed.
Lemma instrumented_strips t i : instrument_app t = Some i -> configured t = true /\ server_request_hook i = strip_query.
Proof. unfold instrument_app. destruct (configured t); [|done]. by intros [= <-]. Qed.

(** ** The parent checks what the workers check *)
Section main.
Context `{JwtLib} `{Runtime}.
Context (cbn_ : string -> bool) (repr : string -> string) (yaml_load : string -> yaml_outcome)
  (read_text : string -> read_outcome) (make_url : string -> option (string * option string))
  (hs256_secret rs256_pem token_bytes : nat -> string) (motor_installed : bool) (storage_init : Backend -> result exn Store).
Notation seed_of := (seed_from_env cbn_ repr yaml_load read_text make_url).
Notation build := (build cbn_ repr yaml_load read_text make_url hs256_secret rs256_pem token_bytes motor_installed storage_init).

(** a server the parent starts has a strong secret, a single worker in
    conformance mode, and workers none of whose own checks can fail: only the
    storage and the seeding are left to go wrong. *)
Theorem main_prechecks (env : environment) (c : Settings) (host : string) (port : Z) (cpu_count : option Z) (srv : Server) :
  main cbn_ repr yaml_load read_text make_url env c host port cpu_count = Ok srv ->
  32 <= py_len (jwt_secret (st_config c)) /\ ~ In (jwt_secret (st_config c)) INSECURE_JWT_SECRETS
  /\ exists seed, seed_of env (database_url c) (id_token_private_key_pem (st_config c)) = Ok seed
     /\ (seed <> None -> workers srv = 1)
     /\ forall wall mono draws,
          let c' := match seed with Some s => with_seed c s | None => c end in
          build env c wall mono draws =
          (let? backend := raised (create_storage motor_installed c') in
           let? st := raised (storage_init backend) in
           lifespan repr hs256_secret rs256_pem seed c' (create_app token_bytes c' backend st wall mono draws)).
Proof.
  unfold main. intros Hm. destruct (validate_for_production (st_config c)) as [[]|] eqn:Hv; cbn [raised rbind] in Hm; [|done].
  assert (forall c', jwt_secret (st_config c') = jwt_secret (st_config c) -> validate_for_production (st_config c') = Ok tt) as Hsame.
  { intros c' Hj. unfold validate_for_production in *. by rewrite Hj. }
  assert (32 <= py_len (jwt_secret (st_config c)) /\ ~ In (jwt_secret (st_config c)) INSECURE_JWT_SECRETS) as [Hl Hn].
  { unfold validate_for_production in Hv. destruct (_ || _) eqn:E in Hv; [done|]. apply orb_false_iff in E as [E1 E2].
    split; [by apply Z.ltb_ge|]. rewrite <- mem_str_In. by rewrite E2. }
  destruct (seed_of _ _ _) as [seed|] eqn:Hs; cbn [rbind] in Hm; [|done]. split_and! ; [done|done|]. exists seed. split_and! ; [done| |].
  - destruct seed; [|done]. cbn [rbind] in Hm. by injection Hm as <-.
  - intros wall mono draws. unfold build. rewrite Hs. cbn [rbind]. rewrite Hsame by (by destruct seed). done.
Qed.
End main.

(** ** Starts *)
Definition toy_main (env : environment) : result seed_error Server :=
  main toy_brackets id toy_load toy_read toy_make_url env toy_settings "0.0.0.0" 8080 (Some 4).
Example workers_chosen :
  map (fun env => rmap workers (toy_main env)) [∅; {["OAUTH2_WORKERS" := "2"]}; {["OAUTH2_WORKERS" := "two"]}; toy_env "ci"]
  = [Ok 4; Ok 2; Err (Raised (PyErr ValueError "invalid literal for int()")); Ok 1].
Proof. vm_compute. reflexivity. Qed.
Lemma main_prechecks_witness : exists srv seed, toy_main (toy_env "ci") = Ok srv /\ workers srv = 1
  /\ seed_from_env toy_brackets id toy_load toy_read toy_make_url (toy_env "ci") (database_url toy_settings)
       (id_token_private_key_pem (st_config toy_settings)) = Ok seed.
Proof.
  assert (is_ok (toy_main (toy_env "ci")) = true) as Hok by (vm_compute; reflexivity).
  destruct (toy_main (toy_env "ci")) as [srv|] eqn:Hm; [|discriminate Hok].
  destruct (main_prechecks toy_brackets id toy_load toy_read toy_make_url toy_hs toy_hs toy_token_bytes false (fun _ => Ok toy_migrated)
    (toy_env "ci") toy_settings "0.0.0.0" 8080 (Some 4) srv Hm) as (_ & _ & seed & Hs & _).
  exists srv, seed. split; [reflexivity|]. split; [|exact Hs].
  assert (rmap workers (toy_main (toy_env "ci")) = Ok 1) as Hw by (vm_compute; reflexivity).
  rewrite Hm in Hw. injection Hw. trivial.
Defined.
