(* ===== verification/Pages.v ===== *)
(** * Two HTML pages: sign-in and session status
    ([routes/login.py]: the template and [GET /auth/login]; [routes/logout.py]:
    the script of [_CHECK_SESSION_HTML]) *)
From S2P Require Import Prelude PyStr PyJson Codec Models PyUrl Redirects App PyDumps Login.
#[local] Open Scope Z_scope.

(** What [importlib.resources] finds: the text, an error that is caught, or one
    that is not (text that does not decode). *)
Inductive resource := Template (text : string) | MissingTemplate | BrokenTemplate (e : exn).
(** Apostrophes stand for the quotation marks. *)
Definition html_lines (l : list string) : string :=
  map_string (fun c => if Ascii.eqb c "'" then dquote else c) (fold_right (fun s rest => s +:+ String (ascii_of_nat 10) rest) EmptyString l).
Definition FALLBACK_LOGIN_HTML : string := html_lines
  ["<!doctype html>"; "<html lang='en'>"; "<head>"; "<meta charset='utf-8'>"; "<title>Sign in</title>"; "</head>"; "<body>";
   "<h1>Sign in</h1>"; "<!--SERVER_ERROR-->"; "<form method='post' action='/auth/login'>";
   "  <label for='username'>Username</label>";
   "  <input type='text' id='username' name='username' autocomplete='username' required>";
   "  <label for='password'>Password</label>";
   "  <input type='password' id='password' name='password' autocomplete='current-password' required>";
   "  <button type='submit'>Sign in</button>"; "</form>"; "</body>"; "</html>"].
Definition load_login_template (found : resource) : result exn string :=
  match found with
  | Template text => Ok text
  | MissingTemplate => Ok FALLBACK_LOGIN_HTML
  | BrokenTemplate e => Err e
  end.
(** [GET /auth/login]: the body of the page. *)
Definition login_page (found : resource) (error : option string) : result exn string :=
  let? template := load_login_template found in Ok (render_login_page template error).

(** The page shows one of five texts: the key in the query is never in it. *)
Definition shown_messages : list string := map snd error_messages ++ [generic_error_message].
Lemma error_message_fixed error : In (error_message error) shown_messages.
Proof.
  unfold error_message, shown_messages. destruct (List.find _ error_messages) as [[k m]|] eqn:E; apply in_app_iff; [left|right; by left].
  apply find_some in E as [Hin _]. change m with (snd (k, m)). by apply in_map.
Qed.
Theorem login_page_fixed found error page : login_page found (Some error) = Ok page ->
  exists template message, load_login_template found = Ok template /\ In message shown_messages
  /\ page = py_replace server_error_placeholder
       ("<div class=" +:+ quoted "error" +:+ ">" +:+ message +:+ "</div>") template.
Proof.
  unfold login_page. destruct (load_login_template found) as [t|e] eqn:Hl; [|done]. cbn [rbind]. intros [= <-].
  exists t, (error_message error). split_and! ; [done|apply error_message_fixed|]. unfold render_login_page. repeat f_equal.
  pose proof (error_message_fixed error) as Hin. unfold shown_messages in Hin. revert Hin. generalize (error_message error). intros m Hin.
  repeat (destruct Hin as [<-|Hin]; [vm_compute; reflexivity|]). done.
Qed.
(** The built-in page has the place for the message, once. *)
Lemma fallback_placed : exists before after, FALLBACK_LOGIN_HTML = before +:+ server_error_placeholder +:+ after
  /\ forall error, exists banner, login_page MissingTemplate (Some error) = Ok (before +:+ banner +:+ after)
       /\ login_page MissingTemplate None = Ok (before +:+ after).
Proof.
  exists (html_lines ["<!doctype html>"; "<html lang='en'>"; "<head>"; "<meta charset='utf-8'>"; "<title>Sign in</title>"; "</head>"; "<body>"; "<h1>Sign in</h1>"]).
  exists (String (ascii_of_nat 10) (html_lines ["<form method='post' action='/auth/login'>";
   "  <label for='username'>Username</label>";
   "  <input type='text' id='username' name='username' autocomplete='username' required>";
   "  <label for='password'>Password</label>";
   "  <input type='password' id='password' name='password' autocomplete='current-password' required>";
   "  <button type='submit'>Sign in</button>"; "</form>"; "</body>"; "</html>"])).
  split; [vm_compute; reflexivity|]. intros error.
  destruct (login_page_fixed MissingTemplate error _ eq_refl) as (t & m & Ht & Hm & Hp). injection Ht as <-.
  exists ("<div class=" +:+ quoted "error" +:+ ">" +:+ m +:+ "</div>"). split; [|vm_compute; reflexivity].
  unfold login_page. cbn [load_login_template rbind]. rewrite Hp. reflexivity.
Qed.
Lemma login_page_fixed_witness : exists template message,
  login_page (Template "<p><!--SERVER_ERROR--></p>") (Some "<script>") = Ok (py_replace server_error_placeholder message template)
  /\ login_page (Template "<p><!--SERVER_ERROR--></p>") None = Ok "<p></p>".
Proof.
  destruct (login_page_fixed (Template "<p><!--SERVER_ERROR--></p>") "<script>" _ eq_refl) as (t & m & _ & _ & Hp).
  exists t, ("<div class=" +:+ quoted "error" +:+ ">" +:+ m +:+ "</div>"). split; [rewrite <- Hp; reflexivity|reflexivity].
Defined.

(** ** The session-status page
    ([routes/logout.py], the script of [_CHECK_SESSION_HTML])

    The page asks nobody: it compares the hash in the session state that the
    relying party's frame posts with the hash of its own view of the session.
    Its script is JavaScript; strings are UTF-8 here, as in the hash's input.
    A posted message is its text, the browser's document has the cookies of
    one string. *)

(** ** The parts of JavaScript the script uses *)
Fixpoint strip_prefix (p s : string) : option string :=
  match p, s with
  | EmptyString, _ => Some s
  | String a p, String b s => if Ascii.eqb a b then strip_prefix p s else None
  | String _ _, EmptyString => None
  end.
(** What follows the last separator: [s.slice(s.lastIndexOf(sep) + 1)]. *)
Fixpoint after_last (sep : ascii) (s : string) : option string :=
  match s with
  | EmptyString => None
  | String c s => match after_last sep s with
                  | Some r => Some r
                  | None => if Ascii.eqb c sep then Some s else None
                  end
  end.
Definition first_part (sep : ascii) (s : string) : string := default EmptyString (head (py_split_on sep s)).
(** [decodeURIComponent] raises on a malformed escape and on bytes that are no
    UTF-8. *)
Fixpoint unescape (s : string) : option (list N) :=
  match s with
  | EmptyString => Some []
  | String c s1 =>
      if Ascii.eqb c "%" then
        match s1 with
        | String a (String b s3) =>
            match hex_of a, hex_of b with Some x, Some y => option_map (cons (x * 16 + y)%N) (unescape s3) | _, _ => None end
        | _ => None
        end
      else option_map (cons (N_of_ascii c)) (unescape s1)
  end.
Definition decodeURIComponent (s : string) : option string :=
  match unescape s with
  | Some l => let t := string_of l in if utf8_valid t then Some t else None
  | None => None
  end.

(** ** The script *)
Definition getSalt (sessionState : string) : string := default EmptyString (after_last "." sessionState).
(** The leftmost [name=], at the start or after a semicolon and a space, and
    what follows it up to a semicolon. *)
Definition value_part (s : string) : string := first_part ";" s.
Fixpoint match_later (name s : string) : option string :=
  match strip_prefix ("; " +:+ name +:+ "=") s, s with
  | Some rest, _ => Some (value_part rest)
  | None, EmptyString => None
  | None, String _ s => match_later name s
  end.
Definition match_cookie (name cookie : string) : option string :=
  match strip_prefix (name +:+ "=") cookie with
  | Some rest => Some (value_part rest)
  | None => match_later name cookie
  end.
Definition getCookie (name cookie : string) : option string :=
  match match_cookie name cookie with Some v => decodeURIComponent v | None => Some EmptyString end.
Definition sha256Hex (input : string) : string := hex_text (sha256 input).
Definition hash_input (clientId origin browserState salt : string) : string :=
  clientId +:+ " " +:+ origin +:+ " " +:+ browserState +:+ " " +:+ salt.

(** The message listener: what is posted back. *)
Definition on_message (cookie data origin : string) : string :=
  match py_split_on " " data with
  | [clientId; sessionState] =>
      let expectedHash := first_part "." sessionState in
      let salt := getSalt sessionState in
      match getCookie "op_browser_state" cookie with
      | Some browserState =>
          if String.eqb (sha256Hex (hash_input clientId origin browserState salt)) expectedHash then "unchanged" else "changed"
      | None => "error"
      end
  | _ => "error"
  end.

(** The session state of OpenID Connect Session Management 1.0, as the comment
    in the page describes it. *)
Definition session_state (client_id origin browser_state salt : string) : string :=
  sha256Hex (hash_input client_id origin browser_state salt) +:+ "." +:+ salt.

(** ** What it answers *)
Lemma first_part_app sep a b : py_contains_char sep a = false -> first_part sep (a +:+ String sep b) = a.
Proof. intros Ha. unfold first_part, py_split_on. rewrite split_on_cons by done. by rewrite append_nil. Qed.
Lemma first_part_whole sep a : py_contains_char sep a = false -> first_part sep a = a.
Proof. intros Ha. unfold first_part, py_split_on. rewrite split_on_last by done. by rewrite append_nil. Qed.
Lemma after_last_none sep a : py_contains_char sep a = false -> after_last sep a = None.
Proof.
  induction a as [|c a IH]; [done|]. cbn. intros Hc. apply orb_false_iff in Hc as [Hc Ha]. by rewrite IH, Hc.
Qed.
Lemma after_last_app sep a b : py_contains_char sep b = false -> after_last sep (a +:+ String sep b) = Some b.
Proof.
  intros Hb. induction a as [|c a IH].
  - rewrite append_nil. cbn. by rewrite after_last_none, Ascii.eqb_refl.
  - rewrite append_String. cbn. by rewrite IH.
Qed.
Lemma hex_text_without c s : (forall n, is_byte n -> py_contains_char c (hex_byte n) = false) -> py_contains_char c (hex_text s) = false.
Proof.
  intros Hc. unfold hex_text. pose proof (bytes_of_byte s) as Hs. induction Hs as [|n l Hn _ IH]; [done|].
  cbn [fold_right]. by rewrite contains_app, Hc, IH.
Qed.
Lemma hex_byte_without n : is_byte n -> py_contains_char "." (hex_byte n) = false /\ py_contains_char " " (hex_byte n) = false.
Proof.
  intros Hn. assert (negb (py_contains_char "." (hex_byte n)) && negb (py_contains_char " " (hex_byte n)) = true) as Hb
    by (revert n Hn; apply by_bytes; vm_compute; reflexivity).
  apply andb_prop in Hb as [H1 H2]. by rewrite !negb_true_iff in *.
Qed.
Lemma sha256Hex_plain s : py_contains_char "." (sha256Hex s) = false /\ py_contains_char " " (sha256Hex s) = false.
Proof. split; apply hex_text_without; intros n Hn; by apply hex_byte_without. Qed.

(** A posted state is taken apart as it was put together. *)
Lemma state_parts client_id hash salt :
  py_contains_char " " client_id = false -> py_contains_char " " salt = false -> py_contains_char "." salt = false ->
  py_contains_char "." hash = false -> py_contains_char " " hash = false ->
  py_split_on " " (client_id +:+ " " +:+ hash +:+ "." +:+ salt) = [client_id; hash +:+ "." +:+ salt]
  /\ first_part "." (hash +:+ "." +:+ salt) = hash /\ getSalt (hash +:+ "." +:+ salt) = salt.
Proof.
  intros Hc Hs Hd Hh Hh'. split_and! .
  - unfold py_split_on. change (" " +:+ hash +:+ "." +:+ salt) with (String " " (hash +:+ "." +:+ salt)). rewrite split_on_cons, split_on_last; [by rewrite !append_nil|..|done].
    rewrite !contains_app, Hh', Hs. reflexivity.
  - by apply first_part_app.
  - unfold getSalt. change ("." +:+ salt) with (String "." salt). by rewrite after_last_app.
Qed.

(** ** The cookies of a document *)
Definition cookie_text (l : list (string * string)) : string := join "; " (map (fun kv => fst kv +:+ "=" +:+ snd kv) l).
Definition cookie_ok (kv : string * string) : Prop :=
  py_contains_char ";" (fst kv) = false /\ py_contains_char "=" (fst kv) = false /\ py_contains_char ";" (snd kv) = false.

Lemma strip_prefix_app p s : strip_prefix p (p +:+ s) = Some s.
Proof. induction p as [|c p IH]; [done|]. rewrite append_String. cbn. by rewrite Ascii.eqb_refl. Qed.
Lemma strip_prefix_some p s r : strip_prefix p s = Some r -> s = p +:+ r.
Proof.
  revert s. induction p as [|a p IH]; intros s Hs; [by injection Hs as <-|]. destruct s as [|b s]; [done|]. cbn in Hs.
  destruct (Ascii.eqb_spec a b) as [->|]; [|done]. by rewrite append_String, (IH s Hs).
Qed.
(** The text of a cookie starts with [name=] only when that is its name. *)
Lemma starts_with_name name k v rest : py_contains_char "=" name = false -> py_contains_char "=" k = false ->
  strip_prefix (name +:+ "=") (k +:+ "=" +:+ v +:+ rest) = if String.eqb name k then Some (v +:+ rest) else None.
Proof.
  revert k. induction name as [|a name IH]; intros k Hn Hk.
  - destruct k as [|b k]; [done|]. cbn [py_contains_char] in Hk. apply orb_false_iff in Hk as [Hb _].
    rewrite append_String. change (strip_prefix (EmptyString +:+ "=") ?x) with (strip_prefix "=" x). cbn [strip_prefix]. by rewrite Ascii.eqb_sym, Hb.
  - cbn in Hn. apply orb_false_iff in Hn as [Ha Hn]. rewrite append_String. destruct k as [|b k].
    + change (EmptyString +:+ "=" +:+ v +:+ rest) with (String "=" (v +:+ rest)). cbn [strip_prefix]. by rewrite Ha.
    + cbn in Hk. apply orb_false_iff in Hk as [Hb Hk]. rewrite append_String. cbn [strip_prefix String.eqb].
      destruct (Ascii.eqb a b); [by apply IH|done].
Qed.
(** No match starts inside a text without semicolons. *)
Lemma match_later_skip name s r : py_contains_char ";" s = false -> match_later name (s +:+ r) = match_later name r.
Proof.
  induction s as [|c s IH]; [done|]. cbn. intros Hs. apply orb_false_iff in Hs as [Hc Hs].
  rewrite append_String. cbn [match_later]. rewrite append_String. cbn [strip_prefix]. rewrite Ascii.eqb_sym, Hc. by apply IH.
Qed.
Lemma value_first v rest : py_contains_char ";" v = false -> rest = EmptyString \/ (exists r, rest = String ";" r) -> value_part (v +:+ rest) = v.
Proof.
  intros Hv [->|[r ->]]; unfold value_part; [rewrite string_app_nil_r; by apply first_part_whole|by apply first_part_app].
Qed.
Definition cookie_rest (l : list (string * string)) : string := match l with [] => EmptyString | _ => "; " +:+ cookie_text l end.
Lemma cookie_text_cons kv l : cookie_text (kv :: l) = fst kv +:+ "=" +:+ snd kv +:+ cookie_rest l.
Proof.
  unfold cookie_rest, cookie_text. destruct l as [|kv' l]; [cbn; by rewrite string_app_nil_r|].
  cbn [map join]. by rewrite !string_app_assoc.
Qed.
Definition named (name : string) (l : list (string * string)) : option string :=
  option_map snd (List.find (fun kv => String.eqb name (fst kv)) l).
Lemma match_rest name l : py_contains_char "=" name = false -> Forall cookie_ok l -> match_later name (cookie_rest l) = named name l.
Proof.
  intros Hn. induction 1 as [|kv l (Hk & Hk' & Hv) Hl IH]; [done|].
  assert (cookie_rest l = EmptyString \/ exists r, cookie_rest l = String ";" r) as Hr.
  { unfold cookie_rest. destruct l; [by left|right; by eexists]. }
  unfold named. cbn [List.find]. unfold cookie_rest at 1. rewrite cookie_text_cons.
  pose proof (starts_with_name name (fst kv) (snd kv) (cookie_rest l) Hn Hk') as Hs.
  change ("; " +:+ ?x) with (String ";" (String " " x)). cbn [match_later].
  assert (forall x, strip_prefix ("; " +:+ name +:+ "=") (String ";" (String " " x)) = strip_prefix (name +:+ "=") x) as -> by done.
  rewrite Hs. destruct (String.eqb name (fst kv)); [cbn [option_map]; f_equal; by apply value_first|].
  change (String " " (fst kv +:+ "=" +:+ snd kv +:+ cookie_rest l)) with (" " +:+ (fst kv +:+ "=" +:+ snd kv +:+ cookie_rest l)).
  rewrite <- !string_app_assoc, match_later_skip; [exact IH|].
  rewrite !contains_app, Hk, Hv. reflexivity.
Qed.
(** [getCookie] reads the first cookie of that very name. *)
Lemma getCookie_named name l : py_contains_char "=" name = false -> Forall cookie_ok l ->
  getCookie name (cookie_text l) = match named name l with Some v => decodeURIComponent v | None => Some EmptyString end.
Proof.
  intros Hn Hl. unfold getCookie. f_equal. unfold match_cookie.
  assert (match_cookie name (cookie_text l) = named name l) as Hm; [|unfold match_cookie in Hm; by rewrite Hm].
  unfold match_cookie. destruct Hl as [|kv l (Hk & Hk' & Hv) Hl].
  { assert (strip_prefix (name +:+ "=") (cookie_text []) = None) as -> by (by destruct name). done. }
  rewrite cookie_text_cons, starts_with_name by done. unfold named. cbn [List.find].
  assert (cookie_rest l = EmptyString \/ exists r, cookie_rest l = String ";" r) as Hr.
  { unfold cookie_rest. destruct l; [by left|right; by eexists]. }
  destruct (String.eqb name (fst kv)); [cbn [option_map]; f_equal; by apply value_first|].
  rewrite <- !string_app_assoc, match_later_skip by (rewrite !contains_app, Hk, Hv; reflexivity). by apply match_rest.
Qed.
(** A value without percent signs is read as it is. *)
Lemma decode_plain v : py_contains_char "%" v = false -> utf8_valid v = true -> decodeURIComponent v = Some v.
Proof.
  intros Hv Hu. unfold decodeURIComponent.
  assert (unescape v = Some (bytes_of v)) as ->; [|by rewrite string_of_bytes_of, Hu].
  clear Hu. induction v as [|c v IH]; [done|]. cbn in Hv. apply orb_false_iff in Hv as [Hc Hv]. cbn [unescape]. rewrite Hc. by rewrite IH.
Qed.

(** The page recognises its session: for a session state made as OpenID
    Connect Session Management says, of a client and a salt without separators,
    it answers "unchanged" exactly when the hash over the browser state in the
    cookie is the one in the session state - in particular when the cookie still
    has that browser state - and "changed" otherwise. *)
Theorem status_roundtrip (client_id origin browser_state salt : string) (cookies : list (string * string)) (current : string) :
  py_contains_char " " client_id = false -> py_contains_char " " salt = false -> py_contains_char "." salt = false ->
  Forall cookie_ok cookies -> named "op_browser_state" cookies = Some current ->
  py_contains_char "%" current = false -> utf8_valid current = true ->
  let posted := client_id +:+ " " +:+ session_state client_id origin browser_state salt in
  on_message (cookie_text cookies) posted origin
  = (if String.eqb (sha256Hex (hash_input client_id origin current salt)) (sha256Hex (hash_input client_id origin browser_state salt))
     then "unchanged" else "changed")
  /\ (current = browser_state -> on_message (cookie_text cookies) posted origin = "unchanged").
Proof.
  intros Hc Hs Hd Hl Hn Hp Hu. cbv zeta.
  assert (on_message (cookie_text cookies) (client_id +:+ " " +:+ session_state client_id origin browser_state salt) origin
    = if String.eqb (sha256Hex (hash_input client_id origin current salt)) (sha256Hex (hash_input client_id origin browser_state salt))
      then "unchanged" else "changed") as Ha.
  { unfold session_state. destruct (sha256Hex_plain (hash_input client_id origin browser_state salt)) as [H1 H2].
    destruct (state_parts client_id _ salt Hc Hs Hd H1 H2) as (Hsplit & Hfirst & Hsalt).
    unfold on_message. rewrite Hsplit, Hfirst, Hsalt, getCookie_named, Hn, decode_plain by done. done. }
  split; [exact Ha|]. intros ->. rewrite Ha. by rewrite String.eqb_refl.
Qed.
(** A message that is not a client and a state is an error, and so is a cookie
    that does not decode. *)
Lemma on_message_error cookie data origin :
  length (py_split_on " " data) <> 2%nat \/ getCookie "op_browser_state" cookie = None -> on_message cookie data origin = "error".
Proof.
  unfold on_message. intros [Hl|Hc].
  - destruct (py_split_on " " data) as [|a [|b [|c l]]]; try done.
  - rewrite Hc. destruct (py_split_on " " data) as [|a [|b [|c l]]]; done.
Qed.
(** Without the cookie, which this server never sets, the answer does not
    depend on any session: it is about the empty browser state. *)
Lemma status_without_cookie cookies client_id session_state origin : Forall cookie_ok cookies -> named "op_browser_state" cookies = None ->
  py_split_on " " (client_id +:+ " " +:+ session_state) = [client_id; session_state] ->
  on_message (cookie_text cookies) (client_id +:+ " " +:+ session_state) origin
  = if String.eqb (sha256Hex (hash_input client_id origin EmptyString (getSalt session_state))) (first_part "." session_state)
    then "unchanged" else "changed".
Proof. intros Hl Hn Hs. unfold on_message. by rewrite Hs, getCookie_named, Hn. Qed.

Lemma status_roundtrip_witness :
  let cookies := [("oauth2_session", "eyJ"); ("xop_browser_state", "no"); ("op_browser_state", "b-1")] in
  let posted := "web" +:+ " " +:+ session_state "web" "https://rp.example" "b-1" "s4" in
  cookie_text cookies = "oauth2_session=eyJ; xop_browser_state=no; op_browser_state=b-1"
  /\ on_message (cookie_text cookies) posted "https://rp.example" = "unchanged"
  /\ on_message (cookie_text cookies) posted "https://evil.example" = "changed"
  /\ on_message "op_browser_state=%zz" posted "https://rp.example" = "error".
Proof.
  cbv zeta. split; [reflexivity|]. split; [|split; vm_compute; reflexivity].
  assert (Forall cookie_ok [("oauth2_session", "eyJ"); ("xop_browser_state", "no"); ("op_browser_state", "b-1")]) as Hl
    by (repeat (constructor; [repeat split|]); constructor).
  exact (proj2 (status_roundtrip "web" "https://rp.example" "b-1" "s4" _ "b-1" eq_refl eq_refl eq_refl Hl eq_refl eq_refl eq_refl) eq_refl).
Defined.
