(* ===== verification/Metrics.v ===== *)
(** * The metrics registry and the layer that counts requests
    ([services/metrics.py], [middleware.MetricsMiddleware])

    prometheus_client is a parameter ([Prometheus]): a registry to which
    families are added and whose series are changed. Durations are
    nanoseconds, bucket bounds thousandths of the family's unit. *)
From S2P Require Import Prelude PyStr PyJson PyInt Models App Middleware.
#[local] Open Scope Z_scope.

Inductive family_kind := Counter | Gauge | Histogram (buckets : option (list Z)).
Record Family := mkFamily { f_kind : family_kind; f_name : string; f_help : string; f_labels : list string }.
Inductive change := Inc (n : Z) | SetTo (n : Z) | Observe (x : Z).
Class Prometheus := {
  Registry : Type;
  new_registry : Registry;
  register : Family -> ST Registry exn unit;
  (** [family.labels(...).inc(n)] and the like. *)
  change_series : Family -> list (string * string) -> change -> ST Registry exn unit;
  generate_latest : Registry -> string
}.

Definition STANDARD_LATENCY_BUCKETS : list Z := [5; 10; 25; 50; 100; 250; 500; 1000; 2500; 5000; 10000].
Definition HTTP_DURATION_BUCKETS : list Z := [1; 5; 10; 25; 50; 100; 250; 500; 1000; 2500; 5000; 10000].
Definition RATE_LIMIT_REMAINING_BUCKETS : list Z := [0; 1000; 5000; 10000; 25000; 50000; 75000; 100000].
Definition CONTENT_TYPE : string := "text/plain; version=0.0.4".

(** ** The families *)
Definition counter (name help : string) (labels : list string) : Family := mkFamily Counter ("oauth2_server_" +:+ name) help labels.
Definition gauge (name help : string) (labels : list string) : Family := mkFamily Gauge ("oauth2_server_" +:+ name) help labels.
Definition histogram (name help : string) (labels : list string) (buckets : option (list Z)) : Family :=
  mkFamily (Histogram buckets) ("oauth2_server_" +:+ name) help labels.

Definition http_requests_total := counter "http_requests_total" "Total number of HTTP requests received" [].
Definition http_request_duration_seconds :=
  histogram "http_request_duration_seconds" "HTTP request duration in seconds" [] (Some HTTP_DURATION_BUCKETS).
Definition http_requests_by_class_total :=
  counter "http_requests_by_class_total" "Total HTTP requests by response status class" ["status_class"].
Definition http_requests_total_by_route :=
  gauge "http_requests_total_by_route" "Total HTTP requests by method, route, and status" ["method"; "route"; "status"].
Definition http_request_duration_seconds_by_route :=
  histogram "http_request_duration_seconds_by_route" "HTTP request duration in seconds by method, route, and status"
    ["method"; "route"; "status"] None.
Definition http_families : list Family :=
  [http_requests_total; http_request_duration_seconds; http_requests_by_class_total; http_requests_total_by_route;
   http_request_duration_seconds_by_route].

Definition domain_families : list Family :=
  [counter "oauth_token_issued_total" "Total OAuth tokens issued" [];
   counter "oauth_token_revoked_total" "Total OAuth tokens revoked" [];
   gauge "oauth_authorization_codes_issued" "Total authorization codes issued" [];
   gauge "oauth_failed_authentications" "Total failed authentication attempts" [];
   gauge "oauth_clients_total" "Total registered OAuth clients" [];
   gauge "oauth_active_tokens" "Total active (non-expired) OAuth tokens" []].

Definition rate_limit_rejected_total :=
  counter "rate_limit_rejected_total" "Total requests rejected by rate limiting" ["ip_prefix"].
Definition circuit_breaker_state := gauge "circuit_breaker_state" "Circuit breaker state (0=Closed 1=Open 2=HalfOpen)" ["circuit"].
Definition circuit_breaker_trips_total := counter "circuit_breaker_trips_total" "Total circuit breaker trips" ["circuit"].
Definition bulkhead_rejected_total := counter "bulkhead_rejected_total" "Total requests rejected by bulkhead limiting" ["bulkhead"].
Definition errors_total := counter "errors_total" "Total errors by kind" ["kind"].
Definition http_client_requests_total :=
  counter "http_client_requests_total" "Total outbound HTTP client requests" ["peer_service"; "http_method"; "http_status_code"].
Definition http_client_request_duration_seconds :=
  histogram "http_client_request_duration_seconds" "Outbound HTTP client request duration in seconds"
    ["peer_service"; "http_method"] (Some STANDARD_LATENCY_BUCKETS).
Definition events_published_total :=
  counter "events_published_total" "Total events published to the event bus" ["backend"; "event_type"; "outcome"].
Definition events_publish_duration_seconds :=
  histogram "events_publish_duration_seconds" "Event publish duration in seconds" ["backend"; "outcome"] (Some STANDARD_LATENCY_BUCKETS).
Definition redis_client_operations_total :=
  counter "redis_client_operations_total" "Total Redis client operations" ["backend"; "operation"; "outcome"].
Definition redis_client_operation_duration_seconds :=
  histogram "redis_client_operation_duration_seconds" "Redis client operation duration in seconds" ["backend"; "operation"]
    (Some STANDARD_LATENCY_BUCKETS).
Definition parity_families : list Family :=
  [counter "db_queries_total" "Total database queries executed" [];
   histogram "db_query_duration_seconds" "Database query duration in seconds" [] None;
   rate_limit_rejected_total;
   histogram "rate_limit_remaining" "Remaining rate-limit budget observed at request time" [] (Some RATE_LIMIT_REMAINING_BUCKETS);
   circuit_breaker_state; circuit_breaker_trips_total;
   counter "back_pressure_rejected_total" "Total requests rejected by back-pressure limiting" [];
   gauge "concurrent_requests_in_flight" "Number of requests currently in flight" [];
   bulkhead_rejected_total; errors_total; http_client_requests_total; http_client_request_duration_seconds; events_published_total;
   events_publish_duration_seconds; redis_client_operations_total; redis_client_operation_duration_seconds].
Definition app_info :=
  gauge "app_info" "Static application build/version info; always 1" ["service"; "version"; "python_version"].
Definition families : list Family := http_families ++ domain_families ++ parity_families ++ [app_info].

Section registry.
Context `{Prometheus} (app_version python_version : string).
Notation R := (ST Registry exn).
Notation recorded := (Family * list (string * string) * change)%type.
Definition change_all (cs : list recorded) : R unit := each_m (fun '(f, ls, c) => change_series f ls c) cs.
(** [Metrics.__init__], on a registry of its own. *)
Definition new_metrics : R unit :=
  each_m register families !;
  change_series app_info [("service", "oauth2_server"); ("version", app_version); ("python_version", python_version)] (SetTo 1).
Definition seeds : list recorded :=
  [(rate_limit_rejected_total, [("ip_prefix", "bootstrap")], Inc 0);
   (circuit_breaker_state, [("circuit", "bootstrap")], SetTo 0);
   (circuit_breaker_trips_total, [("circuit", "bootstrap")], Inc 0);
   (bulkhead_rejected_total, [("bulkhead", "bootstrap")], Inc 0);
   (errors_total, [("kind", "internal")], Inc 0);
   (http_client_requests_total, [("peer_service", "bootstrap"); ("http_method", "GET"); ("http_status_code", "0")], Inc 0);
   (http_client_request_duration_seconds, [("peer_service", "bootstrap"); ("http_method", "GET")], Observe 0);
   (events_published_total, [("backend", "bootstrap"); ("event_type", "boot"); ("outcome", "success")], Inc 0);
   (events_publish_duration_seconds, [("backend", "bootstrap"); ("outcome", "success")], Observe 0);
   (redis_client_operations_total, [("backend", "bootstrap"); ("operation", "ping"); ("outcome", "success")], Inc 0);
   (redis_client_operation_duration_seconds, [("backend", "bootstrap"); ("operation", "ping")], Observe 0)].
Definition bootstrap_seed : R unit := change_all seeds.

(** ** MetricsMiddleware *)
Definition started_change : recorded := (http_requests_total, [], Inc 1).
Definition request_started : R unit := change_all [started_change].
Definition UNMATCHED : string := "unmatched".
Definition route_labels (method : string) (route : option string) (status : Z) : list (string * string) :=
  [("method", method); ("route", default UNMATCHED route); ("status", str_of_Z status)].
Definition completion (method : string) (route : option string) (status duration : Z) : list recorded :=
  [(http_request_duration_seconds, [], Observe duration);
   (http_requests_by_class_total, [("status_class", status_class status)], Inc 1);
   (http_requests_total_by_route, route_labels method route status, Inc 1);
   (http_request_duration_seconds_by_route, route_labels method route status, Observe duration)].
Definition request_completed (method : string) (route : option string) (status duration : Z) : R unit :=
  change_all (completion method route status duration).
(** The layer around the application: an exception of the application leaves
    only the first counter changed. [route] is the path of the matched route
    and [duration] what the performance counter measured. *)
Definition metrics_layer (is_http : bool) (method : string) (route : option string) (duration : Z) (app : App)
    : ST (AppState * Registry) exn response := fun '(s, r) =>
  let inner r := let '(res, s) := app s in (res, (s, r)) in
  if negb is_http then inner r else
  let '(res, r) := request_started r in
  match res with
  | Err e => (Err e, (s, r))
  | Ok _ =>
      match inner r with
      | (Ok resp, (s, r)) =>
          let '(res, r) := request_completed method route (r_status resp) duration r in
          (rmap (fun _ => resp) res, (s, r))
      | raised => raised
      end
  end.
(** [GET /metrics] *)
Definition scrape (r : Registry) : string * list (string * string) := (generate_latest r, [("content-type", CONTENT_TYPE)]).
End registry.

(** ** What the metrics count *)

(** ** The documented behaviour of prometheus_client *)
Definition strip_total (n : string) : string :=
  let k := (String.length n - 6)%nat in if String.eqb (String.substring k 6 n) "_total" then String.substring 0 k n else n.
(** The names a family takes in its registry. *)
Definition exposed (f : Family) : list string :=
  let n := f_name f in
  match f_kind f with
  | Counter => let b := strip_total n in [b; b +:+ "_total"; b +:+ "_created"]
  | Gauge => [n]
  | Histogram _ => [n; n +:+ "_bucket"; n +:+ "_count"; n +:+ "_sum"; n +:+ "_created"]
  end.
Definition fits (k : family_kind) (c : change) : bool :=
  match k, c with Counter, Inc n => 0 <=? n | Gauge, (Inc _ | SetTo _) => true | Histogram _, Observe _ => true | _, _ => false end.
(** The value of a series, for a histogram the number of observations. *)
Definition changed (c : change) (v : option Z) : Z :=
  match c with Inc n => default 0 v + n | SetTo n => n | Observe _ => default 0 v + 1 end.
Notation key_is f ls n ls' := (bool_decide (n = f_name f /\ ls' = ls)).

Section laws.
Context `{Prometheus} (declared : Registry -> list Family) (value : Registry -> string -> list (string * string) -> option Z).
Record prometheus_laws : Prop := {
  law_new : declared new_registry = [] /\ forall n ls, value new_registry n ls = None;
  law_register : forall f r, (forall x, In x (exposed f) -> ~ In x (concat (map exposed (declared r)))) ->
    exists r', register f r = (Ok tt, r') /\ declared r' = declared r ++ [f]
      /\ forall n ls, value r' n ls = if bool_decide (f_labels f = []) && key_is f [] n ls then Some 0 else value r n ls;
  law_change : forall f ls c r, In f (declared r) -> map fst ls = f_labels f -> fits (f_kind f) c = true ->
    exists r', change_series f ls c r = (Ok tt, r') /\ declared r' = declared r
      /\ forall n ls', value r' n ls' = if key_is f ls n ls' then Some (changed c (value r n ls')) else value r n ls'
}.
Hypothesis laws : prometheus_laws.
Notation recorded := (Family * list (string * string) * change)%type.

(** ** Registration *)
Fixpoint fresh_names (taken : list string) (fs : list Family) : bool :=
  match fs with
  | [] => true
  | f :: fs => forallb (fun x => negb (mem_str x taken)) (exposed f) && fresh_names (taken ++ exposed f) fs
  end.
Lemma registered fs : forall r, fresh_names (concat (map exposed (declared r))) fs = true ->
  exists r', each_m register fs r = (Ok tt, r') /\ declared r' = declared r ++ fs
    /\ forall n ls, value r' n ls
       = if existsb (fun f => bool_decide (f_labels f = []) && key_is f [] n ls) fs then Some 0 else value r n ls.
Proof.
  induction fs as [|f fs IH]; intros r Hf; [exists r; split_and! ; [done|by rewrite app_nil_r|done]|].
  cbn in Hf. apply andb_prop in Hf as [Hx Hf]. destruct (law_register laws f r) as (r1 & Hr & Hd & Hv).
  { intros x Hin Ht. rewrite forallb_forall in Hx. apply Hx, negb_true_iff in Hin. apply mem_str_In in Ht. by rewrite Hin in Ht. }
  destruct (IH r1) as (r2 & Hr2 & Hd2 & Hv2); [rewrite Hd, map_app, concat_app; cbn; by rewrite app_nil_r|].
  exists r2. cbn [each_m]. unfold sbind. rewrite Hr. split_and! ; [done|by rewrite Hd2, Hd, <- app_assoc|].
  intros n ls. rewrite Hv2, Hv. cbn [existsb]. by destruct (bool_decide _ && _), (existsb _ fs).
Qed.

(** ** Changes *)
Definition valid_in (fs : list Family) (c : recorded) : Prop :=
  let '(f, ls, c) := c in In f fs /\ map fst ls = f_labels f /\ fits (f_kind f) c = true.
Definition apply_change (n : string) (ls : list (string * string)) (v : option Z) (c : recorded) : option Z :=
  let '(f, ls', c) := c in if key_is f ls' n ls then Some (changed c v) else v.
Lemma changes_applied cs : forall r, Forall (valid_in (declared r)) cs ->
  exists r', change_all cs r = (Ok tt, r') /\ declared r' = declared r
    /\ forall n ls, value r' n ls = fold_left (apply_change n ls) cs (value r n ls).
Proof.
  induction cs as [|[[f ls] c] cs IH]; intros r Hv; [by exists r|]. inversion Hv as [|? ? Hc Hv']; subst. destruct Hc as (Hin & Hl & Hk).
  destruct (law_change laws f ls c r Hin Hl Hk) as (r1 & Hr & Hd & Hval). destruct (IH r1) as (r2 & Hr2 & Hd2 & Hval2); [by rewrite Hd|].
  exists r2. unfold change_all in *. cbn [each_m]. unfold sbind. rewrite Hr. split_and! ; [done|by rewrite Hd2|].
  intros n ls'. rewrite Hval2, Hval. done.
Qed.
(** Changes by one, on a series and together. *)
Definition by_one (c : change) : bool := match c with Inc 1 | Observe _ => true | _ => false end.
Definition hits (n : string) (ls : list (string * string)) (cs : list recorded) : Z :=
  Z.of_nat (length (List.filter (fun '(f, ls', _) => key_is f ls' n ls) cs)).
Lemma applied_hits n ls cs : forall v, forallb (fun c => by_one (snd c)) cs = true ->
  default 0 (fold_left (apply_change n ls) cs v) = default 0 v + hits n ls cs
  /\ (hits n ls cs = 0 -> fold_left (apply_change n ls) cs v = v).
Proof.
  unfold hits. induction cs as [|[[f ls'] c] cs IH]; intros v Hb; [split; [cbn; lia|done]|]. cbn in Hb. apply andb_prop in Hb as [Hc Hb].
  cbn [fold_left apply_change List.filter]. destruct (bool_decide _); [|by apply IH].
  destruct (IH (Some (changed c v)) Hb) as [-> _]. cbn [length default]. split; [|lia].
  destruct c as [n'| |x]; cbn in Hc |- *; [destruct n' as [|[]|]; try done; cbn; lia|done|lia].
Qed.

(** ** Start *)
Variables app_version python_version : string.
Definition boot : ST Registry exn unit := new_metrics app_version python_version !; bootstrap_seed.
Definition boot_changes : list recorded :=
  (app_info, [("service", "oauth2_server"); ("version", app_version); ("python_version", python_version)], SetTo 1) :: seeds.
Ltac in_families := unfold families; repeat (first [left; reflexivity|right]).
Lemma boot_valid : Forall (valid_in families) boot_changes.
Proof. unfold boot_changes, seeds. repeat (constructor; [split_and! ; [in_families|reflexivity|reflexivity]|]). constructor. Qed.
Lemma booted : exists r, boot new_registry = (Ok tt, r) /\ declared r = families
  /\ forall n ls, value r n ls = fold_left (apply_change n ls) boot_changes
       (if existsb (fun f => bool_decide (f_labels f = []) && key_is f [] n ls) families then Some 0 else None).
Proof.
  destruct (law_new laws) as [Hd Hv]. destruct (registered families new_registry) as (r1 & Hr1 & Hd1 & Hv1); [rewrite Hd; by vm_compute|].
  rewrite Hd in Hd1. cbn [app] in Hd1. destruct (changes_applied boot_changes r1) as (r2 & Hr2 & Hd2 & Hv2); [rewrite Hd1; apply boot_valid|].
  exists r2. split_and! ; [|by rewrite Hd2|intros n ls; by rewrite Hv2, Hv1, Hv].
  unfold boot, new_metrics, bootstrap_seed, boot_changes, change_all, sbind in *. rewrite Hr1. exact Hr2.
Qed.

(** ** Requests, in any interleaving *)
Inductive event := Started | Completed (method : string) (route : option string) (status duration : Z).
Definition event_changes (e : event) : list recorded :=
  match e with Started => [started_change] | Completed m rt st d => completion m rt st d end.
Definition event_run (e : event) : ST Registry exn unit :=
  match e with Started => request_started | Completed m rt st d => request_completed m rt st d end.
Lemma event_run_changes e r : event_run e r = change_all (event_changes e) r.
Proof. by destruct e. Qed.
Lemma events_valid tr : Forall (valid_in families) (flat_map event_changes tr).
Proof.
  induction tr as [|e tr IH]; [constructor|]. cbn [flat_map]. apply Forall_app. split; [|exact IH].
  destruct e; unfold event_changes, completion, started_change; repeat (constructor; [split_and! ; [in_families|reflexivity|reflexivity]|]); constructor.
Qed.
Lemma events_run tr : forall r, declared r = families -> exists r', each_m event_run tr r = (Ok tt, r') /\ declared r' = families
  /\ forall n ls, value r' n ls = fold_left (apply_change n ls) (flat_map event_changes tr) (value r n ls).
Proof.
  induction tr as [|e tr IH]; intros r Hd; [by exists r|]. pose proof (events_valid [e]) as He. cbn [flat_map] in He. rewrite app_nil_r in He.
  rewrite <- Hd in He. destruct (changes_applied _ r He) as (r1 & Hr1 & Hd1 & Hv1). destruct (IH r1) as (r2 & Hr2 & Hd2 & Hv2); [by rewrite Hd1|].
  exists r2. cbn [each_m flat_map]. unfold sbind. rewrite event_run_changes, Hr1. split_and! ; [done|done|].
  intros n ls. by rewrite Hv2, Hv1, fold_left_app.
Qed.
Lemma events_by_one tr : forallb (fun c => by_one (snd c)) (flat_map event_changes tr) = true.
Proof. induction tr as [|e tr IH]; [done|]. cbn [flat_map]. rewrite forallb_app, IH. by destruct e. Qed.
Lemma still_some n ls cs : forall v, is_Some v -> is_Some (fold_left (apply_change n ls) cs v).
Proof.
  induction cs as [|[[f ls'] c] cs IH]; intros v Hv; [done|]. cbn [fold_left apply_change]. apply IH. by destruct (bool_decide _).
Qed.

(** Counting events. *)
Definition tally (p : event -> bool) (tr : list event) : Z := Z.of_nat (length (List.filter p tr)).
Definition is_started (e : event) : bool := match e with Started => true | _ => false end.
Definition is_completed (e : event) : bool := negb (is_started e).
Definition in_class (c : string) (e : event) : bool := match e with Completed _ _ st _ => String.eqb (status_class st) c | _ => false end.
Definition on_route (ls : list (string * string)) (e : event) : bool :=
  match e with Completed m rt st _ => bool_decide (route_labels m rt st = ls) | _ => false end.
Lemma hits_tally n ls (p : event -> bool) tr : (forall e, hits n ls (event_changes e) = if p e then 1 else 0) -> hits n ls (flat_map event_changes tr) = tally p tr.
Proof.
  intros Hp. unfold hits, tally in *. induction tr as [|e tr IH]; [done|]. cbn [flat_map List.filter]. specialize (Hp e).
  rewrite List.filter_app, length_app, Nat2Z.inj_add, Hp, IH. destruct (p e); cbn [length]; lia.
Qed.
Lemma hits_started tr : hits (f_name http_requests_total) [] (flat_map event_changes tr) = tally is_started tr.
Proof. apply hits_tally. by intros []. Qed.
Lemma hits_duration tr : hits (f_name http_request_duration_seconds) [] (flat_map event_changes tr) = tally is_completed tr.
Proof. apply hits_tally. by intros []. Qed.
Lemma hits_class c tr : hits (f_name http_requests_by_class_total) [("status_class", c)] (flat_map event_changes tr) = tally (in_class c) tr.
Proof.
  apply hits_tally. intros [|m rt st d]; [done|]. unfold hits, event_changes, completion. cbn [List.filter].
  rewrite !(bool_decide_eq_false_2 (f_name http_requests_by_class_total = f_name _ /\ _)) by (by intros []).
  cbn [in_class]. destruct (String.eqb_spec (status_class st) c) as [->|Hne]; [by rewrite bool_decide_eq_true_2|].
  by rewrite bool_decide_eq_false_2 by (by intros [_ [= ?]]).
Qed.
Lemma hits_route f ls tr : f = http_requests_total_by_route \/ f = http_request_duration_seconds_by_route ->
  hits (f_name f) ls (flat_map event_changes tr) = tally (on_route ls) tr.
Proof.
  intros Hf. apply hits_tally. intros [|m rt st d]; [by destruct Hf as [-> | ->]|].
  unfold hits, event_changes, completion. cbn [List.filter on_route].
  destruct Hf as [-> | ->]; rewrite !(bool_decide_eq_false_2 (f_name _ = f_name http_request_duration_seconds /\ _)),
    !(bool_decide_eq_false_2 (f_name _ = f_name http_requests_by_class_total /\ _)) by (by intros []);
    [rewrite (bool_decide_eq_false_2 (_ = f_name http_request_duration_seconds_by_route /\ _)) by (by intros [])
    |rewrite (bool_decide_eq_false_2 (_ = f_name http_requests_total_by_route /\ _)) by (by intros [])];
    (destruct (decide (route_labels m rt st = ls)) as [<-|Hne];
      [by rewrite !bool_decide_eq_true_2|rewrite !bool_decide_eq_false_2; [done|done|by intros [_ ->]]]).
Qed.
Lemma hits_other n ls tr : ~ In n (map f_name http_families) -> hits n ls (flat_map event_changes tr) = 0.
Proof.
  intros Hn. unfold hits. replace (List.filter _ _) with (@nil recorded); [done|]. symmetry.
  induction tr as [|e tr IH]; [done|]. cbn [flat_map]. rewrite List.filter_app, IH, app_nil_r.
  destruct e as [|m rt st d]; unfold event_changes, completion, started_change; cbn [List.filter];
    rewrite !bool_decide_eq_false_2; try done; intros [-> _]; apply Hn; cbn; tauto.
Qed.
Lemma class_total tr : tally (in_class "2xx") tr + tally (in_class "3xx") tr + tally (in_class "4xx") tr + tally (in_class "5xx") tr
  + tally (in_class "other") tr = tally is_completed tr.
Proof.
  unfold tally. induction tr as [|e tr IH]; [done|]. cbn [List.filter]. destruct e as [|m rt st d]; [exact IH|].
  cbn [in_class is_completed is_started negb]. unfold status_class.
  repeat match goal with |- context [if ?b then "2xx" else _] => destruct b | |- context [if ?b then "3xx" else _] => destruct b
    | |- context [if ?b then "4xx" else _] => destruct b | |- context [if ?b then "5xx" else _] => destruct b end; cbn -[Z.of_nat] in *; lia.
Qed.
(** *** What the start leaves *)
Definition boot_value (n : string) (ls : list (string * string)) : option Z :=
  fold_left (apply_change n ls) (boot_changes)
    (if existsb (fun f => bool_decide (f_labels f = []) && key_is f [] n ls) families then Some 0 else None).
Lemma boot_unlabelled f : In f families -> f_labels f = [] -> boot_value (f_name f) [] = Some 0.
Proof. intros Hf Hl. repeat (destruct Hf as [<-|Hf]; [done|]). done. Qed.
Lemma boot_seeded : Forall (fun '(f, ls, c) => boot_value (f_name f) ls = Some (match c with Observe _ => 1 | _ => 0 end)) seeds.
Proof. unfold seeds. repeat (constructor; [reflexivity|]). constructor. Qed.
Lemma boot_http f ls : In f http_families -> f_labels f <> [] -> boot_value (f_name f) ls = None.
Proof. intros Hf Hl. repeat destruct Hf as [<-|Hf]; done. Qed.
End laws.

(** Over a registry that behaves as documented, the metrics start without a
    clash of names, with one series for every family without labels and one
    for every seeded one - zero, but for the histograms, whose seeding counts
    as an observation - and from then on count the requests: whatever the
    order in which requests start and are answered, every counter, by class
    and by route, is the number of such requests, the classes add up, and the
    histograms count the answers; no other series moves. *)
Theorem requests_counted `{Prometheus} (declared : Registry -> list Family) (value : Registry -> string -> list (string * string) -> option Z)
    (app_version python_version : string) (tr : list event) : prometheus_laws declared value ->
  exists r0 r, boot app_version python_version new_registry = (Ok tt, r0) /\ each_m event_run tr r0 = (Ok tt, r)
  /\ (forall f, In f families -> f_labels f = [] -> value r0 (f_name f) [] = Some 0)
  /\ Forall (fun '(f, ls, c) => value r0 (f_name f) ls = Some (match c with Observe _ => 1 | _ => 0 end)) seeds
  /\ value r (f_name http_requests_total) [] = Some (tally is_started tr)
  /\ value r (f_name http_request_duration_seconds) [] = Some (tally is_completed tr)
  /\ (forall c, default 0 (value r (f_name http_requests_by_class_total) [("status_class", c)]) = tally (in_class c) tr)
  /\ tally (in_class "2xx") tr + tally (in_class "3xx") tr + tally (in_class "4xx") tr + tally (in_class "5xx") tr
     + tally (in_class "other") tr = tally is_completed tr
  /\ (forall m rt st, default 0 (value r (f_name http_requests_total_by_route) (route_labels m rt st)) = tally (on_route (route_labels m rt st)) tr
       /\ default 0 (value r (f_name http_request_duration_seconds_by_route) (route_labels m rt st)) = tally (on_route (route_labels m rt st)) tr)
  /\ (forall n ls, ~ In n (map f_name http_families) -> value r n ls = value r0 n ls).
Proof.
  intros laws. destruct (booted declared value laws app_version python_version) as (r0 & Hb & Hd & Hv0).
  destruct (events_run declared value laws tr r0 Hd) as (r & Hr & _ & Hv). exists r0, r.
  assert (forall n ls, default 0 (value r n ls) = default 0 (value r0 n ls) + hits n ls (flat_map event_changes tr)
    /\ (hits n ls (flat_map event_changes tr) = 0 -> value r n ls = value r0 n ls)) as Hh.
  { intros n ls. rewrite Hv. apply applied_hits, events_by_one. }
  assert (forall n ls, value r0 n ls = boot_value app_version python_version n ls) as Hv0' by done.
  assert (forall f, In f families -> f_labels f = [] -> value r (f_name f) [] = Some (hits (f_name f) [] (flat_map event_changes tr))) as Hplain.
  { intros f Hf Hl. destruct (Hh (f_name f) []) as [Hs _]. rewrite Hv0', boot_unlabelled in Hs by done.
    destruct (still_some (f_name f) [] (flat_map event_changes tr) (value r0 (f_name f) [])) as [x Hx]; [by rewrite Hv0', boot_unlabelled|].
    rewrite Hv, Hx in *. cbn in Hs. by f_equal. }
  assert (forall f ls, In f http_families -> f_labels f <> [] -> default 0 (value r (f_name f) ls) = hits (f_name f) ls (flat_map event_changes tr)) as Hlab.
  { intros f ls Hf Hl. destruct (Hh (f_name f) ls) as [-> _]. by rewrite Hv0', boot_http. }
  split_and! ; [done|done| | | | | |apply class_total| |].
  - intros f Hf Hl. rewrite Hv0'. by apply boot_unlabelled.
  - eapply Forall_impl; [apply (boot_seeded app_version python_version)|]. intros [[f ls] c]. by rewrite Hv0'.
  - rewrite Hplain by (done || by left). by rewrite hits_started.
  - rewrite Hplain by (done || by right; left). by rewrite hits_duration.
  - intros c. rewrite Hlab by (done || (cbn; tauto)). by rewrite hits_class.
  - intros m rt st. rewrite !Hlab by (done || (cbn; tauto)). by rewrite !hits_route by auto.
  - intros n ls Hn. by apply Hh, hits_other.
Qed.

(** The layer never changes what the application answers, and leaves the
    registry as the start and, when there is an answer, the completion of one
    request leave it. *)
Theorem metrics_layer_transparent `{Prometheus} (declared : Registry -> list Family)
    (value : Registry -> string -> list (string * string) -> option Z) m rt d (app : App) s r :
  prometheus_laws declared value -> declared r = families ->
  exists r', metrics_layer true m rt d app (s, r) = (fst (app s), (snd (app s), r')) /\ declared r' = families
    /\ each_m event_run (Started :: match fst (app s) with Ok resp => [Completed m rt (r_status resp) d] | Err _ => [] end) r = (Ok tt, r').
Proof.
  intros laws Hd. destruct (events_run declared value laws [Started] r Hd) as (r1 & Hr1 & Hd1 & _).
  cbn [each_m event_run] in Hr1. unfold sbind in Hr1. unfold metrics_layer. cbn [negb].
  destruct (request_started r) as [[[]|e] r1'] eqn:Es; [|done]. cbn in Hr1. injection Hr1 as ->.
  destruct (app s) as [[resp|e] s'] eqn:Ea; cbn [fst snd].
  - destruct (events_run declared value laws [Completed m rt (r_status resp) d] r1 Hd1) as (r2 & Hr2 & Hd2 & _).
    exists r2. cbn [each_m event_run] in Hr2 |- *. unfold sbind in Hr2 |- *. rewrite Es.
    destruct (request_completed m rt (r_status resp) d r1) as [[[]|e] r2'] eqn:Ec; [|done]. cbn in Hr2. by injection Hr2 as ->.
  - exists r1. cbn [each_m event_run]. unfold sbind. by rewrite Es.
Qed.

(** ** A registry that behaves as documented *)
Record TRegistry := mkTRegistry { tr_families : list Family; tr_series : list (string * list (string * string) * Z) }.
Definition tr_value (r : TRegistry) (n : string) (ls : list (string * string)) : option Z :=
  option_map snd (List.find (fun kv => bool_decide (fst kv = (n, ls))) (tr_series r)).
Definition tr_set (n : string) (ls : list (string * string)) (v : Z) (r : TRegistry) : TRegistry :=
  mkTRegistry (tr_families r) ((n, ls, v) :: tr_series r).
#[export] Instance toy_prometheus : Prometheus := {|
  Registry := TRegistry;
  new_registry := mkTRegistry [] [];
  register f r :=
    if forallb (fun x => negb (mem_str x (concat (map exposed (tr_families r))))) (exposed f)
    then let r := mkTRegistry (tr_families r ++ [f]) (tr_series r) in
         (Ok tt, if bool_decide (f_labels f = []) then tr_set (f_name f) [] 0 r else r)
    else (Err (PyErr ValueError "Duplicated timeseries"), r);
  change_series f ls c r := (Ok tt, tr_set (f_name f) ls (changed c (tr_value r (f_name f) ls)) r);
  generate_latest _ := EmptyString
|}.
Lemma tr_value_set f ls v r n ls' : tr_value (tr_set (f_name f) ls v r) n ls' = if key_is f ls n ls' then Some v else tr_value r n ls'.
Proof.
  unfold tr_value, tr_set. cbn. destruct (bool_decide_reflect ((f_name f, ls) = (n, ls'))) as [[= <- <-]|Hne]; [by rewrite bool_decide_eq_true_2|].
  rewrite bool_decide_eq_false_2; [done|]. by intros [-> ->].
Qed.
Lemma toy_prometheus_laws : @prometheus_laws toy_prometheus tr_families tr_value.
Proof.
  constructor; cbn.
  - done.
  - intros f r Hf. replace (forallb _ _) with true.
    + eexists. split_and! ; [reflexivity|by destruct (bool_decide _)|]. intros n ls.
      destruct (bool_decide (f_labels f = [])); [rewrite tr_value_set; cbn [andb]; by repeat case_bool_decide|done].
    + symmetry. apply forallb_forall. intros x Hx. apply negb_true_iff. apply Hf in Hx.
      destruct (mem_str _ _) eqn:E; [|done]. by apply mem_str_In in E.
  - intros f ls c r _ _ _. eexists. split_and! ; [reflexivity|done|]. intros n ls'. rewrite tr_value_set.
    destruct (bool_decide_reflect (n = f_name f /\ ls' = ls)) as [[-> ->]|]; done.
Qed.
Definition toy_trace : list event :=
  [Started; Started; Completed "GET" (Some "/metrics") 200 7; Started; Completed "POST" (Some "/oauth/token") 401 9; Completed "GET" None 404 1].
Lemma requests_counted_witness : exists r0 r : TRegistry, @boot toy_prometheus "0.1.0" "3.12" new_registry = (Ok tt, r0)
  /\ each_m (@event_run toy_prometheus) toy_trace r0 = (Ok tt, r)
  /\ tr_value r "oauth2_server_http_requests_total" [] = Some 3
  /\ default 0 (tr_value r "oauth2_server_http_requests_by_class_total" [("status_class", "4xx")]) = 2
  /\ tr_value r0 "oauth2_server_http_client_request_duration_seconds" [("peer_service", "bootstrap"); ("http_method", "GET")] = Some 1.
Proof.
  destruct (@requests_counted toy_prometheus tr_families tr_value "0.1.0" "3.12" toy_trace) as (r0 & r & Hb & Hr & _ & Hseed & Hs & _ & Hc & _).
  - exact toy_prometheus_laws.
  - exists r0, r. split_and! ; [exact Hb|exact Hr|exact Hs|exact (Hc "4xx")|].
    unfold seeds in Hseed. rewrite !Forall_cons in Hseed. by destruct Hseed as (_ & _ & _ & _ & _ & _ & Hh & _).
Defined.
