(* ===== verification/Stack.v ===== *)
(** * The whole middleware stack, request by request
    ([middleware.MetricsMiddleware], [middleware_ratelimit.ResilienceMiddleware]
    and the layers inside them)

    [Middleware.serve] composes the layers that run in one step;
    [Resilience.enter] and [finish] are the two halves of the layer that counts
    requests in flight.  Here a request arrives, is turned away or waits, and is
    served later, with other requests in between; every counter and gauge the
    two outer layers change is written to the registry.  The refinement theorem
    says that what clients and storage see is the application serving the
    admitted requests one after another. *)
From S2P Require Import Prelude PyStr PyJson PyInt Models Storage TtlStores Resilience Keys Jwt App Middleware ToyJwt Metrics.
#[local] Open Scope Z_scope.

(** ** The 503 answers *)
Definition CIRCUIT_OPEN_DESCRIPTION : string := "Server is temporarily unavailable. Please retry later.".
Definition AT_CAPACITY_DESCRIPTION : string := "Server is at capacity. Please retry later.".
Definition GLOBAL_CIRCUIT_LABEL : string := "global".
Definition unavailable (description retry_after : string) (sc : Scope) : response :=
  mkResponse 503 (JObj [("error", JStr "service_unavailable"); ("error_description", JStr description)])
    (("Retry-After", retry_after) :: security_headers_for sc).
Definition send_circuit_open (circuit : CircuitBreaker) (sc : Scope) : response :=
  unavailable CIRCUIT_OPEN_DESCRIPTION (str_of_Z (open_secs circuit)) sc.
Definition send_at_capacity (sc : Scope) : response := unavailable AT_CAPACITY_DESCRIPTION "1" sc.

(** ** What the layer writes to the registry *)
Definition concurrent_requests_in_flight : Family :=
  gauge "concurrent_requests_in_flight" "Number of requests currently in flight" [].
Definition back_pressure_rejected_total : Family :=
  counter "back_pressure_rejected_total" "Total requests rejected by back-pressure limiting" [].
Definition state_number (s : CircuitState) : Z := match s with CLOSED => 0 | OPEN => 1 | HALF_OPEN => 2 end.
Notation recorded := (Family * list (string * string) * change)%type.
Definition in_flight_change (c : ConcurrencyLimiter) : recorded := (concurrent_requests_in_flight, [], SetTo (in_flight c)).
(** [_record_circuit_metrics], between [m] before and [m'] after. *)
Definition circuit_changes (m m' : Resilience.Middleware) : list recorded :=
  (circuit_breaker_state, [("circuit", GLOBAL_CIRCUIT_LABEL)], SetTo (state_number (b_state (m_circuit m'))))
  :: if m_last_trips m <? m_last_trips m'
     then [(circuit_breaker_trips_total, [("circuit", GLOBAL_CIRCUIT_LABEL)], Inc (m_last_trips m' - m_last_trips m))]
     else [].
Definition enter_changes (now : Z) (m : Resilience.Middleware) : list recorded :=
  let '(a, m') := enter now m in
  if bool_decide (b_state (poll now (m_circuit m)) = OPEN) then circuit_changes m m' else
  match a with
  | AtCapacity => [(back_pressure_rejected_total, [], Inc 1); in_flight_change (m_concurrency m')]
  | Entered _ => [in_flight_change (m_concurrency m')]
  | CircuitOpen => [in_flight_change (snd (try_acquire (m_concurrency m))); in_flight_change (m_concurrency m')]
                   ++ circuit_changes m m'
  end.
Definition finish_changes (e : ending) (m m' : Resilience.Middleware) : list recorded :=
  match e with
  | Returned _ => in_flight_change (m_concurrency m') :: circuit_changes m m'
  | Crashed => circuit_changes m m' ++ [in_flight_change (m_concurrency m')]
  | Cancelled => [in_flight_change (m_concurrency m')]
  end.

Section stack.
Context `{Prometheus} (config : Config) (rate_limit_enabled resilience_enabled : bool).

(** ** Requests and the process that answers them *)
Record Request := mkRequest { q_scope : Scope; q_method : string; q_route : option string; q_app : App }.
(** A request in its handler; [fl_permit] says whether it is a probe, when the
    resilience layer admitted it. *)
Record Flight := mkFlight { fl_request : Request; fl_permit : option bool }.
Record World := mkWorld {
  w_state : AppState;
  w_guard : Resilience.Middleware;
  w_registry : Registry;
  w_flights : list Flight
}.
Notation W := (ST World exn).
Definition record (cs : list recorded) : W unit := fun w =>
  let '(res, r) := change_all cs (w_registry w) in (res, mkWorld (w_state w) (w_guard w) r (w_flights w)).
Definition set_guard (m : Resilience.Middleware) : W unit :=
  smod (fun w => mkWorld (w_state w) m (w_registry w) (w_flights w)).
Definition set_flights (l : list Flight) : W unit :=
  smod (fun w => mkWorld (w_state w) (w_guard w) (w_registry w) l).
Definition set_state (s : AppState) : W unit :=
  smod (fun w => mkWorld s (w_guard w) (w_registry w) (w_flights w)).
Definition guarded (q : Request) : bool := resilience_enabled && negb (is_exempt (sc_path (q_scope q))).
Definition clock (w : World) : Z := a_mono (w_state w).

(** The metrics layer, once a response has started. *)
Definition responded (q : Request) (duration : Z) (r : response) : W response :=
  record (completion (q_method q) (q_route q) (r_status r) duration) !; sret r.

(** A request arrives: answered at once, or in its handler. *)
Definition arrive (q : Request) (duration : Z) : W (option response) :=
  record [started_change] !;
  let! w := sget id in
  if negb (guarded q) then set_flights (mkFlight q None :: w_flights w) !; sret None else
  let '(a, m) := enter (clock w) (w_guard w) in
  record (enter_changes (clock w) (w_guard w)) !; set_guard m !;
  match a with
  | CircuitOpen => let! r := responded q duration (send_circuit_open (m_circuit m) (q_scope q)) in sret (Some r)
  | AtCapacity => let! r := responded q duration (send_at_capacity (q_scope q)) in sret (Some r)
  | Entered p => set_flights (mkFlight q (Some p) :: w_flights w) !; sret None
  end.
(** Its handler runs, behind the layers inside, and ends.  An exception goes
    through both layers to the server, which answers 500 itself. *)
Definition ending_of (res : result exn response) : ending :=
  match res with Ok r => Returned (r_status r) | Err _ => Crashed end.
Definition complete (i : nat) (duration : Z) : W (option (result exn response)) :=
  let! w := sget id in
  match w_flights w !! i with
  | None => sret None
  | Some fl =>
      let q := fl_request fl in
      let '(res, s) := serve config rate_limit_enabled (q_scope q) (q_app q) (w_state w) in
      set_state s !; set_flights (delete i (w_flights w)) !;
      match fl_permit fl with
      | Some p => let m := finish (a_mono s) p (ending_of res) (w_guard w) in
                  record (finish_changes (ending_of res) (w_guard w) m) !; set_guard m
      | None => sret tt
      end !;
      match res with
      | Ok r => let! r := responded q duration r in sret (Some (Ok r))
      | Err e => sret (Some (Err e))
      end
  end.
(** Between two of these steps time passes. *)
Definition with_clocks (wall mono : Z) (s : AppState) : AppState :=
  mkState (a_store s) wall mono (a_draws s) (a_keyset s) (a_invalid_client_limiter s)
    (a_dpop_replay s) (a_jti_guard s) (a_device_poll s) (a_par_store s) (a_jwks_cache s)
    (a_dpop_nonce_secret s) (a_events s) (a_failed_authentications s) (a_tokens_issued s)
    (a_codes_issued s) (a_tokens_revoked s) (a_login_limiter s) (a_rate_limiter s) (a_recent s) (a_social_breakers s).

Inductive action := Arrive (q : Request) (duration : Z) | Complete (i : nat) (duration : Z) | Elapse (wall mono : Z).
Definition perform (a : action) : W (option (result exn response)) :=
  match a with
  | Arrive q d => let! r := arrive q d in sret (option_map Ok r)
  | Complete i d => complete i d
  | Elapse wall mono => let! w := sget id in set_state (with_clocks wall mono (w_state w)) !; sret None
  end.
Fixpoint run (acts : list action) : W (list (option (result exn response))) :=
  match acts with
  | [] => sret []
  | a :: acts => let! o := perform a in let! os := run acts in sret (o :: os)
  end.

(** ** The specification
    The tables and the counters of the application, and the requests waiting:
    at most [limit] of the guarded ones.  A refusal touches neither. *)
Definition guarded_count (l : list Request) : Z := Z.of_nat (length (List.filter guarded l)).
Inductive spec_step (limit secs : Z) : AppState * list Request -> action -> option (result exn response) -> AppState * list Request -> Prop :=
| spec_accepted s l q d : (guarded q = true -> guarded_count l < limit) -> spec_step limit secs (s, l) (Arrive q d) None (s, q :: l)
| spec_full s l q d : guarded q = true -> guarded_count l = limit ->
    spec_step limit secs (s, l) (Arrive q d) (Some (Ok (send_at_capacity (q_scope q)))) (s, l)
| spec_broken s l q d : guarded q = true ->
    spec_step limit secs (s, l) (Arrive q d) (Some (Ok (unavailable CIRCUIT_OPEN_DESCRIPTION (str_of_Z secs) (q_scope q)))) (s, l)
| spec_served s l i d q res s' : l !! i = Some q ->
    serve config rate_limit_enabled (q_scope q) (q_app q) s = (res, s') ->
    spec_step limit secs (s, l) (Complete i d) (Some res) (s', delete i l)
| spec_nothing s l i d : l !! i = None -> spec_step limit secs (s, l) (Complete i d) None (s, l)
| spec_elapsed s l wall mono : spec_step limit secs (s, l) (Elapse wall mono) None (with_clocks wall mono s, l).
Inductive spec_run (limit secs : Z) : AppState * list Request -> list action -> list (option (result exn response)) -> AppState * list Request -> Prop :=
| spec_done c : spec_run limit secs c [] [] c
| spec_more c a o c' acts os c'' : spec_step limit secs c a o c' -> spec_run limit secs c' acts os c'' ->
    spec_run limit secs c (a :: acts) (o :: os) c''.
End stack.

(** ** The stack refines the application serving one request after another *)

(** ** The resilience layer, observed *)
Definition trips_seen (m : Resilience.Middleware) : Prop := m_last_trips m = total_trips (m_circuit m).
(** What no request changes. *)
Definition same_limits (m m' : Resilience.Middleware) : Prop :=
  max_concurrent (m_concurrency m') = max_concurrent (m_concurrency m) /\ open_secs (m_circuit m') = open_secs (m_circuit m).
#[local] Instance same_limits_preorder : PreOrder same_limits.
Proof. split; [done|]. intros a b c [? ?] [? ?]. split; congruence. Qed.

Lemma circuit_recorded now m : m_last_trips m <= total_trips (m_circuit m) -> trips_seen (record_circuit_metrics now m).
Proof.
  intros Hle. unfold trips_seen, record_circuit_metrics. cbv zeta.
  destruct (Z.ltb_spec (m_last_trips m) (total_trips (poll now (m_circuit m)))); cbn; [done|]. rewrite poll_trips in *. lia.
Qed.
Lemma poll_secs now b : open_secs (poll now b) = open_secs b.
Proof. unfold poll. by destruct (_ && _). Qed.
Lemma allow_secs now b : open_secs (snd (allow_request now b)) = open_secs b.
Proof.
  unfold allow_request, state. cbv zeta. rewrite <- (poll_secs now b).
  destruct (b_state (poll now b)); [done|done|]. by destruct (_ <=? _).
Qed.
Lemma success_secs now b : open_secs (record_success now b) = open_secs b.
Proof.
  unfold record_success, state. cbv zeta. rewrite <- (poll_secs now b).
  destruct (b_state (poll now b)); [done|done|]. by destruct (_ <=? _).
Qed.
Lemma failure_secs now b : open_secs (record_failure now b) = open_secs b.
Proof.
  unfold record_failure, state. cbv zeta. rewrite <- (poll_secs now b).
  destruct (b_state (poll now b)); [|done|done]. by destruct (_ <=? _).
Qed.
Lemma record_metrics_limits now m : same_limits m (record_circuit_metrics now m)
  /\ m_concurrency (record_circuit_metrics now m) = m_concurrency m.
Proof. unfold same_limits, record_circuit_metrics. cbv zeta. destruct (_ <? _); cbn; by rewrite poll_secs. Qed.
Lemma release_max c : max_concurrent (release c) = max_concurrent c.
Proof. unfold release. by destruct (_ <? _). Qed.

(** What entering leaves, by case. *)
Lemma enter_observed now m a m' : trips_seen m -> enter now m = (a, m') -> trips_seen m' /\ same_limits m m'.
Proof.
  unfold trips_seen, enter, state. cbv zeta. intros Ht. cbn [m_circuit m_concurrency with_circuit].
  assert (forall c b, total_trips b = total_trips (m_circuit m) -> open_secs b = open_secs (m_circuit m)
    -> max_concurrent c = max_concurrent (m_concurrency m)
    -> let m1 := record_circuit_metrics now (with_circuit (with_concurrency m c) b) in
       m_last_trips m1 = total_trips (m_circuit m1) /\ same_limits m m1) as Hrec.
  { intros c b Hb Hs Hc. split; [apply circuit_recorded; cbn; lia|].
    destruct (record_metrics_limits now (with_circuit (with_concurrency m c) b)) as [[H1 H2] _]. split; [by rewrite H1|by rewrite H2]. }
  destruct (bool_decide _).
  { intros [= <- <-]. apply (Hrec (m_concurrency m) (poll now (m_circuit m))); [apply poll_trips|apply poll_secs|done]. }
  unfold try_acquire. destruct (_ <=? _); cbn [negb].
  { intros [= <- <-]. cbn. rewrite poll_trips. split; [done|]. split; cbn; [done|apply poll_secs]. }
  cbn [m_circuit with_circuit with_concurrency]. destruct (bool_decide _).
  - pose proof (allow_trips now (poll now (poll now (m_circuit m)))) as Hat. pose proof (allow_secs now (poll now (poll now (m_circuit m)))) as Has.
    rewrite !poll_trips in Hat. rewrite !poll_secs in Has. destruct (allow_request _ _) as [allowed b]. cbn [fst snd] in *.
    destruct allowed; cbn [negb]; intros [= <- <-].
    + cbn. rewrite Hat. split; [done|]. by split.
    + by apply (Hrec (release (mkConcurrency (max_concurrent (m_concurrency m)) (in_flight (m_concurrency m) + 1) (rejected_total (m_concurrency m)))));
        [..|rewrite release_max].
  - intros [= <- <-]. cbn. rewrite !poll_trips. split; [done|]. split; cbn; [done|by rewrite !poll_secs].
Qed.
Lemma counted_limits now p m rec : (forall b, open_secs (rec now b) = open_secs b) -> (forall b, total_trips b <= total_trips (rec now b)) ->
  same_limits m (counted now p m rec) /\ m_concurrency (counted now p m rec) = m_concurrency m
  /\ m_last_trips (counted now p m rec) = m_last_trips m /\ total_trips (m_circuit m) <= total_trips (m_circuit (counted now p m rec)).
Proof.
  intros Hs Ht. unfold counted, state, same_limits. cbv zeta. destruct (_ || _); cbn; rewrite ?Hs, !poll_secs; split_and! ; try done.
  - rewrite <- (poll_trips now (m_circuit m)). apply Ht.
  - by rewrite poll_trips.
Qed.
Lemma finish_observed now p e m : e <> Cancelled -> trips_seen m ->
  trips_seen (finish now p e m) /\ same_limits m (finish now p e m)
  /\ m_concurrency (finish now p e m) = release (m_concurrency m).
Proof.
  intros He Ht. unfold trips_seen in *.
  assert (forall m0 rec, m_last_trips m0 = total_trips (m_circuit m0) ->
    (forall b, open_secs (rec now b) = open_secs b) -> (forall b, total_trips b <= total_trips (rec now b)) ->
    let m1 := record_circuit_metrics now (counted now p m0 rec) in
    m_last_trips m1 = total_trips (m_circuit m1) /\ same_limits m0 m1 /\ m_concurrency m1 = m_concurrency m0) as Hgo.
  { intros m0 rec H0 Hs Htr. destruct (counted_limits now p m0 rec Hs Htr) as (Hl & Hc & Hlt & Hle).
    destruct (record_metrics_limits now (counted now p m0 rec)) as [Hl' Hc'].
    split_and! ; [apply circuit_recorded; lia|by etransitivity|by rewrite Hc', Hc]. }
  destruct e as [status| |]; [| |done]; unfold finish.
  - assert (same_limits m (released m)) as Hr by (split; [apply release_max|done]).
    destruct (500 <=? status).
    + destruct (Hgo (released m) record_failure Ht (failure_secs now) (failure_trips now)) as (? & ? & ->).
      split_and! ; [done|by etransitivity|done].
    + destruct (Hgo (released m) record_success Ht (success_secs now) (success_trips now)) as (? & ? & ->).
      split_and! ; [done|by etransitivity|done].
  - destruct (Hgo m record_failure Ht (failure_secs now) (failure_trips now)) as (H1 & [H2 H3] & Hc).
    unfold released. cbn [with_concurrency m_last_trips m_circuit m_concurrency]. rewrite Hc. split_and! ; [done| |done].
    split; [apply release_max|done].
Qed.

(** ** The series of the layer *)
Definition series (v : string -> list (string * string) -> option Z) : option Z * option Z * option Z * Z :=
  (v (f_name http_requests_total) [], v (f_name concurrent_requests_in_flight) [], v (f_name back_pressure_rejected_total) [],
   default 0 (v (f_name circuit_breaker_trips_total) [("circuit", GLOBAL_CIRCUIT_LABEL)])).
Ltac decide_keys := repeat match goal with
  | |- context [bool_decide (?a = ?b /\ ?c = ?d)] =>
      first [rewrite (bool_decide_eq_true_2 (a = b /\ c = d)) by (split; reflexivity)
            |rewrite (bool_decide_eq_false_2 (a = b /\ c = d)) by (intros [? ?]; discriminate)]
  end.
Definition changed_series (cs : list recorded) (v : string -> list (string * string) -> option Z) n ls := fold_left (apply_change n ls) cs (v n ls).
Lemma series_started v : series (changed_series [started_change] v)
  = let '(n, f, b, t) := series v in (Some (default 0 n + 1), f, b, t).
Proof. unfold series, changed_series, started_change, apply_change, fold_left. by decide_keys. Qed.
Lemma series_completion v q rt st d : series (changed_series (completion q rt st d) v) = series v.
Proof. unfold series, changed_series, completion, apply_change, fold_left. by decide_keys. Qed.
Lemma series_in_flight v c : series (changed_series [in_flight_change c] v) = let '(n, _, b, t) := series v in (n, Some (in_flight c), b, t).
Proof. unfold series, changed_series, in_flight_change, apply_change, fold_left. by decide_keys. Qed.
Lemma series_refused v : series (changed_series [(back_pressure_rejected_total, [], Inc 1)] v)
  = let '(n, f, b, t) := series v in (n, f, Some (default 0 b + 1), t).
Proof. unfold series, changed_series, apply_change, fold_left. by decide_keys. Qed.
Lemma series_circuit v m m' : m_last_trips m <= m_last_trips m' ->
  series (changed_series (circuit_changes m m') v) = let '(n, f, b, t) := series v in (n, f, b, t + (m_last_trips m' - m_last_trips m)).
Proof.
  intros Hle. unfold series, changed_series, circuit_changes, apply_change.
  destruct (Z.ltb_spec (m_last_trips m) (m_last_trips m')); cbn [fold_left]; decide_keys; cbn [changed default]; [done|].
  repeat f_equal. lia.
Qed.
Lemma changed_cons c cs v : changed_series (c :: cs) v = changed_series cs (changed_series [c] v).
Proof. reflexivity. Qed.
Lemma changed_app cs cs' v : series (changed_series (cs ++ cs') v) = series (changed_series cs' (changed_series cs v)).
Proof. unfold series, changed_series. by rewrite !fold_left_app. Qed.

Definition guard_series (n : Z) (m : Resilience.Middleware) : option Z * option Z * option Z * Z :=
  (Some n, Some (in_flight (m_concurrency m)), Some (rejected_total (m_concurrency m)), m_last_trips m).
Lemma last_recorded now m : m_last_trips m <= m_last_trips (record_circuit_metrics now m).
Proof. unfold record_circuit_metrics. cbv zeta. destruct (Z.ltb_spec (m_last_trips m) (total_trips (poll now (m_circuit m)))); cbn; lia. Qed.
Lemma release_rejected c : rejected_total (release c) = rejected_total c.
Proof. unfold release. by destruct (_ <? _). Qed.

(** Entering, case by case. *)
Lemma enter_cases now m a m' : enter now m = (a, m') ->
  let broken := bool_decide (b_state (poll now (m_circuit m)) = OPEN) in
  m_last_trips m <= m_last_trips m' /\
  match a with
  | AtCapacity => broken = false /\ max_concurrent (m_concurrency m) <= in_flight (m_concurrency m)
      /\ in_flight (m_concurrency m') = in_flight (m_concurrency m)
      /\ rejected_total (m_concurrency m') = rejected_total (m_concurrency m) + 1 /\ m_last_trips m' = m_last_trips m
  | Entered _ => broken = false /\ in_flight (m_concurrency m) < max_concurrent (m_concurrency m)
      /\ rejected_total (m_concurrency m') = rejected_total (m_concurrency m) /\ m_last_trips m' = m_last_trips m
  | CircuitOpen => rejected_total (m_concurrency m') = rejected_total (m_concurrency m)
      /\ (broken = true -> m_concurrency m' = m_concurrency m)
  end.
Proof.
  unfold enter, state. cbv zeta. cbn [m_circuit m_concurrency with_circuit].
  destruct (bool_decide _).
  { intros [= <- <-]. destruct (record_metrics_limits now (with_circuit m (poll now (m_circuit m)))) as [_ Hc]. rewrite Hc.
    split_and! ; try done. apply (last_recorded now (with_circuit m (poll now (m_circuit m)))). }
  unfold try_acquire. destruct (Z.leb_spec (max_concurrent (m_concurrency m)) (in_flight (m_concurrency m))); cbn [negb].
  { intros [= <- <-]. cbn. split_and! ; try done; lia. }
  cbn [m_circuit with_circuit with_concurrency]. destruct (bool_decide _).
  - destruct (allow_request _ _) as [allowed b]. destruct allowed; cbn [negb]; intros [= <- <-].
    + cbn. split_and! ; try done; lia.
    + match goal with |- context [record_circuit_metrics now ?m1] =>
        pose proof (last_recorded now m1) as Hl; destruct (record_metrics_limits now m1) as [_ Hc] end.
      rewrite Hc. cbn [m_concurrency with_concurrency with_circuit]. rewrite release_rejected. cbn [m_last_trips with_concurrency with_circuit] in Hl.
      by split_and!.
  - intros [= <- <-]. cbn. split_and! ; try done; lia.
Qed.
Lemma enter_series now m a m' n v : enter now m = (a, m') -> series v = guard_series n m ->
  series (changed_series (enter_changes now m) v) = guard_series n m'.
Proof.
  intros He Hv. unfold enter_changes. rewrite He. pose proof (enter_cases now m a m' He) as [Hl Hc]. cbv zeta in Hc.
  assert (forall v, series v = (Some n, Some (in_flight (m_concurrency m')), Some (rejected_total (m_concurrency m)), m_last_trips m) ->
    rejected_total (m_concurrency m') = rejected_total (m_concurrency m) ->
    series (changed_series (circuit_changes m m') v) = guard_series n m') as Hcirc.
  { intros v0 Hv0 Hr. rewrite series_circuit, Hv0 by done. unfold guard_series. rewrite Hr. repeat f_equal. lia. }
  destruct (bool_decide (b_state (poll now (m_circuit m)) = OPEN)).
  - destruct a; [|by destruct Hc..]. destruct Hc as [Hr Hsame]. apply Hcirc; [|done]. by rewrite Hsame.
  - destruct a.
    + destruct Hc as [Hr _]. rewrite changed_app. apply Hcirc; [|done]. rewrite changed_cons, !series_in_flight, Hv. done.
    + destruct Hc as (_ & _ & Hf & Hr & Ht). rewrite changed_cons, series_in_flight, series_refused, Hv. unfold guard_series. cbn. by rewrite Hr, Ht.
    + destruct Hc as (_ & _ & Hr & Ht). rewrite series_in_flight, Hv. unfold guard_series. by rewrite Hr, Ht.
Qed.
Lemma finish_last now p e m : e <> Cancelled -> m_last_trips m <= m_last_trips (finish now p e m).
Proof.
  intros He. destruct e; [| |done]; unfold finish.
  - etransitivity; [|apply last_recorded].
    destruct (_ <=? _); [destruct (counted_limits now p (released m) record_failure (failure_secs now) (failure_trips now)) as (_ & _ & -> & _)
      |destruct (counted_limits now p (released m) record_success (success_secs now) (success_trips now)) as (_ & _ & -> & _)]; done.
  - change (m_last_trips m <= m_last_trips (record_circuit_metrics now (counted now p m record_failure))).
    etransitivity; [|apply last_recorded].
    destruct (counted_limits now p m record_failure (failure_secs now) (failure_trips now)) as (_ & _ & -> & _). done.
Qed.
Lemma finish_series now p e m n v : e <> Cancelled -> trips_seen m -> series v = guard_series n m ->
  series (changed_series (finish_changes e m (finish now p e m)) v) = guard_series n (finish now p e m).
Proof.
  intros He Ht Hv. destruct (finish_observed now p e m He Ht) as (Ht' & _ & Hc).
  pose proof (finish_last now p e m He) as Hle.
  destruct e; [| |done]; cbn [finish_changes].
  - rewrite changed_cons, series_circuit, series_in_flight, Hv by done. unfold guard_series. rewrite Hc, release_rejected. repeat f_equal. lia.
  - rewrite changed_app, series_in_flight, series_circuit, Hv by done. unfold guard_series. rewrite Hc, release_rejected. repeat f_equal. lia.
Qed.

(** ** The simulation *)
Section simulation.
Context `{Prometheus} (declared : Registry -> list Family) (value : Registry -> string -> list (string * string) -> option Z).
Hypothesis laws : prometheus_laws declared value.
Context (config : Config) (rate_limit_enabled resilience_enabled : bool).
Notation guarded := (guarded resilience_enabled).
Notation perform := (perform config rate_limit_enabled resilience_enabled).
Notation spec_step := (spec_step config rate_limit_enabled resilience_enabled).
Notation guarded_count := (guarded_count resilience_enabled).
Definition abstract (w : World) : AppState * list Request := (w_state w, map fl_request (w_flights w)).
Definition permit_fits (fl : Flight) : Prop := bool_decide (is_Some (fl_permit fl)) = guarded (fl_request fl).

Record stack_inv (limit secs n : Z) (w : World) : Prop := {
  si_guard : mw_ok (w_guard w, omap fl_permit (w_flights w));
  si_trips : trips_seen (w_guard w);
  si_limits : max_concurrent (m_concurrency (w_guard w)) = limit /\ open_secs (m_circuit (w_guard w)) = secs;
  si_permits : Forall permit_fits (w_flights w);
  si_declared : declared (w_registry w) = families;
  si_series : series (value (w_registry w)) = guard_series n (w_guard w)
}.

Lemma guarded_permits l : Forall permit_fits l -> guarded_count (map fl_request l) = Z.of_nat (length (omap fl_permit l)).
Proof.
  unfold Stack.guarded_count. induction 1 as [|fl l Hfl Hl IH]; [done|]. cbn [map List.filter omap list_omap]. rewrite <- Hfl.
  destruct (fl_permit fl); cbn [bool_decide decide_rel]; [rewrite bool_decide_eq_true_2 by done|rewrite bool_decide_eq_false_2 by (by intros []); exact IH].
  cbn [length]. change (list_omap _ _ fl_permit l) with (omap fl_permit l). lia.
Qed.
Ltac in_families := unfold families; repeat (first [left; reflexivity|right]).
Ltac valid_change := split_and! ; [in_families|reflexivity|try reflexivity].
Lemma started_valid : Forall (valid_in families) [started_change].
Proof. constructor; [valid_change|constructor]. Qed.
Lemma completion_valid q rt st d : Forall (valid_in families) (completion q rt st d).
Proof. unfold completion. repeat (constructor; [valid_change|]). constructor. Qed.
Lemma in_flight_valid c : valid_in families (in_flight_change c).
Proof. valid_change. Qed.
Lemma circuit_valid m m' : m_last_trips m <= m_last_trips m' -> Forall (valid_in families) (circuit_changes m m').
Proof.
  intros Hle. unfold circuit_changes. constructor; [valid_change|]. destruct (_ <? _); [|constructor].
  constructor; [|constructor]. valid_change. cbn. apply Z.leb_le. lia.
Qed.
Lemma enter_valid now m : Forall (valid_in families) (enter_changes now m).
Proof.
  unfold enter_changes. destruct (enter now m) as [a m'] eqn:He. destruct (enter_cases now m a m' He) as [Hl _].
  destruct (bool_decide _); [by apply circuit_valid|]. destruct a; cbn [app].
  - constructor; [apply in_flight_valid|]. constructor; [apply in_flight_valid|]. by apply circuit_valid.
  - constructor; [valid_change|]. constructor; [apply in_flight_valid|constructor].
  - constructor; [apply in_flight_valid|constructor].
Qed.
Lemma finish_valid e m m' : m_last_trips m <= m_last_trips m' -> Forall (valid_in families) (finish_changes e m m').
Proof.
  intros Hle. destruct e; cbn [finish_changes].
  - constructor; [apply in_flight_valid|by apply circuit_valid].
  - apply Forall_app. split; [by apply circuit_valid|]. constructor; [apply in_flight_valid|constructor].
  - constructor; [apply in_flight_valid|constructor].
Qed.

(** Writing changes to the registry: only the registry moves. *)
Lemma record_runs cs w : declared (w_registry w) = families -> Forall (valid_in families) cs ->
  exists r, record cs w = (Ok tt, mkWorld (w_state w) (w_guard w) r (w_flights w)) /\ declared r = families
    /\ series (value r) = series (changed_series cs (value (w_registry w))).
Proof.
  intros Hd Hv. rewrite <- Hd in Hv. destruct (changes_applied declared value laws cs (w_registry w) Hv) as (r & Hr & Hd' & Hval).
  exists r. unfold record. rewrite Hr. split_and! ; [done|by rewrite Hd'|]. unfold series. by rewrite !Hval.
Qed.
Lemma responded_recorded q d r w : declared (w_registry w) = families ->
  exists r', responded q d r w = (Ok r, mkWorld (w_state w) (w_guard w) r' (w_flights w)) /\ declared r' = families
    /\ series (value r') = series (value (w_registry w)).
Proof.
  intros Hd. destruct (record_runs (completion (q_method q) (q_route q) (r_status r) d) w Hd (completion_valid _ _ _ _)) as (r' & Hr & Hd' & Hs).
  exists r'. unfold responded, sbind. rewrite Hr. split_and! ; [done|done|]. by rewrite Hs, series_completion.
Qed.

Lemma guard_mw limit secs n w : stack_inv limit secs n w ->
  guarded_count (map fl_request (w_flights w)) = in_flight (m_concurrency (w_guard w)) /\ in_flight (m_concurrency (w_guard w)) <= limit.
Proof.
  intros [[_ _ Hf [Hm _] _] _ [Hl _] Hp _ _]. cbn in Hf, Hm. rewrite guarded_permits by done. lia.
Qed.
(** Turning a request away. *)
Lemma turned_away limit secs n q d r w : stack_inv limit secs n w -> exists w',
  responded q d r w = (Ok r, w') /\ abstract w' = abstract w /\ stack_inv limit secs n w' /\ w_guard w' = w_guard w.
Proof.
  intros [Hg Ht Hl Hp Hd Hs]. destruct (responded_recorded q d r w Hd) as (r' & Hr & Hd' & Hs').
  eexists. split_and! ; [exact Hr|done| |done]. constructor; cbn; try done. by rewrite Hs'.
Qed.
(** An arrival answered for want of capacity. *)
Definition told_full (a : action) (o : option (result exn response)) : Z :=
  match a, o with
  | Arrive _ _, Some (Ok r) => match r_body r with
      | JObj m => if bool_decide (get_str "error_description" m = Some AT_CAPACITY_DESCRIPTION) then 1 else 0
      | _ => 0 end
  | _, _ => 0
  end.
Definition refusals (w : World) : Z := rejected_total (m_concurrency (w_guard w)).
Lemma arrive_refines limit secs n w q d : stack_inv limit secs n w -> exists o w',
  arrive resilience_enabled q d w = (Ok o, w')
  /\ spec_step limit secs (abstract w) (Arrive q d) (option_map Ok o) (abstract w') /\ stack_inv limit secs (n + 1) w'
  /\ refusals w' = refusals w + told_full (Arrive q d) (option_map Ok o).
Proof.
  intros Hinv. destruct (guard_mw limit secs n w Hinv) as [Hcount Hlim]. destruct Hinv as [Hg Ht [Hmax Hsecs] Hp Hd Hs].
  destruct (record_runs [started_change] w Hd started_valid) as (r1 & Hr1 & Hd1 & Hs1).
  rewrite series_started, Hs in Hs1. cbn [guard_series default] in Hs1. unfold arrive, sbind. rewrite Hr1.
  cbn [sget w_flights]. destruct (guarded q) eqn:Hq; cbn [negb].
  2:{ eexists _, _. split_and! ; [reflexivity|by constructor; rewrite Hq| |cbn; unfold refusals; cbn; lia]. constructor; cbn; try done.
      constructor; [|done]. unfold permit_fits. cbn. by rewrite Hq. }
  set (w1 := mkWorld _ _ r1 _). change (w_guard (id w1)) with (w_guard w). change (clock (id w1)) with (clock w).
  destruct (enter (clock w) (w_guard w)) as [a m] eqn:He.
  destruct (enter_observed _ _ _ _ Ht He) as [Htm [Hmm Hsm]]. pose proof (enter_cases _ _ _ _ He) as [_ Hcase]. cbv zeta in Hcase.
  pose proof (enter_ok _ _ _ _ _ Hg He) as Hok.
  destruct (record_runs (enter_changes (clock w) (w_guard w)) w1 Hd1 (enter_valid _ _)) as (r2 & Hr2 & Hd2 & Hs2).
  cbn [w_registry w1] in Hs2. rewrite (enter_series _ _ _ _ (n + 1) _ He Hs1) in Hs2.
  change (id w1) with w1 in *. rewrite Hr2. unfold set_guard, smod. cbn [w_state w_guard w_registry w_flights w1].
  set (w2 := mkWorld (w_state w) m r2 (w_flights w)).
  assert (match a with Entered _ => True | _ => stack_inv limit secs (n + 1) w2 end) as Hinv2.
  { destruct a; [..|done]; constructor; cbn; try done; split; congruence. }
  destruct a as [| |p].
  - destruct (turned_away limit secs (n + 1) q d (send_circuit_open (m_circuit m) (q_scope q)) w2 Hinv2) as (w3 & -> & Ha & Hi & Hw).
    eexists _, _. split_and! ; [reflexivity| |done|unfold refusals; rewrite Hw;
      change (rejected_total (m_concurrency m) = rejected_total (m_concurrency (w_guard w)) + 0); destruct Hcase; lia].
    rewrite Ha. unfold abstract. cbn [w_state w_flights w2 option_map].
    unfold send_circuit_open. rewrite Hsm, Hsecs. by apply spec_broken.
  - destruct (turned_away limit secs (n + 1) q d (send_at_capacity (q_scope q)) w2 Hinv2) as (w3 & -> & Ha & Hi & Hw).
    destruct Hcase as (Hb & Hfull & Hf & Hr & Htr).
    eexists _, _. split_and! ; [reflexivity| |done|unfold refusals; rewrite Hw; exact Hr]. rewrite Ha. apply spec_full; [done|]. lia.
  - eexists _, _. split_and! ; [reflexivity|..].
    + constructor. intros _. destruct Hcase as (_ & Hfull & _). lia.
    + constructor; cbn; try done; [split; congruence|]. constructor; [|done]. unfold permit_fits. cbn. by rewrite Hq.
    + unfold refusals. cbn. destruct Hcase as (_ & _ & -> & _). lia.
Qed.
Lemma complete_refines limit secs n w i d : stack_inv limit secs n w -> exists o w',
  complete config rate_limit_enabled i d w = (Ok o, w')
  /\ spec_step limit secs (abstract w) (Complete i d) o (abstract w') /\ stack_inv limit secs n w' /\ refusals w' = refusals w.
Proof.
  intros Hinv. pose proof Hinv as [Hg Ht [Hmax Hsecs] Hp Hd Hs]. unfold complete, sbind at 1. cbn [sget]. change (id w) with w.
  destruct (w_flights w !! i) as [fl|] eqn:Hfl.
  2:{ eexists _, _. split_and! ; [reflexivity| |done|done]. apply spec_nothing. cbn. by rewrite list_lookup_fmap, Hfl. }
  destruct (serve config rate_limit_enabled (q_scope (fl_request fl)) (q_app (fl_request fl)) (w_state w)) as [res s] eqn:Hserve.
  set (w1 := mkWorld s (w_guard w) (w_registry w) (delete i (w_flights w))).
  assert (exists w2, (match fl_permit fl with
      | Some p => record (finish_changes (ending_of res) (w_guard w) (finish (a_mono s) p (ending_of res) (w_guard w))) !;
                  set_guard (finish (a_mono s) p (ending_of res) (w_guard w))
      | None => sret tt end) w1 = (Ok tt, w2) /\ abstract w2 = (s, delete i (map fl_request (w_flights w))) /\ stack_inv limit secs n w2
    /\ refusals w2 = refusals w) as (w2 & Hfin & Ha2 & Hi2 & Hr2).
  { assert (Forall permit_fits (delete i (w_flights w))) as Hp' by (by apply Forall_delete).
    assert (map fl_request (delete i (w_flights w)) = delete i (map fl_request (w_flights w))) as Hdel by apply list_fmap_delete.
    assert (delete i (w_flights w) = take i (w_flights w) ++ drop (S i) (w_flights w)) as Htd by apply delete_take_drop.
    destruct (fl_permit fl) as [p|] eqn:Hperm.
    - assert (ending_of res <> Cancelled) as Hend by by destruct res.
      set (m := finish (a_mono s) p (ending_of res) (w_guard w)).
      destruct (finish_observed (a_mono s) p (ending_of res) (w_guard w) Hend Ht) as (Htm & [Hmm Hsm] & Hc).
      destruct (record_runs (finish_changes (ending_of res) (w_guard w) m) w1 Hd) as (r & Hr & Hdr & Hsr); [by apply finish_valid, finish_last|].
      unfold sbind. rewrite Hr. eexists. split_and! ; [reflexivity|by unfold abstract; cbn; rewrite Hdel| |unfold refusals; cbn; unfold m; by rewrite Hc, release_rejected].
      constructor; cbn; try done; [|split; unfold m; congruence|by rewrite Hsr; apply finish_series].
      rewrite Htd, omap_app. apply finish_ok; [done|]. rewrite <- (take_drop_middle (w_flights w) i fl Hfl) in Hg. rewrite omap_app in Hg. cbn in Hg.
      by rewrite Hperm in Hg.
    - eexists. split_and! ; [reflexivity|by unfold abstract; cbn; rewrite Hdel| |done]. constructor; cbn; try done.
      rewrite Htd, omap_app. rewrite <- (take_drop_middle (w_flights w) i fl Hfl) in Hg. rewrite omap_app in Hg. cbn in Hg. by rewrite Hperm in Hg. }
  unfold sbind, set_state, set_flights, smod. cbn [w_state w_guard w_registry w_flights]. fold w1. unfold sbind in Hfin. rewrite Hfin.
  destruct res as [r|e].
  - destruct (turned_away limit secs n (fl_request fl) d r w2 Hi2) as (w3 & -> & Ha & Hi & Hw).
    eexists _, _. split_and! ; [reflexivity| |done|by unfold refusals; rewrite Hw]. rewrite Ha, Ha2.
    econstructor; [by rewrite list_lookup_fmap, Hfl|done].
  - eexists _, _. split_and! ; [reflexivity| |done|done]. rewrite Ha2. econstructor; [by rewrite list_lookup_fmap, Hfl|done].
Qed.

Definition arrivals (acts : list action) : Z := Z.of_nat (length (List.filter (fun a => match a with Arrive _ _ => true | _ => false end) acts)).
Definition fulls (acts : list action) (os : list (option (result exn response))) : Z :=
  fold_right Z.add 0 (zip_with told_full acts os).
Lemma run_refines acts : forall limit secs n w, stack_inv limit secs n w -> exists os w',
  run config rate_limit_enabled resilience_enabled acts w = (Ok os, w')
  /\ spec_run config rate_limit_enabled resilience_enabled limit secs (abstract w) acts os (abstract w')
  /\ stack_inv limit secs (n + arrivals acts) w' /\ refusals w' = refusals w + fulls acts os.
Proof.
  induction acts as [|a acts IH]; intros limit secs n w Hinv.
  { exists [], w. split_and! ; [done|constructor|by rewrite Z.add_0_r|cbn; lia]. }
  assert (exists o w1, perform a w = (Ok o, w1) /\ spec_step limit secs (abstract w) a o (abstract w1)
    /\ stack_inv limit secs (n + arrivals [a]) w1 /\ refusals w1 = refusals w + told_full a o) as (o & w1 & Hp & Hs & Hi & Hf).
  { destruct a as [q d|i d|wall mono].
    - destruct (arrive_refines limit secs n w q d Hinv) as (o & w1 & Ha & Hs & Hi & Hf).
      exists (option_map Ok o), w1. cbn [Stack.perform]. unfold sbind. by rewrite Ha.
    - destruct (complete_refines limit secs n w i d Hinv) as (o & w1 & Ha & Hs & Hi & Hf).
      exists o, w1. rewrite Z.add_0_r. split_and! ; [done|done|done|cbn; lia].
    - eexists _, _. split_and! ; [reflexivity|constructor| |unfold refusals; cbn; lia]. rewrite Z.add_0_r. destruct Hinv. by constructor. }
  destruct (IH limit secs _ w1 Hi) as (os & w2 & Hr & Hss & Hi2 & Hf2). exists (o :: os), w2. split_and! .
  - cbn [run]. unfold sbind. by rewrite Hp, Hr.
  - by econstructor.
  - replace (n + arrivals (a :: acts)) with (n + arrivals [a] + arrivals acts); [done|].
    unfold arrivals. cbn [List.filter]. destruct a; cbn [length]; lia.
  - rewrite Hf2, Hf. unfold fulls. cbn. lia.
Qed.
End simulation.

(** C33: The stack refines its specification. From the start, under any
    interleaving of arriving requests, handlers that finish (also with an
    exception) and passing time, the answers and the application's state are
    those of the inner layers serving the admitted requests one after another,
    and a refused request gets a 503 and touches nothing; the guarded requests
    in their handlers never exceed the limit, and the exported series are exact:
    requests, requests in flight, refusals for capacity, and trips of the
    breaker. *)
Theorem stack_refines `{Prometheus} (declared : Registry -> list Family) (value : Registry -> string -> list (string * string) -> option Z)
    (config : Config) (rate_limit_enabled resilience_enabled : bool) (app_version python_version : string)
    (failures successes secs probes max : Z) (s : AppState) (acts : list action) : prometheus_laws declared value ->
  exists r0 os w, boot app_version python_version new_registry = (Ok tt, r0)
  /\ run config rate_limit_enabled resilience_enabled acts (mkWorld s (start failures successes secs probes max) r0 []) = (Ok os, w)
  /\ spec_run config rate_limit_enabled resilience_enabled (Z.max 1 max) (Z.max 1 secs) (s, []) acts os
       (w_state w, map fl_request (w_flights w))
  /\ let waiting := guarded_count resilience_enabled (map fl_request (w_flights w)) in
     waiting <= Z.max 1 max
  /\ value (w_registry w) "oauth2_server_concurrent_requests_in_flight" [] = Some waiting
  /\ value (w_registry w) "oauth2_server_http_requests_total" [] = Some (arrivals acts)
  /\ value (w_registry w) "oauth2_server_back_pressure_rejected_total" [] = Some (fulls acts os)
  /\ default 0 (value (w_registry w) "oauth2_server_circuit_breaker_trips_total" [("circuit", "global")])
     = total_trips (m_circuit (w_guard w)).
Proof.
  intros laws. destruct (booted declared value laws app_version python_version) as (r0 & Hb & Hd & Hv).
  assert (forall f, In f families -> f_labels f = [] -> value r0 (f_name f) [] = Some 0) as Hzero.
  { intros f Hin Hl. rewrite Hv. by apply boot_unlabelled. }
  assert (stack_inv declared value resilience_enabled (Z.max 1 max) (Z.max 1 secs) 0
    (mkWorld s (start failures successes secs probes max) r0 [])) as Hinv.
  { constructor; cbn; try done.
    - eapply (reachable_ok failures successes secs probes max 0). constructor.
    - unfold series, guard_series. cbn [in_flight m_concurrency start new_concurrency rejected_total m_last_trips].
      rewrite !Hzero by (reflexivity || (unfold families; repeat (first [left; reflexivity|right]))).
      repeat f_equal. rewrite Hv. reflexivity. }
  destruct (run_refines declared value laws config rate_limit_enabled resilience_enabled acts _ _ _ _ Hinv) as (os & w & Hr & Hs & Hi & Hf).
  exists r0, os, w. split_and! ; [exact Hb|exact Hr|exact Hs|]. destruct (guard_mw _ _ _ _ _ _ _ Hi) as [Hc Hle]. destruct Hi as [_ Ht _ _ _ Hser].
  cbv zeta. rewrite Hc. unfold series, guard_series in Hser. injection Hser as H1 H2 H3 H4.
  split_and! ; [done|exact H2|exact H1|exact (eq_trans H3 (f_equal Some Hf))|rewrite <- Ht; exact H4].
Qed.

(** ** A run: one place, a failing handler and a breaker that trips at once *)
Definition toy_request (path : string) (app : M response) : Request :=
  mkRequest (mkScope path (Some "10.0.0.9") None) "POST" (Some path) app.
Definition toy_pong : M response := sret (mkResponse 200 (JObj []) []).
Definition toy_crash : M response := sraise (PyErr ValueError "boom").
Definition toy_acts : list action :=
  [Arrive (toy_request "/oauth/token" toy_crash) 5; Arrive (toy_request "/oauth/token" toy_pong) 5;
   Arrive (toy_request "/health" toy_pong) 5; Complete 1 7; Arrive (toy_request "/oauth/token" toy_pong) 5; Complete 0 3; Complete 4 9;
   Elapse 2000000 (30 * NS); Arrive (toy_request "/oauth/token" toy_pong) 5; Complete 0 8].
Definition answer_summary (o : option (result exn response)) : option (option (Z * list (string * string))) :=
  option_map (fun res => match res with Ok r => Some (r_status r, r_headers r) | Err _ => None end) o.
Definition toy_outcomes : list (option (option (Z * list (string * string)))) :=
  let secured l := l ++ security_headers in
  [None; Some (Some (503, secured [("Retry-After", "1")])); None; Some None; Some (Some (503, secured [("Retry-After", "30")]));
   Some (Some (200, [])); None; None; None; Some (Some (200, map (fun kv => (py_lower (fst kv), snd kv)) security_headers))].
Lemma stack_refines_witness : exists r0 os w, @boot toy_prometheus "0.1.0" "3.12" new_registry = (Ok tt, r0)
  /\ run (toy_config false) false true toy_acts (mkWorld (toy_state false false) (start 1 1 30 1 1) r0 []) = (Ok os, w)
  /\ map answer_summary os = toy_outcomes
  /\ tr_value (w_registry w) "oauth2_server_http_requests_total" [] = Some 5
  /\ tr_value (w_registry w) "oauth2_server_back_pressure_rejected_total" [] = Some 1
  /\ default 0 (tr_value (w_registry w) "oauth2_server_circuit_breaker_trips_total" [("circuit", "global")]) = 1.
Proof.
  destruct (@stack_refines toy_prometheus tr_families tr_value (toy_config false) false true "0.1.0" "3.12" 1 1 30 1 1
    (toy_state false false) toy_acts toy_prometheus_laws) as (r0 & os & w & Hb & Hr & _ & _ & _ & Hreq & Hfull & Htrips).
  exists r0, os, w. split; [exact Hb|]. split; [exact Hr|].
  assert (exists os' w', run (toy_config false) false true toy_acts
      (mkWorld (toy_state false false) (start 1 1 30 1 1) r0 []) = (Ok os', w')
      /\ map answer_summary os' = toy_outcomes /\ fulls toy_acts os' = 1 /\ total_trips (m_circuit (w_guard w')) = 1) as (os' & w' & Hr' & Ho & Hf & Ht).
  { assert (fst (@boot toy_prometheus "0.1.0" "3.12" new_registry) = Ok tt) as _ by reflexivity.
    replace r0 with (snd (@boot toy_prometheus "0.1.0" "3.12" new_registry)) by (rewrite Hb; reflexivity).
    eexists _, _. split; [vm_compute; reflexivity|]. split; [vm_compute; reflexivity|]. split; vm_compute; reflexivity. }
  rewrite Hr in Hr'. injection Hr' as <- <-. split; [exact Ho|]. split; [exact Hreq|]. split; [rewrite Hfull; f_equal; exact Hf|].
  rewrite Htrips. exact Ht.
Defined.
