(* ===== verification/MongoDoc.v ===== *)
(** * Rows as MongoDB documents ([storage/mongo.py] [_to_doc], [_from_doc]; the models' fields)

    A model is its fields in declaration order: [model_dump(mode="json")] maps
    them to JSON, with datetimes as RFC 3339 text; reading a document back
    takes the declared types, without pydantic's conversions between them,
    and coerces datetimes as [_coerce_datetime] does. A time without offset
    is taken as UTC; whatever cannot be read is a [ValidationError]. *)
From S2P Require Import Prelude PyStr PyInt PyJson PyDumps Codec Models IsoTime.
#[local] Open Scope Z_scope.

(** ** Fields *)
Inductive ftype := FStr | FOptStr | FInt | FBool | FTime | FOptTime.
Inductive fval :=
| VStr (s : string) | VOptStr (o : option string) | VInt (n : Z) | VBool (b : bool) | VTime (t : Z) | VOptTime (o : option Z).
(** What a missing field stands for: nothing, a value, or the current time. *)
Inductive fdefault := Required | Default (v : fval) | Now.

(** pydantic writes UTC as [Z]. *)
Definition rfc3339 (t : Z) : string := isoformat_naive t +:+ "Z".
Definition dump_val (v : fval) : json :=
  match v with
  | VStr s => JStr s
  | VOptStr o => match o with Some s => JStr s | None => JNull end
  | VInt n => JInt n
  | VBool b => JBool b
  | VTime t => JStr (rfc3339 t)
  | VOptTime o => match o with Some t => JStr (rfc3339 t) | None => JNull end
  end.

Class Model (A : Type) := {
  schema : list (string * ftype * fdefault);
  to_fields : A -> list fval;
  of_fields : list fval -> option A;
  of_to_fields : forall a, of_fields (to_fields a) = Some a
}.
Definition field_names (A : Type) `{Model A} : list string := map (fun f => fst (fst f)) schema.
(** [model_dump(mode="json")] *)
Definition model_dump {A} `{Model A} (a : A) : pydict := combine (field_names A) (map dump_val (to_fields a)).
Definition omit_none (omit : list string) (doc : pydict) : pydict :=
  List.filter (fun '(k, v) => negb (mem_str k omit && json_eqb v JNull)) doc.
Definition to_doc {A} `{Model A} (omit : list string) (a : A) : pydict := omit_none omit (model_dump a).

Section reading.
(** [datetime.fromisoformat]: local time and offset, in microseconds. *)
Context (fromisoformat : string -> option (Z * option Z)).
(** [_coerce_datetime] *)
Definition coerce_datetime (v : json) : option Z :=
  match v with
  | JStr s => option_map (fun '(local, offset) => local - default 0 offset) (fromisoformat s)
  | JObj m =>
      match obj_get "$date" m with
      | None => None
      | Some raw =>
          let raw := match raw with JObj r => obj_get "$numberLong" r | raw => Some raw end in
          option_map (fun millis => millis * 1000)
            (match raw with Some (JInt n) => Some n | Some (JBool b) => Some (if b then 1 else 0) | Some (JStr s) => py_int s | _ => None end)
      end
  | _ => None
  end.
Definition read_val (t : ftype) (v : json) : option fval :=
  match t, v with
  | FStr, JStr s => Some (VStr s)
  | FOptStr, JNull => Some (VOptStr None)
  | FOptStr, JStr s => Some (VOptStr (Some s))
  | FInt, JInt n => Some (VInt n)
  | FBool, JBool b => Some (VBool b)
  | FTime, v => option_map VTime (coerce_datetime v)
  | FOptTime, JNull => Some (VOptTime None)
  | FOptTime, v => option_map (fun t => VOptTime (Some t)) (coerce_datetime v)
  | _, _ => None
  end.
Definition read_field (now : Z) (doc : pydict) (f : string * ftype * fdefault) : option fval :=
  let '(k, t, d) := f in
  match obj_get k doc, d with
  | Some v, _ => read_val t v
  | None, Required => None
  | None, Default v => Some v
  | None, Now => Some (VTime now)
  end.
Fixpoint read_fields (now : Z) (doc : pydict) (fs : list (string * ftype * fdefault)) : option (list fval) :=
  match fs with
  | [] => Some []
  | f :: fs => match read_field now doc f, read_fields now doc fs with Some v, Some vs => Some (v :: vs) | _, _ => None end
  end.
(** The model class called with the fields of the document but [_id]. *)
Definition from_doc {A} `{Model A} (now : Z) (doc : pydict) : result exn A :=
  let doc := List.filter (fun '(k, _) => negb (String.eqb k "_id")) doc in
  match read_fields now doc schema with
  | Some vs => match of_fields vs with Some a => Ok a | None => Err (PyErr ValidationError EmptyString) end
  | None => Err (PyErr ValidationError EmptyString)
  end.
End reading.

(** ** The models *)
Definition str (k : string) : string * ftype * fdefault := (k, FStr, Required).
Definition str_default (k d : string) : string * ftype * fdefault := (k, FStr, Default (VStr d)).
Definition text (k : string) : string * ftype * fdefault := str_default k EmptyString.
Definition opt_str (k : string) : string * ftype * fdefault := (k, FOptStr, Default (VOptStr None)).
Definition flag (k : string) (b : bool) : string * ftype * fdefault := (k, FBool, Default (VBool b)).
Definition time (k : string) : string * ftype * fdefault := (k, FTime, Required).
Definition time_now (k : string) : string * ftype * fdefault := (k, FTime, Now).

#[export, refine] Instance User_model : Model User := {|
  schema := [str "id"; str "username"; str "password_hash"; str "email"; flag "enabled" true; str_default "role" "user"; time_now "created_at"; time_now "updated_at"];
  to_fields u := [VStr (u_id u); VStr (u_username u); VStr (u_password_hash u); VStr (u_email u); VBool (u_enabled u); VStr (u_role u);
                  VTime (u_created_at u); VTime (u_updated_at u)];
  of_fields l := match l with
    | [VStr i; VStr n; VStr h; VStr e; VBool b; VStr r; VTime c; VTime u] => Some (mkUser i n h e b r c u)
    | _ => None end
|}.
Proof. by intros []. Defined.

#[export, refine] Instance Token_model : Model Token := {|
  schema := [str "id"; str "access_token"; opt_str "refresh_token"; str_default "token_type" "Bearer"; ("expires_in", FInt, Default (VInt 3600));
             text "scope"; str "client_id"; opt_str "user_id"; time_now "created_at"; time "expires_at"; flag "revoked" false; opt_str "token_family"];
  to_fields t := [VStr (t_id t); VStr (t_access_token t); VOptStr (t_refresh_token t); VStr (t_token_type t); VInt (t_expires_in t);
                  VStr (t_scope t); VStr (t_client_id t); VOptStr (t_user_id t); VTime (t_created_at t); VTime (t_expires_at t);
                  VBool (t_revoked t); VOptStr (t_token_family t)];
  of_fields l := match l with
    | [VStr i; VStr a; VOptStr r; VStr ty; VInt n; VStr s; VStr c; VOptStr u; VTime t; VTime e; VBool b; VOptStr f] =>
        Some (mkToken i a r ty n s c u t e b f)
    | _ => None end
|}.
Proof. by intros []. Defined.

#[export, refine] Instance AuthorizationCode_model : Model AuthorizationCode := {|
  schema := [str "id"; str "code"; str "client_id"; str "user_id"; str "redirect_uri"; str "scope"; time_now "created_at"; time "expires_at"; flag "used" false;
             opt_str "code_challenge"; opt_str "code_challenge_method"; opt_str "nonce"; opt_str "resource"; opt_str "authorization_details";
             opt_str "claims_request"; opt_str "token_family"; opt_str "dpop_jkt"];
  to_fields c := [VStr (ac_id c); VStr (ac_code c); VStr (ac_client_id c); VStr (ac_user_id c); VStr (ac_redirect_uri c); VStr (ac_scope c);
                  VTime (ac_created_at c); VTime (ac_expires_at c); VBool (ac_used c); VOptStr (ac_code_challenge c);
                  VOptStr (ac_code_challenge_method c); VOptStr (ac_nonce c); VOptStr (ac_resource c);
                  VOptStr (ac_authorization_details c); VOptStr (ac_claims_request c); VOptStr (ac_token_family c); VOptStr (ac_dpop_jkt c)];
  of_fields l := match l with
    | [VStr i; VStr c; VStr ci; VStr u; VStr r; VStr s; VTime t; VTime e; VBool b; VOptStr a1; VOptStr a2; VOptStr a3; VOptStr a4;
       VOptStr a5; VOptStr a6; VOptStr a7; VOptStr a8] => Some (mkCode i c ci u r s t e b a1 a2 a3 a4 a5 a6 a7 a8)
    | _ => None end
|}.
Proof. by intros []. Defined.

#[export, refine] Instance DeviceAuthorization_model : Model DeviceAuthorization := {|
  schema := [str "id"; str "device_code"; str "user_code"; str "client_id"; str "scope"; time_now "created_at"; time "expires_at";
             ("interval_seconds", FInt, Default (VInt 5)); flag "approved" false; flag "denied" false; flag "used" false; opt_str "user_id"];
  to_fields d := [VStr (d_id d); VStr (d_device_code d); VStr (d_user_code d); VStr (d_client_id d); VStr (d_scope d); VTime (d_created_at d);
                  VTime (d_expires_at d); VInt (d_interval_seconds d); VBool (d_approved d); VBool (d_denied d); VBool (d_used d);
                  VOptStr (d_user_id d)];
  of_fields l := match l with
    | [VStr i; VStr dc; VStr uc; VStr c; VStr s; VTime t; VTime e; VInt n; VBool a; VBool b; VBool u; VOptStr o] =>
        Some (mkDevice i dc uc c s t e n a b u o)
    | _ => None end
|}.
Proof. by intros []. Defined.

#[export, refine] Instance Client_model : Model Client := {|
  schema := [str "id"; str "client_id"; str "client_secret"; str "redirect_uris"; str "grant_types"; str "scope"; str "name"; time "created_at";
             time "updated_at"; str_default "token_endpoint_auth_method" "client_secret_basic"; text "registration_access_token";
             str_default "response_types" ("[" +:+ dump_str "code" +:+ "]"); text "contacts"; text "logo_uri"; text "client_uri"; text "policy_uri";
             text "tos_uri"; text "jwks"; text "jwks_uri"; text "backchannel_logout_uri"; flag "backchannel_logout_session_required" false;
             text "frontchannel_logout_uri"; flag "frontchannel_logout_session_required" false; text "post_logout_redirect_uris";
             flag "enabled" true; flag "require_state" false; text "tls_client_certificate_subject_dn"; flag "dpop_nonce_required" false];
  to_fields c := [VStr (c_id c); VStr (c_client_id c); VStr (c_client_secret c); VStr (c_redirect_uris c); VStr (c_grant_types c);
                  VStr (c_scope c); VStr (c_name c); VTime (c_created_at c); VTime (c_updated_at c);
                  VStr (c_token_endpoint_auth_method c); VStr (c_registration_access_token c); VStr (c_response_types c);
                  VStr (c_contacts c); VStr (c_logo_uri c); VStr (c_client_uri c); VStr (c_policy_uri c); VStr (c_tos_uri c);
                  VStr (c_jwks c); VStr (c_jwks_uri c); VStr (c_backchannel_logout_uri c);
                  VBool (c_backchannel_logout_session_required c); VStr (c_frontchannel_logout_uri c);
                  VBool (c_frontchannel_logout_session_required c); VStr (c_post_logout_redirect_uris c); VBool (c_enabled c);
                  VBool (c_require_state c); VStr (c_tls_client_certificate_subject_dn c); VBool (c_dpop_nonce_required c)];
  of_fields l := match l with
    | [VStr i; VStr ci; VStr cs; VStr ru; VStr gt; VStr sc; VStr n; VTime ct; VTime ut; VStr am; VStr ra; VStr rt; VStr co; VStr lo;
       VStr cu; VStr pu; VStr tu; VStr jw; VStr ju; VStr bu; VBool bs; VStr fu; VBool fs; VStr pl; VBool en; VBool rs; VStr dn; VBool dp] =>
        Some (mkClient i ci cs ru gt sc n ct ut am ra rt co lo cu pu tu jw ju bu bs fu fs pl en rs dn dp)
    | _ => None end
|}.
Proof. by intros []. Defined.

#[export, refine] Instance TrustedIssuer_model : Model TrustedIssuer := {|
  schema := [str "id"; str "issuer"; str "jwks_uri"; str_default "allowed_audiences" "[]"; str_default "subject_mapping" "sub";
             flag "jit_provision" false; str_default "allowed_client_ids" "[]"; flag "enabled" true; time_now "created_at"; time_now "updated_at"];
  to_fields i := [VStr (ti_id i); VStr (ti_issuer i); VStr (ti_jwks_uri i); VStr (ti_allowed_audiences i); VStr (ti_subject_mapping i);
                  VBool (ti_jit_provision i); VStr (ti_allowed_client_ids i); VBool (ti_enabled i); VTime (ti_created_at i);
                  VTime (ti_updated_at i)];
  of_fields l := match l with
    | [VStr i; VStr iss; VStr j; VStr a; VStr m; VBool b; VStr c; VBool e; VTime t; VTime u] => Some (mkIssuer i iss j a m b c e t u)
    | _ => None end
|}.
Proof. by intros []. Defined.

#[export, refine] Instance DenylistEntry_model : Model DenylistEntry := {|
  schema := [str "id"; str "kind"; str "value"; text "reason"; text "created_by"; time "created_at";
             ("expires_at", FOptTime, Default (VOptTime None))];
  to_fields e := [VStr (dl_id e); VStr (dl_kind e); VStr (dl_value e); VStr (dl_reason e); VStr (dl_created_by e); VTime (dl_created_at e);
                  VOptTime (dl_expires_at e)];
  of_fields l := match l with
    | [VStr i; VStr k; VStr v; VStr r; VStr b; VTime t; VOptTime o] => Some (mkDeny i k v r b t o)
    | _ => None end
|}.
Proof. by intros []. Defined.

#[export, refine] Instance AuditLogEntry_model : Model AuditLogEntry := {|
  schema := [str "id"; text "actor_id"; text "actor_email"; str "action"; text "target_kind"; text "target_id"; text "ip";
             text "user_agent"; text "metadata"; time "created_at"];
  to_fields e := [VStr (al_id e); VStr (al_actor_id e); VStr (al_actor_email e); VStr (al_action e); VStr (al_target_kind e);
                  VStr (al_target_id e); VStr (al_ip e); VStr (al_user_agent e); VStr (al_metadata e); VTime (al_created_at e)];
  of_fields l := match l with
    | [VStr i; VStr a; VStr ae; VStr ac; VStr tk; VStr ti; VStr ip; VStr ua; VStr m; VTime t] => Some (mkAudit i a ae ac tk ti ip ua m t)
    | _ => None end
|}.
Proof. by intros []. Defined.
