(* ===== verification/SqlText.v ===== *)
(** * What the SQL back end binds ([storage/sql.py])

    The column lists and the statements built of them, and the values bound to
    them: on PostgreSQL datetimes as they are, on SQLite their text, which SQLite
    compares as bytes.  Storage and Paging compare instants; this file says how
    far the text agrees: two instants in different seconds compare as their
    texts do, in either of the two notations the code writes. *)
From S2P Require Import Prelude PyStr PyInt PyJson Codec Models IsoTime Storage Paging MongoDoc.
#[local] Open Scope Z_scope.

(** ** Columns and INSERT *)
Definition columns (A : Type) `{Model A} : string := join ", " (field_names A).
Definition CLIENT_COLS : string := columns Client.
Definition USER_COLS : string := columns User.
Definition TOKEN_COLS : string := columns Token.
Definition AUTH_CODE_COLS : string := columns AuthorizationCode.
Definition DEVICE_AUTH_COLS : string := columns DeviceAuthorization.
Definition TRUSTED_ISSUER_COLS : string := columns TrustedIssuer.
Definition DENYLIST_COLS : string := columns DenylistEntry.
Definition AUDIT_LOG_COLS : string := columns AuditLogEntry.
Definition insert_names (cols : string) : list string := map py_strip (py_split_on "," cols).
Definition insert_stmt (table cols : string) : string :=
  let params := join ", " (map (fun c => ":" +:+ c) (insert_names cols)) in
  "INSERT INTO " +:+ table +:+ " (" +:+ cols +:+ ") VALUES (" +:+ params +:+ ")".

(** ** Bound values *)
Inductive dialect := Sqlite | Postgres.
Inductive sql_value := SNull | SText (s : string) | SInt (n : Z) | SBool (b : bool) | STime (t : Z).
Definition dump_value (d : dialect) (v : fval) : sql_value :=
  match v with
  | VStr s | VOptStr (Some s) => SText s
  | VOptStr None | VOptTime None => SNull
  | VInt n => SInt n
  | VBool b => SBool b
  | VTime t | VOptTime (Some t) => match d with Sqlite => SText (rfc3339 t) | Postgres => STime t end
  end.
(** [_dump] *)
Definition dump (d : dialect) {A} `{Model A} (a : A) : list (string * sql_value) :=
  combine (field_names A) (map (dump_value d) (to_fields a)).
(** [_dt] *)
Definition dt (d : dialect) (value : Z) : sql_value := match d with Sqlite => SText (isoformat value) | Postgres => STime value end.
(** [expires_at > :now], as the database compares it. *)
Definition sql_gt (a b : sql_value) : bool :=
  match a, b with
  | SText x, SText y => String.ltb y x
  | STime x, STime y => y <? x
  | _, _ => false
  end.
Definition sql_token_status (d : dialect) (now : Z) (status : option string) (t : Token) : bool :=
  let later := sql_gt (dump_value d (VTime (t_expires_at t))) (dt d now) in
  match status with
  | Some s =>
      if String.eqb s "active" then negb (t_revoked t) && later
      else if String.eqb s "revoked" then t_revoked t
      else if String.eqb s "expired" then negb (t_revoked t) && negb later
      else true
  | None => true
  end.

(** The names of an INSERT are those of its values, for every model. *)
Definition insert_fits (A : Type) `{Model A} : Prop :=
  insert_names (columns A) = field_names A /\ forall d (a : A), map fst (dump d a) = field_names A.
Lemma dump_names A `{Model A} d (a : A) : length (to_fields a) = length (field_names A) -> map fst (dump d a) = field_names A.
Proof.
  intros Hl. unfold dump. assert (length (field_names A) = length (map (dump_value d) (to_fields a))) as He by (by rewrite map_length).
  clear Hl. revert He. generalize (map (dump_value d) (to_fields a)). induction (field_names A) as [|n l IH]; intros [|v vs]; try done.
  intros [= He]. cbn. by rewrite IH.
Qed.
Lemma inserts_fit : insert_fits Client /\ insert_fits User /\ insert_fits Token /\ insert_fits AuthorizationCode
  /\ insert_fits DeviceAuthorization /\ insert_fits TrustedIssuer /\ insert_fits DenylistEntry /\ insert_fits AuditLogEntry.
Proof. split_and! ; (split; [vm_compute; reflexivity|intros d a; apply dump_names; by destruct a]). Qed.

(** ** Texts of a fixed width *)
Definition precedes (a b : string) : Prop := String.compare a b = Lt.
Lemma precedes_ltb a b : precedes a b -> String.ltb a b = true /\ String.ltb b a = false.
Proof. unfold precedes, String.ltb. intros H. split; [by rewrite H|]. rewrite String.compare_antisym. by rewrite H. Qed.
Lemma precedes_app a a' x y : String.length a = String.length a' -> precedes a a' -> precedes (a +:+ x) (a' +:+ y).
Proof.
  unfold precedes. revert a'. induction a as [|c a IH]; intros [|c' a']; try done. rewrite !append_String. cbn [String.compare String.length].
  intros [= Hl]. destruct (Ascii.compare c c'); [by apply IH|done|done].
Qed.
Lemma precedes_same a x y : precedes x y -> precedes (a +:+ x) (a +:+ y).
Proof.
  unfold precedes. intros H. induction a as [|c a IH]; [done|]. rewrite !append_String. cbn [String.compare].
  assert (Ascii.compare c c = Eq) as -> by (unfold Ascii.compare; apply N.compare_refl). done.
Qed.
(** A statement about the numbers from [a], decided by evaluation. *)
Fixpoint all_from (p : Z -> bool) (n : nat) (a : Z) : bool :=
  match n with O => true | S n => p a && all_from p n (a + 1) end.
Lemma all_from_spec p n a : all_from p n a = true -> forall k, a <= k < a + Z.of_nat n -> p k = true.
Proof.
  revert a. induction n as [|n IH]; intros a Ha k Hk; [lia|]. cbn in Ha. apply andb_prop in Ha as [H0 Ha].
  destruct (Z.eq_dec k a) as [->|]; [done|]. apply (IH (a + 1)); [done|lia].
Qed.
Lemma zfill_2 n : 0 <= n < 100 -> String.length (zfill 2 n) = 2%nat.
Proof.
  intros Hn. apply Nat.eqb_eq. revert n Hn. apply (all_from_spec (fun n => (String.length (zfill 2 n) =? 2)%nat) 100 0). vm_compute. reflexivity.
Qed.
Definition two_digits_ordered (m : Z) : bool :=
  all_from (fun n => negb (n <? m) || match String.compare (zfill 2 n) (zfill 2 m) with Lt => true | _ => false end) 100 0.
Lemma zfill_2_precedes n m : 0 <= n < m -> m < 100 -> precedes (zfill 2 n) (zfill 2 m).
Proof.
  intros Hn Hm. assert (all_from two_digits_ordered 100 0 = true) as Hall by (vm_compute; reflexivity).
  pose proof (all_from_spec _ _ _ (all_from_spec _ _ _ Hall m ltac:(lia)) n ltac:(lia)) as Hp. cbn beta in Hp.
  destruct (Z.ltb_spec n m); [|lia]. cbn [negb orb] in Hp. unfold precedes. by destruct (String.compare _ _).
Qed.
Lemma zfill_4 n : 0 <= n < 10000 -> zfill 4 n = zfill 2 (n / 100) +:+ zfill 2 (n mod 100).
Proof.
  intros Hn. apply String.eqb_eq. revert n Hn. apply (all_from_spec (fun n => String.eqb (zfill 4 n) (zfill 2 (n / 100) +:+ zfill 2 (n mod 100))) (Z.to_nat 10000) 0).
  vm_compute. reflexivity.
Qed.

(** Two-digit fields, each followed by its separator, compare as numbers to base 100. *)
Definition render (l : list (Z * string)) : string := fold_right (fun '(n, sep) s => zfill 2 n +:+ sep +:+ s) EmptyString l.
Definition base100 (l : list Z) : Z := fold_left (fun acc n => acc * 100 + n) l 0.
Lemma base100_from l a b : fold_left (fun acc n => acc * 100 + n) l (a + b) = a * 100 ^ Z.of_nat (length l) + fold_left (fun acc n => acc * 100 + n) l b.
Proof.
  revert a b. induction l as [|m l IH]; intros a b; cbn [fold_left length]; [rewrite Z.mul_1_r; lia|].
  replace ((a + b) * 100 + m) with (a * 100 + (b * 100 + m)) by lia. rewrite IH, Nat2Z.inj_succ, Z.pow_succ_r by lia. lia.
Qed.
Lemma base100_cons n l : base100 (n :: l) = n * 100 ^ Z.of_nat (length l) + base100 l.
Proof. unfold base100. cbn [fold_left]. replace (0 * 100 + n) with (n + 0) by lia. apply base100_from. Qed.
Lemma base100_bound l : Forall (fun n => 0 <= n < 100) l -> 0 <= base100 l < 100 ^ Z.of_nat (length l).
Proof.
  induction 1 as [|n l Hn Hl IH]; [cbn; lia|]. rewrite base100_cons. cbn [length]. rewrite Nat2Z.inj_succ, Z.pow_succ_r by lia. nia.
Qed.
Lemma render_precedes l l' x y : map snd l = map snd l' -> Forall (fun n => 0 <= n < 100) (map fst l) -> Forall (fun n => 0 <= n < 100) (map fst l') ->
  base100 (map fst l) < base100 (map fst l') -> precedes (render l +:+ x) (render l' +:+ y).
Proof.
  revert l'. induction l as [|[n sep] l IH]; intros [|[n' sep'] l'] Hs Hl Hl' Hb; try done.
  cbn [map fst snd] in *. injection Hs as <- Hs. apply Forall_cons in Hl as [Hn Hl]. apply Forall_cons in Hl' as [Hn' Hl'].
  rewrite !base100_cons in Hb. assert (length (map fst l) = length (map fst l')) as Hlen by (rewrite !map_length, <- (map_length snd l), Hs; by rewrite map_length).
  rewrite Hlen in Hb. pose proof (base100_bound _ Hl) as B1. pose proof (base100_bound _ Hl') as B2. rewrite Hlen in B1.
  cbn [render fold_right]. fold (render l) (render l'). rewrite !string_app_assoc.
  destruct (Z.lt_trichotomy n n') as [Hlt|[->|Hgt]].
  - apply precedes_app; [by rewrite !zfill_2|apply zfill_2_precedes; lia].
  - apply precedes_same, precedes_same. apply IH; try done. lia.
  - nia.
Qed.

(** ** The calendar is monotone *)
(** Within an era: the year from 1 March and the day of that year, and the
    month and day of that day as a number. *)
Definition era_year (doe : Z) : Z := (doe - doe / 1460 + doe / 36524 - doe / 146096) / 365.
Definition year_start (y : Z) : Z := 365 * y + y / 4 - y / 100.
Definition year_end (y : Z) : Z := if y =? 399 then 146097 else year_start (y + 1).
Definition day_fields (doy : Z) : Z * Z * Z :=
  let mp := (5 * doy + 2) / 153 in
  let m := if mp <? 10 then mp + 3 else mp - 9 in
  ((if m <=? 2 then 1 else 0), m, doy - (153 * mp + 2) / 5 + 1).
Definition date_number (f : Z * Z * Z) : Z := let '(y, m, d) := f in y * 10000 + m * 100 + d.
Definition era_fields (doe : Z) : Z * Z * Z :=
  let '(dy, m, d) := day_fields (doe - year_start (era_year doe)) in (era_year doe + dy, m, d).
Lemma civil_era days : civil_from_days days
  = let '(y, m, d) := era_fields ((days + 719468) mod 146097) in (y + (days + 719468) / 146097 * 400, m, d).
Proof. unfold civil_from_days, era_fields, day_fields, year_start, era_year. cbv zeta. f_equal. f_equal. lia. Qed.

Lemma era_year_le a b : 0 <= a -> a <= b -> b < 146097 -> era_year a <= era_year b.
Proof. intros Ha Hab Hb. unfold era_year. apply Z.div_le_mono; [lia|]. dlia. Qed.
Definition year_ok (y : Z) : bool := (era_year (year_start y) =? y) && (era_year (year_end y - 1) =? y) && (year_start y <? year_end y) && (year_end y - year_start y <=? 366).
Lemma years_ok y : 0 <= y < 400 -> year_ok y = true.
Proof. revert y. apply (all_from_spec year_ok 400 0). vm_compute. reflexivity. Qed.
Lemma year_found n doe : (n < 400)%nat -> 0 <= doe < year_end (Z.of_nat n) -> exists y, 0 <= y < 400 /\ year_start y <= doe < year_end y.
Proof.
  induction n as [|n IH]; intros Hn Hd; [by exists 0|].
  destruct (Z.le_gt_cases (year_start (Z.of_nat (S n))) doe) as [Hle|Hgt]; [exists (Z.of_nat (S n)); lia|]. apply IH; [lia|].
  unfold year_end. destruct (Z.eqb_spec (Z.of_nat n) 399); [lia|].
  replace (Z.of_nat n + 1) with (Z.of_nat (S n)) by lia. lia.
Qed.
Lemma era_day doe : 0 <= doe < 146097 -> 0 <= era_year doe < 400 /\ 0 <= doe - year_start (era_year doe) <= 365.
Proof.
  intros Hd. destruct (year_found 399 doe) as (y & Hy & Hs); [lia|exact Hd|]. pose proof (years_ok y Hy) as Hok. unfold year_ok in Hok.
  repeat (apply andb_prop in Hok as [Hok ?]). assert (0 <= year_start y /\ year_end y <= 146097) as [Hlo Hhi].
  { unfold year_end, year_start in *. destruct (Z.eqb_spec y 399); dlia. }
  pose proof (era_year_le (year_start y) doe Hlo ltac:(lia) ltac:(lia)). pose proof (era_year_le doe (year_end y - 1) ltac:(lia) ltac:(lia) ltac:(lia)).
  assert (era_year doe = y) as -> by lia. lia.
Qed.
(** A day of the year as month and day, the months of the next January counted on. *)
Definition day_number (doy : Z) : Z := date_number (day_fields doy).
Definition day_ok (doy : Z) : bool :=
  let '(dy, m, d) := day_fields doy in
  (0 <=? dy) && (dy <=? 1) && (1 <=? m) && (m <=? 12) && (1 <=? d) && (d <=? 31) && (301 <=? day_number doy) && (day_number doy <=? 10229)
  && all_from (fun e => negb (doy <? e) || (day_number doy <? day_number e)) 366 0.
Lemma days_ok doy : 0 <= doy <= 365 -> day_ok doy = true.
Proof. intros Hd. apply (all_from_spec day_ok 366 0); [vm_compute; reflexivity|lia]. Qed.
Lemma day_range doy : 0 <= doy <= 365 -> 301 <= day_number doy <= 10229.
Proof.
  intros Hd. pose proof (days_ok doy Hd) as Hok. unfold day_ok in Hok. destruct (day_fields doy) as [[dy m] d].
  repeat (apply andb_prop in Hok as [Hok ?]). lia.
Qed.
Lemma day_monotone a b : 0 <= a -> a < b -> b <= 365 -> day_number a < day_number b.
Proof.
  intros Ha Hab Hb. pose proof (days_ok a ltac:(lia)) as Hok. unfold day_ok in Hok. destruct (day_fields a) as [[dy m] d].
  apply andb_prop in Hok as [_ Hok]. pose proof (all_from_spec _ _ _ Hok b ltac:(lia)) as Hp. cbn beta in Hp. lia.
Qed.
Lemma era_number doe : date_number (era_fields doe) = era_year doe * 10000 + day_number (doe - year_start (era_year doe)).
Proof. unfold era_fields, day_number. destruct (day_fields _) as [[dy m] d]. cbn. lia. Qed.
Lemma era_monotone a b : 0 <= a -> a < b -> b < 146097 -> date_number (era_fields a) < date_number (era_fields b).
Proof.
  intros Ha Hab Hb. rewrite !era_number. destruct (era_day a ltac:(lia)) as [Hya Hda], (era_day b ltac:(lia)) as [Hyb Hdb].
  pose proof (era_year_le a b ltac:(lia) ltac:(lia) Hb). pose proof (day_range _ Hda). pose proof (day_range _ Hdb).
  destruct (Z.eq_dec (era_year a) (era_year b)) as [He|]; [|lia]. rewrite He in *.
  pose proof (day_monotone (a - year_start (era_year b)) (b - year_start (era_year b)) ltac:(lia) ltac:(lia) ltac:(lia)). lia.
Qed.
Lemma era_span a : 0 <= a < 146097 -> date_number (era_fields 0) <= date_number (era_fields a) <= date_number (era_fields 146096).
Proof.
  intros Ha. split.
  - destruct (Z.eq_dec a 0) as [->|]; [lia|]. apply Z.lt_le_incl, era_monotone; lia.
  - destruct (Z.eq_dec a 146096) as [->|]; [lia|]. apply Z.lt_le_incl, era_monotone; lia.
Qed.
Lemma date_number_era days : date_number (civil_from_days days)
  = date_number (era_fields ((days + 719468) mod 146097)) + (days + 719468) / 146097 * 4000000.
Proof. rewrite civil_era. destruct (era_fields _) as [[y m] d]. cbn. lia. Qed.
(** A later day has a greater date. *)
Lemma civil_monotone a b : a < b -> date_number (civil_from_days a) < date_number (civil_from_days b).
Proof.
  intros Hab. rewrite !date_number_era. set (a' := a + 719468). set (b' := b + 719468).
  pose proof (Z.mod_pos_bound a' 146097 ltac:(lia)) as Ha. pose proof (Z.mod_pos_bound b' 146097 ltac:(lia)) as Hb.
  pose proof (Z.div_mod a' 146097 ltac:(lia)) as Ea. pose proof (Z.div_mod b' 146097 ltac:(lia)) as Eb.
  destruct (Z.lt_trichotomy (a' / 146097) (b' / 146097)) as [Hlt|[Heq|Hgt]]; [|rewrite Heq in *|lia].
  - pose proof (era_span _ Ha) as [_ Hsa]. pose proof (era_span _ Hb) as [Hsb _].
    assert (date_number (era_fields 146096) < date_number (era_fields 0) + 4000000) as Hera by (vm_compute; reflexivity). lia.
  - pose proof (era_monotone (a' mod 146097) (b' mod 146097) ltac:(lia) ltac:(lia) ltac:(lia)). lia.
Qed.
Lemma civil_ranges days y m d : civil_from_days days = (y, m, d) -> 1 <= m <= 12 /\ 1 <= d <= 31.
Proof.
  rewrite civil_era. destruct (era_day _ (Z.mod_pos_bound (days + 719468) 146097 ltac:(lia))) as [_ Hd]. pose proof (days_ok _ Hd) as Hok.
  unfold era_fields, day_ok in *. destruct (day_fields _) as [[dy m0] d0]. intros [= <- <- <-]. repeat (apply andb_prop in Hok as [Hok ?]). lia.
Qed.

(** ** The instants Python can write, as text *)
Definition MIN_TIME : Z := -62135596800 * SECOND.
Definition MAX_TIME : Z := 253402300800 * SECOND.
Definition writable (t : Z) : Prop := MIN_TIME <= t < MAX_TIME.
Definition text_fields (secs : Z) : list (Z * string) :=
  let '(y, m, d) := civil_from_days (secs / 86400) in
  let t := secs mod 86400 in
  [(y / 100, EmptyString); (y mod 100, "-"); (m, "-"); (d, "T"); (t / 3600, ":"); (t / 60 mod 60, ":"); (t mod 60, EmptyString)].
Definition fraction (t : Z) : string := if t mod SECOND =? 0 then EmptyString else "." +:+ zfill 6 (t mod SECOND).

Lemma civil_le a b : a <= b -> date_number (civil_from_days a) <= date_number (civil_from_days b).
Proof. intros H. destruct (Z.eq_dec a b) as [->|]; [lia|]. apply Z.lt_le_incl, civil_monotone. lia. Qed.
Lemma year_range days y m d : -719162 <= days <= 2932896 -> civil_from_days days = (y, m, d) -> 1 <= y <= 9999.
Proof.
  intros Hd Hc. destruct (civil_ranges _ _ _ _ Hc) as [Hm Hday]. pose proof (civil_le (-719162) days ltac:(lia)) as Hlo.
  pose proof (civil_le days 2932896 ltac:(lia)) as Hhi. rewrite Hc in *.
  change (date_number (civil_from_days (-719162))) with 10101 in Hlo. change (date_number (civil_from_days 2932896)) with 99991231 in Hhi.
  cbn [date_number] in *. lia.
Qed.
Lemma writable_days t : writable t -> -719162 <= t / SECOND / 86400 <= 2932896.
Proof. unfold writable, MIN_TIME, MAX_TIME, SECOND. intros H. dlia. Qed.
Lemma naive_render t : writable t -> isoformat_naive t = render (text_fields (t / SECOND)) +:+ fraction t.
Proof.
  intros Hw. pose proof (writable_days t Hw) as Hd. unfold isoformat_naive, text_fields, fraction. cbv zeta.
  destruct (civil_from_days (t / SECOND / 86400)) as [[y m] d] eqn:Hc. pose proof (year_range _ _ _ _ Hd Hc) as Hy.
  rewrite (zfill_4 y) by lia. cbn [render fold_right]. rewrite !string_app_assoc, !append_nil. reflexivity.
Qed.
Lemma fields_bounded t : writable t -> Forall (fun n => 0 <= n < 100) (map fst (text_fields (t / SECOND))).
Proof.
  intros Hw. pose proof (writable_days t Hw) as Hd. unfold text_fields. destruct (civil_from_days _) as [[y m] d] eqn:Hc.
  pose proof (year_range _ _ _ _ Hd Hc). pose proof (civil_ranges _ _ _ _ Hc). cbv zeta. cbn [map fst].
  pose proof (Z.mod_pos_bound (t / SECOND) 86400 ltac:(lia)) as Hs. revert Hs. generalize ((t / SECOND) mod 86400). intros s Hs.
  repeat constructor; try lia; dlia.
Qed.
Lemma fields_separators a b : map snd (text_fields a) = map snd (text_fields b).
Proof. unfold text_fields. by destruct (civil_from_days (a / 86400)) as [[? ?] ?], (civil_from_days (b / 86400)) as [[? ?] ?]. Qed.
Lemma fields_number a : base100 (map fst (text_fields a))
  = date_number (civil_from_days (a / 86400)) * 1000000 + (a mod 86400 / 3600 * 10000 + a mod 86400 / 60 mod 60 * 100 + a mod 86400 mod 60).
Proof.
  unfold text_fields. destruct (civil_from_days (a / 86400)) as [[y m] d]. cbv zeta. unfold base100. cbn [map fst fold_left date_number].
  pose proof (Z.div_mod y 100 ltac:(lia)). lia.
Qed.
Lemma fields_monotone a b : a < b -> base100 (map fst (text_fields a)) < base100 (map fst (text_fields b)).
Proof.
  intros Hab. rewrite !fields_number. pose proof (Z.mod_pos_bound a 86400 ltac:(lia)) as Ha. pose proof (Z.mod_pos_bound b 86400 ltac:(lia)) as Hb.
  pose proof (Z.div_mod a 86400 ltac:(lia)) as Ea. pose proof (Z.div_mod b 86400 ltac:(lia)) as Eb.
  assert (forall s, 0 <= s < 86400 -> 0 <= s / 3600 * 10000 + s / 60 mod 60 * 100 + s mod 60 < 1000000) as Hday by (intros s Hs; dlia).
  pose proof (Hday _ Ha). pose proof (Hday _ Hb).
  destruct (Z.lt_trichotomy (a / 86400) (b / 86400)) as [Hlt|[Heq|Hgt]]; [|rewrite Heq in *|lia].
  - pose proof (civil_monotone _ _ Hlt). lia.
  - apply Z.add_lt_mono_l. assert (a mod 86400 < b mod 86400) as Hlt by lia. revert Hlt Ha Hb.
    generalize (a mod 86400), (b mod 86400). intros s s' Hlt Hs Hs'. dlia.
Qed.
(** Texts of different seconds compare as the instants, whatever follows. *)
Lemma text_precedes t u x y : writable t -> writable u -> t / SECOND < u / SECOND -> precedes (isoformat_naive t +:+ x) (isoformat_naive u +:+ y).
Proof.
  intros Ht Hu Hlt. rewrite (naive_render t), (naive_render u), !string_app_assoc by done.
  apply render_precedes; [apply fields_separators|by apply fields_bounded..|by apply fields_monotone].
Qed.

(** C39: On either database a token whose expiry is not in the running second is
    listed as active or expired exactly when it is; in the running second SQLite
    may still compare the notations rather than the times. *)
Theorem token_status_as_text (d : dialect) (now : Z) (status : option string) (t : Token) :
  writable now -> writable (t_expires_at t) -> (d = Sqlite -> t_expires_at t / SECOND <> now / SECOND) ->
  sql_token_status d now status t = token_status now status t.
Proof.
  intros Hn Ht Hsec. unfold sql_token_status, token_status.
  assert (sql_gt (dump_value d (VTime (t_expires_at t))) (dt d now) = (now <? t_expires_at t)) as ->.
  { destruct d; [|done]. specialize (Hsec eq_refl). cbn [dump_value dt sql_gt]. unfold rfc3339, isoformat.
    destruct (Z.lt_trichotomy (t_expires_at t / SECOND) (now / SECOND)) as [Hlt|[Heq|Hgt]]; [|done|].
    - destruct (precedes_ltb _ _ (text_precedes _ _ "Z" (iso_offset 0) Ht Hn Hlt)) as [_ ->]. symmetry. apply Z.ltb_ge. unfold SECOND in *. dlia.
    - destruct (precedes_ltb _ _ (text_precedes _ _ (iso_offset 0) "Z" Hn Ht Hgt)) as [-> _]. symmetry. apply Z.ltb_lt. unfold SECOND in *. dlia. }
  destruct status as [s|]; [|done]. by rewrite Z.leb_antisym.
Qed.
(** A token that expired half a second ago is still listed as active, and a row
    made at a full second sorts after one made later in that second. *)
Lemma text_order_flawed :
  sql_token_status Sqlite 1735689600500000 (Some "active") (mkToken "i" "a" None "Bearer" 3600 EmptyString "c" None 0 1735689600000000 false None) = true
  /\ token_status 1735689600500000 (Some "active") (mkToken "i" "a" None "Bearer" 3600 EmptyString "c" None 0 1735689600000000 false None) = false
  /\ String.ltb (rfc3339 1735689600500000) (rfc3339 1735689600000000) = true.
Proof. split_and! ; vm_compute; reflexivity. Qed.
Lemma token_status_as_text_witness :
  let t := mkToken "i" "a" None "Bearer" 3600 EmptyString "c" None 0 1735689600123456 false None in
  writable 1735689601000000 /\ writable (t_expires_at t) /\ sql_token_status Sqlite 1735689601000000 (Some "expired") t = true.
Proof.
  cbv zeta. assert (writable 1735689601000000) as H1 by (unfold writable, MIN_TIME, MAX_TIME, SECOND; lia).
  assert (writable 1735689600123456) as H2 by (unfold writable, MIN_TIME, MAX_TIME, SECOND; lia).
  split; [exact H1|]. split; [exact H2|].
  rewrite (token_status_as_text Sqlite 1735689601000000 (Some "expired")
    (mkToken "i" "a" None "Bearer" 3600 EmptyString "c" None 0 1735689600123456 false None) H1 H2 ltac:(intros _; discriminate)). reflexivity.
Defined.
