(* ===== verification/Mongo.v ===== *)
(** * The MongoDB back end ([storage/mongo.py])

    [MongoStorage] over a driver: what motor and the server do is a parameter
    ([MongoDriver]), whose documented behaviour is stated as laws in
    MongoProps. A query is the filter document of the call, an update its
    [$set] and [$setOnInsert] members. *)
From S2P Require Import Prelude PyStr PyInt PyJson PyDumps Codec Models IsoTime Storage StoreSpec PyUrl Paging MongoDoc.
#[local] Open Scope Z_scope.

Inductive filter_doc :=
| All                                        (* {} *)
| Eq (members : list (string * json))        (* {k: v, ...} *)
| Or (alternatives : list (string * json))   (* {"$or": [{k: v}, ...]} *)
| RegexI (field pattern : string).           (* {field: {"$regex": pattern, "$options": "i"}} *)
Record update_doc := mkUpdate { u_set : pydict; u_set_on_insert : pydict }.
Definition set_ (l : pydict) : update_doc := mkUpdate l [].

(** The operations of a collection: [None] is a [DuplicateKeyError]. *)
Class MongoDriver := {
  Coll : Type;
  create_index : list string -> bool -> Coll -> option Coll;
  insert_one : pydict -> Coll -> option Coll;
  find_one : filter_doc -> Coll -> option pydict;
  find : filter_doc -> Coll -> list pydict;
  update_one : filter_doc -> update_doc -> bool -> Coll -> option Coll;
  update_many : filter_doc -> update_doc -> Coll -> option (nat * Coll);
  find_one_and_update : filter_doc -> update_doc -> Coll -> option (option pydict * Coll);
  replace_one : filter_doc -> pydict -> bool -> Coll -> option Coll;
  delete_one : filter_doc -> Coll -> Coll
}.

Section mongo.
Context `{MongoDriver} (cbn_ : string -> bool) (fromisoformat : string -> option (Z * option Z)).
Record Db := mkDb {
  m_clients : Coll; m_users : Coll; m_tokens : Coll; m_codes : Coll; m_devices : Coll; m_issuers : Coll; m_denylist : Coll; m_audit : Coll
}.
Notation MM := (ST Db exn).

(** ** Start *)
Definition DEFAULT_DB_NAME : string := "oauth2".
Fixpoint lstrip_char (c : ascii) (s : string) : string :=
  match s with String d r => if Ascii.eqb d c then lstrip_char c r else s | EmptyString => EmptyString end.
Definition db_name_from_url (url : string) : result exn string :=
  let? split := urlsplit cbn_ url in
  Ok (or_else (head (py_split_on "/" (lstrip_char "/" (s_path split)))) DEFAULT_DB_NAME).

Inductive coll_name := Clients | Users | Tokens | Codes | Devices | Issuers | Denylist | Audit.
Definition get_coll (n : coll_name) (db : Db) : Coll :=
  match n with
  | Clients => m_clients db | Users => m_users db | Tokens => m_tokens db | Codes => m_codes db
  | Devices => m_devices db | Issuers => m_issuers db | Denylist => m_denylist db | Audit => m_audit db
  end.
Definition set_coll (n : coll_name) (c : Coll) (db : Db) : Db :=
  let '(mkDb a b d e f g h i) := db in
  match n with
  | Clients => mkDb c b d e f g h i | Users => mkDb a c d e f g h i | Tokens => mkDb a b c e f g h i | Codes => mkDb a b d c f g h i
  | Devices => mkDb a b d e c g h i | Issuers => mkDb a b d e f c h i | Denylist => mkDb a b d e f g c i | Audit => mkDb a b d e f g h c
  end.
Definition INDEXES : list (coll_name * list string * bool) :=
  [(Clients, ["client_id"], true); (Clients, ["created_at"], false);
   (Users, ["username"], true); (Users, ["email"], false); (Users, ["created_at"], false);
   (Tokens, ["access_token"], true); (Tokens, ["refresh_token"], false); (Tokens, ["created_at"], false);
   (Codes, ["code"], true);
   (Devices, ["device_code"], true); (Devices, ["user_code"], true); (Devices, ["client_id"], false);
   (Denylist, ["kind"; "value"], true); (Issuers, ["issuer"], true)].
Definition duplicate_key : exn := PyErr StorageError "DuplicateKeyError".
(** One call on a collection. *)
Definition on {A} (n : coll_name) (f : Coll -> option (A * Coll)) : MM A := fun db =>
  match f (get_coll n db) with
  | Some (a, c) => (Ok a, set_coll n c db)
  | None => (Err duplicate_key, db)
  end.
Definition write (n : coll_name) (f : Coll -> option Coll) : MM unit := on n (fun c => option_map (pair tt) (f c)).
Definition ensure_indexes : MM unit := each_m (fun '(n, ks, u) => write n (create_index ks u)) INDEXES.

(** ** Helpers *)
Definition m_insert (n : coll_name) (doc : pydict) : MM unit := fun db =>
  match write n (insert_one doc) db with
  | (Err _, db) => (Err (OAuthError "invalid_request" (Some "duplicate key") 400), db)
  | r => r
  end.
Definition by_ (k v : string) : filter_doc := Eq [(k, JStr v)].
Definition update (n : coll_name) (f : filter_doc) (set : pydict) : MM unit := write n (update_one f (set_ set) false).
Definition now_iso (now : Z) : json := JStr (isoformat now).
Definition lookup_one {A} `{Model A} (now : Z) (n : coll_name) (f : filter_doc) (db : Db) : result exn (option A) :=
  match find_one f (get_coll n db) with
  | None => Ok None
  | Some doc => let? a := from_doc fromisoformat now doc in Ok (Some a)
  end.
Definition lookup_all {A} `{Model A} (now : Z) (n : coll_name) (f : filter_doc) (db : Db) : result exn (list A) :=
  map_ok (from_doc fromisoformat now) (find f (get_coll n db)).
(** [find_one_and_update] as a claim: 1 when a document was updated. *)
Definition claim (n : coll_name) (f : filter_doc) : MM nat :=
  let! doc := on n (find_one_and_update f (set_ [("used", JBool true)])) in
  sret (match doc with Some _ => 1%nat | None => 0%nat end).
Definition revoke_many (f : filter_doc) : MM nat := on Tokens (update_many f (set_ [("revoked", JBool true)])).

(** ** Clients *)
Definition m_save_client (c : Client) : MM unit := m_insert Clients (to_doc [] c).
Definition m_get_client (now : Z) (client_id : string) : Db -> result exn (option Client) := lookup_one now Clients (by_ "client_id" client_id).
Definition m_update_client (c : Client) : MM unit := write Clients (replace_one (by_ "client_id" (c_client_id c)) (to_doc [] c) false).
Definition m_delete_client (client_id : string) : MM unit := write Clients (fun c => Some (delete_one (by_ "client_id" client_id) c)).
Definition m_set_client_enabled (now : Z) (client_id : string) (enabled : bool) : MM unit :=
  update Clients (by_ "client_id" client_id) [("enabled", JBool enabled); ("updated_at", now_iso now)].
Definition m_set_client_secret (now : Z) (client_id secret : string) : MM unit :=
  update Clients (by_ "client_id" client_id) [("client_secret", JStr secret); ("updated_at", now_iso now)].

(** ** Users *)
Definition m_save_user (u : User) : MM unit := m_insert Users (to_doc [] u).
Definition m_get_user_by_username (now : Z) (username : string) : Db -> result exn (option User) := lookup_one now Users (by_ "username" username).
Definition m_get_user_by_id (now : Z) (user_id : string) : Db -> result exn (option User) := lookup_one now Users (by_ "id" user_id).
(** [re.escape] *)
Definition regex_special : list N :=
  [40; 41; 91; 93; 123; 125; 63; 42; 43; 45; 124; 94; 36; 92; 46; 38; 126; 35; 32; 9; 10; 13; 11; 12]%N.
Fixpoint re_escape (s : string) : string :=
  match s with
  | EmptyString => EmptyString
  | String c r => (if existsb (N.eqb (N_of_ascii c)) regex_special then String "\" (String c EmptyString) else String c EmptyString) +:+ re_escape r
  end.
Definition m_get_users_by_email (now : Z) (email : string) : Db -> result exn (list User) :=
  lookup_all now Users (RegexI "email" ("^\s*" +:+ re_escape (py_lower (py_strip email)) +:+ "\s*$")).
Definition m_update_user (u : User) : MM unit :=
  update Users (by_ "id" (u_id u))
    [("username", JStr (u_username u)); ("email", JStr (u_email u)); ("enabled", JBool (u_enabled u)); ("role", JStr (u_role u));
     ("password_hash", JStr (u_password_hash u)); ("updated_at", now_iso (u_updated_at u))].
Definition m_delete_user (user_id : string) : MM unit := write Users (fun c => Some (delete_one (by_ "id" user_id) c)).
Definition m_set_user (now : Z) (user_id k : string) (v : json) : MM unit :=
  update Users (by_ "id" user_id) [(k, v); ("updated_at", now_iso now)].
Definition m_set_user_enabled (now : Z) (user_id : string) (enabled : bool) : MM unit := m_set_user now user_id "enabled" (JBool enabled).
Definition m_set_user_role (now : Z) (user_id role : string) : MM unit := m_set_user now user_id "role" (JStr role).
Definition m_set_user_password_hash (now : Z) (user_id hash : string) : MM unit := m_set_user now user_id "password_hash" (JStr hash).

(** ** Tokens *)
Definition m_save_token (t : Token) : MM unit := m_insert Tokens (to_doc ["refresh_token"; "token_family"] t).
Definition m_get_token_by_access_token (now : Z) (v : string) : Db -> result exn (option Token) := lookup_one now Tokens (by_ "access_token" v).
Definition m_get_token_by_refresh_token (now : Z) (v : string) : Db -> result exn (option Token) := lookup_one now Tokens (by_ "refresh_token" v).
Definition m_get_token_by_id (now : Z) (v : string) : Db -> result exn (option Token) := lookup_one now Tokens (by_ "id" v).
Definition m_revoke_token (v : string) : MM unit :=
  revoke_many (Or [("access_token", JStr v); ("refresh_token", JStr v)]) !; sret tt.
Definition m_revoke_token_family (f : string) : MM nat := revoke_many (by_ "token_family" f).
Definition m_revoke_tokens_by_user_id (u : string) : MM nat := revoke_many (Eq [("user_id", JStr u); ("revoked", JBool false)]).
Definition m_revoke_tokens_by_client_id (c : string) : MM nat := revoke_many (Eq [("client_id", JStr c); ("revoked", JBool false)]).

(** ** Codes and devices *)
Definition CODE_OMITTED : list string :=
  ["code_challenge"; "code_challenge_method"; "nonce"; "resource"; "authorization_details"; "claims_request"; "token_family"].
Definition m_save_authorization_code (c : AuthorizationCode) : MM unit := m_insert Codes (to_doc CODE_OMITTED c).
Definition m_get_authorization_code (now : Z) (code : string) : Db -> result exn (option AuthorizationCode) := lookup_one now Codes (by_ "code" code).
Definition m_get_authorization_code_by_token_family (now : Z) (f : string) : Db -> result exn (option AuthorizationCode) :=
  lookup_one now Codes (by_ "token_family" f).
Definition m_mark_authorization_code_used (code : string) : MM nat := claim Codes (Eq [("code", JStr code); ("used", JBool false)]).
Definition m_save_device_authorization (d : DeviceAuthorization) : MM unit := m_insert Devices (to_doc [] d).
Definition m_get_device_authorization_by_device_code (now : Z) (v : string) : Db -> result exn (option DeviceAuthorization) :=
  lookup_one now Devices (by_ "device_code" v).
Definition m_get_device_authorization_by_user_code (now : Z) (v : string) : Db -> result exn (option DeviceAuthorization) :=
  lookup_one now Devices (by_ "user_code" v).
Definition m_approve_device_authorization (user_code user_id : string) : MM unit :=
  update Devices (by_ "user_code" user_code) [("approved", JBool true); ("denied", JBool false); ("user_id", JStr user_id)].
Definition m_deny_device_authorization (user_code : string) : MM unit :=
  update Devices (by_ "user_code" user_code) [("denied", JBool true); ("approved", JBool false)].
Definition m_mark_device_authorization_used (v : string) : MM nat := claim Devices (Eq [("device_code", JStr v); ("used", JBool false)]).
Definition m_expire_device_authorization (now : Z) (v : string) : MM unit :=
  update Devices (by_ "device_code" v) [("expires_at", now_iso (now - SECOND))].

(** ** Issuers, denylist, audit log *)
Definition m_save_trusted_issuer (i : TrustedIssuer) : MM unit :=
  let doc := to_doc [] i in
  let insert_only := List.filter (fun '(k, _) => mem_str k ["id"; "created_at"]) doc in
  let doc := List.filter (fun '(k, _) => negb (mem_str k ["id"; "created_at"])) doc in
  write Issuers (update_one (by_ "issuer" (ti_issuer i)) (mkUpdate doc insert_only) true).
Definition m_get_trusted_issuer (now : Z) (issuer : string) : Db -> result exn (option TrustedIssuer) :=
  lookup_one now Issuers (by_ "issuer" issuer).
Definition deny_by (kind value : string) : filter_doc := Eq [("kind", JStr kind); ("value", JStr value)].
(** [doc[k] = existing[k]] raises a [KeyError] when there is none. *)
Definition copy_member (k : string) (existing doc : pydict) : result exn pydict :=
  match obj_get k existing with Some v => Ok (obj_set k v doc) | None => Err (PyErr KeyError k) end.
Definition m_add_denylist_entry (e : DenylistEntry) : MM unit := fun db =>
  let f := deny_by (dl_kind e) (dl_value e) in
  (let! doc := slift (match find_one f (get_coll Denylist db) with
                      | None => Ok (to_doc [] e)
                      | Some existing => let? doc := copy_member "id" existing (to_doc [] e) in copy_member "created_at" existing doc
                      end) in
   write Denylist (replace_one f doc true)) db.
Definition m_remove_denylist_entry (entry_id : string) : MM unit := write Denylist (fun c => Some (delete_one (by_ "id" entry_id) c)).
Definition m_find_denylist_entry (now : Z) (kind value : string) (db : Db) : result exn (option DenylistEntry) :=
  let? entry := lookup_one now Denylist (deny_by kind value) db in
  Ok (match entry with Some e => if deny_is_active now e then Some e else None | None => None end).
(** Not through [_insert]. *)
Definition m_write_audit_log (e : AuditLogEntry) : MM unit := write Audit (insert_one (to_doc [] e)).

(** ** The pages, filtered and sorted here *)
Definition m_key (k : sql_key) : sql_key := match k with KNull => KText EmptyString | k => k end.
Definition m_page {A} (col : A -> sql_key) (q : ListQuery) (items : list A) : list A * Z :=
  (firstn (Z.to_nat (effective_limit q)) (skipn (Z.to_nat (lq_offset q))
     (order_by (fun a => m_key (col a)) (Paging.ascending (lq_sort_dir q)) items)), Z.of_nat (length items)).
Definition m_search (q : ListQuery) : string := py_lower (or_else (lq_search q) EmptyString).
Definition found_in (q : ListQuery) (column : string) : bool := negb (truthy (m_search q)) || py_contains (m_search q) (py_lower column).
Definition m_list_all {A} `{Model A} (created_at : A -> Z) (n : coll_name) (now : Z) (db : Db) : result exn (list A) :=
  let? items := lookup_all now n All db in Ok (order_by (fun a => KInt (created_at a)) false items).
Definition m_list_all_clients : Z -> Db -> result exn (list Client) := m_list_all c_created_at Clients.
Definition m_list_all_users : Z -> Db -> result exn (list User) := m_list_all u_created_at Users.
Definition m_list_all_tokens (now : Z) (db : Db) : result exn (list Token) :=
  let? items := m_list_all t_created_at Tokens now db in Ok (firstn 200 items).
Definition m_list_all_device_authorizations (now : Z) (db : Db) : result exn (list DeviceAuthorization) :=
  let? items := m_list_all d_created_at Devices now db in Ok (firstn 500 items).
Definition m_list_clients_page (now : Z) (q : ListQuery) (db : Db) : result exn (list Client * Z) :=
  let? items := lookup_all now Clients All db in
  Ok (m_page (client_col (whitelist_col (lq_sort_by q) CLIENT_SORT_COLS)) q
        (List.filter (fun c => found_in q (c_name c) || found_in q (c_client_id c)) items)).
Definition m_list_users_page (now : Z) (q : ListQuery) (db : Db) : result exn (list User * Z) :=
  let? items := lookup_all now Users All db in
  Ok (m_page (user_col (whitelist_col (lq_sort_by q) USER_SORT_COLS)) q
        (List.filter (fun u => found_in q (u_username u) || found_in q (u_email u)) items)).
Definition m_list_tokens_page (now : Z) (q : ListQuery) (db : Db) : result exn (list Token * Z) :=
  let? items := lookup_all now Tokens All db in
  Ok (m_page (token_col (whitelist_col (lq_sort_by q) TOKEN_SORT_COLS)) q
        (List.filter (fun t => token_status now (lq_status q) t
                        && (found_in q (t_client_id t) || found_in q (default EmptyString (t_user_id t)))) items)).
Definition m_list_device_authorizations_page (now : Z) (q : ListQuery) (db : Db) : result exn (list DeviceAuthorization * Z) :=
  let? items := lookup_all now Devices All db in Ok (m_page (fun d => KInt (d_created_at d)) q items).
Definition m_list_denylist (now : Z) (q : ListQuery) (db : Db) : result exn (list DenylistEntry * Z) :=
  let? items := lookup_all now Denylist All db in
  Ok (m_page (deny_col (whitelist_col (lq_sort_by q) DENYLIST_SORT_COLS)) q items).
Definition m_list_audit_log (now : Z) (q : ListQuery) (db : Db) : result exn (list AuditLogEntry * Z) :=
  let? items := lookup_all now Audit All db in
  Ok (m_page (audit_col (whitelist_col (lq_sort_by q) AUDIT_LOG_SORT_COLS)) q items).
End mongo.
