(* ===== verification/MongoProps.v ===== *)
(** * The MongoDB back end keeps the promises of the SQL one, with the differences it documents *)
From Stdlib Require Import Sorting.Permutation.
From S2P Require Import Prelude PyStr PyInt PyJson PyDumps Codec Models IsoTime Storage StoreSpec PyUrl Paging MongoDoc Mongo.
#[local] Open Scope Z_scope.

(** ** What documents mean *)
Definition field_of (k : string) (d : pydict) : json := default JNull (obj_get k d).
Definition member_matches (d : pydict) (kv : string * json) : bool := json_eqb (field_of (fst kv) d) (snd kv).
Definition apply_set (l : pydict) (d : pydict) : pydict := fold_left (fun d kv => obj_set (fst kv) (snd kv) d) l d.
Definition unique_ok (idx : list (list string)) (ds : list pydict) : Prop :=
  Forall (fun ks => List.NoDup (map (fun d => map (fun k => field_of k d) ks) ds)) idx.

(** ** The driver's documentation *)
Section laws.
Context `{MongoDriver} (docs : Coll -> list pydict) (unique : Coll -> list (list string)) (regex_i : string -> string -> bool).
Definition matches (f : filter_doc) (d : pydict) : bool :=
  match f with
  | All => true
  | Eq l => forallb (member_matches d) l
  | Or l => existsb (member_matches d) l
  | RegexI k p => match obj_get k d with Some (JStr s) => regex_i p s | _ => false end
  end.
(** The outcome of changing one matching document, or creating one. *)
Inductive one (f : filter_doc) (upd : pydict -> pydict) (new : option pydict) (ds : list pydict) : option pydict -> list pydict -> Prop :=
| one_hit d rest : Permutation ds (d :: rest) -> matches f d = true -> one f upd new ds (Some d) (upd d :: rest)
| one_new d : (forall x, In x ds -> matches f x = false) -> new = Some d -> one f upd new ds None (d :: ds)
| one_miss : (forall x, In x ds -> matches f x = false) -> new = None -> one f upd new ds None ds.
Definition changed_to (c : Coll) (ds : list pydict) (r : option Coll) : Prop :=
  match r with
  | Some c' => Permutation (docs c') ds /\ unique c' = unique c /\ unique_ok (unique c) ds
  | None => ~ unique_ok (unique c) ds
  end.
Definition keep_id (old new : pydict) : pydict := match obj_get "_id" old with Some i => obj_set "_id" i new | None => new end.
Definition upserted (f : filter_doc) (u : update_doc) : pydict :=
  apply_set (u_set_on_insert u) (apply_set (u_set u) (match f with Eq l => l | _ => [] end)).
Definition modified (set : pydict) (d : pydict) : bool := existsb (fun kv => negb (member_matches d kv)) set.
Definition add_index (ks : list string) (idx : list (list string)) : list (list string) := if decide (ks ∈ idx) then idx else idx ++ [ks].
Record mongo_laws : Prop := {
  law_create_index : forall ks u c, match create_index ks u c with
    | Some c' => Permutation (docs c') (docs c) /\ unique c' = (if u : bool then add_index ks (unique c) else unique c)
    | None => u = true /\ ~ unique_ok [ks] (docs c) end;
  law_insert : forall d c, exists i, changed_to c (obj_set "_id" i d :: docs c) (insert_one d c);
  law_find_one : forall f c, match find_one f c with
    | Some d => In d (docs c) /\ matches f d = true
    | None => forall d, In d (docs c) -> matches f d = false end;
  law_find : forall f c, Permutation (find f c) (List.filter (matches f) (docs c));
  law_update_one : forall f u up c, exists i hit ds,
    one f (apply_set (u_set u)) (if up : bool then Some (obj_set "_id" i (upserted f u)) else None) (docs c) hit ds
    /\ changed_to c ds (update_one f u up c);
  law_replace_one : forall f d up c, exists i hit ds,
    one f (fun old => keep_id old d) (if up : bool then Some (obj_set "_id" i d) else None) (docs c) hit ds
    /\ changed_to c ds (replace_one f d up c);
  law_update_many : forall f u c,
    changed_to c (map (fun d => if matches f d then apply_set (u_set u) d else d) (docs c)) (option_map snd (update_many f u c))
    /\ forall n c', update_many f u c = Some (n, c') -> n = length (List.filter (fun d => matches f d && modified (u_set u) d) (docs c));
  law_claim : forall f u c, exists hit ds, one f (apply_set (u_set u)) None (docs c) hit ds
    /\ changed_to c ds (option_map snd (find_one_and_update f u c))
    /\ forall old c', find_one_and_update f u c = Some (old, c') -> old = hit;
  law_delete_one : forall f c, unique (delete_one f c) = unique c
    /\ ((exists d, Permutation (docs c) (d :: docs (delete_one f c)) /\ matches f d = true)
        \/ Permutation (docs (delete_one f c)) (docs c) /\ forall d, In d (docs c) -> matches f d = false)
}.

(** ** Documents that represent rows *)
Section rep.
Context (fromisoformat : string -> option (Z * option Z)).
Notation read_val := (read_val fromisoformat).
Notation from_doc := (from_doc fromisoformat).
Definition reads_as (d : pydict) (f : string * ftype * fdefault) (v : fval) : Prop :=
  let '(k, t, df) := f in
  match obj_get k d with Some j => read_val t j = Some v | None => df = Default (VOptStr None) /\ v = VOptStr None end.
Definition repf (d : pydict) : list (string * ftype * fdefault) -> list fval -> Prop := Forall2 (reads_as d).
Definition rep {A} `{Model A} (d : pydict) (a : A) : Prop := repf d schema (to_fields a).
Notation fname f := (fst (fst f)).

Lemma filter_get k d : k <> "_id" -> obj_get k (List.filter (fun '(k, _) => negb (String.eqb k "_id")) d) = obj_get k d.
Proof.
  intros Hk. induction d as [|[k' v] d IH]; [done|]. cbn. destruct (String.eqb_spec k' "_id") as [->|Hne]; cbn.
  - destruct (String.eqb_spec k "_id"); [done|apply IH].
  - destruct (String.eqb k k'); [done|apply IH].
Qed.
Lemma repf_read now d fs vs : (forall f, In f fs -> fname f <> "_id") -> repf d fs vs ->
  read_fields fromisoformat now (List.filter (fun '(k, _) => negb (String.eqb k "_id")) d) fs = Some vs.
Proof.
  intros Hid Hr. induction Hr as [|[[k t] df] v fs vs Hf Hr IH]; [done|]. cbn [read_fields read_field].
  rewrite filter_get by (apply (Hid (k, t, df)); by left). unfold reads_as in Hf. rewrite IH by (intros f Hin; apply Hid; by right).
  destruct (obj_get k d); [by rewrite Hf|]. by destruct Hf as [-> ->].
Qed.

(** Setting a field. *)
Lemma repf_set_other d k j fs vs : (forall f, In f fs -> fname f <> k) -> repf d fs vs -> repf (obj_set k j d) fs vs.
Proof.
  intros Hk Hr. induction Hr as [|[[k' t] df] v fs vs Hf Hr IH]; [constructor|]. constructor.
  - unfold reads_as in *. rewrite obj_get_set_other; [done|]. apply (Hk (k', t, df)). by left.
  - apply IH. intros f Hin. apply Hk. by right.
Qed.
Lemma repf_set d k j t df v fs vs i : List.NoDup (map (fun f => fname f) fs) -> repf d fs vs ->
  fs !! i = Some (k, t, df) -> read_val t j = Some v -> repf (obj_set k j d) fs (<[i:=v]> vs).
Proof.
  intros Hn Hr. revert i. induction Hr as [|f v' fs vs Hf Hr IH]; intros i Hi Hv; [done|].
  inversion Hn as [|? ? Hnin Hn']; subst. destruct i as [|i]; cbn in Hi.
  - injection Hi as ->. constructor; [by unfold reads_as; rewrite obj_get_set_same|].
    apply repf_set_other; [|done]. intros f' Hin Hk. apply Hnin, in_map_iff. by exists f'.
  - constructor; [|by apply IH]. destruct f as [[k' t'] df']. unfold reads_as in *. rewrite obj_get_set_other; [done|].
    intros ->. apply Hnin, in_map_iff. exists (k, t, df). split; [done|]. apply list_elem_of_In. by eapply list_elem_of_lookup_2.
Qed.

(** Writing a row down. *)
Definition typed (f : string * ftype * fdefault) (v : fval) : Prop :=
  match snd (fst f), v with
  | FStr, VStr _ | FOptStr, VOptStr _ | FInt, VInt _ | FBool, VBool _ | FTime, VTime _ | FOptTime, VOptTime _ => True
  | _, _ => False
  end.
(** The texts written for a time are read back as that time. *)
Definition readable (v : fval) : Prop :=
  match v with VTime t | VOptTime (Some t) => coerce_datetime fromisoformat (JStr (rfc3339 t)) = Some t | _ => True end.
Definition writable (omit : list string) (f : string * ftype * fdefault) (v : fval) : Prop :=
  typed f v /\ readable v /\ (mem_str (fname f) omit = true -> snd f = Default (VOptStr None) /\ snd (fst f) = FOptStr).
Lemma read_dumped f v : typed f v -> readable v -> read_val (snd (fst f)) (dump_val v) = Some v.
Proof.
  destruct f as [[k t] df]. unfold typed, readable. cbn [fst snd].
  destruct t, v; try done; cbn [dump_val]; [by destruct o|intros _ Hr|destruct o as [t0|]; [intros _ Hr|done]];
    unfold MongoDoc.read_val; by rewrite Hr.
Qed.
Lemma obj_get_absent k d : ~ In k (map fst d) -> obj_get k d = None.
Proof.
  induction d as [|[k' v] d IH]; [done|]. intros Hn. cbn. destruct (String.eqb_spec k k') as [->|Hne]; [exfalso; apply Hn; by left|].
  apply IH. intros Hin. apply Hn. by right.
Qed.
Lemma repf_skip k j d fs vs : (forall f, In f fs -> fname f <> k) -> repf d fs vs -> repf ((k, j) :: d) fs vs.
Proof.
  intros Hk Hr. induction Hr as [|[[k' t] df] v fs vs Hf Hr IH]; [constructor|]. constructor.
  - unfold reads_as in *. cbn [obj_get]. destruct (String.eqb_spec k' k) as [->|_]; [|done]. by destruct (Hk (k, t, df) (or_introl eq_refl)).
  - apply IH. intros f Hin. apply Hk. by right.
Qed.
Lemma dumped omit fs : forall vs, List.NoDup (map (fun f => fname f) fs) -> Forall2 (writable omit) fs vs ->
  repf (omit_none omit (combine (map (fun f => fname f) fs) (map dump_val vs))) fs vs
  /\ incl (map fst (omit_none omit (combine (map (fun f => fname f) fs) (map dump_val vs)))) (map (fun f => fname f) fs).
Proof.
  induction fs as [|f fs IH]; intros vs Hn Hw; inversion Hw as [|? v ? vs' (Ht & Hr & Ho) Hw']; subst; [split; [by apply Forall2_nil|intros x []]|].
  inversion Hn as [|? ? Hnin Hn']; subst. destruct (IH vs' Hn' Hw') as [IHr IHi].
  assert (forall f', In f' fs -> fname f' <> fname f) as Hother by (intros f' Hin He; apply Hnin, in_map_iff; by exists f').
  cbn [map combine omit_none List.filter]. destruct (mem_str (fname f) omit && json_eqb (dump_val v) JNull) eqn:Hb; cbn [negb].
  - apply andb_prop in Hb as [Hm Hnull]. destruct (Ho Hm) as [Hd Hty]. destruct f as [[k t] df]. cbn in Hd, Hty, Ht. subst df t. split.
    + constructor; [|done]. unfold reads_as. rewrite obj_get_absent by (intros Hin; by apply Hnin, IHi). split; [done|].
      unfold typed in Ht. cbn in Ht. destruct v as [| |n| | |]; try done. by destruct o.
    + intros x Hx. right. by apply IHi.
  - split.
    + constructor; [|by apply repf_skip]. destruct f as [[k t] df]. unfold reads_as. cbn [obj_get fst]. rewrite String.eqb_refl.
      by apply (read_dumped (k, t, df)).
    + intros x [<-|Hx]; [by left|right; by apply IHi].
Qed.
Class Documented (A : Type) `{Model A} := {
  names_nodup : List.NoDup (map (fun f => fname f) (schema (A:=A)));
  names_id : forall f, In f (schema (A:=A)) -> fname f <> "_id";
  typed_fields : forall a : A, Forall2 typed schema (to_fields a)
}.
Lemma rep_from_doc {A} `{Documented A} now d (a : A) : rep d a -> from_doc now d = Ok a.
Proof.
  intros Hr. unfold MongoDoc.from_doc. rewrite (repf_read now d _ _ names_id Hr). by rewrite of_to_fields.
Qed.
Definition row_readable {A} `{Model A} (a : A) : Prop := Forall readable (to_fields a).
Definition omits_options {A} `{Model A} (omit : list string) : Prop :=
  Forall (fun f => mem_str (fname f) omit = true -> snd f = Default (VOptStr None) /\ snd (fst f) = FOptStr) (schema (A:=A)).
Lemma rep_to_doc {A} `{Documented A} omit (a : A) i : row_readable a -> omits_options (A:=A) omit ->
  rep (to_doc omit a) a /\ rep (obj_set "_id" i (to_doc omit a)) a.
Proof.
  intros Hr Ho. assert (Forall2 (writable omit) schema (to_fields a)) as Hw.
  { pose proof (typed_fields a) as Ht. unfold row_readable in Hr. unfold omits_options in Ho. revert Hr Ho. induction Ht as [|f v fs vs Hf Ht IH]; [constructor|].
    intros Hr Ho. inversion Hr; subst. inversion Ho; subst. constructor; [done|by apply IH]. }
  apply dumped in Hw as [Hw _]; [|apply names_nodup]. split; [done|]. apply repf_set_other; [|done]. apply names_id.
Qed.

(** What a query sees of a represented row. *)
Definition plain (v : fval) : bool := match v with VTime _ | VOptTime _ => false | _ => true end.
Lemma field_plain {A} `{Model A} d (a : A) i k t df v : rep d a -> schema (A:=A) !! i = Some (k, t, df) -> to_fields a !! i = Some v ->
  plain v = true -> field_of k d = dump_val v.
Proof.
  intros Hr Hs Hv Hp. unfold rep, repf in Hr. pose proof (Forall2_lookup_lr _ _ _ i _ _ Hr Hs Hv) as Hf. unfold reads_as in Hf. unfold field_of.
  destruct (obj_get k d) as [j|]; [|destruct Hf as [_ ->]; done]. cbn.
  destruct t, j; cbn in Hf; try done; try (injection Hf as <-; done).
  all: match type of Hf with option_map _ ?x = _ => destruct x; [injection Hf as <-; done|done] end.
Qed.

(** Queries and indexes look at the same things in a document and in the dump
    of the row it represents. *)
Definition is_plain (A : Type) `{Model A} (k : string) : bool :=
  existsb (fun f => String.eqb (fname f) k && match snd (fst f) with FTime | FOptTime => false | _ => true end) schema.
Lemma combine_get {X} (names : list string) (vals : list X) (g : X -> json) i k v : List.NoDup names -> names !! i = Some k -> vals !! i = Some v ->
  obj_get k (combine names (map g vals)) = Some (g v).
Proof.
  intros Hn. revert vals i. induction Hn as [|n names Hnin Hn IH]; intros vals i Hk Hv; [done|]. destruct vals as [|x vals]; [done|].
  destruct i as [|i]; cbn in Hk, Hv |- *.
  - injection Hk as ->. injection Hv as ->. by rewrite String.eqb_refl.
  - destruct (String.eqb_spec k n) as [->|_]; [exfalso; apply Hnin, list_elem_of_In; by eapply list_elem_of_lookup_2|]. by eapply IH.
Qed.
Lemma rep_field {A} `{Documented A} d (a : A) k : rep d a -> is_plain A k = true -> field_of k d = field_of k (model_dump a).
Proof.
  intros Hr Hp. unfold is_plain in Hp. apply existsb_exists in Hp as ([[k' t] df] & Hin & Hb). apply andb_prop in Hb as [Hk Ht].
  cbn in Hk, Ht. apply String.eqb_eq in Hk as ->. apply list_elem_of_In, list_elem_of_lookup in Hin as [i Hi].
  pose proof (typed_fields a) as Htf. destruct (Forall2_lookup_l _ _ _ i _ Htf Hi) as (v & Hv & Hty).
  rewrite (field_plain d a i k t df v Hr Hi Hv) by (unfold typed in Hty; cbn in Hty; by destruct t, v).
  unfold field_of, model_dump, field_names. rewrite (combine_get _ _ dump_val i k v); [done|apply names_nodup| |done].
  by rewrite list_lookup_fmap, Hi.
Qed.
Definition filter_plain (A : Type) `{Model A} (f : filter_doc) : bool :=
  match f with All => true | Eq l | Or l => forallb (fun kv => is_plain A (fst kv)) l | RegexI _ _ => false end.
Lemma matches_rep {A} `{Documented A} f d (a : A) : filter_plain A f = true -> rep d a -> matches f d = matches f (model_dump a).
Proof.
  intros Hf Hr. assert (forall kv, is_plain A (fst kv) = true -> member_matches d kv = member_matches (model_dump a) kv) as Hm
    by (intros kv Hk; unfold member_matches; by rewrite (rep_field d a _ Hr Hk)).
  destruct f as [|l|l|]; try done; cbn in Hf |- *; induction l as [|kv l IH]; try done; cbn in Hf |- *; apply andb_prop in Hf as [Hk Hl];
    by rewrite Hm, IH.
Qed.
Definition idx_plain (A : Type) `{Model A} (idx : list (list string)) : bool := forallb (forallb (is_plain A)) idx.
Definition unique_rows {A} `{Model A} (idx : list (list string)) (rows : list A) : Prop := unique_ok idx (map model_dump rows).
Lemma unique_ok_perm idx ds ds' : Permutation ds ds' -> unique_ok idx ds -> unique_ok idx ds'.
Proof.
  intros Hp Hu. eapply Forall_impl; [exact Hu|]. intros ks Hn. eapply Permutation_NoDup; [|exact Hn]. by apply Permutation_map.
Qed.
Lemma unique_ok_rep {A} `{Documented A} idx ds (rows : list A) : idx_plain A idx = true -> Forall2 rep ds rows ->
  unique_ok idx ds <-> unique_rows idx rows.
Proof.
  intros Hi Hr. unfold unique_rows, unique_ok. rewrite !Forall_forall.
  assert (forall ks, forallb (is_plain A) ks = true ->
    map (fun d => map (fun k => field_of k d) ks) ds = map (fun d => map (fun k => field_of k d) ks) (map model_dump rows)) as Hm.
  { intros ks Hks. induction Hr as [|d a ds rows Hd Hr IH]; [done|]. cbn. rewrite IH. f_equal. apply map_ext_in. intros k Hk.
    apply rep_field; [done|]. rewrite forallb_forall in Hks. by apply Hks. }
  unfold idx_plain in Hi. rewrite forallb_forall in Hi. split; intros Hu ks Hks; pose proof (Hi ks ltac:(by apply list_elem_of_In)) as Hp;
    specialize (Hu ks Hks); cbv beta in Hu |- *; [rewrite <- (Hm ks Hp)|rewrite (Hm ks Hp)]; exact Hu.
Qed.

(** ** A collection that holds a table *)
Record holds {A} `{Model A} (idx : list (list string)) (c : Coll) (rows : list A) : Prop := {
  h_index : unique c = idx;
  h_unique : unique_rows idx rows;
  h_rows : exists ds, Permutation (docs c) ds /\ Forall2 rep ds rows
}.
Lemma sim_changed {A} `{Documented A} idx c ds ds' (rows rows' : list A) r : idx_plain A idx = true ->
  holds idx c rows -> changed_to c ds r -> Permutation ds ds' -> Forall2 rep ds' rows' ->
  match r with Some c' => holds idx c' rows' | None => ~ unique_rows idx rows' end.
Proof.
  intros Hi [Hx _ _] Hc Hp Hr. unfold changed_to in Hc. rewrite Hx in Hc. destruct r as [c'|].
  - destruct Hc as (Hd & Hu & Hok). constructor; [done| |exists ds'; split; [by rewrite Hd|done]].
    apply (unique_ok_rep idx ds' rows'); [done|done|]. by eapply unique_ok_perm.
  - intros Hu. apply Hc. eapply unique_ok_perm; [by symmetry|]. by apply (unique_ok_rep idx ds' rows').
Qed.
Lemma sim_insert {A} `{Documented A} idx c omit (rows : list A) a : mongo_laws -> idx_plain A idx = true -> omits_options (A:=A) omit ->
  row_readable a -> holds idx c rows ->
  match insert_one (to_doc omit a) c with Some c' => holds idx c' (rows ++ [a]) | None => ~ unique_rows idx (rows ++ [a]) end.
Proof.
  intros Hl Hi Ho Ha Hh. destruct (law_insert Hl (to_doc omit a) c) as [i Hc]. destruct (h_rows _ _ _ Hh) as (ds & Hp & Hr).
  eapply (sim_changed idx c _ (ds ++ [obj_set "_id" i (to_doc omit a)])); [done|done|exact Hc| |].
  - rewrite Hp. apply Permutation_cons_append.
  - apply Forall2_app; [done|]. constructor; [|constructor]. by apply rep_to_doc.
Qed.
Lemma sim_find_one {A} `{Documented A} idx c (rows : list A) f : mongo_laws -> holds idx c rows -> filter_plain A f = true ->
  match find_one f c with
  | Some d => exists a, rep d a /\ In a rows /\ matches f (model_dump a) = true
  | None => forall a, In a rows -> matches f (model_dump a) = false
  end.
Proof.
  intros Hl Hh Hf. destruct (h_rows _ _ _ Hh) as (ds & Hp & Hr). pose proof (law_find_one Hl f c) as Hlaw. destruct (find_one f c) as [d|].
  - destruct Hlaw as [Hin Hm]. rewrite Hp in Hin. apply list_elem_of_In, list_elem_of_lookup in Hin as [i Hi].
    destruct (Forall2_lookup_l _ _ _ i _ Hr Hi) as (a & Ha & Hra). exists a. split_and! ; [done| |by rewrite <- (matches_rep f d a)].
    apply list_elem_of_In. by eapply list_elem_of_lookup_2.
  - intros a Hin. apply list_elem_of_In, list_elem_of_lookup in Hin as [i Hi]. destruct (Forall2_lookup_r _ _ _ i _ Hr Hi) as (d & Hd & Hrd).
    rewrite <- (matches_rep f d a) by done. apply Hlaw. rewrite Hp. apply list_elem_of_In. by eapply list_elem_of_lookup_2.
Qed.

(** *** Changing one document *)
Definition lone {A} (p : A -> bool) (rows : list A) : Prop :=
  forall r1 r r2, rows = r1 ++ r :: r2 -> p r = true -> Forall (fun x => p x = false) (r1 ++ r2).
Lemma lone_key {A B} (key : A -> B) (p : A -> bool) rows x : List.NoDup (map key rows) -> (forall r, p r = true -> key r = x) -> lone p rows.
Proof.
  intros Hn Hk r1 r r2 -> Hp. rewrite map_app in Hn. cbn in Hn. apply NoDup_remove_2 in Hn. rewrite <- map_app in Hn.
  apply Forall_forall. intros y Hy. destruct (p y) eqn:Hpy; [|done]. exfalso. apply Hn. apply Hk in Hp as ->. apply Hk in Hpy as <-.
  apply in_map. by apply list_elem_of_In.
Qed.
Lemma update_none {A} (p : A -> bool) g rows : Forall (fun x => p x = false) rows -> update_where p g rows = rows.
Proof. intros Hf. induction Hf as [|x l Hx Hf IH]; [done|]. cbn. rewrite Hx. by f_equal. Qed.
Lemma update_lone {A} (p : A -> bool) g r1 r r2 : lone p (r1 ++ r :: r2) -> p r = true ->
  update_where p g (r1 ++ r :: r2) = r1 ++ g r :: r2 /\ count_where p (r1 ++ r :: r2) = 1%nat
  /\ delete_where p (r1 ++ r :: r2) = r1 ++ r2.
Proof.
  intros Hl Hp. pose proof (Hl r1 r r2 eq_refl Hp) as Hf. apply Forall_app in Hf as [H1 H2].
  unfold update_where, count_where, delete_where. rewrite map_app, !List.filter_app. cbn. rewrite Hp. cbn.
  fold (update_where p g r1) (update_where p g r2). rewrite !update_none by done.
  assert (forall l, Forall (fun x => p x = false) l -> List.filter p l = [] /\ List.filter (fun x => negb (p x)) l = l) as Hz.
  { intros l Hl'. induction Hl' as [|x l Hx Hl' [IH1 IH2]]; [done|]. cbn. rewrite Hx. cbn. by rewrite IH1, IH2. }
  destruct (Hz r1 H1) as [-> ->]. destruct (Hz r2 H2) as [-> ->]. done.
Qed.
(** The document that was hit, with the row at its place. *)
Lemma hit_row {A} `{Documented A} ds (rows : list A) d : Forall2 rep ds rows -> In d ds ->
  exists d1 d2 r1 r r2, ds = d1 ++ d :: d2 /\ rows = r1 ++ r :: r2 /\ Forall2 rep d1 r1 /\ rep d r /\ Forall2 rep d2 r2.
Proof.
  intros Hr Hin. apply in_split in Hin as (d1 & d2 & ->). apply Forall2_app_inv_l in Hr as (r1 & rr & Hb & Ha & ->).
  apply Forall2_cons_inv_l in Ha as (r & r2 & Hd & Ha & ->). by exists d1, d2, r1, r, r2.
Qed.
Definition option_list {X} (o : option X) : list X := match o with Some x => [x] | None => [] end.
Lemma sim_one {A} `{Documented A} f upd new (g : A -> A) (newrow : option A) idx c hit ds' (rows : list A) :
  holds idx c rows -> filter_plain A f = true -> lone (fun r => matches f (model_dump r)) rows ->
  (forall d a, rep d a -> In a rows -> matches f (model_dump a) = true -> rep (upd d) (g a)) ->
  match new, newrow with Some d, Some a => rep d a | None, None => True | _, _ => False end ->
  one f upd new (docs c) hit ds' ->
  let p r := matches f (model_dump r) in
  (exists ds'', Permutation ds' ds'' /\ Forall2 rep ds''
     (if existsb p rows then update_where p g rows else rows ++ option_list newrow))
  /\ (match hit with Some _ => 1%nat | None => 0%nat end = count_where p rows).
Proof.
  intros Hh Hf Hl Hu Hn Ho p. destruct (h_rows _ _ _ Hh) as (ds & Hp & Hr).
  assert ((forall x, In x (docs c) -> matches f x = false) -> existsb p rows = false /\ count_where p rows = 0%nat) as Hnone.
  { intros Hx. assert (Forall (fun r => p r = false) rows) as Hall.
    { apply Forall_forall. intros a Ha. apply list_elem_of_lookup in Ha as [i Hi]. destruct (Forall2_lookup_r _ _ _ i _ Hr Hi) as (d & Hd & Hrd).
      unfold p. rewrite <- (matches_rep f d a) by done. apply Hx. rewrite Hp. apply list_elem_of_In. by eapply list_elem_of_lookup_2. }
    clear -Hall. unfold count_where. induction Hall as [|r l Hr Hall [IH1 IH2]]; [done|]. cbn. by rewrite Hr, IH1, IH2. }
  inversion Ho as [d rest Hpd Hm|d Hx Hnew|Hx Hnew]; subst.
  - assert (In d ds) as Hin by (rewrite <- Hp, Hpd; by left).
    destruct (hit_row ds rows d Hr Hin) as (d1 & d2 & r1 & r & r2 & -> & -> & Hb & Hd & Ha).
    assert (p r = true) as Hpr by (unfold p; by rewrite <- (matches_rep f d r)).
    destruct (update_lone p g r1 r r2 Hl Hpr) as (-> & -> & _). split; [|done].
    assert (existsb p (r1 ++ r :: r2) = true) as -> by (rewrite existsb_app; cbn; rewrite Hpr; apply orb_true_r).
    exists (d1 ++ upd d :: d2). split; [|apply Forall2_app; [done|]; constructor; [|done]].
    2: { apply Hu; [done| |done]. apply in_or_app. right. by left. }
    rewrite Hp in Hpd. rewrite <- Permutation_middle in Hpd. apply Permutation_cons_inv in Hpd. by rewrite <- Hpd, Permutation_middle.
  - destruct (Hnone Hx) as [-> ->]. split; [|done]. destruct newrow as [a|]; [|done].
    exists (ds ++ [d]). split; [rewrite Hp; apply Permutation_cons_append|]. apply Forall2_app; [done|]. by constructor; [|constructor].
  - destruct (Hnone Hx) as [-> ->]. split; [|done]. destruct newrow; [done|]. exists ds. cbn. by rewrite app_nil_r.
Qed.

(** *** Many documents, and deletion *)
Lemma sim_many {A} `{Documented A} f upd (g : A -> A) idx c (rows : list A) :
  holds idx c rows -> filter_plain A f = true ->
  (forall d a, rep d a -> matches f (model_dump a) = true -> rep (upd d) (g a)) ->
  exists ds'', Permutation (map (fun d => if matches f d then upd d else d) (docs c)) ds''
    /\ Forall2 rep ds'' (update_where (fun r => matches f (model_dump r)) g rows).
Proof.
  intros Hh Hf Hu. destruct (h_rows _ _ _ Hh) as (ds & Hp & Hr). exists (map (fun d => if matches f d then upd d else d) ds).
  split; [by rewrite Hp|]. clear Hp Hh. induction Hr as [|d a ds rows Hd Hr IH]; [constructor|]. cbn. constructor.
  - rewrite (matches_rep f d a) by done. destruct (matches f (model_dump a)) eqn:Hm; [by apply Hu|done].
  - exact IH.
Qed.
Lemma filtered_perm {X} (p : X -> bool) l l' : Permutation l l' -> Permutation (List.filter p l) (List.filter p l').
Proof.
  intros Hp. induction Hp as [|x l l' Hp IH|x y l|l1 l2 l3 H12 IH12 H23 IH23]; cbn; [done|by destruct (p x); rewrite ?IH| |by etrans].
  destruct (p x), (p y); try done. apply Permutation.perm_swap.
Qed.
Lemma sim_count {A} `{Documented A} f k v idx c (rows : list A) : holds idx c rows -> filter_plain A f = true -> is_plain A k = true ->
  length (List.filter (fun d => matches f d && modified [(k, v)] d) (docs c))
  = count_where (fun r => matches f (model_dump r) && negb (member_matches (model_dump r) (k, v))) rows.
Proof.
  intros Hh Hf Hk. destruct (h_rows _ _ _ Hh) as (ds & Hp & Hr).
  rewrite (Permutation_length (filtered_perm _ _ _ Hp)). unfold count_where. clear Hp Hh.
  rewrite (List.filter_ext _ (fun d => matches f d && negb (member_matches d (k, v)))) by (intros d; unfold modified; cbn; by rewrite orb_false_r).
  induction Hr as [|d a ds rows Hd Hr IH]; [done|]. cbn [List.filter]. rewrite (matches_rep f d a) by done.
  assert (member_matches d (k, v) = member_matches (model_dump a) (k, v)) as -> by (unfold member_matches; cbn; by rewrite (rep_field d a k)).
  destruct (_ && _); cbn; by rewrite IH.
Qed.
Lemma sim_delete {A} `{Documented A} f idx c (rows : list A) : mongo_laws -> holds idx c rows -> idx_plain A idx = true -> filter_plain A f = true ->
  lone (fun r => matches f (model_dump r)) rows ->
  holds idx (delete_one f c) (delete_where (fun r => matches f (model_dump r)) rows).
Proof.
  intros Hl Hh Hi Hf Hlone. destruct (h_rows _ _ _ Hh) as (ds & Hp & Hr). destruct (law_delete_one Hl f c) as [Hu Hd].
  assert (forall ds', Permutation (docs (delete_one f c)) ds' -> Forall2 rep ds' (delete_where (fun r => matches f (model_dump r)) rows) ->
    unique_rows idx (delete_where (fun r => matches f (model_dump r)) rows) -> holds idx (delete_one f c) (delete_where (fun r => matches f (model_dump r)) rows)) as Hfin.
  { intros ds' Hp' Hr' Hun. constructor; [by rewrite Hu; apply (h_index _ _ _ Hh)|done|by exists ds']. }
  assert (unique_rows idx (delete_where (fun r => matches f (model_dump r)) rows)) as Hun.
  { pose proof (h_unique _ _ _ Hh) as Hun. unfold unique_rows, unique_ok in *. eapply Forall_impl; [exact Hun|]. intros ks Hn.
    unfold delete_where. rewrite map_map in *. clear -Hn. induction rows as [|r rows IH]; [done|]. cbn in *. inversion Hn as [|? ? Hnin Hn']; subst.
    destruct (negb _); [|by apply IH]. cbn. constructor; [|by apply IH]. intros Hin. apply Hnin. apply in_map_iff in Hin as (x & <- & Hx).
    apply filter_In in Hx as [Hx _]. rewrite map_map. by apply (in_map (fun r => map (fun k => field_of k (model_dump r)) ks)). }
  destruct Hd as [(d & Hpd & Hm)|[Hpd Hnone]].
  - assert (In d ds) as Hin by (rewrite <- Hp, Hpd; by left).
    destruct (hit_row ds rows d Hr Hin) as (d1 & d2 & r1 & r & r2 & -> & -> & Hb & Hrd & Ha).
    assert (matches f (model_dump r) = true) as Hpr by by rewrite <- (matches_rep f d r).
    destruct (update_lone _ id r1 r r2 Hlone Hpr) as (_ & _ & Hdel). rewrite Hdel in *.
    apply (Hfin (d1 ++ d2)); [|by apply Forall2_app|done]. rewrite Hp in Hpd. rewrite <- Permutation_middle in Hpd.
    by apply Permutation_cons_inv in Hpd.
  - assert (delete_where (fun r => matches f (model_dump r)) rows = rows) as Hdel.
    { unfold delete_where. assert (forall x, In x ds -> matches f x = false) as Hx by (intros x Hx; apply Hnone; by rewrite Hp).
      clear -Hr Hx Hf H1. induction Hr as [|d a ds rows Hd Hr IH]; [done|]. cbn. rewrite <- (matches_rep f d a) by done. rewrite (Hx d) by by left.
      cbn. f_equal. apply IH. intros x Hin. apply Hx. by right. }
    apply (Hfin ds); [by rewrite Hpd|by rewrite Hdel|done].
Qed.

(** *** What [$set] does to the fields *)
Fixpoint set_vals (k : string) (j : json) (fs : list (string * ftype * fdefault)) (vs : list fval) : list fval :=
  match fs, vs with
  | (k', t, _) :: fs, v :: vs => (if String.eqb k' k then default v (read_val t j) else v) :: set_vals k j fs vs
  | _, vs => vs
  end.
Definition set_fields (set : pydict) (fs : list (string * ftype * fdefault)) (vs : list fval) : list fval :=
  fold_left (fun vs kv => set_vals (fst kv) (snd kv) fs vs) set vs.
Definition settable (fs : list (string * ftype * fdefault)) (kv : string * json) : bool :=
  forallb (fun f => negb (String.eqb (fname f) (fst kv)) || match read_val (snd (fst f)) (snd kv) with Some _ => true | None => false end) fs.
Lemma repf_set_vals d k j fs vs : settable fs (k, j) = true -> repf d fs vs -> repf (obj_set k j d) fs (set_vals k j fs vs).
Proof.
  intros Hs Hr. induction Hr as [|[[k' t] df] v fs vs Hf Hr IH]; [constructor|]. cbn in Hs. apply andb_prop in Hs as [Hk Hs].
  cbn [set_vals]. constructor; [|by apply IH]. unfold reads_as in *. destruct (String.eqb_spec k' k) as [->|Hne].
  - rewrite obj_get_set_same. cbn in Hk. by destruct (read_val t j).
  - by rewrite obj_get_set_other.
Qed.
Lemma rep_apply_set {A} `{Model A} set d (a b : A) : forallb (settable (schema (A:=A))) set = true ->
  set_fields set schema (to_fields a) = to_fields b -> rep d a -> rep (apply_set set d) b.
Proof.
  intros Hs Hb Hr. unfold rep in *. rewrite <- Hb. clear Hb b. unfold apply_set, set_fields. revert d Hr. generalize (to_fields a).
  induction set as [|[k j] set IH]; intros vs d Hr; [done|]. cbn in Hs |- *. apply andb_prop in Hs as [Hk Hs]. apply IH; [done|].
  by apply repf_set_vals.
Qed.
End rep.
End laws.
