(* ===== verification/MongoOps.v ===== *)
(** * [MongoStorage] implements the storage operations *)
From S2P Require Import Prelude PyStr PyJson Codec PyInt Models IsoTime Storage Paging StoreSpec PyUrl PyDumps MongoDoc Mongo MongoProps.
From Stdlib Require Import Sorting.Permutation.
#[local] Open Scope Z_scope.

(** ** The eight models *)
Ltac documented := constructor;
  [apply NoDup_ListNoDup; by apply (bool_decide_unpack _)
  |intros f Hf; cbn in Hf; repeat destruct Hf as [<-|Hf]; done
  |intros a; repeat constructor].
#[export] Instance Client_documented : Documented Client. Proof. documented. Qed.
#[export] Instance User_documented : Documented User. Proof. documented. Qed.
#[export] Instance Token_documented : Documented Token. Proof. documented. Qed.
#[export] Instance AuthorizationCode_documented : Documented AuthorizationCode. Proof. documented. Qed.
#[export] Instance DeviceAuthorization_documented : Documented DeviceAuthorization. Proof. documented. Qed.
#[export] Instance TrustedIssuer_documented : Documented TrustedIssuer. Proof. documented. Qed.
#[export] Instance DenylistEntry_documented : Documented DenylistEntry. Proof. documented. Qed.
#[export] Instance AuditLogEntry_documented : Documented AuditLogEntry. Proof. documented. Qed.

Section refines.
Context `{MongoDriver} (docs : Coll -> list pydict) (unique : Coll -> list (list string)) (regex_i : string -> string -> bool)
  (fromisoformat : string -> option (Z * option Z)).
Notation holds := (holds docs unique fromisoformat).
Notation matches := (matches regex_i).
Notation rep := (rep fromisoformat).
Notation settable := (settable fromisoformat).
Notation set_fields := (set_fields fromisoformat).
Hypothesis laws : mongo_laws docs unique regex_i.

(** ** One call on a collection *)
Definition rest_same (n : coll_name) (db db' : Db) : Prop := exists c, db' = set_coll n c db.
Lemma get_set n c db : get_coll n (set_coll n c db) = c.
Proof. by destruct db, n. Qed.
Lemma update_where_none {A} (p : A -> bool) g rows : existsb p rows = false -> update_where p g rows = rows.
Proof.
  intros He. apply update_none, Forall_forall. intros x Hx. destruct (p x) eqn:Hp; [|done].
  assert (existsb p rows = true) as Ht by (apply existsb_exists; exists x; split; [by apply list_elem_of_In|done]). by rewrite Ht in He.
Qed.
Lemma unique_rows_same {A} `{Model A} idx p (g : A -> A) rows :
  Forall (fun ks => forall a, map (fun k => field_of k (model_dump (g a))) ks = map (fun k => field_of k (model_dump a)) ks) idx ->
  unique_rows idx rows -> unique_rows idx (update_where p g rows).
Proof.
  intros Hg Hu. unfold unique_rows, unique_ok in *. rewrite Forall_forall in Hg, Hu |- *. intros ks Hks. specialize (Hg ks Hks). specialize (Hu ks Hks).
  cbv beta in *. rewrite map_map in *. rewrite map_update_where; done.
Qed.

Section calls.
Context {A : Type} `{Documented A} (n : coll_name) (idx : list (list string)) (db : Db) (rows : list A).
Hypothesis Hidx : idx_plain A idx = true.
Hypothesis Hh : holds idx (get_coll n db) rows.

Lemma run_insert omit a : omits_options (A:=A) omit -> row_readable fromisoformat a ->
  match m_insert n (to_doc omit a) db with
  | (Ok _, db') => exists c, db' = set_coll n c db /\ holds idx c (rows ++ [a])
  | (Err e, db') => e = OAuthError "invalid_request" (Some "duplicate key") 400 /\ db' = db /\ ~ unique_rows idx (rows ++ [a])
  end.
Proof.
  intros Ho Ha. pose proof (sim_insert _ _ _ _ idx _ omit rows a laws Hidx Ho Ha Hh) as Hs.
  unfold m_insert, write, on. destruct (insert_one _ _) as [c|]; cbn; [by exists c|done].
Qed.
Lemma run_update f set (g : A -> A) : filter_plain A f = true -> lone (fun r => matches f (model_dump r)) rows ->
  (forall a, forallb (settable (schema (A:=A))) set = true /\ set_fields set schema (to_fields a) = to_fields (g a)) ->
  let rows' := update_where (fun r => matches f (model_dump r)) g rows in
  match update n f set db with
  | (Ok _, db') => exists c, db' = set_coll n c db /\ holds idx c rows'
  | (Err e, db') => e = duplicate_key /\ db' = db /\ ~ unique_rows idx rows'
  end.
Proof.
  intros Hf Hl Hg rows'. destruct (law_update_one _ _ _ laws f (set_ set) false (get_coll n db)) as (i & hit & ds & Ho & Hc).
  destruct (sim_one docs unique regex_i fromisoformat f (apply_set set) None g None idx _ hit ds rows Hh Hf Hl) as [(ds' & Hp & Hr) _]; [|done|exact Ho|].
  { intros d a Hd _ _. destruct (Hg a) as [Hs Hv]. by eapply rep_apply_set. }
  cbn [option_list] in Hr. rewrite app_nil_r in Hr.
  assert (Forall2 rep ds' rows') as Hr'.
  { unfold rows'. destruct (existsb _ rows) eqn:He; [exact Hr|]. by rewrite update_where_none. }
  pose proof (sim_changed _ _ _ idx _ ds ds' rows rows' _ Hidx Hh Hc Hp Hr') as Hs. unfold update, write, on.
  destruct (update_one _ _ _ _) as [c|]; cbn; [by exists c|done].
Qed.
Lemma run_claim f (g : A -> A) : filter_plain A f = true -> lone (fun r => matches f (model_dump r)) rows ->
  (forall a, forallb (settable (schema (A:=A))) [("used", JBool true)] = true
    /\ set_fields [("used", JBool true)] schema (to_fields a) = to_fields (g a)) ->
  let p r := matches f (model_dump r) in
  unique_rows idx (update_where p g rows) ->
  exists c, claim n f db = (Ok (count_where p rows), set_coll n c db) /\ holds idx c (update_where p g rows).
Proof.
  intros Hf Hl Hg p Hu. destruct (law_claim _ _ _ laws f (set_ [("used", JBool true)]) (get_coll n db)) as (hit & ds & Ho & Hc & Hhit).
  destruct (sim_one docs unique regex_i fromisoformat f (apply_set [("used", JBool true)]) None g None idx _ hit ds rows Hh Hf Hl) as [(ds' & Hp & Hr) Hcount]; [|done|exact Ho|].
  { intros d a Hd _ _. destruct (Hg a) as [Hs Hv]. by eapply rep_apply_set. }
  cbn [option_list] in Hr. rewrite app_nil_r in Hr.
  assert (Forall2 rep ds' (update_where p g rows)) as Hr'.
  { destruct (existsb _ rows) eqn:He; [exact Hr|]. by rewrite update_where_none. }
  pose proof (sim_changed _ _ _ idx _ ds ds' rows _ _ Hidx Hh Hc Hp Hr') as Hs. unfold claim, sbind, on.
  destruct (find_one_and_update _ _ _) as [[old c]|] eqn:E; cbn in Hs |- *; [|done].
  rewrite (Hhit old c eq_refl). exists c. split; [|done]. unfold p. rewrite <- Hcount. by destruct hit.
Qed.
Lemma run_delete f : filter_plain A f = true -> lone (fun r => matches f (model_dump r)) rows ->
  exists c, write n (fun c => Some (delete_one f c)) db = (Ok tt, set_coll n c db)
    /\ holds idx c (delete_where (fun r => matches f (model_dump r)) rows).
Proof. intros Hf Hl. eexists. split; [reflexivity|]. by apply sim_delete. Qed.
End calls.

(** Revocation: every matching token, and the number of those that change. *)
Lemma run_revoke idx f db (rows : list Token) : idx_plain Token idx = true -> holds idx (m_tokens db) rows -> filter_plain Token f = true ->
  unique_rows idx (update_where (fun r => matches f (model_dump r)) revoked_token rows) ->
  exists c, revoke_many f db = (Ok (count_where (fun r => matches f (model_dump r) && negb (t_revoked r)) rows), set_coll Tokens c db)
    /\ holds idx c (update_where (fun r => matches f (model_dump r)) revoked_token rows).
Proof.
  intros Hidx Hh Hf Hu. destruct (law_update_many _ _ _ laws f (set_ [("revoked", JBool true)]) (m_tokens db)) as [Hc Hn].
  destruct (sim_many docs unique regex_i fromisoformat f (apply_set [("revoked", JBool true)]) revoked_token idx (m_tokens db) rows Hh Hf) as (ds & Hp & Hr).
  { intros d a Hd _. by apply (rep_apply_set fromisoformat _ d a (revoked_token a)). }
  pose proof (sim_changed _ _ _ idx _ _ ds rows _ _ Hidx Hh Hc Hp Hr) as Hs. unfold revoke_many, on. cbn [get_coll].
  destruct (update_many _ _ _) as [[n c]|] eqn:E; cbn in Hs; [|done]. exists c. split; [|done]. f_equal. f_equal.
  rewrite (Hn n c eq_refl). cbn [u_set set_]. rewrite (sim_count docs unique regex_i fromisoformat f "revoked" (JBool true) idx (m_tokens db) rows Hh Hf eq_refl).
  unfold count_where. erewrite List.filter_ext; [reflexivity|]. intros r. cbv beta. f_equal. cbn. by destruct (t_revoked r).
Qed.

(** ** Unique indexes of tables *)
Definition row_key {A} `{Model A} (ks : list string) (a : A) : list json := map (fun k => field_of k (model_dump a)) ks.
Lemma unique_snoc {A} `{Model A} idx (rows : list A) a : unique_rows idx rows ->
  unique_rows idx (rows ++ [a]) <-> Forall (fun ks => ~ In (row_key ks a) (map (row_key ks) rows)) idx.
Proof.
  intros Hu. unfold unique_rows, unique_ok in *. rewrite !Forall_forall in *.
  assert (forall ks l, map (fun d => map (fun k => field_of k d) ks) (map model_dump l) = map (row_key ks) l) as Hm
    by (intros ks l; by rewrite map_map).
  split; intros Hx ks Hks; specialize (Hx ks Hks); specialize (Hu ks Hks); cbv beta in *; rewrite Hm in *.
  - rewrite map_app in Hx. cbn in Hx. apply NoDup_remove_2 in Hx. by rewrite app_nil_r in Hx.
  - rewrite map_app. cbn. eapply Permutation_NoDup; [apply Permutation_cons_append|]. by constructor.
Qed.
Lemma key_absent {A} `{Model A} ks (q : A -> A -> bool) rows a : (forall b, row_key ks b = row_key ks a <-> q b a = true) ->
  ~ In (row_key ks a) (map (row_key ks) rows) <-> existsb (fun b => q b a) rows = false.
Proof.
  intros Hq. rewrite <- not_true_iff_false, existsb_exists. split; intros Hn Hin; apply Hn.
  - destruct Hin as (b & Hb & Hqb). apply Hq in Hqb. rewrite <- Hqb. by apply in_map.
  - apply in_map_iff in Hin as (b & Hb & Hin). exists b. split; [done|by apply Hq].
Qed.
Lemma key1 {A} (key : A -> string) (a b : A) : [JStr (key b)] = [JStr (key a)] <-> String.eqb (key b) (key a) = true.
Proof. rewrite String.eqb_eq. split; [by intros [=]|by intros ->]. Qed.
Lemma existsb_or {A} (p q : A -> bool) l : existsb (fun x => p x || q x) l = existsb p l || existsb q l.
Proof. induction l as [|x l IH]; [done|]. cbn. rewrite IH. by destruct (p x), (q x), (existsb p l), (existsb q l). Qed.
Lemma update_twice {A} (p : A -> bool) f g l : (forall x, p (f x) = p x) ->
  update_where p g (update_where p f l) = update_where p (fun x => g (f x)) l.
Proof.
  intros Hp. unfold update_where. rewrite map_map. apply map_ext. intros x. destruct (p x) eqn:E; [by rewrite Hp, E|by rewrite E].
Qed.
Lemma update_where_ext {A} (p q : A -> bool) g l : (forall x, p x = q x) -> update_where p g l = update_where q g l.
Proof. intros He. unfold update_where. apply map_ext. intros x. by rewrite He. Qed.
End refines.

(** ** Every writing operation of [MongoStorage] against the SQL tables

    [mongo_spec] is [StoreSpec.apply_op] with the differences of the back
    end: setters stamp [updated_at], a client is replaced as a whole, a
    deleted user leaves its tokens, duplicates are another exception, and a
    revoked family counts the tokens that changed. *)

(** ** The abstract operations *)
Definition touch_client (now : Z) (c : Client) : Client :=
  {| c_id := c_id c; c_client_id := c_client_id c; c_client_secret := c_client_secret c; c_redirect_uris := c_redirect_uris c;
     c_grant_types := c_grant_types c; c_scope := c_scope c; c_name := c_name c; c_created_at := c_created_at c; c_updated_at := now;
     c_token_endpoint_auth_method := c_token_endpoint_auth_method c; c_registration_access_token := c_registration_access_token c;
     c_response_types := c_response_types c; c_contacts := c_contacts c; c_logo_uri := c_logo_uri c; c_client_uri := c_client_uri c;
     c_policy_uri := c_policy_uri c; c_tos_uri := c_tos_uri c; c_jwks := c_jwks c; c_jwks_uri := c_jwks_uri c;
     c_backchannel_logout_uri := c_backchannel_logout_uri c;
     c_backchannel_logout_session_required := c_backchannel_logout_session_required c;
     c_frontchannel_logout_uri := c_frontchannel_logout_uri c;
     c_frontchannel_logout_session_required := c_frontchannel_logout_session_required c;
     c_post_logout_redirect_uris := c_post_logout_redirect_uris c; c_enabled := c_enabled c; c_require_state := c_require_state c;
     c_tls_client_certificate_subject_dn := c_tls_client_certificate_subject_dn c; c_dpop_nonce_required := c_dpop_nonce_required c |}.
Definition touch_user (now : Z) (u : User) : User :=
  mkUser (u_id u) (u_username u) (u_password_hash u) (u_email u) (u_enabled u) (u_role u) (u_created_at u) now.
Definition stamp_client (now : Z) (cid : string) (st : Store) : Store :=
  on_clients (update_where (fun r => String.eqb (c_client_id r) cid) (touch_client now)) st.
Definition stamp_user (now : Z) (uid : string) (st : Store) : Store := set_user (touch_user now) uid st.
Definition duplicate400 : exn := OAuthError "invalid_request" (Some "duplicate key") 400.
Definition or_raise (e : exn) (r : result exn Store) : result exn (Store * nat) :=
  match r with Ok st => Ok (st, 0%nat) | Err _ => Err e end.
Definition counted_as (r : Store * nat) : result exn (Store * nat) := Ok r.
Definition mongo_spec (now : Z) (o : op) (st : Store) : result exn (Store * nat) :=
  match o with
  | SaveClient _ | SaveUser _ | SaveToken _ | SaveCode _ | SaveDevice _ => or_raise duplicate400 (apply_op o st)
  | UpdateUser _ | WriteAuditLog _ | SaveTrustedIssuer _ | AddDenylistEntry _ => or_raise duplicate_key (apply_op o st)
  | UpdateClient c => Ok (on_clients (update_where (fun r => String.eqb (c_client_id r) (c_client_id c)) (fun _ => c)) st, 0%nat)
  | SetClientEnabled i _ | SetClientSecret i _ => or_raise duplicate_key (rmap (stamp_client now i) (apply_op o st))
  | SetUserEnabled i _ | SetUserRole i _ | SetUserPasswordHash i _ => or_raise duplicate_key (rmap (stamp_user now i) (apply_op o st))
  | DeleteUser i => Ok (on_users (delete_where (fun r => String.eqb (u_id r) i)) st, 0%nat)
  | RevokeTokenFamily f =>
      Ok (fst (revoke_token_family f st), count_where (fun r => in_family f r && negb (t_revoked r)) (tokens st))
  | RevokeTokensByUserId u => Ok (revoke_tokens_by_user_id u st)
  | RevokeTokensByClientId c => Ok (revoke_tokens_by_client_id c st)
  | MarkCodeUsed c => Ok (mark_authorization_code_used c st)
  | MarkDeviceUsed d => Ok (mark_device_authorization_used d st)
  | DeleteClient _ | RevokeToken _ | ApproveDevice _ _ | DenyDevice _ | ExpireDevice _ _ | RemoveDenylistEntry _ =>
      or_raise duplicate_key (apply_op o st)
  end.

Section ops.
Context `{MongoDriver} (docs : Coll -> list pydict) (unique : Coll -> list (list string)) (regex_i : string -> string -> bool)
  (fromisoformat : string -> option (Z * option Z)).
Notation holds := (holds docs unique fromisoformat).
Notation matches := (matches regex_i).
Notation row_readable := (row_readable fromisoformat).

(** ** The concrete operations *)
Definition unit_op (m : ST Db exn unit) : ST Db exn nat := m !; sret 0%nat.
Definition mongo_run (now : Z) (o : op) : ST Db exn nat :=
  match o with
  | SaveClient c => unit_op (m_save_client c) | UpdateClient c => unit_op (m_update_client c)
  | DeleteClient i => unit_op (m_delete_client i) | SetClientEnabled i b => unit_op (m_set_client_enabled now i b)
  | SetClientSecret i s => unit_op (m_set_client_secret now i s)
  | SaveUser u => unit_op (m_save_user u) | UpdateUser u => unit_op (m_update_user u) | DeleteUser i => unit_op (m_delete_user i)
  | SetUserEnabled i b => unit_op (m_set_user_enabled now i b) | SetUserRole i r => unit_op (m_set_user_role now i r)
  | SetUserPasswordHash i h => unit_op (m_set_user_password_hash now i h)
  | SaveToken t => unit_op (m_save_token t) | RevokeToken v => unit_op (m_revoke_token v)
  | RevokeTokenFamily f => m_revoke_token_family f | RevokeTokensByUserId u => m_revoke_tokens_by_user_id u
  | RevokeTokensByClientId c => m_revoke_tokens_by_client_id c
  | SaveCode c => unit_op (m_save_authorization_code c) | MarkCodeUsed c => m_mark_authorization_code_used c
  | SaveDevice d => unit_op (m_save_device_authorization d) | ApproveDevice c u => unit_op (m_approve_device_authorization c u)
  | DenyDevice c => unit_op (m_deny_device_authorization c) | MarkDeviceUsed d => m_mark_device_authorization_used d
  | ExpireDevice t d => unit_op (m_expire_device_authorization t d)
  | SaveTrustedIssuer i => unit_op (m_save_trusted_issuer i) | AddDenylistEntry e => unit_op (m_add_denylist_entry e)
  | RemoveDenylistEntry i => unit_op (m_remove_denylist_entry i) | WriteAuditLog e => unit_op (m_write_audit_log e)
  end.

(** ** A database that holds a store *)
Record mongo_ok (db : Db) (st : Store) : Prop := {
  mo_clients : holds [["client_id"]] (m_clients db) (clients st);
  mo_users : holds [["username"]] (m_users db) (users st);
  mo_tokens : holds [["access_token"]] (m_tokens db) (tokens st);
  mo_codes : holds [["code"]] (m_codes db) (authorization_codes st);
  mo_devices : holds [["device_code"]; ["user_code"]] (m_devices db) (device_authorizations st);
  mo_issuers : holds [["issuer"]] (m_issuers db) (trusted_issuers st);
  mo_denylist : holds [["kind"; "value"]] (m_denylist db) (denylist st);
  mo_audit : holds [] (m_audit db) (audit_log st)
}.
Definition implements (m : ST Db exn nat) (db : Db) (st : Store) (r : result exn (Store * nat)) : Prop :=
  match m db, r with
  | (Ok n, db'), Ok (st', n') => mongo_ok db' st' /\ n = n'
  | (Err e, db'), Err e' => e = e' /\ mongo_ok db' st
  | _, _ => False
  end.
(** New rows have identifiers of their own (they are UUIDs), and the times
    written are read back. *)
Definition fresh_id {A} (id : A -> string) (a : A) (l : list A) : Prop := existsb (fun r => String.eqb (id r) (id a)) l = false.
Definition iso_readable (t : Z) : Prop := coerce_datetime fromisoformat (JStr (isoformat t)) = Some t.
Definition admissible (now : Z) (o : op) (st : Store) : Prop :=
  match o with
  | SaveClient c => fresh_id c_id c (clients st) /\ row_readable c
  | UpdateClient c => row_readable c /\ forall r, In r (clients st) -> c_client_id r = c_client_id c -> c_id r = c_id c
  | SetClientEnabled _ _ | SetClientSecret _ _ | SetUserEnabled _ _ | SetUserRole _ _ | SetUserPasswordHash _ _ => iso_readable now
  | SaveUser u => fresh_id u_id u (users st) /\ row_readable u
  | UpdateUser u => iso_readable (u_updated_at u)
  | SaveToken t => fresh_id t_id t (tokens st) /\ row_readable t
  | SaveCode c => fresh_id ac_id c (authorization_codes st) /\ row_readable c
  | SaveDevice d => fresh_id d_id d (device_authorizations st) /\ row_readable d
  | ExpireDevice t _ => iso_readable (t - SECOND)
  | SaveTrustedIssuer i => fresh_id ti_id i (trusted_issuers st) /\ row_readable i
  | AddDenylistEntry e => fresh_id dl_id e (denylist st) /\ row_readable e
  | WriteAuditLog e => fresh_id al_id e (audit_log st) /\ row_readable e
  | _ => True
  end.

Lemma set_clients c db st rows : mongo_ok db st -> holds [["client_id"]] c rows -> mongo_ok (set_coll Clients c db) (on_clients (fun _ => rows) st).
Proof. intros [] Hc. destruct db, st. by constructor. Qed.
Lemma set_users c db st rows : mongo_ok db st -> holds [["username"]] c rows -> mongo_ok (set_coll Users c db) (on_users (fun _ => rows) st).
Proof. intros [] Hc. destruct db, st. by constructor. Qed.
Lemma set_tokens c db st rows : mongo_ok db st -> holds [["access_token"]] c rows -> mongo_ok (set_coll Tokens c db) (on_tokens (fun _ => rows) st).
Proof. intros [] Hc. destruct db, st. by constructor. Qed.
Lemma set_codes c db st rows : mongo_ok db st -> holds [["code"]] c rows -> mongo_ok (set_coll Codes c db) (on_codes (fun _ => rows) st).
Proof. intros [] Hc. destruct db, st. by constructor. Qed.
Lemma set_devices c db st rows : mongo_ok db st -> holds [["device_code"]; ["user_code"]] c rows ->
  mongo_ok (set_coll Devices c db) (on_devices (fun _ => rows) st).
Proof. intros [] Hc. destruct db, st. by constructor. Qed.
Lemma set_issuers c db st rows : mongo_ok db st -> holds [["issuer"]] c rows -> mongo_ok (set_coll Issuers c db) (on_issuers (fun _ => rows) st).
Proof. intros [] Hc. destruct db, st. by constructor. Qed.
Lemma set_denylist c db st rows : mongo_ok db st -> holds [["kind"; "value"]] c rows ->
  mongo_ok (set_coll Denylist c db) (on_denylist (fun _ => rows) st).
Proof. intros [] Hc. destruct db, st. by constructor. Qed.
Lemma set_audit c db st rows : mongo_ok db st -> holds [] c rows -> mongo_ok (set_coll Audit c db) (on_audit (fun _ => rows) st).
Proof. intros [] Hc. destruct db, st. by constructor. Qed.

(** ** The shapes of the calls *)
Hypothesis laws : mongo_laws docs unique regex_i.
Section shapes.
Context {A : Type} `{Documented A} (n : coll_name) (idx : list (list string)) (db : Db) (rows : list A).
Hypothesis Hidx : idx_plain A idx = true.
Hypothesis Hh : holds idx (get_coll n db) rows.

Lemma lone_ext (p q : A -> bool) : (forall a, p a = q a) -> lone q rows -> lone p rows.
Proof.
  intros He Hl r1 r r2 Hr Hp. rewrite He in Hp. eapply Forall_impl; [by eapply Hl|]. intros x Hx. cbv beta in *. by rewrite He.
Qed.
Lemma delete_where_ext (p q : A -> bool) l : (forall a, p a = q a) -> delete_where p l = delete_where q l.
Proof. intros He. unfold delete_where. apply List.filter_ext. intros x. by rewrite He. Qed.
Lemma count_where_ext (p q : A -> bool) l : (forall a, p a = q a) -> count_where p l = count_where q l.
Proof. intros He. unfold count_where. by rewrite (List.filter_ext p q). Qed.

Lemma op_insert omit a p : omits_options (A:=A) omit -> row_readable a -> (unique_rows idx (rows ++ [a]) <-> existsb p rows = false) ->
  if existsb p rows then m_insert n (to_doc omit a) db = (Err duplicate400, db)
  else exists c, m_insert n (to_doc omit a) db = (Ok tt, set_coll n c db) /\ holds idx c (rows ++ [a]).
Proof.
  intros Ho Ha Hp. pose proof (run_insert docs unique regex_i fromisoformat laws n idx db rows Hidx Hh omit a Ho Ha) as Hr.
  destruct (m_insert _ _ _) as [[[]|e] db'].
  - destruct Hr as (c & -> & Hc). rewrite (proj1 Hp (h_unique _ _ _ _ _ _ Hc)). by exists c.
  - destruct Hr as (-> & -> & Hn). destruct (existsb p rows) eqn:E; [done|]. destruct Hn. by apply Hp.
Qed.
(** [$set] on the document of a key, which leaves the indexes as they are. *)
Lemma op_update f set (g : A -> A) p rows' : update_where p g rows = rows' -> filter_plain A f = true -> (forall a, matches f (model_dump a) = p a) -> lone p rows ->
  (forall a, forallb (settable fromisoformat (schema (A:=A))) set = true
    /\ set_fields fromisoformat set schema (to_fields a) = to_fields (g a)) ->
  Forall (fun ks => forall a, row_key ks (g a) = row_key ks a) idx ->
  exists c, update n f set db = (Ok tt, set_coll n c db) /\ holds idx c rows'.
Proof.
  intros <- Hf Hp Hl Hg Hk.
  pose proof (run_update docs unique regex_i fromisoformat laws n idx db rows Hidx Hh f set g Hf (lone_ext _ _ Hp Hl) Hg) as Hr. cbv zeta in Hr.
  rewrite (update_where_ext _ p) in Hr by done.
  destruct (update _ _ _ _) as [[[]|e] db'].
  - destruct Hr as (c & -> & Hc). by exists c.
  - destruct Hr as (_ & _ & Hn). destruct Hn. apply unique_rows_same; [done|]. apply (h_unique _ _ _ _ _ _ Hh).
Qed.
(** Changing the document of a key, or creating it. *)
Lemma op_change f upd (new : json -> option pydict) (g : A -> A) newrow p call : filter_plain A f = true -> (forall a, matches f (model_dump a) = p a) -> lone p rows ->
  (forall d a, rep fromisoformat d a -> In a rows -> p a = true -> rep fromisoformat (upd d) (g a)) ->
  (forall i, match new i, newrow with Some d, Some a => rep fromisoformat d a | None, None => True | _, _ => False end) ->
  (exists i hit ds, one regex_i f upd (new i) (docs (get_coll n db)) hit ds /\ changed_to docs unique (get_coll n db) ds (call (get_coll n db))) ->
  let rows' := if existsb p rows then update_where p g rows else rows ++ option_list newrow in
  unique_rows idx rows' -> exists c, write n call db = (Ok tt, set_coll n c db) /\ holds idx c rows'.
Proof.
  intros Hf Hp Hl Hg Hn (i & hit & ds & Ho & Hc) rows' Hu.
  destruct (sim_one docs unique regex_i fromisoformat f upd (new i) g newrow idx _ hit ds rows Hh Hf (lone_ext _ _ Hp Hl)) as [(ds' & Hpd & Hr) _]; [|by apply Hn|exact Ho|].
  { intros d a Hd Hin Hma. apply Hg; [done|done|]. by rewrite <- Hp. }
  assert (existsb (fun r => matches f (model_dump r)) rows = existsb p rows) as He
    by (clear -Hp; induction rows as [|r l IH]; [done|]; cbn; by rewrite Hp, IH).
  rewrite He, (update_where_ext _ p g rows Hp) in Hr. fold rows' in Hr.
  pose proof (sim_changed docs unique fromisoformat idx _ ds ds' rows rows' _ Hidx Hh Hc Hpd Hr) as Hs.
  unfold write, on. destruct (call _) as [c|]; cbn; [by exists c|done].
Qed.
Lemma op_delete f p : filter_plain A f = true -> (forall a, matches f (model_dump a) = p a) -> lone p rows ->
  exists c, write n (fun c => Some (delete_one f c)) db = (Ok tt, set_coll n c db) /\ holds idx c (delete_where p rows).
Proof.
  intros Hf Hp Hl. rewrite <- (delete_where_ext _ p rows Hp).
  by apply (run_delete docs unique regex_i fromisoformat laws n idx db rows Hidx Hh f Hf), (lone_ext _ p).
Qed.
Lemma op_claim f (g : A -> A) p : filter_plain A f = true -> (forall a, matches f (model_dump a) = p a) -> lone p rows ->
  (forall a, forallb (settable fromisoformat (schema (A:=A))) [("used", JBool true)] = true
    /\ set_fields fromisoformat [("used", JBool true)] schema (to_fields a) = to_fields (g a)) ->
  Forall (fun ks => forall a, row_key ks (g a) = row_key ks a) idx ->
  exists c, claim n f db = (Ok (count_where p rows), set_coll n c db) /\ holds idx c (update_where p g rows).
Proof.
  intros Hf Hp Hl Hg Hk. rewrite <- (count_where_ext _ p rows Hp), <- (update_where_ext _ p g rows Hp).
  apply (run_claim docs unique regex_i fromisoformat laws n idx db rows Hidx Hh f g Hf (lone_ext _ _ Hp Hl) Hg).
  apply unique_rows_same; [done|]. apply (h_unique _ _ _ _ _ _ Hh).
Qed.
Lemma lone_by (key : A -> string) p x : NoDup (map key rows) -> (forall r, p r = true -> key r = x) -> lone p rows.
Proof. intros Hn. by apply lone_key, NoDup_ListNoDup. Qed.
End shapes.

(** ** Operation by operation *)
Section cases.
Context (now : Z) (db : Db) (st : Store).
Hypothesis Hm : mongo_ok db st.
Hypothesis Hok : store_ok st.
Notation implemented o := (admissible now o st -> implements (mongo_run now o) db st (mongo_spec now o st)).

Ltac called H lem := let c := fresh "c" in let Hc := fresh "Hc" in let Hr := fresh "Hr" in
  destruct H as (c & Hc & Hr); unfold implements; cbn [mongo_run]; unfold unit_op, sbind; rewrite ?Hc; split; [by apply (lem c db st)|done].
Ltac matched := intros a; cbn; by rewrite ?andb_true_r.
Ltac by_key Hn := eapply lone_by; [exact Hn|cbv beta; intros r; by intros ->%String.eqb_eq].
Ltac sets := intros a; unfold now_iso; cbn -[coerce_datetime isoformat]; split;
  by repeat match goal with Hx : iso_readable _ |- _ => rewrite Hx end.
(** A call of [update_one] on the document of a unique key. *)
Ltac setter m coll idx Hrows Hn lem rows' :=
  let Hu := fresh "Hu" in
  assert (exists c, m db = (Ok tt, set_coll coll c db) /\ holds idx c rows') as Hu by
    (eapply op_update; [|exact (Hrows _ _ Hm)|first [symmetry; by apply update_twice|reflexivity]|reflexivity|matched|by_key (Hn _ Hok)|sets|repeat constructor]; reflexivity);
  called Hu lem.

Ltac remover m coll idx Hrows Hn lem rows' :=
  let Hu := fresh "Hu" in
  assert (exists c, m db = (Ok tt, set_coll coll c db) /\ holds idx c rows') as Hu by
    (eapply op_delete; [reflexivity|exact (Hrows _ _ Hm)|reflexivity|matched|by_key (Hn _ Hok)]);
  called Hu lem.
Ltac claimer m coll idx Hrows Hn lem rows' k :=
  let Hu := fresh "Hu" in
  assert (exists c, m db = (Ok k, set_coll coll c db) /\ holds idx c rows') as Hu by
    (eapply op_claim; [reflexivity|exact (Hrows _ _ Hm)|reflexivity|intros a; cbn; by match goal with |- context [Bool.eqb ?b _] => destruct b end|
       eapply lone_by; [exact (Hn _ Hok)|cbv beta; intros r [->%String.eqb_eq _]%andb_prop; reflexivity]|sets|repeat constructor]);
  called Hu lem.

Lemma mongo_set_client_enabled i b : implemented (SetClientEnabled i b).
Proof. intros Ha; cbn [admissible] in Ha. setter (m_set_client_enabled now i b) Clients [["client_id"]] mo_clients ok_clients set_clients (clients (stamp_client now i (set_client_enabled i b st))). Qed.
Lemma mongo_set_client_secret i s : implemented (SetClientSecret i s).
Proof. intros Ha; cbn [admissible] in Ha. setter (m_set_client_secret now i s) Clients [["client_id"]] mo_clients ok_clients set_clients (clients (stamp_client now i (set_client_secret i s st))). Qed.
Lemma mongo_set_user_enabled i b : implemented (SetUserEnabled i b).
Proof. intros Ha; cbn [admissible] in Ha. setter (m_set_user_enabled now i b) Users [["username"]] mo_users ok_user_ids set_users (users (stamp_user now i (set_user_enabled i b st))). Qed.
Lemma mongo_set_user_role i role : implemented (SetUserRole i role).
Proof. intros Ha; cbn [admissible] in Ha. setter (m_set_user_role now i role) Users [["username"]] mo_users ok_user_ids set_users (users (stamp_user now i (set_user_role i role st))). Qed.
Lemma mongo_set_user_hash i h : implemented (SetUserPasswordHash i h).
Proof. intros Ha; cbn [admissible] in Ha. setter (m_set_user_password_hash now i h) Users [["username"]] mo_users ok_user_ids set_users (users (stamp_user now i (set_user_password_hash i h st))). Qed.
Lemma mongo_approve_device c u : implemented (ApproveDevice c u).
Proof. intros Ha; cbn [admissible] in Ha. setter (m_approve_device_authorization c u) Devices [["device_code"]; ["user_code"]] mo_devices ok_user_codes set_devices (device_authorizations (approve_device_authorization c u st)). Qed.
Lemma mongo_deny_device c : implemented (DenyDevice c).
Proof. intros Ha; cbn [admissible] in Ha. setter (m_deny_device_authorization c) Devices [["device_code"]; ["user_code"]] mo_devices ok_user_codes set_devices (device_authorizations (deny_device_authorization c st)). Qed.
Lemma mongo_expire_device t d : implemented (ExpireDevice t d).
Proof. intros Ha; cbn [admissible] in Ha. setter (m_expire_device_authorization t d) Devices [["device_code"]; ["user_code"]] mo_devices ok_devices set_devices (device_authorizations (expire_device_authorization t d st)). Qed.
Lemma mongo_delete_client i : implemented (DeleteClient i).
Proof. intros _. remover (m_delete_client i) Clients [["client_id"]] mo_clients ok_clients set_clients (clients (delete_client i st)). Qed.
Lemma mongo_delete_user i : implemented (DeleteUser i).
Proof. intros _. remover (m_delete_user i) Users [["username"]] mo_users ok_user_ids set_users (delete_where (fun r => String.eqb (u_id r) i) (users st)). Qed.
Lemma mongo_remove_denied i : implemented (RemoveDenylistEntry i).
Proof. intros _. remover (m_remove_denylist_entry i) Denylist [["kind"; "value"]] mo_denylist ok_deny_ids set_denylist (denylist (remove_denylist_entry i st)). Qed.
Lemma mongo_mark_code c : implemented (MarkCodeUsed c).
Proof.
  intros _. claimer (m_mark_authorization_code_used c) Codes [["code"]] mo_codes ok_codes set_codes
    (authorization_codes (mark_authorization_code_used c st).1) (mark_authorization_code_used c st).2.
Qed.
Lemma mongo_mark_device d : implemented (MarkDeviceUsed d).
Proof.
  intros _. claimer (m_mark_device_authorization_used d) Devices [["device_code"]; ["user_code"]] mo_devices ok_devices set_devices
    (device_authorizations (mark_device_authorization_used d st).1) (mark_device_authorization_used d st).2.
Qed.

Lemma op_revoke f p : filter_plain Token f = true -> (forall a, matches f (model_dump a) = p a) ->
  exists c, revoke_many f db = (Ok (count_where (fun r => p r && negb (t_revoked r)) (tokens st)), set_coll Tokens c db)
    /\ holds [["access_token"]] c (update_where p revoked_token (tokens st)).
Proof.
  intros Hf Hp. destruct (run_revoke docs unique regex_i fromisoformat laws [["access_token"]] f db (tokens st) eq_refl (mo_tokens _ _ Hm) Hf)
    as (c & Hc & Hr).
  { apply unique_rows_same; [by repeat constructor|]. apply (h_unique _ _ _ _ _ _ (mo_tokens _ _ Hm)). }
  exists c. rewrite Hc. split; [|by rewrite <- (update_where_ext _ p revoked_token (tokens st) Hp)].
  do 2 f_equal. apply count_where_ext. intros a. by rewrite Hp.
Qed.
Lemma opt_text (o : option string) v : json_eqb (match o with Some s => JStr s | None => JNull end) (JStr v) = oeqb o v.
Proof. destruct o; [apply String.eqb_sym|done]. Qed.
Ltac revoker f p := let Hu := fresh "Hu" in
  pose proof (op_revoke f p eq_refl ltac:(intros a; cbn; rewrite ?opt_text, ?andb_true_r, ?orb_false_r; by destruct (t_revoked a))) as Hu;
  let c := fresh "c" in let Hc := fresh "Hc" in let Hr := fresh "Hr" in destruct Hu as (c & Hc & Hr).
Lemma mongo_revoke_token v : implemented (RevokeToken v).
Proof.
  intros _. revoker (Or [("access_token", JStr v); ("refresh_token", JStr v)]) (fun r => String.eqb (t_access_token r) v || oeqb (t_refresh_token r) v).
  unfold implements. cbn [mongo_run]. unfold unit_op, m_revoke_token, sbind. rewrite Hc. split; [by apply (set_tokens c db st)|done].
Qed.
Lemma mongo_revoke_family f : implemented (RevokeTokenFamily f).
Proof.
  intros _. revoker (by_ "token_family" f) (in_family f).
  unfold implements. cbn [mongo_run]. unfold m_revoke_token_family. rewrite Hc. split; [by apply (set_tokens c db st)|done].
Qed.
Lemma revoked_twice (p : Token -> bool) l :
  count_where (fun r => (p r && negb (t_revoked r)) && negb (t_revoked r)) l = count_where (fun r => p r && negb (t_revoked r)) l.
Proof. apply count_where_ext. intros a. by destruct (p a), (t_revoked a). Qed.
Lemma mongo_revoke_user u : implemented (RevokeTokensByUserId u).
Proof.
  intros _. revoker (Eq [("user_id", JStr u); ("revoked", JBool false)]) (fun r => oeqb (t_user_id r) u && negb (t_revoked r)).
  unfold implements. cbn [mongo_run]. unfold m_revoke_tokens_by_user_id. rewrite Hc, (revoked_twice (fun r => oeqb (t_user_id r) u)).
  split; [by apply (set_tokens c db st)|done].
Qed.
Lemma mongo_revoke_client i : implemented (RevokeTokensByClientId i).
Proof.
  intros _. revoker (Eq [("client_id", JStr i); ("revoked", JBool false)]) (fun r => String.eqb (t_client_id r) i && negb (t_revoked r)).
  unfold implements. cbn [mongo_run]. unfold m_revoke_tokens_by_client_id. rewrite Hc, (revoked_twice (fun r => String.eqb (t_client_id r) i)).
  split; [by apply (set_tokens c db st)|done].
Qed.

(** *** Insertions *)
Lemma unique_insert {A} `{Model A} k (id key : A -> string) rows a : unique_rows [[k]] rows -> (forall b, row_key [k] b = [JStr (key b)]) ->
  fresh_id id a rows ->
  unique_rows [[k]] (rows ++ [a]) <-> existsb (fun r => String.eqb (id r) (id a) || String.eqb (key r) (key a)) rows = false.
Proof.
  intros Hu Hk Hf. rewrite unique_snoc by done. rewrite existsb_or, Hf, Forall_singleton. cbn [orb].
  apply (key_absent [k] (fun b a => String.eqb (key b) (key a))). intros b. rewrite !Hk. apply key1.
Qed.
Lemma unique_device rows (a : DeviceAuthorization) : unique_rows [["device_code"]; ["user_code"]] rows -> fresh_id d_id a rows ->
  unique_rows [["device_code"]; ["user_code"]] (rows ++ [a]) <-> existsb (fun r => String.eqb (d_id r) (d_id a)
    || String.eqb (d_device_code r) (d_device_code a) || String.eqb (d_user_code r) (d_user_code a)) rows = false.
Proof.
  intros Hu Hf. rewrite unique_snoc by done. rewrite !existsb_or, Hf, Forall_cons, Forall_singleton, orb_false_iff. cbn [orb].
  rewrite (key_absent ["device_code"] (fun b a => String.eqb (d_device_code b) (d_device_code a)))
    by (intros b; apply (key1 d_device_code)).
  by rewrite (key_absent ["user_code"] (fun b a => String.eqb (d_user_code b) (d_user_code a)))
    by (intros b; apply (key1 d_user_code)).
Qed.
Ltac inserter coll idx Hrows omit a uniq lem :=
  let Hi := fresh "Hi" in let c := fresh "c" in let Hr := fresh "Hr" in
  let T := type of a in pose proof (op_insert (A:=T) coll idx db _ eq_refl (Hrows _ _ Hm) omit a _ ltac:(by repeat constructor) ltac:(assumption) uniq) as Hi;
  unfold implements; cbn [mongo_run mongo_spec apply_op]; unfold unit_op, sbind;
  unfold m_save_client, m_save_user, m_save_token, m_save_authorization_code, m_save_device_authorization,
    save_client, save_user, save_token, save_authorization_code, save_device_authorization, or_raise;
  destruct (existsb _ _); [by rewrite Hi|]; destruct Hi as (c & Hc & Hr); rewrite Hc; split; [by apply (lem c db st)|done].
Ltac keyed1 k id key a Hrows Hu :=
  pose proof (unique_insert k id key _ a (h_unique _ _ _ _ _ _ (Hrows _ _ Hm)) (fun _ => eq_refl) ltac:(assumption)) as Hu.

Lemma mongo_save_client c : implemented (SaveClient c).
Proof. intros []. keyed1 "client_id" c_id c_client_id c mo_clients Hu. inserter Clients [["client_id"]] mo_clients (@nil string) c Hu set_clients. Qed.
Lemma mongo_save_user u : implemented (SaveUser u).
Proof. intros []. keyed1 "username" u_id u_username u mo_users Hu. inserter Users [["username"]] mo_users (@nil string) u Hu set_users. Qed.
Lemma mongo_save_token t : implemented (SaveToken t).
Proof.
  intros []. keyed1 "access_token" t_id t_access_token t mo_tokens Hu. inserter Tokens [["access_token"]] mo_tokens ["refresh_token"; "token_family"] t Hu set_tokens.
Qed.
Lemma mongo_save_code c : implemented (SaveCode c).
Proof. intros []. keyed1 "code" ac_id ac_code c mo_codes Hu. inserter Codes [["code"]] mo_codes CODE_OMITTED c Hu set_codes. Qed.
Lemma mongo_save_device d : implemented (SaveDevice d).
Proof.
  intros []. pose proof (unique_device _ d (h_unique _ _ _ _ _ _ (mo_devices _ _ Hm)) ltac:(assumption)) as Hu.
  inserter Devices [["device_code"]; ["user_code"]] mo_devices (@nil string) d Hu set_devices.
Qed.
Lemma mongo_write_audit e : implemented (WriteAuditLog e).
Proof.
  intros [Hf Hread].
  assert (omits_options (A:=AuditLogEntry) []) as Ho by (by repeat constructor).
  pose proof (sim_insert (A:=AuditLogEntry) docs unique regex_i fromisoformat [] _ [] _ e laws eq_refl Ho Hread (mo_audit _ _ Hm)) as Hi.
  unfold implements. cbn [mongo_run mongo_spec apply_op]. unfold unit_op, sbind, m_write_audit_log, write, on, write_audit_log.
  unfold fresh_id in Hf. rewrite Hf. cbn [get_coll]. destruct (insert_one _ _) as [c|]; cbn.
  - split; [by apply (set_audit c db st)|done].
  - destruct Hi. constructor.
Qed.

(** *** Updates of whole rows *)
Lemma unique1 {A} `{Model A} k (key : A -> string) rows : (forall b, row_key [k] b = [JStr (key b)]) ->
  unique_rows [[k]] rows <-> NoDup (map key rows).
Proof.
  intros Hk. unfold unique_rows, unique_ok. rewrite Forall_singleton, map_map, NoDup_ListNoDup.
  assert (map (fun a => map (fun k => field_of k (model_dump a)) [k]) rows = map (fun s => [JStr s]) (map key rows)) as ->.
  { rewrite map_map. apply map_ext. intros b. apply (Hk b). }
  split; [apply NoDup_map_inv|]. intros Hn. apply Finite.Injective_map_NoDup; [by intros x y [=]|done].
Qed.
Lemma same_key {A B} (key : A -> B) rows a b : NoDup (map key rows) -> In a rows -> In b rows -> key a = key b -> a = b.
Proof.
  intros Hn%NoDup_ListNoDup Ha Hb Hk. apply in_split in Ha as (l1 & l2 & ->). rewrite map_app in Hn. cbn in Hn. apply NoDup_remove_2 in Hn.
  rewrite <- map_app in Hn. apply in_app_iff in Hb as [Hb|[Hb|Hb]]; [|done|]; exfalso; apply Hn; rewrite Hk; apply in_map, in_or_app; auto.
Qed.
Lemma username_taken (u : User) g l : (forall r, u_username (g r) = u_username u) -> (forall r, u_id (g r) = u_id r) ->
  existsb (fun r => String.eqb (u_id r) (u_id u)) l
    && existsb (fun r => negb (String.eqb (u_id r) (u_id u)) && String.eqb (u_username r) (u_username u)) l = true ->
  ~ NoDup (map u_username (update_where (fun r => String.eqb (u_id r) (u_id u)) g l)).
Proof.
  intros Hg Hi [(r & Hr & Hru)%existsb_exists (x & Hx & [Hxu Hxn]%andb_prop)%existsb_exists]%andb_prop Hn.
  assert (g r = x) as Heq.
  { eapply (same_key u_username); [exact Hn| | |rewrite Hg; symmetry; by apply String.eqb_eq].
    - apply in_update_where. exists r. by rewrite Hru.
    - apply in_update_where. exists x. apply negb_true_iff in Hxu. by rewrite Hxu. }
  subst x. rewrite Hi, Hru in Hxu. done.
Qed.
Lemma mongo_update_user u : implemented (UpdateUser u).
Proof.
  intros Ha. cbn [admissible] in Ha. unfold implements. cbn [mongo_run mongo_spec apply_op]. unfold unit_op, sbind, m_update_user, update_user, or_raise.
  set (g r := mkUser (u_id r) (u_username u) (u_password_hash u) (u_email u) (u_enabled u) (u_role u) (u_created_at r) (u_updated_at u)).
  pose proof (run_update docs unique regex_i fromisoformat laws Users [["username"]] db (users st) eq_refl (mo_users _ _ Hm) (by_ "id" (u_id u))
    [("username", JStr (u_username u)); ("email", JStr (u_email u)); ("enabled", JBool (u_enabled u)); ("role", JStr (u_role u));
     ("password_hash", JStr (u_password_hash u)); ("updated_at", now_iso (u_updated_at u))] g eq_refl) as Hr. cbv zeta in Hr.
  rewrite (update_where_ext _ (fun r => String.eqb (u_id r) (u_id u))) in Hr by matched.
  specialize (Hr ltac:(apply (lone_ext _ _ (fun r => String.eqb (u_id r) (u_id u))); [matched|by_key (ok_user_ids _ Hok)]) ltac:(sets)).
  pose proof (unique1 "username" u_username (update_where (fun r => String.eqb (u_id r) (u_id u)) g (users st)) (fun _ => eq_refl)) as Hu.
  destruct (update _ _ _ _) as [[[]|e] db'].
  - destruct Hr as (c & -> & Hc). destruct (_ && _) eqn:E.
    + apply (username_taken u g) in E; [|done|done]. destruct E. apply Hu, (h_unique _ _ _ _ _ _ Hc).
    + split; [by apply (set_users c db st)|done].
  - destruct Hr as (-> & -> & Hn). destruct (_ && _) eqn:E; [done|]. destruct Hn. apply Hu. apply andb_false_iff in E as [E|E].
    + rewrite update_absent by done. apply (ok_users _ Hok).
    + apply nodup_update_user; [apply (ok_user_ids _ Hok)|apply (ok_users _ Hok)|done|done].
Qed.
Lemma keep_id_rep {A} `{Documented A} old d (a : A) : rep fromisoformat d a -> rep fromisoformat (keep_id old d) a.
Proof.
  intros Hr. unfold keep_id. destruct (obj_get "_id" old); [|done]. apply repf_set_other; [apply names_id|done].
Qed.
Lemma id_rep {A} `{Documented A} i d (a : A) : rep fromisoformat d a -> rep fromisoformat (obj_set "_id" i d) a.
Proof. intros Hr. apply repf_set_other; [apply names_id|done]. Qed.
Lemma replace_rows {A} `{Model A} idx (p : A -> bool) c rows :
  (forall r, p r = true -> Forall (fun ks => row_key ks c = row_key ks r) idx) -> unique_rows idx rows ->
  unique_rows idx (update_where p (fun _ => c) rows).
Proof.
  intros Hk Hu. assert (update_where p (fun _ => c) rows = update_where p (fun r => if p r then c else r) rows) as ->.
  { apply map_ext. intros r. by destruct (p r). }
  apply unique_rows_same; [|done]. apply Forall_forall. intros ks Hks a. destruct (p a) eqn:Hp; [|done].
  pose proof (Hk a Hp) as Hf. rewrite Forall_forall in Hf. by apply Hf.
Qed.
Lemma mongo_update_client c : implemented (UpdateClient c).
Proof.
  intros [Hread _]. pose proof (mo_clients _ _ Hm) as Hh.
  assert (rep fromisoformat (to_doc [] c) c) as Hc by (by apply (rep_to_doc fromisoformat [] c JNull); [|repeat constructor]).
  set (p r := String.eqb (c_client_id r) (c_client_id c)).
  assert (idx_plain Client [["client_id"]] = true) as Hi by done.
  destruct (op_change Clients [["client_id"]] db _ Hi Hh (by_ "client_id" (c_client_id c)) (fun old => keep_id old (to_doc [] c)) (fun _ => None)
    (fun _ => c) None p (replace_one (by_ "client_id" (c_client_id c)) (to_doc [] c) false)) as (x & Hx & Hr);
    [reflexivity|matched|by_key (ok_clients _ Hok)|intros; by apply keep_id_rep|done|exact (law_replace_one _ _ _ laws _ _ false _)| |].
  - destruct (existsb _ _); [|rewrite app_nil_r; apply (h_unique _ _ _ _ _ _ Hh)].
    apply replace_rows; [|apply (h_unique _ _ _ _ _ _ Hh)]. intros r Hp%String.eqb_eq. repeat constructor. cbn. by rewrite Hp.
  - unfold implements. cbn [mongo_run mongo_spec]. unfold unit_op, sbind, m_update_client. rewrite Hx. split; [|done].
    apply (set_clients x db st); [done|]. destruct (existsb p (clients st)) eqn:E; [done|]. cbn in Hr. rewrite app_nil_r in Hr.
    by rewrite update_absent.
Qed.

(** *** Upserts *)
Definition merge_issuer (i r : TrustedIssuer) : TrustedIssuer :=
  mkIssuer (ti_id r) (ti_issuer r) (ti_jwks_uri i) (ti_allowed_audiences i) (ti_subject_mapping i) (ti_jit_provision i)
    (ti_allowed_client_ids i) (ti_enabled i) (ti_created_at r) (ti_updated_at i).
Definition issuer_set (i : TrustedIssuer) : pydict := List.filter (fun '(k, _) => negb (mem_str k ["id"; "created_at"])) (to_doc [] i).
Definition issuer_insert (i : TrustedIssuer) : pydict := List.filter (fun '(k, _) => mem_str k ["id"; "created_at"]) (to_doc [] i).
Lemma issuer_readable i : row_readable i ->
  coerce_datetime fromisoformat (JStr (rfc3339 (ti_created_at i))) = Some (ti_created_at i)
  /\ coerce_datetime fromisoformat (JStr (rfc3339 (ti_updated_at i))) = Some (ti_updated_at i).
Proof.
  unfold MongoProps.row_readable. intros Hf. split; [apply (Forall_lookup_1 _ _ 8%nat _ Hf eq_refl)|apply (Forall_lookup_1 _ _ 9%nat _ Hf eq_refl)].
Qed.
Lemma issuer_merged i d r : row_readable i -> rep fromisoformat d r -> ti_issuer r = ti_issuer i ->
  rep fromisoformat (apply_set (issuer_set i) d) (merge_issuer i r).
Proof.
  intros [_ Hu]%issuer_readable Hd Hi. apply (rep_apply_set fromisoformat _ d r); [| |done]; unfold issuer_set; cbn -[coerce_datetime rfc3339].
  - by rewrite Hu.
  - rewrite Hu. cbn. unfold merge_issuer. by rewrite Hi.
Qed.
Lemma issuer_created i x : row_readable i ->
  rep fromisoformat (obj_set "_id" x (upserted (by_ "issuer" (ti_issuer i)) (mkUpdate (issuer_set i) (issuer_insert i)))) i.
Proof.
  intros [Hc Hu]%issuer_readable. apply id_rep. unfold rep, repf.
  repeat constructor; unfold reads_as; cbn -[coerce_datetime rfc3339]; by rewrite ?Hc, ?Hu.
Qed.
Lemma mongo_save_issuer i : implemented (SaveTrustedIssuer i).
Proof.
  intros [Hf Hread]. pose proof (mo_issuers _ _ Hm) as Hh.
  assert (idx_plain TrustedIssuer [["issuer"]] = true) as Hi by done.
  set (p r := String.eqb (ti_issuer r) (ti_issuer i)).
  destruct (op_change Issuers [["issuer"]] db _ Hi Hh (by_ "issuer" (ti_issuer i)) (apply_set (issuer_set i))
    (fun x => Some (obj_set "_id" x (upserted (by_ "issuer" (ti_issuer i)) (mkUpdate (issuer_set i) (issuer_insert i)))))
    (merge_issuer i) (Some i) p (update_one (by_ "issuer" (ti_issuer i)) (mkUpdate (issuer_set i) (issuer_insert i)) true)) as (x & Hx & Hr);
    [reflexivity|matched|by_key (ok_issuers _ Hok)| |intros; by apply issuer_created|exact (law_update_one _ _ _ laws _ (mkUpdate (issuer_set i) (issuer_insert i)) true _)| |].
  - intros d r Hd _ Hp. apply issuer_merged; [done|done|]. by apply String.eqb_eq.
  - destruct (existsb p _) eqn:E.
    + apply unique_rows_same; [by repeat constructor|apply (h_unique _ _ _ _ _ _ Hh)].
    + apply (unique_insert "issuer" ti_id ti_issuer); [apply (h_unique _ _ _ _ _ _ Hh)|done|done|].
      rewrite existsb_or. unfold fresh_id in Hf. by rewrite Hf.
  - unfold implements. cbn [mongo_run mongo_spec apply_op]. unfold unit_op, sbind, m_save_trusted_issuer, save_trusted_issuer, or_raise.
    fold (issuer_set i) (issuer_insert i) p. cbv zeta. rewrite Hx. unfold fresh_id in Hf. rewrite Hf.
    destruct (existsb p _) eqn:E; (split; [by apply (set_issuers x db st)|done]).
Qed.

Definition merge_entry (e r : DenylistEntry) : DenylistEntry :=
  mkDeny (dl_id r) (dl_kind r) (dl_value r) (dl_reason e) (dl_created_by e) (dl_created_at r) (dl_expires_at e).
Lemma rep_member {A} `{Documented A} d (a : A) i k t v : rep fromisoformat d a -> schema (A:=A) !! i = Some (k, t, Required) ->
  to_fields a !! i = Some v -> exists j, obj_get k d = Some j /\ read_val fromisoformat t j = Some v.
Proof.
  intros Hr Hs Hv. pose proof (Forall2_lookup_lr _ _ _ i _ _ Hr Hs Hv) as Hf. unfold reads_as in Hf.
  destruct (obj_get k d) as [j|]; [by exists j|]. by destruct Hf.
Qed.
Lemma entry_merged e d r : row_readable e -> rep fromisoformat d r -> dl_kind r = dl_kind e -> dl_value r = dl_value e ->
  exists doc, rbind (copy_member "id" d (to_doc [] e)) (fun doc => copy_member "created_at" d doc) = Ok doc
    /\ rep fromisoformat doc (merge_entry e r).
Proof.
  intros Hread Hd Hk Hv. destruct (rep_member d r 0 "id" FStr _ Hd eq_refl eq_refl) as (j1 & H1 & R1).
  destruct (rep_member d r 5 "created_at" FTime _ Hd eq_refl eq_refl) as (j2 & H2 & R2).
  unfold copy_member. rewrite H1. cbn [rbind]. rewrite H2. eexists. split; [done|].
  assert (rep fromisoformat (to_doc [] e) e) as He by (by apply (rep_to_doc fromisoformat [] e JNull); [|repeat constructor]).
  unfold rep. replace (to_fields (merge_entry e r)) with (<[5%nat:=VTime (dl_created_at r)]> (<[0%nat:=VStr (dl_id r)]> (to_fields e)))
    by (unfold merge_entry; cbn; by rewrite Hk, Hv).
  eapply repf_set; [apply names_nodup| |reflexivity|exact R2]. eapply repf_set; [apply names_nodup|exact He|reflexivity|exact R1].
Qed.
Lemma deny_matches e a : matches (deny_by (dl_kind e) (dl_value e)) (model_dump a) = deny_key (dl_kind e) (dl_value e) a.
Proof. cbn. unfold deny_key. by rewrite andb_true_r. Qed.
(** The replacement, whatever document was read before. *)
Lemma entry_replaced e doc r : fresh_id dl_id e (denylist st) -> rep fromisoformat doc r -> deny_key (dl_kind e) (dl_value e) r = true ->
  (forall x, In x (denylist st) -> deny_key (dl_kind e) (dl_value e) x = true -> r = merge_entry e x) ->
  (existsb (deny_key (dl_kind e) (dl_value e)) (denylist st) = false -> r = e) ->
  exists c, write Denylist (replace_one (deny_by (dl_kind e) (dl_value e)) doc true) db = (Ok tt, set_coll Denylist c db)
    /\ exists st', add_denylist_entry e st = Ok st' /\ mongo_ok (set_coll Denylist c db) st'.
Proof.
  intros Hf Hd Hr Hold Hnew. pose proof (mo_denylist _ _ Hm) as Hh.
  assert (idx_plain DenylistEntry [["kind"; "value"]] = true) as Hi by done.
  set (p := deny_key (dl_kind e) (dl_value e)) in *.
  destruct (op_change Denylist [["kind"; "value"]] db _ Hi Hh (deny_by (dl_kind e) (dl_value e)) (fun old => keep_id old doc)
    (fun x => if true then Some (obj_set "_id" x doc) else None) (merge_entry e) (Some r) p
    (replace_one (deny_by (dl_kind e) (dl_value e)) doc true)) as (c & Hc & Hrows);
    [reflexivity|apply deny_matches| | |intros; by apply id_rep|exact (law_replace_one _ _ _ laws _ _ true _)| |].
  - apply (lone_key (fun r => (dl_kind r, dl_value r)) p _ (dl_kind e, dl_value e)); [by apply NoDup_ListNoDup, (ok_denied _ Hok)|].
    unfold p, deny_key. by intros x [->%String.eqb_eq ->%String.eqb_eq]%andb_prop.
  - intros d a _ Ha Hp. apply keep_id_rep. by rewrite <- (Hold a Ha Hp).
  - destruct (existsb p _) eqn:E; [apply unique_rows_same; [by repeat constructor|apply (h_unique _ _ _ _ _ _ Hh)]|].
    rewrite (Hnew eq_refl). apply unique_snoc; [apply (h_unique _ _ _ _ _ _ Hh)|]. constructor; [|constructor].
    apply (key_absent ["kind"; "value"] (fun b a => deny_key (dl_kind a) (dl_value a) b)); [|exact E].
    intros b. unfold deny_key. rewrite andb_true_iff, !String.eqb_eq. cbn. split; [by intros [=]|by intros [-> ->]].
  - exists c. split; [done|]. unfold add_denylist_entry. fold p. unfold fresh_id in Hf. rewrite Hf.
    destruct (existsb p _) eqn:E; (eexists; split; [done|]); [by apply (set_denylist c db st)|].
    apply (set_denylist c db st _ Hm). by rewrite (Hnew eq_refl) in Hrows.
Qed.
Lemma mongo_add_denied e : implemented (AddDenylistEntry e).
Proof.
  intros [Hf Hread]. unfold implements. cbn [mongo_run mongo_spec apply_op]. unfold unit_op, m_add_denylist_entry, sbind, slift.
  pose proof (sim_find_one docs unique regex_i fromisoformat _ _ _ (deny_by (dl_kind e) (dl_value e)) laws (mo_denylist _ _ Hm) eq_refl) as Hfind.
  cbn [get_coll]. destruct (find_one _ _) as [d|].
  - destruct Hfind as (a & Hd & Ha & Hp). rewrite deny_matches in Hp. pose proof Hp as Hp'.
    apply andb_prop in Hp' as [Hk%String.eqb_eq Hv%String.eqb_eq]. destruct (entry_merged e d a Hread Hd Hk Hv) as (doc & Hdoc & Hrep).
    change (rbind (copy_member "id" d (to_doc [] e)) (fun doc => copy_member "created_at" d doc)) with
      (let? doc := copy_member "id" d (to_doc [] e) in copy_member "created_at" d doc) in Hdoc. rewrite Hdoc.
    destruct (entry_replaced e doc (merge_entry e a) Hf Hrep) as (c & Hc & st' & -> & Hst'); [done| | |by rewrite Hc].
    + intros x Hx Hpx. f_equal. apply (same_key (fun r => (dl_kind r, dl_value r)) (denylist st)); [apply (ok_denied _ Hok)|done|done|].
      unfold deny_key in Hpx. apply andb_prop in Hpx as [Hkx%String.eqb_eq Hvx%String.eqb_eq]. congruence.
    + intros E. by rewrite (existsb_false _ _ _ E Ha) in Hp.
  - assert (rep fromisoformat (to_doc [] e) e) as He by (by apply (rep_to_doc fromisoformat [] e JNull); [|repeat constructor]).
    destruct (entry_replaced e _ e Hf He) as (c & Hc & st' & -> & Hst'); [|intros x Hx Hpx|done|by rewrite Hc].
    + unfold deny_key. by rewrite !String.eqb_refl.
    + pose proof (Hfind x Hx) as Hn. rewrite deny_matches in Hn. by rewrite Hn in Hpx.
Qed.

(** *** All of them *)
Lemma run_ok o : implemented o.
Proof.
  destruct o; [apply mongo_save_client|apply mongo_update_client|apply mongo_delete_client|apply mongo_set_client_enabled|apply mongo_set_client_secret
    |apply mongo_save_user|apply mongo_update_user|apply mongo_delete_user|apply mongo_set_user_enabled|apply mongo_set_user_role|apply mongo_set_user_hash
    |apply mongo_save_token|apply mongo_revoke_token|apply mongo_revoke_family|apply mongo_revoke_user|apply mongo_revoke_client
    |apply mongo_save_code|apply mongo_mark_code|apply mongo_save_device|apply mongo_approve_device|apply mongo_deny_device|apply mongo_mark_device
    |apply mongo_expire_device|apply mongo_save_issuer|apply mongo_add_denied|apply mongo_remove_denied|apply mongo_write_audit].
Qed.
End cases.
End ops.
