(* ===== verification/MongoRun.v ===== *)
(** * Histories of the MongoDB back end

    The refinement of the SQL tables by [MongoStorage]: the same results in
    the same order, and every lookup reads the row that the tables hold. *)
From Stdlib Require Import Sorting.Permutation.
From S2P Require Import Prelude PyStr PyInt PyJson PyDumps Codec Models IsoTime Storage StoreSpec PyUrl Paging MongoDoc Mongo MongoProps MongoOps.
#[local] Open Scope Z_scope.

(** ** The abstract operations keep the constraints *)
Lemma replaced_key {A} (key : A -> string) (p : A -> bool) c l : (forall r, In r l -> p r = true -> key r = key c) ->
  map key (update_where p (fun _ => c) l) = map key l.
Proof.
  intros Hk. induction l as [|r l IH]; [done|]. cbn. f_equal; [|apply IH; intros x Hx; apply Hk; by right].
  destruct (p r) eqn:E; [|done]. symmetry. apply Hk; [by left|done].
Qed.
Lemma stamped_ok st : store_ok st -> (forall now i, store_ok (stamp_client now i st)) /\ (forall now i, store_ok (stamp_user now i st)).
Proof.
  intros Hok. split; intros now i; [apply ok_on_clients|apply ok_on_users]; try done; apply nodup_update; try done; eauto with oauth.
Qed.

Section history.
Context `{MongoDriver} (docs : Coll -> list pydict) (unique : Coll -> list (list string)) (regex_i : string -> string -> bool)
  (fromisoformat : string -> option (Z * option Z)).
Notation holds := (holds docs unique fromisoformat).
Notation mongo_ok := (mongo_ok docs unique fromisoformat).
Notation admissible := (admissible fromisoformat).
Notation matches := (matches regex_i).

Lemma or_raise_inv e r st' n : or_raise e r = Ok (st', n) -> r = Ok st'.
Proof. destruct r; [by intros [= <- _]|done]. Qed.
Lemma spec_ok now o st st' n : store_ok st -> admissible now o st -> mongo_spec now o st = Ok (st', n) -> store_ok st'.
Proof.
  intros Hok Ha Hs. destruct o; cbn [mongo_spec] in Hs;
    try solve [apply or_raise_inv in Hs; by eapply apply_op_ok
      |apply or_raise_inv in Hs; destruct (apply_op _ st) eqn:E in Hs; [injection Hs as <-|done]; apply stamped_ok; by eapply apply_op_ok].
  - injection Hs as <- _. destruct Ha as [_ Ha].
    apply ok_on_clients; [done| |]; rewrite replaced_key; eauto with oauth; intros r Hr Hp%String.eqb_eq; [by apply Ha|done].
  - injection Hs as <- _. apply ok_on_users; [done| |]; apply nodup_delete; eauto with oauth.
  - injection Hs as <- _. by apply (apply_op_ok (RevokeTokenFamily f) st).
  - injection Hs as <- _. by apply (apply_op_ok (RevokeTokensByUserId uid) st).
  - injection Hs as <- _. by apply (apply_op_ok (RevokeTokensByClientId cid) st).
  - injection Hs as <- _. by apply (apply_op_ok (MarkCodeUsed code) st).
  - injection Hs as <- _. by apply (apply_op_ok (MarkDeviceUsed device_code) st).
Qed.

(** ** Lookups *)
Hypothesis laws : mongo_laws docs unique regex_i.
Lemma op_lookup {A} `{Documented A} {K} n idx db (rows : list A) now f p (key : A -> K) x : holds idx (get_coll n db) rows ->
  filter_plain A f = true -> (forall a, matches f (model_dump a) = p a) -> NoDup (map key rows) -> (forall r, p r = true -> key r = x) ->
  lookup_one fromisoformat now n f db = Ok (List.find p rows).
Proof.
  intros Hh Hf Hp Hn Hk. unfold lookup_one. pose proof (sim_find_one docs unique regex_i fromisoformat idx _ rows f laws Hh Hf) as Hs.
  destruct (find_one f _) as [d|].
  - destruct Hs as (a & Hd & Ha & Hm). rewrite Hp in Hm. rewrite (rep_from_doc fromisoformat now d a Hd). cbn.
    destruct (List.find p rows) as [b|] eqn:E.
    + apply find_In in E as [Hb Hpb]. do 2 f_equal. apply (same_key key rows); [done|done|done|]. by rewrite (Hk a Hm), (Hk b Hpb).
    + by rewrite (List.find_none _ _ E a Ha) in Hm.
  - destruct (List.find p rows) as [b|] eqn:E; [|done]. apply find_In in E as [Hb Hpb]. pose proof (Hs b Hb) as Hno. by rewrite Hp, Hpb in Hno.
Qed.
(** Columns without a unique index: some row of the queried value. *)
Definition some_row {A} (p : A -> bool) (rows : list A) (r : result exn (option A)) : Prop :=
  match r with Ok (Some a) => In a rows /\ p a = true | Ok None => List.find p rows = None | Err _ => False end.
Lemma op_lookup_some {A} `{Documented A} n idx db (rows : list A) now f p : holds idx (get_coll n db) rows ->
  filter_plain A f = true -> (forall a, matches f (model_dump a) = p a) -> some_row p rows (lookup_one fromisoformat now n f db).
Proof.
  intros Hh Hf Hp. unfold lookup_one, some_row. pose proof (sim_find_one docs unique regex_i fromisoformat idx _ rows f laws Hh Hf) as Hs.
  destruct (find_one f _) as [d|].
  - destruct Hs as (a & Hd & Ha & Hm). rewrite Hp in Hm. by rewrite (rep_from_doc fromisoformat now d a Hd).
  - destruct (List.find p rows) as [b|] eqn:E; [|done]. apply find_In in E as [Hb Hpb]. pose proof (Hs b Hb) as Hno. by rewrite Hp, Hpb in Hno.
Qed.
Record reads_as_store (db : Db) (st : Store) : Prop := {
  r_client : forall now v, m_get_client fromisoformat now v db = Ok (get_client v st);
  r_username : forall now v, m_get_user_by_username fromisoformat now v db = Ok (get_user_by_username v st);
  r_user : forall now v, m_get_user_by_id fromisoformat now v db = Ok (get_user_by_id v st);
  r_access : forall now v, m_get_token_by_access_token fromisoformat now v db = Ok (get_token_by_access_token v st);
  r_refresh : forall now v, some_row (fun r => oeqb (t_refresh_token r) v) (tokens st) (m_get_token_by_refresh_token fromisoformat now v db);
  r_token : forall now v, m_get_token_by_id fromisoformat now v db = Ok (get_token_by_id v st);
  r_code : forall now v, m_get_authorization_code fromisoformat now v db = Ok (get_authorization_code v st);
  r_family : forall now v, some_row (fun r => oeqb (ac_token_family r) v) (authorization_codes st)
    (m_get_authorization_code_by_token_family fromisoformat now v db);
  r_device : forall now v, m_get_device_authorization_by_device_code fromisoformat now v db = Ok (get_device_authorization_by_device_code v st);
  r_user_code : forall now v, m_get_device_authorization_by_user_code fromisoformat now v db = Ok (get_device_authorization_by_user_code v st);
  r_issuer : forall now v, m_get_trusted_issuer fromisoformat now v db = Ok (get_trusted_issuer v st);
  r_denied : forall now k v, m_find_denylist_entry fromisoformat now k v db = Ok (find_denylist_entry now k v st)
}.
Ltac matched := intros a; cbn; by rewrite ?opt_text, ?andb_true_r.
Ltac looks Hrows Hn := eapply op_lookup; [exact Hrows|reflexivity|matched|exact Hn|cbv beta; intros r; by intros ->%String.eqb_eq].
Lemma reads_ok db st : mongo_ok db st -> store_ok st -> reads_as_store db st.
Proof.
  intros Hm Hok. constructor; intros now v.
  - looks (mo_clients _ _ _ _ _ Hm) (ok_clients _ Hok).
  - looks (mo_users _ _ _ _ _ Hm) (ok_users _ Hok).
  - looks (mo_users _ _ _ _ _ Hm) (ok_user_ids _ Hok).
  - looks (mo_tokens _ _ _ _ _ Hm) (ok_tokens _ Hok).
  - eapply op_lookup_some; [exact (mo_tokens _ _ _ _ _ Hm)|reflexivity|matched].
  - looks (mo_tokens _ _ _ _ _ Hm) (ok_token_ids _ Hok).
  - looks (mo_codes _ _ _ _ _ Hm) (ok_codes _ Hok).
  - eapply op_lookup_some; [exact (mo_codes _ _ _ _ _ Hm)|reflexivity|matched].
  - looks (mo_devices _ _ _ _ _ Hm) (ok_devices _ Hok).
  - looks (mo_devices _ _ _ _ _ Hm) (ok_user_codes _ Hok).
  - looks (mo_issuers _ _ _ _ _ Hm) (ok_issuers _ Hok).
  - intros v'. unfold m_find_denylist_entry, find_denylist_entry.
    rewrite (op_lookup Denylist _ db (denylist st) now (deny_by v v') (deny_key v v') (fun r => (dl_kind r, dl_value r)) (v, v')
      (mo_denylist _ _ _ _ _ Hm) eq_refl); [done| |apply (ok_denied _ Hok)|].
    + intros a. cbn. unfold deny_key. by rewrite andb_true_r.
    + unfold deny_key. by intros r [->%String.eqb_eq ->%String.eqb_eq]%andb_prop.
Qed.

(** ** Lists and pages *)
Lemma all_rows {A} `{Documented A} n idx db (rows : list A) now : holds idx (get_coll n db) rows ->
  exists rows', Permutation rows' rows /\ lookup_all fromisoformat now n All db = Ok rows'.
Proof.
  intros Hh. destruct (h_rows _ _ _ _ _ _ Hh) as (ds & Hp & Hr). pose proof (law_find _ _ _ laws All (get_coll n db)) as Hf.
  assert (List.filter (matches All) (docs (get_coll n db)) = docs (get_coll n db)) as He by (clear; induction (docs _) as [|d l IH]; [done|]; cbn; by rewrite IH).
  rewrite He, Hp in Hf. unfold lookup_all. generalize dependent (find All (get_coll n db)). clear -Hr H1. intros l Hl. symmetry in Hl.
  destruct (Permutation_Forall2 Hl Hr) as (rows' & Hrows & Hr'). exists rows'. split; [by symmetry|]. clear -Hr' H1.
  induction Hr' as [|d a ds rows Hd Hr IH]; [done|]. cbn [map_ok]. rewrite (rep_from_doc fromisoformat now d a Hd). cbn [rbind]. by rewrite IH.
Qed.
Lemma order_key_ext {A} (k k' : A -> sql_key) asc l : (forall a, k a = k' a) -> order_by k asc l = order_by k' asc l.
Proof.
  intros He. unfold order_by. induction l as [|x l IH]; [done|]. cbn [fold_right]. rewrite IH. generalize (fold_right (insert_row k' asc) [] l).
  intros r. induction r as [|y r IHr]; [done|]. cbn [insert_row]. by rewrite !He, IHr.
Qed.
Lemma page_ext {A} (col : A -> sql_key) p p' q l : (forall a, m_key (col a) = col a) -> (forall a, p a = p' a) ->
  m_page col q (List.filter p l) = select_page col p' (Paging.ascending (lq_sort_dir q)) q l.
Proof.
  intros Hc Hp. unfold m_page, select_page. cbv zeta. rewrite (List.filter_ext p p' Hp).
  by rewrite (order_key_ext (fun a => m_key (col a)) col).
Qed.
Lemma found_mentions q column : found_in q column = column_like q column.
Proof.
  rewrite column_mentions. unfold found_in, mentions, m_search. destruct (truthy _) eqn:E; [done|]. cbn [negb orb].
  apply truthy_false in E. rewrite E. by destruct (py_lower column).
Qed.
Lemma unfiltered {A} (l : list A) : l = List.filter (fun _ => true) l.
Proof. induction l as [|x l IH]; [done|]. cbn. by f_equal. Qed.
Lemma plain_client_key col c : m_key (client_col col c) = client_col col c.
Proof. unfold client_col. by repeat destruct (String.eqb _ _). Qed.
Lemma plain_user_key col u : m_key (user_col col u) = user_col col u.
Proof. unfold user_col. by repeat destruct (String.eqb _ _). Qed.
Lemma plain_deny_key col e : m_key (deny_col col e) = deny_col col e.
Proof. unfold deny_col. by repeat destruct (String.eqb _ _). Qed.
Lemma plain_audit_key col e : m_key (audit_col col e) = audit_col col e.
Proof. unfold audit_col. by repeat destruct (String.eqb _ _). Qed.
(** A page is the page of the SQL back end over the same rows, stored in some
    order of their own. *)
Definition in_some_order {A X} (rows : list A) (page : list A -> X) (r : result exn X) : Prop :=
  exists rows', Permutation rows' rows /\ r = Ok (page rows').
Record pages_as_store (db : Db) (st : Store) : Prop := {
  p_clients : forall now q, in_some_order (clients st) (fun l => list_clients_page q (on_clients (fun _ => l) st)) (m_list_clients_page fromisoformat now q db);
  p_users : forall now q, in_some_order (users st) (fun l => list_users_page q (on_users (fun _ => l) st)) (m_list_users_page fromisoformat now q db);
  p_tokens : forall now q, in_some_order (tokens st)
    (select_page (fun t => m_key (token_col (whitelist_col (lq_sort_by q) TOKEN_SORT_COLS) t))
      (fun t => (column_like q (t_client_id t) || column_like q (default EmptyString (t_user_id t))) && token_status now (lq_status q) t)
      (Paging.ascending (lq_sort_dir q)) q) (m_list_tokens_page fromisoformat now q db);
  p_devices : forall now q, in_some_order (device_authorizations st) (fun l => list_device_authorizations_page q (on_devices (fun _ => l) st))
    (m_list_device_authorizations_page fromisoformat now q db);
  p_denylist : forall now q, in_some_order (denylist st) (fun l => list_denylist q (on_denylist (fun _ => l) st)) (m_list_denylist fromisoformat now q db);
  p_audit : forall now q, in_some_order (audit_log st) (fun l => list_audit_log q (on_audit (fun _ => l) st)) (m_list_audit_log fromisoformat now q db)
}.
Ltac paged db now n Hrows call := let rows := fresh "rows" in let Hp := fresh "Hp" in let Hl := fresh "Hl" in
  destruct (all_rows n _ db _ now Hrows) as (rows & Hp & Hl); exists rows; split; [exact Hp|]; unfold call; rewrite Hl; cbn [rbind]; f_equal.
Lemma pages_ok db st : mongo_ok db st -> pages_as_store db st.
Proof.
  intros Hm. constructor; intros now q.
  - paged db now Clients (mo_clients _ _ _ _ _ Hm) @m_list_clients_page. apply page_ext; [apply plain_client_key|]. intros c. by rewrite !found_mentions.
  - paged db now Users (mo_users _ _ _ _ _ Hm) @m_list_users_page. apply page_ext; [apply plain_user_key|]. intros c. by rewrite !found_mentions.
  - paged db now Tokens (mo_tokens _ _ _ _ _ Hm) @m_list_tokens_page. unfold m_page, select_page.
    rewrite (List.filter_ext _ (fun t => (column_like q (t_client_id t) || column_like q (default EmptyString (t_user_id t))) && token_status now (lq_status q) t)); [done|].
    intros t. by rewrite !found_mentions, andb_comm.
  - paged db now Devices (mo_devices _ _ _ _ _ Hm) @m_list_device_authorizations_page. rewrite (unfiltered rows) at 1. by apply page_ext.
  - paged db now Denylist (mo_denylist _ _ _ _ _ Hm) @m_list_denylist. rewrite (unfiltered rows) at 1. apply page_ext; [apply plain_deny_key|done].
  - paged db now Audit (mo_audit _ _ _ _ _ Hm) @m_list_audit_log. rewrite (unfiltered rows) at 1. apply page_ext; [apply plain_audit_key|done].
Qed.

(** ** Sequences of operations *)
Definition spec_step (now : Z) (o : op) (st : Store) : result exn nat * Store :=
  match mongo_spec now o st with Ok (st', n) => (Ok n, st') | Err e => (Err e, st) end.
Fixpoint spec_history (os : list (Z * op)) (st : Store) : list (result exn nat) * Store :=
  match os with
  | [] => ([], st)
  | (now, o) :: os => let '(r, st) := spec_step now o st in let '(rs, st) := spec_history os st in (r :: rs, st)
  end.
Fixpoint mongo_history (os : list (Z * op)) (db : Db) : list (result exn nat) * Db :=
  match os with
  | [] => ([], db)
  | (now, o) :: os => let '(r, db) := mongo_run now o db in let '(rs, db) := mongo_history os db in (r :: rs, db)
  end.
Fixpoint admissible_all (os : list (Z * op)) (st : Store) : Prop :=
  match os with [] => True | (now, o) :: os => admissible now o st /\ admissible_all os (snd (spec_step now o st)) end.
Lemma step_ok now o db st : mongo_ok db st -> store_ok st -> admissible now o st ->
  fst (mongo_run now o db) = fst (spec_step now o st) /\ mongo_ok (snd (mongo_run now o db)) (snd (spec_step now o st))
  /\ store_ok (snd (spec_step now o st)).
Proof.
  intros Hm Hok Ha. pose proof (run_ok docs unique regex_i fromisoformat laws now db st Hm Hok o Ha) as Hr.
  unfold implements in Hr. unfold spec_step. destruct (mongo_run now o db) as [[n|e] db'], (mongo_spec now o st) as [[st' n']|e'] eqn:E; try done.
  - destruct Hr as [Hm' ->]. split_and! ; [done|done|]. by eapply spec_ok.
  - by destruct Hr as [-> Hm'].
Qed.
Lemma history_ok os db st : mongo_ok db st -> store_ok st -> admissible_all os st ->
  fst (mongo_history os db) = fst (spec_history os st) /\ mongo_ok (snd (mongo_history os db)) (snd (spec_history os st))
  /\ store_ok (snd (spec_history os st)).
Proof.
  revert db st. induction os as [|[now o] os IH]; intros db st Hm Hok Ha; [done|]. destruct Ha as [Ha Hrest].
  destruct (step_ok now o db st Hm Hok Ha) as (Hr & Hm' & Hok'). cbn [mongo_history spec_history].
  destruct (mongo_run now o db) as [r db'], (spec_step now o st) as [r' st']. cbn in Hr, Hm', Hok', Hrest. subst r'.
  destruct (IH db' st' Hm' Hok' Hrest) as (Hrs & Hm'' & Hok'').
  destruct (mongo_history os db'), (spec_history os st'). cbn in *. by subst.
Qed.

(** ** The start of an empty database *)
Definition has_indexes (db : Db) (u : coll_name -> list (list string)) : Prop :=
  forall n, docs (get_coll n db) = [] /\ unique (get_coll n db) = u n.
Definition blank (db : Db) : Prop := has_indexes db (fun _ => []).
Definition coll_eqb (a b : coll_name) : bool :=
  match a, b with
  | Clients, Clients | Users, Users | Tokens, Tokens | Codes, Codes | Devices, Devices | Issuers, Issuers | Denylist, Denylist
  | Audit, Audit => true
  | _, _ => false
  end.
Definition with_index (u : coll_name -> list (list string)) (i : coll_name * list string * bool) (n : coll_name) : list (list string) :=
  let '(m, ks, b) := i in if coll_eqb n m && b then add_index ks (u n) else u n.
Lemma get_set_other n m c db : coll_eqb n m = false -> get_coll n (set_coll m c db) = get_coll n db.
Proof. by destruct db, n, m. Qed.
Lemma indexes_created l : forall db u, has_indexes db u -> exists db',
  each_m (fun '(n, ks, u) => write n (create_index ks u)) l db = (Ok tt, db') /\ has_indexes db' (fold_left with_index l u).
Proof.
  induction l as [|[[m ks] b] l IH]; intros db u Hb; [by exists db|]. cbn [each_m fold_left]. unfold sbind, write, on.
  destruct (Hb m) as [Hd Hu]. pose proof (law_create_index _ _ _ laws ks b (get_coll m db)) as Hlaw.
  destruct (create_index ks b (get_coll m db)) as [c|]; cbn [option_map].
  - apply IH. intros n. cbn [with_index]. destruct (coll_eqb n m) eqn:E; [|by rewrite get_set_other].
    assert (n = m) as -> by (by destruct n, m). rewrite get_set. destruct Hlaw as [Hp Hx]. rewrite Hd in Hp. rewrite Hx, Hu.
    split; [by apply Permutation_nil|done].
  - destruct Hlaw as [_ Hn]. destruct Hn. rewrite Hd. constructor; [constructor|done].
Qed.
Lemma started db : blank db -> exists db', ensure_indexes db = (Ok tt, db') /\ mongo_ok db' empty_store.
Proof.
  intros Hb. destruct (indexes_created INDEXES db _ Hb) as (db' & He & Hi). exists db'. split; [done|].
  assert (forall A (M : Model A) n, MongoProps.holds (A:=A) docs unique fromisoformat (fold_left with_index INDEXES (fun _ => []) n) (get_coll n db') []) as Hh.
  { intros A M n. destruct (Hi n) as [Hd Hu]. constructor; [done| |exists []; by rewrite Hd].
    unfold unique_rows, unique_ok. apply Forall_forall. intros ks _. constructor. }
  constructor; [apply (Hh _ _ Clients)|apply (Hh _ _ Users)|apply (Hh _ _ Tokens)|apply (Hh _ _ Codes)|apply (Hh _ _ Devices)
    |apply (Hh _ _ Issuers)|apply (Hh _ _ Denylist)|apply (Hh _ _ Audit)].
Qed.
Lemma empty_ok : store_ok empty_store.
Proof. constructor; constructor. Qed.
End history.

(** C13: the MongoDB back end implements the storage contract: over a driver
    that keeps its documented laws, an empty database is given its indexes,
    and from then on any sequence of writing operations (each with fresh row
    ids and times that the reader can parse) returns exactly the results the
    tables specify - [mongo_spec], the SQL operations with this back end's
    own exceptions, stamps and counts - errors included; the documents still
    represent the tables, whose integrity constraints hold, and every lookup
    returns the row the SQL back end would. *)
Theorem mongo_refines `{MongoDriver} (docs : Coll -> list pydict) (unique : Coll -> list (list string))
    (regex_i : string -> string -> bool) (fromisoformat : string -> option (Z * option Z)) (db : Db) (os : list (Z * op)) :
  mongo_laws docs unique regex_i -> blank docs unique db -> admissible_all fromisoformat os empty_store ->
  exists db0, ensure_indexes db = (Ok tt, db0)
    /\ fst (mongo_history os db0) = fst (spec_history os empty_store)
    /\ mongo_ok docs unique fromisoformat (snd (mongo_history os db0)) (snd (spec_history os empty_store))
    /\ store_ok (snd (spec_history os empty_store))
    /\ reads_as_store fromisoformat (snd (mongo_history os db0)) (snd (spec_history os empty_store))
    /\ pages_as_store fromisoformat (snd (mongo_history os db0)) (snd (spec_history os empty_store)).
Proof.
  intros laws Hb Ha. destruct (started docs unique regex_i fromisoformat laws db Hb) as (db0 & He & Hm). exists db0.
  destruct (history_ok docs unique regex_i fromisoformat laws os db0 _ Hm empty_ok Ha) as (Hr & Hm' & Hok').
  split_and! ; [done|done|done|done|by apply (reads_ok docs unique regex_i)|by apply (pages_ok docs unique regex_i)].
Qed.
