(* ===== verification/MongoToy.v ===== *)
(** * A driver that keeps the documented laws: collections as lists of documents *)
From Stdlib Require Import Sorting.Permutation.
From S2P Require Import Prelude PyStr PyInt PyJson PyDumps Codec Models IsoTime Storage StoreSpec PyUrl Paging MongoDoc Mongo MongoProps MongoOps MongoRun.
#[local] Open Scope Z_scope.

(** ** Equality of JSON values *)
#[export] Instance nonfinite_eq_dec : EqDecision nonfinite.
Proof. solve_decision. Defined.
#[export] Instance json_eq_dec : EqDecision json.
Proof.
  unfold EqDecision, Decision. fix IH 1. intros a b. destruct a as [|x|x|m e|x|s|l|l], b as [|y|y|m' e'|y|s'|l'|l']; try (by right).
  - by left.
  - destruct (decide (x = y)); [left|right]; congruence.
  - destruct (decide (x = y)); [left|right]; congruence.
  - destruct (decide (m = m')), (decide (e = e')); [left|right..]; congruence.
  - destruct (decide (x = y)); [left|right]; congruence.
  - destruct (decide (s = s')); [left|right]; congruence.
  - destruct (List.list_eq_dec IH l l'); [left|right]; congruence.
  - destruct (List.list_eq_dec (fun x y : string * json => prod_eq_dec (EqDecision1:=IH) x y) l l'); [left|right]; congruence.
Defined.

(** ** Collections *)
Record TColl := mkTColl { tc_docs : list pydict; tc_unique : list (list string); tc_next : Z }.
Definition unique_okb (idx : list (list string)) (ds : list pydict) : bool :=
  forallb (fun ks => bool_decide (NoDup (map (fun d => map (fun k => field_of k d) ks) ds))) idx.
Lemma unique_okb_spec idx ds : unique_okb idx ds = true <-> unique_ok idx ds.
Proof.
  unfold unique_okb, unique_ok. rewrite forallb_forall, Forall_forall.
  split; intros Hx ks Hks; [apply list_elem_of_In in Hks|apply list_elem_of_In in Hks]; specialize (Hx ks Hks).
  - apply NoDup_ListNoDup. by apply bool_decide_eq_true in Hx.
  - apply bool_decide_eq_true. by apply NoDup_ListNoDup.
Qed.
Definition commit (ds : list pydict) (c : TColl) : option TColl :=
  if unique_okb (tc_unique c) ds then Some (mkTColl ds (tc_unique c) (tc_next c + 1)) else None.

(** The first document that satisfies a test, and the others around it. *)
Fixpoint focus (p : pydict -> bool) (ds : list pydict) : option (list pydict * pydict * list pydict) :=
  match ds with
  | [] => None
  | d :: r => if p d then Some ([], d, r) else match focus p r with Some (l, x, r) => Some (d :: l, x, r) | None => None end
  end.
Lemma focus_ok p ds : match focus p ds with
  | Some (l, d, r) => ds = l ++ d :: r /\ p d = true
  | None => forall d, In d ds -> p d = false end.
Proof.
  induction ds as [|d ds IH]; [by intros d []|]. cbn. destruct (p d) eqn:E; [done|]. destruct (focus p ds) as [[[l x] r]|].
  - by destruct IH as [-> ?].
  - intros y [<-|Hy]; [done|by apply IH].
Qed.
Definition toy_regex (_ _ : string) : bool := false.
Notation tmatch := (matches toy_regex).
Definition toy_id (c : TColl) : json := JInt (tc_next c).
(** Changing the first match, or adding a document. *)
Definition change (f : filter_doc) (upd : pydict -> pydict) (new : option pydict) (c : TColl) : option pydict * option TColl :=
  match focus (tmatch f) (tc_docs c) with
  | Some (l, d, r) => (Some d, commit (l ++ upd d :: r) c)
  | None => (None, commit (option_list new ++ tc_docs c) c)
  end.
#[export] Instance toy_driver : MongoDriver := {|
  Coll := TColl;
  create_index ks u c :=
    if (u : bool) then if unique_okb [ks] (tc_docs c) then Some (mkTColl (tc_docs c) (add_index ks (tc_unique c)) (tc_next c)) else None
    else Some c;
  insert_one d c := commit (obj_set "_id" (toy_id c) d :: tc_docs c) c;
  find_one f c := List.find (tmatch f) (tc_docs c);
  find f c := List.filter (tmatch f) (tc_docs c);
  update_one f u up c := snd (change f (apply_set (u_set u)) (if up : bool then Some (obj_set "_id" (toy_id c) (upserted f u)) else None) c);
  update_many f u c :=
    option_map (pair (length (List.filter (fun d => tmatch f d && modified (u_set u) d) (tc_docs c))))
      (commit (map (fun d => if tmatch f d then apply_set (u_set u) d else d) (tc_docs c)) c);
  find_one_and_update f u c := let '(hit, r) := change f (apply_set (u_set u)) None c in option_map (pair hit) r;
  replace_one f d up c := snd (change f (fun old => keep_id old d) (if up : bool then Some (obj_set "_id" (toy_id c) d) else None) c);
  delete_one f c := match focus (tmatch f) (tc_docs c) with Some (l, _, r) => mkTColl (l ++ r) (tc_unique c) (tc_next c) | None => c end
|}.
Lemma commit_ok ds ds' c : Permutation ds ds' -> changed_to tc_docs tc_unique c ds' (commit ds c).
Proof.
  intros Hp. unfold commit, changed_to. destruct (unique_okb _ ds) eqn:E.
  - cbn. split_and! ; [done|done|]. apply unique_okb_spec in E. by eapply unique_ok_perm.
  - intros Hu. apply (unique_ok_perm _ _ ds) in Hu; [|by symmetry]. apply unique_okb_spec in Hu. by rewrite Hu in E.
Qed.
Lemma change_ok f upd new c : exists hit ds, one toy_regex f upd new (tc_docs c) hit ds
  /\ changed_to tc_docs tc_unique c ds (snd (change f upd new c)) /\ fst (change f upd new c) = hit.
Proof.
  unfold change. pose proof (focus_ok (tmatch f) (tc_docs c)) as Hf. destruct (focus _ _) as [[[l d] r]|].
  - destruct Hf as [Hd Hm]. exists (Some d), (upd d :: l ++ r). split_and! ; [|apply commit_ok; by rewrite Permutation_middle|done].
    constructor; [|done]. rewrite Hd. by rewrite Permutation_middle.
  - exists None. destruct new as [d|]; cbn [option_list app].
    + exists (d :: tc_docs c). split_and! ; [by apply one_new|by apply commit_ok|done].
    + exists (tc_docs c). split_and! ; [by apply one_miss|by apply commit_ok|done].
Qed.
Lemma toy_mongo : mongo_laws tc_docs tc_unique toy_regex.
Proof.
  constructor; cbn -[unique_okb].
  - intros ks [] c; [|done]. destruct (unique_okb [ks] (tc_docs c)) eqn:E; [done|]. split; [done|]. intros Hu. apply unique_okb_spec in Hu. by rewrite Hu in E.
  - intros d c. exists (toy_id c). by apply commit_ok.
  - intros f c. destruct (List.find _ _) as [d|] eqn:E; [by apply find_In in E|]. by apply List.find_none.
  - done.
  - intros f u up c. exists (toy_id c).
    destruct (change_ok f (apply_set (u_set u)) (if up then Some (obj_set "_id" (toy_id c) (upserted f u)) else None) c) as (hit & ds & Ho & Hc & _). eauto.
  - intros f d up c. exists (toy_id c).
    destruct (change_ok f (fun old => keep_id old d) (if up then Some (obj_set "_id" (toy_id c) d) else None) c) as (hit & ds & Ho & Hc & _). eauto.
  - intros f u c. pose proof (commit_ok _ _ c (Permutation_refl (map (fun d => if tmatch f d then apply_set (u_set u) d else d) (tc_docs c)))) as Hc.
    destruct (commit _ c); (split; [exact Hc|]); cbn; [by intros n c' [= <- _]|done].
  - intros f u c. destruct (change_ok f (apply_set (u_set u)) None c) as (hit & ds & Ho & Hc & Hh).
    destruct (change _ _ _ _) as [h r]. cbn in Hc, Hh. subst h. exists hit, ds. split; [done|]. destruct r; cbn; (split; [exact Hc|]); [by intros old c' [= <- _]|done].
  - intros f c. pose proof (focus_ok (tmatch f) (tc_docs c)) as Hf. destruct (focus _ _) as [[[l d] r]|]; cbn.
    + split; [done|]. left. exists d. destruct Hf as [-> Hm]. split; [|done]. by rewrite Permutation_middle.
    + split; [done|]. by right.
Qed.
Definition blank_coll : TColl := mkTColl [] [] 0.
Definition blank_db : Db := mkDb blank_coll blank_coll blank_coll blank_coll blank_coll blank_coll blank_coll blank_coll.

(** ** A history *)
Definition toy_times : list Z := [0; 100 * SECOND; 1000 * SECOND].
Definition toy_fromisoformat (s : string) : option (Z * option Z) :=
  option_map (fun t => (t, Some 0)) (List.find (fun t => String.eqb s (isoformat t) || String.eqb s (rfc3339 t)) toy_times).
Definition toy_user (id name : string) : User := mkUser id name "hash" "a@b.c" true "user" 0 0.
Definition toy_token : Token :=
  mkToken "t1" "at1" None "Bearer" 3600 "openid" "c1" (Some "u1") 0 (1000 * SECOND) false (Some "fam").
Definition toy_code : AuthorizationCode :=
  mkCode "k1" "code" "c1" "u1" "https://app/cb" "openid" 0 (100 * SECOND) false None None (Some "n") None None None (Some "fam") None.
Definition toy_history : list (Z * op) :=
  [(0, SaveUser (toy_user "u1" "ann")); (0, SaveUser (toy_user "u2" "ann")); (0, SaveUser (toy_user "u2" "bob"));
   (100 * SECOND, SetUserRole "u1" "admin"); (0, UpdateUser (toy_user "u2" "ann")); (0, SaveToken toy_token); (0, SaveCode toy_code);
   (0, MarkCodeUsed "code"); (0, MarkCodeUsed "code"); (0, RevokeTokenFamily "fam"); (0, RevokeTokenFamily "fam");
   (0, AddDenylistEntry (mkDeny "d1" "ip" "10.0.0.1" "spam" "ann" 0 None));
   (100 * SECOND, AddDenylistEntry (mkDeny "d2" "ip" "10.0.0.1" "again" "ann" (100 * SECOND) (Some (1000 * SECOND))));
   (0, DeleteUser "u1")].
Definition readableb (v : fval) : bool :=
  match v with
  | VTime t | VOptTime (Some t) => match coerce_datetime toy_fromisoformat (JStr (rfc3339 t)) with Some t' => t' =? t | None => false end
  | _ => true
  end.
Lemma rows_readable {A} `{Model A} (a : A) : forallb readableb (to_fields a) = true -> row_readable toy_fromisoformat a.
Proof.
  intros Hb. unfold row_readable. induction (to_fields a) as [|v l IH]; [constructor|]. cbn in Hb. apply andb_prop in Hb as [Hv Hl].
  constructor; [|by apply IH]. unfold readableb in Hv. unfold readable. destruct v as [| |n| |t|[t|]]; try done;
    destruct (coerce_datetime _ _) as [t'|]; try done; apply Z.eqb_eq in Hv; by subst.
Qed.
Lemma mongo_refines_witness : exists db0 : Db, ensure_indexes blank_db = (Ok tt, db0)
  /\ fst (mongo_history toy_history db0)
     = [Ok 0; Err duplicate400; Ok 0; Ok 0; Err duplicate_key; Ok 0; Ok 0; Ok 1; Ok 0; Ok 1; Ok 0; Ok 0; Ok 0; Ok 0]%nat
  /\ m_find_denylist_entry toy_fromisoformat 0 "ip" "10.0.0.1" (snd (mongo_history toy_history db0))
     = Ok (Some (mkDeny "d1" "ip" "10.0.0.1" "again" "ann" 0 (Some (1000 * SECOND)))).
Proof.
  destruct (@mongo_refines toy_driver tc_docs tc_unique toy_regex toy_fromisoformat blank_db toy_history) as (db0 & He & Hr & _ & _ & Hl & _).
  - exact toy_mongo.
  - intros []; split; reflexivity.
  - unfold toy_history. cbn [admissible_all admissible]. unfold fresh_id, iso_readable.
    split_and! ; first [exact I|apply rows_readable; vm_compute; reflexivity|vm_compute; reflexivity].
  - exists db0. split_and! ; [exact He|rewrite Hr; vm_compute; reflexivity|].
    rewrite (r_denied _ _ _ Hl). vm_compute. reflexivity.
Defined.
