(* ===== verification/MongoHeal.v ===== *)
(** * The healer of native dates
    ([storage/mongo.py] [_normalize_legacy_timestamps] and [init])

    Other writers of the same database store times as BSON dates.  At start the
    back end rewrites them as text, field by field, with one update per document
    found.  Documents here have BSON values; the driver is a parameter, and a
    server that does not know [$type] refuses the search. *)
From S2P Require Import Prelude PyStr PyInt PyJson PyDumps Codec Models IsoTime MongoDoc Mongo MongoProps MongoToy.
#[local] Open Scope Z_scope.

(** ** BSON documents *)
Inductive bson := BJson (v : json) | BDate (millis : Z) | BOther (tag : nat).
#[export] Instance bson_eq_dec : EqDecision bson.
Proof. solve_decision. Defined.
Definition bdoc : Type := list (string * bson).
Fixpoint bget (k : string) (d : bdoc) : option bson :=
  match d with [] => None | (k', v) :: d => if String.eqb k k' then Some v else bget k d end.
Fixpoint bset (k : string) (v : bson) (d : bdoc) : bdoc :=
  match d with [] => [(k, v)] | (k', v') :: d => if String.eqb k k' then (k, v) :: d else (k', v') :: bset k v d end.
Definition is_date (v : option bson) : bool := match v with Some (BDate _) => true | _ => false end.

(** [find({field: {"$type": "date"}})] and
    [update_one({key: v}, {"$set": {field: iso}})]; [None] is an exception. *)
Class BsonDriver := {
  BColl : Type;
  find_dates : string -> BColl -> option (list bdoc);
  set_one : string -> bson -> string -> string -> BColl -> option BColl
}.

Definition TIMESTAMP_HEAL_SPECS : list (string * string * list string) :=
  [("clients", "client_id", ["created_at"; "updated_at"]); ("users", "id", ["created_at"; "updated_at"]);
   ("tokens", "access_token", ["created_at"; "expires_at"]); ("authorization_codes", "code", ["created_at"; "expires_at"]);
   ("device_authorizations", "device_code", ["created_at"; "expires_at"])].

Section heal.
Context `{BsonDriver}.
Definition BDb : Type := string -> BColl.
Definition driver_error : exn := PyErr StorageError "OperationFailure".
(** A native date reads as a naive datetime, taken as UTC. *)
Definition date_iso (v : bson) : option string := match v with BDate millis => Some (isoformat (millis * 1000)) | _ => None end.
Definition heal_doc (key field : string) (doc : bdoc) : ST BColl exn unit :=
  match bget field doc with
  | None => sraise (PyErr KeyError field)
  | Some v =>
      match date_iso v with
      | None => sret tt
      | Some iso =>
          match bget key doc with
          | None => sraise (PyErr KeyError key)
          | Some k => fun c => match set_one key k field iso c with Some c => (Ok tt, c) | None => (Err driver_error, c) end
          end
      end
  end.
Definition heal_field (key field : string) : ST BColl exn unit :=
  scatch (fun c => match find_dates field c with
                   | None => (Err driver_error, c)
                   | Some docs => each_m (heal_doc key field) docs c
                   end) (fun _ => sret tt).
Definition heal_collection (spec : string * string * list string) : ST BDb exn unit := fun db =>
  let '(name, key, fields) := spec in
  let '(res, c) := each_m (heal_field key) fields (db name) in
  (res, fun n => if String.eqb n name then c else db n).
Definition normalize_legacy_timestamps : ST BDb exn unit := each_m heal_collection TIMESTAMP_HEAL_SPECS.

(** ** What it amounts to *)
Definition healed (doc : bdoc) (field : string) : bdoc :=
  match bget field doc with
  | Some v => match date_iso v with Some iso => bset field (BJson (JStr iso)) doc | None => doc end
  | None => doc
  end.
Definition healed_all (fields : list string) (doc : bdoc) : bdoc := fold_left healed fields doc.

(** The documented behaviour of the driver, on the documents of a collection in
    the order of its scan. *)
Definition key_matches (key : string) (v : bson) (d : bdoc) : bool :=
  match bget key d with Some v' => bool_decide (v' = v) | None => bool_decide (v = BJson JNull) end.
Fixpoint update_first (p : bdoc -> bool) (f : bdoc -> bdoc) (l : list bdoc) : list bdoc :=
  match l with [] => [] | d :: l => if p d then f d :: l else d :: update_first p f l end.
Record bson_laws (docs : BColl -> list bdoc) (knows_type : bool) : Prop := {
  law_find : forall f c, find_dates f c = if knows_type then Some (List.filter (fun d => is_date (bget f d)) (docs c)) else None;
  law_set : forall key v f iso c, exists c', set_one key v f iso c = Some c'
    /\ docs c' = update_first (key_matches key v) (bset f (BJson (JStr iso))) (docs c)
}.
(** Every document has the natural key of its collection, and no two the same. *)
Definition keyed (key : string) (l : list bdoc) : Prop := NoDup (map (bget key) l) /\ Forall (fun d => bget key d <> None) l.
End heal.

(** ** Documents *)
Lemma bget_bset k v k' d : bget k (bset k' v d) = if String.eqb k k' then Some v else bget k d.
Proof.
  induction d as [|[k0 v0] d IH]; cbn; [done|].
  destruct (String.eqb_spec k' k0) as [->|Hne]; cbn; [by destruct (String.eqb_spec k k0)|].
  rewrite IH. destruct (String.eqb_spec k k') as [->|]; [|done]. by destruct (String.eqb_spec k' k0).
Qed.
Lemma healed_get d f k : bget k (healed d f)
  = if String.eqb k f then (match bget f d with Some v => Some (match date_iso v with Some iso => BJson (JStr iso) | None => v end) | None => None end) else bget k d.
Proof.
  unfold healed. destruct (String.eqb_spec k f) as [->|Hne].
  - destruct (bget f d) as [v|] eqn:E; [|done]. destruct (date_iso v); [by rewrite bget_bset, String.eqb_refl|done].
  - destruct (bget f d) as [v|]; [|done]. destruct (date_iso v); [|done]. rewrite bget_bset. by destruct (String.eqb_spec k f).
Qed.
Lemma healed_no_date d f : is_date (bget f d) = false -> healed d f = d.
Proof. unfold healed. destruct (bget f d) as [[]|]; done. Qed.
Lemma healed_is_date d f k : is_date (bget k (healed d f)) = negb (String.eqb k f) && is_date (bget k d).
Proof. rewrite healed_get. destruct (String.eqb_spec k f) as [->|]; [|done]. by destruct (bget f d) as [[]|]. Qed.
Lemma healed_all_is_date fs k : forall d, is_date (bget k (healed_all fs d)) = negb (mem_str k fs) && is_date (bget k d).
Proof.
  induction fs as [|f fs IH]; intros d; [done|]. cbn [healed_all fold_left]. rewrite IH, healed_is_date. unfold mem_str. cbn [existsb].
  destruct (String.eqb k f), (existsb (String.eqb k) fs); done.
Qed.
Lemma healed_all_other fs k : ~ In k fs -> forall d, bget k (healed_all fs d) = bget k d.
Proof.
  induction fs as [|f fs IH]; intros Hk d; [done|]. cbn [healed_all fold_left]. cbn in Hk. rewrite IH, healed_get by tauto.
  destruct (String.eqb_spec k f) as [->|]; tauto.
Qed.

(** One update per key, over a list without equal keys, changes each document
    whose key was seen. *)
Section updates.
Context (key : string) (g : bdoc -> bdoc) (Hg : forall d, bget key (g d) = bget key d).
Definition seen (ks : list (option bson)) (d : bdoc) : bdoc := if bool_decide (bget key d ∈ ks) then g d else d.
Lemma seen_key ks d : bget key (seen ks d) = bget key d.
Proof. unfold seen. by destruct (bool_decide _). Qed.
Lemma update_skips p f l : Forall (fun d => p d = false) l -> update_first p f l = l.
Proof. induction 1 as [|d l Hd _ IH]; [done|]. cbn. by rewrite Hd, IH. Qed.
Lemma update_seen ks x f l : keyed key l -> x ∈ l -> bget key x ∉ ks -> f x = g x ->
  update_first (key_matches key (default (BOther 0) (bget key x))) f (map (seen ks) l) = map (seen (bget key x :: ks)) l.
Proof.
  intros [Hnd Hall] Hx Hk Hf. assert (forall d, bget key d <> None -> key_matches key (default (BOther 0) (bget key x)) (seen ks d)
    = bool_decide (bget key d = bget key x)) as Hm.
  { intros d Hd. unfold key_matches. rewrite seen_key. destruct (bget key d) as [v|]; [|done].
    rewrite Forall_forall in Hall. specialize (Hall x Hx). destruct (bget key x) as [w|]; [|done]. apply bool_decide_ext. cbn. split; congruence. }
  induction l as [|d l IH]; [by apply elem_of_nil in Hx|]. cbn [map] in Hnd. inversion Hall as [|? ? Hd Hall']; subst. apply NoDup_cons in Hnd as [Hnin Hnd].
  cbn [map update_first]. rewrite Hm by done. destruct (bool_decide_reflect (bget key d = bget key x)) as [Heq|Hne].
  - assert (d = x) as ->.
    { apply elem_of_cons in Hx as [->|Hx]; [done|]. destruct Hnin. rewrite Heq. apply list_elem_of_fmap. eauto. }
    f_equal.
    + unfold seen. rewrite bool_decide_eq_false_2 by done. rewrite bool_decide_eq_true_2 by (by apply elem_of_cons; left). done.
    + apply map_ext_in. intros d' Hd'. unfold seen. apply list_elem_of_In in Hd'.
      assert (bget key d' <> bget key x) as Hne by (intros He; apply Hnin; rewrite <- He; apply list_elem_of_fmap; eauto).
      rewrite (bool_decide_ext (bget key d' ∈ bget key x :: ks) (bget key d' ∈ ks)); [done|]. rewrite elem_of_cons. split; [by intros [|]|by right].
  - f_equal.
    + unfold seen. rewrite (bool_decide_ext (bget key d ∈ bget key x :: ks) (bget key d ∈ ks)); [done|]. rewrite elem_of_cons. split; [by intros [|]|by right].
    + apply IH; try done. apply elem_of_cons in Hx as [->|]; done.
Qed.
End updates.

(** ** The healer is one pass of [healed_all] *)
Section spec.
Context `{BsonDriver} (docs : BColl -> list bdoc) (knows_type : bool).
Hypothesis laws : bson_laws docs knows_type.

Lemma heal_docs_spec key f ds : key <> f -> keyed key ds -> forall l ks c,
  (forall x, x ∈ l -> x ∈ ds /\ is_date (bget f x) = true /\ bget key x ∉ ks) -> NoDup (map (bget key) l) ->
  docs c = map (seen key (fun d => healed d f) ks) ds ->
  exists c' ks', each_m (heal_doc key f) l c = (Ok tt, c') /\ (forall k, k ∈ ks' <-> k ∈ map (bget key) l \/ k ∈ ks)
    /\ docs c' = map (seen key (fun d => healed d f) ks') ds.
Proof.
  intros Hkf Hk. assert (forall d, bget key (healed d f) = bget key d) as Hg.
  { intros d. rewrite healed_get. by destruct (String.eqb_spec key f). }
  induction l as [|x l IH]; intros ks c Hl Hnd Hc.
  { exists c, ks. split_and! ; [done| |done]. intros k. split; [by right|]. intros [Hn|]; [by apply elem_of_nil in Hn|done]. }
  cbn [map] in Hnd. apply NoDup_cons in Hnd as [Hnin Hnd].
  destruct (Hl x) as (Hx & Hd & Hks); [by apply elem_of_cons; left|].
  cbn [each_m]. unfold sbind, heal_doc at 1. unfold is_date in Hd. destruct (bget f x) as [[v|ms|n]|] eqn:Hv; try done. cbn [date_iso].
  destruct (bget key x) as [kx|] eqn:Hkx.
  2:{ destruct Hk as [_ Hall]. rewrite Forall_forall in Hall. by destruct (Hall x Hx). }
  destruct (law_set _ _ laws key kx f (isoformat (ms * 1000)) c) as (c1 & -> & Hc1).
  rewrite Hc in Hc1. pose proof (update_seen key (fun d => healed d f) Hg ks x (bset f (BJson (JStr (isoformat (ms * 1000))))) ds Hk Hx) as Hu.
  rewrite Hkx in Hu. change (default (BOther 0) (Some kx)) with kx in Hu. rewrite Hu in Hc1; [|done|by unfold healed; rewrite Hv].
  destruct (IH (Some kx :: ks) c1) as (c2 & ks2 & Hr & Hks2 & Hc2); [|done|done|].
  - intros y Hy. destruct (Hl y) as (Hyd & Hyt & Hyk); [by apply elem_of_cons; right|]. split_and! ; [done|done|].
    rewrite elem_of_cons. intros [He|]; [|done]. apply Hnin. rewrite <- He. apply list_elem_of_fmap. eauto.
  - exists c2, ks2. split_and! ; [done| |done]. intros k. rewrite Hks2. cbn [map]. rewrite Hkx, !elem_of_cons. tauto.
Qed.
Lemma filter_keys_nodup key p l : NoDup (map (bget key) l) -> NoDup (map (bget key) (List.filter p l)).
Proof.
  induction l as [|d l IH]; [done|]. cbn [map List.filter]. rewrite NoDup_cons. intros [Hn Hnd]. destruct (p d); [|by apply IH].
  cbn [map]. apply NoDup_cons. split; [|by apply IH]. intros Hin. apply Hn. apply list_elem_of_fmap in Hin as (y & Hy & Hin).
  apply list_elem_of_In, filter_In in Hin as [Hin _]. apply list_elem_of_fmap. exists y. split; [done|by apply list_elem_of_In].
Qed.
Lemma keyed_inj key l x y : keyed key l -> x ∈ l -> y ∈ l -> bget key x = bget key y -> x = y.
Proof.
  intros [Hnd _]. induction l as [|d l IH]; [by intros Hx; apply elem_of_nil in Hx|]. cbn [map] in Hnd. apply NoDup_cons in Hnd as [Hn Hnd].
  rewrite !elem_of_cons. intros [->|Hx] [->|Hy] He; [done|..|by apply IH]; destruct Hn; apply list_elem_of_fmap; eauto.
Qed.
Lemma heal_field_spec key f c : key <> f -> keyed key (docs c) ->
  exists c', heal_field key f c = (Ok tt, c') /\ docs c' = if knows_type then map (fun d => healed d f) (docs c) else docs c.
Proof.
  intros Hkf Hk. pose proof (heal_docs_spec key f (docs c) Hkf Hk) as Hds. unfold heal_field, scatch. rewrite (law_find _ _ laws). destruct knows_type eqn:Ht; [|by eexists].
  destruct (Hds (List.filter (fun d => is_date (bget f d)) (docs c)) [] c) as (c' & ks & Hr & Hks & Hc').
  - intros x Hx. apply list_elem_of_In, filter_In in Hx as [Hx Hd]. split_and! ; [by apply list_elem_of_In|done|apply not_elem_of_nil].
  - apply filter_keys_nodup, Hk.
  - symmetry. (rewrite <- (map_id (docs c)) at 2; apply map_ext_in; intros d _; unfold seen; rewrite bool_decide_eq_false_2; [done|apply not_elem_of_nil]).
  - rewrite Hr. exists c'. split; [done|]. rewrite Hc'. apply map_ext_in. intros d Hd. apply list_elem_of_In in Hd. unfold seen.
    destruct (bool_decide_reflect (bget key d ∈ ks)) as [Hin|Hnin]; [done|]. symmetry. apply healed_no_date.
    destruct (is_date (bget f d)) eqn:E; [|done]. destruct Hnin. apply Hks. left. apply list_elem_of_fmap. exists d. split; [done|].
    apply list_elem_of_In, filter_In. split; [by apply list_elem_of_In|done].
Qed.
Lemma keyed_map key g l : (forall d, bget key (g d) = bget key d) -> keyed key l -> keyed key (map g l).
Proof.
  intros Hg [Hn Ha]. unfold keyed. rewrite map_map. rewrite (map_ext (fun d => bget key (g d)) (bget key)) by done. split; [done|].
  apply Forall_map. eapply Forall_impl; [exact Ha|]. intros d. cbn. by rewrite Hg.
Qed.
Lemma heal_fields_spec key fs : ~ In key fs -> forall c, keyed key (docs c) ->
  exists c', each_m (heal_field key) fs c = (Ok tt, c') /\ docs c' = if knows_type then map (healed_all fs) (docs c) else docs c.
Proof.
  induction fs as [|f fs IH]; intros Hn c Hk.
  - exists c. split; [done|]. destruct knows_type; [|done]. symmetry. by rewrite <- (map_id (docs c)) at 2.
  - cbn in Hn. destruct (heal_field_spec key f c) as (c1 & Hr1 & Hc1); [by intros ->; tauto|done|].
    destruct (IH ltac:(tauto) c1) as (c2 & Hr2 & Hc2).
    + rewrite Hc1. destruct knows_type; [|done]. apply keyed_map; [|done]. intros d. rewrite healed_get. destruct (String.eqb_spec key f) as [->|]; tauto.
    + exists c2. cbn [each_m]. unfold sbind. rewrite Hr1. split; [done|]. rewrite Hc2, Hc1. destruct knows_type; [|done]. by rewrite map_map.
Qed.
End spec.

(** Whatever the documents and the driver, start-up goes on: a search that is
    refused, a document without its key or an update that fails only ends the
    pass over that field. *)
Lemma healer_never_fails `{BsonDriver} db : fst (normalize_legacy_timestamps db) = Ok tt.
Proof.
  assert (forall key fs c, fst (each_m (heal_field key) fs c) = Ok tt) as Hf.
  { intros key fs. induction fs as [|f fs IH]; intros c; [done|]. cbn [each_m]. unfold sbind at 1, heal_field at 1, scatch.
    destruct (find_dates f c) as [l|]; [|apply IH]. destruct (each_m (heal_doc key f) l c) as [[[]|e] c']; apply IH. }
  unfold normalize_legacy_timestamps. revert db. induction TIMESTAMP_HEAL_SPECS as [|[[n key] fs] l IH]; intros db; [done|].
  cbn [each_m]. unfold sbind at 1, heal_collection at 1. specialize (Hf key fs (db n)).
  destruct (each_m (heal_field key) fs (db n)) as [[[]|e] c']; [apply IH|done].
Qed.
Lemma healed_all_fixed fs : forall d, (forall f, In f fs -> is_date (bget f d) = false) -> healed_all fs d = d.
Proof.
  induction fs as [|f fs IH]; intros d Hd; [done|]. cbn [healed_all fold_left]. rewrite (healed_no_date d f) by (apply Hd; by left).
  apply IH. intros g Hg. apply Hd. by right.
Qed.
Lemma healed_all_idem fs d : healed_all fs (healed_all fs d) = healed_all fs d.
Proof. apply healed_all_fixed. intros f Hf. rewrite healed_all_is_date. apply mem_str_In in Hf. by rewrite Hf. Qed.
Lemma healed_all_text fs f d ms : In f fs -> bget f d = Some (BDate ms) -> bget f (healed_all fs d) = Some (BJson (JStr (isoformat (ms * 1000)))).
Proof.
  revert d. induction fs as [|g fs IH]; intros d Hf Hd; [done|]. cbn [healed_all fold_left]. change (fold_left healed fs ?x) with (healed_all fs x).
  destruct (String.eqb_spec f g) as [->|Hne].
  - assert (bget g (healed d g) = Some (BJson (JStr (isoformat (ms * 1000))))) as Hg by (by rewrite healed_get, String.eqb_refl, Hd).
    clear IH Hf Hd. revert Hg. generalize (healed d g). induction fs as [|h fs IH]; intros d' Hg; [done|]. cbn [healed_all fold_left].
    apply IH. rewrite healed_get. destruct (String.eqb_spec g h) as [->|]; [by rewrite Hg|done].
  - apply IH; [by destruct Hf as [->|]|]. rewrite healed_get. by destruct (String.eqb_spec f g).
Qed.

Section whole.
Context `{BsonDriver} (docs : BColl -> list bdoc) (knows_type : bool).
Lemma specs_run : bson_laws docs knows_type -> forall specs db,
  NoDup (map (fun '(n, _, _) => n) specs) -> Forall (fun '(n, key, fs) => ~ In key fs /\ keyed key (docs (db n))) specs ->
  exists db', each_m heal_collection specs db = (Ok tt, db')
  /\ Forall (fun '(n, _, fs) => docs (db' n) = if knows_type then map (healed_all fs) (docs (db n)) else docs (db n)) specs
  /\ forall n, n ∉ map (fun '(n, _, _) => n) specs -> db' n = db n.
Proof.
  intros laws. induction specs as [|[[n key] fs] specs IH]; intros db Hnd Hall; [by exists db|].
  cbn [map] in Hnd. apply NoDup_cons in Hnd as [Hn Hnd]. apply Forall_cons in Hall as [[Hkey Hk] Hall].
  destruct (heal_fields_spec docs knows_type laws key fs Hkey (db n) Hk) as (c' & Hr & Hc').
  destruct (IH (fun m => if String.eqb m n then c' else db m)) as (db' & Hr' & Hf' & Ho'); [done| |].
  { rewrite Forall_forall in *. intros [[m key'] fs'] Hm. specialize (Hall _ Hm). cbn in *. destruct (String.eqb_spec m n) as [->|]; [|done].
    destruct Hn. apply list_elem_of_fmap. eexists (_, _, _). split; [reflexivity|exact Hm]. }
  exists db'. cbn [each_m]. unfold sbind, heal_collection at 1. rewrite Hr, Hr'. split_and! ; [done| |].
  - constructor; [rewrite Ho' by done; by rewrite String.eqb_refl|]. rewrite Forall_forall in *. intros [[m key'] fs'] Hm. specialize (Hf' _ Hm).
    cbn in *. rewrite Hf'. destruct (String.eqb_spec m n) as [->|]; [|done].
    destruct Hn. apply list_elem_of_fmap. eexists (_, _, _). split; [reflexivity|exact Hm].
  - intros m Hm. cbn [map] in Hm. rewrite elem_of_cons in Hm. rewrite Ho' by tauto. destruct (String.eqb_spec m n); tauto.
Qed.
End whole.

(** C38: The healer amounts to one pass: over documents with their natural keys, its
    searches and updates leave every collection with the listed fields of every
    document rewritten from native dates to the text of the same instant, which
    the models read back, and nothing else changed; a server that refuses the
    search is left alone, and a second start changes nothing. *)
Theorem healer_sound `{BsonDriver} (docs : BColl -> list bdoc) (knows_type : bool) (fromisoformat : string -> option (Z * option Z)) (db : BDb) :
  bson_laws docs knows_type -> Forall (fun '(n, key, _) => keyed key (docs (db n))) TIMESTAMP_HEAL_SPECS ->
  exists db', normalize_legacy_timestamps db = (Ok tt, db')
  /\ Forall (fun '(n, _, fs) => docs (db' n) = if knows_type then map (healed_all fs) (docs (db n)) else docs (db n)) TIMESTAMP_HEAL_SPECS
  /\ (forall n, n ∉ map (fun '(n, _, _) => n) TIMESTAMP_HEAL_SPECS -> db' n = db n)
  /\ (forall fs d f, In f fs -> is_date (bget f (healed_all fs d)) = false)
  /\ (forall fs d f ms, In f fs -> bget f d = Some (BDate ms) -> fromisoformat (isoformat (ms * 1000)) = Some (ms * 1000, Some 0) ->
       exists v, bget f (healed_all fs d) = Some (BJson v) /\ coerce_datetime fromisoformat v = Some (ms * 1000))
  /\ (forall fs d f, ~ In f fs -> bget f (healed_all fs d) = bget f d)
  /\ exists db'', normalize_legacy_timestamps db' = (Ok tt, db'')
     /\ Forall (fun '(n, _, _) => docs (db'' n) = docs (db' n)) TIMESTAMP_HEAL_SPECS.
Proof.
  intros laws Hk. assert (NoDup (map (fun '(n, _, _) => n) TIMESTAMP_HEAL_SPECS)) as Hnd
    by (apply (bool_decide_eq_true_1 (NoDup (map (fun '(n, _, _) => n) TIMESTAMP_HEAL_SPECS))); vm_compute; reflexivity).
  assert (forall db, Forall (fun '(n, key, _) => keyed key (docs (db n))) TIMESTAMP_HEAL_SPECS ->
    Forall (fun '(n, key, fs) => ~ In key fs /\ keyed key (docs (db n))) TIMESTAMP_HEAL_SPECS) as Hfits.
  { intros db0 H0. unfold TIMESTAMP_HEAL_SPECS in *. rewrite !Forall_cons in *. destruct H0 as (?&?&?&?&?&_).
    split_and! ; try done; cbn; intros [?|[?|[]]]; discriminate. }
  destruct (specs_run docs knows_type laws TIMESTAMP_HEAL_SPECS db Hnd (Hfits db Hk)) as (db' & Hr & Hf & Ho).
  assert (Forall (fun '(n, key, _) => keyed key (docs (db' n))) TIMESTAMP_HEAL_SPECS) as Hk'.
  { pose proof (Hfits db Hk) as Hfit. rewrite Forall_forall in *. intros [[n key] fs] Hin. specialize (Hf _ Hin). specialize (Hfit _ Hin). cbn in *.
    destruct Hfit as [Hkey Hkd]. rewrite Hf. destruct knows_type; [|done]. apply keyed_map; [|done]. intros d. by apply healed_all_other. }
  destruct (specs_run docs knows_type laws TIMESTAMP_HEAL_SPECS db' Hnd (Hfits db' Hk')) as (db'' & Hr2 & Hf2 & _).
  exists db'. split_and! ; [exact Hr|exact Hf|exact Ho| | | |].
  - intros fs d f Hin. rewrite healed_all_is_date. apply mem_str_In in Hin. by rewrite Hin.
  - intros fs d f ms Hin Hd Hiso. eexists. split; [by eapply healed_all_text|]. cbn [coerce_datetime]. rewrite Hiso. cbn. f_equal. lia.
  - intros fs d f Hin. by apply healed_all_other.
  - exists db''. split; [exact Hr2|]. rewrite Forall_forall in *. intros [[n key] fs] Hin. specialize (Hf _ Hin). specialize (Hf2 _ Hin). cbn in *.
    rewrite Hf2. destruct knows_type; [|done]. rewrite Hf, map_map. apply map_ext. intros d. apply healed_all_idem.
Qed.

(** ** A driver that behaves so *)
#[export] Instance toy_bson : BsonDriver := {|
  BColl := list bdoc;
  find_dates f c := Some (List.filter (fun d => is_date (bget f d)) c);
  set_one key v f iso c := Some (update_first (key_matches key v) (bset f (BJson (JStr iso))) c)
|}.
Lemma toy_bson_laws : @bson_laws toy_bson id true.
Proof. constructor; [done|]. intros. eexists. by split. Qed.
Definition toy_legacy : @BDb toy_bson := fun n =>
  if String.eqb n "tokens" then
    [[("access_token", BJson (JStr "a")); ("created_at", BDate 1000); ("expires_at", BDate 2500)];
     [("access_token", BJson (JStr "b")); ("created_at", BJson (JStr "1970-01-01T00:00:09Z")); ("expires_at", BDate 86400000)]]
  else [].
Lemma toy_nodup (l : list (option bson)) : bool_decide (NoDup l) = true -> NoDup l.
Proof. apply bool_decide_eq_true_1. Qed.
Lemma healer_sound_witness : exists db', normalize_legacy_timestamps toy_legacy = (Ok tt, db')
  /\ db' "tokens" = [[("access_token", BJson (JStr "a")); ("created_at", BJson (JStr "1970-01-01T00:00:01+00:00"));
                      ("expires_at", BJson (JStr "1970-01-01T00:00:02.500000+00:00"))];
                     [("access_token", BJson (JStr "b")); ("created_at", BJson (JStr "1970-01-01T00:00:09Z"));
                      ("expires_at", BJson (JStr "1970-01-02T00:00:00+00:00"))]].
Proof.
  assert (Forall (fun '(n, key, _) => keyed key (id (toy_legacy n))) TIMESTAMP_HEAL_SPECS) as Hk.
  { repeat (constructor; [split; [apply toy_nodup; vm_compute; reflexivity|vm_compute; repeat (constructor; [discriminate|]); constructor]|]). constructor. }
  destruct (@healer_sound toy_bson id true (fun _ => None) toy_legacy toy_bson_laws Hk) as (db' & Hr & Hf & _).
  exists db'. split; [exact Hr|]. unfold TIMESTAMP_HEAL_SPECS in Hf. rewrite !Forall_cons in Hf. destruct Hf as (_ & _ & Ht & _).
  etransitivity; [exact Ht|]. vm_compute. reflexivity.
Defined.
