(* ===== verification/Backend.v ===== *)
(** * The storage protocol ([storage/base.py])

    [Storage] has one member per method of the protocol, the writing ones
    gathered in [run] over [StoreSpec.op]; [init] is [Migrations.run_migrations]
    and [Mongo.ensure_indexes], [healthcheck] an argument of [Startup.ready].  [StorageLaws] is what
    the rest of the server may rely on whichever back end it was given: a run
    has the effect of the operation on what grants depend on, and lookups read
    the represented rows.  Both back ends are instances; the one-time use of
    codes and the finality of revocation are proved once, against the class. *)
From Stdlib Require Import Sorting.Permutation.
From S2P Require Import Prelude PyStr PyJson Models IsoTime Storage StoreSpec Paging MongoDoc Mongo MongoProps MongoOps MongoRun MongoToy.
#[local] Open Scope Z_scope.

(** ** The protocol *)
Notation reader S A := (Z -> S -> result exn A).
Class Storage (S : Type) := {
  run : Z -> op -> S -> result exn nat * S;
  get_client_ : string -> reader S (option Client);
  get_user_by_username_ : string -> reader S (option User);
  get_user_by_id_ : string -> reader S (option User);
  get_users_by_email_ : string -> reader S (list User);
  get_token_by_access_token_ : string -> reader S (option Token);
  get_token_by_refresh_token_ : string -> reader S (option Token);
  get_token_by_id_ : string -> reader S (option Token);
  get_authorization_code_ : string -> reader S (option AuthorizationCode);
  get_authorization_code_by_token_family_ : string -> reader S (option AuthorizationCode);
  get_device_authorization_by_device_code_ : string -> reader S (option DeviceAuthorization);
  get_device_authorization_by_user_code_ : string -> reader S (option DeviceAuthorization);
  get_trusted_issuer_ : string -> reader S (option TrustedIssuer);
  find_denylist_entry_ : string -> string -> reader S (option DenylistEntry);
  list_all_clients_ : reader S (list Client);
  list_all_users_ : reader S (list User);
  list_all_tokens_ : reader S (list Token);
  list_all_device_authorizations_ : reader S (list DeviceAuthorization);
  list_clients_page_ : ListQuery -> reader S (list Client * Z);
  list_users_page_ : ListQuery -> reader S (list User * Z);
  list_tokens_page_ : ListQuery -> reader S (list Token * Z);
  list_device_authorizations_page_ : ListQuery -> reader S (list DeviceAuthorization * Z);
  list_denylist_ : ListQuery -> reader S (list DenylistEntry * Z);
  list_audit_log_ : ListQuery -> reader S (list AuditLogEntry * Z)
}.

(** ** What a run may rely on *)
(** The columns that decide what a row grants; the back ends differ in the
    stamps and in [require_state]. *)
Definition client_facts (c : Client) :=
  (c_client_id c, c_client_secret c, c_enabled c, c_token_endpoint_auth_method c, c_redirect_uris c, c_grant_types c, c_scope c).
Definition user_facts (u : User) := (u_id u, u_username u, u_password_hash u, u_email u, u_enabled u, u_role u).
Definition token_facts (t : Token) :=
  (t_id t, t_access_token t, t_refresh_token t, t_client_id t, t_scope t, t_revoked t, t_token_family t, t_expires_at t).
Record same_facts (a b : Store) : Prop := {
  sf_clients : map client_facts (clients a) = map client_facts (clients b);
  sf_users : map user_facts (users a) = map user_facts (users b);
  sf_tokens : map token_facts (tokens a) = map token_facts (tokens b);
  sf_codes : authorization_codes a = authorization_codes b;
  sf_devices : device_authorizations a = device_authorizations b;
  sf_issuers : trusted_issuers a = trusted_issuers b;
  sf_denylist : denylist a = denylist b
}.
#[export] Instance same_facts_equiv : Equivalence same_facts.
Proof.
  constructor.
  - by intros x.
  - intros x y []. by constructor.
  - intros x y z [] []. constructor; etrans; eauto.
Qed.
(** The row counts that decide who won a claim. *)
Definition claim_count (o : op) (st : Store) : option nat :=
  match o with
  | MarkCodeUsed c => Some (snd (mark_authorization_code_used c st))
  | MarkDeviceUsed d => Some (snd (mark_device_authorization_used d st))
  | _ => None
  end.
(** The SQL back end revokes the tokens of a deleted user, MongoDB leaves them. *)
Definition tokens_kept (o : op) (st st1 st' : Store) : Prop :=
  (exists u, o = DeleteUser u) /\ same_facts st' (on_tokens (fun _ => tokens st) st1).
Definition effect (o : op) (r : result exn nat) (st st' : Store) : Prop :=
  match r with
  | Err _ => st' = st
  | Ok n => (exists st1, apply_op o st = Ok st1 /\ (same_facts st' st1 \/ tokens_kept o st st1 st'))
            /\ (forall k, claim_count o st = Some k -> n = k)
  end.
Class StorageLaws (S : Type) `{Storage S} := {
  represents : S -> Store -> Prop;
  (** which operations the back end is specified for *)
  allowed : Z -> op -> Store -> Prop;
  (** its own specification over the tables *)
  step : Z -> op -> Store -> result exn nat * Store;
  represented_ok : forall s st, represents s st -> store_ok st;
  run_step : forall s st now o, represents s st -> allowed now o st ->
    fst (run now o s) = fst (step now o st) /\ represents (snd (run now o s)) (snd (step now o st));
  step_effect : forall now o st, store_ok st -> allowed now o st -> effect o (fst (step now o st)) st (snd (step now o st));
  reads_client : forall s st now v, represents s st -> get_client_ v now s = Ok (get_client v st);
  reads_username : forall s st now v, represents s st -> get_user_by_username_ v now s = Ok (get_user_by_username v st);
  reads_user : forall s st now v, represents s st -> get_user_by_id_ v now s = Ok (get_user_by_id v st);
  reads_token : forall s st now v, represents s st -> get_token_by_access_token_ v now s = Ok (get_token_by_access_token v st);
  reads_refresh : forall s st now v, represents s st ->
    some_row (fun r => oeqb (t_refresh_token r) v) (tokens st) (get_token_by_refresh_token_ v now s);
  reads_code : forall s st now v, represents s st -> get_authorization_code_ v now s = Ok (get_authorization_code v st);
  reads_device : forall s st now v, represents s st ->
    get_device_authorization_by_device_code_ v now s = Ok (get_device_authorization_by_device_code v st);
  reads_user_code : forall s st now v, represents s st ->
    get_device_authorization_by_user_code_ v now s = Ok (get_device_authorization_by_user_code v st);
  reads_issuer : forall s st now v, represents s st -> get_trusted_issuer_ v now s = Ok (get_trusted_issuer v st);
  reads_denied : forall s st now k v, represents s st -> find_denylist_entry_ k v now s = Ok (find_denylist_entry now k v st);
  reads_clients_page : forall s st now q, represents s st ->
    in_some_order (clients st) (fun l => list_clients_page q (on_clients (fun _ => l) st)) (list_clients_page_ q now s);
  reads_users_page : forall s st now q, represents s st ->
    in_some_order (users st) (fun l => list_users_page q (on_users (fun _ => l) st)) (list_users_page_ q now s)
}.

(** ** The SQL back end *)
(** The number a writing method returns; [None] in the protocol is 0. *)
Definition row_count (o : op) (st : Store) : nat :=
  match o with
  | RevokeTokenFamily f => snd (revoke_token_family f st)
  | RevokeTokensByUserId u => snd (revoke_tokens_by_user_id u st)
  | RevokeTokensByClientId c => snd (revoke_tokens_by_client_id c st)
  | MarkCodeUsed c => snd (mark_authorization_code_used c st)
  | MarkDeviceUsed d => snd (mark_device_authorization_used d st)
  | _ => O
  end.
Definition sql_step (now : Z) (o : op) (st : Store) : result exn nat * Store :=
  match apply_op o st with Ok st' => (Ok (row_count o st), st') | Err e => (Err e, st) end.
#[export] Instance sql_storage : Storage Store := {|
  run := sql_step;
  get_client_ v _ st := Ok (get_client v st);
  get_user_by_username_ v _ st := Ok (get_user_by_username v st);
  get_user_by_id_ v _ st := Ok (get_user_by_id v st);
  get_users_by_email_ v _ st := Ok (get_users_by_email v st);
  get_token_by_access_token_ v _ st := Ok (get_token_by_access_token v st);
  get_token_by_refresh_token_ v _ st := Ok (get_token_by_refresh_token v st);
  get_token_by_id_ v _ st := Ok (get_token_by_id v st);
  get_authorization_code_ v _ st := Ok (get_authorization_code v st);
  get_authorization_code_by_token_family_ v _ st := Ok (get_authorization_code_by_token_family v st);
  get_device_authorization_by_device_code_ v _ st := Ok (get_device_authorization_by_device_code v st);
  get_device_authorization_by_user_code_ v _ st := Ok (get_device_authorization_by_user_code v st);
  get_trusted_issuer_ v _ st := Ok (get_trusted_issuer v st);
  find_denylist_entry_ k v now st := Ok (find_denylist_entry now k v st);
  list_all_clients_ _ st := Ok (list_all_clients st);
  list_all_users_ _ st := Ok (list_all_users st);
  list_all_tokens_ _ st := Ok (list_all_tokens st);
  list_all_device_authorizations_ _ st := Ok (list_all_device_authorizations st);
  list_clients_page_ q _ st := Ok (list_clients_page q st);
  list_users_page_ q _ st := Ok (list_users_page q st);
  list_tokens_page_ q now st := Ok (list_tokens_page now q st);
  list_device_authorizations_page_ q _ st := Ok (list_device_authorizations_page q st);
  list_denylist_ q _ st := Ok (list_denylist q st);
  list_audit_log_ q _ st := Ok (list_audit_log q st)
|}.
Lemma find_some_row {A} (p : A -> bool) rows : some_row p rows (Ok (List.find p rows)).
Proof. unfold some_row. destruct (List.find p rows) eqn:E; [by apply find_In|done]. Qed.
#[export] Program Instance sql_laws : StorageLaws Store := {|
  represents s st := s = st /\ store_ok st;
  allowed _ _ _ := True;
  step := sql_step
|}.
Next Obligation. by intros s st [_ ?]. Qed.
Next Obligation.
  intros s st now o [-> Hok] _. split; [done|]. cbn. split; [done|]. unfold sql_step.
  destruct (apply_op o st) eqn:E; [by eapply apply_op_ok|done].
Qed.
Next Obligation.
  intros now o st Hok _. unfold sql_step, effect. destruct (apply_op o st) as [st'|e] eqn:E; cbn; [|done].
  split; [exists st'; split; [done|by left]|]. by destruct o; intros k [= <-].
Qed.
Next Obligation. by intros s st now v [-> _]. Qed.
Next Obligation. by intros s st now v [-> _]. Qed.
Next Obligation. by intros s st now v [-> _]. Qed.
Next Obligation. by intros s st now v [-> _]. Qed.
Next Obligation. intros s st now v [-> _]. apply find_some_row. Qed.
Next Obligation. by intros s st now v [-> _]. Qed.
Next Obligation. by intros s st now v [-> _]. Qed.
Next Obligation. by intros s st now v [-> _]. Qed.
Next Obligation. by intros s st now v [-> _]. Qed.
Next Obligation. by intros s st now k v [-> _]. Qed.
Next Obligation. intros s st now q [-> _]. by exists (clients st). Qed.
Next Obligation. intros s st now q [-> _]. by exists (users st). Qed.

(** ** The MongoDB back end *)
Section mongo.
Context `{MongoDriver} (docs : Coll -> list pydict) (unique : Coll -> list (list string)) (regex_i : string -> string -> bool)
  (fromisoformat : string -> option (Z * option Z)).
Definition mongo_storage : Storage Db := {|
  run := mongo_run;
  get_client_ v now := m_get_client fromisoformat now v;
  get_user_by_username_ v now := m_get_user_by_username fromisoformat now v;
  get_user_by_id_ v now := m_get_user_by_id fromisoformat now v;
  get_users_by_email_ v now := m_get_users_by_email fromisoformat now v;
  get_token_by_access_token_ v now := m_get_token_by_access_token fromisoformat now v;
  get_token_by_refresh_token_ v now := m_get_token_by_refresh_token fromisoformat now v;
  get_token_by_id_ v now := m_get_token_by_id fromisoformat now v;
  get_authorization_code_ v now := m_get_authorization_code fromisoformat now v;
  get_authorization_code_by_token_family_ v now := m_get_authorization_code_by_token_family fromisoformat now v;
  get_device_authorization_by_device_code_ v now := m_get_device_authorization_by_device_code fromisoformat now v;
  get_device_authorization_by_user_code_ v now := m_get_device_authorization_by_user_code fromisoformat now v;
  get_trusted_issuer_ v now := m_get_trusted_issuer fromisoformat now v;
  find_denylist_entry_ k v now := m_find_denylist_entry fromisoformat now k v;
  list_all_clients_ now := m_list_all_clients fromisoformat now;
  list_all_users_ now := m_list_all_users fromisoformat now;
  list_all_tokens_ now := m_list_all_tokens fromisoformat now;
  list_all_device_authorizations_ now := m_list_all_device_authorizations fromisoformat now;
  list_clients_page_ q now := m_list_clients_page fromisoformat now q;
  list_users_page_ q now := m_list_users_page fromisoformat now q;
  list_tokens_page_ q now := m_list_tokens_page fromisoformat now q;
  list_device_authorizations_page_ q now := m_list_device_authorizations_page fromisoformat now q;
  list_denylist_ q now := m_list_denylist fromisoformat now q;
  list_audit_log_ q now := m_list_audit_log fromisoformat now q
|}.

(** Rows rewritten by different functions with the same facts. *)
Lemma facts_update {A B} (g : A -> B) p f f' l : (forall x, p x = true -> g (f x) = g (f' x)) ->
  map g (update_where p f l) = map g (update_where p f' l).
Proof.
  intros Hf. unfold update_where. rewrite !map_map. apply map_ext. intros x. destruct (p x) eqn:E; [by apply Hf|done].
Qed.
Lemma mongo_effect now o st : effect o (fst (spec_step now o st)) st (snd (spec_step now o st)).
Proof.
  unfold effect, spec_step. destruct (mongo_spec now o st) as [[st' n]|e] eqn:E; cbn [fst snd]; [|done].
  split; [|by destruct o; intros k Hk; try discriminate Hk; cbn in *; injection Hk as <-; injection E as _ <-].
  destruct o; cbn [mongo_spec] in E;
    first [apply or_raise_inv in E; eexists; split; [exact E|left; reflexivity] | cbn in E; injection E as <- _; eexists; split; [done|]].
  all: try (left; constructor; try done; by apply map_update_where).
  - left. constructor; try done. apply facts_update. intros r Hr%String.eqb_eq. unfold client_facts. cbn. by rewrite Hr.
  - right. split; [by eexists|]. by constructor.
Qed.
Hypothesis laws : mongo_laws docs unique regex_i.
#[local] Existing Instance mongo_storage.
Definition mongo_represents (db : Db) (st : Store) : Prop := mongo_ok docs unique fromisoformat db st /\ store_ok st.
Program Definition mongo_backend : StorageLaws Db := {|
  represents := mongo_represents;
  allowed := admissible fromisoformat;
  step := spec_step
|}.
Next Obligation. by intros s st [_ ?]. Qed.
Next Obligation.
  intros s st now o [Hm Hok] Ha. destruct (step_ok docs unique regex_i fromisoformat laws now o s st Hm Hok Ha) as (Hr & Hm' & Hok').
  split; [exact Hr|split; [exact Hm'|exact Hok']].
Qed.
Next Obligation. intros. apply mongo_effect. Qed.
Next Obligation. intros s st now v [Hm Hok]. by apply r_client, (reads_ok docs unique regex_i). Qed.
Next Obligation. intros s st now v [Hm Hok]. by apply r_username, (reads_ok docs unique regex_i). Qed.
Next Obligation. intros s st now v [Hm Hok]. by apply r_user, (reads_ok docs unique regex_i). Qed.
Next Obligation. intros s st now v [Hm Hok]. by apply r_access, (reads_ok docs unique regex_i). Qed.
Next Obligation. intros s st now v [Hm Hok]. by apply r_refresh, (reads_ok docs unique regex_i). Qed.
Next Obligation. intros s st now v [Hm Hok]. by apply r_code, (reads_ok docs unique regex_i). Qed.
Next Obligation. intros s st now v [Hm Hok]. by apply r_device, (reads_ok docs unique regex_i). Qed.
Next Obligation. intros s st now v [Hm Hok]. by apply r_user_code, (reads_ok docs unique regex_i). Qed.
Next Obligation. intros s st now v [Hm Hok]. by apply r_issuer, (reads_ok docs unique regex_i). Qed.
Next Obligation. intros s st now k v [Hm Hok]. by apply r_denied, (reads_ok docs unique regex_i). Qed.
Next Obligation. intros s st now q [Hm Hok]. by apply p_clients, (pages_ok docs unique regex_i). Qed.
Next Obligation. intros s st now q [Hm Hok]. by apply p_users, (pages_ok docs unique regex_i). Qed.
End mongo.

(** ** Over any back end *)
Section any.
Context {S : Type} `{StorageLaws S}.

Fixpoint run_history (os : list (Z * op)) (s : S) : list (result exn nat) * S :=
  match os with
  | [] => ([], s)
  | (now, o) :: os => let '(r, s) := run now o s in let '(rs, s) := run_history os s in (r :: rs, s)
  end.
Fixpoint allowed_all (os : list (Z * op)) (st : Store) : Prop :=
  match os with [] => True | (now, o) :: os => allowed now o st /\ allowed_all os (snd (step now o st)) end.
(** The claims that a predicate selects and that reported a row. *)
Definition won (p : op -> bool) (o : op) (r : result exn nat) : nat :=
  match r with Ok (Datatypes.S _) => if p o then 1 else 0 | _ => 0 end.
Fixpoint wins (p : op -> bool) (os : list (Z * op)) (rs : list (result exn nat)) : nat :=
  match os, rs with (_, o) :: os, r :: rs => (won p o r + wins p os rs)%nat | _, _ => O end.
Definition claims_code (code : string) (o : op) : bool := match o with MarkCodeUsed c => String.eqb c code | _ => false end.
Definition claims_device (code : string) (o : op) : bool := match o with MarkDeviceUsed c => String.eqb c code | _ => false end.
Definition revoked_in (v : string) (st : Store) : Prop := exists t, In t (tokens st) /\ t_access_token t = v /\ t_revoked t = true.

(** One step at the level of the tables. *)
Lemma effect_codes o r st st' : effect o r st st' -> match r with
  | Ok _ => exists st1, apply_op o st = Ok st1 /\ authorization_codes st' = authorization_codes st1
                        /\ device_authorizations st' = device_authorizations st1
  | Err _ => st' = st
  end.
Proof. destruct r; [|done]. intros [(st1 & Ha & [Hf|[_ Hf]]) _]; exists st1; by destruct Hf. Qed.
Lemma spent_by_codes code a b : authorization_codes a = authorization_codes b -> code_spent code b -> code_spent code a.
Proof. unfold code_spent, get_authorization_code. by intros ->. Qed.
Lemma spent_by_devices code a b : device_authorizations a = device_authorizations b -> device_spent code b -> device_spent code a.
Proof. unfold device_spent, get_device_authorization_by_device_code. by intros ->. Qed.
Lemma effect_code_spent o r st st' code : effect o r st st' -> code_spent code st -> code_spent code st'.
Proof.
  intros He%effect_codes Hs. destruct r; [|by subst]. destruct He as (st1 & Ha & Hc & _).
  eapply spent_by_codes; [exact Hc|]. by eapply apply_op_code_spent.
Qed.
Lemma effect_device_spent o r st st' code : effect o r st st' -> device_spent code st -> device_spent code st'.
Proof.
  intros He%effect_codes Hs. destruct r; [|by subst]. destruct He as (st1 & Ha & _ & Hd).
  eapply spent_by_devices; [exact Hd|]. by eapply apply_op_device_spent.
Qed.
Lemma effect_claim o n st st' code : store_ok st -> effect o (Ok (Datatypes.S n)) st st' -> claims_code code o = true ->
  ~ code_spent code st /\ code_spent code st'.
Proof.
  intros Hok He Hc. destruct o; try done. apply String.eqb_eq in Hc as ->. pose proof (effect_codes _ _ _ _ He) as (st1 & Ha & Hcs & _).
  destruct He as [_ Hn]. specialize (Hn _ eq_refl). destruct (mark_authorization_code_used code st) as [st2 k] eqn:Hm. cbn in Hn. subst k.
  cbn [apply_op] in Ha. rewrite Hm in Ha. injection Ha as <-. split.
  - intros Hs. by pose proof (code_claim_spent _ _ _ _ Hok Hm Hs).
  - eapply spent_by_codes; [exact Hcs|]. by eapply code_claim_spends.
Qed.
Lemma effect_device_claim o n st st' code : store_ok st -> effect o (Ok (Datatypes.S n)) st st' -> claims_device code o = true ->
  ~ device_spent code st /\ device_spent code st'.
Proof.
  intros Hok He Hc. destruct o; try done. apply String.eqb_eq in Hc as ->. pose proof (effect_codes _ _ _ _ He) as (st1 & Ha & _ & Hds).
  destruct He as [_ Hn]. specialize (Hn _ eq_refl). destruct (mark_device_authorization_used code st) as [st2 k] eqn:Hm. cbn in Hn. subst k.
  cbn [apply_op] in Ha. rewrite Hm in Ha. injection Ha as <-. split.
  - intros Hs. by pose proof (device_claim_spent _ _ _ _ Hok Hm Hs).
  - eapply spent_by_devices; [exact Hds|]. by eapply device_claim_spends.
Qed.

Lemma same_facts_tokens a b v : map token_facts (tokens a) = map token_facts (tokens b) -> revoked_in v b -> revoked_in v a.
Proof.
  intros Hf (t & Ht & Hv & Hr). apply (in_map token_facts) in Ht. rewrite <- Hf in Ht.
  apply in_map_iff in Ht as (t' & Hf' & Ht'). exists t'. unfold token_facts in Hf'. split; [done|]. split; congruence.
Qed.
Lemma revoked_update v st p f : (forall t, t_access_token (f t) = t_access_token t) -> (forall t, t_revoked t = true -> t_revoked (f t) = true) ->
  revoked_in v st -> revoked_in v (on_tokens (update_where p f) st).
Proof.
  intros Hk Hr (t & Ht & Hv & Hrev). exists (if p t then f t else t). split; [|destruct (p t); split; rewrite ?Hk; auto].
  cbn. unfold update_where. apply in_map_iff. by exists t.
Qed.
Lemma apply_op_revoked v o st st' : apply_op o st = Ok st' -> revoked_in v st -> revoked_in v st'.
Proof.
  intros Ha Hr. destruct o; cbn [apply_op] in Ha; unfold_ops; repeat run_step Ha; try done; try (by apply revoked_update).
  all: destruct Hr as (t' & Ht & Hv & Hrev); exists t'; split; [|done]; cbn; apply in_app_iff; by left.
Qed.
Lemma effect_revoked o r st st' v : effect o r st st' -> revoked_in v st -> revoked_in v st'.
Proof.
  intros He Hr. destruct r as [n|e]; [|by rewrite He]. destruct He as [(st1 & Ha & [Hf|[_ Hf]]) _].
  - eapply same_facts_tokens; [apply Hf|]. by eapply apply_op_revoked.
  - eapply same_facts_tokens; [apply Hf|done].
Qed.

(** Histories: a kind of claim that spends what it claims succeeds once. *)
Lemma history_represents os s st : represents s st -> allowed_all os st ->
  exists st', represents (snd (run_history os s)) st'
    /\ (forall P : Store -> Prop, (forall now o a, store_ok a -> allowed now o a -> P a -> P (snd (step now o a))) -> P st -> P st')
    /\ (forall (p : op -> bool) (spent : Store -> Prop),
          (forall now o a, store_ok a -> allowed now o a -> spent a -> spent (snd (step now o a))) ->
          (forall now o a n, store_ok a -> allowed now o a -> fst (step now o a) = Ok (Datatypes.S n) -> p o = true ->
             ~ spent a /\ spent (snd (step now o a))) ->
          let w := wins p os (fst (run_history os s)) in (w <= 1)%nat /\ (spent st -> w = O) /\ (w = 1%nat -> spent st')).
Proof.
  revert s st. induction os as [|[now o] os IH]; intros s st Hs Ha.
  { exists st. split; [done|]. split; [auto|]. intros p spent _ _. cbn. split; [lia|]. split; [done|lia]. }
  destruct Ha as [Ho Ha]. destruct (run_step s st now o Hs Ho) as [Hr Hs']. cbn [run_history].
  pose proof (represented_ok s st Hs) as Hok.
  destruct (run now o s) as [r s1] eqn:Er. cbn [fst snd] in Hr, Hs'.
  destruct (IH s1 _ Hs' Ha) as (st' & Hst & Hinv & Hwin). destruct (run_history os s1) as [rs s2]. cbn [fst snd] in *.
  exists st'. split; [done|]. split; [intros P HP Hp; by apply Hinv; [|apply HP]|].
  intros p spent Hkeep Hspend. cbn [wins]. destruct (Hwin p spent Hkeep Hspend) as (Hle & Hno & Hfin).
  unfold won. destruct r as [[|n]|e]; cbn [Nat.add].
  1, 3: split; [done|split; [intros Hsp; apply Hno; by apply Hkeep|done]].
  destruct (p o) eqn:Hp; cbn [Nat.add]; [|split; [done|split; [intros Hsp; apply Hno; by apply Hkeep|done]]].
  destruct (Hspend now o st n Hok Ho (eq_sym Hr) Hp) as [Hns Hsp]. rewrite (Hno Hsp).
  split; [done|]. split; [done|]. intros _. by apply Hinv.
Qed.

(** C14: over any back end that keeps the storage contract, in any sequence of
    writing operations every authorization code and every device code is
    claimed at most once, a code that was claimed reads as used ever after,
    and an access token that once read as revoked never reads as valid
    again. *)
Theorem claims_final (os : list (Z * op)) (s : S) (st : Store) :
  represents s st -> allowed_all os st ->
  (forall code, let w := wins (claims_code code) os (fst (run_history os s)) in
     (w <= 1)%nat /\ (w = 1%nat -> forall now, exists r,
       get_authorization_code_ code now (snd (run_history os s)) = Ok (Some r) /\ ac_used r = true))
  /\ (forall code, let w := wins (claims_device code) os (fst (run_history os s)) in
     (w <= 1)%nat /\ (w = 1%nat -> forall now, exists r,
       get_device_authorization_by_device_code_ code now (snd (run_history os s)) = Ok (Some r) /\ d_used r = true))
  /\ (forall v now t now', get_token_by_access_token_ v now s = Ok (Some t) -> t_revoked t = true ->
       exists t', get_token_by_access_token_ v now' (snd (run_history os s)) = Ok (Some t') /\ t_revoked t' = true).
Proof.
  intros Hs Ha. destruct (history_represents os s st Hs Ha) as (st' & Hs' & Hinv & Hwin).
  pose proof (step_effect (S:=S)) as He. split_and! .
  - intros code. destruct (Hwin (claims_code code) (code_spent code)) as (Hle & _ & Hfin).
    { intros now o a Hok Hal. by eapply effect_code_spent, He. }
    { intros now o a n Hok Hal Hr Hp. eapply effect_claim; [done| |exact Hp]. rewrite <- Hr. by apply He. }
    split; [done|]. intros Hw now. destruct (Hfin Hw) as (r & Hr & Hu). exists r. split; [|done].
    rewrite (reads_code _ st' now code Hs'). by rewrite Hr.
  - intros code. destruct (Hwin (claims_device code) (device_spent code)) as (Hle & _ & Hfin).
    { intros now o a Hok Hal. by eapply effect_device_spent, He. }
    { intros now o a n Hok Hal Hr Hp. eapply effect_device_claim; [done| |exact Hp]. rewrite <- Hr. by apply He. }
    split; [done|]. intros Hw now. destruct (Hfin Hw) as (r & Hr & Hu). exists r. split; [|done].
    rewrite (reads_device _ st' now code Hs'). by rewrite Hr.
  - intros v now t now' Ht Hr. rewrite (reads_token _ st now v Hs) in Ht. injection Ht as Ht.
    assert (revoked_in v st') as (t' & Hin & Hv & Hr').
    { apply Hinv; [intros now1 o a Hok Hal; by eapply effect_revoked, He|].
      apply find_In in Ht as [Hin Hv%String.eqb_eq]. by exists t. }
    exists t'. split; [|done]. rewrite (reads_token _ st' now' v Hs'). f_equal. unfold get_token_by_access_token.
    pose proof (represented_ok _ _ Hs') as Hok. destruct (List.find _ (tokens st')) as [x|] eqn:E.
    + apply find_In in E as [Hx Hxv%String.eqb_eq]. f_equal. apply (same_key t_access_token (tokens st')); [apply (ok_tokens _ Hok)|done|done|congruence].
    + pose proof (List.find_none _ _ E t' Hin) as Hno. cbv beta in Hno. by rewrite Hv, String.eqb_refl in Hno.
Qed.
End any.

(** ** Both back ends *)
Definition sample_history : list (Z * op) :=
  [(0, MarkCodeUsed "code"); (0, RevokeTokenFamily "fam"); (0, MarkCodeUsed "code"); (0, SaveCode (sample_code false)); (0, DeleteUser "u1")].
Example sample_results : fst (run_history sample_history sample_store)
  = [Ok 1%nat; Ok 1%nat; Ok 0%nat; Err (PyErr IntegrityError "authorization_codes"); Ok 0%nat].
Proof. by vm_compute. Qed.
Definition toy_backend : StorageLaws Db (H:=mongo_storage toy_fromisoformat) :=
  mongo_backend tc_docs tc_unique toy_regex toy_fromisoformat toy_mongo.
Lemma toy_admissible : admissible_all toy_fromisoformat toy_history empty_store.
Proof.
  unfold toy_history. cbn [admissible_all admissible]. unfold fresh_id, iso_readable.
  split_and! ; first [exact I|apply rows_readable; vm_compute; reflexivity|vm_compute; reflexivity].
Qed.
Lemma toy_allowed : @allowed_all Db _ toy_backend toy_history empty_store.
Proof. exact toy_admissible. Qed.
Lemma toy_backend_started : exists db0, ensure_indexes blank_db = (Ok tt, db0) /\ @represents Db _ toy_backend db0 empty_store.
Proof.
  destruct (@started toy_driver tc_docs tc_unique toy_regex toy_fromisoformat toy_mongo blank_db) as (db0 & He & Hm).
  { by intros []; split. }
  exists db0. split; [exact He|]. split; [exact Hm|exact empty_ok].
Qed.
Lemma claims_final_witness :
  (wins (claims_code "code") sample_history (fst (run_history sample_history sample_store)) = 1%nat
   /\ exists r, get_authorization_code_ "code" 0 (snd (run_history sample_history sample_store)) = Ok (Some r) /\ ac_used r = true)
  /\ exists db0, ensure_indexes blank_db = (Ok tt, db0)
     /\ (wins (claims_code "code") toy_history (fst (@run_history Db (mongo_storage toy_fromisoformat) toy_history db0)) <= 1)%nat.
Proof.
  split.
  - split; [vm_compute; reflexivity|].
    destruct (@claims_final Store sql_storage sql_laws sample_history sample_store sample_store (conj eq_refl sample_store_ok)) as [Hc _].
    { repeat (split; [exact I|]). exact I. }
    destruct (proj2 (Hc "code") ltac:(vm_compute; reflexivity) 0) as (r & Hr & Hu).
    exists r. split; [exact Hr|exact Hu].
  - destruct toy_backend_started as (db0 & He & Hm). exists db0. split; [exact He|].
    destruct (@claims_final Db _ toy_backend toy_history db0 empty_store Hm toy_allowed) as [Hc _]. exact (proj1 (Hc "code")).
Defined.
